(* ===== verification/_CoqProject ===== *)
-Q . S2P
Prelude.v
Bitfield.v
Registers.v
Mmio.v
Mmio32.v
Loops.v
Poll.v
UserMem.v
Sysfs.v
FeatureDev.v
Views.v
FeatureInit.v
PcieReset.v
Msix.v
AfuTypes.v
Region.v
DmaRegion.v
PortEnv.v
PortHdr.v
PortUmsg.v
AfuError.v
Afu.v
AfuSpec.v
AfuRelease.v
PcieTypes.v
PciePort.v
PcieParse.v
PcieExample.v
PcieSpec.v
PciePlaced.v
PcieWalk.v
FpgaMgr.v
FmeTypes.v
FmeAttrs.v
FmeError.v
FmePerf.v
FmePr.v
Fme.v
PortSpec.v
FmeExample.v
FmePrSpec.v
FmePrSafe.v
FmePerfSpec.v
Layout.v
Bmc.v
BmcMailbox.v
BmcSpec.v
BmcSdr.v
Iopll.v
IopllSpec.v
SpiNorIds.v
SpiNor.v
SpiNorScan.v
Asmip2.v
Asmip2Spec.v
SpiNorSpec.v
SpiNorScanSpec.v
SpiNorAsmi.v
SpiNorLock.v
Hssi.v
HssiAttrs.v
HssiMailbox.v
HssiI2c.v
HssiSpec.v
HssiReturns.v
Hwicap.v
HwicapSpec.v
HwicapParse.v
HwicapPci.v
Xspi.v
XspiMcs.v
XspiCore.v
XspiFlash.v
XspiMem.v
McsFormat.v
McsPass.v
McsWrite.v
XspiSpec.v
HwicapApp.v
DpiPcie.v
