(* ===== verification/Prelude.v ===== *)
(** * The Intel FPGA (OPAE) driver of opae-xilinx: a verified model

    The repository ports the OPAE driver stack to Xilinx parts.  The program
    modelled here is the Linux driver under
    src/sw/OPAE/driver/opae-intel-fpga-driver-1.3.0-2: an FPGA shows up as one
    FPGA management engine (FME) and up to four ports, each a platform device
    whose register blocks ("features") a PCIe driver finds by walking a chain
    of headers in MMIO space.  User programs reach a port through a character
    device: open, release, ioctl and mmap of its register windows, DMA buffers
    mapped for the accelerator, user messages and eventfd interrupts.  Around it
    the repository has the flash driver spi-nor.c, the author's own ICAP driver
    and user programs (FME_xilinx_driver), and the bridge by which the card's
    design is simulated under QEMU; they are modelled too.

    ** How code is modelled

    A C function is a function of the error-and-state monad [K S A], which is
    [S -> option (A * S)]: [S] is the state the function can reach, [None] is
    a kernel oops (NULL dereference, use after free, double lock: behaviour C
    leaves undefined), and a C error code is a value of [A].  Integers are [Z]
    with C's reductions ([u64], [u32], [s32]) written where the code computes.
    A register union is a list of named bit widths ([Bitfield.reg]), a register
    block a list of named 8-byte members ([Bitfield.block]).  Reads and writes
    of MMIO go through the class [Mmio], so a read may change the device;
    theorems that need a plain memory-like register ask for [MmioMem], those
    about latches that a 1 clears for [MmioW1c]; both give [MmioReg].  Library
    code that is not in the repository (the kernel) is a parameter: [RbLib]
    (lib/rbtree), [Kstrto], [dma_env], [irq_env], [port_env].

    ** Files

    - Prelude.v: integers, errno values, pages, the monad, tactics.
    - Bitfield.v, Registers.v: register layouts (include/feature-dev.h), checked
      to tile their 64 bits; Mmio.v: register access and the polling macro
      fpga_wait_register_field.
    - UserMem.v: user memory, copy_from_user/copy_to_user and the ioctl
      structures of include/uapi/linux/intel-fpga-mod.h; Sysfs.v: printing and
      parsing of attribute text.
    - FeatureDev.v (feature-dev.h, feature-dev.c): [feature_platform_data], the
      open protocol, the feature table, port enable/disable/reset.
      FeatureInit.v: binding drivers to features with rollback.  Its interface
      is the class [FeatureOps]; Afu.v discharges it for the port.
      Msix.v: fpga_set_vector_signal and fpga_msix_set_block.
      PcieReset.v: the port reset of the reduced copy of the driver
      (opae-intel-fpga-driver-1.3.0-2_pcie), which waits for the
      acknowledgement; the rest of that copy is the same code.
    - AfuTypes.v (afu.h), Region.v (region.c), DmaRegion.v (dma-region.c): the
      MMIO windows and the pinned DMA buffers of a port.
    - PortEnv.v, PortHdr.v, PortUmsg.v (afu.c, afu-check.c), AfuError.v
      (afu-error.c), Afu.v (afu.c: open, release, ioctl, mmap, probe, remove).
    - AfuSpec.v, AfuRelease.v: the theorems about whole file operations.
    - Views.v: what every monadic function preserves ([keeps] a view, Hoare
      [triple]s), the shared frame lemmas and their tactic.
    - PcieTypes.v (id tables and state), PciePort.v (port release, assign and
      SR-IOV), PcieParse.v (the walk of the feature headers, probe, remove) model
      pcie.c and pcie_check.c.  The state is a table of feature devices over the
      state of Afu.v, so the code of a port runs inside it ([on_fdev]).
      PcieExample.v holds a concrete card; PcieSpec.v, PciePlaced.v and
      PcieWalk.v the theorems.  PortSpec.v states port assignment as an abstract
      machine and proves that the driver implements it.
    - FpgaMgr.v (fpga-mgr.c): image loading over an abstract low level driver.
    - FmeTypes.v, FmeAttrs.v (fme-main.c: attributes), FmeError.v (fme-error.c),
      FmePerf.v (fme-iperf.c, fme-dperf.c), FmePr.v (fme-pr.c), Fme.v
      (fme-main.c: file operations, ioctls, probe, remove); the ioctls run at
      the level of PciePort.v, where the ports are.  FmeExample.v holds concrete
      devices; FmePrSpec.v, FmePrSafe.v, FmePerfSpec.v the theorems.
    - Mmio32.v: byte and 32-bit register accesses.
    - Loops.v, Poll.v (include/linux/iopoll-mod.h): loops that end because a
      clock or counter runs out ([kwhile]), the class [Clock] and
      readx_poll_timeout.  Layout.v: packed structures as byte lists.
    - Bmc.v (avmmi-bmc.c): the mailbox of the board management controller.
      BmcMailbox.v is a BMC behind the registers, whose firmware and latencies
      are parameters; BmcSpec.v (one exchange) and BmcSdr.v (sensor records) hold
      the theorems.
    - Iopll.v (intel-fpga-pac-iopll.c), IopllSpec.v: the user clock, against a
      reconfiguration block that takes some time for every command.
    - Asmip2.v (altera-asmip2.c), Asmip2Spec.v: the flash controller, against a
      NOR flash behind its FIFOs.
    - SpiNorIds.v (the table of flashes), SpiNor.v (reading, writing, erasing,
      waiting, protection), SpiNorScan.v (spi_nor_scan): drivers/mtd/spi-nor/
      spi-nor.c, for any controller of the class [NorController].  SpiNorSpec.v
      proves the operations from the laws of the classes [NorFlash] and
      [NorFlashOk], SpiNorScanSpec.v is about the scan, SpiNorLock.v about the
      protection bits.  SpiNorAsmi.v is the instance for altera-asmip2.c.
    - Hssi.v, HssiAttrs.v (intel-fpga-pac-hssi.c): the commands of the processor
      that manages the transceivers, the I2C master the driver plays through it,
      and the sysfs files.  HssiMailbox.v is such a processor over any bus,
      HssiI2c.v an EEPROM on its I2C lines; HssiSpec.v and HssiReturns.v hold the
      theorems.
    - Hwicap.v, HwicapPci.v (FME_xilinx_driver/drv_pcie_hwicap/pcie.c): the ICAP
      downloader of the port's author.  HwicapSpec.v runs it against an HWICAP
      block with any FIFO and latency, HwicapParse.v gives the format of .bit
      headers, HwicapPci.v has those about probe and remove.
    - Xspi.v, XspiMcs.v (FME_xilinx_driver/app_pcie_qspi/xbflash/xspi.cpp): the
      user program that writes the configuration flash: transfers, commands,
      the two passes over an MCS file, and main.  XspiCore.v is the Quad SPI core with
      its FIFOs and two flashes behind it; XspiFlash.v says what each command
      does, XspiMem.v what is left of that when only the memory matters.
      McsFormat.v generates the text of an MCS file, McsPass.v and McsWrite.v
      follow the passes over it, XspiSpec.v has the theorems.
    - HwicapApp.v (FME_xilinx_driver/app_pcie_hwicap/hwicap): the
      user program that writes a partial bitstream to the HWICAP block through
      the mapped BAR.
    - DpiPcie.v (hw/.../QEMUPCIeBridge/hdl/dpi-pcie.c, acc.h): the
      functions that the simulator calls to exchange reads, writes and interrupts
      with QEMU.

    ** What the theorems show

    - A session leaves nothing behind: [afu_release_tears_down],
      [port_open_bookkeeping], [afu_dma_region_destroy_releases],
      [afu_probe_all_or_nothing].  Two things the code does leave are in the
      statements: the mapping of a region at I/O address 0, which destroy
      skips, and the pid entry of an opener whose descriptor another process
      closed ([stray_close_leaves_entry]).
    - Device and user memory stay consistent: [umsg_buffer_stays_mapped],
      [afu_dma_map_region_spec], [afu_dma_unmap_region_spec] and their round
      trip, over one accounting invariant [DmaRegion.dma_inv] (pins, DMA
      mappings and locked_vm are exactly what the tree's regions hold).  The
      pages of a short pin, which the code never puts, are the third outcome
      of the map request; the 48-bit base register of the messages is
      compared modulo 2^48.
    - A process sees only what was registered: [afu_mmap_confined],
      [afu_region_add_spec], [afu_regions_disjoint],
      [afu_get_region_by_offset_spec], and where the code's u64 arithmetic lets
      it out, [afu_get_region_by_offset_wraps] and [afu_mmap_escapes].
    - Protocols: exclusive open, nested port disable, error clearing, eventfd
      triggers, feature binding and its rollback.
    - Layouts (lemmas): [registers_tile_64_bits], [blocks_aligned].
    - Ports and functions: [port_assignment_refines] and [port_assignment_safe]
      (who may use which port, over all sequences of commands),
      [cci_pci_sriov_configure_spec].
    - The module: [load_unload] (loading fails without leaving anything behind, or
      unloading gives everything back).
    - Enumeration: [parse_feature_list_terminates] on any device and
      [registered_features_placed]: what is recorded lies in its BAR.
    - Reconfiguration: [fme_pr_write_delivers], against any PR engine that obeys
      the class [PrEngine], [fme_pr_write_returns], [fme_pr_releases];
      [fpga_mgr_loaders_agree].
    - Counters: [fab_enable_store_exclusive], [fme_iperf_leaves_nothing].
    - Board devices: [avmmi_send_one_exchanges] and [avmmi_get_sdr_reads] (what
      the BMC sends arrives whole), [avmmi_send_one_returns] (against anything
      behind the registers), [frequency_store_programs] (the PLL decodes to the
      configuration written), [flash_write_read_back],
      [found_flash_updates] (the flash that the scan finds is erased, written and
      read through the MTD operations), [stm_lock_extends] (a lock never takes
      protection away),
      [board_files_show_eeprom], [hssi_files_return].
    - ICAP downloader, against blocks that take their words within 19 delays:
      [download_delivers] (as many bytes as asked for, from the end of the
      header on, reach the configuration port), [download_isolated] (never with
      the region connected; [slow_icap_not_isolated] is a slower block),
      [parse_header_accepts] (the parser accepts the format and nothing else).
    - Flash programmer: [upgrade_programs_file], [xbflash_programs] (for files
      whose segments start on 4 KB subsectors, ascend and fit, the segments are
      in the flashes, behind the guard, and nothing else changed); [finalTransfer_run] (a transfer is the exchange of one
      command, whatever the FIFO depth and the delays).
    - ICAP utility: [main_programs] (the configuration port receives the words of
      the file while the AFU is isolated; what happens with a smaller FIFO or a
      slower port is shown beside it).
    - Reset of the reduced driver: [reset_acknowledged] (success exactly when the
      port acknowledges; after a timeout every later reset claims success).
    - Simulation: [bridge_loopback] (aligned writes of QEMU cross the bridge and
      come back unchanged).

    ** Bounds and fuel

    The polling macro runs at most [Mmio.wait_rounds] reads; each round adds
    the interval to the elapsed time, so that number is past the timeout
    ([wait_rounds_enough]).  [DmaRegion.destroy_loop] runs once per node of the
    tree; [afu_dma_region_destroy_releases] shows that the fuel, the number of
    nodes, empties it.  The walk of the
    feature headers has one round per byte of the BAR
    ([parse_feature_list_terminates]).  [FmePr.credit_wait] has as many rounds as
    polls are left of PR_WAIT_TIMEOUT and two more, and [FmePr.push_loop] one per
    byte of the bitstream; [fme_pr_write_returns] shows that both are enough for
    every device.  A poll makes at most
    [Poll.poll_rounds] rounds, the number of sleeps that fit in its timeout and
    three more; [poll_returns] shows that this is enough with any clock that
    advances as [ClockOk] says.  The wait for the
    adaptation of a transceiver has one round per 10 of its 10000 milliseconds
    and two more ([hssi_files_return]).
    [icap_rounds] has a round per word, [Hwicap.download_rounds] a round per
    buffer of 1024 bytes and two more ([download_loop_run]).
    xspi.cpp waits in finalTransfer without a timeout: [polls] is a bound on the
    status reads, any number above 264 that the core's latency allows
    ([core_ok]).  [Xspi.wait_rounds] is the 30 s of the other waits in steps of
    5 us and one more, [erase_rounds] the subsectors of a record and two more;
    a pass over a file has a round per line ([first_pass], [record_lines_run]).
    spi-nor.c polls until a deadline in jiffies: [polls] is any number of polls
    above those after which the flash is ready ([wait_ends]); its loops over a
    range or a buffer have a round per byte and one more, each moves at least
    one byte ([sectors_ends], [write_ends], [read_ends]).
    The ICAP utility makes a round per word of the file and two more
    ([HwicapApp.word_loop]); [log2c_loop] has a round per bit of its argument.

    ** Not modelled

    Log output ([pr_info], [dev_info]); the kernel's own code (allocators,
    rbtree rebalancing, scheduling, the DMA API, character device
    registration).  Locks are modelled as a flag whose misuse is an oops: an
    operation runs alone between lock and unlock, and theorems about several
    callers quantify over sequences of whole operations.
    The kernel compatibility shims (backport.c, uuid_mod.c), the MTD
    core, the registration of the modules other than the PCIe driver,
    the kobject dispatch of the
    performance counters; saving the FPU registers around the 512-bit stores of
    partial reconfiguration.  Setup and teardown of
    the ZeroMQ sockets of the simulation bridge, the SystemVerilog around it, and
    the sample hello_fpga.c of a library that is not in the repository. *)

From Stdlib Require Export ZArith Lia.
From stdpp Require Export base gmap strings list option.

(** ** Notation scope of the development *)

Declare Scope kernel_scope.
Delimit Scope kernel_scope with kernel.
#[global] Open Scope Z_scope.

(** ** Machine integers

    The driver keeps sizes and addresses in [u64], user structures in [u32]
    and counters in [int].  A w-bit unsigned value is a [Z] between 0 and
    [2^w - 1]; C's wrap-around is the reduction below, applied where the code
    computes. *)

Definition wrap (w x : Z) : Z := x mod 2 ^ w.
Definition u64 (x : Z) : Z := wrap 64 x.
Definition u32 (x : Z) : Z := wrap 32 x.
Definition u8 (x : Z) : Z := wrap 8 x.

(** Conversion to a 32-bit [int]. *)
Definition s32 (x : Z) : Z := (x + 2 ^ 31) mod 2 ^ 32 - 2 ^ 31.

Definition in_range (w x : Z) : Prop := 0 <= x < 2 ^ w.
Abbreviation is_u64 := (in_range 64).
Abbreviation is_u32 := (in_range 32).

(** C's truth value of an integer expression. *)
Definition istrue (x : Z) : bool := negb (x =? 0).

(** ** Errno values (include/uapi/asm-generic/errno*.h) *)

Definition EPERM : Z := 1.
Definition EIO : Z := 5.
Definition ENOMEM : Z := 12.
Definition EFAULT : Z := 14.
Definition EBUSY : Z := 16.
Definition EEXIST : Z := 17.
Definition ENODEV : Z := 19.
Definition EINVAL : Z := 22.
Definition ETIMEDOUT : Z := 110.

(** ** Pages (x86: PAGE_SHIFT = 12) *)

Definition PAGE_SHIFT : Z := 12.
Definition PAGE_SIZE : Z := 4096.
Definition PAGE_MASK64 : Z := 2 ^ 64 - 4096.

(** [PAGE_ALIGN(x)] is [(x + PAGE_SIZE - 1) & PAGE_MASK] in 64-bit
    arithmetic, [PAGE_ALIGNED(x)] is [(x & (PAGE_SIZE - 1)) == 0]. *)
Definition PAGE_ALIGN (x : Z) : Z := Z.land (u64 (x + (PAGE_SIZE - 1))) PAGE_MASK64.
Definition PAGE_ALIGNED (x : Z) : bool := Z.land x (PAGE_SIZE - 1) =? 0.

(** ** Computations of kernel code

    A computation over a state [S] yields a result and a new state, or [None]
    where the C code would have undefined behaviour: a NULL dereference, an
    index outside an array, a mutex taken twice or released while free. *)

Definition K (S A : Type) : Type := S -> option (A * S).

Definition kret {S A} (a : A) : K S A := fun s => Some (a, s).
Definition kbind {S A B} (c : K S A) (f : A -> K S B) : K S B :=
  fun s => match c s with Some (a, s') => f a s' | None => None end.
Definition kget {S} : K S S := fun s => Some (s, s).
Definition kgets {S A} (f : S -> A) : K S A := fun s => Some (f s, s).
Definition kput {S} (s : S) : K S unit := fun _ => Some (tt, s).
Definition kmod {S} (f : S -> S) : K S unit := fun s => Some (tt, f s).
Definition oops {S A} : K S A := fun _ => None.

(** [deref p] is the access through a pointer that may be NULL. *)
Definition deref {S A} (p : option A) : K S A :=
  fun s => match p with Some a => Some (a, s) | None => None end.

(** Running a computation on a component of the state. *)
Definition zoom {S T A} (get : S -> T) (put : T -> S -> S) (c : K T A) : K S A :=
  fun s => match c (get s) with
           | Some (a, t) => Some (a, put t s)
           | None => None
           end.

Notation "x <- c ;; k" := (kbind c (fun x => k))
  (at level 100, c at next level, right associativity) : kernel_scope.
Notation "c ;; k" := (kbind c (fun _ => k))
  (at level 100, right associativity) : kernel_scope.
#[global] Open Scope kernel_scope.

Arguments kbind {S A B} c f s /.
Arguments kret {S A} a s /.
Arguments kget {S} s /.
Arguments kgets {S A} f s /.
Arguments kput {S} s _ /.
Arguments kmod {S} f s /.
Arguments oops {S A} s /.
Arguments deref {S A} p s /.
Arguments zoom {S T A} get put c s /.

Lemma kbind_run {S A B} (c : K S A) (f : A -> K S B) s a s' :
  c s = Some (a, s') -> kbind c f s = f a s'.
Proof. intros H. unfold kbind. by rewrite H. Qed.

(** The first two steps at once. *)
Lemma kbind_run2 {S A B C} (c1 : K S A) (c2 : A -> K S B) (f : B -> K S C) s b s' :
  kbind c1 c2 s = Some (b, s') -> kbind c1 (fun x => kbind (c2 x) f) s = f b s'.
Proof. unfold kbind. destruct (c1 s) as [[a s1]|]; [|done]. by intros ->. Qed.

(** Runs the first step of the goal's computation with lemma [L]. *)
Ltac run_with L := erewrite kbind_run; [|eapply L; eauto].

(** A computation that never hits undefined behaviour from states in [P]. *)
Definition safe {S A} (P : S -> Prop) (c : K S A) : Prop :=
  forall s, P s -> is_Some (c s).

(** A computation that keeps an invariant on every terminating run. *)
Definition preserves {S A} (I : S -> Prop) (c : K S A) : Prop :=
  forall s a s', I s -> c s = Some (a, s') -> I s'.

Lemma preserves_ret {S A} (I : S -> Prop) (a : A) : preserves I (kret a).
Proof. intros s b s' HI [= <- <-]. exact HI. Qed.

Lemma preserves_gets {S A} (I : S -> Prop) (f : S -> A) : preserves I (kgets f).
Proof. intros s b s' HI [= <- <-]. exact HI. Qed.

Lemma preserves_mod {S} (I : S -> Prop) (f : S -> S) :
  (forall s, I s -> I (f s)) -> preserves I (kmod f).
Proof. intros Hf s b s' HI [= <- <-]. auto. Qed.

Lemma preserves_deref {S A} (I : S -> Prop) (p : option A) : preserves I (deref p).
Proof. intros s b s' HI. destruct p; simpl; congruence. Qed.

Lemma preserves_bind {S A B} (I : S -> Prop) (c : K S A) (f : A -> K S B) :
  preserves I c -> (forall a, preserves I (f a)) -> preserves I (kbind c f).
Proof.
  intros Hc Hf s b s' HI H. unfold kbind in H.
  destruct (c s) as [[a s1]|] eqn:E; [|discriminate].
  eapply Hf; [eapply Hc; [exact HI | exact E] | exact H].
Qed.

Lemma preserves_if {S A} (I : S -> Prop) (b : bool) (c1 c2 : K S A) :
  preserves I c1 -> preserves I c2 -> preserves I (if b then c1 else c2).
Proof. destruct b; auto. Qed.

Create HintDb kernel discriminated.
#[export] Hint Resolve preserves_ret preserves_gets preserves_deref
  preserves_bind preserves_if : kernel.

(** ** Arithmetic and bit lemmas shared by the components *)

Lemma wrap_range w x : 0 <= w -> in_range w (wrap w x).
Proof. intros Hw. apply Z.mod_pos_bound. lia. Qed.

Lemma wrap_small w x : in_range w x -> wrap w x = x.
Proof. intros H. apply Z.mod_small. exact H. Qed.

Lemma u64_range x : is_u64 (u64 x).
Proof. apply wrap_range. lia. Qed.

Lemma u64_small x : is_u64 x -> u64 x = x.
Proof. apply wrap_small. Qed.

Lemma u32_small x : is_u32 x -> u32 x = x.
Proof. apply wrap_small. Qed.

Lemma s32_small x : 0 <= x < 2 ^ 31 -> s32 x = x.
Proof. intros H. unfold s32. rewrite Z.mod_small; lia. Qed.

(** The sum of two [u64] values wraps at most once. *)
Lemma u64_add_cases x y :
  is_u64 x -> is_u64 y ->
  (u64 (x + y) = x + y /\ x + y < 2 ^ 64) \/
  (u64 (x + y) = x + y - 2 ^ 64 /\ 2 ^ 64 <= x + y).
Proof.
  unfold in_range, u64, wrap. intros Hx Hy.
  destruct (Z.lt_ge_cases (x + y) (2 ^ 64)) as [H|H].
  - left. split; [apply Z.mod_small; lia | lia].
  - right. split; [|lia]. symmetry.
    apply Z.mod_unique with 1; [left|]; lia.
Qed.

(** The driver's overflow test [x + y < x] is exact. *)
Lemma u64_add_overflow x y :
  is_u64 x -> is_u64 y -> (u64 (x + y) <? x) = (2 ^ 64 <=? x + y).
Proof.
  intros Hx Hy. unfold in_range in *.
  destruct (u64_add_cases x y Hx Hy) as [[-> H]|[-> H]]; lia.
Qed.

Lemma page_mask_land x :
  is_u64 x -> Z.land x PAGE_MASK64 = x / PAGE_SIZE * PAGE_SIZE.
Proof.
  intros [H0 H1]. unfold PAGE_SIZE. change PAGE_MASK64 with (Z.shiftl (Z.ones 52) 12).
  change 4096 with (2 ^ 12). rewrite <- Z.shiftr_div_pow2 by lia.
  rewrite <- Z.shiftl_mul_pow2 by lia.
  apply Z.bits_inj'. intros n Hn. rewrite Z.land_spec.
  destruct (Z.lt_ge_cases n 12) as [Hl|Hl].
  - rewrite !Z.shiftl_spec_low by lia. apply andb_false_r.
  - rewrite !Z.shiftl_spec by lia. rewrite Z.shiftr_spec by lia.
    replace (n - 12 + 12) with n by lia.
    destruct (Z.lt_ge_cases n 64) as [Hh|Hh].
    + rewrite Z.ones_spec_low by lia. apply andb_true_r.
    + rewrite Z.ones_spec_high by lia. rewrite andb_false_r. symmetry.
      apply Z.bits_above_log2; [lia|].
      destruct (Z.eq_dec x 0) as [->|]; [cbn; lia|].
      apply Z.log2_lt_pow2; [lia|].
      apply Z.lt_le_trans with (2 ^ 64); [lia | apply Z.pow_le_mono_r; lia].
Qed.

Lemma PAGE_ALIGNED_spec x : PAGE_ALIGNED x = (x mod PAGE_SIZE =? 0).
Proof.
  unfold PAGE_ALIGNED, PAGE_SIZE. change (4096 - 1) with (Z.ones 12).
  rewrite Z.land_ones by lia. reflexivity.
Qed.

(** Rounding up to a page: no wrap below [2^64 - PAGE_SIZE]. *)
Lemma PAGE_ALIGN_spec x :
  0 <= x -> x + PAGE_SIZE <= 2 ^ 64 ->
  PAGE_ALIGN x = (x + (PAGE_SIZE - 1)) / PAGE_SIZE * PAGE_SIZE.
Proof.
  unfold PAGE_ALIGN. intros H0 H1. rewrite page_mask_land by apply u64_range.
  rewrite u64_small; [reflexivity|]. unfold in_range, PAGE_SIZE in *. lia.
Qed.

Lemma PAGE_ALIGN_bounds x :
  0 <= x -> x + PAGE_SIZE <= 2 ^ 64 ->
  x <= PAGE_ALIGN x < x + PAGE_SIZE /\ (PAGE_SIZE | PAGE_ALIGN x).
Proof.
  intros H0 H1. rewrite PAGE_ALIGN_spec by assumption.
  unfold PAGE_SIZE in *. split; [|apply Z.divide_factor_r].
  pose proof (Z.div_mod (x + (4096 - 1)) 4096 ltac:(lia)).
  pose proof (Z.mod_pos_bound (x + (4096 - 1)) 4096 ltac:(lia)). lia.
Qed.

(** Values of [n] bits are closed under the bit operations. *)
Lemma in_range_ones n x : 0 <= n -> in_range n x <-> Z.land x (Z.ones n) = x.
Proof.
  intros Hn. unfold in_range. rewrite Z.land_ones by done. split; [apply Z.mod_small|].
  intros <-. apply Z.mod_pos_bound. by apply Z.pow_pos_nonneg.
Qed.

Lemma lor_range a b n : 0 <= n -> 0 <= a < 2 ^ n -> 0 <= b < 2 ^ n -> 0 <= Z.lor a b < 2 ^ n.
Proof.
  intros Hn Ha%in_range_ones Hb%in_range_ones; [|done..]. apply in_range_ones; [done|].
  by rewrite Z.land_lor_distr_l, Ha, Hb.
Qed.

Lemma ldiff_range a b n : 0 <= n -> 0 <= a < 2 ^ n -> 0 <= Z.ldiff a b < 2 ^ n.
Proof.
  intros Hn Ha%in_range_ones; [|done]. apply in_range_ones; [done|]. rewrite <- Ha at 2.
  apply Z.bits_inj'. intros i _. rewrite ?Z.land_spec, ?Z.ldiff_spec, ?Z.land_spec.
  by destruct (Z.testbit a i), (Z.testbit b i), (Z.testbit (Z.ones n) i).
Qed.

#[export] Hint Resolve u64_range wrap_range : kernel.

(** ** Sums over lists *)

Fixpoint sum_by {A} (f : A -> Z) (l : list A) : Z :=
  match l with [] => 0 | x :: l => f x + sum_by f l end.

Lemma sum_by_app {A} (f : A -> Z) l k : sum_by f (l ++ k) = sum_by f l + sum_by f k.
Proof. induction l; simpl; lia. Qed.

Lemma sum_by_nonneg {A} (f : A -> Z) l :
  (forall x, x ∈ l -> 0 <= f x) -> 0 <= sum_by f l.
Proof.
  induction l as [|x l IH]; intros H; simpl; [lia|].
  assert (0 <= f x) by (apply H; left).
  assert (0 <= sum_by f l) by (apply IH; intros; apply H; by right). lia.
Qed.

Lemma sum_by_perm {A} (f : A -> Z) l k : l ≡ₚ k -> sum_by f l = sum_by f k.
Proof. induction 1; simpl; lia. Qed.

(** ** Tactics of the development *)

(** Case analysis on the bind of a hypothesis [c s = Some _]. *)
Ltac step_in H :=
  match type of H with
  | context [match ?c with Some _ => _ | None => None end] =>
      destruct c as [[? ?]|] eqn:?; [|discriminate H]
  end.

(** Runs the first step of a sequence in a hypothesis. *)
Ltac step_bind H :=
  unfold kbind at 1 in H;
  match type of H with
  | match ?c with _ => _ end = _ => destruct c as [[? ?]|]; [|discriminate H]
  end.

(** Turns boolean comparisons of the context into propositions. *)
Ltac boolify :=
  repeat match goal with
         | H : (_ && _)%bool = true |- _ => apply andb_prop in H as [? ?]
         | H : (_ || _)%bool = false |- _ => apply orb_false_elim in H as [? ?]
         | H : negb _ = true |- _ => apply negb_true_iff in H
         | H : negb _ = false |- _ => apply negb_false_iff in H
         | H : (_ <? _) = true |- _ => apply Z.ltb_lt in H
         | H : (_ <? _) = false |- _ => apply Z.ltb_ge in H
         | H : (_ <=? _) = true |- _ => apply Z.leb_le in H
         | H : (_ <=? _) = false |- _ => apply Z.leb_gt in H
         | H : (_ =? _) = true |- _ => apply Z.eqb_eq in H
         | H : (_ =? _) = false |- _ => apply Z.eqb_neq in H
         end.

(** Inverts [Some _ = Some _] facts produced by running a computation. *)
Ltac inv_run :=
  repeat match goal with
         | H : Some _ = Some _ |- _ => injection H as H; subst
         | H : (_, _) = (_, _) |- _ => injection H as ?; subst
         | H : None = Some _ |- _ => discriminate H
         | H : Some _ = None |- _ => discriminate H
         end.
