(* ===== verification/Bitfield.v ===== *)
(** * Byte-packed register structures

    The headers of the driver describe every 64-bit hardware register as a
    union of [u64 csr] with a packed structure of bit fields, and every block
    of registers as a packed structure of registers.  This file gives the
    meaning of such declarations: a register is the list of its fields with
    their widths in declaration order (least significant first, as the x86-64
    ABI lays out packed bit fields), a block the list of its members with
    their sizes in bytes. *)

From S2P Require Import Prelude.

Record reg := Reg { reg_fields : list (string * Z) }.
Record block := Block { blk_members : list (string * Z) }.

(** Position and width of a member, counted from [off]. *)
Fixpoint locate (l : list (string * Z)) (n : string) (off : Z) : option (Z * Z) :=
  match l with
  | [] => None
  | (m, w) :: l => if String.eqb m n then Some (off, w) else locate l n (off + w)
  end.

Definition total (l : list (string * Z)) : Z := sum_by snd l.
Definition sizeof_reg (r : reg) : Z := total (reg_fields r) / 8.
Definition sizeof (b : block) : Z := total (blk_members b).

(** [offsetof(struct b, n)]. *)
Definition offsetof (b : block) (n : string) : Z :=
  match locate (blk_members b) n 0 with Some (o, _) => o | None => 0 end.

(** [x.n] and [x.n = v] for a register variable whose [csr] is [c]. *)
Definition fget (r : reg) (n : string) (c : Z) : Z :=
  match locate (reg_fields r) n 0 with
  | Some (o, w) => Z.land (Z.shiftr c o) (Z.ones w)
  | None => 0
  end.

Definition fset (r : reg) (n : string) (v c : Z) : Z :=
  match locate (reg_fields r) n 0 with
  | Some (o, w) =>
      Z.lor (Z.ldiff c (Z.shiftl (Z.ones w) o)) (Z.shiftl (Z.land v (Z.ones w)) o)
  | None => c
  end.

Definition has_field (r : reg) (n : string) : bool :=
  match locate (reg_fields r) n 0 with Some _ => true | None => false end.

Definition width (r : reg) (n : string) : Z :=
  match locate (reg_fields r) n 0 with Some (_, w) => w | None => 0 end.

(** A structure is well formed when its fields are named apart and not empty,
    a register when they also tile the 64 bits of the [csr] member. *)
Definition struct_wf (r : reg) : bool :=
  bool_decide (NoDup (map fst (reg_fields r))) && forallb (fun p => 0 <? snd p) (reg_fields r).

Definition reg_wf (r : reg) : bool := struct_wf r && (total (reg_fields r) =? 64).

Arguments fget : simpl never.
Arguments fset : simpl never.
Arguments offsetof : simpl never.

(** ** Positions *)

Definition widths_pos (l : list (string * Z)) : Prop := Forall (fun p => 0 < snd p) l.

Lemma locate_bounds l n off o w :
  widths_pos l -> locate l n off = Some (o, w) ->
  off <= o /\ 0 < w /\ o + w <= off + total l.
Proof.
  intros Hpos. revert off. induction Hpos as [|[m k] l Hk Hpos IH]; intros off; simpl.
  - discriminate.
  - unfold total in *. simpl in *. destruct (String.eqb m n).
    + intros [= <- <-]. assert (0 <= sum_by snd l).
      { apply sum_by_nonneg. intros x Hx.
        rewrite Forall_forall in Hpos. apply list_elem_of_In in Hx. specialize (Hpos x Hx). simpl in Hpos. lia. }
      lia.
    + intros H. apply IH in H. lia.
Qed.

(** Two different members occupy disjoint positions. *)
Lemma locate_disjoint l n m off o1 w1 o2 w2 :
  widths_pos l -> n <> m ->
  locate l n off = Some (o1, w1) -> locate l m off = Some (o2, w2) ->
  o1 + w1 <= o2 \/ o2 + w2 <= o1.
Proof.
  intros Hpos Hne. revert off. induction Hpos as [|[p k] l Hk Hpos IH]; intros off; simpl.
  - discriminate.
  - destruct (String.eqb_spec p n) as [->|H1]; destruct (String.eqb_spec n m) as [?|H2].
    + congruence.
    + intros [= <- <-] H. left. apply locate_bounds in H; [simpl in *; lia | done].
    + congruence.
    + destruct (String.eqb_spec p m) as [->|H3].
      * intros H [= <- <-]. right. apply locate_bounds in H; [simpl in *; lia | done].
      * apply IH.
Qed.

Lemma struct_wf_widths r : struct_wf r = true -> widths_pos (reg_fields r).
Proof.
  unfold struct_wf. intros H. boolify. apply Forall_forall. intros p Hp.
  rewrite forallb_forall in H0. apply Z.ltb_lt, H0, Hp.
Qed.

Lemma reg_wf_struct r : reg_wf r = true -> struct_wf r = true.
Proof. unfold reg_wf. intros H. by boolify. Qed.

Lemma reg_wf_total r : reg_wf r = true -> total (reg_fields r) = 64.
Proof. unfold reg_wf. intros H. by boolify. Qed.

Lemma locate_struct r n o w :
  struct_wf r = true -> locate (reg_fields r) n 0 = Some (o, w) ->
  0 <= o /\ 0 < w /\ o + w <= total (reg_fields r).
Proof. intros Hwf H. apply locate_bounds in H; [lia|by apply struct_wf_widths]. Qed.

(** ** Reading back what was written *)

(** The bits of the mask of a field. *)
Lemma testbit_mask o w i :
  0 <= o -> 0 <= w -> 0 <= i ->
  Z.testbit (Z.shiftl (Z.ones w) o) i = (o <=? i) && (i <? o + w).
Proof.
  intros Ho Hw Hi. rewrite Z.shiftl_spec by lia.
  destruct (Z.leb_spec o i); simpl.
  - destruct (Z.ltb_spec i (o + w)).
    + apply Z.ones_spec_low. lia.
    + apply Z.ones_spec_high. lia.
  - apply Z.testbit_neg_r. lia.
Qed.

Lemma testbit_shifted v o w i :
  0 <= o -> 0 <= w -> 0 <= i ->
  Z.testbit (Z.shiftl (Z.land v (Z.ones w)) o) i =
  (o <=? i) && (i <? o + w) && Z.testbit v (i - o).
Proof.
  intros Ho Hw Hi. rewrite Z.shiftl_spec, Z.land_spec by lia.
  destruct (Z.leb_spec o i); simpl.
  - destruct (Z.ltb_spec i (o + w)); simpl.
    + rewrite Z.ones_spec_low by lia. apply andb_true_r.
    + rewrite Z.ones_spec_high by lia. apply andb_false_r.
  - rewrite Z.testbit_neg_r by lia. done.
Qed.

(** [fset] at every bit position. *)
Lemma testbit_fset r n v c o w i :
  struct_wf r = true -> locate (reg_fields r) n 0 = Some (o, w) -> 0 <= i ->
  Z.testbit (fset r n v c) i =
  if (o <=? i) && (i <? o + w) then Z.testbit v (i - o) else Z.testbit c i.
Proof.
  intros Hwf Hl Hi. pose proof (locate_struct _ _ _ _ Hwf Hl) as (Ho & Hw & _).
  unfold fset. rewrite Hl, Z.lor_spec, Z.ldiff_spec, testbit_mask, testbit_shifted by lia.
  destruct ((o <=? i) && (i <? o + w)); simpl.
  - by rewrite andb_false_r.
  - by rewrite andb_true_r, orb_false_r.
Qed.

Lemma testbit_fget r n c o w i :
  struct_wf r = true -> locate (reg_fields r) n 0 = Some (o, w) -> 0 <= i ->
  Z.testbit (fget r n c) i = (i <? w) && Z.testbit c (i + o).
Proof.
  intros Hwf Hl Hi. pose proof (locate_struct _ _ _ _ Hwf Hl) as (Ho & Hw & _).
  unfold fget. rewrite Hl, Z.land_spec, Z.shiftr_spec by lia.
  destruct (Z.ltb_spec i w); simpl.
  - rewrite Z.ones_spec_low by lia. apply andb_true_r.
  - rewrite Z.ones_spec_high by lia. apply andb_false_r.
Qed.

Lemma fget_fset_same r n v c :
  struct_wf r = true -> has_field r n = true ->
  fget r n (fset r n v c) = wrap (width r n) v.
Proof.
  intros Hwf Hf. unfold has_field, width in *.
  destruct (locate (reg_fields r) n 0) as [[o w]|] eqn:Hl; [|discriminate].
  pose proof (locate_struct _ _ _ _ Hwf Hl) as (Ho & Hw & _).
  unfold wrap. rewrite <- Z.land_ones by lia. apply Z.bits_inj'. intros i Hi.
  rewrite (testbit_fget _ _ _ _ _ _ Hwf Hl Hi), Z.land_spec.
  rewrite (testbit_fset _ _ _ _ _ _ _ Hwf Hl) by lia.
  destruct (Z.ltb_spec i w); simpl.
  - rewrite Z.ones_spec_low, andb_true_r by lia.
    replace (o <=? i + o) with true by lia.
    replace (i + o <? o + w) with true by lia. simpl. f_equal. lia.
  - rewrite Z.ones_spec_high by lia. by rewrite andb_false_r.
Qed.

Lemma fget_fset_other r n m v c :
  struct_wf r = true -> n <> m -> fget r m (fset r n v c) = fget r m c.
Proof.
  intros Hwf Hne.
  destruct (locate (reg_fields r) m 0) as [[o2 w2]|] eqn:H2; [|unfold fget; by rewrite H2].
  destruct (locate (reg_fields r) n 0) as [[o1 w1]|] eqn:H1; [|unfold fset; by rewrite H1].
  apply Z.bits_inj'. intros i Hi.
  rewrite !(testbit_fget _ _ _ _ _ _ Hwf H2 Hi).
  pose proof (locate_struct _ _ _ _ Hwf H2) as (Ho & Hw & _).
  rewrite (testbit_fset _ _ _ _ _ _ _ Hwf H1) by lia.
  pose proof (locate_disjoint _ _ _ _ _ _ _ _ (struct_wf_widths _ Hwf) Hne H1 H2) as Hd.
  destruct (Z.ltb_spec i w2); simpl; [|done].
  destruct ((o1 <=? i + o2) && (i + o2 <? o1 + w1)) eqn:E; [|done].
  boolify. lia.
Qed.

(** A field value always fits the width of its field. *)
Lemma fget_range r n c : struct_wf r = true -> in_range (width r n) (fget r n c).
Proof.
  intros Hwf. unfold fget, width.
  destruct (locate (reg_fields r) n 0) as [[o w]|] eqn:Hl.
  - pose proof (locate_struct _ _ _ _ Hwf Hl) as (Ho & Hw & _).
    rewrite Z.land_ones by lia. apply wrap_range. lia.
  - split; [lia | done].
Qed.

Lemma testbit_high w c i : in_range w c -> w <= i -> Z.testbit c i = false.
Proof.
  intros [H0 H1] Hi. destruct (Z.eq_dec c 0) as [->|]; [apply Z.testbit_0_l|].
  assert (0 <= w). { destruct (Z.le_gt_cases 0 w); [done|]. rewrite Z.pow_neg_r in H1; lia. }
  apply Z.bits_above_log2; [lia|]. apply Z.log2_lt_pow2; [lia|].
  apply Z.lt_le_trans with (2 ^ w); [lia | apply Z.pow_le_mono_r; lia].
Qed.

Lemma in_range_bits w c :
  0 <= w -> 0 <= c -> (forall i, w <= i -> Z.testbit c i = false) -> in_range w c.
Proof.
  intros Hw H0 Hb. split; [lia|]. destruct (Z.lt_ge_cases c (2 ^ w)) as [|H]; [done|].
  pose proof (Z.pow_pos_nonneg 2 w ltac:(lia) Hw).
  assert (w <= Z.log2 c) by (apply Z.log2_le_pow2; lia).
  pose proof (Z.bit_log2 c ltac:(lia)) as Hl. rewrite Hb in Hl; [discriminate | lia].
Qed.

(** Writing a field keeps the value within the structure. *)
Lemma fset_struct_range r n v c :
  struct_wf r = true -> in_range (total (reg_fields r)) c ->
  in_range (total (reg_fields r)) (fset r n v c).
Proof.
  intros Hwf Hc.
  destruct (locate (reg_fields r) n 0) as [[o w]|] eqn:Hl; [|unfold fset; by rewrite Hl].
  pose proof (locate_struct _ _ _ _ Hwf Hl) as (Ho & Hw & Hs). apply in_range_bits; [lia| |].
  - unfold fset. rewrite Hl. apply Z.lor_nonneg. split.
    + apply Z.ldiff_nonneg. left. apply Hc.
    + apply Z.shiftl_nonneg, Z.land_nonneg. right.
      rewrite Z.ones_equiv. pose proof (Z.pow_pos_nonneg 2 w). lia.
  - intros i Hi. rewrite (testbit_fset _ _ _ _ _ _ _ Hwf Hl) by lia.
    destruct ((o <=? i) && (i <? o + w)) eqn:E; [boolify; lia|].
    by eapply testbit_high.
Qed.

Lemma fset_range r n v c : reg_wf r = true -> is_u64 c -> is_u64 (fset r n v c).
Proof.
  intros Hwf. rewrite <- (reg_wf_total r Hwf). apply fset_struct_range. by apply reg_wf_struct.
Qed.

(** A one-bit field is a flag. *)
Lemma fget_flag r n c :
  struct_wf r = true -> width r n = 1 -> fget r n c = 0 \/ fget r n c = 1.
Proof.
  intros Hwf Hw. pose proof (fget_range r n c Hwf) as H. rewrite Hw in H.
  unfold in_range in H. lia.
Qed.

#[export] Hint Resolve reg_wf_struct fset_range fget_range : kernel.
