(* ===== verification/Registers.v ===== *)
(** * The hardware registers of include/feature-dev.h

    One definition per register structure and per register block of the
    header, with the fields in the header's order, and the constants the
    drivers use with them.  The theorems at the end say that the layouts are
    what the packed C structures are meant to be: every register tiles its 64
    bits and every register of a CSR block sits at a multiple of 8 bytes. *)

From S2P Require Import Prelude.
From S2P Require Import Bitfield.

Local Open Scope string_scope.
Local Open Scope Z_scope.

(** ** Constants *)

Definition MAX_FPGA_PORT_NUM : Z := 4.
Definition MAX_PORT_UMSG_NUM : Z := 32.
Definition FEATURE_TYPE_AFU : Z := 1.
Definition FEATURE_TYPE_PRIVATE : Z := 3.
Definition FEATURE_TYPE_FIU : Z := 4.
Definition FEATURE_FIU_ID_FME : Z := 0.
Definition FEATURE_FIU_ID_PORT : Z := 1.
Definition FME_AFU_ACCESS_PF : Z := 0.
Definition FME_AFU_ACCESS_VF : Z := 1.
Definition PORT_ERR_MASK : Z := 0xfff0703ff001f.
Definition PORT_POWER_STATE_AP6 : Z := 6.

(** [enum port_feature_id] *)
Definition PORT_FEATURE_ID_HEADER : Z := 0.
Definition PORT_FEATURE_ID_ERROR : Z := 1.
Definition PORT_FEATURE_ID_UMSG : Z := 2.
Definition PORT_FEATURE_ID_UINT : Z := 3.
Definition PORT_FEATURE_ID_STP : Z := 4.
Definition PORT_FEATURE_ID_IOPLL : Z := 5.
Definition PORT_FEATURE_ID_UAFU : Z := 6.
Definition PORT_FEATURE_ID_MAX : Z := 7.

(** [enum fme_feature_id] *)
Definition FME_FEATURE_ID_HEADER : Z := 0.
Definition FME_FEATURE_ID_THERMAL_MGMT : Z := 1.
Definition FME_FEATURE_ID_POWER_MGMT : Z := 2.
Definition FME_FEATURE_ID_GLOBAL_IPERF : Z := 3.
Definition FME_FEATURE_ID_GLOBAL_ERR : Z := 4.
Definition FME_FEATURE_ID_PR_MGMT : Z := 5.
Definition FME_FEATURE_ID_HSSI_ETH : Z := 6.
Definition FME_FEATURE_ID_GLOBAL_DPERF : Z := 7.
Definition FME_FEATURE_ID_QSPI_FLASH : Z := 8.
Definition FME_FEATURE_ID_EMIF_MGMT : Z := 9.
Definition FME_FEATURE_ID_PAC_HSSI_ETH : Z := 10.
Definition FME_FEATURE_ID_S10_SDM_MB : Z := 11.
Definition FME_FEATURE_ID_AVMMI_BMC : Z := 12.
Definition FME_FEATURE_ID_MAX : Z := 17.

(** ** Registers and register blocks *)

Definition feature_header : reg := Reg
  [ ("id", 12); ("revision", 4); ("next_header_offset", 24); ("eol", 1);
    ("reserved", 19); ("type", 4) ].

Definition feature_afu_header : block := Block
  [ ("guid", 16) ].

Definition feature_fiu_header_csr : reg := Reg
  [ ("next_afu", 24); ("reserved", 40) ].

Definition feature_fiu_header : block := Block
  [ ("guid", 16); ("csr", sizeof_reg feature_fiu_header_csr) ].

Definition feature_fme_capability : reg := Reg
  [ ("fabric_verid", 8); ("socket_id", 1); ("rsvd1", 3); ("pci0_link_avile", 1);
    ("pci1_link_avile", 1); ("qpi_link_avile", 1); ("rsvd2", 1); ("iommu_support", 1);
    ("num_ports", 3); ("sf_fab_ctl", 1); ("rsvd3", 3); ("address_width_bits", 6);
    ("rsvd4", 2); ("cache_size", 12); ("cache_assoc", 4); ("rsvd5", 15);
    ("lock_bit", 1) ].

Definition feature_fme_port : reg := Reg
  [ ("port_offset", 24); ("reserved1", 8); ("port_bar", 3); ("reserved2", 20);
    ("afu_access_control", 1); ("reserved3", 4); ("port_implemented", 1);
    ("reserved4", 3) ].

Definition feature_fme_fab_status : reg := Reg
  [ ("upilink_status", 4); ("rsvd1", 4); ("pci0link_status", 1); ("rsvd2", 3);
    ("pci1link_status", 1); ("rsvd3", 51) ].

Definition feature_fme_genprotrange2_base : reg := Reg
  [ ("rsvd1", 16); ("protected_base_addrss", 4); ("rsvd2", 44) ].

Definition feature_fme_genprotrange2_limit : reg := Reg
  [ ("rsvd1", 16); ("protected_limit_addrss", 4); ("rsvd2", 11); ("enable", 1);
    ("rsvd3", 32) ].

Definition feature_fme_dxe_lock : reg := Reg
  [ ("dxe_early_lock", 1); ("dxe_late_lock", 1); ("rsvd", 62) ].

Definition feature_fme_bitstream_id : reg := Reg
  [ ("gitrepo_hash", 32); ("hssi_id", 4); ("rsvd1", 12); ("bs_verpatch", 4);
    ("bs_verminor", 4); ("bs_vermajor", 4); ("bs_verdebug", 4) ].

Definition feature_fme_bitstream_md : reg := Reg
  [ ("synth_seed", 4); ("synth_day", 8); ("synth_month", 8); ("synth_year", 8);
    ("rsvd", 36) ].

Definition feature_fme_iommu_ctrl : reg := Reg
  [ ("prefetch_disableC0", 1); ("prefetch_disableC1", 1); ("prefetch_wrdisable", 1);
    ("rsvd1", 1); ("counter_sel", 2); ("rsvd2", 26); ("capecap_defeature", 32) ].

Definition feature_fme_iommu_stat : reg := Reg
  [ ("translation_enable", 1); ("drain_req_inprog", 1); ("inv_state", 3);
    ("respbuffer_stateC0", 3); ("respbuffer_stateC1", 3); ("last_reqID", 4);
    ("last_respID", 4); ("last_respstatus", 3); ("transbuf_notEmptyC0", 1);
    ("transbuf_notEmptyC1", 1); ("reqFIFO_notemptyC0", 1); ("reqFIFO_notemptyC1", 1);
    ("respFIFO_notemptyC0", 1); ("respFIFO_notemptyC1", 1); ("respFIFO_overflowC0", 1);
    ("respFIFO_overflowC1", 1); ("tranbuf_overflowC0", 1); ("tranbuf_overflowC1", 1);
    ("reqFIFO_overflow", 1); ("memrd_inprog", 1); ("memwr_inprog", 1); ("rsvd1", 1);
    ("dbg_counters", 16); ("rsvd2", 12) ].

Definition feature_fme_pcie0_ctrl : reg := Reg
  [ ("vtd_bar_lock", 1); ("rsvd1", 3); ("rciep", 1); ("rsvd2", 59) ].

Definition feature_fme_llpr_smrr_base : reg := Reg
  [ ("rsvd1", 12); ("base", 20); ("rsvd2", 32) ].

Definition feature_fme_llpr_smrr_mask : reg := Reg
  [ ("rsvd1", 11); ("valid", 1); ("phys_mask", 20); ("rsvd2", 32) ].

Definition feature_fme_llpr_smrr2_base : reg := Reg
  [ ("rsvd1", 12); ("base", 20); ("rsvd2", 32) ].

Definition feature_fme_llpr_smrr2_mask : reg := Reg
  [ ("rsvd1", 11); ("valid", 1); ("phys_mask", 20); ("rsvd2", 32) ].

Definition feature_fme_llpr_meseg_base : reg := Reg
  [ ("me_base", 27); ("rsvd", 37) ].

Definition feature_fme_llpr_meseg_limit : reg := Reg
  [ ("me_limit", 27); ("rsvd1", 4); ("enable", 1); ("rsvd2", 32) ].

Definition feature_fme_header : block := Block
  [ ("header", sizeof_reg feature_header); ("fiu_header", sizeof feature_fiu_header);
    ("reserved", 8); ("scratchpad", 8);
    ("capability", sizeof_reg feature_fme_capability);
    ("port", MAX_FPGA_PORT_NUM * sizeof_reg feature_fme_port);
    ("fab_status", sizeof_reg feature_fme_fab_status);
    ("bitstream_id", sizeof_reg feature_fme_bitstream_id);
    ("bitstream_md", sizeof_reg feature_fme_bitstream_md);
    ("genprotrange2_base", sizeof_reg feature_fme_genprotrange2_base);
    ("genprotrange2_limit", sizeof_reg feature_fme_genprotrange2_limit);
    ("dxe_lock", sizeof_reg feature_fme_dxe_lock);
    ("iommu_ctrl", sizeof_reg feature_fme_iommu_ctrl);
    ("iommu_stat", sizeof_reg feature_fme_iommu_stat);
    ("pcie0_control", sizeof_reg feature_fme_pcie0_ctrl);
    ("smrr_base", sizeof_reg feature_fme_llpr_smrr_base);
    ("smrr_mask", sizeof_reg feature_fme_llpr_smrr_mask);
    ("smrr2_base", sizeof_reg feature_fme_llpr_smrr2_base);
    ("smrr2_mask", sizeof_reg feature_fme_llpr_smrr2_mask);
    ("meseg_base", sizeof_reg feature_fme_llpr_meseg_base);
    ("meseg_limit", sizeof_reg feature_fme_llpr_meseg_limit) ].

Definition feature_port_capability : reg := Reg
  [ ("port_number", 2); ("rsvd1", 6); ("mmio_size", 16); ("rsvd2", 8);
    ("sp_intr_num", 4); ("rsvd3", 28) ].

Definition feature_port_control : reg := Reg
  [ ("port_sftrst", 1); ("rsvd1", 1); ("latency_tolerance", 1); ("rsvd2", 1);
    ("port_sftrst_ack", 1); ("rsvd3", 59) ].

Definition feature_port_status : reg := Reg
  [ ("port_freeze", 1); ("rsvd1", 7); ("power_state", 4); ("ap1_event", 1);
    ("ap2_event", 1); ("rsvd2", 50) ].

Definition feature_port_header : block := Block
  [ ("header", sizeof_reg feature_header); ("fiu_header", sizeof feature_fiu_header);
    ("port_mailbox", 8); ("scratchpad", 8);
    ("capability", sizeof_reg feature_port_capability);
    ("control", sizeof_reg feature_port_control);
    ("status", sizeof_reg feature_port_status); ("rsvd2", 8);
    ("user_clk_freq_cmd0", 8); ("user_clk_freq_cmd1", 8); ("user_clk_freq_sts0", 8);
    ("user_clk_freq_sts1", 8) ].

Definition feature_fme_tmp_threshold : reg := Reg
  [ ("tmp_thshold1", 7); ("tmp_thshold1_enable", 1); ("tmp_thshold2", 7);
    ("tmp_thshold2_enable", 1); ("pro_hot_setpoint", 7); ("rsvd4", 1);
    ("therm_trip_thshold", 7); ("rsvd3", 1); ("thshold1_status", 1);
    ("thshold2_status", 1); ("rsvd5", 1); ("therm_trip_thshold_status", 1);
    ("rsvd6", 4); ("valmodeforce", 1); ("valmodetherm", 1); ("rsvd2", 2);
    ("thshold_policy", 1); ("rsvd", 19) ].

Definition feature_fme_temp_rdsensor_fmt1 : reg := Reg
  [ ("fpga_temp", 7); ("rsvd0", 1); ("tmp_reading_seq_num", 16);
    ("tmp_reading_valid", 1); ("rsvd1", 7); ("dbg_mode", 10); ("rsvd2", 22) ].

Definition feature_fme_temp_rdsensor_fmt2 : reg := Reg
  [ ("rsvd", 64) ].

Definition feature_fme_tmp_threshold_cap : reg := Reg
  [ ("tmp_thshold_disabled", 1); ("rsvd", 63) ].

Definition feature_fme_thermal : block := Block
  [ ("header", sizeof_reg feature_header);
    ("threshold", sizeof_reg feature_fme_tmp_threshold);
    ("rdsensor_fm1", sizeof_reg feature_fme_temp_rdsensor_fmt1);
    ("rdsensor_fm2", sizeof_reg feature_fme_temp_rdsensor_fmt2);
    ("threshold_cap", sizeof_reg feature_fme_tmp_threshold_cap) ].

Definition feature_fme_pm_status : reg := Reg
  [ ("pwr_consumed", 18); ("fpga_latency_report", 1); ("rsvd", 45) ].

Definition feature_fme_pm_ap_threshold : reg := Reg
  [ ("threshold1", 7); ("rsvd1", 1); ("threshold2", 7); ("rsvd2", 1);
    ("threshold1_status", 1); ("threshold2_status", 1); ("rsvd3", 46) ].

Definition feature_fme_pm_xeon_limit : reg := Reg
  [ ("pwr_limit", 15); ("enable", 1); ("clamping", 1); ("time", 7); ("rsvd", 40) ].

Definition feature_fme_pm_fpga_limit : reg := Reg
  [ ("pwr_limit", 15); ("enable", 1); ("clamping", 1); ("time", 7); ("rsvd", 40) ].

Definition feature_fme_power : block := Block
  [ ("header", sizeof_reg feature_header);
    ("status", sizeof_reg feature_fme_pm_status);
    ("threshold", sizeof_reg feature_fme_pm_ap_threshold);
    ("xeon_limit", sizeof_reg feature_fme_pm_xeon_limit);
    ("fpga_limit", sizeof_reg feature_fme_pm_fpga_limit) ].

Definition feature_fme_ifpmon_ch_ctl : reg := Reg
  [ ("reset_counters", 1); ("rsvd1", 7); ("freeze", 1); ("rsvd2", 7);
    ("cache_event", 4); ("cci_chsel", 1); ("rsvd3", 43) ].

Definition feature_fme_ifpmon_ch_ctr : reg := Reg
  [ ("cache_counter", 48); ("rsvd", 12); ("event_code", 4) ].

Definition feature_fme_ifpmon_fab_ctl : reg := Reg
  [ ("reset_counters", 1); ("rsvd", 7); ("freeze", 1); ("rsvd1", 7);
    ("fab_evtcode", 4); ("port_id", 2); ("rsvd2", 1); ("port_filter", 1); ("rsvd3", 40) ].

Definition feature_fme_ifpmon_fab_ctr : reg := Reg
  [ ("fab_cnt", 60); ("event_code", 4) ].

Definition feature_fme_ifpmon_clk_ctr : reg := Reg
  [ ("afu_interf_clock", 64) ].

Definition feature_fme_ifpmon_vtd_ctl : reg := Reg
  [ ("reset_counters", 1); ("rsvd", 7); ("freeze", 1); ("rsvd1", 7);
    ("vtd_evtcode", 4); ("rsvd2", 44) ].

Definition feature_fme_ifpmon_vtd_ctr : reg := Reg
  [ ("vtd_counter", 48); ("rsvd", 12); ("event_code", 4) ].

Definition feature_fme_ifpmon_vtd_sip_ctl : reg := Reg
  [ ("reset_counters", 1); ("rsvd", 7); ("freeze", 1); ("rsvd1", 7);
    ("vtd_evtcode", 4); ("rsvd2", 44) ].

Definition feature_fme_ifpmon_vtd_sip_ctr : reg := Reg
  [ ("vtd_counter", 48); ("rsvd", 12); ("event_code", 4) ].

Definition feature_fme_iperf : block := Block
  [ ("header", sizeof_reg feature_header);
    ("ch_ctl", sizeof_reg feature_fme_ifpmon_ch_ctl);
    ("ch_ctr0", sizeof_reg feature_fme_ifpmon_ch_ctr);
    ("ch_ctr1", sizeof_reg feature_fme_ifpmon_ch_ctr);
    ("fab_ctl", sizeof_reg feature_fme_ifpmon_fab_ctl);
    ("fab_ctr", sizeof_reg feature_fme_ifpmon_fab_ctr);
    ("clk", sizeof_reg feature_fme_ifpmon_clk_ctr);
    ("vtd_ctl", sizeof_reg feature_fme_ifpmon_vtd_ctl);
    ("vtd_ctr", sizeof_reg feature_fme_ifpmon_vtd_ctr);
    ("vtd_sip_ctl", sizeof_reg feature_fme_ifpmon_vtd_sip_ctl);
    ("vtd_sip_ctr", sizeof_reg feature_fme_ifpmon_vtd_sip_ctr) ].

Definition feature_fme_dfpmon_fab_ctl : reg := Reg
  [ ("reset_counters", 1); ("rsvd", 7); ("freeze", 1); ("rsvd1", 7);
    ("fab_evtcode", 4); ("port_id", 2); ("rsvd2", 1); ("port_filter", 1); ("rsvd3", 40) ].

Definition feature_fme_dfpmon_fab_ctr : reg := Reg
  [ ("fab_cnt", 60); ("event_code", 4) ].

Definition feature_fme_dfpmon_clk_ctr : reg := Reg
  [ ("afu_interf_clock", 64) ].

Definition feature_fme_dperf : block := Block
  [ ("header", sizeof_reg feature_header); ("rsvd", 3 * 8);
    ("fab_ctl", sizeof_reg feature_fme_dfpmon_fab_ctl);
    ("fab_ctr", sizeof_reg feature_fme_dfpmon_fab_ctr);
    ("clk", sizeof_reg feature_fme_dfpmon_clk_ctr) ].

Definition feature_fme_error0 : reg := Reg
  [ ("fabric_err", 1); ("fabfifo_overflow", 1); ("kticdc_parity_err", 2);
    ("iommu_parity_err", 1); ("afu_acc_mode_err", 1); ("mbp_err", 1);
    ("pcie0cdc_parity_err", 5); ("pcie1cdc_parity_err", 5); ("cvlcdc_parity_err", 3);
    ("rsvd", 44) ].

Definition feature_fme_pcie0_error : reg := Reg
  [ ("formattype_err", 1); ("MWAddr_err", 1); ("MWAddrLength_err", 1);
    ("MRAddr_err", 1); ("MRAddrLength_err", 1); ("cpl_tag_err", 1);
    ("cpl_status_err", 1); ("cpl_timeout_err", 1); ("cci_parity_err", 1);
    ("rxpoison_tlp_err", 1); ("rsvd", 52); ("vfnumb_err", 1); ("funct_type_err", 1) ].

Definition feature_fme_pcie1_error : reg := Reg
  [ ("formattype_err", 1); ("MWAddr_err", 1); ("MWAddrLength_err", 1);
    ("MRAddr_err", 1); ("MRAddrLength_err", 1); ("cpl_tag_err", 1);
    ("cpl_status_err", 1); ("cpl_timeout_err", 1); ("cci_parity_err", 1);
    ("rxpoison_tlp_err", 1); ("rsvd", 54) ].

Definition feature_fme_first_error : reg := Reg
  [ ("err_reg_status", 60); ("errReg_id", 4) ].

Definition feature_fme_next_error : reg := Reg
  [ ("err_reg_status", 60); ("errReg_id", 4) ].

Definition feature_fme_ras_nonfaterror : reg := Reg
  [ ("temp_thresh_ap1", 1); ("temp_thresh_ap2", 1); ("pcie_error", 1);
    ("portfatal_error", 1); ("proc_hot", 1); ("afu_acc_mode_err", 1);
    ("injected_nonfata_err", 1); ("rsvd1", 2); ("temp_thresh_AP6", 1);
    ("power_thresh_AP1", 1); ("power_thresh_AP2", 1); ("mbp_err", 1); ("rsvd2", 51) ].

Definition feature_fme_ras_catfaterror : reg := Reg
  [ ("ktilink_fatal_err", 1); ("tagcch_fatal_err", 1); ("cci_fatal_err", 1);
    ("ktiprpto_fatal_err", 1); ("dram_fatal_err", 1); ("iommu_fatal_err", 1);
    ("fabric_fatal_err", 1); ("pcie_poison_err", 1); ("inject_fata_err", 1);
    ("crc_catast_err", 1); ("therm_catast_err", 1); ("injected_catast_err", 1);
    ("rsvd", 52) ].

Definition feature_fme_ras_error_inj : reg := Reg
  [ ("catast_error", 1); ("fatal_error", 1); ("nonfatal_error", 1); ("rsvd", 61) ].

Definition feature_fme_error_capability : reg := Reg
  [ ("support_intr", 1); ("intr_vector_num", 12); ("rsvd", 51) ].

Definition feature_fme_err : block := Block
  [ ("header", sizeof_reg feature_header);
    ("fme_err_mask", sizeof_reg feature_fme_error0);
    ("fme_err", sizeof_reg feature_fme_error0);
    ("pcie0_err_mask", sizeof_reg feature_fme_pcie0_error);
    ("pcie0_err", sizeof_reg feature_fme_pcie0_error);
    ("pcie1_err_mask", sizeof_reg feature_fme_pcie1_error);
    ("pcie1_err", sizeof_reg feature_fme_pcie1_error);
    ("fme_first_err", sizeof_reg feature_fme_first_error);
    ("fme_next_err", sizeof_reg feature_fme_next_error);
    ("ras_nonfat_mask", sizeof_reg feature_fme_ras_nonfaterror);
    ("ras_nonfaterr", sizeof_reg feature_fme_ras_nonfaterror);
    ("ras_catfat_mask", sizeof_reg feature_fme_ras_catfaterror);
    ("ras_catfaterr", sizeof_reg feature_fme_ras_catfaterror);
    ("ras_error_inj", sizeof_reg feature_fme_ras_error_inj);
    ("fme_err_capability", sizeof_reg feature_fme_error_capability) ].

Definition feature_fme_pr_ctl : reg := Reg
  [ ("pr_reset", 1); ("rsvd3", 3); ("pr_reset_ack", 1); ("rsvd4", 3);
    ("pr_regionid", 2); ("rsvd1", 2); ("pr_start_req", 1); ("pr_push_complete", 1);
    ("pr_kind", 1); ("rsvd", 17); ("config_data", 32) ].

Definition feature_fme_pr_status : reg := Reg
  [ ("pr_credit", 9); ("rsvd2", 7); ("pr_status", 1); ("rsvd", 3);
    ("pr_contoller_status", 3); ("rsvd1", 1); ("pr_host_status", 4); ("rsvd3", 4);
    ("security_bstatus", 32) ].

Definition feature_fme_pr_data : reg := Reg
  [ ("pr_data_raw", 32); ("rsvd", 32) ].

Definition feature_fme_pr_key : reg := Reg
  [ ("key", 64) ].

Definition feature_fme_pr : block := Block
  [ ("header", sizeof_reg feature_header);
    ("ccip_fme_pr_control", sizeof_reg feature_fme_pr_ctl);
    ("ccip_fme_pr_status", sizeof_reg feature_fme_pr_status);
    ("ccip_fme_pr_data", sizeof_reg feature_fme_pr_data); ("ccip_fme_pr_err", 8);
    ("rsvd1", 3 * 8); ("fme_pr_data1", 8); ("fme_pr_data2", 8); ("fme_pr_data3", 8);
    ("fme_pr_data4", 8); ("fme_pr_data5", 8); ("fme_pr_data6", 8); ("fme_pr_data7", 8);
    ("fme_pr_data8", 8); ("rsvd2", 5 * 8); ("fme_pr_intfc_id_l", 8);
    ("fme_pr_intfc_id_h", 8) ].

Definition feature_fme_emif_status : reg := Reg
  [ ("complete", 2); ("rsvd1", 6); ("cal_failure", 2); ("rsvd2", 6); ("active", 2);
    ("rsvd3", 46) ].

Definition feature_fme_emif_control : reg := Reg
  [ ("clear", 2); ("rsvd", 62) ].

Definition feature_fme_emif : block := Block
  [ ("header", sizeof_reg feature_header);
    ("status", sizeof_reg feature_fme_emif_status);
    ("control", sizeof_reg feature_fme_emif_control) ].

Definition feature_fme_s10_sdm_mb : block := Block
  [ ("ctrl", 4); ("addr", 4); ("writedata", 4); ("readdata", 4) ].

Definition feature_port_err_key : reg := Reg
  [ ("tx_ch0_overflow", 1); ("tx_ch0_invaldreq", 1); ("tx_ch0_cl_len3", 1);
    ("tx_ch0_cl_len2", 1); ("tx_ch0_cl_len4", 1); ("rsvd1", 4);
    ("mmio_rd_whilerst", 1); ("mmio_wr_whilerst", 1); ("rsvd2", 5);
    ("tx_ch1_overflow", 1); ("tx_ch1_invaldreq", 1); ("tx_ch1_cl_len3", 1);
    ("tx_ch1_cl_len2", 1); ("tx_ch1_cl_len4", 1); ("tx_ch1_insuff_data", 1);
    ("tx_ch1_data_overrun", 1); ("tx_ch1_incorr_addr", 1); ("tx_ch1_nzsop", 1);
    ("tx_ch1_illegal_vcsel", 1); ("rsvd3", 6); ("mmioread_timeout", 1);
    ("tx_ch2_fifo_overflow", 1); ("unexp_mmio_resp", 1); ("rsvd4", 5);
    ("tx_req_counter_overflow", 1); ("llpr_smrr_err", 1); ("llpr_smrr2_err", 1);
    ("llpr_mesg_err", 1); ("genprot_range_err", 1); ("legrange_low_err", 1);
    ("legrange_high_err", 1); ("vgmem_range_err", 1); ("page_fault_err", 1);
    ("pmr_err", 1); ("ap6_event", 1); ("vfflr_access_err", 1); ("rsvd5", 12) ].

Definition feature_port_first_err_key : reg := Reg
  [ ("tx_ch0_overflow", 1); ("tx_ch0_invaldreq", 1); ("tx_ch0_cl_len3", 1);
    ("tx_ch0_cl_len2", 1); ("tx_ch0_cl_len4", 1); ("rsvd1", 4);
    ("mmio_rd_whilerst", 1); ("mmio_wr_whilerst", 1); ("rsvd2", 5);
    ("tx_ch1_overflow", 1); ("tx_ch1_invaldreq", 1); ("tx_ch1_cl_len3", 1);
    ("tx_ch1_cl_len2", 1); ("tx_ch1_cl_len4", 1); ("tx_ch1_insuff_data", 1);
    ("tx_ch1_data_overrun", 1); ("tx_ch1_incorr_addr", 1); ("tx_ch1_nzsop", 1);
    ("tx_ch1_illegal_vcsel", 1); ("rsvd3", 6); ("mmioread_timeout", 1);
    ("tx_ch2_fifo_overflow", 1); ("rsvd4", 6); ("tx_req_counter_overflow", 1);
    ("rsvd5", 23) ].

Definition feature_port_malformed_req0 : reg := Reg
  [ ("header_lsb", 64) ].

Definition feature_port_malformed_req1 : reg := Reg
  [ ("header_msb", 64) ].

Definition feature_port_debug : reg := Reg
  [ ("port_debug", 64) ].

Definition feature_port_err_capability : reg := Reg
  [ ("support_intr", 1); ("intr_vector_num", 12); ("rsvd", 51) ].

Definition feature_port_error : block := Block
  [ ("header", sizeof_reg feature_header);
    ("error_mask", sizeof_reg feature_port_err_key);
    ("port_error", sizeof_reg feature_port_err_key);
    ("port_first_error", sizeof_reg feature_port_first_err_key);
    ("malreq0", sizeof_reg feature_port_malformed_req0);
    ("malreq1", sizeof_reg feature_port_malformed_req1);
    ("port_debug", sizeof_reg feature_port_debug);
    ("error_capability", sizeof_reg feature_port_err_capability) ].

Definition feature_port_umsg_cap : reg := Reg
  [ ("umsg_allocated", 8); ("umsg_enable", 1); ("umsg_init_complete", 1);
    ("umsg_trans_error", 1); ("rsvd", 53) ].

Definition feature_port_umsg_baseaddr : reg := Reg
  [ ("base_addr", 48); ("rsvd", 16) ].

Definition feature_port_umsg_mode : reg := Reg
  [ ("umsg_hint_enable", 32); ("rsvd", 32) ].

Definition feature_port_umsg : block := Block
  [ ("header", sizeof_reg feature_header);
    ("capability", sizeof_reg feature_port_umsg_cap);
    ("baseaddr", sizeof_reg feature_port_umsg_baseaddr);
    ("mode", sizeof_reg feature_port_umsg_mode) ].

Definition feature_port_uint_cap : reg := Reg
  [ ("intr_num", 12); ("first_vec_num", 12); ("rsvd", 40) ].

Definition feature_port_uint : block := Block
  [ ("header", sizeof_reg feature_header);
    ("capability", sizeof_reg feature_port_uint_cap) ].

Definition feature_port_stp_status : reg := Reg
  [ ("sld_ep_timeout", 1); ("rstp_disabled", 1); ("unsupported_read", 1);
    ("mmio_timeout", 1); ("txfifo_count", 4); ("rxfifo_count", 4);
    ("txfifo_overflow", 1); ("txfifo_underflow", 1); ("rxfifo_overflow", 1);
    ("rxfifo_underflow", 1); ("write_requests", 16); ("read_requests", 16);
    ("read_responses", 16) ].

Definition feature_port_stp : block := Block
  [ ("header", sizeof_reg feature_header);
    ("stp_status", sizeof_reg feature_port_stp_status) ].

(** The registers of the header, by name. *)
Definition all_regs : list reg :=
  [ feature_header; feature_fiu_header_csr;
    feature_fme_capability; feature_fme_port;
    feature_fme_fab_status; feature_fme_genprotrange2_base;
    feature_fme_genprotrange2_limit; feature_fme_dxe_lock;
    feature_fme_bitstream_id; feature_fme_bitstream_md;
    feature_fme_iommu_ctrl; feature_fme_iommu_stat;
    feature_fme_pcie0_ctrl; feature_fme_llpr_smrr_base;
    feature_fme_llpr_smrr_mask; feature_fme_llpr_smrr2_base;
    feature_fme_llpr_smrr2_mask; feature_fme_llpr_meseg_base;
    feature_fme_llpr_meseg_limit; feature_port_capability;
    feature_port_control; feature_port_status;
    feature_fme_tmp_threshold; feature_fme_temp_rdsensor_fmt1;
    feature_fme_temp_rdsensor_fmt2; feature_fme_tmp_threshold_cap;
    feature_fme_pm_status; feature_fme_pm_ap_threshold;
    feature_fme_pm_xeon_limit; feature_fme_pm_fpga_limit;
    feature_fme_ifpmon_ch_ctl; feature_fme_ifpmon_ch_ctr;
    feature_fme_ifpmon_fab_ctl; feature_fme_ifpmon_fab_ctr;
    feature_fme_ifpmon_clk_ctr; feature_fme_ifpmon_vtd_ctl;
    feature_fme_ifpmon_vtd_ctr; feature_fme_ifpmon_vtd_sip_ctl;
    feature_fme_ifpmon_vtd_sip_ctr; feature_fme_dfpmon_fab_ctl;
    feature_fme_dfpmon_fab_ctr; feature_fme_dfpmon_clk_ctr;
    feature_fme_error0; feature_fme_pcie0_error;
    feature_fme_pcie1_error; feature_fme_first_error;
    feature_fme_next_error; feature_fme_ras_nonfaterror;
    feature_fme_ras_catfaterror; feature_fme_ras_error_inj;
    feature_fme_error_capability; feature_fme_pr_ctl;
    feature_fme_pr_status; feature_fme_pr_data;
    feature_fme_pr_key; feature_fme_emif_status;
    feature_fme_emif_control; feature_port_err_key;
    feature_port_first_err_key; feature_port_malformed_req0;
    feature_port_malformed_req1; feature_port_debug;
    feature_port_err_capability; feature_port_umsg_cap;
    feature_port_umsg_baseaddr; feature_port_umsg_mode;
    feature_port_uint_cap; feature_port_stp_status ].

Definition csr_blocks : list block :=
  [ feature_afu_header; feature_fiu_header; feature_fme_header;
    feature_port_header; feature_fme_thermal; feature_fme_power;
    feature_fme_iperf; feature_fme_dperf; feature_fme_err;
    feature_fme_pr; feature_fme_emif;
    feature_port_error; feature_port_umsg; feature_port_uint;
    feature_port_stp ].

(** ** Well-formedness of the layouts *)

(** Every member of a block that is read as a 64-bit CSR is 8-byte aligned:
    the offsets of all members but the 32-bit SDM mailbox words. *)
Definition members_aligned (k : Z) (b : block) : bool :=
  forallb (fun p => offsetof b (fst p) mod k =? 0) (blk_members b).

(** The bits of the fields of [r] that [keep] selects. *)
Definition fields_mask (r : reg) (keep : string -> bool) : Z :=
  foldr (fun p m =>
           match locate (reg_fields r) (fst p) 0 with
           | Some (o, w) => if keep (fst p) then Z.lor m (Z.shiftl (Z.ones w) o) else m
           | None => m
           end) 0 (reg_fields r).

Definition is_rsvd (n : string) : bool := String.prefix "rsvd" n.

(** The error bits that the header documents in [feature_port_err_key]. *)
Definition port_err_bits : Z := fields_mask feature_port_err_key (fun n => negb (is_rsvd n)).

Lemma all_regs_wf r : r ∈ all_regs -> reg_wf r = true.
Proof.
  intros H. assert (forallb reg_wf all_regs = true) as Hall by (vm_compute; reflexivity).
  rewrite forallb_forall in Hall. apply Hall, list_elem_of_In, H.
Qed.

(** Solves [reg_wf r = true], [has_field r n = true] and width goals. *)
Ltac reg_tac := vm_compute; reflexivity.

(** The packed register structures of feature-dev.h are faithful images
    of 64-bit registers: in each of the 68 structures the field names are
    distinct, no field is empty and the widths add up to exactly 64, so the
    bit-field view and the [csr] view of the union describe the same bits. *)
Lemma registers_tile_64_bits :
  Forall (fun r => NoDup (map fst (reg_fields r)) /\
                   Forall (fun p => 0 < snd p) (reg_fields r) /\
                   total (reg_fields r) = 64) all_regs.
Proof.
  apply Forall_forall. intros r Hr%list_elem_of_In%all_regs_wf.
  split_and!; [|by apply struct_wf_widths, reg_wf_struct|by apply reg_wf_total].
  unfold reg_wf, struct_wf in Hr. boolify. by apply bool_decide_eq_true in H.
Qed.

(** The register blocks place every 64-bit register at a multiple of 8
    bytes, as readq and writeq require, and the 512-bit push window of the PR
    block (fme_pr_data1 .. fme_pr_data8) is 64 contiguous bytes at a multiple
    of 64, as the non-temporal vector store of copy512 requires. *)
Lemma blocks_aligned :
  Forall (fun b => forall n w, (n, w) ∈ blk_members b -> (8 | offsetof b n)) csr_blocks /\
  (64 | offsetof feature_fme_pr "fme_pr_data1") /\
  map (offsetof feature_fme_pr)
    ["fme_pr_data1"; "fme_pr_data2"; "fme_pr_data3"; "fme_pr_data4";
     "fme_pr_data5"; "fme_pr_data6"; "fme_pr_data7"; "fme_pr_data8"]
  = map (fun i => offsetof feature_fme_pr "fme_pr_data1" + 8 * Z.of_nat i) (seq 0 8).
Proof.
  split_and!.
  - assert (forallb (members_aligned 8) csr_blocks = true) as H by reg_tac.
    rewrite forallb_forall in H. apply Forall_forall. intros b Hb n w Hn.
    specialize (H b Hb). unfold members_aligned in H. rewrite forallb_forall in H.
    specialize (H (n, w) (proj1 (list_elem_of_In _ _) Hn)). simpl in H.
    apply Z.eqb_eq in H. by apply Z.mod_divide.
  - by apply Z.mod_divide.
  - reflexivity.
Qed.

(** PORT_ERR_MASK, the value port_err_mask writes to mask every port
    error, covers only error bits of [feature_port_err_key] but not all of
    them: the two "MMIO access while the port is in reset" bits,
    mmio_rd_whilerst and mmio_wr_whilerst, are the ones it leaves unmasked. *)
Lemma port_err_mask_misses_whilerst :
  Z.land PORT_ERR_MASK port_err_bits = PORT_ERR_MASK /\
  Z.ldiff port_err_bits PORT_ERR_MASK =
    fields_mask feature_port_err_key
      (fun n => String.eqb n "mmio_rd_whilerst" || String.eqb n "mmio_wr_whilerst").
Proof. split; reflexivity. Qed.
