(* ===== verification/Mmio.v ===== *)
(** * Memory-mapped I/O

    The device behind the BARs is not C code: it is a parameter.  An instance
    of [Mmio D] gives the effect of one 64-bit read and of one 64-bit write on
    the state [D] of the hardware; a read may change that state (status
    registers, counters), which is how a register that the hardware updates
    between two reads is described.  [MmioMem] adds the laws of a plain
    register file, which the theorems that read a register back rely on. *)

From S2P Require Import Prelude.
From S2P Require Import Bitfield.
From S2P Require Import Registers.

Class Mmio (D : Type) := {
  dev_readq : Z -> D -> Z * D;
  dev_writeq : Z -> Z -> D -> D;
}.

(** Reads deliver 64-bit values. *)
Class MmioOk (D : Type) `{Mmio D} := {
  readq_u64 : forall a d, is_u64 (fst (dev_readq a d));
}.

(** Registers without side effects: a read changes nothing, a write changes at
    most the register written. *)
Class MmioReg (D : Type) `{Mmio D} := {
  mem_read_pure : forall a d, snd (dev_readq a d) = d;
  mem_write_other : forall a b v d,
    a <> b -> fst (dev_readq b (dev_writeq a v d)) = fst (dev_readq b d);
}.

(** Plain storage: each register holds the value written last. *)
Class MmioMem (D : Type) `{Mmio D} := {
  mem_reg :: MmioReg D;
  mem_write_same : forall a v d, is_u64 v -> fst (dev_readq a (dev_writeq a v d)) = v;
}.

(** Plain storage but for the registers at [W]: writing a 1 to a bit of those
    clears it, writing a 0 leaves it. *)
Class MmioW1c (W : list Z) (D : Type) `{Mmio D} := {
  w1c_reg :: MmioReg D;
  w1c_plain : forall a v d, a ∉ W -> is_u64 v -> fst (dev_readq a (dev_writeq a v d)) = v;
  w1c_clear : forall a v d, a ∈ W -> is_u64 v ->
    fst (dev_readq a (dev_writeq a v d)) = Z.ldiff (fst (dev_readq a d)) v;
}.

(** ** A register file *)

Definition mem_dev : Type := gmap Z Z.

#[export] Instance mem_dev_mmio : Mmio mem_dev := {|
  dev_readq a d := (u64 (default 0 (@lookup Z Z (gmap Z Z) _ a d)), d);
  dev_writeq a v d := @insert Z Z (gmap Z Z) _ a v d;
|}.

#[export] Instance mem_dev_ok : MmioOk mem_dev.
Proof. constructor. intros. apply u64_range. Qed.

#[export] Instance mem_dev_mem : MmioMem mem_dev.
Proof.
  constructor; [constructor|]; simpl.
  - done.
  - intros a b v d Hne. by rewrite (lookup_insert_ne (M := gmap Z)).
  - intros a v d Hv. rewrite (lookup_insert_eq (M := gmap Z)). by apply u64_small.
Qed.

Section Access.
Context {D : Type} {dev : Mmio D}.

(** [readq(addr)] and [writeq(v, addr)] as computations on the device. *)
Definition readq (a : Z) : K D Z := fun d => Some (dev_readq a d).
Definition writeq (v a : Z) : K D unit := fun d => Some (tt, dev_writeq a v d).

Local Arguments readq a d /.
Local Arguments writeq v a d /.

(** The read-modify-write that the drivers use to change one field. *)
Definition update_field (r : reg) (n : string) (v a : Z) : K D unit :=
  csr <- readq a ;; writeq (fset r n v csr) a.

(** fpga_wait_register_field(_field, _expect, _reg_addr, _timeout, _invl):
    [for (; wait <= _timeout; wait += _invl)] reads the register and stops
    when the field equals [expect].  [fuel] bounds the number of rounds; the
    loop itself makes [_timeout / _invl + 1] of them. *)
Fixpoint wait_loop (fuel : nat) (r : reg) (n : string) (expect a wait timeout invl : Z)
  : K D Z :=
  match fuel with
  | O => oops
  | S fuel =>
      if wait <=? timeout then
        value <- readq a ;;
        if expect =? fget r n value then kret 0
        else wait_loop fuel r n expect a (wait + invl) timeout invl
      else kret (- ETIMEDOUT)
  end.

Definition wait_rounds (timeout invl : Z) : nat := Z.to_nat (timeout / invl) + 2.

Definition fpga_wait_register_field (r : reg) (n : string) (expect a timeout invl : Z)
  : K D Z :=
  wait_loop (wait_rounds timeout invl) r n expect a 0 timeout invl.

(** The device after [k] reads of [a], and the value of the [k]-th read. *)
Fixpoint after_reads (k : nat) (a : Z) (d : D) : D :=
  match k with O => d | S k => after_reads k a (snd (dev_readq a d)) end.
Definition nth_read (k : nat) (a : Z) (d : D) : Z := fst (dev_readq a (after_reads k a d)).

Lemma after_reads_S k a d :
  after_reads k a (snd (dev_readq a d)) = after_reads (S k) a d.
Proof. reflexivity. Qed.

(** *** The polling loop *)

Lemma wait_loop_total fuel r n e a w t i d :
  0 < i -> (0 < fuel)%nat -> t - w < i * (Z.of_nat fuel - 1) ->
  is_Some (wait_loop fuel r n e a w t i d).
Proof.
  intros Hi. revert w d. induction fuel as [|fuel IH]; intros w d H0 Hf; simpl.
  - lia.
  - destruct (w <=? t) eqn:Hw; [|by eexists]. boolify.
    assert (0 < fuel)%nat by nia. simpl.
    destruct (dev_readq a d) as [v d'] eqn:Hr. simpl.
    destruct (e =? fget r n v); [eexists; reflexivity|]. apply IH; lia.
Qed.

Lemma wait_rounds_enough t i : 0 < i -> t < i * (Z.of_nat (wait_rounds t i) - 1).
Proof.
  intros Hi. unfold wait_rounds. destruct (Z.lt_ge_cases t 0).
  - nia.
  - pose proof (Z.div_pos t i ltac:(lia) Hi).
    pose proof (Z.mul_succ_div_gt t i Hi). nia.
Qed.

(** The loop returns 0 exactly at the first matching read, [-ETIMEDOUT]
    after all the rounds mismatched. *)
Lemma wait_loop_spec fuel r n e a w t i d x d' :
  0 < i -> wait_loop fuel r n e a w t i d = Some (x, d') ->
  (x = 0 /\ exists k,
      w + i * Z.of_nat k <= t /\ e = fget r n (nth_read k a d) /\
      (forall j, (j < k)%nat -> e <> fget r n (nth_read j a d)) /\
      d' = after_reads (S k) a d) \/
  (x = - ETIMEDOUT /\
   (forall j, w + i * Z.of_nat j <= t -> e <> fget r n (nth_read j a d))).
Proof.
  intros Hi. revert w d. induction fuel as [|fuel IH]; intros w d H; [discriminate|].
  simpl in H. destruct (w <=? t) eqn:Hw; boolify; simpl in H.
  - destruct (dev_readq a d) as [v d1] eqn:Hr. simpl in H.
    assert (Hv : nth_read 0 a d = v) by (unfold nth_read; simpl; by rewrite Hr).
    assert (Hs : forall k, nth_read (S k) a d = nth_read k a d1).
    { intros k. unfold nth_read. by rewrite <- after_reads_S, Hr. }
    destruct (e =? fget r n v) eqn:He; boolify.
    + injection H as <- <-. left. split; [done|]. exists 0%nat. rewrite Hv.
      split_and!; [lia | done | lia | ]. simpl. by rewrite Hr.
    + apply IH in H as [[-> (k & Hk & Hm & Hb & ->)]|[-> Hb]].
      * left. split; [done|]. exists (S k). rewrite Hs. split_and!; [lia|done| |].
        -- intros [|j] Hj; [congruence|]. rewrite Hs. apply Hb. lia.
        -- simpl. by rewrite Hr.
      * right. split; [done|]. intros [|j] Hj; [congruence|]. rewrite Hs. apply Hb. lia.
  - injection H as <- <-. right. split; [done|]. intros. lia.
Qed.

(** *** Read-modify-write on plain storage *)

Lemma update_field_mem {mem : MmioMem D} {ok : MmioOk D} r n v a d :
  reg_wf r = true ->
  update_field r n v a d =
    Some (tt, dev_writeq a (fset r n v (fst (dev_readq a d))) d).
Proof.
  intros Hwf. unfold update_field, readq, writeq. simpl.
  rewrite (surjective_pairing (dev_readq a d)). simpl. by rewrite mem_read_pure.
Qed.

Lemma update_field_read_same {mem : MmioMem D} {ok : MmioOk D} r n v a d :
  reg_wf r = true -> has_field r n = true ->
  fget r n (fst (dev_readq a (dev_writeq a (fset r n v (fst (dev_readq a d))) d)))
  = wrap (width r n) v.
Proof.
  intros Hwf Hf. rewrite mem_write_same by (apply fset_range; [done | apply readq_u64]).
  apply fget_fset_same; auto with kernel.
Qed.
End Access.

Arguments readq {D dev} a d /.
Arguments writeq {D dev} v a d /.

(** Polling a register field terminates and is exact: with a positive
    interval, fpga_wait_register_field always returns; it returns 0 iff one of
    the reads made within the timeout matches, stopping at the first such read,
    and -ETIMEDOUT iff none of the [_timeout / _invl + 1] reads matches. *)
Lemma fpga_wait_register_field_spec {D} {dev : Mmio D} r n e a t i (d : D) :
  0 < i ->
  exists x d',
    fpga_wait_register_field r n e a t i d = Some (x, d') /\
    ((x = 0 /\ exists k,
         i * Z.of_nat k <= t /\ e = fget r n (nth_read k a d) /\
         (forall j, (j < k)%nat -> e <> fget r n (nth_read j a d)) /\
         d' = after_reads (S k) a d) \/
     (x = - ETIMEDOUT /\
      forall j, i * Z.of_nat j <= t -> e <> fget r n (nth_read j a d))).
Proof.
  intros Hi. unfold fpga_wait_register_field.
  destruct (wait_loop_total (wait_rounds t i) r n e a 0 t i d Hi) as [[x d'] Hx].
  { unfold wait_rounds. lia. }
  { pose proof (wait_rounds_enough t i Hi). lia. }
  exists x, d'. split; [exact Hx|].
  apply wait_loop_spec in Hx; [|exact Hi]. simpl in Hx. exact Hx.
Qed.

(** A status register that becomes 1 at its third read. *)
Definition count_dev : Type := nat.
#[export] Instance count_dev_mmio : Mmio count_dev := {|
  dev_readq _ k := (if (2 <=? k)%nat then 1 else 0, S k);
  dev_writeq _ _ k := k;
|}.

Lemma fpga_wait_register_field_witness :
  fpga_wait_register_field feature_port_umsg_mode "umsg_hint_enable" 1 0 100 10 (0%nat : count_dev)
    = Some (0, 3%nat) /\
  exists x d',
    fpga_wait_register_field feature_port_umsg_mode "umsg_hint_enable" 1 0 100 10
      (0%nat : count_dev) = Some (x, d') /\
    ((x = 0 /\ exists k,
         10 * Z.of_nat k <= 100 /\
         1 = fget feature_port_umsg_mode "umsg_hint_enable" (nth_read k 0 (0%nat : count_dev)) /\
         (forall j, (j < k)%nat ->
            1 <> fget feature_port_umsg_mode "umsg_hint_enable" (nth_read j 0 (0%nat : count_dev))) /\
         d' = after_reads (S k) 0 (0%nat : count_dev)) \/
     (x = - ETIMEDOUT /\
      forall j, 10 * Z.of_nat j <= 100 ->
        1 <> fget feature_port_umsg_mode "umsg_hint_enable" (nth_read j 0 (0%nat : count_dev)))).
Proof. split; [reflexivity|]. apply fpga_wait_register_field_spec. lia. Defined.
