(* ===== verification/Mmio32.v ===== *)
(** * Byte and 32-bit register access

    Some blocks are accessed in bytes and 32-bit words.  As with [Mmio], a read
    may change the device. *)

From S2P Require Import Prelude.
Local Open Scope list_scope.

Class Mmio32 (D : Type) := {
  dev_readl : Z -> D -> Z * D;
  dev_writel : Z -> Z -> D -> D;
  dev_readb : Z -> D -> Z * D;
  dev_writeb : Z -> Z -> D -> D;
}.

Section Access.
Context {D : Type} {dev : Mmio32 D}.

(** readl and ioread32, writel and iowrite32, readb, writeb and iowrite8. *)
Definition readl (a : Z) : K D Z := fun d => Some (dev_readl a d).
Definition writel (v a : Z) : K D unit := kmod (dev_writel a v).
Definition readb (a : Z) : K D Z := fun d => Some (dev_readb a d).
Definition writeb (v a : Z) : K D unit := kmod (dev_writeb a (u8 v)).

Fixpoint iowrite8_rep (a : Z) (buf : list Z) : K D unit :=
  match buf with [] => kret tt | b :: buf => writeb b a ;; iowrite8_rep a buf end.
Fixpoint ioread8_rep (a : Z) (count : nat) : K D (list Z) :=
  match count with
  | O => kret []
  | S count => b <- readb a ;; bs <- ioread8_rep a count ;; kret (b :: bs)
  end.
End Access.
