(* ===== verification/Loops.v ===== *)
(** * Bounded loops

    Loops of the code that end because a clock or a counter runs out can make
    millions of rounds.  [kwhile] runs such a loop with its bound in binary, so
    that it stays executable; a loop that exceeds the bound is an oops, and the
    variant rule [kwhile_run] is how a theorem shows that it does not.
    [returns] is the Hoare triple of a computation that always ends. *)

From S2P Require Import Prelude.

Section Loop.
Context {S A B : Type}.
Variable body : A -> K S (A + B).

(** At most [n] rounds; each either goes on with a new [A] or ends with a [B]. *)
Fixpoint kloop (n : positive) (a : A) : K S (A + B) :=
  match n with
  | xH => body a
  | xO n => r <- kloop n a ;; match r with inl a => kloop n a | inr b => kret (inr b) end
  | xI n =>
      r <- body a ;;
      match r with
      | inl a => r <- kloop n a ;; match r with inl a => kloop n a | inr b => kret (inr b) end
      | inr b => kret (inr b)
      end
  end.

Definition kwhile (n : positive) (a : A) : K S B :=
  r <- kloop n a ;; match r with inl _ => oops | inr b => kret b end.

(** The same rounds counted in unary, for the proofs. *)
Fixpoint nloop (n : nat) (a : A) : K S (A + B) :=
  match n with
  | O => kret (inl a)
  | Datatypes.S n => r <- body a ;; match r with inl a => nloop n a | inr b => kret (inr b) end
  end.

Lemma nloop_add m n a s :
  nloop (m + n) a s = (r <- nloop m a ;; match r with inl a => nloop n a | inr b => kret (inr b) end) s.
Proof.
  revert a s. induction m as [|m IH]; intros a s; [done|]. simpl.
  destruct (body a s) as [[[a'|b] s']|]; [apply IH | done | done].
Qed.

Lemma kloop_nloop n a s : kloop n a s = nloop (Pos.to_nat n) a s.
Proof.
  revert a s. induction n as [n IH|n IH|]; intros a s.
  - rewrite Pos2Nat.inj_xI. cbn [kloop nloop]. unfold kbind at 1 3.
    destruct (body a s) as [[[a'|b] s']|]; [|done..].
    replace (2 * Pos.to_nat n)%nat with (Pos.to_nat n + Pos.to_nat n)%nat by lia.
    rewrite nloop_add. unfold kbind. rewrite IH.
    destruct (nloop (Pos.to_nat n) a' s') as [[[a2|b] s2]|]; [apply IH | done..].
  - rewrite Pos2Nat.inj_xO. cbn [kloop].
    replace (2 * Pos.to_nat n)%nat with (Pos.to_nat n + Pos.to_nat n)%nat by lia.
    rewrite nloop_add. unfold kbind. rewrite IH.
    destruct (nloop (Pos.to_nat n) a s) as [[[a2|b] s2]|]; [apply IH | done..].
  - change (Pos.to_nat 1) with 1%nat. cbn [kloop nloop]. unfold kbind.
    by destruct (body a s) as [[[a'|b] s']|].
Qed.

(** The variant rule: while [Inv k] holds at most [k] more rounds follow. *)
Lemma kwhile_run (Inv : nat -> A -> S -> Prop) (Post : B -> S -> Prop) n k a s :
  (forall k a s, Inv k a s -> exists r s', body a s = Some (r, s') /\
     match r with
     | inl a' => exists k', (k' < k)%nat /\ Inv k' a' s'
     | inr b => Post b s'
     end) ->
  Inv k a s -> (k < Pos.to_nat n)%nat ->
  exists b s', kwhile n a s = Some (b, s') /\ Post b s'.
Proof.
  intros Hbody. unfold kwhile. generalize (Pos.to_nat n) (kloop_nloop n a s). intros m Hm HI Hk.
  unfold kbind. rewrite Hm. clear Hm. revert m a s HI Hk. induction k as [k IH] using lt_wf_ind.
  intros [|m] a s HI Hk; [lia|]. destruct (Hbody k a s HI) as (r & s' & Hrun & Hr).
  cbn [nloop]. unfold kbind at 1. rewrite Hrun. destruct r as [a'|b].
  - destruct Hr as (k' & Hk' & HI'). apply (IH k' Hk' m a' s' HI'). lia.
  - exists b, s'. by split.
Qed.

(** What every round keeps, the loop keeps. *)
Lemma kwhile_preserves (I : S -> Prop) n a :
  (forall a, preserves I (body a)) -> preserves I (kwhile n a).
Proof.
  intros Hb s b s' HI. unfold kwhile. unfold kbind. rewrite kloop_nloop.
  destruct (nloop (Pos.to_nat n) a s) as [[[a2|b2] s2]|] eqn:E; try discriminate.
  intros [= <- <-]. revert a s HI E. generalize (Pos.to_nat n). intros m.
  induction m as [|m IH]; intros a s HI E; [discriminate|]. cbn [nloop] in E. unfold kbind in E.
  destruct (body a s) as [[[a1|b1] s1]|] eqn:E1; [|by injection E as <- <-; eapply Hb | discriminate].
  eapply IH, E. by eapply Hb.
Qed.
End Loop.

Arguments kloop {S A B} body n a : simpl never.
Arguments kwhile {S A B} body n a : simpl never.

(** ** Computations with a known result *)

(** From [s], [op] ends with [a] in a state of [P]. *)
Definition ends {S A} (op : K S A) (a : A) (P : S -> Prop) (s : S) : Prop := exists s', op s = Some (a, s') /\ P s'.

Section Ends.
Context {S A B : Type}.
Implicit Types (op : K S A) (P Q : S -> Prop) (s : S) (b : B).

Lemma ends_bind op (k : A -> K S B) a b P Q s :
  ends op a P s -> (forall s1, P s1 -> ends (k a) b Q s1) -> ends (kbind op k) b Q s.
Proof.
  intros (s1 & Hrun & HP) H. destruct (H s1 HP) as (s2 & Hrun2 & HQ). exists s2. by rewrite (kbind_run _ _ _ _ _ Hrun).
Qed.
Lemma ends_deref (o : option A) v (k : A -> K S B) b P s : o = Some v -> ends (k v) b P s -> ends (kbind (deref o) k) b P s.
Proof. intros -> H. exact H. Qed.
Lemma ends_mod f (k : unit -> K S B) b P s : ends (k tt) b P (f s) -> ends (kbind (kmod f) k) b P s.
Proof. done. Qed.
Lemma ends_get (k : S -> K S B) b P s : ends (k s) b P s -> ends (kbind kget k) b P s.
Proof. done. Qed.
Lemma ends_gets (f : S -> A) (k : A -> K S B) b P s : ends (k (f s)) b P s -> ends (kbind (kgets f) k) b P s.
Proof. done. Qed.
Lemma ends_ret a P s : P s -> ends (kret (S := S) (A := A) a) a P s.
Proof. intros H. by exists s. Qed.
Lemma ends_weaken op a P Q s : ends op a P s -> (forall s', P s' -> Q s') -> ends op a Q s.
Proof. intros (s' & H & HP) HPQ. exists s'. auto. Qed.
End Ends.

(** ** Computations that always end *)

(** From every state of [I], [c] ends with a result in [R] and a state of [I]. *)
Definition returns {S A} (I : S -> Prop) (c : K S A) (R : A -> Prop) : Prop :=
  forall s, I s -> exists a s', c s = Some (a, s') /\ R a /\ I s'.

Lemma returns_bind {S A B} (I : S -> Prop) (c : K S A) (f : A -> K S B) R Q :
  returns I c R -> (forall a, R a -> returns I (f a) Q) -> returns I (kbind c f) Q.
Proof.
  intros Hc Hf s Hs. destruct (Hc s Hs) as (a & s1 & H1 & Ha & Hs1).
  destruct (Hf a Ha s1 Hs1) as (b & s2 & H2 & Hb & Hs2).
  exists b, s2. by rewrite (kbind_run _ _ _ _ _ H1).
Qed.

Lemma returns_ret {S A} (I : S -> Prop) (a : A) (R : A -> Prop) : R a -> returns I (kret a) R.
Proof. intros Ha s Hs. by exists a, s. Qed.

Lemma returns_weaken {S A} (I : S -> Prop) (c : K S A) (R Q : A -> Prop) :
  returns I c R -> (forall a, R a -> Q a) -> returns I c Q.
Proof. intros Hc HR s Hs. destruct (Hc s Hs) as (a & s' & H & Ha & Hs'). exists a, s'. auto. Qed.

(** The variant rule for a loop whose counter is in its data. *)
Lemma returns_while {S A B} (body : A -> K S (A + B)) (I : S -> Prop) (left : A -> nat) (R : B -> Prop) n a :
  (forall a, returns I (body a)
     (fun r => match r with inl a' => (left a' < left a)%nat | inr b => R b end)) ->
  (left a < Pos.to_nat n)%nat -> returns I (kwhile body n a) R.
Proof.
  intros Hb Hn s Hs.
  destruct (kwhile_run body (fun k a s => k = left a /\ I s) (fun b s => R b /\ I s) n (left a) a s)
    as (b & s' & Hrun & Hr & Hs'); [|done|done|by exists b, s'].
  intros k a0 s0 [-> HI]. destruct (Hb a0 s0 HI) as (r & s1 & H & Hr & H1).
  exists r, s1. split; [done|]. destruct r as [a'|b]; [|done]. by exists (left a').
Qed.
