(* ===== verification/Poll.v ===== *)
(** * Polling with a deadline (include/linux/iopoll-mod.h)

    The kernel's clock and delays belong to the hardware the driver runs on:
    an instance of [Clock D] says what time it is in a state of the device and
    how the device changes while the driver sleeps.  [ClockOk] is what the
    macros rely on: time does not run backwards, and a sleep lasts at least as
    long as asked. *)

From S2P Require Import Prelude.
From S2P Require Import Mmio.
From S2P Require Import Loops.

(** Time in nanoseconds. *)
Class Clock (D : Type) := {
  ktime_get : D -> Z;
  dev_usleep_range : Z -> Z -> D -> D;   (* min, max in microseconds *)
  dev_udelay : Z -> D -> D;
}.

Class ClockOk (D : Type) {dev : Mmio D} {clock : Clock D} := {
  readq_time : forall a d, ktime_get d <= ktime_get (snd (dev_readq a d));
  writeq_time : forall a v d, ktime_get d <= ktime_get (dev_writeq a v d);
  usleep_time : forall lo hi d, 0 <= lo <= hi -> ktime_get d + 1000 * lo <= ktime_get (dev_usleep_range lo hi d);
  udelay_time : forall us d, 0 <= us -> ktime_get d + 1000 * us <= ktime_get (dev_udelay us d);
}.

Section Poll.
Context {D : Type} {clock : Clock D}.

Definition usleep_range (lo hi : Z) : K D unit := kmod (dev_usleep_range lo hi).
Definition udelay (us : Z) : K D unit := kmod (dev_udelay us).
Definition mdelay (ms : Z) : K D unit := udelay (1000 * ms).
Definition msleep (ms : Z) : K D unit := usleep_range (1000 * ms) (1000 * ms).

Variable op : K D Z.
Variable cond : Z -> bool.

(** One round of the loop of readx_poll_timeout; what it ends with is the
    result and [val]. *)
Definition poll_round (sleep_us timeout_us deadline : Z) : K D (unit + Z * Z) :=
  val <- op ;;
  if cond val then kret (inr (0, val))
  else
    now <- kgets ktime_get ;;
    if istrue timeout_us && (deadline <? now) then
      val <- op ;;
      kret (inr (if cond val then 0 else - ETIMEDOUT, val))
    else
      (if istrue sleep_us then usleep_range (Z.shiftr sleep_us 2 + 1) sleep_us else kret tt) ;;
      kret (inl tt).

(** Every round before the deadline sleeps for [(sleep_us >> 2) + 1]. *)
Definition poll_rounds (sleep_us timeout_us : Z) : positive :=
  Z.to_pos (timeout_us / (Z.shiftr sleep_us 2 + 1) + 3).

Definition readx_poll_timeout (sleep_us timeout_us : Z) : K D (Z * Z) :=
  now <- kgets ktime_get ;;
  kwhile (fun _ => poll_round sleep_us timeout_us (now + 1000 * timeout_us))
    (poll_rounds sleep_us timeout_us) tt.

(** With a clock that advances, the poll ends: 0 with a value that satisfies
    the condition, or -ETIMEDOUT.  It keeps what [op] and sleeping keep. *)
Lemma poll_returns (I : D -> Prop) sleep_us timeout_us :
  0 < sleep_us -> 0 < timeout_us ->
  (forall d v d', op d = Some (v, d') -> ktime_get d <= ktime_get d') ->
  returns I op (fun _ => True) ->
  (forall lo hi d, 0 <= lo <= hi -> I d ->
     I (dev_usleep_range lo hi d) /\ ktime_get d + 1000 * lo <= ktime_get (dev_usleep_range lo hi d)) ->
  returns I (readx_poll_timeout sleep_us timeout_us)
    (fun r => (fst r = 0 /\ cond (snd r) = true) \/ fst r = - ETIMEDOUT).
Proof.
  intros Hs Ht Htime Hop Hsleep d HI. unfold readx_poll_timeout. simpl.
  set (step := Z.shiftr sleep_us 2 + 1). assert (0 < step <= sleep_us) as Hst.
  { unfold step. rewrite Z.shiftr_div_pow2 by lia. change (2 ^ 2) with 4.
    Z.div_mod_to_equations; lia. }
  assert (istrue sleep_us = true /\ istrue timeout_us = true) as [Es Et].
  { unfold istrue. split; apply negb_true_iff, Z.eqb_neq; lia. }
  set (deadline := ktime_get d + 1000 * timeout_us).
  destruct (kwhile_run (fun _ : unit => poll_round sleep_us timeout_us deadline)
    (fun k _ d1 => I d1 /\ deadline - ktime_get d1 < 1000 * step * (Z.of_nat k - 1) /\ (0 < k)%nat)
    (fun r d1 => ((fst r = 0 /\ cond (snd r) = true) \/ fst r = - ETIMEDOUT) /\ I d1)
    (poll_rounds sleep_us timeout_us)
    (Z.to_nat (timeout_us / step) + 2) tt d) as (r & d' & Hrun & HR & HI').
  - intros k [] d1 (H1 & Hk & Hpos). unfold poll_round.
    destruct (Hop d1 H1) as (v & d2 & Hv & _ & H2). pose proof (Htime _ _ _ Hv) as Ht2.
    rewrite (kbind_run _ _ _ _ _ Hv). destruct (cond v) eqn:Ec.
    { eexists _, _. split; [reflexivity|]. split; [by left|done]. }
    rewrite (kbind_run _ _ _ (ktime_get d2) d2 eq_refl), Et. destruct (Z.ltb_spec deadline (ktime_get d2)).
    + destruct (Hop d2 H2) as (v3 & d3 & Hv3 & _ & H3). cbn [andb]. rewrite (kbind_run _ _ _ _ _ Hv3).
      eexists _, _. split; [reflexivity|]. split; [|done]. destruct (cond v3) eqn:E3; auto.
    + cbn [andb]. rewrite Es. destruct (Hsleep step sleep_us d2) as [H3 Ht3]; [lia|done|].
      eexists _, _. split; [reflexivity|]. exists (k - 1)%nat.
      assert (k <> 1%nat). { intros ->. change (Z.of_nat 1) with 1 in Hk. lia. }
      split; [lia|]. split_and!; [done| |lia]. fold step. nia.
  - split_and!; [done| |lia]. unfold deadline.
    pose proof (Z.div_mod timeout_us step ltac:(lia)).
    pose proof (Z.mod_pos_bound timeout_us step ltac:(lia)).
    assert (0 <= timeout_us / step) by (apply Z.div_pos; lia).
    rewrite Nat2Z.inj_add, Z2Nat.id by done. nia.
  - unfold poll_rounds. fold step. assert (0 <= timeout_us / step) by (apply Z.div_pos; lia). lia.
  - exists r, d'. auto.
Qed.
(** A condition that holds after [k] sleeps that fit in the timeout: [W k]
    is the device before the last [k] of them, [obs] what [op] reads. *)
Lemma poll_ticks (W : nat -> D -> Prop) (obs : D -> Z) sleep_us timeout_us k d :
  0 < sleep_us -> 0 < timeout_us ->
  (forall k d, W k d -> op d = Some (obs d, d) /\ cond (obs d) = (k =? 0)%nat) ->
  (forall k d, W (S k) d ->
     let d' := dev_usleep_range (Z.shiftr sleep_us 2 + 1) sleep_us d in
     W k d' /\ ktime_get d' = ktime_get d + 1000 * sleep_us) ->
  W k d -> (Z.of_nat k - 1) * sleep_us <= timeout_us ->
  exists d', readx_poll_timeout sleep_us timeout_us d = Some ((0, obs d'), d') /\ W O d'.
Proof.
  intros Hs Ht Hop Hsleep HW Hk. unfold readx_poll_timeout. rewrite (kbind_run (kgets ktime_get) _ d (ktime_get d) d eq_refl).
  set (deadline := ktime_get d + 1000 * timeout_us).
  assert (istrue sleep_us = true /\ istrue timeout_us = true) as [Es Et].
  { unfold istrue. split; apply negb_true_iff, Z.eqb_neq; lia. }
  destruct (kwhile_run (fun _ : unit => poll_round sleep_us timeout_us deadline)
    (fun j _ d1 => W j d1 /\ ktime_get d1 + 1000 * ((Z.of_nat j - 1) * sleep_us) <= deadline)
    (fun r d1 => r = (0, obs d1) /\ W O d1)
    (poll_rounds sleep_us timeout_us) k tt d) as (r & d' & Hrun & -> & HW').
  - intros j [] d1 [H1 Htime]. destruct (Hop j d1 H1) as [Hr Hc]. unfold poll_round.
    rewrite (kbind_run _ _ _ _ _ Hr), Hc. destruct j as [|j]; [by eexists _, _|]. cbn [Nat.eqb].
    rewrite (kbind_run (kgets ktime_get) _ d1 (ktime_get d1) d1 eq_refl), Et.
    rewrite (proj2 (Z.ltb_ge _ _)) by nia. cbn [andb]. rewrite Es.
    destruct (Hsleep j d1 H1) as [H2 Ht2]. eexists _, _. split; [reflexivity|]. exists j. split_and!; [lia|done|].
    rewrite Ht2. nia.
  - split; [done|]. unfold deadline. nia.
  - unfold poll_rounds. set (step := Z.shiftr sleep_us 2 + 1). assert (0 < step <= sleep_us) as Hst.
    { unfold step. rewrite Z.shiftr_div_pow2 by lia. change (2 ^ 2) with 4. Z.div_mod_to_equations; lia. }
    assert (Z.of_nat k - 1 <= timeout_us / step) by (apply Z.div_le_lower_bound; nia). lia.
  - by exists d'.
Qed.
End Poll.
