(* ===== verification/UserMem.v ===== *)
(** * User memory and the ioctl interface (uapi/linux/intel-fpga-mod.h)

    The argument of an ioctl is an address in the memory of the calling
    process.  copy_from_user and copy_to_user move bytes and report a fault; a
    structure of the interface is the little-endian number of its bytes, and
    its members are located like the fields of a register, with widths in
    bits.  All members are naturally aligned, so the layout has no holes. *)

From S2P Require Import Prelude.
From S2P Require Import Bitfield.

Record user_mem := UserMem {
  ubytes : gmap Z Z;          (* mapped bytes *)
  uwritable : Z -> bool;      (* pages the process may write *)
}.

(** ** Little-endian numbers *)

Fixpoint le_combine (l : list Z) : Z :=
  match l with [] => 0 | b :: l => b + 256 * le_combine l end.

Fixpoint le_split (n : nat) (v : Z) : list Z :=
  match n with O => [] | S n => v mod 256 :: le_split n (v / 256) end.

Lemma length_le_split n v : length (le_split n v) = n.
Proof. revert v. induction n; intros v; simpl; [done|]. by rewrite IHn. Qed.

Lemma le_combine_split n v : 0 <= v < 256 ^ Z.of_nat n -> le_combine (le_split n v) = v.
Proof.
  revert v. induction n as [|n IH]; intros v Hv.
  - simpl in *. lia.
  - rewrite Nat2Z.inj_succ, Z.pow_succ_r in Hv by lia. cbn [le_split le_combine].
    pose proof (Z.div_mod v 256 ltac:(lia)). pose proof (Z.mod_pos_bound v 256 ltac:(lia)).
    rewrite IH; [lia|]. split; [apply Z.div_pos; lia | apply Z.div_lt_upper_bound; lia].
Qed.

Lemma le_combine_range l :
  Forall (fun b => 0 <= b < 256) l -> 0 <= le_combine l < 256 ^ Z.of_nat (length l).
Proof.
  induction 1 as [|b l Hb Hl IH]; [simpl; lia|].
  rewrite length_cons, Nat2Z.inj_succ, Z.pow_succ_r by lia. cbn [le_combine]. lia.
Qed.

(** ** Copying *)

Fixpoint read_bytes (n : nat) (a : Z) (m : gmap Z Z) : option (list Z) :=
  match n with
  | O => Some []
  | S n =>
      match m !! a, read_bytes n (a + 1) m with
      | Some b, Some l => Some (b :: l)
      | _, _ => None
      end
  end.

(** [copy_from_user(&s, a, n)]: the bytes, or [None] on a fault. *)
Definition copy_from_user (a n : Z) : K user_mem (option Z) :=
  kgets (fun m => le_combine <$> read_bytes (Z.to_nat n) a (ubytes m)).

(** Stores bytes up to the first one that faults; whether all were stored. *)
Fixpoint write_bytes (l : list Z) (a : Z) (m : user_mem) : bool * user_mem :=
  match l with
  | [] => (true, m)
  | b :: l =>
      match ubytes m !! a with
      | Some _ =>
          if uwritable m a
          then write_bytes l (a + 1) (UserMem (<[a := b]> (ubytes m)) (uwritable m))
          else (false, m)
      | None => (false, m)
      end
  end.

(** [copy_to_user(a, &s, n)]: true when the copy faulted. *)
Definition copy_to_user (a v n : Z) : K user_mem bool := fun m =>
  let r := write_bytes (le_split (Z.to_nat n) v) a m in Some (negb (fst r), snd r).

(** ** The structures *)

Definition fpga_port_info : reg := Reg [("argsz", 32); ("flags", 32); ("capability", 32);
  ("num_regions", 32); ("num_umsgs", 32); ("num_uafu_irqs", 32)].
Definition fpga_port_region_info : reg := Reg [("argsz", 32); ("flags", 32); ("index", 32);
  ("padding", 32); ("size", 64); ("offset", 64)].
Definition fpga_port_dma_map : reg := Reg [("argsz", 32); ("flags", 32); ("user_addr", 64);
  ("length", 64); ("iova", 64)].
Definition fpga_port_dma_unmap : reg := Reg [("argsz", 32); ("flags", 32); ("iova", 64)].
Definition fpga_port_umsg_cfg : reg := Reg [("argsz", 32); ("flags", 32); ("hint_bitmap", 32)].
Definition fpga_port_umsg_base_addr : reg := Reg [("argsz", 32); ("flags", 32); ("iova", 64)].
Definition fpga_port_err_irq_set : reg := Reg [("argsz", 32); ("flags", 32); ("evtfd", 32)].
(** The flexible array [evtfd] follows the last member. *)
Definition fpga_port_uafu_irq_set : reg := Reg [("argsz", 32); ("flags", 32); ("start", 32);
  ("count", 32)].
Definition fpga_fme_port_pr : reg := Reg [("argsz", 32); ("flags", 32); ("port_id", 32);
  ("buffer_size", 32); ("buffer_address", 64); ("status", 64)].
Definition fpga_fme_port_release : reg := Reg [("argsz", 32); ("flags", 32); ("port_id", 32)].
Definition fpga_fme_port_assign : reg := Reg [("argsz", 32); ("flags", 32); ("port_id", 32)].
Definition fpga_fme_info : reg := Reg [("argsz", 32); ("flags", 32); ("capability", 32)].
Definition fpga_fme_err_irq_set : reg := Reg [("argsz", 32); ("flags", 32); ("evtfd", 32)].

(** [offsetofend(struct r, n)]. *)
Definition offsetofend (r : reg) (n : string) : Z :=
  match locate (reg_fields r) n 0 with Some (o, w) => (o + w) / 8 | None => 0 end.

(** ** Commands *)

Definition _IO (type nr : Z) : Z := Z.lor (Z.shiftl type 8) nr.

Definition FPGA_API_VERSION : Z := 0.
Definition FPGA_MAGIC : Z := 0xB5.
Definition FPGA_BASE : Z := 0.
Definition PORT_BASE : Z := 0x40.
Definition FME_BASE : Z := 0x80.
Definition FPGA_GET_API_VERSION : Z := _IO FPGA_MAGIC (FPGA_BASE + 0).
Definition FPGA_CHECK_EXTENSION : Z := _IO FPGA_MAGIC (FPGA_BASE + 1).
Definition FPGA_PORT_RESET : Z := _IO FPGA_MAGIC (PORT_BASE + 0).
Definition FPGA_PORT_GET_INFO : Z := _IO FPGA_MAGIC (PORT_BASE + 1).
Definition FPGA_PORT_GET_REGION_INFO : Z := _IO FPGA_MAGIC (PORT_BASE + 2).
Definition FPGA_PORT_DMA_MAP : Z := _IO FPGA_MAGIC (PORT_BASE + 3).
Definition FPGA_PORT_DMA_UNMAP : Z := _IO FPGA_MAGIC (PORT_BASE + 4).
Definition FPGA_PORT_UMSG_ENABLE : Z := _IO FPGA_MAGIC (PORT_BASE + 5).
Definition FPGA_PORT_UMSG_DISABLE : Z := _IO FPGA_MAGIC (PORT_BASE + 6).
Definition FPGA_PORT_UMSG_SET_MODE : Z := _IO FPGA_MAGIC (PORT_BASE + 7).
Definition FPGA_PORT_UMSG_SET_BASE_ADDR : Z := _IO FPGA_MAGIC (PORT_BASE + 8).
Definition FPGA_PORT_ERR_SET_IRQ : Z := _IO FPGA_MAGIC (PORT_BASE + 9).
Definition FPGA_PORT_UAFU_SET_IRQ : Z := _IO FPGA_MAGIC (PORT_BASE + 10).
Definition FPGA_FME_PORT_PR : Z := _IO FPGA_MAGIC (FME_BASE + 0).
Definition FPGA_FME_PORT_RELEASE : Z := _IO FPGA_MAGIC (FME_BASE + 1).
Definition FPGA_FME_PORT_ASSIGN : Z := _IO FPGA_MAGIC (FME_BASE + 2).
Definition FPGA_FME_GET_INFO : Z := _IO FPGA_MAGIC (FME_BASE + 3).
Definition FPGA_FME_ERR_SET_IRQ : Z := _IO FPGA_MAGIC (FME_BASE + 4).

Definition FPGA_PORT_CAP_ERR_IRQ : Z := 1.
Definition FPGA_PORT_CAP_UAFU_IRQ : Z := 2.
Definition FPGA_REGION_READ : Z := 1.
Definition FPGA_REGION_WRITE : Z := 2.
Definition FPGA_REGION_MMAP : Z := 4.
Definition FPGA_PORT_INDEX_UAFU : Z := 0.
Definition FPGA_PORT_INDEX_STP : Z := 1.

(** ** Laws of the copies *)

Lemma read_bytes_ext n a m m' :
  (forall x, a <= x < a + Z.of_nat n -> m !! x = m' !! x) ->
  read_bytes n a m = read_bytes n a m'.
Proof.
  revert a. induction n as [|n IH]; intros a H; simpl; [done|].
  rewrite (H a) by lia. destruct (m' !! a); [|done]. rewrite IH; [done|]. intros x Hx. apply H. lia.
Qed.

(** A writable range. *)
Definition can_write (m : user_mem) (a : Z) (n : nat) : Prop :=
  forall x, a <= x < a + Z.of_nat n -> is_Some (ubytes m !! x) /\ uwritable m x = true.

Lemma write_bytes_ok l a m :
  can_write m a (length l) ->
  exists m', write_bytes l a m = (true, m') /\ uwritable m' = uwritable m /\
    read_bytes (length l) a (ubytes m') = Some l /\
    (forall x, x < a \/ a + Z.of_nat (length l) <= x -> ubytes m' !! x = ubytes m !! x).
Proof.
  revert a m. induction l as [|b l IH]; intros a m Hw; [by exists m|].
  rewrite length_cons in Hw. destruct (Hw a) as [[v Hv] Hwr]; [lia|].
  destruct (IH (a + 1) (UserMem (<[a := b]> (ubytes m)) (uwritable m))) as (m' & Hrun & Hu & Hr & Ho).
  { intros x Hx. simpl. rewrite lookup_insert_ne by lia. apply Hw. lia. }
  exists m'. split; [cbn [write_bytes]; by rewrite Hv, Hwr|]. split; [done|].
  assert (ubytes m' !! a = Some b) as Ha.
  { rewrite Ho by lia. simpl. apply lookup_insert_eq. }
  split.
  - cbn [length read_bytes]. by rewrite Ha, Hr.
  - rewrite length_cons. intros x Hx. rewrite Ho by lia. simpl. apply lookup_insert_ne. lia.
Qed.

(** Copying a value out and in again gives the value. *)
Lemma copy_to_from_user a v n m :
  0 <= n -> 0 <= v < 256 ^ n -> can_write m a (Z.to_nat n) ->
  exists m', copy_to_user a v n m = Some (false, m') /\
    copy_from_user a n m' = Some (Some v, m') /\
    (forall x, x < a \/ a + n <= x -> ubytes m' !! x = ubytes m !! x).
Proof.
  intros Hn Hv Hw. destruct (write_bytes_ok (le_split (Z.to_nat n) v) a m) as (m' & Hrun & _ & Hr & Ho).
  { by rewrite length_le_split. }
  rewrite length_le_split in Hr, Ho. rewrite Z2Nat.id in Ho by done.
  exists m'. split; [unfold copy_to_user; by rewrite Hrun|]. split; [|done].
  unfold copy_from_user. simpl. rewrite Hr. simpl. rewrite le_combine_split; [done|].
  by rewrite Z2Nat.id.
Qed.

(** Memory holds bytes. *)
Definition bytes_ok (m : user_mem) : Prop := forall a b, ubytes m !! a = Some b -> 0 <= b < 256.

Lemma copy_from_user_range a n v m m' :
  bytes_ok m -> 0 <= n -> copy_from_user a n m = Some (Some v, m') -> 0 <= v < 256 ^ n /\ m' = m.
Proof.
  intros Hb Hn H. unfold copy_from_user in H. simpl in H.
  destruct (read_bytes (Z.to_nat n) a (ubytes m)) as [l|] eqn:E; [|discriminate].
  injection H as <- <-. split; [|done].
  assert (Forall (fun b => 0 <= b < 256) l /\ length l = Z.to_nat n) as [Hf Hl].
  { clear Hn. revert a l E. induction (Z.to_nat n) as [|k IH]; intros a l E; simpl in E.
    - injection E as <-. done.
    - destruct (ubytes m !! a) as [b|] eqn:Ea; [|discriminate].
      destruct (read_bytes k (a + 1) (ubytes m)) as [l1|] eqn:E1; [|discriminate].
      injection E as <-. destruct (IH _ _ E1) as [Hf Hl]. simpl. split; [|by rewrite Hl].
      constructor; [by eapply Hb|done]. }
  pose proof (le_combine_range l Hf) as Hr. rewrite Hl, Z2Nat.id in Hr by done. exact Hr.
Qed.
