(* ===== verification/Sysfs.v ===== *)
(** * Printing and parsing of sysfs attributes

    The show functions print a register field with scnprintf, the store
    functions parse the written text with kstrtou8 or kstrtou64.  Printing is
    defined here for the conversions the drivers use; the kernel's parsers are
    an interface, with the documented behaviour the drivers rely on. *)

From stdpp Require Import pretty.
From S2P Require Import Prelude.
Local Open Scope Z_scope.

Definition newline : string := String (Ascii.ascii_of_nat 10) EmptyString.

(** A hexadecimal digit, lower case. *)
Definition hex_digit (d : Z) : Ascii.ascii :=
  Ascii.ascii_of_nat (Z.to_nat (if d <? 10 then 48 + d else 87 + d)).

(** [n] digits of [v], most significant first. *)
Fixpoint hex_fixed (n : nat) (v : Z) (tl : string) : string :=
  match n with
  | O => tl
  | S n => hex_fixed n (v / 16) (String (hex_digit (v mod 16)) tl)
  end.

Fixpoint strip_zeros (s : string) : string :=
  match s with
  | String a ((String _ _) as rest) =>
      if Ascii.eqb a (hex_digit 0) then strip_zeros rest else s
  | _ => s
  end.

(** The conversions [%d], [%llx] and [%016llx] of 64-bit values. *)
Definition fmt_d (v : Z) : string := pretty v.
Definition fmt_x (v : Z) : string := strip_zeros (hex_fixed 16 v EmptyString).
Definition fmt_016x (v : Z) : string := hex_fixed 16 v EmptyString.

Definition line_d (v : Z) : string := (fmt_d v ++ newline)%string.
Definition line_0x (v : Z) : string := ("0x" ++ fmt_x v ++ newline)%string.

(** kstrtou8 and kstrtou64 with base 0: a negative errno or the value. *)
Class Kstrto := {
  kstrtou8 : string -> Z + Z;
  kstrtou64 : string -> Z + Z;
}.

Class KstrtoOk {ks : Kstrto} := {
  kstrtou8_err : forall s e, kstrtou8 s = inl e -> e < 0;
  kstrtou8_range : forall s v, kstrtou8 s = inr v -> 0 <= v < 256;
  kstrtou64_err : forall s e, kstrtou64 s = inl e -> e < 0;
  kstrtou64_range : forall s v, kstrtou64 s = inr v -> is_u64 v;
  (** "0x" selects base 16; a trailing newline is ignored. *)
  kstrtou64_hex : forall v, is_u64 v -> kstrtou64 (line_0x v) = inr v;
}.

(** ** A parser of hexadecimal lines *)

Definition hex_value (a : Ascii.ascii) : option Z :=
  let n := Z.of_nat (Ascii.nat_of_ascii a) in
  if (48 <=? n) && (n <=? 57) then Some (n - 48)
  else if (97 <=? n) && (n <=? 102) then Some (n - 87)
  else None.

(** Digits up to the end or a final newline, from the value [acc]. *)
Fixpoint parse_hex (s : string) (acc : Z) : option Z :=
  match s with
  | EmptyString => Some acc
  | String a rest =>
      match hex_value a with
      | Some d => if acc * 16 + d <? 2 ^ 64 then parse_hex rest (acc * 16 + d) else None
      | None => if String.eqb s newline then Some acc else None
      end
  end.

Definition parse_line (s : string) : option Z :=
  match s with
  | String a (String b rest) =>
      if Ascii.eqb a (Ascii.ascii_of_nat 48) && Ascii.eqb b (Ascii.ascii_of_nat 120) then parse_hex rest 0 else None
  | _ => None
  end.

Definition hex_kstrto : Kstrto := {|
  kstrtou8 s := match parse_line s with
                | Some v => if v <? 256 then inr v else inl (-34)
                | None => inl (- EINVAL)
                end;
  kstrtou64 s := match parse_line s with Some v => inr v | None => inl (- EINVAL) end;
|}.

Lemma hex_value_digit d : 0 <= d < 16 -> hex_value (hex_digit d) = Some d.
Proof.
  intros H. assert (d = 0 \/ d = 1 \/ d = 2 \/ d = 3 \/ d = 4 \/ d = 5 \/ d = 6 \/ d = 7 \/ d = 8 \/
    d = 9 \/ d = 10 \/ d = 11 \/ d = 12 \/ d = 13 \/ d = 14 \/ d = 15) by lia.
  destruct_or?; subst; reflexivity.
Qed.

Lemma parse_hex_range s acc v : 0 <= acc < 2 ^ 64 -> parse_hex s acc = Some v -> is_u64 v.
Proof.
  revert acc. induction s as [|a s IH]; intros acc Ha; cbn [parse_hex]; [by intros [= <-]|].
  unfold hex_value. set (n := Z.of_nat (Ascii.nat_of_ascii a)).
  destruct ((48 <=? n) && (n <=? 57)) eqn:E1; [|destruct ((97 <=? n) && (n <=? 102)) eqn:E2].
  1, 2: destruct (_ <? 2 ^ 64) eqn:E; [|discriminate]; boolify; apply IH; lia.
  destruct (String.eqb (String a s) newline); [|discriminate]. by intros [= <-].
Qed.

Lemma parse_hex_fixed n v acc tl :
  0 <= v < 16 ^ Z.of_nat n -> 0 <= acc -> acc * 16 ^ Z.of_nat n + v < 2 ^ 64 ->
  parse_hex (hex_fixed n v tl) acc = parse_hex tl (acc * 16 ^ Z.of_nat n + v).
Proof.
  revert v acc tl. induction n as [|n IH]; intros v acc tl Hv Ha Hb.
  - simpl in *. f_equal. lia.
  - rewrite Nat2Z.inj_succ, Z.pow_succ_r in * by lia. cbn [hex_fixed].
    pose proof (Z.div_mod v 16 ltac:(lia)). pose proof (Z.mod_pos_bound v 16 ltac:(lia)).
    assert (0 <= v / 16 < 16 ^ Z.of_nat n)
      by (split; [apply Z.div_pos; lia | apply Z.div_lt_upper_bound; lia]).
    rewrite IH by nia. cbn [parse_hex]. rewrite hex_value_digit by lia.
    replace ((acc * 16 ^ Z.of_nat n + v / 16) * 16 + v mod 16)
      with (acc * (16 * 16 ^ Z.of_nat n) + v) by nia.
    by replace (_ <? 2 ^ 64) with true by lia.
Qed.

Lemma parse_hex_strip s tl : parse_hex (strip_zeros s ++ tl) 0 = parse_hex (s ++ tl) 0.
Proof.
  induction s as [|a [|b s] IH]; [done|done|].
  change (strip_zeros (String a (String b s))) with
    (if Ascii.eqb a (hex_digit 0) then strip_zeros (String b s) else String a (String b s)).
  destruct (Ascii.eqb_spec a (hex_digit 0)) as [->|]; [|done]. rewrite IH.
  change (String (hex_digit 0) (String b s) ++ tl)%string with
    (String (hex_digit 0) (String b s ++ tl)). cbn [parse_hex].
  by rewrite hex_value_digit by lia.
Qed.

Lemma hex_fixed_app n v s tl : (hex_fixed n v s ++ tl)%string = hex_fixed n v (s ++ tl).
Proof. revert v s. induction n as [|n IH]; intros v s; simpl; [done|]. by rewrite IH. Qed.

Arguments parse_line : simpl never.
Arguments parse_hex : simpl never.
Arguments line_0x : simpl never.

Lemma parse_line_0x v : is_u64 v -> parse_line (line_0x v) = Some v.
Proof.
  intros Hv. unfold line_0x, fmt_x. change (parse_hex
    (strip_zeros (hex_fixed 16 v EmptyString) ++ newline)%string 0 = Some v).
  rewrite parse_hex_strip, hex_fixed_app. unfold in_range in Hv. change (2 ^ 64) with (16 ^ 16) in Hv.
  rewrite parse_hex_fixed; [reflexivity|exact Hv|lia|].
  change (2 ^ 64) with (16 ^ 16). change (Z.of_nat 16) with 16. lia.
Qed.

Lemma parse_line_range s v : parse_line s = Some v -> is_u64 v.
Proof.
  unfold parse_line. destruct s as [|a [|b s]]; [done|done|].
  destruct (_ && _); [|done]. apply parse_hex_range. lia.
Qed.

Lemma hex_kstrto_ok : @KstrtoOk hex_kstrto.
Proof.
  constructor; cbn [kstrtou8 kstrtou64 hex_kstrto]; unfold EINVAL; intros s.
  - intros e. destruct (parse_line s) as [v|]; [destruct (v <? 256)|]; intros [= <-]; lia.
  - intros v. destruct (parse_line s) as [u|] eqn:E; [|done]. apply parse_line_range in E as [? _].
    destruct (Z.ltb_spec u 256); intros [= <-]. lia.
  - intros e. destruct (parse_line s); intros [= <-]. lia.
  - intros v. destruct (parse_line s) eqn:E; intros [= <-]. by eapply parse_line_range.
  - intros Hv. by rewrite (parse_line_0x s Hv).
Qed.
