(* ===== verification/FeatureDev.v ===== *)
(** * Feature devices (feature-dev.h, feature-dev.c)

    The state every feature device (the FME and each port) keeps in its
    [struct feature_platform_data]: the mutex, the open and exclusive-open
    counters, the reset (disable) counter, the list of opening processes and
    the table of sub features.  [Op] is the type of the [struct feature_ops]
    pointers of the device, [P] the type of its private data, [D] the state of
    the hardware.  A platform device is this record together with the hardware
    its registers reach. *)

From S2P Require Import Prelude.
From S2P Require Import Bitfield.
From S2P Require Import Registers.
From S2P Require Import Mmio.

(** A pointer to an allocation: NULL, valid, or to freed memory. *)
Inductive kptr := PNull | PLive | PFreed.
#[export] Instance kptr_eq_dec : EqDecision kptr.
Proof. solve_decision. Defined.

Record feature_irq_ctx := IrqCtx {
  trigger : option Z;
  ctx_name : kptr;
  irq : Z;
}.

(** [count] here and [open_count] below are C ints; they count the open
    descriptors of a device, and the model does not wrap them (see [file_step]
    in AfuSpec.v for the bound). *)
Record pid_info := PidInfo { pid : Z; count : Z }.

Section Types.
Context {Op P D : Type}.

Record feature := Feature {
  f_name : option string;
  f_resource_index : Z;
  f_ioaddr : Z;
  f_ctx : list feature_irq_ctx;
  f_ctx_num : Z;
  f_ops : option Op;
  f_priv : option Z;
}.

Record feature_platform_data := Pdata {
  lock : bool;
  excl_open : Z;
  open_count : Z;
  disable_count : Z;
  pid_list : list pid_info;
  unplug : bool;
  private : option P;
  num : Z;
  features : list feature;
}.

Record platform_device := Pdev {
  pd : feature_platform_data;
  io : D;
}.

Definition set_f_name (v : option string) (r : feature) : feature :=
  Feature v (f_resource_index r) (f_ioaddr r) (f_ctx r) (f_ctx_num r) (f_ops r) (f_priv r).
Definition set_f_resource_index (v : Z) (r : feature) : feature :=
  Feature (f_name r) v (f_ioaddr r) (f_ctx r) (f_ctx_num r) (f_ops r) (f_priv r).
Definition set_f_ioaddr (v : Z) (r : feature) : feature :=
  Feature (f_name r) (f_resource_index r) v (f_ctx r) (f_ctx_num r) (f_ops r) (f_priv r).
Definition set_f_ctx (v : list feature_irq_ctx) (r : feature) : feature :=
  Feature (f_name r) (f_resource_index r) (f_ioaddr r) v (f_ctx_num r) (f_ops r) (f_priv r).
Definition set_f_ctx_num (v : Z) (r : feature) : feature :=
  Feature (f_name r) (f_resource_index r) (f_ioaddr r) (f_ctx r) v (f_ops r) (f_priv r).
Definition set_f_ops (v : option Op) (r : feature) : feature :=
  Feature (f_name r) (f_resource_index r) (f_ioaddr r) (f_ctx r) (f_ctx_num r) v (f_priv r).
Definition set_f_priv (v : option Z) (r : feature) : feature :=
  Feature (f_name r) (f_resource_index r) (f_ioaddr r) (f_ctx r) (f_ctx_num r) (f_ops r) v.

Definition set_lock (v : bool) (r : feature_platform_data) : feature_platform_data :=
  Pdata v (excl_open r) (open_count r) (disable_count r) (pid_list r) (unplug r) (private r) (num r) (features r).
Definition set_excl_open (v : Z) (r : feature_platform_data) : feature_platform_data :=
  Pdata (lock r) v (open_count r) (disable_count r) (pid_list r) (unplug r) (private r) (num r) (features r).
Definition set_open_count (v : Z) (r : feature_platform_data) : feature_platform_data :=
  Pdata (lock r) (excl_open r) v (disable_count r) (pid_list r) (unplug r) (private r) (num r) (features r).
Definition set_disable_count (v : Z) (r : feature_platform_data) : feature_platform_data :=
  Pdata (lock r) (excl_open r) (open_count r) v (pid_list r) (unplug r) (private r) (num r) (features r).
Definition set_pid_list (v : list pid_info) (r : feature_platform_data) : feature_platform_data :=
  Pdata (lock r) (excl_open r) (open_count r) (disable_count r) v (unplug r) (private r) (num r) (features r).
Definition set_unplug (v : bool) (r : feature_platform_data) : feature_platform_data :=
  Pdata (lock r) (excl_open r) (open_count r) (disable_count r) (pid_list r) v (private r) (num r) (features r).
Definition set_private (v : option P) (r : feature_platform_data) : feature_platform_data :=
  Pdata (lock r) (excl_open r) (open_count r) (disable_count r) (pid_list r) (unplug r) v (num r) (features r).
Definition set_num (v : Z) (r : feature_platform_data) : feature_platform_data :=
  Pdata (lock r) (excl_open r) (open_count r) (disable_count r) (pid_list r) (unplug r) (private r) v (features r).
Definition set_features (v : list feature) (r : feature_platform_data) : feature_platform_data :=
  Pdata (lock r) (excl_open r) (open_count r) (disable_count r) (pid_list r) (unplug r) (private r) (num r) v.

Definition set_pd (v : feature_platform_data) (r : platform_device) : platform_device :=
  Pdev v (io r).
Definition set_io (v : D) (r : platform_device) : platform_device :=
  Pdev (pd r) v.
End Types.

Arguments feature : clear implicits.
Arguments feature_platform_data : clear implicits.
Arguments platform_device : clear implicits.

(** ** The mutex [pdata->lock] *)

Section Ops.
Context {Op P D : Type} {dev : Mmio D}.
Abbreviation pdata := (feature_platform_data Op P).
Abbreviation pdev := (platform_device Op P D).

Definition mutex_lock : K pdata unit := fun p =>
  if lock p then None else Some (tt, set_lock true p).
Definition mutex_unlock : K pdata unit := fun p =>
  if lock p then Some (tt, set_lock false p) else None.

Local Arguments mutex_lock p /.
Local Arguments mutex_unlock p /.

(** ** Opening and closing a feature device *)

Definition feature_dev_use_excl_begin : K pdata Z :=
  mutex_lock ;;
  p <- kget ;;
  if istrue (open_count p) || unplug p then
    mutex_unlock ;; kret (- EBUSY)
  else
    kmod (set_excl_open 1) ;;
    kmod (fun p => set_open_count (open_count p + 1) p) ;;
    mutex_unlock ;;
    kret 0.

Definition feature_dev_use_begin : K pdata Z :=
  mutex_lock ;;
  p <- kget ;;
  if istrue (excl_open p) || unplug p then
    mutex_unlock ;; kret (- EBUSY)
  else
    kmod (fun p => set_open_count (open_count p + 1) p) ;;
    mutex_unlock ;;
    kret 0.

Definition __feature_dev_use_end : K pdata unit :=
  kmod (set_excl_open 0) ;;
  kmod (fun p => set_open_count (open_count p - 1) p).

Definition feature_dev_use_end : K pdata unit :=
  mutex_lock ;; __feature_dev_use_end ;; mutex_unlock.

(** cci_pci_remove marks the device unplugged under the lock. *)
Definition mark_unplug : K pdata unit :=
  mutex_lock ;; kmod (set_unplug true) ;; mutex_unlock.

(** ** Sub features *)

Definition get_feature (index : Z) : K pdata (feature Op) :=
  p <- kget ;;
  if index <? 0 then oops else deref (features p !! Z.to_nat index).

Definition get_feature_ioaddr_by_index (index : Z) : K pdata Z :=
  f <- get_feature index ;; kret (f_ioaddr f).

Definition is_feature_present (index : Z) : K pdata bool :=
  a <- get_feature_ioaddr_by_index index ;; kret (istrue a).

(** [pdata->features[index] = f]; an index outside the table is undefined. *)
Definition put_feature (index : Z) (f : feature Op) : K pdata unit := fun p =>
  if (0 <=? index) && (Z.to_nat index <? length (features p))%nat
  then Some (tt, set_features (<[Z.to_nat index := f]> (features p)) p)
  else None.

Definition feature_set_priv (index : Z) (priv : option Z) : K pdata unit :=
  f <- get_feature index ;; put_feature index (set_f_priv priv f).

Definition feature_get_priv (index : Z) : K pdata (option Z) :=
  f <- get_feature index ;; kret (f_priv f).

Definition fpga_pdata_set_private (priv : option P) : K pdata unit :=
  kmod (set_private priv).
Definition fpga_pdata_get_private : K pdata (option P) := kgets private.

(** feature_platform_data_add: the WARN_ONs only log. *)
Definition feature_platform_data_add (index : Z) (name : string) (resource_index ioaddr : Z)
    (ctx : list feature_irq_ctx) (ctx_num : Z) : K pdata unit :=
  f <- get_feature index ;;
  put_feature index
    (Feature (Some name) resource_index ioaddr ctx ctx_num (f_ops f) (f_priv f)).

(** feature_platform_data_alloc_and_init: a zeroed structure, or NULL. *)
Definition empty_feature : feature Op := Feature None 0 0 [] 0 None None.
Definition feature_platform_data_alloc_and_init (kzalloc_ok : bool) (n : Z) : option pdata :=
  if kzalloc_ok
  then Some (Pdata false 0 0 0 [] false None n (replicate (Z.to_nat n) empty_feature))
  else None.

Definition fme_feature_num : Z := FME_FEATURE_ID_MAX.
Definition port_feature_num : Z := PORT_FEATURE_ID_MAX.

(** ** Port registers *)

Definition on_pd {A} (c : K pdata A) : K pdev A := zoom pd set_pd c.
Definition on_io {A} (c : K D A) : K pdev A := zoom io set_io c.

(** Access to a register block through a pointer that may be NULL. *)
Definition mmio_readq (base off : Z) : K pdev Z :=
  if base =? 0 then oops else on_io (readq (base + off)).
Definition mmio_writeq (v base off : Z) : K pdev unit :=
  if base =? 0 then oops else on_io (writeq v (base + off)).

Definition fpga_port_id : K pdev Z :=
  port_hdr <- on_pd (get_feature_ioaddr_by_index PORT_FEATURE_ID_HEADER) ;;
  capability <- mmio_readq port_hdr (offsetof feature_port_header "capability") ;;
  kret (fget feature_port_capability "port_number" capability).

Definition fpga_port_check_id (port_id : Z) : K pdev bool :=
  id <- fpga_port_id ;; kret (id =? port_id).

Definition __fpga_port_enable : K pdev unit :=
  on_pd (kmod (fun p => set_disable_count (u32 (disable_count p - 1)) p)) ;;
  n <- on_pd (kgets disable_count) ;;
  if istrue n then kret tt
  else
    port_hdr <- on_pd (get_feature_ioaddr_by_index PORT_FEATURE_ID_HEADER) ;;
    control <- mmio_readq port_hdr (offsetof feature_port_header "control") ;;
    mmio_writeq (fset feature_port_control "port_sftrst" 0 control)
      port_hdr (offsetof feature_port_header "control").

(** The poll of port_sftrst_ack is commented out in the source. *)
Definition __fpga_port_disable : K pdev Z :=
  n <- on_pd (kgets disable_count) ;;
  on_pd (kmod (set_disable_count (u32 (n + 1)))) ;;
  if istrue n then kret 0
  else
    port_hdr <- on_pd (get_feature_ioaddr_by_index PORT_FEATURE_ID_HEADER) ;;
    control <- mmio_readq port_hdr (offsetof feature_port_header "control") ;;
    mmio_writeq (fset feature_port_control "port_sftrst" 1 control)
      port_hdr (offsetof feature_port_header "control") ;;
    kret 0.

Definition fpga_port_enable : K pdev unit :=
  on_pd mutex_lock ;; __fpga_port_enable ;; on_pd mutex_unlock.

Definition fpga_port_disable : K pdev Z :=
  on_pd mutex_lock ;;
  ret <- __fpga_port_disable ;;
  on_pd mutex_unlock ;;
  kret ret.

Definition __fpga_port_reset : K pdev Z :=
  ret <- __fpga_port_disable ;;
  if istrue ret then kret ret
  else __fpga_port_enable ;; kret 0.

Definition fpga_port_reset : K pdev Z :=
  on_pd mutex_lock ;;
  ret <- __fpga_port_reset ;;
  on_pd mutex_unlock ;;
  kret ret.
End Ops.

Arguments mutex_lock {Op P} p /.
Arguments mutex_unlock {Op P} p /.
Arguments on_pd {Op P D A} c p /.
Arguments on_io {Op P D A} c p /.
Arguments get_feature : simpl never.
Arguments get_feature_ioaddr_by_index : simpl never.
Arguments set_lock {Op P} v r /.
Arguments set_excl_open {Op P} v r /.
Arguments set_open_count {Op P} v r /.
Arguments set_disable_count {Op P} v r /.
Arguments set_unplug {Op P} v r /.
Arguments set_pd {Op P D} v r /.
Arguments set_io {Op P D} v r /.

Lemma get_feature_run {Op P} i f (p : feature_platform_data Op P) :
  0 <= i -> features p !! Z.to_nat i = Some f -> get_feature i p = Some (f, p).
Proof.
  intros Hi Hf. unfold get_feature. simpl.
  replace (i <? 0) with false by lia. by rewrite Hf.
Qed.

Lemma get_feature_ioaddr_run {Op P} i f (p : feature_platform_data Op P) :
  0 <= i -> features p !! Z.to_nat i = Some f ->
  get_feature_ioaddr_by_index i p = Some (f_ioaddr f, p).
Proof.
  intros Hi Hf. unfold get_feature_ioaddr_by_index. simpl.
  by rewrite (get_feature_run _ _ _ Hi Hf).
Qed.

(** ** Open counting *)

Section OpenCount.
Context {Op P : Type}.
Implicit Types p : feature_platform_data Op P.

(** The device is free, shared by [open_count] openers, or owned by one. *)
Definition use_wf p : Prop :=
  lock p = false /\ 0 <= open_count p /\
  (excl_open p = 0 \/ (excl_open p = 1 /\ open_count p = 1)).

(** One call of the open/close protocol; a close is only issued by the
    release of a file that was opened. *)
Inductive use_step : feature_platform_data Op P -> feature_platform_data Op P -> Prop :=
| us_open p ret p' : feature_dev_use_begin p = Some (ret, p') -> use_step p p'
| us_excl p ret p' : feature_dev_use_excl_begin p = Some (ret, p') -> use_step p p'
| us_close p p' : 0 < open_count p -> feature_dev_use_end p = Some (tt, p') -> use_step p p'
| us_unplug p p' : mark_unplug p = Some (tt, p') -> use_step p p'.

Lemma use_step_wf p p' : use_wf p -> use_step p p' -> use_wf p'.
Proof.
  intros (Hl & Hc & He) Hs. destruct p; simpl in *; subst.
  inversion Hs; subst; clear Hs; simpl in *.
  - unfold feature_dev_use_begin in H; simpl in H.
    destruct (istrue excl_open0 || unplug0) eqn:E; simpl in H; inv_run; simpl;
      [split_and!; simpl; auto|].
    apply orb_false_elim in E as [E _]. unfold istrue in E. boolify.
    split_and!; simpl; [done | lia | lia].
  - unfold feature_dev_use_excl_begin in H; simpl in H.
    destruct (istrue open_count0 || unplug0) eqn:E; simpl in H; inv_run; simpl;
      [split_and!; simpl; auto|].
    apply orb_false_elim in E as [E _]. unfold istrue in E. boolify.
    split_and!; simpl; [done | lia | lia].
  - unfold feature_dev_use_end, __feature_dev_use_end in *; simpl in *.
    inv_run. split_and!; simpl; [done | lia | lia].
  - unfold mark_unplug in *; simpl in *. inv_run. split_and!; simpl; auto.
Qed.

Lemma use_reachable_wf p p' : use_wf p -> rtc use_step p p' -> use_wf p'.
Proof. intros Hp H. induction H; eauto using use_step_wf. Qed.

Lemma alloc_use_wf n p :
  feature_platform_data_alloc_and_init true n = Some p -> use_wf p.
Proof. intros [= <-]. split_and!; simpl; [done | lia | lia]. Qed.
End OpenCount.

(** C34: the open counters are consistent in every reachable state of a feature
    device: starting from a freshly allocated device, after any sequence of
    shared opens, exclusive opens (successful or refused), closes of opened
    files and unplugs, the mutex is free, open_count is not negative, and an
    exclusive open means exactly one opener. *)
Theorem open_protocol_invariant {Op P} n (p0 p : feature_platform_data Op P) :
  feature_platform_data_alloc_and_init true n = Some p0 ->
  rtc use_step p0 p ->
  lock p = false /\ 0 <= open_count p /\
  (excl_open p = 0 \/ (excl_open p = 1 /\ open_count p = 1)).
Proof. intros H0 H. eapply use_reachable_wf; [eapply alloc_use_wf, H0 | exact H]. Qed.

Definition demo_pdata : feature_platform_data unit unit :=
  default (Pdata false 0 0 0 [] false None 0 [])
    (feature_platform_data_alloc_and_init true 7).

Lemma open_protocol_invariant_witness :
  exists p : feature_platform_data unit unit,
    rtc use_step demo_pdata p /\ open_count p = 1 /\ excl_open p = 1 /\
    (lock p = false /\ 0 <= open_count p /\
     (excl_open p = 0 \/ (excl_open p = 1 /\ open_count p = 1))).
Proof.
  assert (rtc use_step demo_pdata (set_open_count 1 (set_excl_open 1 demo_pdata))) as Hr.
  { eapply rtc_l; [eapply (us_excl _ 0); reflexivity | apply rtc_refl]. }
  eexists. split; [exact Hr|]. split; [reflexivity|]. split; [reflexivity|].
  exact (open_protocol_invariant 7 demo_pdata _ eq_refl Hr).
Defined.

(** O_EXCL works: when an exclusive open succeeds the device had no opener
    and was not unplugged, every further open of either kind is refused with
    -EBUSY and changes nothing, and the matching close restores the device to
    the state before the open. *)
Lemma exclusive_open_excludes {Op P} (p p' : feature_platform_data Op P) :
  use_wf p ->
  feature_dev_use_excl_begin p = Some (0, p') ->
  open_count p = 0 /\ unplug p = false /\
  feature_dev_use_begin p' = Some (- EBUSY, p') /\
  feature_dev_use_excl_begin p' = Some (- EBUSY, p') /\
  feature_dev_use_end p' = Some (tt, p).
Proof.
  intros (Hl & Hc & He) H. destruct p; simpl in *; subst.
  unfold feature_dev_use_excl_begin in H. simpl in H.
  destruct (istrue open_count0 || unplug0) eqn:E; simpl in H; [discriminate|].
  injection H as <-. apply orb_false_elim in E as [E ->].
  unfold istrue in E. boolify. subst. destruct He as [->|[_ ?]]; [|lia].
  split_and!; reflexivity.
Qed.

Lemma exclusive_open_excludes_witness :
  open_count demo_pdata = 0 /\ unplug demo_pdata = false /\
  feature_dev_use_begin (set_open_count 1 (set_excl_open 1 demo_pdata))
    = Some (- EBUSY, set_open_count 1 (set_excl_open 1 demo_pdata)) /\
  feature_dev_use_excl_begin (set_open_count 1 (set_excl_open 1 demo_pdata))
    = Some (- EBUSY, set_open_count 1 (set_excl_open 1 demo_pdata)) /\
  feature_dev_use_end (set_open_count 1 (set_excl_open 1 demo_pdata)) = Some (tt, demo_pdata).
Proof.
  apply exclusive_open_excludes; [|reflexivity].
  split_and!; [reflexivity | vm_compute; discriminate | left; reflexivity].
Defined.

(** ** Port reset *)

Section PortReset.
Context {Op P D : Type} {dev : Mmio D} {ok : MmioOk D} {regs : MmioReg D}.
Abbreviation pdev := (platform_device Op P D).
Implicit Types q : pdev.

(** The port header is mapped at [base]. *)
Definition port_hdr_at (base : Z) q : Prop :=
  base <> 0 /\ exists f, features (pd q) !! 0%nat = Some f /\ f_ioaddr f = base.

Definition control_addr (base : Z) : Z := base + offsetof feature_port_header "control".
Definition control_of (base : Z) q : Z := fst (dev_readq (control_addr base) (io q)).
Definition sftrst (base : Z) q : Z :=
  fget feature_port_control "port_sftrst" (control_of base q).

Definition set_sftrst (base v : Z) q : pdev :=
  set_io (dev_writeq (control_addr base)
            (fset feature_port_control "port_sftrst" v (control_of base q)) (io q)) q.

Definition count_to (n : Z) q : pdev := set_pd (set_disable_count n (pd q)) q.

Lemma __fpga_port_disable_run base q :
  port_hdr_at base q -> 0 <= disable_count (pd q) < 2 ^ 32 - 1 ->
  __fpga_port_disable q =
  Some (0, if istrue (disable_count (pd q))
           then count_to (disable_count (pd q) + 1) q
           else set_sftrst base 1 (count_to 1 q)).
Proof.
  intros (Hb & f & Hf & Hio) Hc. unfold __fpga_port_disable. simpl.
  rewrite u32_small by (unfold in_range; lia).
  destruct (istrue (disable_count (pd q))) eqn:E; simpl; [done|].
  unfold istrue in E. boolify. rewrite E. rewrite (get_feature_ioaddr_run PORT_FEATURE_ID_HEADER f) by done. simpl.
  unfold mmio_readq, mmio_writeq. apply Z.eqb_neq in Hb. rewrite Hio, Hb. simpl.
  unfold set_sftrst, control_of, control_addr. simpl. rewrite <- Hio.
  rewrite (surjective_pairing (dev_readq _ (io q))). simpl.
  rewrite mem_read_pure. reflexivity.
Qed.

Lemma __fpga_port_enable_run base q :
  port_hdr_at base q -> 0 < disable_count (pd q) < 2 ^ 32 ->
  __fpga_port_enable q =
  Some (tt, if 1 <? disable_count (pd q)
            then count_to (disable_count (pd q) - 1) q
            else set_sftrst base 0 (count_to 0 q)).
Proof.
  intros (Hb & f & Hf & Hio) Hc. unfold __fpga_port_enable. simpl.
  rewrite u32_small by (unfold in_range; lia).
  replace (istrue (disable_count (pd q) - 1)) with (1 <? disable_count (pd q))
    by (unfold istrue; lia).
  destruct (1 <? disable_count (pd q)) eqn:E; simpl; [done|].
  boolify. replace (disable_count (pd q) - 1) with 0 by lia. rewrite (get_feature_ioaddr_run PORT_FEATURE_ID_HEADER f) by done. simpl.
  unfold mmio_readq, mmio_writeq. apply Z.eqb_neq in Hb. rewrite Hio, Hb. simpl.
  unfold set_sftrst, control_of, control_addr. simpl. rewrite <- Hio.
  rewrite (surjective_pairing (dev_readq _ (io q))). simpl.
  rewrite mem_read_pure. reflexivity.
Qed.

Context {mem : MmioMem D}.

Lemma control_of_set base v q :
  control_of base (set_sftrst base v q) =
  fset feature_port_control "port_sftrst" v (control_of base q).
Proof.
  unfold control_of, set_sftrst. simpl. apply mem_write_same.
  apply fset_range; [reg_tac | apply readq_u64].
Qed.

Lemma sftrst_set base v q : sftrst base (set_sftrst base v q) = wrap 1 v.
Proof.
  unfold sftrst. rewrite control_of_set.
  by rewrite fget_fset_same by reg_tac.
Qed.

Lemma sftrst_count base n q : sftrst base (count_to n q) = sftrst base q.
Proof. reflexivity. Qed.

Lemma port_hdr_count base n q : port_hdr_at base q -> port_hdr_at base (count_to n q).
Proof. done. Qed.

Lemma port_hdr_sftrst base v q : port_hdr_at base q -> port_hdr_at base (set_sftrst base v q).
Proof. done. Qed.

(** The users of the counter: a disable may nest (up to the width of the
    counter), an enable follows a disable. *)
Inductive port_step : pdev -> pdev -> Prop :=
| ps_disable q r q' :
    disable_count (pd q) < 2 ^ 32 - 1 -> __fpga_port_disable q = Some (r, q') -> port_step q q'
| ps_enable q q' :
    0 < disable_count (pd q) -> __fpga_port_enable q = Some (tt, q') -> port_step q q'.

Definition port_inv (base : Z) q : Prop :=
  port_hdr_at base q /\ 0 <= disable_count (pd q) < 2 ^ 32 /\
  sftrst base q = if istrue (disable_count (pd q)) then 1 else 0.

Lemma port_step_inv base q q' : port_inv base q -> port_step q q' -> port_inv base q'.
Proof.
  intros (Hh & Hc & Hs) Hst. inversion Hst as [? r ? Hlt Hr|? ? Hlt Hr]; subst.
  - rewrite (__fpga_port_disable_run base) in Hr by (done || lia).
    injection Hr as _ <-. destruct (istrue (disable_count (pd q))) eqn:E.
    + unfold istrue in E. boolify. split_and!; [done | simpl; lia .. |].
      rewrite sftrst_count, Hs. simpl. unfold istrue.
      by replace (disable_count (pd q) + 1 =? 0) with false by lia.
    + split_and!; [by apply port_hdr_sftrst | simpl; lia .. |]. by rewrite sftrst_set.
  - rewrite (__fpga_port_enable_run base) in Hr by (done || lia).
    injection Hr as <-. destruct (1 <? disable_count (pd q)) eqn:E; boolify.
    + split_and!; [done | simpl; lia .. |]. rewrite sftrst_count, Hs. simpl.
      unfold istrue. replace (disable_count (pd q) =? 0) with false by lia.
      by replace (disable_count (pd q) - 1 =? 0) with false by lia.
    + split_and!; [by apply port_hdr_sftrst | simpl; lia .. |]. by rewrite sftrst_set.
Qed.

Lemma port_reachable_inv base q q' : port_inv base q -> rtc port_step q q' -> port_inv base q'.
Proof. intros Hq H. induction H; eauto using port_step_inv. Qed.
End PortReset.

(** C35: the reset counter drives the reset bit: on a register-file device, in
    every state reached from a running port (counter 0, port_sftrst clear) by
    nested __fpga_port_disable calls and matching __fpga_port_enable calls,
    the soft-reset bit of the port control register is set exactly while
    disable_count is positive. *)
Theorem port_reset_follows_count {Op P D} {dev : Mmio D} {ok : MmioOk D} {mem : MmioMem D}
    base (q0 q : platform_device Op P D) :
  port_hdr_at base q0 -> disable_count (pd q0) = 0 -> sftrst base q0 = 0 ->
  rtc port_step q0 q ->
  0 <= disable_count (pd q) < 2 ^ 32 /\
  (sftrst base q = 1 <-> 0 < disable_count (pd q)).
Proof.
  intros Hh Hc Hs Hr. assert (port_inv base q0) as H0.
  { split_and!; [done | lia .. |]. by rewrite Hc. }
  destruct (port_reachable_inv base q0 q H0 Hr) as (_ & Hb & Hq).
  split; [done|]. rewrite Hq. unfold istrue.
  destruct (disable_count (pd q) =? 0) eqn:E; boolify; simpl; lia.
Qed.

(** A port whose header is mapped at 0x1000 of a register file. *)
Definition demo_port : platform_device unit unit mem_dev :=
  Pdev (Pdata false 0 0 0 [] false None 1
          [Feature (Some "port_hdr"%string) 0 0x1000 [] 0 None None]) ∅.

Lemma port_reset_follows_count_witness :
  exists q : platform_device unit unit mem_dev,
    rtc port_step demo_port q /\ disable_count (pd q) = 2 /\
    (0 <= disable_count (pd q) < 2 ^ 32 /\
     (sftrst 0x1000 q = 1 <-> 0 < disable_count (pd q))).
Proof.
  assert (exists q, rtc port_step demo_port q /\ disable_count (pd q) = 2) as (q & Hr & Hc).
  { eexists. split.
    - eapply rtc_l; [eapply ps_disable; [vm_compute; reflexivity | reflexivity]|].
      eapply rtc_l; [eapply ps_disable; [vm_compute; reflexivity | reflexivity]|].
      apply rtc_refl.
    - reflexivity. }
  exists q. split; [exact Hr|]. split; [exact Hc|].
  apply (port_reset_follows_count 0x1000 demo_port q); [| reflexivity | | exact Hr].
  - split; [discriminate|]. eexists. split; reflexivity.
  - vm_compute. reflexivity.
Defined.

(** a port reset is complete and harmless: __fpga_port_reset always
    succeeds; on a running port it pulses the soft-reset bit (set, then clear)
    leaving every other bit of the control register and the counter as they
    were, and on a port that somebody holds disabled it does nothing at all. *)
Lemma __fpga_port_reset_spec {Op P D} {dev : Mmio D} {ok : MmioOk D} {mem : MmioMem D}
    base (q : platform_device Op P D) :
  port_hdr_at base q -> 0 <= disable_count (pd q) < 2 ^ 32 - 1 ->
  exists q',
    __fpga_port_reset q = Some (0, q') /\ pd q' = pd q /\
    (0 < disable_count (pd q) -> q' = q) /\
    (disable_count (pd q) = 0 ->
     sftrst base q' = 0 /\
     (forall n, n <> "port_sftrst"%string ->
        fget feature_port_control n (control_of base q') =
        fget feature_port_control n (control_of base q)) /\
     (forall a, a <> control_addr base -> fst (dev_readq a (io q')) = fst (dev_readq a (io q)))).
Proof.
  intros Hh Hc. unfold __fpga_port_reset. simpl.
  rewrite (__fpga_port_disable_run base) by done. simpl.
  destruct (istrue (disable_count (pd q))) eqn:E; unfold istrue in E; boolify.
  - rewrite (__fpga_port_enable_run base) by (done || simpl; lia). simpl.
    replace (1 <? disable_count (pd q) + 1) with true by lia.
    replace (disable_count (pd q) + 1 - 1) with (disable_count (pd q)) by lia.
    exists q. split_and!; [|done|done|lia]. by destruct q as [[]].
  - rewrite (__fpga_port_enable_run base) by (try done; simpl; lia). simpl.
    eexists. split; [reflexivity|]. split; [|split; [lia|]].
    + simpl. rewrite <- E. by destruct q as [[]].
    + intros _. split; [apply sftrst_set|]. split.
      * intros n Hn. rewrite control_of_set.
        change (control_of base (count_to ?n ?x)) with (control_of base x).
        rewrite control_of_set.
        assert (reg_wf feature_port_control = true) as Hwf by reg_tac.
        rewrite !fget_fset_other by (exact Hwf || congruence). reflexivity.
      * intros a Ha. simpl. by rewrite !mem_write_other by congruence.
Qed.

Lemma __fpga_port_reset_witness :
  exists q',
    __fpga_port_reset demo_port = Some (0, q') /\ pd q' = pd demo_port /\
    (0 < disable_count (pd demo_port) -> q' = demo_port) /\
    (disable_count (pd demo_port) = 0 ->
     sftrst 0x1000 q' = 0 /\
     (forall n, n <> "port_sftrst"%string ->
        fget feature_port_control n (control_of 0x1000 q') =
        fget feature_port_control n (control_of 0x1000 demo_port)) /\
     (forall a, a <> control_addr 0x1000 ->
        fst (dev_readq a (io q')) = fst (dev_readq a (io demo_port)))).
Proof.
  apply __fpga_port_reset_spec.
  - split; [discriminate|]. eexists. split; reflexivity.
  - vm_compute. split; [discriminate | reflexivity].
Defined.

(** __fpga_port_disable does not wait for the reset to complete: whatever
    the device answers, the first disable performs one read and one write of
    the control register, setting port_sftrst, and returns 0; the register is
    never read again, so port_sftrst_ack is never observed. *)
Lemma __fpga_port_disable_no_poll {Op P D} {dev : Mmio D} base (q : platform_device Op P D) :
  port_hdr_at base q -> disable_count (pd q) = 0 ->
  __fpga_port_disable q =
  Some (0, set_io
             (dev_writeq (control_addr base)
                (fset feature_port_control "port_sftrst" 1
                   (fst (dev_readq (control_addr base) (io q))))
                (snd (dev_readq (control_addr base) (io q))))
             (count_to 1 q)).
Proof.
  intros (Hb & f & Hf & Hio) Hc. unfold __fpga_port_disable. simpl. rewrite Hc. simpl.
  rewrite (get_feature_ioaddr_run PORT_FEATURE_ID_HEADER f) by done. simpl.
  unfold mmio_readq, mmio_writeq. apply Z.eqb_neq in Hb. rewrite Hio, Hb. simpl.
  rewrite <- Hio. fold (control_addr (f_ioaddr f)).
  destruct (dev_readq (control_addr (f_ioaddr f)) (io q)). reflexivity.
Qed.

Lemma __fpga_port_disable_no_poll_witness :
  __fpga_port_disable demo_port =
  Some (0, set_io
             (dev_writeq (control_addr 0x1000)
                (fset feature_port_control "port_sftrst" 1
                   (fst (dev_readq (control_addr 0x1000) (io demo_port))))
                (snd (dev_readq (control_addr 0x1000) (io demo_port))))
             (count_to 1 demo_port)).
Proof.
  apply __fpga_port_disable_no_poll; [|reflexivity].
  split; [discriminate|]. eexists. split; reflexivity.
Defined.
