(* ===== verification/Views.v ===== *)
(** * Frame reasoning for the components

    [keeps V c] states that a computation leaves a view of its state alone;
    [pure_on c] that it changes nothing.  The tactic [keep] proves the former
    from the structure of the computation and the lemmas in the hint database
    [keeps]. *)

From S2P Require Import Prelude.
From S2P Require Import FeatureDev.

(** ** Views

    A view is the part of the state an operation leaves alone.  [keeps V c]
    says that [c] never changes the view [V]; it is proved from the structure
    of [c] by the tactic [keep]. *)

Definition keeps {S T A} (V : S -> T) (c : K S A) : Prop :=
  forall v, preserves (fun s => V s = v) c.

Lemma keeps_ret {S T A} (V : S -> T) (a : A) : keeps V (kret a).
Proof. intros v. apply preserves_ret. Qed.

Lemma keeps_bind {S T A B} (V : S -> T) (c : K S A) (f : A -> K S B) :
  keeps V c -> (forall a, keeps V (f a)) -> keeps V (kbind c f).
Proof. intros Hc Hf v. apply preserves_bind; [apply Hc|]. intros a. apply Hf. Qed.

Lemma keeps_oops {S T A} (V : S -> T) : keeps V (@oops S A).
Proof. intros v s a s' _ H. discriminate. Qed.

Lemma keeps_deref {S T A} (V : S -> T) (p : option A) : keeps V (deref p).
Proof. intros v. apply preserves_deref. Qed.

Lemma keeps_zoom {S T U A} (V : S -> T) (get : S -> U) put (c : K U A) :
  (forall s u, V (put u s) = V s) -> keeps V (zoom get put c).
Proof.
  intros Hp v s a s' Hs. simpl. destruct (c (get s)) as [[b u]|]; [|discriminate].
  intros [= _ <-]. by rewrite Hp.
Qed.

(** A computation on the platform data that returns it as it was. *)
Definition pure_on {S A} (c : K S A) : Prop := forall s a s', c s = Some (a, s') -> s' = s.

Lemma get_feature_pure {Op P} i : pure_on (@get_feature Op P i).
Proof.
  intros p f p' H. unfold get_feature in H. simpl in H. destruct (i <? 0); [discriminate|].
  destruct (features p !! Z.to_nat i); simpl in H; congruence.
Qed.

Lemma gets_pure {S A} (f : S -> A) : pure_on (kgets f).
Proof. intros s a s' H. simpl in H. congruence. Qed.

Lemma kget_pure {S} : pure_on (@kget S).
Proof. intros s a s' H. simpl in H. congruence. Qed.

Lemma bind_pure {S A B} (c : K S A) (f : A -> K S B) :
  pure_on c -> (forall a, pure_on (f a)) -> pure_on (kbind c f).
Proof.
  intros Hc Hf s b s' H. simpl in H. destruct (c s) as [[a s1]|] eqn:E; [|discriminate].
  apply Hc in E as ->. by eapply Hf.
Qed.

Lemma ret_pure {S A} (a : A) : pure_on (@kret S A a).
Proof. intros s b s' H. simpl in H. congruence. Qed.

Lemma ioaddr_pure {Op P} i : pure_on (@get_feature_ioaddr_by_index Op P i).
Proof. apply bind_pure; [apply get_feature_pure|]. intros. apply ret_pure. Qed.

Lemma present_pure {Op P} i : pure_on (@is_feature_present Op P i).
Proof. apply bind_pure; [apply ioaddr_pure|]. intros. apply ret_pure. Qed.

Lemma priv_pure {Op P} i : pure_on (@feature_get_priv Op P i).
Proof. apply bind_pure; [apply get_feature_pure|]. intros. apply ret_pure. Qed.

Lemma keeps_on_pd_pure {Op P W T A} (V : platform_device Op P W -> T)
    (c : K (feature_platform_data Op P) A) :
  pure_on c -> keeps V (on_pd c).
Proof.
  intros Hc v q a q' Hv H. simpl in H. destruct (c (pd q)) as [[b p]|] eqn:E; [|discriminate].
  apply Hc in E as ->. injection H as _ <-. by destruct q.
Qed.

(** An update of the platform data that the view does not see. *)
Lemma keeps_on_pd {Op P W T A} (V : platform_device Op P W -> T)
    (c : K (feature_platform_data Op P) A) :
  (forall q a p, c (pd q) = Some (a, p) -> V (set_pd p q) = V q) -> keeps V (on_pd c).
Proof.
  intros Hc v q a q' Hv H. simpl in H. destruct (c (pd q)) as [[b p]|] eqn:E; [|discriminate].
  injection H as _ <-. rewrite <- Hv. by eapply Hc.
Qed.

Create HintDb keeps discriminated.
#[export] Hint Resolve keeps_ret keeps_oops keeps_deref get_feature_pure gets_pure
  kget_pure ioaddr_pure present_pure priv_pure : keeps.

(** Descends through binds, conditionals and matches; [solve_leaf] does the
    rest. *)
Ltac keep solve_leaf :=
  repeat match goal with
    | |- keeps _ (kbind _ _) => apply keeps_bind; [|intros ?]
    | |- keeps _ (if ?b then _ else _) => destruct b
    | |- keeps _ (match ?x with _ => _ end) => destruct x
    | |- keeps _ (let _ := _ in _) => cbv zeta
    | |- keeps _ (on_pd _) => apply keeps_on_pd_pure; solve [auto with keeps]
    | |- keeps _ _ => solve [auto with keeps]
    | |- keeps _ _ => solve_leaf
    end.

(** ** Triples

    [triple P c Q]: a run of [c] from a state in [P] that returns ends in
    [Q].  The C functions modelled return 0 or an error code, and their callers
    stop at an error: [good I] is the postcondition "0 and [I]". *)

Definition triple {S A} (P : S -> Prop) (c : K S A) (Q : A -> S -> Prop) : Prop :=
  forall s a s', P s -> c s = Some (a, s') -> Q a s'.

Definition good {S} (I : S -> Prop) (r : Z) (s : S) : Prop := r = 0 -> I s.

Lemma triple_bind {S A B} (P : S -> Prop) (c : K S A) (f : A -> K S B) R Q :
  triple P c R -> (forall a, triple (R a) (f a) Q) -> triple P (kbind c f) Q.
Proof.
  intros Hc Hf s b s' HP H. unfold kbind in H.
  destruct (c s) as [[a s1]|] eqn:E; [|discriminate]. eapply Hf; [eapply Hc|]; eauto.
Qed.

Lemma triple_keep {S A B} (I : S -> Prop) (c : K S A) (f : A -> K S B) Q :
  preserves I c -> (forall a, triple I (f a) Q) -> triple I (kbind c f) Q.
Proof. intros Hc Hf. eapply triple_bind; [exact Hc | exact Hf]. Qed.

Lemma triple_preserves {S} (I : S -> Prop) (c : K S Z) : preserves I c -> triple I c (good I).
Proof. intros H s r s' HI Hc _. by eapply H. Qed.

Lemma triple_ret {S} (I : S -> Prop) (r : Z) : triple I (kret r) (good I).
Proof. apply triple_preserves, preserves_ret. Qed.

Lemma triple_oops {S A} (P : S -> Prop) Q : triple P (@oops S A) Q.
Proof. intros s a s' _ H. discriminate. Qed.

(** The test of a result: [if (ret) return ret; d]. *)
Lemma good_check {S} (I J : S -> Prop) r (d : K S Z) :
  (r = 0 -> triple I d (good J)) -> triple (good I r) (if istrue r then kret r else d) (good J).
Proof.
  intros Hd s a s' HI H. unfold istrue in H. destruct (Z.eqb_spec r 0) as [E|E]; simpl in H.
  - eapply (Hd E); [by apply HI | exact H].
  - injection H as <- <-. intros ->. done.
Qed.

(** [ret = c; if (ret) return ret; d] *)
Lemma triple_check {S} (P I : S -> Prop) (c d : K S Z) :
  triple P c (good I) -> triple I d (good I) ->
  triple P (ret <- c ;; if istrue ret then kret ret else d) (good I).
Proof.
  intros Hc Hd. eapply triple_bind; [exact Hc|]. intros r. by apply good_check.
Qed.

(** [ret = c; d; return ret] *)
Lemma triple_tail {S B} (P I : S -> Prop) (c : K S Z) (d : K S B) :
  triple P c (good I) -> preserves I d -> triple P (ret <- c ;; d ;; kret ret) (good I).
Proof.
  intros Hc Hd. eapply triple_bind; [exact Hc|]. intros r s a s' HP H.
  unfold kbind in H. destruct (d s) as [[b s1]|] eqn:E; [|discriminate].
  injection H as <- <-. intros ->. eapply Hd; [by apply HP | exact E].
Qed.

(** A step after the call whose result is [r]. *)
Lemma good_step {S A} (I : S -> Prop) r (c : K S A) (f : A -> K S Z) :
  preserves I c -> (forall a, triple (good I r) (f a) (good I)) ->
  triple (good I r) (kbind c f) (good I).
Proof.
  intros Hc Hf. eapply triple_bind; [|exact Hf]. intros s a s' Hg H Hr. eapply Hc, H. by apply Hg.
Qed.

Lemma good_weaken {S} (P I J : S -> Prop) (c : K S Z) :
  (forall s, I s -> J s) -> triple P c (good I) -> triple P c (good J).
Proof. intros HIJ Hc s r s' HP H Hr. by apply HIJ, (Hc s r s' HP H). Qed.

Lemma good_ret {S} (I : S -> Prop) r : triple (good I r) (kret r) (good I).
Proof. intros s a s' Hg [= <- <-]. exact Hg. Qed.

Lemma preserves_zoom {S T A} (I : S -> Prop) (get : S -> T) put (c : K T A) :
  (forall s a u, I s -> c (get s) = Some (a, u) -> I (put u s)) -> preserves I (zoom get put c).
Proof.
  intros Hp s a s' HI. simpl. destruct (c (get s)) as [[b u]|] eqn:E; [|discriminate].
  intros [= _ <-]. eauto.
Qed.

(** A computation that keeps a view preserves what the view determines. *)
Lemma keeps_preserves {S T A} (V : S -> T) (I : S -> Prop) (c : K S A) :
  keeps V c -> (forall s s', V s' = V s -> I s -> I s') -> preserves I c.
Proof. intros Hk HV s a s' HI H. eapply HV; [by eapply Hk | exact HI]. Qed.

Lemma keeps_run {S T A} (V : S -> T) (c : K S A) s a s' :
  keeps V c -> c s = Some (a, s') -> V s' = V s.
Proof. intros Hk H. by eapply Hk. Qed.
