(* ===== verification/FeatureInit.v ===== *)
(** * Binding feature drivers to features (feature-dev.c)

    fpga_dev_feature_init walks a table of [struct feature_driver] and, for
    each feature of the device with the driver's name, runs the driver's test
    and init callbacks and records its operations; on an error everything
    bound so far is undone.  The callbacks are an interface: [FeatureOps] gives
    their effect, [FeatureOpsOk] what the walk relies on. *)

From S2P Require Import Prelude.
From S2P Require Import Bitfield.
From S2P Require Import Registers.
From S2P Require Import Mmio.
From S2P Require Import FeatureDev.

Class FeatureOps (Op P W : Type) := {
  ops_test : Op -> option (Z -> K (platform_device Op P W) Z);
  ops_init : Op -> Z -> K (platform_device Op P W) Z;
  ops_uinit : Op -> Z -> K (platform_device Op P W) unit;
  ops_ioctl : Op -> option (Z -> Z -> Z -> K (platform_device Op P W) Z);
}.

(** Names and bound operations of the features of a device. *)
Definition feat_sig {Op P W} (q : platform_device Op P W) : list (option string * option Op) :=
  map (fun f => (f_name f, f_ops f)) (features (pd q)).

(** Callbacks leave the feature names, the bound operations and the size of
    the table alone. *)
Class FeatureOpsOk (Op P W : Type) {fo : FeatureOps Op P W} := {
  test_sig : forall o t i q r q',
    ops_test o = Some t -> t i q = Some (r, q') ->
    feat_sig q' = feat_sig q /\ num (pd q') = num (pd q);
  init_sig : forall o i q r q',
    ops_init o i q = Some (r, q') ->
    feat_sig q' = feat_sig q /\ num (pd q') = num (pd q);
  uinit_sig : forall o i q r q',
    ops_uinit o i q = Some (r, q') ->
    feat_sig q' = feat_sig q /\ num (pd q') = num (pd q);
}.

Record feature_driver (Op : Type) := FeatureDrv { drv_name : string; drv_ops : Op }.
Arguments FeatureDrv {Op} drv_name drv_ops.
Arguments drv_name {Op} f.
Arguments drv_ops {Op} f.

Section Init.
Context {Op P W : Type} {fo : FeatureOps Op P W}.
Abbreviation pdev := (platform_device Op P W).

(** [feature->ops = o]. *)
Definition set_ops (i : Z) (o : option Op) : K pdev unit :=
  f <- on_pd (get_feature i) ;; on_pd (put_feature i (set_f_ops o f)).

(** The body of the loop of fpga_dev_feature_uinit. *)
Definition uinit_one (i : Z) : K pdev unit :=
  f <- on_pd (get_feature i) ;;
  match f_ops f with
  | Some o => ops_uinit o i ;; set_ops i None
  | None => kret tt
  end.

(** [fpga_dev_for_each_feature] from feature [i], [n] to go. *)
Fixpoint uinit_from (n : nat) (i : Z) : K pdev unit :=
  match n with
  | O => kret tt
  | S n => uinit_one i ;; uinit_from n (i + 1)
  end.

Definition fpga_dev_feature_uinit : K pdev unit :=
  n <- on_pd (kgets num) ;; uinit_from (Z.to_nat n) 0.

Definition feature_instance_init (i : Z) (drv : feature_driver Op) : K pdev Z :=
  ret <- match ops_test (drv_ops drv) with Some t => t i | None => kret 0 end ;;
  if istrue ret then kret ret
  else
    ret <- ops_init (drv_ops drv) i ;;
    if istrue ret then kret ret
    else set_ops i (Some (drv_ops drv)) ;; kret ret.

Fixpoint init_from (n : nat) (i : Z) (drv : feature_driver Op) : K pdev Z :=
  match n with
  | O => kret 0
  | S n =>
      f <- on_pd (get_feature i) ;;
      match f_name f with
      | None => init_from n (i + 1) drv
      | Some name =>
          if String.eqb (drv_name drv) name then
            ret <- feature_instance_init i drv ;;
            if istrue ret then kret ret else init_from n (i + 1) drv
          else init_from n (i + 1) drv
      end
  end.

Fixpoint init_drvs (drvs : list (feature_driver Op)) : K pdev Z :=
  match drvs with
  | [] => kret 0
  | drv :: drvs =>
      n <- on_pd (kgets num) ;;
      ret <- init_from (Z.to_nat n) 0 drv ;;
      if istrue ret then kret ret else init_drvs drvs
  end.

Definition fpga_dev_feature_init (drvs : list (feature_driver Op)) : K pdev Z :=
  ret <- init_drvs drvs ;;
  if istrue ret then fpga_dev_feature_uinit ;; kret ret else kret 0.

(** ** Specification: what the walk does to the names and operations *)

Definition matches (drv : feature_driver Op) (nm : option string) : bool :=
  match nm with Some n => String.eqb (drv_name drv) n | None => false end.

Definition bind_one (drv : feature_driver Op) (s : option string * option Op) :=
  (fst s, if matches drv (fst s) then Some (drv_ops drv) else snd s).

Definition bind_sig (drvs : list (feature_driver Op)) (s : option string * option Op) :=
  fold_left (fun s d => bind_one d s) drvs s.

(** A device whose feature table has [num] entries. *)
Definition table_wf (q : pdev) : Prop := num (pd q) = Z.of_nat (length (features (pd q))).

Context {fok : FeatureOpsOk Op P W}.

Lemma feat_sig_length (q : pdev) : length (feat_sig q) = length (features (pd q)).
Proof. apply length_map. Qed.

Lemma feat_sig_lookup (q : pdev) i :
  feat_sig q !! i = (fun f => (f_name f, f_ops f)) <$> features (pd q) !! i.
Proof. unfold feat_sig. rewrite <- list_lookup_fmap. done. Qed.

Lemma get_feature_inv i (p : feature_platform_data Op P) f p' :
  get_feature i p = Some (f, p') -> p' = p /\ 0 <= i /\ features p !! Z.to_nat i = Some f.
Proof.
  unfold get_feature. simpl. destruct (i <? 0) eqn:E; [discriminate|]. boolify.
  destruct (features p !! Z.to_nat i); simpl; [|discriminate]. by intros [= -> ->].
Qed.

Lemma set_ops_sig i o (q q' : pdev) x :
  set_ops i o q = Some (x, q') ->
  num (pd q') = num (pd q) /\
  exists nm o0, feat_sig q !! Z.to_nat i = Some (nm, o0) /\ 0 <= i /\
                feat_sig q' = <[Z.to_nat i := (nm, o)]> (feat_sig q).
Proof.
  unfold set_ops. simpl. destruct (get_feature i (pd q)) as [[f p]|] eqn:E; [|discriminate].
  apply get_feature_inv in E as (-> & Hi & Hf). simpl. unfold put_feature. simpl.
  destruct ((0 <=? i) && (Z.to_nat i <? length (features (pd q)))%nat); [|discriminate].
  intros [= _ <-]. simpl. split; [done|]. exists (f_name f), (f_ops f).
  rewrite feat_sig_lookup, Hf. split_and!; [done|done|].
  unfold feat_sig. simpl. exact (list_fmap_insert (fun f => (f_name f, f_ops f)) _ _ _).
Qed.

Lemma on_get_feature_inv i (q q' : pdev) f :
  on_pd (get_feature i) q = Some (f, q') ->
  q' = q /\ 0 <= i /\ features (pd q) !! Z.to_nat i = Some f.
Proof.
  simpl. destruct (get_feature i (pd q)) as [[g p]|] eqn:E; [|discriminate].
  apply get_feature_inv in E as (-> & Hi & Hf). intros [= <- <-].
  split_and!; [by destruct q | done | done].
Qed.

Lemma lookup_sig i (q : pdev) f :
  features (pd q) !! i = Some f -> feat_sig q !! i = Some (f_name f, f_ops f).
Proof. intros Hf. by rewrite feat_sig_lookup, Hf. Qed.

(** Index [k] is one of the [n] indices from [i] on. *)
Definition in_walk (i : Z) (n k : nat) : bool :=
  (Z.to_nat i <=? k)%nat && (k <? Z.to_nat i + n)%nat.

(** A walk that applies [f] at [i] and then at the [n] next indices. *)
Lemma walk_step {A} (f : A -> A) (l l1 l2 : list A) i n s :
  0 <= i -> l !! Z.to_nat i = Some s -> l1 = <[Z.to_nat i := f s]> l ->
  (forall k, l2 !! k = (if in_walk (i + 1) n k then f else id) <$> l1 !! k) ->
  forall k, l2 !! k = (if in_walk i (S n) k then f else id) <$> l !! k.
Proof.
  intros Hi Hs -> H2 k. rewrite H2. unfold in_walk.
  replace (Z.to_nat (i + 1)) with (S (Z.to_nat i)) by lia.
  destruct (decide (k = Z.to_nat i)) as [->|Hne].
  - rewrite list_lookup_insert_eq by (apply lookup_lt_is_Some; eauto). rewrite Hs.
    replace (S (Z.to_nat i) <=? Z.to_nat i)%nat with false by (symmetry; apply Nat.leb_gt; lia).
    replace (Z.to_nat i <=? Z.to_nat i)%nat with true by (symmetry; apply Nat.leb_le; lia).
    replace (Z.to_nat i <? Z.to_nat i + S n)%nat with true by (symmetry; apply Nat.ltb_lt; lia).
    done.
  - rewrite list_lookup_insert_ne by done.
    destruct (Nat.leb_spec (S (Z.to_nat i)) k), (Nat.leb_spec (Z.to_nat i) k),
      (Nat.ltb_spec k (S (Z.to_nat i) + n)), (Nat.ltb_spec k (Z.to_nat i + S n));
      simpl; try done; lia.
Qed.

Lemma walk_done {A} (f : A -> A) (l : list A) i k :
  l !! k = (if in_walk i 0 k then f else id) <$> l !! k.
Proof.
  unfold in_walk.
  destruct (Nat.leb_spec (Z.to_nat i) k), (Nat.ltb_spec k (Z.to_nat i + 0)); try lia;
    simpl; by destruct (l !! k).
Qed.

Definition clear_ops (s : option string * option Op) := (fst s, @None Op).

Lemma uinit_one_sig i (q q' : pdev) x :
  uinit_one i q = Some (x, q') ->
  num (pd q') = num (pd q) /\ 0 <= i /\ exists s, feat_sig q !! Z.to_nat i = Some s /\
    feat_sig q' = <[Z.to_nat i := clear_ops s]> (feat_sig q).
Proof.
  unfold uinit_one, kbind. intros H. step_in H. apply on_get_feature_inv in Heqo as (-> & Hi & Hf).
  pose proof (lookup_sig _ _ _ Hf) as Hl. destruct (f_ops f) as [o|] eqn:Ho.
  - destruct (ops_uinit o i q) as [[u q2]|] eqn:Hu; [|discriminate].
    apply uinit_sig in Hu as [Hs2 Hn2]. apply set_ops_sig in H as (Hn3 & nm & o0 & Hl2 & _ & Hs3).
    rewrite Hs2, Hl in Hl2. injection Hl2 as <- <-. split_and!; [congruence|done|].
    eexists. split; [exact Hl|]. by rewrite Hs3, Hs2.
  - injection H as _ <-. split_and!; [done|done|]. eexists. split; [exact Hl|].
    by rewrite list_insert_id.
Qed.

(** Undoing walks over the table and clears the operations. *)
Lemma uinit_from_sig n i (q q' : pdev) x :
  uinit_from n i q = Some (x, q') ->
  forall k, feat_sig q' !! k = (if in_walk i n k then clear_ops else id) <$> feat_sig q !! k.
Proof.
  revert i q. induction n as [|n IH]; intros i q H.
  - injection H as _ <-. apply walk_done.
  - simpl in H. destruct (uinit_one i q) as [[u q1]|] eqn:E; [|discriminate].
    apply uinit_one_sig in E as (_ & Hi & s & Hs & H1). eapply walk_step; eauto.
Qed.

Lemma feature_instance_init_sig i drv (q q' : pdev) r :
  feature_instance_init i drv q = Some (r, q') ->
  num (pd q') = num (pd q) /\ length (feat_sig q') = length (feat_sig q) /\
  (r = 0 -> exists s, feat_sig q !! Z.to_nat i = Some s /\
            feat_sig q' = <[Z.to_nat i := (fst s, Some (drv_ops drv))]> (feat_sig q)).
Proof.
  unfold feature_instance_init. simpl. intros H.
  assert (exists r1 q1, feat_sig q1 = feat_sig q /\ num (pd q1) = num (pd q) /\
    (if istrue r1 then kret r1 else
       ret <- ops_init (drv_ops drv) i ;;
       if istrue ret then kret ret
       else set_ops i (Some (drv_ops drv)) ;; kret ret) q1 = Some (r, q')) as (r1 & q1 & Hs & Hn & H1).
  { destruct (ops_test (drv_ops drv)) as [t|] eqn:Ht; [|exists 0, q; done].
    destruct (t i q) as [[r1 q1]|] eqn:E; [|discriminate].
    exists r1, q1. by destruct (test_sig _ _ _ _ _ _ Ht E). }
  clear H. unfold istrue in H1. destruct (r1 =? 0) eqn:E1; boolify; simpl in H1.
  - destruct (ops_init (drv_ops drv) i q1) as [[r2 q2]|] eqn:E2; [|discriminate].
    apply init_sig in E2 as [Hs2 Hn2]. destruct (r2 =? 0) eqn:E3; boolify; simpl in H1.
    + destruct (set_ops i (Some (drv_ops drv)) q2) as [[u q3]|] eqn:E4; [|discriminate].
      injection H1 as <- <-. apply set_ops_sig in E4 as (Hn4 & nm & o0 & Hl & _ & Hs4).
      rewrite Hs2, Hs in Hl. rewrite Hs4, Hs2, Hs, length_insert.
      split_and!; [congruence|done|]. intros _. by exists (nm, o0).
    + injection H1 as <- <-. split_and!; [congruence|by rewrite Hs2, Hs|lia].
  - injection H1 as <- <-. split_and!; [done|by rewrite Hs|lia].
Qed.

Lemma init_from_sig n i drv (q q' : pdev) r :
  init_from n i drv q = Some (r, q') ->
  num (pd q') = num (pd q) /\ length (feat_sig q') = length (feat_sig q) /\
  (r = 0 -> forall k,
     feat_sig q' !! k = (if in_walk i n k then bind_one drv else id) <$> feat_sig q !! k).
Proof.
  revert i q. induction n as [|n IH]; intros i q H.
  - injection H as <- <-. split_and!; [done|done|]. intros _. apply walk_done.
  - simpl in H. destruct (get_feature i (pd q)) as [[f p]|] eqn:E; [|discriminate].
    apply get_feature_inv in E as (-> & Hi & Hf). simpl in H.
    replace {| pd := pd q; io := io q |} with q in H by by destruct q.
    pose proof (lookup_sig _ _ _ Hf) as Hl.
    assert (matches drv (f_name f) = false -> init_from n (i + 1) drv q = Some (r, q') ->
      num (pd q') = num (pd q) /\ length (feat_sig q') = length (feat_sig q) /\
      (r = 0 -> forall k,
        feat_sig q' !! k = (if in_walk i (S n) k then bind_one drv else id) <$> feat_sig q !! k))
      as Hskip.
    { intros Hm Hr. destruct (IH _ _ Hr) as (Hn & Hlen & Hk). split_and!; [done|done|].
      intros Hz. eapply walk_step; [done|exact Hl| |by apply Hk].
      unfold bind_one. simpl. rewrite Hm. by rewrite list_insert_id. }
    destruct (f_name f) as [nm|] eqn:Hnm; [|by apply Hskip].
    destruct (String.eqb (drv_name drv) nm) eqn:Hm; [|by apply Hskip].
    simpl in H. destruct (feature_instance_init i drv q) as [[r1 q1]|] eqn:E; [|discriminate].
    apply feature_instance_init_sig in E as (Hn1 & Hlen1 & Hs1).
    unfold istrue in H. destruct (r1 =? 0) eqn:E1; boolify; simpl in H.
    + destruct (IH _ _ H) as (Hn & Hlen & Hk). split_and!; [congruence|congruence|].
      intros Hz. destruct (Hs1 E1) as (s & Hs & H1). rewrite Hl in Hs. injection Hs as <-.
      eapply walk_step; [done|exact Hl| |by apply Hk].
      unfold bind_one. simpl. rewrite Hm. exact H1.
    + injection H as <- <-. split_and!; [done|done|lia].
Qed.

Lemma in_walk_all (q : pdev) k s :
  table_wf q -> feat_sig q !! k = Some s -> in_walk 0 (Z.to_nat (num (pd q))) k = true.
Proof.
  intros Hwf Hk. apply lookup_lt_Some in Hk. rewrite feat_sig_length in Hk.
  unfold in_walk. rewrite Hwf, Nat2Z.id. simpl. apply Nat.ltb_lt. lia.
Qed.

Lemma init_drvs_sig drvs (q q' : pdev) r :
  table_wf q -> init_drvs drvs q = Some (r, q') ->
  table_wf q' /\ (r = 0 -> feat_sig q' = map (bind_sig drvs) (feat_sig q)).
Proof.
  revert q. induction drvs as [|d drvs IH]; intros q Hwf H.
  - injection H as <- <-. split; [done|]. intros _. by rewrite map_id.
  - simpl in H. replace {| pd := pd q; io := io q |} with q in H by by destruct q.
    destruct (init_from (Z.to_nat (num (pd q))) 0 d q) as [[r1 q1]|] eqn:E; [|discriminate].
    apply init_from_sig in E as (Hn & Hlen & Hs).
    assert (table_wf q1) as Hwf1
      by (unfold table_wf; rewrite <- feat_sig_length, Hlen, Hn, feat_sig_length; done).
    unfold istrue in H. destruct (r1 =? 0) eqn:E1; boolify; simpl in H.
    + destruct (IH _ Hwf1 H) as [Hwf' Hs']. split; [done|]. intros Hz.
      rewrite (Hs' Hz). specialize (Hs E1). apply list_eq. intros k.
      change @map with (fun A B => @fmap list _ A B). cbv beta.
      rewrite !list_lookup_fmap, Hs.
      destruct (feat_sig q !! k) as [s|] eqn:Hk; [|done].
      by rewrite (in_walk_all q k s).
    + injection H as <- <-. split; [done|lia].
Qed.

(** After fpga_dev_feature_uinit nothing is bound. *)
Lemma feature_uinit_clears (q q' : pdev) x :
  table_wf q -> fpga_dev_feature_uinit q = Some (x, q') ->
  Forall (fun f => f_ops f = None) (features (pd q')).
Proof.
  intros Hwf H. unfold fpga_dev_feature_uinit in H. simpl in H.
  replace {| pd := pd q; io := io q |} with q in H by by destruct q.
  pose proof (uinit_from_sig _ _ _ _ _ H) as Hs.
  apply Forall_lookup. intros k f Hf. apply lookup_sig in Hf.
  pose proof (Hs k) as Hk. rewrite Hf in Hk. destruct (feat_sig q !! k) as [s|] eqn:E1; [|done].
  rewrite (in_walk_all q k s Hwf E1) in Hk. by injection Hk.
Qed.

Lemma feature_init_sig drvs (q q' : pdev) r :
  table_wf q -> fpga_dev_feature_init drvs q = Some (r, q') ->
  (r = 0 -> table_wf q' /\ feat_sig q' = map (bind_sig drvs) (feat_sig q)) /\
  (r <> 0 -> Forall (fun f => f_ops f = None) (features (pd q'))).
Proof.
  intros Hwf H. unfold fpga_dev_feature_init, kbind in H. step_in H.
  destruct (init_drvs_sig _ _ _ _ Hwf Heqo) as [Hwf1 Hs].
  unfold istrue in H. destruct (z =? 0) eqn:E; boolify; simpl in H.
  - injection H as <- <-. split; [|done]. intros _. split; [done|by apply Hs].
  - destruct (fpga_dev_feature_uinit p) as [[u q1]|] eqn:Eu; [|discriminate].
    injection H as <- <-. split; [done|]. intros _. by eapply feature_uinit_clears.
Qed.
End Init.

(** Binding is exact on success: when fpga_dev_feature_init returns 0, each
    feature is bound to the operations of the last driver in the table with
    its name, unnamed features and features no driver names keep what they
    had, and no name changes, for any callbacks that leave the table alone. *)
Lemma fpga_dev_feature_init_binds {Op P W} {fo : FeatureOps Op P W}
    {fok : FeatureOpsOk Op P W} drvs (q q' : platform_device Op P W) :
  table_wf q -> fpga_dev_feature_init drvs q = Some (0, q') ->
  feat_sig q' = map (bind_sig drvs) (feat_sig q).
Proof.
  intros Hwf H. by apply (feature_init_sig _ _ _ _ Hwf H).
Qed.

(** C32: binding is undone on failure: when fpga_dev_feature_init returns an
    error, no feature of the device is left bound to any operations. *)
Theorem fpga_dev_feature_init_rollback {Op P W} {fo : FeatureOps Op P W}
    {fok : FeatureOpsOk Op P W} drvs (q q' : platform_device Op P W) r :
  table_wf q -> fpga_dev_feature_init drvs q = Some (r, q') -> r <> 0 ->
  Forall (fun f => f_ops f = None) (features (pd q')).
Proof.
  intros Hwf H Hr. by apply (feature_init_sig _ _ _ _ Hwf H).
Qed.

(** Two drivers without hardware: the first initialises, the second fails. *)
Inductive demo_op := OpGood | OpBad.

#[local] Instance demo_feature_ops : FeatureOps demo_op unit unit := {|
  ops_test o := match o with OpGood => Some (fun _ => kret 0) | OpBad => None end;
  ops_init o _ := match o with OpGood => kret 0 | OpBad => kret (- EIO) end;
  ops_uinit _ _ := kret tt;
  ops_ioctl _ := None;
|}.

#[local] Instance demo_feature_ops_ok : FeatureOpsOk demo_op unit unit.
Proof.
  constructor.
  - intros [] t i q r q' [= <-] [= <- <-]. done.
  - intros [] i q r q' [= <- <-]; done.
  - intros o i q r q' [= <- <-]. done.
Qed.

Definition demo_features : platform_device demo_op unit unit :=
  Pdev (Pdata false 0 0 0 [] false None 2
          [Feature (Some "good"%string) 0 0x1000 [] 0 None None;
           Feature (Some "bad"%string) 1 0x2000 [] 0 None None]) tt.

Definition demo_bound : platform_device demo_op unit unit :=
  Pdev (Pdata false 0 0 0 [] false None 2
          [Feature (Some "good"%string) 0 0x1000 [] 0 (Some OpGood) None;
           Feature (Some "bad"%string) 1 0x2000 [] 0 None None]) tt.

Lemma fpga_dev_feature_init_binds_witness :
  feat_sig demo_bound =
  map (bind_sig [FeatureDrv "good"%string OpGood]) (feat_sig demo_features).
Proof. apply fpga_dev_feature_init_binds; reflexivity. Defined.

Lemma fpga_dev_feature_init_rollback_witness :
  fpga_dev_feature_init
    [FeatureDrv "good"%string OpGood; FeatureDrv "bad"%string OpBad] demo_features
    = Some (- EIO, demo_features) /\
  Forall (fun f => f_ops f = None) (features (pd demo_features)).
Proof.
  split; [reflexivity|].
  apply (fpga_dev_feature_init_rollback
           [FeatureDrv "good"%string OpGood; FeatureDrv "bad"%string OpBad]
           demo_features demo_features (- EIO)); [reflexivity | reflexivity | discriminate].
Defined.
