(* ===== verification/PcieReset.v ===== *)
(** * Port reset in the reduced PCIe driver (opae-intel-fpga-driver-1.3.0-2_pcie)

    The copy of the driver that is reduced to its PCIe part has feature-dev.h
    and feature-dev.c again, with one difference: __fpga_port_disable waits for
    the acknowledgement of the soft reset, which FeatureDev.v has not, since the
    full driver has the wait in a comment.  The rest is FeatureDev.v's.  The port
    may answer a read in any way. *)

From S2P Require Import Prelude.
From S2P Require Import Bitfield.
From S2P Require Import Registers.
From S2P Require Import Mmio.
From S2P Require Import FeatureDev.
Local Open Scope Z_scope.

(** ** The code *)

Definition RST_POLL_INVL : Z := 10.
Definition RST_POLL_TIMEOUT : Z := 1000.

Section Ops.
Context {Op P D : Type} {dev : Mmio D}.
Abbreviation pdev := (platform_device Op P D).

Definition __fpga_port_disable : K pdev Z :=
  n <- on_pd (kgets disable_count) ;;
  on_pd (kmod (set_disable_count (u32 (n + 1)))) ;;
  if istrue n then kret 0
  else
    port_hdr <- on_pd (get_feature_ioaddr_by_index PORT_FEATURE_ID_HEADER) ;;
    control <- mmio_readq port_hdr (offsetof feature_port_header "control") ;;
    mmio_writeq (fset feature_port_control "port_sftrst" 1 control)
      port_hdr (offsetof feature_port_header "control") ;;
    ret <- on_io (fpga_wait_register_field feature_port_control "port_sftrst_ack" 1
             (port_hdr + offsetof feature_port_header "control") RST_POLL_TIMEOUT RST_POLL_INVL) ;;
    if istrue ret then kret (- ETIMEDOUT) else kret 0.

Definition __fpga_port_reset : K pdev Z :=
  ret <- __fpga_port_disable ;;
  if istrue ret then kret ret
  else __fpga_port_enable ;; kret 0.

Definition fpga_port_reset : K pdev Z :=
  on_pd mutex_lock ;;
  ret <- __fpga_port_reset ;;
  on_pd mutex_unlock ;;
  kret ret.
End Ops.

(** ** The wait when nothing matches *)

Section Theorems.
Context {Op P D : Type} {dev : Mmio D}.
Abbreviation pdev := (platform_device Op P D).
Implicit Types (q : pdev) (d : D).

Lemma wait_loop_mismatch fuel n r f e a w t i d :
  (n < fuel)%nat -> t < w + i * Z.of_nat n ->
  (forall j, (j < n)%nat -> w + i * Z.of_nat j <= t /\ e <> fget r f (nth_read j a d)) ->
  wait_loop fuel r f e a w t i d = Some (- ETIMEDOUT, after_reads n a d).
Proof.
  revert n w d. induction fuel as [|fuel IH]; intros n w d Hn Ht Hj; [lia|]. cbn [wait_loop].
  destruct n as [|n].
  - rewrite (proj2 (Z.leb_gt _ _)) by lia. done.
  - destruct (Hj 0%nat ltac:(lia)) as [H0 He]. rewrite (proj2 (Z.leb_le w t)) by lia.
    unfold nth_read in He. cbn [after_reads] in He. unfold readq, kbind. rewrite (surjective_pairing (dev_readq a d)).
    rewrite (proj2 (Z.eqb_neq _ _) He), (IH n) by (lia || (intros j Hlt; destruct (Hj (S j) ltac:(lia)); split; [lia|done])).
    done.
Qed.

(** The reads of one reset: the value of the register before it, and the device
    once the reset bit is written. *)
Definition put_sftrst (a v : Z) d : D :=
  dev_writeq a (fset feature_port_control "port_sftrst" v (fst (dev_readq a d))) (snd (dev_readq a d)).
Definition acked (a : Z) (j : nat) d : Prop := fget feature_port_control "port_sftrst_ack" (nth_read j a d) = 1.

Lemma reset_wait a d :
  (exists k, (k <= 100)%nat /\ acked a k d /\ (forall j, (j < k)%nat -> ~ acked a j d) /\
     fpga_wait_register_field feature_port_control "port_sftrst_ack" 1 a RST_POLL_TIMEOUT RST_POLL_INVL d =
       Some (0, after_reads (S k) a d)) \/
  (forall j, (j <= 100)%nat -> ~ acked a j d) /\
  fpga_wait_register_field feature_port_control "port_sftrst_ack" 1 a RST_POLL_TIMEOUT RST_POLL_INVL d =
    Some (- ETIMEDOUT, after_reads 101 a d).
Proof.
  destruct (fpga_wait_register_field_spec feature_port_control "port_sftrst_ack" 1 a RST_POLL_TIMEOUT RST_POLL_INVL d
    ltac:(done)) as (x & d' & Hrun & [[-> (k & Hk & Hm & Hb & ->)]|[-> Hno]]); unfold RST_POLL_TIMEOUT, RST_POLL_INVL in *.
  - left. exists k. split; [lia|]. split; [by unfold acked|]. split; [|done]. intros j Hj He. by apply (Hb j).
  - right. assert (forall j, (j <= 100)%nat -> ~ acked a j d) as Hn by (intros j Hj He; apply (Hno j); [lia|done]).
    split; [done|]. unfold fpga_wait_register_field. apply wait_loop_mismatch; [vm_compute; lia|lia|].
    intros j Hj. split; [lia|]. intros He. by apply (Hn j); [lia|].
Qed.

(** ** A reset *)

Lemma hdr_run base q : port_hdr_at base q -> on_pd (get_feature_ioaddr_by_index PORT_FEATURE_ID_HEADER) q = Some (base, q).
Proof.
  intros (Hb & f & Hf & Hio). unfold on_pd, zoom. erewrite get_feature_ioaddr_run by done. rewrite Hio. by destruct q.
Qed.

(** The read-modify-write of the control register. *)
Lemma sftrst_run {A} base v q (k : K pdev A) : base <> 0 ->
  (control <- mmio_readq base (offsetof feature_port_header "control") ;;
   mmio_writeq (fset feature_port_control "port_sftrst" v control) base (offsetof feature_port_header "control") ;; k) q =
  k (set_io (put_sftrst (control_addr base) v (io q)) q).
Proof.
  intros Hb. apply Z.eqb_neq in Hb. unfold mmio_readq, mmio_writeq. rewrite Hb. unfold kbind at 1, on_io, zoom, readq.
  change (base + offsetof feature_port_header "control") with (control_addr base).
  unfold put_sftrst. by destruct (dev_readq (control_addr base) (io q)) as [v' d'].
Qed.

Lemma disable_run base q x d :
  port_hdr_at base q -> disable_count (pd q) = 0 ->
  fpga_wait_register_field feature_port_control "port_sftrst_ack" 1 (control_addr base) RST_POLL_TIMEOUT RST_POLL_INVL
    (put_sftrst (control_addr base) 1 (io q)) = Some (x, d) ->
  __fpga_port_disable q = Some (if istrue x then - ETIMEDOUT else 0, Pdev (set_disable_count 1 (pd q)) d).
Proof.
  intros Hh Hc Hw. unfold __fpga_port_disable. rewrite (kbind_run _ _ q 0 q) by (unfold on_pd, zoom; simpl; rewrite Hc; by destruct q).
  rewrite (kbind_run _ _ q tt (count_to 1 q)) by done. change (istrue 0) with false. cbn iota.
  erewrite kbind_run by (by apply hdr_run). rewrite sftrst_run by apply Hh.
  rewrite (kbind_run _ _ _ x (Pdev (set_disable_count 1 (pd q)) d)); [by destruct (istrue x)|].
  unfold on_io, zoom. change (base + _) with (control_addr base). cbn [io set_io count_to set_pd]. by rewrite Hw.
Qed.

Lemma enable_run base q :
  port_hdr_at base q -> disable_count (pd q) = 1 ->
  __fpga_port_enable q = Some (tt, Pdev (set_disable_count 0 (pd q)) (put_sftrst (control_addr base) 0 (io q))).
Proof.
  intros Hh Hc. unfold __fpga_port_enable.
  rewrite (kbind_run _ _ q tt (count_to 0 q)) by (unfold on_pd, zoom, count_to; simpl; by rewrite Hc).
  rewrite (kbind_run _ _ _ 0 (count_to 0 q)) by done. change (istrue 0) with false. cbn iota.
  erewrite kbind_run by (by apply hdr_run). pose proof (sftrst_run base 0 (count_to 0 q) (kret tt) (proj1 Hh)) as Hr.
  destruct Hh as [Hb _]. apply Z.eqb_neq in Hb. unfold mmio_readq, mmio_writeq in *. rewrite Hb in *.
  revert Hr. unfold kbind, on_io, zoom, readq, writeq, kret. simpl.
  by destruct (dev_readq (base + _) (io q)).
Qed.

(** A port that is held already is only counted. *)
Lemma reset_held q :
  lock (pd q) = false -> 0 < disable_count (pd q) < 2 ^ 32 - 1 -> fpga_port_reset q = Some (0, q).
Proof.
  intros Hl Hc. destruct q as [p d]. destruct p. simpl in *. subst. unfold fpga_port_reset, __fpga_port_reset, __fpga_port_disable.
  simpl. replace (istrue disable_count) with true by (unfold istrue; lia). simpl. unfold __fpga_port_enable. simpl.
  rewrite (u32_small (disable_count + 1)) by (unfold in_range; lia).
  replace (disable_count + 1 - 1) with disable_count by lia. rewrite u32_small by (unfold in_range; lia).
  by replace (istrue disable_count) with true by (unfold istrue; lia).
Qed.

(** C21: fpga_port_reset of the reduced driver, on a port nobody holds and that
    answers its reads in any way: the reset bit is written, and the reset
    register read at most 101 times.  It returns 0 exactly when one of these
    reads acknowledges the reset; then the bit was cleared after that read and
    nothing else has changed.  Otherwise it returns -ETIMEDOUT, has not cleared
    the bit and keeps the port held, and every later reset returns 0 without
    touching the port. *)
Theorem reset_acknowledged base q :
  port_hdr_at base q -> lock (pd q) = false -> disable_count (pd q) = 0 ->
  let a := control_addr base in
  let d := put_sftrst a 1 (io q) in
  (exists k, (k <= 100)%nat /\ acked a k d /\ (forall j, (j < k)%nat -> ~ acked a j d) /\
     fpga_port_reset q = Some (0, Pdev (pd q) (put_sftrst a 0 (after_reads (S k) a d)))) \/
  (forall j, (j <= 100)%nat -> ~ acked a j d) /\
  exists q', fpga_port_reset q = Some (- ETIMEDOUT, q') /\
    pd q' = set_disable_count 1 (pd q) /\ io q' = after_reads 101 a d /\ fpga_port_reset q' = Some (0, q').
Proof.
  intros Hh Hl Hc a d.
  set (q0 := set_pd (set_lock true (pd q)) q). assert (port_hdr_at base q0) as Hh0 by done.
  assert (on_pd mutex_lock q = Some (tt, q0)) as Hlock by (unfold on_pd, zoom, mutex_lock; by rewrite Hl).
  destruct (reset_wait a d) as [(k & Hk & Hm & Hb & Hw)|[Hn Hw]]; pose proof (disable_run base q0 _ _ Hh0 Hc Hw) as Hd.
  - left. exists k. do 3 (split; [done|]). unfold fpga_port_reset, __fpga_port_reset. rewrite (kbind_run _ _ _ _ _ Hlock).
    erewrite kbind_run; [|rewrite (kbind_run _ _ _ _ _ Hd); change (istrue 0) with false; cbn iota;
      rewrite (kbind_run _ _ _ _ _ (enable_run base (Pdev (set_disable_count 1 (pd q0)) (after_reads (S k) a d)) Hh0 eq_refl)); reflexivity].
    destruct q as [p io0]. destruct p. simpl in *. by subst.
  - right. split; [done|]. exists (Pdev (set_disable_count 1 (pd q)) (after_reads 101 a d)).
    split; [|split; [done|split; [done|by apply reset_held]]].
    unfold fpga_port_reset, __fpga_port_reset. rewrite (kbind_run _ _ _ _ _ Hlock). unfold kbind at 1 2. rewrite Hd.
    destruct q as [p io0]. destruct p. simpl in *. by subst.
Qed.
End Theorems.

(** ** Witness *)

(** A control register that drops the acknowledgement of the first reads after it
    is written: the bits, and the reads left. *)
Definition slow_port : Type := Z * nat.
Definition slow_mmio (delay : nat) : Mmio slow_port := {|
  dev_readq _ s := (if (snd s =? 0)%nat then fset feature_port_control "port_sftrst_ack" 1 (fst s) else fst s, (fst s, pred (snd s)));
  dev_writeq _ v _ := (fset feature_port_control "port_sftrst_ack" 0 v, delay);
|}.
Definition slow_pdev : platform_device unit unit slow_port :=
  Pdev (Pdata false 0 0 0 [] false None 1 [Feature None 0 4096 [] 0 None None]) (0, 0%nat).

Lemma reset_acknowledged_witness :
  let _ := slow_mmio 3 in
  let a := control_addr 4096 in
  let d := put_sftrst a 1 (io slow_pdev) in
  fpga_port_reset slow_pdev = Some (0, Pdev (pd slow_pdev) (0, 3%nat)) /\
  ((exists k, (k <= 100)%nat /\ acked a k d /\ (forall j, (j < k)%nat -> ~ acked a j d) /\
      fpga_port_reset slow_pdev = Some (0, Pdev (pd slow_pdev) (put_sftrst a 0 (after_reads (S k) a d)))) \/
   (forall j, (j <= 100)%nat -> ~ acked a j d) /\
   exists q', fpga_port_reset slow_pdev = Some (- ETIMEDOUT, q') /\
     pd q' = set_disable_count 1 (pd slow_pdev) /\ io q' = after_reads 101 a d /\ fpga_port_reset q' = Some (0, q')).
Proof.
  intros m a d. split; [by vm_compute|]. apply (reset_acknowledged (dev := m) 4096 slow_pdev); [|done|done].
  split; [done|]. by eexists.
Defined.

(** A port that acknowledges after 200 reads: the first reset times out, the second
    reports that it was done, and the port is still in reset. *)
Lemma second_reset_claims_success :
  let _ := slow_mmio 200 in
  match fpga_port_reset slow_pdev with
  | Some (r, q) => r = - ETIMEDOUT /\ fpga_port_reset q = Some (0, q) /\
      fget feature_port_control "port_sftrst" (fst (io q)) = 1
  | None => False
  end.
Proof. by vm_compute. Qed.
