(* ===== verification/Msix.v ===== *)
(** * MSI-X vectors of a feature (feature-dev.c)

    A feature with interrupts owns a table of [struct feature_irq_ctx]; user
    space attaches an eventfd to a vector.  fpga_set_vector_signal attaches or
    detaches one vector, fpga_msix_set_block a range, undoing the range when
    one of its vectors fails.  The interrupt core, the eventfd layer and the
    allocator are the environment: the outcome of each call is an argument, the
    registered handlers and the eventfd references held are part of the
    state. *)

From S2P Require Import Prelude.
From S2P Require Import Bitfield.
From S2P Require Import Registers.
From S2P Require Import Mmio.
From S2P Require Import FeatureDev.

(** What the kernel answers: kasprintf for a vector, eventfd_ctx_fdget for a
    file descriptor (a context, or a negative errno), request_irq for a line. *)
Record irq_env := IrqEnv {
  kasprintf_ok : Z -> bool;
  eventfd_ctx_fdget : Z -> Z;
  request_irq_ret : Z -> Z;
}.

Record irq_world := IrqWorld {
  handlers : gmap Z Z;
  eventfd_refs : Z;
}.

Section Msix.
Context {Op : Type}.

Record msix_state := MsixState {
  mfeat : feature Op;
  mworld : irq_world;
}.

(** kfree of a pointer that was freed already is undefined. *)
Definition kfree (k : kptr) : option kptr :=
  match k with PNull => Some PNull | PLive => Some PFreed | PFreed => None end.

Definition get_ctx (v : Z) : K msix_state feature_irq_ctx := fun s =>
  match f_ctx (mfeat s) !! Z.to_nat v with Some c => Some (c, s) | None => None end.

Definition put_ctx (v : Z) (c : feature_irq_ctx) : K msix_state unit := fun s =>
  if (Z.to_nat v <? length (f_ctx (mfeat s)))%nat
  then Some (tt, MsixState (set_f_ctx (<[Z.to_nat v := c]> (f_ctx (mfeat s))) (mfeat s))
                           (mworld s))
  else None.

Definition kfree_name (v : Z) : K msix_state unit :=
  c <- get_ctx v ;;
  n <- deref (kfree (ctx_name c)) ;;
  put_ctx v (IrqCtx (trigger c) n (irq c)).

Definition free_irq (line t : Z) : K msix_state unit :=
  kmod (fun s => MsixState (mfeat s)
    (IrqWorld (if decide (handlers (mworld s) !! line = Some t)
               then delete line (handlers (mworld s)) else handlers (mworld s))
              (eventfd_refs (mworld s)))).

Definition request_irq (env : irq_env) (line t : Z) : K msix_state Z :=
  if request_irq_ret env line =? 0 then
    kmod (fun s => MsixState (mfeat s)
      (IrqWorld (<[line := t]> (handlers (mworld s))) (eventfd_refs (mworld s)))) ;;
    kret 0
  else kret (request_irq_ret env line).

Definition add_refs (n : Z) : K msix_state unit :=
  kmod (fun s => MsixState (mfeat s)
    (IrqWorld (handlers (mworld s)) (eventfd_refs (mworld s) + n))).

(** The first half of fpga_set_vector_signal: drop the current trigger. *)
Definition detach_trigger (vector : Z) : K msix_state unit :=
  c <- get_ctx vector ;;
  match trigger c with
  | Some t =>
      free_irq (irq c) t ;;
      kfree_name vector ;;
      add_refs (-1) ;;
      c <- get_ctx vector ;;
      put_ctx vector (IrqCtx None (ctx_name c) (irq c))
  | None => kret tt
  end.

(** The second half: name the vector, take the eventfd, request the line. *)
Definition attach_trigger (env : irq_env) (vector fd : Z) : K msix_state Z :=
  c <- get_ctx vector ;;
  put_ctx vector (IrqCtx (trigger c) (if kasprintf_ok env vector then PLive else PNull)
                    (irq c)) ;;
  if negb (kasprintf_ok env vector) then kret (- ENOMEM)
  else
    let t := eventfd_ctx_fdget env fd in
    if t <? 0 then kfree_name vector ;; kret t
    else
      add_refs 1 ;;
      ret <- request_irq env (irq c) t ;;
      if istrue ret then
        kfree_name vector ;; add_refs (-1) ;; kret ret
      else
        c <- get_ctx vector ;;
        put_ctx vector (IrqCtx (Some t) (ctx_name c) (irq c)) ;;
        kret 0.

Definition fpga_set_vector_signal (env : irq_env) (vector fd : Z) : K msix_state Z :=
  f <- kgets mfeat ;;
  if (vector <? 0) || (f_ctx_num f <=? vector) then kret (- EINVAL)
  else
    detach_trigger vector ;;
    if fd <? 0 then kret 0 else attach_trigger env vector fd.

(** [fds ? fds[i] : -1]; reading past the copied array is undefined. *)
Definition fd_at (fds : option (list Z)) (i : nat) : K msix_state Z :=
  match fds with None => kret (-1) | Some l => deref (l !! i) end.

(** [for (i = 0, j = start; i < count && !ret; i++, j++)] with [n] rounds to
    go; the result is [ret] and the final [j]. *)
Fixpoint set_block_loop (env : irq_env) (fds : option (list Z)) (n i : nat) (j : Z)
  : K msix_state (Z * Z) :=
  match n with
  | O => kret (0, j)
  | S n =>
      fd <- fd_at fds i ;;
      ret <- fpga_set_vector_signal env j fd ;;
      if istrue ret then kret (ret, j + 1)
      else set_block_loop env fds n (S i) (j + 1)
  end.

(** [for (--j; j >= start; j--)], [n] vectors to detach from [j] down. *)
Fixpoint unset_block_loop (env : irq_env) (n : nat) (j : Z) : K msix_state unit :=
  match n with
  | O => kret tt
  | S n => fpga_set_vector_signal env j (-1) ;; unset_block_loop env n (j - 1)
  end.

Definition fpga_msix_set_block (env : irq_env) (start count : Z) (fds : option (list Z))
  : K msix_state Z :=
  f <- kgets mfeat ;;
  if (f_ctx_num f <=? start) || (f_ctx_num f <? u32 (start + count)) then kret (- EINVAL)
  else
    rj <- set_block_loop env fds (Z.to_nat count) 0 start ;;
    if istrue (fst rj) then
      unset_block_loop env (Z.to_nat (snd rj - start)) (snd rj - 1) ;; kret (fst rj)
    else kret (fst rj).

(** ** The vector table invariant *)

Definition irqs (s : msix_state) : list Z := map irq (f_ctx (mfeat s)).
Definition armed (s : msix_state) : Z :=
  sum_by (fun c => match trigger c with Some _ => 1 | None => 0 end) (f_ctx (mfeat s)).

(** A vector holds its name buffer and has its handler registered exactly
    while it has a trigger; [r0] eventfd references belong to others. *)
Definition ctx_wf (h : gmap Z Z) (c : feature_irq_ctx) : Prop :=
  h !! irq c = trigger c /\ (is_Some (trigger c) -> ctx_name c = PLive).

Definition msix_wf (r0 : Z) (s : msix_state) : Prop :=
  f_ctx_num (mfeat s) = Z.of_nat (length (f_ctx (mfeat s))) /\
  NoDup (irqs s) /\
  Forall (ctx_wf (handlers (mworld s))) (f_ctx (mfeat s)) /\
  eventfd_refs (mworld s) = r0 + armed s.

Definition trigger_of (s : msix_state) (v : nat) : option Z :=
  match f_ctx (mfeat s) !! v with Some c => trigger c | None => None end.

(** ** Effect of one vector *)

Definition live (t : option Z) : Z := match t with Some _ => 1 | None => 0 end.

(** Vector [v], whose context was [c], now has context [c']. *)
Definition set_vec (s : msix_state) (v : Z) (c c' : feature_irq_ctx) : msix_state :=
  MsixState (set_f_ctx (<[Z.to_nat v := c']> (f_ctx (mfeat s))) (mfeat s))
    (IrqWorld (match trigger c' with
               | Some t => <[irq c' := t]> (handlers (mworld s))
               | None => delete (irq c') (handlers (mworld s))
               end)
              (eventfd_refs (mworld s) - live (trigger c) + live (trigger c'))).

Lemma sum_by_insert {A} (f : A -> Z) (l : list A) i x y :
  l !! i = Some x -> sum_by f (<[i := y]> l) = sum_by f l - f x + f y.
Proof.
  revert i. induction l as [|z l IH]; intros [|i] H; simpl in *; try discriminate.
  - injection H as ->. lia.
  - rewrite (IH i H). lia.
Qed.

Lemma irqs_set_vec s v c c' :
  f_ctx (mfeat s) !! Z.to_nat v = Some c -> irq c' = irq c -> irqs (set_vec s v c c') = irqs s.
Proof.
  intros Hc Hi. unfold irqs. simpl.
  etransitivity; [exact (list_fmap_insert irq _ _ _)|]. apply list_insert_id.
  unfold fmap. change (list_fmap _ _ irq) with (map irq).
  change (map irq (f_ctx (mfeat s))) with (irq <$> f_ctx (mfeat s)).
  rewrite list_lookup_fmap, Hc. simpl. by rewrite Hi.
Qed.

Lemma irq_inj s i j ci cj :
  NoDup (irqs s) -> f_ctx (mfeat s) !! i = Some ci -> f_ctx (mfeat s) !! j = Some cj ->
  irq ci = irq cj -> i = j.
Proof.
  intros Hnd Hi Hj He. eapply NoDup_lookup; [exact Hnd| |];
    unfold irqs; change (map irq (f_ctx (mfeat s))) with (irq <$> f_ctx (mfeat s));
    rewrite list_lookup_fmap.
  - rewrite Hi. reflexivity.
  - rewrite Hj. simpl. by rewrite He.
Qed.

Lemma set_vec_wf r0 s v c c' :
  msix_wf r0 s -> f_ctx (mfeat s) !! Z.to_nat v = Some c -> irq c' = irq c ->
  (is_Some (trigger c') -> ctx_name c' = PLive) -> msix_wf r0 (set_vec s v c c').
Proof.
  intros (Hn & Hnd & Hf & Hr) Hc Hi Hl. split_and!.
  - simpl. by rewrite length_insert.
  - by rewrite (irqs_set_vec s v c c' Hc Hi).
  - apply Forall_lookup. intros k ck Hk. simpl in *.
    apply list_lookup_insert_Some in Hk as [(<- & <- & _)|(Hne & Hk)].
    + split; [|done]. destruct (trigger c'); simpl.
      * apply lookup_insert_eq.
      * apply lookup_delete_eq.
    + rewrite Forall_lookup in Hf. destruct (Hf k ck Hk) as [Hh Hp]. split; [|done].
      assert (irq c' <> irq ck) by (intros E; apply Hne; eapply irq_inj; eauto; congruence).
      destruct (trigger c'); simpl.
      * by rewrite lookup_insert_ne.
      * by rewrite lookup_delete_ne.
  - unfold armed. simpl. rewrite (sum_by_insert _ _ _ _ _ Hc), Hr.
    unfold armed, live. lia.
Qed.

Lemma set_vec_id s v c :
  ctx_wf (handlers (mworld s)) c -> f_ctx (mfeat s) !! Z.to_nat v = Some c ->
  set_vec s v c c = s.
Proof.
  intros [Hh _] Hc. unfold set_vec. rewrite list_insert_id by done.
  destruct s as [[] [h r]]; simpl in *. f_equal. f_equal; [|lia].
  destruct (trigger c); [by apply insert_id | by apply delete_id].
Qed.
End Msix.

Arguments msix_state : clear implicits.

Section Signal.
Context {Op : Type}.
Implicit Types s : msix_state Op.

Lemma get_ctx_run s v c :
  f_ctx (mfeat s) !! Z.to_nat v = Some c -> get_ctx v s = Some (c, s).
Proof. intros H. unfold get_ctx. by rewrite H. Qed.

Definition with_ctx s (v : Z) (c' : feature_irq_ctx) (w : irq_world) : msix_state Op :=
  MsixState (set_f_ctx (<[Z.to_nat v := c']> (f_ctx (mfeat s))) (mfeat s)) w.

Lemma with_ctx_lookup s v c c' w :
  f_ctx (mfeat s) !! Z.to_nat v = Some c ->
  f_ctx (mfeat (with_ctx s v c' w)) !! Z.to_nat v = Some c'.
Proof.
  intros H. simpl. apply list_lookup_insert_eq. by eapply lookup_lt_Some.
Qed.

Lemma with_ctx_twice s v c1 c2 w1 w2 :
  with_ctx (with_ctx s v c1 w1) v c2 w2 = with_ctx s v c2 w2.
Proof. unfold with_ctx. simpl. by rewrite list_insert_insert_eq. Qed.

Lemma put_ctx_run s v c c' :
  f_ctx (mfeat s) !! Z.to_nat v = Some c ->
  put_ctx v c' s = Some (tt, with_ctx s v c' (mworld s)).
Proof.
  intros H. unfold put_ctx. apply lookup_lt_Some in H.
  replace (Z.to_nat v <? length (f_ctx (mfeat s)))%nat with true; [done|].
  symmetry. by apply Nat.ltb_lt.
Qed.

Lemma kfree_name_run s v c :
  f_ctx (mfeat s) !! Z.to_nat v = Some c -> ctx_name c = PLive ->
  kfree_name v s = Some (tt, with_ctx s v (IrqCtx (trigger c) PFreed (irq c)) (mworld s)).
Proof.
  intros H Hn. unfold kfree_name. simpl. rewrite (get_ctx_run _ _ _ H), Hn. simpl.
  exact (put_ctx_run _ _ _ _ H).
Qed.

Lemma with_ctx_world s v c' w : mworld (with_ctx s v c' w) = w.
Proof. reflexivity. Qed.

Lemma detach_trigger_run s v c :
  f_ctx (mfeat s) !! Z.to_nat v = Some c -> ctx_wf (handlers (mworld s)) c ->
  exists nm, detach_trigger v s = Some (tt, set_vec s v c (IrqCtx None nm (irq c))).
Proof.
  intros Hc Hwf. pose proof Hwf as [Hh Hp]. unfold detach_trigger. simpl.
  rewrite (get_ctx_run _ _ _ Hc). destruct c as [[t|] nm line]; simpl in *.
  - exists PFreed. rewrite Hp by eauto. unfold kfree_name, add_refs, free_irq. simpl.
    rewrite decide_True by done.
    rewrite (get_ctx_run (MsixState (mfeat s) _) v _ Hc). simpl. rewrite Hp by eauto. simpl.
    rewrite (put_ctx_run (MsixState (mfeat s) _) v _ _ Hc). simpl.
    erewrite get_ctx_run; [|apply (with_ctx_lookup _ _ _ _ _ Hc)]. simpl.
    erewrite put_ctx_run; [|apply (with_ctx_lookup _ _ _ _ _ Hc)].
    unfold set_vec, with_ctx. simpl. rewrite !list_insert_insert_eq.
    do 4 f_equal. lia.
  - exists nm. pose proof (set_vec_id s v _ Hwf Hc) as He. by rewrite He.
Qed.

(** Attaching to an idle vector: on success the trigger is installed, on any
    failure the vector stays idle. *)
Lemma attach_trigger_run env s v fd c :
  f_ctx (mfeat s) !! Z.to_nat v = Some c -> ctx_wf (handlers (mworld s)) c -> trigger c = None ->
  exists ret c', attach_trigger env v fd s = Some (ret, set_vec s v c c') /\
    irq c' = irq c /\ (is_Some (trigger c') -> ctx_name c' = PLive) /\
    (ret = 0 -> trigger c' = Some (eventfd_ctx_fdget env fd)) /\
    (ret <> 0 -> trigger c' = None).
Proof.
  intros Hc [Hh _] Ht. unfold attach_trigger. simpl.
  rewrite (get_ctx_run _ _ _ Hc), (put_ctx_run _ _ _ _ Hc), Ht. rewrite Ht in Hh.
  assert (forall nm, set_vec s v c (IrqCtx None nm (irq c)) =
            with_ctx s v (IrqCtx None nm (irq c)) (mworld s)) as Hset.
  { intros nm. unfold set_vec, with_ctx. simpl. rewrite Ht. destruct s as [? [h r]]; simpl in *.
    f_equal. f_equal; [by rewrite delete_id | simpl; lia]. }
  destruct (kasprintf_ok env v) eqn:Ek; simpl.
  2: { exists (- ENOMEM), (IrqCtx None PNull (irq c)). rewrite Hset. split_and!; try done.
       simpl. by intros [? ?]. }
  destruct (eventfd_ctx_fdget env fd <? 0) eqn:Et; simpl.
  { erewrite kfree_name_run; [|by apply (with_ctx_lookup _ _ _ _ _ Hc)|done]. boolify.
    exists (eventfd_ctx_fdget env fd), (IrqCtx None PFreed (irq c)). rewrite Hset.
    rewrite with_ctx_twice, with_ctx_world. split_and!; try done; [by intros [? ?]|lia]. }
  unfold request_irq, add_refs. destruct (request_irq_ret env (irq c) =? 0) eqn:Er; simpl.
  - erewrite get_ctx_run; [|by apply (with_ctx_lookup _ _ _ _ _ Hc)].
    simpl. erewrite put_ctx_run; [|by apply (with_ctx_lookup _ _ _ _ _ Hc)].
    exists 0, (IrqCtx (Some (eventfd_ctx_fdget env fd)) PLive (irq c)).
    split_and!; try done. unfold set_vec, with_ctx. simpl.
    rewrite !list_insert_insert_eq, Ht. do 4 f_equal. simpl. lia.
  - unfold istrue. rewrite Er. simpl. erewrite kfree_name_run;
      [|by apply (with_ctx_lookup _ _ _ _ _ Hc)|done]. simpl. boolify.
    exists (request_irq_ret env (irq c)), (IrqCtx None PFreed (irq c)). rewrite Hset.
    split_and!; try done; [|by intros [? ?]].
    unfold with_ctx. simpl. rewrite list_insert_insert_eq. destruct s as [? [h r]]; simpl.
    do 4 f_equal. lia.
Qed.

Lemma ctx_wf_at r0 s v c :
  msix_wf r0 s -> f_ctx (mfeat s) !! v = Some c -> ctx_wf (handlers (mworld s)) c.
Proof. intros (_ & _ & Hf & _) Hc. rewrite Forall_lookup in Hf. eauto. Qed.

Lemma set_vec_twice s v c c1 c2 :
  irq c1 = irq c2 -> set_vec (set_vec s v c c1) v c1 c2 = set_vec s v c c2.
Proof.
  intros Hi. unfold set_vec. simpl. rewrite list_insert_insert_eq, Hi.
  f_equal. f_equal; [|lia].
  destruct (trigger c1), (trigger c2); simpl.
  - apply insert_insert_eq.
  - apply delete_insert_eq.
  - apply insert_delete_eq.
  - apply delete_delete_eq.
Qed.

(** What [fds] asks for the [i]-th vector of a block. *)
Definition want (env : irq_env) (fd : Z) : option Z :=
  if fd <? 0 then None else Some (eventfd_ctx_fdget env fd).

Lemma fpga_set_vector_signal_run env r0 s v fd c :
  msix_wf r0 s -> 0 <= v < f_ctx_num (mfeat s) -> f_ctx (mfeat s) !! Z.to_nat v = Some c ->
  exists ret c', fpga_set_vector_signal env v fd s = Some (ret, set_vec s v c c') /\
    irq c' = irq c /\ (is_Some (trigger c') -> ctx_name c' = PLive) /\
    (ret = 0 -> trigger c' = want env fd) /\ (ret <> 0 -> trigger c' = None).
Proof.
  intros Hwf Hv Hc. unfold fpga_set_vector_signal. simpl.
  replace ((v <? 0) || (f_ctx_num (mfeat s) <=? v)) with false by lia. simpl.
  destruct (detach_trigger_run s v c Hc (ctx_wf_at _ _ _ _ Hwf Hc)) as [nm ->].
  set (c1 := IrqCtx None nm (irq c)). unfold want.
  destruct (fd <? 0).
  - exists 0, c1. split_and!; try done. by intros [? ?].
  - assert (msix_wf r0 (set_vec s v c c1)) as Hwf1.
    { apply set_vec_wf; try done. by intros [? ?]. }
    assert (f_ctx (mfeat (set_vec s v c c1)) !! Z.to_nat v = Some c1) as Hc1.
    { simpl. apply list_lookup_insert_eq. by eapply lookup_lt_Some. }
    destruct (attach_trigger_run env _ v fd c1 Hc1 (ctx_wf_at _ _ _ _ Hwf1 Hc1) eq_refl)
      as (ret & c' & -> & Hi & Hrest).
    exists ret, c'. rewrite set_vec_twice by done. by split_and!; destruct_and?.
Qed.

(** *** Ranges of vectors *)

(** The rest of the feature and the lines of other devices are kept. *)
Definition others_kept s s' : Prop :=
  irqs s' = irqs s /\
  (forall line, line ∉ irqs s -> handlers (mworld s') !! line = handlers (mworld s) !! line) /\
  mfeat s' = set_f_ctx (f_ctx (mfeat s')) (mfeat s).

Lemma others_kept_refl s : others_kept s s.
Proof. split_and!; try done. by destruct s as [[] ?]. Qed.

Lemma others_kept_trans s1 s2 s3 : others_kept s1 s2 -> others_kept s2 s3 -> others_kept s1 s3.
Proof.
  intros (H1 & H2 & H3) (H4 & H5 & H6). split_and!; [congruence| |].
  - intros line Hl. rewrite H5 by (by rewrite H1). auto.
  - rewrite H6, H3. done.
Qed.

Lemma others_kept_set_vec s v c c' :
  f_ctx (mfeat s) !! Z.to_nat v = Some c -> irq c' = irq c -> others_kept s (set_vec s v c c').
Proof.
  intros Hc Hi. split_and!; [by apply irqs_set_vec| |done]. intros line Hl.
  assert (irq c' <> line) as Hne.
  { intros <-. apply Hl. rewrite Hi. apply list_elem_of_fmap. exists c.
    split; [done|by eapply list_elem_of_lookup_2]. }
  simpl. destruct (trigger c'); [by apply lookup_insert_ne|by apply lookup_delete_ne].
Qed.

(** [s'] differs from [s] only in the triggers of the vectors of [lo, hi). *)
Definition same_outside (r0 lo hi : Z) s s' : Prop :=
  (msix_wf r0 s' /\ others_kept s s') /\ f_ctx_num (mfeat s') = f_ctx_num (mfeat s) /\
  forall k, Z.of_nat k < lo \/ hi <= Z.of_nat k -> trigger_of s' k = trigger_of s k.

Lemma same_outside_refl r0 lo hi s : msix_wf r0 s -> same_outside r0 lo hi s s.
Proof. intros H. split; [split; [done|apply others_kept_refl]|done]. Qed.

Lemma same_outside_trans r0 lo hi lo1 hi1 lo2 hi2 s1 s2 s3 :
  same_outside r0 lo1 hi1 s1 s2 -> same_outside r0 lo2 hi2 s2 s3 ->
  lo <= lo1 -> lo <= lo2 -> hi1 <= hi -> hi2 <= hi -> same_outside r0 lo hi s1 s3.
Proof.
  intros ([_ Ho1] & Hn1 & H1) ([Hwf Ho2] & Hn2 & H2) ? ? ? ?.
  split; [split; [done|by eapply others_kept_trans]|]. split; [congruence|].
  intros k Hk. rewrite H2, H1 by lia. done.
Qed.

Lemma vec_lookup r0 s v :
  msix_wf r0 s -> 0 <= v < f_ctx_num (mfeat s) -> exists c, f_ctx (mfeat s) !! Z.to_nat v = Some c.
Proof. intros (Hn & _) Hv. apply lookup_lt_is_Some. lia. Qed.

Lemma signal_step env r0 s v fd :
  msix_wf r0 s -> 0 <= v < f_ctx_num (mfeat s) ->
  exists ret s', fpga_set_vector_signal env v fd s = Some (ret, s') /\
    same_outside r0 v (v + 1) s s' /\
    trigger_of s' (Z.to_nat v) = if ret =? 0 then want env fd else None.
Proof.
  intros Hwf Hv. destruct (vec_lookup r0 s v Hwf Hv) as [c Hc].
  destruct (fpga_set_vector_signal_run env r0 s v fd c Hwf Hv Hc)
    as (ret & c' & Hr & Hi & Hl & H0 & H1).
  exists ret, (set_vec s v c c'). split; [done|]. split.
  - split; [split; [by apply set_vec_wf|by apply others_kept_set_vec]|]. split; [done|]. intros k Hk. unfold trigger_of. simpl.
    rewrite list_lookup_insert_ne; [done|]. lia.
  - unfold trigger_of. simpl. rewrite list_lookup_insert_eq by (by eapply lookup_lt_Some).
    destruct (ret =? 0) eqn:E; boolify; auto.
Qed.

(** The descriptors given for a block of [n] vectors from index [i] on. *)
Definition fds_cover (fds : option (list Z)) (i n : nat) : Prop :=
  match fds with None => True | Some l => (i + n <= length l)%nat end.
Definition fd_of (fds : option (list Z)) (i : nat) : Z :=
  match fds with None => -1 | Some l => default 0 (l !! i) end.

Lemma fd_at_run fds i n s :
  fds_cover fds i (S n) -> fd_at fds i s = Some (fd_of fds i, s).
Proof.
  destruct fds as [l|]; simpl; intros H; [|done].
  destruct (lookup_lt_is_Some_2 l i ltac:(lia)) as [fd ->]. done.
Qed.

Lemma set_block_loop_run env r0 fds n i j s :
  msix_wf r0 s -> 0 <= j -> j + Z.of_nat n <= f_ctx_num (mfeat s) -> fds_cover fds i n ->
  exists ret j' s', set_block_loop env fds n i j s = Some ((ret, j'), s') /\
    j <= j' <= j + Z.of_nat n /\ same_outside r0 j j' s s' /\
    (ret <> 0 -> j < j') /\
    (ret = 0 -> j' = j + Z.of_nat n /\ forall k, (k < n)%nat ->
       trigger_of s' (Z.to_nat j + k) = want env (fd_of fds (i + k))).
Proof.
  revert i j s. induction n as [|n IH]; intros i j s Hwf Hj Hn Hf; simpl.
  - exists 0, j, s. split; [done|]. split; [lia|]. split; [by apply same_outside_refl|].
    split; [lia|]. intros _. split; [lia|]. lia.
  - rewrite (fd_at_run _ _ _ _ Hf). simpl.
    destruct (signal_step env r0 s j (fd_of fds i) Hwf ltac:(lia)) as (ret & s1 & -> & Ho & Ht).
    unfold istrue. destruct (ret =? 0) eqn:E; boolify; simpl.
    + destruct (IH (S i) (j + 1) s1) as (r2 & j2 & s2 & -> & Hj2 & Ho2 & Hne & Heq).
      { apply Ho. } { lia. } { destruct Ho as (_ & -> & _). lia. }
      { destruct fds; simpl in *; lia. }
      exists r2, j2, s2. split_and!; try done; try lia.
      * eapply same_outside_trans; eauto; lia.
      * intros Hz. destruct (Heq Hz) as [-> Hk]. split; [lia|]. intros [|k] Hlt.
        -- destruct Ho2 as (_ & _ & Hout). rewrite Hout by lia.
           by rewrite !Nat.add_0_r.
        -- specialize (Hk k ltac:(lia)).
           replace (Z.to_nat (j + 1) + k)%nat with (Z.to_nat j + S k)%nat in Hk by lia.
           by replace (S i + k)%nat with (i + S k)%nat in Hk by lia.
    + exists ret, (j + 1), s1. split_and!; try done; lia.
Qed.

Lemma unset_block_loop_run env r0 n j s :
  msix_wf r0 s -> Z.of_nat n <= j + 1 -> j < f_ctx_num (mfeat s) ->
  exists s', unset_block_loop env n j s = Some (tt, s') /\
    same_outside r0 (j + 1 - Z.of_nat n) (j + 1) s s' /\
    forall k, j + 1 - Z.of_nat n <= Z.of_nat k < j + 1 -> trigger_of s' k = None.
Proof.
  revert j s. induction n as [|n IH]; intros j s Hwf Hj Hn; simpl.
  - exists s. split; [done|]. split; [by apply same_outside_refl|lia].
  - destruct (signal_step env r0 s j (-1) Hwf ltac:(lia)) as (ret & s1 & -> & Ho & Ht).
    destruct (IH (j - 1) s1) as (s2 & -> & Ho2 & Hk).
    { apply Ho. } { lia. } { destruct Ho as (_ & -> & _). lia. }
    exists s2. split_and!; [done| |].
    + eapply same_outside_trans; eauto; lia.
    + intros k Hk2. destruct (decide (Z.of_nat k = j)) as [Hkj|Hne]; [|apply Hk; lia].
      destruct Ho2 as (_ & _ & Hout). rewrite Hout by lia.
      replace k with (Z.to_nat j) by lia. rewrite Ht. by destruct (ret =? 0).
Qed.

Lemma set_block_run env r0 start cnt fds s :
  msix_wf r0 s -> 0 <= start -> 0 <= cnt -> start + cnt < 2 ^ 32 ->
  fds_cover fds 0 (Z.to_nat cnt) ->
  exists ret s',
    fpga_msix_set_block env start cnt fds s = Some (ret, s') /\
    same_outside r0 start (start + cnt) s s' /\
    (f_ctx_num (mfeat s) <= start \/ f_ctx_num (mfeat s) < start + cnt ->
       ret = - EINVAL /\ s' = s) /\
    (start < f_ctx_num (mfeat s) -> start + cnt <= f_ctx_num (mfeat s) ->
       (ret = 0 /\ forall k, (k < Z.to_nat cnt)%nat ->
          trigger_of s' (Z.to_nat start + k) = want env (fd_of fds k)) \/
       (ret <> 0 /\ exists m, 0 < m <= cnt /\
          forall k, start <= Z.of_nat k < start + m -> trigger_of s' k = None)).
Proof.
  intros Hwf H0 Hc Hlt Hf. unfold fpga_msix_set_block. simpl.
  rewrite u32_small by (unfold in_range; lia).
  destruct ((f_ctx_num (mfeat s) <=? start) || (f_ctx_num (mfeat s) <? start + cnt)) eqn:E.
  { exists (- EINVAL), s. split_and!; [done|by apply same_outside_refl|done|].
    intros. apply orb_true_iff in E as [E|E]; boolify; lia. }
  boolify.
  destruct (set_block_loop_run env r0 fds (Z.to_nat cnt) 0 start s Hwf H0 ltac:(lia) Hf)
    as (ret & j' & s1 & Hrun & Hj & Ho & Hne & Heq).
  simpl. rewrite Hrun. simpl. unfold istrue. destruct (ret =? 0) eqn:Er; boolify; simpl.
  - destruct (Heq Er) as [-> Hk]. exists ret, s1. split_and!; [done| |lia|].
    + eapply same_outside_trans; [exact Ho|apply (same_outside_refl r0 start start), Ho|..]; lia.
    + intros _ _. left. split; [done|]. intros k Hlt'. by apply Hk.
  - destruct (unset_block_loop_run env r0 (Z.to_nat (j' - start)) (j' - 1) s1) as (s2 & -> & Ho2 & Hk).
    { apply Ho. } { lia. } { destruct Ho as (_ & -> & _). lia. }
    exists ret, s2. specialize (Hne Er). split_and!; [done| |lia|].
    + eapply same_outside_trans; [exact Ho|exact Ho2|..]; lia.
    + intros _ _. right. split; [done|]. exists (j' - start). split; [lia|].
      intros k Hk'. apply Hk. lia.
Qed.
(** *** Detaching every vector *)

Lemma signal_detach_ret env v s ret s' :
  0 <= v < f_ctx_num (mfeat s) -> fpga_set_vector_signal env v (-1) s = Some (ret, s') -> ret = 0.
Proof.
  intros Hv. unfold fpga_set_vector_signal. simpl.
  replace ((v <? 0) || (f_ctx_num (mfeat s) <=? v)) with false by lia. simpl.
  destruct (detach_trigger v s) as [[u s1]|]; [by intros [= <- _]|done].
Qed.

Lemma set_block_none_ret env r0 n i j s ret j' s' :
  msix_wf r0 s -> 0 <= j -> j + Z.of_nat n <= f_ctx_num (mfeat s) ->
  set_block_loop env None n i j s = Some ((ret, j'), s') -> ret = 0.
Proof.
  revert i j s. induction n as [|n IH]; intros i j s Hwf Hj Hn; simpl; [by intros [= <- _ _]|].
  destruct (signal_step env r0 s j (-1) Hwf ltac:(lia)) as (r & s1 & Hr & ((Hwf1 & _) & Hn1 & _) & _).
  rewrite Hr. rewrite (signal_detach_ret env j s r s1 ltac:(lia) Hr). simpl.
  apply IH; [done|lia|lia].
Qed.

Lemma unset_all_run env r0 s :
  msix_wf r0 s -> f_ctx_num (mfeat s) < 2 ^ 32 ->
  exists ret s', fpga_msix_set_block env 0 (f_ctx_num (mfeat s)) None s = Some (ret, s') /\
    msix_wf r0 s' /\ others_kept s s' /\ forall k, trigger_of s' k = None.
Proof.
  intros Hwf Hlt. pose proof Hwf as (Hlen & _).
  destruct (set_block_run env r0 0 (f_ctx_num (mfeat s)) None s Hwf) as
    (ret & s' & Hrun & ((Hwf' & Hk) & Hnum & _) & Hout & Hin); [lia|lia|lia|done|].
  exists ret, s'. split_and!; [done|done|done|]. intros k.
  assert (trigger_of s' k = None \/ (k < Z.to_nat (f_ctx_num (mfeat s)))%nat) as [|Hlk]; [|done|].
  { destruct (Nat.lt_ge_cases k (Z.to_nat (f_ctx_num (mfeat s)))) as [|Hge]; [by right|left].
    unfold trigger_of. rewrite lookup_ge_None_2; [done|]. destruct Hwf' as (Hlen' & _). lia. }
  destruct (Hin ltac:(lia) ltac:(lia)) as [[_ Ht]|[Hne _]]; [exact (Ht k Hlk)|].
  exfalso. apply Hne. unfold fpga_msix_set_block in Hrun. simpl in Hrun.
  rewrite u32_small in Hrun by (unfold in_range; lia).
  rewrite Z.add_0_l in Hrun.
  replace ((f_ctx_num (mfeat s) <=? 0) || (f_ctx_num (mfeat s) <? f_ctx_num (mfeat s)))
    with false in Hrun by lia. simpl in Hrun.
  destruct (set_block_loop env None (Z.to_nat (f_ctx_num (mfeat s))) 0 0 s)
    as [[[r j] s1]|] eqn:E; [|discriminate].
  apply (set_block_none_ret env r0) in E; [|done|lia|lia]. subst r. simpl in Hrun.
  by injection Hrun as <- _.
Qed.
End Signal.

(** C27: configuring a block of MSI-X vectors is safe and all-or-nothing: on a
    consistent vector table fpga_msix_set_block never double-frees a name,
    never leaks an eventfd reference or a handler (the invariant is kept,
    whatever others hold), and leaves vectors outside the block, the rest of
    the feature and the lines of other devices alone; a block outside the table is
    refused with -EINVAL and nothing changes; on success each vector has the
    trigger its descriptor asks for; on failure at the m-th vector, the
    vectors of the block up to and including it end up without trigger. *)
Theorem fpga_msix_set_block_spec {Op} env r0 start cnt fds (s : msix_state Op) :
  msix_wf r0 s -> 0 <= start -> 0 <= cnt -> start + cnt < 2 ^ 32 ->
  fds_cover fds 0 (Z.to_nat cnt) ->
  exists ret s',
    fpga_msix_set_block env start cnt fds s = Some (ret, s') /\
    same_outside r0 start (start + cnt) s s' /\
    (f_ctx_num (mfeat s) <= start \/ f_ctx_num (mfeat s) < start + cnt ->
       ret = - EINVAL /\ s' = s) /\
    (start < f_ctx_num (mfeat s) -> start + cnt <= f_ctx_num (mfeat s) ->
       (ret = 0 /\ forall k, (k < Z.to_nat cnt)%nat ->
          trigger_of s' (Z.to_nat start + k) = want env (fd_of fds k)) \/
       (ret <> 0 /\ exists m, 0 < m <= cnt /\
          forall k, start <= Z.of_nat k < start + m -> trigger_of s' k = None)).
Proof. apply set_block_run. Qed.

(** Two vectors on lines 40 and 41; line 41 cannot be requested. *)
Definition demo_msix : msix_state unit :=
  MsixState (Feature (Some "port_uint"%string) 3 0x3000
               [IrqCtx None PNull 40; IrqCtx None PNull 41] 2 None None)
            (IrqWorld ∅ 0).
Definition demo_irq_env : irq_env :=
  IrqEnv (fun _ => true) (fun fd => 1000 + fd) (fun line => if line =? 41 then - EBUSY else 0).

Lemma fpga_msix_set_block_witness :
  fst <$> fpga_msix_set_block demo_irq_env 0 2 (Some [7; 8]) demo_msix = Some (- EBUSY) /\
  exists ret s',
    fpga_msix_set_block demo_irq_env 0 1 (Some [7; 8]) demo_msix = Some (ret, s') /\
    same_outside 0 0 (0 + 1) demo_msix s' /\
    (f_ctx_num (mfeat demo_msix) <= 0 \/ f_ctx_num (mfeat demo_msix) < 0 + 1 ->
       ret = - EINVAL /\ s' = demo_msix) /\
    (0 < f_ctx_num (mfeat demo_msix) -> 0 + 1 <= f_ctx_num (mfeat demo_msix) ->
       (ret = 0 /\ forall k, (k < Z.to_nat 1)%nat ->
          trigger_of s' (Z.to_nat 0 + k) = want demo_irq_env (fd_of (Some [7; 8]) k)) \/
       (ret <> 0 /\ exists m, 0 < m <= 1 /\
          forall k, 0 <= Z.of_nat k < 0 + m -> trigger_of s' k = None)).
Proof.
  split; [reflexivity|]. apply fpga_msix_set_block_spec; [|lia|lia|lia|simpl; lia].
  split_and!; [reflexivity| | |reflexivity].
  - repeat (constructor; [set_solver|]). constructor.
  - repeat constructor; simpl; by intros [? ?].
Defined.
