(* ===== verification/AfuTypes.v ===== *)
(** * The private data of a port (afu.h)

    [struct fpga_afu] holds the MMIO regions a process may map (region.c) and
    the red-black tree of pinned DMA regions (dma-region.c).  The tree itself is
    the kernel's lib/rbtree: the driver walks it and links new leaves, the
    library recolours, rotates and erases.  [RbLib] is that library, as the
    class of functions the driver calls with the documented property it relies
    on: the in-order sequence of the nodes. *)

From stdpp Require Import gmultiset.
From S2P Require Import Prelude.
From S2P Require Import Bitfield.
From S2P Require Import Registers.
From S2P Require Import Mmio.
From S2P Require Import UserMem.
From S2P Require Import FeatureDev.
From S2P Require Import Msix.
Local Open Scope Z_scope.

(** [struct fpga_afu_region] *)
Record fpga_afu_region := Region {
  rindex : Z;
  rflags : Z;
  rsize : Z;
  roffset : Z;
  rphys : Z;
}.

(** [struct fpga_afu_dma_region]; [pages] is NULL or the frame numbers. *)
Record fpga_afu_dma_region := DmaRegion {
  user_addr : Z;
  length_ : Z;
  iova : Z;
  pages : option (list Z);
  in_use : bool;
}.

#[export] Instance fpga_afu_dma_region_eq_dec : EqDecision fpga_afu_dma_region.
Proof. solve_decision. Defined.

Inductive rb_color := Red | Black.

Inductive rbtree :=
| RbNil
| RbNode (c : rb_color) (l : rbtree) (x : fpga_afu_dma_region) (r : rbtree).

(** Nodes in ascending order. *)
Fixpoint inorder (t : rbtree) : list fpga_afu_dma_region :=
  match t with
  | RbNil => []
  | RbNode _ l x r => inorder l ++ x :: inorder r
  end.

(** Nodes whose key is not [i]. *)
Definition without (i : Z) (l : list fpga_afu_dma_region) : list fpga_afu_dma_region :=
  filter (fun x => iova x <> i) l.

(** lib/rbtree.c as the driver uses it.  [rb_insert_color] rebalances after a
    leaf was linked; [rb_erase i] removes the node with key [i]; [rb_next i]
    is the node that follows the node with key [i], which the driver also asks
    for right after that node, the first of the tree, was erased. *)
Class RbLib := {
  rb_insert_color : rbtree -> rbtree;
  rb_erase : Z -> rbtree -> rbtree;
  rb_next : Z -> rbtree -> option fpga_afu_dma_region;
}.

Class RbLibOk {rb : RbLib} := {
  rb_insert_color_inorder : forall t, inorder (rb_insert_color t) = inorder t;
  rb_erase_inorder : forall i t, inorder (rb_erase i t) = without i (inorder t);
  rb_next_erased : forall i t,
    Forall (fun x => i < iova x) (inorder t) -> rb_next i t = head (inorder t);
}.

Definition rb_first (t : rbtree) : option fpga_afu_dma_region := head (inorder t).

(** [struct fpga_afu] *)
Record fpga_afu := FpgaAfu {
  region_cur_offset : Z;
  capability : Z;
  num_regions : Z;
  num_umsgs : Z;
  num_uafu_irqs : Z;
  regions : list fpga_afu_region;
  dma_regions : rbtree;
}.

Definition set_region_cur_offset (v : Z) (r : fpga_afu) : fpga_afu :=
  FpgaAfu v (capability r) (num_regions r) (num_umsgs r) (num_uafu_irqs r) (regions r) (dma_regions r).
Definition set_capability (v : Z) (r : fpga_afu) : fpga_afu :=
  FpgaAfu (region_cur_offset r) v (num_regions r) (num_umsgs r) (num_uafu_irqs r) (regions r) (dma_regions r).
Definition set_num_regions (v : Z) (r : fpga_afu) : fpga_afu :=
  FpgaAfu (region_cur_offset r) (capability r) v (num_umsgs r) (num_uafu_irqs r) (regions r) (dma_regions r).
Definition set_num_umsgs (v : Z) (r : fpga_afu) : fpga_afu :=
  FpgaAfu (region_cur_offset r) (capability r) (num_regions r) v (num_uafu_irqs r) (regions r) (dma_regions r).
Definition set_num_uafu_irqs (v : Z) (r : fpga_afu) : fpga_afu :=
  FpgaAfu (region_cur_offset r) (capability r) (num_regions r) (num_umsgs r) v (regions r) (dma_regions r).
Definition set_regions (v : list fpga_afu_region) (r : fpga_afu) : fpga_afu :=
  FpgaAfu (region_cur_offset r) (capability r) (num_regions r) (num_umsgs r) (num_uafu_irqs r) v (dma_regions r).
Definition set_dma_regions (v : rbtree) (r : fpga_afu) : fpga_afu :=
  FpgaAfu (region_cur_offset r) (capability r) (num_regions r) (num_umsgs r) (num_uafu_irqs r) (regions r) v.
Definition set_iova (v : Z) (r : fpga_afu_dma_region) : fpga_afu_dma_region :=
  DmaRegion (user_addr r) (length_ r) v (pages r) (in_use r).
Definition set_pages (v : option (list Z)) (r : fpga_afu_dma_region) : fpga_afu_dma_region :=
  DmaRegion (user_addr r) (length_ r) (iova r) v (in_use r).
Definition set_in_use (v : bool) (r : fpga_afu_dma_region) : fpga_afu_dma_region :=
  DmaRegion (user_addr r) (length_ r) (iova r) (pages r) v.

(** ** The world a port acts on

    The hardware behind its registers, the memory management of the calling
    process (locked pages, page references taken by get_user_pages, live DMA
    mappings), the interrupt layer, the reference counts and sysfs files the
    driver keeps, and the memory the process passes to its ioctls. *)

Record dma_world := DmaWorld {
  locked_vm : Z;
  page_refs : gmultiset Z;
  dma_maps : gmultiset (Z * Z);
}.

(** References on [struct pid] objects, the sysfs files of the device and the
    platform devices created below it. *)
Record kobj_world := Kobj {
  pid_refs : gmap Z Z;
  sysfs : gset string;
  subdevs : gset Z;
}.

Record afu_world (D : Type) := World {
  hw : D;
  mm : dma_world;
  irqw : irq_world;
  kobj : kobj_world;
  usr : user_mem;
}.
Arguments World {D} hw mm irqw kobj usr.
Arguments hw {D} a.
Arguments mm {D} a.
Arguments irqw {D} a.
Arguments kobj {D} a.
Arguments usr {D} a.

#[export] Instance afu_world_mmio {D} `{Mmio D} : Mmio (afu_world D) := {|
  dev_readq a w := let r := dev_readq a (hw w) in (fst r, World (snd r) (mm w) (irqw w) (kobj w) (usr w));
  dev_writeq a v w := World (dev_writeq a v (hw w)) (mm w) (irqw w) (kobj w) (usr w);
|}.

#[export] Instance afu_world_ok {D} `{MmioOk D} : MmioOk (afu_world D).
Proof. constructor. intros a w. simpl. apply readq_u64. Qed.

#[export] Instance afu_world_reg {D} `{MmioReg D} : MmioReg (afu_world D).
Proof.
  constructor; simpl.
  - intros a [h m i k u]; simpl. by rewrite mem_read_pure.
  - intros a b v [h m i k u] Hne; simpl. by apply mem_write_other.
Qed.

#[export] Instance afu_world_mem {D} `{MmioMem D} : MmioMem (afu_world D).
Proof. constructor; [apply _|]. intros a v [h m i k u] Hv; simpl. by apply mem_write_same. Qed.

(** ** The sorted tree *)

Fixpoint insert_node (x : fpga_afu_dma_region) (l : list fpga_afu_dma_region)
  : list fpga_afu_dma_region :=
  match l with
  | [] => [x]
  | y :: l => if iova x <? iova y then x :: y :: l else y :: insert_node x l
  end.

(** Strictly ascending keys. *)
Fixpoint ascending (l : list fpga_afu_dma_region) : Prop :=
  match l with
  | [] => True
  | x :: l => Forall (fun y => iova x < iova y) l /\ ascending l
  end.

Lemma ascending_app l k :
  ascending (l ++ k) <->
  ascending l /\ ascending k /\ (forall x y, x ∈ l -> y ∈ k -> iova x < iova y).
Proof.
  induction l as [|z l IH]; simpl.
  - split; [intros H; split_and!; [done|done|set_solver] | by intros (_ & ? & _)].
  - rewrite IH, Forall_app. split.
    + intros ([Hl Hk] & Ha & Hb & Hc). split_and!; [done|done|done|].
      intros x y [->|Hx]%elem_of_cons Hy; [|by apply Hc].
      rewrite Forall_forall in Hk. apply Hk. by apply list_elem_of_In.
    + intros ([Hl Ha] & Hb & Hc). split_and!; [done| |done|done|].
      * apply Forall_forall. intros y Hy%list_elem_of_In. apply Hc; [left|done].
      * intros x y Hx Hy. apply Hc; [by right|done].
Qed.

Lemma ascending_without i l : ascending l -> ascending (without i l).
Proof.
  unfold without. induction l as [|x l IH]; simpl; [done|]. intros [Hx Hl].
  rewrite filter_cons. destruct (decide (iova x <> i)); simpl; [|by apply IH].
  split; [|by apply IH]. apply Forall_forall. intros y Hy%list_elem_of_In.
  apply list_elem_of_filter in Hy as [_ Hy]. rewrite Forall_forall in Hx.
  by apply Hx, list_elem_of_In.
Qed.

Lemma ascending_inj l x y : ascending l -> x ∈ l -> y ∈ l -> iova x = iova y -> x = y.
Proof.
  induction l as [|z l IH]; simpl; [set_solver|]. intros [Hz Hl] Hx Hy He.
  rewrite Forall_forall in Hz.
  apply elem_of_cons in Hx as [->|Hx]; apply elem_of_cons in Hy as [->|Hy]; auto.
  - apply list_elem_of_In, Hz in Hy. lia.
  - apply list_elem_of_In, Hz in Hx. lia.
Qed.

Lemma without_notin i l : Forall (fun x => iova x <> i) l -> without i l = l.
Proof.
  unfold without. induction 1 as [|x l Hx Hl IH]; [done|].
  rewrite filter_cons, decide_True by done. by rewrite IH.
Qed.

(** Removing the least node of an ascending sequence. *)
Lemma without_head x l : ascending (x :: l) -> without (iova x) (x :: l) = l.
Proof.
  intros [Hx _]. unfold without. rewrite filter_cons, decide_False by (intros H; by apply H).
  apply without_notin. eapply Forall_impl; [|exact Hx]. simpl. lia.
Qed.

(** ** A library that satisfies the interface *)

(** Rebalancing by doing nothing and erasing by re-linking keep the order. *)
Fixpoint tree_of (l : list fpga_afu_dma_region) : rbtree :=
  match l with [] => RbNil | x :: l => RbNode Black RbNil x (tree_of l) end.

Lemma inorder_tree_of l : inorder (tree_of l) = l.
Proof. induction l as [|x l IH]; simpl; [done|]. by rewrite IH. Qed.

Definition list_rb : RbLib := {|
  rb_insert_color t := t;
  rb_erase i t := tree_of (without i (inorder t));
  rb_next i t := head (filter (fun x => i < iova x) (inorder t));
|}.

Lemma list_rb_ok : @RbLibOk list_rb.
Proof.
  constructor; simpl.
  - done.
  - intros i t. apply inorder_tree_of.
  - intros i t H. f_equal. induction H as [|x l Hx Hl IH]; [done|].
    rewrite filter_cons, decide_True by done. by rewrite IH.
Qed.
