(* ===== verification/Region.v ===== *)
(** * MMIO regions of a port (region.c)

    A port exposes MMIO regions (the user AFU, signal tap) to user space under
    file offsets: each added region gets the next page-aligned offset.  The
    functions run on the platform data of the port, under its mutex, and reach
    [struct fpga_afu] through the private pointer. *)

From S2P Require Import Prelude.
From S2P Require Import Bitfield.
From S2P Require Import Registers.
From S2P Require Import Mmio.
From S2P Require Import FeatureDev.
From S2P Require Import Msix.
From S2P Require Import AfuTypes.

Section Region.
Context {Op : Type}.
Abbreviation pdata := (feature_platform_data Op fpga_afu).

(** [fpga_pdata_get_private(pdata)] and the dereference that follows. *)
Definition get_afu : K pdata fpga_afu :=
  p <- fpga_pdata_get_private ;; deref p.
Definition mod_afu (f : fpga_afu -> fpga_afu) : K pdata unit :=
  a <- get_afu ;; kmod (set_private (Some (f a))).

Definition afu_region_init : K pdata unit := mod_afu (set_regions []).

(** for_each_region, stopping at the first region with the index. *)
Definition get_region_by_index (afu : fpga_afu) (region_index : Z) : option fpga_afu_region :=
  List.find (fun r => rindex r =? region_index) (regions afu).

Definition afu_region_add (kzalloc_ok : bool) (region_index region_size phys flags : Z)
  : K pdata Z :=
  if negb kzalloc_ok then kret (- ENOMEM)
  else
    mutex_lock ;;
    afu <- get_afu ;;
    match get_region_by_index afu region_index with
    | Some _ => mutex_unlock ;; kret (- EEXIST)
    | None =>
        mod_afu (fun a => set_regions
          (Region region_index flags region_size (region_cur_offset a) phys :: regions a) a) ;;
        mod_afu (fun a => set_region_cur_offset
          (u64 (region_cur_offset a + PAGE_ALIGN region_size)) a) ;;
        mod_afu (fun a => set_num_regions (num_regions a + 1) a) ;;
        mutex_unlock ;;
        kret 0
    end.

(** Empties the list; the counters are not reset. *)
Definition afu_region_destroy : K pdata unit := mod_afu (set_regions []).

(** The region is returned by copy; an error leaves the copy unset. *)
Definition afu_get_region_by_index (region_index : Z) : K pdata (Z + fpga_afu_region) :=
  mutex_lock ;;
  afu <- get_afu ;;
  let r := match get_region_by_index afu region_index with
           | Some r => inr r
           | None => inl (- EINVAL)
           end in
  mutex_unlock ;;
  kret r.

(** The containment test of afu_get_region_by_offset, in 64-bit sums. *)
Definition region_covers (offset size : Z) (r : fpga_afu_region) : bool :=
  (roffset r <=? offset) && (u64 (offset + size) <=? u64 (roffset r + rsize r)).

Definition afu_get_region_by_offset (offset size : Z) : K pdata (Z + fpga_afu_region) :=
  mutex_lock ;;
  afu <- get_afu ;;
  let r := match List.find (region_covers offset size) (regions afu) with
           | Some r => inr r
           | None => inl (- EINVAL)
           end in
  mutex_unlock ;;
  kret r.

(** ** Layout of the regions *)

(** The list (latest first) occupies consecutive page-aligned ranges from 0
    up to [cur], with sizes that page alignment does not overflow. *)
Fixpoint laid_out (l : list fpga_afu_region) (cur : Z) : Prop :=
  match l with
  | [] => cur = 0
  | r :: l =>
      0 <= rsize r <= 2 ^ 64 - PAGE_SIZE /\
      cur = roffset r + PAGE_ALIGN (rsize r) /\ laid_out l (roffset r)
  end.

Definition regions_wf (a : fpga_afu) : Prop :=
  laid_out (regions a) (region_cur_offset a) /\ region_cur_offset a < 2 ^ 64 /\
  num_regions a = Z.of_nat (length (regions a)) /\
  NoDup (map rindex (regions a)).

Lemma PAGE_ALIGN_ge x : 0 <= x <= 2 ^ 64 - PAGE_SIZE -> x <= PAGE_ALIGN x.
Proof. intros H. apply PAGE_ALIGN_bounds; unfold PAGE_SIZE in *; lia. Qed.

Lemma laid_out_nonneg l cur : laid_out l cur -> 0 <= cur.
Proof.
  revert cur. induction l as [|r l IH]; intros cur; simpl; [lia|].
  intros (Hs & -> & Hl). apply IH in Hl. pose proof (PAGE_ALIGN_ge _ Hs). lia.
Qed.

Lemma laid_out_bounds l cur r :
  laid_out l cur -> r ∈ l ->
  0 <= roffset r /\ 0 <= rsize r /\ roffset r + rsize r <= cur /\ (PAGE_SIZE | roffset r).
Proof.
  revert cur. induction l as [|x l IH]; intros cur; simpl; [set_solver|].
  intros (Hs & Hc & Hl) Hr. pose proof (PAGE_ALIGN_ge _ Hs) as Hge.
  apply elem_of_cons in Hr as [->|Hr].
  - split_and!; [by eapply laid_out_nonneg|lia|lia|]. clear - Hl.
    revert Hl. generalize (roffset x) as o. clear x. induction l as [|y l IH]; simpl.
    + intros o ->. apply Z.divide_0_r.
    + intros o (Hs & -> & Hl). apply Z.divide_add_r; [by apply IH|].
      apply PAGE_ALIGN_bounds; unfold PAGE_SIZE in *; lia.
  - destruct (IH _ Hl Hr) as (? & ? & ? & ?). split_and!; (done || lia).
Qed.

(** Different entries of the list occupy disjoint ranges. *)
Lemma laid_out_disjoint l cur i j ri rj :
  laid_out l cur -> (i < j)%nat -> l !! i = Some ri -> l !! j = Some rj ->
  roffset rj + rsize rj <= roffset ri.
Proof.
  revert cur i j. induction l as [|x l IH]; intros cur i j; simpl; [done|].
  intros (Hs & _ & Hl) Hij Hi Hj. destruct j as [|j]; [lia|]. simpl in Hj.
  destruct i as [|i]; simpl in Hi.
  - injection Hi as ->. apply list_elem_of_lookup_2 in Hj.
    by destruct (laid_out_bounds _ _ _ Hl Hj) as (_ & _ & ? & _).
  - eapply IH; [exact Hl| |exact Hi|exact Hj]. lia.
Qed.

(** What a request that does not wrap asks for. *)
Definition inside_region (offset size : Z) (r : fpga_afu_region) : Prop :=
  roffset r <= offset /\ offset + size <= roffset r + rsize r.

Lemma region_covers_iff a offset size r :
  regions_wf a -> r ∈ regions a -> 0 <= offset -> 0 <= size -> offset + size < 2 ^ 64 ->
  region_covers offset size r = true <-> inside_region offset size r.
Proof.
  intros (Hlay & Hcur & _) Hr Ho Hs Hw.
  destruct (laid_out_bounds _ _ _ Hlay Hr) as (? & ? & ? & _).
  unfold region_covers, inside_region. rewrite !u64_small by (unfold in_range; lia).
  rewrite andb_true_iff, !Z.leb_le. done.
Qed.

Lemma get_by_offset_run offset size (p : pdata) a :
  lock p = false -> private p = Some a ->
  afu_get_region_by_offset offset size p =
    Some (match List.find (region_covers offset size) (regions a) with
          | Some r => inr r | None => inl (- EINVAL) end, p).
Proof.
  intros Hl Hp. unfold afu_get_region_by_offset. simpl. rewrite Hl. simpl. rewrite Hp. simpl.
  destruct p; simpl in *; by subst.
Qed.
End Region.

Arguments get_afu {Op} p /.
Arguments mod_afu {Op} f p /.

(** adding a region is exact: on a port whose regions are laid out
    properly, with room left in the offset space, afu_region_add refuses an
    index that exists with -EEXIST and no change, and otherwise puts the region
    at the current offset, advances the offset by the page-aligned size and
    counts it; the layout invariant (consecutive page-aligned ranges, distinct
    indices, exact count) is kept and the mutex is released on every path. *)
Lemma afu_region_add_spec {Op} index size phys flags
    (p : feature_platform_data Op fpga_afu) a :
  lock p = false -> private p = Some a -> regions_wf a ->
  0 <= size <= 2 ^ 64 - PAGE_SIZE -> region_cur_offset a + PAGE_ALIGN size < 2 ^ 64 ->
  (index ∈ map rindex (regions a) /\
     afu_region_add true index size phys flags p = Some (- EEXIST, p)) \/
  (index ∉ map rindex (regions a) /\ exists a',
     afu_region_add true index size phys flags p = Some (0, set_private (Some a') p) /\
     regions a' = Region index flags size (region_cur_offset a) phys :: regions a /\
     region_cur_offset a' = region_cur_offset a + PAGE_ALIGN size /\
     dma_regions a' = dma_regions a /\ regions_wf a').
Proof.
  intros Hl Hp (Hlay & Hcur & Hnum & Hnd) Hs Hroom. unfold afu_region_add. simpl.
  rewrite Hl. simpl. rewrite Hp. simpl. unfold get_region_by_index.
  destruct (List.find (fun r => rindex r =? index) (regions a)) as [r|] eqn:E.
  - left. apply find_some in E as [Hin Heq]. apply Z.eqb_eq in Heq as <-. split.
    + apply list_elem_of_In. by apply in_map.
    + simpl. destruct p; simpl in *; subst. reflexivity.
  - right. split.
    + intros Hin%list_elem_of_In. apply in_map_iff in Hin as (r & Hr & Hin).
      pose proof (find_none _ _ E r Hin). simpl in *. lia.
    + pose proof (laid_out_nonneg _ _ Hlay). pose proof (PAGE_ALIGN_ge _ Hs).
      destruct p, a; simpl in *; subst. rewrite u64_small by (unfold in_range; lia).
      eexists. split; [reflexivity|]. unfold regions_wf. simpl. split_and!; try done; try lia.
      * constructor; [|done]. intros Hin%list_elem_of_In.
        apply in_map_iff in Hin as (r & Hr & Hin). simpl in *.
        pose proof (find_none _ _ E r Hin). simpl in *. lia.
Qed.

(** A port with the user AFU region of two pages. *)
Definition demo_afu : fpga_afu :=
  FpgaAfu 0x2000 0 1 0 0 [Region 0 7 0x1800 0 0xfe000000] RbNil.
Definition demo_afu_port : feature_platform_data unit fpga_afu :=
  Pdata false 0 0 0 [] false (Some demo_afu) 0 [].

Lemma demo_afu_wf : regions_wf demo_afu.
Proof.
  split_and!; simpl; try done. repeat constructor. set_solver.
Qed.

Lemma afu_region_add_witness :
  (1 ∈ map rindex (regions demo_afu) /\
     afu_region_add true 1 0x1000 0xfe010000 7 demo_afu_port = Some (- EEXIST, demo_afu_port)) \/
  (1 ∉ map rindex (regions demo_afu) /\ exists a',
     afu_region_add true 1 0x1000 0xfe010000 7 demo_afu_port
       = Some (0, set_private (Some a') demo_afu_port) /\
     regions a' = Region 1 7 0x1000 (region_cur_offset demo_afu) 0xfe010000 :: regions demo_afu /\
     region_cur_offset a' = region_cur_offset demo_afu + PAGE_ALIGN 0x1000 /\
     dma_regions a' = dma_regions demo_afu /\ regions_wf a').
Proof.
  apply afu_region_add_spec; [reflexivity | reflexivity | exact demo_afu_wf | |].
  - vm_compute. split; discriminate.
  - vm_compute. reflexivity.
Defined.

(** The regions of a port never overlap: in any well laid out region list,
    two different entries occupy disjoint ranges of file offsets and every
    region starts on a page boundary, so no mmap offset selects two regions. *)
Lemma afu_regions_disjoint (a : fpga_afu) i j ri rj :
  regions_wf a -> regions a !! i = Some ri -> regions a !! j = Some rj -> i <> j ->
  (roffset ri + rsize ri <= roffset rj \/ roffset rj + rsize rj <= roffset ri) /\
  (PAGE_SIZE | roffset ri).
Proof.
  intros (Hlay & _) Hi Hj Hne. split.
  - destruct (Nat.lt_total i j) as [H|[H|H]]; [|done|].
    + right. eapply laid_out_disjoint; [exact Hlay|exact H|exact Hi|exact Hj].
    + left. eapply laid_out_disjoint; [exact Hlay|exact H|exact Hj|exact Hi].
  - apply list_elem_of_lookup_2 in Hi. eapply laid_out_bounds; eauto.
Qed.

Definition demo_afu2 : fpga_afu :=
  FpgaAfu 0x3000 0 2 0 0
    [Region 1 7 0x1000 0x2000 0xfe010000; Region 0 7 0x1800 0 0xfe000000] RbNil.

Lemma afu_regions_disjoint_witness :
  (0x2000 + 0x1000 <= 0 \/ 0 + 0x1800 <= 0x2000) /\ (PAGE_SIZE | 0x2000).
Proof.
  apply (afu_regions_disjoint demo_afu2 0 1 (Region 1 7 0x1000 0x2000 0xfe010000)
           (Region 0 7 0x1800 0 0xfe000000)); [|reflexivity|reflexivity|discriminate].
  split_and!; simpl; try done. repeat constructor; set_solver.
Defined.

(** Looking a region up by offset is sound and complete when the request
    does not wrap: for offset + size below 2^64 afu_get_region_by_offset leaves
    the port as it was and returns a region that fully contains the request, or
    -EINVAL exactly when no region contains it; a non-empty request is
    contained in no other region. *)
Lemma afu_get_region_by_offset_spec {Op} offset size
    (p : feature_platform_data Op fpga_afu) a :
  lock p = false -> private p = Some a -> regions_wf a ->
  0 <= offset -> 0 <= size -> offset + size < 2 ^ 64 ->
  let inside := inside_region offset size in
  (exists r, afu_get_region_by_offset offset size p = Some (inr r, p) /\
     r ∈ regions a /\ inside r /\
     (0 < size -> forall r', r' ∈ regions a -> inside r' -> r' = r)) \/
  (afu_get_region_by_offset offset size p = Some (inl (- EINVAL), p) /\
     forall r, r ∈ regions a -> ~ inside r).
Proof.
  intros Hl Hp Hwf Ho Hs Hw inside. rewrite (get_by_offset_run _ _ _ a) by done.
  assert (forall r, r ∈ regions a -> region_covers offset size r = true <-> inside r) as Hcov
    by (intros; by apply (region_covers_iff a)).
  pose proof Hwf as (Hlay & _).
  destruct (List.find (region_covers offset size) (regions a)) as [r|] eqn:E.
  - left. exists r. apply find_some in E as [Hin%list_elem_of_In Hc].
    pose proof (proj1 (Hcov r Hin) Hc) as Hr. split_and!; [done|done|exact Hr|].
    intros Hpos r' Hr' Hi'. apply list_elem_of_lookup in Hin as [i Hi].
    apply list_elem_of_lookup in Hr' as [j Hj]. destruct (decide (i = j)) as [->|Hne]; [congruence|].
    unfold inside, inside_region in *. destruct (Nat.lt_total i j) as [H|[H|H]]; [|done|].
    + pose proof (laid_out_disjoint _ _ _ _ _ _ Hlay H Hi Hj). lia.
    + pose proof (laid_out_disjoint _ _ _ _ _ _ Hlay H Hj Hi). lia.
  - right. split; [done|]. intros r Hr Hi.
    apply list_elem_of_In in Hr as Hin. pose proof (find_none _ _ E r Hin) as Hc.
    simpl in Hc. apply (Hcov r Hr) in Hi. congruence.
Qed.

Lemma afu_get_region_by_offset_witness :
  let inside := inside_region 0x1000 0x800 in
  (exists r, afu_get_region_by_offset 0x1000 0x800 demo_afu_port = Some (inr r, demo_afu_port) /\
     r ∈ regions demo_afu /\ inside r /\
     (0 < 0x800 -> forall r', r' ∈ regions demo_afu -> inside r' -> r' = r)) \/
  (afu_get_region_by_offset 0x1000 0x800 demo_afu_port = Some (inl (- EINVAL), demo_afu_port) /\
     forall r, r ∈ regions demo_afu -> ~ inside r).
Proof.
  apply afu_get_region_by_offset_spec;
    [reflexivity | reflexivity | exact demo_afu_wf | lia | lia | lia].
Defined.

(** Without the overflow test the lookup by offset is not sound: on a well
    laid out port a page-aligned request whose end wraps past 2^64 is accepted
    although it starts beyond the end of the region it is matched with. *)
Lemma afu_get_region_by_offset_wraps :
  exists offset size r,
    PAGE_ALIGNED offset = true /\ PAGE_ALIGNED size = true /\
    is_u64 offset /\ is_u64 size /\ regions_wf demo_afu /\
    afu_get_region_by_offset offset size demo_afu_port = Some (inr r, demo_afu_port) /\
    roffset r + rsize r <= offset.
Proof.
  exists (2 ^ 64 - 0x1000), 0x2000, (Region 0 7 0x1800 0 0xfe000000).
  split_and!; [reflexivity | reflexivity | split; [lia | reflexivity] | split; [lia | reflexivity]
    | apply demo_afu_wf | reflexivity | vm_compute; discriminate].
Qed.
