(* ===== verification/DmaRegion.v ===== *)
(** * DMA regions of a port (dma-region.c)

    A process hands page-aligned user memory to the accelerator: the driver
    charges the pages to the process, pins them, checks that they are
    physically contiguous, maps them for DMA and records the region in a tree
    keyed by the I/O virtual address.  Memory management and the DMA layer are
    the environment: what they answer is an argument of the operations, what
    the driver holds from them (locked pages, page references, mappings) is
    part of the state. *)

From stdpp Require Import gmultiset.
From S2P Require Import Prelude.
From S2P Require Import Bitfield.
From S2P Require Import Registers.
From S2P Require Import Mmio.
From S2P Require Import UserMem.
From S2P Require Import FeatureDev.
From S2P Require Import Msix.
From S2P Require Import AfuTypes.
From S2P Require Import Region.
Local Open Scope Z_scope.

(** The device argument of the DMA calls: the PCI device or the platform
    device of the port. *)
Inductive dma_dev := PciDev | PlatDev.

Record dma_env := DmaEnv {
  mm_present : bool;                          (* current->mm != NULL *)
  rlimit_memlock : Z;                         (* rlimit(RLIMIT_MEMLOCK) *)
  cap_ipc_lock : bool;                        (* capable(CAP_IPC_LOCK) *)
  access_ok : Z -> Z -> bool;
  kzalloc_ok : bool;
  kcalloc_ok : bool;
  get_user_pages_fast : Z -> Z -> Z + list Z; (* negative errno, or the frames pinned *)
  dma_map_page : dma_dev -> Z -> Z -> Z;
  dma_mapping_error : dma_dev -> Z -> bool;
}.

(** Settles [locked_vm]. *)
Definition set_locked_vm (v : Z) (w : dma_world) : dma_world :=
  DmaWorld v (page_refs w) (dma_maps w).
Definition set_page_refs (v : gmultiset Z) (w : dma_world) : dma_world :=
  DmaWorld (locked_vm w) v (dma_maps w).
Definition set_dma_maps (v : gmultiset (Z * Z)) (w : dma_world) : dma_world :=
  DmaWorld (locked_vm w) (page_refs w) v.

(** put_page for the non-NULL entries among the first [npages], an [int]. *)
Definition put_all_pages (pgs : list Z) (npages : Z) : K dma_world unit :=
  kmod (fun w => set_page_refs (page_refs w ∖ list_to_set_disj (take (Z.to_nat (s32 npages)) pgs)) w).

Definition afu_dma_adjust_locked_vm (env : dma_env) (npages : Z) (incr : bool) : K dma_world Z :=
  if negb (mm_present env) then kret 0
  else
    w <- kget ;;
    if incr then
      let locked := u64 (locked_vm w + npages) in
      let lock_limit := Z.shiftr (rlimit_memlock env) PAGE_SHIFT in
      if (lock_limit <? locked) && negb (cap_ipc_lock env) then kret (- ENOMEM)
      else kmod (set_locked_vm (u64 (locked_vm w + npages))) ;; kret 0
    else
      let n := if locked_vm w <? npages then locked_vm w else npages in
      kmod (set_locked_vm (locked_vm w - n)) ;; kret 0.

Definition npages_of (r : fpga_afu_dma_region) : Z := Z.shiftr (length_ r) PAGE_SHIFT.

(** afu_dma_pin_pages: the result code and the region with its page array.
    The number of pages is a [long], the parameter of get_user_pages_fast an
    [int].  When fewer pages than asked were pinned the code jumps to [err],
    past put_all_pages. *)
Definition afu_dma_pin_pages (env : dma_env) (region : fpga_afu_dma_region)
  : K dma_world (Z * fpga_afu_dma_region) :=
  let npages := npages_of region in
  ret <- afu_dma_adjust_locked_vm env npages true ;;
  if istrue ret then kret (ret, region)
  else if negb (kcalloc_ok env) then
    afu_dma_adjust_locked_vm env npages false ;; kret (- ENOMEM, region)
  else
    match get_user_pages_fast env (user_addr region) (s32 npages) with
    | inl pinned =>
        put_all_pages [] pinned ;;
        afu_dma_adjust_locked_vm env npages false ;;
        kret (pinned, region)
    | inr pgs =>
        kmod (fun w => set_page_refs (page_refs w ⊎ list_to_set_disj pgs) w) ;;
        if negb (Z.of_nat (length pgs) =? npages) then
          afu_dma_adjust_locked_vm env npages false ;;
          kret (- EFAULT, region)
        else kret (0, set_pages (Some pgs) region)
    end.

Definition afu_dma_unpin_pages (env : dma_env) (region : fpga_afu_dma_region)
  : K dma_world unit :=
  let npages := npages_of region in
  pgs <- deref (pages region) ;;
  put_all_pages pgs npages ;;
  afu_dma_adjust_locked_vm env npages false ;;
  kret tt.

(** Consecutive frame numbers, over an [int] number of pages. *)
Fixpoint check_continuous (pgs : list Z) : bool :=
  match pgs with
  | p :: ((q :: _) as rest) => (p + 1 =? q) && check_continuous rest
  | _ => true
  end.

Definition afu_dma_check_continuous_pages (region : fpga_afu_dma_region) : bool :=
  match pages region with
  | Some pgs => check_continuous (take (Z.to_nat (s32 (npages_of region))) pgs)
  | None => true
  end.

Definition dma_region_check_iova (region : fpga_afu_dma_region) (io size : Z) : bool :=
  if (size =? 0) && negb (iova region =? io) then false
  else (iova region <=? io) && (u64 (io + size) <=? u64 (length_ region + iova region)).

(** The descent of afu_dma_region_add with rb_link_node at its end; [None] is
    the -EEXIST return. *)
Fixpoint rb_link (region : fpga_afu_dma_region) (t : rbtree) : option rbtree :=
  match t with
  | RbNil => Some (RbNode Red RbNil region RbNil)
  | RbNode c l this r =>
      if dma_region_check_iova this (iova region) (length_ region) then None
      else if iova region <? iova this then
        match rb_link region l with Some l' => Some (RbNode c l' this r) | None => None end
      else if iova this <? iova region then
        match rb_link region r with Some r' => Some (RbNode c l this r') | None => None end
      else None
  end.

Fixpoint rb_find (io size : Z) (t : rbtree) : option fpga_afu_dma_region :=
  match t with
  | RbNil => None
  | RbNode _ l region r =>
      if dma_region_check_iova region io size then Some region
      else if io <? iova region then rb_find io size l
      else if iova region <? io then rb_find io size r
      else None
  end.

(** Writing the [in_use] member of the node with key [i]. *)
Fixpoint rb_mark (i : Z) (b : bool) (t : rbtree) : rbtree :=
  match t with
  | RbNil => RbNil
  | RbNode c l x r =>
      RbNode c (rb_mark i b l) (if iova x =? i then set_in_use b x else x) (rb_mark i b r)
  end.

Section Dma.
Context {Op D : Type} {rb : RbLib}.
Abbreviation pdata := (feature_platform_data Op fpga_afu).
Abbreviation port := (platform_device Op fpga_afu (afu_world D)).

Definition on_mm {A} (c : K dma_world A) : K port A :=
  zoom (fun q => mm (io q)) (fun m q => set_io (World (hw (io q)) m (irqw (io q)) (kobj (io q)) (usr (io q))) q) c.

Definition afu_dma_region_init : K pdata unit := mod_afu (set_dma_regions RbNil).

Definition afu_dma_region_add (region : fpga_afu_dma_region) : K pdata Z :=
  afu <- get_afu ;;
  match rb_link region (dma_regions afu) with
  | None => kret (- EEXIST)
  | Some t => mod_afu (set_dma_regions (rb_insert_color t)) ;; kret 0
  end.

Definition afu_dma_region_remove (region : fpga_afu_dma_region) : K pdata unit :=
  mod_afu (fun a => set_dma_regions (rb_erase (iova region) (dma_regions a)) a).

Definition dma_unmap_page (region : fpga_afu_dma_region) : K dma_world unit :=
  kmod (fun w => set_dma_maps (dma_maps w ∖ {[+ (iova region, length_ region) +]}) w).

(** The body of the loop of afu_dma_region_destroy: erase, unmap, unpin. *)
Definition destroy_one (env : dma_env) (region : fpga_afu_dma_region) : K port unit :=
  on_pd (afu_dma_region_remove region) ;;
  (if istrue (iova region) then on_mm (dma_unmap_page region) else kret tt) ;;
  match pages region with
  | Some _ => on_mm (afu_dma_unpin_pages env region)
  | None => kret tt
  end.

(** The loop from [node] on.  Erasing precedes the release of the region and
    the step to the next node. *)
Fixpoint destroy_loop (fuel : nat) (env : dma_env) (node : option fpga_afu_dma_region)
  : K port unit :=
  match node with
  | None => kret tt
  | Some region =>
      match fuel with
      | O => oops
      | S fuel =>
          destroy_one env region ;;
          a <- on_pd get_afu ;;
          destroy_loop fuel env (rb_next (iova region) (dma_regions a))
      end
  end.

Definition afu_dma_region_destroy (env : dma_env) : K port unit :=
  a <- on_pd get_afu ;;
  destroy_loop (length (inorder (dma_regions a))) env (rb_first (dma_regions a)).

Definition afu_dma_region_find (io size : Z) : K pdata (option fpga_afu_dma_region) :=
  afu <- get_afu ;; kret (rb_find io size (dma_regions afu)).

Definition afu_dma_region_find_iova (io : Z) : K pdata (option fpga_afu_dma_region) :=
  afu_dma_region_find io 0.

(** The tail of afu_dma_map_region: the labels unpin_pages and free_region. *)
Definition map_fail_unpin (env : dma_env) (region : fpga_afu_dma_region) (ret : Z)
  : K port (Z * option Z) :=
  on_mm (afu_dma_unpin_pages env region) ;; kret (ret, None).

(** afu_dma_map_region: the result code and, on success, [*iova]. *)
Definition afu_dma_map_region (env : dma_env) (uaddr len : Z) : K port (Z * option Z) :=
  if negb (PAGE_ALIGNED uaddr) || negb (PAGE_ALIGNED len) || (len =? 0) then
    kret (- EINVAL, None)
  else if u64 (uaddr + len) <? uaddr then kret (- EINVAL, None)
  else if negb (access_ok env uaddr len) then kret (- EINVAL, None)
  else if negb (kzalloc_ok env) then kret (- ENOMEM, None)
  else
    let region := DmaRegion uaddr len 0 None false in
    pr <- on_mm (afu_dma_pin_pages env region) ;;
    let region := snd pr in
    if istrue (fst pr) then kret (fst pr, None)
    else if negb (afu_dma_check_continuous_pages region) then
      map_fail_unpin env region (- EINVAL)
    else
      pgs <- deref (pages region) ;;
      page0 <- deref (head pgs) ;;
      let region := set_iova (dma_map_page env PciDev page0 len) region in
      if dma_mapping_error env PlatDev (iova region) then
        map_fail_unpin env region (- EFAULT)
      else
        on_mm (kmod (fun w =>
          set_dma_maps (dma_maps w ⊎ {[+ (iova region, length_ region) +]}) w)) ;;
        on_pd mutex_lock ;;
        ret <- on_pd (afu_dma_region_add region) ;;
        on_pd mutex_unlock ;;
        if istrue ret then
          on_mm (dma_unmap_page region) ;; map_fail_unpin env region ret
        else kret (0, Some (iova region)).

Definition afu_dma_unmap_region (env : dma_env) (io : Z) : K port Z :=
  on_pd mutex_lock ;;
  region <- on_pd (afu_dma_region_find_iova io) ;;
  match region with
  | None => on_pd mutex_unlock ;; kret (- EINVAL)
  | Some region =>
      if in_use region then on_pd mutex_unlock ;; kret (- EBUSY)
      else
        on_pd (afu_dma_region_remove region) ;;
        on_pd mutex_unlock ;;
        on_mm (dma_unmap_page region) ;;
        on_mm (afu_dma_unpin_pages env region) ;;
        kret 0
  end.
End Dma.

Arguments on_mm {Op D A} c s /.
Arguments afu_dma_region_remove {Op rb} region s /.
Arguments dma_unmap_page region s /.
Arguments put_all_pages pgs npages s /.

(** ** The tree *)

Lemma rb_link_inorder x t t' :
  rb_link x t = Some t' ->
  exists l1 l2, inorder t = l1 ++ l2 /\ inorder t' = l1 ++ x :: l2 /\
    (ascending (inorder t) ->
       Forall (fun y => iova y < iova x) l1 /\ Forall (fun y => iova x < iova y) l2).
Proof.
  revert t'. induction t as [|c l IHl y r IHr]; intros t'; simpl.
  - intros [= <-]. exists [], []. done.
  - destruct (dma_region_check_iova y (iova x) (length_ x)); [discriminate|].
    destruct (iova x <? iova y) eqn:E1; boolify.
    + destruct (rb_link x l) as [l'|] eqn:E; [|discriminate]. intros [= <-].
      destruct (IHl l' eq_refl) as (l1 & l2 & H1 & H2 & Ha). simpl.
      exists l1, (l2 ++ y :: inorder r). rewrite H1, H2, <- !app_assoc. split_and!; try done.
      rewrite H1 in Ha. intros Has. rewrite app_assoc in Has.
      apply ascending_app in Has as (H3 & H4 & H5). destruct (Ha H3) as [Hl1 Hl2]. split; [done|].
      apply Forall_app. split; [done|]. constructor; [done|]. destruct H4 as [H4 _].
      eapply Forall_impl; [|exact H4]. simpl. lia.
    + destruct (iova y <? iova x) eqn:E2; [|discriminate]. boolify.
      destruct (rb_link x r) as [r'|] eqn:E; [|discriminate]. intros [= <-].
      destruct (IHr r' eq_refl) as (l1 & l2 & H1 & H2 & Ha). simpl.
      exists (inorder l ++ y :: l1), l2. rewrite H1, H2. rewrite <- !app_assoc. split_and!; try done.
      rewrite H1 in Ha. intros Has. apply ascending_app in Has as (H3 & [H4 H4'] & H5).
      destruct (Ha H4') as [Hl1 Hl2]. split; [|done]. apply Forall_app. split.
      * apply Forall_forall. intros z Hz%list_elem_of_In.
        specialize (H5 z y Hz ltac:(left)). lia.
      * by constructor.
Qed.

Lemma ascending_insert l1 x l2 :
  ascending (l1 ++ l2) -> Forall (fun y => iova y < iova x) l1 ->
  Forall (fun y => iova x < iova y) l2 -> ascending (l1 ++ x :: l2).
Proof.
  rewrite !ascending_app. intros (H1 & H2 & H3) Hl Hr. simpl. split; [done|]. split; [done|].
  intros y z Hy [->|Hz]%elem_of_cons; [|by apply H3].
  rewrite Forall_forall in Hl. by apply Hl, list_elem_of_In.
Qed.

(** Erasing a node of an ascending sequence. *)
Lemma without_split l x :
  ascending l -> x ∈ l -> exists l1 l2, l = l1 ++ x :: l2 /\ without (iova x) l = l1 ++ l2.
Proof.
  intros Ha Hx. apply list_elem_of_split in Hx as (l1 & l2 & ->). exists l1, l2. split; [done|].
  apply ascending_app in Ha as (H1 & [H2 _] & H3). unfold without. rewrite list.filter_app.
  f_equal.
  - apply without_notin. apply Forall_forall. intros y Hy%list_elem_of_In.
    specialize (H3 y x Hy ltac:(left)). lia.
  - rewrite filter_cons, decide_False by (intros H; by apply H). apply without_notin.
    eapply Forall_impl; [|exact H2]. simpl. lia.
Qed.

Lemma rb_find_sound io size t r :
  rb_find io size t = Some r -> r ∈ inorder t /\ dma_region_check_iova r io size = true.
Proof.
  induction t as [|c l IHl y r' IHr]; simpl; [discriminate|].
  destruct (dma_region_check_iova y io size) eqn:E; [intros [= <-]; set_solver|].
  destruct (io <? iova y); [set_solver|]. destruct (iova y <? io); set_solver.
Qed.

(** A region that lies below 2^64. *)
Definition span_ok (r : fpga_afu_dma_region) : Prop :=
  0 <= iova r /\ 0 < length_ r /\ iova r + length_ r < 2 ^ 64.

(** [io, io + size) lies in the region; an empty request names its start. *)
Definition contains (r : fpga_afu_dma_region) (io size : Z) : Prop :=
  if size =? 0 then iova r = io else iova r <= io /\ io + size <= iova r + length_ r.

Lemma check_iova_contains r io size :
  span_ok r -> 0 <= io -> 0 <= size -> io + size < 2 ^ 64 ->
  dma_region_check_iova r io size = true <-> contains r io size.
Proof.
  intros (H1 & H2 & H3) Hi Hs Hw. unfold dma_region_check_iova, contains.
  rewrite (Z.add_comm (length_ r)), !u64_small by (unfold in_range; lia).
  destruct (size =? 0) eqn:E; boolify; simpl.
  - destruct (iova r =? io) eqn:E2; boolify; simpl; [|split; [done|lia]].
    rewrite andb_true_iff, !Z.leb_le. lia.
  - rewrite andb_true_iff, !Z.leb_le. done.
Qed.

(** Ranges of an ascending sequence that do not overlap. *)
Definition disjoint_spans (l : list fpga_afu_dma_region) : Prop :=
  forall x y, x ∈ l -> y ∈ l -> iova x < iova y -> iova x + length_ x <= iova y.

(** The descent reaches a containing region when no node on the way can hide
    it: always for a lookup by start, without overlaps for a range. *)
Lemma rb_find_complete io size t r :
  ascending (inorder t) -> Forall span_ok (inorder t) ->
  0 <= io -> 0 <= size -> io + size < 2 ^ 64 ->
  (size = 0 \/ disjoint_spans (inorder t)) ->
  r ∈ inorder t -> contains r io size -> is_Some (rb_find io size t).
Proof.
  intros Has Hok Hi Hs Hw Hd. revert Has Hok Hd.
  induction t as [|c l IHl y r' IHr]; simpl; [set_solver|]. intros Has Hok Hd Hr Hc.
  apply ascending_app in Has as (Hl & [Hy Hr'] & Hlr). rewrite Forall_app in Hok.
  destruct Hok as [Hokl Hokr]. inversion Hokr as [|? ? Hoky Hokr']; subst.
  destruct (dma_region_check_iova y io size) eqn:E; [eauto|].
  assert (~ contains y io size) as Hny
    by (rewrite <- check_iova_contains by done; congruence).
  assert (r ∈ inorder l \/ r ∈ inorder r') as Hin.
  { apply elem_of_app in Hr as [Hr|[->|Hr]%elem_of_cons]; [by left|done|by right]. }
  assert (forall z, z ∈ inorder l -> iova z < iova y) as Hlt by (intros; apply Hlr; set_solver).
  assert (forall z, z ∈ inorder r' -> iova y < iova z) as Hgt.
  { intros z Hz. rewrite Forall_forall in Hy. by apply Hy, list_elem_of_In. }
  assert (forall sub, (forall z, z ∈ sub -> z ∈ inorder l ++ y :: inorder r') ->
            size = 0 \/ disjoint_spans sub) as Hsub.
  { intros sub Hs'. destruct Hd as [|Hd]; [by left|right]. intros a b Ha Hb. by apply Hd; apply Hs'. }
  unfold contains in Hc, Hny. destruct (Z.ltb_spec io (iova y)) as [Hio|Hio].
  - apply IHl; try done; [apply Hsub; set_solver|]. destruct Hin as [|Hin]; [done|].
    apply Hgt in Hin. destruct (size =? 0); lia.
  - destruct (Z.ltb_spec (iova y) io) as [Hio2|Hio2].
    + apply IHr; try done; [apply Hsub; set_solver|]. destruct Hin as [Hin|]; [|done].
      pose proof (Hlt r Hin) as Hlt'. destruct (size =? 0) eqn:Ez; [lia|]. boolify.
      destruct Hd as [|Hd]; [lia|]. specialize (Hd r y ltac:(set_solver) ltac:(set_solver) Hlt'). lia.
    + destruct (size =? 0) eqn:Ez; [lia|]. boolify. destruct Hin as [Hin|Hin].
      * pose proof (Hlt r Hin) as Hlt'. destruct Hd as [|Hd]; [lia|].
        specialize (Hd r y ltac:(set_solver) ltac:(set_solver) Hlt'). lia.
      * apply Hgt in Hin. lia.
Qed.

(** ** Accounting *)

(** Pages, page references and mappings a sequence of regions holds. *)
Definition pages_held (l : list fpga_afu_dma_region) : gmultiset Z :=
  foldr (fun r X => list_to_set_disj (default [] (pages r)) ⊎ X) ∅ l.
Definition maps_held (l : list fpga_afu_dma_region) : gmultiset (Z * Z) :=
  foldr (fun r X => {[+ (iova r, length_ r) +]} ⊎ X) ∅ l.

(** The world [w0] plus what [l] holds. *)
Definition holding (l : list fpga_afu_dma_region) (w0 : dma_world) : dma_world :=
  DmaWorld (locked_vm w0 + sum_by npages_of l) (page_refs w0 ⊎ pages_held l)
    (dma_maps w0 ⊎ maps_held l).

(** [w] with mappings that no region accounts for. *)
Definition plus_maps (X : gmultiset (Z * Z)) (w : dma_world) : dma_world :=
  set_dma_maps (dma_maps w ⊎ X) w.

(** The mappings at I/O address 0, which afu_dma_region_destroy skips. *)
Definition left_mapped (l : list fpga_afu_dma_region) : gmultiset (Z * Z) :=
  maps_held (filter (fun r => iova r = 0) l).

Lemma left_mapped_nil : left_mapped [] = ∅.
Proof. done. Qed.

Lemma left_mapped_cons r l : left_mapped (r :: l) = left_mapped [r] ⊎ left_mapped l.
Proof.
  unfold left_mapped. rewrite !filter_cons, filter_nil. destruct (decide (iova r = 0)); simpl; multiset_solver.
Qed.

Lemma left_mapped_none l : Forall (fun r => iova r <> 0) l -> left_mapped l = ∅.
Proof.
  induction 1 as [|r l Hr _ IH]; [done|]. rewrite left_mapped_cons, IH. unfold left_mapped.
  rewrite filter_cons, filter_nil, decide_False by done. simpl. multiset_solver.
Qed.

Lemma plus_maps_empty w : plus_maps ∅ w = w.
Proof. destruct w. unfold plus_maps, set_dma_maps. simpl. f_equal. multiset_solver. Qed.

Lemma plus_maps_twice X Y w : plus_maps Y (plus_maps X w) = plus_maps (X ⊎ Y) w.
Proof. unfold plus_maps, set_dma_maps. simpl. f_equal. multiset_solver. Qed.

Lemma Forall_without (Q : fpga_afu_dma_region -> Prop) i l : Forall Q l -> Forall Q (without i l).
Proof.
  rewrite !list.Forall_forall. intros H x Hx. apply list_elem_of_filter in Hx as [_ Hx]. auto.
Qed.

(** A region in the tree: page-aligned, pinned, physically contiguous. *)
Definition region_ok (r : fpga_afu_dma_region) : Prop :=
  span_ok r /\ 0 < npages_of r < 2 ^ 31 /\
  exists pgs, pages r = Some pgs /\ Z.of_nat (length pgs) = npages_of r /\
              check_continuous pgs = true.

Lemma holding_nil w0 : holding [] w0 = w0.
Proof. destruct w0. unfold holding. simpl. f_equal; [lia | multiset_solver ..]. Qed.

Lemma holding_middle l1 r l2 w0 : holding (l1 ++ r :: l2) w0 = holding (r :: l1 ++ l2) w0.
Proof.
  unfold holding. f_equal.
  - f_equal. apply sum_by_perm. symmetry. apply Permutation_middle.
  - f_equal. induction l1 as [|x l1 IH]; [done|]. simpl in *. rewrite IH. multiset_solver.
  - f_equal. induction l1 as [|x l1 IH]; [done|]. simpl in *. rewrite IH. multiset_solver.
Qed.

(** Charging and pinning, before the DMA mapping is made. *)
Definition charged (r : fpga_afu_dma_region) (w : dma_world) : dma_world :=
  DmaWorld (locked_vm w + npages_of r)
    (page_refs w ⊎ list_to_set_disj (default [] (pages r))) (dma_maps w).

Lemma holding_cons r l w0 :
  holding (r :: l) w0 =
  set_dma_maps (dma_maps (holding l w0) ⊎ {[+ (iova r, length_ r) +]}) (charged r (holding l w0)).
Proof. unfold holding, charged, set_dma_maps. simpl. f_equal; [lia | multiset_solver ..]. Qed.

Lemma adjust_up_run env n w :
  mm_present env = true -> 0 <= n -> 0 <= locked_vm w -> locked_vm w + n < 2 ^ 64 ->
  afu_dma_adjust_locked_vm env n true w = Some (- ENOMEM, w) \/
  afu_dma_adjust_locked_vm env n true w = Some (0, set_locked_vm (locked_vm w + n) w).
Proof.
  intros Hm Hn H0 Hw. unfold afu_dma_adjust_locked_vm. rewrite Hm. simpl.
  rewrite u64_small by (unfold in_range; lia).
  destruct ((_ <? _) && _); simpl; auto.
Qed.

Lemma adjust_down_run env n w :
  mm_present env = true -> n <= locked_vm w ->
  afu_dma_adjust_locked_vm env n false w = Some (0, set_locked_vm (locked_vm w - n) w).
Proof.
  intros Hm Hn. unfold afu_dma_adjust_locked_vm. rewrite Hm. simpl.
  by replace (locked_vm w <? n) with false by lia.
Qed.

(** What get_user_pages_fast promises: a negative error, or at most the number
    of pages asked for. *)
Definition pins_some (env : dma_env) : Prop :=
  mm_present env = true /\
  forall a n, match get_user_pages_fast env a n with
              | inl e => e < 0
              | inr pgs => Z.of_nat (length pgs) <= Z.max 0 n
              end.

(** The memory layer pins all the pages or reports an error. *)
Definition pins_all (env : dma_env) : Prop :=
  mm_present env = true /\
  forall a n, match get_user_pages_fast env a n with
              | inl e => e < 0
              | inr pgs => Z.of_nat (length pgs) = n
              end.

Lemma pins_all_some env : pins_all env -> pins_some env.
Proof.
  intros [Hm H]. split; [done|]. intros a n. specialize (H a n).
  destruct (get_user_pages_fast env a n); lia.
Qed.

(** References on pages that no region accounts for. *)
Definition leak (pgs : list Z) (w : dma_world) : dma_world :=
  set_page_refs (page_refs w ⊎ list_to_set_disj pgs) w.

(** Fewer pages than asked for. *)
Definition short_pin (env : dma_env) (uaddr len : Z) (pgs : list Z) : Prop :=
  get_user_pages_fast env uaddr (s32 (Z.shiftr len PAGE_SHIFT)) = inr pgs /\
  Z.of_nat (length pgs) < Z.shiftr len PAGE_SHIFT.


Lemma s32_le z : 0 <= z -> Z.max 0 (s32 z) <= z /\ s32 z < 2 ^ 31.
Proof.
  intros Hz. unfold s32. pose proof (Z.mod_pos_bound (z + 2 ^ 31) (2 ^ 32) ltac:(lia)).
  pose proof (Z.mod_le (z + 2 ^ 31) (2 ^ 32) ltac:(lia) ltac:(lia)). lia.
Qed.

(** Pinning ends in one of three ways. *)
Lemma pin_run env r w :
  pins_some env -> 0 <= npages_of r -> 0 <= locked_vm w -> locked_vm w + npages_of r < 2 ^ 64 ->
  (exists e, e <> 0 /\ afu_dma_pin_pages env r w = Some ((e, r), w)) \/
  (exists pgs, short_pin env (user_addr r) (length_ r) pgs /\
     afu_dma_pin_pages env r w = Some ((- EFAULT, r), leak pgs w)) \/
  (exists pgs, Z.of_nat (length pgs) = npages_of r /\ npages_of r < 2 ^ 31 /\
     afu_dma_pin_pages env r w = Some ((0, set_pages (Some pgs) r), charged (set_pages (Some pgs) r) w)).
Proof.
  intros [Hm Hall] Hn H0 Hw. unfold afu_dma_pin_pages. simpl.
  destruct (adjust_up_run env (npages_of r) w) as [->| ->]; try done; [left; by exists (- ENOMEM)|].
  simpl. destruct w as [lv pr dm]; simpl in *. destruct (kcalloc_ok env); simpl.
  2: { left. exists (- ENOMEM). split; [done|]. rewrite adjust_down_run by (simpl; lia || done).
       simpl. by replace (lv + npages_of r - npages_of r) with lv by lia. }
  specialize (Hall (user_addr r) (s32 (npages_of r))).
  destruct (get_user_pages_fast env (user_addr r) (s32 (npages_of r))) as [e|pgs] eqn:Eg; simpl.
  - left. exists e. split; [lia|]. rewrite take_nil, adjust_down_run by (simpl; lia || done). simpl.
    unfold set_locked_vm, set_page_refs. simpl.
    replace (lv + npages_of r - npages_of r) with lv by lia.
    do 2 f_equal. f_equal. multiset_solver.
  - right. destruct (s32_le (npages_of r) Hn) as [Hle Hs].
    destruct (Z.eqb_spec (Z.of_nat (length pgs)) (npages_of r)) as [He|He]; simpl.
    + right. exists pgs. split; [done|]. split; [lia|reflexivity].
    + left. exists pgs. split.
      * split; [exact Eg|].
        change (Z.shiftr (length_ r) PAGE_SHIFT) with (npages_of r). lia.
      * rewrite adjust_down_run by (simpl; lia || done). unfold leak, set_locked_vm, set_page_refs. simpl.
        by replace (lv + npages_of r - npages_of r) with lv by lia.
Qed.

Lemma unpin_run env r w pgs :
  mm_present env = true -> 0 <= npages_of r < 2 ^ 31 ->
  pages r = Some pgs -> Z.of_nat (length pgs) = npages_of r -> 0 <= locked_vm w ->
  afu_dma_unpin_pages env r (charged r w) = Some (tt, w).
Proof.
  intros Hm Hn Hp Hl H0. unfold afu_dma_unpin_pages, charged. rewrite Hp. simpl.
  rewrite s32_small by done. rewrite take_ge by lia.
  rewrite adjust_down_run by (simpl; lia || done). unfold set_locked_vm, set_page_refs. simpl.
  destruct w; simpl. do 2 f_equal. f_equal; [lia | multiset_solver].
Qed.

Lemma npages_held_nonneg l : Forall region_ok l -> 0 <= sum_by npages_of l.
Proof.
  intros Hok. apply sum_by_nonneg. intros x Hx. rewrite list.Forall_forall in Hok.
  destruct (Hok x Hx) as (_ & ? & _). lia.
Qed.

(** Releasing one held region: unmap, then unpin. *)
Lemma release_run env r l w0 :
  mm_present env = true -> region_ok r -> 0 <= locked_vm w0 -> Forall region_ok l ->
  exists w1, dma_unmap_page r (holding (r :: l) w0) = Some (tt, w1) /\
             afu_dma_unpin_pages env r w1 = Some (tt, holding l w0).
Proof.
  intros Hm (_ & Hn & pgs & Hp & Hl & _) H0 Hok. rewrite holding_cons. simpl.
  eexists. split; [reflexivity|]. unfold set_dma_maps. simpl.
  replace ((dma_maps w0 ⊎ maps_held l ⊎ {[+ (iova r, length_ r) +]}) ∖ {[+ (iova r, length_ r) +]})
    with (dma_maps (holding l w0)) by (simpl; multiset_solver).
  apply (unpin_run env r (holding l w0) pgs); try done; [lia|]. simpl.
  assert (0 <= sum_by npages_of l); [|lia]. apply sum_by_nonneg. intros x Hx.
  rewrite Forall_forall in Hok. apply list_elem_of_In, Hok in Hx as (_ & ? & _). lia.
Qed.

(** ** The invariant of a port *)

Section DmaProofs.
Context {Op D : Type} {rb : RbLib} {rbok : RbLibOk}.
Abbreviation port := (platform_device Op fpga_afu (afu_world D)).
Implicit Types q : port.

Definition tree_of_port q : rbtree :=
  match private (pd q) with Some a => dma_regions a | None => RbNil end.
Definition regions_of q : list fpga_afu_dma_region := inorder (tree_of_port q).

(** The tree is ordered, its regions are sound, and the world holds exactly
    what they account for on top of [w0]. *)
Definition dma_inv (w0 : dma_world) q : Prop :=
  is_Some (private (pd q)) /\ ascending (regions_of q) /\
  Forall region_ok (regions_of q) /\ 0 <= locked_vm w0 /\
  mm (io q) = holding (regions_of q) w0.

Definition set_tree (t : rbtree) q : port :=
  match private (pd q) with
  | Some a => set_pd (set_private (Some (set_dma_regions t a)) (pd q)) q
  | None => q
  end.
Definition set_mm (m : dma_world) q : port := set_io (World (hw (io q)) m (irqw (io q)) (kobj (io q)) (usr (io q))) q.

(** What a map or unmap may change: the tree and the memory of the process. *)
Definition framed q q' : Prop := exists t m, q' = set_mm m (set_tree t q).

Lemma framed_refl q : is_Some (private (pd q)) -> framed q q.
Proof.
  intros [a Ha]. exists (dma_regions a), (mm (io q)).
  destruct q as [[] []], a. unfold set_tree. simpl in *. by rewrite Ha.
Qed.

Lemma regions_of_set_tree t q :
  is_Some (private (pd q)) -> regions_of (set_tree t q) = inorder t.
Proof. intros [a Ha]. unfold regions_of, tree_of_port, set_tree. by rewrite Ha. Qed.

Lemma regions_of_set_mm m q : regions_of (set_mm m q) = regions_of q.
Proof. reflexivity. Qed.

Lemma on_mm_run {A} (c : K dma_world A) q a m :
  c (mm (io q)) = Some (a, m) -> on_mm c q = Some (a, set_mm m q).
Proof. intros H. simpl. by rewrite H. Qed.

Lemma set_mm_id q : set_mm (mm (io q)) q = q.
Proof. by destruct q as [? []]. Qed.

Lemma set_mm_twice m m' q : set_mm m (set_mm m' q) = set_mm m q.
Proof. reflexivity. Qed.

(** Removing a node and releasing it keeps the invariant. *)
Lemma inv_release env w0 q r :
  mm_present env = true -> dma_inv w0 q -> r ∈ regions_of q ->
  exists w1,
    on_mm (dma_unmap_page r) q = Some (tt, set_mm w1 q) /\
    on_mm (afu_dma_unpin_pages env r) (set_mm w1 q)
      = Some (tt, set_mm (holding (without (iova r) (regions_of q)) w0) q).
Proof.
  intros Hm (_ & Ha & Hok & H0 & Hmm) Hr.
  destruct (without_split _ _ Ha Hr) as (l1 & l2 & Hl & ->).
  rewrite Hl in Hok. apply Forall_app in Hok as [Hok1 Hok2].
  inversion Hok2 as [|? ? Hokr Hok2']; subst.
  destruct (release_run env r (l1 ++ l2) w0) as (w1 & Hu & Hp); try done.
  { by apply Forall_app. }
  exists w1. split.
  - apply on_mm_run. by rewrite Hmm, Hl, holding_middle.
  - exact (on_mm_run _ (set_mm w1 q) _ _ Hp).
Qed.

Lemma inv_erased w0 w1 q r :
  dma_inv w0 q -> 0 <= locked_vm w1 ->
  dma_inv w1 (set_mm (holding (without (iova r) (regions_of q)) w1)
                (set_tree (rb_erase (iova r) (tree_of_port q)) q)).
Proof.
  intros (Hp & Ha & Hok & H0 & Hmm) H1.
  assert (regions_of (set_tree (rb_erase (iova r) (tree_of_port q)) q) = without (iova r) (regions_of q)) as Hr.
  { rewrite regions_of_set_tree by done. apply rb_erase_inorder. }
  split_and!.
  - destruct Hp as [a Ha']. unfold set_tree, set_mm. simpl. rewrite Ha'. simpl. eauto.
  - rewrite regions_of_set_mm, Hr. by apply ascending_without.
  - rewrite regions_of_set_mm, Hr. by apply Forall_without.
  - done.
  - rewrite regions_of_set_mm, Hr. reflexivity.
Qed.

Lemma get_afu_run q a : private (pd q) = Some a -> get_afu (pd q) = Some (a, pd q).
Proof. intros H. simpl. by rewrite H. Qed.

(** Addresses the DMA layer hands out without error. *)
Definition maps_ok (env : dma_env) : Prop :=
  forall p len, dma_mapping_error env PlatDev (dma_map_page env PciDev p len) = false ->
    0 <= dma_map_page env PciDev p len /\ dma_map_page env PciDev p len + len < 2 ^ 64.

Lemma aligned_npages len :
  PAGE_ALIGNED len = true -> 0 < len -> 0 < Z.shiftr len PAGE_SHIFT.
Proof.
  rewrite PAGE_ALIGNED_spec. unfold PAGE_SIZE, PAGE_SHIFT. intros H Hl. boolify.
  rewrite Z.shiftr_div_pow2 by lia. change (2 ^ 12) with 4096 in *.
  pose proof (Z.div_mod len 4096 ltac:(lia)). nia.
Qed.

Lemma map_fail_run env q r pgs ret :
  mm_present env = true -> 0 <= npages_of r < 2 ^ 31 -> pages r = Some pgs ->
  Z.of_nat (length pgs) = npages_of r -> 0 <= locked_vm (mm (io q)) ->
  map_fail_unpin env r ret (set_mm (charged r (mm (io q))) q) = Some ((ret, None), q).
Proof.
  intros Hm Hn Hp Hl H0. unfold map_fail_unpin. unfold kbind.
  rewrite (on_mm_run _ (set_mm (charged r (mm (io q))) q) tt (mm (io q))).
  - simpl. by destruct q as [? []].
  - simpl. by apply (unpin_run env r (mm (io q)) pgs).
Qed.

Lemma add_run q r a :
  private (pd q) = Some a ->
  afu_dma_region_add r (pd q) =
  match rb_link r (dma_regions a) with
  | None => Some (- EEXIST, pd q)
  | Some t => Some (0, set_private (Some (set_dma_regions (rb_insert_color t) a)) (pd q))
  end.
Proof.
  intros Ha. unfold afu_dma_region_add. simpl. rewrite Ha. simpl.
  destruct (rb_link r (dma_regions a)); simpl; [by rewrite Ha|done].
Qed.

Lemma inv_locked w0 q : dma_inv w0 q -> 0 <= locked_vm (mm (io q)).
Proof.
  intros (_ & _ & Hok & H0 & ->). simpl. pose proof (npages_held_nonneg _ Hok). lia.
Qed.

(** Registering a mapped region: refused and unwound, or linked in order. *)
Lemma map_register env w0 q r pgs :
  mm_present env = true -> lock (pd q) = false -> dma_inv w0 q -> region_ok r ->
  pages r = Some pgs ->
  exists ret out q',
    (on_mm (kmod (fun w => set_dma_maps (dma_maps w ⊎ {[+ (iova r, length_ r) +]}) w)) ;;
     on_pd mutex_lock ;;
     ret <- on_pd (afu_dma_region_add r) ;;
     on_pd mutex_unlock ;;
     if istrue ret then on_mm (dma_unmap_page r) ;; map_fail_unpin env r ret
     else kret (0, Some (iova r))) (set_mm (charged r (mm (io q))) q) = Some ((ret, out), q') /\
    dma_inv w0 q' /\ lock (pd q') = false /\
    ((ret <> 0 /\ out = None /\ q' = q) \/
     (ret = 0 /\ out = Some (iova r) /\ framed q q' /\ exists l1 l2,
        regions_of q = l1 ++ l2 /\ regions_of q' = l1 ++ r :: l2)).
Proof.
  intros Hm Hl Hinv Hok Hp. pose proof Hinv as ((a & Ha) & Has & Hall & H0 & Hmm).
  pose proof (inv_locked _ _ Hinv) as Hlv. pose proof Hok as (_ & Hn & pgs' & Hp' & Hlen & _).
  rewrite Hp in Hp'. injection Hp' as <-.
  assert (Hreg : regions_of q = inorder (dma_regions a))
    by (unfold regions_of, tree_of_port; by rewrite Ha).
  destruct q as [p [h m w ko us]]; simpl in *. rewrite Hl. simpl.
  pose proof (add_run (Pdev (set_lock true p) (World h m w ko us)) r a Ha) as Hadd. simpl in Hadd.
  rewrite Hadd. clear Hadd. destruct (rb_link r (dma_regions a)) as [t|] eqn:El; simpl.
  - destruct (rb_link_inorder _ _ _ El) as (l1 & l2 & H1 & H2 & Hord).
    rewrite <- Hreg in H1, Hord. destruct (Hord Has) as [Ho1 Ho2]. rewrite H1 in Has, Hall.
    set (q2 := Pdev (set_lock false (set_private (Some (set_dma_regions (rb_insert_color t) a))
                       (set_lock true p)))
                 (World h (set_dma_maps (dma_maps m ⊎ {[+ (iova r, length_ r) +]}) (charged r m)) w ko us)).
    exists 0, (Some (iova r)), q2. split; [reflexivity|].
    assert (regions_of q2 = l1 ++ r :: l2) as Hnew.
    { unfold regions_of, tree_of_port. simpl. by rewrite rb_insert_color_inorder. }
    split; [|split; [done|]].
    + split; [simpl; eauto|]. rewrite Hnew. split_and!; [by apply ascending_insert| |done|].
      * apply Forall_app in Hall as [? ?]. apply Forall_app. split; [done|by constructor].
      * simpl. rewrite holding_middle, holding_cons, <- H1, <- Hmm. reflexivity.
    + right. split; [done|]. split; [done|]. split; [|exists l1, l2; split; [done|exact Hnew]].
      eexists (rb_insert_color t), _. unfold q2, set_tree. simpl. rewrite Ha.
      destruct p. simpl in *. by subst.
  - exists (- EEXIST), None, (Pdev p (World h m w ko us)). split.
    + pose proof (map_fail_run env (Pdev p (World h m w ko us)) r pgs (- EEXIST) Hm ltac:(lia) Hp Hlen Hlv) as Hf.
      unfold set_mm in Hf. simpl in Hf. rewrite <- Hf. f_equal. f_equal; [by destruct p; simpl in *; subst|].
      f_equal. unfold charged, set_dma_maps. simpl. f_equal. multiset_solver.
    + split_and!; [done|done|]. left. done.
Qed.
End DmaProofs.

Section DmaMap.
Context {Op D : Type} {rb : RbLib} {rbok : RbLibOk}.
Abbreviation port := (platform_device Op fpga_afu (afu_world D)).
Implicit Types q : port.

(** The outcome of a map request on a port with invariant [dma_inv w0]. *)
Definition map_outcome (w0 : dma_world) (uaddr len : Z) q (res : Z * option Z) q' : Prop :=
  dma_inv w0 q' /\ lock (pd q') = false /\
  ((fst res <> 0 /\ snd res = None /\ q' = q) \/
   (fst res = 0 /\ framed q q' /\ exists r l1 l2,
      snd res = Some (iova r) /\ user_addr r = uaddr /\ length_ r = len /\ in_use r = false /\
      regions_of q = l1 ++ l2 /\ regions_of q' = l1 ++ r :: l2)).

(** The outcome when the memory layer pinned too few pages: -EFAULT, and the
    references on those pages are nobody's from then on. *)
Definition map_short (env : dma_env) (w0 : dma_world) (uaddr len : Z) q (res : Z * option Z) q' : Prop :=
  res = (- EFAULT, None) /\ lock (pd q') = false /\
  exists pgs, short_pin env uaddr len pgs /\
    q' = set_mm (leak pgs (mm (io q))) q /\ dma_inv (leak pgs w0) q'.

Lemma inv_leak w0 pgs q : dma_inv w0 q -> dma_inv (leak pgs w0) (set_mm (leak pgs (mm (io q))) q).
Proof.
  intros (Hs & Has & Hok & H0 & Hmm). do 4 (split; [done|]). simpl. rewrite Hmm.
  change (regions_of (set_mm _ q)) with (regions_of q). unfold leak, holding, set_page_refs. simpl. f_equal. multiset_solver.
Qed.

Lemma map_outcome_fail w0 uaddr len q e :
  dma_inv w0 q -> lock (pd q) = false -> e <> 0 -> map_outcome w0 uaddr len q (e, None) q.
Proof. intros H1 H2 H3. split_and!; [done|done|]. by left. Qed.

(** From the pinned and contiguous region on. *)
Lemma map_pinned_run env w0 q uaddr len pgs :
  mm_present env = true -> maps_ok env -> lock (pd q) = false -> dma_inv w0 q ->
  0 < len -> 0 < Z.shiftr len PAGE_SHIFT < 2 ^ 31 ->
  Z.of_nat (length pgs) = Z.shiftr len PAGE_SHIFT ->
  let r := DmaRegion uaddr len 0 (Some pgs) false in
  exists res q',
    (if negb (afu_dma_check_continuous_pages r) then map_fail_unpin env r (- EINVAL)
     else
       pgs <- deref (pages r) ;;
       page0 <- deref (head pgs) ;;
       let r := set_iova (dma_map_page env PciDev page0 len) r in
       if dma_mapping_error env PlatDev (iova r) then map_fail_unpin env r (- EFAULT)
       else
         on_mm (kmod (fun w => set_dma_maps (dma_maps w ⊎ {[+ (iova r, length_ r) +]}) w)) ;;
         on_pd mutex_lock ;;
         ret <- on_pd (afu_dma_region_add r) ;;
         on_pd mutex_unlock ;;
         if istrue ret then on_mm (dma_unmap_page r) ;; map_fail_unpin env r ret
         else kret (0, Some (iova r))) (set_mm (charged r (mm (io q))) q) = Some (res, q') /\
    map_outcome w0 uaddr len q res q'.
Proof.
  intros Hm Hmap Hl Hinv Hlen Hn Hpgs r.
  pose proof (inv_locked _ _ Hinv) as Hlv.
  assert (afu_dma_check_continuous_pages r = check_continuous pgs) as ->.
  { unfold afu_dma_check_continuous_pages, npages_of. simpl.
    rewrite s32_small by lia. by rewrite take_ge by lia. }
  destruct (check_continuous pgs) eqn:Ec; simpl.
  2: { rewrite (map_fail_run env q r pgs); try done; [|unfold npages_of; simpl; lia].
       eexists _, _. split; [reflexivity|]. by apply map_outcome_fail. }
  destruct pgs as [|p0 pgs]; [simpl in Hpgs; lia|]. simpl.
  set (r1 := set_iova (dma_map_page env PciDev p0 len) r).
  destruct (dma_mapping_error env PlatDev (dma_map_page env PciDev p0 len)) eqn:Ee.
  { change (charged r (mm (io q))) with (charged r1 (mm (io q))).
    rewrite (map_fail_run env q r1 (p0 :: pgs)); try done; [|unfold npages_of; simpl; lia].
    eexists _, _. split; [reflexivity|]. by apply map_outcome_fail. }
  destruct (Hmap p0 len Ee) as [Hi1 Hi2].
  assert (region_ok r1) as Hok.
  { split; [split_and!; simpl; lia|]. split; [unfold npages_of; simpl; lia|].
    exists (p0 :: pgs). by split_and!. }
  destruct (map_register env w0 q r1 (p0 :: pgs) Hm Hl Hinv Hok eq_refl)
    as (ret & out & q' & Hrun & Hinv' & Hl' & Hcase).
  exists (ret, out), q'. split; [exact Hrun|]. split_and!; [done|done|].
  destruct Hcase as [(? & ? & ?)|(? & ? & ? & l1 & l2 & ? & ?)]; [by left|].
  right. split; [done|]. split; [done|]. exists r1, l1, l2. by split_and!.
Qed.

Lemma map_region_run env w0 q uaddr len :
  pins_some env -> maps_ok env -> lock (pd q) = false -> dma_inv w0 q ->
  0 <= len -> locked_vm (mm (io q)) + Z.shiftr len PAGE_SHIFT < 2 ^ 64 ->
  exists res q', afu_dma_map_region env uaddr len q = Some (res, q') /\
    (map_outcome w0 uaddr len q res q' \/ map_short env w0 uaddr len q res q').
Proof.
  intros Hpin Hmap Hl Hinv Hlen Hroom. unfold afu_dma_map_region.
  assert (forall e, e <> 0 -> exists res q', kret (e, None) q = Some (res, q') /\
            (map_outcome w0 uaddr len q res q' \/ map_short env w0 uaddr len q res q')) as Hfail.
  { intros e He. eexists _, _. split; [reflexivity|]. left. by apply map_outcome_fail. }
  destruct (negb (PAGE_ALIGNED uaddr) || negb (PAGE_ALIGNED len) || (len =? 0)) eqn:E1;
    [by apply Hfail|].
  destruct (u64 (uaddr + len) <? uaddr); [by apply Hfail|].
  destruct (negb (access_ok env uaddr len)); [by apply Hfail|].
  destruct (negb (kzalloc_ok env)); [by apply Hfail|].
  boolify. pose proof (aligned_npages len H1 ltac:(lia)) as Hn.
  pose proof (inv_locked _ _ Hinv) as Hlv.
  set (r := DmaRegion uaddr len 0 None false).
  destruct (pin_run env r (mm (io q)) Hpin)
    as [(e & He & Hrun)|[(pgs & Hshort & Hrun)|(pgs & Hpgs & Hn31 & Hrun)]];
    [unfold npages_of; simpl; lia|done|done|..]; unfold kbind at 1;
    rewrite (on_mm_run _ _ _ _ Hrun).
  - unfold istrue. simpl. replace (e =? 0) with false by lia. simpl. rewrite set_mm_id. by apply Hfail.
  - eexists _, _. split; [reflexivity|]. right. split; [done|]. split; [exact Hl|].
    exists pgs. split; [done|]. split; [done|]. by apply inv_leak.
  - simpl fst. simpl istrue. cbv iota. simpl snd.
    destruct (map_pinned_run env w0 q uaddr len pgs) as (res & q' & Hm' & Hout);
      try done; [apply Hpin|lia|..].
    exists res, q'. split; [exact Hm'|by left].
Qed.


Lemma find_iova_run q a i :
  private (pd q) = Some a -> ascending (regions_of q) -> Forall region_ok (regions_of q) ->
  is_u64 i ->
  exists o, afu_dma_region_find_iova i (pd q) = Some (o, pd q) /\
    match o with
    | Some r => r ∈ regions_of q /\ iova r = i
    | None => forall r, r ∈ regions_of q -> iova r <> i
    end.
Proof.
  intros Ha Has Hok [Hi0 Hi1]. unfold afu_dma_region_find_iova, afu_dma_region_find. simpl.
  rewrite Ha. simpl. unfold regions_of, tree_of_port in *. rewrite Ha in *.
  eexists. split; [reflexivity|].
  assert (Forall span_ok (inorder (dma_regions a))) as Hsp
    by (eapply Forall_impl; [|exact Hok]; by intros ? (? & _)).
  destruct (rb_find i 0 (dma_regions a)) as [r|] eqn:E.
  - apply rb_find_sound in E as [Hr Hc]. split; [done|].
    rewrite list.Forall_forall in Hsp. apply check_iova_contains in Hc; [done|auto|lia|lia|lia].
  - intros r Hr Hi. destruct (rb_find_complete i 0 (dma_regions a) r) as [x Hx]; try done; try lia.
    congruence.
Qed.

(** The outcome of an unmap request. *)
Definition unmap_outcome (w0 : dma_world) (i : Z) q (ret : Z) q' : Prop :=
  dma_inv w0 q' /\ lock (pd q') = false /\
  ((ret = - EINVAL /\ q' = q /\ forall r, r ∈ regions_of q -> iova r <> i) \/
   (ret = - EBUSY /\ q' = q /\ exists r, r ∈ regions_of q /\ iova r = i /\ in_use r = true) \/
   (ret = 0 /\ framed q q' /\ regions_of q' = without i (regions_of q) /\
      exists r, r ∈ regions_of q /\ iova r = i /\ in_use r = false)).

Lemma unmap_region_run env w0 q i :
  mm_present env = true -> lock (pd q) = false -> dma_inv w0 q -> is_u64 i ->
  exists ret q', afu_dma_unmap_region env i q = Some (ret, q') /\ unmap_outcome w0 i q ret q'.
Proof.
  intros Hm Hl Hinv Hi. pose proof Hinv as ((a & Ha) & Has & Hok & H0 & Hmm).
  destruct q as [p [h m w ko us]]; simpl in *.
  unfold afu_dma_unmap_region. simpl. rewrite Hl. simpl.
  destruct (find_iova_run (Pdev (set_lock true p) (World h m w ko us)) a i Ha Has Hok Hi) as (o & Ho & Hspec).
  simpl in Ho. rewrite Ho. simpl.
  assert (set_lock false (set_lock true p) = p) as Hp by (destruct p; simpl in *; by subst).
  destruct o as [r|]; simpl.
  2: { exists (- EINVAL), (Pdev p (World h m w ko us)). split; [simpl in Hp; by rewrite Hp|].
       split_and!; try done. by left. }
  destruct Hspec as [Hr Hri]. destruct (in_use r) eqn:Eu; simpl.
  { exists (- EBUSY), (Pdev p (World h m w ko us)). split; [simpl in Hp; by rewrite Hp|].
    split_and!; try done. right. left. split_and!; try done. by exists r. }
  rewrite Ha. simpl.
  set (q1 := set_tree (rb_erase (iova r) (tree_of_port (Pdev p (World h m w ko us))))
               (Pdev p (World h m w ko us))).
  destruct (inv_release env w0 (Pdev p (World h m w ko us)) r Hm Hinv Hr) as (w1 & Hu & Hpn).
  simpl in Hu, Hpn. injection Hu as Hu.
  destruct (afu_dma_unpin_pages env r w1) as [[u m2]|] eqn:Epn; [|discriminate].
  unfold set_mm in Hpn, Hu. simpl in Hpn, Hu. injection Hpn as -> Hm2.
  assert (w1 = set_dma_maps (dma_maps m ∖ {[+ (iova r, length_ r) +]}) m) as Hw1 by congruence.
  rewrite <- Hw1, Epn. eexists _, _. split; [reflexivity|].
  pose proof (inv_erased w0 w0 (Pdev p (World h m w ko us)) r Hinv H0) as Hinv'.
  unfold set_tree, tree_of_port in Hinv'. simpl in Hinv'. rewrite Ha in Hinv'. simpl in Hinv'.
  unfold set_mm in Hinv'. simpl in Hinv'. rewrite Hm2.
  split; [|split; [done|]].
  - destruct p; simpl in *; subst. exact Hinv'.
  - right. right. split_and!; [done| | |by exists r].
    { exists (rb_erase (iova r) (dma_regions a)), (mm (io (Pdev p (World h m2 w ko us)))).
      unfold set_tree. simpl. rewrite Ha. destruct p. simpl in *. by subst. }
    unfold regions_of at 1, tree_of_port. simpl. rewrite rb_erase_inorder.
    unfold regions_of, tree_of_port. simpl. rewrite Ha. by rewrite Hri.
Qed.
End DmaMap.

Section DmaDestroy.
Context {Op D : Type} {rb : RbLib} {rbok : RbLibOk}.
Abbreviation port := (platform_device Op fpga_afu (afu_world D)).
Implicit Types q : port.

(** The step that unmaps, with its test of the I/O address. *)
Lemma release_nonzero_run env r l w0 :
  mm_present env = true -> region_ok r -> 0 <= locked_vm w0 -> Forall region_ok l ->
  exists w1,
    (if istrue (iova r) then dma_unmap_page r else kret tt) (holding (r :: l) w0) = Some (tt, w1) /\
    afu_dma_unpin_pages env r w1 = Some (tt, holding l (plus_maps (left_mapped [r]) w0)).
Proof.
  intros Hm Hok H0 Hall. unfold istrue, left_mapped. rewrite filter_cons, filter_nil.
  destruct (Z.eqb_spec (iova r) 0) as [Hz|Hz]; cbn [negb].
  - rewrite decide_True by done. eexists. split; [reflexivity|].
    destruct Hok as (_ & Hn & pgs & Hp & Hl & _).
    rewrite <- (unpin_run env r (holding l (plus_maps (maps_held [r]) w0)) pgs Hm ltac:(lia) Hp Hl).
    + f_equal. unfold holding, charged, plus_maps, set_dma_maps. simpl. f_equal; [lia|multiset_solver..].
    + simpl. pose proof (npages_held_nonneg _ Hall). lia.
  - rewrite decide_False by done.
    replace (plus_maps (maps_held []) w0) with w0.
    + by apply release_run.
    + destruct w0. unfold plus_maps, set_dma_maps. simpl. f_equal. multiset_solver.
Qed.

(** One round: erase the node, unmap it, unpin it. *)
Lemma destroy_round env w0 q r :
  mm_present env = true -> dma_inv w0 q -> r ∈ regions_of q ->
  exists q1,
    destroy_one env r q = Some (tt, q1) /\
    dma_inv (plus_maps (left_mapped [r]) w0) q1 /\ regions_of q1 = without (iova r) (regions_of q) /\
    hw (io q1) = hw (io q) /\ irqw (io q1) = irqw (io q).
Proof.
  intros Hm Hinv Hr. pose proof Hinv as ((a & Ha) & Has & Hok & H0 & Hmm).
  destruct (without_split _ _ Has Hr) as (l1 & l2 & Hl & Hw).
  rewrite Hl in Hok. apply Forall_app in Hok as [Hok1 Hok2].
  inversion Hok2 as [|? ? Hokr Hok2']; subst.
  destruct (release_nonzero_run env r (l1 ++ l2) w0) as (w1 & Hu & Hpn); try done.
  { by apply Forall_app. }
  rewrite <- Hw in Hpn. set (w0' := plus_maps (left_mapped [r]) w0) in *.
  exists (set_mm (holding (without (iova r) (regions_of q)) w0')
            (set_tree (rb_erase (iova r) (tree_of_port q)) q)).
  split; [|split; [by apply (inv_erased w0)|]].
  - rewrite <- holding_middle, <- Hl, <- Hmm in Hu.
    destruct Hokr as (_ & _ & pgs & Hp & _).
    unfold destroy_one. rewrite Hp. simpl. rewrite Ha. simpl.
    destruct (istrue (iova r)); simpl in Hu |- *; injection Hu as ->; rewrite Hpn;
      unfold set_tree, tree_of_port, set_mm; by rewrite Ha.
  - split.
    + rewrite regions_of_set_mm, regions_of_set_tree by (by exists a). apply rb_erase_inorder.
    + unfold set_tree. by rewrite Ha.
Qed.

Lemma destroy_loop_run fuel env w0 q :
  mm_present env = true -> dma_inv w0 q -> (length (regions_of q) <= fuel)%nat ->
  exists q', destroy_loop fuel env (head (regions_of q)) q = Some (tt, q') /\
    dma_inv (plus_maps (left_mapped (regions_of q)) w0) q' /\ regions_of q' = [] /\
    hw (io q') = hw (io q) /\ irqw (io q') = irqw (io q).
Proof.
  intros Hm. revert w0 q. induction fuel as [|fuel IH]; intros w0 q Hinv Hlen.
  - destruct (regions_of q) as [|r l] eqn:E; simpl in *; [|lia]. exists q.
    by rewrite left_mapped_nil, plus_maps_empty.
  - destruct (regions_of q) as [|r l] eqn:E.
    { exists q. by rewrite left_mapped_nil, plus_maps_empty. }
    assert (r ∈ regions_of q) as Hr by (rewrite E; left).
    destruct (destroy_round env w0 q r Hm Hinv Hr) as (q1 & Hrun & Hinv1 & Hreg & Hhw & Hiw).
    pose proof Hinv as (_ & Has & _). rewrite E in Has, Hreg. rewrite without_head in Hreg by done.
    destruct (IH _ q1 Hinv1) as (q' & Hloop & Hinv' & Hq'); [rewrite Hreg; simpl in Hlen; lia|].
    rewrite Hreg, plus_maps_twice, <- left_mapped_cons in Hinv'.
    exists q'. split; [|destruct_and?; split_and!; try done; congruence].
    pose proof Hinv1 as ((a1 & Ha1) & _).
    assert (rb_next (iova r) (dma_regions a1) = head (regions_of q1)) as Hnext.
    { unfold regions_of, tree_of_port in *. rewrite Ha1 in *. apply rb_next_erased.
      rewrite Hreg. apply Has. }
    rewrite <- Hloop, <- Hnext. clear Hloop IH. simpl head.
    simpl. rewrite Hrun. simpl. rewrite Ha1. simpl. by destruct q1.
Qed.

Lemma region_destroy_run env w0 q :
  mm_present env = true -> dma_inv w0 q ->
  exists q', afu_dma_region_destroy env q = Some (tt, q') /\
    regions_of q' = [] /\ mm (io q') = plus_maps (left_mapped (regions_of q)) w0 /\
    hw (io q') = hw (io q) /\ irqw (io q') = irqw (io q).
Proof.
  intros Hm Hinv. pose proof Hinv as ((a & Ha) & _).
  destruct (destroy_loop_run (length (regions_of q)) env w0 q Hm Hinv ltac:(lia))
    as (q' & Hrun & Hinv' & Hreg & Hhw & Hiw).
  exists q'. split_and!; [|done| |done|done].
  - unfold afu_dma_region_destroy. simpl. rewrite Ha. simpl.
    unfold regions_of, tree_of_port in Hrun. rewrite Ha in Hrun. unfold rb_first.
    rewrite <- Hrun. by destruct q.
  - destruct Hinv' as (_ & _ & _ & _ & ->). rewrite Hreg. apply holding_nil.
Qed.
End DmaDestroy.

(** C25: mapping memory for DMA is all-or-nothing but for a short pin.  For a
    process with an address space, a get_user_pages_fast that answers a
    negative error or pins at most the pages asked for, and a DMA layer whose
    good addresses end below 2^64, on a port with its mutex free whose tree is
    ordered by I/O address and whose locked pages, page references and
    mappings are those of its regions on top of [w0], and as long as the
    charge of the request does not pass 2^64 pages: afu_dma_map_region returns
    with the mutex free and that invariant intact.  Either it fails and
    nothing at all has changed, or exactly one new region with the requested
    user address and length is in the tree and its address is reported, or
    fewer pages than asked were pinned (always so from 2^31 pages on): then
    the result is -EFAULT, and all that has changed is that the references on
    those pages are held by nobody. *)
Theorem afu_dma_map_region_spec {Op D} {rb : RbLib} {rbok : RbLibOk}
    env w0 (q : platform_device Op fpga_afu (afu_world D)) uaddr len :
  pins_some env -> maps_ok env -> lock (pd q) = false -> dma_inv w0 q ->
  0 <= len -> locked_vm (mm (io q)) + Z.shiftr len PAGE_SHIFT < 2 ^ 64 ->
  exists res q', afu_dma_map_region env uaddr len q = Some (res, q') /\
    (map_outcome w0 uaddr len q res q' \/ map_short env w0 uaddr len q res q').
Proof. apply map_region_run. Qed.

(** C26: unmapping is exact: on a port that satisfies the DMA invariant
    afu_dma_unmap_region returns -EINVAL and changes nothing when no region
    starts at the address, -EBUSY and changes nothing when the region is in
    use by the message buffer, and otherwise removes exactly that region and
    gives back its pages, references and mapping. *)
Theorem afu_dma_unmap_region_spec {Op D} {rb : RbLib} {rbok : RbLibOk}
    env w0 (q : platform_device Op fpga_afu (afu_world D)) i :
  mm_present env = true -> lock (pd q) = false -> dma_inv w0 q -> is_u64 i ->
  exists ret q', afu_dma_unmap_region env i q = Some (ret, q') /\ unmap_outcome w0 i q ret q'.
Proof. apply unmap_region_run. Qed.


(** C30: tearing a port down releases what its regions hold, but for the one
    mapping the code skips.  For a process with an address space and a port
    that satisfies the DMA invariant, afu_dma_region_destroy terminates within
    as many rounds as there are regions and leaves the tree empty; the locked
    pages and the page references are exactly those the process had without
    the port's regions, and so are the DMA mappings, except that the mapping
    of a region at I/O address 0 (which the code does not unmap) stays; the
    registers are not touched. *)
Theorem afu_dma_region_destroy_releases {Op D} {rb : RbLib} {rbok : RbLibOk}
    env w0 (q : platform_device Op fpga_afu (afu_world D)) :
  mm_present env = true -> dma_inv w0 q ->
  exists q', afu_dma_region_destroy env q = Some (tt, q') /\
    regions_of q' = [] /\ locked_vm (mm (io q')) = locked_vm w0 /\
    page_refs (mm (io q')) = page_refs w0 /\
    dma_maps (mm (io q')) = dma_maps w0 ⊎ left_mapped (regions_of q) /\ hw (io q') = hw (io q).
Proof.
  intros Hm Hinv. destruct (region_destroy_run env w0 q Hm Hinv) as (q' & ? & ? & Hmm & ? & _).
  exists q'. by rewrite Hmm.
Qed.

(** Looking a DMA buffer up by address range is sound and complete: on an
    ordered tree of non-overlapping regions below 2^64, afu_dma_region_find
    changes nothing and returns a region that contains the range, or NULL
    exactly when no region of the tree contains it. *)
Lemma afu_dma_region_find_spec {Op} (p : feature_platform_data Op fpga_afu) a i size :
  private p = Some a -> ascending (inorder (dma_regions a)) ->
  Forall span_ok (inorder (dma_regions a)) -> disjoint_spans (inorder (dma_regions a)) ->
  0 <= i -> 0 <= size -> i + size < 2 ^ 64 ->
  exists o, afu_dma_region_find i size p = Some (o, p) /\
    match o with
    | Some r => r ∈ inorder (dma_regions a) /\ contains r i size
    | None => forall r, r ∈ inorder (dma_regions a) -> ~ contains r i size
    end.
Proof.
  intros Ha Has Hok Hd Hi Hs Hw. exists (rb_find i size (dma_regions a)).
  split; [unfold afu_dma_region_find; simpl; by rewrite Ha|].
  destruct (rb_find i size (dma_regions a)) as [r|] eqn:E.
  - apply rb_find_sound in E as [Hr Hc]. split; [done|].
    rewrite list.Forall_forall in Hok. by apply check_iova_contains; [apply Hok| | | |].
  - intros r Hr Hc. destruct (rb_find_complete i size (dma_regions a) r Has Hok Hi Hs Hw
      (or_intror Hd) Hr Hc) as [? ?]. congruence.
Qed.

(** A short pin leaks its pages: when get_user_pages_fast pins a different
    number of pages than asked, afu_dma_map_region fails with -EFAULT and gives
    the charge back, but the references on the pages that were pinned are never
    dropped, because the label for that case skips put_all_pages. *)
Lemma short_pin_leaks_pages {Op D} {rb : RbLib}
    env (q : platform_device Op fpga_afu (afu_world D)) uaddr len pgs :
  mm_present env = true -> cap_ipc_lock env = true -> kzalloc_ok env = true ->
  kcalloc_ok env = true -> access_ok env uaddr len = true ->
  PAGE_ALIGNED uaddr = true -> PAGE_ALIGNED len = true -> 0 < len ->
  0 <= uaddr -> uaddr + len < 2 ^ 64 ->
  0 <= locked_vm (mm (io q)) -> locked_vm (mm (io q)) + Z.shiftr len PAGE_SHIFT < 2 ^ 64 ->
  get_user_pages_fast env uaddr (s32 (Z.shiftr len PAGE_SHIFT)) = inr pgs ->
  Z.of_nat (length pgs) <> Z.shiftr len PAGE_SHIFT ->
  exists q', afu_dma_map_region env uaddr len q = Some ((- EFAULT, None), q') /\
    page_refs (mm (io q')) = page_refs (mm (io q)) ⊎ list_to_set_disj pgs /\
    locked_vm (mm (io q')) = locked_vm (mm (io q)) /\
    dma_maps (mm (io q')) = dma_maps (mm (io q)) /\ pd q' = pd q.
Proof.
  intros Hm Hcap Hkz Hkc Hac Hua Hla Hlen Hu Hul H0 Hroom Hgup Hshort.
  assert (0 <= Z.shiftr len PAGE_SHIFT) as Hn by (apply Z.shiftr_nonneg; lia).
  unfold afu_dma_map_region. rewrite Hua, Hla, Hac, Hkz, u64_small by (unfold in_range; lia).
  replace (len =? 0) with false by lia. replace (uaddr + len <? uaddr) with false by lia. simpl.
  unfold afu_dma_pin_pages, npages_of. simpl.
  unfold afu_dma_adjust_locked_vm. rewrite Hm, Hcap, Hkc. simpl.
  rewrite andb_false_r. simpl.
  rewrite Hgup. simpl. replace (Z.of_nat (length pgs) =? Z.shiftr len PAGE_SHIFT) with false by lia.
  simpl. rewrite u64_small by (unfold in_range; lia).
  replace (locked_vm (mm (io q)) + Z.shiftr len PAGE_SHIFT <? Z.shiftr len PAGE_SHIFT) with false by lia.
  simpl. eexists. split; [reflexivity|]. simpl. split_and!; try done. lia.
Qed.

(** ** A concrete process *)

Definition demo_frames (n : Z) : list Z := map (fun i => 256 + Z.of_nat i) (seq 0 (Z.to_nat n)).
(** A process of which at most [avail] pages can be pinned at once; mappings
    are placed at 1 MiB, the error address is 2^64 - 1. *)
Definition demo_env (avail : Z -> Z) : dma_env :=
  DmaEnv true 0x100000 true (fun _ _ => true) true true
    (fun _ n => if 0 <=? n then inr (demo_frames (avail n)) else inl (- EINVAL))
    (fun _ _ len => if len <? 2 ^ 62 then 0x100000 else 2 ^ 64 - 1)
    (fun _ i => i =? 2 ^ 64 - 1).

Definition rich_env : dma_env := demo_env (fun n => n).

Lemma rich_pins_all : pins_all rich_env.
Proof.
  split; [done|]. intros a n. simpl. destruct (Z.leb_spec 0 n); [|done].
  unfold demo_frames. rewrite length_map, length_seq. lia.
Qed.

Lemma rich_maps_ok : maps_ok rich_env.
Proof. intros p len. simpl. destruct (Z.ltb_spec len (2 ^ 62)); [lia|done]. Qed.

Definition w_empty : dma_world := DmaWorld 5 ∅ ∅.
Definition demo_node : fpga_afu_dma_region := DmaRegion 0x7000 0x1000 0x40000 (Some [9]) false.

(** A port that holds [l] on top of [w_empty]. *)
Definition dma_port (l : list fpga_afu_dma_region) : platform_device unit fpga_afu (afu_world mem_dev) :=
  Pdev (Pdata false 1 1 0 [] false (Some (set_dma_regions (tree_of l) demo_afu)) 0 [])
    (World ∅ (holding l w_empty) (IrqWorld ∅ 0) (Kobj ∅ ∅ ∅) (UserMem ∅ (fun _ => true))).

Lemma dma_port_inv : dma_inv w_empty (dma_port [demo_node]).
Proof.
  split; [by eexists|]. split; [by repeat constructor|].
  split; [|split; [simpl; lia|reflexivity]]. constructor; [|constructor].
  split; [repeat split; simpl; lia|]. split; [done|]. by exists [9].
Qed.

Lemma afu_dma_map_region_witness :
  exists res q', @afu_dma_map_region _ _ list_rb rich_env 0x2000 0x3000 (dma_port [demo_node])
                   = Some (res, q') /\
    (map_outcome w_empty 0x2000 0x3000 (dma_port [demo_node]) res q' \/
     map_short rich_env w_empty 0x2000 0x3000 (dma_port [demo_node]) res q').
Proof.
  apply (@afu_dma_map_region_spec _ _ list_rb list_rb_ok);
    [exact (pins_all_some _ rich_pins_all) | exact rich_maps_ok | reflexivity | exact dma_port_inv
    | discriminate | reflexivity].
Defined.

Lemma afu_dma_unmap_region_witness :
  exists ret q', @afu_dma_unmap_region _ _ list_rb rich_env 0x40000 (dma_port [demo_node])
                   = Some (ret, q') /\
    unmap_outcome w_empty 0x40000 (dma_port [demo_node]) ret q'.
Proof.
  apply (@afu_dma_unmap_region_spec _ _ list_rb list_rb_ok);
    [reflexivity | reflexivity | exact dma_port_inv | split; [discriminate | reflexivity]].
Defined.



(** A region at I/O address 0 below the other one. *)
Definition zero_node : fpga_afu_dma_region := DmaRegion 0x9000 0x1000 0 (Some [12]) false.

Lemma zero_port_inv : dma_inv w_empty (dma_port [zero_node; demo_node]).
Proof.
  split; [by eexists|]. split; [by repeat constructor|].
  split; [|split; [simpl; lia|reflexivity]].
  constructor; [|constructor; [|constructor]]; (split; [repeat split; simpl; lia|]); (split; [done|]).
  - by exists [12].
  - by exists [9].
Qed.

Lemma afu_dma_region_destroy_releases_witness :
  left_mapped [zero_node; demo_node] = {[+ (0, 0x1000) +]} /\
  exists q', @afu_dma_region_destroy _ _ list_rb rich_env (dma_port [zero_node; demo_node]) = Some (tt, q') /\
    regions_of q' = [] /\ locked_vm (mm (io q')) = locked_vm w_empty /\
    page_refs (mm (io q')) = page_refs w_empty /\
    dma_maps (mm (io q')) = dma_maps w_empty ⊎ left_mapped (regions_of (dma_port [zero_node; demo_node])) /\
    hw (io q') = hw (io (dma_port [zero_node; demo_node])).
Proof.
  split; [vm_compute; reflexivity|].
  apply (@afu_dma_region_destroy_releases _ _ list_rb list_rb_ok);
    [reflexivity | exact zero_port_inv].
Defined.

Lemma afu_dma_region_find_witness :
  exists o, afu_dma_region_find 0x40100 0x80 (pd (dma_port [demo_node])) = Some (o, pd (dma_port [demo_node])) /\
    match o with
    | Some r => r ∈ inorder (tree_of [demo_node]) /\ contains r 0x40100 0x80
    | None => forall r, r ∈ inorder (tree_of [demo_node]) -> ~ contains r 0x40100 0x80
    end.
Proof.
  apply (afu_dma_region_find_spec (pd (dma_port [demo_node]))
           (set_dma_regions (tree_of [demo_node]) demo_afu) 0x40100 0x80);
    [reflexivity | by repeat constructor | repeat constructor; simpl; lia |
    | lia | lia | lia].
  intros x y Hx Hy. apply list_elem_of_singleton in Hx, Hy. subst. lia.
Defined.

Lemma short_pin_leaks_pages_witness :
  exists q', @afu_dma_map_region _ _ list_rb (demo_env (fun n => Z.min n 2)) 0x2000 0x3000 (dma_port [])
      = Some ((- EFAULT, None), q') /\
    page_refs (mm (io q')) = page_refs (mm (io (dma_port []))) ⊎ list_to_set_disj [256; 257] /\
    locked_vm (mm (io q')) = locked_vm (mm (io (dma_port []))) /\
    dma_maps (mm (io q')) = dma_maps (mm (io (dma_port []))) /\ pd q' = pd (dma_port []).
Proof.
  apply (@short_pin_leaks_pages _ _ list_rb (demo_env (fun n => Z.min n 2)) (dma_port [])
           0x2000 0x3000 [256; 257]);
    first [reflexivity | lia | vm_compute; congruence].
Defined.
