(* ===== verification/PortEnv.v ===== *)
(** * The surroundings of a port driver

    What the kernel answers to the calls of afu.c and afu-error.c is collected
    in [port_env]; what the drivers change outside their own data is part of
    the world of the port: user memory, interrupt handlers, references on
    process identifiers, sysfs files and sub devices. *)

From stdpp Require Import gmultiset.
From S2P Require Import Prelude.
From S2P Require Import Bitfield.
From S2P Require Import Registers.
From S2P Require Import Mmio.
From S2P Require Import UserMem.
From S2P Require Import FeatureDev.
From S2P Require Import Msix.
From S2P Require Import AfuTypes.
From S2P Require Import Region.
From S2P Require Import DmaRegion.
From S2P Require Import Sysfs.
Local Open Scope Z_scope.

Record port_env := PortEnv {
  dmae : dma_env;
  irqe : irq_env;
  sysfs_ret : list string -> Z;          (* sysfs_create_files, sysfs_create_group *)
  resource : Z -> Z * Z;                 (* start and end of pdev->resource[i] *)
  devm_kzalloc_ok : bool;
  region_kzalloc_ok : bool;
  memdup_kmalloc_ok : bool;
  create_subdev : string -> Z -> Z;      (* a handle, or a negative errno *)
  register_dev_ops_ret : Z;              (* fpga_register_dev_ops *)
  current_pid : Z;                       (* task_pid(current) *)
  remap_pfn_range : Z -> Z -> Z -> Z;    (* vm_start, pfn, size *)
}.

Section Port.
Context {Op P D : Type} {dev : Mmio D}.
Abbreviation port := (platform_device Op P (afu_world D)).

Definition on_kobj {A} (c : K kobj_world A) : K port A :=
  zoom (fun q => kobj (io q))
    (fun k q => set_io (World (hw (io q)) (mm (io q)) (irqw (io q)) k (usr (io q))) q) c.

Definition on_usr {A} (c : K user_mem A) : K port A :=
  zoom (fun q => usr (io q))
    (fun u q => set_io (World (hw (io q)) (mm (io q)) (irqw (io q)) (kobj (io q)) u) q) c.

(** Running the interrupt code on feature [i] of the device. *)
Definition on_msix {A} (i : Z) (c : K (msix_state Op) A) : K port A := fun q =>
  match get_feature i (pd q) with
  | Some (f, _) =>
      match c (MsixState f (irqw (io q))) with
      | Some (a, s) =>
          (on_pd (put_feature i (mfeat s)) ;; kret a)
            (set_io (World (hw (io q)) (mm (io q)) (mworld s) (kobj (io q)) (usr (io q))) q)
      | None => None
      end
  | None => None
  end.

(** ** sysfs *)

Definition sysfs_create_files (env : port_env) (names : list string) : K port Z :=
  if istrue (sysfs_ret env names) then kret (sysfs_ret env names)
  else on_kobj (kmod (fun k =>
         Kobj (pid_refs k) (sysfs k ∪ list_to_set names) (subdevs k))) ;; kret 0.

Definition sysfs_remove_files (names : list string) : K port unit :=
  on_kobj (kmod (fun k => Kobj (pid_refs k) (sysfs k ∖ list_to_set names) (subdevs k))).

(** ** Process identifiers *)

Definition pid_refs_of (k : kobj_world) (p : Z) : Z := default 0 (pid_refs k !! p).

Definition add_pid_refs (p n : Z) : K kobj_world unit :=
  kmod (fun k => Kobj (<[p := pid_refs_of k p + n]> (pid_refs k)) (sysfs k) (subdevs k)).

Definition get_pid (p : Z) : K port unit := on_kobj (add_pid_refs p 1).
Definition put_pid (p : Z) : K port unit := on_kobj (add_pid_refs p (-1)).

(** ** Sub devices *)

(** platform_device_register_full is the environment's. *)
Definition feature_create_subdev (env : port_env) (name : string) (csr_base : Z) : K port Z :=
  let h := create_subdev env name csr_base in
  if h <? 0 then kret h
  else on_kobj (kmod (fun k => Kobj (pid_refs k) (sysfs k) (subdevs k ∪ {[h]}))) ;; kret h.

Definition feature_destroy_subdev (h : option Z) : K port unit :=
  match h with
  | None => kret tt
  | Some h => on_kobj (kmod (fun k => Kobj (pid_refs k) (sysfs k) (subdevs k ∖ {[h]})))
  end.

(** ** User copies *)

(** [memdup_user(a, count * sizeof(int32_t))], as the array of integers. *)
Definition memdup_fds (env : port_env) (a count : Z) : K port (Z + list Z) :=
  if negb (memdup_kmalloc_ok env) then kret (inl (- ENOMEM))
  else
    v <- on_usr (copy_from_user a (count * 4)) ;;
    kret (match v with
          | None => inl (- EFAULT)
          | Some v => inr (map (fun i => s32 (Z.land (Z.shiftr v (32 * Z.of_nat i)) (Z.ones 32)))
                               (seq 0 (Z.to_nat count)))
          end).

(** ** Register access under the mutex *)

(** The address of feature [i] is fetched first, then [member] of its block
    is read inside the critical section. *)
Definition locked_readq (i : Z) (b : block) (member : string) : K port Z :=
  base <- on_pd (get_feature_ioaddr_by_index i) ;;
  on_pd mutex_lock ;;
  v <- mmio_readq base (offsetof b member) ;;
  on_pd mutex_unlock ;;
  kret v.

Definition plain_readq (i : Z) (b : block) (member : string) : K port Z :=
  base <- on_pd (get_feature_ioaddr_by_index i) ;;
  mmio_readq base (offsetof b member).

(** Feature [i] is mapped at [base]. *)
Definition feature_at (i : Z) (base : Z) (q : port) : Prop :=
  0 <= i /\ base <> 0 /\
  exists f, features (pd q) !! Z.to_nat i = Some f /\ f_ioaddr f = base.

Lemma feature_at_run i base q :
  feature_at i base q -> get_feature_ioaddr_by_index i (pd q) = Some (base, pd q).
Proof. intros (Hi & _ & f & Hf & <-). by apply get_feature_ioaddr_run. Qed.

(** The value of the register at [a], and the port after a write to it. *)
Definition reg_at (a : Z) (q : port) : Z := fst (dev_readq a (hw (io q))).
Definition set_reg (a v : Z) (q : port) : port :=
  set_io (dev_writeq a v (io q)) q.

Context {regs : MmioReg D}.

Lemma mmio_readq_run base off q :
  base <> 0 -> mmio_readq base off q = Some (reg_at (base + off) q, q).
Proof.
  intros Hb. unfold mmio_readq, reg_at. replace (base =? 0) with false by lia.
  destruct q as [p [h m w k u]]. simpl. by rewrite mem_read_pure.
Qed.

Lemma mmio_writeq_run v base off q :
  base <> 0 -> mmio_writeq v base off q = Some (tt, set_reg (base + off) v q).
Proof. intros Hb. unfold mmio_writeq. by replace (base =? 0) with false by lia. Qed.

Lemma reg_at_set_other a b v q : a <> b -> reg_at b (set_reg a v q) = reg_at b q.
Proof. intros Hv. unfold reg_at, set_reg. destruct q as [p []]. simpl. by apply mem_write_other. Qed.

Lemma pd_set_reg a v q : pd (set_reg a v q) = pd q.
Proof. done. Qed.

Lemma feature_at_set_reg i base a v q : feature_at i base (set_reg a v q) <-> feature_at i base q.
Proof. done. Qed.

Lemma plain_readq_run i base b m q :
  feature_at i base q -> plain_readq i b m q = Some (reg_at (base + offsetof b m) q, q).
Proof.
  intros Hf. unfold plain_readq. simpl. rewrite (feature_at_run _ _ _ Hf).
  destruct Hf as (_ & Hb & _). rewrite mmio_readq_run by done. by destruct q.
Qed.

Lemma locked_readq_run i base b m q :
  lock (pd q) = false -> feature_at i base q ->
  locked_readq i b m q = Some (reg_at (base + offsetof b m) q, q).
Proof.
  intros Hl Hf. unfold locked_readq. simpl. rewrite (feature_at_run _ _ _ Hf). simpl. rewrite Hl. simpl.
  destruct Hf as (_ & Hb & _). rewrite mmio_readq_run by done. destruct q as [[] w]. simpl in *. by subst.
Qed.

Lemma reg_at_set_same {mem : MmioMem D} a v q : is_u64 v -> reg_at a (set_reg a v q) = v.
Proof. intros Hv. unfold reg_at, set_reg. destruct q as [p []]. simpl. by apply mem_write_same. Qed.
End Port.

Arguments on_kobj {Op P D A} c s /.
Arguments on_usr {Op P D A} c s /.
Arguments reg_at : simpl never.
Arguments set_reg : simpl never.
Arguments locked_readq : simpl never.
Arguments plain_readq : simpl never.
Arguments mmio_readq : simpl never.
Arguments mmio_writeq : simpl never.
