(* ===== verification/PortHdr.v ===== *)
(** * The port header, signal tap and user AFU features (afu.c, afu-check.c)

    The sysfs attributes of a port, the init, uinit, ioctl and test callbacks
    of its header, user AFU and signal tap features.  An attribute file is a
    show function from the port to the printed line and a store function from
    the written line and its length to the number of bytes consumed or a
    negative errno. *)

From stdpp Require Import gmultiset.
From S2P Require Import Prelude.
From S2P Require Import Bitfield.
From S2P Require Import Registers.
From S2P Require Import Mmio.
From S2P Require Import UserMem.
From S2P Require Import Sysfs.
From S2P Require Import FeatureDev.
From S2P Require Import Msix.
From S2P Require Import AfuTypes.
From S2P Require Import Region.
From S2P Require Import DmaRegion.
From S2P Require Import PortEnv.
Local Open Scope string_scope.
Local Open Scope Z_scope.

Section PortHdr.
Context {Op D : Type} {dev : Mmio D} {ks : Kstrto}.
Abbreviation port := (platform_device Op fpga_afu (afu_world D)).

(** ** Attributes of the header *)

Definition revision_show : K port string :=
  csr <- plain_readq PORT_FEATURE_ID_HEADER feature_port_header "header" ;;
  kret (line_d (fget feature_header "revision" csr)).

Definition id_show : K port string :=
  id <- fpga_port_id ;; kret (line_d id).

Definition ltr_show : K port string :=
  csr <- plain_readq PORT_FEATURE_ID_HEADER feature_port_header "control" ;;
  kret (line_d (fget feature_port_control "latency_tolerance" csr)).

Definition ap1_event_show : K port string :=
  csr <- locked_readq PORT_FEATURE_ID_HEADER feature_port_header "status" ;;
  kret (line_d (fget feature_port_status "ap1_event" csr)).

Definition ap1_event_store (buf : string) (count : Z) : K port Z :=
  match kstrtou8 buf with
  | inl err => kret err
  | inr ap1_event =>
      if negb (ap1_event =? 1) then kret (- EINVAL)
      else
        port_hdr <- on_pd (get_feature_ioaddr_by_index PORT_FEATURE_ID_HEADER) ;;
        on_pd mutex_lock ;;
        status <- mmio_readq port_hdr (offsetof feature_port_header "status") ;;
        mmio_writeq (fset feature_port_status "ap1_event" ap1_event status)
          port_hdr (offsetof feature_port_header "status") ;;
        on_pd mutex_unlock ;;
        kret count
  end.

Definition ap2_event_show : K port string :=
  csr <- locked_readq PORT_FEATURE_ID_HEADER feature_port_header "status" ;;
  kret (line_d (fget feature_port_status "ap2_event" csr)).

Definition ap2_event_store (buf : string) (count : Z) : K port Z :=
  match kstrtou8 buf with
  | inl err => kret err
  | inr ap2_event =>
      if negb (ap2_event =? 1) then kret (- EINVAL)
      else
        port_hdr <- on_pd (get_feature_ioaddr_by_index PORT_FEATURE_ID_HEADER) ;;
        on_pd mutex_lock ;;
        status <- mmio_readq port_hdr (offsetof feature_port_header "status") ;;
        mmio_writeq (fset feature_port_status "ap2_event" ap2_event status)
          port_hdr (offsetof feature_port_header "status") ;;
        on_pd mutex_unlock ;;
        kret count
  end.

Definition power_state_show : K port string :=
  csr <- locked_readq PORT_FEATURE_ID_HEADER feature_port_header "status" ;;
  kret (line_0x (fget feature_port_status "power_state" csr)).

Definition userclk_freqcmd_show : K port string :=
  v <- locked_readq PORT_FEATURE_ID_HEADER feature_port_header "user_clk_freq_cmd0" ;;
  kret (line_0x v).

Definition userclk_freqcmd_store (buf : string) (count : Z) : K port Z :=
  match kstrtou64 buf with
  | inl err => kret err
  | inr userclk_freq_cmd =>
      port_hdr <- on_pd (get_feature_ioaddr_by_index PORT_FEATURE_ID_HEADER) ;;
      on_pd mutex_lock ;;
      mmio_writeq userclk_freq_cmd port_hdr (offsetof feature_port_header "user_clk_freq_cmd0") ;;
      on_pd mutex_unlock ;;
      kret count
  end.

Definition userclk_freqcntrcmd_show : K port string :=
  v <- locked_readq PORT_FEATURE_ID_HEADER feature_port_header "user_clk_freq_cmd1" ;;
  kret (line_0x v).

Definition userclk_freqcntrcmd_store (buf : string) (count : Z) : K port Z :=
  match kstrtou64 buf with
  | inl err => kret err
  | inr userclk_freqcntr_cmd =>
      port_hdr <- on_pd (get_feature_ioaddr_by_index PORT_FEATURE_ID_HEADER) ;;
      on_pd mutex_lock ;;
      mmio_writeq userclk_freqcntr_cmd port_hdr
        (offsetof feature_port_header "user_clk_freq_cmd1") ;;
      on_pd mutex_unlock ;;
      kret count
  end.

Definition userclk_freqsts_show : K port string :=
  v <- plain_readq PORT_FEATURE_ID_HEADER feature_port_header "user_clk_freq_sts0" ;;
  kret (line_0x v).

Definition userclk_freqcntrsts_show : K port string :=
  v <- plain_readq PORT_FEATURE_ID_HEADER feature_port_header "user_clk_freq_sts1" ;;
  kret (line_0x v).

Definition port_hdr_attrs : list string :=
  ["revision"; "id"; "ltr"; "ap1_event"; "ap2_event"; "power_state"].
Definition port_hdr_userclk_attrs : list string :=
  ["userclk_freqcmd"; "userclk_freqcntrcmd"; "userclk_freqsts"; "userclk_freqcntrsts"].

(** ** Callbacks of the header *)

Definition port_hdr_init (env : port_env) : K port Z :=
  port_hdr <- on_pd (get_feature_ioaddr_by_index PORT_FEATURE_ID_HEADER) ;;
  fpga_port_reset ;;
  ret <- sysfs_create_files env port_hdr_attrs ;;
  if istrue ret then kret ret
  else
    csr <- mmio_readq port_hdr (offsetof feature_port_header "header") ;;
    if 0 <? fget feature_header "revision" csr then kret 0
    else
      ret <- sysfs_create_files env port_hdr_userclk_attrs ;;
      (if istrue ret then sysfs_remove_files port_hdr_attrs else kret tt) ;;
      kret ret.

Definition port_hdr_uinit : K port unit :=
  sysfs_remove_files port_hdr_userclk_attrs ;; sysfs_remove_files port_hdr_attrs.

Definition port_hdr_ioctl (cmd arg : Z) : K port Z :=
  if cmd =? FPGA_PORT_RESET then
    if negb (istrue arg) then fpga_port_reset else kret (- EINVAL)
  else kret (- ENODEV).

(** ** The user AFU *)

Definition afu_id_show : K port (Z + string) :=
  hdr <- on_pd (get_feature_ioaddr_by_index PORT_FEATURE_ID_UAFU) ;;
  on_pd mutex_lock ;;
  n <- on_pd (kgets disable_count) ;;
  if istrue n then on_pd mutex_unlock ;; kret (inl (- EBUSY))
  else
    guidl <- mmio_readq hdr (sizeof_reg feature_header + offsetof feature_afu_header "guid" + 0) ;;
    guidh <- mmio_readq hdr (sizeof_reg feature_header + offsetof feature_afu_header "guid" + 8) ;;
    on_pd mutex_unlock ;;
    kret (inr ((fmt_016x guidh ++ fmt_016x guidl ++ newline)%string)).

Definition port_uafu_attrs : list string := ["afu_id"].

Definition region_flags : Z :=
  Z.lor (Z.lor FPGA_REGION_READ FPGA_REGION_WRITE) FPGA_REGION_MMAP.

(** [resource_size(res)] *)
Definition resource_size (r : Z * Z) : Z := u64 (snd r - fst r + 1).

Definition port_afu_init (env : port_env) (i : Z) : K port Z :=
  f <- on_pd (get_feature i) ;;
  let res := resource env (f_resource_index f) in
  ret <- on_pd (afu_region_add (region_kzalloc_ok env) FPGA_PORT_INDEX_UAFU
                  (resource_size res) (fst res) region_flags) ;;
  if istrue ret then kret ret else sysfs_create_files env port_uafu_attrs.

Definition port_afu_uinit : K port unit := sysfs_remove_files port_uafu_attrs.

Definition port_stp_init (env : port_env) (i : Z) : K port Z :=
  f <- on_pd (get_feature i) ;;
  let res := resource env (f_resource_index f) in
  on_pd (afu_region_add (region_kzalloc_ok env) FPGA_PORT_INDEX_STP
           (resource_size res) (fst res) region_flags).

(** ** The clock generator sub device *)

Definition PAC_IOPLL_DRV_NAME : string := "intel-pac-iopll".

Definition port_iopll_init (env : port_env) (i : Z) : K port Z :=
  f <- on_pd (get_feature i) ;;
  subdev <- feature_create_subdev env PAC_IOPLL_DRV_NAME (f_ioaddr f + sizeof_reg feature_header) ;;
  if subdev <? 0 then kret subdev
  else on_pd (feature_set_priv i (Some subdev)) ;; kret 0.

Definition port_iopll_uinit (i : Z) : K port unit :=
  subdev <- on_pd (feature_get_priv i) ;;
  feature_destroy_subdev subdev ;;
  on_pd (feature_set_priv i None).

(** ** The interrupts of the user AFU *)

Definition port_uint_init (i : Z) : K port Z :=
  f <- on_pd (get_feature i) ;;
  on_pd mutex_lock ;;
  (if istrue (f_ctx_num f) then
     on_pd (mod_afu (fun a => set_capability (Z.lor (capability a) FPGA_PORT_CAP_UAFU_IRQ) a)) ;;
     on_pd (mod_afu (set_num_uafu_irqs (u8 (f_ctx_num f))))
   else kret tt) ;;
  on_pd mutex_unlock ;;
  kret 0.

Definition port_afu_set_irq (env : port_env) (i arg : Z) : K port Z :=
  let minsz := offsetofend fpga_port_uafu_irq_set "count" in
  hdr <- on_usr (copy_from_user arg minsz) ;;
  f <- on_pd (get_feature i) ;;
  match hdr with
  | None => kret (- EFAULT)
  | Some hdr =>
      let get n := fget fpga_port_uafu_irq_set n hdr in
      if (get "argsz" <? minsz) || istrue (get "flags") then kret (- EINVAL)
      else if (f_ctx_num f <? u32 (get "start" + get "count"))
              || (u32 (get "start" + get "count") <? get "start")
              || negb (istrue (get "count")) then kret (- EINVAL)
      else
        fds <- memdup_fds env (arg + minsz) (get "count") ;;
        match fds with
        | inl e => kret e
        | inr fds =>
            on_pd mutex_lock ;;
            afu <- on_pd get_afu ;;
            if negb (istrue (Z.land (capability afu) FPGA_PORT_CAP_UAFU_IRQ)) then
              on_pd mutex_unlock ;; kret (- ENODEV)
            else
              ret <- on_msix i (fpga_msix_set_block (irqe env) (get "start") (get "count") (Some fds)) ;;
              on_pd mutex_unlock ;;
              kret ret
        end
  end.

Definition port_uint_ioctl (env : port_env) (i cmd arg : Z) : K port Z :=
  if cmd =? FPGA_PORT_UAFU_SET_IRQ then port_afu_set_irq env i arg else kret (- ENODEV).

(** ** Register self tests (afu-check.c) *)

(** port_check_reg reads the register and logs a mismatch. *)
Definition port_check_reg (base off : Z) : K port unit :=
  mmio_readq base off ;; kret tt.

Fixpoint check_regs (base : Z) (b : block) (members : list string) : K port unit :=
  match members with
  | [] => kret tt
  | m :: members => port_check_reg base (offsetof b m) ;; check_regs base b members
  end.

Definition port_hdr_test (i : Z) : K port Z :=
  f <- on_pd (get_feature i) ;;
  check_regs (f_ioaddr f) feature_port_header
    ["port_mailbox"; "scratchpad"; "capability"; "control"; "status"; "rsvd2";
     "user_clk_freq_cmd0"; "user_clk_freq_cmd1"; "user_clk_freq_sts0"; "user_clk_freq_sts1"] ;;
  kret 0.

Definition port_err_test (i : Z) : K port Z :=
  f <- on_pd (get_feature i) ;;
  check_regs (f_ioaddr f) feature_port_error
    ["error_mask"; "port_error"; "port_first_error"; "malreq0"; "malreq1"; "port_debug"] ;;
  kret 0.

Definition port_umsg_test (i : Z) : K port Z :=
  f <- on_pd (get_feature i) ;;
  check_regs (f_ioaddr f) feature_port_umsg ["capability"; "baseaddr"; "mode"] ;;
  kret 0.

Definition port_stp_test (i : Z) : K port Z :=
  f <- on_pd (get_feature i) ;;
  check_regs (f_ioaddr f) feature_port_stp ["stp_status"] ;;
  kret 0.
End PortHdr.

(** ** Attributes as register accesses *)

Section PortHdrFacts.
Context {Op D : Type} {dev : Mmio D} {ok : MmioOk D} {mem : MmioMem D} {ks : Kstrto}.
Abbreviation port := (platform_device Op fpga_afu (afu_world D)).
Implicit Types q : port.

Lemma lock_unlock q : lock (pd q) = false -> set_pd (set_lock false (set_lock true (pd q))) q = q.
Proof. destruct q as [[] ?]. simpl. by intros ->. Qed.

(** A critical section that writes one register of the header. *)
Lemma locked_writeq_run base off v n q :
  lock (pd q) = false -> feature_at PORT_FEATURE_ID_HEADER base q ->
  (port_hdr <- on_pd (get_feature_ioaddr_by_index PORT_FEATURE_ID_HEADER) ;;
   on_pd mutex_lock ;; mmio_writeq v port_hdr off ;; on_pd mutex_unlock ;; kret n : K port Z) q
  = Some (n, set_reg (base + off) v q).
Proof.
  intros Hl Hf. simpl. rewrite (feature_at_run _ _ _ Hf). simpl. rewrite Hl. simpl.
  destruct Hf as (_ & Hb & _). rewrite mmio_writeq_run by done. destruct q as [[] w].
  simpl in *. by subst.
Qed.

(** A critical section that rewrites one register of the header. *)
Lemma locked_update_run base off (f : Z -> Z) n q :
  lock (pd q) = false -> feature_at PORT_FEATURE_ID_HEADER base q ->
  (port_hdr <- on_pd (get_feature_ioaddr_by_index PORT_FEATURE_ID_HEADER) ;;
   on_pd mutex_lock ;; v <- mmio_readq port_hdr off ;; mmio_writeq (f v) port_hdr off ;;
   on_pd mutex_unlock ;; kret n : K port Z) q
  = Some (n, set_reg (base + off) (f (reg_at (base + off) q)) q).
Proof.
  intros Hl Hf. simpl. rewrite (feature_at_run _ _ _ Hf). simpl. rewrite Hl. simpl.
  destruct Hf as (_ & Hb & _). rewrite mmio_readq_run, mmio_writeq_run by done.
  destruct q as [[] w]. simpl in *. by subst.
Qed.
End PortHdrFacts.

(** Writing an attribute is the inverse of reading it: for every 64-bit
    value v, storing the line that userclk_freqcmd_show prints for v consumes
    the whole line, makes user_clk_freq_cmd0 equal to v and changes no other
    register and none of the driver's data, and the next show prints that very
    line; storing what show printed restores the register. *)
Lemma userclk_freqcmd_roundtrip {Op D} {dev : Mmio D} {ok : MmioOk D} {mem : MmioMem D}
    {ks : Kstrto} {kok : KstrtoOk} base v n
    (q : platform_device Op fpga_afu (afu_world D)) :
  lock (pd q) = false -> feature_at PORT_FEATURE_ID_HEADER base q -> is_u64 v ->
  let a := base + offsetof feature_port_header "user_clk_freq_cmd0" in
  userclk_freqcmd_show q = Some (line_0x (reg_at a q), q) /\
  exists q', userclk_freqcmd_store (line_0x v) n q = Some (n, q') /\
    reg_at a q' = v /\ (forall b, b <> a -> reg_at b q' = reg_at b q) /\ pd q' = pd q /\
    userclk_freqcmd_show q' = Some (line_0x v, q').
Proof.
  intros Hl Hf Hv a. unfold userclk_freqcmd_show, userclk_freqcmd_store.
  split; [unfold kbind; by rewrite (locked_readq_run _ base)|].
  exists (set_reg a v q). rewrite kstrtou64_hex by done.
  split; [by rewrite (locked_writeq_run base)|]. split; [by apply reg_at_set_same|].
  split; [intros b Hb; by apply reg_at_set_other|]. split; [done|].
  unfold kbind. rewrite (locked_readq_run _ base) by done. simpl. fold a. by rewrite reg_at_set_same.
Qed.

(** Acknowledging an AP1 event touches one bit: ap1_event_store refuses
    text that does not parse with the parser's error and any value but 1 with
    -EINVAL, changing nothing; for 1 it consumes the text and the status
    register keeps every field but ap1_event, which becomes 1, while all other
    registers and the driver's data stay as they were. *)
Lemma ap1_event_store_spec {Op D} {dev : Mmio D} {ok : MmioOk D} {mem : MmioMem D}
    {ks : Kstrto} base buf n (q : platform_device Op fpga_afu (afu_world D)) :
  lock (pd q) = false -> feature_at PORT_FEATURE_ID_HEADER base q ->
  let a := base + offsetof feature_port_header "status" in
  match kstrtou8 buf with
  | inl e => ap1_event_store buf n q = Some (e, q)
  | inr v =>
      (v <> 1 /\ ap1_event_store buf n q = Some (- EINVAL, q)) \/
      (v = 1 /\ exists q', ap1_event_store buf n q = Some (n, q') /\ pd q' = pd q /\
         fget feature_port_status "ap1_event" (reg_at a q') = 1 /\
         (forall m, m <> "ap1_event"%string ->
            fget feature_port_status m (reg_at a q') = fget feature_port_status m (reg_at a q)) /\
         (forall b, b <> a -> reg_at b q' = reg_at b q))
  end.
Proof.
  intros Hl Hf a. unfold ap1_event_store. destruct (kstrtou8 buf) as [e|v]; [done|].
  destruct (Z.eqb_spec v 1) as [->|Hv]; cbn [negb]; cbn iota; [right|by left].
  split; [done|]. rewrite (locked_update_run base _ (fset feature_port_status "ap1_event" 1)) by done.
  eexists. split; [reflexivity|]. split; [done|]. fold a.
  assert (is_u64 (fset feature_port_status "ap1_event" 1 (reg_at a q))) as Hr
    by (apply fset_range; [reg_tac | apply readq_u64]).
  rewrite reg_at_set_same by done. split_and!.
  - by rewrite fget_fset_same by reg_tac.
  - intros m Hm. by apply fget_fset_other; [reg_tac|].
  - intros b Hb. by apply reg_at_set_other.
Qed.

(** A port whose header is mapped at 4096. *)
Definition hdr_port : platform_device unit fpga_afu (afu_world mem_dev) :=
  Pdev (Pdata false 1 1 0 [] false (Some demo_afu) 7
          (Feature (Some "port_hdr"%string) 0 4096 [] 0 None None :: replicate 6 empty_feature))
    (World ∅ w_empty (IrqWorld ∅ 0) (Kobj ∅ ∅ ∅) (UserMem ∅ (fun _ => true))).

Lemma hdr_port_feature : feature_at PORT_FEATURE_ID_HEADER 4096 hdr_port.
Proof. split; [done|]. split; [done|]. by eexists. Qed.

Lemma userclk_freqcmd_roundtrip_witness :
  let a := 4096 + offsetof feature_port_header "user_clk_freq_cmd0" in
  userclk_freqcmd_show hdr_port = Some (line_0x (reg_at a hdr_port), hdr_port) /\
  exists q', @userclk_freqcmd_store _ _ _ hex_kstrto (line_0x 0x1234) 7 hdr_port = Some (7, q') /\
    reg_at a q' = 0x1234 /\ (forall b, b <> a -> reg_at b q' = reg_at b hdr_port) /\
    pd q' = pd hdr_port /\ userclk_freqcmd_show q' = Some (line_0x 0x1234, q').
Proof.
  apply (@userclk_freqcmd_roundtrip _ _ _ _ _ hex_kstrto hex_kstrto_ok 4096 0x1234 7 hdr_port);
    [reflexivity | exact hdr_port_feature | split; [discriminate | reflexivity]].
Defined.

Lemma ap1_event_store_witness :
  let a := 4096 + offsetof feature_port_header "status" in
  exists q', @ap1_event_store _ _ _ hex_kstrto (line_0x 1) 4 hdr_port = Some (4, q') /\
    fget feature_port_status "ap1_event" (reg_at a q') = 1.
Proof.
  intros a. pose proof (@ap1_event_store_spec _ _ _ _ _ hex_kstrto 4096 (line_0x 1) 4 hdr_port
    eq_refl hdr_port_feature) as H.
  destruct H as [[H _]|(_ & q' & H1 & _ & H2 & _)]; [by destruct H|].
  exists q'. split; [exact H1 | exact H2].
Defined.
