(* ===== verification/PortUmsg.v ===== *)
(** * User messages of a port (afu.c)

    The accelerator writes user messages into a DMA buffer of the process: the
    driver programs the base address of the buffer into the UMSG registers and
    marks the DMA region that holds it as in use, so that it is not unmapped
    under the hardware. *)

From stdpp Require Import gmultiset.
From S2P Require Import Prelude.
From S2P Require Import Bitfield.
From S2P Require Import Registers.
From S2P Require Import Mmio.
From S2P Require Import UserMem.
From S2P Require Import FeatureDev.
From S2P Require Import Msix.
From S2P Require Import AfuTypes.
From S2P Require Import Region.
From S2P Require Import DmaRegion.
From S2P Require Import PortEnv.
Local Open Scope string_scope.
Local Open Scope Z_scope.

Section PortUmsg.
Context {Op D : Type} {dev : Mmio D} {rb : RbLib}.
Abbreviation port := (platform_device Op fpga_afu (afu_world D)).

Definition umsg_reg (member : string) : Z := offsetof feature_port_umsg member.

Definition port_umsg_get_num : K port Z :=
  port_umsg <- on_pd (get_feature_ioaddr_by_index PORT_FEATURE_ID_UMSG) ;;
  capability <- mmio_readq port_umsg (umsg_reg "capability") ;;
  kret (fget feature_port_umsg_cap "umsg_allocated" capability).

(** The wait for umsg_init_complete is commented out in the source. *)
Definition port_umsg_enable (enable : bool) : K port Z :=
  port_umsg <- on_pd (get_feature_ioaddr_by_index PORT_FEATURE_ID_UMSG) ;;
  capability <- mmio_readq port_umsg (umsg_reg "capability") ;;
  let on := istrue (fget feature_port_umsg_cap "umsg_enable" capability) in
  if (enable && on) || negb (enable || on) then kret 0
  else
    mmio_writeq (fset feature_port_umsg_cap "umsg_enable" (Z.b2z enable) capability)
      port_umsg (umsg_reg "capability") ;;
    kret 0.

Definition port_umsg_is_enabled : K port bool :=
  port_umsg <- on_pd (get_feature_ioaddr_by_index PORT_FEATURE_ID_UMSG) ;;
  capability <- mmio_readq port_umsg (umsg_reg "capability") ;;
  kret (istrue (fget feature_port_umsg_cap "umsg_enable" capability)).

Definition port_umsg_set_mode (mode : Z) : K port unit :=
  port_umsg <- on_pd (get_feature_ioaddr_by_index PORT_FEATURE_ID_UMSG) ;;
  umode <- mmio_readq port_umsg (umsg_reg "mode") ;;
  mmio_writeq (fset feature_port_umsg_mode "umsg_hint_enable" mode umode)
    port_umsg (umsg_reg "mode").

Definition port_umsg_get_addr : K port Z :=
  port_umsg <- on_pd (get_feature_ioaddr_by_index PORT_FEATURE_ID_UMSG) ;;
  baseaddr <- mmio_readq port_umsg (umsg_reg "baseaddr") ;;
  kret (fget feature_port_umsg_baseaddr "base_addr" baseaddr).

(** The field is 48 bits wide. *)
Definition port_umsg_set_addr (i : Z) : K port unit :=
  port_umsg <- on_pd (get_feature_ioaddr_by_index PORT_FEATURE_ID_UMSG) ;;
  baseaddr <- mmio_readq port_umsg (umsg_reg "baseaddr") ;;
  mmio_writeq (fset feature_port_umsg_baseaddr "base_addr" i baseaddr)
    port_umsg (umsg_reg "baseaddr").

Definition afu_port_umsg_enable (enable : bool) : K port Z :=
  addr <- (if enable then port_umsg_get_addr else kret 1) ;;
  if enable && negb (istrue addr) then kret (- EIO) else port_umsg_enable enable.

(** [dma_region->in_use = b]. *)
Definition mark_region (r : fpga_afu_dma_region) (b : bool) : K port unit :=
  on_pd (mod_afu (fun a => set_dma_regions (rb_mark (iova r) b (dma_regions a)) a)).

Definition afu_port_umsg_set_addr (i : Z) : K port Z :=
  afu <- on_pd get_afu ;;
  let size := num_umsgs afu * PAGE_SIZE in
  enabled <- port_umsg_is_enabled ;;
  if enabled : bool then kret (- EIO)
  else if istrue i then
    if negb (PAGE_ALIGNED i) then kret (- EINVAL)
    else if u64 (i + size) <? i then kret (- EINVAL)
    else
      dma_region <- on_pd (afu_dma_region_find i size) ;;
      match dma_region with
      | None => kret (- EINVAL)
      | Some r => port_umsg_set_addr i ;; mark_region r true ;; kret 0
      end
  else
    i <- port_umsg_get_addr ;;
    if negb (istrue i) then kret 0
    else if u64 (i + size) <? i then kret (- EINVAL)
    else
      dma_region <- on_pd (afu_dma_region_find i size) ;;
      match dma_region with
      | None => kret (- ENODEV)
      | Some r => port_umsg_set_addr 0 ;; mark_region r false ;; kret 0
      end.

(** Shifting a 32-bit value by 32 or more is undefined. *)
Definition afu_port_umsg_set_mode (mode : Z) : K port Z :=
  afu <- on_pd get_afu ;;
  if 32 <=? num_umsgs afu then oops
  else if istrue (Z.shiftr mode (num_umsgs afu)) then kret (- EINVAL)
  else port_umsg_set_mode mode ;; kret 0.

Definition afu_port_umsg_halt : K port unit :=
  present <- on_pd (is_feature_present PORT_FEATURE_ID_UMSG) ;;
  if present : bool then
    afu_port_umsg_enable false ;; afu_port_umsg_set_addr 0 ;;
    afu_port_umsg_set_mode 0 ;; kret tt
  else kret tt.

(** ** The ioctls *)

Definition afu_umsg_ioctl_enable (enable : bool) (arg : Z) : K port Z :=
  if istrue arg then kret (- EINVAL)
  else
    on_pd mutex_lock ;;
    ret <- afu_port_umsg_enable enable ;;
    on_pd mutex_unlock ;;
    kret ret.

Definition afu_umsg_ioctl_set_mode (arg : Z) : K port Z :=
  let minsz := offsetofend fpga_port_umsg_cfg "hint_bitmap" in
  uconfig <- on_usr (copy_from_user arg minsz) ;;
  match uconfig with
  | None => kret (- EFAULT)
  | Some u =>
      if (fget fpga_port_umsg_cfg "argsz" u <? minsz)
         || istrue (fget fpga_port_umsg_cfg "flags" u) then kret (- EINVAL)
      else
        on_pd mutex_lock ;;
        ret <- afu_port_umsg_set_mode (fget fpga_port_umsg_cfg "hint_bitmap" u) ;;
        on_pd mutex_unlock ;;
        kret ret
  end.

Definition afu_umsg_ioctl_set_base_addr (arg : Z) : K port Z :=
  let minsz := offsetofend fpga_port_umsg_base_addr "iova" in
  baseaddr <- on_usr (copy_from_user arg minsz) ;;
  match baseaddr with
  | None => kret (- EFAULT)
  | Some b =>
      if (fget fpga_port_umsg_base_addr "argsz" b <? minsz)
         || istrue (fget fpga_port_umsg_base_addr "flags" b) then kret (- EINVAL)
      else
        on_pd mutex_lock ;;
        ret <- afu_port_umsg_set_addr (fget fpga_port_umsg_base_addr "iova" b) ;;
        on_pd mutex_unlock ;;
        kret ret
  end.

(** The WARN_ON only logs. *)
Definition port_umsg_init : K port Z :=
  on_pd mutex_lock ;;
  n <- port_umsg_get_num ;;
  on_pd (mod_afu (set_num_umsgs n)) ;;
  on_pd mutex_unlock ;;
  kret 0.

Definition port_umsg_ioctl (cmd arg : Z) : K port Z :=
  if cmd =? FPGA_PORT_UMSG_ENABLE then afu_umsg_ioctl_enable true arg
  else if cmd =? FPGA_PORT_UMSG_DISABLE then afu_umsg_ioctl_enable false arg
  else if cmd =? FPGA_PORT_UMSG_SET_MODE then afu_umsg_ioctl_set_mode arg
  else if cmd =? FPGA_PORT_UMSG_SET_BASE_ADDR then afu_umsg_ioctl_set_base_addr arg
  else kret (- ENODEV).
End PortUmsg.

(** ** Marking a region *)

Definition mark (i : Z) (b : bool) (x : fpga_afu_dma_region) : fpga_afu_dma_region :=
  if iova x =? i then set_in_use b x else x.

Lemma rb_mark_inorder i b t : inorder (rb_mark i b t) = map (mark i b) (inorder t).
Proof.
  induction t as [|c l IHl x r IHr]; simpl; [done|]. by rewrite IHl, IHr, map_app.
Qed.

Lemma iova_mark i b x : iova (mark i b x) = iova x.
Proof. unfold mark. by destruct (iova x =? i). Qed.
Lemma length_mark i b x : length_ (mark i b x) = length_ x.
Proof. unfold mark. by destruct (iova x =? i). Qed.
Lemma pages_mark i b x : pages (mark i b x) = pages x.
Proof. unfold mark. by destruct (iova x =? i). Qed.

Lemma ascending_mark i b l : ascending l -> ascending (map (mark i b) l).
Proof.
  induction l as [|x l IH]; simpl; [done|]. intros [Hx Hl]. split; [|by apply IH].
  apply list.Forall_forall. intros y Hy. apply list_elem_of_fmap in Hy as (z & -> & Hz).
  rewrite !iova_mark. rewrite list.Forall_forall in Hx. by apply Hx.
Qed.

Lemma region_ok_mark i b x : region_ok x -> region_ok (mark i b x).
Proof. unfold mark. by destruct (iova x =? i). Qed.

Lemma holding_mark i b l w0 : holding (map (mark i b) l) w0 = holding l w0.
Proof.
  induction l as [|x l IH]; [done|]. unfold holding in *. simpl.
  injection IH as H1 H2 H3. unfold npages_of. rewrite iova_mark, length_mark, pages_mark.
  f_equal; [unfold npages_of in H1; lia | multiset_solver ..].
Qed.

(** ** The message buffer stays mapped *)

Section UmsgFacts.
Context {Op D : Type} {dev : Mmio D} {ok : MmioOk D} {mem : MmioMem D} {rb : RbLib} {rbok : RbLibOk}.
Abbreviation port := (platform_device Op fpga_afu (afu_world D)).
Implicit Types q : port.

Definition num_umsgs_of q : Z := match private (pd q) with Some a => num_umsgs a | None => 0 end.
Definition umsg_size q : Z := num_umsgs_of q * PAGE_SIZE.

(** The base address in the hardware. *)
Definition umsg_base (base : Z) q : Z :=
  fget feature_port_umsg_baseaddr "base_addr" (reg_at (base + umsg_reg "baseaddr") q).
Definition umsg_enabled (base : Z) q : bool :=
  istrue (fget feature_port_umsg_cap "umsg_enable" (reg_at (base + umsg_reg "capability") q)).

(** The register holds the low 48 bits of an address in [r] from which on there
    is room for all messages. *)
Definition names_buffer (r : fpga_afu_dma_region) (base : Z) q : Prop :=
  exists i, contains r i (umsg_size q) /\ umsg_base base q = wrap 48 i.

(** The hardware has no buffer, or one inside a DMA region that is marked. *)
Definition umsg_protected (base : Z) q : Prop :=
  umsg_base base q = 0 \/
  exists r, r ∈ regions_of q /\ in_use r = true /\ names_buffer r base q.

Definition umsg_ok (w0 : dma_world) (base : Z) q : Prop :=
  dma_inv w0 q /\ feature_at PORT_FEATURE_ID_UMSG base q /\ 0 <= num_umsgs_of q < 256 /\
  umsg_protected base q.

Definition marked (r : fpga_afu_dma_region) (b : bool) q : port :=
  set_tree (rb_mark (iova r) b (tree_of_port q)) q.

Definition with_base (base i : Z) q : port :=
  set_reg (base + umsg_reg "baseaddr")
    (fset feature_port_umsg_baseaddr "base_addr" i (reg_at (base + umsg_reg "baseaddr") q)) q.

Lemma get_addr_run base q :
  feature_at PORT_FEATURE_ID_UMSG base q ->
  port_umsg_get_addr q = Some (umsg_base base q, q).
Proof.
  intros Hf. unfold port_umsg_get_addr. simpl. rewrite (feature_at_run _ _ _ Hf). simpl.
  destruct Hf as (_ & Hb & _). rewrite mmio_readq_run by done. by destruct q.
Qed.

Lemma is_enabled_run base q :
  feature_at PORT_FEATURE_ID_UMSG base q ->
  port_umsg_is_enabled q = Some (umsg_enabled base q, q).
Proof.
  intros Hf. unfold port_umsg_is_enabled. simpl. rewrite (feature_at_run _ _ _ Hf). simpl.
  destruct Hf as (_ & Hb & _). rewrite mmio_readq_run by done. by destruct q.
Qed.

Lemma set_addr_run base i q :
  feature_at PORT_FEATURE_ID_UMSG base q ->
  port_umsg_set_addr i q = Some (tt, with_base base i q).
Proof.
  intros Hf. unfold port_umsg_set_addr. simpl. rewrite (feature_at_run _ _ _ Hf). simpl.
  destruct Hf as (_ & Hb & _). rewrite mmio_readq_run by done. rewrite mmio_writeq_run by done.
  by destruct q.
Qed.

Lemma mark_region_run r b q :
  is_Some (private (pd q)) -> mark_region r b q = Some (tt, marked r b q).
Proof.
  intros [a Ha]. unfold mark_region, marked, set_tree, tree_of_port. simpl. by rewrite Ha.
Qed.

Lemma umsg_base_with base i q : umsg_base base (with_base base i q) = wrap 48 i.
Proof.
  unfold umsg_base, with_base. rewrite reg_at_set_same.
  - by rewrite fget_fset_same by reg_tac.
  - apply fset_range; [reg_tac | apply readq_u64].
Qed.

Lemma marked_inv w0 r b q : dma_inv w0 q -> dma_inv w0 (marked r b q).
Proof.
  intros (Hs & Has & Hall & H0 & Hmm). unfold dma_inv, marked.
  rewrite regions_of_set_tree, rb_mark_inorder by done. fold (regions_of q).
  destruct Hs as [a Ha]. unfold set_tree. rewrite Ha. simpl.
  split; [by eexists|]. split; [by apply ascending_mark|]. split; [|split; [done|by rewrite holding_mark]].
  apply list.Forall_forall. intros x Hx. apply list_elem_of_fmap in Hx as (y & -> & Hy).
  rewrite list.Forall_forall in Hall. by apply region_ok_mark, Hall.
Qed.

(** Everything afu_port_umsg_set_addr can do. *)
Definition set_addr_outcome (base i : Z) q (ret : Z) q' : Prop :=
  (q' = q /\ (ret = 0 -> i = 0 /\ umsg_base base q = 0)) \/
  (ret = 0 /\ umsg_enabled base q = false /\ exists r, r ∈ regions_of q /\
     ((i <> 0 /\ contains r i (umsg_size q) /\ q' = marked r true (with_base base i q)) \/
      (i = 0 /\ contains r (umsg_base base q) (umsg_size q) /\
       q' = marked r false (with_base base 0 q)))).

Lemma umsg_find_run w0 q i :
  dma_inv w0 q -> 0 <= num_umsgs_of q < 256 -> is_u64 i ->
  (u64 (i + umsg_size q) <? i) = false ->
  exists o, afu_dma_region_find i (umsg_size q) (pd q) = Some (o, pd q) /\
    match o with Some r => r ∈ regions_of q /\ contains r i (umsg_size q) | None => True end.
Proof.
  intros ([a Ha] & _ & Hall & _) Hn Hi Hw.
  rewrite u64_add_overflow in Hw by (unfold umsg_size, PAGE_SIZE, in_range in *; lia). boolify.
  exists (rb_find i (umsg_size q) (tree_of_port q)). split.
  - unfold afu_dma_region_find, tree_of_port. simpl. by rewrite Ha.
  - destruct (rb_find _ _ _) as [r|] eqn:E; [|done]. apply rb_find_sound in E as [Hr Hc].
    split; [done|]. rewrite list.Forall_forall in Hall.
    apply check_iova_contains; [by apply Hall | apply Hi |unfold umsg_size, PAGE_SIZE; lia|done|done].
Qed.

Lemma afu_port_umsg_set_addr_run w0 base i q :
  umsg_ok w0 base q -> is_u64 i ->
  exists ret q', afu_port_umsg_set_addr i q = Some (ret, q') /\ set_addr_outcome base i q ret q'.
Proof.
  intros (Hinv & Hf & Hn & Hprot) Hi. pose proof Hinv as ([a Ha] & _).
  assert (num_umsgs a * PAGE_SIZE = umsg_size q) as Hsz
    by (unfold umsg_size, num_umsgs_of; by rewrite Ha).
  assert (forall e, e <> 0 -> exists ret q', kret e q = Some (ret, q') /\
    set_addr_outcome base i q ret q') as Hfail.
  { intros e He. exists e, q. split; [done|]. left. split; [done|]. lia. }
  assert (Pdev (pd q) (io q) = q) as Hq by (by destruct q).
  unfold afu_port_umsg_set_addr. unfold kbind at 1. simpl on_pd. rewrite Ha. simpl. rewrite Hq, Hsz.
  rewrite (is_enabled_run base) by done. destruct (umsg_enabled base q) eqn:Een; [by apply Hfail|].
  unfold istrue. destruct (Z.eqb_spec i 0) as [->|Hi0]; cbn [negb].
  - unfold kbind at 1. rewrite (get_addr_run base) by done.
    destruct (Z.eqb_spec (umsg_base base q) 0) as [H0|H0]; cbn [negb].
    { exists 0, q. split; [done|]. left. done. }
    destruct (u64 _ <? _) eqn:Eo; [by apply Hfail|].
    destruct (umsg_find_run w0 q (umsg_base base q) Hinv Hn) as (o & Ho & Hspec); [|done|].
    { pose proof (fget_range feature_port_umsg_baseaddr "base_addr"
        (reg_at (base + umsg_reg "baseaddr") q) ltac:(reg_tac)) as Hr.
      unfold umsg_base. change (width feature_port_umsg_baseaddr "base_addr") with 48 in Hr.
      unfold in_range in *. lia. }
    unfold kbind at 1. simpl on_pd. rewrite Ho, Hq. destruct o as [r|]; [|by apply Hfail].
    unfold kbind. rewrite (set_addr_run base) by done. rewrite mark_region_run by (by eexists).
    eexists _, _. split; [reflexivity|]. right. split; [done|]. split; [done|].
    exists r. split; [apply Hspec|]. right. split_and!; [done|apply Hspec|done].
  - destruct (PAGE_ALIGNED i); [|by apply Hfail]. cbn [negb].
    destruct (u64 _ <? _) eqn:Eo; [by apply Hfail|].
    destruct (umsg_find_run w0 q i Hinv Hn Hi Eo) as (o & Ho & Hspec).
    unfold kbind at 1. simpl on_pd. rewrite Ho, Hq. destruct o as [r|]; [|by apply Hfail].
    unfold kbind. rewrite (set_addr_run base) by done. rewrite mark_region_run by (by eexists).
    eexists _, _. split; [reflexivity|]. right. split; [done|]. split; [done|].
    exists r. split; [apply Hspec|]. left. split_and!; [done|apply Hspec|done].
Qed.

Lemma framed_same q q' :
  framed q q' ->
  (forall a, reg_at a q' = reg_at a q) /\ features (pd q') = features (pd q) /\
  num_umsgs_of q' = num_umsgs_of q.
Proof.
  intros (t & m & ->). destruct q as [p [h w ir k u]]. unfold reg_at, num_umsgs_of, set_tree, set_mm.
  simpl. destruct (private p) eqn:E; simpl; [|by rewrite E]. done.
Qed.

(** Below 2^48 the register holds the address itself. *)
Lemma names_buffer_small r base q :
  names_buffer r base q -> 0 <= iova r -> iova r + length_ r <= 2 ^ 48 -> 0 < length_ r ->
  0 <= umsg_size q -> contains r (umsg_base base q) (umsg_size q).
Proof.
  intros (i & Hc & ->) H0 H48 Hl Hs. rewrite wrap_small; [done|].
  unfold contains, in_range in *. destruct (Z.eqb_spec (umsg_size q) 0); lia.
Qed.

Lemma contains_mark r i b j size : contains (mark i b r) j size <-> contains r j size.
Proof. unfold contains. by rewrite iova_mark, length_mark. Qed.

Lemma marked_framed r b q : is_Some (private (pd q)) -> framed q (marked r b q).
Proof.
  intros _. exists (rb_mark (iova r) b (tree_of_port q)), (mm (io q)). unfold marked.
  destruct q as [p [h w ir k u]]. unfold set_tree. simpl. by destruct (private p).
Qed.

Lemma regions_of_marked r b q :
  is_Some (private (pd q)) -> regions_of (marked r b q) = map (mark (iova r) b) (regions_of q).
Proof. intros H. unfold marked. by rewrite regions_of_set_tree, rb_mark_inorder. Qed.

Lemma umsg_ok_set_addr w0 base i ret q q' :
  umsg_ok w0 base q -> is_u64 i -> afu_port_umsg_set_addr i q = Some (ret, q') ->
  umsg_ok w0 base q' /\ lock (pd q') = lock (pd q).
Proof.
  intros Hok Hi64 Hrun.
  destruct (afu_port_umsg_set_addr_run w0 base i q Hok Hi64) as (ret' & q1 & Hrun' & Hcase).
  rewrite Hrun in Hrun'. injection Hrun' as <- <-. destruct Hok as (Hinv & Hf & Hn & Hprot).
  pose proof Hinv as (Hs & _).
  destruct Hcase as [[-> _]|(_ & _ & r & Hr & Hcase)]; [done|].
  assert (exists b j, q' = marked r b (with_base base j q) /\
    (j = 0 \/ b = true /\ contains r j (umsg_size q))) as (b & j & -> & Hprot').
  { destruct Hcase as [(_ & Hc & ->)|(_ & _ & ->)]; [exists true, i|exists false, 0]; auto. }
  assert (dma_inv w0 (with_base base j q)) as Hinv1 by exact Hinv.
  destruct (framed_same _ _ (marked_framed r b (with_base base j q) Hs)) as (Hreg & Hfe & Hnum).
  split; [|unfold marked, set_tree, with_base, set_reg; simpl; by destruct (private (pd q))].
  split; [apply marked_inv; exact Hinv1|].
  split; [by unfold feature_at in *; rewrite Hfe|]. split; [by rewrite Hnum|].
  unfold umsg_protected, names_buffer, umsg_base, umsg_size. rewrite Hreg, Hnum.
  fold (umsg_base base (with_base base j q)).
  rewrite umsg_base_with. destruct Hprot' as [->|[-> Hc]]; [by left|right].
  rewrite regions_of_marked by done. exists (mark (iova r) true r).
  split; [apply list_elem_of_fmap_2; exact Hr|]. split; [unfold mark; by rewrite Z.eqb_refl|].
  exists j. split; [by apply contains_mark|done].
Qed.

(** Writing another register of the block keeps the buffer. *)
Lemma umsg_ok_set_reg w0 base off v q :
  off <> umsg_reg "baseaddr" -> umsg_ok w0 base q -> umsg_ok w0 base (set_reg (base + off) v q).
Proof.
  intros Hne (Hinv & Hf & Hn & Hprot). split; [exact Hinv|]. split; [exact Hf|]. split; [exact Hn|].
  unfold umsg_protected, names_buffer, umsg_base. rewrite reg_at_set_other by lia. exact Hprot.
Qed.

Lemma umsg_ok_enable w0 base en ret q q' :
  umsg_ok w0 base q -> afu_port_umsg_enable en q = Some (ret, q') ->
  umsg_ok w0 base q' /\ lock (pd q') = lock (pd q).
Proof.
  intros Hok Hrun. pose proof Hok as (_ & Hf & _).
  assert (forall q0, port_umsg_enable en q = Some (ret, q0) ->
    umsg_ok w0 base q0 /\ lock (pd q0) = lock (pd q)) as Hen.
  { intros q0 H. unfold port_umsg_enable in H. simpl in H. rewrite (feature_at_run _ _ _ Hf) in H.
    simpl in H. pose proof Hf as (_ & Hb & _). rewrite mmio_readq_run in H by done.
    assert (Pdev (pd q) (io q) = q) as Hq by (by destruct q). simpl in H. rewrite Hq in H.
    destruct (_ || _) in H; [by injection H as <- <-|].
    simpl in H. rewrite mmio_writeq_run in H by done. injection H as <- <-.
    split; [|done]. by apply umsg_ok_set_reg. }
  unfold afu_port_umsg_enable in Hrun. destruct en; simpl in Hrun; [|by apply Hen].
  rewrite (get_addr_run base) in Hrun by done.
  destruct (negb _) in Hrun; [by injection Hrun as <- <-|by apply Hen].
Qed.

Lemma umsg_ok_mode w0 base m ret q q' :
  umsg_ok w0 base q -> afu_port_umsg_set_mode m q = Some (ret, q') ->
  umsg_ok w0 base q' /\ lock (pd q') = lock (pd q).
Proof.
  intros Hok Hrun. pose proof Hok as (([a Ha] & _) & Hf & _).
  assert (Pdev (pd q) (io q) = q) as Hq by (by destruct q).
  unfold afu_port_umsg_set_mode in Hrun. simpl in Hrun. rewrite Ha in Hrun. simpl in Hrun. rewrite Hq in Hrun.
  destruct (32 <=? num_umsgs a) in Hrun; [discriminate|].
  destruct (istrue _) in Hrun; [by injection Hrun as <- <-|].
  simpl in Hrun. unfold port_umsg_set_mode in Hrun. simpl in Hrun. rewrite (feature_at_run _ _ _ Hf) in Hrun.
  simpl in Hrun. pose proof Hf as (_ & Hb & _).
  rewrite mmio_readq_run, mmio_writeq_run in Hrun by done. inv_run. rewrite Hq.
  split; [|done]. by apply umsg_ok_set_reg.
Qed.

Lemma umsg_ok_framed w0 base q q' :
  umsg_ok w0 base q -> framed q q' -> dma_inv w0 q' ->
  (forall r, r ∈ regions_of q -> in_use r = true -> r ∈ regions_of q') -> umsg_ok w0 base q'.
Proof.
  intros (_ & Hf & Hn & Hprot) Hfr Hinv Hkeep. destruct (framed_same _ _ Hfr) as (Hreg & Hfe & Hnum).
  split; [done|]. split; [by unfold feature_at in *; rewrite Hfe|]. split; [by rewrite Hnum|].
  unfold umsg_protected, names_buffer, umsg_base, umsg_size. rewrite Hreg, Hnum.
  destruct Hprot as [H|(r & Hr & Hu & Hc)]; [by left|right]. exists r. auto.
Qed.

Lemma umsg_ok_map w0 base q uaddr len res q' :
  umsg_ok w0 base q -> map_outcome w0 uaddr len q res q' -> umsg_ok w0 base q'.
Proof.
  intros Hok (Hinv & _ & [(_ & _ & ->)|(_ & Hfr & r & l1 & l2 & _ & _ & _ & _ & H1 & H2)]); [done|].
  apply (umsg_ok_framed w0 base q); [done..|]. intros x Hx _. rewrite H2. rewrite H1 in Hx. set_solver.
Qed.

Lemma umsg_ok_short env w0 base q uaddr len res q' :
  umsg_ok w0 base q -> map_short env w0 uaddr len q res q' -> exists w1, umsg_ok w1 base q'.
Proof.
  intros (_ & Hf & Hn & Hprot) (_ & _ & pgs & _ & -> & Hinv). exists (leak pgs w0).
  split; [done|]. split; [exact Hf|]. split; [exact Hn|exact Hprot].
Qed.

Lemma umsg_ok_unmap w0 base q i ret q' :
  umsg_ok w0 base q -> unmap_outcome w0 i q ret q' -> umsg_ok w0 base q'.
Proof.
  intros Hok (Hinv & _ & [(_ & -> & _)|[(_ & -> & _)|(_ & Hfr & Hreg & r & Hr & Hi & Hu)]]); [done..|].
  apply (umsg_ok_framed w0 base q); [done..|]. intros x Hx Hxu. rewrite Hreg. unfold without.
  apply list_elem_of_filter. split; [|done]. intros Hxi. destruct Hok as ((_ & Has & _) & _).
  assert (x = r) by (eapply ascending_inj; [exact Has|done|done|lia]). congruence.
Qed.

(** The steps a process can take between two message interrupts.  The charge
    of a map request must not pass 2^64 pages. *)
Definition set_usr (u : user_mem) q : port :=
  set_io (World (hw (io q)) (mm (io q)) (irqw (io q)) (kobj (io q)) u) q.

Inductive umsg_step (env : dma_env) : port -> port -> Prop :=
| st_base arg ret q q' :
    afu_umsg_ioctl_set_base_addr arg q = Some (ret, q') -> umsg_step env q q'
| st_enable en arg ret q q' :
    afu_umsg_ioctl_enable en arg q = Some (ret, q') -> umsg_step env q q'
| st_mode arg ret q q' :
    afu_umsg_ioctl_set_mode arg q = Some (ret, q') -> umsg_step env q q'
| st_map uaddr len res q q' :
    is_u64 len -> locked_vm (mm (io q)) + Z.shiftr len PAGE_SHIFT < 2 ^ 64 ->
    afu_dma_map_region env uaddr len q = Some (res, q') -> umsg_step env q q'
| st_unmap i ret q q' :
    is_u64 i -> afu_dma_unmap_region env i q = Some (ret, q') -> umsg_step env q q'
| st_user u q : umsg_step env q (set_usr u q).

Definition umsg_idle (w0 : dma_world) (base : Z) q : Prop :=
  umsg_ok w0 base q /\ lock (pd q) = false.

(** A critical section around a call that keeps [umsg_ok] and the mutex. *)
Lemma umsg_locked w0 base (c : K port Z) q ret q' :
  umsg_idle w0 base q ->
  (forall q0 r q1, umsg_ok w0 base q0 -> c q0 = Some (r, q1) ->
     umsg_ok w0 base q1 /\ lock (pd q1) = lock (pd q0)) ->
  (on_pd mutex_lock ;; ret <- c ;; on_pd mutex_unlock ;; kret ret) q = Some (ret, q') ->
  umsg_idle w0 base q'.
Proof.
  intros [Hok Hl] Hc. simpl. rewrite Hl. simpl.
  match goal with |- context [c ?x] => destruct (c x) as [[r q1]|] eqn:E end; [|discriminate].
  apply Hc in E as [Hok1 Hl1]; [|exact Hok]. simpl in Hl1. rewrite Hl1. intros [= <- <-].
  split; [exact Hok1|done].
Qed.

Lemma on_usr_copy arg n q :
  exists o, on_usr (copy_from_user arg n) q = Some (o, q) /\
    copy_from_user arg n (usr (io q)) = Some (o, usr (io q)).
Proof. eexists. split; [|reflexivity]. by destruct q as [? []]. Qed.

Lemma umsg_step_idle env w0 base q q' :
  pins_some env -> maps_ok env -> umsg_idle w0 base q -> umsg_step env q q' ->
  exists w1, umsg_idle w1 base q'.
Proof.
  intros Hpin Hmap Hi Hstep. pose proof Hi as [Hok Hl]. pose proof Hok as (Hinv & _).
  destruct Hstep as [arg ret q q' Hr|en arg ret q q' Hr|arg ret q q' Hr
                    |uaddr len res q q' Hlen Hroom Hr|i ret q q' Hi64 Hr|u q]; [..|by exists w0].
  - exists w0. unfold afu_umsg_ioctl_set_base_addr in Hr. unfold kbind at 1 in Hr.
    destruct (on_usr_copy arg (offsetofend fpga_port_umsg_base_addr "iova") q) as (o & Ho & _).
    rewrite Ho in Hr. destruct o as [b|]; [|by simpl in Hr; injection Hr as <- <-].
    destruct (_ || _) in Hr; [by simpl in Hr; injection Hr as <- <-|].
    eapply umsg_locked; [exact Hi| |exact Hr]. intros q0 r q1 Hok0.
    apply umsg_ok_set_addr; [done|]. apply (fget_range fpga_port_umsg_base_addr "iova" b). reg_tac.
  - exists w0. unfold afu_umsg_ioctl_enable in Hr.
    destruct (istrue arg); [by simpl in Hr; injection Hr as <- <-|].
    eapply umsg_locked; [exact Hi| |exact Hr]. intros q0 r q1. apply umsg_ok_enable.
  - exists w0. unfold afu_umsg_ioctl_set_mode in Hr. unfold kbind at 1 in Hr.
    destruct (on_usr_copy arg (offsetofend fpga_port_umsg_cfg "hint_bitmap") q) as (o & Ho & _).
    rewrite Ho in Hr. destruct o as [b|]; [|by simpl in Hr; injection Hr as <- <-].
    destruct (_ || _) in Hr; [by simpl in Hr; injection Hr as <- <-|].
    eapply umsg_locked; [exact Hi| |exact Hr]. intros q0 r q1. apply umsg_ok_mode.
  - destruct (map_region_run env w0 q uaddr len Hpin Hmap Hl Hinv (proj1 Hlen) Hroom)
      as (res' & q1 & Hr' & Hout). rewrite Hr in Hr'. injection Hr' as <- <-.
    destruct Hout as [Hout|Hout].
    + exists w0. split; [by eapply umsg_ok_map|apply Hout].
    + destruct (umsg_ok_short _ _ _ _ _ _ _ _ Hok Hout) as [w1 ?]. exists w1. split; [done|apply Hout].
  - exists w0. destruct (unmap_region_run env w0 q i (proj1 Hpin) Hl Hinv Hi64) as (ret' & q1 & Hr' & Hout).
    rewrite Hr in Hr'. injection Hr' as <- <-. split; [by eapply umsg_ok_unmap|apply Hout].
Qed.

Lemma maps_held_elem r l : r ∈ l -> (iova r, length_ r) ∈ maps_held l.
Proof. induction l as [|x l IH]; [set_solver|]. intros [->|Hr]%elem_of_cons; simpl; multiset_solver. Qed.
End UmsgFacts.

(** C6: the hardware never keeps a message buffer that the process has given
    back.  From a port with its mutex free that satisfies the DMA invariant
    and whose UMSG base address is clear or names a marked DMA region (fewer
    than 256 messages), whatever sequence of ioctls follows (set the base
    address, enable or disable, set the mode, map and unmap DMA memory, with
    any arguments and any user memory, as long as no map request charges
    more than 2^64 pages), the mutex is free and the register is 0 or holds
    the low 48 bits of an address that lies, with room for all messages, in a
    region that is still in the tree, marked in use and mapped for DMA; when
    that region ends below 2^48 it contains the register's address itself.  The process has an address space, get_user_pages_fast answers a
    negative error or at most the pages asked for, and good DMA addresses end
    below 2^64. *)
Theorem umsg_buffer_stays_mapped {Op D} {dev : Mmio D} {ok : MmioOk D} {mem : MmioMem D}
    {rb : RbLib} {rbok : RbLibOk} env w0 base
    (q q' : platform_device Op fpga_afu (afu_world D)) :
  pins_some env -> maps_ok env -> umsg_idle w0 base q -> rtc (umsg_step env) q q' ->
  lock (pd q') = false /\
  (umsg_base base q' = 0 \/
   exists r i, r ∈ regions_of q' /\ in_use r = true /\ (iova r, length_ r) ∈ dma_maps (mm (io q')) /\
     contains r i (umsg_size q') /\ umsg_base base q' = wrap 48 i /\
     (iova r + length_ r <= 2 ^ 48 -> contains r (umsg_base base q') (umsg_size q'))).
Proof.
  intros Hpin Hmap Hi Hrun. assert (exists w1, umsg_idle w1 base q') as (w1 & (Hinv & _ & Hn & Hprot) & Hl).
  { revert w0 Hi. induction Hrun as [|q q1 q' Hstep Hrun IH]; [by eexists|]. intros w0 Hi.
    destruct (umsg_step_idle env w0 base q q1 Hpin Hmap Hi Hstep) as [w1 Hi1]. by eapply IH. }
  split; [done|]. destruct Hprot as [H|(r & Hr & Hu & Hb)]; [by left|right].
  destruct Hinv as (_ & _ & Hok & _ & Hmm). rewrite list.Forall_forall in Hok.
  destruct (Hok r Hr) as ((? & ? & ?) & _). pose proof Hb as (i & Hc & Hi').
  exists r, i. split_and!; try done.
  - rewrite Hmm. simpl. pose proof (maps_held_elem r _ Hr). multiset_solver.
  - intros H48. apply names_buffer_small; try done. unfold umsg_size, PAGE_SIZE. lia.
Qed.

(** ** A process that sets up a message buffer *)

(** The bytes of [struct fpga_port_umsg_base_addr] at address 64. *)
Definition umsg_user : user_mem :=
  UserMem (list_to_map (zip (map (fun i => 64 + Z.of_nat i) (seq 0 16))
             (le_split 16 (Z.lor 16 (Z.shiftl 0x100000 64))))) (fun _ => true).

Definition umsg_port : platform_device unit fpga_afu (afu_world mem_dev) :=
  Pdev (Pdata false 1 1 0 [] false (Some (set_num_umsgs 2 demo_afu)) 7
          [empty_feature; empty_feature; Feature (Some "port_umsg") 0 8192 [] 0 None None;
           empty_feature; empty_feature; empty_feature; empty_feature])
    (World ∅ w_empty (IrqWorld ∅ 0) (Kobj ∅ ∅ ∅) umsg_user).

Definition umsg_port_mapped : platform_device unit fpga_afu (afu_world mem_dev) :=
  match @afu_dma_map_region _ _ list_rb rich_env 0x2000 0x3000 umsg_port with
  | Some (_, q) => q | None => umsg_port end.
Definition umsg_port_set : platform_device unit fpga_afu (afu_world mem_dev) :=
  match afu_umsg_ioctl_set_base_addr 64 umsg_port_mapped with
  | Some (_, q) => q | None => umsg_port end.

Lemma umsg_port_idle : umsg_idle w_empty 8192 umsg_port.
Proof.
  split; [|done]. split; [|split; [split; [done|split; [done|by eexists]]|split; [done|by left]]].
  split; [by eexists|]. split; [done|]. split; [constructor|]. split; [done|reflexivity].
Qed.

Lemma umsg_buffer_stays_mapped_witness :
  umsg_base 8192 umsg_port_set = 0x100000 /\
  @afu_dma_unmap_region _ _ list_rb rich_env 0x100000 umsg_port_set = Some (- EBUSY, umsg_port_set) /\
  lock (pd umsg_port_set) = false /\
  (umsg_base 8192 umsg_port_set = 0 \/
   exists r i, r ∈ regions_of umsg_port_set /\ in_use r = true /\
     (iova r, length_ r) ∈ dma_maps (mm (io umsg_port_set)) /\
     contains r i (umsg_size umsg_port_set) /\ umsg_base 8192 umsg_port_set = wrap 48 i /\
     (iova r + length_ r <= 2 ^ 48 ->
        contains r (umsg_base 8192 umsg_port_set) (umsg_size umsg_port_set))).
Proof.
  split; [vm_compute; reflexivity|]. split; [vm_compute; reflexivity|].
  apply (@umsg_buffer_stays_mapped _ _ _ _ _ list_rb list_rb_ok rich_env w_empty 8192 umsg_port);
    [exact (pins_all_some _ rich_pins_all) | exact rich_maps_ok | exact umsg_port_idle |].
  eapply rtc_l; [eapply (st_map _ 0x2000 0x3000 (0, Some 0x100000) _ umsg_port_mapped);
                 [split; [discriminate|reflexivity] | reflexivity | vm_compute; reflexivity]|].
  eapply rtc_l; [eapply (st_base _ 64 0 _ umsg_port_set); vm_compute; reflexivity|].
  apply rtc_refl.
Defined.
