(* ===== verification/AfuError.v ===== *)
(** * Port errors (afu-error.c)

    The error registers of a port: masking, clearing under a held reset, the
    attributes of the "errors" group and the error interrupt. *)

From stdpp Require Import gmultiset.
From S2P Require Import Prelude.
From S2P Require Import Bitfield.
From S2P Require Import Registers.
From S2P Require Import Mmio.
From S2P Require Import UserMem.
From S2P Require Import Sysfs.
From S2P Require Import FeatureDev.
From S2P Require Import Msix.
From S2P Require Import AfuTypes.
From S2P Require Import Region.
From S2P Require Import DmaRegion.
From S2P Require Import PortEnv.
From S2P Require Import PortHdr.
Local Open Scope string_scope.
Local Open Scope Z_scope.

Section AfuError.
Context {Op D : Type} {dev : Mmio D} {ks : Kstrto}.
Abbreviation port := (platform_device Op fpga_afu (afu_world D)).

Definition err_reg (member : string) : Z := offsetof feature_port_error member.

Definition port_err_mask (mask : bool) : K port unit :=
  port_err <- on_pd (get_feature_ioaddr_by_index PORT_FEATURE_ID_ERROR) ;;
  mmio_writeq (if mask then PORT_ERR_MASK else 0) port_err (err_reg "error_mask").

Definition port_err_clear (err : Z) : K port Z :=
  port_err <- on_pd (get_feature_ioaddr_by_index PORT_FEATURE_ID_ERROR) ;;
  port_hdr <- on_pd (get_feature_ioaddr_by_index PORT_FEATURE_ID_HEADER) ;;
  status <- mmio_readq port_hdr (offsetof feature_port_header "status") ;;
  if fget feature_port_status "power_state" status =? PORT_POWER_STATE_AP6 then kret (- EBUSY)
  else
    ret <- __fpga_port_disable ;;
    if istrue ret then kret ret
    else
      port_err_mask true ;;
      mask <- mmio_readq port_err (err_reg "port_error") ;;
      ret <- (if mask =? err then
                mmio_writeq mask port_err (err_reg "port_error") ;;
                first <- mmio_readq port_err (err_reg "port_first_error") ;;
                mmio_writeq first port_err (err_reg "port_first_error") ;;
                kret ret
              else kret (- EBUSY)) ;;
      port_err_mask false ;;
      __fpga_port_enable ;;
      kret ret.

Definition err_revision_show : K port string :=
  csr <- plain_readq PORT_FEATURE_ID_ERROR feature_port_error "header" ;;
  kret (line_d (fget feature_header "revision" csr)).

Definition errors_show : K port string :=
  csr <- plain_readq PORT_FEATURE_ID_ERROR feature_port_error "port_error" ;;
  kret (line_0x csr).

Definition first_error_show : K port string :=
  csr <- plain_readq PORT_FEATURE_ID_ERROR feature_port_error "port_first_error" ;;
  kret (line_0x csr).

Definition first_malformed_req_show : K port string :=
  port_err <- on_pd (get_feature_ioaddr_by_index PORT_FEATURE_ID_ERROR) ;;
  lsb <- mmio_readq port_err (err_reg "malreq0") ;;
  msb <- mmio_readq port_err (err_reg "malreq1") ;;
  kret ("0x" ++ fmt_016x msb ++ fmt_016x lsb ++ newline)%string.

(** The WARN_ON of the missing header only logs, after looking it up. *)
Definition clear_store (buff : string) (count : Z) : K port Z :=
  match kstrtou64 buff with
  | inl _ => kret (- EINVAL)
  | inr value =>
      on_pd (is_feature_present PORT_FEATURE_ID_HEADER) ;;
      on_pd mutex_lock ;;
      ret <- port_err_clear value ;;
      on_pd mutex_unlock ;;
      if istrue ret then kret ret else kret count
  end.

Definition port_err_attrs : list string :=
  ["errors/revision"; "errors/errors"; "errors/first_error"; "errors/first_malformed_req";
   "errors/clear"].

Definition port_err_init (env : port_env) (i : Z) : K port Z :=
  f <- on_pd (get_feature i) ;;
  on_pd mutex_lock ;;
  port_err_mask false ;;
  on_pd get_afu ;;
  (if istrue (f_ctx_num f)
   then on_pd (mod_afu (fun a => set_capability (Z.lor (capability a) FPGA_PORT_CAP_ERR_IRQ) a))
   else kret tt) ;;
  on_pd mutex_unlock ;;
  sysfs_create_files env port_err_attrs.

Definition port_err_uinit : K port unit := sysfs_remove_files port_err_attrs.

Definition port_err_set_irq (env : port_env) (i arg : Z) : K port Z :=
  let minsz := offsetofend fpga_port_err_irq_set "evtfd" in
  hdr <- on_usr (copy_from_user arg minsz) ;;
  match hdr with
  | None => kret (- EFAULT)
  | Some hdr =>
      if (fget fpga_port_err_irq_set "argsz" hdr <? minsz)
         || istrue (fget fpga_port_err_irq_set "flags" hdr) then kret (- EINVAL)
      else
        on_pd mutex_lock ;;
        afu <- on_pd get_afu ;;
        if negb (istrue (Z.land (capability afu) FPGA_PORT_CAP_ERR_IRQ)) then
          on_pd mutex_unlock ;; kret (- ENODEV)
        else
          ret <- on_msix i (fpga_msix_set_block (irqe env) 0 1
                   (Some [s32 (fget fpga_port_err_irq_set "evtfd" hdr)])) ;;
          on_pd mutex_unlock ;;
          kret ret
  end.

Definition port_err_ioctl (env : port_env) (i cmd arg : Z) : K port Z :=
  if cmd =? FPGA_PORT_ERR_SET_IRQ then port_err_set_irq env i arg else kret (- ENODEV).
End AfuError.

(** ** Clearing as a sequence of register writes *)

Section ErrFacts.
Context {Op D : Type} {dev : Mmio D} {ok : MmioOk D} {regs : MmioReg D}.
Abbreviation port := (platform_device Op fpga_afu (afu_world D)).
Implicit Types q : port.

(** Header and error block are mapped and do not overlap. *)
Record err_mapped (hdr err : Z) q : Prop := {
  em_hdr : feature_at PORT_FEATURE_ID_HEADER hdr q;
  em_err : feature_at PORT_FEATURE_ID_ERROR err q;
  em_disjoint : hdr + sizeof feature_port_header <= err \/ err + sizeof feature_port_error <= hdr;
}.

(** The port is held in reset: its control bit is set, or it was before. *)
Definition hold (hdr : Z) q : port :=
  if istrue (disable_count (pd q)) then count_to (disable_count (pd q) + 1) q
  else set_sftrst hdr 1 (count_to 1 q).
Definition release (hdr : Z) q : port :=
  if 1 <? disable_count (pd q) then count_to (disable_count (pd q) - 1) q
  else set_sftrst hdr 0 (count_to 0 q).

Definition write_err (err : Z) (member : string) (v : Z) q : port :=
  set_reg (err + err_reg member) v q.
Definition read_err (err : Z) (member : string) q : Z := reg_at (err + err_reg member) q.

(** The specification of a clear that is not refused: reset held, errors
    masked, the two error registers written back with what they show when
    the caller named the current errors, mask lifted, reset released. *)
Definition clear_spec (hdr err e : Z) q : Z * port :=
  let q1 := write_err err "error_mask" PORT_ERR_MASK (hold hdr q) in
  let found := read_err err "port_error" q1 =? e in
  let q2 := write_err err "port_error" (read_err err "port_error" q1) q1 in
  let q3 := write_err err "port_first_error" (read_err err "port_first_error" q2) q2 in
  (if found then 0 else - EBUSY,
   release hdr (write_err err "error_mask" 0 (if found then q3 else q1))).

Lemma err_mask_run mask err q :
  feature_at PORT_FEATURE_ID_ERROR err q ->
  port_err_mask mask q = Some (tt, write_err err "error_mask" (if mask then PORT_ERR_MASK else 0) q).
Proof.
  intros Hf. unfold port_err_mask. simpl. rewrite (feature_at_run _ _ _ Hf). simpl.
  destruct Hf as (_ & Hb & _). rewrite mmio_writeq_run by done. by destruct q.
Qed.

Lemma feature_at_hold i base hdr q : feature_at i base (hold hdr q) <-> feature_at i base q.
Proof. unfold hold, feature_at. by destruct (istrue _). Qed.

Lemma header_at hdr q : feature_at PORT_FEATURE_ID_HEADER hdr q -> port_hdr_at hdr q.
Proof. intros (_ & Hb & f & Hf & Hi). split; [done|]. by exists f. Qed.

Lemma hold_count hdr q :
  0 <= disable_count (pd q) -> disable_count (pd (hold hdr q)) = disable_count (pd q) + 1.
Proof.
  intros H. unfold hold, istrue. destruct (Z.eqb_spec (disable_count (pd q)) 0); simpl; lia.
Qed.

Lemma port_err_clear_run hdr err e q :
  err_mapped hdr err q -> 0 <= disable_count (pd q) < 2 ^ 32 - 1 ->
  port_err_clear e q =
  Some (if fget feature_port_status "power_state"
             (reg_at (hdr + offsetof feature_port_header "status") q) =? PORT_POWER_STATE_AP6
        then (- EBUSY, q) else clear_spec hdr err e q).
Proof.
  intros [Hh He _] Hc. unfold port_err_clear.
  assert (Pdev (pd q) (io q) = q) as Hq by (by destruct q).
  simpl. rewrite (feature_at_run _ _ _ He). simpl. rewrite (feature_at_run _ _ _ Hh). simpl.
  pose proof Hh as (_ & Hhb & _). pose proof He as (_ & Heb & _).
  rewrite Hq, mmio_readq_run by done. destruct (_ =? PORT_POWER_STATE_AP6); [done|].
  simpl. rewrite (__fpga_port_disable_run hdr) by (try done; by apply header_at). simpl.
  fold (hold hdr q). rewrite (err_mask_run true err) by (by apply feature_at_hold).
  set (q1 := write_err err "error_mask" PORT_ERR_MASK (hold hdr q)).
  rewrite mmio_readq_run by done. unfold clear_spec. fold q1.
  change (reg_at (err + err_reg "port_error") q1) with (read_err err "port_error" q1).
  assert (forall q' r, feature_at PORT_FEATURE_ID_ERROR err q' -> port_hdr_at hdr q' ->
    0 < disable_count (pd q') < 2 ^ 32 ->
    (port_err_mask false ;; __fpga_port_enable ;; kret r : K port Z) q' =
      Some (r, release hdr (write_err err "error_mask" 0 q'))) as Hfin.
  { intros q' r Hf' Hh' Hc'. simpl. rewrite (err_mask_run false err) by done.
    rewrite (__fpga_port_enable_run hdr) by done. done. }
  assert (feature_at PORT_FEATURE_ID_ERROR err q1) as Hf1 by (by apply feature_at_hold).
  assert (port_hdr_at hdr q1) as Hh1 by (apply header_at; by apply feature_at_hold).
  assert (0 < disable_count (pd q1) < 2 ^ 32) as Hc1
    by (unfold q1; simpl; rewrite hold_count; lia).
  destruct (read_err err "port_error" q1 =? e); cbn [kbind].
  - rewrite mmio_writeq_run, mmio_readq_run, mmio_writeq_run by done. apply Hfin; done.
  - apply Hfin; done.
Qed.

(** No error register is the control register. *)
Lemma err_not_control hdr err q m :
  err_mapped hdr err q -> m ∈ ["error_mask"; "port_error"; "port_first_error"] ->
  control_addr hdr <> err + err_reg m.
Proof.
  intros [_ _ Hd] Hm. unfold control_addr, err_reg.
  change (sizeof feature_port_header) with 112 in Hd. change (sizeof feature_port_error) with 64 in Hd.
  change (offsetof feature_port_header "control") with 56.
  assert (0 <= offsetof feature_port_error m <= 56).
  { repeat (apply elem_of_cons in Hm as [->|Hm]; [vm_compute; split; discriminate|]). set_solver. }
  lia.
Qed.

Lemma read_err_sftrst hdr err m v q :
  control_addr hdr <> err + err_reg m -> read_err err m (set_sftrst hdr v q) = read_err err m q.
Proof.
  intros Hne. unfold read_err, reg_at, set_sftrst. destruct q as [p []]. simpl. by apply mem_write_other.
Qed.

Lemma read_err_hold hdr err m q :
  control_addr hdr <> err + err_reg m -> read_err err m (hold hdr q) = read_err err m q.
Proof. intros Hne. unfold hold. destruct (istrue _); [done|]. by rewrite read_err_sftrst. Qed.

Lemma read_err_release hdr err m q :
  control_addr hdr <> err + err_reg m -> read_err err m (release hdr q) = read_err err m q.
Proof. intros Hne. unfold release. destruct (1 <? _); [done|]. by rewrite read_err_sftrst. Qed.

Lemma read_write_err err m1 m2 v q :
  err_reg m1 <> err_reg m2 -> read_err err m2 (write_err err m1 v q) = read_err err m2 q.
Proof. intros Hne. apply reg_at_set_other. lia. Qed.

Lemma pd_release_hold hdr q :
  0 <= disable_count (pd q) ->
  forall q', pd q' = pd (hold hdr q) -> pd (release hdr q') = pd q.
Proof.
  intros Hc q' Hq'. pose proof (hold_count hdr q Hc) as Hh. rewrite <- Hq' in Hh.
  unfold release. rewrite Hh. destruct (Z.ltb_spec 1 (disable_count (pd q) + 1)) as [Hl|Hl].
  - replace (disable_count (pd q) + 1 - 1) with (disable_count (pd q)) by lia.
    unfold count_to. simpl. rewrite Hq'. unfold hold, istrue.
    replace (disable_count (pd q) =? 0) with false by lia. by destruct q as [[] ?].
  - unfold set_sftrst, count_to. simpl. rewrite Hq'. unfold hold, istrue.
    assert (disable_count (pd q) = 0) as H0 by lia. rewrite H0. simpl.
    destruct q as [[] ?]. simpl in *. by subst.
Qed.
End ErrFacts.

(** ** Registers that a 1 clears *)

(** The two registers that latch errors. *)
Definition latched (err : Z) : list Z := [err + err_reg "port_error"; err + err_reg "port_first_error"].

Section Clearing.
Context {Op D : Type} {dev : Mmio D} {ok : MmioOk D} {hdr err : Z} {w1c : MmioW1c (latched err) D}.
Abbreviation port := (platform_device Op fpga_afu (afu_world D)).
Implicit Types q : port.

Lemma read_write_plain m v q :
  err + err_reg m ∉ latched err -> is_u64 v -> read_err err m (write_err err m v q) = v.
Proof.
  intros Hm Hv. unfold read_err, write_err, reg_at, set_reg. destruct q as [p []]. simpl.
  by apply w1c_plain.
Qed.

(** Writing back what a latch shows clears it. *)
Lemma write_back_clears m q :
  err + err_reg m ∈ latched err -> read_err err m (write_err err m (read_err err m q) q) = 0.
Proof.
  intros Hm. unfold read_err, write_err, reg_at, set_reg. destruct q as [p []]. simpl.
  rewrite w1c_clear by (done || apply readq_u64). apply Z.ldiff_diag.
Qed.

Lemma sftrst_set_plain q : control_addr hdr ∉ latched err -> sftrst hdr (set_sftrst hdr 0 q) = 0.
Proof.
  intros Hc. unfold sftrst, control_of, set_sftrst. destruct q as [p []]. simpl.
  rewrite w1c_plain; [|done|apply fset_range; [reg_tac|apply readq_u64]].
  by rewrite fget_fset_same by reg_tac.
Qed.

(** What the sequence leaves in the two latches. *)
Lemma clear_spec_latches e q m :
  err_mapped hdr err q -> m ∈ ["port_error"; "port_first_error"] ->
  read_err err m (snd (clear_spec hdr err e q)) =
  if read_err err "port_error" q =? e then 0 else read_err err m q.
Proof.
  intros Hm Hin.
  assert (forall m', m' ∈ ["error_mask"; "port_error"; "port_first_error"] ->
    control_addr hdr <> err + err_reg m') as Hne by (intros; by eapply err_not_control).
  assert (forall m', m' ∈ ["port_error"; "port_first_error"] ->
    read_err err m' (write_err err "error_mask" PORT_ERR_MASK (hold hdr q)) = read_err err m' q) as Hold.
  { intros m' Hm'. rewrite read_write_err, read_err_hold; [done|apply Hne; set_solver|].
    repeat (apply elem_of_cons in Hm' as [->|Hm']; [done|]). set_solver. }
  unfold clear_spec. cbn [snd]. rewrite read_err_release by (apply Hne; set_solver).
  rewrite Hold by set_solver.
  apply elem_of_cons in Hin as [->|Hin%list_elem_of_singleton]; [|subst m];
    rewrite read_write_err by done; destruct (_ =? e); try (by apply Hold; set_solver).
  - rewrite read_write_err by done. rewrite <- (Hold "port_error") at 1 by set_solver.
    apply write_back_clears. left.
  - apply write_back_clears. right. left.
Qed.
End Clearing.

(** C28: clearing port errors clears exactly the errors the caller has seen.
    On a port whose header and error block are mapped and do not overlap, whose
    two error latches are write-one-to-clear (all other registers plain
    storage) and whose disable count can still go up: in power state AP6
    port_err_clear returns -EBUSY and touches nothing.  Otherwise it performs
    the sequence [clear_spec] (hold the port in reset, mask, write the error
    and first-error registers back if the error register shows the caller's
    value, unmask, release), returns 0 if it did and -EBUSY if not; after a 0
    both latches read 0, after that -EBUSY both are what they were; the mask
    ends at 0, the driver's data is what it was, and a port nobody else holds
    in reset (disable count 0) is out of reset. *)
Theorem port_err_clear_spec {Op D} {dev : Mmio D} {ok : MmioOk D}
    hdr err e {w1c : MmioW1c (latched err) D} (q : platform_device Op fpga_afu (afu_world D)) :
  err_mapped hdr err q -> 0 <= disable_count (pd q) < 2 ^ 32 - 1 ->
  let ap6 := fget feature_port_status "power_state"
               (reg_at (hdr + offsetof feature_port_header "status") q) = PORT_POWER_STATE_AP6 in
  let seen := read_err err "port_error" q = e in
  exists ret q', port_err_clear e q = Some (ret, q') /\ pd q' = pd q /\
    (ap6 -> ret = - EBUSY /\ q' = q) /\
    (~ ap6 -> (ret, q') = clear_spec hdr err e q /\
       (seen -> ret = 0 /\ read_err err "port_error" q' = 0 /\ read_err err "port_first_error" q' = 0) /\
       (~ seen -> ret = - EBUSY /\ read_err err "port_error" q' = read_err err "port_error" q /\
          read_err err "port_first_error" q' = read_err err "port_first_error" q) /\
       read_err err "error_mask" q' = 0 /\
       (disable_count (pd q) = 0 -> sftrst hdr q' = 0)).
Proof.
  intros Hm Hc ap6 seen. rewrite (port_err_clear_run hdr err) by done. unfold ap6, seen.
  assert (forall m, m ∈ ["error_mask"; "port_error"; "port_first_error"] ->
    control_addr hdr <> err + err_reg m) as Hne by (intros; by eapply err_not_control).
  destruct (Z.eqb_spec (fget feature_port_status "power_state"
    (reg_at (hdr + offsetof feature_port_header "status") q)) PORT_POWER_STATE_AP6) as [H6|H6].
  { exists (- EBUSY), q. split_and!; done. }
  pose proof (clear_spec_latches e q "port_error" Hm ltac:(set_solver)) as Hl1.
  pose proof (clear_spec_latches e q "port_first_error" Hm ltac:(set_solver)) as Hl2.
  destruct (clear_spec hdr err e q) as [ret q'] eqn:Es. cbn [snd] in Hl1, Hl2.
  exists ret, q'. split; [done|]. unfold clear_spec in Es.
  rewrite (read_write_err err "error_mask" "port_error"), read_err_hold in Es
    by (done || apply Hne; set_solver).
  injection Es as Hret Hq'. split; [|split; [done|intros _; split; [done|]]].
  { rewrite <- Hq'. apply pd_release_hold; [lia|]. by destruct (_ =? e). }
  split_and!.
  - intros He. apply Z.eqb_eq in He. rewrite He in *. done.
  - intros He. apply Z.eqb_neq in He. rewrite He in *. done.
  - rewrite <- Hq', read_err_release by (apply Hne; set_solver). apply read_write_plain; [|done].
    unfold latched. rewrite !elem_of_cons, elem_of_nil.
    change (err_reg "error_mask") with 8. change (err_reg "port_error") with 16.
    change (err_reg "port_first_error") with 24. lia.
  - intros H0. rewrite <- Hq'. unfold release.
    replace (1 <? _) with false by (destruct (_ =? e); simpl; unfold hold; by rewrite H0).
    apply (sftrst_set_plain (err := err)). unfold latched. rewrite !elem_of_cons, elem_of_nil.
    pose proof (Hne "port_error" ltac:(set_solver)). pose proof (Hne "port_first_error" ltac:(set_solver)).
    naive_solver.
Qed.

(** A register file with write-one-to-clear registers at [W]. *)
Record w1c_dev (W : list Z) := W1cDev { w1c_file : gmap Z Z }.
Arguments W1cDev {W} _.
Arguments w1c_file {W} _.

Definition w1c_read {W} (a : Z) (d : w1c_dev W) : Z :=
  u64 (default 0 (@lookup Z Z (gmap Z Z) _ a (w1c_file d))).

#[export] Instance w1c_dev_mmio W : Mmio (w1c_dev W) := {|
  dev_readq a d := (w1c_read a d, d);
  dev_writeq a v d := W1cDev
    (@insert Z Z (gmap Z Z) _ a (if decide (a ∈ W) then Z.ldiff (w1c_read a d) v else v) (w1c_file d));
|}.

#[export] Instance w1c_dev_ok W : MmioOk (w1c_dev W).
Proof. constructor. intros. apply u64_range. Qed.

#[export] Instance w1c_dev_w1c W : MmioW1c W (w1c_dev W).
Proof.
  constructor; [constructor|..]; simpl; unfold w1c_read; simpl.
  - done.
  - intros a b v d Hne. by rewrite (lookup_insert_ne (M := gmap Z)).
  - intros a v d Ha Hv. rewrite (lookup_insert_eq (M := gmap Z)), decide_False by done.
    by apply u64_small.
  - intros a v d Ha Hv. rewrite (lookup_insert_eq (M := gmap Z)), decide_True by done.
    apply u64_small, ldiff_range; [lia|apply u64_range].
Qed.

(** A port with its header at 4096 and its error block at 8192, errors 5, the
    first of them 4. *)
Definition err_port : platform_device unit fpga_afu (afu_world (w1c_dev (latched 8192))) :=
  Pdev (Pdata false 1 1 0 [] false (Some demo_afu) 7
          (Feature (Some "port_hdr") 0 4096 [] 0 None None ::
           Feature (Some "port_err") 0 8192 [] 0 None None :: replicate 5 empty_feature))
    (World (W1cDev (<[8192 + err_reg "port_error" := 5]> {[ 8192 + err_reg "port_first_error" := 4 ]}))
       w_empty (IrqWorld ∅ 0) (Kobj ∅ ∅ ∅) (UserMem ∅ (fun _ => true))).

Lemma port_err_clear_witness :
  read_err 8192 "port_error" err_port = 5 /\ read_err 8192 "port_first_error" err_port = 4 /\
  exists ret q', port_err_clear 5 err_port = Some (ret, q') /\ pd q' = pd err_port /\
    ret = 0 /\ read_err 8192 "port_error" q' = 0 /\ read_err 8192 "port_first_error" q' = 0 /\
    read_err 8192 "error_mask" q' = 0 /\ sftrst 4096 q' = 0.
Proof.
  split; [vm_compute; reflexivity|]. split; [vm_compute; reflexivity|].
  destruct (port_err_clear_spec 4096 8192 5 err_port) as (ret & q' & H1 & H2 & _ & H3).
  - split; [split; [done|split; [done|by eexists]] .. |]. left. vm_compute. discriminate.
  - vm_compute. split; [discriminate|reflexivity].
  - destruct H3 as (_ & H3 & _ & H4 & H5); [vm_compute; discriminate|].
    destruct H3 as (H6 & H7 & H8); [vm_compute; reflexivity|].
    exists ret, q'. split; [exact H1|]. split; [exact H2|]. split; [exact H6|].
    split; [exact H7|]. split; [exact H8|]. split; [exact H4 | apply H5; reflexivity].
Defined.
