(* ===== verification/Afu.v ===== *)
(** * The port driver (afu.c)

    The file operations of a port (open, release, ioctl, mmap), the table of
    its feature drivers and the probe and remove of the platform device, built
    from the features of PortHdr.v, PortUmsg.v and AfuError.v, the regions of
    Region.v and DmaRegion.v, the open protocol of FeatureDev.v, the binding of
    FeatureInit.v and the interrupts of Msix.v. *)

From stdpp Require Import gmultiset.
From S2P Require Import Prelude.
From S2P Require Import Bitfield.
From S2P Require Import Registers.
From S2P Require Import Mmio.
From S2P Require Import UserMem.
From S2P Require Import Sysfs.
From S2P Require Import FeatureDev.
From S2P Require Import FeatureInit.
From S2P Require Import Msix.
From S2P Require Import AfuTypes.
From S2P Require Import Region.
From S2P Require Import DmaRegion.
From S2P Require Import PortEnv.
From S2P Require Import PortHdr.
From S2P Require Import PortUmsg.
From S2P Require Import AfuError.
Local Open Scope string_scope.
Local Open Scope Z_scope.

(** The [struct feature_ops] of the port. *)
Inductive port_op :=
| port_hdr_ops | port_afu_ops | port_err_ops | port_umsg_ops
| port_uint_ops | port_stp_ops | port_iopll_ops.

#[export] Instance port_op_eq_dec : EqDecision port_op.
Proof. solve_decision. Defined.

(** The parts of [struct vm_area_struct] that afu_mmap reads. *)
Record vm_area := Vma {
  vm_start : Z;
  vm_end : Z;
  vm_pgoff : Z;
  vm_shared : bool;
  vm_read : bool;
  vm_write : bool;
}.

Section Afu.
Context {D : Type} {dev : Mmio D} {rb : RbLib} (env : port_env).
Abbreviation port := (platform_device port_op fpga_afu (afu_world D)).

#[export] Instance port_feature_ops : FeatureOps port_op fpga_afu (afu_world D) := {|
  ops_test o :=
    match o with
    | port_hdr_ops => Some port_hdr_test
    | port_err_ops => Some port_err_test
    | port_umsg_ops => Some port_umsg_test
    | port_stp_ops => Some port_stp_test
    | _ => None
    end;
  ops_init o i :=
    match o with
    | port_hdr_ops => port_hdr_init env
    | port_afu_ops => port_afu_init env i
    | port_err_ops => port_err_init env i
    | port_umsg_ops => port_umsg_init
    | port_uint_ops => port_uint_init i
    | port_stp_ops => port_stp_init env i
    | port_iopll_ops => port_iopll_init env i
    end;
  ops_uinit o i :=
    match o with
    | port_hdr_ops => port_hdr_uinit
    | port_afu_ops => port_afu_uinit
    | port_err_ops => port_err_uinit
    | port_iopll_ops => port_iopll_uinit i
    | port_umsg_ops | port_uint_ops | port_stp_ops => kret tt
    end;
  ops_ioctl o :=
    match o with
    | port_hdr_ops => Some (fun _ => port_hdr_ioctl)
    | port_err_ops => Some (port_err_ioctl env)
    | port_umsg_ops => Some (fun _ => port_umsg_ioctl)
    | port_uint_ops => Some (port_uint_ioctl env)
    | _ => None
    end;
|}.

Definition port_feature_drvs : list (feature_driver port_op) :=
  [FeatureDrv "port_hdr" port_hdr_ops; FeatureDrv "port_uafu" port_afu_ops;
   FeatureDrv "port_err" port_err_ops; FeatureDrv "port_umsg" port_umsg_ops;
   FeatureDrv "port_uint" port_uint_ops; FeatureDrv "port_stp" port_stp_ops;
   FeatureDrv "port_iopll" port_iopll_ops].

(** ** open and release *)

(** The first entry of [p] with its count incremented. *)
Fixpoint bump_pid (p : Z) (l : list pid_info) : option (list pid_info) :=
  match l with
  | [] => None
  | x :: l =>
      if pid x =? p then Some (PidInfo p (count x + 1) :: l)
      else match bump_pid p l with Some l => Some (x :: l) | None => None end
  end.

Definition afu_open (o_excl : bool) : K port Z :=
  ret <- on_pd (if o_excl then feature_dev_use_excl_begin else feature_dev_use_begin) ;;
  if istrue ret then kret ret
  else
    on_pd mutex_lock ;;
    get_pid (current_pid env) ;;
    p <- on_pd kget ;;
    match bump_pid (current_pid env) (pid_list p) with
    | Some l => on_pd (kmod (set_pid_list l)) ;; on_pd mutex_unlock ;; kret 0
    | None =>
        if negb (devm_kzalloc_ok env) then
          put_pid (current_pid env) ;;
          on_pd __feature_dev_use_end ;;
          on_pd mutex_unlock ;;
          kret (- ENOMEM)
        else
          on_pd (kmod (fun p => set_pid_list (PidInfo (current_pid env) 1 :: pid_list p) p)) ;;
          on_pd mutex_unlock ;;
          kret 0
    end.

(** The safe walk over the list: entries of [p] drop a reference and are
    deleted when their count reaches 0. *)
Fixpoint release_pids (p : Z) (l : list pid_info) : K port (list pid_info) :=
  match l with
  | [] => kret []
  | x :: l =>
      if pid x =? p then
        put_pid (pid x) ;;
        l <- release_pids p l ;;
        kret (if istrue (count x - 1) then PidInfo (pid x) (count x - 1) :: l else l)
      else l <- release_pids p l ;; kret (x :: l)
  end.

(** [fpga_msix_set_block(&features[i], 0, features[i].ctx_num, NULL)] *)
Definition msix_unset_all (i : Z) : K port Z :=
  f <- on_pd (get_feature i) ;;
  on_msix i (fpga_msix_set_block (irqe env) 0 (f_ctx_num f) None).

Definition last_release : K port unit :=
  msix_unset_all PORT_FEATURE_ID_ERROR ;;
  msix_unset_all PORT_FEATURE_ID_UINT ;;
  afu_port_umsg_halt ;;
  __fpga_port_reset ;;
  afu_dma_region_destroy (dmae env).

Definition afu_release : K port Z :=
  on_pd mutex_lock ;;
  on_pd __feature_dev_use_end ;;
  get_pid (current_pid env) ;;
  p <- on_pd kget ;;
  l <- release_pids (current_pid env) (pid_list p) ;;
  on_pd (kmod (set_pid_list l)) ;;
  put_pid (current_pid env) ;;
  n <- on_pd (kgets open_count) ;;
  (if istrue n then kret tt else last_release) ;;
  on_pd mutex_unlock ;;
  kret 0.

(** ** ioctl *)

Definition afu_ioctl_check_extension (arg : Z) : K port Z := kret 0.

Definition fill_info (a : fpga_afu) (info : Z) : Z :=
  let set n v := fset fpga_port_info n v in
  set "num_uafu_irqs" (num_uafu_irqs a)
    (set "num_umsgs" (num_umsgs a)
      (set "num_regions" (num_regions a)
        (set "capability" (capability a) (set "flags" 0 info)))).

Definition sizeof_struct (r : reg) : Z := total (reg_fields r) / 8.

Definition afu_ioctl_get_info (arg : Z) : K port Z :=
  let minsz := offsetofend fpga_port_info "num_uafu_irqs" in
  info <- on_usr (copy_from_user arg minsz) ;;
  match info with
  | None => kret (- EFAULT)
  | Some info =>
      if fget fpga_port_info "argsz" info <? minsz then kret (- EINVAL)
      else
        on_pd mutex_lock ;;
        afu <- on_pd get_afu ;;
        let info := fill_info afu info in
        on_pd mutex_unlock ;;
        fault <- on_usr (copy_to_user arg info (sizeof_struct fpga_port_info)) ;;
        if fault : bool then kret (- EFAULT) else kret 0
  end.

Definition afu_ioctl_get_region_info (arg : Z) : K port Z :=
  let minsz := offsetofend fpga_port_region_info "offset" in
  rinfo <- on_usr (copy_from_user arg minsz) ;;
  match rinfo with
  | None => kret (- EFAULT)
  | Some rinfo =>
      if (fget fpga_port_region_info "argsz" rinfo <? minsz)
         || istrue (fget fpga_port_region_info "padding" rinfo) then kret (- EINVAL)
      else
        region <- on_pd (afu_get_region_by_index (fget fpga_port_region_info "index" rinfo)) ;;
        match region with
        | inl ret => kret ret
        | inr region =>
            let rinfo := fset fpga_port_region_info "flags" (rflags region) rinfo in
            let rinfo := fset fpga_port_region_info "size" (rsize region) rinfo in
            let rinfo := fset fpga_port_region_info "offset" (roffset region) rinfo in
            fault <- on_usr (copy_to_user arg rinfo (sizeof_struct fpga_port_region_info)) ;;
            if fault : bool then kret (- EFAULT) else kret 0
        end
  end.

Definition afu_ioctl_dma_map (arg : Z) : K port Z :=
  let minsz := offsetofend fpga_port_dma_map "iova" in
  map <- on_usr (copy_from_user arg minsz) ;;
  match map with
  | None => kret (- EFAULT)
  | Some map =>
      if (fget fpga_port_dma_map "argsz" map <? minsz)
         || istrue (fget fpga_port_dma_map "flags" map) then kret (- EINVAL)
      else
        res <- afu_dma_map_region (dmae env) (fget fpga_port_dma_map "user_addr" map)
                 (fget fpga_port_dma_map "length" map) ;;
        if istrue (fst res) then kret (fst res)
        else
          let map := match snd res with
                     | Some i => fset fpga_port_dma_map "iova" i map
                     | None => map
                     end in
          fault <- on_usr (copy_to_user arg map (sizeof_struct fpga_port_dma_map)) ;;
          if fault : bool then
            afu_dma_unmap_region (dmae env) (fget fpga_port_dma_map "iova" map) ;;
            kret (- EFAULT)
          else kret 0
  end.

Definition afu_ioctl_dma_unmap (arg : Z) : K port Z :=
  let minsz := offsetofend fpga_port_dma_unmap "iova" in
  unmap <- on_usr (copy_from_user arg minsz) ;;
  match unmap with
  | None => kret (- EFAULT)
  | Some unmap =>
      if (fget fpga_port_dma_unmap "argsz" unmap <? minsz)
         || istrue (fget fpga_port_dma_unmap "flags" unmap) then kret (- EINVAL)
      else afu_dma_unmap_region (dmae env) (fget fpga_port_dma_unmap "iova" unmap)
  end.

(** fpga_dev_for_each_feature from feature [i], [n] to go: the first sub
    feature that handles the command decides. *)
Fixpoint ioctl_features (n : nat) (i cmd arg : Z) : K port Z :=
  match n with
  | O => kret (- EINVAL)
  | S n =>
      f <- on_pd (get_feature i) ;;
      match (match f_ops f with Some o => ops_ioctl o | None => None end) with
      | Some ioctl =>
          ret <- ioctl i cmd arg ;;
          if ret =? - ENODEV then ioctl_features n (i + 1) cmd arg else kret ret
      | None => ioctl_features n (i + 1) cmd arg
      end
  end.

Definition afu_ioctl (cmd arg : Z) : K port Z :=
  if cmd =? FPGA_GET_API_VERSION then kret FPGA_API_VERSION
  else if cmd =? FPGA_CHECK_EXTENSION then afu_ioctl_check_extension arg
  else if cmd =? FPGA_PORT_GET_INFO then afu_ioctl_get_info arg
  else if cmd =? FPGA_PORT_GET_REGION_INFO then afu_ioctl_get_region_info arg
  else if cmd =? FPGA_PORT_DMA_MAP then afu_ioctl_dma_map arg
  else if cmd =? FPGA_PORT_DMA_UNMAP then afu_ioctl_dma_unmap arg
  else n <- on_pd (kgets num) ;; ioctl_features (Z.to_nat n) 0 cmd arg.

(** ** mmap *)

(** The result and the request made of remap_pfn_range, if one was: the
    first page frame and the size. *)
Definition afu_mmap (vma : vm_area) : K port (Z * option (Z * Z)) :=
  let size := u64 (vm_end vma - vm_start vma) in
  if negb (vm_shared vma) && vm_write vma then kret (- EINVAL, None)
  else
    let offset := u64 (Z.shiftl (vm_pgoff vma) PAGE_SHIFT) in
    region <- on_pd (afu_get_region_by_offset offset size) ;;
    match region with
    | inl ret => kret (ret, None)
    | inr region =>
        if negb (istrue (Z.land (rflags region) FPGA_REGION_MMAP)) then kret (- EINVAL, None)
        else if vm_read vma && negb (istrue (Z.land (rflags region) FPGA_REGION_READ)) then
          kret (- EPERM, None)
        else if vm_write vma && negb (istrue (Z.land (rflags region) FPGA_REGION_WRITE)) then
          kret (- EPERM, None)
        else
          let pfn := Z.shiftr (u64 (rphys region + (offset - roffset region))) PAGE_SHIFT in
          kret (remap_pfn_range env (vm_start vma) pfn size, Some (pfn, size))
    end.

(** ** probe and remove *)

(** devm_kzalloc: a zeroed structure. *)
Definition zeroed_afu : fpga_afu := FpgaAfu 0 0 0 0 0 [] RbNil.

Definition afu_dev_init : K port Z :=
  if negb (devm_kzalloc_ok env) then kret (- ENOMEM)
  else
    on_pd mutex_lock ;;
    on_pd (fpga_pdata_set_private (Some zeroed_afu)) ;;
    on_pd afu_region_init ;;
    on_pd afu_dma_region_init ;;
    on_pd mutex_unlock ;;
    kret 0.

Definition afu_dev_destroy : K port Z :=
  on_pd mutex_lock ;;
  on_pd fpga_pdata_get_private ;;
  on_pd afu_region_destroy ;;
  afu_dma_region_destroy (dmae env) ;;
  on_pd (fpga_pdata_set_private None) ;;
  on_pd mutex_unlock ;;
  kret 0.

Definition afu_probe : K port Z :=
  ret <- afu_dev_init ;;
  if istrue ret then kret ret
  else
    ret <- fpga_dev_feature_init port_feature_drvs ;;
    if istrue ret then afu_dev_destroy ;; kret ret
    else
      let ret := register_dev_ops_ret env in
      if istrue ret then
        fpga_dev_feature_uinit ;; afu_dev_destroy ;; kret ret
      else kret 0.

Definition afu_remove : K port Z :=
  fpga_dev_feature_uinit ;; afu_dev_destroy ;; kret 0.
End Afu.
