(* ===== verification/AfuSpec.v ===== *)
(** * Correctness of the port driver

    What the file operations of Afu.v guarantee: who has the port open, what a
    process can map, what the last close gives back, and that the callbacks of
    the port satisfy the interface the binding walk of FeatureInit.v needs. *)

From stdpp Require Import gmultiset.
From S2P Require Import Prelude.
From S2P Require Import Bitfield.
From S2P Require Import Registers.
From S2P Require Import Mmio.
From S2P Require Import UserMem.
From S2P Require Import Sysfs.
From S2P Require Import FeatureDev.
From S2P Require Import Views.
From S2P Require Import FeatureInit.
From S2P Require Import Msix.
From S2P Require Import AfuTypes.
From S2P Require Import Region.
From S2P Require Import DmaRegion.
From S2P Require Import PortEnv.
From S2P Require Import PortHdr.
From S2P Require Import PortUmsg.
From S2P Require Import AfuError.
From S2P Require Import Afu.
Local Open Scope Z_scope.

(** ** Reads of the private data change nothing *)

Lemma get_afu_pure {Op} : pure_on (@get_afu Op).
Proof. intros p a p' H. unfold get_afu in H. simpl in H. destruct (private p); simpl in H; congruence. Qed.

Lemma region_by_index_pure_private {Op} : pure_on (@fpga_pdata_get_private Op fpga_afu).
Proof. apply gets_pure. Qed.

Lemma dma_find_pure {Op} i size : pure_on (@afu_dma_region_find Op i size).
Proof. apply bind_pure; [apply get_afu_pure|]. intros. apply ret_pure. Qed.

#[export] Hint Resolve get_afu_pure dma_find_pure region_by_index_pure_private : keeps.

Section Views.
Context {D : Type} {dev : Mmio D} {rb : RbLib} {ks : Kstrto} (env : port_env).
Abbreviation port := (platform_device port_op fpga_afu (afu_world D)).

Definition set_hw (d : D) (q : port) : port :=
  set_io (World d (mm (io q)) (irqw (io q)) (kobj (io q)) (usr (io q))) q.

(** Views that hide the registers, the private data and the reset counter. *)
Class DriverView {T} (V : port -> T) := {
  view_hw : forall d q, V (set_hw d q) = V q;
  view_private : forall a q, V (set_pd (set_private a (pd q)) q) = V q;
  view_disable : forall n q, V (set_pd (set_disable_count n (pd q)) q) = V q;
}.

Context {T : Type} (V : port -> T) {dv : DriverView V}.

Lemma keeps_readq base off : keeps V (mmio_readq base off).
Proof.
  intros v q a q' Hv H. unfold mmio_readq in H. destruct (base =? 0); [discriminate|].
  injection H as _ <-. rewrite <- Hv. exact (view_hw _ q).
Qed.

Lemma keeps_writeq x base off : keeps V (mmio_writeq x base off).
Proof.
  intros v q a q' Hv H. unfold mmio_writeq in H. destruct (base =? 0); [discriminate|].
  injection H as _ <-. rewrite <- Hv. exact (view_hw _ q).
Qed.

Lemma keeps_mod_afu f : keeps V (on_pd (mod_afu f)).
Proof.
  apply keeps_on_pd. intros q a p H. unfold mod_afu, get_afu in H. simpl in H.
  destruct (private (pd q)); [|discriminate]. injection H as _ <-. apply view_private.
Qed.

Lemma keeps_disable_count (f : Z -> Z) :
  keeps V (on_pd (kmod (fun p => set_disable_count (f (disable_count p)) p))).
Proof. apply keeps_on_pd. intros q a p H. injection H as _ <-. apply view_disable. Qed.

#[local] Hint Resolve keeps_readq keeps_writeq keeps_mod_afu : keeps.

Lemma keeps_port_disable : keeps V __fpga_port_disable.
Proof.
  unfold __fpga_port_disable. keep idtac. apply (keeps_disable_count (fun _ => u32 (a + 1))).
Qed.

Lemma keeps_port_enable : keeps V __fpga_port_enable.
Proof.
  unfold __fpga_port_enable. keep idtac. apply (keeps_disable_count (fun n => u32 (n - 1))).
Qed.

Lemma keeps_port_reset : keeps V __fpga_port_reset.
Proof.
  unfold __fpga_port_reset. keep idtac; [apply keeps_port_disable|apply keeps_port_enable].
Qed.

Lemma keeps_umsg_halt : keeps V afu_port_umsg_halt.
Proof.
  unfold afu_port_umsg_halt, afu_port_umsg_enable, port_umsg_enable,
    afu_port_umsg_set_addr, port_umsg_get_addr, port_umsg_is_enabled, port_umsg_set_addr, mark_region,
    afu_port_umsg_set_mode, port_umsg_set_mode.
  keep idtac.
Qed.

Lemma keeps_err_mask m : keeps V (port_err_mask m).
Proof. unfold port_err_mask. keep idtac. Qed.

Lemma keeps_check_regs base b l : keeps V (check_regs base b l).
Proof.
  induction l as [|m l IH]; simpl check_regs; unfold port_check_reg; keep idtac.
Qed.
End Views.

#[export] Hint Resolve keeps_readq keeps_writeq keeps_mod_afu keeps_port_disable keeps_port_enable
  keeps_port_reset keeps_umsg_halt keeps_err_mask keeps_check_regs : keeps.

(** ** The callbacks satisfy the binding interface *)

Section Binding.
Context {D : Type} {dev : Mmio D} {rb : RbLib} (env : port_env).
Abbreviation port := (platform_device port_op fpga_afu (afu_world D)).

(** Names, bound operations and size of the feature table. *)
Definition table_view (q : port) := (feat_sig q, num (pd q)).

#[local] Instance table_view_driver : DriverView table_view.
Proof. constructor; by intros ? [[] []]. Qed.

Lemma table_mutex_lock : keeps table_view (on_pd mutex_lock).
Proof. apply keeps_on_pd. intros [[] ?] a p H. simpl in H. destruct lock; inv_run. done. Qed.

Lemma table_mutex_unlock : keeps table_view (on_pd mutex_unlock).
Proof. apply keeps_on_pd. intros [[] ?] a p H. simpl in H. destruct lock; inv_run. done. Qed.

Lemma table_set_priv i v : keeps table_view (on_pd (feature_set_priv i v)).
Proof.
  apply keeps_on_pd. intros q a p H. unfold feature_set_priv in H. simpl in H.
  destruct (get_feature i (pd q)) as [[f p1]|] eqn:E; [|discriminate].
  apply get_feature_inv in E as (-> & Hi & Hf). unfold put_feature in H.
  destruct (_ && _); [|discriminate]. injection H as _ <-. unfold table_view, feat_sig. simpl.
  f_equal. etransitivity; [exact (list_fmap_insert (fun f => (f_name f, f_ops f)) _ _ _)|].
  apply list_insert_id. change (map ?g ?l) with (g <$> l). by rewrite list_lookup_fmap, Hf.
Qed.

Lemma table_kobj {A} (c : K kobj_world A) : keeps table_view (on_kobj c).
Proof. by apply keeps_zoom. Qed.

#[local] Hint Resolve table_mutex_lock table_mutex_unlock table_set_priv table_kobj : keeps.

Lemma table_region_add b i sz ph fl : keeps table_view (on_pd (afu_region_add b i sz ph fl)).
Proof.
  apply keeps_on_pd. intros [p w] a p' H. unfold afu_region_add in H. simpl in H.
  destruct b; simpl in H; [|by injection H as <- <-]. destruct p; simpl in *.
  destruct lock; [discriminate|]. destruct private as [af|]; simpl in H; [|discriminate].
  destruct (get_region_by_index af i); simpl in H; injection H as <- <-; done.
Qed.

Lemma table_sysfs_create l : keeps table_view (sysfs_create_files env l).
Proof. unfold sysfs_create_files. keep idtac. Qed.

Lemma table_sysfs_remove l : keeps table_view (sysfs_remove_files l).
Proof. apply table_kobj. Qed.

Lemma table_destroy_subdev h : keeps table_view (feature_destroy_subdev h).
Proof. unfold feature_destroy_subdev. keep idtac. Qed.

#[local] Hint Resolve table_region_add table_sysfs_create table_sysfs_remove
  table_destroy_subdev table_view_driver : keeps.

Lemma table_init o i : keeps table_view (ops_init (FeatureOps := port_feature_ops env) o i).
Proof.
  destruct o; simpl; unfold port_hdr_init, port_afu_init, port_err_init, port_umsg_init,
    port_uint_init, port_stp_init, port_iopll_init, fpga_port_reset, port_umsg_get_num,
    feature_create_subdev; keep idtac.
Qed.

Lemma table_uinit o i : keeps table_view (ops_uinit (FeatureOps := port_feature_ops env) o i).
Proof.
  destruct o; simpl; unfold port_hdr_uinit, port_afu_uinit, port_err_uinit, port_iopll_uinit;
    keep idtac.
Qed.

Lemma table_test o i t :
  ops_test (FeatureOps := port_feature_ops env) o = Some t -> keeps table_view (t i).
Proof.
  destruct o; simpl; intros [= <-]; unfold port_hdr_test, port_err_test, port_umsg_test,
    port_stp_test; keep idtac.
Qed.

#[export] Instance port_feature_ops_ok :
  FeatureOpsOk port_op fpga_afu (afu_world D) (fo := port_feature_ops env).
Proof.
  assert (forall q q', table_view q' = table_view q ->
    feat_sig q' = feat_sig q /\ num (pd q') = num (pd q)) as Hv
    by (unfold table_view; intros q q'; split; congruence).
  constructor; intros o.
  - intros t i q r q' Ht H. apply Hv. by eapply (table_test o i t Ht).
  - intros i q r q' H. apply Hv. by eapply (table_init o i).
  - intros i q r q' H. apply Hv. by eapply (table_uinit o i).
Qed.
End Binding.

(** ** mmap *)

Section Mmap.
Context {D : Type} (env : port_env).
Abbreviation port := (platform_device port_op fpga_afu (afu_world D)).
Implicit Types q : port.

(** Regions are page-aligned windows of the physical address space. *)
Definition phys_ok (a : fpga_afu) : Prop :=
  Forall (fun r => 0 <= rphys r /\ rphys r + rsize r <= 2 ^ 64 /\ (PAGE_SIZE | rphys r)) (regions a).

Definition vma_ok (v : vm_area) : Prop :=
  0 <= vm_start v < vm_end v /\ vm_end v < 2 ^ 64 /\ 0 <= vm_pgoff v < 2 ^ 52.

Definition vma_offset (v : vm_area) : Z := vm_pgoff v * PAGE_SIZE.
Definition vma_size (v : vm_area) : Z := vm_end v - vm_start v.

(** The rights a mapping asks for are those the region grants. *)
Definition vma_granted (v : vm_area) (r : fpga_afu_region) : Prop :=
  istrue (Z.land (rflags r) FPGA_REGION_MMAP) = true /\
  (vm_read v = true -> istrue (Z.land (rflags r) FPGA_REGION_READ) = true) /\
  (vm_write v = true -> istrue (Z.land (rflags r) FPGA_REGION_WRITE) = true /\ vm_shared v = true).

Lemma afu_mmap_run v q a :
  lock (pd q) = false -> private (pd q) = Some a -> vma_ok v ->
  exists ret out, afu_mmap env v q = Some ((ret, out), q) /\
    match out with
    | None => ret < 0
    | Some (pfn, size) =>
        size = vma_size v /\ ret = remap_pfn_range env (vm_start v) pfn size /\
        exists r, List.find (region_covers (vma_offset v) (vma_size v)) (regions a) = Some r /\
          vma_granted v r /\
          pfn = Z.shiftr (u64 (rphys r + (vma_offset v - roffset r))) PAGE_SHIFT
    end.
Proof.
  intros Hl Hp (Hse & He & Hpg). unfold afu_mmap. fold (vma_size v).
  assert (u64 (vma_size v) = vma_size v) as -> by (apply u64_small; unfold vma_size, in_range; lia).
  assert (u64 (Z.shiftl (vm_pgoff v) PAGE_SHIFT) = vma_offset v) as ->.
  { rewrite Z.shiftl_mul_pow2 by (unfold PAGE_SHIFT; lia). apply u64_small.
    unfold vma_offset, PAGE_SHIFT, PAGE_SIZE, in_range. change (2 ^ 12) with 4096. lia. }
  destruct (negb (vm_shared v) && vm_write v) eqn:E1.
  { exists (- EINVAL), None. split; [done|]. unfold EINVAL. lia. }
  simpl. rewrite (get_by_offset_run _ _ _ a) by done.
  replace (Pdev (pd q) (io q)) with q by (by destruct q).
  destruct (List.find _ _) as [r|] eqn:Ef; simpl.
  2: { exists (- EINVAL), None. split; [done|]. unfold EINVAL. lia. }
  destruct (istrue (Z.land (rflags r) FPGA_REGION_MMAP)) eqn:E2; simpl.
  2: { exists (- EINVAL), None. split; [done|]. unfold EINVAL. lia. }
  destruct (vm_read v && negb (istrue (Z.land (rflags r) FPGA_REGION_READ))) eqn:E3.
  { exists (- EPERM), None. split; [done|]. unfold EPERM. lia. }
  destruct (vm_write v && negb (istrue (Z.land (rflags r) FPGA_REGION_WRITE))) eqn:E4.
  { exists (- EPERM), None. split; [done|]. unfold EPERM. lia. }
  eexists _, (Some (_, _)). split; [reflexivity|]. split; [done|]. split; [done|].
  exists r. split; [done|]. split; [|done]. split; [done|]. split.
  - intros Hr. rewrite Hr in E3. simpl in E3. by apply negb_false_iff.
  - intros Hw. rewrite Hw in E1, E4. rewrite andb_true_r in E1. simpl in E4.
    split; by apply negb_false_iff.
Qed.
End Mmap.

(** C24: mmap maps only device memory of the port, for a request whose file
    range ends below 2^64 (offset plus size of the VMA; [afu_mmap_escapes] is
    the counterexample otherwise).  On a port with its mutex free, whose regions
    are laid out in its file one after the other as afu_region_add places
    them and whose physical windows start on page boundaries and end below
    2^64, and for a VMA with start and end in order and a page offset in
    range, afu_mmap changes nothing in the driver and either fails or asks
    for page frames that lie entirely inside the physical window of one
    region, as many bytes as the VMA has, and only with the rights (mmap,
    read, write, no private writable mapping) that region grants. *)
Theorem afu_mmap_confined {D} (env : port_env) v
    (q : platform_device port_op fpga_afu (afu_world D)) a :
  lock (pd q) = false -> private (pd q) = Some a -> regions_wf a -> phys_ok a -> vma_ok v ->
  vma_offset v + vma_size v < 2 ^ 64 ->
  exists ret out, afu_mmap env v q = Some ((ret, out), q) /\
    match out with
    | None => ret < 0
    | Some (pfn, size) =>
        size = vma_size v /\ ret = remap_pfn_range env (vm_start v) pfn size /\
        exists r, r ∈ regions a /\ vma_granted v r /\
          rphys r <= pfn * PAGE_SIZE /\ pfn * PAGE_SIZE + size <= rphys r + rsize r
    end.
Proof.
  intros Hl Hp Hwf Hph Hv Hw. pose proof Hv as (Hse & He & Hpg).
  destruct (afu_mmap_run env v q a Hl Hp Hv) as (ret & out & Hrun & Hout).
  exists ret, out. split; [done|]. destruct out as [[pfn size]|]; [|done].
  destruct Hout as (Hs & Hret & r & Hf & Hg & Hpfn). split; [done|]. split; [done|].
  apply find_some in Hf as [Hr%list_elem_of_In Hc]. exists r. split; [done|]. split; [done|].
  assert (0 <= vma_offset v) by (unfold vma_offset, PAGE_SIZE; lia).
  apply (region_covers_iff a) in Hc as [Hlo Hhi]; [|done|done|lia|unfold vma_size; lia|done].
  pose proof Hwf as (Hlay & _). destruct (laid_out_bounds _ _ _ Hlay Hr) as (_ & _ & _ & Hdiv).
  unfold phys_ok in Hph. rewrite list.Forall_forall in Hph. destruct (Hph r Hr) as (H0 & H1 & Hdp).
  destruct Hdiv as [x Hx], Hdp as [y Hy].
  assert (pfn * PAGE_SIZE = rphys r + (vma_offset v - roffset r)) as ->.
  { rewrite Hpfn, u64_small by (unfold in_range, vma_size in *; lia).
    rewrite Z.shiftr_div_pow2 by (unfold PAGE_SHIFT; lia). change (2 ^ PAGE_SHIFT) with PAGE_SIZE.
    rewrite Hx, Hy. unfold vma_offset.
    replace (y * PAGE_SIZE + (vm_pgoff v * PAGE_SIZE - x * PAGE_SIZE))
      with ((y + (vm_pgoff v - x)) * PAGE_SIZE) by lia.
    by rewrite Z.div_mul by (unfold PAGE_SIZE; lia). }
  lia.
Qed.

(** the end of the file is a hole in that confinement: on any port whose
    most recently added region allows reading, writing and mapping, a shared
    mapping of the single page at file offset 2^64 - PAGE_SIZE, whose end wraps
    to 0, is accepted and maps the page of physical memory that ends where
    offset 0 of that region's file range would be, outside its window. *)
Lemma afu_mmap_escapes {D} (env : port_env) s r l
    (q : platform_device port_op fpga_afu (afu_world D)) a :
  lock (pd q) = false -> private (pd q) = Some a -> regions_wf a -> phys_ok a ->
  regions a = r :: l -> rflags r = region_flags -> roffset r + PAGE_SIZE <= rphys r ->
  0 <= s -> s + PAGE_SIZE < 2 ^ 64 ->
  let v := Vma s (s + PAGE_SIZE) (2 ^ 52 - 1) true true true in
  exists pfn, afu_mmap env v q
      = Some ((remap_pfn_range env s pfn PAGE_SIZE, Some (pfn, PAGE_SIZE)), q) /\
    pfn * PAGE_SIZE + PAGE_SIZE = rphys r - roffset r /\ pfn * PAGE_SIZE + PAGE_SIZE <= rphys r.
Proof.
  intros Hl Hp Hwf Hph Hreg Hfl Hroom Hs Hse v.
  assert (vma_ok v) as Hv by (unfold vma_ok, PAGE_SIZE in *; simpl; lia).
  pose proof Hwf as (Hlay & Hcur & _). rewrite Hreg in Hlay.
  destruct (laid_out_bounds _ _ r Hlay ltac:(left)) as (Ho & Hsz & Hend & [x Hx]).
  unfold phys_ok in Hph. rewrite Hreg in Hph. inversion Hph as [|? ? (H0 & H1 & [y Hy]) _]; subst.
  assert (vma_offset v = 2 ^ 64 - PAGE_SIZE /\ vma_size v = PAGE_SIZE) as [Hoff Hvs]
    by (unfold vma_offset, vma_size, PAGE_SIZE in *; simpl; lia).
  assert (List.find (region_covers (vma_offset v) (vma_size v)) (regions a) = Some r) as Hf.
  { rewrite Hreg. simpl. unfold region_covers. rewrite Hoff, Hvs.
    replace (2 ^ 64 - PAGE_SIZE + PAGE_SIZE) with (2 ^ 64) by lia.
    change (u64 (2 ^ 64)) with 0. pose proof (u64_range (roffset r + rsize r)) as [Hu _].
    replace (roffset r <=? 2 ^ 64 - PAGE_SIZE) with true; [by replace (0 <=? _) with true by lia|].
    symmetry. apply Z.leb_le. unfold PAGE_SIZE in *. lia. }
  exists (y - x - 1). split; [|unfold PAGE_SIZE in *; lia].
  unfold afu_mmap. fold (vma_size v). rewrite Hvs.
  change (u64 PAGE_SIZE) with PAGE_SIZE. change (negb (vm_shared v) && vm_write v) with false.
  change (u64 (Z.shiftl (vm_pgoff v) PAGE_SHIFT)) with (2 ^ 64 - PAGE_SIZE). cbn iota. simpl kbind.
  unfold kbind. simpl on_pd. rewrite (get_by_offset_run _ _ _ a) by done.
  rewrite Hoff, Hvs in Hf. rewrite Hf, Hfl.
  replace (Pdev (pd q) (io q)) with q by (by destruct q). simpl.
  assert (Z.shiftr (u64 (rphys r + (2 ^ 64 - PAGE_SIZE - roffset r))) PAGE_SHIFT = y - x - 1) as ->;
    [|done].
  rewrite Z.shiftr_div_pow2 by (unfold PAGE_SHIFT; lia). change (2 ^ PAGE_SHIFT) with PAGE_SIZE.
  assert (u64 (rphys r + (2 ^ 64 - PAGE_SIZE - roffset r)) = (y - x - 1) * PAGE_SIZE) as ->;
    [|by rewrite Z.div_mul by (unfold PAGE_SIZE; lia)].
  unfold u64, wrap. symmetry. apply Z.mod_unique with 1; unfold PAGE_SIZE in *; lia.
Qed.

(** A port with one region of a page and a half at 0xfe000000. *)
Definition demo_env_port : port_env :=
  PortEnv rich_env (IrqEnv (fun _ => true) (fun fd => 1000 + fd) (fun _ => 0)) (fun _ => 0)
    (fun _ => (0xfe000000, 0xfe0017ff)) true true true (fun _ _ => 1) 0 42 (fun _ _ _ => 0).

Definition open_port : platform_device port_op fpga_afu (afu_world mem_dev) :=
  Pdev (Pdata false 0 0 0 [] false (Some demo_afu) 0 []) (World ∅ w_empty (IrqWorld ∅ 0)
    (Kobj ∅ ∅ ∅) (UserMem ∅ (fun _ => true))).

Lemma demo_phys_ok : phys_ok demo_afu.
Proof. repeat constructor; simpl; try lia; by exists (0xfe000). Qed.

Lemma afu_mmap_confined_witness :
  let v := Vma 0x7000 0x8000 0 true true true in
  exists ret out, afu_mmap demo_env_port v open_port = Some ((ret, out), open_port) /\
    match out with
    | None => ret < 0
    | Some (pfn, size) =>
        size = vma_size v /\ ret = 0 /\
        exists r, r ∈ regions demo_afu /\ vma_granted v r /\
          rphys r <= pfn * PAGE_SIZE /\ pfn * PAGE_SIZE + size <= rphys r + rsize r
    end.
Proof.
  apply (afu_mmap_confined demo_env_port (Vma 0x7000 0x8000 0 true true true) open_port demo_afu);
    [reflexivity | reflexivity | exact demo_afu_wf | exact demo_phys_ok
    | unfold vma_ok; simpl; lia | reflexivity].
Defined.

Lemma afu_mmap_escapes_witness :
  exists pfn, afu_mmap demo_env_port (Vma 0x7000 (0x7000 + PAGE_SIZE) (2 ^ 52 - 1) true true true) open_port
      = Some ((0, Some (pfn, PAGE_SIZE)), open_port) /\
    pfn * PAGE_SIZE + PAGE_SIZE = 0xfe000000 - 0 /\ pfn * PAGE_SIZE + PAGE_SIZE <= 0xfe000000.
Proof.
  apply (afu_mmap_escapes demo_env_port 0x7000 (Region 0 7 0x1800 0 0xfe000000) [] open_port demo_afu);
    first [reflexivity | exact demo_afu_wf | exact demo_phys_ok | vm_compute; discriminate].
Defined.

(** ** Open and release *)

(** How often [p] has the device open. *)
Definition opens_of (p : Z) (l : list pid_info) : Z :=
  sum_by (fun x => if pid x =? p then count x else 0) l.

Lemma opens_of_cons p x l : opens_of p (x :: l) = (if pid x =? p then count x else 0) + opens_of p l.
Proof. done. Qed.
Arguments opens_of : simpl never.

(** Each process once, with a positive count; the counts add up to [n]. *)
Definition pids_wf (l : list pid_info) (n : Z) : Prop :=
  NoDup (map pid l) /\ Forall (fun x => 0 < count x) l /\ sum_by count l = n.

Lemma opens_of_notin p l : p ∉ map pid l -> opens_of p l = 0.
Proof.
  induction l as [|x l IH]; [done|]. intros Hn. apply not_elem_of_cons in Hn as [Hp Hn].
  rewrite opens_of_cons. replace (pid x =? p) with false by lia. rewrite IH by done. lia.
Qed.

Lemma bump_pid_some p l l' n :
  pids_wf l n -> bump_pid p l = Some l' ->
  pids_wf l' (n + 1) /\ forall r, opens_of r l' = opens_of r l + (if r =? p then 1 else 0).
Proof.
  intros (Hnd & Hf & Hs).
  assert (bump_pid p l = Some l' -> map pid l' = map pid l /\ Forall (fun x => 0 < count x) l' /\
    sum_by count l' = sum_by count l + 1 /\
    forall r, opens_of r l' = opens_of r l + (if r =? p then 1 else 0)) as H.
  { clear Hnd Hs. revert l'. induction l as [|x l IH]; intros l'; simpl; [done|].
    inversion Hf as [|? ? Hx Hl]; subst. destruct (Z.eqb_spec (pid x) p) as [<-|Hne].
    - intros [= <-]. simpl. split_and!; [done|constructor; simpl; [lia|done]|lia|].
      intros r. rewrite !opens_of_cons. simpl. rewrite (Z.eqb_sym r). destruct (pid x =? r); lia.
    - destruct (bump_pid p l) as [l1|]; [|done]. intros [= <-].
      destruct (IH Hl l1 eq_refl) as (H1 & H2 & H3 & H4). simpl.
      split_and!; [by rewrite H1|by constructor|lia|].
      intros r. specialize (H4 r). rewrite !opens_of_cons. lia. }
  intros Hb. destruct (H Hb) as (H1 & H2 & H3 & H4). split; [|done].
  split; [by rewrite H1|]. split; [done|lia].
Qed.

Lemma bump_pid_none p l : bump_pid p l = None -> p ∉ map pid l.
Proof.
  induction l as [|x l IH]; simpl; [set_solver|]. destruct (Z.eqb_spec (pid x) p); [done|].
  destruct (bump_pid p l); [done|]. intros _. apply not_elem_of_cons. split; [done|by apply IH].
Qed.

(** The list release_pids returns. *)
Fixpoint drop_pid (p : Z) (l : list pid_info) : list pid_info :=
  match l with
  | [] => []
  | x :: l =>
      if pid x =? p then
        if istrue (count x - 1) then PidInfo (pid x) (count x - 1) :: drop_pid p l
        else drop_pid p l
      else x :: drop_pid p l
  end.

Lemma drop_pid_notin p l : p ∉ map pid l -> drop_pid p l = l.
Proof.
  induction l as [|x l IH]; [done|]. simpl. intros Hn. apply not_elem_of_cons in Hn as [Hp Hn].
  replace (pid x =? p) with false by lia. by rewrite IH.
Qed.

Lemma drop_pid_spec p l n :
  pids_wf l n -> p ∈ map pid l ->
  pids_wf (drop_pid p l) (n - 1) /\
  forall r, opens_of r (drop_pid p l) = opens_of r l - (if r =? p then 1 else 0).
Proof.
  intros (Hnd & Hf & Hs) Hp.
  assert (map pid (drop_pid p l) `sublist_of` map pid l /\
    Forall (fun x => 0 < count x) (drop_pid p l) /\
    sum_by count (drop_pid p l) = sum_by count l - 1 /\
    forall r, opens_of r (drop_pid p l) = opens_of r l - (if r =? p then 1 else 0)) as H.
  { clear Hs. revert Hnd Hf Hp.
    induction l as [|x l IH]; simpl; [set_solver|].
    intros [Hx Hnd]%list.NoDup_cons Hf Hp. inversion Hf as [|? ? Hcx Hl]; subst.
    assert (0 <= sum_by count l).
    { apply sum_by_nonneg. intros z Hz. rewrite list.Forall_forall in Hl. specialize (Hl z Hz). simpl in Hl. lia. }
    destruct (Z.eqb_spec (pid x) p) as [<-|Hne].
    - rewrite drop_pid_notin by done. unfold istrue.
      destruct (Z.eqb_spec (count x - 1) 0) as [H1|H1]; simpl.
      + split_and!; [by apply sublist_cons|done|lia|]. intros r. rewrite !opens_of_cons. simpl.
        rewrite (Z.eqb_sym r). destruct (pid x =? r); lia.
      + split_and!; [done|constructor; simpl; [lia|done]|lia|]. intros r. rewrite !opens_of_cons. simpl.
        rewrite (Z.eqb_sym r). destruct (pid x =? r); lia.
    - apply elem_of_cons in Hp as [?|Hp]; [congruence|].
      destruct IH as (H1 & H2 & H3 & H4); [done|done|done|]. simpl.
      split_and!; [by apply sublist_skip|by constructor|lia|].
      intros r. specialize (H4 r). rewrite !opens_of_cons. lia. }
  destruct H as (H1 & H2 & H3 & H4). split; [|done]. split; [by eapply sublist_NoDup|]. split; [done|lia].
Qed.

Section OpenFile.
Context {D : Type} {dev : Mmio D} {rb : RbLib}.
Abbreviation port := (platform_device port_op fpga_afu (afu_world D)).
Implicit Types q : port.

(** What open and release keep count of. *)
Definition open_view q :=
  (lock (pd q), excl_open (pd q), open_count (pd q), pid_list (pd q), unplug (pd q), kobj (io q)).

#[local] Instance open_view_driver : DriverView open_view.
Proof. constructor; by intros ? [[] []]. Qed.

Lemma open_view_on_mm {A} (c : K dma_world A) : keeps open_view (on_mm c).
Proof. by apply keeps_zoom. Qed.

Lemma open_view_put_feature i f : keeps open_view (on_pd (put_feature i f)).
Proof.
  apply keeps_on_pd. intros q a p H. unfold put_feature in H. destruct (_ && _); [|discriminate].
  by injection H as _ <-.
Qed.

Lemma open_view_on_msix {A} i (c : K (msix_state port_op) A) : keeps open_view (on_msix i c).
Proof.
  intros v q a q' Hv H. unfold on_msix in H. destruct (get_feature i (pd q)) as [[f p]|]; [|discriminate].
  destruct (c _) as [[b s]|]; [|discriminate].
  assert (keeps open_view (on_pd (put_feature i (mfeat s)) ;; kret b : K port A)) as Hk
    by (apply keeps_bind; [apply open_view_put_feature|intros; apply keeps_ret]).
  eapply Hk; [|exact H]. exact Hv.
Qed.

#[local] Hint Resolve open_view_on_mm open_view_on_msix open_view_driver : keeps.

Lemma open_view_destroy env : keeps open_view (afu_dma_region_destroy env).
Proof.
  assert (forall r, keeps open_view (destroy_one env r)) as Hone.
  { intros r. unfold destroy_one, afu_dma_region_remove. keep idtac. }
  unfold afu_dma_region_destroy. apply keeps_bind; [apply keeps_on_pd_pure, get_afu_pure|].
  intros a. generalize (length (inorder (dma_regions a))), (rb_first (dma_regions a)).
  intros n. induction n as [|n IH]; intros [r|]; simpl destroy_loop; keep idtac; auto.
Qed.

Lemma open_view_last env : keeps open_view (last_release env).
Proof.
  unfold last_release, msix_unset_all. keep idtac. apply open_view_destroy.
Qed.

Definition set_pid_refs (p n : Z) q : port :=
  set_io (World (hw (io q)) (mm (io q)) (irqw (io q))
    (Kobj (<[p := pid_refs_of (kobj (io q)) p + n]> (pid_refs (kobj (io q))))
       (sysfs (kobj (io q))) (subdevs (kobj (io q)))) (usr (io q))) q.

Lemma refs_after p n q r :
  pid_refs_of (kobj (io (set_pid_refs p n q))) r =
  pid_refs_of (kobj (io q)) r + (if r =? p then n else 0).
Proof.
  unfold set_pid_refs. simpl. unfold pid_refs_of at 1. simpl. destruct (Z.eqb_spec r p) as [->|Hne].
  - by rewrite lookup_insert_eq.
  - rewrite lookup_insert_ne by done. unfold pid_refs_of. lia.
Qed.

Lemma release_pids_notin p l q : p ∉ map pid l -> release_pids p l q = Some (l, q).
Proof.
  revert q. induction l as [|x l IH]; intros q; [done|]. simpl. intros Hn.
  apply not_elem_of_cons in Hn as [Hp Hn]. replace (pid x =? p) with false by lia. simpl.
  by rewrite IH.
Qed.

(** A process listed once drops one reference. *)
Lemma release_pids_run p l q :
  NoDup (map pid l) -> p ∈ map pid l ->
  release_pids p l q = Some (drop_pid p l, set_pid_refs p (-1) q).
Proof.
  revert q. induction l as [|x l IH]; intros q; simpl; [set_solver|].
  intros [Hx Hnd]%list.NoDup_cons Hp. destruct (Z.eqb_spec (pid x) p) as [<-|Hne].
  - simpl. rewrite release_pids_notin by done. simpl. rewrite drop_pid_notin by done. by destruct (istrue _).
  - apply elem_of_cons in Hp as [?|Hp]; [congruence|]. simpl. by rewrite IH.
Qed.

(** Consistent bookkeeping after [n] closes by processes that were not listed:
    the mutex is free, the list accounts for the opens and those closes,
    within the range of an int, exclusive means one, and each process holds
    one reference per listed open on top of those of [k0]. *)
Record open_inv (k0 : kobj_world) (n : Z) q : Prop := {
  oi_lock : lock (pd q) = false;
  oi_excl : excl_open (pd q) = 0 \/ (excl_open (pd q) = 1 /\ open_count (pd q) = 1);
  oi_pids : pids_wf (pid_list (pd q)) (open_count (pd q) + n);
  oi_count : 0 <= open_count (pd q) /\ 0 <= n /\ open_count (pd q) + n < 2 ^ 31;
  oi_refs : forall p, pid_refs_of (kobj (io q)) p =
                      pid_refs_of k0 p + opens_of p (pid_list (pd q));
}.

Lemma open_inv_view k0 n q q' : open_view q' = open_view q -> open_inv k0 n q -> open_inv k0 n q'.
Proof.
  unfold open_view. intros [= H1 H2 H3 H4 H5 H6] [].
  constructor; rewrite ?H1, ?H2, ?H3, ?H4, ?H6; done.
Qed.

Lemma pids_wf_nonneg l n : pids_wf l n -> 0 <= n.
Proof.
  intros (_ & Hf & <-). apply sum_by_nonneg. intros x Hx. rewrite list.Forall_forall in Hf.
  specialize (Hf x Hx). simpl in Hf. lia.
Qed.

Definition with_open (ex oc : Z) (l : list pid_info) q : port :=
  set_pd (set_pid_list l (set_open_count oc (set_excl_open ex (pd q)))) q.

(** Everything afu_open does. *)
Lemma afu_open_run env (ex : bool) q :
  lock (pd q) = false ->
  let busy := istrue (if ex then open_count (pd q) else excl_open (pd q)) || unplug (pd q) in
  let ex' := if ex : bool then 1 else excl_open (pd q) in
  let me := current_pid env in
  afu_open env ex q =
  if busy then Some (- EBUSY, q)
  else match bump_pid me (pid_list (pd q)) with
       | Some l => Some (0, set_pid_refs me 1 (with_open ex' (open_count (pd q) + 1) l q))
       | None =>
           if devm_kzalloc_ok env
           then Some (0, set_pid_refs me 1
                           (with_open ex' (open_count (pd q) + 1) (PidInfo me 1 :: pid_list (pd q)) q))
           else Some (- ENOMEM, set_pid_refs me (-1) (set_pid_refs me 1
                           (with_open 0 (open_count (pd q) + 1 - 1) (pid_list (pd q)) q)))
       end.
Proof.
  intros Hl. destruct q as [[lk exo oc dc pl un pr nm fs] [h m w k u]]. simpl in *. subst.
  unfold afu_open, feature_dev_use_excl_begin, feature_dev_use_begin, __feature_dev_use_end.
  destruct ex; simpl.
  - destruct (istrue oc || un); simpl; [done|]. destruct (bump_pid _ _); simpl; [done|].
    by destruct (devm_kzalloc_ok env).
  - destruct (istrue exo || un); simpl; [done|]. destruct (bump_pid _ _); simpl; [done|].
    by destruct (devm_kzalloc_ok env).
Qed.

Lemma afu_open_inv k0 n env (ex : bool) ret q q' :
  open_inv k0 n q -> sum_by count (pid_list (pd q)) < 2 ^ 31 - 1 ->
  afu_open env ex q = Some (ret, q') -> open_inv k0 n q'.
Proof.
  intros [Hl He Hp (H0 & Hn0 & H31) Hr] Hroom H. pose proof Hp as (_ & _ & Hsum).
  rewrite afu_open_run in H by done. cbv zeta in H.
  destruct (istrue (if ex then open_count (pd q) else excl_open (pd q)) || unplug (pd q)) eqn:Eb.
  { by injection H as _ <-. }
  apply orb_false_elim in Eb as [Eb _]. unfold istrue in Eb. boolify.
  assert ((if ex then 1 else excl_open (pd q)) = 0 \/
    (if ex then 1 else excl_open (pd q)) = 1 /\ open_count (pd q) + 1 = 1) as Hex by (destruct ex; lia).
  destruct (bump_pid (current_pid env) (pid_list (pd q))) as [l|] eqn:Ebp;
    [|destruct (devm_kzalloc_ok env)]; injection H as _ <-.
  - destruct (bump_pid_some _ _ _ _ Hp Ebp) as [Hp' Hop].
    constructor; [exact Hl|exact Hex| |simpl; lia|].
    + simpl. by replace (open_count (pd q) + 1 + n) with (open_count (pd q) + n + 1) by lia.
    + intros p. rewrite refs_after. simpl. rewrite Hop, Hr. lia.
  - apply bump_pid_none in Ebp as Hn. destruct Hp as (Hnd & Hf & Hs).
    constructor; [exact Hl|exact Hex| |simpl; lia|].
    + split; [by constructor|]. split; [constructor; simpl; [lia|done]|simpl; lia].
    + intros p. rewrite refs_after. simpl. rewrite opens_of_cons, Hr. simpl. rewrite (Z.eqb_sym p).
      destruct (current_pid env =? p); lia.
  - constructor; [exact Hl|left; done| |simpl; lia|].
    + simpl. by replace (open_count (pd q) + 1 - 1) with (open_count (pd q)) by lia.
    + intros p. rewrite !refs_after. simpl. rewrite Hr. destruct (p =? current_pid env); lia.
Qed.

(** The bookkeeping of afu_release, done under the mutex before the decision
    to tear down. *)
Definition released (me : Z) q : port :=
  set_pid_refs me (-1) (set_pid_refs me (-1) (set_pid_refs me 1
    (with_open 0 (open_count (pd q) - 1) (drop_pid me (pid_list (pd q)))
       (set_pd (set_lock true (pd q)) q)))).

Lemma afu_release_run env q :
  lock (pd q) = false -> NoDup (map pid (pid_list (pd q))) ->
  current_pid env ∈ map pid (pid_list (pd q)) ->
  let q2 := released (current_pid env) q in
  afu_release env q =
  ((if istrue (open_count (pd q2)) then kret tt else last_release env) ;;
   on_pd mutex_unlock ;; kret 0) q2.
Proof.
  intros Hl Hnd Hin. destruct q as [[lk exo oc dc pl un pr nm fs] [h m w k u]]. simpl in *. subst.
  unfold afu_release, __feature_dev_use_end. simpl. rewrite release_pids_run by done. reflexivity.
Qed.

(** A close by a process that is not listed. *)
Definition foreign_released (me : Z) q : port :=
  set_pid_refs me (-1) (set_pid_refs me 1
    (with_open 0 (open_count (pd q) - 1) (pid_list (pd q)) (set_pd (set_lock true (pd q)) q))).

Lemma afu_release_foreign_run env q :
  lock (pd q) = false -> current_pid env ∉ map pid (pid_list (pd q)) ->
  let q2 := foreign_released (current_pid env) q in
  afu_release env q =
  ((if istrue (open_count (pd q2)) then kret tt else last_release env) ;;
   on_pd mutex_unlock ;; kret 0) q2.
Proof.
  intros Hl Hin. destruct q as [[lk exo oc dc pl un pr nm fs] [h m w k u]]. simpl in *. subst.
  unfold afu_release, __feature_dev_use_end. simpl. rewrite release_pids_notin by done. reflexivity.
Qed.

(** Tearing down and unlocking keep the books. *)
Lemma release_tail_inv k0 n env ret q2 q' :
  lock (pd q2) = true -> open_inv k0 n (set_pd (set_lock false (pd q2)) q2) ->
  ((if istrue (open_count (pd q2)) then kret tt else last_release env) ;;
   on_pd mutex_unlock ;; kret 0) q2 = Some (ret, q') -> open_inv k0 n q'.
Proof.
  intros Hl [_ He Hp Hc Hr] H. unfold kbind at 1 in H.
  destruct ((if istrue (open_count (pd q2)) then kret tt else last_release env) q2)
    as [[u q3]|] eqn:E; [|discriminate].
  assert (open_view q3 = open_view q2) as Hv.
  { destruct (istrue _); [by injection E as _ <-|by eapply (open_view_last env)]. }
  assert (kobj (io q3) = kobj (io q2)) as Hk by (by injection Hv).
  unfold open_view in Hv. injection Hv as Hv1 Hv2 Hv3 Hv4 _ _.
  simpl in H. rewrite Hv1, Hl in H. simpl in H. injection H as _ <-.
  constructor; simpl; rewrite ?Hv2, ?Hv3, ?Hv4; [done|exact He|exact Hp|exact Hc|].
  intros p. rewrite Hk. apply Hr.
Qed.

Lemma afu_release_inv k0 n env ret q q' :
  open_inv k0 n q -> 0 < open_count (pd q) -> afu_release env q = Some (ret, q') ->
  open_inv k0 (if decide (current_pid env ∈ map pid (pid_list (pd q))) then n else n + 1) q'.
Proof.
  intros [Hl He Hp Hc Hr] Hpos H. destruct (decide _) as [Hin|Hin].
  - destruct (drop_pid_spec _ _ _ Hp Hin) as [Hp' Hop].
    rewrite afu_release_run in H by (done || apply Hp). refine (release_tail_inv _ _ _ _ _ _ _ _ H); [done|].
    constructor; [done|by left| |simpl; lia|].
    + simpl. by replace (open_count (pd q) - 1 + n) with (open_count (pd q) + n - 1) by lia.
    + intros p. change (kobj (io (set_pd _ ?x))) with (kobj (io x)).
      unfold released. rewrite !refs_after. simpl. rewrite Hop, Hr.
      destruct (p =? current_pid env); lia.
  - rewrite afu_release_foreign_run in H by done. refine (release_tail_inv _ _ _ _ _ _ _ _ H); [done|].
    constructor; [done|by left| |simpl; lia|].
    + simpl. by replace (open_count (pd q) - 1 + (n + 1)) with (open_count (pd q) + n) by lia.
    + intros p. change (kobj (io (set_pd _ ?x))) with (kobj (io x)).
      unfold foreign_released. rewrite !refs_after. simpl. rewrite Hr.
      destruct (p =? current_pid env); lia.
Qed.

(** The life of a port file: opens, as long as the listed opens fit an int,
    releases of an open file, by whatever process, an unplug, and any other
    operation, which leaves the bookkeeping alone.  The index counts the
    releases by a process that is not listed. *)
Inductive file_step : Z -> port -> port -> Prop :=
| fs_open env ex ret q q' :
    sum_by count (pid_list (pd q)) < 2 ^ 31 - 1 ->
    afu_open env ex q = Some (ret, q') -> file_step 0 q q'
| fs_release env ret q q' :
    0 < open_count (pd q) -> afu_release env q = Some (ret, q') ->
    file_step (if decide (current_pid env ∈ map pid (pid_list (pd q))) then 0 else 1) q q'
| fs_unplug q q' : on_pd mark_unplug q = Some (tt, q') -> file_step 0 q q'
| fs_other q q' : open_view q' = open_view q -> file_step 0 q q'.

Inductive file_run : Z -> port -> port -> Prop :=
| fr_nil q : file_run 0 q q
| fr_step i n q1 q2 q3 : file_step i q1 q2 -> file_run n q2 q3 -> file_run (i + n) q1 q3.

Lemma file_step_inv k0 n i q q' : open_inv k0 n q -> file_step i q q' -> open_inv k0 (i + n) q'.
Proof.
  intros Hi Hs. destruct Hs as [env ex ret q q' Hroom H|env ret q q' Hpos H|q q' H|q q' H].
  - by eapply afu_open_inv.
  - pose proof (afu_release_inv k0 n env ret q q' Hi Hpos H) as Hi'.
    destruct (decide (_ ∈ _)); [exact Hi'|]. by rewrite Z.add_comm.
  - destruct Hi as [Hl He Hp Hc Hr]. unfold mark_unplug in H. simpl in H. rewrite Hl in H. simpl in H.
    injection H as <-. by constructor.
  - by eapply open_inv_view.
Qed.

Lemma file_run_inv k0 n i q q' : open_inv k0 n q -> file_run i q q' -> open_inv k0 (i + n) q'.
Proof.
  intros Hi Hr. revert n Hi. induction Hr as [q|i j q1 q2 q3 Hs _ IH]; intros n Hi; [done|].
  replace (i + j + n) with (j + (i + n)) by lia. apply IH. by eapply file_step_inv.
Qed.
End OpenFile.

(** ** Port information *)

Section GetInfo.
Context {D : Type}.
Abbreviation port := (platform_device port_op fpga_afu (afu_world D)).
Implicit Types q : port.

(** The counters fit the members of [struct fpga_port_info]. *)
Definition info_ok (a : fpga_afu) : Prop :=
  is_u32 (capability a) /\ is_u32 (num_regions a) /\ is_u32 (num_umsgs a) /\ is_u32 (num_uafu_irqs a).

Lemma fill_info_fields a info :
  info_ok a ->
  let get n := fget fpga_port_info n (fill_info a info) in
  get "argsz"%string = fget fpga_port_info "argsz" info /\ get "flags"%string = 0 /\
  get "capability"%string = capability a /\ get "num_regions"%string = num_regions a /\
  get "num_umsgs"%string = num_umsgs a /\ get "num_uafu_irqs"%string = num_uafu_irqs a.
Proof.
  intros (H1 & H2 & H3 & H4). unfold fill_info. cbv zeta.
  assert (struct_wf fpga_port_info = true) as Hwf by reg_tac.
  split_and!.
  1: rewrite !fget_fset_other by (exact Hwf || discriminate). reflexivity.
  all: repeat rewrite fget_fset_other by (exact Hwf || discriminate);
    rewrite fget_fset_same by (exact Hwf || reflexivity); by apply wrap_small.
Qed.

Lemma fill_info_range a info :
  0 <= info < 2 ^ 192 -> 0 <= fill_info a info < 2 ^ 192.
Proof.
  intros H. assert (in_range (total (reg_fields fpga_port_info)) (fill_info a info)) as Hr; [|exact Hr].
  unfold fill_info. cbv zeta.
  do 5 (apply fset_struct_range; [reg_tac|]). exact H.
Qed.
End GetInfo.

#[local] Opaque copy_from_user copy_to_user.

(** FPGA_PORT_GET_INFO reports the port faithfully: when the 24 bytes of
    the caller's structure can be read and written and its argsz covers them,
    the ioctl returns 0, changes nothing in the driver, the structure the
    caller reads back has its own argsz, flags 0 and the port's capability,
    region, message and interrupt counts, and no other byte of the process
    changes. *)
Lemma afu_ioctl_get_info_spec {D}
    (q : platform_device port_op fpga_afu (afu_world D)) a arg info :
  lock (pd q) = false -> private (pd q) = Some a -> info_ok a -> bytes_ok (usr (io q)) ->
  copy_from_user arg 24 (usr (io q)) = Some (Some info, usr (io q)) ->
  24 <= fget fpga_port_info "argsz" info -> can_write (usr (io q)) arg 24 ->
  exists q' info', afu_ioctl_get_info arg q = Some (0, q') /\
    pd q' = pd q /\ hw (io q') = hw (io q) /\ mm (io q') = mm (io q) /\
    copy_from_user arg 24 (usr (io q')) = Some (Some info', usr (io q')) /\
    (let get n := fget fpga_port_info n info' in
     get "argsz"%string = fget fpga_port_info "argsz" info /\ get "flags"%string = 0 /\
     get "capability"%string = capability a /\ get "num_regions"%string = num_regions a /\
     get "num_umsgs"%string = num_umsgs a /\ get "num_uafu_irqs"%string = num_uafu_irqs a) /\
    (forall x, x < arg \/ arg + 24 <= x -> ubytes (usr (io q')) !! x = ubytes (usr (io q)) !! x).
Proof.
  intros Hl Hp Hi Hb Hc Hsz Hw.
  destruct (copy_from_user_range arg 24 info _ _ Hb ltac:(lia) Hc) as [Hr _].
  change (256 ^ 24) with (2 ^ 192) in Hr. pose proof (fill_info_range a info Hr) as Hr'.
  destruct (copy_to_from_user arg (fill_info a info) 24 (usr (io q))) as (m' & Hout & Hback & Hrest);
    [lia|change (256 ^ 24) with (2 ^ 192); exact Hr'|exact Hw|].
  unfold afu_ioctl_get_info.
  change (offsetofend fpga_port_info "num_uafu_irqs") with 24.
  change (sizeof_struct fpga_port_info) with 24.
  destruct q as [p [h m w k u]]. simpl in *. rewrite Hc. simpl.
  replace (fget fpga_port_info "argsz" info <? 24) with false by lia. simpl.
  rewrite Hl. simpl. rewrite Hp. simpl. rewrite Hout. simpl.
  eexists _, (fill_info a info). split; [reflexivity|]. simpl. split; [by destruct p; simpl in *; subst|].
  split; [done|]. split; [done|]. split; [exact Hback|]. split; [by apply fill_info_fields|exact Hrest].
Qed.

#[local] Transparent copy_from_user copy_to_user.

(** A process with a zeroed structure of 24 bytes at address 64, argsz set. *)
Definition info_user : user_mem :=
  UserMem (list_to_map (zip (map (fun i => 64 + Z.of_nat i) (seq 0 24)) (le_split 24 24)))
    (fun _ => true).
Definition info_port : platform_device port_op fpga_afu (afu_world mem_dev) :=
  set_io (World ∅ w_empty (IrqWorld ∅ 0) (Kobj ∅ ∅ ∅) info_user) open_port.

Lemma info_user_bytes : bytes_ok info_user.
Proof.
  assert (map_Forall (fun _ b => 0 <= b < 256) (ubytes info_user)) as H; [|exact H].
  assert (forallb (fun p => (0 <=? snd p) && (snd p <? 256)) (map_to_list (ubytes info_user)) = true) as Hf
    by (vm_compute; reflexivity).
  rewrite forallb_forall in Hf. intros a b Hab. apply elem_of_map_to_list, list_elem_of_In, Hf in Hab.
  simpl in Hab. lia.
Qed.

Lemma afu_ioctl_get_info_witness :
  exists q' info', afu_ioctl_get_info 64 info_port = Some (0, q') /\
    copy_from_user 64 24 (usr (io q')) = Some (Some info', usr (io q')) /\
    fget fpga_port_info "num_regions" info' = 1.
Proof.
  destruct (afu_ioctl_get_info_spec info_port demo_afu 64 24)
    as (q' & info' & H1 & _ & _ & _ & H2 & (_ & _ & _ & H3 & _) & _);
    [reflexivity | reflexivity | repeat split; vm_compute; congruence | exact info_user_bytes
    | vm_compute; reflexivity | vm_compute; discriminate | |].
  - intros x Hx. split; [|reflexivity].
    assert (exists n, x = 64 + Z.of_nat n /\ (n < 24)%nat) as (n & -> & Hn)
      by (exists (Z.to_nat (x - 64)); simpl in Hx; lia).
    do 24 (destruct n as [|n]; [vm_compute; eexists; reflexivity|]). lia.
  - exists q', info'. split; [exact H1|]. split; [exact H2|exact H3].
Defined.
