(* ===== verification/AfuRelease.v ===== *)
(** * The last close of a port (afu_release)

    When the last file of a port is closed the driver detaches the interrupts,
    halts the message engine, resets the port and releases every DMA region.
    Each step is run here from its component's lemmas; the theorem puts them
    together: nothing of the process is left behind. *)

From stdpp Require Import gmultiset.
From S2P Require Import Prelude.
From S2P Require Import Bitfield.
From S2P Require Import Registers.
From S2P Require Import Mmio.
From S2P Require Import UserMem.
From S2P Require Import Sysfs.
From S2P Require Import FeatureDev.
From S2P Require Import Views.
From S2P Require Import FeatureInit.
From S2P Require Import Msix.
From S2P Require Import AfuTypes.
From S2P Require Import Region.
From S2P Require Import DmaRegion.
From S2P Require Import PortEnv.
From S2P Require Import PortHdr.
From S2P Require Import PortUmsg.
From S2P Require Import AfuError.
From S2P Require Import Afu.
From S2P Require Import AfuSpec.
Local Open Scope string_scope.
Local Open Scope Z_scope.

Section Release.
Context {D : Type} {dev : Mmio D} {ok : MmioOk D} {mem : MmioMem D} {rb : RbLib} {rbok : RbLibOk}.
Abbreviation port := (platform_device port_op fpga_afu (afu_world D)).
Implicit Types q : port.

(** Only registers and the private data differ. *)
Definition same_rest q q' : Prop :=
  pd q' = set_private (private (pd q')) (pd q) /\ mm (io q') = mm (io q) /\
  irqw (io q') = irqw (io q) /\ kobj (io q') = kobj (io q) /\ usr (io q') = usr (io q).

Lemma same_rest_refl q : same_rest q q.
Proof. split_and!; try done. by destruct q as [[] ?]. Qed.

Lemma same_rest_trans q1 q2 q3 : same_rest q1 q2 -> same_rest q2 q3 -> same_rest q1 q3.
Proof.
  intros (H1 & H2 & H3 & H4 & H5) (H6 & H7 & H8 & H9 & H10). split_and!; try congruence.
  rewrite H6, H1. by destruct q1 as [[] ?].
Qed.

Lemma same_rest_reg a v q : same_rest q (set_reg a v q).
Proof. split_and!; try done. by destruct q as [[] ?]. Qed.

Lemma same_rest_marked r b q : same_rest q (marked r b q).
Proof.
  unfold same_rest, marked, set_tree. destruct q as [[] ?]. simpl. by destruct private.
Qed.

(** *** The message engine *)

Definition span (r : fpga_afu_dma_region) : Z * Z := (iova r, length_ r).

Lemma span_mark i b x : span (mark i b x) = span x.
Proof. unfold span. by rewrite iova_mark, length_mark. Qed.

Lemma left_mapped_span l k : map span l = map span k -> left_mapped l = left_mapped k.
Proof.
  revert k. induction l as [|x l IH]; intros [|y k]; try done. intros [= Hi Hl He].
  rewrite (left_mapped_cons x), (left_mapped_cons y), (IH k He). f_equal.
  unfold left_mapped. rewrite !filter_cons, !filter_nil, Hi. by destruct (decide _); simpl; rewrite ?Hi, ?Hl.
Qed.

Lemma enable_off_run base q :
  feature_at PORT_FEATURE_ID_UMSG base q ->
  exists q', afu_port_umsg_enable false q = Some (0, q') /\ umsg_enabled base q' = false /\
    (q' = q \/ exists v, q' = set_reg (base + umsg_reg "capability") v q).
Proof.
  intros Hf. unfold afu_port_umsg_enable, port_umsg_enable. simpl.
  rewrite (feature_at_run _ _ _ Hf). simpl. pose proof Hf as (_ & Hb & _).
  replace (Pdev (pd q) (io q)) with q by (by destruct q). rewrite mmio_readq_run by done.
  fold (umsg_enabled base q). destruct (umsg_enabled base q) eqn:E; simpl.
  - rewrite mmio_writeq_run by done. eexists. split; [reflexivity|]. split; [|right; by eexists].
    unfold umsg_enabled. rewrite reg_at_set_same by (apply fset_range; [reg_tac|apply readq_u64]).
    by rewrite fget_fset_same by reg_tac.
  - exists q. split; [done|]. split; [done|by left].
Qed.

(** The register is clear or points into a region (it need not, when the
    48-bit field truncated the address). *)
Definition base_known (base : Z) q : Prop :=
  umsg_base base q = 0 \/
  exists r, r ∈ regions_of q /\ contains r (umsg_base base q) (umsg_size q).

(** Clearing the base address of a halted engine then works. *)
Lemma clear_addr_run w0 base q :
  umsg_ok w0 base q -> base_known base q -> disjoint_spans (regions_of q) ->
  umsg_enabled base q = false ->
  exists q', afu_port_umsg_set_addr 0 q = Some (0, q') /\ umsg_base base q' = 0 /\
    (q' = q \/ exists r, q' = marked r false (with_base base 0 q)).
Proof.
  intros (Hinv & Hf & Hn & _) Hprot Hd Hen. pose proof Hinv as ([a Ha] & Has & Hall & _).
  assert (num_umsgs a * PAGE_SIZE = umsg_size q) as Hsz
    by (unfold umsg_size, num_umsgs_of; by rewrite Ha).
  assert (Pdev (pd q) (io q) = q) as Hq by (by destruct q).
  unfold afu_port_umsg_set_addr. unfold kbind at 1. simpl on_pd. rewrite Ha. simpl. rewrite Hq, Hsz.
  rewrite (is_enabled_run base) by done. rewrite Hen. unfold kbind at 1.
  rewrite (get_addr_run base) by done. unfold istrue.
  destruct (Z.eqb_spec (umsg_base base q) 0) as [H0|H0]; cbn [negb].
  { exists q. split; [done|]. split; [done|by left]. }
  destruct Hprot as [?|(r & Hr & Hc)]; [done|].
  assert (Forall span_ok (regions_of q)) as Hsp
    by (eapply Forall_impl; [|exact Hall]; by intros ? (? & _)).
  rewrite list.Forall_forall in Hsp. pose proof (Hsp r Hr) as (Hi0 & Hlen & Hend).
  assert (0 <= umsg_size q) as Hs0 by (unfold umsg_size, PAGE_SIZE; lia).
  assert (0 <= umsg_base base q) as Hb0.
  { apply (fget_range feature_port_umsg_baseaddr "base_addr" _ ltac:(reg_tac)). }
  assert (umsg_base base q + umsg_size q < 2 ^ 64) as Hw.
  { unfold contains in Hc. destruct (Z.eqb_spec (umsg_size q) 0) as [E|E]; lia. }
  rewrite u64_small by (unfold in_range; lia). replace (_ <? _) with false by lia.
  destruct (rb_find_complete (umsg_base base q) (umsg_size q) (tree_of_port q) r) as [x Hx];
    [done|by apply list.Forall_forall|done|done|done|by right|done|done|].
  unfold kbind at 1, afu_dma_region_find. simpl on_pd. rewrite Ha. simpl.
  unfold tree_of_port in Hx. rewrite Ha in Hx. rewrite Hx, Hq.
  unfold kbind. rewrite (set_addr_run base) by done. rewrite mark_region_run by (by eexists).
  eexists. split; [reflexivity|]. split; [|right; by eexists].
  destruct (framed_same _ _ (marked_framed x false (with_base base 0 q) ltac:(by eexists))) as (Hreg & _).
  unfold umsg_base. rewrite Hreg. apply (umsg_base_with base 0 q).
Qed.

Lemma clear_mode_run base q :
  feature_at PORT_FEATURE_ID_UMSG base q -> is_Some (private (pd q)) -> num_umsgs_of q < 32 ->
  exists v, afu_port_umsg_set_mode 0 q = Some (0, set_reg (base + umsg_reg "mode") v q).
Proof.
  intros Hf [a Ha] Hn. unfold num_umsgs_of in Hn. rewrite Ha in Hn.
  assert (Pdev (pd q) (io q) = q) as Hq by (by destruct q).
  unfold afu_port_umsg_set_mode. simpl. rewrite Ha. simpl. rewrite Hq.
  replace (32 <=? num_umsgs a) with false by lia. rewrite Z.shiftr_0_l. simpl.
  unfold port_umsg_set_mode. simpl. rewrite (feature_at_run _ _ _ Hf). simpl.
  pose proof Hf as (_ & Hb & _). rewrite mmio_readq_run, mmio_writeq_run by done. simpl.
  eexists. reflexivity.
Qed.

Lemma halt_run w0 base q :
  umsg_ok w0 base q -> base_known base q -> num_umsgs_of q < 32 -> disjoint_spans (regions_of q) ->
  exists q', afu_port_umsg_halt q = Some (tt, q') /\ umsg_ok w0 base q' /\
    umsg_base base q' = 0 /\ umsg_enabled base q' = false /\ same_rest q q' /\
    map span (regions_of q') = map span (regions_of q).
Proof.
  assert (umsg_reg "capability" = 8 /\ umsg_reg "baseaddr" = 16 /\ umsg_reg "mode" = 24)
    as (Hr8 & Hr16 & Hr24) by done.
  intros Hok Hkn Hn Hd. pose proof Hok as (Hinv & Hf & _). pose proof Hinv as (Hs & _).
  unfold afu_port_umsg_halt. unfold kbind at 1. unfold is_feature_present. simpl on_pd.
  rewrite (feature_at_run _ _ _ Hf). simpl.
  replace (Pdev (pd q) (io q)) with q by (by destruct q).
  pose proof Hf as (_ & Hb & _). unfold istrue. replace (base =? 0) with false by lia. simpl.
  destruct (enable_off_run base q Hf) as (q1 & Hr1 & He1 & Hq1). rewrite Hr1.
  assert (umsg_ok w0 base q1) as Hok1 by (by eapply umsg_ok_enable).
  assert (regions_of q1 = regions_of q /\ same_rest q q1 /\ num_umsgs_of q1 = num_umsgs_of q)
    as (Hg1 & Hs1 & Hn1).
  { destruct Hq1 as [->|[v ->]]; (split; [done|]); (split; [|done]);
      [apply same_rest_refl|apply same_rest_reg]. }
  assert (base_known base q1) as Hkn1.
  { unfold base_known, umsg_base. rewrite Hg1. unfold umsg_size. rewrite Hn1.
    destruct Hq1 as [->|[v ->]]; [done|]. rewrite reg_at_set_other by lia. exact Hkn. }
  destruct (clear_addr_run w0 base q1 Hok1 Hkn1) as (q2 & Hr2 & Hb2 & Hq2); [by rewrite Hg1|done|].
  rewrite Hr2. destruct (umsg_ok_set_addr w0 base 0 0 q1 q2 Hok1 ltac:(done) Hr2) as [Hok2 _].
  pose proof Hok1 as (((a1 & Ha1) & _) & _).
  assert (umsg_enabled base q2 = false /\ same_rest q1 q2 /\ num_umsgs_of q2 = num_umsgs_of q1 /\
    map span (regions_of q2) = map span (regions_of q1)) as (He2 & Hs2 & Hn2 & Hi2).
  { destruct Hq2 as [->|[r ->]]; [split_and!; try done; apply same_rest_refl|].
    destruct (framed_same _ _ (marked_framed r false (with_base base 0 q1) ltac:(by eexists)))
      as (Hreg & _ & Hnum).
    split; [|split; [|split; [exact Hnum|]]].
    - unfold umsg_enabled. rewrite Hreg. unfold with_base. by rewrite reg_at_set_other by lia.
    - eapply same_rest_trans; [apply same_rest_reg|apply same_rest_marked].
    - rewrite regions_of_marked by (by eexists). change (regions_of (with_base base 0 q1)) with (regions_of q1).
      rewrite map_map. apply map_ext. intros x. apply span_mark. }
  pose proof Hok2 as (((a2 & Ha2) & _) & Hf2 & _).
  destruct (clear_mode_run base q2 Hf2) as (v & Hr3); [by eexists|lia|]. rewrite Hr3.
  exists (set_reg (base + umsg_reg "mode") v q2). split; [done|].
  split; [by apply umsg_ok_set_reg|]. split; [|split; [|split]].
  - unfold umsg_base. rewrite reg_at_set_other by lia. exact Hb2.
  - unfold umsg_enabled. rewrite reg_at_set_other by lia. exact He2.
  - eapply same_rest_trans; [exact Hs1|]. eapply same_rest_trans; [exact Hs2|apply same_rest_reg].
  - change (regions_of (set_reg (base + umsg_reg "mode") v q2)) with (regions_of q2).
    by rewrite Hi2, Hg1.
Qed.

(** *** The reset *)

Lemma reset_run hdr q :
  feature_at PORT_FEATURE_ID_HEADER hdr q -> 0 <= disable_count (pd q) < 2 ^ 32 - 1 ->
  exists q', __fpga_port_reset q = Some (0, q') /\ pd q' = pd q /\ same_rest q q' /\
    (forall a, a <> control_addr hdr -> reg_at a q' = reg_at a q) /\
    (disable_count (pd q) = 0 -> sftrst hdr q' = 0).
Proof.
  intros Hf Hc. pose proof (header_at _ _ Hf) as Hh. unfold __fpga_port_reset. unfold kbind at 1.
  rewrite (__fpga_port_disable_run hdr) by done. fold (hold hdr q). simpl.
  rewrite (__fpga_port_enable_run hdr); [|apply header_at; by apply feature_at_hold|
    rewrite hold_count; lia].
  fold (release hdr (hold hdr q)). eexists. split; [reflexivity|].
  assert (pd (release hdr (hold hdr q)) = pd q) as Hpd by (apply pd_release_hold; [lia|done]).
  split; [exact Hpd|]. split; [|split].
  - split_and!; [rewrite Hpd; by destruct q as [[] ?]|..];
      unfold release, hold; destruct (istrue _), (1 <? _); done.
  - intros a Ha. unfold release, hold. destruct (istrue _), (1 <? _); try done;
      unfold reg_at, set_sftrst; simpl; by rewrite ?mem_write_other by congruence.
  - intros H0. unfold release. rewrite hold_count, H0 by lia. apply sftrst_set.
Qed.

(** *** The interrupts *)

Definition at_features (F : list (feature port_op)) (w : irq_world) q : port :=
  Pdev (set_features F (pd q)) (World (hw (io q)) (mm (io q)) w (kobj (io q)) (usr (io q))).

Lemma unset_run env r0 i f q :
  0 <= i -> features (pd q) !! Z.to_nat i = Some f -> f_ctx_num f < 2 ^ 32 ->
  msix_wf r0 (MsixState f (irqw (io q))) ->
  exists ret s', msix_unset_all env i q =
      Some (ret, at_features (<[Z.to_nat i := mfeat s']> (features (pd q))) (mworld s') q) /\
    msix_wf r0 s' /\ others_kept (MsixState f (irqw (io q))) s' /\ (forall k, trigger_of s' k = None).
Proof.
  intros Hi Hf Hn Hwf.
  destruct (unset_all_run (irqe env) r0 (MsixState f (irqw (io q))) Hwf Hn)
    as (ret & s' & Hrun & Hwf' & Hk & Ht).
  exists ret, s'. split; [|done]. unfold msix_unset_all, kbind. simpl on_pd.
  rewrite (get_feature_run _ _ _ Hi Hf). unfold on_msix. simpl pd.
  rewrite (get_feature_run _ _ _ Hi Hf). simpl in Hrun. simpl io. rewrite Hrun. simpl.
  unfold put_feature. simpl. apply lookup_lt_Some in Hf as Hlt.
  replace (0 <=? i) with true by lia. apply Nat.ltb_lt in Hlt. rewrite Hlt. done.
Qed.

Lemma armed_none (s : msix_state port_op) : (forall k, trigger_of s k = None) -> armed s = 0.
Proof.
  unfold armed, trigger_of. generalize (f_ctx (mfeat s)). intros l H.
  induction l as [|c l IH]; [done|]. simpl. pose proof (H 0%nat) as H0. simpl in H0. rewrite H0.
  rewrite IH; [done|]. intros k. exact (H (S k)).
Qed.

(** Both interrupt blocks are consistent, on different lines; [r0] eventfd
    references belong to others. *)
Record irqs_ready (r0 : Z) (f1 f3 : feature port_op) (w : irq_world) : Prop := {
  ir_err : msix_wf (r0 + armed (MsixState f3 w)) (MsixState f1 w);
  ir_uint : msix_wf (r0 + armed (MsixState f1 w)) (MsixState f3 w);
  ir_lines : forall line, line ∈ irqs (MsixState f1 w) -> line ∉ irqs (MsixState f3 w);
  ir_num1 : f_ctx_num f1 < 2 ^ 32;
  ir_num3 : f_ctx_num f3 < 2 ^ 32;
}.

(** No vector of the feature has a trigger, no handler is left on its lines. *)
Definition quiet (f : feature port_op) (w : irq_world) : Prop :=
  (forall c, c ∈ f_ctx f -> trigger c = None) /\
  (forall c, c ∈ f_ctx f -> handlers w !! irq c = None).

Lemma quiet_of r0 (s : msix_state port_op) :
  msix_wf r0 s -> (forall k, trigger_of s k = None) -> quiet (mfeat s) (mworld s).
Proof.
  intros (_ & _ & Hf & _) Ht. assert (forall c, c ∈ f_ctx (mfeat s) -> trigger c = None) as H.
  { intros c Hc. apply list_elem_of_lookup in Hc as [k Hk]. specialize (Ht k).
    unfold trigger_of in Ht. by rewrite Hk in Ht. }
  split; [done|]. intros c Hc. rewrite list.Forall_forall in Hf. destruct (Hf c Hc) as [-> _]. auto.
Qed.

Lemma irqs_run env r0 f1 f3 q :
  features (pd q) !! 1%nat = Some f1 -> features (pd q) !! 3%nat = Some f3 ->
  irqs_ready r0 f1 f3 (irqw (io q)) ->
  exists f1' f3' w',
    (msix_unset_all env PORT_FEATURE_ID_ERROR ;; msix_unset_all env PORT_FEATURE_ID_UINT ;; kret tt) q
      = Some (tt, at_features (<[3%nat := f3']> (<[1%nat := f1']> (features (pd q)))) w' q) /\
    quiet f1' w' /\ quiet f3' w' /\ eventfd_refs w' = r0 /\
    f_ioaddr f1' = f_ioaddr f1 /\ f_ioaddr f3' = f_ioaddr f3.
Proof.
  intros H1 H3 [Hwf1 Hwf3 Hlines Hn1 Hn3].
  destruct (unset_run env _ PORT_FEATURE_ID_ERROR f1 q ltac:(done) H1 Hn1 Hwf1)
    as (ret1 & s1 & Hr1 & Hw1 & (Hi1 & Ho1 & Hm1) & Ht1).
  set (q1 := at_features (<[Z.to_nat PORT_FEATURE_ID_ERROR := mfeat s1]> (features (pd q)))
               (mworld s1) q) in *.
  assert (features (pd q1) !! 3%nat = Some f3) as H3'
    by (simpl; rewrite list_lookup_insert_ne by done; exact H3).
  assert (msix_wf r0 (MsixState f3 (irqw (io q1)))) as Hwf3'.
  { destruct Hwf3 as (Ha & Hb & Hc & _). split; [done|]. split; [done|]. split.
    - simpl. apply list.Forall_forall. intros c Hin. rewrite list.Forall_forall in Hc.
      destruct (Hc c Hin) as [Hh Hp]. split; [|done]. rewrite <- Hh. simpl. apply Ho1.
      intros Hbad. apply (Hlines _ Hbad). apply list_elem_of_fmap. by exists c.
    - destruct Hw1 as (_ & _ & _ & Hrefs). simpl. rewrite Hrefs, (armed_none _ Ht1).
      unfold armed. simpl. lia. }
  destruct (unset_run env r0 PORT_FEATURE_ID_UINT f3 q1 ltac:(done) H3' Hn3 Hwf3')
    as (ret3 & s3 & Hr3 & Hw3 & (Hi3 & Ho3 & Hm3) & Ht3).
  exists (mfeat s1), (mfeat s3), (mworld s3). split; [simpl; rewrite Hr1, Hr3; done|].
  assert (quiet (mfeat s1) (mworld s1)) as [Hq1 Hq1'] by (by eapply quiet_of).
  split; [|split; [by eapply quiet_of|split; [|by rewrite Hm1, Hm3]]].
  - split; [done|]. intros c Hc. specialize (Hq1' c Hc). rewrite <- Hq1'. apply Ho3.
    intros Hbad. apply (Hlines (irq c)); [|done]. rewrite <- Hi1. apply list_elem_of_fmap. by exists c.
  - destruct Hw3 as (_ & _ & _ & Hrefs). rewrite Hrefs, (armed_none _ Ht3). lia.
Qed.

(** *** All together *)

Record port_ready (w0 : dma_world) (r0 hdr base : Z) (f1 f3 : feature port_op) q : Prop := {
  pr_umsg : umsg_ok w0 base q;
  pr_num : num_umsgs_of q < 32;
  pr_disjoint : disjoint_spans (regions_of q);
  pr_base : base_known base q;
  pr_hdr : feature_at PORT_FEATURE_ID_HEADER hdr q;
  pr_err : features (pd q) !! 1%nat = Some f1;
  pr_uint : features (pd q) !! 3%nat = Some f3;
  pr_irqs : irqs_ready r0 f1 f3 (irqw (io q));
  pr_count : 0 <= disable_count (pd q) < 2 ^ 32 - 1;
  pr_apart : control_addr hdr <> base + umsg_reg "baseaddr" /\
             control_addr hdr <> base + umsg_reg "capability";
}.

Definition feat_irq_view q := (features (pd q), irqw (io q), disable_count (pd q)).

Lemma destroy_feat_irq env : keeps feat_irq_view (afu_dma_region_destroy env).
Proof.
  assert (forall A (c : K dma_world A), keeps feat_irq_view (on_mm c)) as Hmm
    by (intros; by apply keeps_zoom).
  assert (forall f, keeps feat_irq_view (on_pd (mod_afu f))) as Hmod.
  { intros f. apply keeps_on_pd. intros q a p H. unfold mod_afu, get_afu in H. simpl in H.
    destruct (private (pd q)); [|discriminate]. by injection H as _ <-. }
  unfold afu_dma_region_destroy. apply keeps_bind; [apply keeps_on_pd_pure, get_afu_pure|].
  intros a. generalize (length (inorder (dma_regions a))), (rb_first (dma_regions a)).
  intros n. induction n as [|n IH]; intros [r|]; simpl destroy_loop; unfold destroy_one,
    afu_dma_region_remove; keep idtac; auto.
Qed.

Lemma last_release_run env w0 r0 hdr base f1 f3 q :
  mm_present (dmae env) = true -> port_ready w0 r0 hdr base f1 f3 q ->
  exists q' f1' f3', last_release env q = Some (tt, q') /\
    features (pd q') = <[3%nat := f3']> (<[1%nat := f1']> (features (pd q))) /\
    quiet f1' (irqw (io q')) /\ quiet f3' (irqw (io q')) /\ eventfd_refs (irqw (io q')) = r0 /\
    regions_of q' = [] /\ mm (io q') = plus_maps (left_mapped (regions_of q)) w0 /\
    umsg_base base q' = 0 /\ umsg_enabled base q' = false /\
    (disable_count (pd q) = 0 -> sftrst hdr q' = 0).
Proof.
  intros Hm [Humsg Hnum Hdis Hkn Hhdr Herr Huint Hirq Hcnt [Hap1 Hap2]].
  destruct (irqs_run env r0 f1 f3 q Herr Huint Hirq) as
    (f1' & f3' & w' & Hr & Hq1 & Hq3 & Hrefs & Hio1 & Hio3).
  set (F := <[3%nat := f3']> (<[1%nat := f1']> (features (pd q)))) in *.
  set (q1 := at_features F w' q) in *.
  assert (forall i f, i <> 1%nat -> i <> 3%nat -> features (pd q) !! i = Some f ->
    features (pd q1) !! i = Some f) as HF.
  { intros i f Hi1 Hi3 Hf. simpl. unfold F. by rewrite !list_lookup_insert_ne by done. }
  assert (umsg_ok w0 base q1) as Hu1.
  { destruct Humsg as (Ha & (Hb1 & Hb2 & f & Hf & Hfio) & Hc). split; [exact Ha|].
    split; [|exact Hc]. split; [done|]. split; [done|]. exists f. split; [|done]. by apply HF. }
  destruct (halt_run w0 base q1 Hu1 Hkn Hnum Hdis) as (q2 & Hr2 & Hu2 & Hb2 & He2 & Hs2 & Hi2).
  destruct Hs2 as (Hpd2 & Hmm2 & Hiw2 & Hko2 & Hus2).
  assert (features (pd q2) = F /\ disable_count (pd q2) = disable_count (pd q)) as [HF2 Hdc2]
    by (rewrite Hpd2; done).
  destruct (reset_run hdr q2) as (q3 & Hr3 & Hpd3 & (_ & Hmm3 & Hiw3 & _) & Hreg3 & Hsf3).
  { destruct Hhdr as (Ha & Hb & f & Hf & Hfio). split; [done|]. split; [done|].
    exists f. split; [|done]. rewrite HF2. apply (HF _ f); done. }
  { by rewrite Hdc2. }
  assert (dma_inv w0 q3 /\ regions_of q3 = regions_of q2) as [Hinv3 Hreg3'].
  { unfold dma_inv, regions_of, tree_of_port. rewrite Hpd3, Hmm3. split; [|done].
    apply Hu2. }
  destruct (region_destroy_run (dmae env) w0 q3 Hm Hinv3) as (q4 & Hr4 & Hg4 & Hmm4 & Hhw4 & Hiw4).
  assert (feat_irq_view q4 = feat_irq_view q3) as Hv4 by (by eapply destroy_feat_irq).
  injection Hv4 as Hfe4 _ _.
  rewrite Hreg3', (left_mapped_span _ _ Hi2) in Hmm4.
  exists q4, f1', f3'.
  assert (forall a, reg_at a q4 = reg_at a q3) as Hreg4 by (intros a; unfold reg_at; by rewrite Hhw4).
  split; [|rewrite Hfe4, Hpd3, HF2, Hiw4, Hiw3, Hiw2; split_and!; try done].
  - unfold last_release. unfold kbind in Hr |- *.
    destruct (msix_unset_all env PORT_FEATURE_ID_ERROR q) as [[? qa]|]; [|discriminate].
    destruct (msix_unset_all env PORT_FEATURE_ID_UINT qa) as [[? qb]|]; [|discriminate].
    simpl in Hr. injection Hr as ->. rewrite Hr2, Hr3. exact Hr4.
  - unfold umsg_base. rewrite Hreg4, Hreg3 by congruence. exact Hb2.
  - unfold umsg_enabled. rewrite Hreg4, Hreg3 by congruence. exact He2.
  - intros H0. unfold sftrst, control_of in *. simpl. rewrite Hhw4. apply Hsf3. by rewrite Hdc2.
Qed.

Lemma port_ready_released me w0 r0 hdr base f1 f3 q :
  port_ready w0 r0 hdr base f1 f3 q -> port_ready w0 r0 hdr base f1 f3 (released me q).
Proof. intros [H1 H2 H3 H4 H5 H6 H7 H8 H9 H10]. constructor; assumption. Qed.
End Release.

(** C1: the last close gives everything back but what the code skips.  The port
    is open once, by one process with an address space, which now closes it
    ([open_count] 1, the only entry of the pid list its own, with count 1),
    with the mutex free.  Its interrupt tables are consistent and on different
    lines; its DMA regions are ordered, non-overlapping and account for what
    the process holds on top of [w0]; fewer than 32 messages; the UMSG base
    register is clear or points into one of the regions, which is marked in
    use; header and UMSG blocks mapped and apart; disable count in range.  Then afu_release succeeds, the
    mutex is free, nobody is listed as having the port open, no vector has a
    trigger or a handler and every eventfd reference is dropped, no DMA region
    is left, locked pages and page references are those of [w0] and so are the
    mappings, except that the mapping of a region at I/O address 0 stays, the
    message engine is off with no buffer, and the port is out of reset if
    nobody else holds it there (disable count 0). *)
Theorem afu_release_tears_down {D} {dev : Mmio D} {ok : MmioOk D} {mem : MmioMem D}
    {rb : RbLib} {rbok : RbLibOk} env w0 r0 hdr base f1 f3
    (q : platform_device port_op fpga_afu (afu_world D)) :
  mm_present (dmae env) = true -> lock (pd q) = false -> open_count (pd q) = 1 ->
  pid_list (pd q) = [PidInfo (current_pid env) 1] -> port_ready w0 r0 hdr base f1 f3 q ->
  exists q' f1' f3', afu_release env q = Some (0, q') /\
    lock (pd q') = false /\ open_count (pd q') = 0 /\ excl_open (pd q') = 0 /\ pid_list (pd q') = [] /\
    features (pd q') = <[3%nat := f3']> (<[1%nat := f1']> (features (pd q))) /\
    quiet f1' (irqw (io q')) /\ quiet f3' (irqw (io q')) /\ eventfd_refs (irqw (io q')) = r0 /\
    regions_of q' = [] /\ locked_vm (mm (io q')) = locked_vm w0 /\
    page_refs (mm (io q')) = page_refs w0 /\
    dma_maps (mm (io q')) = dma_maps w0 ⊎ left_mapped (regions_of q) /\
    umsg_base base q' = 0 /\ umsg_enabled base q' = false /\
    (disable_count (pd q) = 0 -> sftrst hdr q' = 0).
Proof.
  intros Hm Hl Hoc Hpl Hr.
  rewrite afu_release_run; [|done|rewrite Hpl; simpl; apply NoDup_singleton|rewrite Hpl; left].
  set (q2 := released (current_pid env) q).
  assert (open_count (pd q2) = 0 /\ pid_list (pd q2) = [] /\ lock (pd q2) = true /\
    disable_count (pd q2) = disable_count (pd q)) as (Hoc2 & Hpl2 & Hl2 & Hdc2).
  { unfold q2, released. simpl. rewrite Hoc, Hpl. simpl. by rewrite Z.eqb_refl. }
  destruct (last_release_run env w0 r0 hdr base f1 f3 q2 Hm (port_ready_released _ _ _ _ _ _ _ _ Hr))
    as (q3 & f1' & f3' & Hrun & Hfe & Hq1 & Hq3 & Hrefs & Hreg & Hmm & Hub & Hue & Hsf).
  assert (open_view q3 = open_view q2) as Hv by (by eapply (open_view_last env)).
  change (regions_of q2) with (regions_of q) in Hmm.
  exists (set_pd (set_lock false (pd q3)) q3), f1', f3'.
  unfold open_view in Hv. injection Hv as Hv1 Hv2 Hv3 Hv4 _ _.
  split; [|split_and!; simpl; try done; try (by rewrite Hmm); try congruence].
  - rewrite Hoc2. change (istrue 0) with false. cbn iota. unfold kbind at 1. rewrite Hrun. simpl.
    by rewrite Hv1.
  - rewrite Hv3. lia.
  - rewrite Hv4, Hpl. simpl. by rewrite Z.eqb_refl.
Qed.

(** A port opened once by process 42: an armed error vector, an enabled message
    engine writing to a marked DMA region, another region at I/O address 0. *)
Definition busy_node : fpga_afu_dma_region := set_in_use true demo_node.
Definition busy_nodes : list fpga_afu_dma_region := [zero_node; busy_node].
Definition err_vec : feature port_op :=
  Feature (Some "port_err") 0 8192 [IrqCtx (Some 1007) PLive 40] 1 (Some port_err_ops) None.
Definition uint_vec : feature port_op :=
  Feature (Some "port_uint") 0 16384 [IrqCtx None PNull 41] 1 (Some port_uint_ops) None.
Definition busy_port : platform_device port_op fpga_afu (afu_world mem_dev) :=
  Pdev (Pdata false 0 1 0 [PidInfo 42 1] false
          (Some (set_num_umsgs 1 (set_dma_regions (tree_of busy_nodes) demo_afu))) 7
          [Feature (Some "port_hdr") 0 4096 [] 0 (Some port_hdr_ops) None; err_vec;
           Feature (Some "port_umsg") 0 12288 [] 0 (Some port_umsg_ops) None; uint_vec;
           empty_feature; empty_feature; empty_feature])
    (World (<[12288 + 16 := 0x40000]> {[12288 + 8 := Z.lor 1 (Z.shiftl 1 8)]})
       (holding busy_nodes w_empty) (IrqWorld {[40 := 1007]} 1) (Kobj {[42 := 1]} ∅ ∅)
       (UserMem ∅ (fun _ => true))).

Lemma busy_port_ready : port_ready w_empty 0 4096 12288 err_vec uint_vec busy_port.
Proof.
  assert (feature_at PORT_FEATURE_ID_UMSG 12288 busy_port) as Hf.
  { split; [done|]. split; [done|]. by eexists. }
  assert (dma_inv w_empty busy_port) as Hinv.
  { split; [by eexists|]. split; [by repeat constructor|]. split; [|split; [done|reflexivity]].
    constructor; [|constructor; [|constructor]]; (split; [repeat split; simpl; lia|]); (split; [done|]).
    - by exists [12].
    - by exists [9]. }
  constructor; try done.
  - split; [exact Hinv|]. split; [exact Hf|]. split; [done|]. right. exists busy_node.
    split; [right; left|]. split; [done|]. exists 0x40000. split; [vm_compute; by split|done].
  - intros x y Hx Hy. change (regions_of busy_port) with busy_nodes in Hx, Hy. unfold busy_nodes in Hx, Hy.
    apply list.elem_of_cons in Hx as [->|Hx%list_elem_of_singleton],
      Hy as [->|Hy%list_elem_of_singleton]; subst; simpl; lia.
  - right. exists busy_node. split; [right; left|]. vm_compute. by split.
  - split; [done|]. split; [done|]. by eexists.
  - constructor; try done.
    + split; [done|]. split; [apply NoDup_singleton|]. split; [|done]. constructor; [|constructor].
      split; [done|]. done.
    + split; [done|]. split; [apply NoDup_singleton|]. split; [|done]. constructor; [|constructor].
      split; [done|]. simpl. by intros [? ?].
    + intros line H1 H2. apply list_elem_of_singleton in H1, H2. simpl in *; congruence.
Qed.

Lemma afu_release_tears_down_witness :
  exists q' f1' f3', @afu_release _ _ list_rb demo_env_port busy_port = Some (0, q') /\
    lock (pd q') = false /\ open_count (pd q') = 0 /\ excl_open (pd q') = 0 /\ pid_list (pd q') = [] /\
    features (pd q') = <[3%nat := f3']> (<[1%nat := f1']> (features (pd busy_port))) /\
    quiet f1' (irqw (io q')) /\ quiet f3' (irqw (io q')) /\ eventfd_refs (irqw (io q')) = 0 /\
    regions_of q' = [] /\ locked_vm (mm (io q')) = locked_vm w_empty /\
    page_refs (mm (io q')) = page_refs w_empty /\
    dma_maps (mm (io q')) = dma_maps w_empty ⊎ left_mapped (regions_of busy_port) /\
    umsg_base 12288 q' = 0 /\ umsg_enabled 12288 q' = false /\
    (disable_count (pd busy_port) = 0 -> sftrst 4096 q' = 0).
Proof.
  apply (@afu_release_tears_down _ _ _ _ list_rb list_rb_ok demo_env_port w_empty 0 4096 12288
           err_vec uint_vec busy_port);
    [reflexivity | reflexivity | reflexivity | reflexivity | exact busy_port_ready].
Defined.

Lemma count_le_sum l x :
  (forall y, y ∈ l -> 0 < count y) -> x ∈ l -> count x <= sum_by count l.
Proof.
  induction l as [|y l IH]; intros Hf Hx; [set_solver|]. simpl.
  assert (0 <= sum_by count l).
  { apply sum_by_nonneg. intros z Hz. specialize (Hf z ltac:(by right)). lia. }
  apply list.elem_of_cons in Hx as [->|Hx]; [lia|].
  pose proof (Hf y ltac:(left)). pose proof (IH ltac:(intros; apply Hf; by right) Hx). lia.
Qed.

(** C29: open and close keep the books.  From a port nobody has open, with its
    mutex free, after any sequence of opens (shared or exclusive, granted,
    refused or out of memory, as long as the listed opens stay below
    2^31 - 1), closes of an open file by whatever process, unplugging and
    operations that leave the bookkeeping alone: the mutex is free, every
    process is listed once and with a positive count, open_count is not
    negative, together with the number [n] of closes made by a process that
    was not listed it is the sum of the listed counts, all of which fit an
    int, an exclusive open is the only one, and each process holds exactly one
    pid reference per listed open more than before.  If all closes were made
    by processes that had the port open ([n] = 0), then once open_count is 0
    the list is empty and every reference has been given back. *)
Theorem port_open_bookkeeping {D} {dev : Mmio D} {rb : RbLib} n
    (q0 q : platform_device port_op fpga_afu (afu_world D)) :
  lock (pd q0) = false -> excl_open (pd q0) = 0 -> open_count (pd q0) = 0 -> pid_list (pd q0) = [] ->
  file_run n q0 q ->
  lock (pd q) = false /\ NoDup (map pid (pid_list (pd q))) /\
  Forall (fun x => 0 < count x < 2 ^ 31) (pid_list (pd q)) /\
  0 <= open_count (pd q) < 2 ^ 31 /\
  open_count (pd q) + n = sum_by count (pid_list (pd q)) /\
  (excl_open (pd q) = 0 \/ (excl_open (pd q) = 1 /\ open_count (pd q) = 1)) /\
  (forall p, pid_refs_of (kobj (io q)) p =
             pid_refs_of (kobj (io q0)) p + opens_of p (pid_list (pd q))) /\
  (n = 0 -> open_count (pd q) = 0 -> pid_list (pd q) = [] /\
     forall p, pid_refs_of (kobj (io q)) p = pid_refs_of (kobj (io q0)) p).
Proof.
  intros Hl He Hc Hp Hrun.
  assert (open_inv (kobj (io q0)) (n + 0) q) as [Hl' He' (Hnd & Hf & Hs) Hcnt Hr].
  { eapply file_run_inv; [|exact Hrun]. constructor; [done|by left| |rewrite Hc; lia|].
    - rewrite Hp, Hc. split; [apply NoDup_nil_2|]. by split.
    - intros p. rewrite Hp. unfold opens_of. simpl. lia. }
  split_and!; try done; try lia.
  - rewrite list.Forall_forall in Hf |- *. intros x Hx. split; [by apply Hf|].
    pose proof (count_le_sum _ _ Hf Hx). lia.
  - intros Hn H0. assert (pid_list (pd q) = []) as Hnil.
    { destruct (pid_list (pd q)) as [|x l]; [done|]. exfalso. rewrite list.Forall_forall in Hf.
      pose proof (Hf x ltac:(left)). pose proof (count_le_sum (x :: l) x Hf ltac:(left)).
      simpl in *. lia. }
    split; [done|]. intros p. rewrite Hr, Hnil. unfold opens_of. simpl. lia.
Qed.

(** The life of the port above before and after process 42 had it open. *)
Definition idle_port : platform_device port_op fpga_afu (afu_world mem_dev) :=
  set_pd (set_pid_list [] (set_open_count 0 (pd busy_port)))
    (set_io (World (hw (io busy_port)) (mm (io busy_port)) (irqw (io busy_port)) (Kobj ∅ ∅ ∅)
               (usr (io busy_port))) busy_port).
Definition idle_port_opened : platform_device port_op fpga_afu (afu_world mem_dev) :=
  match afu_open demo_env_port true idle_port with Some (_, q) => q | None => idle_port end.
Definition idle_port_closed : platform_device port_op fpga_afu (afu_world mem_dev) :=
  match @afu_release _ _ list_rb demo_env_port idle_port_opened with Some (_, q) => q | None => idle_port end.

Definition env_of (me : Z) : port_env :=
  let e := demo_env_port in
  PortEnv (dmae e) (irqe e) (sysfs_ret e) (resource e) (devm_kzalloc_ok e) (region_kzalloc_ok e)
    (memdup_kmalloc_ok e) (create_subdev e) (register_dev_ops_ret e) me (remap_pfn_range e).

(** The same file closed by another process instead. *)
Definition idle_port_stray : platform_device port_op fpga_afu (afu_world mem_dev) :=
  match @afu_release _ _ list_rb (env_of 43) idle_port_opened with
  | Some (_, q) => q | None => idle_port end.

(** A close by a process that never opened the port leaves the opener listed,
    with its reference, after the port has been torn down. *)
Lemma stray_close_leaves_entry :
  open_count (pd idle_port_stray) = 0 /\ pid_list (pd idle_port_stray) = [PidInfo 42 1] /\
  pid_refs_of (kobj (io idle_port_stray)) 42 = 1.
Proof. vm_compute. by split_and!. Qed.

Lemma port_open_bookkeeping_witness :
  open_count (pd idle_port_opened) = 1 /\ excl_open (pd idle_port_opened) = 1 /\
  let q := idle_port_closed in
  (lock (pd q) = false /\ NoDup (map pid (pid_list (pd q))) /\
   Forall (fun x => 0 < count x < 2 ^ 31) (pid_list (pd q)) /\
   0 <= open_count (pd q) < 2 ^ 31 /\
   open_count (pd q) + 0 = sum_by count (pid_list (pd q)) /\
   (excl_open (pd q) = 0 \/ (excl_open (pd q) = 1 /\ open_count (pd q) = 1)) /\
   (forall p, pid_refs_of (kobj (io q)) p =
              pid_refs_of (kobj (io idle_port)) p + opens_of p (pid_list (pd q))) /\
   (0 = 0 -> open_count (pd q) = 0 -> pid_list (pd q) = [] /\
      forall p, pid_refs_of (kobj (io q)) p = pid_refs_of (kobj (io idle_port)) p)).
Proof.
  split; [vm_compute; reflexivity|]. split; [vm_compute; reflexivity|].
  apply (@port_open_bookkeeping _ _ list_rb 0 idle_port idle_port_closed);
    [reflexivity | reflexivity | reflexivity | reflexivity |].
  apply (fr_step 0 0 _ idle_port_opened);
    [eapply (fs_open demo_env_port true 0); vm_compute; reflexivity|].
  apply (fr_step 0 0 _ idle_port_closed); [|constructor].
  apply (fs_release demo_env_port 0 idle_port_opened idle_port_closed); vm_compute; reflexivity.
Defined.

(** ** Probe and remove *)

Section Probe.
Context {D : Type} {dev : Mmio D} {rb : RbLib} (env : port_env).
Abbreviation port := (platform_device port_op fpga_afu (afu_world D)).
Implicit Types q : port.

Definition features_view q := (features (pd q), num (pd q)).

Lemma features_lock : keeps features_view (on_pd mutex_lock).
Proof. apply keeps_on_pd. intros [[] ?] a p H. simpl in H. destruct lock; inv_run. done. Qed.
Lemma features_unlock : keeps features_view (on_pd mutex_unlock).
Proof. apply keeps_on_pd. intros [[] ?] a p H. simpl in H. destruct lock; inv_run. done. Qed.
Lemma features_mod f : keeps features_view (on_pd (mod_afu f)).
Proof.
  apply keeps_on_pd. intros q a p H. unfold mod_afu, get_afu in H. simpl in H.
  destruct (private (pd q)); [|discriminate]. by injection H as _ <-.
Qed.
Lemma features_private a : keeps features_view (on_pd (fpga_pdata_set_private a)).
Proof. apply keeps_on_pd. intros q x p H. by injection H as _ <-. Qed.
Lemma features_mm {A} (c : K dma_world A) : keeps features_view (on_mm c).
Proof. by apply keeps_zoom. Qed.
#[local] Hint Resolve features_lock features_unlock features_mod features_private features_mm : keeps.

Lemma features_destroy : keeps features_view (afu_dma_region_destroy (dmae env)).
Proof.
  unfold afu_dma_region_destroy. apply keeps_bind; [apply keeps_on_pd_pure, get_afu_pure|].
  intros a. generalize (length (inorder (dma_regions a))), (rb_first (dma_regions a)).
  intros n. induction n as [|n IH]; intros [r|]; simpl destroy_loop; unfold destroy_one,
    afu_dma_region_remove; keep idtac; auto.
Qed.
#[local] Hint Resolve features_destroy : keeps.

Lemma features_dev_init : keeps features_view (afu_dev_init env).
Proof. unfold afu_dev_init, afu_region_init, afu_dma_region_init. keep idtac. Qed.

Lemma features_dev_destroy : keeps features_view (afu_dev_destroy env).
Proof. unfold afu_dev_destroy, afu_region_destroy. keep idtac. Qed.

Lemma dev_destroy_private q r q' : afu_dev_destroy env q = Some (r, q') -> private (pd q') = None.
Proof.
  unfold afu_dev_destroy. intros H. do 4 step_bind H. simpl in H. destruct (lock _); [|discriminate]. by injection H as _ <-.
Qed.

Lemma destroyed q q' r :
  afu_dev_destroy env q = Some (r, q') -> Forall (fun f => f_ops f = None) (features (pd q)) ->
  private (pd q') = None /\ Forall (fun f => f_ops f = None) (features (pd q')).
Proof.
  intros H Hf. split; [by eapply dev_destroy_private|].
  assert (features_view q' = features_view q) as Hv by (by eapply features_dev_destroy).
  injection Hv as Hv _. by rewrite Hv.
Qed.

Lemma table_wf_view q q' : features_view q' = features_view q -> table_wf q -> table_wf q'.
Proof. unfold features_view, table_wf. intros [= -> ->]. done. Qed.

(** What afu_probe leaves behind, whatever the callbacks answer. *)
Lemma afu_probe_run q r q' :
  table_wf q -> devm_kzalloc_ok env = true -> afu_probe env q = Some (r, q') ->
  (r = 0 -> feat_sig q' = map (bind_sig port_feature_drvs) (feat_sig q)) /\
  (r <> 0 -> private (pd q') = None /\ Forall (fun f => f_ops f = None) (features (pd q'))).
Proof.
  intros Hwf Hkz H. unfold afu_probe in H. unfold kbind at 1 in H.
  destruct (afu_dev_init env q) as [[r1 q1]|] eqn:E1; [|discriminate].
  assert (features_view q1 = features_view q) as Hv1 by (by eapply features_dev_init).
  assert (r1 = 0) as ->.
  { unfold afu_dev_init in E1. rewrite Hkz in E1. cbn [negb] in E1. cbn iota in E1.
    do 5 step_bind E1. by injection E1 as <- _. }
  change (istrue 0) with false in H. cbn iota in H. unfold kbind at 1 in H.
  destruct (fpga_dev_feature_init port_feature_drvs q1) as [[r2 q2]|] eqn:E2; [|discriminate].
  destruct (feature_init_sig _ _ _ _ (table_wf_view _ _ Hv1 Hwf) E2) as [H0 H1].
  assert (feat_sig q1 = feat_sig q) as Hs1
    by (unfold feat_sig; unfold features_view in Hv1; injection Hv1 as -> _; done).
  unfold istrue in H. destruct (Z.eqb_spec r2 0) as [->|Hr2]; cbn [negb] in H.
  - destruct (H0 eq_refl) as [Hwf2 Hs2].
    destruct (Z.eqb_spec (register_dev_ops_ret env) 0) as [_|Hreg]; cbn [negb] in H.
    + injection H as <- <-. split; [|done]. intros _. by rewrite Hs2, Hs1.
    + unfold kbind in H. destruct (fpga_dev_feature_uinit q2) as [[u q3]|] eqn:E3; [|discriminate].
      destruct (afu_dev_destroy env q3) as [[r4 q4]|] eqn:E4; [|discriminate].
      injection H as <- <-. split; [done|]. intros _. eapply destroyed; [exact E4|].
      by eapply (feature_uinit_clears (fok := port_feature_ops_ok env)).
  - unfold kbind in H. destruct (afu_dev_destroy env q2) as [[r4 q4]|] eqn:E4; [|discriminate].
    injection H as <- <-. split; [done|]. intros _. eapply destroyed; [exact E4|]. by apply H1.
Qed.
End Probe.

(** C33: probing a port is all-or-nothing: when afu_probe returns 0 every
    feature of the port is bound to the driver of the table that has its name,
    and when it returns an error (a callback failed, or the character device
    could not be registered) no feature is bound and the private data is gone,
    whatever the hardware and the kernel answered. *)
Theorem afu_probe_all_or_nothing {D} {dev : Mmio D} {rb : RbLib} env
    (q q' : platform_device port_op fpga_afu (afu_world D)) r :
  table_wf q -> devm_kzalloc_ok env = true -> afu_probe env q = Some (r, q') ->
  (r = 0 -> feat_sig q' = map (bind_sig port_feature_drvs) (feat_sig q)) /\
  (r <> 0 -> private (pd q') = None /\ Forall (fun f => f_ops f = None) (features (pd q'))).
Proof. apply afu_probe_run. Qed.

(** A port before its driver binds: header, user AFU and interrupts. *)
Definition raw_feature (name : string) (a : Z) : feature port_op :=
  Feature (Some name) 0 a [] 0 None None.
Definition raw_port : platform_device port_op fpga_afu (afu_world mem_dev) :=
  Pdev (Pdata false 0 0 0 [] false None 7
          [raw_feature "port_hdr" 4096; raw_feature "port_err" 8192; raw_feature "port_umsg" 12288;
           raw_feature "port_uint" 16384; empty_feature; empty_feature; raw_feature "port_uafu" 20480])
    (World ∅ w_empty (IrqWorld ∅ 0) (Kobj ∅ ∅ ∅) (UserMem ∅ (fun _ => true))).
Definition probed_port : platform_device port_op fpga_afu (afu_world mem_dev) :=
  match @afu_probe _ _ list_rb demo_env_port raw_port with Some (_, q) => q | None => raw_port end.

Lemma afu_probe_all_or_nothing_witness :
  @afu_probe _ _ list_rb demo_env_port raw_port = Some (0, probed_port) /\
  (0 = 0 -> feat_sig probed_port = map (bind_sig port_feature_drvs) (feat_sig raw_port)) /\
  (0 <> 0 -> private (pd probed_port) = None /\
             Forall (fun f => f_ops f = None) (features (pd probed_port))).
Proof.
  assert (@afu_probe _ _ list_rb demo_env_port raw_port = Some (0, probed_port)) as H
    by (vm_compute; reflexivity).
  split; [exact H|].
  apply (@afu_probe_all_or_nothing _ _ list_rb demo_env_port raw_port probed_port 0);
    [reflexivity | reflexivity | exact H].
Defined.
