(* ===== verification/PcieTypes.v ===== *)
(** * The PCIe driver's data (pcie.c)

    The state of intel-fpga-pci: the id tables, the platform devices it
    allocates (a store indexed by handle, a handle being the device's pointer),
    the [cci_drvdata] of the PCI function, the two static tables of supported
    features and the device's registers.  What the kernel answers to the
    driver's calls is [pci_env].  [CciDrv] is the loading of the module. *)

From S2P Require Import Prelude.
From S2P Require Import Bitfield.
From S2P Require Import Registers.
From S2P Require Import Mmio.
From S2P Require Import FeatureDev.

(** ** Data *)

Inductive fpga_id_type := PARENT_ID | FME_ID | PORT_ID | FPGA_ID_MAX.

#[export] Instance fpga_id_type_eq_dec : EqDecision fpga_id_type.
Proof. solve_decision. Defined.

(** The ids in use in each table of [fpga_ids]. *)
Record fpga_ids := Ids { parent_ids : gset Z; fme_ids : gset Z; port_ids : gset Z }.

Definition ids_of (t : fpga_id_type) (s : fpga_ids) : option (gset Z) :=
  match t with
  | PARENT_ID => Some (parent_ids s)
  | FME_ID => Some (fme_ids s)
  | PORT_ID => Some (port_ids s)
  | FPGA_ID_MAX => None
  end.

Definition set_ids (t : fpga_id_type) (x : gset Z) (s : fpga_ids) : fpga_ids :=
  match t with
  | PARENT_ID => Ids x (fme_ids s) (port_ids s)
  | FME_ID => Ids (parent_ids s) x (port_ids s)
  | PORT_ID => Ids (parent_ids s) (fme_ids s) x
  | FPGA_ID_MAX => s
  end.

Record resource := Res { res_start : Z; res_end : Z; res_name : option string }.

(** A platform device: its name and id, the resource array, the driver's
    platform data, whether it is registered, and its reference count. *)
Record fpga_dev (Op P : Type) := FDev {
  dev_name : string;
  dev_id : Z;
  dev_resource : option (list resource);
  dev_pdata : option (feature_platform_data Op P);
  dev_registered : bool;
  dev_refs : Z;
}.
Arguments FDev {Op P} dev_name dev_id dev_resource dev_pdata dev_registered dev_refs.
Arguments dev_name {Op P} f.
Arguments dev_id {Op P} f.
Arguments dev_resource {Op P} f.
Arguments dev_pdata {Op P} f.
Arguments dev_registered {Op P} f.
Arguments dev_refs {Op P} f.

Record cci_pci_region := PciRegion { reg_bar : Z; reg_ioaddr : Z }.

Record cci_drvdata := Drvdata {
  device_id : Z;
  fme_dev : option Z;
  dlock : bool;
  port_dev_list : list Z;
  released_port_num : Z;
  bar_regions : list cci_pci_region;
}.

Record feature_info := FInfo {
  fi_name : string;
  resource_size : Z;
  feature_index : Z;
  revision_id : Z;
  vec_start : Z;
  vec_cnt : Z;
}.

(** [struct build_feature_devs_info], without the constant [pdev]. *)
Record build_feature_devs_info := BInfo {
  b_ioaddr : Z;
  b_ioend : Z;
  current_bar : Z;
  pfme_hdr : Z;
  parent_dev : bool;
  feature_dev : option Z;
}.

(** What the PCI core keeps for the function. *)
Record pci_func := PciFunc {
  enabled : bool;
  aer_on : bool;
  bars_requested : bool;
  irqs_allocated : bool;
  num_vfs_on : Z;
  parent_registered : bool;
}.

Record pci_world (Op P D : Type) := PciW {
  pids : fpga_ids;
  pdevs : gmap Z (fpga_dev Op P);
  drv : option cci_drvdata;
  pfunc : pci_func;
  fme_table : list feature_info;
  port_table : list feature_info;
  sighup : list Z;
  phw : D;
}.
Arguments PciW {Op P D} pids pdevs drv pfunc fme_table port_table sighup phw.
Arguments pids {Op P D} p.
Arguments pdevs {Op P D} p.
Arguments drv {Op P D} p.
Arguments pfunc {Op P D} p.
Arguments fme_table {Op P D} p.
Arguments port_table {Op P D} p.
Arguments sighup {Op P D} p.
Arguments phw {Op P D} p.

(** The kernel's answers: PCI resources and BAR mappings (0 is NULL), the
    allocators, idr_alloc, device registration, MSI-X and SR-IOV. *)
Record pci_env := PciEnv {
  pci_resource_start : Z -> Z;
  pci_resource_len : Z -> Z;
  pci_ioremap_bar : Z -> Z;
  drvdata_alloc_ok : bool;             (* devm_kzalloc, kzalloc and kcalloc: *)
  binfo_alloc_ok : bool;
  region_alloc_ok : Z -> bool;         (* of a BAR's cci_pci_region *)
  pdata_alloc_ok : Z -> bool;          (* of a device's platform data *)
  resource_alloc_ok : Z -> bool;       (* of a device's resources *)
  ctx_alloc_ok : Z -> Z -> bool;       (* of the interrupts of a device's feature *)
  platform_device_alloc : gset Z -> option Z;
  idr_alloc : gset Z -> Z;
  platform_device_add_ret : Z -> Z;
  create_parent_ret : Z;               (* device_create: 0 or a negative errno *)
  pci_msix_vec_count : Z;
  pci_irq_vector : Z -> Z;
  pci_enable_sriov_ret : Z -> Z;
  pci_enable_device_ret : Z;
  pci_aer_ret : Z;
  pci_request_regions_ret : Z;
  dma_mask_64_ret : Z;
  dma_mask_32_ret : Z;
  pci_alloc_irq_vectors_ret : Z;
  dev_is_pf : bool;
  others_close : Z -> Z;               (* a port's open count after one mdelay(1) *)
}.

(** The documented behaviour of the allocators: a new device or id is one that
    is not in use; an error is negative. *)
Record pci_env_ok (env : pci_env) : Prop := {
  alloc_fresh : forall s h, platform_device_alloc env s = Some h -> h ∉ s;
  idr_fresh : forall s, 0 <= idr_alloc env s -> idr_alloc env s ∉ s;
}.

(** ** Field updates *)

Section Set_.
Context {Op P D : Type}.
Abbreviation fdev := (fpga_dev Op P).
Abbreviation world := (pci_world Op P D).

Definition set_pids (v : fpga_ids) (w : world) : world :=
  PciW v (pdevs w) (drv w) (pfunc w) (fme_table w) (port_table w) (sighup w) (phw w).
Definition set_pdevs (v : gmap Z fdev) (w : world) : world :=
  PciW (pids w) v (drv w) (pfunc w) (fme_table w) (port_table w) (sighup w) (phw w).
Definition set_drv (v : option cci_drvdata) (w : world) : world :=
  PciW (pids w) (pdevs w) v (pfunc w) (fme_table w) (port_table w) (sighup w) (phw w).
Definition set_pfunc (v : pci_func) (w : world) : world :=
  PciW (pids w) (pdevs w) (drv w) v (fme_table w) (port_table w) (sighup w) (phw w).
Definition set_fme_table (v : list feature_info) (w : world) : world :=
  PciW (pids w) (pdevs w) (drv w) (pfunc w) v (port_table w) (sighup w) (phw w).
Definition set_port_table (v : list feature_info) (w : world) : world :=
  PciW (pids w) (pdevs w) (drv w) (pfunc w) (fme_table w) v (sighup w) (phw w).
Definition set_sighup (v : list Z) (w : world) : world :=
  PciW (pids w) (pdevs w) (drv w) (pfunc w) (fme_table w) (port_table w) v (phw w).
Definition set_phw (v : D) (w : world) : world :=
  PciW (pids w) (pdevs w) (drv w) (pfunc w) (fme_table w) (port_table w) (sighup w) v.

Definition set_dev_id (v : Z) (d : fdev) : fdev :=
  FDev (dev_name d) v (dev_resource d) (dev_pdata d) (dev_registered d) (dev_refs d).
Definition set_dev_resource (v : option (list resource)) (d : fdev) : fdev :=
  FDev (dev_name d) (dev_id d) v (dev_pdata d) (dev_registered d) (dev_refs d).
Definition set_dev_pdata (v : option (feature_platform_data Op P)) (d : fdev) : fdev :=
  FDev (dev_name d) (dev_id d) (dev_resource d) v (dev_registered d) (dev_refs d).
Definition set_dev_registered (v : bool) (d : fdev) : fdev :=
  FDev (dev_name d) (dev_id d) (dev_resource d) (dev_pdata d) v (dev_refs d).
Definition set_dev_refs (v : Z) (d : fdev) : fdev :=
  FDev (dev_name d) (dev_id d) (dev_resource d) (dev_pdata d) (dev_registered d) v.
End Set_.

Definition set_fme_dev (v : option Z) (d : cci_drvdata) : cci_drvdata :=
  Drvdata (device_id d) v (dlock d) (port_dev_list d) (released_port_num d) (bar_regions d).
Definition set_dlock (v : bool) (d : cci_drvdata) : cci_drvdata :=
  Drvdata (device_id d) (fme_dev d) v (port_dev_list d) (released_port_num d) (bar_regions d).
Definition set_port_dev_list (v : list Z) (d : cci_drvdata) : cci_drvdata :=
  Drvdata (device_id d) (fme_dev d) (dlock d) v (released_port_num d) (bar_regions d).
Definition set_released_port_num (v : Z) (d : cci_drvdata) : cci_drvdata :=
  Drvdata (device_id d) (fme_dev d) (dlock d) (port_dev_list d) v (bar_regions d).
Definition set_bar_regions (v : list cci_pci_region) (d : cci_drvdata) : cci_drvdata :=
  Drvdata (device_id d) (fme_dev d) (dlock d) (port_dev_list d) (released_port_num d) v.

Definition set_resource_size (v : Z) (f : feature_info) : feature_info :=
  FInfo (fi_name f) v (feature_index f) (revision_id f) (vec_start f) (vec_cnt f).
Definition set_vecs (start cnt : Z) (f : feature_info) : feature_info :=
  FInfo (fi_name f) (resource_size f) (feature_index f) (revision_id f) start cnt.

Definition set_b_region (ioaddr ioend bar : Z) (b : build_feature_devs_info) :=
  BInfo ioaddr ioend bar (pfme_hdr b) (parent_dev b) (feature_dev b).
Definition set_pfme_hdr (v : Z) (b : build_feature_devs_info) :=
  BInfo (b_ioaddr b) (b_ioend b) (current_bar b) v (parent_dev b) (feature_dev b).
Definition set_parent_dev (v : bool) (b : build_feature_devs_info) :=
  BInfo (b_ioaddr b) (b_ioend b) (current_bar b) (pfme_hdr b) v (feature_dev b).
Definition set_feature_dev (v : option Z) (b : build_feature_devs_info) :=
  BInfo (b_ioaddr b) (b_ioend b) (current_bar b) (pfme_hdr b) (parent_dev b) v.

Definition set_enabled (v : bool) (f : pci_func) : pci_func :=
  PciFunc v (aer_on f) (bars_requested f) (irqs_allocated f) (num_vfs_on f) (parent_registered f).
Definition set_aer_on (v : bool) (f : pci_func) : pci_func :=
  PciFunc (enabled f) v (bars_requested f) (irqs_allocated f) (num_vfs_on f) (parent_registered f).
Definition set_bars_requested (v : bool) (f : pci_func) : pci_func :=
  PciFunc (enabled f) (aer_on f) v (irqs_allocated f) (num_vfs_on f) (parent_registered f).
Definition set_irqs_allocated (v : bool) (f : pci_func) : pci_func :=
  PciFunc (enabled f) (aer_on f) (bars_requested f) v (num_vfs_on f) (parent_registered f).
Definition set_num_vfs_on (v : Z) (f : pci_func) : pci_func :=
  PciFunc (enabled f) (aer_on f) (bars_requested f) (irqs_allocated f) v (parent_registered f).
Definition set_parent_registered (v : bool) (f : pci_func) : pci_func :=
  PciFunc (enabled f) (aer_on f) (bars_requested f) (irqs_allocated f) (num_vfs_on f) v.

(** ** The static tables *)

Definition FPGA_FEATURE_DEV_FME : string := "intel-fpga-fme".
Definition FPGA_FEATURE_DEV_PORT : string := "intel-fpga-port".
Definition SKIP_REVISION_CHECK : Z := 0xff.
Definition PORT_FEATURE_UINT : string := "port_uint".
Definition PORT_FEATURE_ERR : string := "port_err".
Definition FME_FEATURE_GLOBAL_ERR : string := "fme_error".
Definition FME_FEATURE_HSSI_ETH_SIZE : Z := 0x18.
Definition FME_FEATURE_AVMMI_BMC_SIZE : Z := 0x18.
Definition ALTERA_ASMIP2_RESOURCE_SIZE : Z := 0x10.
Definition PAC_HSSI_RESOURCE_SIZE : Z := 0x18.
Definition PAC_IOPLL_RESOURCE_SIZE : Z := 0x28.
Definition PORT_FEATURE_STP_REGION_SIZE : Z := PAGE_ALIGN (sizeof feature_port_stp).

(** [fme_features] and [port_features] before the first probe. *)
Definition fme_features : list feature_info :=
  [ FInfo "fme_hdr" (sizeof feature_fme_header) FME_FEATURE_ID_HEADER 1 0 0;
    FInfo "fme_thermal" (sizeof feature_fme_thermal) FME_FEATURE_ID_THERMAL_MGMT 0 0 0;
    FInfo "fme_power" (sizeof feature_fme_power) FME_FEATURE_ID_POWER_MGMT 1 0 0;
    FInfo "fme_iperf" (sizeof feature_fme_iperf) FME_FEATURE_ID_GLOBAL_IPERF 1 0 0;
    FInfo FME_FEATURE_GLOBAL_ERR (sizeof feature_fme_err) FME_FEATURE_ID_GLOBAL_ERR 1 0 0;
    FInfo "fme_pr" (sizeof feature_fme_pr) FME_FEATURE_ID_PR_MGMT 2 0 0;
    FInfo "fme_hssi" FME_FEATURE_HSSI_ETH_SIZE FME_FEATURE_ID_HSSI_ETH 0 0 0;
    FInfo "fme_dperf" (sizeof feature_fme_dperf) FME_FEATURE_ID_GLOBAL_DPERF 0 0 0;
    FInfo "fme_qspi_flash" ALTERA_ASMIP2_RESOURCE_SIZE FME_FEATURE_ID_QSPI_FLASH 0 0 0;
    FInfo "fme_emif" (sizeof feature_fme_emif) FME_FEATURE_ID_EMIF_MGMT 0 0 0;
    FInfo "fme_pac_hssi" PAC_HSSI_RESOURCE_SIZE FME_FEATURE_ID_PAC_HSSI_ETH 0 0 0;
    FInfo "fme_s10_sdm_mb" (sizeof feature_fme_s10_sdm_mb) FME_FEATURE_ID_S10_SDM_MB 0 0 0;
    FInfo "fme_avmmi_bmc" FME_FEATURE_AVMMI_BMC_SIZE FME_FEATURE_ID_AVMMI_BMC 0 0 0 ].

Definition port_features : list feature_info :=
  [ FInfo "port_hdr" (sizeof feature_port_header) PORT_FEATURE_ID_HEADER 1 0 0;
    FInfo PORT_FEATURE_ERR (sizeof feature_port_error) PORT_FEATURE_ID_ERROR 1 0 0;
    FInfo "port_umsg" (sizeof feature_port_umsg) PORT_FEATURE_ID_UMSG 0 0 0;
    FInfo PORT_FEATURE_UINT (sizeof feature_port_uint) PORT_FEATURE_ID_UINT 0 0 0;
    FInfo "port_stp" PORT_FEATURE_STP_REGION_SIZE PORT_FEATURE_ID_STP 1 0 0;
    FInfo "port_iopll" PAC_IOPLL_RESOURCE_SIZE PORT_FEATURE_ID_IOPLL 0 0 0;
    FInfo "port_uafu" 0 PORT_FEATURE_ID_UAFU SKIP_REVISION_CHECK 0 0 ].

(** ** The module (feature-dev.c: character devices; pcie.c: ccidrv_init) *)

Module CciDrv.

Definition FPGA_DEVT_MAX : nat := 2.

(** [fpga_chrdevs] with a major number per device type, 0 for none; the regions,
    the class and the driver that the kernel has for the module; the id tables,
    when they are initialised. *)
Record modstate := Mod {
  fpga_chrdevs : list Z; chr_regions : gset Z; fpga_class : bool; driver_on : bool; ids : option fpga_ids;
}.
Definition set_chr l r (m : modstate) := Mod l r (fpga_class m) (driver_on m) (ids m).
Definition set_class b (m : modstate) := Mod (fpga_chrdevs m) (chr_regions m) b (driver_on m) (ids m).
Definition set_driver b (m : modstate) := Mod (fpga_chrdevs m) (chr_regions m) (fpga_class m) b (ids m).
Definition set_fpga_ids i (m : modstate) := Mod (fpga_chrdevs m) (chr_regions m) (fpga_class m) (driver_on m) i.

(** What the kernel answers: an errno or a major number for the i-th region. *)
Record mod_env := ModEnv { alloc_chrdev_region : nat -> Z + Z; class_create : Z; pci_register_driver : Z }.

Section Ops.
Variable env : mod_env.

Definition chr_uinit_one (i : nat) : K modstate unit :=
  m <- kget ;;
  major <- deref (fpga_chrdevs m !! i) ;;
  if istrue major then kput (set_chr (<[i := 0]> (fpga_chrdevs m)) (chr_regions m ∖ {[major]}) m) else kret tt.
Definition fpga_chardev_uinit : K modstate unit := chr_uinit_one 0 ;; chr_uinit_one 1.

Definition chr_init_one (i : nat) : K modstate Z :=
  match alloc_chrdev_region env i with
  | inl ret => kret ret
  | inr major => kmod (fun m => set_chr (<[i := major]> (fpga_chrdevs m)) ({[major]} ∪ chr_regions m) m) ;; kret 0
  end.
Definition fpga_chardev_init : K modstate Z :=
  ret <- chr_init_one 0 ;;
  ret <- (if istrue ret then kret ret else chr_init_one 1) ;;
  if istrue ret then fpga_chardev_uinit ;; kret ret else kret 0.

(** MKDEV(MAJOR(fpga_chrdevs[type].devt), id), with 20 bits of minor. *)
Definition fpga_get_devt (type : nat) (id : Z) : K modstate Z :=
  m <- kget ;; major <- deref (fpga_chrdevs m !! type) ;; kret (Z.lor (Z.shiftl major 20) id).

Definition fpga_ids_init : K modstate unit := kmod (set_fpga_ids (Some (Ids ∅ ∅ ∅))).
Definition fpga_ids_destroy : K modstate unit := kmod (set_fpga_ids None).

Definition ccidrv_init : K modstate Z :=
  fpga_ids_init ;;
  ret <- fpga_chardev_init ;;
  if istrue ret then fpga_ids_destroy ;; kret ret
  else if class_create env <? 0 then fpga_chardev_uinit ;; fpga_ids_destroy ;; kret (class_create env)
  else
    kmod (set_class true) ;;
    let ret := pci_register_driver env in
    if istrue ret then kmod (set_class false) ;; fpga_chardev_uinit ;; fpga_ids_destroy ;; kret ret
    else kmod (set_driver true) ;; kret 0.

Definition ccidrv_exit : K modstate unit :=
  kmod (set_driver false) ;; kmod (set_class false) ;; fpga_chardev_uinit ;; fpga_ids_destroy.
End Ops.

(** The module before it is loaded, next to the regions of others. *)
Definition unloaded (others : gset Z) : modstate := Mod [0; 0] others false false None.

(** The kernel hands out majors that are not in use; failures are negative. *)
Record env_ok (others : gset Z) (env : mod_env) : Prop := {
  eo_fail : forall i r, alloc_chrdev_region env i = inl r -> r < 0;
  eo_fresh : forall i major, alloc_chrdev_region env i = inr major -> 0 < major /\ major ∉ others;
  eo_other : forall m m', alloc_chrdev_region env 0 = inr m -> alloc_chrdev_region env 1 = inr m' -> m <> m';
}.

Lemma uinit_run a b r m :
  fpga_chardev_uinit (set_chr [a; b] r m) =
    Some (tt, set_chr [0; 0] (r ∖ (if istrue a then {[a]} else ∅) ∖ (if istrue b then {[b]} else ∅)) m).
Proof.
  unfold fpga_chardev_uinit, chr_uinit_one. cbn.
  destruct (istrue a) eqn:Ea; cbn; destruct (istrue b) eqn:Eb; cbn; unfold istrue in *; boolify; subst;
    rewrite ?difference_empty_L; done.
Qed.

(** Two regions were allocated next to [others]. *)
Record two_regions (others : gset Z) (a b : Z) (r : gset Z) : Prop := {
  tr_used : istrue a = true /\ istrue b = true; tr_back : r ∖ {[a]} ∖ {[b]} = others;
}.

Lemma chardev_init_run others env m :
  env_ok others env ->
  (exists ret, ret < 0 /\ fpga_chardev_init env (set_chr [0; 0] others m) = Some (ret, set_chr [0; 0] others m)) \/
  (exists a b r, two_regions others a b r /\
     fpga_chardev_init env (set_chr [0; 0] others m) = Some (0, set_chr [a; b] r m)).
Proof.
  intros [Hf Hn Ho]. unfold fpga_chardev_init, chr_init_one.
  destruct (alloc_chrdev_region env 0) as [r0|a] eqn:E0; cbn [kbind kret].
  - left. exists r0. pose proof (Hf _ _ E0). split; [done|]. assert (istrue r0 = true) as Hr0 by (unfold istrue; lia).
    rewrite Hr0. cbn [kret]. rewrite Hr0. unfold kbind. rewrite uinit_run. change (istrue 0) with false. cbn iota. by rewrite !difference_empty_L.
  - destruct (Hn _ _ E0) as [Ha Ha']. cbn [kmod]. change (istrue 0) with false. cbn iota.
    assert (istrue a = true) as Hia by (unfold istrue; lia).
    destruct (alloc_chrdev_region env 1) as [r1|b] eqn:E1; cbn [kbind kret kmod].
    + left. exists r1. pose proof (Hf _ _ E1). split; [done|]. assert (istrue r1 = true) as Hr1 by (unfold istrue; lia). rewrite Hr1.
      change (set_chr (<[0%nat:=a]> _) ({[a]} ∪ chr_regions _) _) with (set_chr [a; 0] ({[a]} ∪ others) m).
      unfold kbind. rewrite uinit_run, Hia. change (istrue 0) with false. cbn iota. rewrite difference_empty_L. by replace (({[a]} ∪ others) ∖ {[a]}) with others by set_solver.
    + right. destruct (Hn _ _ E1) as [Hb Hb']. pose proof (Ho _ _ eq_refl eq_refl). change (istrue 0) with false. cbn iota.
      exists a, b, ({[b]} ∪ ({[a]} ∪ others)). split; [|done]. split; [split; [done|unfold istrue; lia]|set_solver].
Qed.

(** Loading the module either succeeds, and unloading it then leaves nothing
    behind, or it fails and has left nothing behind. *)
Lemma load_unload others env :
  env_ok others env ->
  exists r m, ccidrv_init env (unloaded others) = Some (r, m) /\
    ((r = 0 /\ driver_on m = true /\ ccidrv_exit m = Some (tt, unloaded others)) \/ (r <> 0 /\ m = unloaded others)).
Proof.
  intros Henv. set (m0 := Mod [0; 0] others false false (Some (Ids ∅ ∅ ∅))). unfold ccidrv_init.
  rewrite (kbind_run fpga_ids_init _ _ tt m0) by done.
  destruct (chardev_init_run others env m0 Henv) as [(ret & Hr & Hrun)|(a & b & r & [[Ha Hb] Hback] & Hrun)];
    rewrite (kbind_run _ _ m0 _ _ Hrun).
  { assert (istrue ret = true) as -> by (unfold istrue; lia). eexists _, _. split; [done|]. right. split; [lia|done]. }
  change (istrue 0) with false. cbn iota.
  assert (forall m, fpga_chardev_uinit (set_chr [a; b] r m) = Some (tt, set_chr [0; 0] others m)) as Hu
    by (intros m; by rewrite uinit_run, Ha, Hb, Hback).
  destruct (Z.ltb_spec (class_create env) 0) as [Hc|_].
  { rewrite (kbind_run _ _ _ _ _ (Hu m0)). eexists _, _. split; [done|]. right. split; [lia|done]. }
  cbn [kbind kmod]. destruct (istrue (pci_register_driver env)) eqn:Ep; cbn [kbind kmod].
  - change (set_class false (set_class true (set_chr [a; b] r m0))) with (set_chr [a; b] r m0). rewrite Hu.
    eexists _, _. split; [done|]. right. split; [unfold istrue in Ep; boolify; done|done].
  - eexists _, _. split; [done|]. left. split; [done|]. split; [done|]. unfold ccidrv_exit. cbn [kbind kmod].
    change (set_class false _) with (set_chr [a; b] r m0). by rewrite Hu.
Qed.

(** Majors 240 and 241, next to somebody's region 10. *)
Lemma load_unload_runs :
  let env := ModEnv (fun i => inr (240 + Z.of_nat i)) 0 0 in
  env_ok {[10]} env /\
  option_map (fun x => (fst x, fpga_chrdevs (snd x), bool_decide (chr_regions (snd x) = {[240; 241; 10]})))
    (ccidrv_init env (unloaded {[10]})) = Some (0, [240; 241], true).
Proof.
  intros env. split; [|by vm_compute]. split; [done|..].
  - intros i major [= <-]. split; [lia|]. rewrite not_elem_of_singleton. lia.
  - by intros m m' [= <-] [= <-].
Qed.
End CciDrv.
