(* ===== verification/PciePort.v ===== *)
(** * Ports under the PCIe driver (pcie.c)

    The ids of feature devices, the list of ports of a PCI function, releasing
    and assigning a port (the FME ioctls FPGA_FME_PORT_RELEASE and
    FPGA_FME_PORT_ASSIGN end here) and turning released ports into virtual
    functions.  [fpga_id_mutex] only makes one idr call atomic and is left
    implicit; [drvdata->lock] is modelled, a second acquisition being an oops. *)

From S2P Require Import Prelude.
From S2P Require Import Bitfield.
From S2P Require Import Registers.
From S2P Require Import Mmio.
From S2P Require Import FeatureDev.
From S2P Require Import PcieTypes.

Section PciePort.
Context {Op P D : Type} {dev : Mmio D}.
Variable env : pci_env.
Abbreviation fdev := (fpga_dev Op P).
Abbreviation world := (pci_world Op P D).

(** ** Devices, ids and the driver's data *)

Definition alloc_fpga_id (type : fpga_id_type) : K world Z :=
  s <- kgets pids ;;
  used <- deref (ids_of type s) ;;
  let id := idr_alloc env used in
  if id <? 0 then kret id
  else kmod (set_pids (set_ids type ({[id]} ∪ used) s)) ;; kret id.

Definition free_fpga_id (type : fpga_id_type) (id : Z) : K world unit :=
  s <- kgets pids ;;
  used <- deref (ids_of type s) ;;
  kmod (set_pids (set_ids type (used ∖ {[id]}) s)).

(** A device handle is live while the device is in the store. *)
Definition get_fdev (h : Z) : K world fdev :=
  w <- kget ;; deref (pdevs w !! h).
Definition put_fdev (h : Z) (d : fdev) : K world unit :=
  get_fdev h ;; kmod (fun w => set_pdevs (<[h := d]> (pdevs w)) w).

Definition get_device (h : Z) : K world unit :=
  d <- get_fdev h ;; put_fdev h (set_dev_refs (dev_refs d + 1) d).

(** put_device: the last reference frees the device. *)
Definition put_device (h : Z) : K world unit :=
  d <- get_fdev h ;;
  if dev_refs d =? 1 then kmod (fun w => set_pdevs (delete h (pdevs w)) w)
  else put_fdev h (set_dev_refs (dev_refs d - 1) d).

Definition device_is_registered (h : Z) : K world bool :=
  d <- get_fdev h ;; kret (dev_registered d).

(** platform_device_add: 0 and the device is registered, or an error. *)
Definition platform_device_add (h : Z) : K world Z :=
  d <- get_fdev h ;;
  let ret := platform_device_add_ret env h in
  if istrue ret then kret ret
  else put_fdev h (set_dev_registered true d) ;; kret 0.

Definition platform_device_del (h : Z) : K world unit :=
  d <- get_fdev h ;; put_fdev h (set_dev_registered false d).

(** The feature device code run on device [h] and the hardware. *)
Definition on_fdev {A} (h : Z) (c : K (platform_device Op P D) A) : K world A := fun w =>
  match pdevs w !! h with
  | Some d =>
      match dev_pdata d with
      | Some p =>
          match c (Pdev p (phw w)) with
          | Some (a, q) =>
              Some (a, set_phw (io q)
                         (set_pdevs (<[h := set_dev_pdata (Some (pd q)) d]> (pdevs w)) w))
          | None => None
          end
      | None => None
      end
  | None => None
  end.

Definition get_drv : K world cci_drvdata := w <- kget ;; deref (drv w).
Definition mod_drv (f : cci_drvdata -> cci_drvdata) : K world unit :=
  d <- get_drv ;; kmod (set_drv (Some (f d))).
Definition drv_lock : K world unit :=
  d <- get_drv ;; if dlock d then oops else mod_drv (set_dlock true).
Definition drv_unlock : K world unit :=
  d <- get_drv ;; if dlock d then mod_drv (set_dlock false) else oops.

(** Access to a register through a pointer that may be NULL. *)
Definition pci_readq (base off : Z) : K world Z :=
  if base =? 0 then oops else zoom phw set_phw (readq (base + off)).
Definition pci_writeq (v base off : Z) : K world unit :=
  if base =? 0 then oops else zoom phw set_phw (writeq v (base + off)).

(** [&fme_hdr->port[i]] *)
Definition fme_port_off (i : Z) : Z :=
  offsetof feature_fme_header "port" + i * sizeof_reg feature_fme_port.

Definition fme_header_of (fme : Z) : K world Z :=
  on_fdev fme (on_pd (get_feature_ioaddr_by_index FME_FEATURE_ID_HEADER)).

(** ** The list of ports *)

Definition cci_pci_add_port_dev (h : Z) : K world unit :=
  drv_lock ;;
  mod_drv (fun d => set_port_dev_list (h :: port_dev_list d) d) ;;
  get_device h ;;
  drv_unlock.

(** The safe walk of cci_pci_remove_port_devs. *)
Fixpoint remove_port_devs (l : list Z) : K world unit :=
  match l with
  | [] => kret tt
  | h :: l =>
      d <- get_fdev h ;;
      mod_drv (fun dd => set_port_dev_list l dd) ;;
      free_fpga_id PORT_ID (dev_id d) ;;
      put_device h ;;
      remove_port_devs l
  end.

Definition cci_pci_remove_port_devs : K world unit :=
  drv_lock ;;
  d <- get_drv ;;
  remove_port_devs (port_dev_list d) ;;
  drv_unlock.

Fixpoint lookup_port (l : list Z) (port_id : Z) : K world (option Z) :=
  match l with
  | [] => kret None
  | h :: l =>
      b <- on_fdev h (fpga_port_check_id port_id) ;;
      if b then kret (Some h) else lookup_port l port_id
  end.

Definition cci_pci_lookup_port_by_id (port_id : Z) : K world (option Z) :=
  d <- get_drv ;; lookup_port (port_dev_list d) port_id.

Fixpoint find_port (l : list Z) (f : Z -> K world bool) : K world (option Z) :=
  match l with
  | [] => kret None
  | h :: l =>
      b <- f h ;;
      if b then get_device h ;; kret (Some h) else find_port l f
  end.

(** fpga_for_each_port; [f] is the caller's [match]. *)
Definition fpga_for_each_port (f : Z -> K world bool) : K world (option Z) :=
  drv_lock ;;
  d <- get_drv ;;
  r <- find_port (port_dev_list d) f ;;
  drv_unlock ;;
  kret r.

(** ** BAR mappings *)

Definition cci_pci_release_regions : K world unit := mod_drv (set_bar_regions []).

Definition region_of_bar (bar : Z) (l : list cci_pci_region) : option cci_pci_region :=
  head (filter (fun r => reg_bar r = bar) l).

(** The mapping of a BAR, 0 for NULL. *)
Definition cci_pci_ioremap_bar (bar : Z) : K world Z :=
  d <- get_drv ;;
  match region_of_bar bar (bar_regions d) with
  | Some region => kret (reg_ioaddr region)
  | None =>
      if negb (region_alloc_ok env bar) then kret 0
      else
        let ioaddr := pci_ioremap_bar env bar in
        if ioaddr =? 0 then kret 0
        else
          mod_drv (fun d => set_bar_regions (PciRegion bar ioaddr :: bar_regions d) d) ;;
          kret ioaddr
  end.

(** ** Assigning and releasing a port *)

(** attach_port_dev once the port is found. *)
Definition attach_found (port_dev : Z) : K world Z :=
  registered <- device_is_registered port_dev ;;
  if (registered : bool) then kret (- EBUSY)
  else
    ret <- platform_device_add port_dev ;;
    if istrue ret then kret ret
    else
      get_device port_dev ;;
      on_fdev port_dev (on_pd feature_dev_use_end) ;;
      mod_drv (fun d => set_released_port_num (released_port_num d - 1) d) ;;
      kret 0.

Definition attach_port_dev (fme port_id : Z) : K world Z :=
  fme_hdr <- fme_header_of fme ;;
  drv_lock ;;
  port <- pci_readq fme_hdr (fme_port_off port_id) ;;
  if fget feature_fme_port "afu_access_control" port =? FME_AFU_ACCESS_VF then
    drv_unlock ;; kret (- EBUSY)
  else
    port_dev <- cci_pci_lookup_port_by_id port_id ;;
    ret <- match port_dev with
           | None => kret (- EINVAL)
           | Some port_dev => attach_found port_dev
           end ;;
    drv_unlock ;;
    kret ret.

(** detach_port_dev once the port is found. *)
Definition detach_found (port_dev : Z) : K world Z :=
  registered <- device_is_registered port_dev ;;
  if negb registered then kret (- EBUSY)
  else
    ret <- on_fdev port_dev (on_pd feature_dev_use_excl_begin) ;;
    if istrue ret then kret ret
    else
      platform_device_del port_dev ;;
      put_device port_dev ;;
      mod_drv (fun d => set_released_port_num (released_port_num d + 1) d) ;;
      kret 0.

Definition detach_port_dev (port_id : Z) : K world Z :=
  drv_lock ;;
  port_dev <- cci_pci_lookup_port_by_id port_id ;;
  ret <- match port_dev with
         | None => kret (- EINVAL)
         | Some port_dev => detach_found port_dev
         end ;;
  drv_unlock ;;
  kret ret.

Definition config_port (fme port_id : Z) (release : bool) : K world Z :=
  if release then detach_port_dev port_id else attach_port_dev fme port_id.

(** ** SR-IOV *)

Definition port_config_vf (fme port_id : Z) (is_vf : bool) : K world unit :=
  let type := if is_vf then FME_AFU_ACCESS_VF else FME_AFU_ACCESS_PF in
  fme_hdr <- fme_header_of fme ;;
  port <- pci_readq fme_hdr (fme_port_off port_id) ;;
  pci_writeq (fset feature_fme_port "afu_access_control" type port)
    fme_hdr (fme_port_off port_id).

(** The first walk of cci_pci_sriov_configure. *)
Fixpoint vf_loop (l : list Z) (num_vfs vf_ports : Z) : K world unit :=
  match l with
  | [] => kret tt
  | h :: l =>
      id <- on_fdev h fpga_port_id ;;
      registered <- device_is_registered h ;;
      if (registered : bool) then vf_loop l num_vfs vf_ports
      else
        dd <- get_drv ;;
        fme <- deref (fme_dev dd) ;;
        if num_vfs =? 0 then
          port_config_vf fme id false ;; vf_loop l num_vfs vf_ports
        else
          port_config_vf fme id true ;;
          if vf_ports + 1 =? num_vfs then kret tt else vf_loop l num_vfs (vf_ports + 1)
  end.

(** The walk that undoes it when pci_enable_sriov fails. *)
Fixpoint pf_loop (l : list Z) : K world unit :=
  match l with
  | [] => kret tt
  | h :: l =>
      id <- on_fdev h fpga_port_id ;;
      registered <- device_is_registered h ;;
      if (registered : bool) then pf_loop l
      else
        dd <- get_drv ;;
        fme <- deref (fme_dev dd) ;;
        port_config_vf fme id false ;; pf_loop l
  end.

Definition cci_pci_sriov_configure (num_vfs : Z) : K world Z :=
  drv_lock ;;
  d <- get_drv ;;
  if released_port_num d <? num_vfs then drv_unlock ;; kret (- EBUSY)
  else
    (if num_vfs =? 0 then kmod (fun w => set_pfunc (set_num_vfs_on 0 (pfunc w)) w)
     else kret tt) ;;
    vf_loop (port_dev_list d) num_vfs 0 ;;
    if istrue num_vfs then
      let ret := pci_enable_sriov_ret env num_vfs in
      if istrue ret then
        pf_loop (port_dev_list d) ;; drv_unlock ;; kret ret
      else
        kmod (fun w => set_pfunc (set_num_vfs_on num_vfs (pfunc w)) w) ;;
        drv_unlock ;; kret num_vfs
    else drv_unlock ;; kret num_vfs.
End PciePort.
