(* ===== verification/PcieParse.v ===== *)
(** * Enumeration of the feature devices (pcie.c, pcie_check.c)

    The driver walks the chain of feature headers of a BAR, allocates a
    platform device per FIU (the FME or a port) and records the sub features it
    meets in that device; then it walks the ports the FME names.  Probe and
    remove of the PCI function are at the end. *)

From S2P Require Import Prelude.
From S2P Require Import Bitfield.
From S2P Require Import Registers.
From S2P Require Import Mmio.
From S2P Require Import FeatureDev.
From S2P Require Import PcieTypes.
From S2P Require Import PciePort.

(** ** The default headers (pcie_check.c) *)

Definition default_header (id revision next type : Z) : Z :=
  fset feature_header "id" id
    (fset feature_header "revision" revision
      (fset feature_header "next_header_offset" next
        (fset feature_header "type" type 0))).

Definition default_port_feature_hdr : list Z :=
  [ default_header 1 0 0x1000 FEATURE_TYPE_FIU;
    default_header 0x10 1 0x1000 FEATURE_TYPE_PRIVATE;
    default_header 0x11 0 0x2000 FEATURE_TYPE_PRIVATE;
    0;
    default_header 0x13 1 0x1000 FEATURE_TYPE_PRIVATE;
    default_header 0x14 0 0 FEATURE_TYPE_PRIVATE;
    0 ].

Definition default_fme_feature_hdr : list Z :=
  [ default_header 0 1 0x1000 FEATURE_TYPE_FIU;
    default_header 1 0 0x1000 FEATURE_TYPE_PRIVATE;
    default_header 2 1 0x1000 FEATURE_TYPE_PRIVATE;
    default_header 3 1 0x1000 FEATURE_TYPE_PRIVATE;
    default_header 4 1 0x1000 FEATURE_TYPE_PRIVATE;
    default_header 5 2 0x1000 FEATURE_TYPE_PRIVATE;
    default_header 6 0 0x1000 FEATURE_TYPE_PRIVATE;
    default_header 7 0 0 FEATURE_TYPE_PRIVATE;
    default_header FME_FEATURE_ID_QSPI_FLASH 0 0x2000 FEATURE_TYPE_PRIVATE;
    default_header FME_FEATURE_ID_EMIF_MGMT 0 0x1000 FEATURE_TYPE_PRIVATE ].

Record parse_state (Op P D : Type) := PS { pw : pci_world Op P D; bi : build_feature_devs_info }.
Arguments PS {Op P D} pw bi.
Arguments pw {Op P D} p.
Arguments bi {Op P D} p.

Section PcieParse.
Context {Op P D : Type} {dev : Mmio D}.
Variable env : pci_env.
Abbreviation world := (pci_world Op P D).
Abbreviation pstate := (parse_state Op P D).

Definition on_w {A} (c : K world A) : K pstate A := zoom pw (fun w s => PS w (bi s)) c.
Definition on_b {A} (c : K build_feature_devs_info A) : K pstate A :=
  zoom bi (fun b s => PS (pw s) b) c.
Definition readq_at (a : Z) : K pstate Z := on_w (pci_readq a 0).

(** check_features_header reads the header and logs whether it is the default
    one; the result is the message: unknown feature, or (mis)match. *)
Definition check_features_header (hdr : Z) (type : fpga_id_type) (id : Z)
  : K pstate (option bool) :=
  match type with
  | FME_ID =>
      match default_fme_feature_hdr !! Z.to_nat id with
      | None => kret None
      | Some dflt => header <- readq_at hdr ;; kret (Some (header =? dflt))
      end
  | PORT_ID =>
      match default_port_feature_hdr !! Z.to_nat id with
      | None => kret None
      | Some dflt => header <- readq_at hdr ;; kret (Some (header =? dflt))
      end
  | _ => kret None
  end.

(** ** Switching between BARs *)

Definition parse_start_from (bar : Z) : K pstate Z :=
  ioaddr <- on_w (cci_pci_ioremap_bar env bar) ;;
  if ioaddr =? 0 then
    b <- on_b kget ;; on_b (kput (set_b_region 0 (b_ioend b) (current_bar b) b)) ;;
    kret (- ENOMEM)
  else
    b <- on_b kget ;;
    on_b (kput (set_b_region ioaddr (ioaddr + pci_resource_len env bar) bar b)) ;;
    kret 0.

Definition parse_start : K pstate Z := parse_start_from 0.
Definition parse_switch_to (bar : Z) : K pstate Z := parse_start_from bar.

(** ** Feature devices under construction *)

Definition feature_dev_id_type (d : fpga_dev Op P) : fpga_id_type :=
  if String.eqb (dev_name d) FPGA_FEATURE_DEV_FME then FME_ID
  else if String.eqb (dev_name d) FPGA_FEATURE_DEV_PORT then PORT_ID
  else FPGA_ID_MAX.

Definition build_info_commit_dev : K pstate Z :=
  b <- on_b kget ;;
  match feature_dev b with
  | None => kret 0
  | Some h =>
      ret <- on_w (platform_device_add env h) ;;
      if istrue ret then kret ret
      else
        d <- on_w (get_fdev h) ;;
        match feature_dev_id_type d with
        | PORT_ID => on_w (cci_pci_add_port_dev h)
        | _ => on_w (get_device h ;; mod_drv (set_fme_dev (Some h)))
        end ;;
        on_b (kmod (set_feature_dev None)) ;;
        kret 0
  end.

(** platform_device_alloc(name, -ENODEV): one reference, not registered. *)
Definition new_fdev (name : string) : fpga_dev Op P := FDev name (- ENODEV) None None false 1.

Definition build_info_create_dev (type : fpga_id_type) (feature_nr : Z) (name : string)
  : K pstate Z :=
  ret <- build_info_commit_dev ;;
  if istrue ret then kret ret
  else
    w <- on_w kget ;;
    let fdev := platform_device_alloc env (dom (pdevs w)) in
    on_b (kmod (set_feature_dev fdev)) ;;
    match fdev with
    | None => kret (- ENOMEM)
    | Some h =>
        on_w (kmod (fun w => set_pdevs (<[h := new_fdev name]> (pdevs w)) w)) ;;
        id <- on_w (alloc_fpga_id env type) ;;
        d <- on_w (get_fdev h) ;;
        on_w (put_fdev h (set_dev_id id d)) ;;
        if id <? 0 then kret id
        else
          match feature_platform_data_alloc_and_init (pdata_alloc_ok env h) feature_nr with
          | None => kret (- ENOMEM)
          | Some pdata =>
              d <- on_w (get_fdev h) ;;
              on_w (put_fdev h (set_dev_pdata (Some pdata) d)) ;;
              if negb (resource_alloc_ok env h) then kret (- ENOMEM)
              else
                d <- on_w (get_fdev h) ;;
                on_w (put_fdev h (set_dev_resource
                        (Some (replicate (Z.to_nat feature_nr) (Res 0 0 None))) d)) ;;
                kret 0
          end
    end.

(** platform_device_unregister of every child of the parent device: the
    devices that are registered. *)
Definition unregister_dev (d : fpga_dev Op P) : option (fpga_dev Op P) :=
  if dev_registered d then
    if dev_refs d =? 1 then None
    else Some (set_dev_refs (dev_refs d - 1) (set_dev_registered false d))
  else Some d.

Definition remove_all_devs : K world unit :=
  kmod (fun w => set_pdevs (omap unregister_dev (pdevs w)) w) ;;
  kmod (fun w => set_pfunc (set_parent_registered false (pfunc w)) w).

Definition build_info_free : K pstate unit :=
  b <- on_b kget ;;
  (if parent_dev b then on_w remove_all_devs else kret tt) ;;
  match feature_dev b with
  | None => kret tt
  | Some h =>
      d <- on_w (get_fdev h) ;;
      (if 0 <=? dev_id d then on_w (free_fpga_id (feature_dev_id_type d) (dev_id d))
       else kret tt) ;;
      on_w (put_device h)
  end.

(** ** Recording a sub feature *)

Definition sub_resource (b : build_feature_devs_info) (name : string) (size start : Z)
  : resource :=
  let s := u64 (pci_resource_start env (current_bar b) + start - b_ioaddr b) in
  Res s (u64 (s + size - 1)) (Some name).

Definition sub_ctx (vstart vcnt : Z) : list feature_irq_ctx :=
  map (fun i => IrqCtx None PNull (pci_irq_vector env (vstart + Z.of_nat i)))
    (seq 0 (Z.to_nat vcnt)).

(** The device being built: dereferencing a NULL feature_dev is an oops. *)
Definition current_dev : K pstate Z := b <- on_b kget ;; deref (feature_dev b).

Definition build_info_add_sub_feature (feature_id : Z) (name : string)
    (size start vstart vcnt : Z) : K pstate Z :=
  h <- current_dev ;;
  b <- on_b kget ;;
  d <- on_w (get_fdev h) ;;
  res <- deref (dev_resource d) ;;
  (if (0 <=? feature_id) && (Z.to_nat feature_id <? length res)%nat then
     on_w (put_fdev h (set_dev_resource
       (Some (<[Z.to_nat feature_id := sub_resource b name size start]> res)) d))
   else oops) ;;
  if istrue vcnt && negb (ctx_alloc_ok env h feature_id) then kret (- ENOMEM)
  else
    on_w (on_fdev h (on_pd (feature_platform_data_add feature_id name feature_id start
                              (sub_ctx vstart vcnt) vcnt))) ;;
    kret 0.

Definition create_feature_instance (start : Z) (finfo : feature_info) : K pstate Z :=
  b <- on_b kget ;;
  if u64 (b_ioend b - start) <? resource_size finfo then kret (- EINVAL)
  else
    (if revision_id finfo =? SKIP_REVISION_CHECK then kret tt
     else readq_at start ;; kret tt) ;;
    build_info_add_sub_feature (feature_index finfo) (fi_name finfo)
      (resource_size finfo) start (vec_start finfo) (vec_cnt finfo).

(** ** Interrupts of a sub feature *)

(** The vectors a feature announces in its capability register. *)
Definition announced_irqs (start : Z) (name : string) : K pstate (Z * Z) :=
  if String.eqb name PORT_FEATURE_UINT then
    cap <- on_w (pci_readq start (offsetof feature_port_uint "capability")) ;;
    let n := fget feature_port_uint_cap "intr_num" cap in
    kret (if istrue n then (fget feature_port_uint_cap "first_vec_num" cap, n) else (0, 0))
  else if String.eqb name PORT_FEATURE_ERR then
    cap <- on_w (pci_readq start (offsetof feature_port_error "error_capability")) ;;
    kret (if istrue (fget feature_port_err_capability "support_intr" cap)
          then (fget feature_port_err_capability "intr_vector_num" cap, 1) else (0, 0))
  else if String.eqb name FME_FEATURE_GLOBAL_ERR then
    cap <- on_w (pci_readq start (offsetof feature_fme_err "fme_err_capability")) ;;
    kret (if istrue (fget feature_fme_error_capability "support_intr" cap)
          then (fget feature_fme_error_capability "intr_vector_num" cap, 1) else (0, 0))
  else kret (0, 0).

(** parse_feature_irqs: [finfo] with its vectors set. *)
Definition parse_feature_irqs (start : Z) (finfo : feature_info) : K pstate feature_info :=
  let vec_cnt := pci_msix_vec_count env in
  if vec_cnt <=? 0 then kret (set_vecs 0 0 finfo)
  else
    v <- announced_irqs start (fi_name finfo) ;;
    if vec_cnt <? u32 (fst v + snd v) then kret (set_vecs 0 0 finfo)
    else kret (set_vecs (fst v) (snd v) finfo).

(** ** The kinds of headers *)

Definition port_finfo (id : Z) : K pstate feature_info :=
  w <- on_w kget ;; if id <? 0 then oops else deref (port_table w !! Z.to_nat id).
Definition fme_finfo (id : Z) : K pstate feature_info :=
  w <- on_w kget ;; if id <? 0 then oops else deref (fme_table w !! Z.to_nat id).
Definition set_port_finfo (id : Z) (f : feature_info) : K pstate unit :=
  on_w (kmod (fun w => set_port_table (<[Z.to_nat id := f]> (port_table w)) w)).
Definition set_fme_finfo (id : Z) (f : feature_info) : K pstate unit :=
  on_w (kmod (fun w => set_fme_table (<[Z.to_nat id := f]> (fme_table w)) w)).

Definition parse_feature_fme (start : Z) : K pstate Z :=
  ret <- build_info_create_dev FME_ID fme_feature_num FPGA_FEATURE_DEV_FME ;;
  if istrue ret then kret ret
  else
    d <- on_w get_drv ;;
    match fme_dev d with
    | Some _ => kret (- EINVAL)
    | None => f <- fme_finfo FME_FEATURE_ID_HEADER ;; create_feature_instance start f
    end.

Definition parse_feature_fme_private (hdr : Z) : K pstate Z :=
  header <- readq_at hdr ;;
  let id := fget feature_header "id" header in
  w <- on_w kget ;;
  if Z.of_nat (length (fme_table w)) <=? id then kret 0
  else
    f <- fme_finfo id ;;
    f <- parse_feature_irqs hdr f ;;
    set_fme_finfo id f ;;
    check_features_header hdr FME_ID id ;;
    create_feature_instance hdr f.

Definition parse_feature_port (start : Z) : K pstate Z :=
  ret <- build_info_create_dev PORT_ID port_feature_num FPGA_FEATURE_DEV_PORT ;;
  if istrue ret then kret ret
  else f <- port_finfo PORT_FEATURE_ID_HEADER ;; create_feature_instance start f.

Definition enable_port_uafu (start : Z) : K pstate unit :=
  capability <- on_w (pci_readq start (offsetof feature_port_header "capability")) ;;
  on_w (pci_readq start (offsetof feature_port_header "control")) ;;
  let size := Z.shiftl (fget feature_port_capability "mmio_size" capability) 10 in
  f <- port_finfo PORT_FEATURE_ID_UAFU ;;
  set_port_finfo PORT_FEATURE_ID_UAFU (set_resource_size size f) ;;
  if istrue size then
    h <- current_dev ;; on_w (on_fdev h fpga_port_reset) ;; kret tt
  else kret tt.

Definition parse_feature_port_private (hdr : Z) : K pstate Z :=
  header <- readq_at hdr ;;
  let id := Z.land (fget feature_header "id" header) 0xf + 1 in
  w <- on_w kget ;;
  if Z.of_nat (length (port_table w)) <=? id then kret 0
  else
    f <- port_finfo id ;;
    f <- parse_feature_irqs hdr f ;;
    set_port_finfo id f ;;
    check_features_header hdr PORT_ID id ;;
    create_feature_instance hdr f.

Definition parse_feature_port_afu (hdr : Z) : K pstate Z :=
  f <- port_finfo PORT_FEATURE_ID_UAFU ;;
  if istrue (resource_size f) then
    ret <- create_feature_instance hdr f ;;
    f <- port_finfo PORT_FEATURE_ID_UAFU ;;
    set_port_finfo PORT_FEATURE_ID_UAFU (set_resource_size 0 f) ;;
    kret ret
  else kret (- EINVAL).

Definition parse_feature_afu (hdr : Z) : K pstate Z :=
  b <- on_b kget ;;
  match feature_dev b with
  | None => kret (- EINVAL)
  | Some h =>
      d <- on_w (get_fdev h) ;;
      match feature_dev_id_type d with
      | PORT_ID => parse_feature_port_afu hdr
      | _ => kret 0
      end
  end.

(** The FIU's next_afu pointer, at the end of parse_feature_fiu. *)
Definition parse_next_afu (hdr : Z) : K pstate Z :=
  fiu <- on_w (pci_readq hdr (sizeof_reg feature_header + offsetof feature_fiu_header "csr")) ;;
  let next_afu := fget feature_fiu_header_csr "next_afu" fiu in
  if istrue next_afu then parse_feature_afu (hdr + next_afu) else kret 0.

Definition parse_feature_fiu (hdr : Z) : K pstate Z :=
  header <- readq_at hdr ;;
  let id := fget feature_header "id" header in
  ret <- (if id =? FEATURE_FIU_ID_FME then
            ret <- parse_feature_fme hdr ;;
            check_features_header hdr FME_ID 0 ;;
            on_b (kmod (set_pfme_hdr hdr)) ;;
            kret ret
          else if id =? FEATURE_FIU_ID_PORT then
            ret <- parse_feature_port hdr ;;
            check_features_header hdr PORT_ID 0 ;;
            enable_port_uafu hdr ;;
            kret ret
          else kret 0) ;;
  if istrue ret then kret ret else parse_next_afu hdr.

Definition parse_feature_private (hdr : Z) : K pstate Z :=
  header <- readq_at hdr ;;
  b <- on_b kget ;;
  match feature_dev b with
  | None => kret (- EINVAL)
  | Some h =>
      d <- on_w (get_fdev h) ;;
      match feature_dev_id_type d with
      | FME_ID => parse_feature_fme_private hdr
      | PORT_ID => parse_feature_port_private hdr
      | _ => kret 0
      end
  end.

Definition parse_feature (hdr : Z) : K pstate Z :=
  header <- readq_at hdr ;;
  let type := fget feature_header "type" header in
  if type =? FEATURE_TYPE_AFU then parse_feature_afu hdr
  else if type =? FEATURE_TYPE_PRIVATE then parse_feature_private hdr
  else if type =? FEATURE_TYPE_FIU then parse_feature_fiu hdr
  else readq_at hdr ;; kret 0.

(** ** The walks *)

(** The loop of parse_feature_list; [None] when the fuel runs out. *)
Fixpoint feature_loop (fuel : nat) (start end_ : Z) : K pstate (option Z) :=
  if start <? end_ then
    match fuel with
    | O => kret None
    | S fuel =>
        if end_ - start <? sizeof_reg feature_header then kret (Some (- EINVAL))
        else
          ret <- parse_feature start ;;
          if istrue ret then kret (Some ret)
          else
            header <- readq_at start ;;
            let next := fget feature_header "next_header_offset" header in
            if istrue (fget feature_header "eol" header) || (next =? 0) then kret (Some 0)
            else feature_loop fuel (start + next) end_
    end
  else kret (Some 0).

(** Each round moves on by at least one byte. *)
Definition parse_fuel (start end_ : Z) : nat := Z.to_nat (end_ - start).

Definition parse_feature_list (start : Z) : K pstate Z :=
  b <- on_b kget ;;
  r <- feature_loop (parse_fuel start (b_ioend b)) start (b_ioend b) ;;
  deref r.

(** The do-while of parse_ports_from_fme from port [i] on. *)
Fixpoint port_loop (n : nat) (i fme_hdr : Z) : K pstate Z :=
  match n with
  | O => kret 0
  | S n =>
      port <- on_w (pci_readq fme_hdr (fme_port_off i)) ;;
      if fget feature_fme_port "port_implemented" port =? 0 then kret 0
      else
        ret <- parse_switch_to (fget feature_fme_port "port_bar" port) ;;
        if istrue ret then kret ret
        else
          b <- on_b kget ;;
          ret <- parse_feature_list (b_ioaddr b + fget feature_fme_port "port_offset" port) ;;
          if istrue ret then kret ret else port_loop n (i + 1) fme_hdr
  end.

Definition parse_ports_from_fme : K pstate Z :=
  b <- on_b kget ;;
  if pfme_hdr b =? 0 then kret 0
  else port_loop (Z.to_nat MAX_FPGA_PORT_NUM) 0 (pfme_hdr b).

(** ** Probe and remove *)

Definition mod_pfunc (f : pci_func -> pci_func) : K world unit :=
  kmod (fun w => set_pfunc (f (pfunc w)) w).

Definition create_init_drvdata : K world Z :=
  if negb (drvdata_alloc_ok env) then kret (- ENOMEM)
  else
    id <- alloc_fpga_id env PARENT_ID ;;
    if id <? 0 then kret id
    else kmod (set_drv (Some (Drvdata id None false [] 0 []))) ;; kret 0.

Definition destroy_drvdata : K world unit :=
  dd <- get_drv ;;
  match fme_dev dd with
  | Some h =>
      d <- get_fdev h ;; free_fpga_id FME_ID (dev_id d) ;; put_device h
  | None => kret tt
  end ;;
  cci_pci_remove_port_devs ;;
  cci_pci_release_regions ;;
  kmod (set_drv None) ;;
  free_fpga_id PARENT_ID (device_id dd).

(** The parse of cci_pci_create_feature_devs up to the label free_binfo_exit. *)
Definition build_feature_devs : K pstate Z :=
  let ret := create_parent_ret env in
  if istrue ret then kret ret
  else
    on_w (mod_pfunc (set_parent_registered true)) ;;
    on_b (kmod (set_parent_dev true)) ;;
    ret <- parse_start ;;
    if istrue ret then kret ret
    else
      b <- on_b kget ;;
      ret <- parse_feature_list (b_ioaddr b) ;;
      if istrue ret then kret ret
      else
        ret <- parse_ports_from_fme ;;
        if istrue ret then kret ret
        else
          ret <- build_info_commit_dev ;;
          if istrue ret then kret ret
          else on_b (kmod (set_parent_dev false)) ;; kret 0.

(** [devm_kzalloc]ed build information. *)
Definition zeroed_binfo : build_feature_devs_info := BInfo 0 0 0 0 false None.

Definition cci_pci_create_feature_devs : K world Z := fun w =>
  if negb (binfo_alloc_ok env) then Some (- ENOMEM, w)
  else
    match (ret <- build_feature_devs ;; build_info_free ;; kret ret) (PS w zeroed_binfo) with
    | Some (ret, s) => Some (ret, pw s)
    | None => None
    end.

Definition cci_pci_alloc_irq : K world Z :=
  if pci_msix_vec_count env <=? 0 then kret 0
  else
    let ret := pci_alloc_irq_vectors_ret env in
    if ret <? 0 then kret ret
    else mod_pfunc (set_irqs_allocated true) ;; kret 0.

Definition cci_pci_free_irq : K world unit := mod_pfunc (set_irqs_allocated false).

(** The error exits of cci_pci_probe. *)
Definition disable_error_report_exit (ret : Z) : K world Z :=
  mod_pfunc (set_aer_on false) ;; mod_pfunc (set_enabled false) ;; kret ret.
Definition release_region_exit (ret : Z) : K world Z :=
  mod_pfunc (set_bars_requested false) ;; disable_error_report_exit ret.
Definition destroy_drvdata_exit (ret : Z) : K world Z :=
  destroy_drvdata ;; release_region_exit ret.
Definition free_irq_exit (ret : Z) : K world Z :=
  cci_pci_free_irq ;; destroy_drvdata_exit ret.

Definition cci_pci_probe : K world Z :=
  let ret := pci_enable_device_ret env in
  if ret <? 0 then kret ret
  else
    mod_pfunc (set_enabled true) ;;
    mod_pfunc (set_aer_on (pci_aer_ret env =? 0)) ;;
    let ret := pci_request_regions_ret env in
    if istrue ret then disable_error_report_exit ret
    else
      mod_pfunc (set_bars_requested true) ;;
      if istrue (dma_mask_64_ret env) && istrue (dma_mask_32_ret env) then
        release_region_exit (- EIO)
      else
        ret <- create_init_drvdata ;;
        if istrue ret then release_region_exit ret
        else
          ret <- cci_pci_alloc_irq ;;
          if istrue ret then destroy_drvdata_exit ret
          else
            ret <- cci_pci_create_feature_devs ;;
            if istrue ret then free_irq_exit ret else kret 0.

(** cci_pci_remove signals the processes that hold a port and waits up to 10
    rounds for them to close it. *)
Fixpoint drain (timeout : nat) (h : Z) : K world unit :=
  match timeout with
  | O => kret tt
  | S timeout =>
      on_fdev h (on_pd mutex_lock) ;;
      n <- on_fdev h (on_pd (kgets open_count)) ;;
      on_fdev h (on_pd mutex_unlock) ;;
      if n =? 0 then kret tt
      else
        on_fdev h (on_pd (kmod (fun p => set_open_count (others_close env (open_count p)) p))) ;;
        drain timeout h
  end.

Definition unplug_port (h : Z) : K world unit :=
  on_fdev h (on_pd mutex_lock) ;;
  pids <- on_fdev h (on_pd (kgets pid_list)) ;;
  kmod (fun w => set_sighup (sighup w ++ map pid pids) w) ;;
  on_fdev h (on_pd (kmod (set_unplug true))) ;;
  on_fdev h (on_pd mutex_unlock) ;;
  drain 10 h.

Fixpoint unplug_ports (l : list Z) : K world unit :=
  match l with
  | [] => kret tt
  | h :: l => unplug_port h ;; unplug_ports l
  end.

Definition cci_pci_remove : K world unit :=
  drv_lock ;;
  d <- get_drv ;;
  unplug_ports (port_dev_list d) ;;
  drv_unlock ;;
  (if dev_is_pf env then cci_pci_sriov_configure env 0 ;; kret tt else kret tt) ;;
  remove_all_devs ;;
  mod_pfunc (set_aer_on false) ;;
  cci_pci_free_irq ;;
  destroy_drvdata ;;
  mod_pfunc (set_bars_requested false) ;;
  mod_pfunc (set_enabled false).
End PcieParse.
