(* ===== verification/PcieExample.v ===== *)
(** * A concrete board for the witnesses of the PCIe driver

    One FME with a thermal unit and two ports behind BAR 0, probed by the model
    of cci_pci_probe. *)

From S2P Require Import Prelude.
From S2P Require Import Bitfield.
From S2P Require Import Registers.
From S2P Require Import Mmio.
From S2P Require Import FeatureDev.
From S2P Require Import PcieTypes.
From S2P Require Import PciePort.
From S2P Require Import PcieParse.

Definition demo_pci_env : pci_env := {|
  pci_resource_start bar := 0xf0000000; pci_resource_len bar := 0x20000;
  pci_ioremap_bar bar := 0x100000;
  drvdata_alloc_ok := true; binfo_alloc_ok := true; region_alloc_ok _ := true;
  pdata_alloc_ok _ := true; resource_alloc_ok _ := true; ctx_alloc_ok _ _ := true;
  platform_device_alloc s := Some (fresh s);
  idr_alloc s := fresh s;
  platform_device_add_ret _ := 0; create_parent_ret := 0;
  pci_msix_vec_count := 8; pci_irq_vector i := 100 + i;
  pci_enable_sriov_ret n := if n =? 1 then 0 else - EIO;
  pci_enable_device_ret := 0; pci_aer_ret := 0; pci_request_regions_ret := 0;
  dma_mask_64_ret := 0; dma_mask_32_ret := 0; pci_alloc_irq_vectors_ret := 8;
  dev_is_pf := true; others_close _ := 0;
|}.

(** A header of the chain: its type, id, offset of the next one and last-in-list bit. *)
Definition mk_header (type id next eol : Z) : Z :=
  fset feature_header "type" type (fset feature_header "id" id
    (fset feature_header "next_header_offset" next (fset feature_header "eol" eol 0))).
Definition mk_port (off : Z) : Z :=
  fset feature_fme_port "port_implemented" 1 (fset feature_fme_port "port_offset" off 0).
Definition mk_cap (n size : Z) : Z :=
  fset feature_port_capability "port_number" n (fset feature_port_capability "mmio_size" size 0).

(** An FME with a thermal unit in BAR 0 and two ports, each with an error
    feature and a 4 KB AFU. *)
Definition port_regs (base n : Z) : list (Z * Z) :=
  [ (base, mk_header FEATURE_TYPE_FIU FEATURE_FIU_ID_PORT 0x1000 0);
    (base + 24, fset feature_fiu_header_csr "next_afu" 0x2000 0);
    (base + offsetof feature_port_header "capability", mk_cap n 4);
    (base + 0x1000, mk_header FEATURE_TYPE_PRIVATE 0x10 0 1) ].
Definition pci_regs : mem_dev := list_to_map (
  [ (0x100000, mk_header FEATURE_TYPE_FIU FEATURE_FIU_ID_FME 0x1000 0);
    (0x100000 + fme_port_off 0, mk_port 0x8000);
    (0x100000 + fme_port_off 1, mk_port 0x10000);
    (0x101000, mk_header FEATURE_TYPE_PRIVATE 1 0 1) ] ++ port_regs 0x108000 0 ++ port_regs 0x110000 1).
Definition pci_start : pci_world unit unit mem_dev :=
  PciW (Ids ∅ ∅ ∅) ∅ None (PciFunc false false false false 0 false) fme_features port_features [] pci_regs.

(** The board after the probe. *)
Definition pci_probed : pci_world unit unit mem_dev :=
  match cci_pci_probe demo_pci_env pci_start with Some (_, w) => w | None => pci_start end.

Lemma pci_probe_succeeds : cci_pci_probe demo_pci_env pci_start = Some (0, pci_probed).
Proof. vm_compute. reflexivity. Qed.

Lemma demo_pci_env_ok : pci_env_ok demo_pci_env.
Proof.
  split; simpl.
  - intros s h [= <-]. apply is_fresh.
  - intros s _. apply is_fresh.
Qed.
