(* ===== verification/PcieSpec.v ===== *)
(** * Theorems about ports under the PCIe driver

    Over every sequence of port releases, assignments, SR-IOV configurations
    and opens, [released_port_num] counts the released ports, and no port is at
    once a device of the physical function and the property of a virtual one.
    The FME's port registers and the ports' capability registers are plain
    memory ([MmioMem]) and do not overlap. *)

From S2P Require Import Prelude.
From S2P Require Import Bitfield.
From S2P Require Import Registers.
From S2P Require Import Mmio.
From S2P Require Import FeatureDev.
From S2P Require Import PcieTypes.
From S2P Require Import PciePort.
From S2P Require Import PcieExample.

Section Assign.
Context {Op P D : Type} {dev : Mmio D} {ok : MmioOk D} {mem : MmioMem D}.
Variable env : pci_env.
Abbreviation world := (pci_world Op P D).
Implicit Types w : world.

(** ** What the driver sees of a port *)

Definition rd (a : Z) w : Z := fst (dev_readq a (phw w)).

(** The address of a device's first feature: its FME or port header. *)
Definition hdr_at w (h : Z) : Z :=
  match pdevs w !! h with
  | Some d =>
      match dev_pdata d with
      | Some p => match features p !! 0%nat with Some f => f_ioaddr f | None => 0 end
      | None => 0
      end
  | None => 0
  end.

Definition cap_addr w (h : Z) : Z := hdr_at w h + offsetof feature_port_header "capability".
Definition port_no w (h : Z) : Z :=
  fget feature_port_capability "port_number" (rd (cap_addr w h) w).
Definition port_reg_addr w (fme id : Z) : Z := hdr_at w fme + fme_port_off id.
Definition access w (fme id : Z) : Z :=
  fget feature_fme_port "afu_access_control" (rd (port_reg_addr w fme id) w).
Definition is_registered w (h : Z) : bool :=
  match pdevs w !! h with Some d => dev_registered d | None => false end.
Definition free_ports w (l : list Z) : list Z := filter (fun h => is_registered w h = false) l.

(** A device whose header is mapped. *)
Definition live w (h : Z) (d : fpga_dev Op P) (p : feature_platform_data Op P) : Prop :=
  pdevs w !! h = Some d /\ dev_pdata d = Some p /\ hdr_at w h <> 0.

(** A port of the list: registered ones hold a second reference and follow the
    open protocol; released ones are held exclusively by the driver. *)
Definition port_ok w (h : Z) : Prop := exists d p,
  live w h d p /\ lock p = false /\
  dev_refs d = (if dev_registered d then 2 else 1) /\
  (if dev_registered d then use_wf p else excl_open p = 1 /\ open_count p = 1).

Record assign_inv (fme : Z) (dd : cci_drvdata) w : Prop := {
  ai_drv : drv w = Some dd;
  ai_lock : dlock dd = false;
  ai_fme : fme_dev dd = Some fme;
  ai_fme_live : exists d p, live w fme d p;
  ai_nodup : NoDup (port_dev_list dd);
  ai_ports : forall h, h ∈ port_dev_list dd -> port_ok w h;
  ai_count : released_port_num dd = Z.of_nat (length (free_ports w (port_dev_list dd)));
  ai_ids : NoDup (map (port_no w) (port_dev_list dd));
  ai_pf : forall h, h ∈ port_dev_list dd -> is_registered w h = true ->
    access w fme (port_no w h) = FME_AFU_ACCESS_PF;
  ai_alias : forall h id, h ∈ port_dev_list dd -> 0 <= id < 4 ->
    cap_addr w h <> port_reg_addr w fme id;
}.

(** ** Running the parts *)

Lemma drv_lock_run w dd :
  drv w = Some dd -> dlock dd = false ->
  drv_lock w = Some (tt, set_drv (Some (set_dlock true dd)) w).
Proof. intros Hd Hl. unfold drv_lock, get_drv, mod_drv, get_drv. simpl. rewrite Hd. simpl. rewrite Hl. simpl. by rewrite Hd. Qed.

Lemma drv_unlock_run w dd :
  drv w = Some dd -> dlock dd = true ->
  drv_unlock w = Some (tt, set_drv (Some (set_dlock false dd)) w).
Proof. intros Hd Hl. unfold drv_unlock, get_drv, mod_drv, get_drv. simpl. rewrite Hd. simpl. rewrite Hl. simpl. by rewrite Hd. Qed.

Lemma mod_drv_run w dd f : drv w = Some dd -> mod_drv f w = Some (tt, set_drv (Some (f dd)) w).
Proof. intros Hd. unfold mod_drv, get_drv. simpl. by rewrite Hd. Qed.

Lemma get_drv_run w dd : drv w = Some dd -> get_drv w = Some (dd, w).
Proof. intros Hd. unfold get_drv. simpl. by rewrite Hd. Qed.

Lemma get_fdev_run w h d : pdevs w !! h = Some d -> get_fdev h w = Some (d, w).
Proof. intros Hd. unfold get_fdev. simpl. by rewrite Hd. Qed.

Lemma put_fdev_run w h d d' :
  pdevs w !! h = Some d -> put_fdev h d' w = Some (tt, set_pdevs (<[h := d']> (pdevs w)) w).
Proof. intros Hd. unfold put_fdev. by run_with get_fdev_run. Qed.

Lemma registered_run w h d :
  pdevs w !! h = Some d -> device_is_registered h w = Some (dev_registered d, w).
Proof. intros Hd. unfold device_is_registered. by run_with get_fdev_run. Qed.

Lemma on_fdev_run {A} w h d p (c : K (platform_device Op P D) A) a q :
  pdevs w !! h = Some d -> dev_pdata d = Some p -> c (Pdev p (phw w)) = Some (a, q) ->
  on_fdev h c w =
  Some (a, set_phw (io q) (set_pdevs (<[h := set_dev_pdata (Some (pd q)) d]> (pdevs w)) w)).
Proof. intros Hd Hp Hc. unfold on_fdev. by rewrite Hd, Hp, Hc. Qed.

Lemma on_fdev_pure {A} w h d p (c : K (platform_device Op P D) A) a :
  pdevs w !! h = Some d -> dev_pdata d = Some p ->
  c (Pdev p (phw w)) = Some (a, Pdev p (phw w)) -> on_fdev h c w = Some (a, w).
Proof.
  intros Hd Hp Hc. rewrite (on_fdev_run _ _ _ _ _ _ _ Hd Hp Hc). simpl.
  assert (set_dev_pdata (Some p) d = d) as -> by (destruct d; simpl in *; by subst).
  rewrite insert_id by done. by destruct w.
Qed.

Lemma hdr_ioaddr_run w h d p :
  live w h d p -> get_feature_ioaddr_by_index 0 p = Some (hdr_at w h, p).
Proof.
  intros (Hd & Hp & Hne). unfold hdr_at in *. rewrite Hd, Hp in Hne |- *.
  destruct (features p !! 0%nat) as [f|] eqn:Hf; [|done].
  eapply get_feature_ioaddr_run; [lia | exact Hf].
Qed.

Lemma port_id_run w h d p : live w h d p -> on_fdev h fpga_port_id w = Some (port_no w h, w).
Proof.
  intros Hl. pose proof Hl as (Hd & Hp & Hne). eapply on_fdev_pure; [exact Hd | exact Hp |].
  unfold fpga_port_id. change PORT_FEATURE_ID_HEADER with 0. simpl.
  rewrite (hdr_ioaddr_run _ _ _ _ Hl). simpl.
  unfold mmio_readq. rewrite (proj2 (Z.eqb_neq _ _) Hne). simpl.
  unfold port_no, rd, cap_addr.
  pose proof (mem_read_pure (hdr_at w h + offsetof feature_port_header "capability") (phw w)) as E.
  destruct (dev_readq _ (phw w)) as [v d2]. simpl in *. by subst.
Qed.

Lemma lookup_port_run w l i :
  (forall h, h ∈ l -> exists d p, live w h d p) ->
  lookup_port l i w = Some (head (filter (fun h => port_no w h = i) l), w).
Proof.
  induction l as [|h l IH]; intros Hl; [done|].
  destruct (Hl h) as (d & p & Hlive); [left|].
  cbn [lookup_port]. unfold fpga_port_check_id.
  assert (on_fdev h (id <- fpga_port_id ;; kret (id =? i)) w = Some (port_no w h =? i, w)) as E.
  { pose proof Hlive as (Hd & Hp & _). pose proof (port_id_run _ _ _ _ Hlive) as Hr.
    unfold on_fdev in *. rewrite Hd, Hp in *. unfold kbind.
    destruct (fpga_port_id (Pdev p (phw w))) as [[x q]|]; [|done].
    simpl in *. congruence. }
  rewrite (kbind_run _ _ _ _ _ E).
  rewrite filter_cons. destruct (Z.eqb_spec (port_no w h) i) as [->|Hn].
  - by rewrite decide_True.
  - rewrite decide_False by done. apply IH. intros x Hx. apply Hl. by right.
Qed.

Lemma fme_header_run w fme d p : live w fme d p -> fme_header_of fme w = Some (hdr_at w fme, w).
Proof.
  intros Hl. pose proof Hl as (Hd & Hp & _). eapply on_fdev_pure; [exact Hd | exact Hp |].
  change FME_FEATURE_ID_HEADER with 0. simpl. by rewrite (hdr_ioaddr_run _ _ _ _ Hl).
Qed.

Lemma pci_readq_run w base off : base <> 0 -> pci_readq base off w = Some (rd (base + off) w, w).
Proof.
  intros Hb. unfold pci_readq. rewrite (proj2 (Z.eqb_neq _ _) Hb). simpl.
  unfold rd. pose proof (mem_read_pure (base + off) (phw w)) as E.
  destruct (dev_readq _ (phw w)) as [v d2]. simpl in *. subst. by destruct w.
Qed.

Lemma pci_writeq_run w v base off :
  base <> 0 -> pci_writeq v base off w = Some (tt, set_phw (dev_writeq (base + off) v (phw w)) w).
Proof. intros Hb. unfold pci_writeq. by rewrite (proj2 (Z.eqb_neq _ _) Hb). Qed.

(** ** Assigning a port *)

Lemma set_drv_id w dd : drv w = Some dd -> set_drv (Some dd) w = w.
Proof. intros H. destruct w; simpl in *. by subst. Qed.

Lemma dlock_back dd : dlock dd = false -> set_dlock false (set_dlock true dd) = dd.
Proof. destruct dd; simpl. by intros ->. Qed.

(** Releasing the lock restores the world an operation did not change. *)
Lemma unlock_unchanged w dd :
  drv w = Some dd -> dlock dd = false ->
  drv_unlock (set_drv (Some (set_dlock true dd)) w) = Some (tt, w).
Proof.
  intros Hd Hl. rewrite (drv_unlock_run _ (set_dlock true dd)) by done. simpl.
  rewrite dlock_back by done. by rewrite <- (set_drv_id w dd Hd) at 2.
Qed.

(** The port with its exclusive hold given back and registered again. *)
Definition assigned (d : fpga_dev Op P) (p : feature_platform_data Op P) : fpga_dev Op P :=
  FDev (dev_name d) (dev_id d) (dev_resource d)
    (Some (set_open_count (open_count p - 1) (set_excl_open 0 p))) true (dev_refs d + 1).

(** [n] more released ports, and device [h] replaced. *)
Definition with_port (dd : cci_drvdata) (n : Z) (h : Z) (d : fpga_dev Op P) w : world :=
  set_drv (Some (set_released_port_num (released_port_num dd + n) dd))
    (set_pdevs (<[h := d]> (pdevs w)) w).

(** The first port of the list with number [i]. *)
Definition port_named dd w (i : Z) : option Z := head (filter (fun h => port_no w h = i) (port_dev_list dd)).

(** What attach_port_dev returns. *)
Definition attach_code (fme : Z) (dd : cci_drvdata) (i : Z) w : Z :=
  if access w fme i =? FME_AFU_ACCESS_VF then - EBUSY
  else
    match port_named dd w i with
    | None => - EINVAL
    | Some h => if is_registered w h then - EBUSY else platform_device_add_ret env h
    end.

Definition attach_outcome (fme : Z) (dd : cci_drvdata) (i : Z) w (ret : Z) w' : Prop :=
  ret = attach_code fme dd i w /\
  ((ret <> 0 /\ w' = w) \/
  (ret = 0 /\ exists h d p, h ∈ port_dev_list dd /\ port_no w h = i /\ live w h d p /\
     dev_registered d = false /\ access w fme i = FME_AFU_ACCESS_PF /\
     w' = with_port dd (-1) h (assigned d p) w)).

Lemma access_flag w fme i : access w fme i = FME_AFU_ACCESS_PF \/ access w fme i = FME_AFU_ACCESS_VF.
Proof.
  pose proof (fget_range feature_fme_port "afu_access_control" (rd (port_reg_addr w fme i) w)) as H.
  unfold access, FME_AFU_ACCESS_PF, FME_AFU_ACCESS_VF.
  assert (width feature_fme_port "afu_access_control" = 1) as E by (vm_compute; reflexivity).
  rewrite E in H. unfold in_range in H. specialize (H ltac:(vm_compute; reflexivity)). lia.
Qed.

Lemma found_port w dd i h :
  head (filter (fun h => port_no w h = i) (port_dev_list dd)) = Some h ->
  h ∈ port_dev_list dd /\ port_no w h = i.
Proof.
  intros H. assert (h ∈ filter (fun h => port_no w h = i) (port_dev_list dd)) as Hin.
  { destruct (filter _ _) as [|x l]; simpl in *; inv_run; left. }
  apply list_elem_of_filter in Hin. tauto.
Qed.

Lemma lookup_run w w1 dd i :
  drv w1 = Some (set_dlock true dd) -> pdevs w1 = pdevs w -> phw w1 = phw w ->
  (forall h, h ∈ port_dev_list dd -> port_ok w h) ->
  cci_pci_lookup_port_by_id i w1 =
  Some (head (filter (fun h => port_no w h = i) (port_dev_list dd)), w1).
Proof.
  intros Hd Hp Hw Hok. unfold cci_pci_lookup_port_by_id. run_with @get_drv_run.
  rewrite lookup_port_run.
  - f_equal. f_equal. f_equal. apply list_filter_iff. intros h.
    unfold port_no, rd, cap_addr, hdr_at. by rewrite Hp, Hw.
  - intros h Hh. destruct (Hok h Hh) as (d & p & Hl & _). exists d, p.
    unfold live, hdr_at in *. by rewrite Hp.
Qed.

(** A port whose lock is free is released by its close. *)
Lemma use_end_run (p : feature_platform_data Op P) (d : D) :
  lock p = false ->
  on_pd feature_dev_use_end (Pdev p d) =
  Some (tt, Pdev (set_open_count (open_count p - 1) (set_excl_open 0 p)) d).
Proof.
  intros Hl. destruct p; simpl in *. subst. reflexivity.
Qed.

Definition set_dev (h : Z) (d : fpga_dev Op P) w : world := set_pdevs (<[h := d]> (pdevs w)) w.

Lemma set_dev_lookup h d w : pdevs (set_dev h d w) !! h = Some d.
Proof. apply lookup_insert_eq. Qed.

Lemma set_dev_twice h d1 d2 w : set_dev h d2 (set_dev h d1 w) = set_dev h d2 w.
Proof. unfold set_dev, set_pdevs. simpl. by rewrite insert_insert_eq. Qed.

Lemma device_add_run w h d :
  pdevs w !! h = Some d ->
  platform_device_add env h w =
  if istrue (platform_device_add_ret env h) then Some (platform_device_add_ret env h, w)
  else Some (0, set_dev h (set_dev_registered true d) w).
Proof.
  intros Hd. unfold platform_device_add. run_with @get_fdev_run.
  destruct (istrue _); [done|]. by run_with @put_fdev_run.
Qed.

Lemma get_device_run w h d :
  pdevs w !! h = Some d ->
  get_device h w = Some (tt, set_dev h (set_dev_refs (dev_refs d + 1) d) w).
Proof. intros Hd. unfold get_device. run_with @get_fdev_run. by apply put_fdev_run with d. Qed.

Lemma put_device_run w h d :
  pdevs w !! h = Some d -> dev_refs d <> 1 ->
  put_device h w = Some (tt, set_dev h (set_dev_refs (dev_refs d - 1) d) w).
Proof.
  intros Hd Hr. unfold put_device. run_with @get_fdev_run.
  rewrite (proj2 (Z.eqb_neq _ _) Hr). by apply put_fdev_run with d.
Qed.

Lemma attach_found_run w dd h d p :
  drv w = Some dd -> live w h d p -> lock p = false ->
  attach_found env h w =
  if dev_registered d then Some (- EBUSY, w)
  else if istrue (platform_device_add_ret env h) then Some (platform_device_add_ret env h, w)
  else Some (0, with_port dd (-1) h (assigned d p) w).
Proof.
  intros Hdd (Hd & Hp & Hne) Hlock. unfold attach_found.
  run_with @registered_run. destruct (dev_registered d) eqn:Hr; [done|].
  unfold kbind at 1. rewrite (device_add_run w h d Hd).
  destruct (istrue (platform_device_add_ret env h)) eqn:Ha; [by rewrite Ha|].
  change (istrue 0) with false. cbn iota.
  rewrite (kbind_run _ _ _ _ _ (get_device_run _ h _ (set_dev_lookup _ _ _))), set_dev_twice.
  erewrite kbind_run; [|eapply on_fdev_run; [apply set_dev_lookup | exact Hp | by apply use_end_run]].
  simpl. unfold with_port, assigned, set_dev, set_phw. simpl.
  by rewrite insert_insert_eq, Hdd.
Qed.

Lemma attach_run fme dd i w :
  assign_inv fme dd w -> exists ret w',
  attach_port_dev env fme i w = Some (ret, w') /\ attach_outcome fme dd i w ret w'.
Proof.
  intros I. destruct (ai_fme_live _ _ _ I) as (df & pf & Hf).
  set (wl := set_drv (Some (set_dlock true dd)) w).
  unfold attach_port_dev. run_with @fme_header_run.
  rewrite (kbind_run _ _ _ _ _ (drv_lock_run _ _ (ai_drv _ _ _ I) (ai_lock _ _ _ I))).
  fold wl. rewrite (kbind_run _ _ _ _ _ (pci_readq_run wl _ (fme_port_off i) (proj2 (proj2 Hf)))).
  change (fget _ _ (rd (hdr_at w fme + fme_port_off i) wl)) with (access w fme i).
  unfold attach_outcome, attach_code.
  assert (forall r : Z, (drv_unlock ;; kret r) wl = Some (r, w)) as Hun.
  { intros r. unfold kbind, wl. by rewrite unlock_unchanged by (apply I). }
  destruct (Z.eqb_spec (access w fme i) FME_AFU_ACCESS_VF) as [|Hvf].
  { rewrite Hun. eexists _, w. split; [done|]. split; [done|]. by left. }
  rewrite (kbind_run _ _ _ _ _ (lookup_run w wl dd i eq_refl eq_refl eq_refl (ai_ports _ _ _ I))).
  unfold port_named. destruct (head (filter _ (port_dev_list dd))) as [h|] eqn:Hh; cycle 1.
  { rewrite (kbind_run (kret _) _ wl _ _ eq_refl), Hun. eexists _, w. split; [done|]. split; [done|]. by left. }
  apply found_port in Hh as [Hin Hno].
  destruct (ai_ports _ _ _ I h Hin) as (d & p & Hl & Hlock & Hrefs & Hreg).
  unfold kbind at 1. rewrite (attach_found_run wl (set_dlock true dd) h d p eq_refl Hl Hlock).
  unfold is_registered. rewrite (proj1 Hl). destruct (dev_registered d) eqn:Hr.
  { rewrite Hun. eexists _, w. split; [done|]. split; [done|]. by left. }
  destruct (istrue (platform_device_add_ret env h)) eqn:Ha.
  { rewrite Hun. eexists _, w. split; [done|]. split; [done|]. left. split; [|done].
    intros E. rewrite E in Ha. done. }
  unfold kbind. erewrite drv_unlock_run by reflexivity.
  eexists _, _. split; [reflexivity|]. split.
  { unfold istrue in Ha. boolify. done. }
  right. split; [done|]. exists h, d, p. split_and!; try done.
  - destruct (access_flag w fme i); [done | congruence].
  - unfold with_port, set_drv. simpl. f_equal. f_equal.
    pose proof (ai_lock _ _ _ I) as E. destruct dd; simpl in *. by subst.
Qed.

(** ** Releasing a port *)

(** The port held exclusively by the driver and no longer registered. *)
Definition released_dev (d : fpga_dev Op P) (p : feature_platform_data Op P) : fpga_dev Op P :=
  FDev (dev_name d) (dev_id d) (dev_resource d)
    (Some (set_open_count (open_count p + 1) (set_excl_open 1 p))) false (dev_refs d - 1).

(** A port that somebody has open, or that is being unplugged. *)
Definition in_use w (h : Z) : bool :=
  match pdevs w !! h ≫= dev_pdata with
  | Some p => istrue (open_count p) || unplug p
  | None => false
  end.

(** What detach_port_dev returns. *)
Definition detach_code (dd : cci_drvdata) (i : Z) w : Z :=
  match port_named dd w i with
  | None => - EINVAL
  | Some h => if negb (is_registered w h) || in_use w h then - EBUSY else 0
  end.

Definition detach_outcome (dd : cci_drvdata) (i : Z) w (ret : Z) w' : Prop :=
  ret = detach_code dd i w /\
  ((ret <> 0 /\ w' = w) \/
  (ret = 0 /\ exists h d p, h ∈ port_dev_list dd /\ port_no w h = i /\ live w h d p /\
     dev_registered d = true /\ open_count p = 0 /\
     w' = with_port dd 1 h (released_dev d p) w)).

Lemma excl_begin_run (p : feature_platform_data Op P) (x : D) :
  lock p = false ->
  on_pd feature_dev_use_excl_begin (Pdev p x) =
  if istrue (open_count p) || unplug p then Some (- EBUSY, Pdev p x)
  else Some (0, Pdev (set_open_count (open_count p + 1) (set_excl_open 1 p)) x).
Proof.
  intros Hl. destruct p; simpl in *. subst. unfold feature_dev_use_excl_begin. simpl.
  by destruct (istrue _ || _).
Qed.

Lemma detach_found_run w dd h d p :
  drv w = Some dd -> live w h d p -> lock p = false -> dev_refs d = (if dev_registered d then 2 else 1) ->
  detach_found h w =
  if negb (dev_registered d) || (istrue (open_count p) || unplug p) then Some (- EBUSY, w)
  else Some (0, with_port dd 1 h (released_dev d p) w).
Proof.
  intros Hdd (Hd & Hp & Hne) Hlock Hrefs. unfold detach_found.
  run_with @registered_run. destruct (dev_registered d) eqn:Hr; [|done].
  pose proof (excl_begin_run p (phw w) Hlock) as He. cbn [negb orb].
  destruct (istrue (open_count p) || unplug p).
  { by rewrite (kbind_run _ _ _ _ _ (on_fdev_pure w h d p _ _ Hd Hp He)). }
  rewrite (kbind_run _ _ _ _ _ (on_fdev_run w h d p _ _ _ Hd Hp He)).
  change (istrue 0) with false. cbn iota.
  unfold platform_device_del. set (w1 := set_phw _ _).
  pose proof (lookup_insert_eq (pdevs w) h (set_dev_pdata (Some (set_open_count (open_count p + 1) (set_excl_open 1 p))) d)) as H1.
  erewrite kbind_run; cycle 1.
  { rewrite (kbind_run _ _ _ _ _ (get_fdev_run w1 h _ H1)). exact (put_fdev_run w1 h _ _ H1). }
  change (set_pdevs (<[h := ?x]> (pdevs w1)) w1) with (set_dev h x w1).
  erewrite kbind_run; [|apply (put_device_run _ h _ (set_dev_lookup _ _ _)); simpl; lia].
  rewrite set_dev_twice. unfold kbind. erewrite mod_drv_run by exact Hdd.
  unfold with_port, released_dev, set_dev, w1, set_phw, set_drv. simpl.
  by rewrite insert_insert_eq.
Qed.

Lemma detach_run fme dd i w :
  assign_inv fme dd w -> exists ret w',
  detach_port_dev i w = Some (ret, w') /\ detach_outcome dd i w ret w'.
Proof.
  intros I. set (wl := set_drv (Some (set_dlock true dd)) w).
  unfold detach_port_dev.
  rewrite (kbind_run _ _ _ _ _ (drv_lock_run _ _ (ai_drv _ _ _ I) (ai_lock _ _ _ I))).
  fold wl. assert (forall r : Z, (drv_unlock ;; kret r) wl = Some (r, w)) as Hun.
  { intros r. unfold kbind, wl. by rewrite unlock_unchanged by (apply I). }
  rewrite (kbind_run _ _ _ _ _ (lookup_run w wl dd i eq_refl eq_refl eq_refl (ai_ports _ _ _ I))).
  unfold detach_outcome, detach_code, port_named.
  destruct (head (filter _ (port_dev_list dd))) as [h|] eqn:Hh; cycle 1.
  { rewrite (kbind_run (kret _) _ wl _ _ eq_refl), Hun. eexists _, w. split; [done|]. split; [done|]. by left. }
  apply found_port in Hh as [Hin Hno].
  destruct (ai_ports _ _ _ I h Hin) as (d & p & Hl & Hlock & Hrefs & Hreg).
  unfold kbind at 1.
  rewrite (detach_found_run wl (set_dlock true dd) h d p eq_refl Hl Hlock Hrefs).
  unfold is_registered, in_use. rewrite (proj1 Hl). cbn [mbind option_bind].
  rewrite (proj1 (proj2 Hl)).
  destruct (negb (dev_registered d) || (istrue (open_count p) || unplug p)) eqn:E.
  { rewrite Hun. eexists _, w. split; [done|]. split; [done|]. by left. }
  boolify. unfold kbind. erewrite drv_unlock_run by reflexivity.
  eexists _, _. split; [reflexivity|]. split; [done|]. right. split; [done|]. exists h, d, p.
  split_and!; try done.
  - unfold istrue in *. boolify. done.
  - unfold with_port, set_drv. simpl. f_equal. f_equal.
    pose proof (ai_lock _ _ _ I) as Hlk. destruct dd; simpl in *. by subst.
Qed.

(** ** Both keep the invariant *)

Definition same_features (d d' : fpga_dev Op P) : Prop :=
  exists p p', dev_pdata d = Some p /\ dev_pdata d' = Some p' /\ features p' = features p.

Lemma hdr_at_with_port dd n h d d' w x :
  pdevs w !! h = Some d -> same_features d d' -> hdr_at (with_port dd n h d' w) x = hdr_at w x.
Proof.
  intros Hd (p & p' & Hp & Hp' & Hf). unfold hdr_at, with_port. simpl.
  destruct (decide (h = x)) as [->|Hne].
  - by rewrite lookup_insert_eq, Hd, Hp, Hp', Hf.
  - by rewrite lookup_insert_ne.
Qed.

Lemma filter_congr {A} (Q R : A -> Prop) `{!forall x, Decision (Q x), !forall x, Decision (R x)}
    (l : list A) :
  (forall x, x ∈ l -> Q x <-> R x) -> filter Q l = filter R l.
Proof.
  induction l as [|x l IH]; intros Heq; [done|]. rewrite !filter_cons.
  pose proof (Heq x ltac:(left)). rewrite IH by (intros; apply Heq; by right).
  destruct (decide (Q x)), (decide (R x)); tauto.
Qed.

Lemma length_filter_flip {A} (Q R : A -> Prop) `{!forall x, Decision (Q x), !forall x, Decision (R x)}
    (l : list A) (h : A) :
  NoDup l -> h ∈ l -> Q h -> ~ R h -> (forall x, x <> h -> Q x <-> R x) ->
  length (filter Q l) = S (length (filter R l)).
Proof.
  intros Hn Hin HQ HR Heq. induction Hn as [|x l Hx Hn IH]; [by apply elem_of_nil in Hin|].
  rewrite !filter_cons. apply elem_of_cons in Hin as [->|Hin].
  - rewrite decide_True, decide_False by done. simpl. f_equal. f_equal.
    apply filter_congr. intros y Hy. apply Heq. by intros ->.
  - assert (x <> h) as Hne by (by intros ->). specialize (Heq x Hne).
    destruct (decide (Q x)), (decide (R x)); try tauto; simpl; by rewrite IH.
Qed.

Lemma is_registered_set dd n h d w x :
  is_registered (with_port dd n h d w) x = if decide (h = x) then dev_registered d else is_registered w x.
Proof.
  unfold is_registered, with_port. simpl. destruct (decide (h = x)) as [->|Hne].
  - by rewrite lookup_insert_eq.
  - by rewrite lookup_insert_ne.
Qed.

(** Registering or unregistering one port of the list, with the counter moved
    by the same amount, keeps the invariant. *)
Lemma with_port_inv fme dd w n h d d' :
  assign_inv fme dd w -> h ∈ port_dev_list dd -> pdevs w !! h = Some d -> same_features d d' ->
  dev_registered d' = negb (dev_registered d) ->
  n = (if dev_registered d then 1 else -1) ->
  port_ok (with_port dd n h d' w) h ->
  (dev_registered d' = true -> access w fme (port_no w h) = FME_AFU_ACCESS_PF) ->
  assign_inv fme (set_released_port_num (released_port_num dd + n) dd) (with_port dd n h d' w).
Proof.
  intros I Hin Hd Hsf Hreg -> Hok Hpf. set (w' := with_port _ _ _ _ _) in *.
  assert (forall x, hdr_at w' x = hdr_at w x) as Hh by (intros; by eapply hdr_at_with_port).
  assert (forall x, port_no w' x = port_no w x) as Hno
    by (intros; unfold port_no, cap_addr, rd; by rewrite Hh).
  assert (forall x, is_registered w' x = if decide (h = x) then negb (dev_registered d) else is_registered w x) as Hr
    by (intros; unfold w'; by rewrite is_registered_set, Hreg).
  assert (is_registered w h = dev_registered d) as Hrh by (unfold is_registered; by rewrite Hd).
  split; simpl; try apply I.
  - done.
  - destruct (ai_fme_live _ _ _ I) as (df & pf & Hdf & Hpf' & Hne).
    destruct (decide (h = fme)) as [->|Hx].
    + destruct Hsf as (p & p' & Hp & Hp' & _). exists d', p'. split_and!.
      * apply lookup_insert_eq.
      * done.
      * by rewrite Hh.
    + exists df, pf. split_and!; [|done|by rewrite Hh]. unfold w'. simpl. by rewrite lookup_insert_ne.
  - intros x Hx. destruct (decide (h = x)) as [<-|Hxh]; [done|].
    destruct (ai_ports _ _ _ I x Hx) as (dx & px & (Hdx & Hpx & Hnex) & Hrest).
    exists dx, px. split; [|done]. split_and!; [|done|by rewrite Hh].
    unfold w'. simpl. by rewrite lookup_insert_ne.
  - rewrite (ai_count _ _ _ I). unfold free_ports.
    destruct (dev_registered d) eqn:E.
    + rewrite (length_filter_flip (fun x => is_registered w' x = false) (fun x => is_registered w x = false) _ h);
        [lia | apply I | done | | | ].
      * rewrite Hr. by rewrite decide_True.
      * by rewrite Hrh.
      * intros x Hx. rewrite Hr. by rewrite decide_False.
    + rewrite (length_filter_flip (fun x => is_registered w x = false) (fun x => is_registered w' x = false) _ h);
        [lia | apply I | done | done | | ].
      * rewrite Hr. by rewrite decide_True.
      * intros x Hx. rewrite Hr. by rewrite decide_False.
  - rewrite (map_ext _ (port_no w)) by done. apply I.
  - intros x Hx Hxr. rewrite Hno. change (access w fme (port_no w x) = FME_AFU_ACCESS_PF)
      with (fget feature_fme_port "afu_access_control" (rd (hdr_at w fme + fme_port_off (port_no w x)) w) = FME_AFU_ACCESS_PF).
    unfold access, port_reg_addr. rewrite Hh. change (rd ?a w') with (rd a w).
    rewrite Hr in Hxr. destruct (decide (h = x)) as [<-|Hxh].
    + apply Hpf. congruence.
    + by apply (ai_pf _ _ _ I).
  - intros x j Hx Hj. unfold cap_addr, port_reg_addr. rewrite !Hh. by apply (ai_alias _ _ _ I).
Qed.

Lemma attach_inv fme dd i w ret w' :
  assign_inv fme dd w -> attach_outcome fme dd i w ret w' -> exists dd', assign_inv fme dd' w'.
Proof.
  intros I (_ & [[_ ->]|(_ & h & d & p & Hin & Hno & (Hd & Hp & Hne) & Hr & Ha & ->)]); [by exists dd|].
  eexists. destruct (ai_ports _ _ _ I h Hin) as (d0 & p0 & (Hd0 & Hp0 & _) & Hlock & Hrefs & Hreg).
  simplify_eq. rewrite Hr in Hrefs, Hreg.
  assert (same_features d (assigned d p)) as Hsf by (eexists _, _; done).
  eapply with_port_inv; try done; [by rewrite Hr|by rewrite Hr|].
  exists (assigned d p), (set_open_count (open_count p - 1) (set_excl_open 0 p)).
  split_and!; simpl; try done; try lia; [|split_and!; simpl; [done|lia|by left]].
  split_and!; [apply lookup_insert_eq | done |]. by rewrite (hdr_at_with_port _ _ _ _ _ _ _ Hd Hsf).
Qed.

Lemma detach_inv fme dd i w ret w' :
  assign_inv fme dd w -> detach_outcome dd i w ret w' -> exists dd', assign_inv fme dd' w'.
Proof.
  intros I (_ & [[_ ->]|(_ & h & d & p & Hin & Hno & (Hd & Hp & Hne) & Hr & Ho & ->)]); [by exists dd|].
  eexists. destruct (ai_ports _ _ _ I h Hin) as (d0 & p0 & (Hd0 & Hp0 & _) & Hlock & Hrefs & Hreg).
  simplify_eq. rewrite Hr in Hrefs, Hreg.
  assert (same_features d (released_dev d p)) as Hsf by (eexists _, _; done).
  eapply with_port_inv; try done; [by rewrite Hr|by rewrite Hr|].
  exists (released_dev d p), (set_open_count (open_count p + 1) (set_excl_open 1 p)).
  split_and!; simpl; try done; try lia.
  split_and!; [apply lookup_insert_eq | done |]. by rewrite (hdr_at_with_port _ _ _ _ _ _ _ Hd Hsf).
Qed.

(** ** SR-IOV *)

(** The FME's register of port [i] with its access control set. *)
Definition set_access (fme t : Z) w (i : Z) : world :=
  set_phw (dev_writeq (port_reg_addr w fme i)
             (fset feature_fme_port "afu_access_control" t (rd (port_reg_addr w fme i) w)) (phw w)) w.

Definition set_all (fme t : Z) (l : list Z) w : world := fold_left (set_access fme t) l w.

(** Only the hardware moves, and no port number does. *)
Record seen (fme : Z) (l : list Z) w : Prop := {
  seen_drv : exists dd, drv w = Some dd /\ fme_dev dd = Some fme;
  seen_fme : exists d p, live w fme d p;
  seen_live : forall h, h ∈ l -> exists d p, live w h d p;
  seen_alias : forall h i, h ∈ l -> 0 <= i < 4 -> cap_addr w h <> port_reg_addr w fme i;
}.

Lemma seen_set_access fme l w t i : seen fme l w -> seen fme l (set_access fme t w i).
Proof. intros []. by split. Qed.

Lemma seen_tail fme h l w : seen fme (h :: l) w -> seen fme l w.
Proof.
  intros [? ? Hl Ha]. split; [done | done | |].
  - intros x Hx. apply Hl. by right.
  - intros x i Hx. apply Ha. by right.
Qed.

Lemma port_no_set_access fme l w t i h :
  seen fme l w -> h ∈ l -> 0 <= i < 4 -> port_no (set_access fme t w i) h = port_no w h.
Proof.
  intros Hs Hh Hi. unfold port_no. f_equal. unfold rd. simpl. apply mem_write_other.
  intros E. symmetry in E. by apply (seen_alias _ _ _ Hs h i Hh Hi).
Qed.

Lemma port_no_range w h : 0 <= port_no w h < 4.
Proof.
  apply (fget_range feature_port_capability "port_number"). vm_compute. reflexivity.
Qed.

Lemma port_reg_inj w fme i j : port_reg_addr w fme i = port_reg_addr w fme j -> i = j.
Proof.
  unfold port_reg_addr, fme_port_off.
  change (sizeof_reg feature_fme_port) with 8. lia.
Qed.

Lemma access_set_access fme t w i j :
  access (set_access fme t w i) fme j = if decide (i = j) then wrap 1 t else access w fme j.
Proof.
  unfold access. change (port_reg_addr (set_access fme t w i) fme j) with (port_reg_addr w fme j).
  unfold rd. simpl. destruct (decide (i = j)) as [->|Hne].
  - rewrite mem_write_same by (apply fset_range; [reg_tac | apply readq_u64]).
    rewrite fget_fset_same by reg_tac. done.
  - rewrite mem_write_other; [done|]. intros E%port_reg_inj. done.
Qed.

Lemma config_vf_run fme w i (b : bool) l :
  seen fme l w ->
  port_config_vf fme i b w =
  Some (tt, set_access fme (if b then FME_AFU_ACCESS_VF else FME_AFU_ACCESS_PF) w i).
Proof.
  intros Hs. destruct (seen_fme _ _ _ Hs) as (d & p & Hl). pose proof Hl as (_ & _ & Hne).
  unfold port_config_vf. run_with @fme_header_run.
  rewrite (kbind_run _ _ _ _ _ (pci_readq_run _ _ _ Hne)).
  by rewrite pci_writeq_run.
Qed.

Definition vf_numbers w (l : list Z) : list Z := map (port_no w) (free_ports w l).

Lemma vf_numbers_set_access fme l l' w t i :
  seen fme l w -> l' ⊆ l -> 0 <= i < 4 -> vf_numbers (set_access fme t w i) l' = vf_numbers w l'.
Proof.
  intros Hs Hl Hi. unfold vf_numbers.
  change (free_ports (set_access fme t w i) l') with (free_ports w l').
  apply map_ext_in. intros h Hh%list_elem_of_In. apply list_elem_of_filter in Hh as [_ Hh].
  eapply port_no_set_access; [exact Hs | by apply Hl | done].
Qed.

(** The ports vf_loop reconfigures: all released ones back to the PF, or the
    first [n - k] released ones to a VF. *)
Definition chosen (n k : Z) (ids : list Z) : list Z :=
  if n =? 0 then ids else take (Z.to_nat (n - k)) ids.

Lemma vf_loop_run fme l n k w :
  seen fme l w -> n = 0 \/ 0 <= k < n ->
  vf_loop l n k w =
  Some (tt, set_all fme (if n =? 0 then FME_AFU_ACCESS_PF else FME_AFU_ACCESS_VF)
              (chosen n k (vf_numbers w l)) w).
Proof.
  revert k w. induction l as [|h l IH]; intros k w Hs Hk.
  - simpl. unfold chosen, vf_numbers. simpl. by destruct (n =? 0); rewrite ?take_nil.
  - destruct (seen_live _ _ _ Hs h) as (d & p & Hl); [left|]. pose proof Hl as (Hd & _).
    pose proof (port_no_range w h) as Hr.
    assert (seen fme l w) as Hs' by (by eapply seen_tail).
    destruct (seen_drv _ _ _ Hs) as (dd & Hdd & Hfme).
    cbn [vf_loop]. run_with @port_id_run. run_with @registered_run.
    unfold vf_numbers, free_ports. rewrite filter_cons.
    assert (is_registered w h = dev_registered d) as E by (unfold is_registered; by rewrite Hd).
    destruct (dev_registered d).
    { rewrite decide_False by (by rewrite E). by apply IH. }
    rewrite decide_True by done. run_with @get_drv_run.
    rewrite Hfme. rewrite (kbind_run (deref (Some fme)) _ w fme w eq_refl). cbn [map].
    fold (free_ports w l). fold (vf_numbers w l).
    unfold chosen.
    destruct (Z.eqb_spec n 0) as [E0|Hn].
    + subst n. rewrite (kbind_run _ _ _ _ _ (config_vf_run fme w _ _ l Hs')).
      rewrite IH by (try apply seen_set_access; auto). unfold chosen. simpl.
      by rewrite (vf_numbers_set_access fme l l) by (done || lia).
    + destruct Hk as [|Hk]; [done|].
      rewrite (kbind_run _ _ _ _ _ (config_vf_run fme w _ _ l Hs')).
      replace (Z.to_nat (n - k)) with (S (Z.to_nat (n - (k + 1)))) by lia. cbn [take].
      destruct (Z.eqb_spec (k + 1) n) as [Hkn|Hkn].
      * replace (Z.to_nat (n - (k + 1))) with 0%nat by lia. by rewrite take_0.
      * rewrite IH by (try apply seen_set_access; auto; right; lia). unfold chosen.
        rewrite (proj2 (Z.eqb_neq _ _) Hn).
        by rewrite (vf_numbers_set_access fme l l) by (done || lia).
Qed.

Lemma pf_loop_vf l k w : pf_loop l w = vf_loop l 0 k w.
Proof.
  revert w. induction l as [|h l IH]; intros w; [done|].
  cbn [pf_loop vf_loop Z.eqb]. unfold kbind.
  destruct (on_fdev h fpga_port_id w) as [[i w1]|]; [|done].
  destruct (device_is_registered h w1) as [[r w2]|]; [|done].
  destruct r; [apply IH|].
  destruct (get_drv w2) as [[dd w3]|]; [|done]. destruct (fme_dev dd) as [f|]; [|done].
  cbn [deref]. destruct (port_config_vf f i false w3) as [[[] w4]|]; [apply IH | done].
Qed.

Lemma set_all_frame fme t l w : exists d, set_all fme t l w = set_phw d w.
Proof.
  revert w. induction l as [|i l IH]; intros w.
  - exists (phw w). by destruct w.
  - unfold set_all. simpl. destruct (IH (set_access fme t w i)) as [d Hd]. exists d. exact Hd.
Qed.

Lemma access_set_all fme t l w j :
  access (set_all fme t l w) fme j = if decide (j ∈ l) then wrap 1 t else access w fme j.
Proof.
  revert w. induction l as [|i l IH]; intros w; [done|].
  unfold set_all. simpl. fold (set_all fme t l (set_access fme t w i)).
  rewrite IH, access_set_access.
  destruct (decide (j ∈ l)) as [Hj|Hj].
  - rewrite decide_True by (by right). done.
  - destruct (decide (i = j)) as [->|Hne].
    + by rewrite decide_True by left.
    + rewrite decide_False; [done|]. intros [->|]%elem_of_cons; done.
Qed.

Lemma rd_set_all fme t l w a :
  Forall (fun i => 0 <= i < 4) l -> (forall i, 0 <= i < 4 -> a <> port_reg_addr w fme i) ->
  rd a (set_all fme t l w) = rd a w.
Proof.
  intros Hl. revert w. induction Hl as [|i l Hi Hl IH]; intros w Ha; [done|].
  unfold set_all. simpl. fold (set_all fme t l (set_access fme t w i)).
  rewrite IH by done. unfold rd. simpl. apply mem_write_other. intros E. by apply (Ha i).
Qed.

Lemma port_no_set_all fme l l' t w h :
  seen fme l' w -> h ∈ l' -> Forall (fun i => 0 <= i < 4) l -> port_no (set_all fme t l w) h = port_no w h.
Proof.
  intros Hs Hh Hl. unfold port_no. f_equal.
  assert (cap_addr (set_all fme t l w) h = cap_addr w h) as ->
    by (destruct (set_all_frame fme t l w) as [d ->]; reflexivity).
  apply rd_set_all; [done|]. intros i Hi. by apply (seen_alias _ _ _ Hs).
Qed.

Lemma vf_numbers_range w l : Forall (fun i => 0 <= i < 4) (vf_numbers w l).
Proof. apply Forall_map, list.Forall_forall. intros h _. apply port_no_range. Qed.

Lemma assign_seen fme dd dd' pf w :
  assign_inv fme dd w -> fme_dev dd' = Some fme ->
  seen fme (port_dev_list dd) (set_pfunc pf (set_drv (Some dd') w)).
Proof.
  intros I Hf. split.
  - by exists dd'.
  - apply I.
  - intros h Hh. destruct (ai_ports _ _ _ I h Hh) as (d & p & Hl & _). by exists d, p.
  - apply I.
Qed.

(** The numbers of the ports that are not registered on the PF. *)
Definition released_ids dd w : list Z := vf_numbers w (port_dev_list dd).

(** Nothing but the access control bits of the FME's port registers and the
    number of VFs differs; [f] gives the bits. *)
Definition reconfigured (fme : Z) (f : Z -> Z) w w' : Prop :=
  (exists d, w' = set_phw d (set_pfunc (pfunc w') w)) /\
  (forall i, access w' fme i = f i) /\
  (forall a, (forall i, 0 <= i < 4 -> a <> port_reg_addr w fme i) -> rd a w' = rd a w).

Definition sriov_outcome (fme : Z) (dd : cci_drvdata) (n : Z) w (ret : Z) w' : Prop :=
  let free := released_ids dd w in
  if released_port_num dd <? n then ret = - EBUSY /\ w' = w
  else if n =? 0 then
    ret = 0 /\ num_vfs_on (pfunc w') = 0 /\
    reconfigured fme (fun i => if decide (i ∈ free) then FME_AFU_ACCESS_PF else access w fme i) w w'
  else if istrue (pci_enable_sriov_ret env n) then
    ret = pci_enable_sriov_ret env n /\ pfunc w' = pfunc w /\
    reconfigured fme (fun i => if decide (i ∈ free) then FME_AFU_ACCESS_PF else access w fme i) w w'
  else
    ret = n /\ num_vfs_on (pfunc w') = n /\
    reconfigured fme (fun i => if decide (i ∈ take (Z.to_nat n) free)
                               then FME_AFU_ACCESS_VF else access w fme i) w w'.

Lemma reconfigured_unlock fme dd f w d pf :
  drv w = Some dd -> dlock dd = false ->
  (forall i, access (set_phw d w) fme i = f i) ->
  (forall a, (forall i, 0 <= i < 4 -> a <> port_reg_addr w fme i) -> rd a (set_phw d w) = rd a w) ->
  drv_unlock (set_phw d (set_pfunc pf (set_drv (Some (set_dlock true dd)) w))) =
    Some (tt, set_phw d (set_pfunc pf w)) /\
  reconfigured fme f w (set_phw d (set_pfunc pf w)).
Proof.
  intros Hd Hl Hf Hrd. split; [|split; [by exists d | done]].
  erewrite drv_unlock_run by reflexivity. destruct w; simpl in *. subst. by rewrite dlock_back.
Qed.

Lemma seen_set_all fme l w t ids : seen fme l w -> seen fme l (set_all fme t ids w).
Proof.
  revert w. induction ids as [|i ids IH]; intros w Hs; [done|]. by apply IH, seen_set_access.
Qed.

Lemma elem_of_take_in {A} (x : A) n l : x ∈ take n l -> x ∈ l.
Proof. intros (i & Hi & _)%elem_of_take. by eapply list_elem_of_lookup_2. Qed.

Lemma vf_numbers_set_all fme t l l' w :
  seen fme l' w -> Forall (fun i => 0 <= i < 4) l -> vf_numbers (set_all fme t l w) l' = vf_numbers w l'.
Proof.
  intros Hs Hl. unfold vf_numbers.
  assert (free_ports (set_all fme t l w) l' = free_ports w l') as ->.
  { destruct (set_all_frame fme t l w) as [d ->]. reflexivity. }
  apply map_ext_in. intros h Hh%list_elem_of_In. apply list_elem_of_filter in Hh as [_ Hh].
  by eapply port_no_set_all.
Qed.

(** The first walk, on the locked world with [pf] as the PCI core's data. *)
Lemma sriov_walk fme dd n w pf :
  assign_inv fme dd w -> 0 <= n ->
  let w1 := set_pfunc pf (set_drv (Some (set_dlock true dd)) w) in
  let ids := if n =? 0 then released_ids dd w else take (Z.to_nat n) (released_ids dd w) in
  let t := if n =? 0 then FME_AFU_ACCESS_PF else FME_AFU_ACCESS_VF in
  seen fme (port_dev_list dd) w1 /\
  vf_loop (port_dev_list dd) n 0 w1 = Some (tt, set_all fme t ids w1) /\
  (forall d i, set_all fme t ids w1 = set_phw d w1 ->
     access (set_phw d w) fme i = if decide (i ∈ ids) then t else access w fme i) /\
  (forall d a, set_all fme t ids w1 = set_phw d w1 ->
     (forall i, 0 <= i < 4 -> a <> port_reg_addr w fme i) -> rd a (set_phw d w) = rd a w).
Proof.
  intros I Hn w1 ids t.
  assert (seen fme (port_dev_list dd) w1) as Hs
    by (by apply (assign_seen fme dd (set_dlock true dd) pf w I), I).
  assert (t = wrap 1 t) as Ht by (unfold t; destruct (n =? 0); reflexivity).
  split_and!; [done | | |].
  - rewrite (vf_loop_run fme _ n 0 w1 Hs) by lia. unfold chosen.
    by rewrite Z.sub_0_r.
  - intros d i E. change (access (set_phw d w) fme i) with (access (set_phw d w1) fme i).
    by rewrite <- E, access_set_all, <- Ht.
  - intros d a E Ha. change (rd a (set_phw d w)) with (rd a (set_phw d w1)).
    rewrite <- E. apply (rd_set_all fme t ids w1 a); [|exact Ha].
    unfold ids. destruct (n =? 0); [|apply Forall_take]; apply vf_numbers_range.
Qed.

(** The VFs could not be enabled: all released ports go back to the PF. *)
Lemma sriov_back fme dd ids d w :
  let wl := set_drv (Some (set_dlock true dd)) w in
  assign_inv fme dd w -> seen fme (port_dev_list dd) wl ->
  (forall i, i ∈ ids -> i ∈ released_ids dd w) -> Forall (fun i => 0 <= i < 4) ids ->
  set_all fme FME_AFU_ACCESS_VF ids wl = set_phw d wl ->
  (forall a, (forall i, 0 <= i < 4 -> a <> port_reg_addr w fme i) -> rd a (set_phw d w) = rd a w) ->
  exists d2, pf_loop (port_dev_list dd) (set_phw d wl) = Some (tt, set_phw d2 wl) /\
    drv_unlock (set_phw d2 wl) = Some (tt, set_phw d2 w) /\
    reconfigured fme (fun i => if decide (i ∈ released_ids dd w) then FME_AFU_ACCESS_PF else access w fme i) w (set_phw d2 w).
Proof.
  intros wl I Hs Hsub Hids Hd Hrd.
  assert (set_pfunc (pfunc w) wl = wl /\ set_pfunc (pfunc w) w = w) as [Ewl Ew] by (by destruct w).
  pose proof (seen_set_all fme _ _ FME_AFU_ACCESS_VF ids Hs) as Hs2.
  pose proof (vf_loop_run fme _ 0 0 _ Hs2 (or_introl eq_refl)) as Hpf.
  rewrite <- pf_loop_vf in Hpf. unfold chosen in Hpf. cbn [Z.eqb] in Hpf.
  rewrite (vf_numbers_set_all fme _ ids _ wl Hs) in Hpf by done.
  change (vf_numbers wl (port_dev_list dd)) with (released_ids dd w) in Hpf.
  destruct (set_all_frame fme FME_AFU_ACCESS_PF (released_ids dd w) (set_all fme FME_AFU_ACCESS_VF ids wl)) as [d2 Hd2].
  assert (set_phw d2 wl = set_phw d2 (set_all fme FME_AFU_ACCESS_VF ids wl)) as E2 by (by rewrite Hd).
  destruct (reconfigured_unlock fme dd (fun i => if decide (i ∈ released_ids dd w)
    then FME_AFU_ACCESS_PF else access w fme i) w d2 (pfunc w) (ai_drv _ _ _ I) (ai_lock _ _ _ I)) as [Hu Hr].
  - intros i. change (access (set_phw d2 w) fme i) with (access (set_phw d2 wl) fme i). rewrite E2, <- Hd2, access_set_all.
    destruct (decide (i ∈ released_ids dd w)) as [|Hni]; [done|].
    rewrite access_set_all, decide_False; [done|]. intros Hi. by apply Hni, Hsub.
  - intros a Ha. change (rd a (set_phw d2 w)) with (rd a (set_phw d2 wl)). rewrite E2.
    rewrite <- Hd2, rd_set_all by (apply vf_numbers_range || (by rewrite Hd)). rewrite Hd. by apply Hrd.
  - fold wl in Hu. rewrite Ewl, Ew in Hu. rewrite Ew in Hr. exists d2. split; [|done]. by rewrite E2, <- Hd2, <- Hd.
Qed.

Lemma sriov_run fme dd n w :
  assign_inv fme dd w -> 0 <= n -> exists ret w',
  cci_pci_sriov_configure env n w = Some (ret, w') /\ sriov_outcome fme dd n w ret w'.
Proof.
  intros I Hn. set (wl := set_drv (Some (set_dlock true dd)) w).
  pose proof (ai_drv _ _ _ I) as Hdd. pose proof (ai_lock _ _ _ I) as Hlk.
  unfold cci_pci_sriov_configure.
  rewrite (kbind_run _ _ _ _ _ (drv_lock_run _ _ Hdd Hlk)). fold wl.
  rewrite (kbind_run _ _ wl (set_dlock true dd) wl (get_drv_run wl (set_dlock true dd) eq_refl)).
  cbn [released_port_num port_dev_list set_dlock].
  unfold sriov_outcome. destruct (released_port_num dd <? n).
  { unfold kbind, wl. rewrite unlock_unchanged by done. by eexists _, _. }
  pose proof (sriov_walk fme dd n w (if n =? 0 then set_num_vfs_on 0 (pfunc w) else pfunc w) I Hn)
    as (Hs & Hrun & Hacc & Hrd).
  destruct (Z.eqb_spec n 0) as [E0|Hn0].
  - subst n. rewrite (kbind_run _ _ wl tt (set_pfunc (set_num_vfs_on 0 (pfunc w)) wl) eq_refl).
    rewrite (kbind_run _ _ _ _ _ Hrun). destruct (set_all_frame fme FME_AFU_ACCESS_PF
      (released_ids dd w) (set_pfunc (set_num_vfs_on 0 (pfunc w)) wl)) as [d Hd].
    fold wl. rewrite Hd. destruct (reconfigured_unlock fme dd _ w d (set_num_vfs_on 0 (pfunc w)) Hdd Hlk
      (fun i => Hacc d i Hd) (fun a => Hrd d a Hd)) as [Hu Hr].
    change (istrue 0) with false. cbn iota. rewrite (kbind_run _ _ _ _ _ Hu). by eexists _, _.
  - rewrite (kbind_run _ _ wl tt wl eq_refl).
    assert (set_pfunc (pfunc w) wl = wl) as Ewl by (by destruct w).
    fold wl in Hs, Hrun, Hacc, Hrd. rewrite Ewl in Hs, Hrun, Hacc, Hrd. rewrite (kbind_run _ _ _ _ _ Hrun).
    assert (istrue n = true) as Ht by (unfold istrue; by rewrite (proj2 (Z.eqb_neq _ _) Hn0)).
    rewrite Ht. set (ids := take _ _) in *.
    destruct (set_all_frame fme FME_AFU_ACCESS_VF ids wl) as [d Hd].
    destruct (istrue (pci_enable_sriov_ret env n)).
    + destruct (sriov_back fme dd ids d w I Hs) as (d2 & Hpf & Hu & Hr); [|by apply Forall_take, vf_numbers_range|done|by intros a; apply Hrd|].
      { intros i Hi. unfold ids in Hi. by eapply elem_of_take_in. }
      rewrite Hd. fold wl in Hpf, Hu. cbv zeta. rewrite (kbind_run _ _ _ _ _ Hpf), (kbind_run _ _ _ _ _ Hu).
      eexists _, _. split; [reflexivity|]. done.
    + rewrite Hd. cbn [set_phw pfunc].
      destruct (reconfigured_unlock fme dd _ w d (set_num_vfs_on n (pfunc w)) Hdd Hlk
        (fun i => Hacc d i Hd) (fun a => Hrd d a Hd)) as [Hu Hr].
      rewrite (kbind_run (kmod (fun w0 => set_pfunc (set_num_vfs_on n (pfunc w0)) w0)) _ (set_phw d wl) tt (set_phw d (set_pfunc (set_num_vfs_on n (pfunc w)) wl)) eq_refl).
      rewrite (kbind_run _ _ _ _ _ Hu). by eexists _, _.
Qed.

Lemma released_ids_of fme dd w h :
  assign_inv fme dd w -> h ∈ port_dev_list dd -> port_no w h ∈ released_ids dd w ->
  is_registered w h = false.
Proof.
  intros I Hh Hin. unfold released_ids, vf_numbers in Hin.
  apply list_elem_of_In, in_map_iff in Hin as (x & Hx & Hf%list_elem_of_In).
  apply list_elem_of_filter in Hf as [Hr Hxl].
  assert (x = h) as ->; [|done].
  apply list_elem_of_lookup_1 in Hxl as [i Hi], Hh as [j Hj].
  pose proof (ai_ids _ _ _ I) as Hnd.
  assert (i = j) as ->; [|congruence].
  eapply NoDup_lookup; [exact Hnd | |].
  - by rewrite list_lookup_fmap, Hi.
  - rewrite list_lookup_fmap, Hj. simpl. by rewrite Hx.
Qed.

Lemma reconfigured_inv fme dd f w w' :
  assign_inv fme dd w -> reconfigured fme f w w' ->
  (forall h, h ∈ port_dev_list dd -> is_registered w h = true ->
     f (port_no w h) = access w fme (port_no w h)) ->
  assign_inv fme dd w'.
Proof.
  intros I ((d & Hw) & Hacc & Hrd) Hf.
  assert (forall h, h ∈ port_dev_list dd -> port_no w' h = port_no w h) as Hno.
  { intros h Hh. unfold port_no. f_equal.
    assert (cap_addr w' h = cap_addr w h) as -> by (by rewrite Hw).
    apply Hrd. intros i Hi. by apply (ai_alias _ _ _ I). }
  assert (pdevs w' = pdevs w) as Hp by (by rewrite Hw).
  assert (forall h, hdr_at w' h = hdr_at w h) as Hh by (intros; unfold hdr_at; by rewrite Hp).
  assert (forall h, is_registered w' h = is_registered w h) as Hr
    by (intros; unfold is_registered; by rewrite Hp).
  split; try apply I.
  - rewrite Hw. apply I.
  - destruct (ai_fme_live _ _ _ I) as (df & pf & Hl). exists df, pf. unfold live. by rewrite Hp, Hh.
  - intros h Hin. destruct (ai_ports _ _ _ I h Hin) as (dx & px & Hl & Hrest).
    exists dx, px. split; [|done]. unfold live. by rewrite Hp, Hh.
  - rewrite (ai_count _ _ _ I). do 2 f_equal. apply filter_congr. intros x _. by rewrite Hr.
  - erewrite map_ext_in; [apply I|]. intros h Hx%list_elem_of_In. by apply Hno.
  - intros h Hin Hx. rewrite Hr in Hx. rewrite Hno, Hacc, Hf by done. by apply (ai_pf _ _ _ I).
  - intros h i Hin Hi. unfold cap_addr, port_reg_addr. rewrite !Hh. by apply (ai_alias _ _ _ I).
Qed.

Lemma sriov_inv fme dd n w ret w' :
  assign_inv fme dd w -> sriov_outcome fme dd n w ret w' -> assign_inv fme dd w'.
Proof.
  intros I H. unfold sriov_outcome in H.
  destruct (released_port_num dd <? n); [by destruct H as [_ ->]|].
  assert (forall h (ids : list Z) (v : Z), h ∈ port_dev_list dd -> is_registered w h = true ->
    (forall x, x ∈ ids -> x ∈ released_ids dd w) ->
    (if decide (port_no w h ∈ ids) then v else access w fme (port_no w h)) =
    access w fme (port_no w h)) as Hsafe.
  { intros h ids v Hh Hr Hids. rewrite decide_False; [done|].
    intros Hin%Hids. rewrite (released_ids_of fme dd w h I Hh Hin) in Hr. done. }
  destruct (n =? 0); [|destruct (istrue _)]; destruct H as (_ & _ & Hrec);
    apply (reconfigured_inv _ _ _ _ _ I Hrec); intros h Hh Hr; apply Hsafe; try done.
  intros x. apply elem_of_take_in.
Qed.

(** ** Reachable states *)

(** What the feature drivers may do meanwhile: anything that leaves the PCIe
    driver's data, the open counters, and the registers it reads alone. *)
Record quiet (fme : Z) (dd : cci_drvdata) w w' : Prop := {
  q_drv : drv w' = drv w;
  q_hdr : forall h, hdr_at w' h = hdr_at w h;
  q_dev : forall h d p, pdevs w !! h = Some d -> dev_pdata d = Some p ->
    exists d' p', pdevs w' !! h = Some d' /\ dev_pdata d' = Some p' /\
      dev_registered d' = dev_registered d /\ dev_refs d' = dev_refs d /\
      lock p' = lock p /\ excl_open p' = excl_open p /\ open_count p' = open_count p;
  q_cap : forall h, h ∈ port_dev_list dd -> rd (cap_addr w h) w' = rd (cap_addr w h) w;
  q_reg : forall i, 0 <= i < 4 -> rd (port_reg_addr w fme i) w' = rd (port_reg_addr w fme i) w;
}.

Definition open_of (excl : bool) : K (platform_device Op P D) Z :=
  on_pd (if excl then feature_dev_use_excl_begin else feature_dev_use_begin).

Inductive assign_step (fme : Z) : world -> world -> Prop :=
| as_attach i ret w w' :
    attach_port_dev env fme i w = Some (ret, w') -> assign_step fme w w'
| as_detach i ret w w' :
    detach_port_dev i w = Some (ret, w') -> assign_step fme w w'
| as_sriov n ret w w' :
    0 <= n -> cci_pci_sriov_configure env n w = Some (ret, w') -> assign_step fme w w'
| as_open dd h excl ret w w' :
    drv w = Some dd -> h ∈ port_dev_list dd ->
    on_fdev h (open_of excl) w = Some (ret, w') -> assign_step fme w w'
| as_close dd h d p w w' :
    drv w = Some dd -> h ∈ port_dev_list dd ->
    pdevs w !! h = Some d -> dev_pdata d = Some p -> dev_registered d = true -> 0 < open_count p ->
    on_fdev h (on_pd feature_dev_use_end) w = Some (tt, w') -> assign_step fme w w'
| as_quiet dd w w' :
    drv w = Some dd -> quiet fme dd w w' -> assign_step fme w w'.

Lemma quiet_inv fme dd w w' : assign_inv fme dd w -> quiet fme dd w w' -> assign_inv fme dd w'.
Proof.
  intros I [Hd Hh Hdev Hcap Hreg].
  assert (forall h, h ∈ port_dev_list dd -> port_no w' h = port_no w h) as Hno.
  { intros h Hin. unfold port_no. f_equal. unfold cap_addr. rewrite Hh. by apply Hcap. }
  assert (forall h, h ∈ port_dev_list dd -> is_registered w' h = is_registered w h) as Hr.
  { intros h Hin. destruct (ai_ports _ _ _ I h Hin) as (d & p & (Hpd & Hp & _) & _).
    destruct (Hdev h d p Hpd Hp) as (d' & p' & Hpd' & _ & E & _).
    unfold is_registered. by rewrite Hpd, Hpd'. }
  split; try apply I.
  - rewrite Hd. apply I.
  - destruct (ai_fme_live _ _ _ I) as (d & p & Hpd & Hp & Hne).
    destruct (Hdev fme d p Hpd Hp) as (d' & p' & ? & ? & _). exists d', p'. split_and!; [done..|by rewrite Hh].
  - intros h Hin. destruct (ai_ports _ _ _ I h Hin) as (d & p & (Hpd & Hp & Hne) & Hl & Hrf & Hu).
    destruct (Hdev h d p Hpd Hp) as (d' & p' & Hpd' & Hp' & E1 & E2 & E3 & E4 & E5).
    exists d', p'. split_and!; [split_and!; [done..|by rewrite Hh] | congruence | by rewrite E1, E2 |].
    rewrite E1. unfold use_wf in *. rewrite E3, E4, E5. exact Hu.
  - rewrite (ai_count _ _ _ I). do 2 f_equal. apply filter_congr. intros x Hx. by rewrite Hr.
  - erewrite map_ext_in; [apply I|]. intros h Hx%list_elem_of_In. by apply Hno.
  - intros h Hin Hx. rewrite Hr in Hx by done. rewrite Hno by done.
    rewrite <- (ai_pf _ _ _ I h Hin Hx). unfold access. f_equal.
    unfold port_reg_addr. rewrite Hh. apply Hreg, port_no_range.
  - intros h i Hin Hi. unfold cap_addr, port_reg_addr. rewrite !Hh. by apply (ai_alias _ _ _ I).
Qed.

(** A change of one port's open counters that keeps it well formed is quiet
    for the others. *)
Lemma use_change_inv fme dd w h d p p' :
  assign_inv fme dd w -> h ∈ port_dev_list dd -> pdevs w !! h = Some d -> dev_pdata d = Some p ->
  features p' = features p -> lock p' = false ->
  (if dev_registered d then use_wf p' else excl_open p' = 1 /\ open_count p' = 1) ->
  assign_inv fme dd
    (set_phw (phw w) (set_pdevs (<[h := set_dev_pdata (Some p') d]> (pdevs w)) w)).
Proof.
  intros I Hin Hd Hp Hf Hl Hu. set (w' := set_phw _ _).
  assert (forall x, hdr_at w' x = hdr_at w x) as Hh.
  { intros x. unfold hdr_at, w'. simpl. destruct (decide (h = x)) as [<-|Hne].
    - by rewrite lookup_insert_eq, Hd, Hp; simpl; rewrite Hf.
    - by rewrite lookup_insert_ne. }
  assert (forall x, is_registered w' x = is_registered w x) as Hr.
  { intros x. unfold is_registered, w'. simpl. destruct (decide (h = x)) as [<-|Hne].
    - by rewrite lookup_insert_eq, Hd.
    - by rewrite lookup_insert_ne. }
  assert (forall x, port_no w' x = port_no w x) as Hno
    by (intros; unfold port_no, cap_addr; by rewrite Hh).
  split; try apply I.
  - destruct (ai_fme_live _ _ _ I) as (df & pf & Hpd & Hpf & Hne).
    destruct (decide (h = fme)) as [<-|Hx].
    + exists (set_dev_pdata (Some p') d), p'. split_and!; [apply lookup_insert_eq | done | by rewrite Hh].
    + exists df, pf. split_and!; [by apply lookup_insert_Some; right | done | by rewrite Hh].
  - intros x Hx. destruct (ai_ports _ _ _ I x Hx) as (dx & px & (Hdx & Hpx & Hnx) & Hlx & Hrx & Hux).
    destruct (decide (h = x)) as [<-|Hne].
    + simplify_eq. exists (set_dev_pdata (Some p') d), p'.
      split_and!; [split_and!; [apply lookup_insert_eq | done | by rewrite Hh] | done | done | done].
    + exists dx, px. split_and!; [|done..]. split_and!; [|done|by rewrite Hh].
      by apply lookup_insert_Some; right.
  - rewrite (ai_count _ _ _ I). do 2 f_equal. apply filter_congr. intros x _. by rewrite Hr.
  - erewrite map_ext; [apply I | done].
  - intros x Hx Hrx. rewrite Hr in Hrx. rewrite Hno. unfold access, port_reg_addr. rewrite Hh.
    by apply (ai_pf _ _ _ I).
  - intros x i Hx Hi. unfold cap_addr, port_reg_addr. rewrite !Hh. by apply (ai_alias _ _ _ I).
Qed.

Lemma open_begin_features excl (p : feature_platform_data Op P) ret p' :
  (if (excl : bool) then feature_dev_use_excl_begin else feature_dev_use_begin) p = Some (ret, p') ->
  features p' = features p /\
  (excl_open p = 1 /\ open_count p = 1 -> excl_open p' = 1 /\ open_count p' = 1).
Proof.
  destruct excl; unfold feature_dev_use_excl_begin, feature_dev_use_begin; destruct p; simpl.
  - destruct lock; [done|]. simpl. destruct (istrue open_count || unplug) eqn:E; simpl; intros [= <- <-].
    + done.
    + split; [done|]. intros [-> ->]. done.
  - destruct lock; [done|]. simpl. destruct (istrue excl_open || unplug) eqn:E; simpl; intros [= <- <-].
    + done.
    + split; [done|]. intros [-> ->]. done.
Qed.

Lemma open_of_run (excl : bool) p x r q :
  open_of excl (Pdev p x) = Some (r, q) ->
  exists p', (if excl then feature_dev_use_excl_begin else feature_dev_use_begin) p = Some (r, p') /\
    q = Pdev p' x.
Proof.
  unfold open_of, on_pd, zoom. simpl pd.
  destruct excl.
  - destruct (feature_dev_use_excl_begin p) as [[r' p']|]; [|done]. intros [= <- <-]. by exists p'.
  - destruct (feature_dev_use_begin p) as [[r' p']|]; [|done]. intros [= <- <-]. by exists p'.
Qed.

Lemma assign_step_inv fme dd w w' :
  assign_inv fme dd w -> assign_step fme w w' -> exists dd', assign_inv fme dd' w'.
Proof.
  intros I Hs. destruct Hs as [i ret w w' H|i ret w w' H|n ret w w' Hn H|dd0 h excl ret w w' Hd Hin H
    |dd0 h d p w w' Hd Hin Hpd Hp Hr Hc H|dd0 w w' Hd Hq].
  - destruct (attach_run fme dd i w I) as (r & w1 & Hrun & Ho). rewrite Hrun in H. simplify_eq.
    by eapply attach_inv.
  - destruct (detach_run fme dd i w I) as (r & w1 & Hrun & Ho). rewrite Hrun in H. simplify_eq.
    by eapply detach_inv.
  - destruct (sriov_run fme dd n w I Hn) as (r & w1 & Hrun & Ho). rewrite Hrun in H. simplify_eq.
    exists dd. by eapply sriov_inv.
  - assert (dd0 = dd) as -> by (rewrite (ai_drv _ _ _ I) in Hd; congruence).
    destruct (ai_ports _ _ _ I h Hin) as (d & p & (Hpd & Hp & Hne) & Hl & Hrf & Hu).
    destruct (open_of excl (Pdev p (phw w))) as [[r q]|] eqn:Eo;
      [|unfold on_fdev in H; by rewrite Hpd, Hp, Eo in H].
    destruct (open_of_run excl p (phw w) r q Eo) as (p' & E & ->).
    rewrite (on_fdev_run _ _ _ _ _ _ _ Hpd Hp Eo) in H. simplify_eq. exists dd.
    pose proof (open_begin_features excl p _ p' E) as [Hf Hx].
    assert (lock p' = false) as Hl'.
    { destruct excl; [unfold feature_dev_use_excl_begin in E|unfold feature_dev_use_begin in E];
        destruct p; simpl in *; subst; simpl in E; destruct (istrue _ || _); simpl in E;
        by injection E as <- <-. }
    eapply use_change_inv; try done. destruct (dev_registered d); [|by apply Hx].
    eapply use_step_wf; [exact Hu|]. destruct excl; [by eapply us_excl | by eapply us_open].
  - assert (dd0 = dd) as -> by (rewrite (ai_drv _ _ _ I) in Hd; congruence).
    destruct (ai_ports _ _ _ I h Hin) as (d0 & p0 & (Hpd0 & Hp0 & _) & Hl & Hrf & Hu). simplify_eq.
    rewrite Hr in Hu. rewrite (on_fdev_run _ _ _ _ _ _ _ Hpd Hp (use_end_run p (phw w) Hl)) in H.
    simplify_eq. exists dd. eapply use_change_inv; try done. rewrite Hr.
    eapply use_step_wf; [exact Hu|]. apply us_close; [done|].
    destruct p; simpl in *; by subst.
  - assert (dd0 = dd) as -> by (rewrite (ai_drv _ _ _ I) in Hd; congruence).
    exists dd. by eapply quiet_inv.
Qed.

Lemma assign_reachable fme dd w w' :
  assign_inv fme dd w -> rtc (assign_step fme) w w' -> exists dd', assign_inv fme dd' w'.
Proof.
  intros I H. revert dd I. induction H as [|w w1 w' Hs H IH]; intros dd I; [by exists dd|].
  destruct (assign_step_inv _ _ _ _ I Hs) as [dd1 I1]. eauto.
Qed.
End Assign.

(** ** Theorems *)

(** C5: ports stay with exactly one owner.  Over every sequence of port
    releases and assignments, SR-IOV configurations, opens and closes of ports
    and quiet activity of the feature drivers, released_port_num counts the
    released ports; a port that is a device of the physical function is not
    assigned to a virtual one; a released port is held by an exclusive open,
    so that no process can open it; and none of the operations of the driver
    hits undefined behaviour in such a state. *)
Theorem port_assignment_safe {Op P D} {dev : Mmio D} {ok : MmioOk D} {mem : MmioMem D}
    env fme dd0 (w0 w : pci_world Op P D) :
  assign_inv fme dd0 w0 -> rtc (assign_step env fme) w0 w ->
  exists dd, drv w = Some dd /\ dlock dd = false /\
  released_port_num dd = Z.of_nat (length (free_ports w (port_dev_list dd))) /\
  (forall h, h ∈ port_dev_list dd -> is_registered w h = true ->
     access w fme (port_no w h) = FME_AFU_ACCESS_PF) /\
  (forall h, h ∈ port_dev_list dd -> is_registered w h = false ->
     exists d p, pdevs w !! h = Some d /\ dev_pdata d = Some p /\
       excl_open p = 1 /\ open_count p = 1) /\
  (forall i, is_Some (attach_port_dev env fme i w) /\ is_Some (detach_port_dev i w)) /\
  (forall n, 0 <= n -> is_Some (cci_pci_sriov_configure env n w)).
Proof.
  intros I0 Hr. destruct (assign_reachable env fme dd0 w0 w I0 Hr) as [dd I].
  exists dd. split_and!; try apply I.
  - intros h Hin Hreg. destruct (ai_ports _ _ _ I h Hin) as (d & p & (Hd & Hp & _) & _ & _ & Hu).
    exists d, p. unfold is_registered in Hreg. rewrite Hd in Hreg. by rewrite Hreg in Hu.
  - intros i. split.
    + destruct (attach_run env fme dd i w I) as (r & w' & -> & _). done.
    + destruct (detach_run fme dd i w I) as (r & w' & -> & _). done.
  - intros n Hn. destruct (sriov_run env fme dd n w I Hn) as (r & w' & -> & _). done.
Qed.

(** Cci_pci_sriov_configure on every branch.  More VFs than released ports
    give -EBUSY and change nothing; 0 returns every released port to the
    physical function; otherwise exactly the first [n] released ports of the
    list are turned to VFs when pci_enable_sriov succeeds, and all released
    ports are returned to the PF when it fails.  No other register changes,
    and the invariant of [port_assignment_safe] is kept. *)
Lemma cci_pci_sriov_configure_spec {Op P D} {dev : Mmio D} {ok : MmioOk D} {mem : MmioMem D}
    env fme dd n (w : pci_world Op P D) :
  assign_inv fme dd w -> 0 <= n -> exists ret w',
  cci_pci_sriov_configure env n w = Some (ret, w') /\
  sriov_outcome env fme dd n w ret w' /\ assign_inv fme dd w'.
Proof.
  intros I Hn. destruct (sriov_run env fme dd n w I Hn) as (ret & w' & Hrun & Ho).
  exists ret, w'. split_and!; [done | done | by eapply sriov_inv].
Qed.

(** ** Witnesses *)

Definition probed_drv : cci_drvdata := Drvdata 0 (Some 0) false [2; 1] 0 [PciRegion 0 0x100000].

Lemma pci_probed_inv : assign_inv 0 probed_drv pci_probed.
Proof.
  split.
  - vm_compute. reflexivity.
  - reflexivity.
  - reflexivity.
  - eexists _, _. split_and!; [vm_compute; reflexivity.. | vm_compute; discriminate].
  - apply (bool_decide_unpack _). vm_compute. exact I.
  - intros h Hh. apply elem_of_cons in Hh as [->|Hh]; [|apply list_elem_of_singleton in Hh as ->].
    all: eexists _, _; split_and!; [split_and!; [vm_compute; reflexivity.. | vm_compute; discriminate] | ..].
    all: vm_compute; try reflexivity; split_and!; auto; discriminate.
  - vm_compute. reflexivity.
  - apply (bool_decide_unpack _). vm_compute. exact I.
  - intros h Hh _. apply elem_of_cons in Hh as [->|Hh]; [|apply list_elem_of_singleton in Hh as ->];
      vm_compute; reflexivity.
  - intros h i Hh Hi E. assert (i = 0 \/ i = 1 \/ i = 2 \/ i = 3) as Hc by lia.
    apply elem_of_cons in Hh as [->|Hh]; [|apply list_elem_of_singleton in Hh as ->];
      destruct Hc as [->|[->|[->| ->]]]; vm_compute in E; discriminate.
Qed.

(** Port 0 released, then turned to a VF. *)
Definition pci_detached : pci_world unit unit mem_dev :=
  match detach_port_dev 0 pci_probed with Some (_, w) => w | None => pci_probed end.
Definition pci_vf : pci_world unit unit mem_dev :=
  match cci_pci_sriov_configure demo_pci_env 1 pci_detached with
  | Some (_, w) => w
  | None => pci_detached
  end.

Lemma pci_detached_step : assign_step demo_pci_env 0 pci_probed pci_detached.
Proof. apply (as_detach _ _ 0 0). vm_compute. reflexivity. Qed.

Lemma pci_vf_step : assign_step demo_pci_env 0 pci_detached pci_vf.
Proof. apply (as_sriov _ _ 1 1); [lia|]. vm_compute. reflexivity. Qed.

Lemma port_assignment_safe_witness :
  assign_inv 0 probed_drv pci_probed /\
  rtc (assign_step demo_pci_env 0) pci_probed pci_vf /\
  access pci_vf 0 0 = FME_AFU_ACCESS_VF /\
  exists dd, drv pci_vf = Some dd /\
    (forall h, h ∈ port_dev_list dd -> is_registered pci_vf h = true ->
       access pci_vf 0 (port_no pci_vf h) = FME_AFU_ACCESS_PF).
Proof.
  assert (rtc (assign_step demo_pci_env 0) pci_probed pci_vf) as Hr
    by (eapply rtc_l; [exact pci_detached_step | apply rtc_once, pci_vf_step]).
  split; [exact pci_probed_inv | split; [exact Hr | split; [vm_compute; reflexivity|]]].
  destruct (port_assignment_safe demo_pci_env 0 probed_drv pci_probed pci_vf pci_probed_inv Hr)
    as (dd & Hd & _ & _ & Hpf & _).
  exists dd. split; [exact Hd | exact Hpf].
Defined.

Definition detached_drv : cci_drvdata := set_released_port_num 1 probed_drv.

Lemma pci_detached_inv : assign_inv 0 detached_drv pci_detached.
Proof.
  destruct (assign_step_inv demo_pci_env 0 probed_drv pci_probed pci_detached pci_probed_inv
              pci_detached_step) as [dd I].
  assert (dd = detached_drv) as <-; [|exact I].
  pose proof (ai_drv _ _ _ I) as E. vm_compute in E. injection E as <-. reflexivity.
Qed.

Lemma cci_pci_sriov_configure_witness :
  assign_inv 0 detached_drv pci_detached /\ 0 <= 1 /\
  exists ret w', cci_pci_sriov_configure demo_pci_env 1 pci_detached = Some (ret, w') /\
    sriov_outcome demo_pci_env 0 detached_drv 1 pci_detached ret w' /\ ret = 1.
Proof.
  split; [exact pci_detached_inv | split; [lia|]].
  destruct (cci_pci_sriov_configure_spec demo_pci_env 0 detached_drv 1 pci_detached
              pci_detached_inv ltac:(lia)) as (ret & w' & Hrun & Ho & _).
  exists ret, w'. split; [exact Hrun | split; [exact Ho | exact (proj1 Ho)]].
Defined.
