(* ===== verification/PciePlaced.v ===== *)
(** * Where the recorded features lie

    The walk over the feature headers terminates, and every sub feature that a
    successful probe records has a resource inside the BAR it was found in; the
    user AFU is the exception, whose position the hardware's next_afu pointer
    gives and the driver does not check. *)

From S2P Require Import Prelude.
From S2P Require Import Bitfield.
From S2P Require Import Registers.
From S2P Require Import Mmio.
From S2P Require Import FeatureDev.
From S2P Require Import Views.
From S2P Require Import PcieTypes.
From S2P Require Import PciePort.
From S2P Require Import PcieParse.
From S2P Require Import PcieExample.

(** ** Termination of the header walk *)

Section Walk.
Context {Op P D : Type} {dev : Mmio D}.
Variable env : pci_env.

Lemma field_nonneg r n c : reg_wf r = true -> 0 <= fget r n c.
Proof. intros H. pose proof (fget_range r n c (reg_wf_struct r H)) as [? _]. done. Qed.

Lemma feature_loop_fuel n m start end_ (s : parse_state Op P D) :
  (Z.to_nat (end_ - start) <= n)%nat -> (n <= m)%nat ->
  feature_loop env m start end_ s = feature_loop env n start end_ s /\
  forall s', feature_loop env n start end_ s <> Some (None, s').
Proof.
  revert m start s. induction n as [|n IH]; intros m start s Hn Hm.
  - assert ((start <? end_) = false) as E by lia.
    destruct m; cbn [feature_loop]; rewrite E; done.
  - destruct m as [|m]; [lia|]. cbn [feature_loop]. destruct (start <? end_) eqn:E; [|done].
    destruct (end_ - start <? sizeof_reg feature_header); [done|].
    unfold kbind. destruct (parse_feature env start s) as [[ret s1]|]; [|done].
    destruct (istrue ret); [done|].
    destruct (readq_at start s1) as [[header s2]|]; [|done].
    destruct (Z.eqb_spec (fget feature_header "next_header_offset" header) 0) as [|Hnext];
      [by rewrite orb_true_r|].
    destruct (istrue (fget feature_header "eol" header)); [done|]. cbn [orb].
    pose proof (field_nonneg feature_header "next_header_offset" header ltac:(reg_tac)).
    apply IH; lia.
Qed.
End Walk.

(** C37: parse_feature_list terminates on every device, whatever its registers
    return: the fuel of the model, one round per byte of the BAR that is left,
    is never used up, and more fuel gives the same result.  Each round moves to
    a strictly higher address, because a zero next_header_offset ends the walk. *)
Theorem parse_feature_list_terminates {Op P D} {dev : Mmio D} env start end_ k
    (s : parse_state Op P D) :
  feature_loop env (parse_fuel start end_ + k) start end_ s =
  feature_loop env (parse_fuel start end_) start end_ s /\
  forall s', feature_loop env (parse_fuel start end_) start end_ s <> Some (None, s').
Proof. apply feature_loop_fuel; unfold parse_fuel; lia. Qed.

(** ** The sizes of features *)

(** What the driver's tables say of a feature: its name, index and size. *)
Definition fsig (f : feature_info) : string * Z * Z :=
  (fi_name f, feature_index f, resource_size f).

(** The size of feature [i] named [name]: the one the tables are compiled with,
    or for the user AFU as many KB as a 16-bit mmio_size field says. *)
Definition sized (x : string * Z * Z) : Prop :=
  let '(name, i, size) := x in
  if decide (i = PORT_FEATURE_ID_UAFU /\ name = "port_uafu"%string)
  then exists kb, 0 <= kb < 2 ^ 16 /\ size = kb * 1024
  else x ∈ map fsig (fme_features ++ port_features).

Lemma sized_in l :
  l ⊆ map fsig (fme_features ++ port_features) ->
  Forall (fun x => x.1 = ("port_uafu"%string, PORT_FEATURE_ID_UAFU) -> x.2 = 0) l -> Forall sized l.
Proof.
  rewrite !list.Forall_forall. intros Hl H0 [[name i] size] Hx. unfold sized.
  destruct (decide _) as [[-> ->]|_]; [|by apply Hl].
  exists 0. split; [lia|]. exact (H0 _ Hx eq_refl).
Qed.

Lemma fme_features_sized : Forall sized (map fsig fme_features).
Proof.
  apply sized_in; [rewrite map_app; set_solver|]. vm_compute. repeat (constructor; [discriminate|]).
  constructor.
Qed.

Lemma port_features_sized : Forall sized (map fsig port_features).
Proof.
  apply sized_in; [rewrite map_app; set_solver|]. vm_compute. repeat (constructor; [done|]).
  constructor.
Qed.

Lemma features_nonneg : Forall (fun x => 0 <= snd x) (map fsig (fme_features ++ port_features)).
Proof. vm_compute. repeat (constructor; [discriminate|]). constructor. Qed.

Lemma sized_nonneg name i size : sized (name, i, size) -> 0 <= size.
Proof.
  unfold sized. destruct (decide _); [intros (kb & ? & ->); lia|].
  pose proof features_nonneg as H. rewrite list.Forall_forall in H. apply (H (name, i, size)).
Qed.

(** ** The invariant of the walk *)

Section Placed.
Context {Op P D : Type} {dev : Mmio D}.
Variable env : pci_env.
Abbreviation fdev := (fpga_dev Op P).
Abbreviation pstate := (parse_state Op P D).

(** Feature [i] at its MMIO address has resource [r]: the same place of some
    BAR seen from the bus, of the size of the feature of its name, inside the
    BAR. *)
Definition feature_placed (i : nat) (f : feature Op) (r : resource) : Prop :=
  exists bar name size,
  let a := pci_ioremap_bar env bar in
  f_name f = Some name /\ sized (name, Z.of_nat i, size) /\
  a <= f_ioaddr f /\ f_resource_index f = Z.of_nat i /\ res_name r = f_name f /\
  res_start r = u64 (pci_resource_start env bar + f_ioaddr f - a) /\
  res_end r = u64 (res_start r + size - 1) /\
  (f_ioaddr f + size <= a + pci_resource_len env bar \/
   (Z.of_nat i = PORT_FEATURE_ID_UAFU /\ a + pci_resource_len env bar < f_ioaddr f)).

Definition dev_placed (d : fdev) : Prop :=
  forall p i f, dev_pdata d = Some p -> features p !! i = Some f -> f_name f <> None ->
  exists rs r, dev_resource d = Some rs /\ rs !! i = Some r /\ feature_placed i f r.

(** What the invariant depends on. *)
Definition place_view (s : pstate) :=
  ((fun d => (dev_pdata d, dev_resource d)) <$> pdevs (pw s),
   bar_regions <$> drv (pw s),
   (map fsig (fme_table (pw s)), map fsig (port_table (pw s))),
   (b_ioaddr (bi s), b_ioend (bi s), current_bar (bi s))).

Record placed (w : pci_world Op P D) : Prop := {
  pl_dev : forall h d, pdevs w !! h = Some d -> dev_placed d;
  pl_fme : Forall sized (map fsig (fme_table w));
  pl_port : Forall sized (map fsig (port_table w));
  pl_uafu : forall x, map fsig (port_table w) !! Z.to_nat PORT_FEATURE_ID_UAFU = Some x ->
    x.1 = ("port_uafu"%string, PORT_FEATURE_ID_UAFU);
  pl_regions : forall dd, drv w = Some dd ->
    Forall (fun r => reg_ioaddr r = pci_ioremap_bar env (reg_bar r)) (bar_regions dd);
}.

(** The walk is in BAR [bar]. *)
Definition in_bar (bar : Z) (s : pstate) : Prop :=
  placed (pw s) /\ b_ioaddr (bi s) = pci_ioremap_bar env bar /\
  b_ioend (bi s) = pci_ioremap_bar env bar + pci_resource_len env bar /\ current_bar (bi s) = bar.

Lemma dev_placed_ext (d d' : fdev) :
  dev_pdata d' = dev_pdata d -> dev_resource d' = dev_resource d -> dev_placed d -> dev_placed d'.
Proof. intros Hp Hr H p i f. rewrite Hp, Hr. apply H. Qed.

Lemma placed_view s s' : place_view s' = place_view s -> placed (pw s) -> placed (pw s').
Proof.
  intros E [Hd Hft Hpt Hu Hr]. unfold place_view in E. injection E as E1 E2 E3 E4 _ _ _.
  split; [|by rewrite E3|by rewrite E4|by rewrite E4|].
  - intros h d' Hh. assert (((fun d => (dev_pdata d, dev_resource d)) <$> pdevs (pw s')) !! h =
      Some (dev_pdata d', dev_resource d')) as Hx by (by rewrite lookup_fmap, Hh).
    rewrite E1, lookup_fmap in Hx. destruct (pdevs (pw s) !! h) as [d|] eqn:Hd0; [|done].
    simpl in Hx. injection Hx as Hp Hrs. by eapply dev_placed_ext, Hd.
  - intros dd Hdd. rewrite Hdd in E2. destruct (drv (pw s)) as [dd0|]; [|done].
    simpl in E2. injection E2 as ->. by apply Hr.
Qed.

Lemma in_bar_view bar s s' : place_view s' = place_view s -> in_bar bar s -> in_bar bar s'.
Proof.
  intros E (Hp & Ha & He & Hb). split; [by eapply placed_view|].
  unfold place_view in E. injection E as _ _ _ _ E1 E2 E3. rewrite E1, E2, E3. done.
Qed.

(** ** The operations that do not concern it *)

Lemma keeps_pci_readq base off : keeps place_view (on_w (@pci_readq Op P D dev base off)).
Proof.
  intros v s a s' Hv H. unfold on_w, pci_readq in H. destruct (base =? 0); [discriminate|].
  simpl in H. destruct (dev_readq _ _) as [x d]. injection H as _ <-. exact Hv.
Qed.

Lemma keeps_readq_at a : keeps place_view (readq_at a).
Proof. apply keeps_pci_readq. Qed.

Lemma keeps_on_w {A} (c : K (pci_world Op P D) A) : pure_on c -> keeps place_view (on_w c).
Proof.
  intros Hc v s a s' Hv H. unfold on_w in H. simpl in H.
  destruct (c (pw s)) as [[b w]|] eqn:E; [|discriminate]. apply Hc in E as ->.
  injection H as _ <-. by destruct s.
Qed.

Lemma keeps_on_b {A} (c : K build_feature_devs_info A) : pure_on c -> keeps place_view (@on_b Op P D A c).
Proof.
  intros Hc v s a s' Hv H. unfold on_b in H. simpl in H.
  destruct (c (bi s)) as [[b w]|] eqn:E; [|discriminate]. apply Hc in E as ->.
  injection H as _ <-. by destruct s.
Qed.

Lemma deref_pure {S A} (p : option A) : pure_on (@deref S A p).
Proof. intros s a s' H. destruct p; simpl in H; congruence. Qed.

Lemma get_fdev_pure h : pure_on (@get_fdev Op P D h).
Proof. apply bind_pure; [apply kget_pure|]. intros. apply deref_pure. Qed.

Lemma get_drv_pure : pure_on (@get_drv Op P D).
Proof. apply bind_pure; [apply kget_pure|]. intros. apply deref_pure. Qed.

Lemma keeps_set_pfme a : keeps place_view (@on_b Op P D _ (kmod (set_pfme_hdr a))).
Proof. intros v s x s' Hv H. injection H as _ <-. exact Hv. Qed.

Lemma keeps_set_feature_dev h : keeps place_view (@on_b Op P D _ (kmod (set_feature_dev h))).
Proof. intros v s x s' Hv H. injection H as _ <-. exact Hv. Qed.

End Placed.

#[export] Hint Resolve keeps_pci_readq keeps_readq_at keeps_on_w keeps_on_b deref_pure get_fdev_pure
  get_drv_pure keeps_set_pfme keeps_set_feature_dev : keeps.

Section PlacedParse.
Context {Op P D : Type} {dev : Mmio D}.
Variable env : pci_env.
Abbreviation pstate := (parse_state Op P D).
Abbreviation in_bar := (in_bar (Op := Op) (P := P) (D := D) env).

Lemma keeps_announced start n : keeps place_view (@announced_irqs Op P D dev start n).
Proof. unfold announced_irqs. keep idtac. Qed.

Lemma keeps_irqs start f : keeps place_view (@parse_feature_irqs Op P D dev env start f).
Proof. unfold parse_feature_irqs. keep ltac:(apply keeps_announced). Qed.

Lemma keeps_check_header a t i : keeps place_view (@check_features_header Op P D dev a t i).
Proof. unfold check_features_header. keep idtac. Qed.

Lemma keeps_current_dev : keeps place_view (@current_dev Op P D).
Proof. unfold current_dev. keep idtac. Qed.

Lemma keeps_port_finfo i : keeps place_view (@port_finfo Op P D i).
Proof. unfold port_finfo. keep idtac. Qed.

(** Steps the invariant does not see. *)
Lemma view_pres {A} bar (c : K pstate A) : keeps place_view c -> preserves (in_bar bar) c.
Proof. intros H. eapply keeps_preserves; [exact H|]. intros s s'. apply in_bar_view. Qed.

Lemma view_keep {A B} bar (c : K pstate A) (f : A -> K pstate B) Q :
  keeps place_view c -> (forall a, triple (in_bar bar) (f a) Q) -> triple (in_bar bar) (kbind c f) Q.
Proof. intros H. apply triple_keep. by apply view_pres. Qed.

(** Replacing a device. *)
Lemma placed_insert bar s h d :
  in_bar bar s -> dev_placed env d ->
  in_bar bar (PS (set_pdevs (<[h := d]> (pdevs (pw s))) (pw s)) (bi s)).
Proof.
  intros [[Hd Hft Hpt Hu Hr] Hb] Hp. split; [split | exact Hb]; simpl; try done.
  intros x dx Hx. destruct (decide (h = x)) as [<-|Hne].
  - rewrite lookup_insert_eq in Hx. by injection Hx as <-.
  - rewrite lookup_insert_ne in Hx by done. by eapply Hd.
Qed.

Lemma u64_window start e : 0 <= e - start < 2 ^ 64 -> u64 (e - start) = e - start.
Proof. intros H. apply u64_small. exact H. Qed.

(** ** Recording a feature *)

Hypothesis len_ok : forall bar, is_u64 (pci_resource_len env bar).

Lemma feature_add_inv i name ri a ctx n (p p' : feature_platform_data Op P) x :
  feature_platform_data_add i name ri a ctx n p = Some (x, p') ->
  0 <= i /\ exists f0, features p !! Z.to_nat i = Some f0 /\
  features p' = <[Z.to_nat i := Feature (Some name) ri a ctx n (f_ops f0) (f_priv f0)]> (features p).
Proof.
  unfold feature_platform_data_add, put_feature, get_feature, kbind, kget, deref.
  destruct (Z.ltb_spec i 0); [discriminate|].
  destruct (features p !! Z.to_nat i) as [f0|] eqn:Hf; [|discriminate].
  destruct (_ && _); [|discriminate]. intros [= _ <-]. split; [lia|]. by exists f0.
Qed.

(** The device after a feature was recorded at [start]. *)
Lemma dev_placed_add bar (d : fpga_dev Op P) p p' rs id name size start ctx n x b :
  dev_placed env d -> dev_pdata d = Some p -> dev_resource d = Some rs ->
  (Z.to_nat id < length rs)%nat ->
  feature_platform_data_add id name id start ctx n p = Some (x, p') ->
  b_ioaddr b = pci_ioremap_bar env bar -> current_bar b = bar ->
  pci_ioremap_bar env bar <= start -> sized (name, id, size) ->
  start + size <= pci_ioremap_bar env bar + pci_resource_len env bar \/
    (id = PORT_FEATURE_ID_UAFU /\ pci_ioremap_bar env bar + pci_resource_len env bar < start) ->
  dev_placed env
    (set_dev_pdata (Some p')
       (set_dev_resource (Some (<[Z.to_nat id := sub_resource env b name size start]> rs)) d)).
Proof.
  intros Hpl Hp Hrs Hlen Hadd Ha Hb Hlo Hsz Hhi q i f Hq Hf Hn. simpl in Hq. injection Hq as <-.
  destruct (feature_add_inv _ _ _ _ _ _ _ _ _ Hadd) as (Hid & f0 & Hf0 & Hfs).
  rewrite Hfs in Hf. simpl. eexists. destruct (decide (Z.to_nat id = i)) as [<-|Hne].
  - rewrite list_lookup_insert_eq in Hf by (by eapply lookup_lt_Some). injection Hf as <-.
    eexists. split_and!; [done | by apply list_lookup_insert_eq |].
    exists bar, name, size. simpl. rewrite Z2Nat.id by done. rewrite Ha, Hb. done.
  - rewrite list_lookup_insert_ne in Hf by done.
    destruct (Hpl p i f Hp Hf Hn) as (rs0 & r & Hrs0 & Hr & Hx). simplify_eq.
    exists r. split_and!; [done | by rewrite list_lookup_insert_ne | done].
Qed.

Lemma add_sub_ok bar id name size start vs vc :
  pci_ioremap_bar env bar <= start -> sized (name, id, size) ->
  start + size <= pci_ioremap_bar env bar + pci_resource_len env bar \/
    (id = PORT_FEATURE_ID_UAFU /\ pci_ioremap_bar env bar + pci_resource_len env bar < start) ->
  triple (in_bar bar) (build_info_add_sub_feature env id name size start vs vc) (good (in_bar bar)).
Proof.
  intros Hlo Hsz Hhi s r s' I H Hr. unfold build_info_add_sub_feature in H.
  unfold current_dev, get_fdev, put_fdev, get_fdev, on_b, on_w, on_fdev, kbind, zoom, kget, deref, kmod in H.
  cbn -[feature_platform_data_add Nat.ltb] in H.
  destruct (feature_dev (bi s)) as [h|] eqn:Hh; [|discriminate]. cbn -[feature_platform_data_add Nat.ltb] in H.
  destruct (pdevs (pw s) !! h) as [d|] eqn:Hd; [|discriminate]. cbn -[feature_platform_data_add Nat.ltb] in H.
  destruct (dev_resource d) as [rs|] eqn:Hrs; [|discriminate]. cbn -[feature_platform_data_add Nat.ltb] in H.
  destruct ((0 <=? id) && (Z.to_nat id <? length rs)%nat) eqn:Hid; [|discriminate H].
  cbn -[feature_platform_data_add Nat.ltb] in H.
  rewrite Hd in H. cbn -[feature_platform_data_add Nat.ltb] in H.
  destruct (istrue vc && negb (ctx_alloc_ok env h id)).
  { unfold kret in H. injection H as <- <-. unfold ENOMEM in Hr. lia. }
  cbn -[feature_platform_data_add Nat.ltb] in H.
  rewrite lookup_insert_eq in H. cbn -[feature_platform_data_add Nat.ltb] in H.
  destruct (dev_pdata d) as [p|] eqn:Hp; [|discriminate].
  destruct (feature_platform_data_add id name id start _ vc p) as [[x p']|] eqn:Hadd; [|discriminate].
  injection H as _ <-. unfold set_phw. simpl. rewrite insert_insert_eq.
  apply andb_prop in Hid as [_ Hlt%Nat.ltb_lt].
  destruct I as [Ip (Ha & He & Hb)].
  apply (placed_insert bar s h); [by split|].
  eapply dev_placed_add; try done. by eapply (pl_dev _ _ Ip).
Qed.

(** ** The device under construction *)

Lemma on_w_pres {A} bar (c : K (pci_world Op P D) A) :
  preserves (placed env) c -> preserves (in_bar bar) (on_w c).
Proof.
  intros Hc s a s' [Hp Hb] H. unfold on_w in H. simpl in H.
  destruct (c (pw s)) as [[x w]|] eqn:E; [|discriminate]. injection H as _ <-.
  split; [by eapply Hc | exact Hb].
Qed.

Lemma put_pres h d : dev_placed env d -> preserves (placed env) (@put_fdev Op P D h d).
Proof.
  intros Hd w a w' Hw H. unfold put_fdev, get_fdev in H. simpl in H.
  destruct (pdevs w !! h) as [d0|] eqn:E; [|discriminate]. injection H as _ <-.
  apply (placed_insert 0 (PS w (BInfo (pci_ioremap_bar env 0)
    (pci_ioremap_bar env 0 + pci_resource_len env 0) 0 0 false None)) h d); [by split|done].
Qed.

Lemma get_triple {A} h (f : fpga_dev Op P -> K (pci_world Op P D) A) :
  (forall d, dev_placed env d -> preserves (placed env) (f d)) ->
  preserves (placed env) (d <- get_fdev h ;; f d).
Proof.
  intros Hf w a w' Hw H. unfold kbind, get_fdev in H. simpl in H.
  destruct (pdevs w !! h) as [d|] eqn:E; [|discriminate]. eapply Hf; [|exact Hw|exact H].
  by eapply (pl_dev _ _ Hw).
Qed.

(** Updates that keep the platform data and the resources. *)
Lemma update_pres (g : fpga_dev Op P -> fpga_dev Op P) h d :
  (forall d, dev_pdata (g d) = dev_pdata d) -> (forall d, dev_resource (g d) = dev_resource d) ->
  dev_placed env d -> preserves (placed env) (@put_fdev Op P D h (g d)).
Proof. intros Hp Hr Hd. apply put_pres. by apply (dev_placed_ext env d). Qed.

Lemma get_device_pres h : preserves (placed env) (@get_device Op P D h).
Proof.
  apply get_triple. intros d Hd. by apply (update_pres (fun d => set_dev_refs (dev_refs d + 1) d)).
Qed.

Lemma device_add_pres h : preserves (placed env) (@platform_device_add Op P D env h).
Proof.
  apply get_triple. intros d Hd. cbv zeta. destruct (istrue _); [apply preserves_ret|].
  apply preserves_bind; [|intros; apply preserves_ret].
  by apply (update_pres (set_dev_registered true)).
Qed.

Lemma mod_drv_pres f :
  (forall dd, bar_regions (f dd) = bar_regions dd) -> preserves (placed env) (@mod_drv Op P D f).
Proof.
  intros Hf w a w' [Hd Hft Hpt Hu Hr] H. unfold mod_drv, get_drv in H. simpl in H.
  destruct (drv w) as [dd|] eqn:E; [|discriminate]. injection H as _ <-.
  split; simpl; try done. intros dd' [= <-]. rewrite Hf. by apply Hr.
Qed.

Lemma lock_pres : preserves (placed env) (@drv_lock Op P D).
Proof.
  unfold drv_lock. apply preserves_bind.
  - intros w a w' Hw H. apply get_drv_pure in H as ->. done.
  - intros dd. destruct (dlock dd); [intros ? ? ? _ ?; discriminate | by apply mod_drv_pres].
Qed.

Lemma unlock_pres : preserves (placed env) (@drv_unlock Op P D).
Proof.
  unfold drv_unlock. apply preserves_bind.
  - intros w a w' Hw H. apply get_drv_pure in H as ->. done.
  - intros dd. destruct (dlock dd); [by apply mod_drv_pres | intros ? ? ? _ ?; discriminate].
Qed.

Lemma add_port_pres h : preserves (placed env) (@cci_pci_add_port_dev Op P D h).
Proof.
  unfold cci_pci_add_port_dev. 
  apply preserves_bind; [apply lock_pres | intros _].
  apply preserves_bind; [by apply mod_drv_pres | intros _].
  apply preserves_bind; [apply get_device_pres | intros _]. apply unlock_pres.
Qed.

(** The commit does not look at where the walk is: any invariant that the
    steps of the walk preserve will do. *)
Lemma commit_preserves (I : pstate -> Prop) :
  (forall A (c : K pstate A), keeps place_view c -> preserves I c) ->
  (forall A (c : K (pci_world Op P D) A), preserves (placed env) c -> preserves I (on_w c)) ->
  preserves I (@build_info_commit_dev Op P D env).
Proof.
  intros Hv Hw. unfold build_info_commit_dev. apply preserves_bind; [apply Hv; auto with keeps|].
  intros b. destruct (feature_dev b) as [h|]; [|apply preserves_ret].
  apply preserves_bind; [apply Hw, device_add_pres|]. intros ret.
  destruct (istrue ret); [apply preserves_ret|].
  apply preserves_bind; [apply Hv; auto with keeps|]. intros d.
  apply preserves_bind; [|intros; apply preserves_bind; [apply Hv; auto with keeps | intros; apply preserves_ret]].
  destruct (feature_dev_id_type d); apply Hw; try apply add_port_pres;
    (apply preserves_bind; [apply get_device_pres | intros; by apply mod_drv_pres]).
Qed.

Lemma commit_pres bar : preserves (in_bar bar) (@build_info_commit_dev Op P D env).
Proof. apply commit_preserves; intros A c; [apply view_pres | apply on_w_pres]. Qed.

Lemma alloc_id_pres t : preserves (placed env) (@alloc_fpga_id Op P D env t).
Proof.
  intros w a w' [Hd Hft Hpt Hu Hr] H. unfold alloc_fpga_id in H. simpl in H.
  destruct (ids_of t (pids w)) as [u|]; [|discriminate]. simpl in H.
  destruct (idr_alloc env u <? 0); simpl in H; injection H as _ <-; by split.
Qed.

Lemma new_fdev_placed n : dev_placed env (@new_fdev Op P n).
Proof. intros p i f Hp. discriminate. Qed.

Lemma fresh_pdata_placed h (d : fpga_dev Op P) n pd rs :
  feature_platform_data_alloc_and_init (pdata_alloc_ok env h) n = Some pd ->
  dev_placed env (set_dev_resource rs (set_dev_pdata (Some pd) d)).
Proof.
  unfold feature_platform_data_alloc_and_init. destruct (pdata_alloc_ok env h); [|discriminate].
  intros [= <-] p i f [= <-] Hf. simpl in Hf. apply lookup_replicate in Hf as [-> _]. done.
Qed.

Lemma get_w_pres {A} bar h (f : fpga_dev Op P -> K pstate A) :
  (forall d, dev_placed env d -> preserves (in_bar bar) (f d)) ->
  preserves (in_bar bar) (d <- on_w (get_fdev h) ;; f d).
Proof.
  intros Hf s a s' I H. unfold kbind, on_w, get_fdev in H. simpl in H.
  destruct (pdevs (pw s) !! h) as [d|] eqn:E; [|discriminate].
  eapply Hf; [|exact I|]; [by eapply (pl_dev _ _ (proj1 I))|].
  simpl in H. by destruct s.
Qed.

(** The last part of build_info_create_dev: the resources of the device whose
    platform data was just allocated. *)
Lemma create_tail_pres bar h n (pd : feature_platform_data Op P) :
  feature_platform_data_alloc_and_init (pdata_alloc_ok env h) n = Some pd ->
  preserves (in_bar bar)
    (d <- on_w (get_fdev h) ;;
     on_w (put_fdev h (set_dev_pdata (Some pd) d)) ;;
     if negb (resource_alloc_ok env h) then kret (- ENOMEM)
     else
       d <- on_w (get_fdev h) ;;
       on_w (put_fdev h (set_dev_resource
               (Some (replicate (Z.to_nat n) (Res 0 0 None))) d)) ;;
       kret 0).
Proof.
  intros Hpd s r s' I H.
  pose proof (fun d rs => fresh_pdata_placed h d n pd rs Hpd) as Hfresh.
  unfold on_w, put_fdev, get_fdev, kbind, zoom, kget, deref, kmod, kret in H. cbn in H.
  destruct (pdevs (pw s) !! h) as [d|] eqn:Hd; [|discriminate]. cbn in H. rewrite Hd in H. cbn in H.
  assert (in_bar bar (PS (set_pdevs (<[h := set_dev_pdata (Some pd) d]> (pdevs (pw s))) (pw s)) (bi s))) as I1.
  { apply placed_insert; [exact I|]. apply (dev_placed_ext env
      (set_dev_resource (dev_resource d) (set_dev_pdata (Some pd) d))); [done | done | apply Hfresh]. }
  destruct (resource_alloc_ok env h); cbn in H; [|by injection H as _ <-].
  rewrite lookup_insert_eq in H. cbn in H. rewrite lookup_insert_eq in H. cbn in H.
  injection H as _ <-. apply (placed_insert bar _ _ _ I1). apply Hfresh.
Qed.

Lemma create_dev_pres bar t n name : preserves (in_bar bar) (@build_info_create_dev Op P D env t n name).
Proof.
  unfold build_info_create_dev. apply preserves_bind; [apply commit_pres|]. intros ret.
  destruct (istrue ret); [apply preserves_ret|].
  apply preserves_bind; [apply view_pres; auto with keeps|]. intros w. cbv zeta.
  apply preserves_bind; [apply view_pres; auto with keeps|]. intros _.
  destruct (platform_device_alloc env _) as [h|]; [|apply preserves_ret].
  apply preserves_bind.
  { intros s a s' I H. injection H as _ <-. by apply placed_insert, new_fdev_placed. }
  intros _. apply preserves_bind; [apply on_w_pres, alloc_id_pres|]. intros id.
  apply get_w_pres. intros d Hd.
  apply preserves_bind; [by apply on_w_pres, (update_pres (set_dev_id id))|]. intros _.
  destruct (id <? 0); [apply preserves_ret|].
  destruct (feature_platform_data_alloc_and_init _ n) as [pd|] eqn:Hpd; [|apply preserves_ret].
  by apply create_tail_pres.
Qed.

(** ** The headers *)

Lemma get_b_triple {A} (I : pstate -> Prop) (f : build_feature_devs_info -> K pstate A) Q :
  (forall b, triple (fun s => I s /\ bi s = b) (f b) Q) -> triple I (b <- on_b kget ;; f b) Q.
Proof. intros Hf s a s' HI H. eapply (Hf (bi s) s); [by split|]. by destruct s. Qed.

Lemma triple_weaken {S A} (P1 P2 : S -> Prop) (c : K S A) Q :
  (forall s, P1 s -> P2 s) -> triple P2 c Q -> triple P1 c Q.
Proof. intros Hp Hc s a s' H. apply Hc, Hp, H. Qed.

Lemma create_instance_ok bar start finfo :
  pci_ioremap_bar env bar <= start -> sized (fsig finfo) ->
  start <= pci_ioremap_bar env bar + pci_resource_len env bar \/ feature_index finfo = PORT_FEATURE_ID_UAFU ->
  triple (in_bar bar) (create_feature_instance env start finfo) (good (in_bar bar)).
Proof.
  intros Hlo Hsz Hhi. unfold create_feature_instance. apply get_b_triple. intros b.
  intros s r s' [I Hb] H. subst b. pose proof I as (_ & _ & He & _).
  destruct (u64 (b_ioend (bi s) - start) <? resource_size finfo) eqn:Hs.
  { injection H as <- <-. intros Hr. unfold EINVAL in Hr. lia. }
  revert s' H. rewrite He in Hs. clear He. intros s' H.
  revert I H. apply (view_keep bar).
  - destruct (_ =? _); [auto with keeps|]. keep idtac.
  - intros _. apply add_sub_ok; [exact Hlo|exact Hsz|].
    destruct (Z.le_gt_cases start (pci_ioremap_bar env bar + pci_resource_len env bar)) as [Hin|Hout].
    + left. pose proof (len_ok bar) as [Hl0 Hl1]. rewrite u64_window in Hs by lia. lia.
    + right. destruct Hhi as [|Hu]; [lia|]. split; [exact Hu | lia].
Qed.

Definition within (bar start : Z) : Prop :=
  pci_ioremap_bar env bar <= start <= pci_ioremap_bar env bar + pci_resource_len env bar.

(** ** The tables *)

Lemma fme_finfo_triple {A} bar id (g : feature_info -> K pstate A) Q :
  (forall f, sized (fsig f) -> triple (in_bar bar) (g f) Q) ->
  triple (in_bar bar) (f <- fme_finfo id ;; g f) Q.
Proof.
  intros Hg s a s' I H. unfold fme_finfo, on_w, kbind, kget, deref, oops in H. cbn in H.
  destruct (id <? 0); [discriminate|].
  destruct (fme_table (pw s) !! Z.to_nat id) as [f|] eqn:Hf; [|discriminate].
  eapply (Hg f); [|exact I|by destruct s].
  pose proof (pl_fme _ _ (proj1 I)) as Hall. rewrite list.Forall_forall in Hall.
  apply Hall, list_elem_of_fmap_2, list_elem_of_lookup. by eexists.
Qed.

Lemma port_finfo_triple {A} bar id (g : feature_info -> K pstate A) Q :
  (forall f, sized (fsig f) ->
     (id = PORT_FEATURE_ID_UAFU -> (fsig f).1 = ("port_uafu"%string, PORT_FEATURE_ID_UAFU)) ->
     triple (in_bar bar) (g f) Q) ->
  triple (in_bar bar) (f <- port_finfo id ;; g f) Q.
Proof.
  intros Hg s a s' I H. unfold port_finfo, on_w, kbind, kget, deref, oops in H. cbn in H.
  destruct (id <? 0); [discriminate|].
  destruct (port_table (pw s) !! Z.to_nat id) as [f|] eqn:Hf; [|discriminate].
  pose proof (proj1 I) as [_ _ Hall Hu _]. rewrite list.Forall_forall in Hall.
  eapply (Hg f); [| |exact I|by destruct s].
  - apply Hall, list_elem_of_fmap_2, list_elem_of_lookup. by eexists.
  - intros ->. apply Hu. rewrite list_lookup_fmap, Hf. done.
Qed.

Lemma irqs_fsig bar start f :
  triple (in_bar bar) (parse_feature_irqs env start f)
    (fun f' s => fsig f' = fsig f /\ in_bar bar s).
Proof.
  intros s f' s' I H. split; [|by eapply (view_pres bar); [apply keeps_irqs | |exact H]].
  unfold parse_feature_irqs in H. cbv zeta in H.
  destruct (pci_msix_vec_count env <=? 0); [by injection H as <- _|].
  unfold kbind in H. destruct (announced_irqs start (fi_name f) s) as [[v s1]|]; [|discriminate].
  destruct (_ <? _); by injection H as <- _.
Qed.

Lemma sized_insert i f (l : list feature_info) :
  sized (fsig f) -> Forall sized (map fsig l) -> Forall sized (map fsig (<[i := f]> l)).
Proof.
  intros Hf Hl. change (map fsig ?x) with (fsig <$> x). rewrite list_fmap_insert.
  by apply list.Forall_insert.
Qed.

Lemma set_fme_finfo_pres bar id f :
  sized (fsig f) -> preserves (in_bar bar) (@set_fme_finfo Op P D id f).
Proof.
  intros Hf s a s' [[Hd Hft Hpt Hu Hr] Hb] H. injection H as _ <-.
  split; [split | exact Hb]; simpl; try done. by apply sized_insert.
Qed.

Lemma set_port_finfo_pres bar id f :
  0 <= id -> sized (fsig f) ->
  (id = PORT_FEATURE_ID_UAFU -> (fsig f).1 = ("port_uafu"%string, PORT_FEATURE_ID_UAFU)) ->
  preserves (in_bar bar) (@set_port_finfo Op P D id f).
Proof.
  intros Hid Hsz Hf s a s' [[Hd Hft Hpt Hu Hr] Hb] H. injection H as _ <-.
  split; [split | exact Hb]; simpl; try done; [by apply sized_insert|].
  intros g Hg. change (map fsig ?x) with (fsig <$> x) in Hg. rewrite list_fmap_insert in Hg.
  destruct (decide (id = PORT_FEATURE_ID_UAFU)) as [->|Hne].
  - apply list_lookup_insert_Some in Hg as [(_ & <- & _)|[? _]]; [by apply Hf | done].
  - rewrite list_lookup_insert_ne in Hg; [by apply Hu|]. intros E.
    apply Hne. unfold PORT_FEATURE_ID_UAFU in *. lia.
Qed.

Lemma parse_fme_ok bar start :
  within bar start -> triple (in_bar bar) (parse_feature_fme env start) (good (in_bar bar)).
Proof.
  intros [Hlo Hhi]. apply triple_check; [apply triple_preserves, create_dev_pres|].
  apply view_keep; [auto with keeps|]. intros d. destruct (fme_dev d); [apply triple_ret|].
  apply fme_finfo_triple. intros f Hf. apply create_instance_ok; [done | done | by left].
Qed.

Lemma parse_fme_private_ok bar hdr :
  within bar hdr -> triple (in_bar bar) (parse_feature_fme_private env hdr) (good (in_bar bar)).
Proof.
  intros [Hlo Hhi]. unfold parse_feature_fme_private.
  apply view_keep; [auto with keeps|]. intros header. cbv zeta.
  set (id := fget feature_header "id" header).
  apply view_keep; [auto with keeps|]. intros w. destruct (_ <=? _); [apply triple_ret|].
  apply fme_finfo_triple. intros f Hf.
  eapply triple_bind; [apply irqs_fsig|]. intros f'. simpl.
  intros s r s' [Hi I]. revert s r s' I.
  change (triple (in_bar bar) (set_fme_finfo id f' ;;
    check_features_header hdr FME_ID id ;; create_feature_instance env hdr f') (good (in_bar bar))).
  apply triple_keep; [apply set_fme_finfo_pres; by rewrite Hi|]. intros _.
  apply view_keep; [apply keeps_check_header|]. intros _.
  apply create_instance_ok; [done | by rewrite Hi | by left].
Qed.

Lemma parse_port_private_ok bar hdr :
  within bar hdr -> triple (in_bar bar) (parse_feature_port_private env hdr) (good (in_bar bar)).
Proof.
  intros [Hlo Hhi]. unfold parse_feature_port_private.
  apply view_keep; [auto with keeps|]. intros header. cbv zeta.
  set (id := Z.land (fget feature_header "id" header) 0xf + 1).
  assert (0 <= id) as Hid.
  { unfold id. enough (0 <= Z.land (fget feature_header "id" header) 0xf) by lia.
    apply Z.land_nonneg. right. lia. }
  apply view_keep; [auto with keeps|]. intros w. destruct (_ <=? _); [apply triple_ret|].
  apply port_finfo_triple. intros f Hsz Hf.
  eapply triple_bind; [apply irqs_fsig|]. intros f'. simpl.
  intros s r s' [Hi I]. revert s r s' I.
  change (triple (in_bar bar) (set_port_finfo id f' ;;
    check_features_header hdr PORT_ID id ;; create_feature_instance env hdr f') (good (in_bar bar))).
  apply triple_keep; [apply set_port_finfo_pres; rewrite ?Hi; done|]. intros _.
  apply view_keep; [apply keeps_check_header|]. intros _.
  apply create_instance_ok; [done | by rewrite Hi | by left].
Qed.

Lemma parse_port_ok bar start :
  within bar start -> triple (in_bar bar) (parse_feature_port env start) (good (in_bar bar)).
Proof.
  intros [Hlo Hhi]. apply triple_check; [apply triple_preserves, create_dev_pres|].
  apply port_finfo_triple. intros f Hf _. apply create_instance_ok; [done | done | by left].
Qed.

Lemma sized_uafu kb f :
  0 <= kb < 2 ^ 16 -> (fsig f).1 = ("port_uafu"%string, PORT_FEATURE_ID_UAFU) ->
  sized (fsig (set_resource_size (kb * 1024) f)).
Proof.
  intros Hk [= Hn Hi]. unfold fsig. simpl. rewrite Hn, Hi. unfold sized.
  rewrite decide_True by done. by exists kb.
Qed.

(** The AFU is the one feature whose start may lie outside. *)
Lemma parse_port_afu_ok bar hdr :
  pci_ioremap_bar env bar <= hdr ->
  triple (in_bar bar) (parse_feature_port_afu env hdr) (good (in_bar bar)).
Proof.
  intros Hlo. unfold parse_feature_port_afu. apply port_finfo_triple. intros f Hsz Hf.
  destruct (istrue (resource_size f)); [|apply triple_ret].
  eapply triple_bind; [apply create_instance_ok; [done | done | right; specialize (Hf eq_refl); by injection Hf]|].
  intros ret s r s' Hg H. intros Hr. unfold kbind in H.
  destruct (port_finfo PORT_FEATURE_ID_UAFU s) as [[g s1]|] eqn:Eg; [|discriminate].
  injection H as H1 <-. assert (ret = 0) as Hret by congruence.
  pose proof (Hg Hret) as I.
  assert ((fsig g).1 = ("port_uafu"%string, PORT_FEATURE_ID_UAFU) /\ in_bar bar s1) as [Hgi I1].
  { eapply (port_finfo_triple bar PORT_FEATURE_ID_UAFU kret
      (fun g s => (fsig g).1 = ("port_uafu"%string, PORT_FEATURE_ID_UAFU) /\ in_bar bar s)); [|exact I|].
    - intros g' _ Hg' s2 g2 s3 I2 E. injection E as <- <-. split; [by apply Hg' | done].
    - unfold kbind. by rewrite Eg. }
  apply (set_port_finfo_pres bar PORT_FEATURE_ID_UAFU (set_resource_size 0 g)
    ltac:(unfold PORT_FEATURE_ID_UAFU; lia) (sized_uafu 0 g ltac:(lia) Hgi) (fun _ => Hgi)
    s1 tt _ I1 eq_refl).
Qed.

Lemma parse_afu_ok bar hdr :
  pci_ioremap_bar env bar <= hdr ->
  triple (in_bar bar) (parse_feature_afu env hdr) (good (in_bar bar)).
Proof.
  intros Hlo. unfold parse_feature_afu. apply view_keep; [auto with keeps|]. intros b.
  destruct (feature_dev b) as [h|]; [|apply triple_ret].
  apply view_keep; [auto with keeps|]. intros d.
  destruct (feature_dev_id_type d); try apply triple_ret. by apply parse_port_afu_ok.
Qed.
End PlacedParse.
