(* ===== verification/PcieWalk.v ===== *)
(** * The walk of a whole board and the end of the probe

    PciePlaced.v's invariant through the headers of an FIU, the list of a BAR,
    the ports of the FME and the probe: every feature of every device a
    successful probe leaves behind lies in its BAR. *)

From S2P Require Import Prelude.
From S2P Require Import Bitfield.
From S2P Require Import Registers.
From S2P Require Import Mmio.
From S2P Require Import FeatureDev.
From S2P Require Import Views.
From S2P Require Import PcieTypes.
From S2P Require Import PciePort.
From S2P Require Import PcieParse.
From S2P Require Import PcieExample.
From S2P Require Import PciePlaced.

(** ** The reset of a port leaves its features alone *)

Section Reset.
Context {Op P D : Type} {dev : Mmio D}.
Definition features_view (q : platform_device Op P D) := features (pd q).

Lemma keeps_mmio_readq base off : keeps features_view (@mmio_readq Op P D dev base off).
Proof. unfold mmio_readq. destruct (_ =? _); [apply keeps_oops|]. apply keeps_zoom. done. Qed.

Lemma keeps_mmio_writeq v base off : keeps features_view (@mmio_writeq Op P D dev v base off).
Proof. unfold mmio_writeq. destruct (_ =? _); [apply keeps_oops|]. apply keeps_zoom. done. Qed.

Lemma keeps_pd_mod f : (forall p, features (f p) = features p) ->
  keeps features_view (on_pd (D := D) (kmod (S := feature_platform_data Op P) f)).
Proof. intros Hf. apply keeps_on_pd. intros q a p [= _ <-]. apply Hf. Qed.

Lemma keeps_pd_lock : keeps features_view (on_pd (D := D) (@mutex_lock Op P)).
Proof.
  apply keeps_on_pd. intros q a p H. unfold mutex_lock in H.
  destruct (lock (pd q)); [discriminate|]. by injection H as _ <-.
Qed.

Lemma keeps_pd_unlock : keeps features_view (on_pd (D := D) (@mutex_unlock Op P)).
Proof.
  apply keeps_on_pd. intros q a p H. unfold mutex_unlock in H.
  destruct (lock (pd q)); [|discriminate]. by injection H as _ <-.
Qed.
#[local] Hint Resolve keeps_mmio_readq keeps_mmio_writeq keeps_pd_lock keeps_pd_unlock : keeps.

Lemma walk_keeps_port_reset : keeps features_view (@fpga_port_reset Op P D dev).
Proof.
  unfold fpga_port_reset, __fpga_port_reset, __fpga_port_disable, __fpga_port_enable.
  keep ltac:(by apply keeps_pd_mod).
Qed.
End Reset.

Section Walk.
Context {Op P D : Type} {dev : Mmio D}.
Variable env : pci_env.
Abbreviation pstate := (parse_state Op P D).
Abbreviation in_bar := (in_bar (Op := Op) (P := P) (D := D) env).
Hypothesis len_ok : forall bar, is_u64 (pci_resource_len env bar).

Lemma on_fdev_pres {A} h (c : K (platform_device Op P D) A) :
  keeps features_view c -> preserves (placed env) (on_fdev h c).
Proof.
  intros Hc w a w' Hw H. unfold on_fdev in H.
  destruct (pdevs w !! h) as [d|] eqn:Hd; [|discriminate].
  destruct (dev_pdata d) as [p|] eqn:Hp; [|discriminate].
  destruct (c (Pdev p (phw w))) as [[x q]|] eqn:Hq; [|discriminate]. injection H as _ <-.
  apply (keeps_run _ _ _ _ _ Hc) in Hq. unfold features_view in Hq. simpl in Hq.
  destruct Hw as [Hpd Hft Hpt Hu Hr]. split; simpl; try done.
  intros h' d' Hh'. apply lookup_insert_Some in Hh' as [[<- <-]|[_ Hh']]; [|by eapply Hpd].
  intros p' i f [= <-] Hf Hn. rewrite Hq in Hf. by apply (Hpd h d Hd p i f Hp Hf Hn).
Qed.

Lemma uafu_pres bar hdr : preserves (in_bar bar) (@enable_port_uafu Op P D dev hdr).
Proof.
  change (triple (in_bar bar) (@enable_port_uafu Op P D dev hdr) (fun _ => in_bar bar)).
  unfold enable_port_uafu.
  apply view_keep; [apply keeps_pci_readq|]. intros cap.
  apply view_keep; [apply keeps_pci_readq|]. intros _. cbv zeta.
  apply port_finfo_triple.
  intros f _ Hf. apply triple_keep.
  { rewrite Z.shiftl_mul_pow2 by lia.
    apply set_port_finfo_pres; [done | | exact Hf].
    apply sized_uafu; [|by apply Hf].
    apply (fget_range feature_port_capability "mmio_size" cap). reg_tac. }
  intros _. destruct (istrue _); [|exact (preserves_ret (in_bar bar) tt)].
  apply view_keep; [apply keeps_current_dev|]. intros h.
  apply triple_keep; [apply on_w_pres, on_fdev_pres, walk_keeps_port_reset|]. intros _.
  exact (preserves_ret (in_bar bar) tt).
Qed.

Lemma next_afu_ok bar hdr :
  pci_ioremap_bar env bar <= hdr -> triple (in_bar bar) (parse_next_afu env hdr) (good (in_bar bar)).
Proof.
  intros Hlo. unfold parse_next_afu. apply view_keep; [apply keeps_pci_readq|]. intros fiu.
  cbv zeta. destruct (istrue _); [|apply triple_ret].
  apply parse_afu_ok; [exact len_ok|].
  pose proof (field_nonneg feature_fiu_header_csr "next_afu" fiu ltac:(reg_tac)). lia.
Qed.

Lemma parse_fiu_ok bar hdr :
  within env bar hdr -> triple (in_bar bar) (parse_feature_fiu env hdr) (good (in_bar bar)).
Proof.
  intros Hin. unfold parse_feature_fiu. apply view_keep; [apply keeps_readq_at|]. intros header.
  cbv zeta. apply triple_check; [|apply next_afu_ok; apply Hin].
  destruct (_ =? _); [|destruct (_ =? _); [|apply triple_ret]].
  - eapply triple_bind; [by apply (parse_fme_ok env len_ok bar)|]. intros ret.
    apply good_step; [apply view_pres, keeps_check_header|]. intros _.
    apply good_step; [apply view_pres, keeps_set_pfme|]. intros _. apply good_ret.
  - eapply triple_bind; [by apply (parse_port_ok env len_ok bar)|]. intros ret.
    apply good_step; [apply view_pres, keeps_check_header|]. intros _.
    apply good_step; [apply uafu_pres|]. intros _. apply good_ret.
Qed.

Lemma parse_private_ok bar hdr :
  within env bar hdr -> triple (in_bar bar) (parse_feature_private env hdr) (good (in_bar bar)).
Proof.
  intros Hin. unfold parse_feature_private. apply view_keep; [apply keeps_readq_at|]. intros _.
  apply view_keep; [auto with keeps|]. intros b.
  destruct (feature_dev b) as [h|]; [|apply triple_ret].
  apply view_keep; [auto with keeps|]. intros d.
  destruct (feature_dev_id_type d); try apply triple_ret;
    [by apply parse_fme_private_ok | by apply parse_port_private_ok].
Qed.

Lemma parse_feature_ok bar hdr :
  within env bar hdr -> triple (in_bar bar) (parse_feature env hdr) (good (in_bar bar)).
Proof.
  intros Hin. unfold parse_feature. apply view_keep; [apply keeps_readq_at|]. intros header.
  cbv zeta. repeat case_match.
  - apply parse_afu_ok; [exact len_ok | apply Hin].
  - by apply parse_private_ok.
  - by apply parse_fiu_ok.
  - apply view_keep; [apply keeps_readq_at|]. intros _. apply triple_ret.
Qed.

Lemma feature_loop_ok bar n start :
  pci_ioremap_bar env bar <= start ->
  triple (in_bar bar)
    (feature_loop env n start (pci_ioremap_bar env bar + pci_resource_len env bar))
    (fun r s => r = Some 0 -> in_bar bar s).
Proof.
  revert start. induction n as [|n IH]; intros start Hlo; cbn [feature_loop].
  { destruct (_ <? _); intros s r s' I H; injection H as <- <-; done. }
  destruct (Z.ltb_spec start (pci_ioremap_bar env bar + pci_resource_len env bar)) as [Hlt|Hge];
    [|intros s r s' I H; by injection H as <- <-].
  destruct (_ <? _); [intros s r s' I H; by injection H as <- <-|].
  eapply triple_bind; [apply parse_feature_ok; split; [exact Hlo | lia]|].
  intros ret s r s' Hg H. unfold istrue in H. destruct (Z.eqb_spec ret 0) as [E|E]; cbn [negb] in H.
  - specialize (Hg E). revert s r s' Hg H.
    refine (view_keep env bar _ _ (fun r s => r = Some 0 -> in_bar bar s) _ _);
      [apply keeps_readq_at|]. intros header. cbv zeta. case_match; [intros s r s' I Hr; by injection Hr as <- <-|].
    apply IH. pose proof (field_nonneg feature_header "next_header_offset" header ltac:(reg_tac)). lia.
  - injection H as <- <-. congruence.
Qed.

Lemma parse_list_ok bar start :
  pci_ioremap_bar env bar <= start ->
  triple (in_bar bar) (parse_feature_list env start) (good (in_bar bar)).
Proof.
  intros Hlo. unfold parse_feature_list. apply get_b_triple. intros b.
  intros s r s' [I Hb] H. subst b. pose proof I as (_ & _ & He & _). rewrite He in H.
  revert I H. eapply triple_bind; [by apply feature_loop_ok|].
  intros [z|] s1 r1 s2 Hg H; [|discriminate]. injection H as <- <-. intros ->. by apply Hg.
Qed.

(** ** Switching BARs *)

Abbreviation anywhere := (fun s : pstate => placed env (pw s)).

Lemma region_of_bar_placed l bar r :
  Forall (fun r => reg_ioaddr r = pci_ioremap_bar env (reg_bar r)) l ->
  region_of_bar bar l = Some r -> reg_ioaddr r = pci_ioremap_bar env bar.
Proof.
  intros Hl. unfold region_of_bar. intros H.
  assert (r ∈ filter (fun r => reg_bar r = bar) l) as Hin.
  { destruct (filter _ l); [discriminate|]. injection H as ->. by left. }
  apply list_elem_of_filter in Hin as [<- Hin]. by eapply list.Forall_forall in Hl.
Qed.

Lemma ioremap_ok bar :
  triple (placed env) (cci_pci_ioremap_bar (Op := Op) (P := P) (D := D) env bar)
    (fun a w => placed env w /\ (a = 0 \/ a = pci_ioremap_bar env bar)).
Proof.
  intros w a w' Hw H. unfold cci_pci_ioremap_bar, get_drv, mod_drv, get_drv in H.
  unfold kbind, kget, deref, kmod, kret in H. destruct (drv w) as [dd|] eqn:Hdd; [|discriminate].
  pose proof (pl_regions _ _ Hw _ Hdd) as Hr.
  destruct (region_of_bar bar (bar_regions dd)) as [r|] eqn:Er.
  { injection H as <- <-. split; [done|]. right. by eapply region_of_bar_placed. }
  destruct (region_alloc_ok env bar); cbn in H; [|by injection H as <- <-; split; [|left]].
  destruct (pci_ioremap_bar env bar =? 0); [by injection H as <- <-; split; [|left]|].
  rewrite Hdd in H. injection H as <- <-. split; [|by right].
  destruct Hw as [Hpd Hft Hpt Hu _]. split; simpl; try done. intros dd' [= <-]. simpl. by constructor.
Qed.

Lemma start_from_ok bar : triple anywhere (parse_start_from env bar) (good (in_bar bar)).
Proof.
  intros s r s' I H. unfold parse_start_from in H.
  unfold on_w at 1, zoom, kbind at 1 in H.
  destruct (cci_pci_ioremap_bar env bar (pw s)) as [[a w]|] eqn:E; [|discriminate].
  apply ioremap_ok in E as [Hw Ha]; [|exact I].
  destruct (Z.eqb_spec a 0) as [->|Hne]; cbn in H; injection H as <- <-.
  - intros Hr. unfold ENOMEM in Hr. lia.
  - intros _. destruct Ha as [Ha|Ha]; [done|]. subst a. by split.
Qed.

Lemma in_bar_anywhere {A} bar (c : K pstate A) Q : triple anywhere c Q -> triple (in_bar bar) c Q.
Proof. intros H s a s' [I _]. by apply H. Qed.

Lemma port_loop_ok n i hdr : triple anywhere (port_loop env n i hdr) (good anywhere).
Proof.
  revert i. induction n as [|n IH]; intros i; cbn [port_loop]; [apply triple_ret|].
  apply triple_keep.
  { apply (keeps_preserves place_view); [apply keeps_pci_readq|]. intros. by eapply placed_view. }
  intros port. destruct (_ =? _); [apply triple_ret|].
  eapply triple_bind; [apply start_from_ok|]. intros ret s r s' Hg H.
  unfold istrue in H at 1. destruct (Z.eqb_spec ret 0) as [E|E]; cbn [negb] in H;
    [|injection H as <- <-; congruence].
  specialize (Hg E). unfold kbind at 1, on_b, zoom, kget in H. cbn [bi] in H.
  revert H. replace (PS (pw s) (bi s)) with s by (by destruct s).
  pose proof Hg as (_ & Hb & _). rewrite Hb. revert Hg.
  pose proof (field_nonneg feature_fme_port "port_offset" port ltac:(reg_tac)).
  apply (triple_bind (in_bar (fget feature_fme_port "port_bar" port)) _ _
    (good (in_bar (fget feature_fme_port "port_bar" port)))); [apply parse_list_ok; lia|].
  intros ret' s1 r1 s2 Hg1 H1. unfold istrue in H1. destruct (Z.eqb_spec ret' 0) as [E'|E'];
    cbn [negb] in H1; [|injection H1 as <- <-; congruence].
  eapply IH; [|exact H1]. by apply Hg1.
Qed.

(** ** The probe *)

(** Steps outside the tables, the devices and the mappings. *)
Lemma any_view {A} (c : K pstate A) : keeps place_view c -> preserves anywhere c.
Proof. intros H. apply (keeps_preserves place_view); [exact H|]. intros. by eapply placed_view. Qed.

Lemma any_w {A} (c : K (pci_world Op P D) A) : preserves (placed env) c -> preserves anywhere (on_w c).
Proof.
  intros Hc. apply preserves_zoom. intros s a w Hs Hr. simpl. by eapply Hc.
Qed.

Lemma any_b {A} (c : K build_feature_devs_info A) : preserves anywhere (on_b c).
Proof. by apply preserves_zoom. Qed.

Lemma pres_any {A} (c : K pstate A) :
  (forall bar, preserves (in_bar bar) c) -> preserves (fun s => exists bar, in_bar bar s) c.
Proof. intros Hc s a s' [bar Hb] H. exists bar. by eapply Hc. Qed.

Lemma placed_ext (w w' : pci_world Op P D) :
  placed env w -> fme_table w' = fme_table w -> port_table w' = port_table w -> drv w' = drv w ->
  (forall h d', pdevs w' !! h = Some d' -> exists d, pdevs w !! h = Some d /\
     dev_pdata d' = dev_pdata d /\ dev_resource d' = dev_resource d) ->
  placed env w'.
Proof.
  intros [Hd Hft Hpt Hu Hr] Hf Ht Hdr Hp. split; [|by rewrite Hf|by rewrite Ht..|by rewrite Hdr].
  intros h d' Hh. apply Hp in Hh as (d & Hh & ? & ?). by eapply dev_placed_ext, Hd.
Qed.

Lemma remove_all_pres : preserves (placed env) (@remove_all_devs Op P D).
Proof.
  intros w a w' Hw H. injection H as _ <-. eapply placed_ext; [exact Hw | done | done | done|].
  intros h d' Hh. simpl in Hh. apply lookup_omap_Some in Hh as (d & Hd & Hh).
  exists d. split; [exact Hh|]. unfold unregister_dev in Hd.
  repeat case_match; simplify_eq; done.
Qed.

Lemma free_id_pres t id : preserves (placed env) (@free_fpga_id Op P D t id).
Proof.
  intros w a w' Hw H. unfold free_fpga_id in H. simpl in H.
  destruct (ids_of t (pids w)); [|discriminate]. injection H as _ <-.
  eapply placed_ext; [exact Hw | done | done | done|]. intros h d Hh. by exists d.
Qed.

Lemma put_device_pres h : preserves (placed env) (@put_device Op P D h).
Proof.
  apply get_triple. intros d Hd. destruct (_ =? _).
  - intros w a w' Hw H. injection H as _ <-. eapply placed_ext; [exact Hw | done | done | done|].
    intros x dx Hx. simpl in Hx. apply lookup_delete_Some in Hx as [_ Hx]. by exists dx.
  - by apply (update_pres env (set_dev_refs (dev_refs d - 1))).
Qed.

Lemma binfo_free_pres : preserves anywhere (@build_info_free Op P D).
Proof.
  unfold build_info_free. apply preserves_bind; [apply any_b|]. intros b.
  apply preserves_bind; [destruct (parent_dev b); [apply any_w, remove_all_pres | apply preserves_ret]|].
  intros _. destruct (feature_dev b) as [h|]; [|apply preserves_ret].
  apply preserves_bind; [apply any_view; auto with keeps|]. intros d.
  apply preserves_bind; [destruct (0 <=? _); [apply any_w, free_id_pres | apply preserves_ret]|].
  intros _. apply any_w, put_device_pres.
Qed.

Lemma mod_pfunc_pres f : preserves (placed env) (@mod_pfunc Op P D f).
Proof.
  intros w a w' Hw H. injection H as _ <-. eapply placed_ext; [exact Hw | done | done | done|].
  intros h d Hh. by exists d.
Qed.

Lemma commit_any : preserves anywhere (@build_info_commit_dev Op P D env).
Proof. apply commit_preserves; intros A c; [apply any_view | apply any_w]. Qed.

Lemma ports_ok : triple anywhere (parse_ports_from_fme env) (good anywhere).
Proof.
  unfold parse_ports_from_fme. apply triple_keep; [apply any_b|]. intros b.
  destruct (_ =? _); [apply triple_ret | apply port_loop_ok].
Qed.

Lemma build_ok : triple anywhere (build_feature_devs env) (good anywhere).
Proof.
  unfold build_feature_devs. cbv zeta. destruct (istrue _); [apply triple_ret|].
  apply triple_keep; [apply any_w, mod_pfunc_pres|]. intros _.
  apply triple_keep; [apply any_b|]. intros _.
  unfold parse_start. eapply triple_bind; [apply start_from_ok|]. intros ret.
  apply good_check. intros _.
  apply get_b_triple. intros b. intros s r s' [I Hb] H. subst b.
  pose proof I as (_ & Ha & _). revert I H.
  apply triple_check.
  { apply (good_weaken _ (in_bar 0)); [by intros ? [? _]|]. apply parse_list_ok; lia. }
  apply triple_check; [apply ports_ok|].
  apply triple_check; [apply triple_preserves, commit_any|].
  apply triple_keep; [apply any_b|]. intros _. apply triple_ret.
Qed.

Lemma create_devs_ok :
  triple (placed env) (cci_pci_create_feature_devs (Op := Op) (P := P) (D := D) env) (good (placed env)).
Proof.
  intros w r w' Hw H. unfold cci_pci_create_feature_devs in H.
  destruct (negb _); [injection H as <- <-; done|].
  match type of H with match ?c ?s with _ => _ end = _ => destruct (c s) as [[r1 s1]|] eqn:E end;
    [|discriminate]. injection H as <- <-. revert E.
  refine (triple_tail anywhere anywhere _ _ build_ok binfo_free_pres (PS w zeroed_binfo) r1 s1 Hw).
Qed.

(** The error exits return the error. *)
Lemma exit_fails (P0 : pci_world Op P D -> Prop) A (c : K (pci_world Op P D) A) ret :
  istrue ret = true -> triple P0 (c ;; kret ret) (good (placed env)).
Proof.
  intros Hr s a s' _ H. unfold kbind in H. destruct (c s) as [[x s1]|]; [|discriminate].
  injection H as <- <-. intros ->. discriminate.
Qed.

Lemma exits_fail (P0 : pci_world Op P D -> Prop) ret : istrue ret = true ->
  triple P0 (disable_error_report_exit ret) (good (placed env)) /\
  triple P0 (release_region_exit ret) (good (placed env)) /\
  triple P0 (destroy_drvdata_exit ret) (good (placed env)) /\
  triple P0 (free_irq_exit ret) (good (placed env)).
Proof.
  intros Hr.
  assert (forall Q0, triple Q0 (disable_error_report_exit (Op := Op) (P := P) (D := D) ret)
    (good (placed env))) as H1.
  { intros Q0 s a s' _ H. injection H as <- <-. intros ->. discriminate. }
  assert (forall Q0, triple Q0 (release_region_exit (Op := Op) (P := P) (D := D) ret)
    (good (placed env))) as H2.
  { intros Q0. eapply (triple_bind Q0 _ _ (fun _ _ => True)); [by intros ? ? ?|]. intros _. apply H1. }
  assert (forall Q0, triple Q0 (destroy_drvdata_exit (Op := Op) (P := P) (D := D) ret)
    (good (placed env))) as H3.
  { intros Q0. eapply (triple_bind Q0 _ _ (fun _ _ => True)); [by intros ? ? ?|]. intros _. apply H2. }
  split_and!; [apply H1 | apply H2 | apply H3|].
  eapply (triple_bind P0 _ _ (fun _ _ => True)); [by intros ? ? ?|]. intros _. apply H3.
Qed.

(** Before the probe no device exists and the tables are the static ones. *)
Definition unprobed (w : pci_world Op P D) : Prop :=
  pdevs w = ∅ /\ fme_table w = fme_features /\ port_table w = port_features.

Lemma unprobed_pfunc f : preserves unprobed (@mod_pfunc Op P D f).
Proof. intros w a w' Hw H. injection H as _ <-. exact Hw. Qed.

Lemma drvdata_ok : triple unprobed (@create_init_drvdata Op P D env) (good (placed env)).
Proof.
  unfold create_init_drvdata. destruct (negb _); [intros s r s' _ H; injection H as <- <-; done|].
  apply (triple_bind unprobed _ _ (fun _ => unprobed)).
  { intros w a w' Hw H. unfold alloc_fpga_id in H. simpl in H.
    destruct (_ <? 0); simpl in H; injection H as _ <-; exact Hw. }
  intros id. destruct (Z.ltb_spec id 0).
  { intros s r s' _ E. injection E as <- <-. intros ->. lia. }
  intros w r w' (Hd & Hf & Ht) E _. injection E as _ <-. split; simpl.
  - rewrite Hd. intros h d. by rewrite lookup_empty.
  - rewrite Hf. apply fme_features_sized.
  - rewrite Ht. apply port_features_sized.
  - rewrite Ht. by intros f [= <-].
  - intros dd [= <-]. constructor.
Qed.

Lemma probe_ok : triple unprobed (cci_pci_probe env) (good (placed env)).
Proof.
  assert (istrue (- EIO) = true) as Hio by done.
  unfold cci_pci_probe. cbv zeta. destruct (Z.ltb_spec (pci_enable_device_ret env) 0) as [Hneg|].
  { intros s r s' _ E. injection E as <- <-. intros E. lia. }
  apply triple_keep; [apply unprobed_pfunc|]. intros _.
  apply triple_keep; [apply unprobed_pfunc|]. intros _.
  destruct (istrue (pci_request_regions_ret env)) eqn:Hr; [by apply exits_fail|].
  apply triple_keep; [apply unprobed_pfunc|]. intros _.
  destruct (_ && _); [by apply exits_fail|].
  eapply triple_bind; [apply drvdata_ok|]. intros ret.
  destruct (istrue ret) eqn:E1; [by apply exits_fail|]. unfold istrue in E1. boolify.
  apply (triple_bind _ _ _ (fun _ => placed env)).
  { intros w x w' Hg E. specialize (Hg E1). unfold cci_pci_alloc_irq in E. cbv zeta in E.
    destruct (_ <=? 0); [by injection E as _ <-|].
    destruct (_ <? 0); [by injection E as _ <-|].
    unfold kbind in E. destruct (mod_pfunc _ w) as [[u w1]|] eqn:E'; [|discriminate].
    injection E as _ <-. by eapply mod_pfunc_pres. }
  intros ret2. destruct (istrue ret2) eqn:E2; [by apply exits_fail|].
  eapply triple_bind; [apply create_devs_ok|]. intros ret3.
  destruct (istrue ret3) eqn:E3; [by apply exits_fail|]. unfold istrue in E3. boolify.
  intros w r w' Hg E _. injection E as _ <-. by apply Hg.
Qed.
End Walk.

(** C7: after a successful probe every sub feature the driver recorded lies in
    its BAR with its full size.  For a function that no device was created for
    yet, feature tables as compiled in and BAR lengths of 64 bits, whatever
    the registers said, each named feature of each device has a resource with
    its own name and index, and for some BAR: the feature's MMIO address is at
    or above the BAR's mapping, the resource starts at the same place of that
    BAR seen from the bus and has exactly the feature's size (the one its
    table entry of that name and index has; for the user AFU the KB the
    port's mmio_size field gave), and address plus size do not exceed the BAR.
    The user AFU alone may lie elsewhere: then entirely past the end of the
    BAR, where the port's next_afu pointer put it. *)
Theorem registered_features_placed {Op P D} {dev : Mmio D} env (w w' : pci_world Op P D) :
  (forall bar, is_u64 (pci_resource_len env bar)) ->
  pdevs w = ∅ -> fme_table w = fme_features -> port_table w = port_features ->
  cci_pci_probe env w = Some (0, w') ->
  forall h d p i f,
  pdevs w' !! h = Some d -> dev_pdata d = Some p -> features p !! i = Some f -> f_name f <> None ->
  exists rs r bar name size,
    dev_resource d = Some rs /\ rs !! i = Some r /\
    res_name r = f_name f /\ f_resource_index f = Z.of_nat i /\
    f_name f = Some name /\ sized (name, Z.of_nat i, size) /\ 0 <= size /\
    let a := pci_ioremap_bar env bar in
    a <= f_ioaddr f /\
    res_start r = u64 (pci_resource_start env bar + (f_ioaddr f - a)) /\
    res_end r = u64 (res_start r + size - 1) /\
    (f_ioaddr f + size <= a + pci_resource_len env bar \/
     (Z.of_nat i = PORT_FEATURE_ID_UAFU /\ a + pci_resource_len env bar < f_ioaddr f)).
Proof.
  intros Hlen Hd Hft Ht H h d p i f Hh Hp Hf Hn.
  destruct (pl_dev _ _ (probe_ok env Hlen w 0 w' (conj Hd (conj Hft Ht)) H eq_refl) h d Hh p i f Hp Hf Hn)
    as (rs & r & Hrs & Hr & bar & name & size & Hnm & Hsz & Ha & Hi & Hname & Hs & He & Hin).
  exists rs, r, bar, name, size. cbv zeta. rewrite Z.add_sub_assoc.
  pose proof (sized_nonneg _ _ _ Hsz). done.
Qed.

Lemma probed_error_feature : exists d p f,
  pdevs pci_probed !! 1 = Some d /\ dev_pdata d = Some p /\ features p !! 1%nat = Some f /\
  f_name f <> None.
Proof.
  do 3 eexists. split; [vm_compute; reflexivity|]. split; [reflexivity|].
  split; [reflexivity|]. discriminate.
Qed.

Lemma registered_features_placed_witness :
  exists d p f rs r bar name size,
    pdevs pci_probed !! 1 = Some d /\ dev_pdata d = Some p /\ features p !! 1%nat = Some f /\
    dev_resource d = Some rs /\ rs !! 1%nat = Some r /\
    res_name r = f_name f /\ f_resource_index f = Z.of_nat 1 /\
    f_name f = Some name /\ sized (name, Z.of_nat 1, size) /\ 0 <= size /\
    let a := pci_ioremap_bar demo_pci_env bar in
    a <= f_ioaddr f /\
    res_start r = u64 (pci_resource_start demo_pci_env bar + (f_ioaddr f - a)) /\
    res_end r = u64 (res_start r + size - 1) /\
    (f_ioaddr f + size <= a + pci_resource_len demo_pci_env bar \/
     (Z.of_nat 1 = PORT_FEATURE_ID_UAFU /\ a + pci_resource_len demo_pci_env bar < f_ioaddr f)).
Proof.
  destruct probed_error_feature as (d & p & f & Hd & Hp & Hf & Hn).
  assert (forall bar, is_u64 (pci_resource_len demo_pci_env bar)) as Hlen.
  { intros bar. split; [discriminate | reflexivity]. }
  exists d, p, f.
  destruct (registered_features_placed demo_pci_env pci_start pci_probed Hlen eq_refl eq_refl eq_refl
    pci_probe_succeeds 1 d p 1%nat f Hd Hp Hf Hn) as (rs & r & bar & name & size & H).
  exists rs, r, bar, name, size. exact (conj Hd (conj Hp (conj Hf H))).
Defined.

(** ** What the walk does not check *)

(** The demo board with the last port's AFU 64 KB past the end of the BAR. *)
Definition escaping_start : pci_world unit unit mem_dev :=
  set_phw (<[0x110000 + 24 := fset feature_fiu_header_csr "next_afu" 0x20000 0]> (phw pci_start)) pci_start.

(** The size check of create_feature_instance subtracts unsigned: for an AFU
    past the end of the BAR it passes, and the probe registers a user AFU whose
    resource starts beyond the BAR. *)
Lemma next_afu_escapes_bar :
  exists w d rs,
    cci_pci_probe demo_pci_env escaping_start = Some (0, w) /\
    pdevs w !! 2 = Some d /\ dev_resource d = Some rs /\
    rs !! Z.to_nat PORT_FEATURE_ID_UAFU =
      Some (Res (0xf0000000 + 0x30000) (0xf0000000 + 0x30000 + 0xfff) (Some "port_uafu"%string)) /\
    pci_resource_len demo_pci_env 0 = 0x20000.
Proof.
  do 3 eexists. split; [vm_compute; reflexivity|]. split; [vm_compute; reflexivity|].
  split; [reflexivity|]. split; reflexivity.
Qed.

(** The demo kernel without memory for the second device. *)
Definition no_port_env : pci_env := {|
  pci_resource_start := pci_resource_start demo_pci_env;
  pci_resource_len := pci_resource_len demo_pci_env;
  pci_ioremap_bar := pci_ioremap_bar demo_pci_env;
  drvdata_alloc_ok := true; binfo_alloc_ok := true; region_alloc_ok _ := true;
  pdata_alloc_ok _ := true; resource_alloc_ok _ := true; ctx_alloc_ok _ _ := true;
  platform_device_alloc s := if decide (s = ∅) then Some 0 else None;
  idr_alloc s := fresh s;
  platform_device_add_ret _ := 0; create_parent_ret := 0;
  pci_msix_vec_count := 8; pci_irq_vector i := 100 + i;
  pci_enable_sriov_ret n := 0;
  pci_enable_device_ret := 0; pci_aer_ret := 0; pci_request_regions_ret := 0;
  dma_mask_64_ret := 0; dma_mask_32_ret := 0; pci_alloc_irq_vectors_ret := 8;
  dev_is_pf := true; others_close _ := 0;
|}.

(** parse_feature_fiu resets the port before it looks at the result of
    parse_feature_port: without memory for the port's device the probe does not
    return -ENOMEM, it dereferences the NULL feature_dev. *)
Lemma enable_port_uafu_null_deref : cci_pci_probe no_port_env pci_start = None.
Proof. vm_compute. reflexivity. Qed.
