(* ===== verification/FpgaMgr.v ===== *)
(** * The FPGA manager framework (fpga-mgr.c)

    The framework steps a low level driver through write_init, write and
    write_complete and records the step in the manager's state.  The low level
    driver is the interface [fpga_manager_ops]; the state it runs in is a
    parameter [S] that holds at most one manager, reached through [HasMgr].
    Device, module and IDA calls of the kernel are arguments; buffers are lists
    of bytes, a scatter list the list of its pieces. *)

From S2P Require Import Prelude.
From S2P Require Import Sysfs.

Inductive fpga_mgr_states :=
| FPGA_MGR_STATE_UNKNOWN | FPGA_MGR_STATE_POWER_OFF | FPGA_MGR_STATE_POWER_UP
| FPGA_MGR_STATE_RESET
| FPGA_MGR_STATE_FIRMWARE_REQ | FPGA_MGR_STATE_FIRMWARE_REQ_ERR
| FPGA_MGR_STATE_WRITE_INIT | FPGA_MGR_STATE_WRITE_INIT_ERR
| FPGA_MGR_STATE_WRITE | FPGA_MGR_STATE_WRITE_ERR
| FPGA_MGR_STATE_WRITE_COMPLETE | FPGA_MGR_STATE_WRITE_COMPLETE_ERR
| FPGA_MGR_STATE_OPERATING.

#[export] Instance fpga_mgr_states_eq_dec : EqDecision fpga_mgr_states.
Proof. solve_decision. Defined.

Definition FPGA_MGR_PARTIAL_RECONFIG : Z := 1.

Record fpga_image_info := ImageInfo {
  info_flags : Z;
  enable_timeout_us : Z;
  disable_timeout_us : Z;
  config_complete_timeout_us : Z;
}.

(** [struct fpga_manager]: its device is the id, whether it was added and the
    number of references; [owner_refs] counts the references on the module of
    the parent's driver. *)
Record fpga_manager := Mgr {
  mgr_name : string;
  mgr_id : Z;
  mgr_added : bool;
  mgr_refs : Z;
  ref_mutex : bool;
  mgr_state : fpga_mgr_states;
  owner_refs : Z;
}.

Definition set_mgr_added (v : bool) (m : fpga_manager) : fpga_manager :=
  Mgr (mgr_name m) (mgr_id m) v (mgr_refs m) (ref_mutex m) (mgr_state m) (owner_refs m).
Definition set_mgr_refs (v : Z) (m : fpga_manager) : fpga_manager :=
  Mgr (mgr_name m) (mgr_id m) (mgr_added m) v (ref_mutex m) (mgr_state m) (owner_refs m).
Definition set_ref_mutex (v : bool) (m : fpga_manager) : fpga_manager :=
  Mgr (mgr_name m) (mgr_id m) (mgr_added m) (mgr_refs m) v (mgr_state m) (owner_refs m).
Definition set_mgr_state (v : fpga_mgr_states) (m : fpga_manager) : fpga_manager :=
  Mgr (mgr_name m) (mgr_id m) (mgr_added m) (mgr_refs m) (ref_mutex m) v (owner_refs m).
Definition set_owner_refs (v : Z) (m : fpga_manager) : fpga_manager :=
  Mgr (mgr_name m) (mgr_id m) (mgr_added m) (mgr_refs m) (ref_mutex m) (mgr_state m) v.

(** The manager of a state, and the ids of fpga_mgr_ida in use. *)
Class HasMgr (S : Type) := {
  get_mgr : S -> option fpga_manager;
  set_mgr : option fpga_manager -> S -> S;
  get_ida : S -> gset Z;
  set_ida : gset Z -> S -> S;
}.

(** What the kernel answers. *)
Record mgr_env := MgrEnv {
  header_kmalloc_ok : bool;          (* the copy of the header *)
  mgr_kzalloc_ok : bool;
  pages_kmalloc_ok : bool;
  ida_simple_get : gset Z -> Z;
  dev_set_name_ret : Z;
  mgr_device_add_ret : Z;
  try_module_get : bool;
  page_lookup_ok : bool;             (* vmalloc_to_page, kmap_to_page *)
  sg_alloc_table_ret : Z;
  sg_pieces : list Z -> list (list Z);   (* the pieces sg_miter walks *)
  request_firmware : string -> Z + list Z;
}.

(** [struct fpga_manager_ops]; the framework refuses a driver without state,
    write_init or write_complete. *)
Record fpga_manager_ops (S : Type) := MgrOps {
  initial_header_size : Z;
  mops_state : option (K S fpga_mgr_states);
  mops_write_init : option (fpga_image_info -> list Z -> K S Z);
  mops_write : option (list Z -> K S Z);
  mops_write_sg : option (list (list Z) -> K S Z);
  mops_write_complete : option (fpga_image_info -> K S Z);
  mops_fpga_remove : option (K S unit);
}.
Arguments MgrOps {S}.
Arguments initial_header_size {S} f.
Arguments mops_state {S} f.
Arguments mops_write_init {S} f.
Arguments mops_write {S} f.
Arguments mops_write_sg {S} f.
Arguments mops_write_complete {S} f.
Arguments mops_fpga_remove {S} f.

Section Mgr.
Context {S : Type} {hm : HasMgr S}.
Variable env : mgr_env.
Variable mops : fpga_manager_ops S.

Definition the_mgr : K S fpga_manager := s <- kget ;; deref (get_mgr s).
Definition mod_mgr (f : fpga_manager -> fpga_manager) : K S unit :=
  m <- the_mgr ;; kmod (set_mgr (Some (f m))).
Definition set_state (st : fpga_mgr_states) : K S unit := mod_mgr (set_mgr_state st).

(** ** Loading an image *)

(** [min(initial_header_size, count)] bytes of the buffer. *)
Definition header_of (buf : list Z) : list Z := take (Z.to_nat (initial_header_size mops)) buf.

Definition fpga_mgr_write_init_buf (info : fpga_image_info) (buf : list Z) : K S Z :=
  set_state FPGA_MGR_STATE_WRITE_INIT ;;
  write_init <- deref (mops_write_init mops) ;;
  ret <- (if initial_header_size mops =? 0 then write_init info []
          else write_init info (header_of buf)) ;;
  if istrue ret then set_state FPGA_MGR_STATE_WRITE_INIT_ERR ;; kret ret else kret 0.

Definition fpga_mgr_write_init_sg (info : fpga_image_info) (sgt : list (list Z)) : K S Z :=
  if initial_header_size mops =? 0 then fpga_mgr_write_init_buf info []
  else
    match sgt with
    | first :: _ =>
        if initial_header_size mops <=? Z.of_nat (length first)
        then fpga_mgr_write_init_buf info first
        else if header_kmalloc_ok env
             then fpga_mgr_write_init_buf info (header_of (concat sgt))
             else kret (- ENOMEM)
    | [] =>
        if header_kmalloc_ok env then fpga_mgr_write_init_buf info [] else kret (- ENOMEM)
    end.

Definition fpga_mgr_write_complete (info : fpga_image_info) : K S Z :=
  set_state FPGA_MGR_STATE_WRITE_COMPLETE ;;
  write_complete <- deref (mops_write_complete mops) ;;
  ret <- write_complete info ;;
  if istrue ret then set_state FPGA_MGR_STATE_WRITE_COMPLETE_ERR ;; kret ret
  else set_state FPGA_MGR_STATE_OPERATING ;; kret 0.

(** The walk over the pieces that stops at the first error. *)
Fixpoint write_pieces (write : list Z -> K S Z) (l : list (list Z)) : K S Z :=
  match l with
  | [] => kret 0
  | p :: l => ret <- write p ;; if istrue ret then kret ret else write_pieces write l
  end.

(** The end of both loaders: an error of the write, or the completion. *)
Definition after_write (info : fpga_image_info) (ret : Z) : K S Z :=
  if istrue ret then set_state FPGA_MGR_STATE_WRITE_ERR ;; kret ret
  else fpga_mgr_write_complete info.

Definition fpga_mgr_buf_load_sg (info : fpga_image_info) (sgt : list (list Z)) : K S Z :=
  ret <- fpga_mgr_write_init_sg info sgt ;;
  if istrue ret then kret ret
  else
    set_state FPGA_MGR_STATE_WRITE ;;
    ret <- match mops_write_sg mops with
           | Some write_sg => write_sg sgt
           | None => write <- deref (mops_write mops) ;; write_pieces write sgt
           end ;;
    after_write info ret.

Definition fpga_mgr_buf_load_mapped (info : fpga_image_info) (buf : list Z) : K S Z :=
  ret <- fpga_mgr_write_init_buf info buf ;;
  if istrue ret then kret ret
  else
    set_state FPGA_MGR_STATE_WRITE ;;
    write <- deref (mops_write mops) ;;
    ret <- write buf ;;
    after_write info ret.

Definition fpga_mgr_buf_load (info : fpga_image_info) (buf : list Z) : K S Z :=
  match mops_write mops with
  | Some _ => fpga_mgr_buf_load_mapped info buf
  | None =>
      if negb (pages_kmalloc_ok env) then kret (- ENOMEM)
      else if negb (page_lookup_ok env) then kret (- EFAULT)
      else if istrue (sg_alloc_table_ret env) then kret (sg_alloc_table_ret env)
      else fpga_mgr_buf_load_sg info (sg_pieces env buf)
  end.

Definition fpga_mgr_firmware_load (info : fpga_image_info) (image_name : string) : K S Z :=
  set_state FPGA_MGR_STATE_FIRMWARE_REQ ;;
  match request_firmware env image_name with
  | inl ret => set_state FPGA_MGR_STATE_FIRMWARE_REQ_ERR ;; kret ret
  | inr fw => fpga_mgr_buf_load info fw
  end.

(** ** Attributes *)

Definition state_str (st : fpga_mgr_states) : string :=
  match st with
  | FPGA_MGR_STATE_UNKNOWN => "unknown"
  | FPGA_MGR_STATE_POWER_OFF => "power off"
  | FPGA_MGR_STATE_POWER_UP => "power up"
  | FPGA_MGR_STATE_RESET => "reset"
  | FPGA_MGR_STATE_FIRMWARE_REQ => "firmware request"
  | FPGA_MGR_STATE_FIRMWARE_REQ_ERR => "firmware request error"
  | FPGA_MGR_STATE_WRITE_INIT => "write init"
  | FPGA_MGR_STATE_WRITE_INIT_ERR => "write init error"
  | FPGA_MGR_STATE_WRITE => "write"
  | FPGA_MGR_STATE_WRITE_ERR => "write error"
  | FPGA_MGR_STATE_WRITE_COMPLETE => "write complete"
  | FPGA_MGR_STATE_WRITE_COMPLETE_ERR => "write complete error"
  | FPGA_MGR_STATE_OPERATING => "operating"
  end.

Definition name_show : K S string := m <- the_mgr ;; kret (mgr_name m ++ newline)%string.
Definition state_show : K S string :=
  m <- the_mgr ;; kret (state_str (mgr_state m) ++ newline)%string.

(** ** References *)

(** put_device: the last reference runs fpga_mgr_dev_release. *)
Definition fpga_mgr_dev_release : K S unit :=
  m <- the_mgr ;;
  kmod (fun s => set_ida (get_ida s ∖ {[mgr_id m]}) s) ;;
  kmod (set_mgr None).

Definition put_mgr_device : K S unit :=
  m <- the_mgr ;;
  if mgr_refs m =? 1 then fpga_mgr_dev_release else mod_mgr (set_mgr_refs (mgr_refs m - 1)).

(** The manager, or a negative errno; the device it was found by is
    referenced already. *)
Definition __fpga_mgr_get : K S Z :=
  m <- the_mgr ;;
  if ref_mutex m then put_mgr_device ;; kret (- EBUSY)
  else
    mod_mgr (set_ref_mutex true) ;;
    if try_module_get env then
      mod_mgr (fun m => set_owner_refs (owner_refs m + 1) m) ;; kret 0
    else
      mod_mgr (set_ref_mutex false) ;; put_mgr_device ;; kret (- ENODEV).

Definition fpga_mgr_get : K S Z :=
  s <- kget ;;
  match get_mgr s with
  | Some m =>
      if mgr_added m then
        mod_mgr (set_mgr_refs (mgr_refs m + 1)) ;; __fpga_mgr_get
      else kret (- ENODEV)
  | None => kret (- ENODEV)
  end.

(** [same_node]: the manager's device has the node that is looked for. *)
Definition of_fpga_mgr_get (same_node : bool) : K S Z :=
  s <- kget ;;
  match get_mgr s with
  | Some m =>
      if mgr_added m && same_node then
        mod_mgr (set_mgr_refs (mgr_refs m + 1)) ;; __fpga_mgr_get
      else kret (- ENODEV)
  | None => kret (- ENODEV)
  end.

Definition fpga_mgr_put : K S unit :=
  mod_mgr (fun m => set_owner_refs (owner_refs m - 1) m) ;;
  mod_mgr (set_ref_mutex false) ;;
  put_mgr_device.

(** ** Registration *)

Definition mops_complete : bool :=
  match mops_write_complete mops, mops_state mops, mops_write_init mops with
  | Some _, Some _, Some _ =>
      match mops_write mops, mops_write_sg mops with
      | Some _, None | None, Some _ => true
      | _, _ => false
      end
  | _, _, _ => false
  end.

(** error_device: the id is given back and the manager freed. *)
Definition error_device (id ret : Z) : K S Z :=
  kmod (fun s => set_ida (get_ida s ∖ {[id]}) s) ;; kmod (set_mgr None) ;; kret ret.

Definition fpga_mgr_register (name : string) : K S Z :=
  if negb mops_complete then kret (- EINVAL)
  else if String.eqb name "" then kret (- EINVAL)
  else if negb (mgr_kzalloc_ok env) then kret (- ENOMEM)
  else
    s <- kget ;;
    let id := ida_simple_get env (get_ida s) in
    if id <? 0 then kret id
    else
      kmod (set_ida ({[id]} ∪ get_ida s)) ;;
      kmod (set_mgr (Some (Mgr name id false 1 false FPGA_MGR_STATE_UNKNOWN 0))) ;;
      state <- deref (mops_state mops) ;;
      st <- state ;;
      set_state st ;;
      if istrue (dev_set_name_ret env) then error_device id (dev_set_name_ret env)
      else if istrue (mgr_device_add_ret env) then error_device id (mgr_device_add_ret env)
      else mod_mgr (set_mgr_added true) ;; kret 0.

(** device_unregister drops the reference of the registration. *)
Definition fpga_mgr_unregister : K S unit :=
  the_mgr ;;
  match mops_fpga_remove mops with Some fpga_remove => fpga_remove | None => kret tt end ;;
  mod_mgr (set_mgr_added false) ;;
  put_mgr_device.
End Mgr.

(** ** The two loaders agree *)

(** The law of a low level driver that does not care how an image is cut:
    writing two pieces one after the other, stopping at an error, is writing
    them at once. *)
Class Streaming {S} (write : list Z -> K S Z) : Prop := {
  write_nil : forall s, write [] s = Some (0, s);
  write_app : forall a b s,
    write (a ++ b) s = (ret <- write a ;; if istrue ret then kret ret else write b) s;
}.

(** The same driver with a scatter list write instead of a buffer write. *)
Definition as_sg {S} (mops : fpga_manager_ops S) (write : list Z -> K S Z) : fpga_manager_ops S :=
  MgrOps (initial_header_size mops) (mops_state mops) (mops_write_init mops) None
    (Some (write_pieces write)) (mops_write_complete mops) (mops_fpga_remove mops).

Section Agree.
Context {S : Type} {hm : HasMgr S} {write : list Z -> K S Z} {st : Streaming write}.
Variable env : mgr_env.

Lemma write_pieces_concat l s : write_pieces write l s = write (concat l) s.
Proof.
  revert s. induction l as [|p l IH]; intros s; simpl; [by rewrite write_nil|].
  rewrite write_app. simpl. destruct (write p s) as [[r s1]|]; [|done].
  by destruct (istrue r).
Qed.

(** The header the driver sees depends on the bytes only. *)
Lemma write_init_buf_header (mops : fpga_manager_ops S) info b1 b2 s :
  initial_header_size mops = 0 \/ header_of mops b1 = header_of mops b2 ->
  fpga_mgr_write_init_buf mops info b1 s = fpga_mgr_write_init_buf mops info b2 s.
Proof.
  intros H. unfold fpga_mgr_write_init_buf. destruct (Z.eqb_spec (initial_header_size mops) 0) as [|Hn]; [done|].
  destruct H as [H|H]; [done|]. by rewrite H.
Qed.

Lemma write_init_sg_buf (mops : fpga_manager_ops S) info l s :
  header_kmalloc_ok env = true ->
  fpga_mgr_write_init_sg env mops info l s = fpga_mgr_write_init_buf mops info (concat l) s.
Proof.
  intros Hk. unfold fpga_mgr_write_init_sg. rewrite Hk.
  destruct (Z.eqb_spec (initial_header_size mops) 0) as [E|E]; [apply write_init_buf_header; by left|].
  destruct l as [|p l]; [done|].
  destruct (Z.leb_spec (initial_header_size mops) (Z.of_nat (length p))) as [Hp|Hp];
    apply write_init_buf_header; right; unfold header_of; simpl.
  - by rewrite take_app_le by lia.
  - by rewrite take_take, Nat.min_id.
Qed.

Lemma load_pieces (mops : fpga_manager_ops S) info l s :
  header_kmalloc_ok env = true ->
  (ret <- fpga_mgr_write_init_sg env mops info l ;;
   if istrue ret then kret ret
   else set_state FPGA_MGR_STATE_WRITE ;;
        ret <- write_pieces write l ;;
        after_write mops info ret) s =
  (ret <- fpga_mgr_write_init_buf mops info (concat l) ;;
   if istrue ret then kret ret
   else set_state FPGA_MGR_STATE_WRITE ;;
        ret <- write (concat l) ;;
        after_write mops info ret) s.
Proof.
  intros Hk. unfold kbind. rewrite write_init_sg_buf by done.
  destruct (fpga_mgr_write_init_buf mops info (concat l) s) as [[r s1]|]; [|done].
  destruct (istrue r); [done|].
  destruct (set_state FPGA_MGR_STATE_WRITE s1) as [[[] s2]|]; [|done].
  by rewrite write_pieces_concat.
Qed.
End Agree.

(** C36: loading an image does not depend on how it is cut.  For every low level
    driver whose write is a stream, fpga_mgr_buf_load_sg on a scatter list does
    exactly what fpga_mgr_buf_load does on the concatenated buffer, in result,
    manager state and effect on the device, whatever the pieces and the size
    of the header the driver asks for; and a driver that offers write_sg
    instead of write gets the same image from fpga_mgr_buf_load. *)
Theorem fpga_mgr_loaders_agree {S} {hm : HasMgr S} {write : list Z -> K S Z} {str : Streaming write}
    env mops info l buf (s : S) :
  mops_write mops = Some write -> mops_write_sg mops = None ->
  header_kmalloc_ok env = true -> pages_kmalloc_ok env = true -> page_lookup_ok env = true ->
  sg_alloc_table_ret env = 0 -> concat (sg_pieces env buf) = buf ->
  fpga_mgr_buf_load_sg env mops info l s = fpga_mgr_buf_load env mops info (concat l) s /\
  fpga_mgr_buf_load env (as_sg mops write) info buf s = fpga_mgr_buf_load env mops info buf s.
Proof.
  intros Hw Hsg Hk Hp Hl Ht Hc. unfold fpga_mgr_buf_load. rewrite Hw. cbn [mops_write as_sg].
  rewrite Hp, Hl, Ht. cbn [negb]. change (istrue 0) with false. cbn iota.
  unfold fpga_mgr_buf_load_mapped, fpga_mgr_buf_load_sg. rewrite Hw, Hsg. cbn [deref]. split.
  - etransitivity; [exact (load_pieces env mops info l s Hk) | done].
  - etransitivity; [exact (load_pieces env (as_sg mops write) info (sg_pieces env buf) s Hk)|].
    by rewrite Hc.
Qed.

(** A driver that appends what it is given to a log and refuses a byte 255. *)
Record log_state := LogState { log_mgr : option fpga_manager; log_ida : gset Z; log_bytes : list Z }.
#[export] Instance log_has_mgr : HasMgr log_state := {|
  get_mgr := log_mgr;
  set_mgr m s := LogState m (log_ida s) (log_bytes s);
  get_ida := log_ida;
  set_ida i s := LogState (log_mgr s) i (log_bytes s);
|}.

Fixpoint log_write (buf : list Z) : K log_state Z :=
  match buf with
  | [] => kret 0
  | b :: buf =>
      if b =? 255 then kret (- EIO)
      else kmod (fun s => LogState (log_mgr s) (log_ida s) (log_bytes s ++ [b])) ;; log_write buf
  end.

#[export] Instance log_streaming : Streaming log_write.
Proof.
  split; [done|]. intros a b s. revert s. induction a as [|x a IH]; intros s; [done|].
  cbn [log_write app]. unfold kbind. destruct (x =? 255); [done|]. apply IH.
Qed.

Definition log_ops : fpga_manager_ops log_state :=
  MgrOps 2 (Some (kret FPGA_MGR_STATE_UNKNOWN))
    (Some (fun _ hdr => if bool_decide (hdr = [1; 2]) then kret 0 else kret (- EINVAL))) (Some log_write) None
    (Some (fun _ => kret 0)) None.

Definition demo_mgr_env : mgr_env :=
  MgrEnv true true true (fun s => fresh s) 0 0 true true 0 (fun b => [take 3 b; drop 3 b])
    (fun _ => inl (- EIO)).
Definition log_start : log_state := 
  LogState (Some (Mgr "demo" 0 true 1 false FPGA_MGR_STATE_UNKNOWN 0)) {[0]} [].

Lemma fpga_mgr_loaders_agree_witness :
  fpga_mgr_buf_load_sg demo_mgr_env log_ops (ImageInfo 0 0 0 0) [[1]; [2; 3]; [4]] log_start =
    fpga_mgr_buf_load demo_mgr_env log_ops (ImageInfo 0 0 0 0) [1; 2; 3; 4] log_start /\
  fpga_mgr_buf_load demo_mgr_env (as_sg log_ops log_write) (ImageInfo 0 0 0 0) [1; 2; 3; 4] log_start =
    fpga_mgr_buf_load demo_mgr_env log_ops (ImageInfo 0 0 0 0) [1; 2; 3; 4] log_start /\
  option_map (fun r => (fst r, log_bytes (snd r), mgr_state <$> log_mgr (snd r)))
    (fpga_mgr_buf_load demo_mgr_env log_ops (ImageInfo 0 0 0 0) [1; 2; 3; 4] log_start) =
    Some (0, [1; 2; 3; 4], Some FPGA_MGR_STATE_OPERATING).
Proof.
  destruct (fpga_mgr_loaders_agree (write := log_write) demo_mgr_env log_ops (ImageInfo 0 0 0 0)
    [[1]; [2; 3]; [4]] [1; 2; 3; 4] log_start eq_refl eq_refl eq_refl eq_refl eq_refl eq_refl eq_refl)
    as [H1 H2].
  split; [exact H1 | split; [exact H2 | vm_compute; reflexivity]].
Defined.
