(* ===== verification/FmeTypes.v ===== *)
(** * The FPGA management engine's data (fme.h)

    The private data of the FME driver, the surroundings it runs in and the
    operations every part of it shares.  Below the FME's registers lies the
    FPGA manager framework: [fme_hw] is the hardware together with the manager
    the driver registers.  The partial reconfiguration unit also takes 64-byte
    stores, which the class [Mmio512] adds to [Mmio]. *)

From stdpp Require Import gmultiset.
From S2P Require Import Prelude.
From S2P Require Import Bitfield.
From S2P Require Import Registers.
From S2P Require Import Mmio.
From S2P Require Import UserMem.
From S2P Require Import Sysfs.
From S2P Require Import FeatureDev.
From S2P Require Import Msix.
From S2P Require Import AfuTypes.
From S2P Require Import DmaRegion.
From S2P Require Import PortEnv.
From S2P Require Import FpgaMgr.
Local Open Scope string_scope.
Local Open Scope Z_scope.

(** [struct perf_object]: the instance id, the path of its kobject, the files
    of its attribute groups and the objects below it. *)
Inductive perf_object :=
| PerfObject (pobj_id : Z) (pobj_path : string) (pobj_files : list string)
    (pobj_children : list perf_object).

Definition pobj_id (o : perf_object) : Z := let 'PerfObject i _ _ _ := o in i.
Definition pobj_path (o : perf_object) : string := let 'PerfObject _ p _ _ := o in p.
Definition pobj_files (o : perf_object) : list string := let 'PerfObject _ _ f _ := o in f.
Definition pobj_children (o : perf_object) : list perf_object := let 'PerfObject _ _ _ c := o in c.

(** [~0] in the [int id] of an object. *)
Definition PERF_OBJ_ROOT_ID : Z := -1.

(** [struct fpga_fme], without the back pointer [pdata]; [dev_err] is whether
    the errors device exists. *)
Record fpga_fme := FpgaFme {
  fme_port_id : Z;
  pr_err : Z;
  fme_capability : Z;
  pr_bandwidth : Z;
  pr_avx512 : bool;
  dev_err : bool;
  iperf_dev : option perf_object;
  dperf_dev : option perf_object;
}.

Definition set_fme_port_id (v : Z) (f : fpga_fme) : fpga_fme :=
  FpgaFme v (pr_err f) (fme_capability f) (pr_bandwidth f) (pr_avx512 f) (dev_err f) (iperf_dev f) (dperf_dev f).
Definition set_pr_err (v : Z) (f : fpga_fme) : fpga_fme :=
  FpgaFme (fme_port_id f) v (fme_capability f) (pr_bandwidth f) (pr_avx512 f) (dev_err f) (iperf_dev f) (dperf_dev f).
Definition set_fme_capability (v : Z) (f : fpga_fme) : fpga_fme :=
  FpgaFme (fme_port_id f) (pr_err f) v (pr_bandwidth f) (pr_avx512 f) (dev_err f) (iperf_dev f) (dperf_dev f).
Definition set_pr_mode (bandwidth : Z) (avx512 : bool) (f : fpga_fme) : fpga_fme :=
  FpgaFme (fme_port_id f) (pr_err f) (fme_capability f) bandwidth avx512 (dev_err f) (iperf_dev f) (dperf_dev f).
Definition set_dev_err (v : bool) (f : fpga_fme) : fpga_fme :=
  FpgaFme (fme_port_id f) (pr_err f) (fme_capability f) (pr_bandwidth f) (pr_avx512 f) v (iperf_dev f) (dperf_dev f).
Definition set_iperf_dev (v : option perf_object) (f : fpga_fme) : fpga_fme :=
  FpgaFme (fme_port_id f) (pr_err f) (fme_capability f) (pr_bandwidth f) (pr_avx512 f) (dev_err f) v (dperf_dev f).
Definition set_dperf_dev (v : option perf_object) (f : fpga_fme) : fpga_fme :=
  FpgaFme (fme_port_id f) (pr_err f) (fme_capability f) (pr_bandwidth f) (pr_avx512 f) (dev_err f) (iperf_dev f) v.

(** ** The hardware and the manager *)

Class Mmio512 (D : Type) := dev_copy512 : list Z -> Z -> D -> D.

Record fme_hw (D : Type) := FmeHw { fhw : D; fmgr : option fpga_manager; fida : gset Z }.
Arguments FmeHw {D} fhw fmgr fida.
Arguments fhw {D} f.
Arguments fmgr {D} f.
Arguments fida {D} f.

#[export] Instance fme_hw_mmio {D} `{Mmio D} : Mmio (fme_hw D) := {|
  dev_readq a w := let r := dev_readq a (fhw w) in (fst r, FmeHw (snd r) (fmgr w) (fida w));
  dev_writeq a v w := FmeHw (dev_writeq a v (fhw w)) (fmgr w) (fida w);
|}.

#[export] Instance fme_hw_ok {D} `{MmioOk D} : MmioOk (fme_hw D).
Proof. constructor. intros a w. simpl. apply readq_u64. Qed.

#[export] Instance fme_hw_reg {D} `{MmioReg D} : MmioReg (fme_hw D).
Proof.
  constructor; simpl.
  - intros a [h m i]; simpl. by rewrite mem_read_pure.
  - intros a b v [h m i] Hne; simpl. by apply mem_write_other.
Qed.

#[export] Instance fme_hw_mem {D} `{MmioMem D} : MmioMem (fme_hw D).
Proof. constructor; [apply _|]. intros a v [h m i] Hv; simpl. by apply mem_write_same. Qed.

(** ** The kernel's answers, beyond those of [port_env] *)

Record fme_env := FmeEnv {
  pe : port_env;
  mgre : mgr_env;
  err_kzalloc_ok : bool;                 (* the errors device *)
  device_register_ret : Z;
  pobj_kzalloc_ok : string -> bool;      (* of a performance object *)
  kobject_add_ret : string -> Z;
  pr_vzalloc_ok : Z -> bool;
  access_ok : Z -> Z -> bool;
}.

(** strtobool: a value, or an error. *)
Class Strtobool := strtobool : string -> option bool.

Section Fme.
Context {Op D : Type} {dev : Mmio D}.
Abbreviation fme := (platform_device Op fpga_fme (afu_world (fme_hw D))).

(** The private data; a NULL pointer is an oops. *)
Definition get_fme : K fme fpga_fme := f <- on_pd fpga_pdata_get_private ;; deref f.
Definition mod_fme (f : fpga_fme -> fpga_fme) : K fme unit :=
  x <- get_fme ;; on_pd (fpga_pdata_set_private (Some (f x))).

Lemma get_fme_run (q : fme) f : private (pd q) = Some f -> get_fme q = Some (f, q).
Proof. intros Hf. unfold get_fme. simpl. rewrite Hf. by destruct q. Qed.

Lemma mod_fme_run (q : fme) f g :
  private (pd q) = Some f -> mod_fme g q = Some (tt, set_pd (set_private (Some (g f)) (pd q)) q).
Proof. intros Hf. unfold mod_fme. by rewrite (kbind_run _ _ _ _ _ (get_fme_run q f Hf)). Qed.

(** A field of a register, printed as [%d] or [0x%x]. *)
Definition show_d (i : Z) (b : block) (member : string) (r : reg) (field : string) : K fme string :=
  csr <- plain_readq i b member ;; kret (line_d (fget r field csr)).
Definition show_x (i : Z) (b : block) (member : string) (r : reg) (field : string) : K fme string :=
  csr <- plain_readq i b member ;; kret (line_0x (fget r field csr)).
(** A whole register. *)
Definition show_csr (i : Z) (b : block) (member : string) : K fme string :=
  csr <- plain_readq i b member ;; kret (line_0x csr).
End Fme.

(** The manager of the FME's device. *)
#[export] Instance fme_has_mgr {Op D} : HasMgr (platform_device Op fpga_fme (afu_world (fme_hw D))) := {|
  get_mgr q := fmgr (hw (io q));
  set_mgr m q := set_io (World (FmeHw (fhw (hw (io q))) m (fida (hw (io q))))
    (mm (io q)) (irqw (io q)) (kobj (io q)) (usr (io q))) q;
  get_ida q := fida (hw (io q));
  set_ida s q := set_io (World (FmeHw (fhw (hw (io q))) (fmgr (hw (io q))) s)
    (mm (io q)) (irqw (io q)) (kobj (io q)) (usr (io q))) q;
|}.
