(* ===== verification/FmeAttrs.v ===== *)
(** * The FME header, thermal, power and memory features (fme-main.c)

    The sysfs attributes of the FME and the init and uinit callbacks of the
    features that only have attributes or a sub device. *)

From stdpp Require Import gmultiset.
From S2P Require Import Prelude.
From S2P Require Import Bitfield.
From S2P Require Import Registers.
From S2P Require Import Mmio.
From S2P Require Import UserMem.
From S2P Require Import Sysfs.
From S2P Require Import FeatureDev.
From S2P Require Import Msix.
From S2P Require Import AfuTypes.
From S2P Require Import DmaRegion.
From S2P Require Import PortEnv.
From S2P Require Import FpgaMgr.
From S2P Require Import FmeTypes.
Local Open Scope string_scope.
Local Open Scope Z_scope.

Definition PWR_THRESHOLD_MAX : Z := 0x7F.
Definition FLASH_CAP_OFT : Z := 8.
Definition EMIF_CLEAR_MASK : Z := 0x3.
Definition ALTERA_ASMIP2_DRV_NAME : string := "altr-asmip2".
Definition PAC_HSSI_DRV_NAME : string := "intel-pac-hssi".
Definition AVMMI_BMC_DRV_NAME : string := "avmmi-bmc".

Section FmeAttrs.
Context {Op D : Type} {dev : Mmio D} {ks : Kstrto}.
Variable env : fme_env.
Abbreviation fme := (platform_device Op fpga_fme (afu_world (fme_hw D))).

(** ** Header *)

Definition fme_revision_show : K fme string :=
  show_d FME_FEATURE_ID_HEADER feature_fme_header "header" feature_header "revision".
Definition ports_num_show : K fme string :=
  show_d FME_FEATURE_ID_HEADER feature_fme_header "capability" feature_fme_capability "num_ports".
Definition cache_size_show : K fme string :=
  show_d FME_FEATURE_ID_HEADER feature_fme_header "capability" feature_fme_capability "cache_size".
Definition version_show : K fme string :=
  show_d FME_FEATURE_ID_HEADER feature_fme_header "capability" feature_fme_capability "fabric_verid".
Definition socket_id_show : K fme string :=
  show_d FME_FEATURE_ID_HEADER feature_fme_header "capability" feature_fme_capability "socket_id".
Definition bitstream_id_show : K fme string :=
  show_csr FME_FEATURE_ID_HEADER feature_fme_header "bitstream_id".
Definition bitstream_metadata_show : K fme string :=
  show_csr FME_FEATURE_ID_HEADER feature_fme_header "bitstream_md".

Definition fme_hdr_attrs : list string :=
  ["revision"; "ports_num"; "cache_size"; "version"; "socket_id"; "bitstream_id";
   "bitstream_metadata"].

Definition fme_hdr_init (i : Z) : K fme Z :=
  f <- on_pd (get_feature i) ;;
  mmio_readq (f_ioaddr f) (offsetof feature_fme_header "capability") ;;
  sysfs_create_files (pe env) fme_hdr_attrs.

Definition fme_hdr_uinit : K fme unit := sysfs_remove_files fme_hdr_attrs.

(** ** Thermal management *)

Definition thermal_revision_show : K fme string :=
  show_d FME_FEATURE_ID_THERMAL_MGMT feature_fme_thermal "header" feature_header "revision".

Definition show_threshold (field : string) : K fme string :=
  show_d FME_FEATURE_ID_THERMAL_MGMT feature_fme_thermal "threshold" feature_fme_tmp_threshold field.

Definition thermal_threshold1_show : K fme string := show_threshold "tmp_thshold1".
Definition thermal_threshold2_show : K fme string := show_threshold "tmp_thshold2".
Definition thermal_threshold_trip_show : K fme string := show_threshold "therm_trip_thshold".
Definition thermal_threshold1_reached_show : K fme string := show_threshold "thshold1_status".
Definition thermal_threshold2_reached_show : K fme string := show_threshold "thshold2_status".
Definition thermal_threshold1_policy_show : K fme string := show_threshold "thshold_policy".

(** [mutex_unlock(&pdata->lock); return ret;] *)
Definition unlock_ret (ret : Z) : K fme Z := on_pd mutex_unlock ;; kret ret.

(** The store of a temperature threshold: [th] its field, [en] the field that
    enables it. *)
Definition thermal_threshold_store (th en : string) (buf : string) (count : Z) : K fme Z :=
  fme_thermal <- on_pd (get_feature_ioaddr_by_index FME_FEATURE_ID_THERMAL_MGMT) ;;
  fme_hdr <- on_pd (get_feature_ioaddr_by_index FME_FEATURE_ID_HEADER) ;;
  on_pd mutex_lock ;;
  tmp_threshold <- mmio_readq fme_thermal (offsetof feature_fme_thermal "threshold") ;;
  match kstrtou8 buf with
  | inl err => unlock_ret err
  | inr v =>
      csr <- mmio_readq fme_hdr (offsetof feature_fme_header "capability") ;;
      if fget feature_fme_capability "lock_bit" csr =? 1 then unlock_ret (- EBUSY)
      else if 100 <? v then unlock_ret (- EINVAL)
      else
        mmio_writeq
          (fset feature_fme_tmp_threshold th v
            (fset feature_fme_tmp_threshold en (if v =? 0 then 0 else 1) tmp_threshold))
          fme_thermal (offsetof feature_fme_thermal "threshold") ;;
        unlock_ret count
  end.

Definition thermal_threshold1_store := thermal_threshold_store "tmp_thshold1" "tmp_thshold1_enable".
Definition thermal_threshold2_store := thermal_threshold_store "tmp_thshold2" "tmp_thshold2_enable".

Definition thermal_threshold1_policy_store (buf : string) (count : Z) : K fme Z :=
  fme_thermal <- on_pd (get_feature_ioaddr_by_index FME_FEATURE_ID_THERMAL_MGMT) ;;
  on_pd mutex_lock ;;
  tmp_threshold <- mmio_readq fme_thermal (offsetof feature_fme_thermal "threshold") ;;
  match kstrtou8 buf with
  | inl err => unlock_ret err
  | inr v =>
      if (v =? 0) || (v =? 1) then
        mmio_writeq (fset feature_fme_tmp_threshold "thshold_policy" v tmp_threshold)
          fme_thermal (offsetof feature_fme_thermal "threshold") ;;
        unlock_ret count
      else unlock_ret (- EINVAL)
  end.

Definition thermal_temperature_show : K fme string :=
  show_d FME_FEATURE_ID_THERMAL_MGMT feature_fme_thermal "rdsensor_fm1"
    feature_fme_temp_rdsensor_fmt1 "fpga_temp".

Definition thermal_mgmt_attrs : list string := ["thermal_mgmt/revision"; "thermal_mgmt/temperature"].
Definition thermal_threshold_attrs : list string :=
  ["thermal_mgmt/threshold1"; "thermal_mgmt/threshold2"; "thermal_mgmt/threshold_trip";
   "thermal_mgmt/threshold1_reached"; "thermal_mgmt/threshold2_reached";
   "thermal_mgmt/threshold1_policy"].

Definition thermal_mgmt_init : K fme Z :=
  thermal_cap <- plain_readq FME_FEATURE_ID_THERMAL_MGMT feature_fme_thermal "threshold_cap" ;;
  ret <- sysfs_create_files (pe env) thermal_mgmt_attrs ;;
  if istrue ret then kret ret
  else if istrue (fget feature_fme_tmp_threshold_cap "tmp_thshold_disabled" thermal_cap) then kret 0
  else
    ret <- sysfs_create_files (pe env) thermal_threshold_attrs ;;
    if istrue ret then sysfs_remove_files thermal_mgmt_attrs ;; kret ret else kret 0.

Definition thermal_mgmt_uinit : K fme unit :=
  sysfs_remove_files thermal_threshold_attrs ;; sysfs_remove_files thermal_mgmt_attrs.

(** ** Power management *)

Definition pwr_revision_show : K fme string :=
  show_d FME_FEATURE_ID_POWER_MGMT feature_fme_power "header" feature_header "revision".
Definition consumed_show : K fme string :=
  show_x FME_FEATURE_ID_POWER_MGMT feature_fme_power "status" feature_fme_pm_status "pwr_consumed".
Definition pwr_threshold1_show : K fme string :=
  show_x FME_FEATURE_ID_POWER_MGMT feature_fme_power "threshold" feature_fme_pm_ap_threshold "threshold1".
Definition pwr_threshold2_show : K fme string :=
  show_x FME_FEATURE_ID_POWER_MGMT feature_fme_power "threshold" feature_fme_pm_ap_threshold "threshold2".
Definition threshold1_status_show : K fme string :=
  show_d FME_FEATURE_ID_POWER_MGMT feature_fme_power "threshold" feature_fme_pm_ap_threshold "threshold1_status".
Definition threshold2_status_show : K fme string :=
  show_d FME_FEATURE_ID_POWER_MGMT feature_fme_power "threshold" feature_fme_pm_ap_threshold "threshold2_status".
Definition rtl_show : K fme string :=
  show_d FME_FEATURE_ID_POWER_MGMT feature_fme_power "status" feature_fme_pm_status "fpga_latency_report".

Definition pwr_threshold_store (th : string) (buf : string) (count : Z) : K fme Z :=
  fme_power <- on_pd (get_feature_ioaddr_by_index FME_FEATURE_ID_POWER_MGMT) ;;
  on_pd mutex_lock ;;
  pm_ap_threshold <- mmio_readq fme_power (offsetof feature_fme_power "threshold") ;;
  match kstrtou8 buf with
  | inl err => unlock_ret err
  | inr v =>
      if v <=? PWR_THRESHOLD_MAX then
        mmio_writeq (fset feature_fme_pm_ap_threshold th v pm_ap_threshold)
          fme_power (offsetof feature_fme_power "threshold") ;;
        unlock_ret count
      else unlock_ret (- EINVAL)
  end.

Definition pwr_threshold1_store := pwr_threshold_store "threshold1".
Definition pwr_threshold2_store := pwr_threshold_store "threshold2".

(** A limit that is not enabled reads as 0. *)
Definition show_limit (member : string) (r : reg) : K fme string :=
  csr <- plain_readq FME_FEATURE_ID_POWER_MGMT feature_fme_power member ;;
  kret (line_d (if istrue (fget r "enable" csr) then fget r "pwr_limit" csr else 0)).
Definition xeon_limit_show : K fme string := show_limit "xeon_limit" feature_fme_pm_xeon_limit.
Definition fpga_limit_show : K fme string := show_limit "fpga_limit" feature_fme_pm_fpga_limit.

Definition power_mgmt_attrs : list string :=
  ["power_mgmt/revision"; "power_mgmt/consumed"; "power_mgmt/threshold1"; "power_mgmt/threshold2";
   "power_mgmt/threshold1_status"; "power_mgmt/threshold2_status"; "power_mgmt/xeon_limit";
   "power_mgmt/fpga_limit"; "power_mgmt/rtl"].

Definition power_mgmt_init : K fme Z := sysfs_create_files (pe env) power_mgmt_attrs.
Definition power_mgmt_uinit : K fme unit := sysfs_remove_files power_mgmt_attrs.

(** ** External memory interface *)

Definition emif_active_show : K fme string :=
  show_d FME_FEATURE_ID_EMIF_MGMT feature_fme_emif "status" feature_fme_emif_status "active".
Definition emif_cal_fail_show : K fme string :=
  show_d FME_FEATURE_ID_EMIF_MGMT feature_fme_emif "status" feature_fme_emif_status "cal_failure".
Definition emif_complete_show : K fme string :=
  show_d FME_FEATURE_ID_EMIF_MGMT feature_fme_emif "status" feature_fme_emif_status "complete".

Definition emif_clear_store (buf : string) (count : Z) : K fme Z :=
  fme_emif <- on_pd (get_feature_ioaddr_by_index FME_FEATURE_ID_EMIF_MGMT) ;;
  match kstrtou8 buf with
  | inl err => kret err
  | inr clear_bits =>
      if istrue (Z.land clear_bits (Z.lnot EMIF_CLEAR_MASK)) then kret (- EINVAL)
      else
        mmio_writeq (fset feature_fme_emif_control "clear" clear_bits 0)
          fme_emif (offsetof feature_fme_emif "control") ;;
        kret count
  end.

Definition emif_attrs : list string :=
  ["emif_mgmt/active"; "emif_mgmt/calibration_failure"; "emif_mgmt/complete"; "emif_mgmt/clear"].
Definition emif_init : K fme Z := sysfs_create_files (pe env) emif_attrs.
Definition emif_uinit : K fme unit := sysfs_remove_files emif_attrs.

(** ** Features with a sub device *)

Definition subdev_init (i : Z) (name : string) (csr_base : Z) : K fme Z :=
  subdev <- feature_create_subdev (pe env) name csr_base ;;
  if subdev <? 0 then kret subdev
  else on_pd (feature_set_priv i (Some subdev)) ;; kret 0.

Definition subdev_uinit (i : Z) : K fme unit :=
  subdev <- on_pd (feature_get_priv i) ;;
  feature_destroy_subdev subdev ;;
  on_pd (feature_set_priv i None).

Definition qspi_flash_init (i : Z) : K fme Z :=
  f <- on_pd (get_feature i) ;;
  mmio_readq (f_ioaddr f) FLASH_CAP_OFT ;;
  subdev_init i ALTERA_ASMIP2_DRV_NAME (f_ioaddr f + FLASH_CAP_OFT).
Definition qspi_flash_uinit (i : Z) : K fme unit := subdev_uinit i.

Definition pac_hssi_mgmt_init (i : Z) : K fme Z :=
  f <- on_pd (get_feature i) ;;
  subdev_init i PAC_HSSI_DRV_NAME (f_ioaddr f + sizeof_reg feature_header).
Definition pac_hssi_mgmt_uinit (i : Z) : K fme unit := subdev_uinit i.

Definition avmmi_bmc_init (i : Z) : K fme Z :=
  f <- on_pd (get_feature i) ;; subdev_init i AVMMI_BMC_DRV_NAME (f_ioaddr f).
Definition avmmi_bmc_uinit (i : Z) : K fme unit := subdev_uinit i.

(** ** Features that only log *)

Definition hssi_mgmt_init : K fme Z := kret 0.
Definition hssi_mgmt_uinit : K fme unit := kret tt.
Definition s10_sdm_init : K fme Z := kret 0.
Definition s10_sdm_uinit : K fme unit := kret tt.
Definition ehip_init : K fme Z := kret 0.
Definition ehip_uinit : K fme unit := kret tt.
Definition max10_spi_init : K fme Z := kret 0.
Definition max10_spi_uinit : K fme unit := kret tt.
Definition mac_rom_i2c_init : K fme Z := kret 0.
Definition mac_rom_i2c_uinit : K fme unit := kret tt.
Definition phy_group_init : K fme Z := kret 0.
Definition phy_group_uinit : K fme unit := kret tt.
End FmeAttrs.
