(* ===== verification/FmeError.v ===== *)
(** * Errors of the FME (fme-error.c)

    The attributes of the errors device, the clearing protocol of the error
    registers and the error interrupt. *)

From stdpp Require Import gmultiset.
From S2P Require Import Prelude.
From S2P Require Import Bitfield.
From S2P Require Import Registers.
From S2P Require Import Mmio.
From S2P Require Import UserMem.
From S2P Require Import Sysfs.
From S2P Require Import FeatureDev.
From S2P Require Import Msix.
From S2P Require Import AfuTypes.
From S2P Require Import DmaRegion.
From S2P Require Import PortEnv.
From S2P Require Import FpgaMgr.
From S2P Require Import FmeTypes.
From S2P Require Import FmeAttrs.
Local Open Scope string_scope.
Local Open Scope Z_scope.

Definition FME_ERROR0_MASK : Z := 0xFF.
Definition FME_ERROR0_MASK_DEFAULT : Z := 0x40.
Definition FME_PCIE0_ERROR_MASK : Z := 0xFF.
Definition FME_PCIE1_ERROR_MASK : Z := 0xFF.
Definition FME_FIRST_ERROR_MASK : Z := Z.shiftl 1 60 - 1.
Definition FME_NEXT_ERROR_MASK : Z := Z.shiftl 1 60 - 1.
Definition FME_RAS_ERROR_INJ_MASK : Z := 0x7.
Definition FPGA_FME_CAP_ERR_IRQ : Z := 1.

Section FmeError.
Context {Op D : Type} {dev : Mmio D} {ks : Kstrto}.
Variable env : fme_env.
Abbreviation fme := (platform_device Op fpga_fme (afu_world (fme_hw D))).

Definition fme_err_reg (member : string) : Z := offsetof feature_fme_err member.
Definition fme_err_show (member : string) : K fme string :=
  show_csr FME_FEATURE_ID_GLOBAL_ERR feature_fme_err member.

Definition fme_errors_show : K fme string := fme_err_show "fme_err".
Definition fme_first_error_show : K fme string :=
  show_x FME_FEATURE_ID_GLOBAL_ERR feature_fme_err "fme_first_err" feature_fme_first_error "err_reg_status".
Definition fme_next_error_show : K fme string :=
  show_x FME_FEATURE_ID_GLOBAL_ERR feature_fme_err "fme_next_err" feature_fme_next_error "err_reg_status".

(** The three registers are written back as they were read, under their
    masks; any error of the parser is -EINVAL. *)
Definition fme_clear_store (buf : string) (count : Z) : K fme Z :=
  fme_err <- on_pd (get_feature_ioaddr_by_index FME_FEATURE_ID_GLOBAL_ERR) ;;
  match kstrtou64 buf with
  | inl _ => kret (- EINVAL)
  | inr val =>
      on_pd mutex_lock ;;
      mmio_writeq FME_ERROR0_MASK fme_err (fme_err_reg "fme_err_mask") ;;
      fme_error0 <- mmio_readq fme_err (fme_err_reg "fme_err") ;;
      ret <- (if val =? fme_error0 then
                first <- mmio_readq fme_err (fme_err_reg "fme_first_err") ;;
                next <- mmio_readq fme_err (fme_err_reg "fme_next_err") ;;
                mmio_writeq (Z.land fme_error0 FME_ERROR0_MASK) fme_err (fme_err_reg "fme_err") ;;
                mmio_writeq (Z.land first FME_FIRST_ERROR_MASK) fme_err (fme_err_reg "fme_first_err") ;;
                mmio_writeq (Z.land next FME_NEXT_ERROR_MASK) fme_err (fme_err_reg "fme_next_err") ;;
                kret count
              else kret (- EBUSY)) ;;
      mmio_writeq FME_ERROR0_MASK_DEFAULT fme_err (fme_err_reg "fme_err_mask") ;;
      on_pd mutex_unlock ;;
      kret ret
  end.

Definition fme_err_revision_show : K fme string :=
  show_d FME_FEATURE_ID_GLOBAL_ERR feature_fme_err "header" feature_header "revision".

Definition pcie0_errors_show : K fme string := fme_err_show "pcie0_err".
Definition pcie1_errors_show : K fme string := fme_err_show "pcie1_err".

(** Both PCIe registers: [reg] the error register, [msk] its mask register,
    [m] the errors the driver knows. *)
Definition pcie_errors_store (reg msk : string) (m : Z) (buf : string) (count : Z) : K fme Z :=
  fme_err <- on_pd (get_feature_ioaddr_by_index FME_FEATURE_ID_GLOBAL_ERR) ;;
  match kstrtou64 buf with
  | inl _ => kret (- EINVAL)
  | inr val =>
      on_pd mutex_lock ;;
      mmio_writeq m fme_err (fme_err_reg msk) ;;
      err <- mmio_readq fme_err (fme_err_reg reg) ;;
      ret <- (if negb (val =? err) then kret (- EBUSY)
              else mmio_writeq (Z.land err m) fme_err (fme_err_reg reg) ;; kret count) ;;
      mmio_writeq 0 fme_err (fme_err_reg msk) ;;
      on_pd mutex_unlock ;;
      kret ret
  end.
Definition pcie0_errors_store := pcie_errors_store "pcie0_err" "pcie0_err_mask" FME_PCIE0_ERROR_MASK.
Definition pcie1_errors_store := pcie_errors_store "pcie1_err" "pcie1_err_mask" FME_PCIE1_ERROR_MASK.

Definition nonfatal_errors_show : K fme string := fme_err_show "ras_nonfaterr".
Definition catfatal_errors_show : K fme string := fme_err_show "ras_catfaterr".

Definition inject_error_show : K fme string :=
  csr <- plain_readq FME_FEATURE_ID_GLOBAL_ERR feature_fme_err "ras_error_inj" ;;
  kret (line_0x (Z.land csr FME_RAS_ERROR_INJ_MASK)).

Definition inject_error_store (buf : string) (count : Z) : K fme Z :=
  fme_err <- on_pd (get_feature_ioaddr_by_index FME_FEATURE_ID_GLOBAL_ERR) ;;
  on_pd mutex_lock ;;
  mmio_readq fme_err (fme_err_reg "ras_error_inj") ;;
  match kstrtou8 buf with
  | inl err => unlock_ret err
  | inr data =>
      if data <=? FME_RAS_ERROR_INJ_MASK then
        mmio_writeq data fme_err (fme_err_reg "ras_error_inj") ;; unlock_ret count
      else unlock_ret (- EINVAL)
  end.

Definition fme_errors_attrs : list string :=
  ["errors/fme-errors/errors"; "errors/fme-errors/first_error"; "errors/fme-errors/next_error";
   "errors/fme-errors/clear"].
Definition errors_attrs : list string :=
  ["errors/revision"; "errors/pcie0_errors"; "errors/pcie1_errors"; "errors/nonfatal_errors";
   "errors/catfatal_errors"; "errors/inject_error"].
Definition error_groups : list string := (fme_errors_attrs ++ errors_attrs)%list.

Definition fme_error_enable : K fme unit :=
  fme_err <- on_pd (get_feature_ioaddr_by_index FME_FEATURE_ID_GLOBAL_ERR) ;;
  mmio_writeq FME_ERROR0_MASK_DEFAULT fme_err (fme_err_reg "fme_err_mask") ;;
  mmio_writeq 0 fme_err (fme_err_reg "pcie0_err_mask") ;;
  mmio_writeq 0 fme_err (fme_err_reg "pcie1_err_mask") ;;
  mmio_writeq 0 fme_err (fme_err_reg "ras_nonfat_mask") ;;
  mmio_writeq 0 fme_err (fme_err_reg "ras_catfat_mask").

(** device_register adds the directory of the errors device. *)
Definition add_sysfs (names : list string) : K fme unit :=
  on_kobj (kmod (fun k => Kobj (pid_refs k) (sysfs k ∪ list_to_set names) (subdevs k))).

Definition global_error_init (i : Z) : K fme Z :=
  if negb (err_kzalloc_ok env) then kret (- ENOMEM)
  else
    fme_error_enable ;;
    let ret := device_register_ret env in
    if istrue ret then kret ret
    else
      add_sysfs ["errors"] ;;
      ret <- sysfs_create_files (pe env) error_groups ;;
      if istrue ret then sysfs_remove_files ["errors"] ;; kret ret
      else
        f <- on_pd (get_feature i) ;;
        on_pd mutex_lock ;;
        mod_fme (set_dev_err true) ;;
        (if istrue (f_ctx_num f)
         then mod_fme (fun m => set_fme_capability (Z.lor (fme_capability m) FPGA_FME_CAP_ERR_IRQ) m)
         else kret tt) ;;
        on_pd mutex_unlock ;;
        kret ret.

(** Without an errors device the removal dereferences NULL. *)
Definition global_error_uinit : K fme unit :=
  on_pd mutex_lock ;;
  m <- get_fme ;;
  (if dev_err m then sysfs_remove_files error_groups ;; sysfs_remove_files ["errors"] else oops) ;;
  mod_fme (set_dev_err false) ;;
  on_pd mutex_unlock.

Definition fme_err_set_irq (i arg : Z) : K fme Z :=
  let minsz := offsetofend fpga_fme_err_irq_set "evtfd" in
  hdr <- on_usr (copy_from_user arg minsz) ;;
  match hdr with
  | None => kret (- EFAULT)
  | Some hdr =>
      if (fget fpga_fme_err_irq_set "argsz" hdr <? minsz)
         || istrue (fget fpga_fme_err_irq_set "flags" hdr) then kret (- EINVAL)
      else
        on_pd mutex_lock ;;
        m <- get_fme ;;
        if negb (istrue (Z.land (fme_capability m) FPGA_FME_CAP_ERR_IRQ)) then
          on_pd mutex_unlock ;; kret (- ENODEV)
        else
          ret <- on_msix i (fpga_msix_set_block (irqe (pe env)) 0 1
                   (Some [s32 (fget fpga_fme_err_irq_set "evtfd" hdr)])) ;;
          on_pd mutex_unlock ;;
          kret ret
  end.

Definition global_error_ioctl (i cmd arg : Z) : K fme Z :=
  if cmd =? FPGA_FME_ERR_SET_IRQ then fme_err_set_irq i arg else kret (- ENODEV).
End FmeError.
