(* ===== verification/FmePerf.v ===== *)
(** * Performance counters (fme-iperf.c, fme-dperf.c)

    The integrated and the discrete performance monitors: the trees of sysfs
    objects and the counters behind their files.  A counter is read in steps:
    select the event in a control register, wait until the counter register
    reports that event, read it.  The fabric monitor counts for one port or for
    all of them, and a file of another object reads as zero. *)

From stdpp Require Import gmultiset.
From stdpp Require Import pretty.
From S2P Require Import Prelude.
From S2P Require Import Bitfield.
From S2P Require Import Registers.
From S2P Require Import Mmio.
From S2P Require Import UserMem.
From S2P Require Import Sysfs.
From S2P Require Import FeatureDev.
From S2P Require Import Msix.
From S2P Require Import AfuTypes.
From S2P Require Import DmaRegion.
From S2P Require Import PortEnv.
From S2P Require Import FpgaMgr.
From S2P Require Import FmeTypes.
From S2P Require Import FmeAttrs.
Local Open Scope string_scope.
Local Open Scope Z_scope.

(** ** Events *)

Definition CACHE_CHANNEL_RD : Z := 0.
Definition CACHE_CHANNEL_WR : Z := 1.
Definition IPERF_CACHE_RD_HIT : Z := 0.
Definition IPERF_CACHE_WR_HIT : Z := 1.
Definition IPERF_CACHE_RD_MISS : Z := 2.
Definition IPERF_CACHE_WR_MISS : Z := 3.
Definition IPERF_CACHE_HOLD_REQ : Z := 5.
Definition IPERF_CACHE_DATA_WR_PORT_CONTEN : Z := 6.
Definition IPERF_CACHE_TAG_WR_PORT_CONTEN : Z := 7.
Definition IPERF_CACHE_TX_REQ_STALL : Z := 8.
Definition IPERF_CACHE_RX_REQ_STALL : Z := 9.
Definition IPERF_CACHE_EVICTIONS : Z := 10.
Definition IPERF_VTD_AFU_MEM_RD_TRANS : Z := 0.
Definition IPERF_VTD_AFU_MEM_WR_TRANS : Z := 1.
Definition IPERF_VTD_AFU_DEVTLB_RD_HIT : Z := 2.
Definition IPERF_VTD_AFU_DEVTLB_WR_HIT : Z := 3.
Definition IPERF_VTD_DEVTLB_4K_FILL : Z := 4.
Definition IPERF_VTD_DEVTLB_2M_FILL : Z := 5.
Definition IPERF_VTD_DEVTLB_1G_FILL : Z := 6.
Definition IPERF_VTD_SIP_IOTLB_4K_HIT : Z := 0.
Definition IPERF_VTD_SIP_IOTLB_2M_HIT : Z := 1.
Definition IPERF_VTD_SIP_IOTLB_1G_HIT : Z := 2.
Definition IPERF_VTD_SIP_SLPWC_L3_HIT : Z := 3.
Definition IPERF_VTD_SIP_SLPWC_L4_HIT : Z := 4.
Definition IPERF_VTD_SIP_RCC_HIT : Z := 5.
Definition IPERF_VTD_SIP_IOTLB_4K_MISS : Z := 6.
Definition IPERF_VTD_SIP_IOTLB_2M_MISS : Z := 7.
Definition IPERF_VTD_SIP_IOTLB_1G_MISS : Z := 8.
Definition IPERF_VTD_SIP_SLPWC_L3_MISS : Z := 9.
Definition IPERF_VTD_SIP_SLPWC_L4_MISS : Z := 10.
Definition IPERF_VTD_SIP_RCC_MISS : Z := 11.
Definition IPERF_FAB_PCIE0_RD : Z := 0.
Definition IPERF_FAB_PCIE0_WR : Z := 1.
Definition IPERF_FAB_PCIE1_RD : Z := 2.
Definition IPERF_FAB_PCIE1_WR : Z := 3.
Definition IPERF_FAB_UPI_RD : Z := 4.
Definition IPERF_FAB_UPI_WR : Z := 5.
Definition IPERF_FAB_MMIO_RD : Z := 6.
Definition IPERF_FAB_MMIO_WR : Z := 7.
Definition DPERF_FAB_PCIE0_RD : Z := 0.
Definition DPERF_FAB_PCIE0_WR : Z := 1.
Definition DPERF_FAB_MMIO_RD : Z := 6.
Definition DPERF_FAB_MMIO_WR : Z := 7.
Definition FAB_DISABLE_FILTER : Z := 0.
Definition FAB_ENABLE_FILTER : Z := 1.
Definition IPERF_TIMEOUT : Z := 30.
Definition DPERF_TIMEOUT : Z := 30.
Definition PERF_MAX_PORT_NUM : Z := 1.

Section FmePerf.
Context {Op D : Type} {dev : Mmio D} {sb : Strtobool}.
Variable env : fme_env.
Abbreviation fme := (platform_device Op fpga_fme (afu_world (fme_hw D))).

(** ** Counters *)

(** Sets [field] of the control register to the event and waits until the
    counter register reports it. *)
Definition select_event (base ctl : Z) (upd : Z -> Z) (ctr : Z) (ctr_reg : reg) (event timeout : Z)
  : K fme Z :=
  csr <- mmio_readq base ctl ;;
  mmio_writeq (upd csr) base ctl ;;
  on_io (fpga_wait_register_field ctr_reg "event_code"
    (fget ctr_reg "event_code" (fset ctr_reg "event_code" event 0)) (base + ctr) timeout 1).

Definition iperf_reg (member : string) : Z := offsetof feature_fme_iperf member.

Definition perf_revision_show (i : Z) (b : block) : K fme string :=
  show_d i b "header" feature_header "revision".
Definition perf_clock_show (i : Z) (b : block) : K fme string := show_csr i b "clk".

(** Reading and setting the freeze bit of a control register. *)
Definition perf_freeze_show (i : Z) (b : block) (ctl : string) (r : reg) : K fme string :=
  show_d i b ctl r "freeze".
Definition perf_freeze_store (i : Z) (b : block) (ctl : string) (r : reg) (buf : string) (n : Z)
  : K fme Z :=
  match strtobool buf with
  | None => kret (- EINVAL)
  | Some state =>
      on_pd mutex_lock ;;
      base <- on_pd (get_feature_ioaddr_by_index i) ;;
      csr <- mmio_readq base (offsetof b ctl) ;;
      mmio_writeq (fset r "freeze" (Z.b2z state) csr) base (offsetof b ctl) ;;
      on_pd mutex_unlock ;;
      kret n
  end.

Definition iperf_revision_show := perf_revision_show FME_FEATURE_ID_GLOBAL_IPERF feature_fme_iperf.
Definition iperf_clock_show := perf_clock_show FME_FEATURE_ID_GLOBAL_IPERF feature_fme_iperf.
Definition iperf_freeze_show :=
  perf_freeze_show FME_FEATURE_ID_GLOBAL_IPERF feature_fme_iperf "ch_ctl" feature_fme_ifpmon_ch_ctl.
Definition iperf_freeze_store :=
  perf_freeze_store FME_FEATURE_ID_GLOBAL_IPERF feature_fme_iperf "ch_ctl" feature_fme_ifpmon_ch_ctl.
Definition vtd_freeze_show :=
  perf_freeze_show FME_FEATURE_ID_GLOBAL_IPERF feature_fme_iperf "vtd_ctl" feature_fme_ifpmon_vtd_ctl.
Definition vtd_freeze_store :=
  perf_freeze_store FME_FEATURE_ID_GLOBAL_IPERF feature_fme_iperf "vtd_ctl" feature_fme_ifpmon_vtd_ctl.
Definition iperf_fab_freeze_show :=
  perf_freeze_show FME_FEATURE_ID_GLOBAL_IPERF feature_fme_iperf "fab_ctl" feature_fme_ifpmon_fab_ctl.
Definition iperf_fab_freeze_store :=
  perf_freeze_store FME_FEATURE_ID_GLOBAL_IPERF feature_fme_iperf "fab_ctl" feature_fme_ifpmon_fab_ctl.
Definition dperf_revision_show := perf_revision_show FME_FEATURE_ID_GLOBAL_DPERF feature_fme_dperf.
Definition dperf_clock_show := perf_clock_show FME_FEATURE_ID_GLOBAL_DPERF feature_fme_dperf.
Definition dperf_fab_freeze_show :=
  perf_freeze_show FME_FEATURE_ID_GLOBAL_DPERF feature_fme_dperf "fab_ctl" feature_fme_dfpmon_fab_ctl.
Definition dperf_fab_freeze_store :=
  perf_freeze_store FME_FEATURE_ID_GLOBAL_DPERF feature_fme_dperf "fab_ctl" feature_fme_dfpmon_fab_ctl.

Definition read_cache_counter (channel event : Z) : K fme (Z + string) :=
  on_pd mutex_lock ;;
  iperf <- on_pd (get_feature_ioaddr_by_index FME_FEATURE_ID_GLOBAL_IPERF) ;;
  ret <- select_event iperf (iperf_reg "ch_ctl")
    (fun csr => fset feature_fme_ifpmon_ch_ctl "cache_event" event
                  (fset feature_fme_ifpmon_ch_ctl "cci_chsel" channel csr))
    (iperf_reg "ch_ctr0") feature_fme_ifpmon_ch_ctr event IPERF_TIMEOUT ;;
  if istrue ret then on_pd mutex_unlock ;; kret (inl (- ETIMEDOUT))
  else
    ctr0 <- mmio_readq iperf (iperf_reg "ch_ctr0") ;;
    ctr1 <- mmio_readq iperf (iperf_reg "ch_ctr1") ;;
    on_pd mutex_unlock ;;
    kret (inr (line_0x (fget feature_fme_ifpmon_ch_ctr "cache_counter" ctr0 +
                        fget feature_fme_ifpmon_ch_ctr "cache_counter" ctr1))).

(** The CACHE_SHOW files. *)
Definition read_hit_show := read_cache_counter CACHE_CHANNEL_RD IPERF_CACHE_RD_HIT.
Definition read_miss_show := read_cache_counter CACHE_CHANNEL_RD IPERF_CACHE_RD_MISS.
Definition write_hit_show := read_cache_counter CACHE_CHANNEL_WR IPERF_CACHE_WR_HIT.
Definition write_miss_show := read_cache_counter CACHE_CHANNEL_WR IPERF_CACHE_WR_MISS.
Definition hold_request_show := read_cache_counter CACHE_CHANNEL_RD IPERF_CACHE_HOLD_REQ.
Definition tx_req_stall_show := read_cache_counter CACHE_CHANNEL_RD IPERF_CACHE_TX_REQ_STALL.
Definition rx_req_stall_show := read_cache_counter CACHE_CHANNEL_RD IPERF_CACHE_RX_REQ_STALL.
Definition rx_eviction_show := read_cache_counter CACHE_CHANNEL_RD IPERF_CACHE_EVICTIONS.
Definition data_write_port_contention_show :=
  read_cache_counter CACHE_CHANNEL_WR IPERF_CACHE_DATA_WR_PORT_CONTEN.
Definition tag_write_port_contention_show :=
  read_cache_counter CACHE_CHANNEL_WR IPERF_CACHE_TAG_WR_PORT_CONTEN.

(** The VT-d counters, global ([sip]) and of the object [id]. *)
Definition read_vtd (ctl ctr : string) (ctl_reg ctr_reg : reg) (event : Z) : K fme (Z + string) :=
  on_pd mutex_lock ;;
  iperf <- on_pd (get_feature_ioaddr_by_index FME_FEATURE_ID_GLOBAL_IPERF) ;;
  ret <- select_event iperf (iperf_reg ctl) (fset ctl_reg "vtd_evtcode" event)
    (iperf_reg ctr) ctr_reg event IPERF_TIMEOUT ;;
  if istrue ret then on_pd mutex_unlock ;; kret (inl (- ETIMEDOUT))
  else
    csr <- mmio_readq iperf (iperf_reg ctr) ;;
    on_pd mutex_unlock ;;
    kret (inr (line_0x (fget ctr_reg "vtd_counter" csr))).

Definition read_iommu_sip_counter (event : Z) : K fme (Z + string) :=
  read_vtd "vtd_sip_ctl" "vtd_sip_ctr" feature_fme_ifpmon_vtd_sip_ctl feature_fme_ifpmon_vtd_sip_ctr event.
Definition read_iommu_counter (id base_event : Z) : K fme (Z + string) :=
  read_vtd "vtd_ctl" "vtd_ctr" feature_fme_ifpmon_vtd_ctl feature_fme_ifpmon_vtd_ctr (base_event + id).

(** The VTD_SIP_SHOW and VTD_SHOW files; the latter belong to an object. *)
Definition iotlb_4k_hit_show := read_iommu_sip_counter IPERF_VTD_SIP_IOTLB_4K_HIT.
Definition iotlb_2m_hit_show := read_iommu_sip_counter IPERF_VTD_SIP_IOTLB_2M_HIT.
Definition iotlb_1g_hit_show := read_iommu_sip_counter IPERF_VTD_SIP_IOTLB_1G_HIT.
Definition slpwc_l3_hit_show := read_iommu_sip_counter IPERF_VTD_SIP_SLPWC_L3_HIT.
Definition slpwc_l4_hit_show := read_iommu_sip_counter IPERF_VTD_SIP_SLPWC_L4_HIT.
Definition rcc_hit_show := read_iommu_sip_counter IPERF_VTD_SIP_RCC_HIT.
Definition iotlb_4k_miss_show := read_iommu_sip_counter IPERF_VTD_SIP_IOTLB_4K_MISS.
Definition iotlb_2m_miss_show := read_iommu_sip_counter IPERF_VTD_SIP_IOTLB_2M_MISS.
Definition iotlb_1g_miss_show := read_iommu_sip_counter IPERF_VTD_SIP_IOTLB_1G_MISS.
Definition slpwc_l3_miss_show := read_iommu_sip_counter IPERF_VTD_SIP_SLPWC_L3_MISS.
Definition slpwc_l4_miss_show := read_iommu_sip_counter IPERF_VTD_SIP_SLPWC_L4_MISS.
Definition rcc_miss_show := read_iommu_sip_counter IPERF_VTD_SIP_RCC_MISS.
Definition read_transaction_show (id : Z) := read_iommu_counter id IPERF_VTD_AFU_MEM_RD_TRANS.
Definition write_transaction_show (id : Z) := read_iommu_counter id IPERF_VTD_AFU_MEM_WR_TRANS.
Definition devtlb_read_hit_show (id : Z) := read_iommu_counter id IPERF_VTD_AFU_DEVTLB_RD_HIT.
Definition devtlb_write_hit_show (id : Z) := read_iommu_counter id IPERF_VTD_AFU_DEVTLB_WR_HIT.
Definition devtlb_4k_fill_show (id : Z) := read_iommu_counter id IPERF_VTD_DEVTLB_4K_FILL.
Definition devtlb_2m_fill_show (id : Z) := read_iommu_counter id IPERF_VTD_DEVTLB_2M_FILL.
Definition devtlb_1g_fill_show (id : Z) := read_iommu_counter id IPERF_VTD_DEVTLB_1G_FILL.

(** ** The fabric monitors *)

(** Where the fabric monitor of a performance unit lies. *)
Record fab_unit := FabUnit { fu_id : Z; fu_block : block; fu_ctl : reg; fu_ctr : reg; fu_timeout : Z }.
Definition iperf_unit : fab_unit :=
  FabUnit FME_FEATURE_ID_GLOBAL_IPERF feature_fme_iperf feature_fme_ifpmon_fab_ctl
    feature_fme_ifpmon_fab_ctr IPERF_TIMEOUT.
Definition dperf_unit : fab_unit :=
  FabUnit FME_FEATURE_ID_GLOBAL_DPERF feature_fme_dperf feature_fme_dfpmon_fab_ctl
    feature_fme_dfpmon_fab_ctr DPERF_TIMEOUT.

(** The object the control register [csr] counts for. *)
Definition fab_counts_for (u : fab_unit) (csr id : Z) : bool :=
  if fget (fu_ctl u) "port_filter" csr =? FAB_DISABLE_FILTER then id =? PERF_OBJ_ROOT_ID
  else id =? fget (fu_ctl u) "port_id" csr.

Definition fabric_pobj_is_enabled (u : fab_unit) (id base : Z) : K fme bool :=
  csr <- mmio_readq base (offsetof (fu_block u) "fab_ctl") ;; kret (fab_counts_for u csr id).

Definition read_fabric_counter (u : fab_unit) (id fab_event : Z) : K fme (Z + string) :=
  on_pd mutex_lock ;;
  base <- on_pd (get_feature_ioaddr_by_index (fu_id u)) ;;
  enabled <- fabric_pobj_is_enabled u id base ;;
  if negb enabled then on_pd mutex_unlock ;; kret (inr (line_0x 0))
  else
    ret <- select_event base (offsetof (fu_block u) "fab_ctl") (fset (fu_ctl u) "fab_evtcode" fab_event)
      (offsetof (fu_block u) "fab_ctr") (fu_ctr u) fab_event (fu_timeout u) ;;
    if istrue ret then on_pd mutex_unlock ;; kret (inl (- ETIMEDOUT))
    else
      csr <- mmio_readq base (offsetof (fu_block u) "fab_ctr") ;;
      on_pd mutex_unlock ;;
      kret (inr (line_0x (fget (fu_ctr u) "fab_cnt" csr))).

Definition fab_enable_show (u : fab_unit) (id : Z) : K fme string :=
  base <- on_pd (get_feature_ioaddr_by_index (fu_id u)) ;;
  status <- fabric_pobj_is_enabled u id base ;;
  kret (line_d (Z.b2z status)).

Definition fab_enable_store (u : fab_unit) (id : Z) (buf : string) (n : Z) : K fme Z :=
  match strtobool buf with
  | None | Some false => kret (- EINVAL)
  | Some true =>
      base <- on_pd (get_feature_ioaddr_by_index (fu_id u)) ;;
      enabled <- fabric_pobj_is_enabled u id base ;;
      if (enabled : bool) then kret n
      else
        on_pd mutex_lock ;;
        csr <- mmio_readq base (offsetof (fu_block u) "fab_ctl") ;;
        mmio_writeq
          (if id =? PERF_OBJ_ROOT_ID then fset (fu_ctl u) "port_filter" FAB_DISABLE_FILTER csr
           else fset (fu_ctl u) "port_id" id (fset (fu_ctl u) "port_filter" FAB_ENABLE_FILTER csr))
          base (offsetof (fu_block u) "fab_ctl") ;;
        on_pd mutex_unlock ;;
        kret n
  end.

Definition iperf_fabric_pobj_is_enabled := fabric_pobj_is_enabled iperf_unit.
Definition iperf_read_fabric_counter := read_fabric_counter iperf_unit.
Definition iperf_fab_enable_show := fab_enable_show iperf_unit.
Definition iperf_fab_enable_store := fab_enable_store iperf_unit.
Definition dperf_fabric_pobj_is_enabled := fabric_pobj_is_enabled dperf_unit.
Definition dperf_read_fabric_counter := read_fabric_counter dperf_unit.
Definition dperf_fab_enable_show := fab_enable_show dperf_unit.
Definition dperf_fab_enable_store := fab_enable_store dperf_unit.

(** The FAB_SHOW files. *)
Definition iperf_pcie0_read_show (id : Z) := iperf_read_fabric_counter id IPERF_FAB_PCIE0_RD.
Definition iperf_pcie0_write_show (id : Z) := iperf_read_fabric_counter id IPERF_FAB_PCIE0_WR.
Definition iperf_pcie1_read_show (id : Z) := iperf_read_fabric_counter id IPERF_FAB_PCIE1_RD.
Definition iperf_pcie1_write_show (id : Z) := iperf_read_fabric_counter id IPERF_FAB_PCIE1_WR.
Definition iperf_upi_read_show (id : Z) := iperf_read_fabric_counter id IPERF_FAB_UPI_RD.
Definition iperf_upi_write_show (id : Z) := iperf_read_fabric_counter id IPERF_FAB_UPI_WR.
Definition iperf_mmio_read_show (id : Z) := iperf_read_fabric_counter id IPERF_FAB_MMIO_RD.
Definition iperf_mmio_write_show (id : Z) := iperf_read_fabric_counter id IPERF_FAB_MMIO_WR.
Definition dperf_pcie0_read_show (id : Z) := dperf_read_fabric_counter id DPERF_FAB_PCIE0_RD.
Definition dperf_pcie0_write_show (id : Z) := dperf_read_fabric_counter id DPERF_FAB_PCIE0_WR.
Definition dperf_mmio_read_show (id : Z) := dperf_read_fabric_counter id DPERF_FAB_MMIO_RD.
Definition dperf_mmio_write_show (id : Z) := dperf_read_fabric_counter id DPERF_FAB_MMIO_WR.

(** ** The trees of objects *)

Definition iperf_dev_files : list string :=
  ["revision"; "clock"; "cache/read_hit"; "cache/read_miss"; "cache/write_hit"; "cache/write_miss";
   "cache/hold_request"; "cache/data_write_port_contention"; "cache/tag_write_port_contention";
   "cache/tx_req_stall"; "cache/rx_req_stall"; "cache/rx_eviction"; "cache/freeze"].
Definition iommu_top_files : list string :=
  ["freeze"; "iotlb_4k_hit"; "iotlb_2m_hit"; "iotlb_1g_hit"; "slpwc_l3_hit"; "slpwc_l4_hit";
   "rcc_hit"; "iotlb_4k_miss"; "iotlb_2m_miss"; "iotlb_1g_miss"; "slpwc_l3_miss"; "slpwc_l4_miss";
   "rcc_miss"].
Definition iommu_files : list string :=
  ["read_transaction"; "write_transaction"; "devtlb_read_hit"; "devtlb_write_hit"; "devtlb_4k_fill";
   "devtlb_2m_fill"; "devtlb_1g_fill"].
Definition iperf_fabric_files : list string :=
  ["pcie0_read"; "pcie0_write"; "pcie1_read"; "pcie1_write"; "upi_read"; "upi_write"; "mmio_read";
   "mmio_write"; "enable"].
Definition dperf_dev_files : list string := ["revision"; "clock"].
Definition dperf_fabric_files : list string :=
  ["pcie0_read"; "pcie0_write"; "mmio_read"; "mmio_write"; "enable"].
Definition fabric_top (files : list string) : list string := (files ++ ["freeze"])%list.

Definition child_path (parent name : string) : string :=
  if String.eqb parent "" then name else (parent ++ "/" ++ name)%string.

Definition add_files (names : list string) : K fme unit :=
  on_kobj (kmod (fun k => Kobj (pid_refs k) (sysfs k ∪ list_to_set names) (subdevs k))).

(** An object or a negative errno. *)
Definition create_perf_obj (parent : string) (id : Z) (files : list string) (name : string)
  : K fme (Z + perf_object) :=
  let path := child_path parent (if id =? PERF_OBJ_ROOT_ID then name else (name ++ pretty id)%string) in
  if negb (pobj_kzalloc_ok env path) then kret (inl (- ENOMEM))
  else if istrue (kobject_add_ret env path) then kret (inl (kobject_add_ret env path))
  else
    add_files [path] ;;
    let full := map (child_path path) files in
    ret <- sysfs_create_files (pe env) full ;;
    if istrue ret then sysfs_remove_files [path] ;; kret (inl ret)
    else kret (inr (PerfObject id path full [])).

Fixpoint destroy_perf_obj (o : perf_object) : K fme unit :=
  match o with
  | PerfObject _ path files children =>
      (fix destroy_children (l : list perf_object) : K fme unit :=
         match l with
         | [] => kret tt
         | c :: l => destroy_perf_obj c ;; destroy_children l
         end) children ;;
      sysfs_remove_files files ;;
      sysfs_remove_files [path]
  end.

Definition add_child (o c : perf_object) : perf_object :=
  PerfObject (pobj_id o) (pobj_path o) (pobj_files o) (c :: pobj_children o).

(** The loop over the instances from [i] on; the object with those added, and
    the error the loop stopped at. *)
Fixpoint create_instances (n : nat) (i : Z) (o : perf_object) (files : list string) (name : string)
  : K fme (Z * perf_object) :=
  match n with
  | O => kret (0, o)
  | S n =>
      r <- create_perf_obj (pobj_path o) i files name ;;
      match r with
      | inl ret => kret (ret, o)
      | inr obj => create_instances n (i + 1) (add_child o obj) files name
      end
  end.

(** A top object below [perf_dev] and its instances. *)
Definition create_perf_unit (perf_dev : perf_object) (top_files : list string) (name : string)
    (files : list string) (inst : string) : K fme (Z * perf_object) :=
  r <- create_perf_obj (pobj_path perf_dev) PERF_OBJ_ROOT_ID top_files name ;;
  match r with
  | inl ret => kret (ret, perf_dev)
  | inr pobj =>
      r <- create_instances (Z.to_nat PERF_MAX_PORT_NUM) 0 pobj files inst ;;
      kret (fst r, add_child perf_dev (snd r))
  end.

Definition create_perf_iommu_obj (perf_dev : perf_object) : K fme (Z * perf_object) :=
  fme_capability <- plain_readq FME_FEATURE_ID_HEADER feature_fme_header "capability" ;;
  if negb (istrue (fget feature_fme_capability "iommu_support" fme_capability)) then kret (0, perf_dev)
  else create_perf_unit perf_dev iommu_top_files "iommu" iommu_files "afu".

Definition iperf_create_perf_fabric_obj (perf_dev : perf_object) : K fme (Z * perf_object) :=
  create_perf_unit perf_dev (fabric_top iperf_fabric_files) "fabric" iperf_fabric_files "port".
Definition dperf_create_perf_fabric_obj (perf_dev : perf_object) : K fme (Z * perf_object) :=
  create_perf_unit perf_dev (fabric_top dperf_fabric_files) "fabric" dperf_fabric_files "port".

Definition iperf_create_perf_dev : K fme (Z + perf_object) :=
  create_perf_obj "" PERF_OBJ_ROOT_ID iperf_dev_files "iperf".
Definition dperf_create_perf_dev : K fme (Z + perf_object) :=
  create_perf_obj "" PERF_OBJ_ROOT_ID dperf_dev_files "dperf".

Definition fme_iperf_init : K fme Z :=
  r <- iperf_create_perf_dev ;;
  match r with
  | inl ret => kret ret
  | inr perf_dev =>
      r <- create_perf_iommu_obj perf_dev ;;
      if istrue (fst r) then destroy_perf_obj (snd r) ;; kret (fst r)
      else
        r <- iperf_create_perf_fabric_obj (snd r) ;;
        if istrue (fst r) then destroy_perf_obj (snd r) ;; kret (fst r)
        else mod_fme (set_iperf_dev (Some (snd r))) ;; kret 0
  end.

Definition fme_iperf_uinit : K fme unit :=
  m <- get_fme ;;
  perf_dev <- deref (iperf_dev m) ;;
  destroy_perf_obj perf_dev ;;
  mod_fme (set_iperf_dev None).

Definition fme_dperf_init : K fme Z :=
  r <- dperf_create_perf_dev ;;
  match r with
  | inl ret => kret ret
  | inr perf_dev =>
      r <- dperf_create_perf_fabric_obj perf_dev ;;
      if istrue (fst r) then destroy_perf_obj (snd r) ;; kret (fst r)
      else mod_fme (set_dperf_dev (Some (snd r))) ;; kret 0
  end.

Definition fme_dperf_uinit : K fme unit :=
  m <- get_fme ;;
  perf_dev <- deref (dperf_dev m) ;;
  destroy_perf_obj perf_dev ;;
  mod_fme (set_dperf_dev None).
End FmePerf.
