(* ===== verification/FmePr.v ===== *)
(** * Partial reconfiguration (fme-pr.c)

    The low level driver of the FPGA manager: resetting the PR engine, pushing
    the bitstream under the credits the hardware gives, and waiting for the
    hardware to finish; and the ioctl FPGA_FME_PORT_PR, which checks the
    request, holds the port in reset while the bitstream is loaded and reports
    the PR errors.  The ioctl runs on the PCI function: it takes the FME, whose
    handle is an argument, and the port it names.  Saving the FPU registers
    around the 64-byte stores is not modelled. *)

From stdpp Require Import gmultiset.
From S2P Require Import Prelude.
From S2P Require Import Bitfield.
From S2P Require Import Registers.
From S2P Require Import Mmio.
From S2P Require Import UserMem.
From S2P Require Import Sysfs.
From S2P Require Import FeatureDev.
From S2P Require Import Msix.
From S2P Require Import AfuTypes.
From S2P Require Import DmaRegion.
From S2P Require Import PortEnv.
From S2P Require Import PcieTypes.
From S2P Require Import PciePort.
From S2P Require Import FpgaMgr.
From S2P Require Import FmeTypes.
From S2P Require Import FmeAttrs.
Local Open Scope string_scope.
Local Open Scope Z_scope.

Definition PR_WAIT_TIMEOUT : Z := 8000000.
Definition PR_HOST_STATUS_IDLE : Z := 0.

Section FmePr.
Context {Op D : Type} {dev : Mmio D} {wide : Mmio512 D} {ks : Kstrto}.
Variable env : fme_env.
Abbreviation fme := (platform_device Op fpga_fme (afu_world (fme_hw D))).
Abbreviation world := (pci_world Op fpga_fme (afu_world (fme_hw D))).

Definition pr_reg (member : string) : Z := offsetof feature_fme_pr member.
Definition pr_base : K fme Z := on_pd (get_feature_ioaddr_by_index FME_FEATURE_ID_PR_MGMT).

Definition pr_revision_show : K fme string :=
  show_d FME_FEATURE_ID_PR_MGMT feature_fme_pr "header" feature_header "revision".

Definition interface_id_show : K fme string :=
  fme_pr <- pr_base ;;
  intfc_id_l <- mmio_readq fme_pr (pr_reg "fme_pr_intfc_id_l") ;;
  intfc_id_h <- mmio_readq fme_pr (pr_reg "fme_pr_intfc_id_h") ;;
  kret (fmt_016x intfc_id_h ++ fmt_016x intfc_id_l ++ newline)%string.

Definition pr_mgmt_attrs : list string := ["pr/revision"; "pr/interface_id"].

(** ** The low level driver *)

(** The errors the hardware latched, acknowledged. *)
Definition pr_err_handle (fme_pr : Z) : K fme Z :=
  status <- mmio_readq fme_pr (pr_reg "ccip_fme_pr_status") ;;
  if negb (istrue (fget feature_fme_pr_status "pr_status" status)) then kret 0
  else
    fme_pr_error <- mmio_readq fme_pr (pr_reg "ccip_fme_pr_err") ;;
    mmio_writeq fme_pr_error fme_pr (pr_reg "ccip_fme_pr_err") ;;
    kret fme_pr_error.

(** Read-modify-write of the control register. *)
Definition update_pr_ctl (upd : Z -> Z) (fme_pr : Z) : K fme unit :=
  csr <- mmio_readq fme_pr (pr_reg "ccip_fme_pr_control") ;;
  mmio_writeq (upd csr) fme_pr (pr_reg "ccip_fme_pr_control").

Definition pr_wait (r : reg) (field : string) (expect fme_pr : Z) (member : string) : K fme Z :=
  on_io (fpga_wait_register_field r field expect (fme_pr + pr_reg member) PR_WAIT_TIMEOUT 1).

Definition fme_pr_write_init (info : fpga_image_info) (buf : list Z) : K fme Z :=
  fme_pr <- pr_base ;;
  if fme_pr =? 0 then kret (- EINVAL)
  else if negb (info_flags info =? FPGA_MGR_PARTIAL_RECONFIG) then kret (- EINVAL)
  else
    update_pr_ctl (fset feature_fme_pr_ctl "pr_reset" 1) fme_pr ;;
    ret <- pr_wait feature_fme_pr_ctl "pr_reset_ack" 1 fme_pr "ccip_fme_pr_control" ;;
    if istrue ret then kret (- ETIMEDOUT)
    else
      update_pr_ctl (fset feature_fme_pr_ctl "pr_reset" 0) fme_pr ;;
      ret <- pr_wait feature_fme_pr_status "pr_host_status" PR_HOST_STATUS_IDLE fme_pr
               "ccip_fme_pr_status" ;;
      if istrue ret then kret (- ETIMEDOUT)
      else pr_err_handle fme_pr ;; kret 0.

Definition read_credit (fme_pr : Z) : K fme Z :=
  csr <- mmio_readq fme_pr (pr_reg "ccip_fme_pr_status") ;;
  kret (fget feature_fme_pr_status "pr_credit" csr).

(** The wait for credits.  The result, the polls made so far and the credits;
    each round makes one poll, and [delay] is shared by the whole write. *)
Fixpoint credit_wait (fuel : nat) (fme_pr delay credit : Z) : K fme (Z * Z * Z) :=
  if credit <=? 1 then
    match fuel with
    | O => oops
    | S fuel =>
        if PR_WAIT_TIMEOUT <? delay then
          err <- pr_err_handle fme_pr ;;
          mod_fme (set_pr_err err) ;;
          kret (if istrue err then - EIO else - ETIMEDOUT, delay + 1, credit)
        else
          credit <- read_credit fme_pr ;;
          credit_wait fuel fme_pr (delay + 1) credit
    end
  else kret (0, delay, credit).

Definition credit_rounds (delay : Z) : nat := S (S (Z.to_nat (PR_WAIT_TIMEOUT - delay))).

(** Eight 64-bit words of a bitstream. *)
Definition words512 (buf : list Z) : list Z :=
  map (fun i => le_combine (take 8 (drop (8 * i) buf))) (seq 0 8).

Definition copy512 (buf : list Z) (dst : Z) : K fme unit :=
  on_io (kmod (fun w => World (FmeHw (dev_copy512 (words512 buf) dst (fhw (hw w))) (fmgr (hw w)) (fida (hw w)))
                          (mm w) (irqw w) (kobj w) (usr w))).

(** One store of [pr_bandwidth] bytes. *)
Definition push_data (bandwidth fme_pr : Z) (buf : list Z) : K fme Z :=
  if bandwidth =? 4 then
    mmio_writeq (fset feature_fme_pr_data "pr_data_raw" (le_combine (take 4 buf))
                   (fset feature_fme_pr_data "rsvd" 0 0))
      fme_pr (pr_reg "ccip_fme_pr_data") ;;
    kret 0
  else if bandwidth =? 64 then copy512 (take 64 buf) (fme_pr + pr_reg "fme_pr_data1") ;; kret 0
  else kret (- EFAULT).

(** The push loop; each round stores at least one byte. *)
Fixpoint push_loop (fuel : nat) (fme_pr delay credit : Z) (buf : list Z) : K fme Z :=
  match buf with
  | [] => kret 0
  | _ =>
      match fuel with
      | O => oops
      | S fuel =>
          r <- credit_wait (credit_rounds delay) fme_pr delay credit ;;
          let '(ret, delay, credit) := r in
          if istrue ret then kret ret
          else
            f <- get_fme ;;
            if Z.of_nat (length buf) <? pr_bandwidth f then kret (- EINVAL)
            else
              ret <- push_data (pr_bandwidth f) fme_pr buf ;;
              if istrue ret then kret ret
              else push_loop fuel fme_pr delay (credit - 1) (drop (Z.to_nat (pr_bandwidth f)) buf)
      end
  end.

Definition fme_pr_write (buf : list Z) : K fme Z :=
  fme_pr <- pr_base ;;
  f <- get_fme ;;
  update_pr_ctl (fun csr => fset feature_fme_pr_ctl "pr_start_req" 1
                   (fset feature_fme_pr_ctl "pr_regionid" (fme_port_id f) csr)) fme_pr ;;
  credit <- read_credit fme_pr ;;
  push_loop (length buf) fme_pr 0 credit buf.

Definition fme_pr_write_complete (info : fpga_image_info) : K fme Z :=
  fme_pr <- pr_base ;;
  update_pr_ctl (fset feature_fme_pr_ctl "pr_push_complete" 1) fme_pr ;;
  ret <- pr_wait feature_fme_pr_ctl "pr_start_req" 0 fme_pr "ccip_fme_pr_control" ;;
  if istrue ret then kret (- ETIMEDOUT)
  else
    err <- pr_err_handle fme_pr ;;
    mod_fme (set_pr_err err) ;;
    if istrue err then kret (- EIO) else kret 0.

Definition fme_pr_state : K fme fpga_mgr_states := kret FPGA_MGR_STATE_UNKNOWN.

Definition fme_pr_ops : fpga_manager_ops fme :=
  MgrOps 0 (Some fme_pr_state) (Some fme_pr_write_init) (Some fme_pr_write) None
    (Some fme_pr_write_complete) None.

(** ** The ioctl *)

(** [ALIGN(x, a)] of a 32-bit [x]. *)
Definition ALIGN32 (x a : Z) : Z := Z.land (u32 (x + u32 (a - 1))) (u32 (Z.lnot (u32 (a - 1)))).

(** vzalloc fails for an empty buffer. *)
Definition vzalloc (n : Z) : bool := negb (n =? 0) && pr_vzalloc_ok env n.

(** The copy of the bitstream, padded with zeros; writing past the buffer is
    undefined. *)
Definition copy_bitstream (h addr size length : Z) : K world (option (list Z)) :=
  if length <? size then oops
  else
    v <- on_fdev h (on_usr (copy_from_user addr size)) ;;
    kret (match v with
          | None => None
          | Some v => Some (le_split (Z.to_nat size) v ++ replicate (Z.to_nat (length - size)) 0)%list
          end).

(** The load itself: the port is disabled, the bitstream loaded and the port
    enabled again.  The result and the PR errors. *)
Definition load_port (h port_id : Z) (buf : list Z) : K world (Z * Z) :=
  on_fdev h (mod_fme (set_pr_err 0)) ;;
  on_fdev h (mod_fme (set_fme_port_id (u8 port_id))) ;;
  port <- fpga_for_each_port (fun p => on_fdev p (fpga_port_check_id (u8 port_id))) ;;
  port <- deref port ;;
  on_fdev port fpga_port_disable ;;
  ret <- on_fdev h (fpga_mgr_buf_load (mgre env) fme_pr_ops
                     (ImageInfo FPGA_MGR_PARTIAL_RECONFIG 0 0 0) buf) ;;
  f <- on_fdev h get_fme ;;
  on_fdev port fpga_port_enable ;;
  put_device port ;;
  on_fdev h (fpga_mgr_put (S := fme)) ;;
  kret (ret, pr_err f).

(** The part under the FME's mutex: the result and the status to report, if
    the load was tried. *)
Definition fme_pr_locked (h port_pr : Z) : K world (Z * option Z) :=
  let get n := fget fpga_fme_port_pr n port_pr in
  f <- on_fdev h (on_pd fpga_pdata_get_private) ;;
  match f with
  | None => kret (- EINVAL, None)
  | Some f =>
      let length := ALIGN32 (get "buffer_size") (pr_bandwidth f) in
      if negb (vzalloc length) then kret (- ENOMEM, None)
      else
        buf <- copy_bitstream h (get "buffer_address") (get "buffer_size") length ;;
        match buf with
        | None => kret (- EFAULT, None)
        | Some buf =>
            mgr <- on_fdev h (fpga_mgr_get (S := fme) (mgre env)) ;;
            if mgr <? 0 then kret (mgr, None)
            else
              r <- load_port h (get "port_id") buf ;;
              kret (fst r, Some (snd r))
        end
  end.

Definition fme_pr (h arg : Z) : K world Z :=
  let minsz := offsetofend fpga_fme_port_pr "status" in
  port_pr <- on_fdev h (on_usr (copy_from_user arg minsz)) ;;
  match port_pr with
  | None => kret (- EFAULT)
  | Some port_pr =>
      let get n := fget fpga_fme_port_pr n port_pr in
      if (get "argsz" <? minsz) || istrue (get "flags") then kret (- EINVAL)
      else
        fme_hdr <- fme_header_of h ;;
        if fme_hdr =? 0 then kret (- EINVAL)
        else
          csr <- pci_readq fme_hdr (offsetof feature_fme_header "capability") ;;
          if fget feature_fme_capability "num_ports" csr <=? get "port_id" then kret (- EINVAL)
          else if negb (access_ok env (get "buffer_address") (get "buffer_size")) then kret (- EFAULT)
          else
            on_fdev h (on_pd mutex_lock) ;;
            r <- fme_pr_locked h port_pr ;;
            on_fdev h (on_pd mutex_unlock) ;;
            let port_pr := match snd r with
                           | Some status => fset fpga_fme_port_pr "status" status port_pr
                           | None => port_pr
                           end in
            fault <- on_fdev h (on_usr (copy_to_user arg port_pr minsz)) ;;
            if fault : bool then kret (- EFAULT) else kret (fst r)
  end.

Definition fme_pr_ioctl (h cmd arg : Z) : K world Z :=
  if cmd =? FPGA_FME_PORT_PR then fme_pr h arg else kret (- ENODEV).

(** ** The feature *)

Definition fpga_fme_pr_probe : K fme Z :=
  on_pd mutex_lock ;;
  get_fme ;;
  fme_pr <- pr_base ;;
  csr <- mmio_readq fme_pr (pr_reg "header") ;;
  (if fget feature_header "revision" csr =? 2
   then mod_fme (set_pr_mode 64 true)
   else mod_fme (fun f => set_pr_mode 4 (pr_avx512 f) f)) ;;
  ret <- fpga_mgr_register (mgre env) fme_pr_ops "Intel FPGA Manager" ;;
  on_pd mutex_unlock ;;
  kret ret.

Definition fpga_fme_pr_remove : K fme unit := fpga_mgr_unregister fme_pr_ops.

Definition pr_mgmt_init : K fme Z :=
  ret <- fpga_fme_pr_probe ;;
  if istrue ret then kret ret
  else
    ret <- sysfs_create_files (pe env) pr_mgmt_attrs ;;
    (if istrue ret then fpga_fme_pr_remove else kret tt) ;;
    kret ret.

Definition pr_mgmt_uinit : K fme unit := sysfs_remove_files pr_mgmt_attrs ;; fpga_fme_pr_remove.
End FmePr.
