(* ===== verification/Fme.v ===== *)
(** * The FPGA management engine's driver (fme-main.c)

    The file operations of the FME (open, release, ioctl), the table of its
    feature drivers and the probe and remove of the platform device, built from
    the features of FmeAttrs.v, FmeError.v, FmePerf.v and FmePr.v and the open
    protocol and binding of FeatureDev.v and FeatureInit.v.  The ioctls that
    change ports run on the PCI function (PciePort.v): [h] is the FME's device
    handle there. *)

From stdpp Require Import gmultiset.
From S2P Require Import Prelude.
From S2P Require Import Bitfield.
From S2P Require Import Registers.
From S2P Require Import Mmio.
From S2P Require Import UserMem.
From S2P Require Import Sysfs.
From S2P Require Import FeatureDev.
From S2P Require Import FeatureInit.
From S2P Require Import Msix.
From S2P Require Import AfuTypes.
From S2P Require Import DmaRegion.
From S2P Require Import PortEnv.
From S2P Require Import PcieTypes.
From S2P Require Import PciePort.
From S2P Require Import FpgaMgr.
From S2P Require Import FmeTypes.
From S2P Require Import FmeAttrs.
From S2P Require Import FmeError.
From S2P Require Import FmePerf.
From S2P Require Import FmePr.
Local Open Scope string_scope.
Local Open Scope Z_scope.

(** The [struct feature_ops] of the FME. *)
Inductive fme_op :=
| fme_hdr_ops | thermal_mgmt_ops | power_mgmt_ops | global_error_ops | pr_mgmt_ops
| global_iperf_ops | hssi_mgmt_ops | global_dperf_ops | qspi_flash_ops | emif_ops
| pac_hssi_mgmt_ops | s10_sdm_mgmt_ops | avmmi_bmc_ops | ehip_ops | max10_spi_ops
| mac_rom_i2c_ops | phy_group_ops.

#[export] Instance fme_op_eq_dec : EqDecision fme_op.
Proof. solve_decision. Defined.

Definition fme_feature_drvs : list (feature_driver fme_op) :=
  [FeatureDrv "fme_hdr" fme_hdr_ops; FeatureDrv "fme_thermal" thermal_mgmt_ops;
   FeatureDrv "fme_power" power_mgmt_ops; FeatureDrv "fme_error" global_error_ops;
   FeatureDrv "fme_pr" pr_mgmt_ops; FeatureDrv "fme_iperf" global_iperf_ops;
   FeatureDrv "fme_hssi" hssi_mgmt_ops; FeatureDrv "fme_dperf" global_dperf_ops;
   FeatureDrv "fme_qspi_flash" qspi_flash_ops; FeatureDrv "fme_emif" emif_ops;
   FeatureDrv "fme_pac_hssi" pac_hssi_mgmt_ops; FeatureDrv "fme_s10_sdm_mb" s10_sdm_mgmt_ops;
   FeatureDrv "fme_avmmi_bmc" avmmi_bmc_ops; FeatureDrv "fme_100g_ehip" ehip_ops;
   FeatureDrv "fme_max10_spi" max10_spi_ops; FeatureDrv "fme_mac_rom_i2c" mac_rom_i2c_ops;
   FeatureDrv "fme_phy_group" phy_group_ops].

Section Fme.
Context {D : Type} {dev : Mmio D} {wide : Mmio512 D} {ks : Kstrto} {sb : Strtobool}.
Variable env : fme_env.
Variable penv : pci_env.
Abbreviation fme := (platform_device fme_op fpga_fme (afu_world (fme_hw D))).
Abbreviation world := (pci_world fme_op fpga_fme (afu_world (fme_hw D))).

(** The callbacks on the device; the ioctls of the features are
    [fme_ops_ioctl], which needs the PCI function. *)
#[export] Instance fme_feature_ops : FeatureOps fme_op fpga_fme (afu_world (fme_hw D)) := {|
  ops_test _ := None;
  ops_init o i :=
    match o with
    | fme_hdr_ops => fme_hdr_init env i
    | thermal_mgmt_ops => thermal_mgmt_init env
    | power_mgmt_ops => power_mgmt_init env
    | global_error_ops => global_error_init env i
    | pr_mgmt_ops => pr_mgmt_init env
    | global_iperf_ops => fme_iperf_init env
    | hssi_mgmt_ops => hssi_mgmt_init
    | global_dperf_ops => fme_dperf_init env
    | qspi_flash_ops => qspi_flash_init env i
    | emif_ops => emif_init env
    | pac_hssi_mgmt_ops => pac_hssi_mgmt_init env i
    | s10_sdm_mgmt_ops => s10_sdm_init
    | avmmi_bmc_ops => avmmi_bmc_init env i
    | ehip_ops => ehip_init
    | max10_spi_ops => max10_spi_init
    | mac_rom_i2c_ops => mac_rom_i2c_init
    | phy_group_ops => phy_group_init
    end;
  ops_uinit o i :=
    match o with
    | fme_hdr_ops => fme_hdr_uinit
    | thermal_mgmt_ops => thermal_mgmt_uinit
    | power_mgmt_ops => power_mgmt_uinit
    | global_error_ops => global_error_uinit
    | pr_mgmt_ops => pr_mgmt_uinit
    | global_iperf_ops => fme_iperf_uinit
    | hssi_mgmt_ops => hssi_mgmt_uinit
    | global_dperf_ops => fme_dperf_uinit
    | qspi_flash_ops => qspi_flash_uinit i
    | emif_ops => emif_uinit
    | pac_hssi_mgmt_ops => pac_hssi_mgmt_uinit i
    | s10_sdm_mgmt_ops => s10_sdm_uinit
    | avmmi_bmc_ops => avmmi_bmc_uinit i
    | ehip_ops => ehip_uinit
    | max10_spi_ops => max10_spi_uinit
    | mac_rom_i2c_ops => mac_rom_i2c_uinit
    | phy_group_ops => phy_group_uinit
    end;
  ops_ioctl _ := None;
|}.

(** The ioctl callbacks: the device, the feature's index, the command and its
    argument. *)
Definition fme_ops_ioctl (o : fme_op) : option (Z -> Z -> Z -> Z -> K world Z) :=
  match o with
  | global_error_ops => Some (fun h i cmd arg => on_fdev h (global_error_ioctl env i cmd arg))
  | pr_mgmt_ops => Some (fun h _ cmd arg => fme_pr_ioctl env h cmd arg)
  | _ => None
  end.

(** ** ioctl *)

Definition fme_ioctl_check_extension (h arg : Z) : K world Z := kret 0.

Definition fme_ioctl_get_info (h arg : Z) : K world Z :=
  let minsz := offsetofend fpga_fme_info "capability" in
  info <- on_fdev h (on_usr (copy_from_user arg minsz)) ;;
  match info with
  | None => kret (- EFAULT)
  | Some info =>
      if fget fpga_fme_info "argsz" info <? minsz then kret (- EINVAL)
      else
        on_fdev h (on_pd mutex_lock) ;;
        f <- on_fdev h get_fme ;;
        let info := fset fpga_fme_info "capability" (fme_capability f) (fset fpga_fme_info "flags" 0 info) in
        on_fdev h (on_pd mutex_unlock) ;;
        fault <- on_fdev h (on_usr (copy_to_user arg info (sizeof_reg fpga_fme_info))) ;;
        if fault : bool then kret (- EFAULT) else kret 0
  end.

Definition fme_ioctl_config_port (h port_id flags : Z) (is_release : bool) : K world Z :=
  if istrue flags then kret (- EINVAL)
  else
    fme_hdr <- fme_header_of h ;;
    csr <- pci_readq fme_hdr (offsetof feature_fme_header "capability") ;;
    if fget feature_fme_capability "num_ports" csr <=? port_id then kret (- EINVAL)
    else config_port penv h port_id is_release.

(** FPGA_FME_PORT_RELEASE and FPGA_FME_PORT_ASSIGN. *)
Definition ioctl_port (r : reg) (is_release : bool) (h arg : Z) : K world Z :=
  let minsz := offsetofend r "port_id" in
  v <- on_fdev h (on_usr (copy_from_user arg minsz)) ;;
  match v with
  | None => kret (- EFAULT)
  | Some v =>
      if fget r "argsz" v <? minsz then kret (- EINVAL)
      else fme_ioctl_config_port h (fget r "port_id" v) (fget r "flags" v) is_release
  end.
Definition fme_ioctl_release_port : Z -> Z -> K world Z := ioctl_port fpga_fme_port_release true.
Definition fme_ioctl_assign_port : Z -> Z -> K world Z := ioctl_port fpga_fme_port_assign false.

(** fpga_dev_for_each_feature from feature [i], [n] to go. *)
Fixpoint fme_ioctl_features (n : nat) (i h cmd arg : Z) : K world Z :=
  match n with
  | O => kret (- EINVAL)
  | S n =>
      f <- on_fdev h (on_pd (get_feature i)) ;;
      match f_ops f ≫= fme_ops_ioctl with
      | Some ioctl =>
          ret <- ioctl h i cmd arg ;;
          if ret =? - ENODEV then fme_ioctl_features n (i + 1) h cmd arg else kret ret
      | None => fme_ioctl_features n (i + 1) h cmd arg
      end
  end.

Definition fme_ioctl (h cmd arg : Z) : K world Z :=
  if cmd =? FPGA_GET_API_VERSION then kret FPGA_API_VERSION
  else if cmd =? FPGA_CHECK_EXTENSION then fme_ioctl_check_extension h arg
  else if cmd =? FPGA_FME_GET_INFO then fme_ioctl_get_info h arg
  else if cmd =? FPGA_FME_PORT_RELEASE then fme_ioctl_release_port h arg
  else if cmd =? FPGA_FME_PORT_ASSIGN then fme_ioctl_assign_port h arg
  else
    n <- on_fdev h (on_pd (kgets num)) ;;
    fme_ioctl_features (Z.to_nat n) 0 h cmd arg.

(** ** open and release *)

Definition fme_open (o_excl : bool) : K fme Z :=
  on_pd (if o_excl then feature_dev_use_excl_begin else feature_dev_use_begin).

Definition fme_release : K fme Z :=
  on_pd mutex_lock ;;
  on_pd __feature_dev_use_end ;;
  n <- on_pd (kgets open_count) ;;
  (if istrue n then kret tt
   else
     f <- on_pd (get_feature FME_FEATURE_ID_GLOBAL_ERR) ;;
     on_msix FME_FEATURE_ID_GLOBAL_ERR (fpga_msix_set_block (irqe (pe env)) 0 (f_ctx_num f) None) ;;
     kret tt) ;;
  on_pd mutex_unlock ;;
  kret 0.

(** ** probe and remove *)

(** devm_kzalloc: a zeroed structure. *)
Definition zeroed_fme : fpga_fme := FpgaFme 0 0 0 0 false false None None.

Definition fme_dev_init : K fme Z :=
  if negb (devm_kzalloc_ok (pe env)) then kret (- ENOMEM)
  else
    on_pd mutex_lock ;;
    on_pd (fpga_pdata_set_private (Some zeroed_fme)) ;;
    on_pd mutex_unlock ;;
    kret 0.

Definition fme_dev_destroy : K fme unit :=
  on_pd mutex_lock ;;
  on_pd fpga_pdata_get_private ;;
  on_pd (fpga_pdata_set_private None) ;;
  on_pd mutex_unlock.

Definition fme_probe : K fme Z :=
  ret <- fme_dev_init ;;
  if istrue ret then kret ret
  else
    ret <- fpga_dev_feature_init fme_feature_drvs ;;
    if istrue ret then fme_dev_destroy ;; kret ret
    else
      let ret := register_dev_ops_ret (pe env) in
      if istrue ret then
        fpga_dev_feature_uinit ;; fme_dev_destroy ;; kret ret
      else kret 0.

Definition fme_remove : K fme Z :=
  fpga_dev_feature_uinit ;; fme_dev_destroy ;; kret 0.
End Fme.
