(* ===== verification/PortSpec.v ===== *)
(** * The contract of port assignment, and its refinement (pcie.c)

    What the FME ioctls, SR-IOV and the opens of port devices promise together,
    as a small executable machine over who uses which port; and the proof that
    the driver of PciePort.v and the open protocol of FeatureDev.v implement it,
    result code by result code, over every sequence of commands.  The machine
    knows nothing of devices, reference counts, locks or registers. *)

From S2P Require Import Prelude.
From S2P Require Import Bitfield.
From S2P Require Import Registers.
From S2P Require Import Mmio.
From S2P Require Import FeatureDev.
From S2P Require Import PcieTypes.
From S2P Require Import PciePort.
From S2P Require Import PcieExample.
From S2P Require Import PcieSpec.

(** ** The contract *)

(** A port belongs to the physical function and has no opener, some, or an
    exclusive one; or it is released. *)
Inductive port_use := Closed | Shared (n : Z) | Exclusive | Released.

#[export] Instance port_use_eq_dec : EqDecision port_use.
Proof. solve_decision. Defined.

(** A port: its device, number, whether it is being unplugged, and its use. *)
Record port_entry := Entry { e_dev : Z; e_no : Z; e_gone : bool; e_use : port_use }.

(** The ports in the driver's order, the numbers that are set to a virtual
    function, and how many virtual functions the PCI core runs. *)
Record ports := Ports { entries : list port_entry; vfs : gset Z; vfs_on : Z }.

Section Contract.
Variable add_ret : Z -> Z.     (* the device core's answer to a registration *)
Variable sriov_ret : Z -> Z.   (* the PCI core's answer to enabling VFs *)

Definition entry_no (i : Z) (s : ports) : option port_entry :=
  head (filter (fun e => e_no e = i) (entries s)).
Definition entry_dev (h : Z) (s : ports) : option port_entry :=
  head (filter (fun e => e_dev e = h) (entries s)).

Definition set_use (h : Z) (u : port_use) (s : ports) : ports :=
  Ports (map (fun e => if e_dev e =? h then Entry (e_dev e) (e_no e) (e_gone e) u else e) (entries s))
    (vfs s) (vfs_on s).

Definition spec_release (i : Z) (s : ports) : Z * ports :=
  match entry_no i s with
  | None => (- EINVAL, s)
  | Some e =>
      match e_use e with
      | Closed => if e_gone e then (- EBUSY, s) else (0, set_use (e_dev e) Released s)
      | _ => (- EBUSY, s)
      end
  end.

Definition spec_assign (i : Z) (s : ports) : Z * ports :=
  if decide (i ∈ vfs s) then (- EBUSY, s)
  else
    match entry_no i s with
    | None => (- EINVAL, s)
    | Some e =>
        match e_use e with
        | Released =>
            if istrue (add_ret (e_dev e)) then (add_ret (e_dev e), s)
            else (0, set_use (e_dev e) Closed s)
        | _ => (- EBUSY, s)
        end
    end.

(** The numbers of the released ports. *)
Definition released (s : ports) : list Z := map e_no (filter (fun e => e_use e = Released) (entries s)).

Definition spec_sriov (n : Z) (s : ports) : Z * ports :=
  let back := vfs s ∖ list_to_set (released s) in
  if Z.of_nat (length (released s)) <? n then (- EBUSY, s)
  else if n =? 0 then (0, Ports (entries s) back 0)
  else if istrue (sriov_ret n) then (sriov_ret n, Ports (entries s) back (vfs_on s))
  else (n, Ports (entries s) (vfs s ∪ list_to_set (take (Z.to_nat n) (released s))) n).

Definition spec_open (excl : bool) (e : port_entry) (s : ports) : Z * ports :=
  match e_use e, e_gone e, excl with
  | Closed, false, true => (0, set_use (e_dev e) Exclusive s)
  | Closed, false, false => (0, set_use (e_dev e) (Shared 1) s)
  | Shared n, false, false => (0, set_use (e_dev e) (Shared (n + 1)) s)
  | _, _, _ => (- EBUSY, s)
  end.

Definition spec_close (e : port_entry) (s : ports) : option (Z * ports) :=
  match e_use e with
  | Exclusive => Some (0, set_use (e_dev e) Closed s)
  | Shared n => Some (0, set_use (e_dev e) (if n =? 1 then Closed else Shared (n - 1)) s)
  | Closed | Released => None
  end.

Inductive port_cmd :=
| CRelease (i : Z) | CAssign (i : Z) | CSriov (n : Z) | COpen (excl : bool) (h : Z) | CClose (h : Z).

(** What a command does; none when it cannot be issued: a port number the
    num_ports field of the FME (3 bits) does not allow, a negative number of
    VFs, a device that is not a port, a close without an open. *)
Definition spec_cmd (c : port_cmd) (s : ports) : option (Z * ports) :=
  match c with
  | CRelease i => if (0 <=? i) && (i <? 8) then Some (spec_release i s) else None
  | CAssign i => if (0 <=? i) && (i <? 8) then Some (spec_assign i s) else None
  | CSriov n => if 0 <=? n then Some (spec_sriov n s) else None
  | COpen excl h => e ← entry_dev h s; Some (spec_open excl e s)
  | CClose h => entry_dev h s ≫= fun e => spec_close e s
  end.

Fixpoint spec_run (cs : list port_cmd) (s : ports) : option (list Z * ports) :=
  match cs with
  | [] => Some ([], s)
  | c :: cs =>
      match spec_cmd c s with
      | Some (r, s1) => match spec_run cs s1 with Some (rs, s2) => Some (r :: rs, s2) | None => None end
      | None => None
      end
  end.
End Contract.

(** ** The driver *)

Section Refine.
Context {Op P D : Type} {dev : Mmio D} {ok : MmioOk D} {mem : MmioMem D}.
Variable env : pci_env.
Variable fme : Z.
Abbreviation world := (pci_world Op P D).
Implicit Types w : world.

Definition run_cmd (c : port_cmd) : K world Z :=
  match c with
  | CRelease i => config_port env fme i true
  | CAssign i => config_port env fme i false
  | CSriov n => cci_pci_sriov_configure env n
  | COpen excl h => on_fdev h (open_of excl)
  | CClose h => on_fdev h (on_pd feature_dev_use_end) ;; kret 0
  end.

Fixpoint run_cmds (cs : list port_cmd) : K world (list Z) :=
  match cs with
  | [] => kret []
  | c :: cs => r <- run_cmd c ;; rs <- run_cmds cs ;; kret (r :: rs)
  end.

(** ** The abstraction *)

Definition pdata_of w (h : Z) : option (feature_platform_data Op P) := pdevs w !! h ≫= dev_pdata.

Definition use_of_counts (excl count : Z) : port_use :=
  if istrue excl then Exclusive else if count =? 0 then Closed else Shared count.

Definition use_of w (h : Z) : port_use :=
  if is_registered w h then
    match pdata_of w h with
    | Some p => use_of_counts (excl_open p) (open_count p)
    | None => Closed
    end
  else Released.

Definition gone_of w (h : Z) : bool :=
  match pdata_of w h with Some p => unplug p | None => false end.

Definition entry_of w (h : Z) : port_entry := Entry h (port_no w h) (gone_of w h) (use_of w h).

Definition vf_set w : gset Z :=
  list_to_set (filter (fun i => access w fme i = FME_AFU_ACCESS_VF) (seqZ 0 8)).

Definition abs (l : list Z) w : ports := Ports (map (entry_of w) l) (vf_set w) (num_vfs_on (pfunc w)).

Lemma elem_vf_set w i : i ∈ vf_set w <-> 0 <= i < 8 /\ access w fme i = FME_AFU_ACCESS_VF.
Proof. unfold vf_set. rewrite elem_of_list_to_set, list_elem_of_filter, elem_of_seqZ. lia. Qed.

Lemma entry_no_abs l w i :
  entry_no i (abs l w) = entry_of w <$> head (filter (fun h => port_no w h = i) l).
Proof.
  unfold entry_no. simpl. induction l as [|h l IH]; [done|]. simpl. rewrite !filter_cons. simpl.
  by destruct (decide (port_no w h = i)).
Qed.

Lemma entry_dev_abs l w h e : entry_dev h (abs l w) = Some e -> h ∈ l /\ e = entry_of w h.
Proof.
  unfold entry_dev. simpl. induction l as [|x l IH]; [done|]. simpl. rewrite !filter_cons. simpl.
  destruct (decide (x = h)) as [->|Hne].
  - intros [= <-]. split; [left | done].
  - intros [? ->]%IH. split; [by right | done].
Qed.

Lemma use_released w h : use_of w h = Released <-> is_registered w h = false.
Proof.
  unfold use_of. destruct (is_registered w h); [|done].
  destruct (pdata_of w h) as [p|]; [|done].
  unfold use_of_counts. destruct (istrue (excl_open p)); [done|]. by destruct (open_count p =? 0).
Qed.

Lemma released_abs l w : released (abs l w) = map (port_no w) (free_ports w l).
Proof.
  unfold released, free_ports. simpl. induction l as [|h l IH]; [done|].
  cbn [map]. rewrite !filter_cons. pose proof (use_released w h) as E. simpl e_use.
  destruct (decide (use_of w h = Released)), (decide (is_registered w h = false)); try tauto.
  simpl. by rewrite IH.
Qed.

(** A change of one port's use. *)
Record use_change w w' (h : Z) (u : port_use) : Prop := {
  uc_no : forall x, port_no w' x = port_no w x;
  uc_gone : forall x, gone_of w' x = gone_of w x;
  uc_use : forall x, use_of w' x = if decide (x = h) then u else use_of w x;
  uc_access : forall i, access w' fme i = access w fme i;
  uc_on : pfunc w' = pfunc w;
}.

Lemma abs_use_change l w w' h u : use_change w w' h u -> abs l w' = set_use h u (abs l w).
Proof.
  intros [Hno Hg Hu Ha Hon]. unfold abs, set_use. simpl. f_equal; [| |by rewrite Hon].
  - rewrite map_map. apply map_ext. intros x. unfold entry_of. simpl. rewrite Hno, Hg, Hu.
    destruct (decide (x = h)) as [->|Hne]; [by rewrite Z.eqb_refl | by rewrite (proj2 (Z.eqb_neq _ _) Hne)].
  - apply set_eq. intros i. by rewrite !elem_vf_set, Ha.
Qed.

(** Replacing one device that keeps its features and its unplug flag. *)
Lemma device_use_change w w' h d d' p p' :
  pdevs w !! h = Some d -> dev_pdata d = Some p ->
  pdevs w' = <[h := d']> (pdevs w) -> dev_pdata d' = Some p' ->
  phw w' = phw w -> pfunc w' = pfunc w -> features p' = features p -> unplug p' = unplug p ->
  use_change w w' h (if dev_registered d' then use_of_counts (excl_open p') (open_count p') else Released).
Proof.
  intros Hd Hp Hpd Hp' Hw Hf Hfe Hun.
  assert (forall x, hdr_at w' x = hdr_at w x) as Hh.
  { intros x. unfold hdr_at. rewrite Hpd. destruct (decide (h = x)) as [<-|Hne].
    - by rewrite lookup_insert_eq, Hd, Hp, Hp', Hfe.
    - by rewrite lookup_insert_ne. }
  split.
  - intros x. unfold port_no, cap_addr, rd. by rewrite Hh, Hw.
  - intros x. unfold gone_of, pdata_of. rewrite Hpd. destruct (decide (h = x)) as [<-|Hne].
    + rewrite lookup_insert_eq, Hd. simpl. by rewrite Hp, Hp'.
    + by rewrite lookup_insert_ne.
  - intros x. unfold use_of, is_registered, pdata_of. rewrite Hpd. destruct (decide (x = h)) as [->|Hne].
    + rewrite lookup_insert_eq. simpl. by rewrite Hp'.
    + by rewrite lookup_insert_ne by congruence.
  - intros i. unfold access, port_reg_addr, rd. by rewrite Hh, Hw.
  - done.
Qed.

(** ** Each command *)

(** The concrete command gives the abstract result and ends in a state of the
    same ports that abstracts to the abstract one. *)
Definition refines dd w (c : K world Z) (rs : Z * ports) : Prop := exists w' dd',
  c w = Some (fst rs, w') /\ assign_inv fme dd' w' /\
  port_dev_list dd' = port_dev_list dd /\ abs (port_dev_list dd) w' = snd rs.

Lemma refines_same dd w (c : K world Z) r :
  assign_inv fme dd w -> c w = Some (r, w) -> refines dd w c (r, abs (port_dev_list dd) w).
Proof. intros I H. by exists w, dd. Qed.

Lemma port_no_inj dd w h h' :
  assign_inv fme dd w -> h ∈ port_dev_list dd -> h' ∈ port_dev_list dd ->
  port_no w h = port_no w h' -> h = h'.
Proof.
  intros I [i Hi]%list_elem_of_lookup_1 [j Hj]%list_elem_of_lookup_1 E.
  assert (i = j) as ->; [|congruence].
  eapply (NoDup_lookup _ _ _ (port_no w h) (ai_ids _ _ _ I)); rewrite list_lookup_fmap.
  - by rewrite Hi.
  - by rewrite Hj, E.
Qed.

Lemma named_port dd w i h : port_named dd w i = Some h -> h ∈ port_dev_list dd /\ port_no w h = i.
Proof. apply found_port. Qed.

(** The use of a registered port is closed exactly when nobody has it open. *)
Lemma closed_in_use dd w h :
  assign_inv fme dd w -> h ∈ port_dev_list dd ->
  match use_of w h with
  | Closed => is_registered w h = true /\ in_use w h = gone_of w h
  | Shared _ | Exclusive => is_registered w h = true /\ in_use w h = true
  | Released => is_registered w h = false
  end.
Proof.
  intros I Hin. destruct (ai_ports _ _ _ I h Hin) as (d & p & (Hd & Hp & _) & _ & _ & Hu).
  unfold use_of, in_use, gone_of, pdata_of, is_registered. rewrite Hd. simpl. rewrite Hp.
  destruct (dev_registered d); [|done]. unfold use_of_counts.
  destruct Hu as (_ & Hc & [->|[-> ->]]); [|done]. cbn [istrue Z.eqb negb].
  unfold istrue. by destruct (open_count p =? 0).
Qed.

(** The abstract release, in the terms of the driver. *)
Lemma spec_release_abs dd w i :
  assign_inv fme dd w ->
  spec_release i (abs (port_dev_list dd) w) =
  (detach_code dd i w,
   if istrue (detach_code dd i w) then abs (port_dev_list dd) w
   else match port_named dd w i with
        | Some h => set_use h Released (abs (port_dev_list dd) w)
        | None => abs (port_dev_list dd) w
        end).
Proof.
  intros I. unfold spec_release, detach_code. rewrite entry_no_abs. fold (port_named dd w i).
  destruct (port_named dd w i) as [h|] eqn:Hh; [|done]. simpl.
  apply named_port in Hh as [Hin _]. pose proof (closed_in_use dd w h I Hin) as Hc.
  destruct (use_of w h); [destruct Hc as [-> ->]..|by rewrite Hc]; try done.
  by destruct (gone_of w h).
Qed.

Lemma release_refines dd w i :
  assign_inv fme dd w -> refines dd w (config_port env fme i true) (spec_release i (abs (port_dev_list dd) w)).
Proof.
  intros I. rewrite spec_release_abs by done.
  destruct (detach_run fme dd i w I) as (ret & w' & Hrun & Ho).
  destruct (detach_inv fme dd i w ret w' I Ho) as [dd' I'].
  destruct Ho as (Hret & [[Hne ->]|(H0 & h & d & p & Hin & Hno & (Hd & Hp & _) & Hr & Hc & ->)]).
  - rewrite <- Hret. unfold istrue. rewrite (proj2 (Z.eqb_neq _ _) Hne). by apply refines_same.
  - rewrite <- Hret, H0. rewrite H0 in Hrun, Hret. eexists _, dd'. split_and!; [exact Hrun | done | |].
    + pose proof (ai_drv _ _ _ I') as E. simpl in E. by injection E as <-.
    + cbn [snd istrue Z.eqb negb].
      destruct (port_named dd w i) as [h'|] eqn:Hn; [|unfold detach_code in Hret; by rewrite Hn in Hret].
      apply named_port in Hn as [Hin' Hno'].
      assert (h' = h) as -> by (by apply (port_no_inj dd w); [..|congruence]).
      apply abs_use_change.
      eapply (device_use_change w _ h d (released_dev d p) p); eauto.
Qed.

(** The abstract assignment, in the terms of the driver. *)
Lemma spec_assign_abs dd w i :
  assign_inv fme dd w -> 0 <= i < 8 ->
  spec_assign (platform_device_add_ret env) i (abs (port_dev_list dd) w) =
  (attach_code env fme dd i w,
   if istrue (attach_code env fme dd i w) then abs (port_dev_list dd) w
   else match port_named dd w i with
        | Some h => set_use h Closed (abs (port_dev_list dd) w)
        | None => abs (port_dev_list dd) w
        end).
Proof.
  intros I Hi. unfold spec_assign, attach_code. rewrite entry_no_abs. fold (port_named dd w i).
  destruct (Z.eqb_spec (access w fme i) FME_AFU_ACCESS_VF) as [Hv|Hv].
  { rewrite decide_True by (by apply elem_vf_set). done. }
  rewrite decide_False by (intros H%elem_vf_set; tauto).
  destruct (port_named dd w i) as [h|] eqn:Hh; [|done]. simpl.
  apply named_port in Hh as [Hin _]. pose proof (closed_in_use dd w h I Hin) as Hc.
  destruct (use_of w h); [destruct Hc as [-> _]..|rewrite Hc]; try done.
  unfold istrue. destruct (Z.eqb_spec (platform_device_add_ret env h) 0) as [->|]; done.
Qed.

Lemma assign_refines dd w i :
  assign_inv fme dd w -> 0 <= i < 8 ->
  refines dd w (config_port env fme i false)
    (spec_assign (platform_device_add_ret env) i (abs (port_dev_list dd) w)).
Proof.
  intros I Hi. rewrite spec_assign_abs by done.
  destruct (attach_run env fme dd i w I) as (ret & w' & Hrun & Ho).
  destruct (attach_inv env fme dd i w ret w' I Ho) as [dd' I'].
  destruct Ho as (Hret & [[Hne ->]|(H0 & h & d & p & Hin & Hno & (Hd & Hp & _) & Hr & Hpf & ->)]).
  - rewrite <- Hret. unfold istrue. rewrite (proj2 (Z.eqb_neq _ _) Hne). by apply refines_same.
  - destruct (ai_ports _ _ _ I h Hin) as (d0 & p0 & (Hd0 & Hp0 & _) & _ & _ & Hu).
    assert (d0 = d) as -> by congruence. assert (p0 = p) as -> by congruence. rewrite Hr in Hu. destruct Hu as [_ Hc].
    rewrite <- Hret, H0. rewrite H0 in Hrun, Hret. eexists _, dd'. split_and!; [exact Hrun | done | |].
    + pose proof (ai_drv _ _ _ I') as E. simpl in E. by injection E as <-.
    + cbn [snd istrue Z.eqb negb].
      destruct (port_named dd w i) as [h'|] eqn:Hn.
      2: { unfold attach_code in Hret. rewrite Hn in Hret. by destruct (access w fme i =? _). }
      apply named_port in Hn as [Hin' Hno'].
      assert (h' = h) as -> by (by apply (port_no_inj dd w); [..|congruence]).
      assert (Closed = use_of_counts 0 (open_count p - 1)) as -> by (by rewrite Hc).
      apply abs_use_change.
      eapply (device_use_change w _ h d (assigned d p) p (set_open_count (open_count p - 1) (set_excl_open 0 p)));
        eauto.
Qed.

(** Reconfiguring changes nothing but the set of virtual functions. *)
Lemma abs_reconfigured dd w w' f (v : gset Z) :
  assign_inv fme dd w -> reconfigured fme f w w' ->
  (forall i, 0 <= i < 8 -> f i = FME_AFU_ACCESS_VF <-> i ∈ v) -> (forall i, i ∈ v -> 0 <= i < 8) ->
  abs (port_dev_list dd) w' = Ports (entries (abs (port_dev_list dd) w)) v (num_vfs_on (pfunc w')).
Proof.
  intros I ([d Hw] & Hacc & Hrd) Hf Hv. unfold abs. simpl. f_equal.
  - apply map_ext_in. intros h Hin%list_elem_of_In.
    assert (pdevs w' = pdevs w) as Hp by (by rewrite Hw).
    unfold entry_of, port_no, gone_of, use_of, is_registered, pdata_of, cap_addr, hdr_at.
    rewrite Hp. f_equal. f_equal. apply Hrd. intros i Hi. by apply (ai_alias _ _ _ I).
  - apply set_eq. intros i. rewrite elem_vf_set, Hacc. split.
    + intros [Hi E]. by apply Hf.
    + intros Hi. split; [by apply Hv | by apply Hf; [apply Hv|]].
Qed.

Lemma released_ids_small dd w i : i ∈ released_ids dd w -> 0 <= i < 8.
Proof.
  intros Hi. pose proof (vf_numbers_range w (port_dev_list dd)) as H.
  rewrite list.Forall_forall in H. specialize (H i Hi). simpl in H. lia.
Qed.

(** The access control bits after the released ports went back to the PF. *)
Lemma vfs_back dd w i : 0 <= i < 8 ->
  (if decide (i ∈ released_ids dd w) then FME_AFU_ACCESS_PF else access w fme i) = FME_AFU_ACCESS_VF <->
  i ∈ vf_set w ∖ list_to_set (released_ids dd w).
Proof.
  intros Hi. rewrite elem_of_difference, elem_vf_set, elem_of_list_to_set.
  destruct (decide (i ∈ released_ids dd w)); [|tauto].
  split; [done | tauto].
Qed.

Lemma sriov_refines dd w n :
  assign_inv fme dd w -> 0 <= n ->
  refines dd w (cci_pci_sriov_configure env n)
    (spec_sriov (pci_enable_sriov_ret env) n (abs (port_dev_list dd) w)).
Proof.
  intros I Hn. destruct (sriov_run env fme dd n w I Hn) as (ret & w' & Hrun & Ho).
  pose proof (sriov_inv env fme dd n w ret w' I Ho) as I'.
  assert (forall x, x ∈ vf_set w ∖ list_to_set (released_ids dd w) -> 0 <= x < 8) as Hsub
    by (intros x; rewrite elem_of_difference, elem_vf_set; tauto).
  unfold sriov_outcome in Ho. unfold spec_sriov. rewrite released_abs.
  rewrite length_map, <- (ai_count _ _ _ I). fold (vf_numbers w (port_dev_list dd)).
  fold (released_ids dd w). cbn [vfs vfs_on abs].
  assert (forall r s, ret = r -> abs (port_dev_list dd) w' = s ->
    refines dd w (cci_pci_sriov_configure env n) (r, s)) as Hend by (intros r s <- <-; by exists w', dd).
  destruct (released_port_num dd <? n).
  { destruct Ho as [-> ->]. by apply Hend. }
  destruct (n =? 0); [|destruct (istrue (pci_enable_sriov_ret env n))];
    destruct Ho as (Hret & Hon & Hrec); apply Hend; try done.
  - rewrite <- Hon. eapply abs_reconfigured; [done | exact Hrec | by intros; apply vfs_back | done].
  - rewrite <- Hon. eapply abs_reconfigured; [done | exact Hrec | by intros; apply vfs_back | done].
  - rewrite <- Hon at 2. eapply abs_reconfigured; [done | exact Hrec | |].
    + intros i Hi. rewrite elem_of_union, elem_vf_set, elem_of_list_to_set.
      destruct (decide (i ∈ take (Z.to_nat n) (released_ids dd w))); [|tauto]. split; [by right | done].
    + intros i. rewrite elem_of_union, elem_vf_set, elem_of_list_to_set.
      intros [[]|Hi%elem_of_take_in%released_ids_small]; done.
Qed.

(** Opening and closing a port: the driver's counters move as [u] says. *)
Lemma counts_refine {A} dd w h d p p' (c : K (platform_device Op P D) A) a :
  assign_inv fme dd w -> h ∈ port_dev_list dd -> pdevs w !! h = Some d -> dev_pdata d = Some p ->
  c (Pdev p (phw w)) = Some (a, Pdev p' (phw w)) ->
  features p' = features p -> unplug p' = unplug p -> lock p' = false ->
  (if dev_registered d then use_wf p' else excl_open p' = 1 /\ open_count p' = 1) ->
  exists w', on_fdev h c w = Some (a, w') /\ assign_inv fme dd w' /\
    abs (port_dev_list dd) w' =
    set_use h (if dev_registered d then use_of_counts (excl_open p') (open_count p') else Released)
      (abs (port_dev_list dd) w).
Proof.
  intros I Hin Hd Hp Hc Hf Hun Hl Hu. eexists. split_and!.
  - exact (on_fdev_run _ _ _ _ _ _ _ Hd Hp Hc).
  - eapply use_change_inv; eauto.
  - apply abs_use_change. eapply (device_use_change w _ h d (set_dev_pdata (Some p') d) p p'); eauto.
Qed.

Definition refused (excl : bool) (p : feature_platform_data Op P) : bool :=
  istrue (if excl then open_count p else excl_open p) || unplug p.
Definition opened (excl : bool) (p : feature_platform_data Op P) : feature_platform_data Op P :=
  set_open_count (open_count p + 1) (if excl then set_excl_open 1 p else p).

Lemma open_run excl (p : feature_platform_data Op P) (x : D) :
  lock p = false ->
  open_of excl (Pdev p x) =
  if refused excl p then Some (- EBUSY, Pdev p x) else Some (0, Pdev (opened excl p) x).
Proof.
  intros Hl. destruct p; simpl in *. subst. destruct excl; unfold open_of, refused, opened; simpl.
  - unfold feature_dev_use_excl_begin. simpl. by destruct (istrue open_count || unplug).
  - unfold feature_dev_use_begin. simpl. by destruct (istrue excl_open || unplug).
Qed.

Lemma spec_open_abs dd w excl h d p :
  assign_inv fme dd w -> h ∈ port_dev_list dd -> pdevs w !! h = Some d -> dev_pdata d = Some p ->
  spec_open excl (entry_of w h) (abs (port_dev_list dd) w) =
  if refused excl p then (- EBUSY, abs (port_dev_list dd) w)
  else (0, set_use h (use_of_counts (excl_open (opened excl p)) (open_count (opened excl p)))
             (abs (port_dev_list dd) w)).
Proof.
  intros I Hin Hd Hp. destruct (ai_ports _ _ _ I h Hin) as (d0 & p0 & (Hd0 & Hp0 & _) & _ & _ & Hu).
  simplify_eq. unfold spec_open, entry_of, use_of, gone_of, is_registered, pdata_of, refused, opened. simpl.
  rewrite Hd. simpl. rewrite Hp. destruct (dev_registered d).
  - destruct Hu as (_ & Hc & [He|[He Ho]]); rewrite ?He, ?Ho; unfold use_of_counts.
    + cbn [istrue Z.eqb negb]. unfold istrue. destruct (Z.eqb_spec (open_count p) 0) as [E|E].
      * rewrite E. destruct excl, (unplug p); simpl; rewrite ?He; done.
      * destruct excl, (unplug p); simpl; rewrite ?(proj2 (Z.eqb_neq _ _) E), ?He; try done.
        by destruct (Z.eqb_spec (open_count p + 1) 0); [lia|].
    + by destruct excl, (unplug p).
  - destruct Hu as [-> ->]. by destruct excl.
Qed.

Lemma open_refines dd w excl h :
  assign_inv fme dd w -> h ∈ port_dev_list dd ->
  refines dd w (on_fdev h (open_of excl)) (spec_open excl (entry_of w h) (abs (port_dev_list dd) w)).
Proof.
  intros I Hin. destruct (ai_ports _ _ _ I h Hin) as (d & p & (Hd & Hp & _) & Hl & _ & Hu).
  rewrite (spec_open_abs dd w excl h d p) by done.
  pose proof (open_run excl p (phw w) Hl) as Hrun. destruct (refused excl p) eqn:Hr.
  - apply refines_same; [done|]. by apply (on_fdev_pure w h d p).
  - assert (dev_registered d = true) as Hreg.
    { destruct (dev_registered d); [done|]. destruct Hu as [He Ho].
      unfold refused in Hr. rewrite He, Ho in Hr. by destruct excl. }
    rewrite Hreg in Hu.
    edestruct (counts_refine dd w h d p (opened excl p) _ _ I Hin Hd Hp Hrun) as (w' & H1 & H2 & H3).
    + by destruct excl.
    + by destruct excl.
    + by destruct excl.
    + rewrite Hreg. unfold refused, istrue in Hr. boolify. destruct Hu as (_ & Hc & He).
      split_and!; [by destruct excl | destruct excl; simpl; lia |].
      destruct excl; simpl in *; [right; lia | left; lia].
    + rewrite Hreg in H3. by exists w', dd.
Qed.

Lemma close_refines dd w h rs :
  assign_inv fme dd w -> h ∈ port_dev_list dd ->
  spec_close (entry_of w h) (abs (port_dev_list dd) w) = Some rs ->
  refines dd w (on_fdev h (on_pd feature_dev_use_end) ;; kret 0) rs.
Proof.
  intros I Hin Hs. destruct (ai_ports _ _ _ I h Hin) as (d & p & (Hd & Hp & _) & Hl & _ & Hu).
  unfold spec_close, entry_of, use_of, is_registered, pdata_of in Hs. simpl in Hs.
  rewrite Hd in Hs. simpl in Hs. rewrite Hp in Hs. destruct (dev_registered d) eqn:Hreg; [|done].
  edestruct (counts_refine dd w h d p (set_open_count (open_count p - 1) (set_excl_open 0 p)) _ _ I Hin Hd Hp
    (use_end_run p (phw w) Hl)) as (w' & H1 & H2 & H3); try done.
  - rewrite Hreg. destruct Hu as (_ & Hc & He). split_and!; simpl; [done| |by left].
    unfold use_of_counts, istrue in Hs. destruct He as [He|[He Ho]]; [|lia]. rewrite He in Hs. simpl in Hs.
    destruct (Z.eqb_spec (open_count p) 0); [done | lia].
  - exists w', dd. unfold kbind. rewrite H1. rewrite Hreg in H3. rewrite H3.
    destruct Hu as (_ & Hc & He). unfold use_of_counts, istrue in Hs |- *. simpl.
    destruct He as [He|[He Ho]]; rewrite He in Hs; simpl in Hs; cycle 1.
    { rewrite Ho. by injection Hs as <-. }
    destruct (Z.eqb_spec (open_count p) 0) as [E|E]; [done|]. injection Hs as <-. split_and!; try done.
    simpl. f_equal. destruct (Z.eqb_spec (open_count p) 1), (Z.eqb_spec (open_count p - 1) 0); (done || lia).
Qed.

(** ** All commands *)

Lemma cmd_refines dd w c rs :
  assign_inv fme dd w ->
  spec_cmd (platform_device_add_ret env) (pci_enable_sriov_ret env) c (abs (port_dev_list dd) w) = Some rs ->
  refines dd w (run_cmd c) rs.
Proof.
  intros I H. destruct c as [i|i|n|excl h|h]; cbn [spec_cmd run_cmd] in *.
  - destruct ((0 <=? i) && (i <? 8)); [|done]. injection H as <-. by apply release_refines.
  - destruct ((0 <=? i) && (i <? 8)) eqn:E; [|done]. boolify. injection H as <-. by apply assign_refines.
  - destruct (0 <=? n) eqn:E; [|done]. boolify. injection H as <-. by apply sriov_refines.
  - destruct (entry_dev h _) as [e|] eqn:E; [|done]. apply entry_dev_abs in E as [Hin ->].
    injection H as <-. by apply open_refines.
  - destruct (entry_dev h _) as [e|] eqn:E; [|done]. apply entry_dev_abs in E as [Hin ->].
    by apply close_refines.
Qed.

Lemma cmds_refine cs dd w rs s' :
  assign_inv fme dd w ->
  spec_run (platform_device_add_ret env) (pci_enable_sriov_ret env) cs (abs (port_dev_list dd) w) = Some (rs, s') ->
  exists w' dd', run_cmds cs w = Some (rs, w') /\ assign_inv fme dd' w' /\
    port_dev_list dd' = port_dev_list dd /\ abs (port_dev_list dd) w' = s'.
Proof.
  revert dd w rs s'. induction cs as [|c cs IH]; intros dd w rs s' I H.
  - injection H as <- <-. by exists w, dd.
  - cbn [spec_run] in H. destruct (spec_cmd _ _ c _) as [[r s1]|] eqn:Ec; [|done].
    destruct (cmd_refines dd w c _ I Ec) as (w1 & dd1 & Hrun & I1 & Hl & Ha). simpl in Ha, Hrun.
    destruct (spec_run _ _ cs s1) as [[rs1 s2]|] eqn:Er; [|done]. injection H as <- <-.
    rewrite <- Ha, <- Hl in Er. destruct (IH dd1 w1 _ _ I1 Er) as (w2 & dd2 & H2 & I2 & Hl2 & Ha2).
    exists w2, dd2. split_and!; [|done|by rewrite Hl2|by rewrite <- Hl].
    cbn [run_cmds]. by rewrite (kbind_run _ _ _ _ _ Hrun), (kbind_run _ _ _ _ _ H2).
Qed.
End Refine.

(** C2: the driver implements the contract of port assignment.  From every state
    of the invariant, a sequence of port releases, assignments, SR-IOV
    configurations, opens and closes that the contract allows runs to its end
    without an oops, every command returns exactly the code the contract gives
    (0, -EINVAL for an unknown port, -EBUSY for a port that is open, unplugged,
    released twice, assigned twice or set to a virtual function, the number of
    virtual functions, or the error of the device core), and the state reached
    abstracts to the state of the contract, with the invariant kept. *)
Theorem port_assignment_refines {Op P D} {dev : Mmio D} {ok : MmioOk D} {mem : MmioMem D}
    env fme dd (w : pci_world Op P D) cs rs s' :
  assign_inv fme dd w ->
  spec_run (platform_device_add_ret env) (pci_enable_sriov_ret env) cs (abs fme (port_dev_list dd) w) = Some (rs, s') ->
  exists w' dd', run_cmds env fme cs w = Some (rs, w') /\ assign_inv fme dd' w' /\
    abs fme (port_dev_list dd') w' = s'.
Proof.
  intros I H. destruct (cmds_refine env fme cs dd w rs s' I H) as (w' & dd' & H1 & H2 & Hl & H3).
  exists w', dd'. by rewrite Hl.
Qed.

(** Port 0 is released, cannot be released or opened again, is turned into a
    virtual function, cannot be assigned, comes back; port 1 is open, so it
    cannot be released; port 3 does not exist. *)
Definition demo_cmds : list port_cmd :=
  [CRelease 0; CRelease 0; COpen false 1; CSriov 1; CAssign 0; CSriov 2; COpen false 2; COpen true 2;
   CRelease 1; CClose 2; CSriov 0; CAssign 0; CAssign 0; CRelease 3; COpen true 1].

Lemma port_assignment_refines_witness :
  assign_inv 0 probed_drv pci_probed /\
  exists w' dd', run_cmds demo_pci_env 0 demo_cmds pci_probed =
    Some ([0; - EBUSY; - EBUSY; 1; - EBUSY; - EBUSY; 0; - EBUSY; - EBUSY; 0; 0; 0; - EBUSY; - EINVAL; 0], w') /\
    assign_inv 0 dd' w'.
Proof.
  split; [exact pci_probed_inv|].
  edestruct (port_assignment_refines demo_pci_env 0 probed_drv pci_probed demo_cmds)
    as (w' & dd' & H1 & H2 & _); [exact pci_probed_inv | vm_compute; reflexivity |].
  exists w', dd'. split; [exact H1 | exact H2].
Defined.
