(* ===== verification/FmeExample.v ===== *)
(** * An FME device used by the witnesses

    Every feature of the FME mapped at its own page, a manager registered by
    nobody, and an empty process. *)

From stdpp Require Import gmultiset.
From S2P Require Import Prelude.
From S2P Require Import Bitfield.
From S2P Require Import Registers.
From S2P Require Import Mmio.
From S2P Require Import UserMem.
From S2P Require Import FeatureDev.
From S2P Require Import Msix.
From S2P Require Import AfuTypes.
From S2P Require Import DmaRegion.
From S2P Require Import PortEnv.
From S2P Require Import PcieTypes.
From S2P Require Import FpgaMgr.
From S2P Require Import FmeTypes.
Local Open Scope string_scope.
Local Open Scope Z_scope.

Definition fme_page (i : Z) : Z := 0x10000 * (i + 1).

Definition fme_features_at {Op} : list (feature Op) :=
  map (fun n => Feature None 0 (fme_page (Z.of_nat n)) [] 0 None None) (seq 0 (Z.to_nat FME_FEATURE_ID_MAX)).

Definition demo_fme {Op D} (f : fpga_fme) (m : option fpga_manager) (d : D)
  : platform_device Op fpga_fme (afu_world (fme_hw D)) :=
  Pdev (Pdata false 0 0 0 [] false (Some f) FME_FEATURE_ID_MAX fme_features_at)
    (World (FmeHw d m ∅) w_empty (IrqWorld ∅ 0) (Kobj ∅ ∅ ∅) (UserMem ∅ (fun _ => false))).

Definition narrow_fme : fpga_fme := FpgaFme 0 0 0 4 false false None None.
Definition wide_fme : fpga_fme := FpgaFme 0 0 0 64 true false None None.

Lemma demo_fme_feature {Op D} f m (d : D) i :
  0 <= i < FME_FEATURE_ID_MAX -> feature_at i (fme_page i) (@demo_fme Op D f m d).
Proof.
  intros Hi. unfold fme_page. split_and!; [lia | lia |].
  exists (Feature None 0 (fme_page (Z.of_nat (Z.to_nat i))) [] 0 None None). split.
  - simpl. unfold fme_features_at. rewrite list_lookup_fmap, lookup_seq_lt by lia. done.
  - simpl. unfold fme_page. lia.
Qed.

(** A kernel that grants everything. *)
Definition demo_fme_env : fme_env := FmeEnv
  (PortEnv rich_env (IrqEnv (fun _ => true) (fun fd => 1000 + fd) (fun _ => 0)) (fun _ => 0)
    (fun _ => (0, 0)) true true true (fun _ _ => 1) 0 42 (fun _ _ _ => 0))
  (MgrEnv true true true (fun s => fresh s) 0 0 true true 0 (fun l => [l]) (fun _ => inl (- EIO)))
  true 0 (fun _ => true) (fun _ => 0) (fun _ => true) (fun _ _ => true).

Definition demo_manager : fpga_manager := Mgr "Intel FPGA Manager" 0 true 1 false FPGA_MGR_STATE_UNKNOWN 0.

(** An FME, device 0, and a port, device 1 with its header at 0x8000, on a PCI
    function. *)
Definition demo_port_dev {Op} : fpga_dev Op fpga_fme :=
  FDev "intel-fpga-port" 0 None
    (Some (Pdata false 0 0 0 [] false None 1 [Feature None 0 0x8000 [] 0 None None])) true 2.
Definition demo_fme_dev {Op} (f : fpga_fme) : fpga_dev Op fpga_fme :=
  FDev "intel-fpga-fme" 0 None
    (Some (Pdata false 0 0 0 [] false (Some f) FME_FEATURE_ID_MAX fme_features_at)) true 2.
Definition demo_function {Op D} (f : fpga_fme) (u : user_mem) (d : D)
  : pci_world Op fpga_fme (afu_world (fme_hw D)) :=
  PciW (Ids ∅ ∅ ∅) (list_to_map [(0, demo_fme_dev f); (1, demo_port_dev)])
    (Some (Drvdata 0 (Some 0) false [1] 0 [])) (PciFunc true true true true 0 true) [] [] []
    (World (FmeHw d (Some demo_manager) ∅) w_empty (IrqWorld ∅ 0) (Kobj ∅ ∅ ∅) u).
