(* ===== verification/FmePrSpec.v ===== *)
(** * Theorems about the bitstream transfer (fme-pr.c)

    The PR engine behind the registers is described by what it documents: it
    has [room] for so many stores, the credit it reports is never more than
    its room, a store within the room is taken, and while it reports no more
    than one credit it is making progress ([patience]).  Against every such
    engine the push loop never stores without room, delivers the whole
    bitstream and returns 0. *)

From stdpp Require Import gmultiset.
From S2P Require Import Prelude.
From S2P Require Import Bitfield.
From S2P Require Import Registers.
From S2P Require Import Mmio.
From S2P Require Import Loops.
From S2P Require Import UserMem.
From S2P Require Import Sysfs.
From S2P Require Import FeatureDev.
From S2P Require Import Msix.
From S2P Require Import AfuTypes.
From S2P Require Import DmaRegion.
From S2P Require Import PortEnv.
From S2P Require Import FpgaMgr.
From S2P Require Import FmeTypes.
From S2P Require Import FmeAttrs.
From S2P Require Import FmePr.
From S2P Require Import FmeExample.
Local Open Scope string_scope.
Local Open Scope list_scope.
Local Open Scope Z_scope.

Local Opaque PR_WAIT_TIMEOUT.

(** ** The engine *)

(** The credit a value of the status register reports. *)
Definition credit_of (csr : Z) : Z := fget feature_fme_pr_status "pr_credit" csr.

Definition status_at (base : Z) : Z := base + pr_reg "ccip_fme_pr_status".
Definition control_at (base : Z) : Z := base + pr_reg "ccip_fme_pr_control".
Definition data_at (base : Z) : Z := base + pr_reg "ccip_fme_pr_data".
Definition wide_at (base : Z) : Z := base + pr_reg "fme_pr_data1".

(** [pushed] is what the engine has taken, one list of words for each store;
    [patience] bounds the reads that will still report too little credit, and
    is never more than [most]. *)
Class PrEngine (D : Type) {dev : Mmio D} {wide : Mmio512 D} (base : Z) := {
  room : D -> Z;
  pushed : D -> list (list Z);
  patience : D -> nat;
  most : nat;
  patience_most : forall d, (patience d <= most)%nat;
  status_pushed : forall d, pushed (snd (dev_readq (status_at base) d)) = pushed d;
  status_room : forall d,
    let r := dev_readq (status_at base) d in credit_of (fst r) <= room (snd r);
  status_patience : forall d,
    let r := dev_readq (status_at base) d in
    credit_of (fst r) <= 1 -> (patience (snd r) < patience d)%nat;
  control_read : forall d, pushed (snd (dev_readq (control_at base) d)) = pushed d;
  control_write : forall v d, pushed (dev_writeq (control_at base) v d) = pushed d;
  data_taken : forall v d, 0 < room d ->
    let d' := dev_writeq (data_at base) v d in pushed d' = pushed d ++ [[v]] /\ room d - 1 <= room d';
  wide_taken : forall ws d, 0 < room d ->
    let d' := dev_copy512 ws (wide_at base) d in pushed d' = pushed d ++ [ws] /\ room d - 1 <= room d';
}.

(** ** The stores a bitstream makes *)

Definition data_word (buf : list Z) : Z :=
  fset feature_fme_pr_data "pr_data_raw" (le_combine (take 4 buf)) (fset feature_fme_pr_data "rsvd" 0 0).

Definition beat (bw : Z) (buf : list Z) : list Z :=
  if bw =? 4 then [data_word buf] else words512 (take 64 buf).

Fixpoint beats (n : nat) (bw : Z) (buf : list Z) : list (list Z) :=
  match n with O => [] | S n => beat bw buf :: beats n bw (drop (Z.to_nat bw) buf) end.

(** The bytes the engine finds in a store. *)
Definition bytes_of (bw : Z) (b : list Z) : list Z :=
  if bw =? 4 then concat (map (fun w => le_split 4 (fget feature_fme_pr_data "pr_data_raw" w)) b)
  else concat (map (le_split 8) b).

Definition is_byte (b : Z) : Prop := 0 <= b < 256.

Lemma le_split_combine l : Forall is_byte l -> le_split (length l) (le_combine l) = l.
Proof.
  induction 1 as [|b l Hb Hl IH]; [done|]. unfold is_byte in Hb. cbn [length le_split le_combine].
  assert ((b + 256 * le_combine l) mod 256 = b) as -> by (Z.div_mod_to_equations; lia).
  assert ((b + 256 * le_combine l) / 256 = le_combine l) as -> by (Z.div_mod_to_equations; lia).
  by rewrite IH.
Qed.

Lemma le_split_chunk n (l : list Z) : Forall is_byte l -> length l = n -> le_split n (le_combine l) = l.
Proof. intros H <-. by apply le_split_combine. Qed.

Lemma words_bytes n buf :
  Forall is_byte buf -> length buf = (8 * n)%nat ->
  concat (map (le_split 8) (map (fun i => le_combine (take 8 (drop (8 * i) buf))) (seq 0 n))) = buf.
Proof.
  revert buf. induction n as [|n IH]; intros buf Hb Hl.
  - by destruct buf.
  - cbn [seq map concat]. rewrite <- seq_shift, map_map, map_map.
    rewrite (map_ext _ (fun i => le_split 8 (le_combine (take 8 (drop (8 * i) (drop 8 buf)))))).
    2: { intros i. rewrite drop_drop. do 4 f_equal. lia. }
    rewrite <- (map_map (fun i => le_combine (take 8 (drop (8 * i) (drop 8 buf)))) (le_split 8)).
    rewrite IH by (try apply Forall_drop; try done; rewrite length_drop; lia).
    rewrite le_split_chunk; [|by apply Forall_take, Forall_drop|rewrite length_take, length_drop; lia].
    change (8 * 0)%nat with 0%nat. by rewrite drop_0, take_drop.
Qed.

Lemma beat_bytes bw buf :
  bw = 4 \/ bw = 64 -> Forall is_byte buf -> (Z.to_nat bw <= length buf)%nat ->
  bytes_of bw (beat bw buf) = take (Z.to_nat bw) buf.
Proof.
  intros [->| ->] Hb Hl; unfold bytes_of, beat; cbn [Z.eqb Pos.eqb].
  - cbn [map concat]. rewrite app_nil_r. unfold data_word. change (Z.to_nat 4) with 4%nat in Hl.
    rewrite fget_fset_same by reg_tac.
    pose proof (le_combine_range (take 4 buf) (Forall_take _ _ _ Hb)) as Hr.
    rewrite length_take, Nat.min_l in Hr by lia.
    rewrite wrap_small by exact Hr.
    apply le_split_chunk; [by apply Forall_take | rewrite length_take; lia].
  - change (Z.to_nat 64) with 64%nat in *. apply (words_bytes 8); [by apply Forall_take | rewrite length_take; lia].
Qed.

Lemma beats_bytes n bw buf :
  bw = 4 \/ bw = 64 -> Forall is_byte buf -> length buf = (n * Z.to_nat bw)%nat ->
  concat (map (bytes_of bw) (beats n bw buf)) = buf.
Proof.
  intros Hbw. revert buf. induction n as [|n IH]; intros buf Hb Hl; [by destruct buf|].
  cbn [beats map concat]. rewrite beat_bytes by (done || lia).
  rewrite IH by (try apply Forall_drop; try done; rewrite length_drop; lia). by rewrite take_drop.
Qed.

(** ** Running the driver *)

Section Push.
Context {Op D : Type} {dev : Mmio D} {wide : Mmio512 D} {base : Z} {eng : PrEngine D base}.
Abbreviation fme := (platform_device Op fpga_fme (afu_world (fme_hw D))).
Implicit Types q : fme.
Hypothesis base_mapped : base <> 0.

(** The engine of a device, and the device with another state of it. *)
Definition engine q : D := fhw (hw (io q)).
Definition with_engine (d : D) q : fme :=
  set_io (World (FmeHw d (fmgr (hw (io q))) (fida (hw (io q)))) (mm (io q)) (irqw (io q)) (kobj (io q))
            (usr (io q))) q.

Lemma engine_with d q : engine (with_engine d q) = d.
Proof. done. Qed.
Lemma with_with d d' q : with_engine d (with_engine d' q) = with_engine d q.
Proof. done. Qed.
Lemma with_same q : with_engine (engine q) q = q.
Proof. by destruct q as [p [[h m i] w k u s]]. Qed.

Lemma readq_engine off q :
  mmio_readq base off q =
  Some (fst (dev_readq (base + off) (engine q)), with_engine (snd (dev_readq (base + off) (engine q))) q).
Proof. unfold mmio_readq. by rewrite (proj2 (Z.eqb_neq _ _) base_mapped). Qed.

Lemma writeq_engine v off q :
  mmio_writeq v base off q = Some (tt, with_engine (dev_writeq (base + off) v (engine q)) q).
Proof. unfold mmio_writeq. by rewrite (proj2 (Z.eqb_neq _ _) base_mapped). Qed.

Lemma read_credit_run q :
  read_credit base q =
  Some (credit_of (fst (dev_readq (status_at base) (engine q))),
        with_engine (snd (dev_readq (status_at base) (engine q))) q).
Proof. unfold read_credit. by rewrite (kbind_run _ _ _ _ _ (readq_engine _ _)). Qed.

(** The wait for credit ends with more than one credit, and with room. *)
Lemma credit_wait_run fuel delay credit q :
  credit <= room (engine q) ->
  (credit <= 1 -> delay + Z.of_nat (patience (engine q)) <= PR_WAIT_TIMEOUT /\
                  (patience (engine q) < fuel)%nat) ->
  exists delay' credit' d',
    credit_wait fuel base delay credit q = Some ((0, delay', credit'), with_engine d' q) /\
    1 < credit' <= room d' /\ pushed d' = pushed (engine q) /\
    delay' <= delay + (if credit <=? 1 then Z.of_nat (patience (engine q)) + 1 else 0).
Proof.
  revert delay credit q. induction fuel as [|fuel IH]; intros delay credit q Hroom Hwait.
  - destruct (Z.leb_spec credit 1) as [Hc|Hc]; [lia|]. exists delay, credit, (engine q).
    cbn [credit_wait]. rewrite (proj2 (Z.leb_gt _ _) Hc), with_same. split_and!; [done|lia|lia|done|lia].
  - destruct (Z.leb_spec credit 1) as [Hc|Hc]; cycle 1.
    { exists delay, credit, (engine q). cbn [credit_wait].
      rewrite (proj2 (Z.leb_gt _ _) Hc), with_same. split_and!; [done|lia|lia|done|lia]. }
    destruct (Hwait Hc) as [Hd Hf]. cbn [credit_wait]. rewrite (proj2 (Z.leb_le _ _) Hc).
    rewrite (proj2 (Z.ltb_ge _ _)) by lia.
    rewrite (kbind_run _ _ _ _ _ (read_credit_run q)).
    pose proof (status_pushed (engine q)) as Hp. pose proof (status_room (engine q)) as Hr.
    pose proof (status_patience (engine q)) as Ht. cbv zeta in Hr, Ht.
    destruct (dev_readq (status_at base) (engine q)) as [v d1]. cbn [fst snd] in *.
    destruct (IH (delay + 1) (credit_of v) (with_engine d1 q)) as (delay' & credit' & d' & Hrun & Hc' & Hp' & Hd').
    + by rewrite engine_with.
    + rewrite engine_with. intros Hv. specialize (Ht Hv). lia.
    + exists delay', credit', d'. rewrite Hrun, with_with. split_and!; [done|lia|lia|by rewrite Hp'|].
      rewrite engine_with in Hd'. destruct (Z.leb_spec (credit_of v) 1); [specialize (Ht H)|]; lia.
Qed.

Lemma push_data_run bw buf q :
  bw = 4 \/ bw = 64 -> 0 < room (engine q) ->
  exists d', push_data bw base buf q = Some (0, with_engine d' q) /\
    pushed d' = pushed (engine q) ++ [beat bw buf] /\ room (engine q) - 1 <= room d'.
Proof.
  intros [->| ->] Hr; unfold push_data, beat; cbn [Z.eqb Pos.eqb].
  - rewrite (kbind_run _ _ _ _ _ (writeq_engine _ _ _)). eexists. split; [reflexivity|].
    by apply data_taken.
  - eexists. split; [reflexivity|]. by apply wide_taken.
Qed.

Lemma credit_rounds_enough delay (n : nat) :
  delay + Z.of_nat n <= PR_WAIT_TIMEOUT -> (n < credit_rounds delay)%nat.
Proof. intros H. unfold credit_rounds. lia. Qed.

(** The loop over [n] chunks, given time for a wait before each of them. *)
Lemma push_loop_run n fuel buf delay credit q f :
  private (pd q) = Some f -> pr_bandwidth f = 4 \/ pr_bandwidth f = 64 ->
  length buf = (n * Z.to_nat (pr_bandwidth f))%nat -> (n <= fuel)%nat ->
  delay + Z.of_nat n * (Z.of_nat most + 1) <= PR_WAIT_TIMEOUT + 1 ->
  credit <= room (engine q) ->
  exists d', push_loop fuel base delay credit buf q = Some (0, with_engine d' q) /\
    pushed d' = pushed (engine q) ++ beats n (pr_bandwidth f) buf.
Proof.
  intros Hf Hbw. revert fuel buf delay credit q Hf.
  induction n as [|n IH]; intros fuel buf delay credit q Hf Hl Hfuel Htime Hroom.
  - destruct buf; [|done]. exists (engine q). rewrite with_same, app_nil_r. split; [|done]. by destruct fuel.
  - assert (Z.to_nat (pr_bandwidth f) <= length buf)%nat as Hlen by lia.
    assert (0 < Z.to_nat (pr_bandwidth f))%nat as Hpos by lia.
    destruct fuel as [|fuel]; [lia|]. destruct buf as [|b buf0] eqn:Eb; [simpl in Hlen; lia|].
    rewrite <- Eb in Hl, Hlen |- *. cbn [push_loop]. rewrite Eb. rewrite <- Eb.
    pose proof (patience_most (engine q)) as Hm.
    destruct (credit_wait_run (credit_rounds delay) delay credit q Hroom)
      as (delay' & credit' & d1 & Hrun & Hc & Hp1 & Hd).
    { intros Hc. split; [nia|]. apply credit_rounds_enough. nia. }
    rewrite (kbind_run _ _ _ _ _ Hrun). cbn [istrue Z.eqb negb].
    rewrite (kbind_run _ _ _ _ _ (get_fme_run (with_engine d1 q) f Hf)).
    rewrite (proj2 (Z.ltb_ge _ _)) by lia.
    destruct (push_data_run (pr_bandwidth f) buf (with_engine d1 q) Hbw) as (d2 & Hpush & Hp2 & Hr2);
      [rewrite engine_with; lia|].
    rewrite (kbind_run _ _ _ _ _ Hpush). cbn [istrue Z.eqb negb]. rewrite with_with, engine_with in *.
    destruct (IH fuel (drop (Z.to_nat (pr_bandwidth f)) buf) delay' (credit' - 1) (with_engine d2 q) Hf)
      as (d3 & Hloop & Hp3).
    + rewrite length_drop. lia.
    + lia.
    + destruct (credit <=? 1); nia.
    + rewrite engine_with. lia.
    + exists d3. rewrite Hloop, with_with. split; [done|].
      rewrite Hp3, engine_with, Hp2, Hp1. by rewrite <- app_assoc.
Qed.

Lemma update_ctl_run upd q :
  exists d', update_pr_ctl upd base q = Some (tt, with_engine d' q) /\ pushed d' = pushed (engine q).
Proof.
  unfold update_pr_ctl. rewrite (kbind_run _ _ _ _ _ (readq_engine _ q)), writeq_engine.
  eexists. split; [reflexivity|]. rewrite engine_with.
  etrans; [apply control_write | apply control_read].
Qed.

Lemma write_run n buf q f :
  feature_at FME_FEATURE_ID_PR_MGMT base q -> private (pd q) = Some f ->
  pr_bandwidth f = 4 \/ pr_bandwidth f = 64 -> length buf = (n * Z.to_nat (pr_bandwidth f))%nat ->
  Z.of_nat n * (Z.of_nat most + 1) <= PR_WAIT_TIMEOUT + 1 ->
  exists d', fme_pr_write buf q = Some (0, with_engine d' q) /\
    pushed d' = pushed (engine q) ++ beats n (pr_bandwidth f) buf.
Proof.
  intros Hb Hf Hbw Hl Htime. unfold fme_pr_write.
  assert (pr_base q = Some (base, q)) as Hbase.
  { unfold pr_base. simpl. rewrite (feature_at_run _ _ _ Hb). by destruct q. }
  rewrite (kbind_run _ _ _ _ _ Hbase), (kbind_run _ _ _ _ _ (get_fme_run q f Hf)).
  destruct (update_ctl_run (fun csr => fset feature_fme_pr_ctl "pr_start_req" 1
    (fset feature_fme_pr_ctl "pr_regionid" (fme_port_id f) csr)) q) as (d1 & Hctl & Hp1).
  rewrite (kbind_run _ _ _ _ _ Hctl), (kbind_run _ _ _ _ _ (read_credit_run _)).
  rewrite with_with, engine_with.
  pose proof (status_pushed d1) as Hp2. pose proof (status_room d1) as Hr. cbv zeta in Hr.
  destruct (push_loop_run n (length buf) buf 0 (credit_of (fst (dev_readq (status_at base) d1)))
    (with_engine (snd (dev_readq (status_at base) d1)) q) f Hf Hbw Hl) as (d' & Hrun & Hp).
  - rewrite Hl. destruct Hbw as [E|E]; rewrite E; lia.
  - lia.
  - by rewrite engine_with.
  - exists d'. rewrite Hrun, with_with. split; [done|]. by rewrite Hp, engine_with, Hp2, Hp1.
Qed.
End Push.

(** ** Any engine *)

Section Total.
Context {Op D : Type} {dev : Mmio D} {wide : Mmio512 D}.
Abbreviation fme := (platform_device Op fpga_fme (afu_world (fme_hw D))).
Implicit Types q : fme.
Variable base bw : Z.
Hypothesis base_mapped : base <> 0.

(** The data the loop needs: the private data, with the transfer width. *)
Definition has_width q : Prop := exists f, private (pd q) = Some f /\ pr_bandwidth f = bw.

(** A computation that ends on every device, with a result in [R]. *)
Abbreviation ends := (returns has_width).

Lemma returns_readq off : ends (mmio_readq base off) (fun _ => True).
Proof. intros q Hq. rewrite readq_engine by done. by eexists _, _. Qed.
Lemma returns_writeq v off : ends (mmio_writeq v base off) (fun _ => True).
Proof. intros q Hq. rewrite writeq_engine by done. by eexists _, _. Qed.

Lemma returns_get_fme : ends get_fme (fun f => pr_bandwidth f = bw).
Proof. intros q (f & Hf & Hb). rewrite (get_fme_run q f Hf). exists f, q. split_and!; [done..|by exists f]. Qed.

Lemma returns_set_err e : ends (mod_fme (set_pr_err e)) (fun _ => True).
Proof.
  intros q (f & Hf & Hb). unfold mod_fme. rewrite (kbind_run _ _ _ _ _ (get_fme_run q f Hf)).
  eexists _, _. split_and!; [reflexivity | done | by eexists].
Qed.

Lemma returns_err_handle : ends (pr_err_handle base) (fun _ => True).
Proof.
  unfold pr_err_handle. eapply returns_bind; [apply returns_readq|]. intros v _.
  destruct (negb _); [by apply returns_ret|].
  eapply returns_bind; [apply returns_readq|]. intros e _.
  eapply returns_bind; [apply returns_writeq|]. intros _ _. by apply returns_ret.
Qed.

Definition wait_code (r : Z * Z * Z) : Prop :=
  let '(ret, _, credit) := r in (ret = 0 /\ 1 < credit) \/ ret = - EIO \/ ret = - ETIMEDOUT.

Lemma returns_credit_wait fuel delay credit :
  PR_WAIT_TIMEOUT - delay + 2 <= Z.of_nat fuel -> (0 < fuel)%nat ->
  ends (credit_wait fuel base delay credit) wait_code.
Proof.
  revert delay credit. induction fuel as [|fuel IH]; intros delay credit Hf Hp; [lia|].
  cbn [credit_wait]. destruct (Z.leb_spec credit 1); [|apply returns_ret; left; lia].
  destruct (Z.ltb_spec PR_WAIT_TIMEOUT delay).
  - eapply returns_bind; [apply returns_err_handle|]. intros err _.
    eapply returns_bind; [apply returns_set_err|]. intros _ _.
    apply returns_ret. right. destruct (istrue err); auto.
  - unfold read_credit. eapply returns_bind.
    + eapply returns_bind; [apply returns_readq|]. intros v _. by apply (returns_ret _ _ (fun _ => True)).
    + intros c _. apply IH; lia.
Qed.

Definition write_code (ret : Z) : Prop :=
  ret = 0 \/ ret = - EIO \/ ret = - ETIMEDOUT \/ ret = - EINVAL \/ ret = - EFAULT.

Lemma returns_push_data buf : ends (push_data bw base buf) (fun ret => ret = 0 \/ ret = - EFAULT).
Proof.
  unfold push_data. destruct (bw =? 4); [|destruct (bw =? 64)].
  - eapply returns_bind; [apply returns_writeq|]. intros _ _. apply returns_ret. by left.
  - intros q Hq. eexists _, _. split_and!; [reflexivity | by left | exact Hq].
  - apply returns_ret. by right.
Qed.

Lemma returns_push_loop fuel delay credit buf :
  0 < bw -> (length buf <= fuel)%nat -> ends (push_loop fuel base delay credit buf) write_code.
Proof.
  intros Hbw. revert delay credit buf.
  induction fuel as [|fuel IH]; intros delay credit buf Hl.
  { destruct buf; [|simpl in Hl; lia]. apply returns_ret. by left. }
  destruct buf as [|b buf]; [apply returns_ret; by left|].
  cbn [push_loop]. eapply returns_bind.
  { apply (returns_credit_wait (credit_rounds delay)); unfold credit_rounds; lia. }
  intros [[ret d] c] Hw. destruct (istrue ret) eqn:Er.
  { apply returns_ret. unfold wait_code in Hw. unfold write_code, istrue in *. boolify.
    destruct Hw as [[-> _]|[-> | ->]]; auto. }
  eapply returns_bind; [apply returns_get_fme|]. intros f Hf. simpl in Hf. rewrite Hf.
  destruct (Z.ltb_spec (Z.of_nat (length (b :: buf))) bw).
  { apply returns_ret. unfold write_code. auto. }
  eapply returns_bind; [apply returns_push_data|]. intros r Hr. destruct (istrue r).
  { apply returns_ret. unfold write_code. destruct Hr as [->| ->]; auto. }
  apply IH. rewrite length_drop. simpl in *. lia.
Qed.
End Total.

(** ** Theorems *)

(** C3: a bitstream is delivered.  Against every PR engine that keeps making
    progress, fme_pr_write terminates and returns 0 for every bitstream that is
    a multiple of the transfer width, 4 or 64 bytes, as long as the engine's
    longest wait before each chunk fits in PR_WAIT_TIMEOUT polls altogether (the
    counter of polls is never reset); every store finds room in the engine, and
    what the engine has then taken, read back as bytes, is exactly the
    bitstream, in order.  Only the engine's state changes. *)
Theorem fme_pr_write_delivers {Op D} {dev : Mmio D} {wide : Mmio512 D} base {eng : PrEngine D base}
    n buf (q : platform_device Op fpga_fme (afu_world (fme_hw D))) f :
  feature_at FME_FEATURE_ID_PR_MGMT base q -> private (pd q) = Some f ->
  pr_bandwidth f = 4 \/ pr_bandwidth f = 64 -> Forall is_byte buf ->
  length buf = (n * Z.to_nat (pr_bandwidth f))%nat ->
  Z.of_nat n * (Z.of_nat most + 1) <= PR_WAIT_TIMEOUT + 1 ->
  exists d' taken, fme_pr_write buf q = Some (0, with_engine d' q) /\
    pushed d' = pushed (engine q) ++ taken /\
    concat (map (bytes_of (pr_bandwidth f)) taken) = buf.
Proof.
  intros Hb Hf Hbw Hbytes Hl Htime.
  destruct (write_run (proj1 (proj2 Hb)) n buf q f Hb Hf Hbw Hl Htime) as (d' & Hrun & Hp).
  exists d', (beats n (pr_bandwidth f) buf). split_and!; [exact Hrun | exact Hp | by apply beats_bytes].
Qed.

(** C40: the transfer always ends.  Whatever the PR engine answers, however long the
    bitstream, fme_pr_write returns - it never waits for ever - and with 0, or
    -ETIMEDOUT or -EIO from the wait for credit, -EINVAL for a bitstream that is
    not a multiple of the transfer width, or -EFAULT for a width it does not
    know. *)
Theorem fme_pr_write_returns {Op D} {dev : Mmio D} {wide : Mmio512 D} base buf
    (q : platform_device Op fpga_fme (afu_world (fme_hw D))) f :
  feature_at FME_FEATURE_ID_PR_MGMT base q -> private (pd q) = Some f -> 0 < pr_bandwidth f ->
  exists ret q', fme_pr_write buf q = Some (ret, q') /\ write_code ret.
Proof.
  intros Hb Hf Hbw. pose proof (proj1 (proj2 Hb)) as Hne.
  assert (returns (has_width (Op := Op) (D := D) (pr_bandwidth f))
    (update_pr_ctl (fun csr => fset feature_fme_pr_ctl "pr_start_req" 1
       (fset feature_fme_pr_ctl "pr_regionid" (fme_port_id f) csr)) base ;;
     credit <- read_credit base ;; push_loop (length buf) base 0 credit buf) write_code) as H.
  { eapply returns_bind.
    { unfold update_pr_ctl. eapply returns_bind; [by apply returns_readq | intros v _; by apply returns_writeq]. }
    intros _ _. eapply returns_bind.
    { unfold read_credit. eapply returns_bind; [by apply returns_readq|].
      intros v _. by apply (returns_ret _ _ (fun _ => True)). }
    intros c _. by apply returns_push_loop. }
  assert (pr_base q = Some (base, q)) as Hbase.
  { unfold pr_base. simpl. rewrite (feature_at_run _ _ _ Hb). by destruct q. }
  destruct (H q) as (ret & q' & Hrun & Hret & _); [by exists f|].
  exists ret, q'. split; [|exact Hret]. unfold fme_pr_write.
  by rewrite (kbind_run _ _ _ _ _ Hbase), (kbind_run _ _ _ _ _ (get_fme_run q f Hf)).
Qed.

(** An engine with four slots that answers one read late. *)
Record fifo := Fifo { slots : nat; slow : bool; taken : list (list Z) }.
Definition fifo_base : Z := fme_page FME_FEATURE_ID_PR_MGMT.

Definition fifo_store (ws : list Z) (d : fifo) : fifo :=
  match slots d with O => d | S n => Fifo n (slow d) (taken d ++ [ws]) end.

(** A read of the status register, with fewer than two slots left. *)
Definition fifo_refill (d : fifo) : fifo :=
  if (slots d <=? 1)%nat then
    if slow d then Fifo (slots d) false (taken d) else Fifo 4 true (taken d)
  else d.

Definition fifo_status (d : fifo) : Z :=
  fset feature_fme_pr_status "pr_credit" (Z.of_nat (Nat.min 4 (slots d))) 0.

#[export] Instance fifo_mmio : Mmio fifo := {|
  dev_readq a d := if a =? status_at fifo_base then (fifo_status (fifo_refill d), fifo_refill d) else (0, d);
  dev_writeq a v d := if a =? data_at fifo_base then fifo_store [v] d else d;
|}.

#[export] Instance fifo_512 : Mmio512 fifo := fun ws a d =>
  if a =? wide_at fifo_base then fifo_store ws d else d.

Lemma fifo_credit d : credit_of (fifo_status d) = Z.of_nat (Nat.min 4 (slots d)).
Proof.
  unfold credit_of, fifo_status. rewrite fget_fset_same by reg_tac. apply wrap_small.
  assert (width feature_fme_pr_status "pr_credit" = 9) as -> by reg_tac. unfold in_range. lia.
Qed.

Lemma fifo_store_room ws d :
  0 < Z.of_nat (slots d) ->
  taken (fifo_store ws d) = taken d ++ [ws] /\ Z.of_nat (slots d) - 1 <= Z.of_nat (slots (fifo_store ws d)).
Proof. intros Hr. unfold fifo_store. destruct (slots d); simpl; [lia|]. split; [done | lia]. Qed.

Lemma fifo_read d : dev_readq (status_at fifo_base) d = (fifo_status (fifo_refill d), fifo_refill d).
Proof. done. Qed.

#[export] Instance fifo_engine : PrEngine fifo fifo_base.
Proof.
  refine {| room d := Z.of_nat (slots d); pushed := taken;
            patience d := if slow d then 1%nat else 0%nat; most := 1%nat |}.
  - intros d. destruct (slow d); lia.
  - intros d. rewrite fifo_read. cbn [snd]. unfold fifo_refill. by destruct (slots d <=? 1)%nat, (slow d).
  - intros d. rewrite fifo_read. cbv zeta. cbn [fst snd]. rewrite fifo_credit. lia.
  - intros d. rewrite fifo_read. cbv zeta. cbn [fst snd]. rewrite fifo_credit.
    unfold fifo_refill. destruct (Nat.leb_spec (slots d) 1), (slow d); cbn [slots slow]; intros; lia.
  - done.
  - done.
  - intros v d Hr. by apply fifo_store_room.
  - intros ws d Hr. by apply fifo_store_room.
Defined.

(** 32 bytes, eight stores of four bytes: the engine runs out of credit twice. *)
Definition demo_bitstream : list Z := map (fun i => (7 * Z.of_nat i) mod 256) (seq 0 32).

Lemma fme_pr_write_delivers_witness :
  exists d' l, fme_pr_write demo_bitstream (@demo_fme unit fifo narrow_fme None (Fifo 0 true [])) =
    Some (0, with_engine d' (@demo_fme unit fifo narrow_fme None (Fifo 0 true []))) /\
    taken d' = l /\ concat (map (bytes_of 4) l) = demo_bitstream.
Proof.
  destruct (@fme_pr_write_delivers unit fifo _ _ fifo_base _ 8 demo_bitstream
    (demo_fme narrow_fme None (Fifo 0 true [])) narrow_fme) as (d' & l & H1 & H2 & H3).
  - exact (demo_fme_feature narrow_fme None (Fifo 0 true []) FME_FEATURE_ID_PR_MGMT ltac:(vm_compute; split; [discriminate | reflexivity])).
  - reflexivity.
  - left. reflexivity.
  - unfold is_byte. apply (bool_decide_unpack _). vm_compute. exact I.
  - reflexivity.
  - vm_compute. discriminate.
  - exists d', l. split; [exact H1 | split; [exact H2 | exact H3]].
Defined.

(** A bitstream of 33 bytes in words of four. *)
Lemma fme_pr_write_returns_witness :
  exists ret q', fme_pr_write (0 :: demo_bitstream) (@demo_fme unit fifo narrow_fme None (Fifo 0 true [])) =
    Some (ret, q') /\ write_code ret.
Proof.
  apply (fme_pr_write_returns fifo_base (0 :: demo_bitstream) (demo_fme narrow_fme None (Fifo 0 true [])) narrow_fme).
  - exact (demo_fme_feature narrow_fme None (Fifo 0 true []) FME_FEATURE_ID_PR_MGMT ltac:(vm_compute; split; [discriminate | reflexivity])).
  - reflexivity.
  - reflexivity.
Defined.
