(* ===== verification/FmePrSafe.v ===== *)
(** * The PR ioctl gives back what it takes (fme-pr.c)

    FPGA_FME_PORT_PR takes the FME's mutex, the reference and the lock of the
    FPGA manager with the module of its driver, a reference on the port's
    device and the port's reset.  [held] is all of that for a whole PCI
    function; the ioctl ends with the [held] it started with, whatever the
    user passes and the hardware does. *)

From stdpp Require Import gmultiset.
From S2P Require Import Prelude.
From S2P Require Import Bitfield.
From S2P Require Import Registers.
From S2P Require Import Mmio.
From S2P Require Import UserMem.
From S2P Require Import Sysfs.
From S2P Require Import FeatureDev.
From S2P Require Import Views.
From S2P Require Import Msix.
From S2P Require Import AfuTypes.
From S2P Require Import DmaRegion.
From S2P Require Import PortEnv.
From S2P Require Import PcieTypes.
From S2P Require Import PciePort.
From S2P Require Import FpgaMgr.
From S2P Require Import FmeTypes.
From S2P Require Import FmeAttrs.
From S2P Require Import FmePr.
From S2P Require Import FmeExample.
Local Open Scope string_scope.
Local Open Scope Z_scope.

Section Held.
Context {Op D : Type} {dev : Mmio D} {wide : Mmio512 D}.
Variable env : fme_env.
Abbreviation fme := (platform_device Op fpga_fme (afu_world (fme_hw D))).
Abbreviation world := (pci_world Op fpga_fme (afu_world (fme_hw D))).

(** ** What is held *)

(** Of the manager: references, lock, references of the module, registered. *)
Definition mgr_held (m : fpga_manager) : Z * bool * Z * bool :=
  (mgr_refs m, ref_mutex m, owner_refs m, mgr_added m).
(** Of a device's platform data: the mutex and the reset count. *)
Definition pd_held (p : feature_platform_data Op fpga_fme) : bool * Z := (lock p, disable_count p).
Definition dev_held (d : fpga_dev Op fpga_fme) : Z * option (bool * Z) := (dev_refs d, pd_held <$> dev_pdata d).

Definition fme_held (q : fme) : (bool * Z) * option (Z * bool * Z * bool) :=
  (pd_held (pd q), mgr_held <$> fmgr (hw (io q))).

Record held := Held {
  h_devs : gmap Z (Z * option (bool * Z));
  h_drv : option cci_drvdata;
  h_mgr : option (Z * bool * Z * bool);
}.
Definition held_of (w : world) : held :=
  Held (dev_held <$> pdevs w) (drv w) (mgr_held <$> fmgr (hw (phw w))).

(** ** The pieces that take nothing *)

Lemma held_readq base off : keeps fme_held (mmio_readq base off).
Proof.
  unfold mmio_readq. destruct (base =? 0); [apply keeps_oops|].
  intros v q x q' Hv H. simpl in H. injection H as _ <-. exact Hv.
Qed.

Lemma held_writeq v base off : keeps fme_held (mmio_writeq v base off).
Proof.
  unfold mmio_writeq. destruct (base =? 0); [apply keeps_oops|].
  intros u q x q' Hv H. simpl in H. injection H as _ <-. exact Hv.
Qed.

Lemma held_get_fme : keeps fme_held get_fme.
Proof.
  apply keeps_bind; [apply keeps_on_pd_pure, gets_pure | intros x; apply keeps_deref].
Qed.

Lemma held_mod_fme f : keeps fme_held (mod_fme f).
Proof.
  apply keeps_bind; [apply held_get_fme|]. intros x. apply keeps_on_pd.
  intros q a p H. simpl in H. injection H as _ <-. done.
Qed.

Lemma held_usr {A} (c : K user_mem A) : keeps fme_held (on_usr c).
Proof. apply keeps_zoom. done. Qed.

Lemma held_base : keeps fme_held pr_base.
Proof. apply keeps_on_pd_pure, ioaddr_pure. Qed.

Lemma held_copy512 buf dst : keeps fme_held (copy512 buf dst).
Proof. intros v q x q' Hv H. simpl in H. injection H as _ <-. exact Hv. Qed.

(** The wait for a register only reads. *)
Lemma wait_loop_mgr fuel r n e a w t i :
  keeps (fun x : afu_world (fme_hw D) => fmgr (hw x)) (wait_loop fuel r n e a w t i).
Proof.
  revert w. induction fuel as [|fuel IH]; intros w; simpl; [apply keeps_oops|].
  destruct (w <=? t); [|apply keeps_ret]. apply keeps_bind.
  - intros v x y x' Hv H. injection H as _ <-. exact Hv.
  - intros v. destruct (e =? fget r n v); [apply keeps_ret | apply IH].
Qed.

Lemma held_wait r field expect base member : keeps fme_held (pr_wait r field expect base member).
Proof.
  intros v q x q' Hv H. unfold pr_wait, on_io, zoom in H.
  destruct (fpga_wait_register_field _ _ _ _ _ _ (io q)) as [[a w]|] eqn:E; [|done].
  injection H as _ <-. apply (keeps_run _ _ _ _ _ (wait_loop_mgr _ _ _ _ _ _ _ _)) in E.
  rewrite <- Hv. unfold fme_held. simpl. by rewrite E.
Qed.

Lemma held_set_state st : keeps fme_held (set_state (S := fme) st).
Proof.
  intros v q x q' Hv H. unfold set_state, mod_mgr, the_mgr in H. simpl in H.
  destruct (fmgr (hw (io q))) as [m|] eqn:E; [|done]. simpl in H. injection H as _ <-.
  rewrite <- Hv. unfold fme_held. simpl. by rewrite E.
Qed.

#[local] Hint Resolve held_readq held_writeq held_get_fme held_mod_fme held_usr held_base held_copy512
  held_wait held_set_state : keeps.
Local Ltac keep_held := keep ltac:(solve [auto with keeps]).

Lemma held_err_handle base : keeps fme_held (pr_err_handle base).
Proof. unfold pr_err_handle. keep_held. Qed.
Lemma held_update_ctl upd base : keeps fme_held (update_pr_ctl upd base).
Proof. unfold update_pr_ctl. keep_held. Qed.
Lemma held_read_credit base : keeps fme_held (read_credit base).
Proof. unfold read_credit. keep_held. Qed.
#[local] Hint Resolve held_err_handle held_update_ctl held_read_credit : keeps.

Lemma held_credit_wait fuel base delay credit : keeps fme_held (credit_wait fuel base delay credit).
Proof.
  revert delay credit. induction fuel as [|fuel IH]; intros delay credit; cbn [credit_wait]; keep_held.
Qed.

Lemma held_push_data bw base buf : keeps fme_held (push_data bw base buf).
Proof. unfold push_data. keep_held. Qed.
#[local] Hint Resolve held_credit_wait held_push_data : keeps.

Lemma held_push_loop fuel base delay credit buf : keeps fme_held (push_loop fuel base delay credit buf).
Proof.
  revert delay credit buf. induction fuel as [|fuel IH]; intros delay credit [|b buf]; cbn [push_loop];
    try apply keeps_ret; [apply keeps_oops|].
  apply keeps_bind; [apply held_credit_wait|]. intros [[ret d] c]. keep_held.
Qed.
#[local] Hint Resolve held_push_loop : keeps.

Lemma held_write_init info buf : keeps fme_held (fme_pr_write_init info buf).
Proof. unfold fme_pr_write_init. keep_held. Qed.
Lemma held_write buf : keeps fme_held (fme_pr_write buf).
Proof. unfold fme_pr_write. keep_held. Qed.
Lemma held_write_complete info : keeps fme_held (fme_pr_write_complete info).
Proof. unfold fme_pr_write_complete. keep_held. Qed.
#[local] Hint Resolve held_write_init held_write held_write_complete : keeps.

Lemma keeps_deref_some {S T A B} (V : S -> T) (x : A) (f : A -> K S B) :
  keeps V (f x) -> keeps V (kbind (deref (Some x)) f).
Proof. done. Qed.

(** The whole load moves the manager's state only. *)
Lemma held_buf_load info buf : keeps fme_held (fpga_mgr_buf_load (S := fme) (mgre env) fme_pr_ops info buf).
Proof.
  unfold fpga_mgr_buf_load, fpga_mgr_buf_load_mapped, fpga_mgr_write_init_buf, after_write,
    fpga_mgr_write_complete.
  cbn [fme_pr_ops mops_write mops_write_init mops_write_complete initial_header_size].
  repeat match goal with
    | |- keeps _ (kbind (deref (Some _)) _) => apply keeps_deref_some
    | |- keeps _ (kbind _ _) => apply keeps_bind; [|intros ?]
    | |- keeps _ (if ?b then _ else _) => destruct b
    | _ => solve [auto with keeps]
    end.
Qed.

(** ** On the PCI function *)

Definition with_dev (h : Z) (x : Z * option (bool * Z)) (v : held) : held :=
  Held (<[h := x]> (h_devs v)) (h_drv v) (h_mgr v).

Lemma on_fdev_inv {A} h (c : K fme A) (w : world) a w' :
  on_fdev h c w = Some (a, w') ->
  exists (d : fpga_dev Op fpga_fme) (p : feature_platform_data Op fpga_fme) (q : fme),
    h_devs (held_of w) !! h = Some (dev_refs d, Some (pd_held p)) /\
    c (Pdev p (phw w)) = Some (a, q) /\
    held_of w' = Held (<[h := (dev_refs d, Some (pd_held (pd q)))]> (h_devs (held_of w))) (drv w)
                   (mgr_held <$> fmgr (hw (io q))).
Proof.
  unfold on_fdev. destruct (pdevs w !! h) as [d|] eqn:Hd; [|done].
  destruct (dev_pdata d) as [p|] eqn:Hp; [|done].
  destruct (c (Pdev p (phw w))) as [[b q]|] eqn:Hc; [|done]. intros [= <- <-].
  exists d, p, q. split_and!; [|done|].
  - simpl. rewrite lookup_fmap, Hd. simpl. unfold dev_held. by rewrite Hp.
  - unfold held_of. simpl. by rewrite fmap_insert.
Qed.

(** A piece that takes nothing on its device takes nothing on the function. *)
Lemma held_on_fdev {A} h (c : K fme A) : keeps fme_held c -> keeps held_of (on_fdev h c).
Proof.
  intros Hc v w a w' Hv H. rewrite <- Hv. apply on_fdev_inv in H as (d & p & q & Hd & Hrun & ->).
  apply (keeps_run _ _ _ _ _ Hc) in Hrun. unfold fme_held in Hrun. simpl in Hrun.
  assert (pd_held (pd q) = pd_held p) as -> by congruence.
  assert (mgr_held <$> fmgr (hw (io q)) = mgr_held <$> fmgr (hw (phw w))) as -> by congruence.
  rewrite insert_id by done. done.
Qed.

(** Operations on the platform data alone. *)
Lemma on_fdev_pd {A} h (c : K (feature_platform_data Op fpga_fme) A) (w : world) a w' :
  on_fdev h (on_pd c) w = Some (a, w') ->
  exists r (p p' : feature_platform_data Op fpga_fme), h_devs (held_of w) !! h = Some (r, Some (pd_held p)) /\
    c p = Some (a, p') /\ held_of w' = with_dev h (r, Some (pd_held p')) (held_of w).
Proof.
  intros H. apply on_fdev_inv in H as (d & p & q & Hd & Hrun & Hw). simpl in Hrun.
  destruct (c p) as [[b p']|] eqn:Hc; [|done]. injection Hrun as <- <-.
  exists (dev_refs d), p, p'. done.
Qed.

Lemma lock_held h (w w' : world) u :
  on_fdev h (on_pd mutex_lock) w = Some (u, w') ->
  exists r n, h_devs (held_of w) !! h = Some (r, Some (false, n)) /\
    held_of w' = with_dev h (r, Some (true, n)) (held_of w).
Proof.
  intros H. apply on_fdev_pd in H as (r & p & p' & Hh & Hrun & Hw). simpl in Hrun.
  unfold pd_held in Hh. destruct (lock p) eqn:Hl; [done|]. injection Hrun as _ <-. by exists r, (disable_count p).
Qed.

Lemma unlock_held h (w w' : world) u :
  on_fdev h (on_pd mutex_unlock) w = Some (u, w') ->
  exists r n, h_devs (held_of w) !! h = Some (r, Some (true, n)) /\
    held_of w' = with_dev h (r, Some (false, n)) (held_of w).
Proof.
  intros H. apply on_fdev_pd in H as (r & p & p' & Hh & Hrun & Hw). simpl in Hrun.
  unfold pd_held in Hh. destruct (lock p) eqn:Hl; [|done]. injection Hrun as _ <-. by exists r, (disable_count p).
Qed.

Lemma with_dev_twice h x y v : with_dev h x (with_dev h y v) = with_dev h x v.
Proof. unfold with_dev. simpl. by rewrite insert_insert_eq. Qed.

Lemma with_dev_lookup h x v : h_devs (with_dev h x v) !! h = Some x.
Proof. apply lookup_insert_eq. Qed.

Lemma with_dev_same h x v : h_devs v !! h = Some x -> with_dev h x v = v.
Proof. intros H. unfold with_dev. destruct v; simpl in *. by rewrite insert_id. Qed.

(** The mutex around a part that takes nothing for good. *)
Lemma mutex_bracket {A B} h (c : K world A) (k : A -> K world B) :
  (forall r, keeps held_of (k r)) ->
  forall w b w',
  (forall w1 a w2, (exists r n, h_devs (held_of w) !! h = Some (r, Some (false, n)) /\
       held_of w1 = with_dev h (r, Some (true, n)) (held_of w)) ->
     c w1 = Some (a, w2) -> held_of w2 = held_of w1) ->
  (on_fdev h (on_pd mutex_lock) ;; r <- c ;; on_fdev h (on_pd mutex_unlock) ;; k r) w = Some (b, w') ->
  held_of w' = held_of w.
Proof.
  intros Hk w b w' Hc H. unfold kbind in H.
  destruct (on_fdev h (on_pd mutex_lock) w) as [[u w1]|] eqn:E1; [|done].
  destruct (c w1) as [[a w2]|] eqn:E2; [|done].
  destruct (on_fdev h (on_pd mutex_unlock) w2) as [[u' w3]|] eqn:E3; [|done].
  apply (keeps_run _ _ _ _ _ (Hk a)) in H. rewrite H.
  apply lock_held in E1. pose proof (Hc _ _ _ E1 E2) as H2.
  destruct E1 as (r & n & Hh & H1). apply unlock_held in E3 as (r' & n' & Hh' & ->).
  rewrite H2, H1, with_dev_lookup in Hh'. injection Hh' as <- <-.
  rewrite H2, H1, with_dev_twice. by apply with_dev_same.
Qed.

(** ** The port: its device, and its reset *)

Lemma get_device_held h (w w' : world) u :
  get_device h w = Some (u, w') ->
  exists x, h_devs (held_of w) !! h = Some x /\ held_of w' = with_dev h (fst x + 1, snd x) (held_of w).
Proof.
  unfold get_device, get_fdev, put_fdev. simpl. destruct (pdevs w !! h) as [d|] eqn:Hd; [|done].
  simpl. unfold get_fdev. simpl. rewrite Hd. simpl. intros [= _ <-].
  exists (dev_held d). split; [by rewrite lookup_fmap, Hd|].
  unfold held_of. simpl. by rewrite fmap_insert.
Qed.

Lemma put_device_held h (w w' : world) u r y :
  h_devs (held_of w) !! h = Some (r, y) -> r <> 1 ->
  put_device h w = Some (u, w') -> held_of w' = with_dev h (r - 1, y) (held_of w).
Proof.
  simpl. rewrite lookup_fmap. unfold put_device, get_fdev, put_fdev. simpl.
  destruct (pdevs w !! h) as [d|] eqn:Hd; [|done]. simpl. intros [= <- <-] Hr.
  rewrite (proj2 (Z.eqb_neq _ _) Hr). unfold get_fdev. simpl. rewrite Hd. simpl. intros [= _ <-].
  unfold held_of. simpl. by rewrite fmap_insert.
Qed.

Lemma find_port_held l (f : Z -> K world bool) (w w' : world) p :
  (forall h, keeps held_of (f h)) -> find_port l f w = Some (Some p, w') ->
  exists x, h_devs (held_of w) !! p = Some x /\ held_of w' = with_dev p (fst x + 1, snd x) (held_of w).
Proof.
  intros Hf. revert w. induction l as [|h l IH]; intros w H; [done|]. cbn [find_port] in H.
  unfold kbind at 1 in H. destruct (f h w) as [[b w1]|] eqn:E; [|done].
  apply (keeps_run _ _ _ _ _ (Hf h)) in E. destruct b.
  - unfold kbind in H. destruct (get_device h w1) as [[u w2]|] eqn:Eg; [|done].
    simpl in H. injection H as <- <-. apply get_device_held in Eg. by rewrite E in Eg.
  - apply IH in H. by rewrite E in H.
Qed.

Lemma drv_lock_held (w w' : world) u :
  drv_lock w = Some (u, w') -> exists dd, h_drv (held_of w) = Some dd /\ dlock dd = false /\
    held_of w' = Held (h_devs (held_of w)) (Some (set_dlock true dd)) (h_mgr (held_of w)).
Proof.
  unfold drv_lock, get_drv, mod_drv, get_drv. simpl. destruct (drv w) as [dd|] eqn:Hd; [|done]. simpl.
  destruct (dlock dd) eqn:Hl; [done|]. simpl. rewrite Hd. simpl. intros [= _ <-]. by exists dd.
Qed.

Lemma drv_unlock_held (w w' : world) u :
  drv_unlock w = Some (u, w') -> exists dd, h_drv (held_of w) = Some dd /\
    held_of w' = Held (h_devs (held_of w)) (Some (set_dlock false dd)) (h_mgr (held_of w)).
Proof.
  unfold drv_unlock, get_drv, mod_drv, get_drv. simpl. destruct (drv w) as [dd|] eqn:Hd; [|done]. simpl.
  destruct (dlock dd) eqn:Hl; [|done]. simpl. rewrite Hd. simpl. intros [= _ <-]. by exists dd.
Qed.

(** Finding a port takes one reference on it. *)
Lemma for_each_port_held (f : Z -> K world bool) (w w' : world) p :
  (forall h, keeps held_of (f h)) -> fpga_for_each_port f w = Some (Some p, w') ->
  exists x, h_devs (held_of w) !! p = Some x /\ held_of w' = with_dev p (fst x + 1, snd x) (held_of w).
Proof.
  intros Hf H. unfold fpga_for_each_port, kbind in H.
  destruct (drv_lock w) as [[u w1]|] eqn:E1; [|done].
  destruct (get_drv w1) as [[dd w2]|] eqn:E2; [|done].
  assert (w2 = w1) as -> by (unfold get_drv in E2; simpl in E2; destruct (drv w1); simpl in E2; congruence).
  destruct (find_port _ f w1) as [[r w3]|] eqn:E3; [|done].
  destruct (drv_unlock w3) as [[u4 w4]|] eqn:E4; [|done]. injection H as -> <-.
  apply find_port_held in E3; [|done]. apply drv_lock_held in E1 as (d1 & Hd1 & Hl1 & H1).
  destruct E3 as (x & Hx & H3). apply drv_unlock_held in E4 as (d4 & Hd4 & H4).
  rewrite H1 in Hx. exists x. split; [exact Hx|]. rewrite H4, H3, H1. rewrite H3, H1 in Hd4.
  simpl in Hd4. injection Hd4 as <-. unfold with_dev. simpl. f_equal.
  change (drv w) with (h_drv (held_of w)). rewrite Hd1. destruct d1; simpl in *. by subst.
Qed.

(** [fpga_port_disable] and [fpga_port_enable] move the reset count by one. *)
Lemma disable_held p (w w' : world) a :
  on_fdev p fpga_port_disable w = Some (a, w') ->
  exists r n, h_devs (held_of w) !! p = Some (r, Some (false, n)) /\
    held_of w' = with_dev p (r, Some (false, u32 (n + 1))) (held_of w).
Proof.
  intros H. apply on_fdev_inv in H as (d & pd0 & q & Hd & Hrun & Hw).
  exists (dev_refs d), (disable_count pd0). rewrite Hd, Hw.
  assert (pd_held pd0 = (false, disable_count pd0) /\ pd_held (pd q) = (false, u32 (disable_count pd0 + 1)) /\
    fmgr (hw (io q)) = fmgr (hw (phw w))) as (-> & -> & ->); [|done].
  unfold fpga_port_disable, __fpga_port_disable, mmio_readq, mmio_writeq in Hrun. simpl in Hrun.
  unfold pd_held. destruct (lock pd0); [done|]. simpl in Hrun.
  destruct (istrue (disable_count pd0)); simpl in Hrun; [by injection Hrun as _ <-|].
  destruct (get_feature_ioaddr_by_index _ _) as [[b p1]|] eqn:E; simpl in Hrun; [|done].
  apply ioaddr_pure in E as ->. destruct (b =? 0); simpl in Hrun; [done|]. by injection Hrun as _ <-.
Qed.

Lemma enable_held p (w w' : world) u :
  on_fdev p fpga_port_enable w = Some (u, w') ->
  exists r n, h_devs (held_of w) !! p = Some (r, Some (false, n)) /\
    held_of w' = with_dev p (r, Some (false, u32 (n - 1))) (held_of w).
Proof.
  intros H. apply on_fdev_inv in H as (d & pd0 & q & Hd & Hrun & Hw).
  exists (dev_refs d), (disable_count pd0). rewrite Hd, Hw.
  assert (pd_held pd0 = (false, disable_count pd0) /\ pd_held (pd q) = (false, u32 (disable_count pd0 - 1)) /\
    fmgr (hw (io q)) = fmgr (hw (phw w))) as (-> & -> & ->); [|done].
  unfold fpga_port_enable, __fpga_port_enable, mmio_readq, mmio_writeq in Hrun. simpl in Hrun.
  unfold pd_held. destruct (lock pd0); [done|]. simpl in Hrun.
  destruct (istrue (u32 (disable_count pd0 - 1))); simpl in Hrun; [by injection Hrun as _ <-|].
  destruct (get_feature_ioaddr_by_index _ _) as [[b p1]|] eqn:E; simpl in Hrun; [|done].
  apply ioaddr_pure in E as ->. destruct (b =? 0); simpl in Hrun; [done|]. by injection Hrun as _ <-.
Qed.

(** ** The manager *)

Definition with_mgr (m : Z * bool * Z * bool) (v : held) : held := Held (h_devs v) (h_drv v) (Some m).

Lemma mgr_get_run (q q' : fme) r :
  (forall m, fmgr (hw (io q)) = Some m -> 1 <= mgr_refs m) ->
  fpga_mgr_get (S := fme) (mgre env) q = Some (r, q') ->
  (r < 0 /\ fme_held q' = fme_held q) \/
  (r = 0 /\ exists n o a, mgr_held <$> fmgr (hw (io q)) = Some (n, false, o, a) /\
     fme_held q' = (pd_held (pd q), Some (n + 1, true, o + 1, a))).
Proof.
  intros Hm H. unfold fpga_mgr_get in H. simpl in H. unfold fme_held.
  destruct (fmgr (hw (io q))) as [m|] eqn:E; cycle 1.
  { simpl in H. injection H as <- <-. left. split; [unfold ENODEV; lia | by rewrite E]. }
  specialize (Hm m eq_refl). destruct (mgr_added m) eqn:Ea; cycle 1.
  { simpl in H. injection H as <- <-. left. split; [unfold ENODEV; lia | by rewrite E]. }
  unfold mod_mgr, __fpga_mgr_get, put_mgr_device, mod_mgr, the_mgr in H. simpl in H. rewrite E in H.
  simpl in H. assert (mgr_refs m + 1 =? 1 = false) as Hr by lia.
  destruct (ref_mutex m) eqn:Er; simpl in H.
  { rewrite Hr in H. simpl in H. injection H as <- <-. left. split; [unfold EBUSY; lia|]. simpl. unfold mgr_held. simpl.
    rewrite Z.add_simpl_r, Er. done. }
  destruct (try_module_get (mgre env)); simpl in H.
  - injection H as <- <-. right. split; [done|]. unfold mgr_held. simpl. rewrite Er, Ea. by eexists _, _, _.
  - rewrite Hr in H. simpl in H.
    injection H as <- <-. left. split; [unfold ENODEV; lia|]. simpl. unfold mgr_held. simpl.
    by rewrite Z.add_simpl_r, Er.
Qed.

Lemma mgr_put_run (q q' : fme) u n b o a :
  mgr_held <$> fmgr (hw (io q)) = Some (n, b, o, a) -> n <> 1 ->
  fpga_mgr_put (S := fme) q = Some (u, q') ->
  fme_held q' = (pd_held (pd q), Some (n - 1, false, o - 1, a)).
Proof.
  intros Hm Hn H. unfold fpga_mgr_put, put_mgr_device, mod_mgr, the_mgr in H. simpl in H.
  destruct (fmgr (hw (io q))) as [m|] eqn:E; [|done]. simpl in *. injection Hm as <- <- <- <-.
  rewrite (proj2 (Z.eqb_neq _ _) Hn) in H. simpl in H. injection H as _ <-. done.
Qed.

(** ** The ioctl *)

(** Live devices have references and a reset count of 32 bits, and so has the
    manager. *)
Record held_ok (v : held) : Prop := {
  ok_refs : forall h r y, h_devs v !! h = Some (r, y) -> 1 <= r;
  ok_count : forall h r b n, h_devs v !! h = Some (r, Some (b, n)) -> is_u32 n;
  ok_mgr : forall n b o a, h_mgr v = Some (n, b, o, a) -> 1 <= n;
}.

Lemma u32_back n : is_u32 n -> u32 (u32 (n + 1) - 1) = n.
Proof.
  intros Hn. unfold in_range in Hn. unfold u32, wrap.
  rewrite Zminus_mod_idemp_l. rewrite Z.add_simpl_r. by apply Z.mod_small.
Qed.

(** What happens to the manager on the way is the only trace a load leaves
    until fpga_mgr_put. *)
Lemma load_port_held h id buf (w w' : world) a n b o c :
  held_ok (held_of w) -> h_mgr (held_of w) = Some (n, b, o, c) -> n <> 1 ->
  load_port env h id buf w = Some (a, w') ->
  held_of w' = with_mgr (n - 1, false, o - 1, c) (held_of w).
Proof.
  intros Hok Hm Hn H. unfold load_port, kbind in H.
  destruct (on_fdev h (mod_fme (set_pr_err 0)) w) as [[u1 w1]|] eqn:E1; [|done].
  destruct (on_fdev h (mod_fme (set_fme_port_id (u8 id))) w1) as [[u2 w2]|] eqn:E2; [|done].
  apply (keeps_run _ _ _ _ _ (held_on_fdev h _ (held_mod_fme _))) in E1, E2. rewrite E1 in E2.
  destruct (fpga_for_each_port _ w2) as [[po w3]|] eqn:E3; [|done].
  destruct po as [p1|]; [|done]. cbn [deref] in H.
  apply for_each_port_held in E3; [|intros h'; apply held_on_fdev; unfold fpga_port_check_id, fpga_port_id; keep_held].
  destruct E3 as (x & Hx & H3). rewrite E2 in Hx, H3.
  destruct (on_fdev p1 fpga_port_disable w3) as [[u4 w4]|] eqn:E4; [|done].
  destruct (on_fdev h (fpga_mgr_buf_load _ _ _ _) w4) as [[ret w5]|] eqn:E5; [|done].
  destruct (on_fdev h get_fme w5) as [[f w6]|] eqn:E6; [|done].
  destruct (on_fdev p1 fpga_port_enable w6) as [[u7 w7]|] eqn:E7; [|done].
  destruct (put_device p1 w7) as [[u8 w8]|] eqn:E8; [|done].
  destruct (on_fdev h fpga_mgr_put w8) as [[u9 w9]|] eqn:E9; [|done].
  injection H as _ <-.
  (* the disabled port *)
  apply disable_held in E4 as (r4 & n4 & Hp4 & H4). rewrite H3, with_dev_lookup in Hp4.
  destruct x as [r y]. simpl in Hp4, H3. injection Hp4 as <- ->.
  pose proof (ok_refs _ Hok _ _ _ Hx) as Hr. pose proof (ok_count _ Hok _ _ _ _ Hx) as Hc.
  apply (keeps_run _ _ _ _ _ (held_on_fdev h _ (held_buf_load _ _))) in E5.
  apply (keeps_run _ _ _ _ _ (held_on_fdev h _ held_get_fme)) in E6.
  (* enabled again *)
  apply enable_held in E7 as (r7 & n7 & Hp7 & H7).
  rewrite E6, E5, H4, with_dev_lookup in Hp7. injection Hp7 as <- <-.
  assert (u32 (u32 (n4 + 1) - 1) = n4) as Hn4 by (by apply u32_back).
  (* and put *)
  assert (h_devs (held_of w7) !! p1 = Some (r + 1, Some (false, n4))) as Hp8
    by (by rewrite H7, with_dev_lookup, Hn4).
  apply (put_device_held p1 w7 w8 u8 _ _ Hp8) in E8; [|lia].
  assert (held_of w8 = held_of w) as H8.
  { rewrite E8, H7, E6, E5, H4, H3, !with_dev_twice. replace (r + 1 - 1) with r by lia. by apply with_dev_same. }
  apply on_fdev_inv in E9 as (d & pd0 & q & Hd & Hrun & ->).
  apply (mgr_put_run _ _ _ n b o c) in Hrun; [|exact (eq_trans (f_equal h_mgr H8) Hm)|exact Hn].
  pose proof (f_equal fst Hrun : pd_held (pd q) = pd_held pd0) as Hpd.
  pose proof (f_equal snd Hrun : mgr_held <$> fmgr (hw (io q)) = _) as Hmq. simpl in Hmq.
  unfold with_mgr. f_equal; [|exact (f_equal h_drv H8)|exact Hmq].
  rewrite Hpd, insert_id by done. by rewrite H8.
Qed.

Lemma held_copy_bitstream h addr size len : keeps held_of (copy_bitstream (Op := Op) (D := D) h addr size len).
Proof.
  unfold copy_bitstream. destruct (len <? size); [apply keeps_oops|].
  apply keeps_bind; [apply held_on_fdev, held_usr | intros v; apply keeps_ret].
Qed.

(** The part under the mutex takes nothing for good. *)
Lemma fme_pr_locked_held h port_pr (w w' : world) a :
  held_ok (held_of w) -> fme_pr_locked env h port_pr w = Some (a, w') -> held_of w' = held_of w.
Proof.
  intros Hok H. unfold fme_pr_locked in H.
  unfold kbind at 1 in H.
  destruct (on_fdev h (on_pd fpga_pdata_get_private) w) as [[f w1]|] eqn:E1; [|done].
  apply (keeps_run held_of) in E1; [|apply held_on_fdev, keeps_on_pd_pure, gets_pure].
  destruct f as [f|]; [|simpl in H; injection H as _ <-; exact E1].
  destruct (negb (vzalloc env _)); [simpl in H; injection H as _ <-; exact E1|].
  unfold kbind at 1 in H.
  destruct (copy_bitstream h _ _ _ w1) as [[buf w2]|] eqn:E2; [|done].
  apply (keeps_run _ _ _ _ _ (held_copy_bitstream _ _ _ _)) in E2. rewrite E1 in E2.
  destruct buf as [buf|]; [|simpl in H; injection H as _ <-; exact E2].
  unfold kbind at 1 in H.
  destruct (on_fdev h (fpga_mgr_get (mgre env)) w2) as [[mgr w3]|] eqn:E3; [|done].
  apply on_fdev_inv in E3 as (d & p & q & Hd & Hrun & Hw3).
  assert (forall m, fmgr (hw (phw w2)) = Some m -> 1 <= mgr_refs m) as Hm.
  { intros m Hm. apply (ok_mgr _ Hok (mgr_refs m) (ref_mutex m) (owner_refs m) (mgr_added m)).
    rewrite <- E2. simpl. by rewrite Hm. }
  apply mgr_get_run in Hrun; [|exact Hm].
  destruct Hrun as [[Hneg Hq]|(-> & n & o & c & Hmgr & Hq)].
  - rewrite (proj2 (Z.ltb_lt _ _) Hneg) in H. simpl in H. injection H as _ <-.
    pose proof (f_equal fst Hq : pd_held (pd q) = pd_held p) as Hpd.
    pose proof (f_equal snd Hq : mgr_held <$> fmgr (hw (io q)) = mgr_held <$> fmgr (hw (phw w2))) as Hmq.
    rewrite <- E2, Hw3. unfold held_of at 2. f_equal; [by rewrite Hpd, insert_id | exact Hmq].
  - cbn [Z.ltb Z.compare] in H. unfold kbind in H.
    destruct (load_port env h _ buf w3) as [[r w4]|] eqn:E4; [|done]. injection H as _ <-.
    pose proof (f_equal fst Hq : pd_held (pd q) = pd_held p) as Hpd.
    pose proof (f_equal snd Hq : mgr_held <$> fmgr (hw (io q)) = _) as Hmq. simpl in Hmq.
    assert (held_of w3 = with_mgr (n + 1, true, o + 1, c) (held_of w)) as H3.
    { rewrite Hw3, <- E2. unfold with_mgr. f_equal; [by rewrite Hpd, insert_id | exact Hmq]. }
    assert (h_mgr (held_of w) = Some (n, false, o, c)) as H0 by (rewrite <- E2; exact Hmgr).
    pose proof (ok_mgr _ Hok _ _ _ _ H0) as Hn.
    apply (load_port_held h _ buf w3 w4 r (n + 1) true (o + 1) c) in E4.
    + rewrite E4, H3. unfold with_mgr. simpl. rewrite !Z.add_simpl_r.
      change (mgr_held <$> fmgr (hw (phw w))) with (h_mgr (held_of w)).
      by rewrite <- H0.
    + rewrite H3. destruct Hok as [H5 H6 H7]. split; [exact H5 | exact H6|]. simpl. intros ? ? ? ? [= <- <- <- <-]. lia.
    + by rewrite H3.
    + lia.
Qed.

Lemma held_pci_readq base off : keeps held_of (pci_readq (Op := Op) (P := fpga_fme) (D := afu_world (fme_hw D)) base off).
Proof.
  unfold pci_readq. destruct (base =? 0); [apply keeps_oops|].
  intros v w a w' Hv H. simpl in H. injection H as _ <-. exact Hv.
Qed.

Lemma held_ok_lock v h r n :
  held_ok v -> h_devs v !! h = Some (r, Some (false, n)) -> held_ok (with_dev h (r, Some (true, n)) v).
Proof.
  intros [H1 H2 H3] Hh. split; [| |exact H3]; simpl.
  - intros x r' y. destruct (decide (x = h)) as [->|Hne].
    + rewrite lookup_insert_eq. intros [= <- <-]. by eapply H1.
    + rewrite lookup_insert_ne by congruence. apply H1.
  - intros x r' b m. destruct (decide (x = h)) as [->|Hne].
    + rewrite lookup_insert_eq. intros [= <- <- <-]. by eapply H2.
    + rewrite lookup_insert_ne by congruence. apply H2.
Qed.

Lemma fme_pr_held h arg (w w' : world) ret :
  held_ok (held_of w) -> fme_pr env h arg w = Some (ret, w') -> held_of w' = held_of w.
Proof.
  intros Hok H. unfold fme_pr in H. cbv zeta in H. unfold kbind at 1 in H.
  destruct (on_fdev h (on_usr (copy_from_user _ _)) w) as [[v w1]|] eqn:E1; [|done].
  apply (keeps_run _ _ _ _ _ (held_on_fdev h _ (held_usr _))) in E1.
  destruct v as [v|]; [|simpl in H; injection H as _ <-; exact E1].
  destruct (_ || _); [simpl in H; injection H as _ <-; exact E1|].
  unfold kbind at 1 in H. destruct (fme_header_of h w1) as [[hdr w2]|] eqn:E2; [|done].
  apply (keeps_run held_of) in E2; [|apply held_on_fdev, keeps_on_pd_pure, ioaddr_pure]. rewrite E1 in E2.
  destruct (hdr =? 0); [simpl in H; injection H as _ <-; exact E2|].
  unfold kbind at 1 in H. destruct (pci_readq hdr _ w2) as [[csr w3]|] eqn:E3; [|done].
  apply (keeps_run _ _ _ _ _ (held_pci_readq _ _)) in E3. rewrite E2 in E3.
  destruct (_ <=? _); [simpl in H; injection H as _ <-; exact E3|].
  destruct (negb _); [simpl in H; injection H as _ <-; exact E3|].
  rewrite <- E3. revert H. apply mutex_bracket.
  - intros r. apply keeps_bind; [apply held_on_fdev, held_usr|].
    intros fault. destruct fault; apply keeps_ret.
  - intros w4 a w5 (r & n & Hh & H4) H. rewrite E3 in Hh, H4. eapply fme_pr_locked_held; [|exact H].
    rewrite H4. by apply held_ok_lock.
Qed.
End Held.

(** ** Theorems *)

(** C4: the PR ioctl gives back what it takes.  However FPGA_FME_PORT_PR ends -
    a bad request, no memory, a fault, a busy manager, a driver module that is
    going away, a timeout or an error of the PR engine, or success - every
    mutex, every reference on a device, the reset count of every port, the
    references and the lock of the FPGA manager and the references of its
    module are what they were. *)
Theorem fme_pr_releases {Op D} {dev : Mmio D} {wide : Mmio512 D} env h arg ret
    (w w' : pci_world Op fpga_fme (afu_world (fme_hw D))) :
  held_ok (held_of w) -> fme_pr env h arg w = Some (ret, w') -> held_of w' = held_of w.
Proof. apply fme_pr_held. Qed.

(** A PR engine that accepts everything at once, over a register file. *)
Definition eager_base : Z := fme_page FME_FEATURE_ID_PR_MGMT.
#[local] Instance eager_mmio : Mmio (mem_dev * list Z) := {|
  dev_readq a d :=
    if a =? eager_base + pr_reg "ccip_fme_pr_control" then
      (fset feature_fme_pr_ctl "pr_reset_ack" 1 0, d)
    else if a =? eager_base + pr_reg "ccip_fme_pr_status" then
      (fset feature_fme_pr_status "pr_credit" 4 0, d)
    else (fst (dev_readq (D := mem_dev) a (fst d)), d);
  dev_writeq a v d :=
    if a =? eager_base + pr_reg "ccip_fme_pr_data" then (fst d, (snd d ++ [v])%list)
    else (dev_writeq a v (fst d), snd d);
|}.
#[local] Instance eager_512 : Mmio512 (mem_dev * list Z) := fun _ _ d => d.

Definition eager_regs : mem_dev := list_to_map [
  (fme_page 0 + offsetof feature_fme_header "capability", fset feature_fme_capability "num_ports" 1 0)].

(** The argument of the ioctl at 0x100, and a bitstream of 10 bytes at 0x200. *)
Definition pr_arg : Z :=
  let set n v := fset fpga_fme_port_pr n v in
  set "argsz" (offsetofend fpga_fme_port_pr "status")
    (set "buffer_size" 10 (set "buffer_address" 0x200 0)).
Definition pr_user : user_mem := UserMem
  (list_to_map (imap (fun i b => (0x100 + Z.of_nat i, b)) (le_split 40 pr_arg) ++
                imap (fun i b => (0x200 + Z.of_nat i, b)) [1; 2; 3; 4; 5; 6; 7; 8; 9; 10])%list)
  (fun _ => true).

Definition pr_function : pci_world unit fpga_fme (afu_world (fme_hw (mem_dev * list Z))) :=
  demo_function narrow_fme pr_user (eager_regs, []).

(** The bitstream goes in, padded to 12 bytes, and all is given back. *)
Lemma fme_pr_releases_witness :
  held_ok (held_of pr_function) /\
  exists w', fme_pr demo_fme_env 0 0x100 pr_function = Some (0, w') /\
    snd (fhw (hw (phw w'))) = [0x04030201; 0x08070605; 0x0a09] /\
    held_of w' = held_of pr_function.
Proof.
  assert (held_ok (held_of pr_function)) as Hok.
  { split.
    - intros h r y H. change (h_devs (held_of pr_function)) with
        (<[0 := (2, Some (false, 0))]> (<[1 := (2, Some (false, 0))]> (∅ : gmap Z (Z * option (bool * Z))))) in H.
      apply lookup_insert_Some in H as [[<- [= <- <-]]|[_ H]]; [lia|].
      apply lookup_insert_Some in H as [[<- [= <- <-]]|[_ H]]; [lia|done].
    - intros h r b n H. change (h_devs (held_of pr_function)) with
        (<[0 := (2, Some (false, 0))]> (<[1 := (2, Some (false, 0))]> (∅ : gmap Z (Z * option (bool * Z))))) in H.
      apply lookup_insert_Some in H as [[<- [= <- <- <-]]|[_ H]]; [unfold in_range; lia|].
      apply lookup_insert_Some in H as [[<- [= <- <- <-]]|[_ H]]; [unfold in_range; lia|done].
    - intros n b o a [= <- <- <- <-]. lia. }
  split; [exact Hok|].
  assert (match fme_pr demo_fme_env 0 0x100 pr_function with
          | Some (ret, w') => Some (ret, snd (fhw (hw (phw w'))))
          | None => None
          end = Some (0, [0x04030201; 0x08070605; 0x0a09])) as Hrun by (vm_compute; reflexivity).
  destruct (fme_pr demo_fme_env 0 0x100 pr_function) as [[ret w']|] eqn:E; [|discriminate Hrun].
  injection Hrun as -> Hw. exists w'. split; [reflexivity | split; [exact Hw|]].
  exact (fme_pr_releases demo_fme_env 0 0x100 0 pr_function w' Hok E).
Defined.
