(* ===== verification/FmePerfSpec.v ===== *)
(** * Theorems about the performance counters (fme-iperf.c, fme-dperf.c)

    The fabric monitor counts for one object at a time; the tree of sysfs
    objects disappears with the feature and with every failed init. *)

From stdpp Require Import gmultiset.
From stdpp Require Import pretty.
From S2P Require Import Prelude.
From S2P Require Import Bitfield.
From S2P Require Import Registers.
From S2P Require Import Mmio.
From S2P Require Import UserMem.
From S2P Require Import Sysfs.
From S2P Require Import FeatureDev.
From S2P Require Import Msix.
From S2P Require Import AfuTypes.
From S2P Require Import DmaRegion.
From S2P Require Import PortEnv.
From S2P Require Import FpgaMgr.
From S2P Require Import FmeTypes.
From S2P Require Import FmeAttrs.
From S2P Require Import FmePerf.
From S2P Require Import FmeExample.
Local Open Scope string_scope.
Local Open Scope Z_scope.

(** ** The fabric monitor *)

(** A fabric monitor's control register has a filter bit and a port number. *)
Record fab_wf (u : fab_unit) : Prop := {
  fab_struct : reg_wf (fu_ctl u) = true;
  fab_filter : has_field (fu_ctl u) "port_filter" = true /\ width (fu_ctl u) "port_filter" = 1;
  fab_port : has_field (fu_ctl u) "port_id" = true /\ width (fu_ctl u) "port_id" = 2;
}.

Lemma iperf_unit_wf : fab_wf iperf_unit.
Proof. by split; vm_compute. Qed.
Lemma dperf_unit_wf : fab_wf dperf_unit.
Proof. by split; vm_compute. Qed.

(** An object of the fabric: all ports, or one of the four a register can name. *)
Definition fab_object (id : Z) : Prop := id = PERF_OBJ_ROOT_ID \/ 0 <= id < 4.

(** The value fab_enable_store writes. *)
Definition fab_select (u : fab_unit) (id csr : Z) : Z :=
  if id =? PERF_OBJ_ROOT_ID then fset (fu_ctl u) "port_filter" FAB_DISABLE_FILTER csr
  else fset (fu_ctl u) "port_id" id (fset (fu_ctl u) "port_filter" FAB_ENABLE_FILTER csr).

(** A register counts for one object only. *)
Lemma counts_unique u csr i j :
  fab_wf u -> fab_counts_for u csr i = true -> fab_counts_for u csr j = true -> i = j.
Proof.
  intros Hwf. unfold fab_counts_for. destruct (_ =? FAB_DISABLE_FILTER); intros ?%Z.eqb_eq ?%Z.eqb_eq; congruence.
Qed.

Lemma counts_select u csr id : fab_wf u -> fab_object id -> fab_counts_for u (fab_select u id csr) id = true.
Proof.
  intros [Hs [Hf1 Hf2] [Hp1 Hp2]] Hid. apply reg_wf_struct in Hs. unfold fab_counts_for, fab_select.
  destruct (Z.eqb_spec id PERF_OBJ_ROOT_ID) as [->|Hne].
  - by rewrite fget_fset_same, Hf2.
  - destruct Hid as [|Hid]; [done|].
    rewrite fget_fset_other, !fget_fset_same, Hf2, Hp2 by done.
    rewrite (wrap_small 2) by (unfold in_range; lia). simpl. by apply Z.eqb_eq.
Qed.

Lemma select_other u csr id m :
  fab_wf u -> m <> "port_filter" -> m <> "port_id" ->
  fget (fu_ctl u) m (fab_select u id csr) = fget (fu_ctl u) m csr.
Proof.
  intros [Hs _ _] H1 H2. apply reg_wf_struct in Hs. unfold fab_select.
  destruct (id =? PERF_OBJ_ROOT_ID); rewrite !fget_fset_other by (done || congruence); done.
Qed.

Lemma select_range u csr id : fab_wf u -> is_u64 csr -> is_u64 (fab_select u id csr).
Proof.
  intros [Hs _ _] Hc. unfold fab_select. destruct (id =? PERF_OBJ_ROOT_ID); auto using fset_range.
Qed.

Section Fab.
Context {Op D : Type} {dev : Mmio D} {ok : MmioOk D} {mem : MmioMem D} {sb : Strtobool}.
Abbreviation fme := (platform_device Op fpga_fme (afu_world (fme_hw D))).
Implicit Types q : fme.

Definition fab_ctl_at (u : fab_unit) (base : Z) : Z := base + offsetof (fu_block u) "fab_ctl".

Lemma base_run i base q : feature_at i base q -> on_pd (get_feature_ioaddr_by_index i) q = Some (base, q).
Proof. intros Hb. simpl. rewrite (feature_at_run _ _ _ Hb). by destruct q. Qed.

Lemma fab_enable_store_run u id buf n base q :
  feature_at (fu_id u) base q -> lock (pd q) = false ->
  fab_enable_store u id buf n q =
  match strtobool buf with
  | Some true =>
      if fab_counts_for u (reg_at (fab_ctl_at u base) q) id then Some (n, q)
      else Some (n, set_reg (fab_ctl_at u base) (fab_select u id (reg_at (fab_ctl_at u base) q)) q)
  | _ => Some (- EINVAL, q)
  end.
Proof.
  intros Hb Hl. unfold fab_enable_store. destruct (strtobool buf) as [[]|]; [|done..].
  pose proof (proj1 (proj2 Hb)) as Hne.
  rewrite (kbind_run _ _ _ _ _ (base_run _ _ _ Hb)). unfold fabric_pobj_is_enabled. fold (fab_ctl_at u base).
  assert (forall A (f : bool -> K fme A), (enabled <- (csr <- mmio_readq base (offsetof (fu_block u) "fab_ctl") ;;
    kret (fab_counts_for u csr id)) ;; f enabled) q = f (fab_counts_for u (reg_at (fab_ctl_at u base) q) id) q) as ->.
  { intros A f. unfold kbind. by rewrite mmio_readq_run. }
  destruct (fab_counts_for u _ id); [done|].
  destruct q as [[lk ? ? ? ? ? ? ? ?] w]. simpl in Hl. subst lk. simpl.
  rewrite mmio_readq_run by done. rewrite mmio_writeq_run by done. simpl. reflexivity.
Qed.
End Fab.

(** ** The trees of objects *)

(** The paths an object owns: its files, its directory and its children's. *)
Fixpoint tree_paths (o : perf_object) : list string :=
  match o with
  | PerfObject _ path files children => (flat_map tree_paths children ++ files ++ [path])%list
  end.

Section Tree.
Context {Op D : Type} {dev : Mmio D}.
Variable env : fme_env.
Abbreviation fme := (platform_device Op fpga_fme (afu_world (fme_hw D))).
Implicit Types q : fme.

Definition files_of q : gset string := sysfs (kobj (io q)).

(** Only the set of sysfs files moves, to [f] of it. *)
Definition sysfs_to (c : K fme unit) (f : gset string -> gset string) : Prop :=
  forall q, exists q', c q = Some (tt, q') /\ files_of q' = f (files_of q) /\ pd q' = pd q /\ hw (io q') = hw (io q).

Lemma remove_to names : sysfs_to (sysfs_remove_files names) (fun s => s ∖ list_to_set names).
Proof. intros q. by eexists. Qed.
Lemma add_to names : sysfs_to (add_files names) (fun s => s ∪ list_to_set names).
Proof. intros q. by eexists. Qed.

Lemma seq_to c1 c2 f1 f2 : sysfs_to c1 f1 -> sysfs_to c2 f2 -> sysfs_to (c1 ;; c2) (fun s => f2 (f1 s)).
Proof.
  intros H1 H2 q. destruct (H1 q) as (q1 & R1 & S1 & P1 & W1). destruct (H2 q1) as (q2 & R2 & S2 & P2 & W2).
  exists q2. rewrite (kbind_run _ _ _ _ _ R1). split_and!; [done | by rewrite S2, S1 | congruence | congruence].
Qed.

Lemma to_ext c f g : sysfs_to c f -> (forall s, f s = g s) -> sysfs_to c g.
Proof. intros H E q. destruct (H q) as (q' & ? & ? & ?). exists q'. by rewrite <- E. Qed.

(** Induction over a tree, with the claim for every child. *)
Lemma perf_object_rect' (P : perf_object -> Prop) :
  (forall i path files children, Forall P children -> P (PerfObject i path files children)) ->
  forall o, P o.
Proof.
  intros H. fix IH 1. intros [i path files children]. apply H.
  induction children as [|c l IHl]; constructor; [apply IH | exact IHl].
Qed.

(** Destroying a tree removes exactly its paths. *)
Lemma destroy_to o : sysfs_to (destroy_perf_obj o) (fun s => s ∖ list_to_set (tree_paths o)).
Proof.
  induction o as [i path files children IH] using perf_object_rect'. cbn [destroy_perf_obj].
  set (destroy_children := fix go (l : list perf_object) : K fme unit :=
    match l with [] => kret tt | c :: l => destroy_perf_obj c ;; go l end).
  assert (sysfs_to (destroy_children children) (fun s => s ∖ list_to_set (flat_map tree_paths children))) as Hc.
  { induction IH as [|c l Hc Hl IHl].
    - intros q. exists q. repeat split. simpl. set_solver.
    - eapply to_ext; [exact (seq_to _ _ _ _ Hc IHl)|]. intros s. cbn [flat_map]. rewrite list_to_set_app_L. set_solver. }
  eapply to_ext; [exact (seq_to _ _ _ _ Hc (seq_to _ _ _ _ (remove_to files) (remove_to [path])))|].
  intros s. cbn [tree_paths]. rewrite !list_to_set_app_L. set_solver.
Qed.

(** ** Building *)

(** Every path of a tree starts with the name of its root. *)
Definition below (root p : string) : Prop := String.prefix root p = true.

(** The files of [q] are those of [s] and some of [t]. *)
Definition between (s : gset string) (t : list string) q : Prop :=
  s ⊆ files_of q /\ files_of q ⊆ s ∪ list_to_set t.

Variable root : string.

Definition tree_below (o : perf_object) : Prop := Forall (below root) (tree_paths o).

Lemma prefix_app a b c : String.prefix a b = true -> String.prefix a (b ++ c) = true.
Proof.
  revert b. induction a as [|x a IH]; intros b H; [by destruct (b ++ c)%string|].
  destruct b as [|y b]; [done|]. simpl in *. destruct (Ascii.ascii_dec x y); [by apply IH | done].
Qed.

Lemma prefix_refl a : String.prefix a a = true.
Proof. induction a as [|x a IH]; [done|]. simpl. by destruct (Ascii.ascii_dec x x). Qed.

Hypothesis root_named : root <> "".

Lemma child_below parent nm : below root parent -> below root (child_path parent nm).
Proof.
  intros H. unfold child_path. destruct (String.eqb_spec parent "") as [->|Hp].
  - destruct root; done.
  - by apply prefix_app.
Qed.

(** No file of [s] is below the root. *)
Definition outside (s : gset string) : Prop := forall p, p ∈ s -> ~ below root p.

(** A piece of building: it returns, and moves nothing but the files. *)
Definition builds {A} (c : K fme A) (s : gset string) (t : list string) (Q : A -> list string -> Prop) : Prop :=
  forall q, between s t q ->
  exists a q' t', c q = Some (a, q') /\ between s t' q' /\ Q a t' /\ pd q' = pd q.

Lemma builds_bind {A B} (c : K fme A) (f : A -> K fme B) s t R Q :
  builds c s t R -> (forall a t', R a t' -> builds (f a) s t' Q) -> builds (kbind c f) s t Q.
Proof.
  intros Hc Hf q Hq. destruct (Hc q Hq) as (a & q1 & t1 & R1 & B1 & Ha & P1).
  destruct (Hf a t1 Ha q1 B1) as (b & q2 & t2 & R2 & B2 & Hb & P2).
  exists b, q2, t2. rewrite (kbind_run _ _ _ _ _ R1). split_and!; try done. congruence.
Qed.

Lemma builds_ret {A} (a : A) s t (Q : A -> list string -> Prop) : Q a t -> builds (kret a) s t Q.
Proof. intros H q Hq. by exists a, q, t. Qed.

(** A new object, or an error and nothing left of it. *)
Definition made (parent : string) (t : list string) (r : Z + perf_object) (t' : list string) : Prop :=
  match r with
  | inl e => e <> 0 /\ t' = t
  | inr o => below root (pobj_path o) /\ tree_below o /\ t' = (tree_paths o ++ t)%list
  end.

Lemma istrue_ne r : istrue r = true -> r <> 0.
Proof. unfold istrue. intros H ->. done. Qed.

Lemma create_builds parent id files name s t :
  outside s -> (forall nm, below root (child_path parent (if id =? PERF_OBJ_ROOT_ID then name else nm))) ->
  builds (create_perf_obj env parent id files name) s t (made parent t).
Proof.
  intros Hs Hpath q [Hlo Hhi]. unfold create_perf_obj.
  set (path := child_path parent _). assert (below root path) as Hb by apply Hpath.
  destruct (negb (pobj_kzalloc_ok env path)); [by exists (inl (- ENOMEM)), q, t|].
  destruct (istrue (kobject_add_ret env path)) eqn:Ek.
  { exists (inl (kobject_add_ret env path)), q, t. split_and!; [done|done| |done]. split; [by apply istrue_ne | done]. }
  destruct (add_to [path] q) as (q1 & R1 & S1 & P1 & _). rewrite (kbind_run _ _ _ _ _ R1).
  set (full := map (child_path path) files). unfold sysfs_create_files.
  destruct (istrue (sysfs_ret (pe env) full)) eqn:Es.
  - rewrite (kbind_run (kret _) _ q1 _ q1 eq_refl), Es.
    destruct (remove_to [path] q1) as (q2 & R2 & S2 & P2 & _). rewrite (kbind_run _ _ _ _ _ R2).
    exists (inl (sysfs_ret (pe env) full)), q2, t. split_and!; [done| | |congruence].
    + split; rewrite S2, S1; [|set_solver]. intros p Hp. specialize (Hs p Hp). simpl.
      assert (p <> path) by (by intros ->). set_solver.
    + split; [by apply istrue_ne | done].
  - destruct (add_to full q1) as (q2 & R2 & S2 & P2 & _).
    assert ((on_kobj (kmod (fun k => Kobj (pid_refs k) (sysfs k ∪ list_to_set full) (subdevs k))) ;; kret 0) q1 =
            Some (0, q2)) as R2' by (by rewrite (kbind_run _ _ _ _ _ R2)).
    rewrite (kbind_run _ _ _ _ _ R2'). change (istrue 0) with false. cbn iota.
    exists (inr (PerfObject id path full [])), q2, ((full ++ [path]) ++ t)%list. split_and!; [done| | |congruence].
    + split; rewrite S2, S1; [set_solver|]. rewrite !list_to_set_app_L. set_solver.
    + split_and!; [done| |done]. unfold tree_below. simpl. apply Forall_app. split; [|by repeat constructor].
      apply Forall_map, list.Forall_forall. intros f _. by apply child_below.
Qed.

(** An object that has grown by some paths. *)
Definition grown (o : perf_object) (t : list string) (r : Z * perf_object) (t' : list string) : Prop :=
  pobj_path (snd r) = pobj_path o /\ tree_below (snd r) /\
  forall p, p ∈ t' <-> p ∈ (tree_paths (snd r) ++ t)%list.

Lemma elem_add_child o c p : p ∈ tree_paths (add_child o c) <-> p ∈ tree_paths c \/ p ∈ tree_paths o.
Proof. destruct o as [i path files l]. simpl. rewrite !elem_of_app. tauto. Qed.

Lemma below_add_child o c : tree_below o -> tree_below c -> tree_below (add_child o c).
Proof.
  unfold tree_below. rewrite !list.Forall_forall. intros Ho Hc p [H|H]%elem_add_child; auto.
Qed.

Lemma path_add_child o c : pobj_path (add_child o c) = pobj_path o.
Proof. by destruct o. Qed.

Lemma instances_build n i o files name s t t0 :
  outside s -> 0 <= i -> below root (pobj_path o) -> tree_below o ->
  (forall p, p ∈ t0 <-> p ∈ (tree_paths o ++ t)%list) ->
  builds (create_instances env n i o files name) s t0 (grown o t).
Proof.
  intros Hs. revert i o t0. induction n as [|n IH]; intros i o t0 Hi Hp Ho Ht; [by apply builds_ret|].
  cbn [create_instances]. eapply builds_bind.
  { apply create_builds; [done|]. intros nm. by apply child_below. }
  intros [e|obj] t1 Hm.
  - destruct Hm as [He ->]. by apply builds_ret.
  - destruct Hm as (Hb & Hobj & ->).
    intros q Hq. destruct (IH (i + 1) (add_child o obj) (tree_paths obj ++ t0)%list) with q
      as (r & q' & t' & R & B & (G1 & G2 & G3) & P); try done.
    + lia.
    + by apply below_add_child.
    + intros p. rewrite !elem_of_app, elem_add_child, Ht, elem_of_app. tauto.
    + by exists r, q', t'.
Qed.

Lemma unit_builds perf_dev top name files inst s t0 :
  outside s -> below root (pobj_path perf_dev) -> tree_below perf_dev ->
  (forall p, p ∈ t0 <-> p ∈ tree_paths perf_dev) ->
  builds (create_perf_unit env perf_dev top name files inst) s t0 (grown perf_dev []).
Proof.
  intros Hs Hp Hd Ht. unfold create_perf_unit. eapply builds_bind.
  { apply create_builds; [done|]. intros nm. by apply child_below. }
  intros [e|pobj] t1 Hm.
  - destruct Hm as [He ->]. apply builds_ret. split_and!; [done..|]. intros p. by rewrite Ht, app_nil_r.
  - destruct Hm as (Hb & Hobj & ->). eapply builds_bind.
    { apply (instances_build _ 0 pobj files inst s t0); done. }
    intros [ret o] t2 (G1 & G2 & G3). apply builds_ret. cbn [fst snd] in *. split_and!.
    + apply path_add_child.
    + by apply below_add_child.
    + intros p. cbn [snd]. rewrite G3, app_nil_r, elem_add_child, elem_of_app, Ht. done.
Qed.

(** Destroying a tree that holds all that was made brings the files back. *)
Lemma destroy_all o s t q :
  outside s -> tree_below o -> (forall p, p ∈ t <-> p ∈ tree_paths o) -> between s t q ->
  exists q', destroy_perf_obj o q = Some (tt, q') /\ files_of q' = s /\ pd q' = pd q.
Proof.
  intros Hs Ho Ht [Hlo Hhi]. destruct (destroy_to o q) as (q' & R & S & P & _).
  exists q'. split_and!; [done| |done]. rewrite S. apply set_eq. intros p.
  rewrite elem_of_difference, elem_of_list_to_set. split.
  - intros [Hp Hn]. specialize (Hhi p Hp). rewrite elem_of_union, elem_of_list_to_set, Ht in Hhi. tauto.
  - intros Hp. split; [by apply Hlo|]. intros Hin. unfold tree_below in Ho.
    rewrite list.Forall_forall in Ho. by apply (Hs p Hp), Ho.
Qed.

(** The exit of an init that failed. *)
Lemma fail_back o s t (ret : Z) q f :
  outside s -> tree_below o -> (forall p, p ∈ t <-> p ∈ (tree_paths o ++ [])%list) -> between s t q ->
  private (pd q) = Some f ->
  exists q', (destroy_perf_obj o ;; kret ret) q = Some (ret, q') /\ files_of q' = s /\ private (pd q') = Some f.
Proof.
  intros Hs Ho Ht B Hf.
  destruct (destroy_all o s t q Hs Ho) as (q' & R & S & P); [intros p; by rewrite Ht, app_nil_r | done |].
  exists q'. rewrite (kbind_run _ _ _ _ _ R). split_and!; [done..|]. congruence.
Qed.

(** The end of a successful init, and the uinit after it. *)
Lemma record_and_remove o s t q f :
  outside s -> tree_below o -> (forall p, p ∈ t <-> p ∈ (tree_paths o ++ [])%list) -> between s t q ->
  private (pd q) = Some f ->
  exists q' q'', (mod_fme (set_iperf_dev (Some o)) ;; kret 0) q = Some (0, q') /\
    private (pd q') = Some (set_iperf_dev (Some o) f) /\
    s ⊆ files_of q' /\ files_of q' ⊆ s ∪ list_to_set (tree_paths o) /\
    fme_iperf_uinit q' = Some (tt, q'') /\ files_of q'' = s /\ private (pd q'') = Some (set_iperf_dev None f).
Proof.
  intros Hs Ho Ht B Hf. rewrite (kbind_run _ _ _ _ _ (mod_fme_run q f _ Hf)). set (q1 := set_pd _ q).
  destruct (destroy_all o s t q1 Hs Ho) as (q2 & R & S & P); [intros p; by rewrite Ht, app_nil_r | done |].
  eexists q1, _. split_and!; [done..|apply B| | | |].
  - etrans; [apply B|]. intros p. rewrite !elem_of_union, !elem_of_list_to_set, Ht, app_nil_r. tauto.
  - unfold fme_iperf_uinit. rewrite (kbind_run _ _ _ _ _ (get_fme_run q1 _ eq_refl)).
    cbn [iperf_dev set_iperf_dev]. rewrite (kbind_run (deref (Some o)) _ q1 o q1 eq_refl).
    rewrite (kbind_run _ _ _ _ _ R). apply (mod_fme_run q2 (set_iperf_dev (Some o) f)). by rewrite P.
  - exact S.
  - done.
Qed.

Lemma iommu_builds {mem : MmioMem D} base o s t q :
  outside s -> below root (pobj_path o) -> tree_below o -> (forall p, p ∈ t <-> p ∈ tree_paths o) ->
  feature_at FME_FEATURE_ID_HEADER base q -> between s t q ->
  exists a q' t', create_perf_iommu_obj env o q = Some (a, q') /\ between s t' q' /\ grown o [] a t' /\ pd q' = pd q.
Proof.
  intros Hs Hp Ho Ht Hb Hq. unfold create_perf_iommu_obj.
  rewrite (kbind_run _ _ _ _ _ (plain_readq_run _ _ _ _ _ Hb)).
  destruct (negb _).
  - exists (0, o), q, t. split_and!; try done. split_and!; [done..|]. intros p. by rewrite Ht, app_nil_r.
  - by apply (unit_builds o iommu_top_files "iommu" iommu_files "afu" s t).
Qed.
End Tree.

(** ** Theorems *)

(** One fabric counter at a time.  Writing "1" to the enable file of an
    object of the fabric monitor, integrated or discrete, returns the length
    written and makes that object the only one the monitor counts for, whatever
    it counted for before; all other fields of the control register and all
    other registers stay; any other text, "0" included, is refused with -EINVAL
    and nothing changes. *)
Lemma fab_enable_store_exclusive {Op D} {dev : Mmio D} {ok : MmioOk D} {mem : MmioMem D} {sb : Strtobool}
    u id buf n base (q : platform_device Op fpga_fme (afu_world (fme_hw D))) :
  u = iperf_unit \/ u = dperf_unit -> fab_object id ->
  feature_at (fu_id u) base q -> lock (pd q) = false ->
  exists ret q', fab_enable_store u id buf n q = Some (ret, q') /\
    match strtobool buf with
    | Some true =>
        ret = n /\ pd q' = pd q /\
        (forall i, fab_counts_for u (reg_at (fab_ctl_at u base) q') i = true <-> i = id) /\
        (forall m, m <> "port_filter" -> m <> "port_id" ->
           fget (fu_ctl u) m (reg_at (fab_ctl_at u base) q') = fget (fu_ctl u) m (reg_at (fab_ctl_at u base) q)) /\
        (forall a, a <> fab_ctl_at u base -> reg_at a q' = reg_at a q)
    | _ => ret = - EINVAL /\ q' = q
    end.
Proof.
  intros Hu Hid Hb Hl.
  assert (fab_wf u) as Hwf by (destruct Hu as [->| ->]; [apply iperf_unit_wf | apply dperf_unit_wf]).
  rewrite (fab_enable_store_run u id buf n base q Hb Hl).
  destruct (strtobool buf) as [[]|]; [|by eexists _, _..].
  set (csr := reg_at (fab_ctl_at u base) q).
  assert (forall c, fab_counts_for u c id = true -> forall i, fab_counts_for u c i = true <-> i = id) as Hone.
  { intros c Hc i. split; [intros Hi; by eapply counts_unique | by intros ->]. }
  destruct (fab_counts_for u csr id) eqn:E.
  - exists n, q. split_and!; [done..|by apply Hone|done|done].
  - assert (is_u64 (fab_select u id csr)) as Hr by (apply select_range; [done | apply readq_u64]).
    eexists n, _. split; [reflexivity|]. rewrite reg_at_set_same by done. split_and!; try done.
    + apply Hone. by apply counts_select.
    + intros m H1 H2. by apply select_other.
    + intros a Ha. by apply reg_at_set_other.
Qed.

#[local] Instance bool_text : Strtobool := fun s =>
  if String.eqb s "1" then Some true else if String.eqb s "0" then Some false else None.

Lemma fab_enable_store_exclusive_witness :
  exists ret q', fab_enable_store iperf_unit 0 "1" 2 (@demo_fme unit mem_dev narrow_fme None ∅) = Some (ret, q') /\
    (forall i, fab_counts_for iperf_unit (reg_at (fab_ctl_at iperf_unit (fme_page 3)) q') i = true <-> i = 0).
Proof.
  destruct (fab_enable_store_exclusive iperf_unit 0 "1" 2 (fme_page 3) (@demo_fme unit mem_dev narrow_fme None ∅))
    as (ret & q' & Hrun & _ & _ & Hone & _).
  - left. reflexivity.
  - right. lia.
  - apply demo_fme_feature. vm_compute. split; [discriminate | reflexivity].
  - reflexivity.
  - exists ret, q'. split; [exact Hrun | exact Hone].
Defined.

(** The directory of the integrated counters. *)
Definition iperf_root : string := "iperf".

(** C19: the integrated counters leave no file behind.  From a device without
    files below "iperf", fme_iperf_init returns with 0 or an error, at whatever
    object or file it stops; after an error the files are exactly those that
    were there, and after 0 the tree it recorded holds every file it made, so
    that fme_iperf_uinit removes exactly them again. *)
Theorem fme_iperf_leaves_nothing {Op D} {dev : Mmio D} {mem : MmioMem D} env f base
    (q : platform_device Op fpga_fme (afu_world (fme_hw D))) :
  feature_at FME_FEATURE_ID_HEADER base q -> private (pd q) = Some f ->
  outside iperf_root (files_of q) ->
  exists ret q', fme_iperf_init env q = Some (ret, q') /\
    (ret <> 0 -> files_of q' = files_of q /\ private (pd q') = Some f) /\
    (ret = 0 -> exists o q'', private (pd q') = Some (set_iperf_dev (Some o) f) /\
       files_of q ⊆ files_of q' /\ files_of q' ⊆ files_of q ∪ list_to_set (tree_paths o) /\
       fme_iperf_uinit q' = Some (tt, q'') /\ files_of q'' = files_of q /\
       private (pd q'') = Some (set_iperf_dev None f)).
Proof.
  intros Hb Hf Hs. assert (iperf_root <> "") as Hroot by done. unfold fme_iperf_init.
  assert (between (files_of q) [] q) as Hq by (split; set_solver).
  destruct (create_builds env iperf_root Hroot "" PERF_OBJ_ROOT_ID iperf_dev_files "iperf" (files_of q) [] Hs
    (fun _ => eq_refl) q Hq) as (r & q1 & t1 & R1 & B1 & M1 & P1).
  rewrite (kbind_run _ _ _ _ _ R1). destruct r as [e|o].
  { destruct M1 as [He ->]. exists e, q1. split_and!; [done| |done]. intros _. rewrite P1. split; [|done].
    apply set_eq. destruct B1 as [Hlo Hhi]. set_solver. }
  destruct M1 as (Hp & Ho & ->). rewrite app_nil_r in B1.
  destruct (iommu_builds env iperf_root Hroot base o (files_of q) (tree_paths o) q1 Hs Hp Ho)
    as ([ret2 o2] & q2 & t2 & R2 & B2 & (G1 & G2 & G3) & P2); [done| |done|].
  { destruct Hb as (? & ? & ?). split_and!; [done..|]. by rewrite P1. }
  rewrite (kbind_run _ _ _ _ _ R2). cbn [fst snd] in *. destruct (istrue ret2) eqn:E2.
  { destruct (fail_back iperf_root o2 (files_of q) t2 ret2 q2 f) as (q3 & R3 & S3 & P3); try done; [congruence|].
    exists ret2, q3. split_and!; [done|done|]. intros ->. done. }
  destruct (unit_builds (Op := Op) (D := D) env iperf_root Hroot o2 (fabric_top iperf_fabric_files) "fabric"
    iperf_fabric_files "port" (files_of q) t2 Hs) with q2 as ([ret3 o3] & q3 & t3 & R3 & B3 & (G4 & G5 & G6) & P3);
    [congruence | done | intros p; by rewrite G3, app_nil_r | done |].
  unfold iperf_create_perf_fabric_obj. rewrite (kbind_run _ _ _ _ _ R3). cbn [fst snd] in *.
  destruct (istrue ret3) eqn:E3.
  { destruct (fail_back iperf_root o3 (files_of q) t3 ret3 q3 f) as (q4 & R4 & S4 & P4); try done; [congruence|].
    exists ret3, q4. split_and!; [done|done|]. intros ->. done. }
  destruct (record_and_remove iperf_root o3 (files_of q) t3 q3 f) as (q4 & q5 & R4 & H4); try done; [congruence|].
  exists 0, q4. split_and!; [exact R4 | done |]. intros _. by exists o3, q5.
Qed.

Lemma fme_iperf_leaves_nothing_witness :
  exists ret q', fme_iperf_init demo_fme_env (@demo_fme unit mem_dev narrow_fme None ∅) = Some (ret, q') /\
    (ret = 0 -> exists q'', fme_iperf_uinit q' = Some (tt, q'') /\ files_of q'' = ∅).
Proof.
  destruct (fme_iperf_leaves_nothing demo_fme_env narrow_fme (fme_page 0) (@demo_fme unit mem_dev narrow_fme None ∅))
    as (ret & q' & R & _ & H0).
  - apply demo_fme_feature. vm_compute. split; [discriminate | reflexivity].
  - reflexivity.
  - intros p Hp. exact (False_ind _ (not_elem_of_empty p Hp)).
  - exists ret, q'. split; [exact R|]. intros Hret.
    destruct (H0 Hret) as (o & q'' & _ & _ & _ & Ru & S & _). exists q''. split; [exact Ru | exact S].
Defined.
