(* ===== verification/Layout.v ===== *)
(** * C structures as bytes

    Messages and text buffers of the drivers are arrays of bytes that the code
    casts to a structure.  A structure is the list of its bytes and its layout
    the members' names with their sizes; the layouts used have no padding. *)

From S2P Require Import Prelude.
From S2P Require Import UserMem.
Local Open Scope string_scope.
Local Open Scope list_scope.
Local Open Scope Z_scope.

Definition layout := list (string * nat).

Fixpoint struct_size (l : layout) : nat :=
  match l with [] => 0%nat | (_, n) :: l => (n + struct_size l)%nat end.

(** Offset and size of a member. *)
Fixpoint member_at (l : layout) (m : string) (off : nat) : nat * nat :=
  match l with
  | [] => (off, 0%nat)
  | (m', n) :: l => if String.eqb m m' then (off, n) else member_at l m (off + n)
  end.

Definition member (l : layout) (m : string) (s : list Z) : list Z :=
  let '(off, n) := member_at l m 0 in take n (drop off s).

(** A member as a little-endian number. *)
Definition get (l : layout) (m : string) (s : list Z) : Z := le_combine (member l m s).

(** [bs] over the bytes of [s] from [off] on, when they fit. *)
Definition overlay (off : nat) (bs s : list Z) : list Z :=
  take off s ++ bs ++ drop (off + length bs) s.

Definition put (l : layout) (m : string) (v : Z) (s : list Z) : list Z :=
  let '(off, n) := member_at l m 0 in overlay off (le_split n v) s.

(** memset(&s, 0, struct_size(s)). *)
Definition zeroed (l : layout) : list Z := repeat 0 (struct_size l).

(** ** Overlays *)

Lemma length_overlay off bs s :
  (off + length bs <= length s)%nat -> length (overlay off bs s) = length s.
Proof. intros H. unfold overlay. rewrite !length_app, length_take, length_drop. lia. Qed.

Lemma overlay_overlay off xs ys s :
  (off + length xs + length ys <= length s)%nat ->
  overlay (off + length xs) ys (overlay off xs s) = overlay off (xs ++ ys) s.
Proof.
  intros H. unfold overlay. rewrite length_app.
  assert (take (off + length xs) (take off s ++ xs ++ drop (off + length xs) s) = take off s ++ xs) as ->.
  { rewrite app_assoc, take_app_le by (rewrite length_app, length_take; lia).
    rewrite take_ge; [done|]. rewrite length_app, length_take. lia. }
  assert (drop (off + length xs + length ys) (take off s ++ xs ++ drop (off + length xs) s) =
          drop (off + (length xs + length ys)) s) as ->.
  { rewrite app_assoc, drop_app_ge by (rewrite length_app, length_take; lia).
    rewrite drop_drop, length_app, length_take. f_equal. lia. }
  by rewrite <- !app_assoc.
Qed.

(** The bytes under the overlay, and those beside it. *)
Lemma overlay_inside off bs s :
  (off <= length s)%nat -> take (length bs) (drop off (overlay off bs s)) = bs.
Proof.
  intros H. unfold overlay. rewrite drop_app_ge by (rewrite length_take; lia).
  rewrite length_take. replace (off - _)%nat with 0%nat by lia. rewrite drop_0.
  by rewrite take_app_le, take_ge by lia.
Qed.

Lemma overlay_outside off bs s i n :
  (off + length bs <= length s)%nat -> (i + n <= off \/ off + length bs <= i)%nat ->
  take n (drop i (overlay off bs s)) = take n (drop i s).
Proof.
  intros Hl H. apply list_eq. intros k. destruct (Nat.lt_ge_cases k n) as [Hk|Hk].
  - rewrite !lookup_take_lt, !lookup_drop by done. unfold overlay. destruct H as [H|H].
    + rewrite lookup_app_l by (rewrite length_take; lia). by rewrite lookup_take_lt by lia.
    + rewrite lookup_app_r by (rewrite length_take; lia). rewrite length_take.
      rewrite lookup_app_r by lia. rewrite lookup_drop. f_equal. lia.
  - by rewrite !lookup_take_ge by done.
Qed.

Lemma overlay_empty off s : overlay off [] s = s.
Proof. unfold overlay. rewrite Nat.add_0_r. apply take_drop. Qed.

Lemma drop_repeat {A} (x : A) n m : drop n (repeat x m) = repeat x (m - n).
Proof. revert m. induction n as [|n IH]; intros [|m]; simpl; auto. Qed.

Lemma take_repeat {A} (x : A) n m : take n (repeat x m) = repeat x (Nat.min n m).
Proof. revert m. induction n as [|n IH]; intros [|m]; simpl; try done. by rewrite IH. Qed.
