(* ===== verification/Bmc.v ===== *)
(** * The mailbox to the board management controller (drivers/misc/avmmi-bmc.c)

    Three registers give byte-wise access to a memory shared with the BMC; a
    request is bytes and a count that the BMC clears when it has taken them, a
    response is bytes and a count that the driver clears.  This file holds the
    driver: the byte accesses, one exchange, the IPMI commands built on it, the
    sensor records, the sysfs files, the ioctl, probe and remove. *)

From S2P Require Import Prelude.
From S2P Require Import Bitfield.
From S2P Require Import Layout.
From S2P Require Import Mmio.
From S2P Require Import Loops.
From S2P Require Import Poll.
From S2P Require Import UserMem.
From S2P Require Import Sysfs.
Local Open Scope string_scope.
Local Open Scope list_scope.
Local Open Scope Z_scope.

(** ** Registers and the shared memory *)

Definition ADDR_OFFSET : Z := 0x8.
Definition ADDR_RBIT : Z := 2 ^ 17.
Definition ADDR_WBIT : Z := 2 ^ 16.
Definition ADDR_MSK : Z := 0xffff.
Definition RDATA_OFFSET : Z := 0x10.
Definition RDATA_VALID : Z := 2 ^ 8.
Definition RDATA_MSK : Z := 0xff.
Definition WDATA_OFFSET : Z := 0x18.
Definition WDATA_MSK : Z := 0xff.
Definition POLL_US : Z := 5.
Definition TIMEOUT_US : Z := 10000000.
Definition MEM_START : Z := 0x1000.
Definition MEM_SIZE : Z := 0x1000.
Definition CNT_LEN : Z := 2.
Definition MAX_PACKET_SIZE : Z := Z.min (Z.shiftr MEM_SIZE 1 - CNT_LEN) 1024.
Definition REQUEST_COUNT_ADDRESS : Z := MEM_START.
Definition REQUEST_ADDRESS : Z := REQUEST_COUNT_ADDRESS + CNT_LEN.
Definition RESPONSE_COUNT_ADDRESS : Z := MEM_START + Z.shiftr MEM_SIZE 1.
Definition RESPONSE_ADDRESS : Z := RESPONSE_COUNT_ADDRESS + CNT_LEN.

(** From uapi/linux/ipmi_msgdefs.h. *)
Definition IPMI_NETFN_SENSOR_EVENT_REQUEST : Z := 0x04.
Definition IPMI_NETFN_APP_REQUEST : Z := 0x06.
Definition IPMI_GET_DEVICE_ID_CMD : Z := 0x01.

Definition IPMI_NETFN_OEM_GROUP : Z := 0x2e.
Definition IPMI_GET_DEVICE_SDR_INFO : Z := 0x20.
Definition IPMI_GET_DEVICE_SDR_INFO_SDR_CNT_OP : Z := 0x01.
Definition IPMI_GET_DEVICE_SDR : Z := 0x21.
Definition IPMI_GET_SENSOR_READING : Z := 0x2d.
Definition SDR_CHUNK_SIZE : Z := 20.
Definition IANA_BW : Z := 0x007b18.
Definition IANA_BW_0 : Z := Z.land IANA_BW 0xff.
Definition IANA_BW_1 : Z := Z.land (Z.shiftr IANA_BW 8) 0xff.
Definition IANA_BW_2 : Z := Z.land (Z.shiftr IANA_BW 16) 0xff.
Definition BW_RD_WR_LAST_ERROR : Z := 0x2.
Definition BW_SETTING_READ_RESET_CAUSE : Z := 0x6.
Definition BW_READ : Z := 0x0a.
Definition BW_READ_SETTING : Z := 0x08.
Definition BW_BL_CMD : Z := 0x64.
Definition BW_MAX_MSG_SIZE : Z := 40.
Definition BW_BL_CMD_VERSION : Z := 0x00.
Definition BW_BL_JUMP_OTHER : Z := 0x01.
Definition BW_BL_ACT_APP_MAIN : Z := 0x01.
Definition BW_BL_JUMP_PAUSE_MS : Z := 1000.

(** ** Messages *)

Definition msg_hdr : layout := [("netfn_lun", 1%nat); ("seq", 1%nat); ("cmd", 1%nat)].
Definition bw_powerdown_cause_req : layout :=
  msg_hdr ++ [("iana", 3%nat); ("dev", 1%nat); ("offset", 4%nat); ("count", 1%nat)].
Definition bw_bmc_reset_cause_req : layout := msg_hdr ++ [("iana", 3%nat); ("dev", 1%nat)].
Definition bw_bmc_bl_req : layout := msg_hdr ++ [("iana", 3%nat); ("bl_cmd", 1%nat)].
Definition bw_bmc_bl_rsp : layout :=
  msg_hdr ++ [("ccode", 1%nat); ("iana", 3%nat); ("bl_result", 1%nat)].
Definition bw_bmc_bl_ver_rsp : layout :=
  bw_bmc_bl_rsp ++ [("ver0", 1%nat); ("ver1", 1%nat); ("act_app", 1%nat)].
Definition bw_bmc_bl_jump_req : layout := bw_bmc_bl_req ++ [("app", 1%nat)].
Definition get_sensor_req : layout := msg_hdr ++ [("sensor_num", 1%nat)].
Definition get_sdr_info_req : layout := msg_hdr ++ [("operation", 1%nat)].
Definition get_sdr_info_resp : layout :=
  msg_hdr ++ [("ccode", 1%nat); ("count", 1%nat); ("flags", 1%nat); ("change_indicator", 4%nat)].
Definition get_sdr_req : layout :=
  msg_hdr ++ [("reservation_id", 2%nat); ("record_id", 2%nat); ("offset", 1%nat); ("count", 1%nat)].
Definition get_sdr_resp : layout :=
  msg_hdr ++ [("ccode", 1%nat); ("next_record", 2%nat); ("data", 256%nat)].
Definition sensor_record_header : layout :=
  [("record_id", 2%nat); ("sdr_version", 1%nat); ("record_type", 1%nat); ("record_len", 1%nat)].
Definition full_sensor_record : layout :=
  sensor_record_header ++
  [("sensor_owner_id", 1%nat); ("sensor_owner_lun", 1%nat); ("sensor_number", 1%nat);
   ("entity_id", 1%nat); ("entity_instance", 1%nat); ("sensor_initialization", 1%nat);
   ("sensor_capabilities", 1%nat); ("sensor_type", 1%nat); ("event_type", 1%nat);
   ("event_mask", 6%nat); ("sensor_units", 1%nat); ("sensor_base", 1%nat); ("sensor_mod", 1%nat);
   ("linearization", 1%nat); ("m", 1%nat); ("m_tolerance", 1%nat); ("b", 1%nat);
   ("b_accuracy", 1%nat); ("accuracy", 1%nat); ("r_exp_b_exp", 1%nat); ("flags", 1%nat);
   ("nominal_reading", 1%nat); ("normal_max", 1%nat); ("normal_min", 1%nat);
   ("sensor_max_reading", 1%nat); ("sensor_min_reading", 1%nat); ("thresholds", 6%nat);
   ("hysteresis", 2%nat); ("reserved", 2%nat); ("oem", 1%nat); ("id_strlen", 1%nat);
   ("id_string", 32%nat)].

(** The ioctl (include/uapi/linux/avmmi-bmc.h): _IOWR(AVMMI_BMC_MAGIC, 0, ...). *)
Definition avmmi_bmc_xact : reg := Reg [("argsz", 32); ("txlen", 16); ("rxlen", 16);
  ("txbuf", 64); ("rxbuf", 64)].
Definition AVMMI_BMC_MAGIC : Z := 0x76.
Definition AVMMI_BMC_XACT : Z :=
  Z.lor (Z.shiftl 3 30) (Z.lor (Z.shiftl (offsetofend avmmi_bmc_xact "rxbuf") 16) (Z.shiftl AVMMI_BMC_MAGIC 8)).

(** ** State *)

(** [sdrs] is the memory of the array of records, as bytes. *)
Record avmmi_priv := AvmmiPriv { bus_mutex : bool; num_sdr : Z; sdrs : option (list Z) }.

Definition set_bus_mutex b p := AvmmiPriv b (num_sdr p) (sdrs p).
Definition set_num_sdr n p := AvmmiPriv (bus_mutex p) n (sdrs p).
Definition set_sdrs s p := AvmmiPriv (bus_mutex p) (num_sdr p) s.

(** The device: what is behind its registers, its driver data, whether its
    character device and its sysfs group are registered, and the memory of the
    process that made the call. *)
Record bmc (D : Type) := Bmc {
  bdev : D; drvdata : option avmmi_priv; misc_on : bool; group_on : bool; busr : user_mem;
}.
Arguments Bmc {D}. Arguments bdev {D}. Arguments drvdata {D}. Arguments misc_on {D}.
Arguments group_on {D}. Arguments busr {D}.

Definition set_bdev {D} (d : D) (b : bmc D) := Bmc d (drvdata b) (misc_on b) (group_on b) (busr b).
Definition set_drvdata {D} p (b : bmc D) := Bmc (bdev b) p (misc_on b) (group_on b) (busr b).
Definition set_misc {D} on (b : bmc D) := Bmc (bdev b) (drvdata b) on (group_on b) (busr b).
Definition set_group {D} on (b : bmc D) := Bmc (bdev b) (drvdata b) (misc_on b) on (busr b).
Definition set_busr {D} u (b : bmc D) := Bmc (bdev b) (drvdata b) (misc_on b) (group_on b) u.

(** What the kernel answers: whether an allocation succeeds, the results of
    misc_register and sysfs_create_group, access_ok, and the bytes an
    uninitialised local variable holds. *)
Record bmc_env := BmcEnv {
  csr_base : Z;
  kzalloc_ok : Z -> bool;
  misc_register_ret : Z;
  sysfs_create_group_ret : Z;
  user_ok : Z -> Z -> bool;
  stack : nat -> Z;
}.

Section Driver.
Context {D : Type} {dev : Mmio D} {clock : Clock D}.
Variable env : bmc_env.
Abbreviation pdev := (bmc D).

Definition on_dev {A} (c : K D A) : K pdev A := zoom bdev set_bdev c.

Definition avmmi_readq (off : Z) : K D Z := readq (csr_base env + off).
Definition avmmi_writeq (v off : Z) : K D unit := writeq v (csr_base env + off).

(** A local variable that is not initialised. *)
Definition uninit (l : layout) : list Z := map (stack env) (seq 0 (struct_size l)).

(** ** Access to the shared memory *)

(** [*val] is stored when the result is 0. *)
Definition avmmi_read8 (addr : Z) : K pdev (Z * Z) :=
  let address := Z.lor (Z.land addr ADDR_MSK) ADDR_RBIT in
  on_dev (
    avmmi_writeq address ADDR_OFFSET ;;
    r <- readx_poll_timeout (avmmi_readq RDATA_OFFSET)
           (fun rdata => istrue (Z.land rdata RDATA_VALID)) POLL_US TIMEOUT_US ;;
    kret (fst r, Z.land (snd r) RDATA_MSK)).

(** The result, which is -EINVAL for no bytes, and the bytes stored. *)
Fixpoint avmmi_read8s (addr : Z) (len : nat) : K pdev (Z * list Z) :=
  match len with
  | O => kret (- EINVAL, [])
  | S len =>
      r <- avmmi_read8 addr ;;
      if istrue (fst r) then kret (fst r, [])
      else
        match len with
        | O => kret (0, [snd r])
        | S _ => rs <- avmmi_read8s (wrap 16 (addr + 1)) len ;; kret (fst rs, snd r :: snd rs)
        end
  end.

Definition avmmi_write8 (addr val : Z) : K pdev Z :=
  let address := Z.lor (Z.land ADDR_MSK addr) ADDR_WBIT in
  on_dev (
    avmmi_writeq val WDATA_OFFSET ;;
    avmmi_writeq address ADDR_OFFSET ;;
    kret 0).

Fixpoint avmmi_write8s (addr : Z) (buf : list Z) : K pdev Z :=
  match buf with
  | [] => kret (- EINVAL)
  | val :: buf =>
      ret <- avmmi_write8 addr val ;;
      if istrue ret then kret ret
      else match buf with [] => kret 0 | _ => avmmi_write8s (wrap 16 (addr + 1)) buf end
  end.

(** ** One exchange *)

Definition mod_priv (f : avmmi_priv -> avmmi_priv) : K pdev unit :=
  b <- kget ;; priv <- deref (drvdata b) ;; kput (set_drvdata (Some (f priv)) b).

Definition bus_lock : K pdev unit :=
  b <- kget ;; priv <- deref (drvdata b) ;;
  if bus_mutex priv then oops else mod_priv (set_bus_mutex true).
Definition bus_unlock : K pdev unit :=
  b <- kget ;; priv <- deref (drvdata b) ;;
  if bus_mutex priv then mod_priv (set_bus_mutex false) else oops.

(** The first loop: until the BMC has cleared the count of the request. *)
Definition request_round (poll_cnt : Z) : K pdev (Z + Z) :=
  r <- avmmi_read8s REQUEST_COUNT_ADDRESS 2 ;;
  let count := le_combine (snd r) in
  if istrue (fst r) then kret (inr (fst r))
  else if istrue count then
    on_dev (udelay POLL_US) ;;
    kret (if poll_cnt + POLL_US <? TIMEOUT_US then inl (poll_cnt + POLL_US) else inr (- ETIMEDOUT))
  else kret (inr 0).

(** The second loop: until two reads in a row give the same nonzero count. *)
Definition response_round (a : Z * Z) : K pdev (Z * Z + Z * Z) :=
  let '(last_count, poll_cnt) := a in
  r <- avmmi_read8s RESPONSE_COUNT_ADDRESS 2 ;;
  let count := le_combine (snd r) in
  if istrue (fst r) then kret (inr (fst r, 0))
  else if negb (istrue count) || negb (count =? last_count) then
    on_dev (udelay POLL_US) ;;
    kret (if poll_cnt + POLL_US <? TIMEOUT_US then inl (count, poll_cnt + POLL_US)
          else inr (- ETIMEDOUT, 0))
  else kret (inr (0, count)).

(** Each round that goes on adds POLL_US to the count of microseconds. *)
Definition count_rounds : positive := Z.to_pos (TIMEOUT_US / POLL_US + 1).

(** The exchange between mutex_lock and mutex_unlock. *)
Definition send_locked (txbuf : list Z) (rxlen : Z) : K pdev (Z * list Z) :=
  avmmi_write8s REQUEST_ADDRESS txbuf ;;
  avmmi_write8s REQUEST_COUNT_ADDRESS (le_split 2 (Z.of_nat (length txbuf))) ;;
  ret <- kwhile request_round count_rounds 0 ;;
  if istrue ret then kret (ret, [])
  else
    r <- kwhile response_round count_rounds (0, 0) ;;
    let '(ret, count) := r in
    if istrue ret then kret (ret, [])
    else
      r <- (if (count <=? MAX_PACKET_SIZE) && (count <=? rxlen)
            then avmmi_read8s RESPONSE_ADDRESS (Z.to_nat count) else kret (0, [])) ;;
      if istrue (fst r) then kret (fst r, [])
      else
        avmmi_write8s RESPONSE_COUNT_ADDRESS (le_split 2 0) ;;
        kret (if (count <=? MAX_PACKET_SIZE) && (count <=? rxlen) then (count, snd r) else (- ENOMEM, [])).

(** The result, and when it is positive the bytes stored in [rxbuf]. *)
Definition avmmi_send_one (txbuf : list Z) (rxlen : Z) : K pdev (Z * list Z) :=
  priv <- kgets drvdata ;;
  match priv with
  | None => kret (- ENODEV, [])
  | Some _ =>
      if MAX_PACKET_SIZE <? Z.of_nat (length txbuf) then kret (- EINVAL, [])
      else
        bus_lock ;;
        r <- send_locked txbuf rxlen ;;
        bus_unlock ;;
        kret r
  end.

(** A command whose response goes over the variable [rsp]. *)
Definition send_rsp (req : list Z) (rsp : list Z) : K pdev (Z * list Z) :=
  r <- avmmi_send_one req (Z.of_nat (length rsp)) ;;
  kret (fst r, overlay 0 (snd r) rsp).

(** ** Bootloader, sensor records *)

Definition iana : Z := le_combine [IANA_BW_0; IANA_BW_1; IANA_BW_2].

Definition request (l : layout) (netfn cmd : Z) (s : list Z) : list Z :=
  put l "netfn_lun" (Z.shiftl netfn 2) (put l "cmd" cmd s).

(** The result, and the count when it is 0. *)
Definition avmmi_get_sdr_count : K pdev (Z * Z) :=
  let req := put get_sdr_info_req "operation" IPMI_GET_DEVICE_SDR_INFO_SDR_CNT_OP
    (request get_sdr_info_req IPMI_NETFN_SENSOR_EVENT_REQUEST IPMI_GET_DEVICE_SDR_INFO
      (zeroed get_sdr_info_req)) in
  r <- send_rsp req (zeroed get_sdr_info_resp) ;;
  let '(ret, rsp) := r in
  if ret <? 0 then kret (ret, 0)
  else if istrue (get get_sdr_info_resp "ccode" rsp) then kret (- EIO, 0)
  else kret (0, get get_sdr_info_resp "count" rsp).

(** The result, and the version and the active application when it is 0. *)
Definition avmmi_bl_version : K pdev (Z * (Z * Z)) :=
  let cmd := put bw_bmc_bl_req "bl_cmd" BW_BL_CMD_VERSION (put bw_bmc_bl_req "iana" iana
    (request bw_bmc_bl_req IPMI_NETFN_OEM_GROUP BW_BL_CMD (zeroed bw_bmc_bl_req))) in
  r <- send_rsp cmd (uninit bw_bmc_bl_ver_rsp) ;;
  let '(ret, rsp) := r in
  let rsp_of n := get bw_bmc_bl_ver_rsp n rsp in
  if ret <? 0 then kret (ret, (0, 0))
  else if istrue (rsp_of "ccode") then kret (- EIO, (0, 0))
  else if istrue (rsp_of "bl_result") then kret (- EIO, (0, 0))
  else kret (0, (Z.lor (Z.shiftl (rsp_of "ver1") 8) (rsp_of "ver0"), rsp_of "act_app")).

Definition avmmi_bl_jump (app : Z) : K pdev Z :=
  let cmd := put bw_bmc_bl_jump_req "app" app (put bw_bmc_bl_jump_req "bl_cmd" BW_BL_JUMP_OTHER
    (put bw_bmc_bl_jump_req "iana" iana
      (request bw_bmc_bl_jump_req IPMI_NETFN_OEM_GROUP BW_BL_CMD (zeroed bw_bmc_bl_jump_req)))) in
  r <- send_rsp cmd (uninit bw_bmc_bl_rsp) ;;
  let '(ret, rsp) := r in
  if ret <? 0 then kret ret
  else if istrue (get bw_bmc_bl_rsp "ccode" rsp) then kret (- EIO)
  else if istrue (get bw_bmc_bl_rsp "bl_result" rsp) then kret (- EIO)
  else
    on_dev (mdelay BW_BL_JUMP_PAUSE_MS) ;;
    v <- avmmi_bl_version ;;
    if istrue (fst v) then kret (fst v)
    else kret (if snd (snd v) =? app then 0 else - EINVAL).

(** [memcpy(sdrs + off, bs, len)] into the array of records; a copy past its
    end corrupts the heap. *)
Definition memcpy_sdrs (off : Z) (bs : list Z) : K pdev unit :=
  b <- kget ;;
  priv <- deref (drvdata b) ;;
  mem <- deref (sdrs priv) ;;
  if off + Z.of_nat (length bs) <=? Z.of_nat (length mem)
  then kput (set_drvdata (Some (set_sdrs (Some (overlay (Z.to_nat off) bs mem)) priv)) b)
  else oops.

(** [loops], with the rounding the code does. *)
Definition sdr_loops : Z :=
  let loops := Z.of_nat (struct_size full_sensor_record) / SDR_CHUNK_SIZE in
  if istrue (loops mod SDR_CHUNK_SIZE) then loops + 1 else loops.

(** The loop, [n] rounds before [i < loops] ends it, on the record at [sdr];
    the result, and the last response when it is 0. *)
Fixpoint sdr_chunks (n : nat) (i : Z) (sdr left_to_read : Z) (req rsp : list Z) : K pdev (Z * list Z) :=
  match n with
  | O => kret (0, rsp)
  | S n =>
      if left_to_read <=? 0 then kret (0, rsp)
      else
        let req := if left_to_read <? get get_sdr_req "count" req
                   then put get_sdr_req "count" left_to_read req else req in
        let count := get get_sdr_req "count" req in
        r <- send_rsp req (zeroed get_sdr_resp) ;;
        let '(ret, rsp) := r in
        if ret <? 0 then kret (ret, [])
        else if istrue (get get_sdr_resp "ccode" rsp) then kret (ret, [])
        else
          let data := member get_sdr_resp "data" rsp in
          let left_to_read :=
            if i =? 0
            then Z.of_nat (struct_size sensor_record_header) + get sensor_record_header "record_len" data - count
            else left_to_read - count in
          memcpy_sdrs (sdr + get get_sdr_req "offset" req) (take (Z.to_nat count) data) ;;
          sdr_chunks n (i + 1) sdr left_to_read
            (put get_sdr_req "seq" (u8 (Z.shiftl (i + 1) 2))
              (put get_sdr_req "offset" (u8 (get get_sdr_req "offset" req + count)) req))
            rsp
  end.

(** The result, and the id of the next record when it is 0. *)
Definition avmmi_get_one_sdr (record_id sdr : Z) : K pdev (Z * Z) :=
  let req := put get_sdr_req "count" SDR_CHUNK_SIZE (put get_sdr_req "record_id" record_id
    (request get_sdr_req IPMI_NETFN_SENSOR_EVENT_REQUEST IPMI_GET_DEVICE_SDR (zeroed get_sdr_req))) in
  r <- sdr_chunks (Z.to_nat sdr_loops) 0 sdr (Z.of_nat (struct_size full_sensor_record)) req [] ;;
  if istrue (fst r) then kret (fst r, 0)
  else kret (0, get get_sdr_resp "next_record" (snd r)).

(** [n] records from the [i]-th on. *)
Fixpoint get_sdrs (n : nat) (i record_id ret : Z) : K pdev Z :=
  match n with
  | O => kret ret
  | S n =>
      r <- avmmi_get_one_sdr record_id (i * Z.of_nat (struct_size full_sensor_record)) ;;
      if istrue (fst r) then kret (fst r) else get_sdrs n (i + 1) (snd r) 0
  end.

Definition avmmi_get_sdr : K pdev Z :=
  b <- kget ;;
  priv <- deref (drvdata b) ;;
  get_sdrs (Z.to_nat (num_sdr priv)) 0 0 (- EINVAL).

(** ** The sysfs files; a file's content is its bytes *)

Fixpoint bytes_of_string (s : string) : list Z :=
  match s with
  | EmptyString => []
  | String a s => Z.of_nat (Ascii.nat_of_ascii a) :: bytes_of_string s
  end.

Definition comm_failure (ret : Z) : list Z :=
  bytes_of_string ("BMC comm failure: " ++ line_d ret)%string.

(** The response to a command, or the message. *)
Definition show_command (cmd : list Z) : K pdev (list Z) :=
  r <- avmmi_send_one cmd PAGE_SIZE ;;
  kret (if fst r <? 0 then comm_failure (fst r) else snd r).

Definition device_id_show : K pdev (list Z) :=
  show_command (request msg_hdr IPMI_NETFN_APP_REQUEST IPMI_GET_DEVICE_ID_CMD (uninit msg_hdr)).

Definition power_down_cause_show : K pdev (list Z) :=
  let l := bw_powerdown_cause_req in
  show_command (put l "count" BW_MAX_MSG_SIZE (put l "dev" BW_RD_WR_LAST_ERROR (put l "iana" iana
    (request l IPMI_NETFN_OEM_GROUP BW_READ (zeroed l))))).

Definition reset_cause_show : K pdev (list Z) :=
  let l := bw_bmc_reset_cause_req in
  show_command (put l "dev" BW_SETTING_READ_RESET_CAUSE (put l "iana" iana
    (request l IPMI_NETFN_OEM_GROUP BW_READ_SETTING (zeroed l)))).

(** [n] bytes of the array of records from [off] on. *)
Definition read_sdrs (off : Z) (n : nat) : K pdev (list Z) :=
  b <- kget ;;
  priv <- deref (drvdata b) ;;
  mem <- deref (sdrs priv) ;;
  if off + Z.of_nat n <=? Z.of_nat (length mem) then kret (take n (drop (Z.to_nat off) mem)) else oops.

(** The readings of the sensors from the [i]-th on, [buf] being written. *)
Fixpoint show_sensors (n : nat) (i : Z) (cmd buf : list Z) : K pdev (list Z) :=
  match n with
  | O => kret buf
  | S n =>
      fsr <- read_sdrs (i * Z.of_nat (struct_size full_sensor_record)) (struct_size full_sensor_record) ;;
      let cmd := put get_sensor_req "sensor_num" (get full_sensor_record "sensor_number" fsr) cmd in
      r <- avmmi_send_one cmd (wrap 16 (PAGE_SIZE - Z.of_nat (length buf))) ;;
      if fst r <? 0 then
        kret (bytes_of_string ("BMC comm failure on " ++ fmt_d i ++ ": " ++ line_d (fst r))%string)
      else show_sensors n (i + 1) cmd (buf ++ snd r)
  end.

Definition sensors_show : K pdev (list Z) :=
  b <- kget ;;
  priv <- deref (drvdata b) ;;
  show_sensors (Z.to_nat (num_sdr priv)) 0
    (request get_sensor_req IPMI_NETFN_SENSOR_EVENT_REQUEST IPMI_GET_SENSOR_READING (uninit get_sensor_req)) [].

(** The records one after the other; a copy past the page of the file
    corrupts memory. *)
Fixpoint show_sdrs (n : nat) (i : Z) (buf : list Z) : K pdev (list Z) :=
  match n with
  | O => kret buf
  | S n =>
      let fsr := i * Z.of_nat (struct_size full_sensor_record) in
      hdr <- read_sdrs fsr (struct_size sensor_record_header) ;;
      let len := (struct_size sensor_record_header + Z.to_nat (get sensor_record_header "record_len" hdr))%nat in
      bs <- read_sdrs fsr len ;;
      if Z.of_nat (length buf + len) <=? PAGE_SIZE then show_sdrs n (i + 1) (buf ++ bs) else oops
  end.

Definition sdr_show : K pdev (list Z) :=
  avmmi_get_sdr ;;
  b <- kget ;;
  priv <- deref (drvdata b) ;;
  show_sdrs (Z.to_nat (num_sdr priv)) 0 [].

(** ** The character device, probe and remove *)

Definition on_busr {A} (c : K user_mem A) : K pdev A := zoom busr set_busr c.

Definition avmmi_bmc_ioctl (cmd param : Z) : K pdev Z :=
  if negb (cmd =? AVMMI_BMC_XACT) then kret (- EINVAL)
  else
    let minsz := offsetofend avmmi_bmc_xact "rxbuf" in
    xact <- on_busr (copy_from_user param minsz) ;;
    match xact with
    | None => kret (- EFAULT)
    | Some xact =>
        let get n := fget avmmi_bmc_xact n xact in
        if get "argsz" <? minsz then kret (- EINVAL)
        else if (MAX_PACKET_SIZE <? get "txlen") || (MAX_PACKET_SIZE <? get "rxlen") then kret (- ENOMEM)
        else if negb (user_ok env (get "txbuf") (get "txlen")) then kret (- EFAULT)
        else if negb (user_ok env (get "rxbuf") (get "rxlen")) then kret (- EFAULT)
        else
          tx <- on_busr (copy_from_user (get "txbuf") (get "txlen")) ;;
          match tx with
          | None => kret (- EFAULT)
          | Some tx =>
              r <- avmmi_send_one (le_split (Z.to_nat (get "txlen")) tx) (get "rxlen") ;;
              if fst r <? 0 then kret (fst r)
              else if negb (fst r =? get "rxlen") then kret (- EINVAL)
              else
                fault <- on_busr (copy_to_user (get "rxbuf") (le_combine (snd r)) (get "rxlen")) ;;
                kret (if fault : bool then - EFAULT else 0)
          end
    end.

(** The label [error] of avmmi_probe. *)
Definition probe_error (ret : Z) : K pdev Z := kmod (set_misc false) ;; kret ret.

Definition avmmi_probe : K pdev Z :=
  if negb (kzalloc_ok env 1) then kret (- ENOMEM)
  else if istrue (misc_register_ret env) then kret (misc_register_ret env)
  else
    kmod (set_misc true) ;;
    kmod (set_drvdata (Some (AvmmiPriv false 0 None))) ;;
    v <- avmmi_bl_version ;;
    if istrue (fst v) then probe_error (fst v)
    else
      jump <- (if snd (snd v) =? BW_BL_ACT_APP_MAIN then kret 0 else avmmi_bl_jump BW_BL_ACT_APP_MAIN) ;;
      if istrue jump then kret 0
      else
        c <- avmmi_get_sdr_count ;;
        let '(ret, cnt) := c in
        if istrue ret then probe_error ret
        else
          let size := Z.of_nat (struct_size full_sensor_record) * cnt in
          let mem := if kzalloc_ok env size then Some (repeat 0 (Z.to_nat size)) else None in
          mod_priv (set_num_sdr cnt) ;;
          mod_priv (set_sdrs mem) ;;
          match mem with
          | None => probe_error ret
          | Some _ =>
              avmmi_get_sdr ;;
              let ret := sysfs_create_group_ret env in
              if istrue ret then probe_error ret else kmod (set_group true) ;; kret 0
          end.

Definition avmmi_remove : K pdev Z :=
  b <- kget ;;
  deref (drvdata b) ;;
  kmod (set_misc false) ;; kmod (set_group false) ;; kret 0.
End Driver.
