(* ===== verification/BmcMailbox.v ===== *)
(** * A BMC behind the mailbox, and the exchange with it

    The firmware of the BMC is not in the repository.  [mbox] is what the
    driver's protocol supposes of it, for every response function and every
    latency: a shared memory read and written a byte at a time through the
    registers; a request that is taken some time after its count is stored, and
    whose count is then cleared; a response that is stored later, whatever the
    driver is doing at that moment.  Against each of them one exchange returns
    the response, although the two bytes of a count are read one after the other
    while the BMC may store it in between. *)

From S2P Require Import Prelude.
From S2P Require Import Mmio.
From S2P Require Import Loops.
From S2P Require Import Poll.
From S2P Require Import UserMem.
From S2P Require Import Bmc.
Local Open Scope list_scope.
Local Open Scope Z_scope.

Local Opaque Z.mul Z.add.

(** ** Memory *)

Definition byte_at (m : gmap Z Z) (a : Z) : Z := default 0 (m !! a).

Fixpoint store (bs : list Z) (a : Z) (m : gmap Z Z) : gmap Z Z :=
  match bs with [] => m | b :: bs => store bs (a + 1) (<[a := b]> m) end.

Fixpoint load (n : nat) (a : Z) (m : gmap Z Z) : list Z :=
  match n with O => [] | S n => byte_at m a :: load n (a + 1) m end.

Lemma store_other bs a m x :
  x < a \/ a + Z.of_nat (length bs) <= x -> byte_at (store bs a m) x = byte_at m x.
Proof.
  revert a m. induction bs as [|b bs IH]; intros a m Hx; [done|].
  cbn [store]. rewrite length_cons in Hx. rewrite IH by lia.
  unfold byte_at. by rewrite lookup_insert_ne by lia.
Qed.

Lemma load_ext n a m m' :
  (forall x, a <= x < a + Z.of_nat n -> byte_at m x = byte_at m' x) -> load n a m = load n a m'.
Proof.
  revert a. induction n as [|n IH]; intros a H; [done|]. cbn [load].
  rewrite (H a) by lia. f_equal. apply IH. intros x Hx. apply H. lia.
Qed.

Lemma load_store bs a m : load (length bs) a (store bs a m) = bs.
Proof.
  revert a m. induction bs as [|b bs IH]; intros a m; [done|]. cbn [length load store]. f_equal; [|apply IH].
  rewrite store_other by lia. unfold byte_at. by rewrite lookup_insert_eq.
Qed.

(** ** The machine *)

Record mbox_conf := MboxConf {
  c_base : Z;                       (* of the registers *)
  c_serve : list Z -> list Z;       (* the response to a request *)
  c_read : nat;                     (* polls before a byte is valid *)
  c_take : nat;                     (* ticks before a request is taken *)
  c_work : nat;                     (* ticks before it is answered *)
}.

Inductive bmc_phase := Idle | Taking (n : nat) | Working (n : nat) (req : list Z).

Record board := Board { shm : gmap Z Z; phase : bmc_phase }.

Definition count_at (a : Z) (m : gmap Z Z) : Z := byte_at m a + 256 * byte_at m (a + 1).

Definition take_request (m : gmap Z Z) : gmap Z Z := store [0; 0] REQUEST_COUNT_ADDRESS m.
Definition put_response (resp : list Z) (m : gmap Z Z) : gmap Z Z :=
  store (le_split 2 (Z.of_nat (length resp))) RESPONSE_COUNT_ADDRESS (store resp RESPONSE_ADDRESS m).

(** What the BMC does while the driver sleeps. *)
Definition tick (c : mbox_conf) (b : board) : board :=
  match phase b with
  | Idle => if count_at REQUEST_COUNT_ADDRESS (shm b) =? 0 then b else Board (shm b) (Taking (c_take c))
  | Taking (S n) => Board (shm b) (Taking n)
  | Taking O =>
      Board (take_request (shm b))
        (Working (c_work c)
          (load (Z.to_nat (count_at REQUEST_COUNT_ADDRESS (shm b))) REQUEST_ADDRESS (shm b)))
  | Working (S n) req => Board (shm b) (Working n req)
  | Working O req => Board (put_response (c_serve c req) (shm b)) Idle
  end.

(** [rdata] is the byte being read and the polls until it is valid. *)
Record mbox := MBox { conf : mbox_conf; brd : board; latch : Z; rdata : Z * nat; clock_ns : Z }.

Definition set_rdata r d := MBox (conf d) (brd d) (latch d) r (clock_ns d).
Definition set_latch v d := MBox (conf d) (brd d) v (rdata d) (clock_ns d).
Definition set_shm m d := MBox (conf d) (Board m (phase (brd d))) (latch d) (rdata d) (clock_ns d).
Definition sleep us d := MBox (conf d) (tick (conf d) (brd d)) (latch d) (rdata d) (clock_ns d + 1000 * us).

#[export] Instance mbox_mmio : Mmio mbox := {|
  dev_readq a d :=
    if a =? c_base (conf d) + RDATA_OFFSET then
      match rdata d with
      | (v, O) => (Z.lor RDATA_VALID v, d)
      | (v, S n) => (0, set_rdata (v, n) d)
      end
    else (0, d);
  dev_writeq a v d :=
    if a =? c_base (conf d) + WDATA_OFFSET then set_latch (Z.land v WDATA_MSK) d
    else if a =? c_base (conf d) + ADDR_OFFSET then
      let addr := Z.land v ADDR_MSK in
      if istrue (Z.land v ADDR_WBIT) then set_shm (<[addr := latch d]> (shm (brd d))) d
      else if istrue (Z.land v ADDR_RBIT) then set_rdata (byte_at (shm (brd d)) addr, c_read (conf d)) d
      else d
    else d;
|}.

#[export] Instance mbox_clock : Clock mbox := {|
  ktime_get d := clock_ns d;
  dev_usleep_range lo hi d := sleep hi d;
  dev_udelay us d := sleep us d;
|}.

#[export] Instance mbox_clock_ok : ClockOk mbox.
Proof.
  constructor; cbn [dev_readq dev_writeq ktime_get dev_usleep_range dev_udelay mbox_mmio mbox_clock].
  - intros a d. destruct (a =? _); [destruct (rdata d) as [v [|n]]|]; simpl; lia.
  - intros a v d. repeat case_match; simpl; lia.
  - intros lo hi d H. simpl. lia.
  - intros us d H. simpl. lia.
Qed.

(** ** Byte accesses *)

Definition ticks (c : mbox_conf) (n : nat) (b : board) : board := Nat.iter n (tick c) b.

Lemma ticks_add c m n b : ticks c m (ticks c n b) = ticks c (m + n) b.
Proof. unfold ticks. by rewrite Nat.iter_add. Qed.

(** Every byte of the memory is one. *)
Definition bytes_mem (m : gmap Z Z) : Prop := forall a, 0 <= byte_at m a < 256.

Lemma land_byte v : 0 <= v < 256 -> Z.land v 0xff = v.
Proof. intros H. change 0xff with (Z.ones 8). rewrite Z.land_ones by lia. by apply Z.mod_small. Qed.

Lemma valid_byte v : 0 <= v < 256 -> Z.land (Z.lor RDATA_VALID v) RDATA_MSK = v.
Proof.
  intros H. unfold RDATA_VALID, RDATA_MSK. rewrite Z.land_lor_distr_l. change (Z.land (2 ^ 8) 255) with 0.
  by rewrite Z.lor_0_l, land_byte.
Qed.

Lemma valid_bit v : 0 <= v < 256 -> istrue (Z.land (Z.lor RDATA_VALID v) RDATA_VALID) = true.
Proof.
  intros H. unfold RDATA_VALID. rewrite Z.land_lor_distr_l, Z.land_diag.
  unfold istrue. apply negb_true_iff, Z.eqb_neq. intros E%Z.lor_eq_0_iff. by destruct E.
Qed.

(** The address register keeps the 16 bits of the address and the command. *)
Lemma addr_command addr bit n :
  0 <= addr < 65536 -> bit = 2 ^ n -> 16 <= n ->
  Z.land (Z.lor addr bit) ADDR_MSK = addr /\ Z.land (Z.lor addr bit) bit = bit /\
  (forall m, 16 <= m -> m <> n -> Z.land (Z.lor addr bit) (2 ^ m) = 0).
Proof.
  intros Ha -> Hn. unfold ADDR_MSK. change 65535 with (Z.ones 16).
  assert (forall m, 16 <= m -> Z.testbit addr m = false) as Hhigh.
  { intros m Hm. apply Z.testbit_false; [lia|]. rewrite Z.div_small; [done|].
    pose proof (Z.pow_le_mono_r 2 16 m ltac:(lia) Hm). lia. }
  split_and!.
  - rewrite Z.land_lor_distr_l. rewrite (Z.land_ones addr), Z.mod_small by lia.
    rewrite Z.land_ones by lia. replace n with (n - 16 + 16) by lia.
    by rewrite Z.pow_add_r, Z.mod_mul, Z.lor_0_r by lia.
  - apply Z.bits_inj'. intros i Hi. rewrite Z.land_spec, Z.lor_spec, Z.pow2_bits_eqb by lia.
    destruct (Z.eqb_spec n i); [subst; by rewrite orb_true_r | by rewrite andb_false_r].
  - intros m Hm Hne. apply Z.bits_inj'. intros i Hi.
    rewrite Z.land_spec, Z.lor_spec, !Z.pow2_bits_eqb, Z.bits_0 by lia.
    destruct (Z.eqb_spec m i) as [<-|]; [|apply andb_false_r].
    rewrite Hhigh by done. by rewrite (proj2 (Z.eqb_neq n m)) by done.
Qed.

Section Access.
Variable env : bmc_env.
Variable c : mbox_conf.
Hypothesis same_base : csr_base env = c_base c.
Hypothesis read_in_time : Z.of_nat (c_read c) <= 2000000.
Abbreviation pdev := (bmc mbox).

Lemma poll_run d v n :
  conf d = c -> rdata d = (v, n) -> Z.of_nat n <= 2000000 -> 0 <= v < 256 ->
  exists d', readx_poll_timeout (avmmi_readq env RDATA_OFFSET)
      (fun rdata => istrue (Z.land rdata RDATA_VALID)) POLL_US TIMEOUT_US d =
      Some ((0, Z.lor RDATA_VALID v), d') /\
    conf d' = c /\ brd d' = ticks c n (brd d).
Proof.
  intros Hc Hr Hn Hv. unfold readx_poll_timeout. simpl.
  destruct (kwhile_run
    (fun _ : unit => poll_round (avmmi_readq env RDATA_OFFSET)
       (fun rdata => istrue (Z.land rdata RDATA_VALID)) POLL_US TIMEOUT_US (clock_ns d + 1000 * TIMEOUT_US))
    (fun k _ d1 => (k <= n)%nat /\ rdata d1 = (v, k) /\ conf d1 = c /\
       brd d1 = ticks c (n - k) (brd d) /\ clock_ns d1 = clock_ns d + 5000 * Z.of_nat (n - k))
    (fun r d1 => r = (0, Z.lor RDATA_VALID v) /\ conf d1 = c /\ brd d1 = ticks c n (brd d))
    (poll_rounds POLL_US TIMEOUT_US) n tt d) as (r & d' & Hrun & -> & Hc' & Hb').
  - intros k [] d1 (Hk & Hr1 & Hc1 & Hb1 & Ht1). unfold poll_round, avmmi_readq.
    assert (readq (csr_base env + RDATA_OFFSET) d1 =
      Some match k with O => (Z.lor RDATA_VALID v, d1) | S k => (0, set_rdata (v, k) d1) end) as Hread.
    { unfold readq. cbn [dev_readq mbox_mmio]. rewrite Hc1, same_base, Z.eqb_refl, Hr1. by destruct k. }
    destruct k as [|k].
    + rewrite (kbind_run _ _ _ _ _ Hread), valid_bit by done.
      eexists _, _. split; [reflexivity|]. split_and!; [done..|]. by rewrite Hb1, Nat.sub_0_r.
    + rewrite (kbind_run _ _ _ _ _ Hread). change (istrue (Z.land 0 RDATA_VALID)) with false.
      cbv iota. rewrite (kbind_run (kgets ktime_get) _ (set_rdata (v, k) d1) _ _ eq_refl).
      change (istrue TIMEOUT_US) with true. cbn [andb].
      rewrite (proj2 (Z.ltb_ge _ _)) by (cbn [ktime_get mbox_clock set_rdata clock_ns]; unfold TIMEOUT_US; lia).
      change (istrue POLL_US) with true. cbv iota.
      eexists _, _. split; [reflexivity|]. exists k. split; [lia|].
      change (dev_usleep_range _ POLL_US (set_rdata (v, k) d1)) with (sleep POLL_US (set_rdata (v, k) d1)).
      split_and!; [lia | done | done | |].
      * simpl. rewrite Hb1, Hc1. replace (n - k)%nat with (S (n - S k)) by lia. done.
      * simpl. unfold POLL_US. lia.
  - split_and!; [done..| |]; rewrite Nat.sub_diag; [done|lia].
  - change (Pos.to_nat (poll_rounds POLL_US TIMEOUT_US)) with (Pos.to_nat 5000003). lia.
  - exists d'. split_and!; [exact Hrun|done..].
Qed.

Lemma read8_run addr (b : pdev) :
  conf (bdev b) = c -> bytes_mem (shm (brd (bdev b))) -> 0 <= addr < 65536 ->
  exists d', avmmi_read8 env addr b = Some ((0, byte_at (shm (brd (bdev b))) addr), set_bdev d' b) /\
    conf d' = c /\ brd d' = ticks c (c_read c) (brd (bdev b)).
Proof.
  intros Hc Hb Ha. unfold avmmi_read8, on_dev, zoom.
  assert (Z.land addr ADDR_MSK = addr) as ->.
  { unfold ADDR_MSK. change 65535 with (Z.ones 16). rewrite Z.land_ones by lia. apply Z.mod_small. lia. }
  destruct (addr_command addr ADDR_RBIT 17 Ha eq_refl ltac:(lia)) as (E1 & E2 & E3).
  set (d1 := set_rdata (byte_at (shm (brd (bdev b))) addr, c_read c) (bdev b)).
  assert (avmmi_writeq env (Z.lor addr ADDR_RBIT) ADDR_OFFSET (bdev b) = Some (tt, d1)) as Hw.
  { unfold avmmi_writeq, writeq, d1. cbn [dev_writeq mbox_mmio]. rewrite Hc, same_base.
    rewrite (proj2 (Z.eqb_neq _ _)) by (unfold ADDR_OFFSET, WDATA_OFFSET; lia).
    rewrite Z.eqb_refl, E1, E2. unfold ADDR_WBIT. rewrite E3 by lia. done. }
  rewrite (kbind_run _ _ _ _ _ Hw).
  destruct (poll_run d1 (byte_at (shm (brd (bdev b))) addr) (c_read c) Hc eq_refl read_in_time (Hb addr))
    as (d2 & Hrun & Hc2 & Hb2).
  rewrite (kbind_run _ _ _ _ _ Hrun). cbn [fst snd kret]. rewrite valid_byte by apply Hb.
  exists d2. split_and!; [done|done|]. by rewrite Hb2.
Qed.

Lemma write8_run addr val (b : pdev) :
  conf (bdev b) = c -> 0 <= addr < 65536 -> 0 <= val < 256 ->
  exists d', avmmi_write8 env addr val b = Some (0, set_bdev d' b) /\ conf d' = c /\
    brd d' = Board (<[addr := val]> (shm (brd (bdev b)))) (phase (brd (bdev b))).
Proof.
  intros Hc Ha Hv. unfold avmmi_write8, on_dev, zoom.
  assert (Z.land ADDR_MSK addr = addr) as ->.
  { rewrite Z.land_comm. unfold ADDR_MSK. change 65535 with (Z.ones 16).
    rewrite Z.land_ones by lia. apply Z.mod_small. lia. }
  destruct (addr_command addr ADDR_WBIT 16 Ha eq_refl ltac:(lia)) as (E1 & E2 & E3).
  assert (avmmi_writeq env val WDATA_OFFSET (bdev b) = Some (tt, set_latch val (bdev b))) as Hw1.
  { unfold avmmi_writeq, writeq. cbn [dev_writeq mbox_mmio]. rewrite Hc, same_base, Z.eqb_refl.
    unfold WDATA_MSK. by rewrite land_byte. }
  rewrite (kbind_run _ _ _ _ _ Hw1).
  set (d2 := set_shm (<[addr := val]> (shm (brd (bdev b)))) (set_latch val (bdev b))).
  assert (avmmi_writeq env (Z.lor addr ADDR_WBIT) ADDR_OFFSET (set_latch val (bdev b)) = Some (tt, d2)) as Hw2.
  { unfold avmmi_writeq, writeq. cbn [dev_writeq mbox_mmio]. cbn [conf set_latch]. rewrite Hc, same_base.
    rewrite (proj2 (Z.eqb_neq _ _)) by (unfold ADDR_OFFSET, WDATA_OFFSET; lia).
    rewrite Z.eqb_refl, E1, E2. done. }
  rewrite (kbind_run _ _ _ _ _ Hw2). exists d2. split_and!; done.
Qed.
End Access.

(** ** The life of a request *)

Section Life.
Variable c : mbox_conf.
Variable m0 : gmap Z Z.
Hypothesis pending : count_at REQUEST_COUNT_ADDRESS m0 <> 0.

Definition taken_at : nat := c_take c + 2.
Definition answered_at : nat := c_take c + c_work c + 3.
Definition the_request : list Z :=
  load (Z.to_nat (count_at REQUEST_COUNT_ADDRESS m0)) REQUEST_ADDRESS m0.
Definition taken_mem : gmap Z Z := take_request m0.
Definition answered_mem : gmap Z Z := put_response (c_serve c the_request) taken_mem.

Definition mem_at (j : nat) : gmap Z Z :=
  if (j <? taken_at)%nat then m0 else if (j <? answered_at)%nat then taken_mem else answered_mem.
Definition phase_at (j : nat) : bmc_phase :=
  if (j =? 0)%nat then Idle
  else if (j <? taken_at)%nat then Taking (taken_at - 1 - j)
  else if (j <? answered_at)%nat then Working (answered_at - 1 - j) the_request
  else Idle.

Lemma taken_count : count_at REQUEST_COUNT_ADDRESS taken_mem = 0.
Proof.
  unfold count_at, taken_mem, take_request. cbn [store]. unfold byte_at.
  rewrite lookup_insert_ne, !lookup_insert_eq by lia. done.
Qed.

Lemma answered_count :
  Z.of_nat (length (c_serve c the_request)) <= 2046 ->
  count_at REQUEST_COUNT_ADDRESS answered_mem = 0.
Proof.
  intros Hl. rewrite <- taken_count.
  assert (forall x, x < RESPONSE_COUNT_ADDRESS -> byte_at answered_mem x = byte_at taken_mem x) as E.
  { intros x Hx. unfold answered_mem, put_response. unfold RESPONSE_ADDRESS, CNT_LEN.
    by rewrite !store_other by (left; lia). }
  unfold count_at. by rewrite !E by done.
Qed.

Lemma ticks_at j :
  Z.of_nat (length (c_serve c the_request)) <= 2046 ->
  ticks c j (Board m0 Idle) = Board (mem_at j) (phase_at j).
Proof.
  intros Hl. induction j as [|j IH].
  { unfold mem_at, phase_at, taken_at. simpl. by rewrite (proj2 (Nat.ltb_lt _ _)) by lia. }
  change (ticks c (S j) (Board m0 Idle)) with (tick c (ticks c j (Board m0 Idle))). rewrite IH.
  unfold mem_at, phase_at. rewrite (proj2 (Nat.eqb_neq (S j) 0)) by lia.
  destruct (Nat.eqb_spec j 0) as [->|Hj].
  { rewrite (proj2 (Nat.ltb_lt 0 taken_at)), (proj2 (Nat.ltb_lt 1 taken_at)) by (unfold taken_at; lia).
    unfold tick. cbn [phase shm]. rewrite (proj2 (Z.eqb_neq _ _)) by done. do 2 f_equal. unfold taken_at. lia. }
  assert (taken_at < answered_at)%nat as Hlt by (unfold taken_at, answered_at; lia).
  destruct (Nat.ltb_spec j taken_at).
  - destruct (Nat.ltb_spec (S j) taken_at).
    + replace (taken_at - 1 - j)%nat with (S (taken_at - 1 - S j)) by lia. done.
    + rewrite (proj2 (Nat.ltb_lt _ _)) by lia. replace (taken_at - 1 - j)%nat with 0%nat by lia.
      unfold tick. cbn [phase shm]. unfold taken_mem, the_request. do 2 f_equal.
      unfold answered_at, taken_at in *. lia.
  - rewrite (proj2 (Nat.ltb_ge (S j) taken_at)) by lia.
    destruct (Nat.ltb_spec j answered_at).
    + destruct (Nat.ltb_spec (S j) answered_at).
      * by replace (answered_at - 1 - j)%nat with (S (answered_at - 1 - S j)) by lia.
      * by replace (answered_at - 1 - j)%nat with 0%nat by lia.
    + rewrite (proj2 (Nat.ltb_ge (S j) answered_at)) by lia.
      unfold tick. cbn [phase shm]. by rewrite (answered_count Hl).
Qed.
End Life.

(** ** Runs of bytes *)

Section Runs.
Variable env : bmc_env.
Variable c : mbox_conf.
Variable b0 : board.
Hypothesis same_base : csr_base env = c_base c.
Hypothesis read_in_time : Z.of_nat (c_read c) <= 2000000.
Hypothesis bytes_always : forall j, bytes_mem (shm (ticks c j b0)).
Abbreviation pdev := (bmc mbox).

(** The device at the [j]-th tick since [b0]. *)
Definition at_tick (j : nat) (d : mbox) : Prop := conf d = c /\ brd d = ticks c j b0.

(** The bytes that reads from tick [j] on see. *)
Fixpoint samples (n : nat) (addr : Z) (j : nat) : list Z :=
  match n with
  | O => []
  | S n => byte_at (shm (ticks c j b0)) addr :: samples n (addr + 1) (j + c_read c)
  end.

Lemma read8s_run n addr j (b : pdev) :
  at_tick j (bdev b) -> (0 < n)%nat -> 0 <= addr -> addr + Z.of_nat n <= 65536 ->
  exists d', avmmi_read8s env addr n b = Some ((0, samples n addr j), set_bdev d' b) /\
    at_tick (j + n * c_read c) d'.
Proof.
  revert addr j b. induction n as [|n IH]; intros addr j b [Hc Hb] Hn Ha Hl; [lia|]. cbn [avmmi_read8s].
  destruct (read8_run env c same_base read_in_time addr b Hc) as (d1 & Hrun & Hc1 & Hb1);
    [rewrite Hb; apply bytes_always|lia|].
  rewrite (kbind_run _ _ _ _ _ Hrun). cbn [fst snd]. change (istrue 0) with false. cbv iota.
  assert (at_tick (c_read c + j) d1) as H1 by (split; [done|by rewrite Hb1, Hb, ticks_add]).
  destruct n as [|n].
  { exists d1. rewrite Hb. split; [done|]. by replace (j + 1 * c_read c)%nat with (c_read c + j)%nat by lia. }
  rewrite wrap_small by (unfold in_range; lia).
  destruct (IH (addr + 1) (c_read c + j)%nat (set_bdev d1 b) H1) as (d2 & Hrun2 & H2); [lia..|].
  exists d2. rewrite (kbind_run _ _ _ _ _ Hrun2). rewrite Hb. cbn [fst snd samples kret].
  replace (j + c_read c)%nat with (c_read c + j)%nat by lia. split; [done|].
  by replace (j + S (S n) * c_read c)%nat with (c_read c + j + S n * c_read c)%nat by lia.
Qed.

(** Reads while the memory does not change give what it holds. *)
Lemma samples_load n addr j m :
  (forall i, (j <= i)%nat -> shm (ticks c i b0) = m) -> samples n addr j = load n addr m.
Proof.
  revert addr j. induction n as [|n IH]; intros addr j H; [done|]. cbn [samples load].
  rewrite H by lia. f_equal. apply IH. intros i Hi. apply H. lia.
Qed.
End Runs.

Lemma write8s_run env c bs addr (b : bmc mbox) :
  csr_base env = c_base c -> conf (bdev b) = c -> bs <> [] -> Forall (fun v => 0 <= v < 256) bs ->
  0 <= addr -> addr + Z.of_nat (length bs) <= 65536 ->
  exists d', avmmi_write8s env addr bs b = Some (0, set_bdev d' b) /\ conf d' = c /\
    brd d' = Board (store bs addr (shm (brd (bdev b)))) (phase (brd (bdev b))).
Proof.
  intros Hbase. revert addr b. induction bs as [|v bs IH]; intros addr b Hc Hn Hf Ha Hl; [done|].
  inversion_clear Hf as [|? ? Hv Hf']. rewrite length_cons in Hl. cbn [avmmi_write8s].
  destruct (write8_run env c Hbase addr v b Hc) as (d1 & Hrun & Hc1 & Hb1); [lia|done|].
  rewrite (kbind_run _ _ _ _ _ Hrun). change (istrue 0) with false. cbv iota.
  destruct bs as [|v2 bs].
  { exists d1. split_and!; [done..|]. by rewrite Hb1. }
  rewrite wrap_small by (unfold in_range; rewrite length_cons in Hl; lia).
  destruct (IH (addr + 1) (set_bdev d1 b) Hc1) as (d2 & Hrun2 & Hc2 & Hb2); [done|done|lia|lia|].
  exists d2. rewrite Hrun2. split_and!; [done..|]. rewrite Hb2. cbn [bdev set_bdev]. by rewrite Hb1.
Qed.
