(* ===== verification/BmcSpec.v ===== *)
(** * Theorems about the mailbox driver (avmmi-bmc.c)

    One exchange against every BMC of BmcMailbox.v, the end of an exchange with
    any device at all, and the reading of the sensor records. *)

From S2P Require Import Prelude.
From S2P Require Import Mmio.
From S2P Require Import Loops.
From S2P Require Import Poll.
From S2P Require Import UserMem.
From S2P Require Import Bmc.
From S2P Require Import BmcMailbox.
Local Open Scope list_scope.
Local Open Scope Z_scope.

Local Opaque Z.mul Z.add.

(** ** One exchange *)

(** Latencies, in ticks of 5 microseconds, within the driver's timeouts. *)
Definition in_time (c : mbox_conf) : Prop :=
  Z.of_nat (c_read c) <= 2000000 /\ Z.of_nat (c_take c + c_work c) + 8 <= 2000000.

(** No request is pending and no response waits. *)
Definition idle (b : board) : Prop :=
  phase b = Idle /\ bytes_mem (shm b) /\
  count_at REQUEST_COUNT_ADDRESS (shm b) = 0 /\ count_at RESPONSE_COUNT_ADDRESS (shm b) = 0.

Abbreviation bytes := (Forall (fun v => 0 <= v < 256)).

Lemma bytes_store bs a m : bytes bs -> bytes_mem m -> bytes_mem (store bs a m).
Proof.
  intros Hb. revert a m. induction Hb as [|b bs Hv _ IH]; intros a m Hm; [done|].
  cbn [store]. apply IH. intros x. unfold byte_at. destruct (decide (a = x)) as [->|].
  - by rewrite lookup_insert_eq.
  - rewrite lookup_insert_ne by done. apply Hm.
Qed.

Lemma bytes_le_split n v : bytes (le_split n v).
Proof.
  revert v. induction n as [|n IH]; intros v; [constructor|]. cbn [le_split].
  constructor; [apply Z.mod_pos_bound; lia | apply IH].
Qed.

Lemma count_zero a m : bytes_mem m -> count_at a m = 0 -> byte_at m a = 0 /\ byte_at m (a + 1) = 0.
Proof. intros Hm H. unfold count_at in H. pose proof (Hm a). pose proof (Hm (a + 1)). lia. Qed.

Lemma count_load a m : count_at a m = le_combine (load 2 a m).
Proof. unfold count_at. cbn [load le_combine]. lia. Qed.

Lemma count_store n a m : 0 <= n < 65536 -> count_at a (store (le_split 2 n) a m) = n.
Proof.
  intros Hn. rewrite count_load. pose proof (load_store (le_split 2 n) a m) as E.
  rewrite length_le_split in E. rewrite E. by apply le_combine_split.
Qed.

Lemma count_other bs a m x :
  x + 1 < a \/ a + Z.of_nat (length bs) <= x -> count_at x (store bs a m) = count_at x m.
Proof. intros H. unfold count_at. by rewrite !store_other by lia. Qed.

Section Exchange.
Variable env : bmc_env.
Variable c : mbox_conf.
Hypothesis same_base : csr_base env = c_base c.
Hypothesis on_time : in_time c.
Abbreviation pdev := (bmc mbox).

(** The board when a request has just been stored. *)
Variable m0 : gmap Z Z.
Hypothesis pending : count_at REQUEST_COUNT_ADDRESS m0 <> 0.
Hypothesis no_response : count_at RESPONSE_COUNT_ADDRESS m0 = 0.
Hypothesis m0_bytes : bytes_mem m0.
Let resp : list Z := c_serve c (the_request m0).
Hypothesis resp_bytes : bytes resp.
Hypothesis resp_length : 0 < Z.of_nat (length resp) <= 2046.
Let b0 := Board m0 Idle.
Let M j := mem_at c m0 j.
Let N := Z.of_nat (length resp).

Lemma board_at j : ticks c j b0 = Board (M j) (phase_at c m0 j).
Proof. apply ticks_at; [exact pending | apply resp_length]. Qed.

Lemma taken_bytes : bytes_mem (taken_mem m0).
Proof. apply bytes_store; [|exact m0_bytes]. repeat constructor; lia. Qed.

Lemma mem_bytes j : bytes_mem (M j).
Proof.
  unfold M, mem_at. destruct (_ <? _)%nat; [done|]. destruct (_ <? _)%nat; [apply taken_bytes|].
  apply bytes_store; [apply bytes_le_split|]. apply bytes_store; [done | apply taken_bytes].
Qed.

Lemma bytes_always j : bytes_mem (shm (ticks c j b0)).
Proof. rewrite board_at. apply mem_bytes. Qed.

Lemma request_count j :
  count_at REQUEST_COUNT_ADDRESS (M j) =
  if (j <? taken_at c)%nat then count_at REQUEST_COUNT_ADDRESS m0 else 0.
Proof.
  unfold M, mem_at. destruct (_ <? _)%nat; [done|]. destruct (_ <? _)%nat; [apply taken_count|].
  apply answered_count, resp_length.
Qed.

Lemma response_count j :
  count_at RESPONSE_COUNT_ADDRESS (M j) = if (j <? answered_at c)%nat then 0 else N.
Proof.
  unfold M, mem_at. assert (taken_at c < answered_at c)%nat by (unfold taken_at, answered_at; lia).
  assert (count_at RESPONSE_COUNT_ADDRESS (taken_mem m0) = 0) as Ht.
  { unfold taken_mem, take_request. rewrite count_other; [exact no_response|]. by right. }
  destruct (Nat.ltb_spec j (taken_at c)).
  { by rewrite (proj2 (Nat.ltb_lt _ _)) by lia. }
  destruct (j <? answered_at c)%nat; [done|]. unfold answered_mem, put_response. fold resp. fold N.
  apply count_store. unfold N. lia.
Qed.

(** Two bytes read at ticks [j] and [j + c_read c]. *)
Lemma sampled_count a j :
  le_combine (samples c b0 2 a j) = byte_at (M j) a + 256 * byte_at (M (j + c_read c)) (a + 1).
Proof. cbn [samples le_combine]. rewrite !board_at. cbn [shm]. lia. Qed.

Lemma zero_count_bytes a j : count_at a (M j) = 0 -> byte_at (M j) a = 0 /\ byte_at (M j) (a + 1) = 0.
Proof. apply count_zero, mem_bytes. Qed.

Lemma tick_run j (b : pdev) d :
  at_tick c b0 j d ->
  exists d', on_dev (udelay POLL_US) (set_bdev d b) = Some (tt, set_bdev d' b) /\ at_tick c b0 (S j) d'.
Proof. intros [Hc Hb]. eexists. split; [reflexivity|]. split; [done|]. simpl. by rewrite Hc, Hb. Qed.

(** The request is seen taken, not before it is. *)
Lemma request_run (b : pdev) :
  at_tick c b0 0 (bdev b) ->
  exists d' j, kwhile (request_round env) count_rounds 0 b = Some (0, set_bdev d' b) /\
    at_tick c b0 j d' /\ (taken_at c <= j)%nat.
Proof.
  intros H0. destruct on_time as [Hread Htime].
  destruct (kwhile_run (request_round env)
    (fun k poll b1 => exists j i d1, b1 = set_bdev d1 b /\ at_tick c b0 j d1 /\ poll = 5 * Z.of_nat i /\
       (i <= j)%nat /\ (taken_at c - j <= k)%nat)
    (fun ret b1 => ret = 0 /\ exists j d1, b1 = set_bdev d1 b /\ at_tick c b0 j d1 /\ (taken_at c <= j)%nat)
    count_rounds (taken_at c) 0 b) as (ret & b' & Hrun & -> & j & d' & -> & Hat & Hj).
  - intros k poll b1 (j & i & d1 & -> & Hat & -> & Hi & Hk). unfold request_round.
    destruct (read8s_run env c b0 same_base Hread bytes_always 2 REQUEST_COUNT_ADDRESS j (set_bdev d1 b) Hat)
      as (d2 & Hrun & Hat2); [lia|done|done|].
    rewrite (kbind_run _ _ _ _ _ Hrun). cbn [fst snd]. change (istrue 0) with false. cbv iota zeta.
    change (set_bdev d2 (set_bdev d1 b)) with (set_bdev d2 b). rewrite sampled_count.
    destruct (Nat.ltb_spec j (taken_at c)) as [Hj|Hj].
    + destruct (istrue _) eqn:Ec.
      * destruct (tick_run _ b _ Hat2) as (d3 & Htick & Hat3).
        rewrite (kbind_run _ _ _ _ _ Htick). eexists _, _. split; [reflexivity|].
        unfold POLL_US, TIMEOUT_US. rewrite (proj2 (Z.ltb_lt _ _)) by (unfold taken_at in *; lia).
        exists (k - 1)%nat. split; [lia|]. exists (S (j + 2 * c_read c)), (S i), d3.
        split_and!; [done..|lia|lia|lia].
      * eexists _, _. split; [reflexivity|]. split; [done|]. exists (j + 2 * c_read c)%nat, d2.
        split_and!; [done..|]. destruct (Nat.le_gt_cases (taken_at c) (j + c_read c)); [lia|].
        exfalso. apply pending. unfold istrue in Ec. boolify.
        pose proof (mem_bytes j REQUEST_COUNT_ADDRESS). pose proof (mem_bytes (j + c_read c) (REQUEST_COUNT_ADDRESS + 1)).
        unfold count_at. unfold M, mem_at in *. rewrite !(proj2 (Nat.ltb_lt _ _)) in * by lia. lia.
    + assert (forall i, (j <= i)%nat ->
        byte_at (M i) REQUEST_COUNT_ADDRESS = 0 /\ byte_at (M i) (REQUEST_COUNT_ADDRESS + 1) = 0) as Hz.
      { intros i1 Hi1. apply zero_count_bytes. rewrite request_count. by rewrite (proj2 (Nat.ltb_ge _ _)) by lia. }
      rewrite (proj1 (Hz j (le_n j))), (proj2 (Hz (j + c_read c)%nat (Nat.le_add_r _ _))).
      eexists _, _. split; [reflexivity|]. split; [done|]. exists (j + 2 * c_read c)%nat, d2.
      split_and!; [done..|lia].
  - exists 0%nat, 0%nat, (bdev b). split_and!; [by destruct b|done|done|lia|lia].
  - change (Pos.to_nat count_rounds) with (Pos.to_nat 2000001). unfold taken_at. lia.
  - exists d', j. by rewrite Hrun.
Qed.

(** The count of the response, read from tick [j] on: whole once the BMC has
    answered, and 0 when it was read before that. *)
Definition response_sample (j : nat) : Z :=
  byte_at (M j) RESPONSE_COUNT_ADDRESS + 256 * byte_at (M (j + c_read c)) (RESPONSE_COUNT_ADDRESS + 1).

Lemma response_sample_whole j : (answered_at c <= j)%nat -> response_sample j = N.
Proof.
  intros Hj. assert (M (j + c_read c) = M j) as E.
  { unfold M, mem_at. assert (taken_at c < answered_at c)%nat by (unfold taken_at, answered_at; lia).
    by rewrite !(proj2 (Nat.ltb_ge _ _)) by lia. }
  unfold response_sample. rewrite E. fold (count_at RESPONSE_COUNT_ADDRESS (M j)).
  rewrite response_count. by rewrite (proj2 (Nat.ltb_ge _ _)).
Qed.

Lemma response_sample_zero j : (j + c_read c < answered_at c)%nat -> response_sample j = 0.
Proof.
  intros Hj.
  assert (forall i, (i < answered_at c)%nat ->
    byte_at (M i) RESPONSE_COUNT_ADDRESS = 0 /\ byte_at (M i) (RESPONSE_COUNT_ADDRESS + 1) = 0) as Hz.
  { intros i1 Hi1. apply zero_count_bytes. rewrite response_count. by rewrite (proj2 (Nat.ltb_lt _ _)). }
  unfold response_sample. by rewrite (proj1 (Hz j ltac:(lia))), (proj2 (Hz (j + c_read c)%nat ltac:(lia))).
Qed.

(** The count of the response is accepted only when it is whole. *)
Lemma response_run (b : pdev) j0 :
  at_tick c b0 j0 (bdev b) ->
  exists d' j, kwhile (response_round env) count_rounds (0, 0) b = Some ((0, N), set_bdev d' b) /\
    at_tick c b0 j d' /\ (answered_at c <= j)%nat.
Proof.
  intros H0. destruct on_time as [Hread Htime].
  destruct (kwhile_run (response_round env)
    (fun k a b1 => exists j i d1, b1 = set_bdev d1 b /\ at_tick c b0 j d1 /\ snd a = 5 * Z.of_nat i /\
       (i + k <= answered_at c + 3)%nat /\ (fst a <> 0 -> (answered_at c <= j)%nat) /\
       (((answered_at c <= j)%nat /\ fst a = N) \/ (answered_at c - j + 1 <= k)%nat))
    (fun r b1 => r = (0, N) /\ exists j d1, b1 = set_bdev d1 b /\ at_tick c b0 j d1 /\ (answered_at c <= j)%nat)
    count_rounds (answered_at c + 1) (0, 0) b) as (r & b' & Hrun & -> & j & d' & -> & Hat & Hj).
  - intros k [last poll] b1 (j & i & d1 & -> & Hat & Hp & Hi & Hlast & Hk). cbn [fst snd] in *. subst poll.
    unfold response_round.
    destruct (read8s_run env c b0 same_base Hread bytes_always 2 RESPONSE_COUNT_ADDRESS j (set_bdev d1 b) Hat)
      as (d2 & Hrun & Hat2); [lia|done|done|].
    rewrite (kbind_run _ _ _ _ _ Hrun). cbn [fst snd]. change (istrue 0) with false. cbv iota zeta.
    change (set_bdev d2 (set_bdev d1 b)) with (set_bdev d2 b). rewrite sampled_count.
    fold (response_sample j). set (count := response_sample j).
    pose proof (response_sample_whole j) as Hwhole. fold count in Hwhole.
    assert ((j < answered_at c)%nat -> last = 0) as Hfirst by lia.
    destruct (negb (istrue count) || negb (count =? last)) eqn:Ec.
    + destruct (tick_run _ b _ Hat2) as (d3 & Htick & Hat3). rewrite (kbind_run _ _ _ _ _ Htick).
      assert (~ ((answered_at c <= j)%nat /\ last = N)) as Hnot.
      { intros [Hj ->]. rewrite (Hwhole Hj), Z.eqb_refl in Ec. unfold istrue in Ec.
        rewrite (proj2 (Z.eqb_neq N 0)) in Ec by (unfold N; lia). discriminate. }
      assert (answered_at c - j + 1 <= k)%nat as Hk' by tauto.
      eexists _, _. split; [reflexivity|].
      unfold POLL_US, TIMEOUT_US. rewrite (proj2 (Z.ltb_lt _ _)) by (unfold answered_at in *; lia).
      exists (k - 1)%nat. split; [lia|]. exists (S (j + 2 * c_read c)), (S i), d3. cbn [fst snd].
      split_and!; [done..|lia|lia| |].
      * intros Hne. destruct (Nat.le_gt_cases (answered_at c) (S (j + 2 * c_read c))); [done|].
        exfalso. apply Hne, response_sample_zero. lia.
      * destruct (Nat.le_gt_cases (answered_at c) j) as [Hj|Hj]; [left; split; [lia|by apply Hwhole]|right; lia].
    + apply orb_false_elim in Ec as [Ec1 Ec2]. boolify. unfold istrue in Ec1. boolify.
      assert (answered_at c <= j)%nat as Hj.
      { destruct (Nat.le_gt_cases (answered_at c) j) as [Hj|Hj]; [done|]. specialize (Hfirst Hj). congruence. }
      eexists _, _. split; [reflexivity|]. rewrite (Hwhole Hj). split; [done|].
      exists (j + 2 * c_read c)%nat, d2. split_and!; [done..|lia].
  - exists j0, 0%nat, (bdev b). cbn [fst snd]. split_and!; [by destruct b|done|done|lia|done|]. right. lia.
  - change (Pos.to_nat count_rounds) with (Pos.to_nat 2000001). unfold answered_at. lia.
  - exists d', j. by rewrite Hrun.
Qed.

(** The rest of the exchange: the response is read and acknowledged. *)
Definition fits (rxlen : Z) : bool := (N <=? MAX_PACKET_SIZE) && (N <=? rxlen).

Lemma response_bytes j :
  (answered_at c <= j)%nat -> samples c b0 (length resp) RESPONSE_ADDRESS j = resp.
Proof.
  intros Hj. rewrite (samples_load c b0 _ _ _ (answered_mem c m0)).
  - unfold answered_mem, put_response. fold resp.
    rewrite (load_ext _ _ _ (store resp RESPONSE_ADDRESS (taken_mem m0))); [apply load_store|].
    intros x Hx. apply store_other. rewrite length_le_split. unfold RESPONSE_ADDRESS, CNT_LEN in Hx. lia.
  - intros i Hi. rewrite board_at. cbn [shm]. unfold M, mem_at.
    assert (taken_at c < answered_at c)%nat by (unfold taken_at, answered_at; lia).
    by rewrite !(proj2 (Nat.ltb_ge _ _)) by lia.
Qed.

Lemma acknowledge_run (b : pdev) j :
  at_tick c b0 j (bdev b) -> (answered_at c <= j)%nat ->
  exists d', avmmi_write8s env RESPONSE_COUNT_ADDRESS (le_split 2 0) b = Some (0, set_bdev d' b) /\
    conf d' = c /\ idle (brd d').
Proof.
  intros [Hc Hb] Hj.
  destruct (write8s_run env c (le_split 2 0) RESPONSE_COUNT_ADDRESS b same_base Hc) as (d' & Hrun & Hc' & Hb');
    [done|apply bytes_le_split|done|done|].
  exists d'. split_and!; [done..|]. rewrite Hb', Hb, board_at. cbn [shm phase].
  assert (taken_at c < answered_at c)%nat by (unfold taken_at, answered_at; lia). split_and!.
  - cbn [phase]. unfold phase_at. rewrite !(proj2 (Nat.ltb_ge _ _)) by lia.
    by rewrite (proj2 (Nat.eqb_neq _ _)) by lia.
  - apply bytes_store; [apply bytes_le_split | apply mem_bytes].
  - cbn [shm]. rewrite count_other by (left; unfold RESPONSE_COUNT_ADDRESS, REQUEST_COUNT_ADDRESS, MEM_START; vm_compute; done).
    rewrite request_count. by rewrite (proj2 (Nat.ltb_ge _ _)) by lia.
  - cbn [shm]. by apply count_store.
Qed.

Lemma finish_run (b : pdev) rxlen :
  at_tick c b0 0 (bdev b) ->
  exists d', (ret <- kwhile (request_round env) count_rounds 0 ;;
      if istrue ret then kret (ret, [])
      else
        r <- kwhile (response_round env) count_rounds (0, 0) ;;
        let '(ret, count) := r in
        if istrue ret then kret (ret, [])
        else
          r <- (if (count <=? MAX_PACKET_SIZE) && (count <=? rxlen)
                then avmmi_read8s env RESPONSE_ADDRESS (Z.to_nat count) else kret (0, [])) ;;
          if istrue (fst r) then kret (fst r, [])
          else
            avmmi_write8s env RESPONSE_COUNT_ADDRESS (le_split 2 0) ;;
            kret (if (count <=? MAX_PACKET_SIZE) && (count <=? rxlen) then (count, snd r) else (- ENOMEM, []))) b =
    Some (if fits rxlen then (N, resp) else (- ENOMEM, []), set_bdev d' b) /\ conf d' = c /\ idle (brd d').
Proof.
  intros H0. destruct (request_run b H0) as (d1 & j1 & Hrun1 & H1 & Hj1).
  rewrite (kbind_run _ _ _ _ _ Hrun1). change (istrue 0) with false. cbv iota.
  destruct (response_run (set_bdev d1 b) j1 H1) as (d2 & j2 & Hrun2 & H2 & Hj2).
  rewrite (kbind_run _ _ _ _ _ Hrun2). change (istrue 0) with false. cbv iota. fold (fits rxlen).
  change (set_bdev d2 (set_bdev d1 b)) with (set_bdev d2 b). destruct (fits rxlen) eqn:Ef.
  - unfold N. rewrite Nat2Z.id.
    destruct (read8s_run env c b0 same_base (proj1 on_time) bytes_always (length resp) RESPONSE_ADDRESS j2
      (set_bdev d2 b) H2) as (d3 & Hrun3 & H3); [lia|done|unfold RESPONSE_ADDRESS, RESPONSE_COUNT_ADDRESS, MEM_START, CNT_LEN; change (Z.shiftr MEM_SIZE 1) with 2048; lia|].
    rewrite (kbind_run _ _ _ _ _ Hrun3). rewrite (response_bytes j2 Hj2). cbn [fst snd].
    change (istrue 0) with false. cbv iota.
    destruct (acknowledge_run (set_bdev d3 b) _ H3) as (d4 & Hrun4 & Hc4 & Hi4); [lia|].
    change (set_bdev d3 (set_bdev d2 b)) with (set_bdev d3 b).
    rewrite (kbind_run _ _ _ _ _ Hrun4). by exists d4.
  - rewrite (kbind_run (kret (0, [])) _ _ _ _ eq_refl). cbn [fst snd]. change (istrue 0) with false. cbv iota.
    destruct (acknowledge_run (set_bdev d2 b) _ H2) as (d4 & Hrun4 & Hc4 & Hi4); [lia|].
    rewrite (kbind_run _ _ _ _ _ Hrun4). by exists d4.
Qed.
End Exchange.

Lemma bus_lock_run {D} (b : bmc D) p :
  drvdata b = Some p -> bus_mutex p = false ->
  bus_lock b = Some (tt, set_drvdata (Some (set_bus_mutex true p)) b).
Proof. intros Hp Hm. unfold bus_lock, mod_priv. simpl. rewrite Hp. simpl. rewrite Hm. simpl. by rewrite Hp. Qed.

Lemma bus_unlock_run {D} (b : bmc D) p :
  drvdata b = Some p -> bus_mutex p = true ->
  bus_unlock b = Some (tt, set_drvdata (Some (set_bus_mutex false p)) b).
Proof. intros Hp Hm. unfold bus_unlock, mod_priv. simpl. rewrite Hp. simpl. rewrite Hm. simpl. by rewrite Hp. Qed.

(** The response a command gets, when it is one the driver accepts. *)
Definition answer (resp : list Z) (rxlen : Z) : Z * list Z :=
  if (Z.of_nat (length resp) <=? MAX_PACKET_SIZE) && (Z.of_nat (length resp) <=? rxlen)
  then (Z.of_nat (length resp), resp) else (- ENOMEM, []).

Definition well_served (c : mbox_conf) (req : list Z) : Prop :=
  bytes (c_serve c req) /\ 0 < Z.of_nat (length (c_serve c req)) <= 2046.

(** The driver between two calls, in front of a BMC that is idle. *)
Record ready (env : bmc_env) (c : mbox_conf) (b : bmc mbox) (p : avmmi_priv) : Prop := {
  ready_base : csr_base env = c_base c;
  ready_time : in_time c;
  ready_conf : conf (bdev b) = c;
  ready_idle : idle (brd (bdev b));
  ready_priv : drvdata b = Some p;
  ready_free : bus_mutex p = false;
}.

Lemma send_one_run env c req rxlen (b : bmc mbox) p :
  ready env c b p -> bytes req -> 0 < Z.of_nat (length req) <= MAX_PACKET_SIZE -> well_served c req ->
  exists d', avmmi_send_one env req rxlen b = Some (answer (c_serve c req) rxlen, set_bdev d' b) /\
    ready env c (set_bdev d' b) p.
Proof.
  intros [Hbase Htime Hc Hi Hp Hm] Hreq Hlen [Hresp Hrlen]. change MAX_PACKET_SIZE with 1024 in Hlen.
  unfold avmmi_send_one. rewrite (kbind_run (kgets drvdata) _ _ _ _ eq_refl), Hp.
  rewrite (proj2 (Z.ltb_ge _ _)) by (change MAX_PACKET_SIZE with 1024; lia).
  rewrite (kbind_run _ _ _ _ _ (bus_lock_run b p Hp Hm)). set (b1 := set_drvdata _ b).
  destruct Hi as (Hph & Hb & _ & Hz).
  destruct (write8s_run env c req REQUEST_ADDRESS b1 Hbase Hc) as (d1 & Hrun1 & Hc1 & Hb1);
    [intros ->; cbn [length] in Hlen; lia|done|done|change REQUEST_ADDRESS with 4098; lia|].
  set (len := le_split 2 (Z.of_nat (length req))).
  destruct (write8s_run env c len REQUEST_COUNT_ADDRESS (set_bdev d1 b1) Hbase Hc1) as (d2 & Hrun2 & Hc2 & Hb2);
    [done|apply bytes_le_split|done|unfold len; rewrite length_le_split; done|].
  set (m0 := store len REQUEST_COUNT_ADDRESS (store req REQUEST_ADDRESS (shm (brd (bdev b))))).
  assert (brd d2 = Board m0 Idle) as Hb0 
    by (rewrite Hb2; cbn [bdev set_bdev]; rewrite Hb1; change (bdev b1) with (bdev b); cbn [shm phase]; by rewrite Hph).
  assert (the_request m0 = req) as Ereq.
  { unfold the_request, m0, len. rewrite count_store, Nat2Z.id by lia.
    rewrite (load_ext _ _ _ (store req REQUEST_ADDRESS (shm (brd (bdev b))))); [apply load_store|].
    intros x Hx. apply store_other. rewrite length_le_split.
    change REQUEST_ADDRESS with 4098 in Hx. change REQUEST_COUNT_ADDRESS with 4096. lia. }
  destruct (finish_run env c Hbase Htime m0) with (b := set_bdev d2 b1) (rxlen := rxlen) as (d3 & Hrun3 & Hc3 & Hi3).
  - unfold m0, len. rewrite count_store by lia. lia.
  - unfold m0. rewrite !count_other; [exact Hz| |].
    + right. change RESPONSE_COUNT_ADDRESS with 6144. change REQUEST_ADDRESS with 4098. lia.
    + right. unfold len. rewrite length_le_split. done.
  - apply bytes_store; [apply bytes_le_split|]. by apply bytes_store.
  - by rewrite Ereq.
  - by rewrite Ereq.
  - split; [done|]. exact Hb0.
  - exists d3. unfold fits in Hrun3. rewrite Ereq in Hrun3.
    assert (send_locked env req rxlen b1 = Some (answer (c_serve c req) rxlen, set_bdev d3 b1)) as Hlocked.
    { unfold send_locked. rewrite (kbind_run _ _ _ _ _ Hrun1), (kbind_run _ _ _ _ _ Hrun2). exact Hrun3. }
    rewrite (kbind_run _ _ _ _ _ Hlocked).
    rewrite (kbind_run _ _ _ _ _ (bus_unlock_run (set_bdev d3 b1) (set_bus_mutex true p) eq_refl eq_refl)).
    assert (set_drvdata (Some (set_bus_mutex false (set_bus_mutex true p))) (set_bdev d3 b1) = set_bdev d3 b) as ->.
    { unfold b1, set_bdev, set_drvdata. simpl. f_equal. rewrite Hp. f_equal. clear -Hm. destruct p; simpl in *. by rewrite Hm. }
    split; [done|]. by constructor.
Qed.

(** ** Any device *)

Section Total.
Context {D : Type} {dev : Mmio D} {clock : Clock D} {ok : ClockOk D}.
Variable env : bmc_env.
Abbreviation pdev := (bmc D).

(** The driver's own state is that of [b0]. *)
Definition same_driver (b0 b : pdev) : Prop := exists d, b = set_bdev d b0.
Variable b0 : pdev.
Abbreviation ends := (returns (same_driver b0)).

Lemma ends_on_dev {A} (x : K D A) (R : A -> Prop) : returns (fun _ => True) x R -> ends (on_dev x) R.
Proof.
  intros H b [d ->]. destruct (H d I) as (a & d' & Hrun & Ha & _). unfold on_dev, zoom. cbn [bdev set_bdev].
  rewrite Hrun. eexists _, _. split; [reflexivity|]. split; [done|]. by exists d'.
Qed.

Lemma readq_run off d :
  avmmi_readq env off d = Some (fst (dev_readq (csr_base env + off) d), snd (dev_readq (csr_base env + off) d)).
Proof. unfold avmmi_readq, readq. f_equal. apply surjective_pairing. Qed.

Definition read_code (ret : Z) : Prop := ret = 0 \/ ret = - ETIMEDOUT.

Lemma ends_read8 addr : ends (avmmi_read8 env addr) (fun r => read_code (fst r) /\ 0 <= snd r).
Proof.
  apply ends_on_dev. eapply (returns_bind _ _ _ (fun _ => True)).
  { intros d _. by eexists _, _. }
  intros _ _. eapply returns_bind.
  - apply poll_returns; [done|done| | |].
    + intros d v d' E. rewrite readq_run in E. injection E as <- <-. apply readq_time.
    + intros d _. rewrite readq_run. by eexists _, _.
    + intros lo hi d H _. split; [done|]. by apply usleep_time.
  - intros [ret v] Hr. apply returns_ret. cbn [fst snd] in *. split; [unfold read_code; tauto|].
    apply Z.land_nonneg. right. done.
Qed.

Lemma ends_read8s addr n :
  (0 < n)%nat ->
  ends (avmmi_read8s env addr n)
    (fun r => read_code (fst r) /\ 0 <= le_combine (snd r) /\ (fst r = 0 -> length (snd r) = n)).
Proof.
  revert addr. induction n as [|n IH]; intros addr Hn; [lia|]. cbn [avmmi_read8s].
  eapply returns_bind; [apply ends_read8|]. intros [ret v] [Hr Hv]. cbn [fst snd] in *.
  destruct (istrue ret) eqn:Er.
  { apply returns_ret. cbn [fst snd]. split_and!; [done|done|]. intros ->. discriminate. }
  destruct n as [|n].
  - apply returns_ret. cbn [fst snd le_combine length]. split_and!; [by left|lia|done].
  - eapply returns_bind; [apply IH; lia|]. intros [ret2 bs] (Hr2 & Hb & Hl). apply returns_ret.
    cbn [fst snd le_combine length] in *. split_and!; [done|lia|]. intros E. by rewrite (Hl E).
Qed.

Lemma ends_write8s addr bs : ends (avmmi_write8s env addr bs) (fun _ => True).
Proof.
  revert addr. induction bs as [|v bs IH]; intros addr; [by apply returns_ret|]. cbn [avmmi_write8s].
  eapply (returns_bind _ _ _ (fun _ => True)).
  { apply ends_on_dev. intros d _. by eexists _, _. }
  intros ret _. destruct (istrue ret); [by apply returns_ret|]. destruct bs; [by apply returns_ret | apply IH].
Qed.

Lemma ends_udelay us : ends (on_dev (udelay us)) (fun _ => True).
Proof. apply ends_on_dev. intros d _. by eexists _, _. Qed.

(** Rounds that are left when [poll_cnt] microseconds are counted. *)
Definition rounds_left (poll_cnt : Z) : nat := Z.to_nat ((TIMEOUT_US - poll_cnt + 4) / 5).

Lemma rounds_left_step poll_cnt :
  (poll_cnt + POLL_US <? TIMEOUT_US) = true ->
  (rounds_left (poll_cnt + POLL_US) < rounds_left poll_cnt)%nat.
Proof. unfold rounds_left, POLL_US. intros H. boolify. Z.div_mod_to_equations. lia. Qed.

Lemma rounds_start : (rounds_left 0 < Pos.to_nat count_rounds)%nat.
Proof.
  change (rounds_left 0) with (Z.to_nat 2000000). change (Pos.to_nat count_rounds) with (Pos.to_nat 2000001). lia.
Qed.

Lemma ends_request : ends (kwhile (request_round env) count_rounds 0) read_code.
Proof.
  apply returns_while with (left := rounds_left); [|apply rounds_start]. intros poll. unfold request_round.
  eapply returns_bind; [apply ends_read8s; lia|]. intros [ret bs] (Hr & _). cbn [fst snd] in *.
  destruct (istrue ret); [by apply returns_ret|]. destruct (istrue _); [|apply returns_ret; by left].
  eapply returns_bind; [apply ends_udelay|]. intros _ _. apply returns_ret.
  destruct (_ <? _) eqn:E; [by apply rounds_left_step | by right].
Qed.

Lemma ends_response :
  ends (kwhile (response_round env) count_rounds (0, 0))
    (fun r => read_code (fst r) /\ (fst r = 0 -> 0 < snd r)).
Proof.
  apply returns_while with (left := fun a => rounds_left (snd a)); [|apply rounds_start].
  intros [last poll]. unfold response_round.
  eapply returns_bind; [apply ends_read8s; lia|]. intros [ret bs] (Hr & Hb & _). cbn [fst snd] in *.
  destruct (istrue ret) eqn:Er. { apply returns_ret. split; [done|]. cbn [fst]. intros ->. discriminate. }
  destruct (negb (istrue _) || _) eqn:E.
  - eapply returns_bind; [apply ends_udelay|]. intros _ _. apply returns_ret.
    destruct (_ <? _) eqn:E2; [by apply rounds_left_step | split; [by right|discriminate]].
  - apply returns_ret. cbn [fst snd]. split; [by left|]. intros _.
    apply orb_false_elim in E as [E _]. unfold istrue in E. boolify. lia.
Qed.

Definition send_code (rxlen : Z) (r : Z * list Z) : Prop :=
  (0 < fst r <= Z.min MAX_PACKET_SIZE rxlen /\ Z.of_nat (length (snd r)) = fst r) \/
  fst r = - ETIMEDOUT \/ fst r = - ENOMEM.

Lemma ends_send_locked txbuf rxlen : ends (send_locked env txbuf rxlen) (send_code rxlen).
Proof.
  unfold send_locked. eapply returns_bind; [apply ends_write8s|]. intros _ _.
  eapply returns_bind; [apply ends_write8s|]. intros _ _.
  eapply returns_bind; [apply ends_request|]. intros ret Hr.
  assert (forall r : Z, read_code r -> istrue r = true -> send_code rxlen (r, [])) as Hfail.
  { intros r [->| ->] E; [discriminate|]. right. by left. }
  destruct (istrue ret) eqn:Er; [apply returns_ret; by apply Hfail|].
  eapply returns_bind; [apply ends_response|]. intros [ret2 count] [Hr2 Hc]. cbn [fst snd] in *.
  destruct (istrue ret2) eqn:Er2; [apply returns_ret; by apply Hfail|].
  assert (0 < count) as Hpos. { apply Hc. unfold istrue in Er2. by boolify. }
  destruct ((count <=? MAX_PACKET_SIZE) && (count <=? rxlen)) eqn:E.
  - eapply returns_bind; [apply ends_read8s; lia|]. intros [ret3 bs] (Hr3 & _ & Hl). cbn [fst snd] in *.
    destruct (istrue ret3) eqn:Er3; [apply returns_ret; by apply Hfail|].
    eapply returns_bind; [apply ends_write8s|]. intros _ _. apply returns_ret. left. cbn [fst snd]. boolify.
    split; [lia|]. unfold istrue in Er3. boolify. rewrite (Hl Er3). lia.
  - eapply returns_bind; [by apply (returns_ret _ _ (fun r => fst r = 0))|]. intros r ->. change (istrue 0) with false.
    cbv iota. eapply returns_bind; [apply ends_write8s|]. intros _ _. apply returns_ret. right. by right.
Qed.
End Total.

(** A BMC that answers every request with the same sixteen bytes. *)
Definition echo_conf : mbox_conf := MboxConf 0x2000 (fun _ => [0x1c; 0; 1; 0; 0x20; 1; 3; 5; 0; 0; 0; 0; 0; 0; 0; 0xff]) 2 3 4.
Definition quiet_mbox (c : mbox_conf) : mbox := MBox c (Board ∅ Idle) 0 (0, 0%nat) 0.
Definition demo_bmc_env : bmc_env :=
  BmcEnv 0x2000 (fun _ => true) 0 0 (fun _ _ => true) (fun i => Z.of_nat i).
Definition demo_bmc (c : mbox_conf) (p : avmmi_priv) : bmc mbox :=
  Bmc (quiet_mbox c) (Some p) true true (UserMem ∅ (fun _ => false)).

Lemma demo_ready c p :
  c_base c = 0x2000 -> in_time c -> bus_mutex p = false -> ready demo_bmc_env c (demo_bmc c p) p.
Proof.
  intros Hb Ht Hm. constructor; [done..| |done|done]. split_and!; [done| |done|done].
  intros a. cbn. unfold byte_at. rewrite lookup_empty. cbn. lia.
Qed.

(** C8: one exchange with the BMC.  Against every BMC that answers within the
    driver's timeouts, whatever its latencies and its responses, and although
    the count of a response is read one byte at a time while the BMC may store
    it, avmmi_send_one returns the length of the response and exactly its
    bytes, or -ENOMEM when it is longer than a packet or than the caller's
    buffer; the mailbox is then idle again, the mutex free and nothing of the
    driver changed, so that the next exchange goes the same way. *)
Theorem avmmi_send_one_exchanges env c req rxlen (b : bmc mbox) p :
  ready env c b p -> bytes req -> 0 < Z.of_nat (length req) <= MAX_PACKET_SIZE -> well_served c req ->
  exists d', avmmi_send_one env req rxlen b =
      Some (if (Z.of_nat (length (c_serve c req)) <=? MAX_PACKET_SIZE) &&
               (Z.of_nat (length (c_serve c req)) <=? rxlen)
            then (Z.of_nat (length (c_serve c req)), c_serve c req) else (- ENOMEM, []), set_bdev d' b) /\
    ready env c (set_bdev d' b) p.
Proof. apply send_one_run. Qed.

Lemma avmmi_send_one_exchanges_witness :
  avmmi_send_one demo_bmc_env [0x18; 0; 1] 4096 (demo_bmc echo_conf (AvmmiPriv false 0 None)) <> None /\
  exists d', avmmi_send_one demo_bmc_env [0x18; 0; 1] 4096 (demo_bmc echo_conf (AvmmiPriv false 0 None)) =
    Some ((16, c_serve echo_conf []), set_bdev d' (demo_bmc echo_conf (AvmmiPriv false 0 None))) /\
    ready demo_bmc_env echo_conf (set_bdev d' (demo_bmc echo_conf (AvmmiPriv false 0 None))) (AvmmiPriv false 0 None).
Proof.
  split; [vm_compute; discriminate|].
  apply (avmmi_send_one_exchanges demo_bmc_env echo_conf [0x18; 0; 1] 4096).
  - apply demo_ready; [done| |done]. split; vm_compute; discriminate.
  - repeat constructor; discriminate.
  - by vm_compute.
  - split; [repeat constructor; discriminate | by vm_compute].
Defined.

(** C38: An exchange always ends.  Whatever is behind the registers, as long as
    time does not go back and passes while the driver sleeps and delays, and
    called with the bus mutex free, avmmi_send_one returns: the positive length
    of a response that fits the packet and the caller's buffer, with as many
    bytes, or -ETIMEDOUT, -ENOMEM, -EINVAL for a request longer than a packet,
    or -ENODEV before the driver data is set; and on every path the bus mutex
    is free again and the driver's own state as it was. *)
Theorem avmmi_send_one_returns {D} {dev : Mmio D} {clock : Clock D} {ok : ClockOk D} env txbuf rxlen (b : bmc D) :
  (forall p, drvdata b = Some p -> bus_mutex p = false) ->
  exists ret rx d', avmmi_send_one env txbuf rxlen b = Some ((ret, rx), set_bdev d' b) /\
    ((0 < ret <= Z.min MAX_PACKET_SIZE rxlen /\ Z.of_nat (length rx) = ret) \/
     ret = - ETIMEDOUT \/ ret = - ENOMEM \/
     (ret = - EINVAL /\ MAX_PACKET_SIZE < Z.of_nat (length txbuf)) \/
     (ret = - ENODEV /\ drvdata b = None)).
Proof.
  intros Hfree. unfold avmmi_send_one. rewrite (kbind_run (kgets drvdata) _ _ _ _ eq_refl).
  destruct (drvdata b) as [p|] eqn:Hp; cycle 1.
  { exists (- ENODEV), [], (bdev b). split; [by destruct b; simpl in *; subst|]. tauto. }
  destruct (Z.ltb_spec MAX_PACKET_SIZE (Z.of_nat (length txbuf))).
  { exists (- EINVAL), [], (bdev b). split; [by destruct b|]. tauto. }
  specialize (Hfree p eq_refl). rewrite (kbind_run _ _ _ _ _ (bus_lock_run b p Hp Hfree)).
  set (b1 := set_drvdata _ b).
  destruct (ends_send_locked env b1 txbuf rxlen b1) as ([ret rx] & b2 & Hrun & Hcode & d' & ->).
  { exists (bdev b1). by destruct b. }
  rewrite (kbind_run _ _ _ _ _ Hrun).
  rewrite (kbind_run _ _ _ _ _ (bus_unlock_run (set_bdev d' b1) (set_bus_mutex true p) eq_refl eq_refl)).
  exists ret, rx, d'. split; [|unfold send_code in Hcode; cbn [fst snd] in Hcode; tauto].
  unfold kret. do 2 f_equal. unfold b1, set_bdev, set_drvdata. simpl. f_equal. rewrite Hp. f_equal.
  destruct p; simpl in *. by rewrite Hfree.
Qed.

(** A device whose registers always read as zero, with a clock. *)
Definition dead_dev : Type := Z.
#[export] Instance dead_mmio : Mmio dead_dev := {| dev_readq _ t := (0, t); dev_writeq _ _ t := t |}.
#[export] Instance dead_clock : Clock dead_dev :=
  {| ktime_get t := t; dev_usleep_range _ hi t := t + 1000 * hi; dev_udelay us t := t + 1000 * us |}.
#[export] Instance dead_clock_ok : ClockOk dead_dev.
Proof. constructor; simpl; unfold dead_dev; intros; lia. Qed.

Lemma avmmi_send_one_returns_witness :
  exists ret rx d',
    avmmi_send_one demo_bmc_env [0x18; 0; 1] 4096
      (Bmc (0 : dead_dev) (Some (AvmmiPriv false 0 None)) true true (UserMem ∅ (fun _ => false))) =
      Some ((ret, rx), Bmc d' (Some (AvmmiPriv false 0 None)) true true (UserMem ∅ (fun _ => false))) /\
    ((0 < ret <= Z.min MAX_PACKET_SIZE 4096 /\ Z.of_nat (length rx) = ret) \/
     ret = - ETIMEDOUT \/ ret = - ENOMEM \/
     (ret = - EINVAL /\ MAX_PACKET_SIZE < 3) \/
     (ret = - ENODEV /\ Some (AvmmiPriv false 0 None) = None)).
Proof.
  apply (avmmi_send_one_returns demo_bmc_env [0x18; 0; 1] 4096
    (Bmc (0 : dead_dev) (Some (AvmmiPriv false 0 None)) true true (UserMem ∅ (fun _ => false)))).
  intros p [= <-]. reflexivity.
Defined.
