(* ===== verification/BmcSdr.v ===== *)
(** * Reading the sensor records (avmmi-bmc.c)

    avmmi_get_sdr asks the BMC for every record in chunks of SDR_CHUNK_SIZE
    bytes and puts them together in the driver's array. *)

From S2P Require Import Prelude.
From S2P Require Import Mmio.
From S2P Require Import Poll.
From S2P Require Import Layout.
From S2P Require Import UserMem.
From S2P Require Import Bmc.
From S2P Require Import BmcMailbox.
From S2P Require Import BmcSpec.
Local Open Scope string_scope.
Local Open Scope list_scope.
Local Open Scope Z_scope.

(** ** Messages *)

(** The request for [cnt] bytes at [off] of record [id]. *)
Definition sdr_request (seq id off cnt : Z) : list Z :=
  [16; seq mod 256; 33; 0; 0] ++ le_split 2 id ++ [off mod 256; cnt mod 256].

(** A response: header, completion code 0, the id of the next record, data. *)
Definition sdr_response (h : Z * Z * Z) (next : Z) (data : list Z) : list Z :=
  let '(h0, h1, h2) := h in [h0; h1; h2; 0] ++ le_split 2 next ++ data.

(** A record as long as its header says, that fits the driver's structure. *)
Definition record_ok (rec : list Z) : Prop :=
  bytes rec /\ (5 <= length rec <= struct_size full_sensor_record)%nat /\
  Z.of_nat (length rec) = 5 + get sensor_record_header "record_len" rec.

(** The BMC answers for record [id] with the bytes asked for that exist. *)
Definition serves_record (c : mbox_conf) (id next : Z) (rec : list Z) : Prop :=
  forall seq off cnt, 0 <= off < 256 -> 0 <= cnt < 256 ->
  exists h0 h1 h2, bytes [h0; h1; h2] /\
    c_serve c (sdr_request seq id off cnt) =
    sdr_response (h0, h1, h2) next (take (Z.to_nat cnt) (drop (Z.to_nat off) rec)).

(** A chain of records that starts at [id]. *)
Fixpoint serves_chain (c : mbox_conf) (id : Z) (chain : list (list Z)) : Prop :=
  match chain with
  | [] => True
  | rec :: chain =>
      record_ok rec /\ exists next, 0 <= next < 65536 /\ serves_record c id next rec /\ serves_chain c next chain
  end.

(** What the driver stores for a record: at least one chunk. *)
Definition stored (rec : list Z) : list Z := rec ++ repeat 0 (20 - length rec).

Lemma u8_small x : 0 <= x < 256 -> u8 x = x.
Proof. intros H. apply (wrap_small 8). exact H. Qed.

Lemma put_count v seq id off cnt :
  put get_sdr_req "count" v (sdr_request seq id off cnt) = sdr_request seq id off v.
Proof. reflexivity. Qed.

Lemma next_request seq off seq' id off' cnt :
  put get_sdr_req "seq" seq (put get_sdr_req "offset" off (sdr_request seq' id off' cnt)) =
  sdr_request seq id off cnt.
Proof. reflexivity. Qed.

Lemma asked_count seq id off cnt : 0 <= cnt < 256 -> get get_sdr_req "count" (sdr_request seq id off cnt) = cnt.
Proof. intros H. unfold get. cbn. rewrite Z.mod_small by done. lia. Qed.

Lemma asked_offset seq id off cnt : 0 <= off < 256 -> get get_sdr_req "offset" (sdr_request seq id off cnt) = off.
Proof. intros H. unfold get. cbn. rewrite Z.mod_small by done. lia. Qed.

Lemma request_bytes seq id off cnt : bytes (sdr_request seq id off cnt).
Proof.
  unfold sdr_request. apply Forall_app_2; [|apply Forall_app_2; [apply bytes_le_split|]];
    repeat constructor; try lia; apply Z.mod_pos_bound; lia.
Qed.

(** The fields of the response the driver has received. *)
Definition received (h : Z * Z * Z) (next : Z) (data : list Z) : list Z :=
  overlay 0 (sdr_response h next data) (zeroed get_sdr_resp).

Lemma received_data h next data :
  (length data <= 256)%nat ->
  member get_sdr_resp "data" (received h next data) = data ++ repeat 0 (256 - length data).
Proof.
  intros Hl. destruct h as [[h0 h1] h2]. unfold received, member, overlay, zeroed.
  change (member_at get_sdr_resp "data" 0) with (6%nat, 256%nat).
  change (struct_size get_sdr_resp) with 262%nat. rewrite drop_repeat.
  replace (262 - (0 + length (sdr_response (h0, h1, h2) next data)))%nat with (256 - length data)%nat.
  2: { change (length (sdr_response (h0, h1, h2) next data)) with (6 + length data)%nat. lia. }
  change (drop 6 (take 0 (repeat 0 262) ++ sdr_response (h0, h1, h2) next data ++ repeat 0 (256 - length data)))
    with (data ++ repeat 0 (256 - length data)).
  apply take_ge. rewrite length_app, repeat_length. lia.
Qed.

Lemma received_ccode h next data : get get_sdr_resp "ccode" (received h next data) = 0.
Proof. destruct h as [[h0 h1] h2]. reflexivity. Qed.

Lemma received_next h next data :
  0 <= next < 65536 -> get get_sdr_resp "next_record" (received h next data) = next.
Proof.
  intros H. destruct h as [[h0 h1] h2]. unfold get.
  change (member get_sdr_resp "next_record" (received (h0, h1, h2) next data)) with (le_split 2 next).
  by apply le_combine_split.
Qed.

(** ** One chunk *)

Lemma record_len_prefix n rec tl :
  (5 <= n)%nat -> (5 <= length rec)%nat ->
  get sensor_record_header "record_len" (take n rec ++ tl) = get sensor_record_header "record_len" rec.
Proof.
  intros Hn Hl. destruct rec as [|r0 [|r1 [|r2 [|r3 [|r4 rec]]]]]; cbn [length] in Hl; try lia.
  do 5 (destruct n as [|n]; [lia|]). reflexivity.
Qed.

Section Chunks.
Variable env : bmc_env.
Variable c : mbox_conf.
Variable id next : Z.
Variable rec mem : list Z.
Variable slot : nat.
Hypothesis served : serves_record c id next rec.
Hypothesis rec_ok : record_ok rec.
Hypothesis next_range : 0 <= next < 65536.
Hypothesis in_mem : (slot + 80 <= length mem)%nat.
Abbreviation L := (length rec).
Abbreviation pdev := (bmc mbox).

(** The driver with other contents of the array. *)
Definition with_sdrs (m : list Z) (d : mbox) (b : pdev) (p : avmmi_priv) : pdev :=
  set_drvdata (Some (set_sdrs (Some m) p)) (set_bdev d b).

Lemma ready_with_sdrs m d b p :
  ready env c (set_bdev d b) p -> ready env c (with_sdrs m d b p) (set_sdrs (Some m) p).
Proof. intros [H1 H2 H3 H4 H5 H6]. by constructor. Qed.

Lemma memcpy_run off bs m (b : pdev) p :
  drvdata b = Some p -> sdrs p = Some m -> (off + length bs <= length m)%nat ->
  memcpy_sdrs (Z.of_nat off) bs b = Some (tt, set_drvdata (Some (set_sdrs (Some (overlay off bs m)) p)) b).
Proof.
  intros Hp Hm Hl. unfold memcpy_sdrs. simpl. rewrite Hp. simpl. rewrite Hm. simpl.
  rewrite (proj2 (Z.leb_le _ _)) by lia. by rewrite Nat2Z.id.
Qed.

Lemma rec_facts : bytes rec /\ (5 <= L <= 80)%nat /\ Z.of_nat L = 5 + get sensor_record_header "record_len" rec.
Proof. exact rec_ok. Qed.

(** What the BMC sends for a chunk, and what the driver copies of it. *)
Lemma chunk_run seq off cnt (b : pdev) p :
  ready env c b p -> (off < 256)%nat -> (0 < cnt <= 20)%nat ->
  exists ret h d', send_rsp env (sdr_request seq id (Z.of_nat off) (Z.of_nat cnt)) (zeroed get_sdr_resp) b =
    Some ((ret, received h next (take cnt (drop off rec))), set_bdev d' b) /\
    0 < ret /\ ready env c (set_bdev d' b) p.
Proof.
  intros Hr Ho Hc. destruct rec_facts as (Hb & Hl & _).
  destruct (served seq (Z.of_nat off) (Z.of_nat cnt)) as (h0 & h1 & h2 & Hh & Hs); [lia..|].
  rewrite !Nat2Z.id in Hs. set (data := take cnt (drop off rec)) in *.
  assert (length data <= 20)%nat as Hd by (unfold data; rewrite length_take; lia).
  assert (length (sdr_response (h0, h1, h2) next data) = 6 + length data)%nat as Elen by done.
  destruct (send_one_run env c (sdr_request seq id (Z.of_nat off) (Z.of_nat cnt)) 262 b p Hr) as (d' & Hrun & Hr').
  - apply request_bytes.
  - change (length (sdr_request _ _ _ _)) with 9%nat. change MAX_PACKET_SIZE with 1024. lia.
  - unfold well_served. rewrite Hs. rewrite Elen. split; [|lia].
    unfold sdr_response. apply Forall_app_2; [|apply Forall_app_2; [apply bytes_le_split|]].
    + do 3 (inversion_clear Hh as [|? ? ? Hh']; rename Hh' into Hh). repeat constructor; (done || lia).
    + unfold data. by apply Forall_take, Forall_drop.
  - unfold send_rsp. change (Z.of_nat (length (zeroed get_sdr_resp))) with 262.
    rewrite (kbind_run _ _ _ _ _ Hrun). unfold answer. rewrite Hs, Elen. change MAX_PACKET_SIZE with 1024.
    rewrite !(proj2 (Z.leb_le _ _)) by lia. cbn [andb fst snd kret].
    eexists _, (h0, h1, h2), d'. split_and!; [reflexivity|lia|done].
Qed.

Lemma chunks_done n i sdr left req rsp (b : pdev) :
  left <= 0 -> sdr_chunks env n i sdr left req rsp b = Some ((0, rsp), b).
Proof. intros H. destruct n; [done|]. cbn [sdr_chunks]. by rewrite (proj2 (Z.leb_le _ _)) by done. Qed.

Lemma take_stored k : (k <= L)%nat -> take k (stored rec) = take k rec.
Proof. intros H. unfold stored. by rewrite take_app_le. Qed.

Lemma length_stored : length (stored rec) = Nat.max L 20.
Proof. unfold stored. rewrite length_app, repeat_length. lia. Qed.

(** The bytes a round copies, and one round of the loop. *)
Definition piece (off cnt : nat) : list Z := take cnt (drop off rec ++ repeat 0 cnt).

Lemma length_piece off cnt : length (piece off cnt) = cnt.
Proof. unfold piece. rewrite length_take, length_app, repeat_length. lia. Qed.

Lemma piece_received off cnt h :
  (cnt <= 20)%nat ->
  take cnt (member get_sdr_resp "data" (received h next (take cnt (drop off rec)))) = piece off cnt.
Proof.
  intros Hc. rewrite received_data by (rewrite length_take; lia). unfold piece.
  rewrite !take_app, take_take, !take_repeat, length_take. do 2 f_equal; lia.
Qed.

Lemma round_run n i seq off left rsp (b : pdev) p m cnt :
  ready env c b p -> sdrs p = Some m -> 0 < left -> cnt = Z.to_nat (Z.min 20 left) ->
  (slot + off + cnt <= length m)%nat -> (off + cnt < 256)%nat -> (i = 0%nat -> off = 0%nat /\ (5 <= cnt)%nat) ->
  exists rsp' d', sdr_chunks env (S n) (Z.of_nat i) (Z.of_nat slot) left
      (sdr_request seq id (Z.of_nat off) SDR_CHUNK_SIZE) rsp b =
    sdr_chunks env n (Z.of_nat (S i)) (Z.of_nat slot)
      ((if decide (i = 0%nat) then Z.of_nat L else left) - Z.of_nat cnt)
      (sdr_request (u8 (Z.shiftl (Z.of_nat i + 1) 2)) id (Z.of_nat (off + cnt)) (Z.of_nat cnt)) rsp'
      (with_sdrs (overlay (slot + off) (piece off cnt) m) d' b p) /\
    get get_sdr_resp "next_record" rsp' = next /\ ready env c (set_bdev d' b) p.
Proof.
  intros Hr Hm Hleft Hcnt Hfit Hoff Hfirst. destruct rec_facts as (_ & Hl & Hrec).
  cbn [sdr_chunks]. rewrite (proj2 (Z.leb_gt _ _) Hleft). change SDR_CHUNK_SIZE with 20.
  rewrite asked_count by lia. cbv zeta.
  assert ((if left <? 20 then put get_sdr_req "count" left (sdr_request seq id (Z.of_nat off) 20)
           else sdr_request seq id (Z.of_nat off) 20) = sdr_request seq id (Z.of_nat off) (Z.of_nat cnt)) as ->.
  { rewrite put_count. destruct (Z.ltb_spec left 20); f_equal; lia. }
  rewrite asked_count, asked_offset by lia.
  destruct (chunk_run seq off cnt b p Hr) as (ret & h & d1 & Hrun & Hret & Hr1); [lia..|].
  rewrite (kbind_run _ _ _ _ _ Hrun). cbv iota. rewrite (proj2 (Z.ltb_ge ret 0)) by lia.
  rewrite received_ccode. change (istrue 0) with false. cbv iota.
  rewrite Nat2Z.id, piece_received by lia.
  replace (Z.of_nat slot + Z.of_nat off) with (Z.of_nat (slot + off)) by lia.
  rewrite (kbind_run _ _ _ _ _ (memcpy_run (slot + off) (piece off cnt) m (set_bdev d1 b) p (ready_priv _ _ _ _ Hr1) Hm
    ltac:(rewrite length_piece; lia))).
  exists (received h next (take cnt (drop off rec))), d1. split_and!; [|by apply received_next|done].
  rewrite next_request, (u8_small (Z.of_nat off + _)) by lia. f_equal; [lia| |f_equal; lia].
  destruct (decide (i = 0%nat)) as [E|E].
  - destruct (Hfirst E) as [-> H5]. rewrite E. change (Z.of_nat 0 =? 0) with true. cbv iota.
    rewrite received_data by (rewrite length_take; lia). rewrite drop_0, record_len_prefix by lia.
    change (Z.of_nat (struct_size sensor_record_header)) with 5. lia.
  - by rewrite (proj2 (Z.eqb_neq (Z.of_nat i) 0)) by lia.
Qed.

Lemma piece_stored off cnt : (off + cnt <= Nat.max L 20)%nat -> take off (stored rec) ++ piece off cnt = take (off + cnt) (stored rec).
Proof.
  intros H. assert (piece off cnt = take cnt (drop off (stored rec))) as ->; [|by rewrite take_take_drop].
  unfold piece, stored. rewrite drop_app, drop_repeat, !take_app, !take_repeat, length_drop. do 2 f_equal. lia.
Qed.

(** The array when [off] bytes of the record are in place. *)
Definition partly (off : nat) : list Z := overlay slot (take off (stored rec)) mem.

Lemma partly_all off : (Nat.max L 20 <= off)%nat -> partly off = overlay slot (stored rec) mem.
Proof. intros H. unfold partly. rewrite take_ge; [done|]. by rewrite length_stored. Qed.

Lemma partly_piece off cnt :
  (off + cnt <= Nat.max L 20)%nat -> overlay (slot + off) (piece off cnt) (partly off) = partly (off + cnt).
Proof.
  intros H. destruct rec_facts as (_ & Hl & _).
  assert (length (take off (stored rec)) = off) as E by (rewrite length_take, length_stored; lia).
  unfold partly. rewrite <- E at 1. rewrite overlay_overlay by (rewrite E, length_piece; lia).
  by rewrite piece_stored.
Qed.

Lemma length_partly off : length (partly off) = length mem.
Proof.
  destruct rec_facts as (_ & Hl & _). unfold partly. apply length_overlay.
  rewrite length_take, length_stored. lia.
Qed.

(** The loop from round [i] on. *)
Lemma chunks_run n i seq left rsp (b : pdev) p :
  ready env c b p -> sdrs p = Some (partly (20 * i)) -> (i <= 4)%nat -> (L <= 20 * (i + n))%nat ->
  match i with
  | O => left = 80
  | S _ => left = Z.of_nat L - 20 * Z.of_nat i /\ get get_sdr_resp "next_record" rsp = next
  end ->
  exists d' rsp', sdr_chunks env n (Z.of_nat i) (Z.of_nat slot) left
      (sdr_request seq id (Z.of_nat (20 * i)) SDR_CHUNK_SIZE) rsp b =
    Some ((0, rsp'), with_sdrs (overlay slot (stored rec) mem) d' b p) /\
    get get_sdr_resp "next_record" rsp' = next /\ ready env c (set_bdev d' b) p.
Proof.
  destruct rec_facts as (Hb & Hl & _). revert i seq left rsp b p.
  induction n as [|n IH]; intros i seq left rsp b p Hr Hm Hi Hn Hleft.
  all: assert (left <= 0 -> exists d' rsp',
    Some ((0, rsp), b) = Some ((0, rsp'), with_sdrs (overlay slot (stored rec) mem) d' b p) /\
    get get_sdr_resp "next_record" rsp' = next /\ ready env c (set_bdev d' b) p) as Hstop.
  1, 3: intros Hle; destruct i; [lia|]; destruct Hleft as [-> Hnext]; exists (bdev b), rsp;
    rewrite partly_all in Hm by lia; pose proof (ready_priv _ _ _ _ Hr) as Hp; unfold with_sdrs;
    rewrite <- Hm; destruct b, p; simpl in *; subst; auto.
  { destruct i; [lia|]. apply Hstop. lia. }
  destruct (Z.le_gt_cases left 0) as [Hle|Hgt]; [rewrite chunks_done by done; auto|]. clear Hstop.
  set (cnt := Z.to_nat (Z.min 20 left)).
  assert (20 * i + cnt <= Nat.max L 20)%nat as Hcnt by (unfold cnt; destruct i; lia).
  destruct (round_run n i seq (20 * i) left rsp b p (partly (20 * i)) cnt) as (rsp1 & d1 & -> & Hnext & Hr1);
    [done|done|done|done|rewrite length_partly; lia|lia|intros ->; unfold cnt; lia|].
  rewrite partly_piece by done.
  pose proof (ready_with_sdrs (partly (20 * i + cnt)) d1 b p Hr1) as Hr2.
  set (b1 := with_sdrs (partly (20 * i + cnt)) d1 b p) in *. set (p1 := set_sdrs _ p) in *.
  destruct (Nat.eq_dec cnt 20%nat) as [E|E].
  - assert (20 * i + cnt = 20 * S i)%nat as E2 by lia.
    destruct (IH (S i) (u8 (Z.shiftl (Z.of_nat i + 1) 2)) (Z.of_nat L - 20 * Z.of_nat (S i)) rsp1 b1 p1 Hr2)
      as (d2 & rsp2 & Hrun2 & Hn2 & Hr3); [unfold p1; cbn [sdrs set_sdrs]; by rewrite E2|unfold cnt in *; destruct i; lia|lia|done|].
    exists d2, rsp2. split_and!; [|done|by constructor; destruct Hr3, Hr1].
    etrans; [|exact Hrun2]. rewrite E2, E. f_equal. destruct (decide (i = 0%nat)), i; lia || done.
  - exists d1, rsp1. rewrite chunks_done by (unfold cnt in *; destruct (decide (i = 0%nat)), i; lia).
    split_and!; [|done|done]. unfold b1. rewrite partly_all; [done|]. unfold cnt in *. destruct i; lia.
Qed.

(** One record: all of it, at its place, and the id of the next. *)
Lemma get_one_run (b : pdev) p :
  ready env c b p -> sdrs p = Some mem ->
  exists d', avmmi_get_one_sdr env id (Z.of_nat slot) b =
      Some ((0, next), with_sdrs (overlay slot (stored rec) mem) d' b p) /\
    ready env c (set_bdev d' b) p.
Proof.
  intros Hr Hm. destruct rec_facts as (_ & Hl & _). unfold avmmi_get_one_sdr.
  destruct (chunks_run 5 0 0 80 [] b p Hr) as (d' & rsp' & Hrun & Hnext & Hr'); [|lia|lia|done|].
  { unfold partly. by rewrite overlay_empty. }
  rewrite (kbind_run _ _ _ _ _ Hrun). cbn [fst snd]. change (istrue 0) with false. cbv iota.
  rewrite Hnext. by exists d'.
Qed.
End Chunks.

(** ** All records *)

(** The array with the records of [chain] from slot [i] on. *)
Fixpoint fill (i : nat) (chain : list (list Z)) (mem : list Z) : list Z :=
  match chain with
  | [] => mem
  | rec :: chain => fill (S i) chain (overlay (80 * i) (stored rec) mem)
  end.

Lemma stored_fits i rec (mem : list Z) :
  record_ok rec -> (80 * S i <= length mem)%nat -> (80 * i + length (stored rec) <= length mem)%nat.
Proof.
  intros (_ & Hl & _) H. change (struct_size full_sensor_record) with 80%nat in Hl.
  unfold stored. rewrite length_app, repeat_length. lia.
Qed.

Lemma fill_facts c i id chain mem :
  serves_chain c id chain -> (80 * (i + length chain) <= length mem)%nat ->
  length (fill i chain mem) = length mem /\
  (forall x n, (x + n <= 80 * i)%nat -> take n (drop x (fill i chain mem)) = take n (drop x mem)) /\
  (forall k rec, chain !! k = Some rec -> take (length rec) (drop ((i + k) * 80) (fill i chain mem)) = rec).
Proof.
  revert i id mem. induction chain as [|rec chain IH]; intros i id mem Hs Hl; [done|].
  destruct Hs as (Hrec & next & _ & _ & Hs). cbn [length] in Hl. cbn [fill].
  pose proof (stored_fits i rec mem Hrec ltac:(lia)) as Hfit.
  destruct (IH (S i) next (overlay (80 * i) (stored rec) mem) Hs) as (H1 & H2 & H3).
  { rewrite length_overlay by done. lia. }
  rewrite length_overlay in H1 by done. split_and!; [done| |].
  - intros x n Hx. rewrite H2 by lia. apply overlay_outside; [done | by left].
  - intros [|k] r Hk; cbn in Hk.
    + injection Hk as <-. replace ((i + 0) * 80)%nat with (80 * i)%nat by lia.
      destruct Hrec as (_ & Hlen & _). change (struct_size full_sensor_record) with 80%nat in Hlen.
      rewrite H2 by lia.
      pose proof (overlay_inside (80 * i) (stored rec) mem ltac:(lia)) as E.
      apply (f_equal (take (length rec))) in E. rewrite take_take in E.
      unfold stored in E at 1 3. rewrite length_app, take_app_length in E.
      by rewrite Nat.min_l in E by lia.
    + replace (i + S k)%nat with (S i + k)%nat by lia. by apply H3.
Qed.

Lemma get_sdrs_run env c chain i id ret mem (b : bmc mbox) p :
  ready env c b p -> sdrs p = Some mem -> serves_chain c id chain ->
  (80 * (i + length chain) <= length mem)%nat ->
  exists d', get_sdrs env (length chain) (Z.of_nat i) id ret b =
      Some (match chain with [] => ret | _ => 0 end, with_sdrs (fill i chain mem) d' b p) /\
    ready env c (set_bdev d' b) p.
Proof.
  revert i id ret mem b p. induction chain as [|rec chain IH]; intros i id ret mem b p Hr Hm Hs Hl.
  - exists (bdev b). pose proof (ready_priv _ _ _ _ Hr) as Hp. unfold with_sdrs. cbn [fill get_sdrs].
    rewrite <- Hm. split; [|by destruct b]. destruct b, p. simpl in *. by subst.
  - destruct Hs as (Hrec & next & Hnext & Hserve & Hs). cbn [length] in *. cbn [get_sdrs fill].
    change (Z.of_nat (struct_size full_sensor_record)) with 80.
    replace (Z.of_nat i * 80) with (Z.of_nat (80 * i)) by lia.
    destruct (get_one_run env c id next rec mem (80 * i) Hserve Hrec Hnext) with (b := b) (p := p) as (d1 & Hrun & Hr1);
      [lia|done|done|].
    rewrite (kbind_run _ _ _ _ _ Hrun). cbn [fst snd]. change (istrue 0) with false. cbv iota.
    replace (Z.of_nat i + 1) with (Z.of_nat (S i)) by lia.
    pose proof (stored_fits i rec mem Hrec ltac:(lia)) as Hfit.
    destruct (IH (S i) next 0 (overlay (80 * i) (stored rec) mem)
      (with_sdrs (overlay (80 * i) (stored rec) mem) d1 b p) (set_sdrs (Some (overlay (80 * i) (stored rec) mem)) p))
      as (d2 & Hrun2 & Hr2); [by apply ready_with_sdrs|done|done|rewrite length_overlay by done; lia|].
    exists d2. rewrite Hrun2. split; [by destruct chain|]. by constructor; destruct Hr2, Hr1.
Qed.

(** C9: every sensor record is read whole.  When the BMC serves a chain of
    records of at most 80 bytes, each with the id of the next, avmmi_get_sdr
    returns 0 and leaves record i, fetched in chunks of 20 bytes, at the i-th
    place of the driver's array, in full; the mailbox is idle and the mutex
    free again. *)
Theorem avmmi_get_sdr_reads env c chain mem (b : bmc mbox) p :
  ready env c b p -> sdrs p = Some mem -> num_sdr p = Z.of_nat (length chain) ->
  length mem = (length chain * struct_size full_sensor_record)%nat -> chain <> [] -> serves_chain c 0 chain ->
  exists d' mem', avmmi_get_sdr env b = Some (0, with_sdrs mem' d' b p) /\
    ready env c (with_sdrs mem' d' b p) (set_sdrs (Some mem') p) /\ length mem' = length mem /\
    forall i rec, chain !! i = Some rec ->
      take (length rec) (drop (i * struct_size full_sensor_record) mem') = rec.
Proof.
  intros Hr Hm Hn Hl Hne Hs. change (struct_size full_sensor_record) with 80%nat in *.
  destruct (get_sdrs_run env c chain 0 0 (- EINVAL) mem b p Hr Hm Hs) as (d' & Hrun & Hr'); [lia|].
  destruct (fill_facts c 0 0 chain mem Hs) as (H1 & _ & H3); [lia|].
  exists d', (fill 0 chain mem). unfold avmmi_get_sdr.
  rewrite (kbind_run kget _ _ _ _ eq_refl), (ready_priv _ _ _ _ Hr), (kbind_run (deref (Some p)) _ _ _ _ eq_refl).
  rewrite Hn, Nat2Z.id. change 0 with (Z.of_nat 0) at 1. rewrite Hrun. split_and!; [by destruct chain| |done|].
  - by apply ready_with_sdrs.
  - intros i rec Hi. exact (H3 i rec Hi).
Qed.

(** Two records, and a BMC that serves them. *)
Definition demo_record1 : list Z := [1; 0; 0x51; 1; 75] ++ map Z.of_nat (seq 7 75).
Definition demo_record2 : list Z := [2; 0; 0x51; 2; 8; 0x20; 0; 9; 7; 1; 0x7f; 0x68; 1].

Definition demo_serve (req : list Z) : list Z :=
  match req with
  | [_; _; _; _; _; id_lo; id_hi; off; cnt] =>
      if id_lo + 256 * id_hi =? 0
      then sdr_response (0x14, 0, 0x21) 2 (take (Z.to_nat cnt) (drop (Z.to_nat off) demo_record1))
      else sdr_response (0x14, 0, 0x21) 0xffff (take (Z.to_nat cnt) (drop (Z.to_nat off) demo_record2))
  | _ => [0; 0; 0; 0xc1]
  end.
Definition sdr_conf : mbox_conf := MboxConf 0x2000 demo_serve 0 1 2.

Lemma bytes_of_bool l : forallb (fun v => (0 <=? v) && (v <? 256)) l = true -> bytes l.
Proof. rewrite forallb_forall. intros H. apply List.Forall_forall. intros x Hx. specialize (H x Hx). lia. Qed.

Lemma demo_chain : serves_chain sdr_conf 0 [demo_record1; demo_record2].
Proof.
  assert (forall rec, rec = demo_record1 \/ rec = demo_record2 -> record_ok rec) as Hok.
  { intros rec [->| ->]; (split; [by apply bytes_of_bool|split; [vm_compute; lia|reflexivity]]). }
  split; [auto|]. exists 2. split; [lia|]. split.
  - intros sq off cnt Ho Hc. exists 0x14, 0, 0x21. split; [repeat constructor; lia|].
    change (c_serve sdr_conf (sdr_request sq 0 off cnt)) with (sdr_response (0x14, 0, 0x21) 2
      (take (Z.to_nat (cnt mod 256)) (drop (Z.to_nat (off mod 256)) demo_record1))).
    by rewrite !Z.mod_small by lia.
  - split; [auto|]. exists 0xffff. split; [lia|]. split; [|done].
    intros sq off cnt Ho Hc. exists 0x14, 0, 0x21. split; [repeat constructor; lia|].
    change (c_serve sdr_conf (sdr_request sq 2 off cnt)) with (sdr_response (0x14, 0, 0x21) 0xffff
      (take (Z.to_nat (cnt mod 256)) (drop (Z.to_nat (off mod 256)) demo_record2))).
    by rewrite !Z.mod_small by lia.
Qed.

Definition sdr_priv : avmmi_priv := AvmmiPriv false 2 (Some (repeat 0 160)).

Lemma avmmi_get_sdr_reads_witness :
  exists d' mem', avmmi_get_sdr demo_bmc_env (demo_bmc sdr_conf sdr_priv) =
      Some (0, with_sdrs mem' d' (demo_bmc sdr_conf sdr_priv) sdr_priv) /\
    ready demo_bmc_env sdr_conf (with_sdrs mem' d' (demo_bmc sdr_conf sdr_priv) sdr_priv) (set_sdrs (Some mem') sdr_priv) /\
    length mem' = 160%nat /\
    forall i rec, [demo_record1; demo_record2] !! i = Some rec ->
      take (length rec) (drop (i * struct_size full_sensor_record) mem') = rec.
Proof.
  apply (avmmi_get_sdr_reads demo_bmc_env sdr_conf [demo_record1; demo_record2] (repeat 0 160)).
  - apply demo_ready; [done| |done]. split; vm_compute; discriminate.
  - reflexivity.
  - reflexivity.
  - reflexivity.
  - discriminate.
  - apply demo_chain.
Defined.

(** A record longer than the structure: the rounding of [sdr_loops] allows a
    fifth chunk, which goes past the last slot of the array. *)
Definition long_record : list Z := [1; 0; 0x51; 1; 90] ++ repeat 7 90.
Definition long_conf : mbox_conf :=
  MboxConf 0x2000 (fun req => sdr_response (0x14, 0, 0x21) 0xffff
    (take (Z.to_nat (get get_sdr_req "count" req)) (drop (Z.to_nat (get get_sdr_req "offset" req)) long_record))) 0 1 2.

Lemma long_record_overruns :
  sdr_loops = 5 /\
  avmmi_get_sdr demo_bmc_env (demo_bmc long_conf (AvmmiPriv false 1 (Some (repeat 0 80)))) = None.
Proof. by vm_compute. Qed.
