(* ===== verification/Iopll.v ===== *)
(** * The user clock of the PAC (drivers/fpga/intel/intel-fpga-pac-iopll.c)

    The IOPLL is reconfigured through one command register: a command carries
    a sequence number, which the status register repeats when the command is
    done.  The file holds the register layouts, the commands, the encoding of
    a configuration, reset and calibration, and the attribute "frequency". *)

From S2P Require Import Prelude.
From S2P Require Import Bitfield.
From S2P Require Import Mmio.
From S2P Require Import Loops.
From S2P Require Import Poll.
From S2P Require Import UserMem.
From S2P Require Import Sysfs.
From S2P Require Import Layout.
Local Open Scope string_scope.
Local Open Scope list_scope.
Local Open Scope Z_scope.

(** ** Constants *)

Definition IOPLL_WRITE_POLL_INVL_US : Z := 10.
Definition IOPLL_WRITE_POLL_TIMEOUT_US : Z := 1000000.

Definition CFG_PLL_M_HIGH_SHIFT : Z := 8.
Definition CFG_PLL_M_BYPASS_EN_SHIFT : Z := 16.
Definition CFG_PLL_M_EVEN_DUTY_EN_SHIFT : Z := 17.
Definition CFG_PLL_M_EVEN_DUTY_EN_MASK : Z := 0x01.
Definition PLL_M_HIGH_ADDR : Z := 0x104.
Definition PLL_M_HIGH_MASK : Z := 0xFF.
Definition PLL_M_LOW_ADDR : Z := 0x107.
Definition PLL_M_LOW_MASK : Z := 0xFF.
Definition PLL_M_BYPASS_EN_ADDR : Z := 0x105.
Definition PLL_M_BYPASS_EN_MASK : Z := 0x01.
Definition PLL_M_EVEN_DUTY_EN_ADDR : Z := 0x106.
Definition PLL_M_EVEN_DUTY_EN_SHIFT : Z := 7.

Definition CFG_PLL_N_HIGH_SHIFT : Z := 8.
Definition CFG_PLL_N_BYPASS_EN_SHIFT : Z := 16.
Definition CFG_PLL_N_EVEN_DUTY_EN_SHIFT : Z := 17.
Definition CFG_PLL_N_EVEN_DUTY_EN_MASK : Z := 0x01.
Definition PLL_N_HIGH_ADDR : Z := 0x100.
Definition PLL_N_HIGH_MASK : Z := 0xFF.
Definition PLL_N_LOW_ADDR : Z := 0x102.
Definition PLL_N_LOW_MASK : Z := 0xFF.
Definition PLL_N_BYPASS_EN_ADDR : Z := 0x101.
Definition PLL_N_BYPASS_EN_MASK : Z := 0x01.
Definition PLL_N_EVEN_DUTY_EN_SHIFT : Z := 7.

Definition CFG_PLL_C0_HIGH_SHIFT : Z := 8.
Definition CFG_PLL_C0_BYPASS_EN_SHIFT : Z := 16.
Definition CFG_PLL_C0_EVEN_DUTY_EN_SHIFT : Z := 17.
Definition CFG_PLL_C0_EVEN_DUTY_EN_MASK : Z := 0x01.
Definition PLL_C0_HIGH_ADDR : Z := 0x11b.
Definition PLL_C0_HIGH_MASK : Z := 0xFF.
Definition PLL_C0_LOW_ADDR : Z := 0x11e.
Definition PLL_C0_LOW_MASK : Z := 0xFF.
Definition PLL_C0_BYPASS_EN_ADDR : Z := 0x11c.
Definition PLL_C0_BYPASS_EN_MASK : Z := 0x01.
Definition PLL_C0_EVEN_DUTY_EN_ADDR : Z := 0x11d.
Definition PLL_C0_EVEN_DUTY_EN_SHIFT : Z := 7.

Definition CFG_PLL_C1_HIGH_SHIFT : Z := 8.
Definition CFG_PLL_C1_BYPASS_EN_SHIFT : Z := 16.
Definition CFG_PLL_C1_EVEN_DUTY_EN_SHIFT : Z := 17.
Definition CFG_PLL_C1_EVEN_DUTY_EN_MASK : Z := 0x01.
Definition PLL_C1_HIGH_ADDR : Z := 0x11f.
Definition PLL_C1_HIGH_MASK : Z := 0xFF.
Definition PLL_C1_LOW_ADDR : Z := 0x122.
Definition PLL_C1_LOW_MASK : Z := 0xFF.
Definition PLL_C1_BYPASS_EN_ADDR : Z := 0x120.
Definition PLL_C1_BYPASS_EN_MASK : Z := 0x01.
Definition PLL_C1_EVEN_DUTY_EN_ADDR : Z := 0x121.
Definition PLL_C1_EVEN_DUTY_EN_SHIFT : Z := 7.

Definition CFG_PLL_CP1_MASK : Z := 0x07.
Definition PLL_CP1_SHIFT : Z := 4.
Definition CFG_PLL_CP2_SHIFT : Z := 3.
Definition CFG_PLL_CP2_MASK : Z := 0x07.
Definition PLL_CP2_ADDR : Z := 0x10d.
Definition PLL_CP2_SHIFT : Z := 5.
Definition CFG_PLL_LF_SHIFT : Z := 6.
Definition CFG_PLL_LF_MASK : Z := 0xFF.
Definition PLL_LF_ADDR : Z := 0x10a.
Definition PLL_LF_SHIFT : Z := 3.
Definition CFG_PLL_RC_MASK : Z := 0x03.
Definition PLL_RC_SHIFT : Z := 1.

Definition PLL_REQUEST_CAL_ADDR : Z := 0x149.
Definition PLL_REQUEST_CALIBRATION : Z := 2 ^ 6.
Definition PLL_ENABLE_CAL_ADDR : Z := 0x14a.
Definition PLL_ENABLE_CALIBRATION : Z := 0x03.
Definition IOPLL_MEASURE_LOW : Z := 0.
Definition IOPLL_MEASURE_HIGH : Z := 1.
Definition IOPLL_MEASURE_DELAY_MS : Z := 4.
Definition IOPLL_RESET_DELAY_MS : Z := 1.
Definition IOPLL_CAL_DELAY_MS : Z := 1.
Definition FREQ_IN_KHZ (freq : Z) : Z := u32 (freq * 10).
Definition IOPLL_MAX_FREQ : Z := 800.
Definition IOPLL_MIN_FREQ : Z := 1.

(** ** Registers *)

Definition iopll_freq_cmd0 : reg := Reg [("data", 32); ("address", 10); ("rsvd1", 2); ("do_write", 1);
  ("rsvd2", 3); ("sequence_no", 2); ("rsvd3", 2); ("reset_n", 1); ("rsvd4", 3); ("management_reset", 1);
  ("iopll_reset", 1); ("rsvd5", 6)].
Definition iopll_freq_cmd1 : reg := Reg [("rsvd1", 32); ("clk_measure", 1); ("rsvd2", 31)].
Definition iopll_freq_sts0 : reg := Reg [("data", 32); ("address", 10); ("rsvd1", 2); ("do_write", 1);
  ("rsvd2", 3); ("sequence_no", 2); ("rsvd3", 2); ("reset_n", 1); ("rsvd4", 3); ("management_reset", 1);
  ("iopll_reset", 1); ("rsvd5", 2); ("locked", 1); ("rsvd6", 2); ("mmmach_error", 1)].
Definition iopll_freq_sts1 : reg := Reg [("frequency", 17); ("rsvd1", 15); ("clk_measure", 1);
  ("rsvd2", 27); ("version", 4)].
Definition port_iopll_regs : block := Block [("iopll_cmd0", 8); ("iopll_cmd1", 8); ("iopll_sts0", 8);
  ("iopll_sts1", 8)].

(** The buffer that is written to the attribute. *)
Definition pll_config : layout := [("pll_freq_khz", 4%nat); ("pll_m", 4%nat); ("pll_n", 4%nat);
  ("pll_c1", 4%nat); ("pll_c0", 4%nat); ("pll_lf", 4%nat); ("pll_cp", 4%nat); ("pll_rc", 4%nat)].

(** ** State *)

(** The device, its driver data, and whether its attributes are in sysfs. *)
Record pac_iopll (D : Type) := PacIopll { idev : D; iopll_mutex : option bool; userclk_on : bool }.
Arguments PacIopll {D}. Arguments idev {D}. Arguments iopll_mutex {D}. Arguments userclk_on {D}.

Definition set_idev {D} (d : D) (p : pac_iopll D) := PacIopll d (iopll_mutex p) (userclk_on p).
Definition set_iopll_mutex {D} m (p : pac_iopll D) := PacIopll (idev p) m (userclk_on p).
Definition set_userclk {D} on (p : pac_iopll D) := PacIopll (idev p) (iopll_mutex p) on.

(** What the platform and the kernel answer, and what an uninitialised local
    variable holds. *)
Record iopll_env := IopllEnv {
  iopll_csr_base : option Z;        (* the platform data *)
  iopll_alloc : bool;
  iopll_group_ret : Z;
  iopll_stack : Z;
}.

Section Iopll.
Context {D : Type} {dev : Mmio D} {clock : Clock D}.
Variable env : iopll_env.
Variable base : Z.

Definition iopll_at (n : string) : Z := base + offsetof port_iopll_regs n.

(** ** Reset and measurement *)

Definition iopll_reset : K D Z :=
  let set n v c := fset iopll_freq_cmd0 n v c in
  let cmd := set "reset_n" 0 (set "management_reset" 1 (set "iopll_reset" 1 0)) in
  writeq cmd (iopll_at "iopll_cmd0") ;;
  msleep IOPLL_RESET_DELAY_MS ;;
  let cmd := set "iopll_reset" 0 cmd in
  writeq cmd (iopll_at "iopll_cmd0") ;;
  msleep IOPLL_RESET_DELAY_MS ;;
  let cmd := set "reset_n" 1 (set "management_reset" 0 cmd) in
  writeq cmd (iopll_at "iopll_cmd0") ;;
  msleep IOPLL_RESET_DELAY_MS ;;
  sts <- readq (iopll_at "iopll_sts0") ;;
  kret (if fget iopll_freq_sts0 "locked" sts =? 0 then - EBUSY else 0).

(** The result, and the frequency when it is 0. *)
Definition iopll_read_freq (clock_sel : Z) : K D (Z * Z) :=
  sts <- readq (iopll_at "iopll_sts0") ;;
  if fget iopll_freq_sts0 "locked" sts =? 0 then kret (- EBUSY, 0)
  else
    writeq (fset iopll_freq_cmd1 "clk_measure" clock_sel 0) (iopll_at "iopll_cmd1") ;;
    msleep IOPLL_MEASURE_DELAY_MS ;;
    sts <- readq (iopll_at "iopll_sts1") ;;
    kret (0, fget iopll_freq_sts1 "frequency" sts).

(** ** Commands *)

(** The command register over the bits [csr] that are not set. *)
Definition command (csr address data do_write seq : Z) : Z :=
  let set n v c := fset iopll_freq_cmd0 n v c in
  set "iopll_reset" 0 (set "management_reset" 0 (set "reset_n" 1 (set "sequence_no" seq
    (set "do_write" do_write (set "address" address (set "data" data csr)))))).

(** Until the status repeats the number of the command. *)
Definition await_sequence (seq : Z) : K D (Z * Z) :=
  readx_poll_timeout (readq (iopll_at "iopll_sts0"))
    (fun sts => fget iopll_freq_sts0 "sequence_no" sts =? seq)
    IOPLL_WRITE_POLL_INVL_US IOPLL_WRITE_POLL_TIMEOUT_US.

Definition iopll_write (address data seq : Z) : K D Z :=
  let seq := Z.land seq 0x3 in
  writeq (command 0 address data 1 seq) (iopll_at "iopll_cmd0") ;;
  r <- await_sequence seq ;;
  kret (fst r).

(** The result, and the data when it is 0. *)
Definition iopll_read (address seq : Z) : K D (Z * Z) :=
  let seq := Z.land seq 0x3 in
  writeq (command (iopll_stack env) address 0 0 seq) (iopll_at "iopll_cmd0") ;;
  r <- await_sequence seq ;;
  kret (fst r, fget iopll_freq_sts0 "data" (snd r)).

(** Writes one after the other until one fails; the result and [*seq], which
    every write increments. *)
Fixpoint iopll_writes (l : list (Z * Z)) (seq : Z) : K D (Z * Z) :=
  match l with
  | [] => kret (0, seq)
  | (address, data) :: l =>
      ret <- iopll_write address data seq ;;
      if istrue ret then kret (ret, u8 (seq + 1)) else iopll_writes l (u8 (seq + 1))
  end.

(** ** The configuration *)

Definition m_words (cfg : Z) : list (Z * Z) :=
  [(PLL_M_HIGH_ADDR, Z.land (Z.shiftr cfg CFG_PLL_M_HIGH_SHIFT) PLL_M_HIGH_MASK);
   (PLL_M_LOW_ADDR, Z.land cfg PLL_M_LOW_MASK);
   (PLL_M_BYPASS_EN_ADDR, Z.land (Z.shiftr cfg CFG_PLL_M_BYPASS_EN_SHIFT) PLL_M_BYPASS_EN_MASK);
   (PLL_M_EVEN_DUTY_EN_ADDR,
    Z.shiftl (Z.land (Z.shiftr cfg CFG_PLL_M_EVEN_DUTY_EN_SHIFT) CFG_PLL_M_EVEN_DUTY_EN_MASK)
      PLL_M_EVEN_DUTY_EN_SHIFT)].
Definition iopll_m_write (cfg_pll_m seq : Z) : K D (Z * Z) := iopll_writes (m_words cfg_pll_m) seq.

Definition n_words (cfg cp : Z) : list (Z * Z) :=
  [(PLL_N_HIGH_ADDR, Z.land (Z.shiftr cfg CFG_PLL_N_HIGH_SHIFT) PLL_N_HIGH_MASK);
   (PLL_N_LOW_ADDR, Z.land cfg PLL_N_LOW_MASK);
   (PLL_N_BYPASS_EN_ADDR,
    Z.lor (Z.lor
      (Z.shiftl (Z.land (Z.shiftr cfg CFG_PLL_N_EVEN_DUTY_EN_SHIFT) CFG_PLL_N_EVEN_DUTY_EN_MASK)
        PLL_N_EVEN_DUTY_EN_SHIFT)
      (Z.shiftl (Z.land cp CFG_PLL_CP1_MASK) PLL_CP1_SHIFT))
      (Z.land (Z.shiftr cfg CFG_PLL_N_BYPASS_EN_SHIFT) PLL_N_BYPASS_EN_MASK))].
Definition iopll_n_write (cfg_pll_n cfg_pll_cp seq : Z) : K D (Z * Z) :=
  iopll_writes (n_words cfg_pll_n cfg_pll_cp) seq.

Definition c0_words (cfg : Z) : list (Z * Z) :=
  [(PLL_C0_HIGH_ADDR, Z.land (Z.shiftr cfg CFG_PLL_C0_HIGH_SHIFT) PLL_C0_HIGH_MASK);
   (PLL_C0_LOW_ADDR, Z.land cfg PLL_C0_LOW_MASK);
   (PLL_C0_BYPASS_EN_ADDR, Z.land (Z.shiftr cfg CFG_PLL_C0_BYPASS_EN_SHIFT) PLL_C0_BYPASS_EN_MASK);
   (PLL_C0_EVEN_DUTY_EN_ADDR,
    Z.shiftl (Z.land (Z.shiftr cfg CFG_PLL_C0_EVEN_DUTY_EN_SHIFT) CFG_PLL_C0_EVEN_DUTY_EN_MASK)
      PLL_C0_EVEN_DUTY_EN_SHIFT)].
Definition iopll_c0_write (cfg_pll_c0 seq : Z) : K D (Z * Z) := iopll_writes (c0_words cfg_pll_c0) seq.

Definition c1_words (cfg : Z) : list (Z * Z) :=
  [(PLL_C1_HIGH_ADDR, Z.land (Z.shiftr cfg CFG_PLL_C1_HIGH_SHIFT) PLL_C1_HIGH_MASK);
   (PLL_C1_LOW_ADDR, Z.land cfg PLL_C1_LOW_MASK);
   (PLL_C1_BYPASS_EN_ADDR, Z.land (Z.shiftr cfg CFG_PLL_C1_BYPASS_EN_SHIFT) PLL_C1_BYPASS_EN_MASK);
   (PLL_C1_EVEN_DUTY_EN_ADDR,
    Z.shiftl (Z.land (Z.shiftr cfg CFG_PLL_C1_EVEN_DUTY_EN_SHIFT) CFG_PLL_C1_EVEN_DUTY_EN_MASK)
      PLL_C1_EVEN_DUTY_EN_SHIFT)].
Definition iopll_c1_write (cfg_pll_c1 seq : Z) : K D (Z * Z) := iopll_writes (c1_words cfg_pll_c1) seq.

(** [c], and [k] when it succeeded. *)
Definition then_seq (c : K D (Z * Z)) (k : Z -> K D (Z * Z)) : K D (Z * Z) :=
  r <- c ;; if istrue (fst r) then kret r else k (snd r).

Definition iopll_set_freq (config : list Z) (seq : Z) : K D (Z * Z) :=
  let cfg n := get pll_config n config in
  then_seq (iopll_m_write (cfg "pll_m") seq) (fun seq =>
  then_seq (iopll_n_write (cfg "pll_n") (cfg "pll_cp") seq) (fun seq =>
  then_seq (iopll_c0_write (cfg "pll_c0") seq) (fun seq =>
  then_seq (iopll_c1_write (cfg "pll_c1") seq) (fun seq =>
  iopll_writes
    [(PLL_CP2_ADDR, Z.shiftl (Z.land (Z.shiftr (cfg "pll_cp") CFG_PLL_CP2_SHIFT) CFG_PLL_CP2_MASK) PLL_CP2_SHIFT);
     (PLL_LF_ADDR,
      Z.lor (Z.shiftl (Z.land (Z.shiftr (cfg "pll_lf") CFG_PLL_LF_SHIFT) CFG_PLL_LF_MASK) PLL_LF_SHIFT)
        (Z.shiftl (Z.land (cfg "pll_rc") CFG_PLL_RC_MASK) PLL_RC_SHIFT))] seq)))).

Definition iopll_calibrate (seq : Z) : K D Z :=
  r <- iopll_read PLL_REQUEST_CAL_ADDR seq ;;
  let '(ret, status) := r in
  if istrue ret then kret ret
  else
    ret <- iopll_write PLL_REQUEST_CAL_ADDR (Z.lor status PLL_REQUEST_CALIBRATION) (u8 (seq + 1)) ;;
    if istrue ret then kret ret
    else
      ret <- iopll_write PLL_ENABLE_CAL_ADDR PLL_ENABLE_CALIBRATION (u8 (u8 (seq + 1) + 1)) ;;
      msleep IOPLL_CAL_DELAY_MS ;;
      kret ret.

(** ** The attribute, probe and remove *)

Abbreviation pdev := (pac_iopll D).
Definition on_idev {A} (c : K D A) : K pdev A := zoom idev set_idev c.

Definition iopll_lock : K pdev unit :=
  p <- kget ;; locked <- deref (iopll_mutex p) ;;
  if locked : bool then oops else kput (set_iopll_mutex (Some true) p).
Definition iopll_unlock : K pdev unit :=
  p <- kget ;; locked <- deref (iopll_mutex p) ;;
  if locked : bool then kput (set_iopll_mutex (Some false) p) else oops.

Definition frequency_show : K pdev (Z + string) :=
  iopll_lock ;;
  high <- on_idev (iopll_read_freq IOPLL_MEASURE_HIGH) ;;
  low <- (if istrue (fst high) then kret (fst high, 0) else on_idev (iopll_read_freq IOPLL_MEASURE_LOW)) ;;
  iopll_unlock ;;
  kret (if istrue (fst low) then inl (fst low)
        else inr (fmt_d (FREQ_IN_KHZ (snd low)) ++ " " ++ line_d (FREQ_IN_KHZ (snd high)))%string).

(** The part under the mutex. *)
Definition store_config (config : list Z) : K D Z :=
  r <- iopll_set_freq config 1 ;;
  if istrue (fst r) then kret (fst r)
  else
    err <- iopll_reset ;;
    if istrue err then kret err else iopll_calibrate (snd r).

(** [buf] holds [count] bytes. *)
Definition frequency_store (buf : list Z) : K pdev Z :=
  let count := Z.of_nat (length buf) in
  if negb (count =? Z.of_nat (struct_size pll_config)) then kret (- EINVAL)
  else if (IOPLL_MAX_FREQ * 1000 <? get pll_config "pll_freq_khz" buf) ||
          (get pll_config "pll_freq_khz" buf <? IOPLL_MIN_FREQ * 1000) then kret (- EINVAL)
  else
    iopll_lock ;;
    err <- on_idev (store_config buf) ;;
    iopll_unlock ;;
    kret (if istrue err then err else count).
End Iopll.

Definition intel_pac_iopll_probe {D} (env : iopll_env) : K (pac_iopll D) Z :=
  match iopll_csr_base env with
  | None => kret (- ENODEV)
  | Some _ =>
      if negb (iopll_alloc env) then kret (- ENOMEM)
      else
        kmod (set_iopll_mutex (Some false)) ;;
        kmod (set_userclk (iopll_group_ret env =? 0)) ;;
        kret (iopll_group_ret env)
  end.

Definition intel_pac_iopll_remove {D} : K (pac_iopll D) Z :=
  p <- kget ;;
  deref (iopll_mutex p) ;;
  kmod (set_userclk false) ;;
  kret 0.
