(* ===== verification/IopllSpec.v ===== *)
(** * Theorems about the user clock (intel-fpga-pac-iopll.c)

    The reconfiguration block behind the command register takes a command when
    its sequence number differs from that of the last one it has done, works on
    it for some time, and repeats the number when it is done; a command that
    arrives earlier replaces the one in progress.  Against every such block, a
    write to "frequency" leaves the counters of the PLL decoding to exactly the
    configuration that was written. *)

From S2P Require Import Prelude.
From S2P Require Import Bitfield.
From S2P Require Import Registers.
From S2P Require Import Mmio.
From S2P Require Import Loops.
From S2P Require Import Poll.
From S2P Require Import UserMem.
From S2P Require Import Layout.
From S2P Require Import Iopll.
Local Open Scope string_scope.
Local Open Scope list_scope.
Local Open Scope Z_scope.

(** ** The block *)

(** [pll_regs] are the registers of the PLL, [acked] the number of the last
    command done, [pend] a command in progress with the ticks it still needs. *)
Record pll := Pll {
  pll_base : Z; pll_regs : Z -> Z; acked : Z; sdata : Z; pend : option (Z * nat);
  latency : nat; locked : bool; pll_ns : Z;
}.

Definition upd (a v : Z) (r : Z -> Z) : Z -> Z := fun x => if x =? a then v else r x.

Definition set_pend c d := Pll (pll_base d) (pll_regs d) (acked d) (sdata d) c (latency d) (locked d) (pll_ns d).
Definition reset_block d := Pll (pll_base d) (pll_regs d) 0 (sdata d) None (latency d) (locked d) (pll_ns d).

Definition perform (cmd : Z) (d : pll) : pll :=
  let f n := fget iopll_freq_cmd0 n cmd in
  let r := if f "do_write" =? 1 then upd (f "address") (f "data") (pll_regs d) else pll_regs d in
  Pll (pll_base d) r (f "sequence_no") (r (f "address")) None (latency d) (locked d) (pll_ns d).

Definition pll_tick (d : pll) : pll :=
  match pend d with
  | None => d
  | Some (cmd, S n) => set_pend (Some (cmd, n)) d
  | Some (cmd, O) => perform cmd d
  end.
Definition pll_sleep (us : Z) (d : pll) : pll :=
  let d := pll_tick d in
  Pll (pll_base d) (pll_regs d) (acked d) (sdata d) (pend d) (latency d) (locked d) (pll_ns d + 1000 * us).

Definition status (d : pll) : Z :=
  fset iopll_freq_sts0 "locked" (if locked d then 1 else 0)
    (fset iopll_freq_sts0 "sequence_no" (acked d) (fset iopll_freq_sts0 "data" (sdata d) 0)).

#[export] Instance pll_mmio : Mmio pll := {|
  dev_readq a d := (if a =? pll_base d + offsetof port_iopll_regs "iopll_sts0" then status d else 0, d);
  dev_writeq a v d :=
    if a =? pll_base d + offsetof port_iopll_regs "iopll_cmd0" then
      if istrue (fget iopll_freq_cmd0 "management_reset" v) then reset_block d
      else if fget iopll_freq_cmd0 "sequence_no" v =? acked d then d
      else set_pend (Some (v, latency d)) d
    else d;
|}.
#[export] Instance pll_clock : Clock pll := {|
  ktime_get d := pll_ns d;
  dev_usleep_range lo hi d := pll_sleep hi d;
  dev_udelay us d := pll_sleep us d;
|}.

(** The block at another time. *)
Definition at_time (ns : Z) (d : pll) : pll :=
  Pll (pll_base d) (pll_regs d) (acked d) (sdata d) (pend d) (latency d) (locked d) ns.

(** ** Commands *)

Lemma cmd_wf : struct_wf iopll_freq_cmd0 = true. Proof. reg_tac. Qed.
Lemma sts_wf : struct_wf iopll_freq_sts0 = true. Proof. reg_tac. Qed.

Ltac fields :=
  repeat first
    [ rewrite fget_fset_same by (exact cmd_wf || exact sts_wf || reflexivity)
    | rewrite fget_fset_other by (exact cmd_wf || exact sts_wf || discriminate) ].

Lemma command_fields csr address data w seq :
  0 <= address < 1024 -> 0 <= data < 2 ^ 32 -> 0 <= w < 2 -> 0 <= seq < 4 ->
  let f n := fget iopll_freq_cmd0 n (command csr address data w seq) in
  f "address" = address /\ f "data" = data /\ f "do_write" = w /\ f "sequence_no" = seq /\
  f "management_reset" = 0.
Proof.
  intros Ha Hd Hw Hs. cbv zeta beta. unfold command. cbv zeta.
  split_and!; fields; first [apply wrap_small; assumption | reflexivity].
Qed.

Lemma status_sequence d : 0 <= acked d < 4 -> fget iopll_freq_sts0 "sequence_no" (status d) = acked d.
Proof. intros H. unfold status. fields. by apply wrap_small. Qed.
Lemma status_data d : fget iopll_freq_sts0 "data" (status d) = u32 (sdata d).
Proof. unfold status. by fields. Qed.
Lemma status_locked d : fget iopll_freq_sts0 "locked" (status d) = if locked d then 1 else 0.
Proof. unfold status. fields. by destruct (locked d). Qed.

Section Commands.
Variable base : Z.

Lemma read_status d : pll_base d = base -> readq (iopll_at base "iopll_sts0") d = Some (status d, d).
Proof. intros <-. unfold readq, iopll_at. cbn [dev_readq pll_mmio]. by rewrite Z.eqb_refl. Qed.

(** Waiting for a command that is in progress: it is done when the wait ends. *)
Lemma await_run cmd d :
  pll_base d = base -> Z.of_nat (latency d) <= 100000 -> pend d = Some (cmd, latency d) -> 0 <= acked d < 4 ->
  fget iopll_freq_cmd0 "sequence_no" cmd <> acked d ->
  exists ns, await_sequence base (fget iopll_freq_cmd0 "sequence_no" cmd) d =
    Some ((0, status (at_time ns (perform cmd d))), at_time ns (perform cmd d)).
Proof.
  intros Hb Hlat Hp Ha Hne. unfold await_sequence. set (seq := fget _ _ cmd) in *.
  assert (0 <= seq < 4) as Hseq by (apply (fget_range iopll_freq_cmd0 "sequence_no"); exact cmd_wf).
  destruct (poll_ticks (readq (iopll_at base "iopll_sts0")) (fun sts => fget iopll_freq_sts0 "sequence_no" sts =? seq)
    (fun k d1 => exists ns,
       d1 = at_time ns match k with O => perform cmd d | S m => set_pend (Some (cmd, m)) d end)
    status IOPLL_WRITE_POLL_INVL_US IOPLL_WRITE_POLL_TIMEOUT_US (S (latency d)) d) as (d' & Hrun & ns & ->).
  - done.
  - done.
  - intros k d1 [ns ->]. split; [by apply read_status; destruct k|]. destruct k as [|k].
    + rewrite status_sequence by exact Hseq. by apply Z.eqb_eq.
    + rewrite status_sequence by exact Ha. apply Z.eqb_neq. cbn [acked at_time set_pend]. congruence.
  - intros k d1 [ns ->]. by destruct k; (split; [exists (ns + 10000)|]).
  - exists (pll_ns d). destruct d; simpl in *; by subst.
  - unfold IOPLL_WRITE_POLL_INVL_US, IOPLL_WRITE_POLL_TIMEOUT_US. lia.
  - by exists ns.
Qed.

Variable d0 : pll.
Hypothesis in_time : Z.of_nat (latency d0) <= 100000.

(** The block of [d0] with registers [r], ready for a command; the last one
    was number [q]. *)
Definition waiting (q : Z) (r : Z -> Z) (d : pll) : Prop :=
  pend d = None /\ acked d = q /\ pll_regs d = r /\
  pll_base d = base /\ latency d = latency d0 /\ locked d = locked d0.

Lemma start_command cmd d q r :
  waiting q r d -> fget iopll_freq_cmd0 "management_reset" cmd = 0 ->
  fget iopll_freq_cmd0 "sequence_no" cmd <> q ->
  writeq cmd (iopll_at base "iopll_cmd0") d = Some (tt, set_pend (Some (cmd, latency d)) d).
Proof.
  intros (_ & Hq & _ & Hb & _) Hm Hs. unfold writeq, iopll_at. cbn [dev_writeq pll_mmio].
  rewrite Hb, Z.eqb_refl, Hm. change (istrue 0) with false. cbv iota. rewrite Hq.
  by rewrite (proj2 (Z.eqb_neq _ _)) by done.
Qed.

(** A command from start to end. *)
Lemma pll_command_run cmd d q r :
  waiting q r d -> 0 <= q < 4 -> fget iopll_freq_cmd0 "management_reset" cmd = 0 ->
  fget iopll_freq_cmd0 "sequence_no" cmd <> q ->
  exists d', (writeq cmd (iopll_at base "iopll_cmd0") ;;
              await_sequence base (fget iopll_freq_cmd0 "sequence_no" cmd)) d =
      Some ((0, status d'), d') /\
    waiting (fget iopll_freq_cmd0 "sequence_no" cmd) (pll_regs (perform cmd d)) d' /\ sdata d' = sdata (perform cmd d).
Proof.
  intros Hw Hq Hm Hs. rewrite (kbind_run _ _ _ _ _ (start_command cmd d q r Hw Hm Hs)).
  destruct Hw as (Hp & Ha & Hr & Hb & Hl & Hk).
  destruct (await_run cmd (set_pend (Some (cmd, latency d)) d)) as [ns Hrun]; [done|cbn [latency set_pend]; lia|done| | |].
  - cbn [acked set_pend]. lia.
  - cbn [acked set_pend]. congruence.
  - eexists. split; [exact Hrun|]. by split.
Qed.

Lemma iopll_write_run address data seq d q r :
  waiting q r d -> 0 <= q < 4 -> seq mod 4 <> q -> 0 <= address < 1024 -> 0 <= data < 2 ^ 32 ->
  exists d', iopll_write base address data seq d = Some (0, d') /\ waiting (seq mod 4) (upd address data r) d'.
Proof.
  intros Hw Hq Hs Ha Hd. unfold iopll_write. change 3 with (Z.ones 2). rewrite Z.land_ones by lia. change (2 ^ 2) with 4.
  assert (0 <= seq mod 4 < 4) as Hseq by (apply Z.mod_pos_bound; lia).
  destruct (command_fields 0 address data 1 (seq mod 4)) as (F1 & F2 & F3 & F4 & F5); [done|done|lia|done|].
  set (cmd := command _ _ _ _ _) in *.
  destruct (pll_command_run cmd d q r Hw Hq F5) as (d' & Hrun & Hw' & _); [by rewrite F4|].
  rewrite F4 in Hrun, Hw'. exists d'. split.
  - unfold kbind in Hrun |- *. destruct (writeq _ _ d) as [[u d1]|]; [|done]. by rewrite Hrun.
  - unfold perform in Hw'. rewrite F1, F2, F3 in Hw'. destruct Hw as (_ & _ & <- & _). exact Hw'.
Qed.

(** The data read is the register's. *)
Lemma iopll_read_run env address seq d q r :
  waiting q r d -> 0 <= q < 4 -> seq mod 4 <> q -> 0 <= address < 1024 ->
  exists d', iopll_read env base address seq d = Some ((0, u32 (r address)), d') /\ waiting (seq mod 4) r d'.
Proof.
  intros Hw Hq Hs Ha. unfold iopll_read. change 3 with (Z.ones 2). rewrite Z.land_ones by lia. change (2 ^ 2) with 4.
  assert (0 <= seq mod 4 < 4) as Hseq by (apply Z.mod_pos_bound; lia).
  destruct (command_fields (iopll_stack env) address 0 0 (seq mod 4)) as (F1 & F2 & F3 & F4 & F5); [done|lia|lia|done|].
  set (cmd := command _ _ _ _ _) in *.
  destruct (pll_command_run cmd d q r Hw Hq F5) as (d' & Hrun & Hw' & Hdata); [by rewrite F4|].
  rewrite F4 in Hrun, Hw'. unfold perform in Hw', Hdata. rewrite F3 in Hw', Hdata.
  change (0 =? 1) with false in Hw', Hdata. cbn [pll_regs sdata] in Hw', Hdata. rewrite F1 in Hdata.
  destruct Hw as (_ & _ & Hr & _). rewrite Hr in Hw', Hdata. exists d'. split; [|done].
  unfold kbind in Hrun |- *. destruct (writeq _ _ d) as [[u d1]|]; [|done]. rewrite Hrun. cbn [fst snd kret].
  by rewrite status_data, Hdata.
Qed.

(** ** Sequences of writes *)

Fixpoint apply_words (l : list (Z * Z)) (r : Z -> Z) : Z -> Z :=
  match l with [] => r | (a, v) :: l => apply_words l (upd a v r) end.

Definition words_ok (l : list (Z * Z)) : Prop :=
  Forall (fun w => 0 <= fst w < 1024 /\ 0 <= snd w < 2 ^ 32) l.

(** The number of the last command is the one before [seq]. *)
Definition before (seq : Z) : Z := (seq - 1) mod 4.

Lemma writes_run l seq d r :
  waiting (before seq) r d -> words_ok l -> 0 < seq -> seq + Z.of_nat (length l) < 256 ->
  exists d', iopll_writes base l seq d = Some ((0, seq + Z.of_nat (length l)), d') /\
    waiting (before (seq + Z.of_nat (length l))) (apply_words l r) d'.
Proof.
  revert seq d r. induction l as [|[a v] l IH]; intros seq d r Hw Hl Hs Hn.
  - exists d. cbn [length iopll_writes]. rewrite Z.add_0_r. done.
  - inversion_clear Hl as [|? ? [Ha Hv] Hl']. cbn [fst snd] in *. rewrite length_cons in *. cbn [iopll_writes].
    destruct (iopll_write_run a v seq d (before seq) r Hw) as (d1 & Hrun & Hw1);
      [apply Z.mod_pos_bound; lia|unfold before; Z.div_mod_to_equations; lia|done|done|].
    rewrite (kbind_run _ _ _ _ _ Hrun). change (istrue 0) with false. cbv iota.
    assert (u8 (seq + 1) = seq + 1) as -> by (apply (wrap_small 8); unfold in_range; lia).
    destruct (IH (seq + 1) d1 (upd a v r)) as (d2 & Hrun2 & Hw2); [|done|lia|lia|].
    { unfold before. replace (seq + 1 - 1) with seq by lia. exact Hw1. }
    exists d2. rewrite Hrun2. replace (seq + 1 + Z.of_nat (length l)) with (seq + Z.of_nat (S (length l))) in * by lia.
    done.
Qed.

Lemma writes_start l seq d q r :
  waiting q r d -> 0 <= q < 4 -> seq mod 4 <> q -> words_ok l -> l <> [] -> 0 < seq ->
  seq + Z.of_nat (length l) < 256 ->
  exists d', iopll_writes base l seq d = Some ((0, seq + Z.of_nat (length l)), d') /\
    waiting (before (seq + Z.of_nat (length l))) (apply_words l r) d'.
Proof.
  destruct l as [|[a v] l]; [done|]. intros Hw Hq Hne Hl _ Hs Hn.
  inversion_clear Hl as [|? ? [Ha Hv] Hl']. cbn [fst snd] in *. rewrite length_cons in *. cbn [iopll_writes].
  destruct (iopll_write_run a v seq d q r Hw Hq Hne Ha Hv) as (d1 & Hrun & Hw1).
  rewrite (kbind_run _ _ _ _ _ Hrun). change (istrue 0) with false. cbv iota.
  assert (u8 (seq + 1) = seq + 1) as -> by (apply (wrap_small 8); unfold in_range; lia).
  destruct (writes_run l (seq + 1) d1 (upd a v r)) as (d2 & Hrun2 & Hw2); [|done|lia|lia|].
  { unfold before. replace (seq + 1 - 1) with seq by lia. exact Hw1. }
  exists d2. rewrite Hrun2. by replace (seq + Z.of_nat (S (length l))) with (seq + 1 + Z.of_nat (length l)) by lia.
Qed.

Lemma then_run (c : K pll (Z * Z)) k s d d1 : c d = Some ((0, s), d1) -> then_seq c k d = k s d1.
Proof. intros H. unfold then_seq. by rewrite (kbind_run _ _ _ _ _ H). Qed.

(** ** The configuration *)

Definition cp_lf_words (config : list Z) : list (Z * Z) :=
  let cfg n := get pll_config n config in
  [(PLL_CP2_ADDR, Z.shiftl (Z.land (Z.shiftr (cfg "pll_cp") CFG_PLL_CP2_SHIFT) CFG_PLL_CP2_MASK) PLL_CP2_SHIFT);
   (PLL_LF_ADDR,
    Z.lor (Z.shiftl (Z.land (Z.shiftr (cfg "pll_lf") CFG_PLL_LF_SHIFT) CFG_PLL_LF_MASK) PLL_LF_SHIFT)
      (Z.shiftl (Z.land (cfg "pll_rc") CFG_PLL_RC_MASK) PLL_RC_SHIFT))].

Definition all_words (config : list Z) : list (Z * Z) :=
  let cfg n := get pll_config n config in
  m_words (cfg "pll_m") ++ n_words (cfg "pll_n") (cfg "pll_cp") ++ c0_words (cfg "pll_c0") ++
  c1_words (cfg "pll_c1") ++ cp_lf_words config.

Lemma apply_words_app l k r : apply_words (l ++ k) r = apply_words k (apply_words l r).
Proof. revert r. induction l as [|[a v] l IH]; intros r; [done|]. apply IH. Qed.

Lemma mask_range x n : 0 <= n <= 32 -> 0 <= Z.land x (Z.ones n) < 2 ^ n.
Proof. intros H. rewrite Z.land_ones by lia. apply Z.mod_pos_bound. lia. Qed.

Lemma shifted_range x n k : 0 <= n -> 0 <= k -> 0 <= Z.shiftl (Z.land x (Z.ones n)) k < 2 ^ (n + k).
Proof.
  intros Hn Hk. rewrite Z.shiftl_mul_pow2, Z.land_ones, Z.pow_add_r by lia.
  pose proof (Z.mod_pos_bound x (2 ^ n) ltac:(lia)). pose proof (Z.pow_pos_nonneg 2 k ltac:(lia) Hk). nia.
Qed.

Lemma words_all_ok config : words_ok (all_words config).
Proof.
  assert (forall x n k, 0 <= n -> 0 <= k -> n + k <= 16 -> 0 <= Z.shiftl (Z.land x (Z.ones n)) k < 2 ^ 16) as S16.
  { intros x n k Hn Hk Hs. pose proof (shifted_range x n k Hn Hk).
    pose proof (Z.pow_le_mono_r 2 (n + k) 16 ltac:(lia) Hs). lia. }
  assert (forall x n, 0 <= n <= 16 -> 0 <= Z.land x (Z.ones n) < 2 ^ 16) as M16.
  { intros x n Hn. pose proof (S16 x n 0 ltac:(lia) ltac:(lia) ltac:(lia)). by rewrite Z.shiftl_0_r in H. }
  unfold all_words, words_ok, m_words, n_words, c0_words, c1_words, cp_lf_words. cbv zeta. cbn [app].
  repeat (apply List.Forall_cons || apply List.Forall_nil); cbn [fst snd]; (split; [by vm_compute|]);
    enough (forall v, 0 <= v < 2 ^ 16 -> 0 <= v < 2 ^ 32) as W by (apply W; clear W; repeat apply lor_range; try lia;
      first [apply (S16 _ 1 7)|apply (S16 _ 3 4)|apply (S16 _ 3 5)|apply (S16 _ 8 3)|apply (S16 _ 2 1)
            |apply (M16 _ 8)|apply (M16 _ 1)]; lia); intros v Hv; lia.
Qed.

Lemma set_freq_run config d q r :
  waiting q r d -> 0 <= q < 4 -> q <> 1 ->
  exists d', iopll_set_freq base config 1 d = Some ((0, 18), d') /\ waiting 1 (apply_words (all_words config) r) d'.
Proof.
  intros Hw Hq Hne. pose proof (words_all_ok config) as Hok. unfold all_words in Hok |- *. cbv zeta in *.
  unfold words_ok in Hok. rewrite !Forall_app in Hok. destruct Hok as (O1 & O2 & O3 & O4 & O5).
  unfold iopll_set_freq, iopll_m_write, iopll_n_write, iopll_c0_write, iopll_c1_write.
  destruct (writes_start (m_words (get pll_config "pll_m" config)) 1 d q r) as (d1 & R1 & W1); [done..|lia|done|].
  rewrite (then_run _ _ _ _ _ R1).
  destruct (writes_run (n_words (get pll_config "pll_n" config) (get pll_config "pll_cp" config)) 5 d1 _ W1)
    as (d2 & R2 & W2); [done..|].
  rewrite (then_run _ _ _ _ _ R2).
  destruct (writes_run (c0_words (get pll_config "pll_c0" config)) 8 d2 _ W2) as (d3 & R3 & W3); [done..|].
  rewrite (then_run _ _ _ _ _ R3).
  destruct (writes_run (c1_words (get pll_config "pll_c1" config)) 12 d3 _ W3) as (d4 & R4 & W4); [done..|].
  rewrite (then_run _ _ _ _ _ R4).
  destruct (writes_run (cp_lf_words config) 16 d4 _ W4) as (d5 & R5 & W5); [done..|].
  exists d5. split; [exact R5|]. rewrite !apply_words_app. exact W5.
Qed.

Lemma pll_reset_run d q r :
  waiting q r d -> exists d', iopll_reset base d = Some (if locked d0 then 0 else - EBUSY, d') /\ waiting 0 r d'.
Proof.
  intros (Hp & Ha & Hr & Hb & Hl & Hk). unfold iopll_reset. cbv zeta.
  set (cmd1 := fset _ "reset_n" 0 _). set (cmd2 := fset _ "iopll_reset" 0 cmd1). set (cmd3 := fset _ "reset_n" 1 _).
  assert (forall cmd d1, pll_base d1 = base -> istrue (fget iopll_freq_cmd0 "management_reset" cmd) = true ->
    writeq cmd (iopll_at base "iopll_cmd0") d1 = Some (tt, reset_block d1)) as Hreset.
  { intros cmd d1 Hb1 Hm. unfold writeq, iopll_at. cbn [dev_writeq pll_mmio]. by rewrite Hb1, Z.eqb_refl, Hm. }
  rewrite (kbind_run _ _ _ _ _ (Hreset cmd1 d Hb ltac:(reflexivity))).
  rewrite (kbind_run (msleep _) _ _ _ _ eq_refl).
  set (d1 := dev_usleep_range _ _ (reset_block d)).
  rewrite (kbind_run _ _ _ _ _ (Hreset cmd2 d1 Hb ltac:(reflexivity))).
  rewrite (kbind_run (msleep _) _ _ _ _ eq_refl).
  set (d2 := dev_usleep_range _ _ (reset_block d1)).
  assert (writeq cmd3 (iopll_at base "iopll_cmd0") d2 = Some (tt, d2)) as Hw.
  { unfold writeq, iopll_at. cbn [dev_writeq pll_mmio]. change (pll_base d2) with (pll_base d). rewrite Hb, Z.eqb_refl.
    change (istrue (fget iopll_freq_cmd0 "management_reset" cmd3)) with false. cbv iota. done. }
  rewrite (kbind_run _ _ _ _ _ Hw), (kbind_run (msleep _) _ _ _ _ eq_refl).
  set (d3 := dev_usleep_range _ _ d2). rewrite (kbind_run _ _ _ _ _ (read_status d3 Hb)).
  exists d3. split; [|by split_and!]. rewrite status_locked. change (locked d3) with (locked d). rewrite Hk.
  by destruct (locked d0).
Qed.

Lemma calibrate_run env d r :
  waiting 0 r d ->
  exists d', iopll_calibrate env base 18 d = Some (0, d') /\
    waiting 0 (upd PLL_ENABLE_CAL_ADDR PLL_ENABLE_CALIBRATION
      (upd PLL_REQUEST_CAL_ADDR (Z.lor (u32 (r PLL_REQUEST_CAL_ADDR)) PLL_REQUEST_CALIBRATION) r)) d'.
Proof.
  intros Hw. unfold iopll_calibrate.
  destruct (iopll_read_run env PLL_REQUEST_CAL_ADDR 18 d 0 r Hw) as (d1 & R1 & W1); [done..|].
  rewrite (kbind_run _ _ _ _ _ R1). change (istrue 0) with false. cbv iota.
  destruct (iopll_write_run PLL_REQUEST_CAL_ADDR (Z.lor (u32 (r PLL_REQUEST_CAL_ADDR)) PLL_REQUEST_CALIBRATION)
    (u8 (18 + 1)) d1 _ r W1) as (d2 & R2 & W2); [done..| |].
  { apply (lor_range _ _ 32); [done|apply wrap_range; lia|done]. }
  rewrite (kbind_run _ _ _ _ _ R2). change (istrue 0) with false. cbv iota.
  destruct (iopll_write_run PLL_ENABLE_CAL_ADDR PLL_ENABLE_CALIBRATION (u8 (u8 (18 + 1) + 1)) d2 _ _ W2)
    as (d3 & R3 & W3); [done..|].
  rewrite (kbind_run _ _ _ _ _ R3), (kbind_run (msleep _) _ _ _ _ eq_refl).
  eexists. split; [reflexivity|]. destruct W3 as (Hp & Ha & Hr & Hb & Hl & Hk).
  unfold waiting. cbn [dev_usleep_range pll_clock]. unfold pll_sleep, pll_tick. rewrite Hp. by split_and!.
Qed.
End Commands.

(** ** What the registers of the PLL mean *)

(** A counter: its low and high parts, and the bits that bypass it and give it
    an even duty cycle, as the user's configuration packs them. *)
Definition counter_of (r : Z -> Z) (hi lo bypass duty : Z) : Z :=
  Z.lor (r lo) (Z.lor (Z.shiftl (r hi) 8)
    (Z.lor (Z.shiftl (Z.land (r bypass) 1) 16) (Z.shiftl (Z.land (Z.shiftr (r duty) 7) 1) 17))).

(** Bits [lo, lo + n) of a register. *)
Definition bits_of (v lo n : Z) : Z := Z.land (Z.shiftr v lo) (Z.ones n).

(** The registers decode to the configuration. *)
Record programmed (config : list Z) (r : Z -> Z) : Prop := {
  prog_m : counter_of r PLL_M_HIGH_ADDR PLL_M_LOW_ADDR PLL_M_BYPASS_EN_ADDR PLL_M_EVEN_DUTY_EN_ADDR =
           Z.land (get pll_config "pll_m" config) (Z.ones 18);
  prog_n : counter_of r PLL_N_HIGH_ADDR PLL_N_LOW_ADDR PLL_N_BYPASS_EN_ADDR PLL_N_BYPASS_EN_ADDR =
           Z.land (get pll_config "pll_n" config) (Z.ones 18);
  prog_c0 : counter_of r PLL_C0_HIGH_ADDR PLL_C0_LOW_ADDR PLL_C0_BYPASS_EN_ADDR PLL_C0_EVEN_DUTY_EN_ADDR =
            Z.land (get pll_config "pll_c0" config) (Z.ones 18);
  prog_c1 : counter_of r PLL_C1_HIGH_ADDR PLL_C1_LOW_ADDR PLL_C1_BYPASS_EN_ADDR PLL_C1_EVEN_DUTY_EN_ADDR =
            Z.land (get pll_config "pll_c1" config) (Z.ones 18);
  prog_cp : Z.lor (bits_of (r PLL_N_BYPASS_EN_ADDR) 4 3) (Z.shiftl (bits_of (r PLL_CP2_ADDR) 5 3) 3) =
            Z.land (get pll_config "pll_cp" config) (Z.ones 6);
  prog_lf : bits_of (r PLL_LF_ADDR) 3 8 = bits_of (get pll_config "pll_lf" config) 6 8;
  prog_rc : bits_of (r PLL_LF_ADDR) 1 2 = Z.land (get pll_config "pll_rc" config) (Z.ones 2);
}.

(** Bit by bit, with [lia] deciding which shift applies. *)
Ltac bit_at :=
  repeat match goal with
    | |- context [Z.testbit (Z.lor ?a ?b) ?i] => rewrite (Z.lor_spec a b i)
    | |- context [Z.testbit (Z.land ?a ?b) ?i] => rewrite (Z.land_spec a b i)
    | |- context [Z.testbit (Z.shiftl ?a ?n) ?i] =>
        first [rewrite (Z.shiftl_spec_low a n i) by lia | rewrite (Z.shiftl_spec a n i) by lia]
    | |- context [Z.testbit (Z.shiftr ?a ?n) ?i] => rewrite (Z.shiftr_spec a n i) by lia
    | |- context [Z.testbit (Z.ones ?n) ?i] =>
        first [rewrite (Z.ones_spec_low n i) by lia | rewrite (Z.ones_spec_high n i) by lia]
    end.
Ltac split_bits i cuts :=
  lazymatch cuts with
  | ?c :: ?cuts => destruct (Z.lt_ge_cases i c); [bit_at | split_bits i cuts]
  | _ => bit_at
  end.

Ltac same_bits cuts :=
  apply Z.bits_inj'; let i := fresh "i" in intros i ?; split_bits i cuts;
  rewrite ?andb_true_r, ?andb_false_r, ?orb_false_r, ?orb_false_l; cbn [andb orb];
  try reflexivity; try (f_equal; lia).

Lemma counter_decodes x :
  Z.lor (Z.land x (Z.ones 8)) (Z.lor (Z.shiftl (Z.land (Z.shiftr x 8) (Z.ones 8)) 8)
    (Z.lor (Z.shiftl (Z.land (Z.land (Z.shiftr x 16) (Z.ones 1)) (Z.ones 1)) 16)
      (Z.shiftl (Z.land (Z.shiftr (Z.shiftl (Z.land (Z.shiftr x 17) (Z.ones 1)) 7) 7) (Z.ones 1)) 17))) =
  Z.land x (Z.ones 18).
Proof. same_bits [8; 16; 17; 18]. Qed.

(** The register that N shares with the charge pump. *)
Definition n_byte (x cp : Z) : Z :=
  Z.lor (Z.lor (Z.shiftl (Z.land (Z.shiftr x 17) (Z.ones 1)) 7) (Z.shiftl (Z.land cp (Z.ones 3)) 4))
    (Z.land (Z.shiftr x 16) (Z.ones 1)).

Lemma n_byte_bypass x cp : Z.land (n_byte x cp) (Z.ones 1) = Z.land (Z.shiftr x 16) (Z.ones 1).
Proof. unfold n_byte. same_bits [1]. Qed.
Lemma n_byte_duty x cp : Z.land (Z.shiftr (n_byte x cp) 7) (Z.ones 1) = Z.land (Z.shiftr x 17) (Z.ones 1).
Proof. unfold n_byte. same_bits [1]. Qed.

Lemma n_decodes x cp :
  Z.lor (Z.land x (Z.ones 8)) (Z.lor (Z.shiftl (Z.land (Z.shiftr x 8) (Z.ones 8)) 8)
    (Z.lor (Z.shiftl (Z.land (n_byte x cp) (Z.ones 1)) 16)
      (Z.shiftl (Z.land (Z.shiftr (n_byte x cp) 7) (Z.ones 1)) 17))) = Z.land x (Z.ones 18).
Proof. rewrite n_byte_bypass, n_byte_duty. same_bits [8; 16; 17; 18]. Qed.

Lemma cp_decodes x cp :
  Z.lor (bits_of (n_byte x cp) 4 3) (Z.shiftl (bits_of (Z.shiftl (Z.land (Z.shiftr cp 3) (Z.ones 3)) 5) 5 3) 3) =
  Z.land cp (Z.ones 6).
Proof. unfold bits_of, n_byte. same_bits [3; 6]. Qed.

Definition lf_byte (lf rc : Z) : Z :=
  Z.lor (Z.shiftl (Z.land (Z.shiftr lf 6) (Z.ones 8)) 3) (Z.shiftl (Z.land rc (Z.ones 2)) 1).
Lemma lf_decodes lf rc : bits_of (lf_byte lf rc) 3 8 = bits_of lf 6 8.
Proof. unfold bits_of, lf_byte. same_bits [8]. Qed.
Lemma rc_decodes lf rc : bits_of (lf_byte lf rc) 1 2 = Z.land rc (Z.ones 2).
Proof. unfold bits_of, lf_byte. same_bits [2]. Qed.

Lemma words_program config r : programmed config (apply_words (all_words config) r).
Proof.
  constructor.
  - exact (counter_decodes (get pll_config "pll_m" config)).
  - exact (n_decodes (get pll_config "pll_n" config) (get pll_config "pll_cp" config)).
  - exact (counter_decodes (get pll_config "pll_c0" config)).
  - exact (counter_decodes (get pll_config "pll_c1" config)).
  - exact (cp_decodes (get pll_config "pll_n" config) (get pll_config "pll_cp" config)).
  - exact (lf_decodes (get pll_config "pll_lf" config) (get pll_config "pll_rc" config)).
  - exact (rc_decodes (get pll_config "pll_lf" config) (get pll_config "pll_rc" config)).
Qed.

(** The addresses a write to the attribute changes. *)
Definition written : list Z :=
  map fst (all_words []) ++ [PLL_REQUEST_CAL_ADDR; PLL_ENABLE_CAL_ADDR].

Lemma words_addresses config : map fst (all_words config) = map fst (all_words []).
Proof. reflexivity. Qed.

Lemma apply_words_other l r a : a ∉ map fst l -> apply_words l r a = r a.
Proof.
  revert r. induction l as [|[b v] l IH]; intros r Ha; [done|]. cbn [apply_words map fst] in *.
  rewrite IH by (intros H; apply Ha; by right). unfold upd.
  destruct (Z.eqb_spec a b) as [->|]; [|done]. exfalso. apply Ha. by left.
Qed.

(** The whole of store_config, with the result for a PLL that does not lock. *)
Lemma store_run env base config d q r :
  Z.of_nat (latency d) <= 100000 -> waiting base d q r d -> 0 <= q < 4 -> q <> 1 ->
  exists d' r', store_config env base config d = Some (if locked d then 0 else - EBUSY, d') /\
    waiting base d 0 r' d' /\ programmed config r' /\ (forall a, a ∉ written -> r' a = r a) /\
    (locked d = true -> Z.land (r' PLL_REQUEST_CAL_ADDR) PLL_REQUEST_CALIBRATION = PLL_REQUEST_CALIBRATION /\
                        r' PLL_ENABLE_CAL_ADDR = PLL_ENABLE_CALIBRATION).
Proof.
  intros Hl Hw Hq Hne. unfold store_config.
  destruct (set_freq_run base d Hl config d q r Hw Hq Hne) as (d1 & R1 & W1).
  rewrite (kbind_run _ _ _ _ _ R1). cbn [fst snd]. change (istrue 0) with false. cbv iota.
  destruct (pll_reset_run base d d1 _ _ W1) as (d2 & R2 & W2). rewrite (kbind_run _ _ _ _ _ R2).
  set (r1 := apply_words (all_words config) r) in *.
  assert (forall a, a ∉ written -> r1 a = r a) as Hother.
  { intros a Ha. apply apply_words_other. rewrite words_addresses. intros H. apply Ha.
    unfold written. apply elem_of_app. by left. }
  pose proof (words_program config r) as Hprog. fold r1 in Hprog.
  destruct (locked d) eqn:Elock; change (istrue 0) with false; change (istrue (- EBUSY)) with true; cbv iota.
  - destruct (calibrate_run base d Hl env d2 r1 W2) as (d3 & R3 & W3).
    exists d3. eexists. split_and!; [exact R3|exact W3| | |].
    + destruct Hprog. by constructor.
    + intros a Ha. rewrite <- (Hother a Ha). unfold upd.
      destruct (Z.eqb_spec a PLL_ENABLE_CAL_ADDR) as [->|]; [exfalso; apply Ha; by apply (bool_decide_unpack _)|].
      destruct (Z.eqb_spec a PLL_REQUEST_CAL_ADDR) as [->|]; [exfalso; apply Ha; by apply (bool_decide_unpack _)|done].
    + intros _. split; [|done].
      change (Z.land (Z.lor (u32 (r1 PLL_REQUEST_CAL_ADDR)) PLL_REQUEST_CALIBRATION) PLL_REQUEST_CALIBRATION = PLL_REQUEST_CALIBRATION).
      rewrite Z.land_comm. apply Z.bits_inj'. intros i Hi. rewrite Z.land_spec, Z.lor_spec. by destruct (Z.testbit PLL_REQUEST_CALIBRATION i), (Z.testbit (u32 _) i).
  - exists d2, r1. split_and!; [done..|]. discriminate.
Qed.

(** A valid buffer: the size of the structure and a frequency in the range. *)
Definition valid_config (buf : list Z) : bool :=
  (Z.of_nat (length buf) =? 32) && (get pll_config "pll_freq_khz" buf <=? 800000) &&
  (1000 <=? get pll_config "pll_freq_khz" buf).

(** C11: a write to "frequency" programs the PLL.  Against every reconfiguration
    block that finishes each command within the driver's timeout of 100 ms, is
    at rest, and whose status does not show sequence number 1 (the number of
    the first command: if it does, that command is taken to be done before it
    is, [stale_sequence_loses_write]), and with the mutex free: a buffer of
    another size or with a frequency outside 1 to 800 MHz is -EINVAL and
    nothing happens.  Otherwise every command is taken, in order and none
    before the one before it is done: the registers of the PLL decode to
    exactly the counters, charge pump and filter settings of the buffer, no
    other register changes, and the block is left at rest with sequence number
    0, so that the next write goes the same way.  The result is the number of
    bytes, with calibration requested and enabled, if the PLL locks, and -EBUSY
    if it does not; the mutex is free again. *)
Theorem frequency_store_programs env base buf (p : pac_iopll pll) :
  iopll_mutex p = Some false -> pll_base (idev p) = base -> pend (idev p) = None ->
  0 <= acked (idev p) < 4 -> acked (idev p) <> 1 -> Z.of_nat (latency (idev p)) <= 100000 ->
  if valid_config buf then
    exists d', frequency_store env base buf p =
        Some (if locked (idev p) then 32 else - EBUSY, set_idev d' p) /\
      programmed buf (pll_regs d') /\
      (forall a, a ∉ written -> pll_regs d' a = pll_regs (idev p) a) /\
      pend d' = None /\ acked d' = 0 /\
      (locked (idev p) = true ->
         Z.land (pll_regs d' PLL_REQUEST_CAL_ADDR) PLL_REQUEST_CALIBRATION = PLL_REQUEST_CALIBRATION /\
         pll_regs d' PLL_ENABLE_CAL_ADDR = PLL_ENABLE_CALIBRATION)
  else frequency_store env base buf p = Some (- EINVAL, p).
Proof.
  intros Hm Hb Hp Ha Hne Hl. unfold frequency_store, valid_config.
  change (Z.of_nat (struct_size pll_config)) with 32. change (IOPLL_MAX_FREQ * 1000) with 800000.
  change (IOPLL_MIN_FREQ * 1000) with 1000. set (khz := get pll_config "pll_freq_khz" buf).
  destruct (Z.of_nat (length buf) =? 32) eqn:Elen; [|done]. boolify. cbn [negb andb].
  rewrite !Z.leb_antisym. destruct (800000 <? khz); [done|]. destruct (khz <? 1000); [done|]. cbn [negb andb orb].
  assert (iopll_lock p = Some (tt, set_iopll_mutex (Some true) p)) as Hlock by (unfold iopll_lock; simpl; by rewrite Hm).
  rewrite (kbind_run _ _ _ _ _ Hlock).
  destruct (store_run env base buf (idev p) (acked (idev p)) (pll_regs (idev p)) Hl ltac:(by split_and!) Ha Hne)
    as (d' & r' & Hrun & (W1 & W2 & <- & _) & Hprog & Hother & Hcal).
  assert (on_idev (store_config env base buf) (set_iopll_mutex (Some true) p) =
    Some (if locked (idev p) then 0 else - EBUSY, set_idev d' (set_iopll_mutex (Some true) p))) as Hon.
  { unfold on_idev, zoom. cbn [idev set_iopll_mutex]. by rewrite Hrun. }
  rewrite (kbind_run _ _ _ _ _ Hon). exists d'. split_and!; [|done..].
  unfold iopll_unlock. simpl. unfold kret. rewrite Elen. destruct p. simpl in *. subst.
  by destruct (locked _).
Qed.

Definition demo_config : list Z :=
  le_split 4 250000 ++ le_split 4 0x20504 ++ le_split 4 0x10000 ++ le_split 4 0x20302 ++ le_split 4 0x0808 ++
  le_split 4 0x140 ++ le_split 4 0x0b ++ le_split 4 0x01.
Definition demo_pll : pac_iopll pll :=
  PacIopll (Pll 0x4000 (fun _ => 0) 0 0 None 3 true 0) (Some false) true.

Lemma frequency_store_programs_witness :
  valid_config demo_config = true /\
  if valid_config demo_config then
    exists d', frequency_store (IopllEnv (Some 0x4000) true 0 0) 0x4000 demo_config demo_pll =
        Some (32, set_idev d' demo_pll) /\
      programmed demo_config (pll_regs d') /\
      (forall a, a ∉ written -> pll_regs d' a = 0) /\ pend d' = None /\ acked d' = 0 /\
      (true = true ->
         Z.land (pll_regs d' PLL_REQUEST_CAL_ADDR) PLL_REQUEST_CALIBRATION = PLL_REQUEST_CALIBRATION /\
         pll_regs d' PLL_ENABLE_CAL_ADDR = PLL_ENABLE_CALIBRATION)
  else frequency_store (IopllEnv (Some 0x4000) true 0 0) 0x4000 demo_config demo_pll = Some (- EINVAL, demo_pll).
Proof.
  split; [reflexivity|].
  apply (frequency_store_programs (IopllEnv (Some 0x4000) true 0 0) 0x4000 demo_config demo_pll);
    [reflexivity|reflexivity|reflexivity|vm_compute; split; [discriminate|reflexivity]|vm_compute; discriminate|vm_compute; discriminate].
Defined.

(** The same write when an earlier one timed out at a command whose number was
    1 modulo 4: the first command is taken to be done at once, and lost. *)
Lemma stale_sequence_loses_write :
  let p := PacIopll (Pll 0x4000 (fun _ => 0) 1 0 None 3 true 0) (Some false) true in
  match frequency_store (IopllEnv (Some 0x4000) true 0 0) 0x4000 demo_config p with
  | Some (ret, p') => ret = 32 /\ pll_regs (idev p') PLL_M_HIGH_ADDR = 0 /\
      Z.land (Z.shiftr (get pll_config "pll_m" demo_config) 8) 0xFF = 5
  | None => False
  end.
Proof. by vm_compute. Qed.
