(* ===== verification/SpiNorIds.v ===== *)
(** * The flashes the SPI NOR framework knows (drivers/mtd/spi-nor/spi-nor.c)

    The entries of [spi_nor_ids], by manufacturer, with the macros that fill
    them in.  An entry is pointed to by its index in the table. *)

From S2P Require Import Prelude.
Local Open Scope list_scope.
Local Open Scope string_scope.
Local Open Scope Z_scope.

Definition SPI_NOR_MAX_ID_LEN : Z := 6.
Definition SPI_NOR_MAX_ADDR_WIDTH : Z := 4.

(** Flags of an entry. *)
Definition SECT_4K : Z := 2 ^ 0.
Definition SPI_NOR_NO_ERASE : Z := 2 ^ 1.
Definition SST_WRITE : Z := 2 ^ 2.
Definition SPI_NOR_NO_FR : Z := 2 ^ 3.
Definition SECT_4K_PMC : Z := 2 ^ 4.
Definition SPI_NOR_DUAL_READ : Z := 2 ^ 5.
Definition SPI_NOR_QUAD_READ : Z := 2 ^ 6.
Definition USE_FSR : Z := 2 ^ 7.
Definition SPI_NOR_HAS_LOCK : Z := 2 ^ 8.
Definition SPI_NOR_HAS_TB : Z := 2 ^ 9.
Definition SPI_S3AN : Z := 2 ^ 10.
Definition SPI_NOR_4B_OPCODES : Z := 2 ^ 11.
Definition NO_CHIP_ERASE : Z := 2 ^ 12.
Definition flags_of (l : list Z) : Z := fold_left Z.lor l 0.

(** [fi_id] has SPI_NOR_MAX_ID_LEN bytes, of which [fi_id_len] count. *)
Record flash_info := FlashInfo {
  fi_name : string; fi_id : list Z; fi_id_len : Z; fi_sector_size : Z; fi_n_sectors : Z;
  fi_page_size : Z; fi_addr_width : Z; fi_flags : Z;
}.

Definition byte_of (x k : Z) : Z := Z.land (Z.shiftr x (8 * k)) 0xff.

Definition INFO (name : string) (jedec_id ext_id sector_size n_sectors flags : Z) : flash_info :=
  FlashInfo name
    [byte_of jedec_id 2; byte_of jedec_id 1; byte_of jedec_id 0; byte_of ext_id 1; byte_of ext_id 0; 0]
    (if jedec_id =? 0 then 0 else 3 + (if istrue ext_id then 2 else 0)) sector_size n_sectors 256 0 flags.
Definition INFO6 (name : string) (jedec_id ext_id sector_size n_sectors flags : Z) : flash_info :=
  FlashInfo name
    [byte_of jedec_id 2; byte_of jedec_id 1; byte_of jedec_id 0; byte_of ext_id 2; byte_of ext_id 1; byte_of ext_id 0]
    6 sector_size n_sectors 256 0 flags.
Definition CAT25_INFO (name : string) (sector_size n_sectors page_size addr_width flags : Z) : flash_info :=
  FlashInfo name [0; 0; 0; 0; 0; 0] 0 sector_size n_sectors page_size addr_width flags.
Definition S3AN_INFO (name : string) (jedec_id n_sectors page_size : Z) : flash_info :=
  FlashInfo name [byte_of jedec_id 2; byte_of jedec_id 1; byte_of jedec_id 0; 0; 0; 0] 3 (8 * page_size) n_sectors
    page_size 3 (Z.lor SPI_NOR_NO_FR SPI_S3AN).

(* Atmel *)
Definition atmel_ids : list flash_info := [
  INFO "at25fs010" 0x1f6601 0 (32 * 1024) 4 SECT_4K;
  INFO "at25fs040" 0x1f6604 0 (64 * 1024) 8 SECT_4K;
  INFO "at25df041a" 0x1f4401 0 (64 * 1024) 8 SECT_4K;
  INFO "at25df321" 0x1f4700 0 (64 * 1024) 64 SECT_4K;
  INFO "at25df321a" 0x1f4701 0 (64 * 1024) 64 SECT_4K;
  INFO "at25df641" 0x1f4800 0 (64 * 1024) 128 SECT_4K;
  INFO "at26f004" 0x1f0400 0 (64 * 1024) 8 SECT_4K;
  INFO "at26df081a" 0x1f4501 0 (64 * 1024) 16 SECT_4K;
  INFO "at26df161a" 0x1f4601 0 (64 * 1024) 32 SECT_4K;
  INFO "at26df321" 0x1f4700 0 (64 * 1024) 64 SECT_4K;
  INFO "at45db081d" 0x1f2500 0 (64 * 1024) 16 SECT_4K].
(* EON -- en25xxx *)
Definition eon_ids : list flash_info := [
  INFO "en25f32" 0x1c3116 0 (64 * 1024) 64 SECT_4K;
  INFO "en25p32" 0x1c2016 0 (64 * 1024) 64 0;
  INFO "en25q32b" 0x1c3016 0 (64 * 1024) 64 0;
  INFO "en25p64" 0x1c2017 0 (64 * 1024) 128 0;
  INFO "en25q64" 0x1c3017 0 (64 * 1024) 128 SECT_4K;
  INFO "en25qh128" 0x1c7018 0 (64 * 1024) 256 0;
  INFO "en25qh256" 0x1c7019 0 (64 * 1024) 512 0;
  INFO "en25s64" 0x1c3817 0 (64 * 1024) 128 SECT_4K].
(* ESMT *)
Definition esmt_ids : list flash_info := [
  INFO "f25l32pa" 0x8c2016 0 (64 * 1024) 64 (flags_of [SECT_4K; SPI_NOR_HAS_LOCK]);
  INFO "f25l32qa" 0x8c4116 0 (64 * 1024) 64 (flags_of [SECT_4K; SPI_NOR_HAS_LOCK]);
  INFO "f25l64qa" 0x8c4117 0 (64 * 1024) 128 (flags_of [SECT_4K; SPI_NOR_HAS_LOCK])].
(* Everspin *)
Definition everspin_ids : list flash_info := [
  CAT25_INFO "mr25h256" (32 * 1024) 1 256 2 (flags_of [SPI_NOR_NO_ERASE; SPI_NOR_NO_FR]);
  CAT25_INFO "mr25h10" (128 * 1024) 1 256 3 (flags_of [SPI_NOR_NO_ERASE; SPI_NOR_NO_FR]);
  CAT25_INFO "mr25h40" (512 * 1024) 1 256 3 (flags_of [SPI_NOR_NO_ERASE; SPI_NOR_NO_FR])].
(* Fujitsu *)
Definition fujitsu_ids : list flash_info := [
  INFO "mb85rs1mt" 0x047f27 0 (128 * 1024) 1 SPI_NOR_NO_ERASE].
(* GigaDevice *)
Definition gigadevice_ids : list flash_info := [
    INFO "gd25q16" 0xc84015 0 (64 * 1024) 32 (flags_of [SECT_4K; SPI_NOR_DUAL_READ; SPI_NOR_QUAD_READ;
    SPI_NOR_HAS_LOCK; SPI_NOR_HAS_TB]);
    INFO "gd25q32" 0xc84016 0 (64 * 1024) 64 (flags_of [SECT_4K; SPI_NOR_DUAL_READ; SPI_NOR_QUAD_READ;
    SPI_NOR_HAS_LOCK; SPI_NOR_HAS_TB]);
    INFO "gd25q64" 0xc84017 0 (64 * 1024) 128 (flags_of [SECT_4K; SPI_NOR_DUAL_READ; SPI_NOR_QUAD_READ;
    SPI_NOR_HAS_LOCK; SPI_NOR_HAS_TB]);
    INFO "gd25lq64c" 0xc86017 0 (64 * 1024) 128 (flags_of [SECT_4K; SPI_NOR_DUAL_READ; SPI_NOR_QUAD_READ;
    SPI_NOR_HAS_LOCK; SPI_NOR_HAS_TB]);
    INFO "gd25q128" 0xc84018 0 (64 * 1024) 256 (flags_of [SECT_4K; SPI_NOR_DUAL_READ; SPI_NOR_QUAD_READ;
    SPI_NOR_HAS_LOCK; SPI_NOR_HAS_TB])].
(* IntelNumonyx -- xxxs33b *)
Definition intel_ids : list flash_info := [
  INFO "160s33b" 0x898911 0 (64 * 1024) 32 0;
  INFO "320s33b" 0x898912 0 (64 * 1024) 64 0;
  INFO "640s33b" 0x898913 0 (64 * 1024) 128 0].
(* ISSI *)
Definition issi_ids : list flash_info := [
  INFO "is25cd512" 0x7f9d20 0 (32 * 1024) 2 SECT_4K].
(* Macronix *)
Definition macronix_ids : list flash_info := [
  INFO "mx25l512e" 0xc22010 0 (64 * 1024) 1 SECT_4K;
  INFO "mx25l2005a" 0xc22012 0 (64 * 1024) 4 SECT_4K;
  INFO "mx25l4005a" 0xc22013 0 (64 * 1024) 8 SECT_4K;
  INFO "mx25l8005" 0xc22014 0 (64 * 1024) 16 0;
  INFO "mx25l1606e" 0xc22015 0 (64 * 1024) 32 SECT_4K;
  INFO "mx25l3205d" 0xc22016 0 (64 * 1024) 64 SECT_4K;
  INFO "mx25l3255e" 0xc29e16 0 (64 * 1024) 64 SECT_4K;
  INFO "mx25l6405d" 0xc22017 0 (64 * 1024) 128 SECT_4K;
  INFO "mx25u2033e" 0xc22532 0 (64 * 1024) 4 SECT_4K;
  INFO "mx25u4035" 0xc22533 0 (64 * 1024) 8 SECT_4K;
  INFO "mx25u8035" 0xc22534 0 (64 * 1024) 16 SECT_4K;
  INFO "mx25u6435f" 0xc22537 0 (64 * 1024) 128 SECT_4K;
  INFO "mx25l12805d" 0xc22018 0 (64 * 1024) 256 0;
  INFO "mx25l12855e" 0xc22618 0 (64 * 1024) 256 0;
  INFO "mx25l25635e" 0xc22019 0 (64 * 1024) 512 0;
  INFO "mx25u25635f" 0xc22539 0 (64 * 1024) 512 (flags_of [SECT_4K; SPI_NOR_4B_OPCODES]);
  INFO "mx25l25655e" 0xc22619 0 (64 * 1024) 512 0;
  INFO "mx66l51235l" 0xc2201a 0 (64 * 1024) 1024 SPI_NOR_QUAD_READ;
  INFO "mx66l1g55g" 0xc2261b 0 (64 * 1024) 2048 SPI_NOR_QUAD_READ].
(* Micron *)
Definition micron_ids : list flash_info := [
  INFO "n25q016a" 0x20bb15 0 (64 * 1024) 32 (flags_of [SECT_4K; SPI_NOR_QUAD_READ]);
  INFO "n25q032" 0x20ba16 0 (64 * 1024) 64 SPI_NOR_QUAD_READ;
  INFO "n25q032a" 0x20bb16 0 (64 * 1024) 64 SPI_NOR_QUAD_READ;
  INFO "n25q064" 0x20ba17 0 (64 * 1024) 128 (flags_of [SECT_4K; SPI_NOR_QUAD_READ]);
  INFO "n25q064a" 0x20bb17 0 (64 * 1024) 128 (flags_of [SECT_4K; SPI_NOR_QUAD_READ]);
  INFO "n25q128a11" 0x20bb18 0 (64 * 1024) 256 (flags_of [SECT_4K; SPI_NOR_QUAD_READ]);
  INFO "n25q128a13" 0x20ba18 0 (64 * 1024) 256 (flags_of [SECT_4K; SPI_NOR_QUAD_READ]);
  INFO "n25q256a" 0x20ba19 0 (64 * 1024) 512 (flags_of [SECT_4K; SPI_NOR_QUAD_READ]);
  INFO "n25q256ax1" 0x20bb19 0 (64 * 1024) 512 (flags_of [SECT_4K; SPI_NOR_QUAD_READ]);
  INFO "n25q512a" 0x20bb20 0 (64 * 1024) 1024 (flags_of [SECT_4K; USE_FSR; SPI_NOR_QUAD_READ]);
  INFO "n25q512ax3" 0x20ba20 0 (64 * 1024) 1024 (flags_of [SECT_4K; USE_FSR; SPI_NOR_QUAD_READ]);
  INFO "n25q00" 0x20ba21 0 (64 * 1024) 2048 (flags_of [SECT_4K; USE_FSR; SPI_NOR_QUAD_READ; NO_CHIP_ERASE]);
  INFO "n25q00a" 0x20bb21 0 (64 * 1024) 2048 (flags_of [SECT_4K; USE_FSR; SPI_NOR_QUAD_READ; NO_CHIP_ERASE])].
(* PMC *)
Definition pmc_ids : list flash_info := [
  INFO "pm25lv512" 0 0 (32 * 1024) 2 SECT_4K_PMC;
  INFO "pm25lv010" 0 0 (32 * 1024) 4 SECT_4K_PMC;
  INFO "pm25lq032" 0x7f9d46 0 (64 * 1024) 64 SECT_4K].
(* Spansion -- single (large) sector size only, at least for the chips listed here (without boot sectors). *)
Definition spansion_ids : list flash_info := [
  INFO "s25sl032p" 0x010215 0x4d00 (64 * 1024) 64 (flags_of [SPI_NOR_DUAL_READ; SPI_NOR_QUAD_READ]);
  INFO "s25sl064p" 0x010216 0x4d00 (64 * 1024) 128 (flags_of [SPI_NOR_DUAL_READ; SPI_NOR_QUAD_READ]);
  INFO "s25fl256s0" 0x010219 0x4d00 (256 * 1024) 128 0;
  INFO "s25fl256s1" 0x010219 0x4d01 (64 * 1024) 512 (flags_of [SPI_NOR_DUAL_READ; SPI_NOR_QUAD_READ]);
  INFO "s25fl512s" 0x010220 0x4d00 (256 * 1024) 256 (flags_of [SPI_NOR_DUAL_READ; SPI_NOR_QUAD_READ]);
  INFO "s70fl01gs" 0x010221 0x4d00 (256 * 1024) 256 0;
  INFO "s25sl12800" 0x012018 0x0300 (256 * 1024) 64 0;
  INFO "s25sl12801" 0x012018 0x0301 (64 * 1024) 256 0;
  INFO6 "s25fl128s" 0x012018 0x4d0180 (64 * 1024) 256 (flags_of [SPI_NOR_DUAL_READ; SPI_NOR_QUAD_READ]);
  INFO "s25fl129p0" 0x012018 0x4d00 (256 * 1024) 64 (flags_of [SPI_NOR_DUAL_READ; SPI_NOR_QUAD_READ]);
  INFO "s25fl129p1" 0x012018 0x4d01 (64 * 1024) 256 (flags_of [SPI_NOR_DUAL_READ; SPI_NOR_QUAD_READ]);
  INFO "s25sl004a" 0x010212 0 (64 * 1024) 8 0;
  INFO "s25sl008a" 0x010213 0 (64 * 1024) 16 0;
  INFO "s25sl016a" 0x010214 0 (64 * 1024) 32 0;
  INFO "s25sl032a" 0x010215 0 (64 * 1024) 64 0;
  INFO "s25sl064a" 0x010216 0 (64 * 1024) 128 0;
  INFO "s25fl004k" 0xef4013 0 (64 * 1024) 8 (flags_of [SECT_4K; SPI_NOR_DUAL_READ; SPI_NOR_QUAD_READ]);
  INFO "s25fl008k" 0xef4014 0 (64 * 1024) 16 (flags_of [SECT_4K; SPI_NOR_DUAL_READ; SPI_NOR_QUAD_READ]);
  INFO "s25fl016k" 0xef4015 0 (64 * 1024) 32 (flags_of [SECT_4K; SPI_NOR_DUAL_READ; SPI_NOR_QUAD_READ]);
  INFO "s25fl064k" 0xef4017 0 (64 * 1024) 128 SECT_4K;
  INFO "s25fl116k" 0x014015 0 (64 * 1024) 32 (flags_of [SECT_4K; SPI_NOR_DUAL_READ; SPI_NOR_QUAD_READ]);
  INFO "s25fl132k" 0x014016 0 (64 * 1024) 64 SECT_4K;
  INFO "s25fl164k" 0x014017 0 (64 * 1024) 128 SECT_4K;
  INFO "s25fl204k" 0x014013 0 (64 * 1024) 8 (flags_of [SECT_4K; SPI_NOR_DUAL_READ]);
  INFO "s25fl208k" 0x014014 0 (64 * 1024) 16 (flags_of [SECT_4K; SPI_NOR_DUAL_READ])].
(* SST -- large erase sizes are "overlays", "sectors" are 4K *)
Definition sst_ids : list flash_info := [
  INFO "sst25vf040b" 0xbf258d 0 (64 * 1024) 8 (flags_of [SECT_4K; SST_WRITE]);
  INFO "sst25vf080b" 0xbf258e 0 (64 * 1024) 16 (flags_of [SECT_4K; SST_WRITE]);
  INFO "sst25vf016b" 0xbf2541 0 (64 * 1024) 32 (flags_of [SECT_4K; SST_WRITE]);
  INFO "sst25vf032b" 0xbf254a 0 (64 * 1024) 64 (flags_of [SECT_4K; SST_WRITE]);
  INFO "sst25vf064c" 0xbf254b 0 (64 * 1024) 128 SECT_4K;
  INFO "sst25wf512" 0xbf2501 0 (64 * 1024) 1 (flags_of [SECT_4K; SST_WRITE]);
  INFO "sst25wf010" 0xbf2502 0 (64 * 1024) 2 (flags_of [SECT_4K; SST_WRITE]);
  INFO "sst25wf020" 0xbf2503 0 (64 * 1024) 4 (flags_of [SECT_4K; SST_WRITE]);
  INFO "sst25wf020a" 0x621612 0 (64 * 1024) 4 SECT_4K;
  INFO "sst25wf040b" 0x621613 0 (64 * 1024) 8 SECT_4K;
  INFO "sst25wf040" 0xbf2504 0 (64 * 1024) 8 (flags_of [SECT_4K; SST_WRITE]);
  INFO "sst25wf080" 0xbf2505 0 (64 * 1024) 16 (flags_of [SECT_4K; SST_WRITE])].
(* ST Microelectronics -- newer production may have feature updates *)
Definition st_ids : list flash_info := [
  INFO "m25p05" 0x202010 0 (32 * 1024) 2 0;
  INFO "m25p10" 0x202011 0 (32 * 1024) 4 0;
  INFO "m25p20" 0x202012 0 (64 * 1024) 4 0;
  INFO "m25p40" 0x202013 0 (64 * 1024) 8 0;
  INFO "m25p80" 0x202014 0 (64 * 1024) 16 0;
  INFO "m25p16" 0x202015 0 (64 * 1024) 32 0;
  INFO "m25p32" 0x202016 0 (64 * 1024) 64 0;
  INFO "m25p64" 0x202017 0 (64 * 1024) 128 0;
  INFO "m25p128" 0x202018 0 (256 * 1024) 64 0;
  INFO "m25p05-nonjedec" 0 0 (32 * 1024) 2 0;
  INFO "m25p10-nonjedec" 0 0 (32 * 1024) 4 0;
  INFO "m25p20-nonjedec" 0 0 (64 * 1024) 4 0;
  INFO "m25p40-nonjedec" 0 0 (64 * 1024) 8 0;
  INFO "m25p80-nonjedec" 0 0 (64 * 1024) 16 0;
  INFO "m25p16-nonjedec" 0 0 (64 * 1024) 32 0;
  INFO "m25p32-nonjedec" 0 0 (64 * 1024) 64 0;
  INFO "m25p64-nonjedec" 0 0 (64 * 1024) 128 0;
  INFO "m25p128-nonjedec" 0 0 (256 * 1024) 64 0;
  INFO "m45pe10" 0x204011 0 (64 * 1024) 2 0;
  INFO "m45pe80" 0x204014 0 (64 * 1024) 16 0;
  INFO "m45pe16" 0x204015 0 (64 * 1024) 32 0;
  INFO "m25pe20" 0x208012 0 (64 * 1024) 4 0;
  INFO "m25pe80" 0x208014 0 (64 * 1024) 16 0;
  INFO "m25pe16" 0x208015 0 (64 * 1024) 32 SECT_4K;
  INFO "m25px16" 0x207115 0 (64 * 1024) 32 SECT_4K;
  INFO "m25px32" 0x207116 0 (64 * 1024) 64 SECT_4K;
  INFO "m25px32-s0" 0x207316 0 (64 * 1024) 64 SECT_4K;
  INFO "m25px32-s1" 0x206316 0 (64 * 1024) 64 SECT_4K;
  INFO "m25px64" 0x207117 0 (64 * 1024) 128 0;
  INFO "m25px80" 0x207114 0 (64 * 1024) 16 0].
(* Winbond -- w25x "blocks" are 64K, "sectors" are 4KiB *)
Definition winbond_ids : list flash_info := [
  INFO "w25x05" 0xef3010 0 (64 * 1024) 1 SECT_4K;
  INFO "w25x10" 0xef3011 0 (64 * 1024) 2 SECT_4K;
  INFO "w25x20" 0xef3012 0 (64 * 1024) 4 SECT_4K;
  INFO "w25x40" 0xef3013 0 (64 * 1024) 8 SECT_4K;
  INFO "w25x80" 0xef3014 0 (64 * 1024) 16 SECT_4K;
  INFO "w25x16" 0xef3015 0 (64 * 1024) 32 SECT_4K;
  INFO "w25x32" 0xef3016 0 (64 * 1024) 64 SECT_4K;
  INFO "w25q20cl" 0xef4012 0 (64 * 1024) 4 SECT_4K;
  INFO "w25q20bw" 0xef5012 0 (64 * 1024) 4 SECT_4K;
  INFO "w25q20ew" 0xef6012 0 (64 * 1024) 4 SECT_4K;
  INFO "w25q32" 0xef4016 0 (64 * 1024) 64 SECT_4K;
    INFO "w25q32dw" 0xef6016 0 (64 * 1024) 64 (flags_of [SECT_4K; SPI_NOR_DUAL_READ; SPI_NOR_QUAD_READ;
    SPI_NOR_HAS_LOCK; SPI_NOR_HAS_TB]);
  INFO "w25x64" 0xef3017 0 (64 * 1024) 128 SECT_4K;
  INFO "w25q64" 0xef4017 0 (64 * 1024) 128 SECT_4K;
    INFO "w25q64dw" 0xef6017 0 (64 * 1024) 128 (flags_of [SECT_4K; SPI_NOR_DUAL_READ; SPI_NOR_QUAD_READ;
    SPI_NOR_HAS_LOCK; SPI_NOR_HAS_TB]);
    INFO "w25q128fw" 0xef6018 0 (64 * 1024) 256 (flags_of [SECT_4K; SPI_NOR_DUAL_READ; SPI_NOR_QUAD_READ;
    SPI_NOR_HAS_LOCK; SPI_NOR_HAS_TB]);
  INFO "w25q80" 0xef5014 0 (64 * 1024) 16 SECT_4K;
  INFO "w25q80bl" 0xef4014 0 (64 * 1024) 16 SECT_4K;
  INFO "w25q128" 0xef4018 0 (64 * 1024) 256 SECT_4K;
  INFO "w25q256" 0xef4019 0 (64 * 1024) 512 SECT_4K].
(* Catalyst On Semiconductor -- non-JEDEC *)
Definition catalyst_ids : list flash_info := [
  CAT25_INFO "cat25c11" 16 8 16 1 (flags_of [SPI_NOR_NO_ERASE; SPI_NOR_NO_FR]);
  CAT25_INFO "cat25c03" 32 8 16 2 (flags_of [SPI_NOR_NO_ERASE; SPI_NOR_NO_FR]);
  CAT25_INFO "cat25c09" 128 8 32 2 (flags_of [SPI_NOR_NO_ERASE; SPI_NOR_NO_FR]);
  CAT25_INFO "cat25c17" 256 8 32 2 (flags_of [SPI_NOR_NO_ERASE; SPI_NOR_NO_FR]);
  CAT25_INFO "cat25128" 2048 8 64 2 (flags_of [SPI_NOR_NO_ERASE; SPI_NOR_NO_FR])].
(* Xilinx S3AN Internal Flash *)
Definition s3an_ids : list flash_info := [
  S3AN_INFO "3S50AN" 0x1f2200 64 264;
  S3AN_INFO "3S200AN" 0x1f2400 256 264;
  S3AN_INFO "3S400AN" 0x1f2400 256 264;
  S3AN_INFO "3S700AN" 0x1f2500 512 264;
  S3AN_INFO "3S1400AN" 0x1f2600 512 528].
Definition spi_nor_ids : list flash_info :=
    atmel_ids ++ eon_ids ++ esmt_ids ++ everspin_ids ++ fujitsu_ids ++ gigadevice_ids ++ intel_ids ++ issi_ids ++
    macronix_ids ++ micron_ids ++ pmc_ids ++ spansion_ids ++ sst_ids ++ st_ids ++ winbond_ids ++ catalyst_ids ++
    s3an_ids.
