(* ===== verification/SpiNor.v ===== *)
(** * The SPI NOR framework (drivers/mtd/spi-nor/spi-nor.c)

    The framework turns the operations of an MTD device into commands for a
    flash, which a controller driver sends: it is a client of the class
    [NorController], which altera-asmip2.c implements.  The file holds the
    framework's state and its operations on a scanned flash; identifying a flash
    is in SpiNorScan.v.  Whether the flash is ready is polled until a deadline in
    jiffies; [polls] is the number of polls after which the wait is taken to
    hang.  The scratch buffer cmd_buf of a command is passed as the bytes of the
    command. *)

From S2P Require Import Prelude.
From S2P Require Import Loops.
Local Open Scope list_scope.
Local Open Scope Z_scope.

(** ** Opcodes and bits (include/linux/mtd/spi-nor-mod.h) *)

Definition SPINOR_OP_WREN : Z := 0x06.
Definition SPINOR_OP_RDSR : Z := 0x05.
Definition SPINOR_OP_WRSR : Z := 0x01.
Definition SPINOR_OP_READ : Z := 0x03.
Definition SPINOR_OP_READ_FAST : Z := 0x0b.
Definition SPINOR_OP_READ_1_1_2 : Z := 0x3b.
Definition SPINOR_OP_READ_1_2_2 : Z := 0xbb.
Definition SPINOR_OP_READ_1_1_4 : Z := 0x6b.
Definition SPINOR_OP_READ_1_4_4 : Z := 0xeb.
Definition SPINOR_OP_PP : Z := 0x02.
Definition SPINOR_OP_PP_1_1_4 : Z := 0x32.
Definition SPINOR_OP_PP_1_4_4 : Z := 0x38.
Definition SPINOR_OP_BE_4K : Z := 0x20.
Definition SPINOR_OP_BE_4K_PMC : Z := 0xd7.
Definition SPINOR_OP_BE_32K : Z := 0x52.
Definition SPINOR_OP_CHIP_ERASE : Z := 0xc7.
Definition SPINOR_OP_SE : Z := 0xd8.
Definition SPINOR_OP_RDID : Z := 0x9f.
Definition SPINOR_OP_RDCR : Z := 0x35.
Definition SPINOR_OP_RDFSR : Z := 0x70.
Definition SPINOR_OP_READ_4B : Z := 0x13.
Definition SPINOR_OP_READ_FAST_4B : Z := 0x0c.
Definition SPINOR_OP_READ_1_1_2_4B : Z := 0x3c.
Definition SPINOR_OP_READ_1_2_2_4B : Z := 0xbc.
Definition SPINOR_OP_READ_1_1_4_4B : Z := 0x6c.
Definition SPINOR_OP_READ_1_4_4_4B : Z := 0xec.
Definition SPINOR_OP_PP_4B : Z := 0x12.
Definition SPINOR_OP_PP_1_1_4_4B : Z := 0x34.
Definition SPINOR_OP_PP_1_4_4_4B : Z := 0x3e.
Definition SPINOR_OP_BE_4K_4B : Z := 0x21.
Definition SPINOR_OP_BE_32K_4B : Z := 0x5c.
Definition SPINOR_OP_SE_4B : Z := 0xdc.
Definition SPINOR_OP_BP : Z := 0x02.
Definition SPINOR_OP_WRDI : Z := 0x04.
Definition SPINOR_OP_AAI_WP : Z := 0xad.
Definition SPINOR_OP_XSE : Z := 0x50.
Definition SPINOR_OP_XPP : Z := 0x82.
Definition SPINOR_OP_XRDSR : Z := 0xd7.
Definition XSR_PAGESIZE : Z := 2 ^ 0.
Definition XSR_RDY : Z := 2 ^ 7.
Definition SPINOR_OP_EN4B : Z := 0xb7.
Definition SPINOR_OP_EX4B : Z := 0xe9.
Definition SPINOR_OP_BRWR : Z := 0x17.
Definition SR_WIP : Z := 2 ^ 0.
Definition SR_BP0 : Z := 2 ^ 2.
Definition SR_BP1 : Z := 2 ^ 3.
Definition SR_BP2 : Z := 2 ^ 4.
Definition SR_TB : Z := 2 ^ 5.
Definition SR_SRWD : Z := 2 ^ 7.
Definition SR_QUAD_EN_MX : Z := 2 ^ 6.
Definition FSR_READY : Z := 2 ^ 7.
Definition CR_QUAD_EN_SPAN : Z := 2 ^ 1.

Inductive read_mode := SPI_NOR_NORMAL | SPI_NOR_FAST | SPI_NOR_DUAL | SPI_NOR_QUAD.
Inductive spi_nor_ops := SPI_NOR_OPS_READ | SPI_NOR_OPS_WRITE | SPI_NOR_OPS_ERASE | SPI_NOR_OPS_LOCK | SPI_NOR_OPS_UNLOCK.
#[export] Instance read_mode_eq_dec : EqDecision read_mode.
Proof. solve_decision. Defined.

Definition SNOR_F_USE_FSR : Z := 2 ^ 0.
Definition SNOR_F_HAS_SR_TB : Z := 2 ^ 1.
Definition SNOR_F_NO_OP_CHIP_ERASE : Z := 2 ^ 2.
Definition SNOR_F_S3AN_ADDR_DEFAULT : Z := 2 ^ 3.
Definition SNOR_F_READY_XSR_RDY : Z := 2 ^ 4.

(** ** State *)

(** What the framework sets in struct mtd_info: the geometry, the flag
    MTD_NO_ERASE, whether writes go to sst_write and whether there are the
    operations on locks. *)
Record mtd_info := Mtd {
  mtd_size : Z; mtd_erasesize : Z; mtd_writebufsize : Z; mtd_no_erase : bool; mtd_sst : bool; mtd_lockable : bool;
}.

Record spi_nor := SpiNor {
  mtd : mtd_info; nor_lock : bool; page_size : Z; addr_width : Z; erase_opcode : Z; read_opcode : Z; read_dummy : Z;
  program_opcode : Z; flash_read : read_mode; sst_write_second : bool; nor_flags : Z;
  flash_lock : bool;   (* flash_lock, flash_unlock and flash_is_locked are those of ST Micro *)
}.
Definition set_mtd m n := SpiNor m (nor_lock n) (page_size n) (addr_width n) (erase_opcode n) (read_opcode n)
  (read_dummy n) (program_opcode n) (flash_read n) (sst_write_second n) (nor_flags n) (flash_lock n).
Definition set_lock b n := SpiNor (mtd n) b (page_size n) (addr_width n) (erase_opcode n) (read_opcode n)
  (read_dummy n) (program_opcode n) (flash_read n) (sst_write_second n) (nor_flags n) (flash_lock n).
Definition set_opcodes e r p n := SpiNor (mtd n) (nor_lock n) (page_size n) (addr_width n) e r
  (read_dummy n) p (flash_read n) (sst_write_second n) (nor_flags n) (flash_lock n).
Definition set_program_opcode p n := set_opcodes (erase_opcode n) (read_opcode n) p n.
Definition set_second b n := SpiNor (mtd n) (nor_lock n) (page_size n) (addr_width n) (erase_opcode n) (read_opcode n)
  (read_dummy n) (program_opcode n) (flash_read n) b (nor_flags n) (flash_lock n).
Definition has_flag (f : Z) (n : spi_nor) : bool := istrue (Z.land (nor_flags n) f).

(** The driver of a controller, with the clock of its machine; [prepare],
    [unprepare] and [erase] may be missing. *)
Class NorController (C : Type) := {
  nc_prepare : option (spi_nor_ops -> K C Z);
  nc_unprepare : option (spi_nor_ops -> K C unit);
  nc_read_reg : Z -> Z -> K C (Z * list Z);            (* opcode, how many bytes *)
  nc_write_reg : Z -> list Z -> K C Z;
  nc_read : spi_nor -> Z -> Z -> K C (Z * list Z);     (* from, how many bytes *)
  nc_write : spi_nor -> Z -> list Z -> K C Z;
  nc_erase : option (spi_nor -> Z -> K C Z);
  nc_jiffies : C -> Z;
  nc_resched : C -> C;
}.

Record nordev (C : Type) := NorDev { ctl : C; nor : spi_nor }.
Arguments NorDev {C}. Arguments ctl {C}. Arguments nor {C}.
Definition set_ctl {C} (c : C) (s : nordev C) := NorDev c (nor s).
Definition set_nor {C} (n : spi_nor) (s : nordev C) := NorDev (ctl s) n.

Section Commands.
Context {C : Type} {con : NorController C}.
(** HZ; at most [polls] rounds of a wait. *)
Variable HZ : Z.
Variable polls : positive.
Abbreviation dev := (nordev C).

Definition on_ctl {A} (c : K C A) : K dev A := zoom ctl set_ctl c.
Definition mod_nor (f : spi_nor -> spi_nor) : K dev unit := kmod (fun s => set_nor (f (nor s)) s).
Definition read_reg (opcode len : Z) : K dev (Z * list Z) := on_ctl (nc_read_reg opcode len).
Definition write_reg (opcode : Z) (buf : list Z) : K dev Z := on_ctl (nc_write_reg opcode buf).

(** *** Registers *)

(** A byte, or the negative error. *)
Definition read_byte (opcode : Z) : K dev Z :=
  r <- read_reg opcode 1 ;;
  if fst r <? 0 then kret (fst r) else deref (head (snd r)).
Definition read_sr : K dev Z := read_byte SPINOR_OP_RDSR.
Definition read_fsr : K dev Z := read_byte SPINOR_OP_RDFSR.
Definition read_cr : K dev Z := read_byte SPINOR_OP_RDCR.
Definition write_sr (val : Z) : K dev Z := write_reg SPINOR_OP_WRSR [u8 val].
Definition write_enable : K dev Z := write_reg SPINOR_OP_WREN [].
Definition write_disable : K dev Z := write_reg SPINOR_OP_WRDI [].
Definition write_sr_cr (val : Z) : K dev Z := write_reg SPINOR_OP_WRSR [Z.land val 0xff; u8 (Z.shiftr val 8)].

(** *** Waiting *)

Definition s3an_sr_ready : K dev Z :=
  v <- read_byte SPINOR_OP_XRDSR ;;
  kret (if v <? 0 then v else if istrue (Z.land v XSR_RDY) then 1 else 0).
Definition spi_nor_sr_ready : K dev Z :=
  sr <- read_sr ;;
  kret (if sr <? 0 then sr else if istrue (Z.land sr SR_WIP) then 0 else 1).
Definition spi_nor_fsr_ready : K dev Z :=
  fsr <- read_fsr ;;
  kret (if fsr <? 0 then fsr else Z.land fsr FSR_READY).

Definition spi_nor_ready : K dev Z :=
  n <- kgets nor ;;
  sr <- (if has_flag SNOR_F_READY_XSR_RDY n then s3an_sr_ready else spi_nor_sr_ready) ;;
  if sr <? 0 then kret sr
  else
    fsr <- (if has_flag SNOR_F_USE_FSR n then spi_nor_fsr_ready else kret 1) ;;
    if fsr <? 0 then kret fsr else kret (if istrue sr && istrue fsr then 1 else 0).

(** The difference of two counters, as a signed long. *)
Definition s64 (x : Z) : Z := (x + 2 ^ 63) mod 2 ^ 64 - 2 ^ 63.
Definition time_after_eq (a b : Z) : bool := 0 <=? s64 (a - b).

Definition wait_round (deadline : Z) (timeout : bool) : K dev (bool + Z) :=
  if timeout then kret (inr (- ETIMEDOUT))
  else
    now <- kgets (fun s => nc_jiffies (ctl s)) ;;
    ret <- spi_nor_ready ;;
    if ret <? 0 then kret (inr ret)
    else if istrue ret then kret (inr 0)
    else kmod (fun s => set_ctl (nc_resched (ctl s)) s) ;; kret (inl (time_after_eq now deadline)).
Definition spi_nor_wait_till_ready_with_timeout (timeout_jiffies : Z) : K dev Z :=
  now <- kgets (fun s => nc_jiffies (ctl s)) ;;
  kwhile (wait_round (u64 (now + timeout_jiffies))) polls false.

Definition DEFAULT_READY_WAIT_JIFFIES : Z := 40 * HZ.
Definition CHIP_ERASE_2MB_READY_WAIT_JIFFIES : Z := 40 * HZ.
Definition spi_nor_wait_till_ready : K dev Z := spi_nor_wait_till_ready_with_timeout DEFAULT_READY_WAIT_JIFFIES.

(** *** The lock of the operations *)

Definition spi_nor_lock_and_prep (ops : spi_nor_ops) : K dev Z :=
  n <- kgets nor ;;
  if nor_lock n then oops
  else
    mod_nor (set_lock true) ;;
    match nc_prepare with
    | None => kret 0
    | Some prepare =>
        ret <- on_ctl (prepare ops) ;;
        if istrue ret then mod_nor (set_lock false) ;; kret ret else kret ret
    end.
Definition spi_nor_unlock_and_unprep (ops : spi_nor_ops) : K dev unit :=
  match nc_unprepare with Some unprepare => on_ctl (unprepare ops) | None => kret tt end ;;
  n <- kgets nor ;;
  if nor_lock n then mod_nor (set_lock false) else oops.

(** Between the two: nothing if the preparation fails. *)
Definition locked {A} (ops unops : spi_nor_ops) (fail : Z -> A) (c : K dev A) : K dev A :=
  ret <- spi_nor_lock_and_prep ops ;;
  if istrue ret then kret (fail ret)
  else a <- c ;; spi_nor_unlock_and_unprep unops ;; kret a.

(** *** Addresses *)

Definition spi_nor_s3an_addr_convert (n : spi_nor) (addr : Z) : Z :=
  let addr := u32 addr in
  let offset := addr mod page_size n in
  let page := addr / page_size n in
  Z.lor (u32 (Z.shiftl page (if 512 <? page_size n then 10 else 9))) offset.
Definition convert_addr (n : spi_nor) (addr : Z) : Z :=
  if has_flag SNOR_F_S3AN_ADDR_DEFAULT n then spi_nor_s3an_addr_convert n addr else addr.

(** The loop from the last byte of the address down to the first. *)
Fixpoint address_bytes (n : nat) (addr : Z) (buf : list Z) : list Z :=
  match n with O => buf | S n => address_bytes n (Z.shiftr addr 8) (Z.land addr 0xff :: buf) end.

(** *** Erasing *)

Definition erase_chip : K dev Z := write_reg SPINOR_OP_CHIP_ERASE [].

Definition spi_nor_erase_sector (addr : Z) : K dev Z :=
  n <- kgets nor ;;
  let addr := u32 (convert_addr n addr) in
  match nc_erase with
  | Some erase => on_ctl (erase n addr)
  | None => write_reg (erase_opcode n) (address_bytes (Z.to_nat (addr_width n)) addr [])
  end.

Inductive erase_state := MTD_ERASE_PENDING | MTD_ERASE_DONE | MTD_ERASE_FAILED.
(** An erase request; [ei_part] is the offset of the partition it was made on, if
    the request's device erases through the file's own part_erase; [ei_called]
    counts the calls of the callback. *)
Record erase_info := EraseInfo {
  ei_addr : Z; ei_len : Z; ei_fail_addr : Z; ei_state : erase_state; ei_part : option Z; ei_called : nat;
}.
Definition MTD_FAIL_ADDR_UNKNOWN : Z := 2 ^ 64 - 1.

Definition mtd_erase_callback (instr : erase_info) : erase_info :=
  let instr := match ei_part instr with
    | Some off =>
        EraseInfo (u64 (ei_addr instr - off)) (ei_len instr)
          (if ei_fail_addr instr =? MTD_FAIL_ADDR_UNKNOWN then ei_fail_addr instr else u64 (ei_fail_addr instr - off))
          (ei_state instr) (ei_part instr) (ei_called instr)
    | None => instr
    end in
  EraseInfo (ei_addr instr) (ei_len instr) (ei_fail_addr instr) (ei_state instr) (ei_part instr) (S (ei_called instr)).
Definition set_state (st : erase_state) (instr : erase_info) : erase_info :=
  EraseInfo (ei_addr instr) (ei_len instr) (ei_fail_addr instr) st (ei_part instr) (ei_called instr).

(** A sector at a time; the addresses and lengths of the loop are 32 bits wide. *)
Definition erase_sectors_round (erasesize : Z) (al : Z * Z) : K dev (Z * Z + Z) :=
  let '(addr, len) := al in
  if len =? 0 then kret (inr 0)
  else
    write_enable ;;
    ret <- spi_nor_erase_sector addr ;;
    if istrue ret then kret (inr ret)
    else
      let addr := u32 (addr + erasesize) in
      let len := u32 (len - erasesize) in
      ret <- spi_nor_wait_till_ready ;;
      if istrue ret then kret (inr ret) else kret (inl (addr, len)).

Definition SZ_2M : Z := 0x200000.
Definition chip_erase_timeout (size : Z) : Z :=
  Z.max CHIP_ERASE_2MB_READY_WAIT_JIFFIES (u64 (CHIP_ERASE_2MB_READY_WAIT_JIFFIES * (size / SZ_2M))).

Definition erase_range (addr len : Z) : K dev Z :=
  n <- kgets nor ;;
  let m := mtd n in
  ret <- (if (len =? mtd_size m) && negb (has_flag SNOR_F_NO_OP_CHIP_ERASE n) then
            write_enable ;;
            r <- erase_chip ;;
            if istrue r then kret (- EIO)
            else spi_nor_wait_till_ready_with_timeout (chip_erase_timeout (mtd_size m))
          else kwhile (erase_sectors_round (mtd_erasesize m)) (Z.to_pos (len + 1)) (addr, len)) ;;
  if istrue ret then kret ret else write_disable ;; kret 0.

Definition spi_nor_erase (instr : erase_info) : K dev (Z * erase_info) :=
  n <- kgets nor ;;
  if istrue (ei_len instr mod mtd_erasesize (mtd n)) then kret (- EINVAL, instr)
  else
    locked SPI_NOR_OPS_ERASE SPI_NOR_OPS_ERASE (fun ret => (ret, instr))
      (ret <- erase_range (u32 (ei_addr instr)) (u32 (ei_len instr)) ;;
       kret (ret, mtd_erase_callback (set_state (if istrue ret then MTD_ERASE_FAILED else MTD_ERASE_DONE) instr))).

(** Never the erase function of a partition, which is the one of mtdpart.c. *)
Definition part_erase (offset : Z) (instr : erase_info) (erase : erase_info -> K dev (Z * erase_info)) :
    K dev (Z * erase_info) :=
  let move d i := EraseInfo (u64 (ei_addr i + d)) (ei_len i) (ei_fail_addr i) (ei_state i) (ei_part i) (ei_called i) in
  r <- erase (move offset instr) ;;
  let '(ret, i) := r in
  if istrue ret then
    kret (ret, EraseInfo (u64 (ei_addr i - offset)) (ei_len i)
      (if ei_fail_addr i =? MTD_FAIL_ADDR_UNKNOWN then ei_fail_addr i else u64 (ei_fail_addr i - offset))
      (ei_state i) (ei_part i) (ei_called i))
  else kret (ret, i).

(** *** Protection of blocks *)

Definition SR_BP_MASK : Z := Z.lor SR_BP2 (Z.lor SR_BP1 SR_BP0).
(* ffs(mask) - 1 *)
Definition SR_BP_SHIFT : Z := 2.

(** The offset and length that a status register protects. *)
Definition stm_get_locked_range (n : spi_nor) (sr : Z) : Z * Z :=
  let size := mtd_size (mtd n) in
  if Z.land sr SR_BP_MASK =? 0 then (0, 0)
  else
    let pow := Z.shiftr (Z.lxor (Z.land sr SR_BP_MASK) SR_BP_MASK) SR_BP_SHIFT in
    let len := Z.shiftr size pow in
    (if has_flag SNOR_F_HAS_SR_TB n && istrue (Z.land sr SR_TB) then 0 else size - len, len).

(** Sums are unsigned, offsets are compared as signed numbers. *)
Definition stm_check_lock_status_sr (n : spi_nor) (ofs len sr : Z) (locked : bool) : bool :=
  if len =? 0 then true
  else
    let '(lock_offs, lock_len) := stm_get_locked_range n sr in
    if locked then (u64 (ofs + len) <=? u64 (lock_offs + lock_len)) && (lock_offs <=? ofs)
    else (u64 (lock_offs + lock_len) <=? u64 ofs) || (u64 (ofs + len) <=? u64 lock_offs).
Definition stm_is_locked_sr (n : spi_nor) (ofs len sr : Z) : bool := stm_check_lock_status_sr n ofs len sr true.
Definition stm_is_unlocked_sr (n : spi_nor) (ofs len sr : Z) : bool := stm_check_lock_status_sr n ofs len sr false.

Definition ilog2 (x : Z) : Z := Z.log2 (u64 x).
Definition order_base_2 (x : Z) : Z := Z.log2_up (u64 x).

(** The status register that protects [2 ^ -pow] of the flash, at the top or at
    the bottom; nothing if there is no such value of the bits. *)
Definition bp_bits (pow : Z) : option Z :=
  let val := u8 (SR_BP_MASK - Z.shiftl (u8 pow) SR_BP_SHIFT) in
  if istrue (Z.ldiff val SR_BP_MASK) then None else Some val.
Definition new_status (status_old val : Z) : Z := Z.lor (Z.ldiff (Z.ldiff status_old SR_BP_MASK) SR_TB) val.

(** What stm_lock does about a status: an error, or a new status to write. *)
Definition lock_status (n : spi_nor) (ofs len status_old : Z) : Z + option Z :=
  let size := mtd_size (mtd n) in
  if stm_is_locked_sr n ofs len status_old then inr None
  else
    let can_be_bottom := has_flag SNOR_F_HAS_SR_TB n && stm_is_locked_sr n 0 ofs status_old in
    let can_be_top := stm_is_locked_sr n (ofs + len) (u64 (size - (ofs + len))) status_old in
    if negb can_be_bottom && negb can_be_top then inl (- EINVAL)
    else
      let use_top := can_be_top in
      let lock_len := if use_top then size - ofs else ofs + len in
      match bp_bits (ilog2 size - ilog2 lock_len) with
      | None => inl (- EINVAL)
      | Some val =>
          if Z.land val SR_BP_MASK =? 0 then inl (- EINVAL)
          else
            let status_new := Z.lor (new_status status_old val) SR_SRWD in
            let status_new := if use_top then status_new else Z.lor status_new SR_TB in
            if status_new =? status_old then inr None
            else if Z.land status_new SR_BP_MASK <? Z.land status_old SR_BP_MASK then inl (- EINVAL)
            else inr (Some status_new)
      end.

Definition unlock_status (n : spi_nor) (ofs len status_old : Z) : Z + option Z :=
  let size := mtd_size (mtd n) in
  if stm_is_unlocked_sr n ofs len status_old then inr None
  else
    let can_be_top := stm_is_unlocked_sr n 0 ofs status_old in
    let can_be_bottom := has_flag SNOR_F_HAS_SR_TB n && stm_is_unlocked_sr n (ofs + len) (u64 (size - (ofs + len))) status_old in
    if negb can_be_bottom && negb can_be_top then inl (- EINVAL)
    else
      let use_top := can_be_top in
      let lock_len := if use_top then size - (ofs + len) else ofs in
      match (if lock_len =? 0 then Some 0 else bp_bits (ilog2 size - order_base_2 lock_len)) with
      | None => inl (- EINVAL)
      | Some val =>
          let status_new := new_status status_old val in
          let status_new := if lock_len =? 0 then Z.ldiff status_new SR_SRWD else status_new in
          let status_new := if use_top then status_new else Z.lor status_new SR_TB in
          if status_new =? status_old then inr None
          else if Z.land status_old SR_BP_MASK <? Z.land status_new SR_BP_MASK then inl (- EINVAL)
          else inr (Some status_new)
      end.

(** Reads the status, and writes what [f] makes of it. *)
Definition change_status (f : spi_nor -> Z -> Z + option Z) : K dev Z :=
  n <- kgets nor ;;
  status_old <- read_sr ;;
  if status_old <? 0 then kret status_old
  else
    match f n status_old with
    | inl err => kret err
    | inr None => kret 0
    | inr (Some status_new) =>
        write_enable ;;
        ret <- write_sr status_new ;;
        if istrue ret then kret ret else spi_nor_wait_till_ready
    end.
Definition stm_lock (ofs len : Z) : K dev Z := change_status (fun n => lock_status n ofs len).
Definition stm_unlock (ofs len : Z) : K dev Z := change_status (fun n => unlock_status n ofs len).
Definition stm_is_locked (ofs len : Z) : K dev Z :=
  n <- kgets nor ;;
  status <- read_sr ;;
  kret (if status <? 0 then status else if stm_is_locked_sr n ofs len status then 1 else 0).

(** A flash without these operations has no such pointers. *)
Definition need_lock {A} (c : K dev A) : K dev A := n <- kgets nor ;; if flash_lock n then c else oops.
Definition spi_nor_lock (ofs len : Z) : K dev Z :=
  locked SPI_NOR_OPS_LOCK SPI_NOR_OPS_UNLOCK id (need_lock (stm_lock ofs len)).
Definition spi_nor_unlock (ofs len : Z) : K dev Z :=
  locked SPI_NOR_OPS_UNLOCK SPI_NOR_OPS_LOCK id (need_lock (stm_unlock ofs len)).
Definition spi_nor_is_locked (ofs len : Z) : K dev Z :=
  locked SPI_NOR_OPS_UNLOCK SPI_NOR_OPS_LOCK id (need_lock (stm_is_locked ofs len)).

(** *** Reading *)

(** What is left, and the bytes so far, last first in pieces. *)
Definition read_round (a : Z * Z * list Z) : K dev (Z * Z * list Z + Z * list Z) :=
  let '(from, len, buf) := a in
  if len =? 0 then kret (inr (0, buf))
  else
    n <- kgets nor ;;
    r <- on_ctl (nc_read n (convert_addr n from) len) ;;
    let ret := s32 (fst r) in
    if ret =? 0 then kret (inr (- EIO, buf))
    else if ret <? 0 then kret (inr (ret, buf))
    else if len <? ret then oops    (* stored past the end of the buffer *)
    else kret (inl (from + ret, len - ret, buf ++ snd r)).

(** The result and the bytes read, of which there are [*retlen]. *)
Definition spi_nor_read (from len : Z) : K dev (Z * list Z) :=
  locked SPI_NOR_OPS_READ SPI_NOR_OPS_READ (fun ret => (ret, []))
    (kwhile read_round (Z.to_pos (len + 1)) (from, len, [])).

(** *** Writing *)

(** [hweight32(x) == 1] *)
Definition is_pow2 (x : Z) : bool := negb (x =? 0) && (Z.land x (x - 1) =? 0).
Definition page_offset (n : spi_nor) (addr : Z) : Z :=
  if is_pow2 (page_size n) then Z.land addr (page_size n - 1) else addr mod page_size n.

Definition slice (i len : Z) (buf : list Z) : list Z := take (Z.to_nat len) (drop (Z.to_nat i) buf).

(** A page, or what is left of it; ends with the result and [*retlen]. *)
Definition write_round (to : Z) (buf : list Z) (i : Z) : K dev (Z + Z * Z) :=
  let len := Z.of_nat (length buf) in
  if len <=? i then kret (inr (0, i))
  else
    n <- kgets nor ;;
    let addr := to + i in
    if page_size n =? 0 then oops
    else
      let page_remain := Z.min (page_size n - page_offset n addr) (len - i) in
      let addr := convert_addr n addr in
      write_enable ;;
      ret <- on_ctl (nc_write n addr (slice i page_remain buf)) ;;
      if ret <? 0 then kret (inr (ret, i))
      else
        let written := ret in
        ret <- spi_nor_wait_till_ready ;;
        if istrue ret then kret (inr (ret, i))
        else if negb (written =? page_remain) then kret (inr (- EIO, i + written))
        else kret (inl (i + written)).

Definition spi_nor_write (to : Z) (buf : list Z) : K dev (Z * Z) :=
  locked SPI_NOR_OPS_WRITE SPI_NOR_OPS_WRITE (fun ret => (ret, 0))
    (kwhile (write_round to buf) (Z.to_pos (Z.of_nat (length buf) + 1)) 0).

(** Byte programming of SST flashes: one write of one or two bytes, with the
    opcode, and the wait.  The bytes after the end of the buffer are not there. *)
Definition sst_program (opcode to i n : Z) (buf : list Z) : K dev Z :=
  mod_nor (set_program_opcode opcode) ;;
  if Z.of_nat (length buf) <? i + n then oops
  else
    nr <- kgets nor ;;
    ret <- on_ctl (nc_write nr to (slice i n buf)) ;;
    if ret <? 0 then kret ret else spi_nor_wait_till_ready.

(** Two bytes at a time: the error, or where it stopped. *)
Definition sst_round (buf : list Z) (a : Z * Z) : K dev (Z * Z + Z * (Z * Z)) :=
  let '(to, actual) := a in
  if negb (actual <? u64 (Z.of_nat (length buf) - 1)) then kret (inr (0, (to, actual)))
  else
    ret <- sst_program SPINOR_OP_AAI_WP to actual 2 buf ;;
    if istrue ret then kret (inr (ret, (to, actual)))
    else mod_nor (set_second true) ;; kret (inl (to + 2, actual + 2)).

(** The result and the number of bytes that are taken to be written. *)
Definition sst_body (to : Z) (buf : list Z) : K dev (Z * Z) :=
  write_enable ;;
  mod_nor (set_second false) ;;
  let actual := to mod 2 in
  ret <- (if istrue actual then sst_program SPINOR_OP_BP to 0 1 buf else kret 0) ;;
  if istrue ret then kret (ret, actual)
  else
    r <- kwhile (sst_round buf) (Z.to_pos (Z.of_nat (length buf) + 1)) (to + actual, actual) ;;
    let '(ret, (to, actual)) := r in
    if istrue ret then kret (ret, actual)
    else
      mod_nor (set_second false) ;;
      write_disable ;;
      ret <- spi_nor_wait_till_ready ;;
      if istrue ret then kret (ret, actual)
      else if actual =? Z.of_nat (length buf) then kret (ret, actual)
      else
        write_enable ;;
        ret <- sst_program SPINOR_OP_BP to actual 1 buf ;;
        if istrue ret then kret (ret, actual)
        else write_disable ;; kret (ret, actual + 1).
Definition sst_write (to : Z) (buf : list Z) : K dev (Z * Z) :=
  locked SPI_NOR_OPS_WRITE SPI_NOR_OPS_WRITE (fun ret => (ret, 0)) (sst_body to buf).

(** The function in mtd->_write. *)
Definition mtd_write (to : Z) (buf : list Z) : K dev (Z * Z) :=
  n <- kgets nor ;; if mtd_sst (mtd n) then sst_write to buf else spi_nor_write to buf.
End Commands.
