(* ===== verification/SpiNorScan.v ===== *)
(** * Identifying a flash (spi_nor_scan)

    spi_nor_scan finds the entry of a flash by its name and its ID, and sets the
    geometry and the commands of struct spi_nor from it. *)

From S2P Require Import Prelude.
From S2P Require Import Loops.
From S2P Require Import SpiNorIds.
From S2P Require Import SpiNor.
Local Open Scope list_scope.
Local Open Scope Z_scope.

Definition ENOENT : Z := 2.

(** Manufacturers (linux/mtd/cfi.h for the names CFI_MFR). *)
Definition SNOR_MFR_ATMEL : Z := 0x1f.
Definition SNOR_MFR_INTEL : Z := 0x89.
Definition SNOR_MFR_MICRON : Z := 0x20.
Definition SNOR_MFR_MACRONIX : Z := 0xc2.
Definition SNOR_MFR_SPANSION : Z := 0x01.
Definition SNOR_MFR_SST : Z := 0xbf.
Definition SNOR_MFR_WINBOND : Z := 0xef.

Definition JEDEC_MFR (info : flash_info) : Z := default 0 (head (fi_id info)).
Definition fi_has (f : Z) (info : flash_info) : bool := istrue (Z.land (fi_flags info) f).

(** ** The table *)

(** The first entry from the [i]-th on that satisfies [p]. *)
Fixpoint find_from (p : flash_info -> bool) (i : nat) (l : list flash_info) : option nat :=
  match l with
  | [] => None
  | info :: l => if p info then Some i else find_from p (S i) l
  end.
Definition spi_nor_match_id (name : string) : option nat :=
  find_from (fun info => bool_decide (fi_name info = name)) 0 spi_nor_ids.
Definition id_matches (id : list Z) (info : flash_info) : bool :=
  istrue (fi_id_len info) &&
  bool_decide (take (Z.to_nat (fi_id_len info)) (fi_id info) = take (Z.to_nat (fi_id_len info)) id).

(** ** Opcodes *)

Fixpoint spi_nor_convert_opcode (opcode : Z) (table : list (Z * Z)) : Z :=
  match table with
  | [] => opcode
  | (a, b) :: table => if a =? opcode then b else spi_nor_convert_opcode opcode table
  end.
Definition spi_nor_3to4_read : list (Z * Z) := [
  (SPINOR_OP_READ, SPINOR_OP_READ_4B); (SPINOR_OP_READ_FAST, SPINOR_OP_READ_FAST_4B);
  (SPINOR_OP_READ_1_1_2, SPINOR_OP_READ_1_1_2_4B); (SPINOR_OP_READ_1_2_2, SPINOR_OP_READ_1_2_2_4B);
  (SPINOR_OP_READ_1_1_4, SPINOR_OP_READ_1_1_4_4B); (SPINOR_OP_READ_1_4_4, SPINOR_OP_READ_1_4_4_4B)].
Definition spi_nor_3to4_program : list (Z * Z) := [
  (SPINOR_OP_PP, SPINOR_OP_PP_4B); (SPINOR_OP_PP_1_1_4, SPINOR_OP_PP_1_1_4_4B);
  (SPINOR_OP_PP_1_4_4, SPINOR_OP_PP_1_4_4_4B)].
Definition spi_nor_3to4_erase : list (Z * Z) := [
  (SPINOR_OP_BE_4K, SPINOR_OP_BE_4K_4B); (SPINOR_OP_BE_32K, SPINOR_OP_BE_32K_4B);
  (SPINOR_OP_SE, SPINOR_OP_SE_4B)].
Definition spi_nor_convert_3to4_read opcode : Z := spi_nor_convert_opcode opcode spi_nor_3to4_read.
Definition spi_nor_convert_3to4_program opcode : Z := spi_nor_convert_opcode opcode spi_nor_3to4_program.
Definition spi_nor_convert_3to4_erase opcode : Z := spi_nor_convert_opcode opcode spi_nor_3to4_erase.

Definition set_erasesize e (m : mtd_info) := Mtd (mtd_size m) e (mtd_writebufsize m) (mtd_no_erase m) (mtd_sst m) (mtd_lockable m).

Definition spi_nor_set_4byte_opcodes (info : flash_info) (n : spi_nor) : spi_nor :=
  let n := if JEDEC_MFR info =? SNOR_MFR_SPANSION
           then set_mtd (set_erasesize (fi_sector_size info) (mtd n))
                  (set_opcodes SPINOR_OP_SE (read_opcode n) (program_opcode n) n)
           else n in
  set_opcodes (spi_nor_convert_3to4_erase (erase_opcode n)) (spi_nor_convert_3to4_read (read_opcode n))
    (spi_nor_convert_3to4_program (program_opcode n)) n.

Definition spi_nor_read_dummy_cycles (m : read_mode) : Z :=
  match m with SPI_NOR_FAST | SPI_NOR_DUAL | SPI_NOR_QUAD => 8 | SPI_NOR_NORMAL => 0 end.

(** ** The scan *)

(** What the system says: whether a device tree node describes the flash, and
    whether it asks for fast reads; whether small sectors are preferred. *)
Record scan_env := ScanEnv { np : option bool; config_of : bool; use_4k_sectors : bool }.

Section Scan.
Context {C : Type} {con : NorController C}.
Variable HZ : Z.
Variable polls : positive.
Variable env : scan_env.
Abbreviation dev := (nordev C).
Abbreviation wait_ready := (spi_nor_wait_till_ready HZ polls).

(** An error, or the index of the entry. *)
Definition spi_nor_read_id : K dev (Z + nat) :=
  r <- read_reg SPINOR_OP_RDID SPI_NOR_MAX_ID_LEN ;;
  if fst r <? 0 then kret (inl (fst r))
  else kret (match find_from (id_matches (snd r)) 0 spi_nor_ids with Some i => inr i | None => inl (- ENODEV) end).

(** *** Modes of the flash *)

Definition set_4byte (info : flash_info) (enable : Z) : K dev Z :=
  if bool_decide (JEDEC_MFR info ∈ [SNOR_MFR_MICRON; SNOR_MFR_MACRONIX; SNOR_MFR_WINBOND]) then
    let need_wren := JEDEC_MFR info =? SNOR_MFR_MICRON in
    (if need_wren then write_enable else kret 0) ;;
    status <- write_reg (if istrue enable then SPINOR_OP_EN4B else SPINOR_OP_EX4B) [] ;;
    (if need_wren then write_disable else kret 0) ;;
    kret status
  else write_reg SPINOR_OP_BRWR [u8 (Z.shiftl enable 7)].

Definition macronix_quad_enable : K dev Z :=
  val <- read_sr ;;
  if val <? 0 then kret val
  else if istrue (Z.land val SR_QUAD_EN_MX) then kret 0
  else
    write_enable ;;
    write_sr (Z.lor val SR_QUAD_EN_MX) ;;
    ret <- wait_ready ;;
    if istrue ret then kret 1
    else
      ret <- read_sr ;;
      kret (if (0 <? ret) && istrue (Z.land ret SR_QUAD_EN_MX) then 0 else - EINVAL).

Definition spansion_quad_enable : K dev Z :=
  write_enable ;;
  ret <- write_sr_cr (Z.shiftl CR_QUAD_EN_SPAN 8) ;;
  if ret <? 0 then kret (- EINVAL)
  else
    ret <- wait_ready ;;
    if istrue ret then kret ret
    else
      ret <- read_cr ;;
      kret (if (0 <? ret) && istrue (Z.land ret CR_QUAD_EN_SPAN) then 0 else - EINVAL).

Definition set_quad_mode (info : flash_info) : K dev Z :=
  if JEDEC_MFR info =? SNOR_MFR_MACRONIX then
    status <- macronix_quad_enable ;; kret (if istrue status then - EINVAL else status)
  else if JEDEC_MFR info =? SNOR_MFR_MICRON then kret 0
  else status <- spansion_quad_enable ;; kret (if istrue status then - EINVAL else status).

Definition set_flags f (n : spi_nor) := SpiNor (mtd n) (nor_lock n) (page_size n) (addr_width n) (erase_opcode n) (read_opcode n)
  (read_dummy n) (program_opcode n) (flash_read n) (sst_write_second n) (Z.lor (nor_flags n) f) (flash_lock n).
Definition set_page_size p (n : spi_nor) := SpiNor (mtd n) (nor_lock n) p (addr_width n) (erase_opcode n) (read_opcode n)
  (read_dummy n) (program_opcode n) (flash_read n) (sst_write_second n) (nor_flags n) (flash_lock n).
Definition set_addr_width w (n : spi_nor) := SpiNor (mtd n) (nor_lock n) (page_size n) w (erase_opcode n) (read_opcode n)
  (read_dummy n) (program_opcode n) (flash_read n) (sst_write_second n) (nor_flags n) (flash_lock n).
Definition set_flash_read m (n : spi_nor) := SpiNor (mtd n) (nor_lock n) (page_size n) (addr_width n) (erase_opcode n) (read_opcode n)
  (read_dummy n) (program_opcode n) m (sst_write_second n) (nor_flags n) (flash_lock n).
Definition set_dummy d (n : spi_nor) := SpiNor (mtd n) (nor_lock n) (page_size n) (addr_width n) (erase_opcode n) (read_opcode n)
  d (program_opcode n) (flash_read n) (sst_write_second n) (nor_flags n) (flash_lock n).
Definition set_flash_lock b (n : spi_nor) := SpiNor (mtd n) (nor_lock n) (page_size n) (addr_width n) (erase_opcode n) (read_opcode n)
  (read_dummy n) (program_opcode n) (flash_read n) (sst_write_second n) (nor_flags n) (flash_lock n || b).

Definition s3an_power_of_two (info : flash_info) (n : spi_nor) : spi_nor :=
  let ps := if page_size n =? 264 then 256 else 512 in
  set_mtd (Mtd (u32 (8 * ps * fi_n_sectors info)) (8 * ps) ps (mtd_no_erase (mtd n)) (mtd_sst (mtd n)) (mtd_lockable (mtd n)))
    (set_page_size ps n).
Definition s3an_nor_scan (info : flash_info) : K dev Z :=
  val <- read_byte SPINOR_OP_XRDSR ;;
  if val <? 0 then kret val
  else
    mod_nor (fun n => set_flags SNOR_F_NO_OP_CHIP_ERASE (set_opcodes SPINOR_OP_XSE SPINOR_OP_READ SPINOR_OP_XPP n)) ;;
    mod_nor (if istrue (Z.land val XSR_PAGESIZE) then s3an_power_of_two info else set_flags SNOR_F_S3AN_ADDR_DEFAULT) ;;
    kret 0.

(** *** The entry *)

Definition get_info (i : nat) : K dev flash_info := deref (spi_nor_ids !! i).

(** An error, or the entry that is used. *)
Definition find_info (name : option string) : K dev (Z + nat) :=
  let named := name ≫= spi_nor_match_id in
  info <- (match named with
           | Some i => kret (inr i)
           | None => r <- spi_nor_read_id ;; kret (match r with inl _ => inl (- ENOENT) | inr i => inr i end)
           end) ;;
  match info, name with
  | inr i, Some _ =>
      e <- get_info i ;;
      if istrue (fi_id_len e) then
        r <- spi_nor_read_id ;; kret r
      else kret info
  | _, _ => kret info
  end.

(** *** The fields *)

Definition size_of (info : flash_info) : Z := u32 (fi_sector_size info * fi_n_sectors info).

(** The erase command and its size. *)
Definition erase_of (info : flash_info) : Z * Z :=
  if use_4k_sectors env && fi_has SECT_4K info then (SPINOR_OP_BE_4K, 4096)
  else if use_4k_sectors env && fi_has SECT_4K_PMC info then (SPINOR_OP_BE_4K_PMC, 4096)
  else (SPINOR_OP_SE, fi_sector_size info).

Definition nor_flags_of (info : flash_info) : Z :=
  Z.lor (if fi_has USE_FSR info then SNOR_F_USE_FSR else 0)
  (Z.lor (if fi_has SPI_NOR_HAS_TB info then SNOR_F_HAS_SR_TB else 0)
         (if fi_has NO_CHIP_ERASE info then SNOR_F_NO_OP_CHIP_ERASE else 0)).

Definition has_lock_ops (info : flash_info) : bool := (JEDEC_MFR info =? SNOR_MFR_MICRON) || fi_has SPI_NOR_HAS_LOCK info.

(** Everything up to the read mode. *)
Definition fill_geometry (info : flash_info) (n : spi_nor) : spi_nor :=
  let '(op, erasesize) := erase_of info in
  let n := set_flags (nor_flags_of info) (set_flash_lock (has_lock_ops info) n) in
  let m := Mtd (size_of info) erasesize (fi_page_size info) (fi_has SPI_NOR_NO_ERASE info) (fi_has SST_WRITE info)
             (mtd_lockable (mtd n) || flash_lock n) in
  set_page_size (fi_page_size info) (set_mtd m (set_opcodes op (read_opcode n) (program_opcode n) n)).

Definition basic_read_mode (info : flash_info) : read_mode :=
  let m := match np env with
           | Some fast => if config_of env && fast then SPI_NOR_FAST else SPI_NOR_NORMAL
           | None => SPI_NOR_FAST
           end in
  if fi_has SPI_NOR_NO_FR info then SPI_NOR_NORMAL else m.

(** Quad and dual reads, where the flash and the caller have them. *)
Definition select_read_mode (info : flash_info) (mode : read_mode) : K dev Z :=
  mod_nor (set_flash_read (basic_read_mode info)) ;;
  if bool_decide (mode = SPI_NOR_QUAD) && fi_has SPI_NOR_QUAD_READ info then
    ret <- set_quad_mode info ;;
    if istrue ret then kret ret else mod_nor (set_flash_read SPI_NOR_QUAD) ;; kret 0
  else if bool_decide (mode = SPI_NOR_DUAL) && fi_has SPI_NOR_DUAL_READ info then
    mod_nor (set_flash_read SPI_NOR_DUAL) ;; kret 0
  else kret 0.

Definition read_opcode_of (m : read_mode) : Z :=
  match m with
  | SPI_NOR_QUAD => SPINOR_OP_READ_1_1_4
  | SPI_NOR_DUAL => SPINOR_OP_READ_1_1_2
  | SPI_NOR_FAST => SPINOR_OP_READ_FAST
  | SPI_NOR_NORMAL => SPINOR_OP_READ
  end.

(** The width of addresses, with the commands or the mode for four bytes. *)
Definition select_addr_width (info : flash_info) : K dev unit :=
  if istrue (fi_addr_width info) then mod_nor (set_addr_width (u8 (fi_addr_width info)))
  else
    n <- kgets nor ;;
    if 0x1000000 <? mtd_size (mtd n) then
      mod_nor (set_addr_width 4) ;;
      if (JEDEC_MFR info =? SNOR_MFR_SPANSION) || fi_has SPI_NOR_4B_OPCODES info
      then mod_nor (spi_nor_set_4byte_opcodes info)
      else set_4byte info 1 ;; kret tt
    else mod_nor (set_addr_width 3).

(** Flashes that come up protected. *)
Definition needs_unprotect (info : flash_info) : bool :=
  bool_decide (JEDEC_MFR info ∈ [SNOR_MFR_ATMEL; SNOR_MFR_INTEL; SNOR_MFR_SST]) || fi_has SPI_NOR_HAS_LOCK info.

Definition scan_info (info : flash_info) (mode : read_mode) : K dev Z :=
  mod_nor (set_lock false) ;;
  (if fi_has SPI_S3AN info then mod_nor (set_flags SNOR_F_READY_XSR_RDY) else kret tt) ;;
  (if needs_unprotect info then write_enable ;; write_sr 0 ;; wait_ready else kret 0) ;;
  mod_nor (fill_geometry info) ;;
  ret <- select_read_mode info mode ;;
  if istrue ret then kret ret
  else
    mod_nor (fun n => set_opcodes (erase_opcode n) (read_opcode_of (flash_read n)) SPINOR_OP_PP n) ;;
    select_addr_width info ;;
    n <- kgets nor ;;
    if SPI_NOR_MAX_ADDR_WIDTH <? addr_width n then kret (- EINVAL)
    else
      mod_nor (fun n => set_dummy (spi_nor_read_dummy_cycles (flash_read n)) n) ;;
      if fi_has SPI_S3AN info then s3an_nor_scan info else kret 0.

(** [filled] is what spi_nor_check asks for: a device and the four functions. *)
Definition spi_nor_scan (filled : bool) (name : option string) (mode : read_mode) : K dev Z :=
  if negb filled then kret (- EINVAL)
  else
    r <- find_info name ;;
    match r with
    | inl err => kret err
    | inr i => info <- get_info i ;; scan_info info mode
    end.
End Scan.
