(* ===== verification/Asmip2.v ===== *)
(** * The flash controller (drivers/mtd/spi-nor/altera-asmip2.c)

    The ASMI Parallel II block has one data register in front of two FIFOs, a
    register that starts a command and a register with the fill levels.  The
    file holds the operations the driver gives to the spi-nor framework, and
    the life of the controller and its banks.  What spi_nor_scan
    answers to the probe and the MTD core are parameters; the framework is in
    SpiNor.v and SpiNorScan.v. *)

From S2P Require Import Prelude.
From S2P Require Import Mmio32.
From S2P Require Import Loops.
From S2P Require Import Poll.
Local Open Scope list_scope.
Local Open Scope Z_scope.

(** ** Registers *)

Definition QSPI_ACTION_REG : Z := 0.
Definition QSPI_ACTION_RST : Z := 2 ^ 0.
Definition QSPI_ACTION_EN : Z := 2 ^ 1.
Definition QSPI_ACTION_SC : Z := 2 ^ 2.
Definition QSPI_ACTION_DUMMY_SFT : Z := 8.
Definition QSPI_ACTION_READ_BACK_SFT : Z := 16.
Definition QSPI_FIFO_CNT_REG : Z := 4.
Definition QSPI_FIFO_DEPTH : Z := 0x200.
Definition QSPI_FIFO_CNT_MSK : Z := 0x3ff.
Definition QSPI_FIFO_CNT_TX_SFT : Z := 12.
Definition QSPI_DATA_REG : Z := 0x8.
Definition QSPI_POLL_TIMEOUT_US : Z := 10000000.
Definition QSPI_POLL_INTERVAL_US : Z := 5.
Definition ALTERA_ASMIP2_MAX_NUM_FLASH_CHIP : Z := 3.

(** ** State *)

(** The fields of [struct spi_nor] that the driver uses, set by the framework,
    and whether the MTD device is registered. *)
Record altera_asmip2_flash := Flash {
  addr_width : Z; read_opcode : Z; program_opcode : Z; mtd_on : bool;
}.

(** The controller; [flash] has a slot for each bank. *)
Record altera_asmip2 := Asmip2 {
  csr_base : Z; num_flashes : Z; flash : list (option altera_asmip2_flash); bus_mutex : bool;
}.
Definition set_num_flashes n q := Asmip2 (csr_base q) n (flash q) (bus_mutex q).
Definition set_flash f q := Asmip2 (csr_base q) (num_flashes q) f (bus_mutex q).
Definition set_qspi_mutex b q := Asmip2 (csr_base q) (num_flashes q) (flash q) b.

(** The device behind the registers and the driver data. *)
Record qspi (D : Type) := Qspi { qdev : D; qdrv : option altera_asmip2 }.
Arguments Qspi {D}. Arguments qdev {D}. Arguments qdrv {D}.
Definition set_qdev {D} (d : D) (s : qspi D) := Qspi d (qdrv s).
Definition set_qdrv {D} q (s : qspi D) := Qspi (qdev s) q.

(** What the platform, the framework and the MTD core answer. *)
Record qspi_env := QspiEnv {
  platdata : option (Z * Z);                 (* csr_base, num_chip_sel *)
  config_of : bool;                          (* CONFIG_OF *)
  of_children : option (list Z);             (* "reg" of the children of the node *)
  ioremap_ret : Z + Z;                       (* an error, or the address *)
  q_alloc : Z -> bool;                       (* allocation for a bank; -1: the controller *)
  spi_nor_scan : Z -> Z * altera_asmip2_flash;
  mtd_register_ret : Z -> Z;
  mtd_unregister_ret : Z -> Z;
}.

Section Transfer.
Context {D : Type} {dev : Mmio32 D} {clock : Clock D}.

Variable base : Z.

(** Until the fill levels satisfy [cond]. *)
Definition wait_fifo (cond : Z -> bool) : K D Z :=
  r <- readx_poll_timeout (readl (base + QSPI_FIFO_CNT_REG)) cond QSPI_POLL_INTERVAL_US QSPI_POLL_TIMEOUT_US ;;
  kret (fst r).

Definition tx_empty (reg : Z) : bool :=
  Z.land (Z.shiftr reg QSPI_FIFO_CNT_TX_SFT) QSPI_FIFO_CNT_MSK =? 0.
Definition rx_holds (n reg : Z) : bool := Z.land reg QSPI_FIFO_CNT_MSK =? n.

Definition altera_asmip2_write_reg (opcode : Z) (val : list Z) : K D Z :=
  if QSPI_FIFO_DEPTH <? Z.of_nat (length val) + 1 then kret (- EINVAL)
  else
    writeb opcode (base + QSPI_DATA_REG) ;;
    iowrite8_rep (base + QSPI_DATA_REG) val ;;
    writel (Z.lor QSPI_ACTION_EN QSPI_ACTION_SC) (base + QSPI_ACTION_REG) ;;
    ret <- wait_fifo tx_empty ;;
    writel QSPI_ACTION_EN (base + QSPI_ACTION_REG) ;;
    kret ret.

(** The result, and the bytes stored at [val] when it is 0. *)
Definition altera_asmip2_read_reg (opcode len : Z) : K D (Z * list Z) :=
  if QSPI_FIFO_DEPTH <? len then kret (- EINVAL, [])
  else
    writeb opcode (base + QSPI_DATA_REG) ;;
    writel (Z.lor (Z.lor QSPI_ACTION_EN QSPI_ACTION_SC) (Z.shiftl len QSPI_ACTION_READ_BACK_SFT))
      (base + QSPI_ACTION_REG) ;;
    ret <- wait_fifo (rx_holds len) ;;
    val <- (if ret =? 0 then ioread8_rep (base + QSPI_DATA_REG) (Z.to_nat len) else kret []) ;;
    writel QSPI_ACTION_EN (base + QSPI_ACTION_REG) ;;
    kret (ret, val).

(** The loop from byte [n - 1] of the address down to byte 0. *)
Fixpoint push_offset (n : nat) (offset : Z) : K D unit :=
  match n with
  | O => kret tt
  | S n =>
      let i := Z.of_nat n * 8 in
      let val := u32 (Z.shiftr (Z.land offset (s32 (Z.shiftl 0xff i))) i) in
      writeb val (base + QSPI_DATA_REG) ;; push_offset n offset
  end.
Definition altera_asmip2_push_offset (nor : altera_asmip2_flash) (offset : Z) : K D unit :=
  push_offset (Z.to_nat (addr_width nor)) offset.

(** The number of bytes read, and the bytes. *)
Definition altera_asmip2_read (nor : altera_asmip2_flash) (from len : Z) : K D (Z * list Z) :=
  let bytes_to_read := Z.min len QSPI_FIFO_DEPTH in
  writeb (read_opcode nor) (base + QSPI_DATA_REG) ;;
  altera_asmip2_push_offset nor from ;;
  writel (u32 (Z.lor (Z.lor (Z.lor QSPI_ACTION_EN QSPI_ACTION_SC) (Z.shiftl 10 QSPI_ACTION_DUMMY_SFT))
               (Z.shiftl bytes_to_read QSPI_ACTION_READ_BACK_SFT))) (base + QSPI_ACTION_REG) ;;
  ret <- wait_fifo (rx_holds bytes_to_read) ;;
  buf <- (if istrue ret then kret [] else ioread8_rep (base + QSPI_DATA_REG) (Z.to_nat bytes_to_read)) ;;
  writel QSPI_ACTION_EN (base + QSPI_ACTION_REG) ;;
  kret (if istrue ret then 0 else bytes_to_read, buf).

(** The number of bytes of [buf] that were written. *)
Definition altera_asmip2_write (nor : altera_asmip2_flash) (to : Z) (buf : list Z) : K D Z :=
  let bytes_to_write := Z.min (Z.of_nat (length buf)) (QSPI_FIFO_DEPTH - (addr_width nor + 1)) in
  writeb (program_opcode nor) (base + QSPI_DATA_REG) ;;
  altera_asmip2_push_offset nor to ;;
  iowrite8_rep (base + QSPI_DATA_REG) (take (Z.to_nat bytes_to_write) buf) ;;
  writel (Z.lor QSPI_ACTION_EN QSPI_ACTION_SC) (base + QSPI_ACTION_REG) ;;
  ret <- wait_fifo tx_empty ;;
  writel QSPI_ACTION_EN (base + QSPI_ACTION_REG) ;;
  kret (if istrue ret then 0 else bytes_to_write).
End Transfer.

(** ** The controller and its banks *)

Section Controller.
Context {D : Type} {dev : Mmio32 D} {clock : Clock D}.
Variable env : qspi_env.
Abbreviation pdev := (qspi D).

Definition get_q : K pdev altera_asmip2 := s <- kget ;; deref (qdrv s).
Definition mod_q (f : altera_asmip2 -> altera_asmip2) : K pdev unit :=
  s <- kget ;; q <- deref (qdrv s) ;; kput (set_qdrv (Some (f q)) s).
Definition on_qdev {A} (c : K D A) : K pdev A := zoom qdev set_qdev c.

Definition altera_asmip2_prep : K pdev Z :=
  q <- get_q ;;
  if bus_mutex q then oops else mod_q (set_qspi_mutex true) ;; kret 0.
Definition altera_asmip2_unprep : K pdev unit :=
  q <- get_q ;;
  if bus_mutex q then mod_q (set_qspi_mutex false) else oops.

Definition set_mtd on (f : altera_asmip2_flash) :=
  Flash (addr_width f) (read_opcode f) (program_opcode f) on.

(** A bank that has no slot is a store outside the array. *)
Definition put_flash (bank : Z) (f : altera_asmip2_flash) : K pdev unit :=
  q <- get_q ;;
  if bank <? Z.of_nat (length (flash q)) then mod_q (set_flash (<[Z.to_nat bank := Some f]> (flash q)))
  else oops.

Definition altera_asmip2_setup_banks (bank : Z) : K pdev Z :=
  q <- get_q ;;
  if u32 (num_flashes q - 1) <? bank then kret (- EINVAL)
  else if negb (q_alloc env bank) then kret (- ENOMEM)
  else
    put_flash bank (Flash 0 0 0 false) ;;
    let '(ret, nor) := spi_nor_scan env bank in
    if istrue ret then kret ret
    else
      put_flash bank (set_mtd (mtd_register_ret env bank =? 0) nor) ;;
      kret (mtd_register_ret env bank).

Definition altera_asmip2_create (base : Z) : K pdev Z :=
  if negb (q_alloc env (-1)) then kret (- ENOMEM)
  else
    kmod (set_qdrv (Some (Asmip2 base 0 (repeat None (Z.to_nat ALTERA_ASMIP2_MAX_NUM_FLASH_CHIP)) false))) ;;
    on_qdev (
      reg <- readl (base + QSPI_ACTION_REG) ;;
      (if istrue (Z.land reg QSPI_ACTION_RST) then kret tt
       else writel (Z.lor reg QSPI_ACTION_RST) (base + QSPI_ACTION_REG) ;; udelay 10) ;;
      writel (Z.ldiff reg QSPI_ACTION_RST) (base + QSPI_ACTION_REG) ;;
      udelay 10) ;;
    kret 0.

Definition altera_asmip2_add_bank (bank : Z) : K pdev Z :=
  q <- get_q ;;
  if ALTERA_ASMIP2_MAX_NUM_FLASH_CHIP <=? num_flashes q then kret (- ENOMEM)
  else
    mod_q (set_num_flashes (num_flashes q + 1)) ;;
    altera_asmip2_setup_banks bank.

(** [n] banks from the [i]-th on. *)
Fixpoint remove_from (n : nat) (i : Z) : K pdev Z :=
  match n with
  | O => kret 0
  | S n =>
      q <- get_q ;;
      match nth (Z.to_nat i) (flash q) None with
      | None => remove_from n (i + 1)
      | Some f =>
          let ret := mtd_unregister_ret env i in
          if istrue ret then kret ret
          else put_flash i (set_mtd false f) ;; remove_from n (i + 1)
      end
  end.

Definition altera_asmip2_remove_banks : K pdev Z :=
  s <- kget ;;
  match qdrv s with
  | None => kret (- EINVAL)
  | Some q => remove_from (Z.to_nat (num_flashes q)) 0
  end.

(** [n] banks from the [i]-th on; the loop breaks at the first that fails. *)
Fixpoint add_banks (n : nat) (i ret : Z) : K pdev Z :=
  match n with
  | O => kret ret
  | S n => ret <- altera_asmip2_add_bank i ;; if istrue ret then kret ret else add_banks n (i + 1) ret
  end.

Definition altera_asmip2_probe_with_pdata (base num_chip_sel : Z) : K pdev Z :=
  ret <- altera_asmip2_create base ;;
  if istrue ret then kret ret else add_banks (Z.to_nat num_chip_sel) 0 ret.

(** The children of the node; whether the loop left with [goto error]. *)
Fixpoint add_children (banks : list Z) : K pdev bool :=
  match banks with
  | [] => kret false
  | bank :: banks =>
      if ALTERA_ASMIP2_MAX_NUM_FLASH_CHIP <=? bank then kret true
      else
        ret <- altera_asmip2_add_bank bank ;;
        if istrue ret then kret true else add_children banks
  end.

Definition altera_asmip2_probe : K pdev Z :=
  match platdata env with
  | Some (base, num_chip_sel) => altera_asmip2_probe_with_pdata base num_chip_sel
  | None =>
      if negb (config_of env) then kret (- EINVAL)
      else
        match of_children env, ioremap_ret env with
        | None, _ => kret (- ENODEV)
        | _, inl err => kret err
        | Some banks, inr base =>
            ret <- altera_asmip2_create base ;;
            if istrue ret then kret ret
            else
              failed <- add_children banks ;;
              if failed : bool then altera_asmip2_remove_banks ;; kret (- EIO) else kret 0
        end
  end.

Definition altera_asmip2_remove : K pdev Z :=
  q <- get_q ;;
  altera_asmip2_remove_banks.
End Controller.
