(* ===== verification/Asmip2Spec.v ===== *)
(** * Theorems about the flash controller (altera-asmip2.c)

    The controller hands the bytes of its transmit FIFO to the flash when a
    command is started, some time after it was started.  The flash takes the
    commands the driver and the framework need: enable and disable writes,
    program, read, read the status and the ID, erase a sector or everything.  As
    NOR flash does, it programs within one page and only from 1 to 0, and only
    when writes are enabled. *)

From S2P Require Import Prelude.
From S2P Require Import Mmio32.
From S2P Require Import Loops.
From S2P Require Import Poll.
From S2P Require Import SpiNor.
From S2P Require Import Asmip2.
Local Open Scope list_scope.
Local Open Scope Z_scope.

(** ** The controller and the flash *)

(** What does not change: the address of the registers, the page size, the
    bytes of an address, the opcodes, the ticks a command takes, the size of what
    the erase command erases, and the bytes that identify the flash. *)
Record asmi_conf := AsmiConf {
  a_base : Z; a_page : Z; a_width : nat; a_read : Z; a_program : Z; a_latency : nat;
  a_erase : Z; a_esize : Z; a_id : list Z;
}.

Record asmi := Asmi {
  aconf : asmi_conf; mem : Z -> Z; wel : bool; tx : list Z; rx : list Z;
  started : option (Z * nat);   (* the command register, the ticks left *)
  a_ns : Z;
}.

Definition set_tx l d := Asmi (aconf d) (mem d) (wel d) l (rx d) (started d) (a_ns d).
Definition set_rx l d := Asmi (aconf d) (mem d) (wel d) (tx d) l (started d) (a_ns d).
Definition set_started c d := Asmi (aconf d) (mem d) (wel d) (tx d) (rx d) c (a_ns d).
Definition set_ns t d := Asmi (aconf d) (mem d) (wel d) (tx d) (rx d) (started d) t.
(** What a command leaves: both FIFOs as given, nothing in progress. *)
Definition leaves m w r d := Asmi (aconf d) m w [] r None (a_ns d).

(** An address, most significant byte first. *)
Definition be_val (acc : Z) (l : list Z) : Z := fold_left (fun a b => a * 256 + b) l acc.

Definition next_in_page (page a : Z) : Z := a / page * page + (a + 1) mod page.
Fixpoint program (page a : Z) (data : list Z) (m : Z -> Z) : Z -> Z :=
  match data with
  | [] => m
  | b :: data =>
      program page (next_in_page page a) data (fun x => if x =? a then Z.land (m a) b else m x)
  end.
Definition bytes_from (m : Z -> Z) (a : Z) (n : nat) : list Z := map (fun i => m (a + Z.of_nat i)) (seq 0 n).

(** The command in the transmit FIFO; [n] bytes are read back. *)
Definition execute (action : Z) (d : asmi) : asmi :=
  let n := Z.to_nat (Z.shiftr action QSPI_ACTION_READ_BACK_SFT) in
  let c := aconf d in
  match tx d with
  | [] => leaves (mem d) (wel d) (rx d) d
  | op :: args =>
      let addr := be_val 0 (take (a_width c) args) in
      if op =? SPINOR_OP_WREN then leaves (mem d) true (rx d) d
      else if op =? SPINOR_OP_RDSR then leaves (mem d) (wel d) (rx d ++ repeat (if wel d then 2 else 0) n) d
      else if op =? SPINOR_OP_WRDI then leaves (mem d) false (rx d) d
      else if op =? SPINOR_OP_CHIP_ERASE then leaves (if wel d then fun _ => 255 else mem d) false (rx d) d
      else if op =? SPINOR_OP_RDID then leaves (mem d) (wel d) (rx d ++ take n (a_id c)) d
      else if op =? a_program c then
        leaves (if wel d then program (a_page c) addr (drop (a_width c) args) (mem d) else mem d) false (rx d) d
      else if op =? a_read c then leaves (mem d) (wel d) (rx d ++ bytes_from (mem d) addr n) d
      else if op =? a_erase c then
        leaves (if wel d then fun x => if x / a_esize c =? addr / a_esize c then 255 else mem d x else mem d) false (rx d) d
      else leaves (mem d) (wel d) (rx d) d
  end.

Definition asmi_tick (d : asmi) : asmi :=
  match started d with
  | None => d
  | Some (action, S k) => set_started (Some (action, k)) d
  | Some (action, O) => execute action d
  end.
Definition asmi_sleep (us : Z) (d : asmi) : asmi := let d := asmi_tick d in set_ns (a_ns d + 1000 * us) d.

Definition fifo_count (d : asmi) : Z :=
  Z.lor (Z.shiftl (Z.of_nat (length (tx d))) QSPI_FIFO_CNT_TX_SFT) (Z.of_nat (length (rx d))).

(** A byte for which the FIFO has no room is lost. *)
Definition push (v : Z) (d : asmi) : asmi :=
  if Z.of_nat (length (tx d)) <? QSPI_FIFO_DEPTH then set_tx (tx d ++ [v]) d else d.

#[export] Instance asmi_mmio : Mmio32 asmi := {|
  dev_readl a d := (if a =? a_base (aconf d) + QSPI_FIFO_CNT_REG then fifo_count d else 0, d);
  dev_writel a v d :=
    if a =? a_base (aconf d) + QSPI_ACTION_REG then
      if istrue (Z.land v QSPI_ACTION_RST) then leaves (mem d) (wel d) [] d
      else if istrue (Z.land v QSPI_ACTION_SC) then set_started (Some (v, a_latency (aconf d))) d
      else d
    else d;
  dev_readb a d :=
    if a =? a_base (aconf d) + QSPI_DATA_REG then
      match rx d with [] => (0, d) | b :: l => (b, set_rx l d) end
    else (0, d);
  dev_writeb a v d := if a =? a_base (aconf d) + QSPI_DATA_REG then push v d else d;
|}.
#[export] Instance asmi_clock : Clock asmi := {|
  ktime_get d := a_ns d;
  dev_usleep_range lo hi d := asmi_sleep hi d;
  dev_udelay us d := asmi_sleep us d;
|}.

(** ** Bytes through the FIFOs *)

(** The first three steps at once. *)
Lemma kbind_run3 {S A B C E} (c1 : K S A) (c2 : K S B) (c3 : K S C) (f : C -> K S E) s x s' :
  (c1 ;; c2 ;; c3) s = Some (x, s') -> (c1 ;; c2 ;; x <- c3 ;; f x) s = f x s'.
Proof.
  unfold kbind. destruct (c1 s) as [[a s1]|]; [|done]. destruct (c2 s1) as [[b s2]|]; [|done]. by intros ->.
Qed.

Fixpoint be_bytes (n : nat) (a : Z) : list Z :=
  match n with O => [] | S n => (a / 2 ^ (8 * Z.of_nat n)) mod 256 :: be_bytes n a end.

Lemma be_bytes_length n a : length (be_bytes n a) = n.
Proof. induction n; simpl; congruence. Qed.

Lemma be_val_bytes n a acc : be_val acc (be_bytes n a) = acc * 2 ^ (8 * Z.of_nat n) + a mod 2 ^ (8 * Z.of_nat n).
Proof.
  revert acc. induction n as [|n IH]; intros acc.
  - cbn. rewrite Zmod_1_r. lia.
  - cbn [be_bytes be_val fold_left]. change (fold_left _ (be_bytes n a) ?x) with (be_val x (be_bytes n a)).
    rewrite IH. replace (8 * Z.of_nat (S n)) with (8 * Z.of_nat n + 8) by lia.
    rewrite Z.pow_add_r by lia. change (2 ^ 8) with 256. rewrite Z.rem_mul_r by lia. ring.
Qed.

(** Byte [k] of the address, as the driver extracts it. *)
Lemma offset_byte k a :
  (k < 4)%nat ->
  u8 (u32 (Z.shiftr (Z.land a (s32 (Z.shiftl 0xff (Z.of_nat k * 8)))) (Z.of_nat k * 8))) =
  (a / 2 ^ (8 * Z.of_nat k)) mod 256.
Proof.
  intros Hk. unfold u8, u32, wrap. change 256 with (2 ^ 8). rewrite Z.shiftr_land.
  replace (8 * Z.of_nat k) with (Z.of_nat k * 8) by lia. rewrite <- Z.shiftr_div_pow2 by lia.
  set (x := Z.shiftr a _). rewrite <- !Z.land_ones by lia. rewrite <- !Z.land_assoc. f_equal.
  by do 4 (destruct k as [|k]; [reflexivity|]); lia.
Qed.

Definition is_bytes (l : list Z) : Prop := Forall (fun b => 0 <= b < 256) l.

Lemma push_run b d :
  Z.of_nat (length (tx d)) < QSPI_FIFO_DEPTH -> 0 <= u8 b ->
  writeb b (a_base (aconf d) + QSPI_DATA_REG) d = Some (tt, set_tx (tx d ++ [u8 b]) d).
Proof.
  intros Hl _. unfold writeb, kmod. cbn [dev_writeb asmi_mmio]. rewrite Z.eqb_refl. unfold push.
  by rewrite (proj2 (Z.ltb_lt _ _)).
Qed.

Lemma flash_push_bytes l d base :
  base = a_base (aconf d) -> is_bytes l -> Z.of_nat (length (tx d) + length l) <= QSPI_FIFO_DEPTH ->
  iowrite8_rep (base + QSPI_DATA_REG) l d = Some (tt, set_tx (tx d ++ l) d).
Proof.
  intros ->. revert d. induction l as [|b l IH]; intros d Hb Hl; cbn [iowrite8_rep].
  - rewrite app_nil_r. by destruct d.
  - inversion_clear Hb as [|? ? Hb1 Hb2]. cbn [length] in Hl.
    assert (u8 b = b) as Eb by (apply wrap_small; exact Hb1).
    rewrite (kbind_run _ _ _ _ _ (push_run b d ltac:(lia) ltac:(lia))), Eb.
    change (a_base (aconf d)) with (a_base (aconf (set_tx (tx d ++ [b]) d))).
    rewrite IH; [|done|cbn [tx set_tx]; rewrite length_app; cbn [length]; lia].
    cbn [tx set_tx]. by rewrite <- app_assoc.
Qed.

Lemma push_offset_run n a d base :
  base = a_base (aconf d) -> (n <= 4)%nat -> Z.of_nat (length (tx d) + n) <= QSPI_FIFO_DEPTH ->
  push_offset base n a d = Some (tt, set_tx (tx d ++ be_bytes n a) d).
Proof.
  intros ->. revert d. induction n as [|n IH]; intros d Hn Hl; cbn [push_offset be_bytes].
  - rewrite app_nil_r. by destruct d.
  - cbv zeta. rewrite (kbind_run _ _ _ _ _ (push_run _ d ltac:(lia) ltac:(apply wrap_range; lia))).
    rewrite offset_byte by lia.
    set (b := _ mod 256). change (a_base (aconf d)) with (a_base (aconf (set_tx (tx d ++ [b]) d))).
    rewrite IH; [|lia|cbn [tx set_tx]; rewrite length_app; cbn [length]; lia].
    cbn [tx set_tx]. by rewrite <- app_assoc.
Qed.

Lemma flash_pop_bytes l d base :
  base = a_base (aconf d) -> rx d = l -> ioread8_rep (base + QSPI_DATA_REG) (length l) d = Some (l, set_rx [] d).
Proof.
  intros ->. revert d. induction l as [|b l IH]; intros d Hr; cbn [length ioread8_rep].
  - by destruct d; simpl in *; subst.
  - assert (readb (a_base (aconf d) + QSPI_DATA_REG) d = Some (b, set_rx l d)) as H.
    { unfold readb. cbn [dev_readb asmi_mmio]. by rewrite Z.eqb_refl, Hr. }
    rewrite (kbind_run _ _ _ _ _ H). change (a_base (aconf d)) with (a_base (aconf (set_rx l d))).
    by rewrite (kbind_run _ _ _ _ _ (IH (set_rx l d) eq_refl)).
Qed.

(** ** Commands *)

Definition in_time (d : asmi) : Prop := Z.of_nat (a_latency (aconf d)) * QSPI_POLL_INTERVAL_US <= QSPI_POLL_TIMEOUT_US.

Lemma execute_conf action d : aconf (execute action d) = aconf d.
Proof. unfold execute, leaves. by repeat case_match. Qed.

(** How long a command takes: the wait sleeps until it has ended. *)
Definition command_ns (d : asmi) : Z := 1000 * QSPI_POLL_INTERVAL_US * Z.of_nat (S (a_latency (aconf d))).

(** What a command does, whenever it ends. *)
Lemma execute_late action ns c d :
  execute action (set_ns ns (set_started c d)) = set_ns ns (execute action d).
Proof. unfold execute. cbn [tx mem wel rx aconf set_ns set_started]. destruct (tx d); [done|]. by repeat case_match. Qed.

Lemma execute_idle action d : started (execute action d) = None.
Proof. unfold execute, leaves. by repeat case_match. Qed.

(** A command is started, and the wait ends when it is done. *)
Lemma action_run base action cond d :
  base = a_base (aconf d) -> in_time d ->
  istrue (Z.land action QSPI_ACTION_RST) = false -> istrue (Z.land action QSPI_ACTION_SC) = true ->
  cond (fifo_count d) = false -> cond (fifo_count (execute action d)) = true ->
  (writel action (base + QSPI_ACTION_REG) ;; wait_fifo base cond) d =
    Some (0, set_ns (a_ns d + command_ns d) (execute action d)).
Proof.
  intros -> Ht Hr Hs Hno Hyes. set (d1 := set_started (Some (action, a_latency (aconf d))) d).
  assert (writel action (a_base (aconf d) + QSPI_ACTION_REG) d = Some (tt, d1)) as Hw.
  { unfold writel, kmod. cbn [dev_writel asmi_mmio]. by rewrite Z.eqb_refl, Hr, Hs. }
  rewrite (kbind_run _ _ _ _ _ Hw). unfold wait_fifo.
  destruct (poll_ticks (readl (a_base (aconf d) + QSPI_FIFO_CNT_REG)) cond
    (fun k d' => (k <= S (a_latency (aconf d)))%nat /\
       d' = set_ns (a_ns d + command_ns d - 1000 * QSPI_POLL_INTERVAL_US * Z.of_nat k) match k with O => execute action d | S m => set_started (Some (action, m)) d end)
    fifo_count QSPI_POLL_INTERVAL_US QSPI_POLL_TIMEOUT_US (S (a_latency (aconf d))) d1) as (d' & Hrun & _ & ->).
  - done.
  - done.
  - intros k d' [Hk ->]. set (ns := a_ns d + _ - _). split.
    + unfold readl. cbn [dev_readl asmi_mmio]. destruct k as [|k]; [|by rewrite Z.eqb_refl].
      change (aconf (set_ns ns (execute action d))) with (aconf (execute action d)).
      by rewrite execute_conf, Z.eqb_refl.
    + by destruct k as [|k].
  - intros k d' [Hk ->]. cbn [dev_usleep_range asmi_clock]. unfold asmi_sleep, asmi_tick.
    assert (forall x, a_ns d + x - 1000 * QSPI_POLL_INTERVAL_US * Z.of_nat (S k) + 1000 * QSPI_POLL_INTERVAL_US =
      a_ns d + x - 1000 * QSPI_POLL_INTERVAL_US * Z.of_nat k) as E by lia.
    destruct k as [|k]; cbn [started set_ns set_started]; rewrite ?execute_late; (split; [split; [lia|]|done]).
    + rewrite <- E. done.
    + rewrite <- E. done.
  - split; [lia|]. unfold d1, command_ns. rewrite Z.add_simpl_r. done.
  - unfold in_time in Ht. lia.
  - rewrite (kbind_run _ _ _ _ _ Hrun). cbn [fst]. by rewrite Z.mul_0_r, Z.sub_0_r.
Qed.

Lemma fifo_levels d :
  (length (tx d) < 1024)%nat -> (length (rx d) < 1024)%nat ->
  tx_empty (fifo_count d) = (Z.of_nat (length (tx d)) =? 0) /\
  forall n, rx_holds n (fifo_count d) = (Z.of_nat (length (rx d)) =? n).
Proof.
  intros Ht Hr. unfold tx_empty, rx_holds, fifo_count. change QSPI_FIFO_CNT_MSK with (Z.ones 10).
  change QSPI_FIFO_CNT_TX_SFT with 12. set (t := Z.of_nat (length (tx d))). set (r := Z.of_nat (length (rx d))).
  assert (Z.shiftr (Z.lor (Z.shiftl t 12) r) 12 = t) as ->.
  { rewrite Z.shiftr_lor, Z.shiftr_shiftl_l, Z.shiftl_0_r by lia.
    rewrite (Z.shiftr_div_pow2 r) by lia. rewrite (Z.div_small r) by lia. by rewrite Z.lor_0_r. }
  assert (Z.land (Z.lor (Z.shiftl t 12) r) (Z.ones 10) = r) as ->.
  { rewrite Z.land_lor_distr_l, !Z.land_ones, Z.shiftl_mul_pow2 by lia. change (2 ^ 12) with (4 * 2 ^ 10).
    rewrite Z.mul_assoc, Z.mod_mul, Z.mod_small by lia. done. }
  rewrite Z.land_ones, Z.mod_small by lia. done.
Qed.

(** ** The operations on an idle controller *)

(** The controller is idle, and serves the flash that [nor] describes. *)
Record idle (base : Z) (nor : altera_asmip2_flash) (d : asmi) : Prop := {
  idle_base : base = a_base (aconf d);
  idle_tx : tx d = []; idle_rx : rx d = []; idle_started : started d = None;
  idle_width : addr_width nor = Z.of_nat (a_width (aconf d)) /\ (a_width (aconf d) <= 4)%nat;
  idle_read : read_opcode nor = a_read (aconf d) /\ 0 <= a_read (aconf d) < 256;
  idle_program : program_opcode nor = a_program (aconf d) /\ 0 <= a_program (aconf d) < 256;
  idle_opcodes : NoDup [SPINOR_OP_WREN; SPINOR_OP_RDSR; SPINOR_OP_WRDI; SPINOR_OP_CHIP_ERASE; SPINOR_OP_RDID;
                         a_program (aconf d); a_read (aconf d); a_erase (aconf d)];
  idle_time : in_time d;
}.

(** What a program command does to the memory when it stays in a page. *)
Lemma program_spec page a data m x :
  0 < page -> 0 <= a -> a mod page + Z.of_nat (length data) <= page ->
  program page a data m x =
  match data !! Z.to_nat (x - a) with
  | Some b => if a <=? x then Z.land (m x) b else m x
  | None => m x
  end.
Proof.
  intros Hp Ha. revert a m Ha. induction data as [|b data IH]; intros a m Ha Hl; [done|].
  cbn [program length] in *. destruct data as [|b' data].
  - cbn [program]. destruct (Z.eqb_spec x a) as [->|].
    + rewrite Z.sub_diag. cbn. by rewrite Z.leb_refl.
    + destruct (Z.leb_spec a x); [|by case_match]. by rewrite lookup_ge_None_2 by (cbn; lia).
  - cbn [length] in Hl. assert (next_in_page page a = a + 1 /\ (a + 1) mod page = a mod page + 1) as [-> Hm].
    { pose proof (Z.div_mod a page ltac:(lia)). pose proof (Z.mod_pos_bound a page Hp).
      assert ((a + 1) mod page = a mod page + 1) as E.
      { symmetry. apply Z.mod_unique with (a / page); lia. }
      unfold next_in_page. split; [nia|done]. }
    rewrite IH by (rewrite ?Hm; cbn [length]; lia). destruct (Z.eqb_spec x a) as [->|].
    + rewrite Z.sub_diag, Z.leb_refl. cbn [lookup list_lookup Z.to_nat].
      replace (a + 1 <=? a) with false by lia. by case_match.
    + destruct (Z.leb_spec a x).
      * replace (Z.to_nat (x - a)) with (S (Z.to_nat (x - (a + 1)))) by lia. cbn [lookup list_lookup].
        by replace (a + 1 <=? x) with true by lia.
      * replace (a + 1 <=? x) with false by lia. by repeat case_match.
Qed.

(** The command register of a read. *)
Lemma read_action n :
  0 <= n < 1024 ->
  let action := u32 (Z.lor (Z.lor (Z.lor QSPI_ACTION_EN QSPI_ACTION_SC) (Z.shiftl 10 QSPI_ACTION_DUMMY_SFT))
                      (Z.shiftl n QSPI_ACTION_READ_BACK_SFT)) in
  Z.shiftr action QSPI_ACTION_READ_BACK_SFT = n /\
  istrue (Z.land action QSPI_ACTION_RST) = false /\ istrue (Z.land action QSPI_ACTION_SC) = true.
Proof.
  intros Hn. cbv zeta. unfold u32, wrap. rewrite <- Z.land_ones by lia.
  change QSPI_ACTION_READ_BACK_SFT with 16. rewrite <- !Z.land_assoc. split_and!.
  - rewrite Z.shiftr_land, Z.shiftr_lor, Z.shiftr_shiftl_l, Z.shiftl_0_r by lia.
    change (Z.shiftr (Z.ones 32) 16) with (Z.ones 16). rewrite Z.land_ones by lia.
    rewrite Z.lor_0_l. apply Z.mod_small. lia.
  - rewrite Z.land_lor_distr_l. change (Z.land (Z.ones 32) QSPI_ACTION_RST) with (Z.ones 1).
    rewrite (Z.land_ones (Z.shiftl n 16)), (Z.shiftl_mul_pow2 n) by lia.
    change (2 ^ 16) with (2 ^ 15 * 2 ^ 1). by rewrite Z.mul_assoc, Z.mod_mul by lia.
  - rewrite Z.land_lor_distr_l. unfold istrue. apply negb_true_iff, Z.eqb_neq. intros [E _]%Z.lor_eq_0_iff. done.
Qed.

(** An opcode that is none of some others. *)
Definition none_of (op : Z) (l : list Z) : Prop := Forall (fun o => (op =? o) = false) l.
Lemma none_of_cons op o l : none_of op (o :: l) -> (op =? o) = false /\ none_of op l.
Proof. unfold none_of. by rewrite list.Forall_cons. Qed.

(** The tests of [execute], for an opcode that is none of some others. *)
Ltac other_opcodes :=
  repeat match goal with
  | H : none_of _ (_ :: _) |- _ => let H1 := fresh in apply none_of_cons in H as [H1 H]; rewrite ?H1
  end.

Lemma reg_read_action n :
  0 <= n ->
  let action := Z.lor (Z.lor QSPI_ACTION_EN QSPI_ACTION_SC) (Z.shiftl n QSPI_ACTION_READ_BACK_SFT) in
  Z.shiftr action QSPI_ACTION_READ_BACK_SFT = n /\
  istrue (Z.land action QSPI_ACTION_RST) = false /\ istrue (Z.land action QSPI_ACTION_SC) = true.
Proof.
  intros Hn. cbv zeta. change QSPI_ACTION_READ_BACK_SFT with 16. split_and!.
  - rewrite Z.shiftr_lor, Z.shiftr_shiftl_l, Z.shiftl_0_r by lia. apply Z.lor_0_l.
  - rewrite Z.land_lor_distr_l. change (Z.land (Z.shiftl n 16) QSPI_ACTION_RST) with (Z.land (Z.shiftl n 16) (Z.ones 1)).
    rewrite (Z.land_ones (Z.shiftl n 16)), (Z.shiftl_mul_pow2 n) by lia.
    change (2 ^ 16) with (2 ^ 15 * 2 ^ 1). by rewrite Z.mul_assoc, Z.mod_mul by lia.
  - rewrite Z.land_lor_distr_l. unfold istrue. apply negb_true_iff, Z.eqb_neq. intros [E _]%Z.lor_eq_0_iff. done.
Qed.

Section Operations.
Variable base : Z.
Variable nor : altera_asmip2_flash.

(** The end of an operation. *)
Lemma stop_run d : base = a_base (aconf d) -> writel QSPI_ACTION_EN (base + QSPI_ACTION_REG) d = Some (tt, d).
Proof. intros ->. unfold writel, kmod. cbn [dev_writel asmi_mmio]. by rewrite Z.eqb_refl. Qed.

(** The controller after an operation that left the flash so. *)
Definition after (m : Z -> Z) (w : bool) (d d' : asmi) : Prop :=
  mem d' = m /\ wel d' = w /\ aconf d' = aconf d /\ a_ns d' = a_ns d + command_ns d /\ idle base nor d'.

Lemma ends_idle m w d : idle base nor d -> after m w d (set_ns (a_ns d + command_ns d) (leaves m w [] d)).
Proof. intros []. split_and!; [done..|]. by constructor. Qed.

Lemma set_ns_conf ns action d : aconf (set_ns ns (execute action d)) = aconf d.
Proof. apply execute_conf. Qed.

Lemma command_byte b d :
  idle base nor d -> 0 <= b < 256 -> writeb b (base + QSPI_DATA_REG) d = Some (tt, set_tx [b] d).
Proof.
  intros [Hb Ht _ _ _ _ _ _ _] Hr. rewrite Hb, push_run; rewrite ?Ht; [|done|apply wrap_range; lia].
  assert (u8 b = b) as -> by (by apply wrap_small). done.
Qed.

(** A command whose bytes all come from the framework. *)
Lemma reg_write_run op val m w d :
  idle base nor d -> 0 <= op < 256 -> is_bytes val -> Z.of_nat (length val) + 1 <= QSPI_FIFO_DEPTH ->
  (forall action, execute action (set_tx (op :: val) d) = leaves m w [] d) ->
  exists d', altera_asmip2_write_reg base op val d = Some (0, d') /\ after m w d d'.
Proof.
  intros Hi Hop Hval Hlen Hex. pose proof (idle_base _ _ _ Hi) as Hb. unfold altera_asmip2_write_reg.
  rewrite (proj2 (Z.ltb_ge _ _)) by lia. change QSPI_FIFO_DEPTH with 512 in *.
  rewrite (kbind_run _ _ _ _ _ (command_byte op d Hi Hop)).
  pose proof (flash_push_bytes val (set_tx [op] d) base Hb Hval) as Hpush. cbn [tx set_tx length app] in Hpush.
  rewrite (kbind_run _ _ _ _ _ (Hpush ltac:(change QSPI_FIFO_DEPTH with 512; lia))). clear Hpush.
  set (d1 := set_tx (op :: val) d) in *. change (set_tx _ (set_tx [op] d)) with d1. set (action := Z.lor QSPI_ACTION_EN QSPI_ACTION_SC).
  opose proof* (action_run base action tx_empty d1) as Hrun; [done|exact (idle_time _ _ _ Hi)|done|done| | |].
  - rewrite (proj1 (fifo_levels d1 ltac:(cbn [d1 tx set_tx length]; lia) ltac:(cbn [d1 rx set_tx]; rewrite (idle_rx _ _ _ Hi); simpl; lia))). done.
  - rewrite (Hex action). by rewrite (proj1 (fifo_levels (leaves m w [] d) ltac:(simpl; lia) ltac:(simpl; lia))).
  - rewrite (Hex action) in Hrun.
    assert (base = a_base (aconf (set_ns (a_ns d + command_ns d) (leaves m w [] d)))) as Hb' by done.
    rewrite (kbind_run2 _ _ _ _ _ _ Hrun), (kbind_run _ _ _ _ _ (stop_run _ Hb')).
    eexists. split; [reflexivity|]. by apply ends_idle.
Qed.

Lemma write_enable_run d :
  idle base nor d ->
  exists d', altera_asmip2_write_reg base SPINOR_OP_WREN [] d = Some (0, d') /\ after (mem d) true d d'.
Proof.
  intros Hi. apply reg_write_run; try done; [by constructor|]. intros action. unfold execute.
  cbn [tx set_tx aconf mem wel rx]. by rewrite Z.eqb_refl, (idle_rx _ _ _ Hi).
Qed.

(** A command that reads [len] bytes [l]. *)
Lemma reg_read_run op len l d :
  idle base nor d -> 0 <= op < 256 -> 0 < len <= QSPI_FIFO_DEPTH -> Z.of_nat (length l) = len ->
  (forall action, Z.shiftr action QSPI_ACTION_READ_BACK_SFT = len ->
     execute action (set_tx [op] d) = leaves (mem d) (wel d) l d) ->
  exists d', altera_asmip2_read_reg base op len d = Some ((0, l), d') /\ after (mem d) (wel d) d d'.
Proof.
  intros Hi Hop Hlen Hl Hex. pose proof (idle_base _ _ _ Hi) as Hb. unfold altera_asmip2_read_reg.
  rewrite (proj2 (Z.ltb_ge _ _)) by lia. change QSPI_FIFO_DEPTH with 512 in Hlen.
  rewrite (kbind_run _ _ _ _ _ (command_byte op d Hi Hop)).
  set (d1 := set_tx [op] d) in *. set (action := Z.lor _ (Z.shiftl len _)).
  destruct (reg_read_action len ltac:(lia)) as (Hback & Hrst & Hsc). fold action in Hback, Hrst, Hsc.
  opose proof* (action_run base action (rx_holds len) d1) as Hrun; [done|exact (idle_time _ _ _ Hi)|done|done| | |].
  - destruct (fifo_levels d1 ltac:(simpl; lia)) as [_ Hr]; [cbn [d1 rx set_tx]; rewrite (idle_rx _ _ _ Hi); simpl; lia|].
    rewrite Hr. cbn [d1 rx set_tx]. rewrite (idle_rx _ _ _ Hi). apply Z.eqb_neq. cbn. lia.
  - rewrite (Hex action Hback). destruct (fifo_levels (leaves (mem d) (wel d) l d)) as [_ Hr]; [simpl; lia..|].
    rewrite Hr. by apply Z.eqb_eq.
  - rewrite (Hex action Hback) in Hrun. rewrite (kbind_run2 _ _ _ _ _ _ Hrun). change (0 =? 0) with true. cbv iota.
    set (d2 := set_ns _ _). assert (base = a_base (aconf d2)) as Hb2 by done.
    replace (Z.to_nat len) with (length l) by lia.
    rewrite (kbind_run _ _ _ _ _ (flash_pop_bytes l d2 base Hb2 eq_refl)).
    rewrite (kbind_run _ _ _ _ _ (stop_run (set_rx [] d2) Hb2)).
    eexists. split; [reflexivity|]. exact (ends_idle (mem d) (wel d) d Hi).
Qed.

(** The status register, with the write enable latch. *)
Lemma status_read_run d :
  idle base nor d ->
  exists d', altera_asmip2_read_reg base SPINOR_OP_RDSR 1 d = Some ((0, [if wel d then 2 else 0]), d') /\
    after (mem d) (wel d) d d'.
Proof.
  intros Hi. apply reg_read_run; try done. intros action Hback. unfold execute. rewrite Hback.
  cbn [tx set_tx aconf mem wel rx]. by rewrite (idle_rx _ _ _ Hi).
Qed.
(** The bytes that identify the flash. *)
Lemma id_read_run len d :
  idle base nor d -> 0 < len <= 512 -> len <= Z.of_nat (length (a_id (aconf d))) ->
  exists d', altera_asmip2_read_reg base SPINOR_OP_RDID len d = Some ((0, take (Z.to_nat len) (a_id (aconf d))), d') /\
    after (mem d) (wel d) d d'.
Proof.
  intros Hi Hlen Hid. apply reg_read_run; try done; [rewrite length_take; lia|]. intros action Hback. unfold execute.
  rewrite Hback. cbn [tx set_tx aconf mem wel rx]. by rewrite (idle_rx _ _ _ Hi).
Qed.

(** The bytes of a command with an address. *)
Lemma addressed_run op a data d :
  idle base nor d -> 0 <= op < 256 -> is_bytes data ->
  Z.of_nat (length data) <= QSPI_FIFO_DEPTH - (addr_width nor + 1) ->
  (writeb op (base + QSPI_DATA_REG) ;; altera_asmip2_push_offset base nor a ;;
   iowrite8_rep (base + QSPI_DATA_REG) data) d =
    Some (tt, set_tx (op :: be_bytes (a_width (aconf d)) a ++ data) d).
Proof.
  intros Hi Ho Hd Hl. pose proof (idle_base _ _ _ Hi) as Hb. destruct (idle_width _ _ _ Hi) as [Hw Hw4].
  rewrite (kbind_run _ _ _ _ _ (command_byte op d Hi Ho)).
  unfold altera_asmip2_push_offset. rewrite Hw, Nat2Z.id.
  change QSPI_FIFO_DEPTH with 512 in *.
  rewrite (kbind_run _ _ _ _ _ (push_offset_run _ a (set_tx [op] d) base Hb Hw4 ltac:(simpl; change QSPI_FIFO_DEPTH with 512; lia))).
  rewrite flash_push_bytes; [done|done|done|].
  cbn [tx set_tx]. rewrite !length_app, be_bytes_length. cbn [length]. change QSPI_FIFO_DEPTH with 512. lia.
Qed.

(** What the controller hands to the flash. *)
Lemma addressed_parts a data d :
  0 <= a < 2 ^ (8 * Z.of_nat (a_width (aconf d))) ->
  let args := be_bytes (a_width (aconf d)) a ++ data in
  be_val 0 (take (a_width (aconf d)) args) = a /\ drop (a_width (aconf d)) args = data.
Proof.
  intros Ha. cbv zeta. split.
  - rewrite take_app_length' by (symmetry; apply be_bytes_length). rewrite be_val_bytes, Z.mod_small by done. lia.
  - by rewrite drop_app_length' by (symmetry; apply be_bytes_length).
Qed.

Lemma opcodes_differ d :
  idle base nor d ->
  let p := a_program (aconf d) in let r := a_read (aconf d) in let e := a_erase (aconf d) in
  let fixed := [SPINOR_OP_WREN; SPINOR_OP_RDSR; SPINOR_OP_WRDI; SPINOR_OP_CHIP_ERASE; SPINOR_OP_RDID] in
  none_of p fixed /\ none_of r (p :: fixed) /\ none_of e (r :: p :: fixed).
Proof.
  intros Hi. pose proof (idle_opcodes _ _ _ Hi) as Hnd.
  rewrite !list.NoDup_cons, !list.elem_of_cons in Hnd. cbv zeta. unfold none_of.
  rewrite !list.Forall_cons, !Z.eqb_neq. naive_solver.
Qed.

Lemma flash_write_run a buf d :
  idle base nor d -> is_bytes buf -> buf <> [] -> 0 <= a < 2 ^ (8 * Z.of_nat (a_width (aconf d))) ->
  let n := Z.min (Z.of_nat (length buf)) (QSPI_FIFO_DEPTH - (addr_width nor + 1)) in
  exists d', altera_asmip2_write base nor a buf d = Some (n, d') /\
    after (if wel d then program (a_page (aconf d)) a (take (Z.to_nat n) buf) (mem d) else mem d) false d d'.
Proof.
  intros Hi Hbuf Hne Ha n. pose proof (idle_base _ _ _ Hi) as Hb. destruct (idle_width _ _ _ Hi) as [Hw Hw4].
  destruct (idle_program _ _ _ Hi) as [Hop Hop256].
  assert (0 < n) as Hn. { unfold n. destruct buf; [done|]. cbn [length]. change QSPI_FIFO_DEPTH with 512. lia. }
  set (data := take (Z.to_nat n) buf). assert (Z.of_nat (length data) = n) as Hlen.
  { unfold data. rewrite length_take. lia. }
  unfold altera_asmip2_write. fold n. fold data. rewrite Hop.
  pose proof (addressed_run (a_program (aconf d)) a data d Hi Hop256 ltac:(by apply Forall_take) ltac:(lia)) as Hsend.
  rewrite (kbind_run3 _ _ _ _ _ _ _ Hsend). clear Hsend.
  set (d1 := set_tx _ d). set (action := Z.lor QSPI_ACTION_EN QSPI_ACTION_SC).
  set (m := if wel d then _ else _).
  assert (execute action d1 = leaves m false [] d) as Hex.
  { unfold execute, d1. cbn [tx set_tx aconf mem wel rx].
    destruct (addressed_parts a data d Ha) as [-> ->].
    destruct (opcodes_differ d Hi) as (E & _). rewrite (idle_rx _ _ _ Hi). other_opcodes. by rewrite Z.eqb_refl. }
  assert (base = a_base (aconf d1)) as Hb1 by done.
  opose proof* (action_run base action tx_empty d1 Hb1 (idle_time _ _ _ Hi)) as Hrun; [done|done| | |].
  - destruct (fifo_levels d1) as [-> _]; [|cbn [d1 rx set_tx]; rewrite (idle_rx _ _ _ Hi); cbn; lia|done].
    cbn [d1 tx set_tx length]. rewrite length_app, be_bytes_length. revert Hlen. unfold n.
    change QSPI_FIFO_DEPTH with 512. lia.
  - rewrite Hex. by rewrite (proj1 (fifo_levels (leaves m false [] d) ltac:(simpl; lia) ltac:(simpl; lia))).
  - assert (base = a_base (aconf (set_ns (a_ns d + command_ns d) (leaves m false [] d)))) as Hb2 by done.
    rewrite (kbind_run2 _ _ _ _ _ _ Hrun), Hex, (kbind_run _ _ _ _ _ (stop_run _ Hb2)).
    change (istrue 0) with false. eexists. split; [reflexivity|]. by apply ends_idle.
Qed.

(** A read returns what the memory holds. *)
Lemma flash_read_run a len d :
  idle base nor d -> 0 < len -> 0 <= a < 2 ^ (8 * Z.of_nat (a_width (aconf d))) ->
  let n := Z.min len QSPI_FIFO_DEPTH in
  exists d', altera_asmip2_read base nor a len d = Some ((n, bytes_from (mem d) a (Z.to_nat n)), d') /\
    after (mem d) (wel d) d d'.
Proof.
  intros Hi Hlen Ha n. pose proof (idle_base _ _ _ Hi) as Hb. destruct (idle_width _ _ _ Hi) as [Hw Hw4].
  destruct (idle_read _ _ _ Hi) as [Hop Hop256].
  assert (0 < n <= 512) as Hn by (unfold n; change QSPI_FIFO_DEPTH with 512; lia).
  unfold altera_asmip2_read. fold n. rewrite Hop.
  assert (Z.of_nat (length (@nil Z)) <= QSPI_FIFO_DEPTH - (addr_width nor + 1)) as Hroom.
  { change QSPI_FIFO_DEPTH with 512. cbn [length]. lia. }
  pose proof (addressed_run (a_read (aconf d)) a [] d Hi Hop256 ltac:(by constructor) Hroom) as Hsend.
  rewrite app_nil_r in Hsend. cbn [iowrite8_rep] in Hsend.
  set (d1 := set_tx _ d) in Hsend.
  assert ((writeb (a_read (aconf d)) (base + QSPI_DATA_REG) ;; altera_asmip2_push_offset base nor a) d = Some (tt, d1))
    as Hsent by (clear - Hsend; unfold kbind, kret in *; repeat case_match; simplify_eq;
      repeat match goal with u : unit |- _ => destruct u end; congruence).
  set (action := u32 _). destruct (read_action n ltac:(lia)) as (Hback & Hrst & Hsc). fold action in Hback, Hrst, Hsc.
  set (l := bytes_from (mem d) a (Z.to_nat n)). assert (Z.of_nat (length l) = n) as Hl.
  { unfold l, bytes_from. rewrite length_map, length_seq. lia. }
  assert (execute action d1 = leaves (mem d) (wel d) l d) as Hex.
  { unfold execute, d1. cbn [tx set_tx aconf mem wel rx]. rewrite Hback.
    destruct (addressed_parts a [] d Ha) as [Hv _]. rewrite app_nil_r in Hv. rewrite Hv.
    destruct (opcodes_differ d Hi) as (_ & E & _). rewrite (idle_rx _ _ _ Hi). other_opcodes. by rewrite Z.eqb_refl. }
  assert (base = a_base (aconf d1)) as Hb1 by done.
  opose proof* (action_run base action (rx_holds n) d1 Hb1 (idle_time _ _ _ Hi)) as Hrun; [done|done| | |].
  - destruct (fifo_levels d1) as [_ Hr].
    + cbn [d1 tx set_tx length]. rewrite be_bytes_length. lia.
    + cbn [d1 rx set_tx]. rewrite (idle_rx _ _ _ Hi). cbn. lia.
    + rewrite Hr. cbn [d1 rx set_tx]. rewrite (idle_rx _ _ _ Hi). apply Z.eqb_neq. change (0 <> n). lia.
  - rewrite Hex. destruct (fifo_levels (leaves (mem d) (wel d) l d)) as [_ Hr]; [cbn; lia|cbn [rx leaves]; lia|].
    rewrite Hr. cbn [rx leaves]. lia.
  - rewrite (kbind_run2 _ _ _ _ _ _ Hsent). rewrite (kbind_run2 _ _ _ _ _ _ Hrun), Hex.
    change (istrue 0) with false. cbv iota. set (d2 := set_ns _ _).
    assert (base = a_base (aconf d2)) as Hb2 by done.
    replace (Z.to_nat n) with (length l) by lia.
    rewrite (kbind_run _ _ _ _ _ (flash_pop_bytes l d2 base Hb2 eq_refl)).
    rewrite (kbind_run _ _ _ _ _ (stop_run (set_rx [] d2) Hb2)).
    eexists. split; [reflexivity|]. exact (ends_idle (mem d) (wel d) d Hi).
Qed.
End Operations.

Lemma bytes_from_lookup m a n i : (i < n)%nat -> bytes_from m a n !! i = Some (m (a + Z.of_nat i)).
Proof. intros Hi. unfold bytes_from. by rewrite list_lookup_fmap, lookup_seq_lt. Qed.

(** C12: what is written to the flash is read back.  On an idle controller whose
    flash finishes a command within the driver's timeout, with writes enabled
    by the command the framework sends first, a write of a buffer that stays in
    one page programs as many bytes as the FIFO has room for besides the opcode
    and the address: each is the old byte and the new one, no other byte
    changes.  A read of as many bytes from the same address returns exactly
    these bytes, which on erased memory are the buffer's, and the controller is
    idle again with writes disabled. *)
Theorem flash_write_read_back base nor a buf d :
  idle base nor d -> is_bytes buf -> buf <> [] ->
  let n := Z.min (Z.of_nat (length buf)) (QSPI_FIFO_DEPTH - (addr_width nor + 1)) in
  0 <= a -> a + n <= 2 ^ (8 * addr_width nor) ->
  0 < a_page (aconf d) -> a mod a_page (aconf d) + n <= a_page (aconf d) ->
  exists d1 d2 d3,
    altera_asmip2_write_reg base SPINOR_OP_WREN [] d = Some (0, d1) /\
    altera_asmip2_write base nor a buf d1 = Some (n, d2) /\
    altera_asmip2_read base nor a n d2 = Some ((n, bytes_from (mem d3) a (Z.to_nat n)), d3) /\
    idle base nor d3 /\ wel d3 = false /\
    (forall x, mem d3 x = match take (Z.to_nat n) buf !! Z.to_nat (x - a) with
                          | Some b => if a <=? x then Z.land (mem d x) b else mem d x
                          | None => mem d x
                          end) /\
    ((forall x, a <= x < a + n -> mem d x = 255) -> bytes_from (mem d3) a (Z.to_nat n) = take (Z.to_nat n) buf).
Proof.
  intros Hi Hbuf Hne n Ha Hend Hpage Hin. destruct (idle_width _ _ _ Hi) as [Hw Hw4].
  assert (0 < n <= 512) as Hn.
  { unfold n. destruct buf; [done|]. cbn [length]. change QSPI_FIFO_DEPTH with 512. lia. }
  assert (length (take (Z.to_nat n) buf) = Z.to_nat n) as Hlen by (rewrite length_take; unfold n; lia).
  destruct (write_enable_run base nor d Hi) as (d1 & R1 & M1 & W1 & C1 & _ & I1).
  destruct (flash_write_run base nor a buf d1 I1 Hbuf Hne) as (d2 & R2 & M2 & W2 & C2 & _ & I2); [rewrite C1, <- Hw; lia|].
  fold n in R2, M2. rewrite W1, C1, M1 in M2. destruct (flash_read_run base nor a n d2 I2) as (d3 & R3 & M3 & W3 & _ & _ & I3);
    [lia|rewrite C2, C1, <- Hw; lia|]. rewrite Z.min_l in R3 by (change QSPI_FIFO_DEPTH with 512; lia).
  rewrite <- M3 in R3. assert (forall x, mem d3 x = match take (Z.to_nat n) buf !! Z.to_nat (x - a) with
      | Some b => if a <=? x then Z.land (mem d x) b else mem d x | None => mem d x end) as Hmem.
  { intros x. rewrite M3, M2. apply program_spec; [done|done|]. rewrite Hlen. lia. }
  exists d1, d2, d3. split_and!; [done..|by rewrite W3|exact Hmem|].
  intros Herased. apply list_eq. intros i. destruct (decide (i < Z.to_nat n)%nat) as [Hlt|Hge].
  - rewrite bytes_from_lookup by done. rewrite Hmem. replace (Z.to_nat (a + Z.of_nat i - a)) with i by lia.
    destruct (lookup_lt_is_Some_2 (take (Z.to_nat n) buf) i ltac:(lia)) as [b Eb]. rewrite Eb.
    replace (a <=? a + Z.of_nat i) with true by lia. rewrite Herased by lia.
    assert (0 <= b < 256) as Hb.
    { apply (list.Forall_lookup_1 _ _ _ _ (Forall_take _ _ _ Hbuf) Eb). }
    change 255 with (Z.ones 8). rewrite Z.land_comm, Z.land_ones, Z.mod_small by lia. done.
  - rewrite !lookup_ge_None_2; [done|lia|]. unfold bytes_from. rewrite length_map, length_seq. lia.
Qed.

Definition demo_flash : altera_asmip2_flash := Flash 3 0x0b 0x02 true.
Definition demo_asmi : asmi := Asmi (AsmiConf 0x1000 256 3 0x0b 0x02 7 0xd8 65536 [0x20; 0xba; 0x18; 0; 0; 0]) (fun _ => 255) false [] [] None 0.

Lemma flash_write_read_back_witness :
  exists d1 d2 d3,
    altera_asmip2_write_reg 0x1000 SPINOR_OP_WREN [] demo_asmi = Some (0, d1) /\
    altera_asmip2_write 0x1000 demo_flash 0x12340 [1; 2; 3] d1 = Some (3, d2) /\
    altera_asmip2_read 0x1000 demo_flash 0x12340 3 d2 = Some ((3, bytes_from (mem d3) 0x12340 3), d3) /\
    idle 0x1000 demo_flash d3 /\ wel d3 = false /\
    (forall x, mem d3 x = match [1; 2; 3] !! Z.to_nat (x - 0x12340) with
                          | Some b => if 0x12340 <=? x then Z.land 255 b else 255
                          | None => 255
                          end) /\
    ((forall x, 0x12340 <= x < 0x12340 + 3 -> mem demo_asmi x = 255) -> bytes_from (mem d3) 0x12340 3 = [1; 2; 3]).
Proof.
  apply (flash_write_read_back 0x1000 demo_flash 0x12340 [1; 2; 3] demo_asmi).
  - constructor; try done; vm_compute; try (repeat split; congruence || lia).
    apply (bool_decide_unpack _). reflexivity.
  - repeat constructor; lia.
  - discriminate.
  - lia.
  - vm_compute. discriminate.
  - reflexivity.
  - vm_compute. discriminate.
Defined.

(** When a later bank fails, the probe fails but the banks before it stay
    registered: the loop only breaks, and remove is not called for a device
    whose probe failed. *)
Lemma failed_probe_leaves_banks :
  let env := QspiEnv (Some (0x1000, 2)) true None (inl 0) (fun _ => true) (fun _ => (0, demo_flash))
               (fun bank => if bank =? 1 then - EIO else 0) (fun _ => 0) in
  match altera_asmip2_probe env (Qspi demo_asmi None) with
  | Some (ret, s) => ret = - EIO /\
      match qdrv s with Some q => nth 0 (flash q) None = Some demo_flash | None => False end
  | None => False
  end.
Proof. by vm_compute. Qed.
