(* ===== verification/SpiNorSpec.v ===== *)
(** * What the SPI NOR framework promises

    A controller and the flash behind it keep the laws of the class [NorFlash]:
    writes happen when they are enabled and the flash is ready, a page at a
    time and only from 1 to 0, and the flash is ready again within the wait.
    Against every such flash the operations of the MTD device erase, write and
    read exactly the range they are given, whatever its length. *)

From S2P Require Import Prelude.
From S2P Require Import Loops.
From S2P Require Import SpiNor.
Local Open Scope list_scope.
Local Open Scope Z_scope.

(** ** Memory *)

Definition bytes_of (m : Z -> Z) (a : Z) (n : nat) : list Z := map (fun i => m (a + Z.of_nat i)) (seq 0 n).
(** Programming [data] at [a]. *)
Definition and_store (a : Z) (data : list Z) (m : Z -> Z) : Z -> Z := fun x =>
  match data !! Z.to_nat (x - a) with
  | Some b => if a <=? x then Z.land (m x) b else m x
  | None => m x
  end.
Definition erased (a len : Z) (m : Z -> Z) : Z -> Z := fun x => if (a <=? x) && (x <? a + len) then 0xff else m x.
Definition nor_bytes (l : list Z) : Prop := Forall (fun b => 0 <= b < 256) l.

Lemma and_store_nil a m x : and_store a [] m x = m x.
Proof. done. Qed.

Lemma and_store_app a l k m x : and_store (a + Z.of_nat (length l)) k (and_store a l m) x = and_store a (l ++ k) m x.
Proof.
  unfold and_store. destruct (Z.leb_spec a x) as [Ha|Ha].
  - destruct (Z.leb_spec (a + Z.of_nat (length l)) x) as [Hl|Hl].
    + rewrite (lookup_app_r l k) by lia. rewrite (lookup_ge_None_2 l) by lia.
      by replace (Z.to_nat (x - a) - length l)%nat with (Z.to_nat (x - (a + Z.of_nat (length l)))) by lia.
    + rewrite (lookup_app_l l k) by lia. by repeat case_match.
  - rewrite (proj2 (Z.leb_gt (a + Z.of_nat (length l)) x)) by lia. by repeat case_match.
Qed.

Lemma erased_app a l k m x :
  0 <= l -> 0 <= k -> erased (a + l) k (erased a l m) x = erased a (l + k) m x.
Proof.
  intros Hl Hk. unfold erased.
  destruct (Z.leb_spec (a + l) x), (Z.ltb_spec x (a + l + k)), (Z.leb_spec a x), (Z.ltb_spec x (a + l)), (Z.ltb_spec x (a + (l + k)));
    cbn [andb]; try done; lia.
Qed.

Lemma bytes_of_app m a n k : bytes_of m a (n + k) = bytes_of m a n ++ bytes_of m (a + Z.of_nat n) k.
Proof.
  revert a. induction n as [|n IH]; intros a.
  - by rewrite Z.add_0_r.
  - assert (forall j b, bytes_of m b (S j) = m b :: bytes_of m (b + 1) j) as Hs.
    { intros j b. unfold bytes_of. cbn [seq map]. rewrite Z.add_0_r. f_equal. rewrite <- seq_shift, map_map.
      apply map_ext. intros i. f_equal. lia. }
    cbn [Nat.add]. rewrite !Hs, IH. cbn [app]. do 3 f_equal. lia.
Qed.

Lemma bytes_of_ext_in m m' a n :
  (forall x, a <= x < a + Z.of_nat n -> m x = m' x) -> bytes_of m a n = bytes_of m' a n.
Proof. intros H. apply map_ext_in. intros i [_ Hi]%in_seq. apply H. lia. Qed.

Lemma bytes_of_const b a n : bytes_of (fun _ => b) a n = repeat b n.
Proof. unfold bytes_of. generalize 0%nat. induction n as [|n IH]; intros i; [done|]. cbn [seq map repeat]. by rewrite IH. Qed.

Lemma land_ff b : 0 <= b < 256 -> Z.land 0xff b = b.
Proof. intros Hb. rewrite Z.land_comm. change 0xff with (Z.ones 8). rewrite Z.land_ones by lia. by apply Z.mod_small. Qed.

(** Programming of erased bytes stores them. *)
Lemma and_store_erased a buf m :
  nor_bytes buf -> (forall x, a <= x < a + Z.of_nat (length buf) -> m x = 0xff) ->
  bytes_of (and_store a buf m) a (length buf) = buf.
Proof.
  intros Hb Hm. apply list_eq. intros i. unfold bytes_of. rewrite list_lookup_fmap.
  destruct (buf !! i) as [b|] eqn:E.
  - pose proof (lookup_lt_Some _ _ _ E) as Hi. rewrite lookup_seq_lt by done. cbn [fmap option_fmap option_map].
    unfold and_store. replace (Z.to_nat (a + Z.of_nat (0 + i) - a)) with i by lia. rewrite E.
    rewrite (proj2 (Z.leb_le _ _)) by lia. rewrite Hm by lia. f_equal. apply land_ff.
    eapply (Forall_lookup_1 (fun b => 0 <= b < 256)); [exact Hb|exact E].
  - apply lookup_ge_None in E. by rewrite lookup_seq_ge by done.
Qed.

Lemma and_store_other a buf m x : x < a \/ a + Z.of_nat (length buf) <= x -> and_store a buf m x = m x.
Proof.
  intros Hx. unfold and_store. destruct (Z.leb_spec a x); [|by case_match].
  rewrite lookup_ge_None_2 by lia. done.
Qed.

(** What an erased range holds once [buf] was programmed in it. *)
Lemma updated_bytes a len to buf m :
  nor_bytes buf -> a <= to -> to + Z.of_nat (length buf) <= a + len ->
  (forall x, a <= x < a + len -> m x = 0xff) ->
  bytes_of (and_store to buf m) a (Z.to_nat len) =
    repeat 0xff (Z.to_nat (to - a)) ++ buf ++ repeat 0xff (Z.to_nat (a + len - (to + Z.of_nat (length buf)))).
Proof.
  intros Hb Hto Hend Hm. set (p := Z.to_nat (to - a)). set (q := Z.to_nat (a + len - (to + Z.of_nat (length buf)))).
  replace (Z.to_nat len) with (p + (length buf + q))%nat by lia. rewrite !bytes_of_app.
  replace (a + Z.of_nat p) with to by lia. rewrite and_store_erased by (done || intros; apply Hm; lia).
  rewrite <- !(bytes_of_const 0xff a), (bytes_of_const 0xff a q), <- (bytes_of_const 0xff (to + Z.of_nat (length buf))).
  f_equal; [|f_equal]; apply bytes_of_ext_in; intros x Hx; rewrite and_store_other by lia; apply Hm; lia.
Qed.

(** ** The flash *)

(** What the operations of the controller do, in terms of the flash. *)
Class NorFlash (C : Type) := {
  nf_ok : bool -> C -> Prop;     (* idle, and whether it was prepared *)
  nf_mem : C -> Z -> Z; nf_wel : C -> bool;
  nf_busy : C -> nat;            (* status reads until the flash is ready *)
  nf_poll : Z;                   (* at most so many jiffies from one to the next *)
  nf_busy_max : nat; nf_chip_max : nat;
}.

(** The flash that the fields of [n] describe: its commands, its pages and the
    sizes of the MTD device. *)
Record same_view (n n' : spi_nor) : Prop := {
  sv_mtd : mtd n' = mtd n; sv_page : page_size n' = page_size n; sv_width : addr_width n' = addr_width n;
  sv_erase : erase_opcode n' = erase_opcode n; sv_read : read_opcode n' = read_opcode n;
  sv_program : program_opcode n' = program_opcode n; sv_flags : nor_flags n' = nor_flags n;
}.

Section Laws.
Context {C : Type} {con : NorController C} {fl : NorFlash C}.

(** The erase of a sector, by the driver's own function or by the opcode. *)
Definition erase_command (n : spi_nor) (a : Z) : K C Z :=
  match nc_erase with
  | Some erase => erase n a
  | None => nc_write_reg (erase_opcode n) (address_bytes (Z.to_nat (addr_width n)) a [])
  end.

(** The flash ends up so, and the controller is idle. *)
Definition flash_is (held : bool) (m : Z -> Z) (w : bool) (busy : nat) (c : C) : Prop :=
  nf_ok held c /\ (forall x, nf_mem c x = m x) /\ nf_wel c = w /\ nf_busy c = busy.

(** [n0] is the scanned flash. *)
Class NorFlashOk (HZ : Z) (n0 : spi_nor) : Prop := {
  law_prepare : forall ops c, nf_ok false c ->
    exists c', match nc_prepare with Some prepare => prepare ops | None => kret 0 end c = Some (0, c') /\
      flash_is true (nf_mem c) (nf_wel c) (nf_busy c) c';
  law_unprepare : forall ops c, nf_ok true c ->
    exists c', match nc_unprepare with Some unprepare => unprepare ops | None => kret tt end c = Some (tt, c') /\
      flash_is false (nf_mem c) (nf_wel c) (nf_busy c) c';
  law_enable : forall c, nf_ok true c -> nf_busy c = 0%nat ->
    exists r c', nc_write_reg SPINOR_OP_WREN [] c = Some (r, c') /\ flash_is true (nf_mem c) true 0 c';
  law_disable : forall c, nf_ok true c -> nf_busy c = 0%nat ->
    exists r c', nc_write_reg SPINOR_OP_WRDI [] c = Some (r, c') /\ flash_is true (nf_mem c) false 0 c';
  law_status : forall c, nf_ok true c ->
    exists r sr c', nc_read_reg SPINOR_OP_RDSR 1 c = Some ((r, [sr]), c') /\ 0 <= r /\ 0 <= sr /\
      istrue (Z.land sr SR_WIP) = negb (nf_busy c =? 0)%nat /\
      flash_is true (nf_mem c) (nf_wel c) (pred (nf_busy c)) c' /\
      flash_is true (nf_mem c) (nf_wel c) (pred (nf_busy c)) (nc_resched c') /\
      nc_jiffies c <= nc_jiffies (nc_resched c') <= nc_jiffies c + nf_poll;
  law_write : forall n a data c, same_view n0 n -> nf_ok true c -> nf_busy c = 0%nat -> nf_wel c = true ->
    data <> [] -> nor_bytes data -> 0 <= a -> a mod page_size n0 + Z.of_nat (length data) <= page_size n0 ->
    a + Z.of_nat (length data) <= mtd_size (mtd n0) ->
    exists busy c', nc_write n a data c = Some (Z.of_nat (length data), c') /\ (busy <= nf_busy_max)%nat /\
      flash_is true (and_store a data (nf_mem c)) false busy c';
  law_read : forall n a len c, same_view n0 n -> nf_ok true c -> nf_busy c = 0%nat ->
    0 <= a -> 0 < len -> a + len <= mtd_size (mtd n0) ->
    exists k c', nc_read n a len c = Some ((k, bytes_of (nf_mem c) a (Z.to_nat k)), c') /\ 0 < k <= len /\ k < 2 ^ 31 /\
      flash_is true (nf_mem c) (nf_wel c) 0 c';
  law_erase : forall n a c, same_view n0 n -> nf_ok true c -> nf_busy c = 0%nat -> nf_wel c = true ->
    0 <= a -> a mod mtd_erasesize (mtd n0) = 0 -> a + mtd_erasesize (mtd n0) <= mtd_size (mtd n0) ->
    exists busy c', erase_command n a c = Some (0, c') /\ (busy <= nf_busy_max)%nat /\
      flash_is true (erased a (mtd_erasesize (mtd n0)) (nf_mem c)) false busy c';
  law_chip_erase : forall c, nf_ok true c -> nf_busy c = 0%nat -> nf_wel c = true ->
    has_flag SNOR_F_NO_OP_CHIP_ERASE n0 = false ->
    exists busy c' m, nc_write_reg SPINOR_OP_CHIP_ERASE [] c = Some (0, c') /\ (busy <= nf_chip_max)%nat /\
      flash_is true m false busy c' /\ forall x, 0 <= x < mtd_size (mtd n0) -> m x = 0xff;
  law_time : 0 <= nf_poll /\ Z.of_nat nf_busy_max * nf_poll < 40 * HZ <= 2 ^ 62 /\
    Z.of_nat nf_chip_max * nf_poll < chip_erase_timeout HZ (mtd_size (mtd n0)) <= 2 ^ 62;
}.

(** A flash without a special status register, with pages and sectors that make
    up its memory, which 32-bit addresses reach. *)
Record plain_nor (n : spi_nor) : Prop := {
  pl_xsr : has_flag SNOR_F_READY_XSR_RDY n = false; pl_fsr : has_flag SNOR_F_USE_FSR n = false;
  pl_s3an : has_flag SNOR_F_S3AN_ADDR_DEFAULT n = false;
  pl_page : 0 < page_size n < 2 ^ 32; pl_erase : 0 < mtd_erasesize (mtd n);
  pl_size : 0 < mtd_size (mtd n) < 2 ^ 32;
}.
End Laws.

Section Operations.
Context {C : Type} {con : NorController C} {fl : NorFlash C}.
Variable HZ : Z.
Variable polls : positive.
Variable n0 : spi_nor.
Context {ok : NorFlashOk HZ n0}.
Hypothesis Hplain : plain_nor n0.
Hypothesis Hpolls : (nf_busy_max < Pos.to_nat polls)%nat /\ (nf_chip_max < Pos.to_nat polls)%nat.
Abbreviation dev := (nordev C).

(** The scanned flash, with the framework's mutex and the controller held. *)
Record st (held : bool) (m : Z -> Z) (w : bool) (busy : nat) (s : dev) : Prop := {
  st_view : same_view n0 (nor s); st_lock : nor_lock (nor s) = held; st_flash : flash_is held m w busy (ctl s);
}.
Lemma st_ext held m m' w busy s : (forall x, m x = m' x) -> st held m w busy s -> st held m' w busy s.
Proof. intros Hm [H1 H2 (H3 & H4 & H5)]. split; [done..|]. split; [done|]. split; [|done]. intros x. by rewrite H4. Qed.

Lemma same_view_flags f n : same_view n0 n -> has_flag f n = has_flag f n0.
Proof. intros []. unfold has_flag. by rewrite sv_flags0. Qed.

(** The memory as it is, in the laws. *)
Lemma flash_is_ext held m m' w busy c : (forall x, m x = m' x) -> flash_is held m w busy c -> flash_is held m' w busy c.
Proof. intros Hm (H1 & H2 & H3). split; [done|]. split; [|done]. intros x. by rewrite H2. Qed.

(** A step of the controller. *)
Lemma ctl_ends {A} (op : K C A) a held held' m w busy m' w' busy' s :
  st held m w busy s ->
  (exists c', op (ctl s) = Some (a, c') /\ flash_is held' m' w' busy' c') ->
  ends (on_ctl op) a (fun s' => nor s' = nor s /\ flash_is held' m' w' busy' (ctl s')) s.
Proof.
  intros _ (c' & Hrun & Hf). exists (set_ctl c' s). unfold on_ctl, zoom. by rewrite Hrun.
Qed.

Lemma ctl_step {A} (op : K C A) a m w busy m' w' busy' s :
  st true m w busy s ->
  (exists c', op (ctl s) = Some (a, c') /\ flash_is true m' w' busy' c') ->
  ends (on_ctl op) a (st true m' w' busy') s.
Proof.
  intros [H1 H2 H3] (c' & Hrun & Hf). exists (set_ctl c' s). unfold on_ctl, zoom. by rewrite Hrun.
Qed.

(** ** Waiting *)

Lemma deadline_ahead now0 e T : 0 <= e < T -> T <= 2 ^ 62 -> time_after_eq (now0 + e) (u64 (now0 + T)) = false.
Proof.
  intros He HT. unfold time_after_eq, s64, u64, wrap.
  assert ((now0 + e - (now0 + T) mod 2 ^ 64 + 2 ^ 63) mod 2 ^ 64 = e - T + 2 ^ 63) as ->.
  { rewrite <- (Z.mod_small (e - T + 2 ^ 63) (2 ^ 64)) by lia.
    replace (now0 + e - (now0 + T) mod 2 ^ 64 + 2 ^ 63) with (now0 + e + 2 ^ 63 - (now0 + T) mod 2 ^ 64) by lia.
    rewrite Zminus_mod_idemp_r. f_equal. lia. }
  apply Z.leb_gt. lia.
Qed.

Lemma ready_run m w busy s :
  st true m w busy s ->
  exists c', spi_nor_ready s = Some (if (busy =? 0)%nat then 1 else 0, set_ctl c' s) /\
    flash_is true m w (pred busy) c' /\ flash_is true m w (pred busy) (nc_resched c') /\
    nc_jiffies (ctl s) <= nc_jiffies (nc_resched c') <= nc_jiffies (ctl s) + nf_poll.
Proof.
  intros [H1 H2 (Hok & Hm & Hw & Hb)].
  destruct (law_status (ctl s) Hok) as (r & sr & c' & Hrun & Hr & Hsr & Hwip & Hf & Hf' & Hj).
  rewrite Hw, Hb in *. exists c'. split_and!; try (eapply flash_is_ext; [apply Hm|done]); try apply Hj.
  unfold spi_nor_ready. rewrite (kbind_run (kgets nor) _ s (nor s) s eq_refl).
  cbn beta. rewrite (same_view_flags SNOR_F_READY_XSR_RDY), (same_view_flags SNOR_F_USE_FSR) by done.
  rewrite (pl_xsr _ Hplain), (pl_fsr _ Hplain).
  unfold spi_nor_sr_ready, read_sr, read_byte, read_reg, on_ctl, zoom, kbind. rewrite Hrun. cbn [fst snd].
  rewrite (proj2 (Z.ltb_ge r 0)) by lia. cbn [head hd_error deref kret]. rewrite (proj2 (Z.ltb_ge sr 0)), Hwip by lia.
  by destruct busy.
Qed.

Lemma wait_ends T m w busy s :
  st true m w busy s -> Z.of_nat busy * nf_poll < T <= 2 ^ 62 -> (busy < Pos.to_nat polls)%nat ->
  ends (spi_nor_wait_till_ready_with_timeout polls T) 0 (st true m w 0) s.
Proof.
  intros Hs HT Hn. unfold spi_nor_wait_till_ready_with_timeout. apply ends_gets.
  set (now0 := nc_jiffies (ctl s)). destruct (law_time (HZ := HZ) (n0 := n0)) as (Hpoll & _ & _).
  destruct (kwhile_run (wait_round (u64 (now0 + T)))
    (fun k timeout s1 => timeout = false /\ st true m w k s1 /\
       exists e, nc_jiffies (ctl s1) = now0 + e /\ 0 <= e /\ e + Z.of_nat k * nf_poll < T)
    (fun r s1 => r = 0 /\ st true m w 0 s1) polls busy false s) as (r & s' & Hrun & -> & Hst); [| |done|by exists s'].
  - intros k t s1 (-> & Hs1 & e & He & He0 & HeT).
    destruct (ready_run m w k s1 Hs1) as (c' & Hready & Hf & Hf' & Hj). destruct Hs1 as [S1 S2 S3].
    unfold wait_round. rewrite (kbind_run (kgets _) _ s1 (nc_jiffies (ctl s1)) s1 eq_refl).
    rewrite (kbind_run _ _ _ _ _ Hready). destruct k as [|k]; cbn [Nat.eqb].
    + change (1 <? 0) with false. change (istrue 1) with true. eexists _, _. split; [reflexivity|]. done.
    + change (0 <? 0) with false. change (istrue 0) with false. cbn iota.
      eexists _, _. split; [reflexivity|]. exists k. split; [lia|]. rewrite He, deadline_ahead by nia. split; [done|].
      split; [by split|]. cbn [ctl set_ctl]. exists (nc_jiffies (nc_resched c') - now0). nia.
  - split; [done|]. split; [done|]. exists 0. split; [lia|]. nia.
Qed.

Lemma wait_till_ready_ends m w busy s :
  st true m w busy s -> (busy <= nf_busy_max)%nat -> ends (spi_nor_wait_till_ready HZ polls) 0 (st true m w 0) s.
Proof.
  intros Hs Hb. destruct (law_time (HZ := HZ) (n0 := n0)) as (Hpoll & HT & _).
  apply (wait_ends _ _ _ busy); [done| |lia]. unfold DEFAULT_READY_WAIT_JIFFIES. nia.
Qed.

(** ** Commands *)

Lemma enable_ends m w s : st true m w 0 s -> exists r, ends write_enable r (st true m true 0) s.
Proof.
  intros Hs. pose proof (st_flash _ _ _ _ _ Hs) as (Hok & Hm & Hw & Hb).
  destruct (law_enable (ctl s) Hok Hb) as (r & c' & Hrun & Hf). exists r.
  apply (ctl_step _ _ m w 0%nat); [done|]. exists c'. split; [done|]. eapply flash_is_ext; [|exact Hf]. exact Hm.
Qed.
Lemma disable_ends m w s : st true m w 0 s -> exists r, ends write_disable r (st true m false 0) s.
Proof.
  intros Hs. pose proof (st_flash _ _ _ _ _ Hs) as (Hok & Hm & Hw & Hb).
  destruct (law_disable (ctl s) Hok Hb) as (r & c' & Hrun & Hf). exists r.
  apply (ctl_step _ _ m w 0%nat); [done|]. exists c'. split; [done|]. eapply flash_is_ext; [|exact Hf]. exact Hm.
Qed.

Lemma set_lock_st b b' held m w busy s :
  nor_lock (nor s) = b -> same_view n0 (nor s) -> flash_is held m w busy (ctl s) ->
  b' = held -> st held m w busy (set_nor (set_lock b' (nor s)) s).
Proof. intros _ [] Hf ->. by split. Qed.

(** Between the two halves of the lock. *)
Lemma locked_ends_in {A} ops unops fail (c : K dev A) a m w w' (Q : (Z -> Z) -> Prop) s :
  st false m w 0 s ->
  (forall s1, st true m w 0 s1 -> ends c a (fun s' => exists m', st true m' w' 0 s' /\ Q m') s1) ->
  ends (locked ops unops fail c) a (fun s' => exists m', st false m' w' 0 s' /\ Q m') s.
Proof.
  intros [Hv Hl (Hok & Hm & Hw & Hb)] Hc. unfold locked.
  destruct (law_prepare ops (ctl s) Hok) as (c1 & Hrun1 & Hf1). rewrite Hw, Hb in Hf1.
  apply (flash_is_ext _ _ m) in Hf1; [|exact Hm].
  set (s1 := NorDev c1 (set_lock true (nor s))).
  assert (spi_nor_lock_and_prep ops s = Some (0, s1)) as Hlock.
  { unfold spi_nor_lock_and_prep. rewrite (kbind_run (kgets nor) _ s (nor s) s eq_refl). cbn beta. rewrite Hl.
    unfold mod_nor, on_ctl, zoom, set_nor, set_ctl, kbind, kmod. cbn [ctl nor].
    revert Hrun1. destruct nc_prepare as [prepare|]; cbn [ctl nor]; [by intros ->|]. by intros [= <-]. }
  eapply ends_bind; [exists s1; split; [exact Hlock|]|].
  { instantiate (1 := st true m w 0). apply (set_lock_st false true true m w 0%nat (NorDev c1 (nor s))); done. }
  intros s2 Hs2. change (istrue 0) with false. cbn iota.
  eapply ends_bind; [apply Hc, Hs2|]. intros s3 (m' & [V3 L3 (Hok3 & Hm3 & Hw3 & Hb3)] & HQ).
  destruct (law_unprepare unops (ctl s3) Hok3) as (c4 & Hrun4 & Hf4). rewrite Hw3, Hb3 in Hf4.
  apply (flash_is_ext _ _ m') in Hf4; [|exact Hm3].
  set (s4 := NorDev c4 (set_lock false (nor s3))).
  assert (spi_nor_unlock_and_unprep unops s3 = Some (tt, s4)) as Hunlock.
  { unfold spi_nor_unlock_and_unprep. revert Hrun4. destruct nc_unprepare as [unprepare|]; intros Hrun4.
    - unfold on_ctl, zoom, kbind. rewrite Hrun4. unfold kgets. cbn [nor set_ctl]. by rewrite L3.
    - injection Hrun4 as <-. unfold kbind, kret, kgets. by rewrite L3. }
  eapply ends_bind; [exists s4; split; [exact Hunlock|]|].
  { instantiate (1 := st false m' w' 0). apply (set_lock_st true false false m' w' 0%nat (NorDev c4 (nor s3))); done. }
  intros s5 Hs5. apply ends_ret. by exists m'.
Qed.
Lemma locked_ends {A} ops unops fail (c : K dev A) a m w m' w' s :
  st false m w 0 s ->
  (forall s1, st true m w 0 s1 -> ends c a (st true m' w' 0) s1) ->
  ends (locked ops unops fail c) a (st false m' w' 0) s.
Proof.
  intros Hs Hc. destruct (locked_ends_in ops unops fail c a m w w' (eq m') s Hs) as (s' & Hrun & ? & Hst & <-).
  - intros s1 Hs1. destruct (Hc s1 Hs1) as (s' & Hrun & Hst). exists s'. split; [exact Hrun|]. by exists m'.
  - by exists s'.
Qed.

(** ** Writing *)

Lemma pow2_offset p x : is_pow2 p = true -> 0 < p -> 0 <= x -> Z.land x (p - 1) = x mod p.
Proof.
  unfold is_pow2. intros [_ H%Z.eqb_eq]%andb_prop Hp Hx.
  assert (p = 2 ^ Z.log2 p) as E.
  { destruct (Z.log2_spec p Hp) as [Hl Hu]. destruct (Z.eq_dec p (2 ^ Z.log2 p)) as [|Hne]; [done|].
    exfalso. assert (Z.log2 (p - 1) = Z.log2 p) as Hlog by (apply Z.log2_unique; [apply Z.log2_nonneg|lia]).
    assert (0 < 2 ^ Z.log2 p) by (apply Z.pow_pos_nonneg; [lia|apply Z.log2_nonneg]).
    assert (Z.testbit (Z.land p (p - 1)) (Z.log2 p) = true) as Hbit.
    { rewrite Z.land_spec, Z.bit_log2, <- Hlog, Z.bit_log2 by lia. done. }
    by rewrite H, Z.bits_0 in Hbit. }
  rewrite E at 1. replace (2 ^ Z.log2 p - 1) with (Z.ones (Z.log2 p)) by (rewrite Z.ones_equiv; lia).
  rewrite Z.land_ones by apply Z.log2_nonneg. by rewrite <- E.
Qed.

Lemma page_offset_mod n a : same_view n0 n -> 0 <= a -> page_offset n a = a mod page_size n0.
Proof.
  intros Hv Ha. unfold page_offset. rewrite (sv_page _ _ Hv). pose proof (pl_page _ Hplain).
  destruct (is_pow2 (page_size n0)) eqn:E; [|done]. apply pow2_offset; lia || done.
Qed.

Lemma take_slice i k (buf : list Z) : 0 <= i -> 0 <= k -> take (Z.to_nat (i + k)) buf = take (Z.to_nat i) buf ++ slice i k buf.
Proof.
  intros Hi Hk. unfold slice. rewrite Z2Nat.inj_add by lia.
  rewrite <- (take_drop (Z.to_nat i) buf) at 1. destruct (decide (Z.to_nat i <= length buf)%nat) as [H|H].
  - rewrite take_app. rewrite length_take, Nat.min_l by lia. rewrite (take_ge (take _ _)) by (rewrite length_take; lia).
    do 2 f_equal. lia.
  - rewrite (drop_ge buf) by lia. rewrite app_nil_r, take_nil, app_nil_r. rewrite !take_ge by (rewrite ?length_take; lia). done.
Qed.
Lemma slice_length i k (buf : list Z) : 0 <= i -> 0 <= k -> i + k <= Z.of_nat (length buf) -> Z.of_nat (length (slice i k buf)) = k.
Proof. intros Hi Hk Hl. unfold slice. rewrite length_take, length_drop. lia. Qed.

Lemma write_round_run to buf i m w s :
  nor_bytes buf -> 0 <= to -> to + Z.of_nat (length buf) <= mtd_size (mtd n0) -> 0 <= i < Z.of_nat (length buf) ->
  st true (and_store to (take (Z.to_nat i) buf) m) w 0 s ->
  exists k, 0 < k <= Z.of_nat (length buf) - i /\
    ends (write_round HZ polls to buf i) (inl (i + k)) (st true (and_store to (take (Z.to_nat (i + k)) buf) m) false 0) s.
Proof.
  intros Hb Hto Hend Hi Hs. pose proof (pl_page _ Hplain) as Hps. set (len := Z.of_nat (length buf)) in *.
  set (off := (to + i) mod page_size n0). pose proof (Z.mod_pos_bound (to + i) (page_size n0) ltac:(lia)) as Hoff. fold off in Hoff.
  set (k := Z.min (page_size n0 - off) (len - i)). exists k. split; [lia|].
  assert (Z.of_nat (length (slice i k buf)) = k) as Hk by (apply slice_length; lia).
  pose proof (st_view _ _ _ _ _ Hs) as Hv.
  unfold write_round. fold len. rewrite (proj2 (Z.leb_gt _ _)) by lia. apply ends_gets.
  rewrite (page_offset_mod _ _ Hv) by lia. fold off. rewrite (sv_page _ _ Hv).
  rewrite (proj2 (Z.eqb_neq (page_size n0) 0)) by lia. fold k. unfold convert_addr.
  rewrite (same_view_flags _ _ Hv), (pl_s3an _ Hplain).
  destruct (enable_ends _ _ _ Hs) as [r He]. eapply ends_bind; [exact He|]. intros s1 Hs1.
  pose proof (st_flash _ _ _ _ _ Hs1) as (Hok1 & Hm1 & Hw1 & Hb1).
  destruct (law_write (nor s) (to + i) (slice i k buf) (ctl s1) Hv Hok1 Hb1 Hw1) as (busy & c2 & Hrun2 & Hbusy & Hf2).
  { intros E. rewrite E in Hk. simpl in Hk. lia. }
  { by apply Forall_take, Forall_drop. }
  { lia. }
  { rewrite Hk. fold off. lia. }
  { rewrite Hk. lia. }
  rewrite Hk in Hrun2. eapply ends_bind.
  { eapply (ctl_step _ _ _ true 0%nat); [exact Hs1|]. exists c2. split; [exact Hrun2|exact Hf2]. }
  intros s3 Hs3. rewrite (proj2 (Z.ltb_ge k 0)) by lia.
  eapply ends_bind; [apply (wait_till_ready_ends _ _ busy _ Hs3 Hbusy)|]. intros s4 Hs4.
  change (istrue 0) with false. cbn iota. rewrite Z.eqb_refl. cbn [negb]. apply ends_ret.
  eapply st_ext; [|exact Hs4]. intros x. rewrite take_slice by lia. rewrite <- and_store_app.
  replace (to + Z.of_nat (length (take (Z.to_nat i) buf))) with (to + i) by (rewrite length_take; lia).
  unfold and_store at 1 2. by rewrite Hm1.
Qed.

Lemma write_ends to buf m w s :
  nor_bytes buf -> 0 <= to -> to + Z.of_nat (length buf) <= mtd_size (mtd n0) -> st false m w 0 s ->
  exists w', ends (spi_nor_write HZ polls to buf) (0, Z.of_nat (length buf)) (st false (and_store to buf m) w' 0) s.
Proof.
  intros Hb Hto Hend Hs. exists (if buf then w else false). unfold spi_nor_write. eapply locked_ends; [exact Hs|]. intros s1 Hs1.
  destruct (kwhile_run (write_round HZ polls to buf)
    (fun k i s2 => 0 <= i <= Z.of_nat (length buf) /\ k = Z.to_nat (Z.of_nat (length buf) - i) /\
       exists w2, st true (and_store to (take (Z.to_nat i) buf) m) w2 0 s2 /\ (w2 = if decide (i = 0) then w else false))
    (fun r s2 => r = (0, Z.of_nat (length buf)) /\ st true (and_store to buf m) (if buf then w else false) 0 s2)
    (Z.to_pos (Z.of_nat (length buf) + 1)) (length buf) 0 s1) as (r & s2 & Hrun & -> & Hst).
  - intros k i s2 (Hi & Hk & w2 & Hs2 & Hw2). destruct (Z.leb_spec (Z.of_nat (length buf)) i) as [Hge|Hlt].
    + assert (i = Z.of_nat (length buf)) as -> by lia. unfold write_round. rewrite (proj2 (Z.leb_le _ _)) by lia.
      eexists _, _. split; [reflexivity|]. split; [done|]. rewrite Nat2Z.id, firstn_all in Hs2. rewrite Hw2 in Hs2.
      destruct buf as [|b buf]; [exact Hs2|]. destruct (decide _) as [E|]; [simpl in E; lia|exact Hs2].
    + destruct (write_round_run to buf i m w2 s2 Hb Hto Hend ltac:(lia) Hs2) as (j & Hj & s3 & Hrun3 & Hs3).
      exists (inl (i + j)), s3. split; [exact Hrun3|]. exists (Z.to_nat (Z.of_nat (length buf) - (i + j))). split; [lia|].
      split; [lia|]. split; [done|]. exists false. split; [done|]. by rewrite decide_False by lia.
  - split; [lia|]. split; [lia|]. exists w. split; [|done]. exact Hs1.
  - lia.
  - by exists s2.
Qed.

(** ** Reading *)

Lemma bytes_of_ext m m' a n : (forall x, m x = m' x) -> bytes_of m a n = bytes_of m' a n.
Proof. intros H. apply map_ext. intros i. apply H. Qed.
Lemma bytes_of_length m a n : length (bytes_of m a n) = n.
Proof. unfold bytes_of. by rewrite length_map, length_seq. Qed.

Lemma read_round_run a total m w buf s :
  0 <= a -> a + total <= mtd_size (mtd n0) -> Z.of_nat (length buf) < total -> buf = bytes_of m a (length buf) ->
  st true m w 0 s ->
  exists k, 0 < k <= total - Z.of_nat (length buf) /\
    ends (read_round (a + Z.of_nat (length buf), total - Z.of_nat (length buf), buf))
      (inl (a + (Z.of_nat (length buf) + k), total - (Z.of_nat (length buf) + k), bytes_of m a (length buf + Z.to_nat k)))
      (st true m w 0) s.
Proof.
  intros Ha Hend Hlt Hbuf Hs. set (n := Z.of_nat (length buf)) in *.
  pose proof (st_view _ _ _ _ _ Hs) as Hv. pose proof (st_flash _ _ _ _ _ Hs) as (Hok & Hm & Hw & Hb).
  destruct (law_read (nor s) (a + n) (total - n) (ctl s) Hv Hok Hb) as (k & c' & Hrun & Hk & Hk31 & Hf); [lia..|].
  rewrite Hw in Hf. apply (flash_is_ext _ _ m) in Hf; [|exact Hm].
  exists k. split; [lia|]. unfold read_round. rewrite (proj2 (Z.eqb_neq _ 0)) by lia. apply ends_gets.
  unfold convert_addr. rewrite (same_view_flags _ _ Hv), (pl_s3an _ Hplain).
  eapply ends_bind.
  { eapply (ctl_step _ _ _ w 0%nat); [exact Hs|]. exists c'. split; [exact Hrun|exact Hf]. }
  intros s1 Hs1. cbn [fst snd]. rewrite s32_small by lia.
  rewrite (proj2 (Z.eqb_neq k 0)), (proj2 (Z.ltb_ge k 0)), (proj2 (Z.ltb_ge (total - n) k)) by lia.
  assert (bytes_of m a (length buf + Z.to_nat k) = buf ++ bytes_of (nf_mem (ctl s)) (a + n) (Z.to_nat k)) as ->.
  { rewrite bytes_of_app, <- Hbuf. f_equal. by apply bytes_of_ext. }
  replace (a + (n + k)) with (a + n + k) by lia. replace (total - (n + k)) with (total - n - k) by lia. by apply ends_ret.
Qed.

Lemma read_ends a len m w s :
  0 <= a -> 0 <= len -> a + len <= mtd_size (mtd n0) -> st false m w 0 s ->
  ends (spi_nor_read a len) (0, bytes_of m a (Z.to_nat len)) (st false m w 0) s.
Proof.
  intros Ha Hl Hend Hs. unfold spi_nor_read. eapply locked_ends; [exact Hs|]. intros s1 Hs1.
  destruct (kwhile_run (read_round (C := C))
    (fun k x s2 => exists buf, x = (a + Z.of_nat (length buf), len - Z.of_nat (length buf), buf) /\
       buf = bytes_of m a (length buf) /\ Z.of_nat (length buf) <= len /\ k = (Z.to_nat len - length buf)%nat /\ st true m w 0 s2)
    (fun r s2 => r = (0, bytes_of m a (Z.to_nat len)) /\ st true m w 0 s2)
    (Z.to_pos (len + 1)) (Z.to_nat len) (a, len, []) s1) as (r & s2 & Hrun & -> & Hst); [| |lia|by exists s2].
  - intros k x s2 (buf & -> & Hbuf & Hle & -> & Hs2). destruct (Z.eq_dec (Z.of_nat (length buf)) len) as [E|E].
    + unfold read_round. rewrite (proj2 (Z.eqb_eq _ 0)) by lia. eexists _, _. split; [reflexivity|]. split; [|done].
      replace (Z.to_nat len) with (length buf) by lia. by rewrite <- Hbuf.
    + destruct (read_round_run a len m w buf s2 Ha Hend ltac:(lia) Hbuf Hs2) as (k & Hk & s3 & Hrun3 & Hs3).
      eexists _, s3. split; [exact Hrun3|]. exists (Z.to_nat len - (length buf + Z.to_nat k))%nat. split; [lia|].
      exists (bytes_of m a (length buf + Z.to_nat k)). rewrite bytes_of_length. split_and!; [|done|lia|done|done].
      rewrite Nat2Z.inj_add, Z2Nat.id by lia. done.
  - exists []. cbn [length]. change (Z.of_nat 0) with 0. rewrite Z.add_0_r, Z.sub_0_r, Nat.sub_0_r. split_and!; done.
Qed.

(** ** Erasing *)

Lemma erase_sector_ends a m s :
  st true m true 0 s -> 0 <= a -> a mod mtd_erasesize (mtd n0) = 0 -> a + mtd_erasesize (mtd n0) <= mtd_size (mtd n0) ->
  exists busy, (busy <= nf_busy_max)%nat /\
    ends (spi_nor_erase_sector a) 0 (st true (erased a (mtd_erasesize (mtd n0)) m) false busy) s.
Proof.
  intros Hs Ha Hmod Hend. pose proof (st_view _ _ _ _ _ Hs) as Hv. pose proof (st_flash _ _ _ _ _ Hs) as (Hok & Hm & Hw & Hb).
  pose proof (pl_erase _ Hplain) as He. pose proof (pl_size _ Hplain) as Hsz.
  destruct (law_erase (nor s) a (ctl s) Hv Hok Hb Hw Ha Hmod Hend) as (busy & c' & Hrun & Hbusy & Hf).
  exists busy. split; [done|]. apply (flash_is_ext _ _ (erased a (mtd_erasesize (mtd n0)) m)) in Hf;
    [|intros x; unfold erased; by rewrite Hm].
  unfold spi_nor_erase_sector. apply ends_gets. unfold convert_addr. rewrite (same_view_flags _ _ Hv), (pl_s3an _ Hplain).
  rewrite u32_small by (unfold is_u32, in_range; lia).
  unfold erase_command in Hrun. unfold write_reg.
  destruct nc_erase as [erase|]; eapply (ctl_step _ _ _ true 0%nat); try exact Hs; by exists c'.
Qed.

Lemma erase_round_ends a done_ len m w s :
  0 <= a -> 0 <= done_ < len -> a mod mtd_erasesize (mtd n0) = 0 -> len mod mtd_erasesize (mtd n0) = 0 ->
  done_ mod mtd_erasesize (mtd n0) = 0 -> a + len <= mtd_size (mtd n0) ->
  st true (erased a done_ m) w 0 s ->
  ends (erase_sectors_round HZ polls (mtd_erasesize (mtd n0)) (a + done_, len - done_))
    (inl (a + (done_ + mtd_erasesize (mtd n0)), len - (done_ + mtd_erasesize (mtd n0))))
    (st true (erased a (done_ + mtd_erasesize (mtd n0)) m) false 0) s /\ done_ + mtd_erasesize (mtd n0) <= len.
Proof.
  intros Ha Hd Hma Hml Hmd Hend Hs. pose proof (pl_erase _ Hplain) as He. pose proof (pl_size _ Hplain) as Hsz.
  set (es := mtd_erasesize (mtd n0)) in *.
  assert (done_ + es <= len) as Hle.
  { destruct (proj1 (Z.mod_divide len es ltac:(lia)) Hml) as [q ->].
    destruct (proj1 (Z.mod_divide done_ es ltac:(lia)) Hmd) as [r ->].
    assert (r < q) by (apply (Z.mul_lt_mono_pos_r es); lia). nia. }
  split; [|done]. unfold erase_sectors_round. rewrite (proj2 (Z.eqb_neq _ 0)) by lia.
  destruct (enable_ends _ _ _ Hs) as [r Hen]. eapply ends_bind; [exact Hen|]. intros s1 Hs1.
  destruct (erase_sector_ends (a + done_) _ s1 Hs1) as (busy & Hbusy & Her); [lia| |fold es; lia|].
  { fold es. rewrite Z.add_mod, Hma, Hmd by lia. by rewrite Z.mod_0_l by lia. }
  eapply ends_bind; [exact Her|]. intros s2 Hs2. change (istrue 0) with false. cbn iota.
  eapply ends_bind; [apply (wait_till_ready_ends _ _ busy _ Hs2 Hbusy)|]. intros s3 Hs3.
  change (istrue 0) with false. cbn iota. fold es in Hs3.
  rewrite !u32_small by (unfold is_u32, in_range; lia).
  replace (a + (done_ + es)) with (a + done_ + es) by lia. replace (len - (done_ + es)) with (len - done_ - es) by lia.
  apply ends_ret. eapply st_ext; [|exact Hs3]. intros x. apply erased_app; lia.
Qed.

Lemma sectors_ends a len m w s :
  0 <= a -> 0 <= len -> a mod mtd_erasesize (mtd n0) = 0 -> len mod mtd_erasesize (mtd n0) = 0 ->
  a + len <= mtd_size (mtd n0) -> st true m w 0 s ->
  ends (kwhile (erase_sectors_round HZ polls (mtd_erasesize (mtd n0))) (Z.to_pos (len + 1)) (a, len)) 0
    (fun s' => exists w', st true (erased a len m) w' 0 s') s.
Proof.
  intros Ha Hl Hma Hml Hend Hs. pose proof (pl_erase _ Hplain) as He.
  destruct (kwhile_run (erase_sectors_round HZ polls (mtd_erasesize (mtd n0)))
    (fun k x s1 => exists d w1, x = (a + d, len - d) /\ 0 <= d <= len /\ d mod mtd_erasesize (mtd n0) = 0 /\
       k = Z.to_nat (len - d) /\ st true (erased a d m) w1 0 s1)
    (fun r s1 => r = 0 /\ exists w', st true (erased a len m) w' 0 s1)
    (Z.to_pos (len + 1)) (Z.to_nat len) (a, len) s) as (r & s2 & Hrun & -> & Hst); [| |lia|by exists s2].
  - intros k x s1 (d & w1 & -> & Hd & Hmd & -> & Hs1). destruct (Z.eq_dec d len) as [->|E].
    + unfold erase_sectors_round. rewrite Z.sub_diag. eexists _, _. split; [reflexivity|]. split; [done|]. by exists w1.
    + destruct (erase_round_ends a d len m w1 s1) as [(s3 & Hrun3 & Hs3) Hle]; try done; [lia|].
      eexists _, s3. split; [exact Hrun3|]. exists (Z.to_nat (len - (d + mtd_erasesize (mtd n0)))). split; [lia|].
      exists (d + mtd_erasesize (mtd n0)), false. split_and!; try done; [lia|].
      rewrite Z.add_mod, Hmd, Z.mod_same, Z.mod_0_l by lia. done.
  - exists 0, w. rewrite Z.add_0_r, Z.sub_0_r. split_and!; try done.
    eapply st_ext; [|exact Hs]. intros y. unfold erased.
    destruct (Z.leb_spec a y), (Z.ltb_spec y (a + 0)); cbn [andb]; try done; lia.
Qed.

(** The memory inside the device. *)
Definition in_device (m m' : Z -> Z) : Prop := forall x, 0 <= x < mtd_size (mtd n0) -> m' x = m x.

Lemma erase_range_ends a len m w s :
  0 <= a -> 0 <= len -> a mod mtd_erasesize (mtd n0) = 0 -> len mod mtd_erasesize (mtd n0) = 0 ->
  a + len <= mtd_size (mtd n0) -> st true m w 0 s ->
  ends (erase_range HZ polls a len) 0 (fun s' => exists m', st true m' false 0 s' /\ in_device (erased a len m) m') s.
Proof.
  intros Ha Hl Hma Hml Hend Hs. unfold erase_range. apply ends_gets.
  rewrite (sv_mtd _ _ (st_view _ _ _ _ _ Hs)), (same_view_flags _ _ (st_view _ _ _ _ _ Hs)).
  apply (ends_bind _ _ 0 _ (fun s' => exists m' w', st true m' w' 0 s' /\ in_device (erased a len m) m')).
  - destruct (Z.eqb_spec len (mtd_size (mtd n0))) as [E|E]; [destruct (has_flag _ n0) eqn:Hflag|]; cbn [andb negb].
    + destruct (sectors_ends a len m w s Ha Hl Hma Hml Hend Hs) as (s' & Hrun & w' & Hst). exists s'. split; [done|].
      exists (erased a len m), w'. by split.
    + destruct (enable_ends _ _ _ Hs) as [r Hen]. eapply ends_bind; [exact Hen|]. intros s1 Hs1.
      pose proof (st_flash _ _ _ _ _ Hs1) as (Hok & Hm & Hw & Hb).
      destruct (law_chip_erase (ctl s1) Hok Hb Hw Hflag) as (busy & c' & m' & Hrun & Hbusy & Hf & Hff).
      eapply ends_bind.
      { eapply (ctl_step _ _ _ true 0%nat); [exact Hs1|]. exists c'. split; [exact Hrun|exact Hf]. }
      intros s2 Hs2. change (istrue 0) with false. cbn iota.
      destruct (law_time (HZ := HZ) (n0 := n0)) as (Hp & _ & Ht).
      destruct (wait_ends (chip_erase_timeout HZ (mtd_size (mtd n0))) _ _ busy _ Hs2) as (s3 & Hrun3 & Hs3); [nia|lia|].
      exists s3. split; [exact Hrun3|]. exists m', false. split; [done|]. intros x Hx. rewrite Hff by done.
      unfold erased. rewrite (proj2 (Z.leb_le a x)), (proj2 (Z.ltb_lt x (a + len))) by lia. done.
    + destruct (sectors_ends a len m w s Ha Hl Hma Hml Hend Hs) as (s' & Hrun & w' & Hst). exists s'. split; [done|].
      exists (erased a len m), w'. by split.
  - intros s1 (m' & w' & Hs1 & Hm'). change (istrue 0) with false. cbn iota.
    destruct (disable_ends _ _ _ Hs1) as [r Hdis]. eapply ends_bind; [exact Hdis|]. intros s2 Hs2. apply ends_ret. by exists m'.
Qed.

Lemma nor_erase_ends instr m w s :
  0 <= ei_addr instr -> 0 <= ei_len instr -> ei_addr instr mod mtd_erasesize (mtd n0) = 0 ->
  ei_len instr mod mtd_erasesize (mtd n0) = 0 -> ei_addr instr + ei_len instr <= mtd_size (mtd n0) -> st false m w 0 s ->
  ends (spi_nor_erase HZ polls instr) (0, mtd_erase_callback (set_state MTD_ERASE_DONE instr))
    (fun s' => exists m', st false m' false 0 s' /\ in_device (erased (ei_addr instr) (ei_len instr) m) m') s.
Proof.
  intros Ha Hl Hma Hml Hend Hs. pose proof (pl_size _ Hplain) as Hsz. unfold spi_nor_erase. apply ends_gets.
  rewrite (sv_mtd _ _ (st_view _ _ _ _ _ Hs)), Hml. change (istrue 0) with false. cbn iota.
  apply (locked_ends_in _ _ _ _ _ m w); [exact Hs|]. intros s1 Hs1.
  rewrite !u32_small by (unfold is_u32, in_range; lia).
  eapply ends_bind; [by apply (erase_range_ends _ _ m w)|]. intros s2 Hs2. change (istrue 0) with false. by apply ends_ret.
Qed.

(** An erase, a write inside of the erased range and a read of the range. *)
Definition update (instr : erase_info) (to : Z) (buf : list Z) : K dev (Z * erase_info * (Z * Z) * (Z * list Z)) :=
  e <- spi_nor_erase HZ polls instr ;;
  w <- spi_nor_write HZ polls to buf ;;
  r <- spi_nor_read (ei_addr instr) (ei_len instr) ;;
  kret (e, w, r).

(** On every flash whose controller keeps the laws, erasing an aligned range of
    the device, writing a buffer of any length anywhere in it and reading the range
    back all succeed; the erase calls back once, with the request done, the write
    reports its whole length, and what is read is the buffer, between bytes 0xff.
    The rest of the device is as before and the framework's lock is free. *)
Lemma mtd_update_reads_back instr to buf m w s :
  0 <= ei_addr instr -> 0 <= ei_len instr -> ei_addr instr mod mtd_erasesize (mtd n0) = 0 ->
  ei_len instr mod mtd_erasesize (mtd n0) = 0 -> ei_addr instr + ei_len instr <= mtd_size (mtd n0) ->
  nor_bytes buf -> ei_addr instr <= to -> to + Z.of_nat (length buf) <= ei_addr instr + ei_len instr ->
  st false m w 0 s ->
  exists s', update instr to buf s =
      Some ((0, mtd_erase_callback (set_state MTD_ERASE_DONE instr), (0, Z.of_nat (length buf)),
             (0, repeat 0xff (Z.to_nat (to - ei_addr instr)) ++ buf ++
                 repeat 0xff (Z.to_nat (ei_addr instr + ei_len instr - (to + Z.of_nat (length buf)))))), s') /\
    nor_lock (nor s') = false /\ nf_ok false (ctl s') /\
    forall x, 0 <= x < mtd_size (mtd n0) -> x < ei_addr instr \/ ei_addr instr + ei_len instr <= x ->
      nf_mem (ctl s') x = m x.
Proof.
  intros Ha Hl Hma Hml Hend Hb Hto Hin Hs.
  destruct (nor_erase_ends instr m w s) as (s1 & Hrun1 & m1 & Hs1 & Hm1); try done.
  destruct (write_ends to buf m1 false s1) as (w2 & s2 & Hrun2 & Hs2); [done|lia|lia|done|].
  destruct (read_ends (ei_addr instr) (ei_len instr) _ _ _ Ha Hl Hend Hs2) as (s3 & Hrun3 & [V3 L3 (Hok3 & Hm3 & _)]).
  exists s3. unfold update.
  rewrite (kbind_run _ _ _ _ _ Hrun1), (kbind_run _ _ _ _ _ Hrun2), (kbind_run _ _ _ _ _ Hrun3).
  assert (forall x, ei_addr instr <= x < ei_addr instr + ei_len instr -> m1 x = 0xff) as Hff.
  { intros x Hx. rewrite Hm1 by lia. unfold erased. rewrite (proj2 (Z.leb_le _ _)), (proj2 (Z.ltb_lt _ _)) by lia. done. }
  rewrite updated_bytes by done. split; [done|]. split_and!; try done. intros x Hx Hout.
  rewrite Hm3, and_store_other, Hm1 by lia. unfold erased. destruct (Z.leb_spec (ei_addr instr) x); [|done].
  by rewrite (proj2 (Z.ltb_ge _ _)) by lia.
Qed.
End Operations.
