(* ===== verification/SpiNorScanSpec.v ===== *)
(** * What the scan of a flash promises

    For an entry of the table that needs no register of its own the scan only
    reads the ID, and leaves the fields [scanned].  Every such entry of
    [spi_nor_ids] describes a flash that the operations of SpiNor.v serve. *)

From S2P Require Import Prelude.
From S2P Require Import Loops.
From S2P Require Import SpiNorIds.
From S2P Require Import SpiNor.
From S2P Require Import SpiNorScan.
From S2P Require Import SpiNorSpec.
Local Open Scope list_scope.
Local Open Scope Z_scope.

(** What kzalloc leaves. *)
Definition blank_nor : spi_nor := SpiNor (Mtd 0 0 0 false false false) false 0 0 0 0 0 0 SPI_NOR_NORMAL false 0 false.

(** A flash with a JEDEC ID of at most 16 MB that is not protected after reset
    and has the status register and the commands of most. *)
Definition plain_entry (info : flash_info) : bool :=
  negb (needs_unprotect info) && negb (fi_has SPI_S3AN info) && negb (fi_has USE_FSR info) && negb (fi_has SST_WRITE info) &&
  negb (fi_has SPI_NOR_NO_ERASE info) && istrue (fi_id_len info) && (fi_addr_width info =? 0) && (size_of info <=? 0x1000000).

(** The fields after the scan with [SPI_NOR_FAST], as altera-asmip2.c asks for. *)
Definition scanned (env : scan_env) (info : flash_info) : spi_nor :=
  let n := fill_geometry env info blank_nor in
  let mode := basic_read_mode env info in
  SpiNor (mtd n) false (page_size n) 3 (erase_opcode n) (read_opcode_of mode) (spi_nor_read_dummy_cycles mode) SPINOR_OP_PP
    mode false (nor_flags n) (flash_lock n).

Lemma scan_plain {C} {con : NorController C} HZ polls env i info id r (c c' : C) :
  nc_read_reg SPINOR_OP_RDID SPI_NOR_MAX_ID_LEN c = Some ((r, id), c') -> 0 <= r ->
  find_from (id_matches id) 0 spi_nor_ids = Some i -> spi_nor_ids !! i = Some info -> plain_entry info = true ->
  spi_nor_scan HZ polls env true None SPI_NOR_FAST (NorDev c blank_nor) = Some (0, NorDev c' (scanned env info)).
Proof.
  intros Hid Hr Hfind Hi Hplain. unfold plain_entry in Hplain. rewrite !andb_true_iff, !negb_true_iff in Hplain.
  destruct Hplain as [[[[[[[Hprot Hs3] Hfsr] Hsst] Hne] Hlen] Hw%Z.eqb_eq] Hsize].
  unfold spi_nor_scan. cbn [negb].
  assert (find_info (C := C) None (NorDev c blank_nor) = Some (inr i, NorDev c' blank_nor)) as Hfi.
  { unfold find_info, spi_nor_read_id, read_reg, on_ctl, zoom, kbind, mbind, option_bind. cbn [ctl]. rewrite Hid.
    cbn [fst snd]. rewrite (proj2 (Z.ltb_ge r 0)) by lia. unfold kret. by rewrite Hfind. }
  rewrite (kbind_run _ _ _ _ _ Hfi). unfold get_info, kbind at 1, deref. rewrite Hi.
  unfold scan_info, select_read_mode, select_addr_width. rewrite Hs3, Hprot, Hw. change (istrue 0) with false.
  rewrite !bool_decide_eq_false_2 by done. cbn [andb].
  unfold mod_nor, kmod, kgets, kbind, kret. cbn [nor set_nor].
  assert (mtd_size (mtd (fill_geometry env info blank_nor)) = size_of info) as Hm.
  { unfold fill_geometry. by destruct (erase_of env info). }
  change (set_lock false blank_nor) with blank_nor. change (istrue 0) with false. cbn iota beta.
  cbn [nor set_nor ctl set_opcodes set_flash_read erase_opcode mtd flash_read]. rewrite Hm.
  rewrite (proj2 (Z.ltb_ge 0x1000000 _)) by (by apply Z.leb_le). cbn iota beta.
  change (SPI_NOR_MAX_ADDR_WIDTH <? _) with false. cbn iota beta. unfold scanned, fill_geometry.
  by destruct (erase_of env info).
Qed.

(** The first entry with the ID of this one. *)
Definition found (info : flash_info) : option nat := find_from (id_matches (fi_id info)) 0 spi_nor_ids.

(** What the operations need of the fields. *)
Definition sound_fields (info : flash_info) (n : spi_nor) : bool :=
  negb (has_flag SNOR_F_READY_XSR_RDY n) && negb (has_flag SNOR_F_USE_FSR n) && negb (has_flag SNOR_F_S3AN_ADDR_DEFAULT n) &&
  negb (mtd_sst (mtd n)) && (page_size n =? 256) && (addr_width n =? 3) &&
  (0 <? mtd_erasesize (mtd n)) && (mtd_size (mtd n) mod mtd_erasesize (mtd n) =? 0) &&
  (0 <? mtd_size (mtd n)) && (mtd_size (mtd n) <=? 2 ^ 24) &&
  bool_decide (program_opcode n = SPINOR_OP_PP) &&
  bool_decide (read_opcode n ∈ [SPINOR_OP_READ; SPINOR_OP_READ_FAST]) &&
  bool_decide (erase_opcode n ∈ [SPINOR_OP_SE; SPINOR_OP_BE_4K; SPINOR_OP_BE_4K_PMC]) &&
  (length (fi_id info) =? 6)%nat.

Definition every_plain_entry (p : flash_info -> bool) : bool :=
  forallb (fun info => negb (plain_entry info) || p info) spi_nor_ids.

Lemma plain_entries_sound env : every_plain_entry (fun info => sound_fields info (scanned env info)) = true.
Proof. destruct env as [[[]|] [] []]; vm_compute; reflexivity. Qed.

Lemma plain_entry_sound env i info :
  spi_nor_ids !! i = Some info -> plain_entry info = true -> sound_fields info (scanned env info) = true.
Proof.
  intros Hi Hp. pose proof (plain_entries_sound env) as H. unfold every_plain_entry in H. rewrite forallb_forall in H.
  apply list_elem_of_lookup_2, list_elem_of_In, H in Hi. by rewrite Hp in Hi.
Qed.

Record sound_nor (info : flash_info) (n : spi_nor) : Prop := {
  sd_plain : plain_nor n; sd_page : page_size n = 256; sd_width : addr_width n = 3; sd_size : mtd_size (mtd n) <= 2 ^ 24;
  sd_program : program_opcode n = SPINOR_OP_PP;
  sd_read : read_opcode n = SPINOR_OP_READ \/ read_opcode n = SPINOR_OP_READ_FAST;
  sd_erase : erase_opcode n = SPINOR_OP_SE \/ erase_opcode n = SPINOR_OP_BE_4K \/ erase_opcode n = SPINOR_OP_BE_4K_PMC;
  sd_id : length (fi_id info) = 6%nat;
}.

Lemma scanned_sound env i info :
  spi_nor_ids !! i = Some info -> plain_entry info = true -> sound_nor info (scanned env info).
Proof.
  intros Hi Hp. pose proof (plain_entry_sound env i info Hi Hp) as H. unfold sound_fields in H.
  rewrite !andb_true_iff, !negb_true_iff, !bool_decide_eq_true, !list.elem_of_cons, !Z.eqb_eq, !Z.ltb_lt, !Z.leb_le, !Nat.eqb_eq in H.
  destruct H as [[[[[[[[[[[[[? ?] ?] ?] Hpage] ?] ?] ?] ?] ?] ?] Hr] He] ?].
  split; [split; try done; [rewrite Hpage|]; lia|done..| | |done].
  - destruct Hr as [|[|[]%list.not_elem_of_nil]]; auto.
  - destruct He as [|[|[|[]%list.not_elem_of_nil]]]; auto.
Qed.

(** ** Entries that are never found *)

(** The entries with an ID for which an earlier one answers, with the name of that one. *)
Fixpoint shadowed_from (k : nat) (l : list flash_info) : list (string * string) :=
  match l with
  | [] => []
  | info :: l =>
      match found info with
      | Some i => if (i =? k)%nat then shadowed_from (S k) l
                  else (fi_name info, from_option fi_name EmptyString (spi_nor_ids !! i)) :: shadowed_from (S k) l
      | None => shadowed_from (S k) l
      end
  end.

(** Five flashes are taken for others; the Spartan-3AN 3S700AN for an at45db081d,
    which has other pages, addresses and commands. *)
Lemma shadowed_entries :
  shadowed_from 0 spi_nor_ids =
    [("at26df321", "at25df321"); ("w25q64", "s25fl064k"); ("w25q80bl", "s25fl008k"); ("3S400AN", "3S200AN");
     ("3S700AN", "at45db081d")]%string.
Proof. by vm_compute. Qed.

(** Even a caller that names the 3S700AN gets the other entry. *)
Lemma named_3S700AN_replaced {C} {con : NorController C} n (c c' : C) r :
  nc_read_reg SPINOR_OP_RDID SPI_NOR_MAX_ID_LEN c = Some ((r, [0x1f; 0x25; 0; 0; 0; 0]), c') -> 0 <= r ->
  exists i, find_info (Some "3S700AN"%string) (NorDev c n) = Some (inr i, NorDev c' n) /\
    option_map fi_name (spi_nor_ids !! i) = Some "at45db081d"%string.
Proof.
  intros Hid Hr. exists 10%nat. split; [|by vm_compute]. unfold find_info.
  change (Some "3S700AN"%string ≫= spi_nor_match_id) with (spi_nor_match_id "3S700AN").
  assert (spi_nor_match_id "3S700AN" = Some 165%nat) as -> by (by vm_compute).
  unfold spi_nor_read_id, read_reg, on_ctl, zoom, kbind, kret, get_info, deref.
  assert (exists info, spi_nor_ids !! 165%nat = Some info /\ istrue (fi_id_len info) = true) as (info & -> & ->).
  { eexists. split; by vm_compute. }
  cbn [ctl nor]. rewrite Hid. cbn [fst snd]. rewrite (proj2 (Z.ltb_ge r 0)) by lia.
  assert (find_from (id_matches [0x1f; 0x25; 0; 0; 0; 0]) 0 spi_nor_ids = Some 10%nat) as -> by (by vm_compute). done.
Qed.
