(* ===== verification/SpiNorAsmi.v ===== *)
(** * The SPI NOR framework on the Altera controller

    altera_asmip2_setup_banks gives the operations of altera-asmip2.c to the
    framework: they are the instance [asmi_controller] of the class of
    controllers.  The instance [asmi_nor_ok] shows that with the controller and
    flash of Asmip2Spec.v behind them they keep the laws that the theorems of the
    framework are proved from. *)

From S2P Require Import Prelude.
From S2P Require Import Mmio32.
From S2P Require Import Loops.
From S2P Require Import Poll.
From S2P Require Import Asmip2.
From S2P Require Import Asmip2Spec.
From S2P Require Import SpiNor.
From S2P Require Import SpiNorIds.
From S2P Require Import SpiNorScan.
From S2P Require Import SpiNorSpec.
From S2P Require Import SpiNorScanSpec.
Local Open Scope list_scope.
Local Open Scope Z_scope.

(** ** The operations of a bank *)

(** CONFIG_HZ = 250: four milliseconds of the clock. *)
Definition CONFIG_HZ : Z := 250.
Definition jiffy_ns : Z := 1000000000 / CONFIG_HZ.

(** The fields of the framework that the driver's functions use. *)
Definition as_flash (n : spi_nor) : altera_asmip2_flash := Flash (addr_width n) (read_opcode n) (program_opcode n) true.

Definition with_base {D A} (op : Z -> K D A) : K (qspi D) A := q <- get_q ;; on_qdev (op (csr_base q)).

(** Nothing else runs on the machine when the framework offers to reschedule. *)
#[export] Instance asmi_controller {D} {dev : Mmio32 D} {clock : Clock D} : NorController (qspi D) := {|
  nc_prepare := Some (fun _ => altera_asmip2_prep);
  nc_unprepare := Some (fun _ => altera_asmip2_unprep);
  nc_read_reg opcode len := with_base (fun base => altera_asmip2_read_reg base opcode len);
  nc_write_reg opcode buf := with_base (fun base => altera_asmip2_write_reg base opcode buf);
  nc_read n from len := with_base (fun base => altera_asmip2_read base (as_flash n) from len);
  nc_write n to buf := with_base (fun base => altera_asmip2_write base (as_flash n) to buf);
  nc_erase := None;
  nc_jiffies s := ktime_get (qdev s) / jiffy_ns;
  nc_resched s := s;
|}.

(** ** The laws *)

Section Laws.
Variable conf : asmi_conf.
Variable n0 : spi_nor.

(** The flash is the one that the framework found. *)
Record fits : Prop := {
  fit_page : page_size n0 = a_page conf; fit_esize : mtd_erasesize (mtd n0) = a_esize conf;
  fit_erase : erase_opcode n0 = a_erase conf /\ 0 <= a_erase conf < 256;
  fit_room : 0 < a_page conf /\ a_page conf + addr_width n0 + 1 <= QSPI_FIFO_DEPTH;
  fit_esize_pos : 0 < a_esize conf;
  fit_size : 0 < mtd_size (mtd n0) <= 2 ^ (8 * addr_width n0) /\ mtd_size (mtd n0) < 2 ^ 32;
}.
Hypothesis Hfits : fits.

#[local] Instance asmi_nor : NorFlash (qspi asmi) := {|
  nf_ok held s := exists q, qdrv s = Some q /\ bus_mutex q = held /\ aconf (qdev s) = conf /\
    idle (csr_base q) (as_flash n0) (qdev s);
  nf_mem s := mem (qdev s);
  nf_wel s := wel (qdev s);
  nf_busy _ := 0%nat;
  nf_poll := 1000 * QSPI_POLL_INTERVAL_US * Z.of_nat (S (a_latency conf)) / jiffy_ns + 1;
  nf_busy_max := 0%nat;
  nf_chip_max := 0%nat;
|}.

Lemma asmi_step {A} (op : Z -> K asmi A) a m w s :
  nf_ok true s ->
  (forall base, idle base (as_flash n0) (qdev s) -> exists d', op base (qdev s) = Some (a, d') /\
     after base (as_flash n0) m w (qdev s) d') ->
  exists s', with_base op s = Some (a, s') /\ flash_is true m w 0 s' /\
    a_ns (qdev s') = a_ns (qdev s) + 1000 * QSPI_POLL_INTERVAL_US * Z.of_nat (S (a_latency conf)).
Proof.
  intros (q & Hq & Hb & Hc & Hi) Hop. destruct (Hop _ Hi) as (d' & Hrun & M & W & C & N & I).
  exists (set_qdev d' s). split.
  - unfold with_base, get_q, kget, kbind, deref. rewrite Hq. unfold kret, on_qdev, zoom. by rewrite Hrun.
  - split; [|cbn [qdev set_qdev]; rewrite N; unfold command_ns; by rewrite Hc].
    split; [|split; [cbn [nf_mem asmi_nor qdev set_qdev]; intros x; by rewrite M|by split]].
    exists q. split_and!; try done. cbn [qdev set_qdev]. by rewrite C.
Qed.

(** A command that only the framework's bytes make up. *)
Lemma asmi_command op val m w s :
  nf_ok true s -> 0 <= op < 256 -> is_bytes val -> Z.of_nat (length val) + 1 <= QSPI_FIFO_DEPTH ->
  (forall action, execute action (set_tx (op :: val) (qdev s)) = leaves m w (rx (qdev s)) (qdev s)) ->
  exists s', nc_write_reg op val s = Some (0, s') /\ flash_is true m w 0 s'.
Proof.
  intros Hs Hop Hval Hlen Hex.
  destruct (asmi_step (fun base => altera_asmip2_write_reg base op val) 0 m w s Hs) as (s' & Hrun & Hf & _).
  - intros base Hi. apply reg_write_run; try done. intros action. by rewrite Hex, (idle_rx _ _ _ Hi).
  - by exists s'.
Qed.

Lemma be_bytes_snoc n a : be_bytes (S n) a = be_bytes n (a / 256) ++ [a mod 256].
Proof.
  induction n as [|n IH]; [cbn; by rewrite Z.div_1_r|].
  change (be_bytes (S (S n)) a) with ((a / 2 ^ (8 * Z.of_nat (S n))) mod 256 :: be_bytes (S n) a). rewrite IH.
  cbn [be_bytes app]. f_equal. replace (8 * Z.of_nat (S n)) with (8 + 8 * Z.of_nat n) by lia.
  rewrite Z.pow_add_r, <- Z.div_div by lia. done.
Qed.

Lemma address_be_bytes n a l : address_bytes n a l = be_bytes n a ++ l.
Proof.
  revert a l. induction n as [|n IH]; intros a l; [done|]. rewrite be_bytes_snoc, <- app_assoc. cbn [address_bytes].
  change 0xff with (Z.ones 8). rewrite IH, Z.land_ones, Z.shiftr_div_pow2 by lia. done.
Qed.

Lemma be_bytes_bytes n a : is_bytes (be_bytes n a).
Proof. induction n; [by constructor|]. constructor; [by apply Z.mod_pos_bound|done]. Qed.

(** The sector at a multiple of its size. *)
Lemma same_sector a x : 0 < a_esize conf -> a mod a_esize conf = 0 ->
  (x / a_esize conf =? a / a_esize conf) = (a <=? x) && (x <? a + a_esize conf).
Proof.
  set (es := a_esize conf). intros Hes Hmod.
  pose proof (Z.div_mod a es ltac:(lia)). pose proof (Z.div_mod x es ltac:(lia)).
  pose proof (Z.mod_pos_bound x es Hes).
  destruct (Z.eqb_spec (x / es) (a / es)) as [E|E].
  - rewrite (proj2 (Z.leb_le a x)), (proj2 (Z.ltb_lt x _)) by nia. done.
  - symmetry. apply andb_false_iff. destruct (Z.lt_trichotomy (x / es) (a / es)) as [Hlt|[|Hlt]]; [left|done|right].
    + apply Z.leb_gt. nia.
    + apply Z.ltb_ge. nia.
Qed.

Lemma prep_run held s :
  nf_ok held s ->
  exists s', (if held then altera_asmip2_unprep s = Some (tt, s') else altera_asmip2_prep s = Some (0, s')) /\
    flash_is (negb held) (nf_mem s) (nf_wel s) (nf_busy s) s'.
Proof.
  intros (q & Hq & Hb & Hc & Hi). exists (set_qdrv (Some (set_qspi_mutex (negb held) q)) s). split.
  - destruct held; unfold altera_asmip2_unprep, altera_asmip2_prep, mod_q, get_q, kget, kput, kbind, deref;
      rewrite Hq; unfold kret; rewrite Hb, Hq; done.
  - split; [|done]. by exists (set_qspi_mutex (negb held) q).
Qed.

Lemma asmi_erase n a s :
  same_view n0 n -> nf_ok true s -> nf_wel s = true ->
  0 <= a -> a mod mtd_erasesize (mtd n0) = 0 -> a + mtd_erasesize (mtd n0) <= mtd_size (mtd n0) ->
  exists s', erase_command n a s = Some (0, s') /\ flash_is true (erased a (mtd_erasesize (mtd n0)) (nf_mem s)) false 0 s'.
Proof.
  intros [] Hs Hw Ha Hmod Hend. destruct Hfits. unfold erase_command. cbn [nc_erase asmi_controller].
  rewrite sv_erase, sv_width, address_be_bytes, app_nil_r, (proj1 fit_erase0).
  pose proof Hs as (q & Hq & Hb & Hc & Hi). destruct (idle_width _ _ _ Hi) as [Hwid Hwid4]. cbn [addr_width as_flash] in Hwid.
  change (Asmip2.addr_width (as_flash n0)) with (addr_width n0) in Hwid. rewrite Hwid, Nat2Z.id.
  set (es := mtd_erasesize (mtd n0)) in *.
  destruct (asmi_command (a_erase conf) (be_bytes (a_width (aconf (qdev s))) a)
    (fun x => if x / es =? a / es then 255 else mem (qdev s) x) false s Hs) as (s' & Hrun & Hf).
  - apply fit_erase0.
  - apply be_bytes_bytes.
  - rewrite be_bytes_length. change QSPI_FIFO_DEPTH with 512. lia.
  - intros action. unfold execute. cbn [tx set_tx aconf mem wel rx]. rewrite <- Hc.
    destruct (opcodes_differ _ _ _ Hi) as (_ & _ & E). other_opcodes. rewrite Z.eqb_refl.
    destruct (addressed_parts a [] (qdev s)) as [Hv _]; [|rewrite app_nil_r in Hv; rewrite Hv].
    { rewrite <- Hwid. lia. }
    cbn [nf_wel asmi_nor] in Hw. by rewrite Hw, Hc, <- fit_esize0.
  - exists s'. split; [exact Hrun|]. eapply flash_is_ext; [|exact Hf]. intros x. unfold erased.
    rewrite fit_esize0 in Hmod |- *. by rewrite same_sector.
Qed.

Lemma asmi_write n a data s :
  same_view n0 n -> nf_ok true s -> nf_wel s = true -> data <> [] -> nor_bytes data -> 0 <= a ->
  a mod page_size n0 + Z.of_nat (length data) <= page_size n0 -> a + Z.of_nat (length data) <= mtd_size (mtd n0) ->
  exists s', nc_write n a data s = Some (Z.of_nat (length data), s') /\
    flash_is true (and_store a data (nf_mem s)) false 0 s'.
Proof.
  intros [] Hs Hw Hne Hd Ha Hpage Hend. destruct Hfits.
  assert (as_flash n = as_flash n0) as En by (unfold as_flash; congruence).
  pose proof Hs as (q & Hq & Hb & Hc & Hi). destruct (idle_width _ _ _ Hi) as [Hwid _].
  change (Asmip2.addr_width (as_flash n0)) with (addr_width n0) in Hwid.
  pose proof (Z.mod_pos_bound a (page_size n0) ltac:(lia)) as Hmod.
  assert (0 < length data)%nat as Hlen by (destruct data; [done|cbn; lia]).
  destruct (asmi_step (fun base => altera_asmip2_write base (as_flash n) a data) (Z.of_nat (length data))
    (program (a_page conf) a data (mem (qdev s))) false s Hs) as (s' & Hrun & Hf & _).
  - intros base Hi'. rewrite En. cbn [nf_wel asmi_nor] in Hw.
    assert (QSPI_FIFO_DEPTH - (Asmip2.addr_width (as_flash n0) + 1) >= Z.of_nat (length data)) as Hroom.
    { change (Asmip2.addr_width (as_flash n0)) with (addr_width n0). lia. }
    destruct (flash_write_run base (as_flash n0) a data (qdev s) Hi' Hd Hne) as (d' & Hrun & Haft).
    { rewrite <- Hwid. lia. }
    rewrite Z.min_l in Hrun, Haft by lia. rewrite Nat2Z.id, firstn_all, Hw, Hc in Haft. by exists d'.
  - exists s'. split; [exact Hrun|]. eapply flash_is_ext; [|exact Hf]. intros x. rewrite fit_page0 in Hpage. apply program_spec; lia.
Qed.

Lemma asmi_read n a len s :
  same_view n0 n -> nf_ok true s -> 0 <= a -> 0 < len -> a + len <= mtd_size (mtd n0) ->
  exists k s', nc_read n a len s = Some ((k, bytes_of (nf_mem s) a (Z.to_nat k)), s') /\ 0 < k <= len /\ k < 2 ^ 31 /\
    flash_is true (nf_mem s) (nf_wel s) 0 s'.
Proof.
  intros [] Hs Ha Hlen Hend. destruct Hfits.
  assert (as_flash n = as_flash n0) as En by (unfold as_flash; congruence).
  pose proof Hs as (q & Hq & Hb & Hc & Hi). destruct (idle_width _ _ _ Hi) as [Hwid _].
  change (Asmip2.addr_width (as_flash n0)) with (addr_width n0) in Hwid.
  set (k := Z.min len QSPI_FIFO_DEPTH). change QSPI_FIFO_DEPTH with 512 in k. exists k.
  destruct (asmi_step (fun base => altera_asmip2_read base (as_flash n) a len)
    (k, bytes_of (mem (qdev s)) a (Z.to_nat k)) (mem (qdev s)) (wel (qdev s)) s Hs) as (s' & Hrun & Hf & _).
  - intros base Hi'. rewrite En. apply flash_read_run; [done|done|]. rewrite <- Hwid. lia.
  - exists s'. split; [exact Hrun|]. split; [lia|]. split; [lia|exact Hf].
Qed.

Lemma asmi_status s :
  nf_ok true s ->
  exists s', nc_read_reg SPINOR_OP_RDSR 1 s = Some ((0, [if nf_wel s then 2 else 0]), s') /\
    flash_is true (nf_mem s) (nf_wel s) 0 s' /\ nc_jiffies s <= nc_jiffies s' <= nc_jiffies s + nf_poll.
Proof.
  intros Hs. destruct (asmi_step (fun base => altera_asmip2_read_reg base SPINOR_OP_RDSR 1)
    (0, [if nf_wel s then 2 else 0]) (mem (qdev s)) (wel (qdev s)) s Hs) as (s' & Hrun & Hf & Hns).
  { intros base Hi. by apply (status_read_run base (as_flash n0)). }
  exists s'. split; [exact Hrun|]. split; [exact Hf|]. cbn [nc_jiffies asmi_controller nf_poll asmi_nor].
  change (ktime_get (qdev s')) with (a_ns (qdev s')). rewrite Hns. change (ktime_get (qdev s)) with (a_ns (qdev s)).
  set (t := 1000 * _ * _). assert (0 <= t) as Ht by (unfold t, QSPI_POLL_INTERVAL_US; lia).
  change jiffy_ns with 4000000. split; [apply Z.div_le_mono; lia|].
  pose proof (Z.div_mod (a_ns (qdev s)) 4000000 ltac:(lia)). pose proof (Z.mod_pos_bound (a_ns (qdev s)) 4000000 ltac:(lia)).
  pose proof (Z.div_mod t 4000000 ltac:(lia)). pose proof (Z.mod_pos_bound t 4000000 ltac:(lia)).
  apply Z.lt_succ_r, Z.div_lt_upper_bound; lia.
Qed.

#[local] Instance asmi_nor_ok : NorFlashOk CONFIG_HZ n0.
Proof.
  split.
  - intros ops c Hc. exact (prep_run false c Hc).
  - intros ops c Hc. exact (prep_run true c Hc).
  - intros c Hc _. exists 0. apply asmi_command; try done. by constructor.
  - intros c Hc _. exists 0. apply asmi_command; try done. by constructor.
  - intros c Hc. destruct (asmi_status c Hc) as (c' & Hrun & Hf & Hj). eexists _, _, c'. split; [exact Hrun|].
    split_and!; try done; try apply Hj; by destruct (nf_wel c).
  - intros n a data c Hv Hc _ Hw. intros. destruct (asmi_write n a data c) as (c' & Hrun & Hf); try done. by exists 0%nat, c'.
  - intros n a len c Hv Hc _. intros. by apply asmi_read.
  - intros n a c Hv Hc _ Hw. intros. destruct (asmi_erase n a c) as (c' & Hrun & Hf); try done. by exists 0%nat, c'.
  - intros c Hc _ Hw _. destruct (asmi_command SPINOR_OP_CHIP_ERASE [] (fun _ => 255) false c Hc) as (c' & Hrun & Hf);
      [done|by constructor|done| |by exists 0%nat, c', (fun _ => 255)].
    intros action. unfold execute. cbn [tx set_tx aconf mem wel rx]. cbn [nf_wel asmi_nor] in Hw. by rewrite Hw.
  - destruct Hfits as [_ _ _ _ _ [Hsz Hsz32]]. split.
    + cbn [nf_poll asmi_nor]. change jiffy_ns with 4000000.
      pose proof (Z.div_pos (1000 * QSPI_POLL_INTERVAL_US * Z.of_nat (S (a_latency conf))) 4000000
        ltac:(unfold QSPI_POLL_INTERVAL_US; lia) ltac:(lia)). lia.
    + split; [cbn [nf_busy_max asmi_nor]; unfold CONFIG_HZ; lia|]. cbn [nf_chip_max asmi_nor].
      unfold chip_erase_timeout, CHIP_ERASE_2MB_READY_WAIT_JIFFIES, CONFIG_HZ, SZ_2M.
      assert (0 <= mtd_size (mtd n0) / 2097152 < 2048) as Hd.
      { split; [by apply Z.div_pos; lia|]. apply Z.div_lt_upper_bound; lia. }
      change 0x200000 with 2097152. unfold u64, wrap. rewrite Z.mod_small by lia. lia.
Qed.
End Laws.

(** ** A flash of the table behind the controller *)

(** The flash of an entry, with the commands that the framework finds for it. *)
Definition chip_of (env : scan_env) (info : flash_info) (base : Z) (latency : nat) : asmi_conf :=
  let n := scanned env info in
  AsmiConf base (page_size n) (Z.to_nat (addr_width n)) (read_opcode n) (program_opcode n) latency (erase_opcode n)
    (mtd_erasesize (mtd n)) (fi_id info).

(** Nothing is in progress, and commands end within the driver's timeout. *)
Record quiet (d : asmi) : Prop := {
  quiet_tx : tx d = []; quiet_rx : rx d = []; quiet_started : started d = None; quiet_time : in_time d;
}.

(** The entries that need no setup, and those of them that their ID finds. *)
Definition plain_ids : list (nat * flash_info) :=
  filter (fun p => Is_true (plain_entry p.2)) (imap pair spi_nor_ids).
Definition found_ids : list (nat * flash_info) := filter (fun p => found p.2 = Some p.1) plain_ids.

Lemma plain_entries_found :
  length plain_ids = 90%nat /\ length found_ids = 88%nat /\
  map (fun p => fi_name p.2) (filter (fun p => found p.2 <> Some p.1) plain_ids) = ["w25q64"; "w25q80bl"]%string.
Proof. by vm_compute. Qed.

Section Found.
Variables (env : scan_env) (i : nat) (info : flash_info) (base : Z) (latency : nat).
Hypothesis Hentry : spi_nor_ids !! i = Some info.
Hypothesis Hplain : plain_entry info = true.
Abbreviation n0 := (scanned env info).
Abbreviation conf := (chip_of env info base latency).

Lemma chip_fits : fits conf n0.
Proof.
  pose proof (scanned_sound env i info Hentry Hplain) as [[] Hpage Hwidth Hmax _ _ Herase _].
  split; cbn [chip_of a_page a_esize a_erase]; rewrite ?Hpage, ?Hwidth; try done.
  - split; [done|]. by destruct Herase as [->|[->| ->]].
  - change (2 ^ (8 * 3)) with (2 ^ 24). lia.
Qed.

Lemma chip_idle d : aconf d = conf -> quiet d -> idle base (as_flash n0) d.
Proof.
  intros Hc []. pose proof (scanned_sound env i info Hentry Hplain) as [_ Hpage Hwidth _ Hprog Hread Herase _].
  split; rewrite ?Hc; try done; cbn [chip_of a_width a_read a_program a_erase as_flash Asmip2.addr_width Asmip2.read_opcode
    Asmip2.program_opcode]; rewrite ?Hprog.
  - rewrite Hwidth. split; [done|]. apply Nat.leb_le. reflexivity.
  - split; [done|]. by destruct Hread as [->| ->].
  - apply (bool_decide_unpack _). by destruct Hread as [->| ->], Herase as [->|[->| ->]]; vm_compute.
Qed.

Lemma found_scan polls q d :
  found info = Some i -> csr_base q = base -> aconf d = conf -> quiet d ->
  exists d', spi_nor_scan CONFIG_HZ polls env true None SPI_NOR_FAST (NorDev (Qspi d (Some q)) blank_nor) =
      Some (0, NorDev (Qspi d' (Some q)) n0) /\ mem d' = mem d /\ aconf d' = conf /\ idle base (as_flash n0) d'.
Proof.
  intros Hfound Hb Hc Hq. pose proof (chip_idle d Hc Hq) as Hi.
  pose proof (scanned_sound env i info Hentry Hplain) as Hsound.
  destruct (id_read_run base (as_flash n0) SPI_NOR_MAX_ID_LEN d Hi) as (d' & Hrun & M & W & C & N & I).
  - done.
  - rewrite Hc. cbn [chip_of a_id]. by rewrite (sd_id _ _ Hsound).
  - exists d'. rewrite C. split_and!; try done. rewrite Hc in Hrun. cbn [chip_of a_id] in Hrun.
    rewrite firstn_all2 in Hrun by (by rewrite (sd_id _ _ Hsound)).
    eapply scan_plain; [|done|exact Hfound|exact Hentry|exact Hplain].
    cbn [nc_read_reg asmi_controller]. unfold with_base, get_q, kget, kbind, deref. cbn [qdrv]. unfold kret, on_qdev, zoom.
    cbn [qdev]. by rewrite Hb, Hrun.
Qed.

(** C13: detection, erase, write and read of a flash, all the way down to the
    registers of the controller.  For each of the 88 entries of the table that
    need no setup of their own and that their ID finds (90 of the 167 need
    none; the IDs of w25q64 and w25q80bl find an earlier entry, see
    [plain_entries_found]), when the flash of that entry sits behind an idle
    Altera controller that ends its commands in time and whose bus mutex is
    free: the scan finds the entry, and then erasing a range of the MTD device
    that starts and ends on erase blocks, writing a buffer of bytes of any
    length anywhere in the range and reading the range back all succeed.  What
    is read is the buffer between bytes 0xff, and no other byte of the flash
    has changed. *)
Theorem found_flash_updates polls q d instr to buf :
  found info = Some i -> csr_base q = base -> bus_mutex q = false -> aconf d = conf -> quiet d ->
  0 <= ei_addr instr -> 0 <= ei_len instr -> ei_addr instr mod mtd_erasesize (mtd n0) = 0 ->
  ei_len instr mod mtd_erasesize (mtd n0) = 0 -> ei_addr instr + ei_len instr <= mtd_size (mtd n0) ->
  nor_bytes buf -> ei_addr instr <= to -> to + Z.of_nat (length buf) <= ei_addr instr + ei_len instr ->
  exists s1 s2,
    spi_nor_scan CONFIG_HZ polls env true None SPI_NOR_FAST (NorDev (Qspi d (Some q)) blank_nor) = Some (0, s1) /\
    nor s1 = n0 /\
    update CONFIG_HZ polls instr to buf s1 =
      Some ((0, mtd_erase_callback (set_state MTD_ERASE_DONE instr), (0, Z.of_nat (length buf)),
             (0, repeat 0xff (Z.to_nat (to - ei_addr instr)) ++ buf ++
                 repeat 0xff (Z.to_nat (ei_addr instr + ei_len instr - (to + Z.of_nat (length buf)))))), s2) /\
    (forall x, 0 <= x < mtd_size (mtd n0) -> x < ei_addr instr \/ ei_addr instr + ei_len instr <= x ->
       mem (qdev (ctl s2)) x = mem d x).
Proof.
  intros Hfound Hb Hmutex Hc Hq. intros.
  destruct (found_scan polls q d Hfound Hb Hc Hq) as (d1 & Hscan & M1 & C1 & I1).
  pose (fl := asmi_nor conf n0). pose proof (asmi_nor_ok conf n0 chip_fits) as Hok.
  destruct (mtd_update_reads_back CONFIG_HZ polls n0 (ok := Hok) (sd_plain _ _ (scanned_sound env i info Hentry Hplain))
    ltac:(cbn; lia) instr to buf (mem d) (wel d1) (NorDev (Qspi d1 (Some q)) n0)) as (s2 & Hrun & _ & _ & Hout); try done.
  - split; [done|done|]. split; [|split; [|done]]; cbn [nf_mem asmi_nor qdev ctl].
    + exists q. subst base. by split_and!.
    + intros x. by rewrite M1.
  - by exists (NorDev (Qspi d1 (Some q)) n0), s2.
Qed.
End Found.

(** ** A 16 MB Micron flash *)

Definition n25q128a13 : flash_info := INFO "n25q128a13" 0x20ba18 0 (64 * 1024) 256 (flags_of [SECT_4K; SPI_NOR_QUAD_READ]).
Definition demo_env : scan_env := ScanEnv None true true.
Definition demo_q : altera_asmip2 := Asmip2 0x1000 1 [None; None; None] false.
Definition demo_chip : asmi := Asmi (chip_of demo_env n25q128a13 0x1000 7) (fun _ => 7) false [] [] None 0.
Definition demo_erase : erase_info := EraseInfo 0x10000 0x2000 MTD_FAIL_ADDR_UNKNOWN MTD_ERASE_PENDING None 0.

Lemma found_flash_updates_witness :
  exists s1 s2,
    spi_nor_scan CONFIG_HZ 1 demo_env true None SPI_NOR_FAST (NorDev (Qspi demo_chip (Some demo_q)) blank_nor) =
      Some (0, s1) /\
    nor s1 = scanned demo_env n25q128a13 /\
    update CONFIG_HZ 1 demo_erase 0x100fe [1; 2; 3; 4] s1 =
      Some ((0, mtd_erase_callback (set_state MTD_ERASE_DONE demo_erase), (0, 4),
             (0, repeat 0xff 0xfe ++ [1; 2; 3; 4] ++ repeat 0xff 7934)), s2) /\
    (forall x, 0 <= x < 0x1000000 -> x < 0x10000 \/ 0x10000 + 0x2000 <= x -> mem (qdev (ctl s2)) x = 7).
Proof.
  apply (found_flash_updates demo_env 60 n25q128a13 0x1000 7 eq_refl eq_refl 1 demo_q demo_chip demo_erase 0x100fe [1; 2; 3; 4]);
    try reflexivity; try (by vm_compute).
  repeat constructor; lia.
Defined.

(** The same steps, evaluated. *)
Lemma demo_runs :
  match (spi_nor_scan CONFIG_HZ 10 demo_env true None SPI_NOR_FAST ;; update CONFIG_HZ 10 demo_erase 0x100fe [1; 2; 3; 4])
          (NorDev (Qspi demo_chip (Some demo_q)) blank_nor) with
  | Some ((_, (0, n), (0, l)), s) =>
      n = 4 /\ take 6 (drop 0xfc l) = [0xff; 0xff; 1; 2; 3; 4] /\ length l = Z.to_nat 0x2000 /\ nor_lock (nor s) = false
  | _ => False
  end.
Proof. by vm_compute. Qed.
