(* ===== verification/SpiNorLock.v ===== *)
(** * What the protection bits promise (stm_lock and stm_unlock)

    On a flash that only protects from the top, locking a region never takes
    protection away and never protects a byte below the region; it protects all
    of it when its length to the end is a power of two.  With the TB bit the
    guards of the two functions do not see that protection moves. *)

From S2P Require Import Prelude.
From S2P Require Import SpiNor.
Local Open Scope list_scope.
Local Open Scope Z_scope.

(** ** Bits, value by value *)

Lemma below_forall (p : Z -> bool) (n : nat) :
  forallb p (map Z.of_nat (seq 0 n)) = true -> forall x, 0 <= x < Z.of_nat n -> p x = true.
Proof.
  rewrite forallb_forall. intros H x Hx. apply H, in_map_iff. exists (Z.to_nat x). rewrite in_seq. lia.
Qed.

(** The three bits as a number. *)
Definition bp (sr : Z) : Z := Z.land sr SR_BP_MASK / 4.

Lemma bp_range sr : 0 <= sr < 256 -> 0 <= bp sr <= 7 /\ Z.land sr SR_BP_MASK = 4 * bp sr /\
  Z.shiftr (Z.lxor (Z.land sr SR_BP_MASK) SR_BP_MASK) SR_BP_SHIFT = 7 - bp sr.
Proof.
  intros Hsr. pose proof (below_forall (fun sr => (0 <=? bp sr) && (bp sr <=? 7) && (Z.land sr SR_BP_MASK =? 4 * bp sr) &&
    (Z.shiftr (Z.lxor (Z.land sr SR_BP_MASK) SR_BP_MASK) SR_BP_SHIFT =? 7 - bp sr)) 256 ltac:(by vm_compute) sr Hsr) as H.
  cbn beta in H. lia.
Qed.

Lemma bp_bits_spec pow : 0 <= pow < 64 -> bp_bits pow = if pow <=? 7 then Some (28 - 4 * pow) else None.
Proof.
  intros Hp. pose proof (below_forall (fun pow => bool_decide (bp_bits pow = if pow <=? 7 then Some (28 - 4 * pow) else None))
    64 ltac:(by vm_compute) pow Hp) as H. cbn beta in H. by apply bool_decide_eq_true in H.
Qed.

Lemma land_mask k : 0 <= k <= 7 -> Z.land (4 * k) SR_BP_MASK = 4 * k.
Proof.
  intros Hk. pose proof (below_forall (fun k => Z.land (4 * k) SR_BP_MASK =? 4 * k) 8 ltac:(by vm_compute) k ltac:(lia)) as H.
  by apply Z.eqb_eq in H.
Qed.

(** A status with new bits, and perhaps more above them. *)
Lemma new_status_bits old k :
  0 <= old < 256 -> 0 <= k <= 7 ->
  let new := new_status old (4 * k) in
  (0 <= new < 256 /\ bp new = k /\ Z.land new SR_TB = 0) /\
  (0 <= Z.lor new SR_SRWD < 256 /\ bp (Z.lor new SR_SRWD) = k /\ Z.land (Z.lor new SR_SRWD) SR_TB = 0) /\
  (0 <= Z.ldiff new SR_SRWD < 256 /\ bp (Z.ldiff new SR_SRWD) = k /\ Z.land (Z.ldiff new SR_SRWD) SR_TB = 0).
Proof.
  intros Ho Hk.
  pose (good := fun k new => (0 <=? new) && (new <? 256) && (bp new =? k) && (Z.land new SR_TB =? 0)).
  pose proof (below_forall (fun x => let new := new_status (x mod 256) (4 * (x / 256)) in
    good (x / 256) new && good (x / 256) (Z.lor new SR_SRWD) && good (x / 256) (Z.ldiff new SR_SRWD)) 2048
    ltac:(by vm_compute) (k * 256 + old) ltac:(lia)) as H. cbn beta in H.
  assert ((k * 256 + old) mod 256 = old) as Em by (rewrite Z.add_comm, Z.mod_add, Z.mod_small; lia).
  assert ((k * 256 + old) / 256 = k) as Ed by (rewrite Z.div_add_l, Z.div_small; lia).
  rewrite Em, Ed in H. cbv zeta in H |- *. unfold good in H. lia.
Qed.

(** ** A flash without the TB bit, of a power of two *)

Section NoTB.
Variables (n : spi_nor) (s : Z).
Hypothesis Htb : has_flag SNOR_F_HAS_SR_TB n = false.
Hypothesis Hs : 0 <= s < 63.
Hypothesis Hsize : mtd_size (mtd n) = 2 ^ s.
Abbreviation size := (2 ^ s).

Lemma small_u64 x : 0 <= x <= size -> u64 x = x.
Proof.
  intros Hx. assert (2 ^ s < 2 ^ 63) as Hbig by (apply Z.pow_lt_mono_r; lia). unfold u64, wrap. apply Z.mod_small. lia.
Qed.

(** How many bytes at the top are protected. *)
Definition top (sr : Z) : Z := if bp sr =? 0 then 0 else size / 2 ^ (7 - bp sr).

Lemma top_bounds sr : 0 <= sr < 256 -> 0 <= top sr <= size.
Proof.
  intros Hsr. destruct (bp_range sr Hsr) as (Hbp & _). unfold top. assert (0 < 2 ^ s) by (apply Z.pow_pos_nonneg; lia).
  destruct (_ =? _); [lia|]. assert (0 < 2 ^ (7 - bp sr)) by (apply Z.pow_pos_nonneg; lia).
  split; [apply Z.div_pos; lia|]. apply Z.div_le_upper_bound; nia.
Qed.

Lemma top_mono sr sr' : 0 <= sr < 256 -> 0 <= sr' < 256 -> bp sr <= bp sr' -> top sr <= top sr'.
Proof.
  intros H H' Hle. destruct (bp_range sr H) as (Hbp & _), (bp_range sr' H') as (Hbp' & _).
  pose proof (top_bounds sr' H') as Hb. unfold top in *. destruct (Z.eqb_spec (bp sr) 0); [lia|].
  destruct (Z.eqb_spec (bp sr') 0); [lia|]. assert (0 < 2 ^ s) by (apply Z.pow_pos_nonneg; lia).
  apply Z.div_le_compat_l; [lia|]. split; [apply Z.pow_pos_nonneg; lia|]. apply Z.pow_le_mono_r; lia.
Qed.

Lemma locked_range sr :
  0 <= sr < 256 -> stm_get_locked_range n sr = (if bp sr =? 0 then 0 else size - top sr, top sr).
Proof.
  intros Hsr. destruct (bp_range sr Hsr) as (Hbp & Hland & Hpow). unfold stm_get_locked_range, top.
  rewrite Hpow, Hland, Htb, Hsize. cbn [andb]. destruct (Z.eqb_spec (bp sr) 0) as [->|Hne]; [done|].
  rewrite (proj2 (Z.eqb_neq _ 0)) by lia. by rewrite Z.shiftr_div_pow2 by lia.
Qed.

(** A range is protected if it is among the bytes at the top. *)
Lemma is_locked_top sr ofs len :
  0 <= sr < 256 -> 0 <= ofs -> 0 < len -> ofs + len <= size ->
  stm_is_locked_sr n ofs len sr = (size - top sr <=? ofs).
Proof.
  intros Hsr Ho Hl He. pose proof (top_bounds sr Hsr) as Ht. unfold stm_is_locked_sr, stm_check_lock_status_sr.
  rewrite (proj2 (Z.eqb_neq len 0)), (locked_range sr Hsr) by lia.
  unfold top in *. destruct (Z.eqb_spec (bp sr) 0); rewrite !small_u64 by lia; lia.
Qed.

Lemma log_exponent x : 0 < x <= size -> 0 <= Z.log2 x <= s /\ 2 ^ Z.log2 x <= x < 2 * 2 ^ Z.log2 x /\ ilog2 x = Z.log2 x.
Proof.
  intros Hx. pose proof (Z.log2_spec x ltac:(lia)) as Hl. rewrite Z.pow_succ_r in Hl by apply Z.log2_nonneg.
  split; [|split; [lia|]].
  - split; [apply Z.log2_nonneg|]. rewrite <- (Z.log2_pow2 s) by lia. apply Z.log2_le_mono. lia.
  - unfold ilog2. by rewrite small_u64 by lia.
Qed.

Lemma is_locked_above sr ofs :
  0 <= sr < 256 -> 0 <= ofs <= size ->
  stm_is_locked_sr n ofs (u64 (size - ofs)) sr = (ofs =? size) || (size - top sr <=? ofs).
Proof.
  intros Hsr Ho. rewrite small_u64 by lia. destruct (Z.eqb_spec ofs size) as [->|].
  - by rewrite Z.sub_diag.
  - by rewrite is_locked_top by lia.
Qed.

(** [top] is a power of two. *)
Lemma top_power sr : 0 <= sr < 256 -> bp sr <> 0 -> 6 <= s -> top sr = 2 ^ (s - 7 + bp sr).
Proof.
  intros Hsr Hne Hs6. destruct (bp_range sr Hsr) as (Hbp & _). unfold top. rewrite (proj2 (Z.eqb_neq _ 0)) by lia.
  rewrite <- Z.pow_sub_r by lia. f_equal. lia.
Qed.

(** What is at the top is less than [x] only if its exponent is at most that of [x]. *)
Lemma top_below sr x : 0 <= sr < 256 -> 6 <= s -> 0 < x -> top sr < x -> bp sr <= 7 - (s - Z.log2 x) \/ bp sr = 0.
Proof.
  intros Hsr Hs6 Hx Hlt. destruct (Z.eq_dec (bp sr) 0) as [|Hne]; [by right|left].
  destruct (bp_range sr Hsr) as (Hbp & _). rewrite top_power in Hlt by done.
  assert (s - 7 + bp sr <= Z.log2 x); [|lia]. rewrite <- (Z.log2_pow2 (s - 7 + bp sr)) by lia. apply Z.log2_le_mono. lia.
Qed.

(** C23: locking a region of a flash that protects from the top.  It is refused
    only when bytes above the region are not protected, or when what is above its
    start is less than the smallest part the bits can name, a 64th.  Otherwise it
    succeeds, with more than half of the bytes from the region's start to the end
    protected, and all of them when their number is a power of two: either they
    are already, or the new status still protects what was protected, and no byte
    below the region. *)
Theorem stm_lock_extends ofs len old :
  6 <= s -> 0 <= ofs -> 0 < len -> ofs + len <= size -> 0 <= old < 256 ->
  match lock_status n ofs len old with
  | inl err => err = - EINVAL /\ (ofs + len < size - top old /\ ofs + len < size \/ 64 * (size - ofs) < size)
  | inr None => size - ofs < 2 * top old
  | inr (Some new) => 0 <= new < 256 /\ top old <= top new <= size - ofs /\ size - ofs < 2 * top new
  end.
Proof.
  intros Hs6 Ho Hl He Hold. pose proof (top_bounds old Hold) as Ht. pose proof (bp_range old Hold) as (Hbp & Hland & _).
  unfold lock_status. rewrite is_locked_top, Htb, Hsize, is_locked_above by lia. cbn [andb negb].
  destruct (Z.leb_spec (size - top old) ofs) as [Hin|Hout]; [lia|].
  destruct ((ofs + len =? size) || (size - top old <=? ofs + len)) eqn:Habove; cbn [negb]; [|lia].
  destruct (log_exponent (size - ofs)) as (Hlog & Hpow & ->); [lia|].
  destruct (log_exponent size) as (_ & _ & ->); [lia|]. rewrite Z.log2_pow2, bp_bits_spec by lia.
  set (e := Z.log2 (size - ofs)) in *.
  assert (7 <= s - e -> 64 * (size - ofs) < size) as Hsmall.
  { intros H. assert (size = 128 * 2 ^ (s - 7)) by (change 128 with (2 ^ 7); rewrite <- Z.pow_add_r by lia; f_equal; lia).
    assert (2 ^ e <= 2 ^ (s - 7)) by (apply Z.pow_le_mono_r; lia). lia. }
  destruct (Z.leb_spec (s - e) 7); [|lia]. set (k := 7 - (s - e)).
  replace (28 - 4 * (s - e)) with (4 * k) by lia. rewrite land_mask by lia.
  destruct (Z.eqb_spec (4 * k) 0); [lia|].
  destruct (new_status_bits old k Hold ltac:(lia)) as (_ & (Hnew & Hbpn & _) & _).
  destruct (bp_range _ Hnew) as (_ & Hlandn & _). rewrite Hlandn, Hland, Hbpn.
  destruct (top_below old (size - ofs) Hold Hs6 ltac:(lia) ltac:(lia)) as [Hk|Hk].
  all: rewrite (proj2 (Z.ltb_ge _ _)) by lia.
  all: assert (top (Z.lor (new_status old (4 * k)) SR_SRWD) = 2 ^ e) as Htop by (rewrite top_power by lia; f_equal; lia).
  all: destruct (Z.eqb_spec (Z.lor (new_status old (4 * k)) SR_SRWD) old) as [E|]; [rewrite E in Htop; lia|].
  all: split; [done|]; split; [|lia]; split; [apply top_mono; lia|lia].
Qed.
End NoTB.

(** ** Witness and counterexamples *)

(** A flash of 8 MB, as in the comment of stm_lock. *)
Definition nor_8MB (flags : Z) : spi_nor :=
  SpiNor (Mtd 0x800000 4096 256 false false true) false 256 3 0x20 0x0b 8 0x02 SPI_NOR_FAST false flags true.

(** Upper eighth while the upper 64th is protected. *)
Lemma stm_lock_extends_witness :
  match lock_status (nor_8MB 0) 0x700000 0xe0000 4 with
  | inl err => err = - EINVAL /\ (0x700000 + 0xe0000 < 2 ^ 23 - top 23 4 /\ 0x700000 + 0xe0000 < 2 ^ 23 \/
                                 64 * (2 ^ 23 - 0x700000) < 2 ^ 23)
  | inr None => 2 ^ 23 - 0x700000 < 2 * top 23 4
  | inr (Some new) => 0 <= new < 256 /\ top 23 4 <= top 23 new <= 2 ^ 23 - 0x700000 /\ 2 ^ 23 - 0x700000 < 2 * top 23 new
  end.
Proof. apply (stm_lock_extends (nor_8MB 0) 23); (reflexivity || lia). Defined.
Lemma lock_upper_eighth : lock_status (nor_8MB 0) 0x700000 0xe0000 4 = inr (Some 0x90).
Proof. by vm_compute. Qed.

(** With the TB bit: the lower half is protected (BP 6, TB), and the upper half
    is to be locked as well.  The new status protects the upper half only. *)
Lemma tb_lock_unlocks :
  let n := nor_8MB SNOR_F_HAS_SR_TB in
  lock_status n 0x400000 0x400000 0x38 = inr (Some 0x98) /\
  stm_is_locked_sr n 0 0x400000 0x38 = true /\ stm_is_unlocked_sr n 0 0x400000 0x98 = true.
Proof. by vm_compute. Qed.

(** Unlocking the lower half locks the upper half. *)
Lemma tb_unlock_locks :
  let n := nor_8MB SNOR_F_HAS_SR_TB in
  unlock_status n 0 0x400000 0x38 = inr (Some 0x18) /\
  stm_is_unlocked_sr n 0x400000 0x400000 0x38 = true /\ stm_is_locked_sr n 0x400000 0x400000 0x18 = true.
Proof. by vm_compute. Qed.
