(* ===== verification/Hssi.v ===== *)
(** * The HSSI controller of the PAC: protocols (intel-fpga-pac-hssi.c)

    The Nios processor that manages the transceivers is behind one control and
    one status register.  The file holds the request/acknowledge handshake, the
    buses and functions reached through it, the I2C master that the driver
    plays on two bits of one of these registers, and the access to the
    transceivers.  The attributes are in HssiAttrs.v. *)

From S2P Require Import Prelude.
From S2P Require Import Bitfield.
From S2P Require Import Mmio.
From S2P Require Import Loops.
From S2P Require Import Poll.
Local Open Scope string_scope.
Local Open Scope list_scope.
Local Open Scope Z_scope.

(** ** Constants *)

Definition I2C_SERIAL_NUMBER_LEN : Z := 16.
Definition I2C_EEPROM_LEN : Z := 512.
Definition HSSI_DATA_SERIAL : Z := 2 ^ 0.
Definition HSSI_DATA_EEPROM : Z := 2 ^ 1.
Definition HSSI_AUX_PRMGMT_CMD : Z := 0x4.
Definition HSSI_AUX_PRMGMT_DIN : Z := 0x5.
Definition HSSI_AUX_PRMGMT_DOUT : Z := 0x6.
Definition HSSI_AUX_LOCAL_CMD : Z := 0x7.
Definition HSSI_AUX_LOCAL_DIN : Z := 0x8.
Definition HSSI_AUX_LOCAL_DOUT : Z := 0x9.
Definition HSSI_I2C_CTRL_AND_LEDS : Z := 0x10.
Definition FPGA_I2C_MASTER_L : Z := 2 ^ 10.
Definition MAC_ID_I2C_DATA_INTERFACE : Z := 0x11.
Definition I2C_SDA : Z := 2 ^ 0.
Definition I2C_SCL : Z := 2 ^ 1.
Definition I2C_DEVADDR_MASK : Z := 0xf7.
Definition I2C_DEVICE_READ : Z := 2 ^ 0.
Definition I2C_SERIAL_NUMBER_DEV : Z := 0xb0.
Definition I2C_EEPROM_DEV : Z := 0xa0.
Definition I2C_SERIAL_WORD_OFFSET : Z := 0x80.
Definition I2C_RESET_CYCLE_CNT : Z := 9.
Definition HSSI_WRITE_POLL_INVL_US : Z := 10.
Definition HSSI_WRITE_POLL_TIMEOUT_US : Z := 100000.
Definition ACK_STATE_SET : Z := 1.
Definition ACK_STATE_CLR : Z := 0.
Definition HSSI_CTRL_CMD_NO_REQ : Z := 0.
Definition HSSI_CTRL_CMD_SW_RD : Z := 0x8.
Definition HSSI_CTRL_CMD_SW_WR : Z := 0x10.
Definition HSSI_CTRL_CMD_AUX_RD : Z := 0x40.
Definition HSSI_CTRL_CMD_AUX_WR : Z := 0x80.
Definition HSSI_DO_WRITE : Z := 0x10000.
Definition HSSI_DO_READ : Z := 0x20000.
Definition NIOS_LBUS_PRMGMT_RAME_ENA : Z := 0x3.
Definition NIOS_LBUS_RECONFIG_CMD_ADDR : Z := 0x8.
Definition NIOS_LBUS_RECONFIG_WR_DATA : Z := 0x9.
Definition NIOS_LBUS_RECONFIG_RD_DATA : Z := 0xa.
Definition NIOS_CHANGE_HSSI_MODE : Z := 0x8.
Definition NIOS_TX_EQ_WRITE : Z := 0x9.
Definition NIOS_TX_EQ_READ : Z := 0xa.
Definition NIOS_HSSI_INIT : Z := 0xb.
Definition NIOS_MAC_RX_ALIGNMENT_EN : Z := 2 ^ 0.
Definition NIOS_PRMGMT_ASYNC_RST : Z := 2 ^ 1.
Definition PR_MGMT_RST : Z := 0x1.
Definition HSSI_MODE_10G : Z := 0x1.
Definition HSSI_MODE_40G : Z := 0x2.
Definition HSSI_CHAN_MAX : Z := 3.
Definition HSSI_PARM_MAX : Z := 7.
Definition HSSI_TUNE_STRLEN : Z := 0x8.
Definition HSSI_TUNE_HEX : Z := 16.
Definition PR_TX_RST_BIT : Z := 2 ^ 0.
Definition PR_RX_RST_BIT : Z := 2 ^ 1.
Definition PR_CSR_RST_BIT : Z := 2 ^ 2.
Definition PR_40G_MAC_CORE_RST : Z := 2 ^ 0.
Definition PR_40G_MAC_CSR_RST : Z := 2 ^ 1.
Definition HSSI_RESET_DELAY_MS : Z := 1.
Definition HSSI_SET_MODE_DELAY_MS : Z := 10.
Definition HSSI_ETH_SPEED_10G : Z := 10.
Definition HSSI_ETH_SPEED_40G : Z := 40.
Definition AVMM_ARB_CTRL_ADDR : Z := 0x0.
Definition ADAPT_TRIG_REQUEST_ADDR : Z := 0x100.
Definition PDB_FXTAP_EN_ADDR : Z := 0x123.
Definition SEL_FXTAP_DEC_ADDR : Z := 0x124.
Definition DFE_FXTAP_EN_ADDR : Z := 0x148.
Definition ADAPT_CTRL_ADDR : Z := 0x149.
Definition CTLE_EN_ADDR : Z := 0x14b.
Definition ADP_STATUS_SEL_ADDR : Z := 0x14c.
Definition DFE_MODE_ADDR : Z := 0x14d.
Definition DFE_FXTAP_BYPASS_ADDR : Z := 0x15b.
Definition VREF_BYPASS_ADDR : Z := 0x15e.
Definition VGA_BYPASS_SEL_ADDR : Z := 0x160.
Definition CTLE_ADAPT_CYCLE_ADDR : Z := 0x163.
Definition CTLE_EQZ_1S_BYPASS_ADDR : Z := 0x166.
Definition CTLE_EQZ_4S_BYPASS_ADDR : Z := 0x167.
Definition TEST_MUX_ADDR : Z := 0x171.
Definition ADP_DFE_TAP_ADDR : Z := 0x176.
Definition TX_RX_CAL_STATUS : Z := 0x281.
Definition PDB_FXTAP_EN_MASK : Z := 0x0E.
Definition ADAPT_SLICERS_EN : Z := 2 ^ 1.
Definition DFE_FIX_TAP_4_TO_7_EN : Z := 2 ^ 3.
Definition DFE_FIX_TAP_8_TO_11_EN : Z := 2 ^ 2.
Definition DFE_FXTAP_EN_MASK : Z := 0x1f.
Definition DFE_FIX_TAP_1_to_7_ADAPT_EN : Z := 2 ^ 0.
Definition DFE_FIX_TAP_8_to_11_ADAPT_EN : Z := 2 ^ 1.
Definition VREF_ADAPT_EN : Z := 2 ^ 2.
Definition VGA_ADAPT_EN : Z := 2 ^ 3.
Definition CTLE_ADAPT_EN : Z := 2 ^ 4.
Definition CTLE_EN_MASK : Z := 0x80.
Definition DFE_FXTAP_BYPASS_MASK : Z := 0x15.
Definition VREF_BYPASS_MASK : Z := 2 ^ 0.
Definition VGA_BYPASS_SEL : Z := 2 ^ 0.
Definition CTLE_EQZ_1S_BYPASS : Z := 2 ^ 0.
Definition CTLE_EQZ_4S_BYPASS : Z := 2 ^ 0.
Definition CTLE_ADAPT_CYCLE_MASK : Z := 0xe0.
Definition DFE_MODE_MASK : Z := 0xf.
Definition DFT_ENABLE : Z := 2 ^ 5.
Definition TX_CAL_BUSY : Z := 2 ^ 0.
Definition AVMM_ARB_CTRL_UCTRLR : Z := 2 ^ 0.
Definition ADAPT_CTRL_DPRIO : Z := 2 ^ 4.
Definition ADAPT_TRIG_REQUEST_EN : Z := 2 ^ 6.
Definition AVMM_BUSY : Z := 2 ^ 2.
Definition TEST_MUX_MASK : Z := 0x1e.
Definition TEST_MUX_DATA : Z := 0x16.
Definition ADP_STATUS_SEL_MASK : Z := 0x3f.
Definition ADP_STATUS_SEL_30 : Z := 0x1e.
Definition ADP_STATUS_SEL_31 : Z := 0x1f.
Definition ADP_STATUS_SEL_32 : Z := 0x20.
Definition DFE_KICKSTART_INTERVAL_MS : Z := 10.
Definition DFE_KICKSTART_TO_MS : Z := 10000.
(** The arguments of a function of the Nios ([enum hssi_nios_args]). *)
Definition NIOS_FN_CMD : Z := 1.
Definition NIOS_FN_ARG0 : Z := 2.
Definition NIOS_FN_ARG1 : Z := 3.
Definition NIOS_FN_ARG2 : Z := 4.
Definition NIOS_FN_ARG3 : Z := 5.
Definition NIOS_FN_RESULT : Z := 6.

(** Valid tuning values of the parameters. *)
Definition eq_tune_max : list Z := [0x1f; 0x7; 0x7; 0x7f; 0x3f; 0x3f; 0x1f; 0x1f].

(** ** Registers *)

Definition hssi_eth_ctrl : reg := Reg [("data", 32); ("address", 16); ("cmd", 16)].
Definition hssi_eth_stat : reg := Reg [("data", 32); ("acknowledge", 1); ("spare", 1); ("rsvd", 30)].
Definition hssi_eth_regs : block := Block [("hssi_control", 8); ("hssi_status", 8)].

Section Hssi.
Context {D : Type} {dev : Mmio D} {clock : Clock D}.
Variable base : Z.

Definition hssi_at (n : string) : Z := base + offsetof hssi_eth_regs n.

(** [c], and [k] if it returned 0. *)
Definition also (c k : K D Z) : K D Z := err <- c ;; if istrue err then kret err else k.
(** A result and a value, which is used when the result is 0. *)
Definition value {A} (none : A) (c : K D (Z * A)) (k : A -> K D (Z * A)) : K D (Z * A) :=
  r <- c ;; if istrue (fst r) then kret (fst r, none) else k (snd r).
Definition also_value {A} (none : A) (c : K D Z) (k : K D (Z * A)) : K D (Z * A) :=
  err <- c ;; if istrue err then kret (err, none) else k.
Definition use {A} (c : K D (Z * A)) (k : A -> K D Z) : K D Z :=
  r <- c ;; if istrue (fst r) then kret (fst r) else k (snd r).

(** ** Request and acknowledge *)

Definition hssi_eth_ctrl_write (cmd addr data : Z) : K D unit :=
  let set n v c := fset hssi_eth_ctrl n v c in
  writeq (set "data" data (set "address" addr (set "cmd" cmd 0))) (hssi_at "hssi_control").

Definition hssi_await_ack_state (ack : Z) : K D Z :=
  r <- readx_poll_timeout (readq (hssi_at "hssi_status"))
         (fun csr => fget hssi_eth_stat "acknowledge" csr =? ack)
         HSSI_WRITE_POLL_INVL_US HSSI_WRITE_POLL_TIMEOUT_US ;;
  kret (if fget hssi_eth_stat "acknowledge" (snd r) =? ack then 0 else - ETIMEDOUT).

Definition hssi_eth_stat_data_read : K D Z :=
  csr <- readq (hssi_at "hssi_status") ;; kret (fget hssi_eth_stat "data" csr).

Definition hssi_cmd_read (cmd addr : Z) : K D (Z * Z) :=
  hssi_eth_ctrl_write cmd addr 0 ;;
  also_value 0 (hssi_await_ack_state ACK_STATE_SET) (
    retval <- hssi_eth_stat_data_read ;;
    hssi_eth_ctrl_write HSSI_CTRL_CMD_NO_REQ 0 0 ;;
    err <- hssi_await_ack_state ACK_STATE_CLR ;;
    kret (err, retval)).

Definition hssi_cmd_write (cmd addr data : Z) : K D Z :=
  hssi_eth_ctrl_write cmd addr data ;;
  also (hssi_await_ack_state ACK_STATE_SET) (
    hssi_eth_ctrl_write HSSI_CTRL_CMD_NO_REQ 0 0 ;;
    hssi_await_ack_state ACK_STATE_CLR).

(** ** Functions and buses of the Nios *)

Definition hssi_nios_soft_fn (cmd arg0 arg1 arg2 arg3 : Z) : K D (Z * Z) :=
  also_value 0 (hssi_cmd_write HSSI_CTRL_CMD_SW_WR NIOS_FN_ARG0 arg0) (
  also_value 0 (hssi_cmd_write HSSI_CTRL_CMD_SW_WR NIOS_FN_ARG1 arg1) (
  also_value 0 (hssi_cmd_write HSSI_CTRL_CMD_SW_WR NIOS_FN_ARG2 arg2) (
  also_value 0 (hssi_cmd_write HSSI_CTRL_CMD_SW_WR NIOS_FN_ARG3 arg3) (
  also_value 0 (hssi_cmd_write HSSI_CTRL_CMD_SW_WR NIOS_FN_CMD cmd) (
  hssi_cmd_read HSSI_CTRL_CMD_SW_RD NIOS_FN_RESULT))))).

Definition hssi_aux_cmd_write (cmd din addr data : Z) : K D Z :=
  also (hssi_cmd_write HSSI_CTRL_CMD_AUX_WR din data) (
  also (hssi_cmd_write HSSI_CTRL_CMD_AUX_WR cmd addr) (
  hssi_cmd_write HSSI_CTRL_CMD_AUX_WR cmd 0x0)).

Definition hssi_local_write (addr data : Z) : K D Z :=
  hssi_aux_cmd_write HSSI_AUX_LOCAL_CMD HSSI_AUX_LOCAL_DIN (Z.lor HSSI_DO_WRITE addr) data.

Definition hssi_local_read (addr : Z) : K D (Z * Z) :=
  also_value 0 (hssi_cmd_write HSSI_CTRL_CMD_AUX_WR HSSI_AUX_LOCAL_CMD addr) (
  hssi_cmd_read HSSI_CTRL_CMD_AUX_RD HSSI_AUX_LOCAL_DOUT).

Definition hssi_prmgmt_write (addr data : Z) : K D Z :=
  hssi_aux_cmd_write HSSI_AUX_PRMGMT_CMD HSSI_AUX_PRMGMT_DIN (Z.lor HSSI_DO_WRITE addr) data.

(** ** Modes *)

Definition hssi_set_mode (mode : Z) : K D Z :=
  also (hssi_local_write NIOS_LBUS_PRMGMT_RAME_ENA NIOS_PRMGMT_ASYNC_RST) (
  use (hssi_nios_soft_fn NIOS_CHANGE_HSSI_MODE mode 0 0 0) (fun _ =>
  use (hssi_nios_soft_fn NIOS_HSSI_INIT 0 0 0 0) (fun _ =>
  also (hssi_local_write NIOS_LBUS_PRMGMT_RAME_ENA 0x0) (
  also (hssi_local_write NIOS_LBUS_PRMGMT_RAME_ENA NIOS_MAC_RX_ALIGNMENT_EN) (
  msleep HSSI_SET_MODE_DELAY_MS ;;
  kret 0))))).

Definition set_hssi_mode_10gb_with_afu_reset : K D Z :=
  also (hssi_prmgmt_write PR_MGMT_RST (Z.lor (Z.lor PR_CSR_RST_BIT PR_RX_RST_BIT) PR_TX_RST_BIT)) (
  also (hssi_set_mode HSSI_MODE_10G) (
  also (hssi_prmgmt_write PR_MGMT_RST (Z.lor PR_CSR_RST_BIT PR_RX_RST_BIT)) (
  msleep HSSI_RESET_DELAY_MS ;;
  also (hssi_prmgmt_write PR_MGMT_RST PR_CSR_RST_BIT) (
  msleep HSSI_RESET_DELAY_MS ;;
  also (hssi_prmgmt_write PR_MGMT_RST 0x0) (
  msleep HSSI_RESET_DELAY_MS ;;
  kret 0))))).

Definition set_hssi_mode_40gb_with_afu_reset : K D Z :=
  also (hssi_prmgmt_write PR_MGMT_RST (Z.lor PR_40G_MAC_CORE_RST PR_40G_MAC_CSR_RST)) (
  also (hssi_set_mode HSSI_MODE_40G) (
  also (hssi_prmgmt_write PR_MGMT_RST 0x0) (
  msleep HSSI_RESET_DELAY_MS ;;
  kret 0))).

(** ** The I2C master *)

(** The two lines, as the driver drives them. *)
Definition i2c_lines (v : Z) : K D Z := hssi_cmd_write HSSI_CTRL_CMD_AUX_WR MAC_ID_I2C_DATA_INTERFACE v.

Definition hssi_i2c_enable : K D Z :=
  use (hssi_cmd_read HSSI_CTRL_CMD_AUX_RD HSSI_I2C_CTRL_AND_LEDS) (fun value =>
  hssi_cmd_write HSSI_CTRL_CMD_AUX_WR HSSI_I2C_CTRL_AND_LEDS (Z.ldiff value FPGA_I2C_MASTER_L)).

Definition hssi_i2c_disable : K D Z :=
  also (i2c_lines (Z.lor I2C_SCL I2C_SDA)) (
  use (hssi_cmd_read HSSI_CTRL_CMD_AUX_RD HSSI_I2C_CTRL_AND_LEDS) (fun value =>
  hssi_cmd_write HSSI_CTRL_CMD_AUX_WR HSSI_I2C_CTRL_AND_LEDS (Z.lor value FPGA_I2C_MASTER_L))).

Definition hssi_maci2c_start : K D Z :=
  also (i2c_lines (Z.lor I2C_SCL I2C_SDA)) (
  also (i2c_lines I2C_SCL) (
  i2c_lines 0)).

Definition hssi_maci2c_stop : K D Z :=
  also (i2c_lines I2C_SCL) (
  also (i2c_lines (Z.lor I2C_SCL I2C_SDA)) (
  i2c_lines I2C_SDA)).

Definition hssi_maci2c_rdbeat : K D (Z * Z) :=
  also_value 0 (i2c_lines I2C_SDA) (
  also_value 0 (i2c_lines (Z.lor I2C_SCL I2C_SDA)) (
  value 0 (hssi_cmd_read HSSI_CTRL_CMD_AUX_RD MAC_ID_I2C_DATA_INTERFACE) (fun value =>
  err <- i2c_lines I2C_SDA ;;
  kret (err, Z.land value I2C_SDA)))).

Definition hssi_maci2c_wrbeat (data_bit : Z) : K D Z :=
  let data_bit := Z.land data_bit I2C_SDA in
  also (i2c_lines data_bit) (
  also (i2c_lines (Z.lor I2C_SCL data_bit)) (
  i2c_lines data_bit)).

(** Bits [n - 1] down to 0; the result, and the byte as far as it was read. *)
Fixpoint rdbits (n : nat) (byte : Z) : K D (Z * Z) :=
  match n with
  | O => kret (0, byte)
  | S i =>
      r <- hssi_maci2c_rdbeat ;;
      if istrue (fst r) then kret (fst r, byte)
      else rdbits i (Z.lor byte (Z.shiftl (snd r) (Z.of_nat i)))
  end.
Definition hssi_maci2c_rdbyte : K D (Z * Z) := rdbits 8 0.

Fixpoint wrbits (n : nat) (byte : Z) : K D Z :=
  match n with
  | O => kret 0
  | S i => also (hssi_maci2c_wrbeat (Z.land (Z.shiftr byte (Z.of_nat i)) I2C_SDA)) (wrbits i byte)
  end.
Definition hssi_maci2c_wrbyte (byte : Z) : K D Z := wrbits 8 (u8 byte).

Fixpoint rdbeats (n : nat) : K D Z :=
  match n with O => kret 0 | S n => use hssi_maci2c_rdbeat (fun _ => rdbeats n) end.

Definition hssi_maci2c_reset : K D Z :=
  also hssi_maci2c_start (
  also (rdbeats (Z.to_nat I2C_RESET_CYCLE_CNT)) (
  also hssi_maci2c_start (
  hssi_maci2c_stop))).

(** A byte and the bit in which the other side says that it got it. *)
Definition wrbyte_acked (byte : Z) (k : K D (Z * list Z)) : K D (Z * list Z) :=
  also_value [] (hssi_maci2c_wrbyte byte) (
  r <- hssi_maci2c_rdbeat ;;
  if istrue (fst r) then kret (fst r, [])
  else if istrue (snd r) then kret (- ETIMEDOUT, [])
  else k).

(** [n] more bytes, each but the last acknowledged; the result, and the bytes
    that were stored. *)
Fixpoint rdbytes (n : nat) (buf : list Z) : K D (Z * list Z) :=
  match n with
  | O => kret (0, buf)
  | S n =>
      r <- hssi_maci2c_rdbyte ;;
      if istrue (fst r) then kret (fst r, buf ++ [snd r])
      else
        err <- match n with O => kret 0 | S _ => hssi_maci2c_wrbeat 0 end ;;
        if istrue err then kret (err, buf ++ [snd r]) else rdbytes n (buf ++ [snd r])
  end.

Definition hssi_maci2c_read_dev (device addr len : Z) : K D (Z * list Z) :=
  also_value [] hssi_maci2c_start (
  wrbyte_acked (Z.land device I2C_DEVADDR_MASK) (
  wrbyte_acked (Z.land addr I2C_DEVADDR_MASK) (
  also_value [] hssi_maci2c_stop (
  also_value [] hssi_maci2c_start (
  wrbyte_acked (Z.lor (Z.land device I2C_DEVADDR_MASK) I2C_DEVICE_READ) (
  r <- rdbytes (Z.to_nat len) [] ;;
  if istrue (fst r) then kret r
  else err <- hssi_maci2c_stop ;; kret (err, snd r))))))).

(** ** The transceivers *)

Definition write_serdes (chan addr bitmask val : Z) : K D Z :=
  let data := Z.lor (Z.shiftl chan 10) addr in
  also (hssi_local_write NIOS_LBUS_RECONFIG_CMD_ADDR (Z.lor data HSSI_DO_READ)) (
  use (hssi_local_read NIOS_LBUS_RECONFIG_RD_DATA) (fun curr =>
  let curr := Z.lor (Z.ldiff curr bitmask) (Z.land val bitmask) in
  also (hssi_local_write NIOS_LBUS_RECONFIG_WR_DATA curr) (
  hssi_local_write NIOS_LBUS_RECONFIG_CMD_ADDR (Z.lor data HSSI_DO_WRITE)))).

Definition read_serdes (chan addr : Z) : K D (Z * Z) :=
  also_value 0 (hssi_local_write NIOS_LBUS_RECONFIG_CMD_ADDR (Z.lor (Z.lor (Z.shiftl chan 10) addr) HSSI_DO_READ)) (
  hssi_local_read NIOS_LBUS_RECONFIG_RD_DATA).

(** Registers of a transceiver, with the bits to change and their values. *)
Fixpoint write_all (chan : Z) (l : list (Z * Z * Z)) : K D Z :=
  match l with
  | [] => kret 0
  | (addr, bitmask, val) :: l => also (write_serdes chan addr bitmask val) (write_all chan l)
  end.

Definition prep_words : list (Z * Z * Z) :=
  [(PDB_FXTAP_EN_ADDR, PDB_FXTAP_EN_MASK,
     Z.lor (Z.lor ADAPT_SLICERS_EN DFE_FIX_TAP_4_TO_7_EN) DFE_FIX_TAP_8_TO_11_EN);
   (DFE_FXTAP_EN_ADDR, DFE_FXTAP_EN_MASK,
     Z.lor (Z.lor (Z.lor (Z.lor DFE_FIX_TAP_1_to_7_ADAPT_EN DFE_FIX_TAP_8_to_11_ADAPT_EN) VREF_ADAPT_EN)
       VGA_ADAPT_EN) CTLE_ADAPT_EN);
   (CTLE_EN_ADDR, CTLE_EN_MASK, 0);
   (DFE_FXTAP_BYPASS_ADDR, DFE_FXTAP_BYPASS_MASK, 0);
   (VREF_BYPASS_ADDR, VREF_BYPASS_MASK, 0);
   (VGA_BYPASS_SEL_ADDR, VGA_BYPASS_SEL, VGA_BYPASS_SEL);
   (CTLE_EQZ_1S_BYPASS_ADDR, CTLE_EQZ_1S_BYPASS, CTLE_EQZ_1S_BYPASS);
   (CTLE_EQZ_4S_BYPASS_ADDR, CTLE_EQZ_4S_BYPASS, CTLE_EQZ_4S_BYPASS);
   (CTLE_ADAPT_CYCLE_ADDR, CTLE_ADAPT_CYCLE_MASK, 0);
   (DFE_MODE_ADDR, DFE_MODE_MASK, 0);
   (SEL_FXTAP_DEC_ADDR, DFT_ENABLE, 0)].
Definition prep_adaptation (chan : Z) : K D Z := write_all chan prep_words.

Definition trigger_words : list (Z * Z * Z) :=
  [(ADAPT_CTRL_ADDR, ADAPT_CTRL_DPRIO, ADAPT_CTRL_DPRIO);
   (ADAPT_TRIG_REQUEST_ADDR, ADAPT_TRIG_REQUEST_EN, ADAPT_TRIG_REQUEST_EN);
   (AVMM_ARB_CTRL_ADDR, AVMM_ARB_CTRL_UCTRLR, AVMM_ARB_CTRL_UCTRLR)].
Definition trigger_adaptation (chan : Z) : K D Z := write_all chan trigger_words.

(** One round of the loop, after [time] milliseconds. *)
Definition adaptation_round (chan time : Z) : K D (Z + Z) :=
  msleep DFE_KICKSTART_INTERVAL_MS ;;
  r <- read_serdes chan TX_RX_CAL_STATUS ;;
  if istrue (fst r) then kret (inr (fst r))
  else
    let time := time + DFE_KICKSTART_INTERVAL_MS in
    let busy := istrue (Z.land (snd r) AVMM_BUSY) in
    kret (if busy && (time <=? DFE_KICKSTART_TO_MS) then inl time
          else inr (if busy then - ETIMEDOUT else 0)).
Definition adaptation_rounds : positive := 1002.
Definition poll_adaptation_complete (chan : Z) : K D Z :=
  kwhile (adaptation_round chan) adaptation_rounds 0.

Definition read_tap (chan tap_select : Z) : K D (Z * Z) :=
  also_value 0 (write_serdes chan ADP_STATUS_SEL_ADDR ADP_STATUS_SEL_MASK tap_select) (
  read_serdes chan ADP_DFE_TAP_ADDR).
End Hssi.
