(* ===== verification/HssiAttrs.v ===== *)
(** * The HSSI controller of the PAC: attributes (intel-fpga-pac-hssi.c)

    The driver data with its caches, the files in sysfs, probe and remove. *)

From S2P Require Import Prelude.
From S2P Require Import Mmio.
From S2P Require Import Poll.
From S2P Require Import Sysfs.
From S2P Require Import Hssi.
Local Open Scope string_scope.
Local Open Scope list_scope.
Local Open Scope Z_scope.

(** ** State *)

(** The device, the driver data and which groups of files are in sysfs. *)
Record pac_hssi (D : Type) := PacHssi {
  hdev : D; bus_mutex : option bool;
  eeprom : list Z; serial_number : list Z; data_flags : Z;
  board_files : bool; qsfp0_files : bool; mgmt_files : bool;
}.
Arguments PacHssi {D}. Arguments hdev {D}. Arguments bus_mutex {D}. Arguments eeprom {D}.
Arguments serial_number {D}. Arguments data_flags {D}. Arguments board_files {D}.
Arguments qsfp0_files {D}. Arguments mgmt_files {D}.

Definition set_hdev {D} (d : D) (h : pac_hssi D) :=
  PacHssi d (bus_mutex h) (eeprom h) (serial_number h) (data_flags h) (board_files h) (qsfp0_files h) (mgmt_files h).
Definition set_bus_mutex {D} m (h : pac_hssi D) :=
  PacHssi (hdev h) m (eeprom h) (serial_number h) (data_flags h) (board_files h) (qsfp0_files h) (mgmt_files h).
Definition set_eeprom {D} l (h : pac_hssi D) :=
  PacHssi (hdev h) (bus_mutex h) l (serial_number h) (data_flags h) (board_files h) (qsfp0_files h) (mgmt_files h).
Definition set_serial_number {D} l (h : pac_hssi D) :=
  PacHssi (hdev h) (bus_mutex h) (eeprom h) l (data_flags h) (board_files h) (qsfp0_files h) (mgmt_files h).
Definition set_data_flags {D} n (h : pac_hssi D) :=
  PacHssi (hdev h) (bus_mutex h) (eeprom h) (serial_number h) n (board_files h) (qsfp0_files h) (mgmt_files h).
Definition set_files {D} b q m (h : pac_hssi D) :=
  PacHssi (hdev h) (bus_mutex h) (eeprom h) (serial_number h) (data_flags h) b q m.

(** What the platform and the kernel answer. *)
Record hssi_env := HssiEnv {
  hssi_plat : option Z;             (* the platform data: csr_base *)
  hssi_alloc : bool;
  board_ret : Z; qsfp0_ret : Z; mgmt_ret : Z;   (* creating the groups of files *)
  kstrtou8_16 : string -> Z + Z;    (* kstrtou8 with base 16 *)
}.

(** The files of the groups. *)
Definition hssi_qsfp0_attrs : list string := ["config"; "equalizer_tune"; "dfe_kickstart"].
Definition hssi_mgmt_attrs : list string := ["config"; "board_id"; "eeprom"; "equalizer_tune"; "dfe_kickstart"].
Definition hssi_board_attrs : list string := ["board_id"; "eeprom"].

Section Attrs.
Context {D : Type} {dev : Mmio D} {clock : Clock D} {ks : Kstrto}.
Variable env : hssi_env.
Variable base : Z.
Abbreviation pdev := (pac_hssi D).

Definition on_hdev {A} (c : K D A) : K pdev A := zoom hdev set_hdev c.

Definition hssi_lock : K pdev unit :=
  h <- kget ;; locked <- deref (bus_mutex h) ;;
  if locked : bool then oops else kput (set_bus_mutex (Some true) h).
Definition hssi_unlock : K pdev unit :=
  h <- kget ;; locked <- deref (bus_mutex h) ;;
  if locked : bool then kput (set_bus_mutex (Some false) h) else oops.

(** [c] under the mutex, and [count] if it returned 0. *)
Definition locked_store (c : K D Z) (count : Z) : K pdev Z :=
  hssi_lock ;;
  err <- on_hdev c ;;
  hssi_unlock ;;
  kret (if istrue err then err else count).

(** ** The mode *)

Definition config_store (buf : string) (count : Z) : K pdev Z :=
  match kstrtou8 buf with
  | inl err => kret err
  | inr hssi_eth_speed =>
      locked_store
        (if hssi_eth_speed =? HSSI_ETH_SPEED_10G then set_hssi_mode_10gb_with_afu_reset base
         else if hssi_eth_speed =? HSSI_ETH_SPEED_40G then set_hssi_mode_40gb_with_afu_reset base
         else kret (- EINVAL)) count
  end.

Definition config_qsfp0_store (buf : string) (count : Z) : K pdev Z :=
  match kstrtou8 buf with
  | inl err => kret err
  | inr hssi_eth_speed =>
      locked_store
        (if hssi_eth_speed =? HSSI_ETH_SPEED_10G then hssi_set_mode base HSSI_MODE_10G
         else if hssi_eth_speed =? HSSI_ETH_SPEED_40G then hssi_set_mode base HSSI_MODE_40G
         else kret (- EINVAL)) count
  end.

(** ** The EEPROM *)

(** Reads the device into a buffer of the driver data: the result, and the
    bytes that were stored. *)
Definition fetch (device addr len : Z) : K D (Z * list Z) :=
  hssi_i2c_enable base ;;
  r <- also_value [] (hssi_maci2c_reset base) (hssi_maci2c_read_dev base device addr len) ;;
  hssi_i2c_disable base ;;
  kret r.

(** The error, or the content of the file. *)
Definition board_id_show : K pdev (Z + list Z) :=
  hssi_lock ;;
  h <- kget ;;
  if negb (istrue (Z.land (data_flags h) HSSI_DATA_SERIAL)) then
    r <- on_hdev (fetch I2C_SERIAL_NUMBER_DEV I2C_SERIAL_WORD_OFFSET I2C_SERIAL_NUMBER_LEN) ;;
    kmod (fun h => set_serial_number (snd r ++ drop (length (snd r)) (serial_number h)) h) ;;
    if istrue (fst r) then hssi_unlock ;; kret (inl (fst r))
    else
      kmod (fun h => set_data_flags (Z.lor (data_flags h) HSSI_DATA_SERIAL) h) ;;
      hssi_unlock ;; kgets (fun h => inr (serial_number h))
  else
    hssi_unlock ;; kgets (fun h => inr (serial_number h)).

Definition eeprom_show : K pdev (Z + list Z) :=
  hssi_lock ;;
  h <- kget ;;
  if negb (istrue (Z.land (data_flags h) HSSI_DATA_EEPROM)) then
    r <- on_hdev (fetch I2C_EEPROM_DEV 0 I2C_EEPROM_LEN) ;;
    kmod (fun h => set_eeprom (snd r ++ drop (length (snd r)) (eeprom h)) h) ;;
    if istrue (fst r) then hssi_unlock ;; kret (inl (fst r))
    else
      kmod (fun h => set_data_flags (Z.lor (data_flags h) HSSI_DATA_EEPROM) h) ;;
      hssi_unlock ;; kgets (fun h => inr (eeprom h))
  else
    hssi_unlock ;; kgets (fun h => inr (eeprom h)).

(** ** Tuning *)

(** The text before and after the first [c] of the next [count] characters. *)
Fixpoint strnchr (s : string) (count : nat) (c : Ascii.ascii) : option (string * string) :=
  match count, s with
  | S count, String a s =>
      if Ascii.eqb a c then Some ("", s)
      else match strnchr s count c with Some (tok, rest) => Some (String a tok, rest) | None => None end
  | _, _ => None
  end.

(** The text after the token, or an error; the value of the token. *)
Definition eq_tune_get_token (sp : string) (c : Ascii.ascii) : Z + string * Z :=
  match strnchr sp (Z.to_nat HSSI_TUNE_STRLEN) c with
  | None => inl (- EINVAL)
  | Some (tok, rest) =>
      match kstrtou8_16 env tok with inl err => inl err | inr value => inr (rest, value) end
  end.

(** The channel, parameter and value of "chan:parm=value\n"; 58 is the colon,
    61 the equals sign. *)
Definition equalizer_parse (buf : string) : Z + Z * Z * Z :=
  match eq_tune_get_token buf (Ascii.ascii_of_nat 58) with
  | inl err => inl err
  | inr (buf, chan) =>
      match eq_tune_get_token buf (Ascii.ascii_of_nat 61) with
      | inl err => inl err
      | inr (buf, parm) =>
          match eq_tune_get_token buf (Ascii.ascii_of_nat 10) with
          | inl err => inl err
          | inr (_, value) => inr (chan, parm, value)
          end
      end
  end.

Definition equalizer_tune_store (buf : string) (count : Z) : K pdev Z :=
  if HSSI_TUNE_STRLEN <? Z.of_nat (String.length buf) then kret (- EINVAL)
  else
    match equalizer_parse buf with
    | inl err => kret err
    | inr (chan, parm, value) =>
        if (HSSI_CHAN_MAX <? chan) || (HSSI_PARM_MAX <? parm) then kret (- EINVAL)
        else if nth (Z.to_nat parm) eq_tune_max 0 <? value then kret (- EINVAL)
        else
          locked_store
            (r <- hssi_nios_soft_fn base NIOS_TX_EQ_WRITE chan parm value 0 ;; kret (fst r)) count
    end.

Definition tune_line (chan parm value : Z) : string :=
  (fmt_x chan ++ ":" ++ fmt_x parm ++ "=" ++ fmt_x value ++ newline)%string.

(** The pairs of the two loops, in order. *)
Definition tune_pairs : list (Z * Z) :=
  flat_map (fun chan => map (fun parm => (Z.of_nat chan, Z.of_nat parm)) (seq 0 (Z.to_nat HSSI_PARM_MAX + 1)))
    (seq 0 (Z.to_nat HSSI_CHAN_MAX + 1)).

Fixpoint tune_lines (l : list (Z * Z)) (buf : string) : K D (Z * string) :=
  match l with
  | [] => kret (0, buf)
  | (chan, parm) :: l =>
      r <- hssi_nios_soft_fn base NIOS_TX_EQ_READ chan parm 0 0 ;;
      if istrue (fst r) then kret (fst r, buf) else tune_lines l (buf ++ tune_line chan parm (snd r))%string
  end.

Definition equalizer_tune_show : K pdev (Z + string) :=
  hssi_lock ;;
  r <- on_hdev (tune_lines tune_pairs "") ;;
  hssi_unlock ;;
  kret (if istrue (fst r) then inl (fst r) else inr (snd r)).

(** ** Adaptation *)

Definition channels : list Z := map Z.of_nat (seq 0 (Z.to_nat HSSI_CHAN_MAX + 1)).

Fixpoint kickstart (l : list Z) : K D Z :=
  match l with
  | [] => kret 0
  | chan :: l =>
      also (prep_adaptation base chan) (
      also (trigger_adaptation base chan) (
      also (poll_adaptation_complete base chan) (
      kickstart l)))
  end.

Definition dfe_kickstart_store (count : Z) : K pdev Z := locked_store (kickstart channels) count.

(** The result, the text, and whether the function returns from inside the
    loop instead of going to its end. *)
Fixpoint tap_lines (l : list Z) (buf : string) : K D (Z * string * bool) :=
  match l with
  | [] => kret (0, buf, false)
  | chan :: l =>
      err <- write_serdes base chan TEST_MUX_ADDR TEST_MUX_MASK TEST_MUX_DATA ;;
      if istrue err then kret (err, buf, true)
      else
        a <- read_tap base chan ADP_STATUS_SEL_30 ;;
        if istrue (fst a) then kret (fst a, buf, false)
        else
          b <- read_tap base chan ADP_STATUS_SEL_31 ;;
          if istrue (fst b) then kret (fst b, buf, false)
          else
            c <- read_tap base chan ADP_STATUS_SEL_32 ;;
            if istrue (fst c) then kret (fst c, buf, false)
            else
              tap_lines l (buf ++ "chan" ++ fmt_d chan ++ ": 0x" ++ fmt_x (snd a) ++ " 0x" ++ fmt_x (snd b) ++
                           " 0x" ++ fmt_x (snd c) ++ newline)%string
  end.

Definition dfe_kickstart_show : K pdev (Z + string) :=
  hssi_lock ;;
  r <- on_hdev (tap_lines channels "") ;;
  let '(err, buf, leave) := r in
  if leave : bool then kret (inl err)
  else
    hssi_unlock ;;
    kret (if istrue err then inl err else inr buf).

(** ** Probe and remove *)

Definition intel_pac_hssi_probe : K pdev Z :=
  match hssi_plat env with
  | None => kret (- ENODEV)
  | Some _ =>
      if negb (hssi_alloc env) then kret (- ENOMEM)
      else
        kmod (fun h => PacHssi (hdev h) (Some false) (repeat 0 (Z.to_nat I2C_EEPROM_LEN))
                (repeat 0 (Z.to_nat I2C_SERIAL_NUMBER_LEN)) 0 false false false) ;;
        if istrue (board_ret env) then kmod (set_bus_mutex None) ;; kret (board_ret env)
        else
          kmod (set_files true false false) ;;
          if istrue (qsfp0_ret env) then
            kmod (set_files false false false) ;; kmod (set_bus_mutex None) ;; kret (qsfp0_ret env)
          else
            kmod (set_files true true false) ;;
            if istrue (mgmt_ret env) then
              kmod (set_files true false false) ;;
              kmod (set_files false false false) ;; kmod (set_bus_mutex None) ;; kret (mgmt_ret env)
            else kmod (set_files true true true) ;; kret 0
  end.

Definition intel_pac_hssi_remove : K pdev Z :=
  h <- kget ;;
  deref (bus_mutex h) ;;
  kmod (set_files false false false) ;;
  kmod (set_bus_mutex None) ;;
  kret 0.
End Attrs.

(** The mutex, taken when free and freed when held. *)
Lemma hssi_lock_run {D} (h : pac_hssi D) :
  bus_mutex h = Some false -> hssi_lock h = Some (tt, set_bus_mutex (Some true) h).
Proof. intros Hm. unfold hssi_lock. simpl. by rewrite Hm. Qed.
Lemma hssi_unlock_run {D} (h : pac_hssi D) :
  bus_mutex h = Some true -> hssi_unlock h = Some (tt, set_bus_mutex (Some false) h).
Proof. intros Hm. unfold hssi_unlock. simpl. by rewrite Hm. Qed.
