(* ===== verification/HssiMailbox.v ===== *)
(** * The processor behind the HSSI registers

    The Nios takes the request in the control register, some time later does
    what it asks, and then shows the acknowledge bit until the request is
    withdrawn, which it also takes some time to see.  What a read or write does
    is a parameter: the class [Nios].  Against every such processor a command
    of the driver is exactly one read or write; [runs] is what the driver's
    sequences of commands do to the state behind the processor. *)

From S2P Require Import Prelude.
From S2P Require Import Bitfield.
From S2P Require Import Registers.
From S2P Require Import Mmio.
From S2P Require Import Loops.
From S2P Require Import Poll.
From S2P Require Import Hssi.
Local Open Scope string_scope.
Local Open Scope list_scope.
Local Open Scope Z_scope.

(** What a read or write request of a kind at an address does. *)
Class Nios (N : Type) := {
  nios_read : Z -> Z -> N -> Z * N;
  nios_write : Z -> Z -> Z -> N -> N;
}.

(** [req] is the request that is not served yet with the ticks that it takes. *)
Record hssi_dev (N : Type) := HssiDev {
  h_base : Z; nios : N; ack : Z; hdata : Z; req : option (Z * nat); h_latency : nat; h_ns : Z;
}.
Arguments HssiDev {N}. Arguments h_base {N}. Arguments nios {N}. Arguments ack {N}. Arguments hdata {N}.
Arguments req {N}. Arguments h_latency {N}. Arguments h_ns {N}.

Section Machine.
Context {N : Type} {bus : Nios N}.

Definition set_req r (d : hssi_dev N) :=
  HssiDev (h_base d) (nios d) (ack d) (hdata d) r (h_latency d) (h_ns d).
Definition set_h_ns t (d : hssi_dev N) :=
  HssiDev (h_base d) (nios d) (ack d) (hdata d) (req d) (h_latency d) t.
Definition answers (n : N) a v (d : hssi_dev N) : hssi_dev N :=
  HssiDev (h_base d) n a v None (h_latency d) (h_ns d).

Definition is_read (cmd : Z) : bool := (cmd =? HSSI_CTRL_CMD_SW_RD) || (cmd =? HSSI_CTRL_CMD_AUX_RD).

Definition serve (ctrl : Z) (d : hssi_dev N) : hssi_dev N :=
  let f n := fget hssi_eth_ctrl n ctrl in
  if f "cmd" =? HSSI_CTRL_CMD_NO_REQ then answers (nios d) ACK_STATE_CLR (hdata d) d
  else if is_read (f "cmd") then
    let '(v, n) := nios_read (f "cmd") (f "address") (nios d) in answers n ACK_STATE_SET (u32 v) d
  else answers (nios_write (f "cmd") (f "address") (f "data") (nios d)) ACK_STATE_SET (hdata d) d.

Definition hssi_tick (d : hssi_dev N) : hssi_dev N :=
  match req d with
  | None => d
  | Some (ctrl, S k) => set_req (Some (ctrl, k)) d
  | Some (ctrl, O) => serve ctrl d
  end.
Definition hssi_sleep (us : Z) (d : hssi_dev N) : hssi_dev N :=
  let d := hssi_tick d in set_h_ns (h_ns d + 1000 * us) d.

Definition hssi_status (d : hssi_dev N) : Z :=
  fset hssi_eth_stat "acknowledge" (ack d) (fset hssi_eth_stat "data" (hdata d) 0).

#[export] Instance hssi_mmio : Mmio (hssi_dev N) := {|
  dev_readq a d := (if a =? h_base d + offsetof hssi_eth_regs "hssi_status" then hssi_status d else 0, d);
  dev_writeq a v d :=
    if a =? h_base d + offsetof hssi_eth_regs "hssi_control" then set_req (Some (v, h_latency d)) d else d;
|}.
#[export] Instance hssi_clock : Clock (hssi_dev N) := {|
  ktime_get d := h_ns d;
  dev_usleep_range lo hi d := hssi_sleep hi d;
  dev_udelay us d := hssi_sleep us d;
|}.

(** ** A request *)

Lemma ctrl_wf : struct_wf hssi_eth_ctrl = true. Proof. reg_tac. Qed.
Lemma stat_wf : struct_wf hssi_eth_stat = true. Proof. reg_tac. Qed.

Ltac hssi_fields :=
  repeat first
    [ rewrite fget_fset_same by (exact ctrl_wf || exact stat_wf || reflexivity)
    | rewrite fget_fset_other by (exact ctrl_wf || exact stat_wf || discriminate) ].

Definition request (cmd addr data : Z) : Z :=
  let set n v c := fset hssi_eth_ctrl n v c in
  set "data" data (set "address" addr (set "cmd" cmd 0)).

Lemma request_fields cmd addr data :
  0 <= cmd < 2 ^ 16 -> 0 <= addr < 2 ^ 16 -> 0 <= data < 2 ^ 32 ->
  let f n := fget hssi_eth_ctrl n (request cmd addr data) in
  f "cmd" = cmd /\ f "address" = addr /\ f "data" = data.
Proof.
  intros Hc Ha Hd. cbv zeta beta. unfold request. cbv zeta.
  split_and!; hssi_fields; by apply wrap_small.
Qed.

Lemma status_ack d : 0 <= ack d < 2 -> fget hssi_eth_stat "acknowledge" (hssi_status d) = ack d.
Proof. intros H. unfold hssi_status. hssi_fields. by apply wrap_small. Qed.
Lemma hssi_status_data d : 0 <= hdata d < 2 ^ 32 -> fget hssi_eth_stat "data" (hssi_status d) = hdata d.
Proof. intros H. unfold hssi_status. hssi_fields. by apply wrap_small. Qed.

Variable base : Z.
Variable latency : nat.
Hypothesis in_time : Z.of_nat latency <= 10000.

Lemma serve_frame ctrl d : h_base (serve ctrl d) = h_base d /\ h_latency (serve ctrl d) = h_latency d /\
  req (serve ctrl d) = None.
Proof. unfold serve, answers. repeat case_match; done. Qed.

Lemma serve_late ctrl ns r d : serve ctrl (set_h_ns ns (set_req r d)) = set_h_ns ns (serve ctrl d).
Proof.
  unfold serve. cbn [nios set_h_ns set_req hdata]. destruct (_ =? _); [done|]. destruct (is_read _); [|done].
  by destruct (nios_read _ _ _).
Qed.

Lemma hssi_read_status d : h_base d = base -> readq (hssi_at base "hssi_status") d = Some (hssi_status d, d).
Proof. intros <-. unfold readq, hssi_at. cbn [dev_readq hssi_mmio]. by rewrite Z.eqb_refl. Qed.

(** A request, and the wait for its acknowledge. *)
Lemma handshake cmd addr data d a :
  h_base d = base -> h_latency d = latency -> 0 <= a < 2 -> ack d = 1 - a ->
  ack (serve (request cmd addr data) d) = a ->
  exists ns, (hssi_eth_ctrl_write base cmd addr data ;; hssi_await_ack_state base a) d =
    Some (0, set_h_ns ns (serve (request cmd addr data) d)).
Proof.
  intros Hb Hl Ha Hack Hserved. set (ctrl := request cmd addr data) in *. set (d1 := set_req (Some (ctrl, latency)) d).
  assert (hssi_eth_ctrl_write base cmd addr data d = Some (tt, d1)) as Hw.
  { unfold hssi_eth_ctrl_write, hssi_at, writeq, d1. cbn [dev_writeq hssi_mmio]. by rewrite Hb, Z.eqb_refl, Hl. }
  rewrite (kbind_run _ _ _ _ _ Hw). unfold hssi_await_ack_state.
  destruct (poll_ticks (readq (hssi_at base "hssi_status")) (fun csr => fget hssi_eth_stat "acknowledge" csr =? a)
    (fun k d' => exists ns, d' = set_h_ns ns match k with O => serve ctrl d | S m => set_req (Some (ctrl, m)) d end)
    hssi_status HSSI_WRITE_POLL_INVL_US HSSI_WRITE_POLL_TIMEOUT_US (S latency) d1) as (d' & Hrun & ns & ->).
  - done.
  - done.
  - intros k d' [ns ->]. split.
    + apply hssi_read_status. destruct k; [|done]. exact (eq_trans (proj1 (serve_frame ctrl d)) Hb).
    + destruct k as [|k]; rewrite status_ack; cbn [ack set_h_ns set_req];
        rewrite ?Hserved, ?Hack; [by apply Z.eqb_eq|lia|apply Z.eqb_neq; lia|lia].
  - intros k d' [ns ->]. cbn [dev_usleep_range hssi_clock]. unfold hssi_sleep, hssi_tick.
    destruct k as [|k]; cbn [req set_h_ns set_req].
    + rewrite serve_late. split; [by eexists|done].
    + split; [by eexists|done].
  - exists (h_ns d). by destruct d.
  - unfold HSSI_WRITE_POLL_INVL_US, HSSI_WRITE_POLL_TIMEOUT_US. lia.
  - rewrite (kbind_run _ _ _ _ _ Hrun). exists ns. cbn [snd]. rewrite status_ack by (cbn [ack set_h_ns]; lia).
    cbn [ack set_h_ns]. by rewrite Hserved, Z.eqb_refl.
Qed.

(** ** Commands *)

(** No request is in progress and none is acknowledged; [n] is the state behind
    the processor. *)
Record ready (n : N) (d : hssi_dev N) : Prop := {
  ready_base : h_base d = base; ready_latency : h_latency d = latency;
  ready_ack : ack d = ACK_STATE_CLR; ready_req : req d = None; ready_nios : nios d = n;
}.

(** From a ready device with [n], [c] returns [r] and leaves it ready with [n']. *)
Definition runs {A} (n : N) (c : K (hssi_dev N) A) (r : A) (n' : N) : Prop :=
  forall d, ready n d -> exists d', c d = Some (r, d') /\ ready n' d'.

Lemma runs_ret {A} n (a : A) : runs n (kret a) a n.
Proof. intros d Hd. by exists d. Qed.
Lemma runs_bind {A B} n (c : K _ A) (f : A -> K _ B) a n1 b n2 :
  runs n c a n1 -> runs n1 (f a) b n2 -> runs n (kbind c f) b n2.
Proof.
  intros H1 H2 d Hd. destruct (H1 d Hd) as (d1 & R1 & Hd1). destruct (H2 d1 Hd1) as (d2 & R2 & Hd2).
  exists d2. by rewrite (kbind_run _ _ _ _ _ R1).
Qed.
Lemma runs_also n c k r n1 n2 : runs n c 0 n1 -> runs n1 k r n2 -> runs n (also c k) r n2.
Proof. intros H1 H2. by apply (runs_bind _ _ _ _ _ _ _ H1). Qed.
Lemma runs_also_value {A} n (a : A) c k r n1 n2 : runs n c 0 n1 -> runs n1 k r n2 -> runs n (also_value a c k) r n2.
Proof. intros H1 H2. by apply (runs_bind _ _ _ _ _ _ _ H1). Qed.
Lemma runs_use {A} n c (k : A -> K _ Z) v r n1 n2 : runs n c (0, v) n1 -> runs n1 (k v) r n2 -> runs n (use c k) r n2.
Proof. intros H1 H2. by apply (runs_bind _ _ _ _ _ _ _ H1). Qed.
Lemma runs_value {A} n a c (k : A -> K _ (Z * A)) v r n1 n2 :
  runs n c (0, v) n1 -> runs n1 (k v) r n2 -> runs n (value a c k) r n2.
Proof. intros H1 H2. by apply (runs_bind _ _ _ _ _ _ _ H1). Qed.

Lemma runs_msleep n ms : runs n (msleep ms) tt n.
Proof.
  intros d [? ? ? Hr ?]. eexists. split; [reflexivity|].
  cbn [dev_usleep_range hssi_clock]. unfold hssi_sleep, hssi_tick. by rewrite Hr.
Qed.

(** The request is withdrawn. *)
Lemma withdraw n d :
  h_base d = base -> h_latency d = latency -> ack d = ACK_STATE_SET -> nios d = n ->
  exists d', (hssi_eth_ctrl_write base HSSI_CTRL_CMD_NO_REQ 0 0 ;; hssi_await_ack_state base ACK_STATE_CLR) d =
    Some (0, d') /\ ready n d'.
Proof.
  intros Hb Hl Ha Hn. destruct (request_fields HSSI_CTRL_CMD_NO_REQ 0 0) as (F1 & _); [done..|].
  assert (serve (request HSSI_CTRL_CMD_NO_REQ 0 0) d = answers n ACK_STATE_CLR (hdata d) d) as E.
  { unfold serve. rewrite F1, Z.eqb_refl. by rewrite Hn. }
  destruct (handshake HSSI_CTRL_CMD_NO_REQ 0 0 d ACK_STATE_CLR Hb Hl) as [ns Hrun]; [done|done|by rewrite E|].
  rewrite E in Hrun. eexists. split; [exact Hrun|]. by split.
Qed.

Lemma runs_cmd_write n cmd addr data :
  cmd = HSSI_CTRL_CMD_SW_WR \/ cmd = HSSI_CTRL_CMD_AUX_WR ->
  0 <= addr < 2 ^ 16 -> 0 <= data < 2 ^ 32 ->
  runs n (hssi_cmd_write base cmd addr data) 0 (nios_write cmd addr data n).
Proof.
  intros Hcmd Haddr Hdata d [Hb Hl Ha Hr Hn].
  assert (0 <= cmd < 2 ^ 16) as Hc by (by destruct Hcmd; subst).
  destruct (request_fields cmd addr data Hc Haddr Hdata) as (F1 & F2 & F3).
  assert (serve (request cmd addr data) d = answers (nios_write cmd addr data n) ACK_STATE_SET (hdata d) d) as E.
  { unfold serve. rewrite F1, F2, F3, Hn. by destruct Hcmd; subst. }
  destruct (handshake cmd addr data d ACK_STATE_SET Hb Hl) as [ns Hrun]; [done|done|by rewrite E|].
  rewrite E in Hrun. unfold hssi_cmd_write, also. rewrite (kbind_run2 _ _ _ _ _ _ Hrun).
  change (istrue 0) with false. cbv iota. by apply withdraw.
Qed.

Lemma runs_cmd_read n cmd addr v n' :
  is_read cmd = true -> 0 <= cmd < 2 ^ 16 -> 0 <= addr < 2 ^ 16 -> nios_read cmd addr n = (v, n') ->
  runs n (hssi_cmd_read base cmd addr) (0, u32 v) n'.
Proof.
  intros Hcmd Hc Haddr Hread d [Hb Hl Ha Hr Hn].
  destruct (request_fields cmd addr 0 Hc Haddr ltac:(lia)) as (F1 & F2 & F3).
  assert (serve (request cmd addr 0) d = answers n' ACK_STATE_SET (u32 v) d) as E.
  { unfold serve. rewrite F1, F2, F3, Hn, Hcmd, Hread.
    destruct (Z.eqb_spec cmd HSSI_CTRL_CMD_NO_REQ) as [->|]; [discriminate Hcmd|done]. }
  destruct (handshake cmd addr 0 d ACK_STATE_SET Hb Hl) as [ns Hrun]; [done|done|by rewrite E|].
  rewrite E in Hrun. unfold hssi_cmd_read, also_value. rewrite (kbind_run2 _ _ _ _ _ _ Hrun).
  change (istrue 0) with false. cbv iota. set (d1 := set_h_ns _ _).
  assert (hssi_eth_stat_data_read base d1 = Some (u32 v, d1)) as Hdata.
  { unfold hssi_eth_stat_data_read. rewrite (kbind_run _ _ _ _ _ (hssi_read_status d1 Hb)).
    rewrite hssi_status_data; [done|]. apply (wrap_range 32). lia. }
  rewrite (kbind_run _ _ _ _ _ Hdata).
  destruct (withdraw n' d1 Hb Hl eq_refl eq_refl) as (d' & Hrun' & Hd').
  rewrite (kbind_run2 _ _ _ _ _ _ Hrun'). by exists d'.
Qed.
End Machine.
