(* ===== verification/HssiI2c.v ===== *)
(** * The EEPROM of the PAC on the driver's I2C bus

    An AT24CS-like serial EEPROM on the two lines that the HSSI driver drives
    through the Nios.  It follows the I2C rules: a falling data line while the
    clock is high starts a transfer, a rising one ends it, a bit is taken at a
    rising clock and the output changes at a falling one.  Eight bits are a
    byte, which the receiver acknowledges.  The write-protect pin is set: data
    bytes are not taken.  [runs] lifts the driver's beats to this device. *)

From S2P Require Import Prelude.
From S2P Require Import Mmio.
From S2P Require Import Loops.
From S2P Require Import Poll.
From S2P Require Import Hssi.
From S2P Require Import HssiMailbox.
Local Open Scope list_scope.
Local Open Scope Z_scope.

(** ** The device *)

Inductive byte_kind := DevByte | WordByte | DataByte.

(** What the device does until the next falling clock. *)
Inductive phase :=
  | Quiet                                           (* not addressed *)
  | Started                                         (* a start was seen *)
  | Recv (what : byte_kind) (n : nat) (acc : Z)     (* [n] bits taken so far *)
  | Ack (next : phase)                              (* pulls the line low *)
  | Send (b : Z) (n : nat)                          (* drives bit [7 - n] of [b] *)
  | Listen.                                         (* for the master's acknowledge *)

(** [rom false] is the EEPROM, [rom true] the serial number; [word] is the
    address of the next byte and [bit] the last bit on the line. *)
Record i2c := I2c {
  leds : Z; scl : bool; sda : bool; ph : phase; bit : bool;
  word : Z; serial : bool; rom : bool -> Z -> Z;
}.

Definition set_ph p e := I2c (leds e) (scl e) (sda e) p (bit e) (word e) (serial e) (rom e).
Definition set_word w e := I2c (leds e) (scl e) (sda e) (ph e) (bit e) w (serial e) (rom e).
Definition set_serial a e := I2c (leds e) (scl e) (sda e) (ph e) (bit e) (word e) a (rom e).
Definition set_leds v e := I2c v (scl e) (sda e) (ph e) (bit e) (word e) (serial e) (rom e).
Definition set_lines c d e := I2c (leds e) c d (ph e) (bit e) (word e) (serial e) (rom e).
Definition set_bit b e := I2c (leds e) (scl e) (sda e) (ph e) b (word e) (serial e) (rom e).

(** The device pulls the line low or leaves it. *)
Definition out (p : phase) : bool :=
  match p with Ack _ => false | Send b n => Z.testbit b (7 - Z.of_nat n) | _ => true end.

Definition send_next (wrap : phase -> phase) (e : i2c) : i2c :=
  set_word ((word e + 1) mod 512) (set_ph (wrap (Send (rom e (serial e) (word e)) 0)) e).

(** The device addresses: 1010 for the EEPROM and 1011 for the serial number,
    two pins that are low, the page, and the direction. *)
Definition received (what : byte_kind) (b : Z) (e : i2c) : i2c :=
  match what with
  | DevByte =>
      let kind := Z.shiftr b 4 in
      if ((kind =? 10) || (kind =? 11)) && (Z.land (Z.shiftr b 2) 3 =? 0) then
        let e := set_serial (kind =? 11) e in
        if Z.testbit b 0 then send_next Ack e
        else set_word (if Z.testbit b 1 then 256 else 0) (set_ph (Ack (Recv WordByte 0 0)) e)
      else set_ph Quiet e
  | WordByte => set_word (word e / 256 * 256 + b) (set_ph (Ack (Recv DataByte 0 0)) e)
  | DataByte => set_ph Quiet e
  end.

(** At a falling clock. *)
Definition advance (e : i2c) : i2c :=
  match ph e with
  | Quiet => e
  | Started => set_ph (Recv DevByte 0 0) e
  | Recv what n acc =>
      let acc := 2 * acc + Z.b2z (bit e) in
      if (n <? 7)%nat then set_ph (Recv what (S n) acc) e else received what acc e
  | Ack next => set_ph next e
  | Send b n => set_ph (if (n <? 7)%nat then Send b (S n) else Listen) e
  | Listen => if bit e then set_ph Quiet e else send_next (fun p => p) e
  end.

(** The lines as the master drives them. *)
Definition wire (v : Z) (e : i2c) : i2c :=
  let c := Z.testbit v 1 in
  let d := Z.testbit v 0 in
  let e' := set_lines c d e in
  match scl e, c with
  | true, true =>
      match sda e && out (ph e), d && out (ph e) with
      | true, false => set_ph Started e'
      | false, true => set_ph Quiet e'
      | _, _ => e'
      end
  | false, true => set_bit (d && out (ph e)) e'
  | true, false => advance e'
  | false, false => e'
  end.

(** The master is connected when its bit in the register of the LEDs is low. *)
Definition connected (e : i2c) : bool := negb (Z.testbit (leds e) 10).

#[export] Instance i2c_nios : Nios i2c := {|
  nios_read cmd addr e :=
    (if negb (cmd =? HSSI_CTRL_CMD_AUX_RD) then 0
     else if addr =? HSSI_I2C_CTRL_AND_LEDS then leds e
     else if addr =? MAC_ID_I2C_DATA_INTERFACE then Z.b2z (sda e && out (ph e)) + 2 * Z.b2z (scl e)
     else 0, e);
  nios_write cmd addr data e :=
    if negb (cmd =? HSSI_CTRL_CMD_AUX_WR) then e
    else if addr =? HSSI_I2C_CTRL_AND_LEDS then set_leds data e
    else if (addr =? MAC_ID_I2C_DATA_INTERFACE) && connected e then wire data e
    else e;
|}.

Lemma advance_leds e : leds (advance e) = leds e.
Proof. unfold advance, received, send_next. by repeat case_match. Qed.
Lemma wire_leds v e : leds (wire v e) = leds e.
Proof. unfold wire. repeat case_match; rewrite ?advance_leds; done. Qed.
Lemma advance_rom e : rom (advance e) = rom e.
Proof. unfold advance, received, send_next. by repeat case_match. Qed.
Lemma wire_rom v e : rom (wire v e) = rom e.
Proof. unfold wire. repeat case_match; rewrite ?advance_rom; done. Qed.
Lemma wire_connected v e : connected (wire v e) = connected e.
Proof. unfold connected. by rewrite wire_leds. Qed.

(** ** Beats *)

Definition pulse (b : bool) (e : i2c) : i2c :=
  wire (Z.b2z b) (wire (Z.lor I2C_SCL (Z.b2z b)) (wire (Z.b2z b) e)).
Definition start_of (e : i2c) : i2c := wire 0 (wire 2 (wire 3 e)).
Definition stop_of (e : i2c) : i2c := wire 1 (wire 3 (wire 2 e)).

Lemma pulse_low b e :
  scl e = false ->
  pulse b e = advance (set_bit (b && out (ph e)) (set_lines false b e)).
Proof. intros Hs. unfold pulse, wire. destruct e; cbn in *; subst. by destruct b. Qed.

Section Beats.
Variable base : Z.
Variable latency : nat.
Hypothesis in_time : Z.of_nat latency <= 10000.
Abbreviation runs := (runs base latency).

Lemma runs_lines v e : 0 <= v < 4 -> connected e = true -> runs e (i2c_lines base v) 0 (wire v e).
Proof.
  intros Hv He. pose proof (runs_cmd_write base latency in_time e HSSI_CTRL_CMD_AUX_WR MAC_ID_I2C_DATA_INTERFACE v
    (or_intror eq_refl) ltac:(done) ltac:(lia)) as H.
  cbn [nios_write i2c_nios] in H. change (_ =? HSSI_CTRL_CMD_AUX_WR) with true in H.
  change (_ =? HSSI_I2C_CTRL_AND_LEDS) with false in H. rewrite Z.eqb_refl, He in H. exact H.
Qed.

Lemma runs_start e : connected e = true -> runs e (hssi_maci2c_start base) 0 (start_of e).
Proof.
  intros He. unfold hssi_maci2c_start. eapply runs_also; [apply runs_lines; [done|exact He]|].
  eapply runs_also; apply runs_lines; rewrite ?wire_connected; done.
Qed.
Lemma runs_stop e : connected e = true -> runs e (hssi_maci2c_stop base) 0 (stop_of e).
Proof.
  intros He. unfold hssi_maci2c_stop. eapply runs_also; [apply runs_lines; [done|exact He]|].
  eapply runs_also; apply runs_lines; rewrite ?wire_connected; done.
Qed.
Lemma runs_wrbeat b e : connected e = true -> runs e (hssi_maci2c_wrbeat base (Z.b2z b)) 0 (pulse b e).
Proof.
  intros He. unfold hssi_maci2c_wrbeat. replace (Z.land (Z.b2z b) I2C_SDA) with (Z.b2z b) by (by destruct b).
  eapply runs_also; [apply runs_lines; [destruct b; done|exact He]|].
  eapply runs_also; apply runs_lines; rewrite ?wire_connected; destruct b; done.
Qed.

(** The bit that is read is the device's. *)
Lemma runs_rdbeat e :
  connected e = true -> scl e = false ->
  runs e (hssi_maci2c_rdbeat base) (0, Z.b2z (out (ph e))) (pulse true e).
Proof.
  intros He Hs. unfold hssi_maci2c_rdbeat. eapply runs_also_value; [apply runs_lines; [done|exact He]|].
  eapply runs_also_value; [apply runs_lines; [done|by rewrite wire_connected]|].
  set (e2 := wire _ _). assert (connected e2 = true) as He2 by (unfold e2; by rewrite !wire_connected).
  assert (scl e2 = true /\ sda e2 = true /\ ph e2 = ph e) as (H1 & H2 & H3).
  { unfold e2, wire. destruct e; cbn in *; by subst. }
  eapply runs_value.
  - apply (runs_cmd_read base latency in_time e2 _ _ (Z.b2z (out (ph e)) + 2) e2); [done|done|done|].
    cbn [nios_read i2c_nios]. by rewrite H1, H2, H3.
  - eapply runs_bind; [apply runs_lines; [done|exact He2]|].
    replace (Z.land (u32 (Z.b2z (out (ph e)) + 2)) I2C_SDA) with (Z.b2z (out (ph e))) by (by destruct (out (ph e))).
    apply runs_ret.
Qed.
End Beats.

(** ** Bytes *)

Section Bytes.
Variable base : Z.
Variable latency : nat.
Hypothesis in_time : Z.of_nat latency <= 10000.
Variable R : bool -> Z -> Z.
Hypothesis R_bytes : forall a w, 0 <= R a w < 256.
Abbreviation runs := (runs base latency).

(** Between two beats: the clock is low, the device is in phase [p] with its
    address at [w] and the area [s]. *)
Definition at_bus (p : phase) (w : Z) (s : bool) (e : i2c) : Prop :=
  connected e = true /\ scl e = false /\ ph e = p /\ word e = w /\ serial e = s /\ rom e = R.

(** What [c] returns and leaves, from the states of [P]. *)
Definition leads {A} (P : i2c -> Prop) (c : K (hssi_dev i2c) A) (r : A) (Q : i2c -> Prop) : Prop :=
  forall e, P e -> exists e', runs e c r e' /\ Q e'.

Lemma leads_bind {A B} P (c : K _ A) (f : A -> K _ B) a Q b S :
  leads P c a Q -> leads Q (f a) b S -> leads P (kbind c f) b S.
Proof.
  intros H1 H2 e He. destruct (H1 e He) as (e1 & R1 & He1). destruct (H2 e1 He1) as (e2 & R2 & He2).
  exists e2. split; [|done]. by apply (runs_bind _ _ _ _ _ _ _ _ _ R1).
Qed.
Lemma leads_also P c k r Q S : leads P c 0 Q -> leads Q k r S -> leads P (also c k) r S.
Proof. intros H1 H2. by apply (leads_bind _ _ _ _ _ _ _ H1). Qed.
Lemma leads_also_value {A} P (a : A) c k r Q S : leads P c 0 Q -> leads Q k r S -> leads P (also_value a c k) r S.
Proof. intros H1 H2. by apply (leads_bind _ _ _ _ _ _ _ H1). Qed.
Lemma leads_ret {A} P (a : A) : leads P (kret a) a P.
Proof. intros e He. exists e. split; [apply runs_ret|done]. Qed.

Lemma leads_start p w s : out p = true -> leads (at_bus p w s) (hssi_maci2c_start base) 0 (at_bus (Recv DevByte 0 0) w s).
Proof.
  intros Ho e (Hc & Hs & <- & <- & <- & HR). eexists. split; [by apply runs_start|].
  unfold start_of. repeat (split; [rewrite ?wire_connected; done|]). destruct e. cbn in *. subst.
  unfold wire. cbn. by rewrite Ho.
Qed.
Lemma leads_stop p w s : out p = true -> leads (at_bus p w s) (hssi_maci2c_stop base) 0 (at_bus Quiet w s).
Proof.
  intros Ho e (Hc & Hs & <- & <- & <- & HR). eexists. split; [by apply runs_stop|].
  unfold stop_of. repeat (split; [rewrite ?wire_connected; done|]). destruct e. cbn in *. subst.
  unfold wire. cbn. by rewrite Ho.
Qed.

(** A bit that the device takes, and one that it sends. *)
Lemma pulse_connected b e : connected (pulse b e) = connected e.
Proof. unfold pulse. by rewrite !wire_connected. Qed.

Lemma recv_bit what n acc w s b :
  (n < 7)%nat ->
  leads (at_bus (Recv what n acc) w s) (hssi_maci2c_wrbeat base (Z.b2z b)) 0
    (at_bus (Recv what (S n) (2 * acc + Z.b2z b)) w s).
Proof.
  intros Hn e (Hc & Hs & Hp & <- & <- & HR). eexists. split; [by apply runs_wrbeat|].
  split; [by rewrite pulse_connected|]. rewrite pulse_low by done.
  unfold advance. cbn [ph set_bit set_lines]. rewrite Hp. cbn [bit set_bit set_lines out].
  rewrite (proj2 (Nat.ltb_lt _ _) Hn), andb_true_r. done.
Qed.

Lemma send_bit b n w s :
  (n < 8)%nat ->
  leads (at_bus (Send b n) w s) (hssi_maci2c_rdbeat base) (0, Z.b2z (Z.testbit b (7 - Z.of_nat n)))
    (at_bus (if (n <? 7)%nat then Send b (S n) else Listen) w s).
Proof.
  intros Hn e (Hc & Hs & Hp & <- & <- & HR). eexists. split.
  - pose proof (runs_rdbeat base latency in_time e Hc Hs) as H. rewrite Hp in H. exact H.
  - split; [by rewrite pulse_connected|]. rewrite pulse_low by done.
    unfold advance. cbn [ph set_bit set_lines]. rewrite Hp. done.
Qed.

(** The device's acknowledge. *)
Lemma ack_bit p w s : leads (at_bus (Ack p) w s) (hssi_maci2c_rdbeat base) (0, 0) (at_bus p w s).
Proof.
  intros e (Hc & Hs & Hp & <- & <- & HR). eexists. split.
  - pose proof (runs_rdbeat base latency in_time e Hc Hs) as H. rewrite Hp in H. exact H.
  - split; [by rewrite pulse_connected|]. rewrite pulse_low by done.
    unfold advance. cbn [ph set_bit set_lines]. rewrite Hp. done.
Qed.

(** The master's: the next byte follows. *)
Lemma ack_byte w s :
  leads (at_bus Listen w s) (hssi_maci2c_wrbeat base 0) 0 (at_bus (Send (R s w) 0) ((w + 1) mod 512) s).
Proof.
  intros e (Hc & Hs & Hp & <- & <- & HR). eexists. split; [by apply (runs_wrbeat base latency in_time false)|].
  split; [by rewrite pulse_connected|]. rewrite pulse_low by done.
  unfold advance. cbn [ph set_bit set_lines]. rewrite Hp. cbn. by rewrite HR.
Qed.

(** The bits of a byte as one number. *)
Lemma mod_split b i : b mod 2 ^ Z.of_nat (S i) = Z.b2z (Z.testbit b (Z.of_nat i)) * 2 ^ Z.of_nat i + b mod 2 ^ Z.of_nat i.
Proof.
  replace (Z.of_nat (S i)) with (Z.of_nat i + 1) by lia. rewrite Z.pow_add_r by lia. change (2 ^ 1) with 2.
  rewrite Z.rem_mul_r by lia. rewrite Z.testbit_spec' by lia. ring.
Qed.

(** The device takes the last [S i] bits of a byte. *)
Lemma recv_bits i what n acc w s byte (Q : i2c -> Prop) :
  (n + S i = 8)%nat ->
  (forall e, at_bus (ph e) w s e -> Q (received what (acc * 2 ^ Z.of_nat (S i) + byte mod 2 ^ Z.of_nat (S i)) e)) ->
  leads (at_bus (Recv what n acc) w s) (wrbits base (S i) byte) 0 Q.
Proof.
  revert n acc. induction i as [|i IH]; intros n acc Hn HQ; cbn [wrbits].
  - assert (n = 7)%nat as -> by lia. rewrite Z.shiftr_0_r. change (Z.of_nat 0) with 0.
    change (2 ^ Z.of_nat 1) with 2 in HQ.
    intros e (Hc & Hs & Hp & <- & <- & HR). exists (pulse (Z.testbit byte 0) e). split.
    + assert (Z.land (Z.shiftr byte 0) I2C_SDA = Z.b2z (Z.testbit byte 0)) as E.
      { rewrite Z.shiftr_0_r. change I2C_SDA with (Z.ones 1). rewrite Z.land_ones by lia. change (2 ^ 1) with 2.
        by rewrite <- Z.bit0_mod. }
      rewrite Z.shiftr_0_r in E. rewrite E.
      eapply runs_also; [by apply runs_wrbeat|apply runs_ret].
    + rewrite pulse_low by done. unfold advance. cbn [ph set_bit set_lines]. rewrite Hp.
      cbn [bit set_bit set_lines out Nat.ltb Nat.leb]. rewrite andb_true_r.
      rewrite <- (Z.bit0_mod byte) in HQ. replace (2 * acc) with (acc * 2) by ring. apply HQ. by split_and!.
  - assert (Z.land (Z.shiftr byte (Z.of_nat (S i))) I2C_SDA = Z.b2z (Z.testbit byte (Z.of_nat (S i)))) as ->.
    { change I2C_SDA with (Z.ones 1). rewrite Z.land_ones, Z.shiftr_div_pow2 by lia. change (2 ^ 1) with 2.
      by rewrite Z.testbit_spec' by lia. }
    eapply leads_also; [apply recv_bit; lia|]. apply IH; [lia|]. intros e He.
    specialize (HQ e He). rewrite (mod_split byte (S i)) in HQ.
    replace ((2 * acc + Z.b2z (Z.testbit byte (Z.of_nat (S i)))) * 2 ^ Z.of_nat (S i)) with
      (acc * 2 ^ Z.of_nat (S (S i)) + Z.b2z (Z.testbit byte (Z.of_nat (S i))) * 2 ^ Z.of_nat (S i)).
    { by rewrite <- Z.add_assoc. }
    replace (Z.of_nat (S (S i))) with (1 + Z.of_nat (S i)) by lia. rewrite Z.pow_add_r by lia. ring.
Qed.

Lemma recv_byte what w s byte (Q : i2c -> Prop) :
  0 <= byte < 256 ->
  (forall e, at_bus (ph e) w s e -> Q (received what byte e)) ->
  leads (at_bus (Recv what 0 0) w s) (hssi_maci2c_wrbyte base byte) 0 Q.
Proof.
  intros Hb HQ. unfold hssi_maci2c_wrbyte. replace (u8 byte) with byte by (symmetry; by apply wrap_small).
  apply recv_bits; [done|]. intros e He. change (2 ^ Z.of_nat 8) with 256. rewrite Z.mul_0_l, Z.add_0_l.
  rewrite Z.mod_small by done. by apply HQ.
Qed.

(** The master reads the last [S i] bits of a byte. *)
Lemma send_bits i b n w s acc :
  (n + S i = 8)%nat -> 0 <= b ->
  leads (at_bus (Send b n) w s) (rdbits base (S i) acc) (0, Z.lor acc (Z.land b (Z.ones (Z.of_nat (S i)))))
    (at_bus Listen w s).
Proof.
  intros Hn Hb. revert n acc Hn. induction i as [|i IH]; intros n acc Hn; cbn [rdbits].
  - assert (n = 7)%nat as -> by lia. eapply leads_bind; [apply send_bit; lia|]. cbn [fst snd].
    change (istrue 0) with false. cbv iota. change (7 - Z.of_nat 7) with 0. change (Z.of_nat 0) with 0.
    rewrite Z.shiftl_0_r. rewrite Z.land_ones by lia. change (2 ^ Z.of_nat 1) with 2. rewrite <- Z.bit0_mod.
    apply leads_ret.
  - eapply leads_bind; [apply send_bit; lia|]. cbn [fst snd]. change (istrue 0) with false. cbv iota.
    replace (n <? 7)%nat with true by (symmetry; apply Nat.ltb_lt; lia).
    replace (7 - Z.of_nat n) with (Z.of_nat (S i)) by lia.
    replace (Z.lor acc (Z.land b (Z.ones (Z.of_nat (S (S i)))))) with
      (Z.lor (Z.lor acc (Z.shiftl (Z.b2z (Z.testbit b (Z.of_nat (S i)))) (Z.of_nat (S i))))
         (Z.land b (Z.ones (Z.of_nat (S i))))); [apply IH; lia|].
    rewrite <- Z.lor_assoc. f_equal. apply Z.bits_inj'. intros k Hk.
    rewrite Z.lor_spec, !Z.land_spec, Z.shiftl_spec, !Z.testbit_ones_nonneg by lia.
    destruct (Z.lt_trichotomy k (Z.of_nat (S i))) as [Hlt|[->|Hgt]].
    + rewrite Z.testbit_neg_r by lia. by rewrite !(proj2 (Z.ltb_lt _ _)) by lia.
    + rewrite Z.sub_diag, Z.b2z_bit0, Z.ltb_irrefl. rewrite (proj2 (Z.ltb_lt _ _)) by lia.
      by rewrite andb_true_r, andb_false_r, orb_false_r.
    + rewrite !(proj2 (Z.ltb_ge _ _)) by lia. rewrite !andb_false_r, orb_false_r.
      apply Z.bits_above_log2; [destruct (Z.testbit b _); cbn; lia|]. destruct (Z.testbit b _); cbn; lia.
Qed.

Lemma send_byte b w s :
  0 <= b < 256 -> leads (at_bus (Send b 0) w s) (hssi_maci2c_rdbyte base) (0, b) (at_bus Listen w s).
Proof.
  intros Hb. pose proof (send_bits 7 b 0 w s 0 eq_refl ltac:(lia)) as H.
  rewrite Z.lor_0_l, Z.land_ones in H by lia. change (2 ^ Z.of_nat 8) with 256 in H. by rewrite Z.mod_small in H.
Qed.
End Bytes.
