(* ===== verification/HssiSpec.v ===== *)
(** * Theorems about the HSSI controller (intel-fpga-pac-hssi.c)

    The files board_id and eeprom hold what the EEPROM holds, whatever it was
    in the middle of when the driver began; and against anything behind the
    registers the stores end and free the mutex. *)

From S2P Require Import Prelude.
From S2P Require Import Mmio.
From S2P Require Import Loops.
From S2P Require Import Poll.
From S2P Require Import Sysfs.
From S2P Require Import Hssi.
From S2P Require Import HssiAttrs.
From S2P Require Import HssiMailbox.
From S2P Require Import HssiI2c.
Local Open Scope list_scope.
Local Open Scope Z_scope.

(** ** Reading the EEPROM *)

Section Eeprom.
Variable base : Z.
Variable latency : nat.
Hypothesis in_time : Z.of_nat latency <= 10000.
Variable R : bool -> Z -> Z.
Hypothesis R_bytes : forall a w, 0 <= R a w < 256.
Abbreviation runs := (runs base latency).
Abbreviation leads := (leads base latency).
Abbreviation at_bus := (at_bus R).

Lemma leads_acked {p what w s w' s' byte k r Q} :
  0 <= byte < 256 ->
  (forall e, at_bus (ph e) w s e -> at_bus (Ack p) w' s' (received what byte e)) ->
  leads (at_bus p w' s') k r Q ->
  leads (at_bus (Recv what 0 0) w s) (wrbyte_acked base byte k) r Q.
Proof.
  intros Hb Hr Hk. unfold wrbyte_acked.
  eapply leads_also_value; [apply (recv_byte base latency in_time R _ _ _ _ _ Hb Hr)|].
  eapply leads_bind; [apply (ack_bit base latency in_time)|]. exact Hk.
Qed.

(** The addresses the driver uses. *)
Definition area (device : Z) : bool := device =? I2C_SERIAL_NUMBER_DEV.
Definition known (device : Z) : Prop := device = I2C_EEPROM_DEV \/ device = I2C_SERIAL_NUMBER_DEV.

Lemma write_address device w s e :
  known device -> at_bus (ph e) w s e ->
  at_bus (Ack (Recv WordByte 0 0)) 0 (area device) (received DevByte (Z.land device I2C_DEVADDR_MASK) e).
Proof. intros [-> | ->] (? & ? & _ & _ & _ & ?); by split_and!. Qed.

Lemma read_address device w s e :
  known device -> at_bus (ph e) w s e ->
  at_bus (Ack (Send (R (area device) w) 0)) ((w + 1) mod 512) (area device)
    (received DevByte (Z.lor (Z.land device I2C_DEVADDR_MASK) I2C_DEVICE_READ) e).
Proof.
  intros [-> | ->] (? & ? & _ & <- & _ & HR); split_and!; try done; by rewrite <- HR.
Qed.

Lemma word_address addr s e :
  0 <= addr < 256 -> at_bus (ph e) 0 s e ->
  at_bus (Ack (Recv DataByte 0 0)) addr s (received WordByte addr e).
Proof. intros Ha (? & ? & _ & Hw & ? & ?). split_and!; try done. cbn. by rewrite Hw. Qed.

(** [n] bytes of an area, from address [a] on. *)
Definition rom_bytes (s : bool) (a : Z) (n : nat) : list Z := map (fun i => R s ((a + Z.of_nat i) mod 512)) (seq 0 n).

Lemma rom_bytes_S s a n : rom_bytes s a (S n) = R s (a mod 512) :: rom_bytes s (a + 1) n.
Proof.
  unfold rom_bytes. cbn [seq map]. rewrite Z.add_0_r. f_equal. rewrite <- seq_shift, map_map.
  apply map_ext. intros i. f_equal. f_equal. lia.
Qed.

Lemma leads_rdbytes n a s buf :
  leads (at_bus (Send (R s (a mod 512)) 0) ((a + 1) mod 512) s) (rdbytes base (S n) buf)
    (0, buf ++ rom_bytes s a (S n)) (fun e => exists w, at_bus Listen w s e).
Proof.
  revert a buf. induction n as [|n IH]; intros a buf; cbn [rdbytes].
  - eapply leads_bind; [by apply (send_byte base latency in_time)|]. cbn [fst snd].
    intros e He. exists e. split; [|by eexists]. rewrite rom_bytes_S. apply runs_ret.
  - eapply leads_bind; [by apply (send_byte base latency in_time)|]. cbn [fst snd]. change (istrue 0) with false. cbv iota.
    eapply leads_bind; [apply (ack_byte base latency in_time)|]. change (istrue 0) with false. cbv iota.
    specialize (IH (a + 1) (buf ++ [R s (a mod 512)])). rewrite <- app_assoc in IH.
    rewrite (rom_bytes_S s a (S n)), Z.add_mod_idemp_l by lia. exact IH.
Qed.

Lemma leads_read_dev device addr n w s :
  known device -> 0 <= addr < 256 -> Z.land addr I2C_DEVADDR_MASK = addr ->
  leads (at_bus Quiet w s) (hssi_maci2c_read_dev base device addr (Z.of_nat (S n)))
    (0, rom_bytes (area device) addr (S n)) (fun e => exists w', at_bus Quiet w' (area device) e).
Proof.
  intros Hk Ha Hmask. unfold hssi_maci2c_read_dev. rewrite Hmask, Nat2Z.id.
  eapply leads_also_value; [by apply (leads_start base latency in_time R)|].
  eapply leads_acked; [by destruct Hk; subst|intros e He; by eapply write_address|].
  eapply leads_acked; [done|intros e He; by apply word_address|].
  eapply leads_also_value; [by apply (leads_stop base latency in_time R)|].
  eapply leads_also_value; [by apply (leads_start base latency in_time R)|].
  eapply leads_acked; [by destruct Hk; subst|intros e He; by eapply read_address|].
  assert (addr mod 512 = addr) as Emod by (apply Z.mod_small; lia). rewrite <- Emod at 1.
  eapply leads_bind; [apply leads_rdbytes|]. cbn [fst snd app]. change (istrue 0) with false. cbv iota.
  intros e (w' & He). destruct (leads_stop base latency in_time R Listen w' (area device) eq_refl e He) as (e' & R' & He').
  exists e'. split; [|by exists w']. eapply runs_bind; [exact R'|]. apply runs_ret.
Qed.

(** ** Reset *)

(** The phases of a device, whatever it was told before. *)
Definition phase_ok (p : phase) : Prop :=
  match p with
  | Recv _ n _ | Send _ n => (n < 8)%nat
  | Ack (Recv WordByte O _) | Ack (Recv DataByte O _) | Ack (Send _ O) => True
  | Ack _ => False
  | _ => True
  end.

(** The phases that the start of a reset can lead to. *)
Definition after_start (p : phase) : Prop :=
  match p with
  | Recv DevByte n acc => n = O /\ acc = 0
  | Recv _ n _ => n = O
  | Send _ n => (n < 8)%nat
  | Listen => True
  | _ => False
  end.

(** The lines are released, and the device may see a stop. *)
Lemma release_any e :
  phase_ok (ph e) ->
  scl (wire 3 e) = true /\ sda (wire 3 e) = true /\ phase_ok (ph (wire 3 e)).
Proof. intros Hp. unfold wire. cbn. by destruct (scl e), (sda e), (out (ph e)). Qed.

Lemma start_any e : phase_ok (ph e) -> scl (start_of e) = false /\ after_start (ph (start_of e)).
Proof.
  intros Hp. unfold start_of. destruct (release_any e Hp) as (Hc & Hd & Hp1). set (e1 := wire 3 e) in *.
  assert (wire 2 e1 = if out (ph e1) then set_ph Started (set_lines true false e1) else set_lines true false e1) as ->.
  { unfold wire. cbn. rewrite Hc, Hd. by destruct (out (ph e1)). }
  destruct (out (ph e1)) eqn:Eo; [done|]. unfold wire. cbn. unfold advance. cbn.
  destruct (ph e1) as [| |what n acc|[| |what n acc|next|v n|]|v n|]; cbn in *; try done.
  - by destruct what, n.
  - destruct n as [|n]; [|done]. split; [done|]. cbn. lia.
  - split; [done|]. do 8 (destruct n as [|n]; [cbn; lia|]). lia.
Qed.

(** Nine clocks later it does not pull the line. *)
Definition clocks (n : nat) (e : i2c) : i2c := Nat.iter n (pulse true) e.

Lemma nine_clocks e :
  scl e = false -> after_start (ph e) ->
  scl (clocks 9 e) = false /\ out (ph (clocks 9 e)) = true.
Proof.
  intros Hs Hp. destruct e as [lv c d p b w s r]. cbn in Hs, Hp. subst c.
  destruct p as [| |[] n acc|next|v n|]; cbn in Hp; try done.
  - destruct Hp as [-> ->]. by vm_compute.
  - subst n. by vm_compute.
  - subst n. by vm_compute.
  - do 8 (destruct n as [|n]; [by vm_compute|]). lia.
Qed.

(** ** The files *)

(** The state of the bus between two uses of the driver. *)
Definition bus_ok (e : i2c) : Prop := phase_ok (ph e) /\ rom e = R.

Lemma start_rom e : rom (start_of e) = rom e.
Proof. unfold start_of. by rewrite !wire_rom. Qed.
Lemma start_connected e : connected (start_of e) = connected e.
Proof. unfold start_of. by rewrite !wire_connected. Qed.

Lemma runs_rdbeats n e :
  connected e = true -> scl e = false ->
  runs e (rdbeats base n) 0 (clocks n e) /\ connected (clocks n e) = true /\ rom (clocks n e) = rom e.
Proof.
  revert e. induction n as [|n IH]; intros e Hc Hs; [split_and!; [apply runs_ret|done|done]|].
  unfold clocks. rewrite Nat.iter_succ_r. fold (clocks n (pulse true e)). cbn [rdbeats].
  assert (scl (pulse true e) = false) as Hs'.
  { rewrite pulse_low by done. unfold advance, received, send_next. by repeat case_match. }
  destruct (IH (pulse true e)) as (R1 & C1 & E1); [by rewrite pulse_connected|done|].
  split_and!; [|done|].
  - eapply runs_use; [by apply runs_rdbeat|exact R1].
  - rewrite E1. unfold pulse. by rewrite !wire_rom.
Qed.

Lemma leads_reset :
  leads (fun e => connected e = true /\ bus_ok e) (hssi_maci2c_reset base) 0 (fun e => exists w s, at_bus Quiet w s e).
Proof.
  intros e (Hc & Hp & HR). destruct (start_any e Hp) as [Hs Ha].
  destruct (runs_rdbeats 9 (start_of e)) as (R2 & C2 & E2); [by rewrite start_connected|done|].
  destruct (nine_clocks _ Hs Ha) as [Hs2 Ho]. rewrite start_rom in E2.
  assert (at_bus (ph (clocks 9 (start_of e))) (word (clocks 9 (start_of e))) (serial (clocks 9 (start_of e)))
    (clocks 9 (start_of e))) as H2 by (split_and!; congruence).
  destruct (leads_start base latency in_time R _ _ _ Ho _ H2) as (e3 & R3 & H3).
  destruct (leads_stop base latency in_time R (Recv DevByte 0 0) _ _ eq_refl _ H3) as (e4 & R4 & H4).
  exists e4. split; [|by eexists _, _]. unfold hssi_maci2c_reset.
  eapply runs_also; [by apply runs_start|]. eapply runs_also; [exact R2|]. by eapply runs_also.
Qed.

Lemma runs_read_leds e : runs e (hssi_cmd_read base HSSI_CTRL_CMD_AUX_RD HSSI_I2C_CTRL_AND_LEDS) (0, u32 (leds e)) e.
Proof. by apply (runs_cmd_read base latency in_time e). Qed.
Lemma runs_write_leds v e :
  0 <= v < 2 ^ 32 -> runs e (hssi_cmd_write base HSSI_CTRL_CMD_AUX_WR HSSI_I2C_CTRL_AND_LEDS v) 0 (set_leds v e).
Proof.
  intros Hv. exact (runs_cmd_write base latency in_time e HSSI_CTRL_CMD_AUX_WR HSSI_I2C_CTRL_AND_LEDS v
    (or_intror eq_refl) ltac:(done) Hv).
Qed.

Lemma leads_enable :
  leads bus_ok (hssi_i2c_enable base) 0 (fun e => connected e = true /\ bus_ok e).
Proof.
  intros e (Hp & HR). pose proof (ldiff_range (u32 (leds e)) FPGA_I2C_MASTER_L 32 ltac:(lia)
    (wrap_range 32 (leds e) ltac:(lia))) as Hr.
  eexists. split; [eapply runs_use; [by apply runs_read_leds|by apply runs_write_leds]|].
  split; [|by split]. unfold connected. cbn [leds set_leds]. rewrite Z.ldiff_spec.
  change (Z.testbit FPGA_I2C_MASTER_L 10) with true. by rewrite andb_false_r.
Qed.

Lemma leads_disable w s : leads (at_bus Quiet w s) (hssi_i2c_disable base) 0 bus_ok.
Proof.
  intros e (Hc & Hs & Hp & _ & _ & HR). unfold hssi_i2c_disable.
  assert (wire 3 e = set_bit true (set_lines true true e)) as E.
  { unfold wire. cbn. by rewrite Hs, Hp. }
  eexists. split.
  - eapply runs_also; [by apply (runs_lines base latency in_time 3)|]. rewrite E.
    eapply runs_use; [by apply runs_read_leds|]. apply runs_write_leds.
    apply lor_range; [done|apply wrap_range; lia|done].
  - split; [|done]. cbn [ph set_leds set_bit set_lines]. by rewrite Hp.
Qed.

Lemma leads_fetch device addr n :
  known device -> 0 <= addr < 256 -> Z.land addr I2C_DEVADDR_MASK = addr ->
  leads bus_ok (fetch base device addr (Z.of_nat (S n))) (0, rom_bytes (area device) addr (S n)) bus_ok.
Proof.
  intros Hk Ha Hm. unfold fetch. eapply leads_bind; [apply leads_enable|].
  eapply leads_bind; [|].
  - eapply leads_also_value; [apply leads_reset|]. intros e (w & s & He).
    apply (leads_read_dev device addr n w s Hk Ha Hm e He).
  - intros e (w & He). destruct (leads_disable w _ e He) as (e' & R' & He'). exists e'. split; [|done].
    eapply runs_bind; [exact R'|apply runs_ret].
Qed.

(** What the files show. *)
Definition serial_bytes : list Z := rom_bytes true I2C_SERIAL_WORD_OFFSET (Z.to_nat I2C_SERIAL_NUMBER_LEN).
Definition eeprom_bytes : list Z := rom_bytes false 0 (Z.to_nat I2C_EEPROM_LEN).

(** The mutex is free, the controller is ready in front of the EEPROM, and what
    is marked as cached is what the EEPROM holds. *)
Record hssi_ok (h : pac_hssi (hssi_dev i2c)) : Prop := {
  ok_mutex : bus_mutex h = Some false;
  ok_dev : exists e, ready base latency e (hdev h) /\ bus_ok e;
  ok_serial : Z.of_nat (length (serial_number h)) = I2C_SERIAL_NUMBER_LEN;
  ok_eeprom : Z.of_nat (length (eeprom h)) = I2C_EEPROM_LEN;
  ok_serial_cached : istrue (Z.land (data_flags h) HSSI_DATA_SERIAL) = true -> serial_number h = serial_bytes;
  ok_eeprom_cached : istrue (Z.land (data_flags h) HSSI_DATA_EEPROM) = true -> eeprom h = eeprom_bytes;
}.

(** One use of the bus under the mutex. *)
Lemma fetch_run device addr n h e :
  known device -> 0 <= addr < 256 -> Z.land addr I2C_DEVADDR_MASK = addr -> ready base latency e (hdev h) -> bus_ok e ->
  exists d e', on_hdev (fetch base device addr (Z.of_nat (S n))) h =
      Some ((0, rom_bytes (area device) addr (S n)), set_hdev d h) /\ ready base latency e' d /\ bus_ok e'.
Proof.
  intros Hk Ha Hm Hr He. destruct (leads_fetch device addr n Hk Ha Hm e He) as (e' & R1 & He').
  destruct (R1 (hdev h) Hr) as (d & Hd & Hr'). exists d, e'. split; [|done]. unfold on_hdev, zoom. by rewrite Hd.
Qed.


(** C10: the files show the EEPROM.  In front of an AT24CS EEPROM on the two
    I2C lines, behind a processor that answers within the driver's timeout,
    and whatever transfer the EEPROM was in the middle of, board_id shows the
    16 bytes of the serial number and eeprom the 512 bytes of the memory.  The
    mutex is free again, the next read shows the same, from the driver's cache
    or from the bus, in whatever order the files are read. *)
Theorem board_files_show_eeprom h :
  hssi_ok h ->
  (exists h', board_id_show base h = Some (inr serial_bytes, h') /\ hssi_ok h') /\
  (exists h', eeprom_show base h = Some (inr eeprom_bytes, h') /\ hssi_ok h').
Proof.
  intros [Hm (e & Hr & He) Hs Hl Hcs Hce]. split.
  - unfold board_id_show. rewrite (kbind_run _ _ _ _ _ (hssi_lock_run h Hm)), (kbind_run kget _ _ _ _ eq_refl).
    set (h1 := set_bus_mutex (Some true) h). change (data_flags h1) with (data_flags h).
    destruct (istrue (Z.land (data_flags h) HSSI_DATA_SERIAL)) eqn:Ef; cbn [negb].
    + rewrite (kbind_run _ _ _ _ _ (hssi_unlock_run h1 eq_refl)). unfold kgets. cbn [serial_number set_bus_mutex h1].
      rewrite (Hcs eq_refl). eexists. split; [reflexivity|]. split; try done; [by exists e|intros _; by apply Hcs].
    + destruct (fetch_run I2C_SERIAL_NUMBER_DEV I2C_SERIAL_WORD_OFFSET 15 h1 e) as (d & e' & Hd & Hr' & He');
        [by right|done|done|done|done|]. rewrite (kbind_run _ _ _ _ _ Hd).
      rewrite (kbind_run (kmod _) _ _ tt _ eq_refl). cbn [fst snd]. change (istrue 0) with false. cbv iota.
      rewrite (kbind_run (kmod _) _ _ tt _ eq_refl).
      erewrite (kbind_run hssi_unlock); [|apply hssi_unlock_run; reflexivity].
      rewrite drop_ge by (unfold rom_bytes; rewrite length_map, length_seq; unfold I2C_SERIAL_NUMBER_LEN in Hs; cbn [serial_number set_hdev h1 set_bus_mutex]; lia).
      rewrite app_nil_r. unfold kgets.
      eexists. split; [reflexivity|]. split; try done; cbn [data_flags set_bus_mutex set_data_flags set_serial_number set_hdev h1 hdev].
      * by exists e'.
      * rewrite Z.land_lor_distr_l. change (Z.land HSSI_DATA_SERIAL HSSI_DATA_EEPROM) with 0. by rewrite Z.lor_0_r.
  - unfold eeprom_show. rewrite (kbind_run _ _ _ _ _ (hssi_lock_run h Hm)), (kbind_run kget _ _ _ _ eq_refl).
    set (h1 := set_bus_mutex (Some true) h). change (data_flags h1) with (data_flags h).
    destruct (istrue (Z.land (data_flags h) HSSI_DATA_EEPROM)) eqn:Ef; cbn [negb].
    + rewrite (kbind_run _ _ _ _ _ (hssi_unlock_run h1 eq_refl)). unfold kgets. cbn [eeprom set_bus_mutex h1].
      rewrite (Hce eq_refl). eexists. split; [reflexivity|]. split; try done; [by exists e|intros _; by apply Hce].
    + destruct (fetch_run I2C_EEPROM_DEV 0 511 h1 e) as (d & e' & Hd & Hr' & He');
        [by left|done|done|done|done|]. rewrite (kbind_run _ _ _ _ _ Hd).
      rewrite (kbind_run (kmod _) _ _ tt _ eq_refl). cbn [fst snd]. change (istrue 0) with false. cbv iota.
      rewrite (kbind_run (kmod _) _ _ tt _ eq_refl).
      erewrite (kbind_run hssi_unlock); [|apply hssi_unlock_run; reflexivity].
      rewrite drop_ge by (unfold rom_bytes; rewrite length_map, length_seq; unfold I2C_EEPROM_LEN in Hl;
        cbn [eeprom set_hdev h1 set_bus_mutex]; lia).
      rewrite app_nil_r. unfold kgets.
      eexists. split; [reflexivity|]. split; try done; cbn [data_flags set_bus_mutex set_data_flags set_eeprom set_hdev h1 hdev].
      * by exists e'.
      * rewrite Z.land_lor_distr_l. change (Z.land HSSI_DATA_EEPROM HSSI_DATA_SERIAL) with 0. by rewrite Z.lor_0_r.
Qed.
End Eeprom.

Definition demo_rom (s : bool) (w : Z) : Z := (7 * w + (if s then 3 else 0)) mod 256.
(** The EEPROM is sending when the driver begins. *)
Definition demo_hssi : pac_hssi (hssi_dev i2c) :=
  PacHssi (HssiDev 0x5000 (I2c 0 true true (Send 0 3) false 17 false demo_rom) 0 0 None 3 0)
    (Some false) (repeat 0 512) (repeat 0 16) 0 true true true.

Lemma board_files_show_eeprom_witness :
  (exists h', board_id_show 0x5000 demo_hssi = Some (inr (serial_bytes demo_rom), h') /\ hssi_ok 0x5000 3 demo_rom h') /\
  (exists h', eeprom_show 0x5000 demo_hssi = Some (inr (eeprom_bytes demo_rom), h') /\ hssi_ok 0x5000 3 demo_rom h').
Proof.
  apply (board_files_show_eeprom 0x5000 3).
  - lia.
  - intros s w. apply Z.mod_pos_bound. lia.
  - split; try done. eexists. split; [by split|]. split; [|done]. simpl. lia.
Defined.
