(* ===== verification/HssiReturns.v ===== *)
(** * The HSSI files always return

    Against anything behind the registers, with a clock that advances, every
    command of the HSSI driver ends in 0 or a timeout, and so does every file:
    the wait for an acknowledge and the wait for the adaptation are bounded.
    The mutex is free again, except after one error of dfe_kickstart_show. *)

From S2P Require Import Prelude.
From S2P Require Import Bitfield.
From S2P Require Import Mmio.
From S2P Require Import Loops.
From S2P Require Import Poll.
From S2P Require Import Sysfs.
From S2P Require Import Hssi.
From S2P Require Import HssiAttrs.
Local Open Scope string_scope.
Local Open Scope list_scope.
Local Open Scope Z_scope.

(** What a command may return. *)
Definition cmd_code (err : Z) : Prop := err = 0 \/ err = - ETIMEDOUT.

Section Returns.
Context {D : Type} {dev : Mmio D} {clock : Clock D} {ok : ClockOk D} {ks : Kstrto}.
Variable env : hssi_env.
Variable base : Z.

(** The commands of the device, of which nothing is known. *)
Definition cmd {A} (c : K D A) (R : A -> Prop) : Prop := returns (fun _ => True) c R.
Abbreviation cmd_err c := (cmd c cmd_code).
Abbreviation cmd_value c := (cmd c (fun r => cmd_code (fst r))).

Lemma cmd_bind {A B} (c : K D A) (f : A -> K D B) R Q : cmd c R -> (forall a, R a -> cmd (f a) Q) -> cmd (kbind c f) Q.
Proof. apply returns_bind. Qed.
Lemma cmd_ret {A} (a : A) (R : A -> Prop) : R a -> cmd (kret a) R.
Proof. apply returns_ret. Qed.
Lemma cmd_ok : cmd_err (kret 0).
Proof. apply cmd_ret. by left. Qed.
Lemma cmd_also c k : cmd_err c -> cmd_err k -> cmd_err (also c k).
Proof. intros Hc Hk. eapply cmd_bind; [exact Hc|]. intros e He. destruct (istrue e); [by apply cmd_ret|done]. Qed.
Lemma cmd_also_value {A} (a : A) c k : cmd_err c -> cmd_value k -> cmd_value (also_value a c k).
Proof. intros Hc Hk. eapply cmd_bind; [exact Hc|]. intros e He. destruct (istrue e); [by apply cmd_ret|done]. Qed.
Lemma cmd_use {A} (c : K D (Z * A)) k : cmd_value c -> (forall v, cmd_err (k v)) -> cmd_err (use c k).
Proof. intros Hc Hk. eapply cmd_bind; [exact Hc|]. intros e He. destruct (istrue _); [by apply cmd_ret|done]. Qed.
Lemma cmd_val {A} (a : A) c k : cmd_value c -> (forall v, cmd_value (k v)) -> cmd_value (value a c k).
Proof. intros Hc Hk. eapply cmd_bind; [exact Hc|]. intros e He. destruct (istrue _); [by apply cmd_ret|done]. Qed.
Lemma cmd_msleep ms : cmd (msleep ms) (fun _ => True).
Proof. intros d _. by eexists _, _. Qed.
Lemma cmd_sleep_then ms k : cmd_err k -> cmd_err (msleep ms ;; k).
Proof. intros Hk. eapply cmd_bind; [apply cmd_msleep|]. by intros _ _. Qed.

Create HintDb hssi discriminated.
Hint Constants Opaque : hssi.
Hint Resolve cmd_ok cmd_also cmd_also_value cmd_use cmd_val cmd_msleep cmd_sleep_then : hssi.

(** ** Commands *)

Lemma cmd_ctrl_write c a v : cmd (hssi_eth_ctrl_write base c a v) (fun _ => True).
Proof. intros d _. by eexists _, _. Qed.

Lemma readq_pair a (d : D) : readq a d = Some (fst (dev_readq a d), snd (dev_readq a d)).
Proof. unfold readq. f_equal. apply surjective_pairing. Qed.

Lemma cmd_await a : cmd_err (hssi_await_ack_state base a).
Proof.
  unfold hssi_await_ack_state. eapply returns_bind.
  - apply poll_returns; [done|done| | |].
    + intros d v d' E. rewrite readq_pair in E. injection E as <- <-. apply readq_time.
    + intros d _. rewrite readq_pair. by eexists _, _.
    + intros lo hi d H _. split; [done|]. by apply usleep_time.
  - intros r _. apply cmd_ret. destruct (_ =? a); [by left|by right].
Qed.

Lemma cmd_stat_data : cmd (hssi_eth_stat_data_read base) (fun _ => True).
Proof.
  unfold hssi_eth_stat_data_read. apply (cmd_bind _ _ (fun _ => True)); [|intros v _; by apply cmd_ret].
  intros d _. rewrite readq_pair. by eexists _, _.
Qed.

Lemma cmd_write c a v : cmd_err (hssi_cmd_write base c a v).
Proof.
  unfold hssi_cmd_write. eapply cmd_bind; [apply cmd_ctrl_write|]. intros _ _.
  apply cmd_also; [apply cmd_await|]. eapply cmd_bind; [apply cmd_ctrl_write|]. intros _ _. apply cmd_await.
Qed.
Lemma cmd_read c a : cmd_value (hssi_cmd_read base c a).
Proof.
  unfold hssi_cmd_read. eapply cmd_bind; [apply cmd_ctrl_write|]. intros _ _.
  apply cmd_also_value; [apply cmd_await|]. eapply cmd_bind; [apply cmd_stat_data|]. intros v _.
  eapply cmd_bind; [apply cmd_ctrl_write|]. intros _ _. eapply cmd_bind; [apply cmd_await|].
  intros e He. by apply cmd_ret.
Qed.
Hint Resolve cmd_write cmd_read : hssi.

Lemma cmd_soft_fn c a0 a1 a2 a3 : cmd_value (hssi_nios_soft_fn base c a0 a1 a2 a3).
Proof. unfold hssi_nios_soft_fn. auto 8 with hssi. Qed.
Lemma cmd_aux_write c i a v : cmd_err (hssi_aux_cmd_write base c i a v).
Proof. unfold hssi_aux_cmd_write. auto with hssi. Qed.
Lemma cmd_local_write a v : cmd_err (hssi_local_write base a v). Proof. apply cmd_aux_write. Qed.
Lemma cmd_prmgmt_write a v : cmd_err (hssi_prmgmt_write base a v). Proof. apply cmd_aux_write. Qed.
Lemma cmd_local_read a : cmd_value (hssi_local_read base a).
Proof. unfold hssi_local_read. auto with hssi. Qed.
Hint Resolve cmd_soft_fn cmd_aux_write cmd_local_write cmd_prmgmt_write cmd_local_read : hssi.

Lemma cmd_set_mode mode : cmd_err (hssi_set_mode base mode).
Proof. unfold hssi_set_mode. auto 10 with hssi. Qed.
Hint Resolve cmd_set_mode : hssi.
Lemma cmd_10gb : cmd_err (set_hssi_mode_10gb_with_afu_reset base).
Proof. unfold set_hssi_mode_10gb_with_afu_reset. auto 15 with hssi. Qed.
Lemma cmd_40gb : cmd_err (set_hssi_mode_40gb_with_afu_reset base).
Proof. unfold set_hssi_mode_40gb_with_afu_reset. auto 15 with hssi. Qed.

(** ** The I2C master *)

Lemma cmd_lines v : cmd_err (i2c_lines base v). Proof. apply cmd_write. Qed.
Hint Resolve cmd_lines : hssi.
Lemma cmd_start : cmd_err (hssi_maci2c_start base). Proof. unfold hssi_maci2c_start. auto with hssi. Qed.
Lemma cmd_stop : cmd_err (hssi_maci2c_stop base). Proof. unfold hssi_maci2c_stop. auto with hssi. Qed.
Lemma cmd_wrbeat b : cmd_err (hssi_maci2c_wrbeat base b). Proof. unfold hssi_maci2c_wrbeat. auto with hssi. Qed.
Lemma cmd_rdbeat : cmd_value (hssi_maci2c_rdbeat base).
Proof.
  unfold hssi_maci2c_rdbeat. apply cmd_also_value; [auto with hssi|]. apply cmd_also_value; [auto with hssi|].
  apply cmd_val; [auto with hssi|]. intros v. eapply cmd_bind; [apply cmd_lines|]. intros e He. by apply cmd_ret.
Qed.
Hint Resolve cmd_start cmd_stop cmd_wrbeat cmd_rdbeat : hssi.

Lemma cmd_wrbits n byte : cmd_err (wrbits base n byte).
Proof. induction n; cbn [wrbits]; auto with hssi. Qed.
Lemma cmd_rdbits n byte : cmd_value (rdbits base n byte).
Proof.
  revert byte. induction n as [|n IH]; intros byte; cbn [rdbits]; [apply cmd_ret; by left|].
  eapply cmd_bind; [apply cmd_rdbeat|]. intros r Hr. destruct (istrue _); [by apply cmd_ret|apply IH].
Qed.
Lemma cmd_rdbeats n : cmd_err (rdbeats base n).
Proof. induction n; cbn [rdbeats]; auto with hssi. Qed.
Hint Resolve cmd_wrbits cmd_rdbits cmd_rdbeats : hssi.

Lemma cmd_rdbytes n buf : cmd_value (rdbytes base n buf).
Proof.
  revert buf. induction n as [|n IH]; intros buf; cbn [rdbytes]; [apply cmd_ret; by left|].
  eapply cmd_bind; [apply cmd_rdbits|]. intros r Hr. destruct (istrue _); [by apply cmd_ret|].
  eapply (cmd_bind _ _ cmd_code); [destruct n; auto with hssi|].
  intros e He. destruct (istrue e); [by apply cmd_ret|apply IH].
Qed.

Lemma cmd_acked byte k : cmd_value k -> cmd_value (wrbyte_acked base byte k).
Proof.
  intros Hk. apply cmd_also_value; [apply cmd_wrbits|]. eapply cmd_bind; [apply cmd_rdbeat|]. intros r Hr.
  destruct (istrue (fst r)); [by apply cmd_ret|]. destruct (istrue (snd r)); [apply cmd_ret; by right|done].
Qed.
Hint Resolve cmd_rdbytes cmd_acked : hssi.

Lemma cmd_read_dev device addr len : cmd_value (hssi_maci2c_read_dev base device addr len).
Proof.
  unfold hssi_maci2c_read_dev. apply cmd_also_value; [apply cmd_start|]. apply cmd_acked, cmd_acked.
  apply cmd_also_value; [apply cmd_stop|]. apply cmd_also_value; [apply cmd_start|]. apply cmd_acked.
  eapply cmd_bind; [apply cmd_rdbytes|]. intros r Hr. destruct (istrue _); [by apply cmd_ret|].
  eapply cmd_bind; [apply cmd_stop|]. intros e He. by apply cmd_ret.
Qed.
Hint Resolve cmd_read_dev : hssi.

Lemma cmd_reset : cmd_err (hssi_maci2c_reset base). Proof. unfold hssi_maci2c_reset. auto with hssi. Qed.
Lemma cmd_enable : cmd_err (hssi_i2c_enable base). Proof. unfold hssi_i2c_enable. auto with hssi. Qed.
Lemma cmd_disable : cmd_err (hssi_i2c_disable base). Proof. unfold hssi_i2c_disable. auto with hssi. Qed.
Hint Resolve cmd_reset : hssi.

Lemma cmd_fetch device addr len : cmd_value (fetch base device addr len).
Proof.
  unfold fetch. eapply cmd_bind; [apply cmd_enable|]. intros _ _.
  eapply cmd_bind; [apply cmd_also_value; auto with hssi|]. intros r Hr.
  eapply cmd_bind; [apply cmd_disable|]. intros _ _. by apply cmd_ret.
Qed.

(** ** The transceivers *)

Lemma cmd_write_serdes chan addr mask val : cmd_err (write_serdes base chan addr mask val).
Proof. unfold write_serdes. cbv zeta. auto 8 with hssi. Qed.
Lemma cmd_read_serdes chan addr : cmd_value (read_serdes base chan addr).
Proof. unfold read_serdes. auto with hssi. Qed.
Hint Resolve cmd_write_serdes cmd_read_serdes : hssi.
Lemma cmd_read_tap chan sel : cmd_value (read_tap base chan sel).
Proof. unfold read_tap. auto with hssi. Qed.
Lemma cmd_write_all chan l : cmd_err (write_all base chan l).
Proof. induction l as [|[[a m] v] l IH]; cbn [write_all]; auto with hssi. Qed.

(** The rounds that are left before DFE_KICKSTART_TO_MS. *)
Definition adaptations_left (time : Z) : nat := Z.to_nat ((10010 - time) / 10).

Lemma cmd_poll_adaptation chan : cmd_err (poll_adaptation_complete base chan).
Proof.
  apply returns_while with (left := adaptations_left).
  - intros time. unfold adaptation_round. eapply returns_bind; [apply cmd_msleep|]. intros _ _.
    eapply returns_bind; [apply cmd_read_serdes|]. intros r Hr. destruct (istrue (fst r)); [by apply returns_ret|].
    apply returns_ret. cbv zeta. destruct (istrue (Z.land _ _)); [|by left].
    destruct (Z.leb_spec (time + DFE_KICKSTART_INTERVAL_MS) DFE_KICKSTART_TO_MS) as [H|H]; [|by right]. cbn [andb].
    unfold adaptations_left, DFE_KICKSTART_INTERVAL_MS, DFE_KICKSTART_TO_MS in *.
    Z.div_mod_to_equations. lia.
  - change (adaptations_left 0) with (Z.to_nat 1001). change (Pos.to_nat adaptation_rounds) with (Pos.to_nat 1002). lia.
Qed.
Hint Resolve cmd_read_tap cmd_write_all cmd_poll_adaptation : hssi.

Lemma cmd_kickstart l : cmd_err (kickstart base l).
Proof.
  induction l as [|chan l IH]; cbn [kickstart]; [auto with hssi|].
  apply cmd_also; [apply cmd_write_all|]. apply cmd_also; [apply cmd_write_all|]. auto with hssi.
Qed.

(** ** The files *)

Abbreviation pdev := (pac_hssi D).

(** [c] starts with the mutex free, returns a result in [Q] and frees it. *)
Definition file {A} (c : K pdev A) (Q : A -> Prop) : Prop :=
  forall h, bus_mutex h = Some false -> exists r h', c h = Some (r, h') /\ Q r /\ bus_mutex h' = Some false.

Lemma on_hdev_run {A} (c : K D A) R (h : pdev) : cmd c R -> exists r d, on_hdev c h = Some (r, set_hdev d h) /\ R r.
Proof. intros Hc. destruct (Hc (hdev h) I) as (r & d & H & Hr & _). exists r, d. unfold on_hdev, zoom. by rewrite H. Qed.


(** A step of the device under the mutex. *)
Ltac device c :=
  match goal with |- context [kbind (on_hdev ?k) _ ?h] =>
    let r := fresh "r" in let d := fresh "d" in let H := fresh "Hr" in
    destruct (on_hdev_run k _ h c) as (r & d & H & ?); rewrite (kbind_run _ _ _ _ _ H); clear H
  end.

Lemma file_store c (Q : Z -> Prop) count : cmd c Q -> file (locked_store c count) (fun r => r = count \/ Q r).
Proof.
  intros Hc h Hm. unfold locked_store. rewrite (kbind_run _ _ _ _ _ (hssi_lock_run h Hm)). device Hc.
  erewrite kbind_run; [|apply hssi_unlock_run; reflexivity].
  eexists _, _. split; [reflexivity|]. split; [|done]. destruct (istrue r); [by right|by left].
Qed.

(** The results of a store: what was written, or an error of the text, the
    values or the device. *)
Definition store_result (count : Z) (text_err : Z -> Prop) (r : Z) : Prop :=
  r = count \/ text_err r \/ r = - EINVAL \/ cmd_code r.

Lemma mode_code (c1 c2 : K D Z) v :
  cmd_err c1 -> cmd_err c2 ->
  cmd (if v =? HSSI_ETH_SPEED_10G then c1 else if v =? HSSI_ETH_SPEED_40G then c2 else kret (- EINVAL))
    (fun r => r = - EINVAL \/ cmd_code r).
Proof.
  intros H1 H2. destruct (v =? _); [|destruct (v =? _)].
  - eapply returns_weaken; [exact H1|]. by right.
  - eapply returns_weaken; [exact H2|]. by right.
  - apply cmd_ret. by left.
Qed.

Lemma file_mode buf count c1 c2 :
  cmd_err c1 -> cmd_err c2 ->
  file (match kstrtou8 buf with
        | inl err => kret err
        | inr v => locked_store (if v =? HSSI_ETH_SPEED_10G then c1 else if v =? HSSI_ETH_SPEED_40G then c2
                                 else kret (- EINVAL)) count
        end) (store_result count (fun e => kstrtou8 buf = inl e)).
Proof.
  intros H1 H2 h Hm. destruct (kstrtou8 buf) as [e|v] eqn:E.
  - exists e, h. split; [done|]. split; [|done]. right. by left.
  - destruct (file_store _ _ count (mode_code c1 c2 v H1 H2) h Hm) as (r & h' & Hr & HQ & Hm').
    exists r, h'. split; [done|]. split; [|done]. unfold store_result. tauto.
Qed.

Lemma file_tune buf count : file (equalizer_tune_store env base buf count)
    (store_result count (fun e => equalizer_parse env buf = inl e)).
Proof.
  intros h Hm. unfold equalizer_tune_store. assert (store_result count (fun e => equalizer_parse env buf = inl e) (- EINVAL)) as HE.
  { right. right. by left. }
  destruct (_ <? Z.of_nat (String.length buf)); [by eexists _, _|].
  destruct (equalizer_parse env buf) as [e|[[chan parm] value]].
  { eexists _, _. split; [reflexivity|]. split; [|done]. right. by left. }
  destruct (_ || _); [by eexists _, _|]. destruct (_ <? value); [by eexists _, _|].
  destruct (file_store (r <- hssi_nios_soft_fn base NIOS_TX_EQ_WRITE chan parm value 0 ;; kret (fst r)) cmd_code count)
    with (h := h) as (r & h' & Hr & HQ & Hm'); [|done|].
  { eapply cmd_bind; [apply cmd_soft_fn|]. intros r Hr. by apply cmd_ret. }
  exists r, h'. split; [done|]. split; [|done]. unfold store_result. tauto.
Qed.

(** A show returns its text or a timeout. *)
Definition show_result {T} (r : Z + T) : Prop := match r with inl e => e = - ETIMEDOUT | inr _ => True end.

Lemma code_error e : cmd_code e -> istrue e = true -> e = - ETIMEDOUT.
Proof. by intros [-> | ->]. Qed.

Lemma cmd_tune_lines l buf : cmd_value (tune_lines base l buf).
Proof.
  revert buf. induction l as [|[chan parm] l IH]; intros buf; cbn [tune_lines]; [apply cmd_ret; by left|].
  eapply cmd_bind; [apply cmd_soft_fn|]. intros r Hr. destruct (istrue _); [by apply cmd_ret|apply IH].
Qed.

Lemma file_tune_show : file (equalizer_tune_show base) show_result.
Proof.
  intros h Hm. unfold equalizer_tune_show. rewrite (kbind_run _ _ _ _ _ (hssi_lock_run h Hm)).
  device (cmd_tune_lines tune_pairs ""). erewrite kbind_run; [|apply hssi_unlock_run; reflexivity].
  eexists _, _. split; [reflexivity|]. split; [|done]. destruct (istrue (fst r)) eqn:E; [by apply code_error|done].
Qed.

Lemma file_board_id : file (board_id_show base) show_result.
Proof.
  intros h Hm. unfold board_id_show. rewrite (kbind_run _ _ _ _ _ (hssi_lock_run h Hm)), (kbind_run kget _ _ _ _ eq_refl).
  destruct (negb _).
  - device (cmd_fetch I2C_SERIAL_NUMBER_DEV I2C_SERIAL_WORD_OFFSET I2C_SERIAL_NUMBER_LEN).
    rewrite (kbind_run (kmod _) _ _ tt _ eq_refl). destruct (istrue (fst r)) eqn:E.
    + erewrite kbind_run; [|apply hssi_unlock_run; reflexivity]. eexists _, _. split; [reflexivity|].
      split; [by apply code_error|done].
    + rewrite (kbind_run (kmod _) _ _ tt _ eq_refl). erewrite kbind_run; [|apply hssi_unlock_run; reflexivity].
      by eexists _, _.
  - erewrite kbind_run; [|apply hssi_unlock_run; reflexivity]. by eexists _, _.
Qed.

Lemma file_eeprom : file (eeprom_show base) show_result.
Proof.
  intros h Hm. unfold eeprom_show. rewrite (kbind_run _ _ _ _ _ (hssi_lock_run h Hm)), (kbind_run kget _ _ _ _ eq_refl).
  destruct (negb _).
  - device (cmd_fetch I2C_EEPROM_DEV 0 I2C_EEPROM_LEN).
    rewrite (kbind_run (kmod _) _ _ tt _ eq_refl). destruct (istrue (fst r)) eqn:E.
    + erewrite kbind_run; [|apply hssi_unlock_run; reflexivity]. eexists _, _. split; [reflexivity|].
      split; [by apply code_error|done].
    + rewrite (kbind_run (kmod _) _ _ tt _ eq_refl). erewrite kbind_run; [|apply hssi_unlock_run; reflexivity].
      by eexists _, _.
  - erewrite kbind_run; [|apply hssi_unlock_run; reflexivity]. by eexists _, _.
Qed.

(** A return from inside the loop is a timeout. *)
Lemma cmd_tap_lines l buf :
  cmd (tap_lines base l buf) (fun r => cmd_code (fst (fst r)) /\ (snd r = true -> fst (fst r) = - ETIMEDOUT)).
Proof.
  revert buf. induction l as [|chan l IH]; intros buf; cbn [tap_lines]; [apply cmd_ret; split; [by left|done]|].
  eapply cmd_bind; [apply cmd_write_serdes|]. intros e He. destruct (istrue e) eqn:E.
  { apply cmd_ret. split; [done|]. intros _. by apply code_error. }
  eapply cmd_bind; [apply cmd_read_tap|]. intros a Ha. destruct (istrue (fst a)); [by apply cmd_ret|].
  eapply cmd_bind; [apply cmd_read_tap|]. intros b Hb. destruct (istrue (fst b)); [by apply cmd_ret|].
  eapply cmd_bind; [apply cmd_read_tap|]. intros c Hc. destruct (istrue (fst c)); [by apply cmd_ret|apply IH].
Qed.

(** C39: every file of the HSSI returns.  Against anything behind the registers
    whose clock advances, every store and show that starts with the mutex free
    ends: a store with the count written, the error of the text, -EINVAL or
    -ETIMEDOUT, a show with its text or -ETIMEDOUT, and the mutex is free
    again.  dfe_kickstart_show alone may leave the mutex locked, and then
    returns -ETIMEDOUT. *)
Theorem hssi_files_return buf count :
  file (config_store base buf count) (store_result count (fun e => kstrtou8 buf = inl e)) /\
  file (config_qsfp0_store base buf count) (store_result count (fun e => kstrtou8 buf = inl e)) /\
  file (equalizer_tune_store env base buf count) (store_result count (fun e => equalizer_parse env buf = inl e)) /\
  file (dfe_kickstart_store base count) (store_result count (fun _ => False)) /\
  file (equalizer_tune_show base) show_result /\
  file (board_id_show base) show_result /\
  file (eeprom_show base) show_result /\
  (forall h, bus_mutex h = Some false -> exists r h', dfe_kickstart_show base h = Some (r, h') /\ show_result r /\
     (bus_mutex h' = Some false \/ bus_mutex h' = Some true /\ r = inl (- ETIMEDOUT))).
Proof.
  split_and!.
  - apply file_mode; [apply cmd_10gb|apply cmd_40gb].
  - apply file_mode; apply cmd_set_mode.
  - apply file_tune.
  - intros h Hm. destruct (file_store _ _ count (cmd_kickstart channels) h Hm) as (r & h' & Hr & HQ & Hm').
    exists r, h'. split; [done|]. split; [|done]. unfold store_result. tauto.
  - apply file_tune_show.
  - apply file_board_id.
  - apply file_eeprom.
  - intros h Hm. unfold dfe_kickstart_show. rewrite (kbind_run _ _ _ _ _ (hssi_lock_run h Hm)).
    device (cmd_tap_lines channels ""). destruct r as [[err buf'] leave]. cbn [fst snd] in *.
    match goal with H : cmd_code _ /\ _ |- _ => destruct H as [Hc Hl] end. destruct leave.
    + rewrite (Hl eq_refl). eexists _, _. split; [reflexivity|]. split; [done|]. by right.
    + erewrite kbind_run; [|apply hssi_unlock_run; reflexivity]. eexists _, _. split; [reflexivity|].
      split; [|by left]. destruct (istrue err) eqn:E; [by apply code_error|done].
Qed.
End Returns.

(** A controller that never answers; its state is the time. *)
Definition mute_mmio : Mmio Z := {| dev_readq a t := (0, t + 100); dev_writeq a v t := t + 100 |}.
Definition mute_clock : Clock Z := {|
  ktime_get t := t; dev_usleep_range lo hi t := t + 1000 * hi; dev_udelay us t := t + 1000 * us |}.
Lemma mute_clock_ok : @ClockOk Z mute_mmio mute_clock.
Proof. constructor; cbn; lia. Qed.

Definition mute_env : hssi_env := HssiEnv (Some 0x6000) true 0 0 0 (fun _ => inl (- EINVAL)).
Definition mute_hssi : pac_hssi Z := PacHssi 0 (Some false) (repeat 0 512) (repeat 0 16) 0 true true true.

Lemma hssi_files_return_witness :
  bus_mutex mute_hssi = Some false /\
  file (@config_store _ mute_mmio mute_clock hex_kstrto 0x6000 "0xa" 3)
    (store_result 3 (fun e => @kstrtou8 hex_kstrto "0xa" = inl e)) /\
  file (@config_qsfp0_store _ mute_mmio mute_clock hex_kstrto 0x6000 "0xa" 3)
    (store_result 3 (fun e => @kstrtou8 hex_kstrto "0xa" = inl e)) /\
  file (@equalizer_tune_store _ mute_mmio mute_clock mute_env 0x6000 "0xa" 3)
    (store_result 3 (fun e => equalizer_parse mute_env "0xa" = inl e)) /\
  file (@dfe_kickstart_store _ mute_mmio mute_clock 0x6000 3) (store_result 3 (fun _ => False)) /\
  file (@equalizer_tune_show _ mute_mmio mute_clock 0x6000) show_result /\
  file (@board_id_show _ mute_mmio mute_clock 0x6000) show_result /\
  file (@eeprom_show _ mute_mmio mute_clock 0x6000) show_result /\
  (forall h, bus_mutex h = Some false -> exists r h', @dfe_kickstart_show _ mute_mmio mute_clock 0x6000 h = Some (r, h') /\
     show_result r /\ (bus_mutex h' = Some false \/ bus_mutex h' = Some true /\ r = inl (- ETIMEDOUT))).
Proof.
  split; [reflexivity|].
  exact (@hssi_files_return _ mute_mmio mute_clock mute_clock_ok hex_kstrto mute_env 0x6000 "0xa" 3).
Defined.

(** It does leave it locked: after a timeout of the first write the next store
    deadlocks. *)
Lemma kickstart_show_keeps_mutex :
  match @dfe_kickstart_show _ mute_mmio mute_clock 0x6000 mute_hssi with
  | Some (r, h) => r = inl (- ETIMEDOUT) /\ bus_mutex h = Some true /\
      @dfe_kickstart_store _ mute_mmio mute_clock 0x6000 1 h = None
  | None => False
  end.
Proof. by vm_compute. Qed.
