(* ===== verification/Hwicap.v ===== *)
(** * The ICAP downloader (FME_xilinx_driver/drv_pcie_hwicap)

    A small PCIe driver of the port's author for partial reconfiguration
    through the HWICAP block of a Xilinx part.  The file holds its device
    structure, the parser of .bit files, the transfer to the ICAP and the
    ioctl; probe and remove are in HwicapPci.v.  Reading past a kernel buffer
    is an oops. *)

From S2P Require Import Prelude.
From S2P Require Import Bitfield.
From S2P Require Import Mmio32.
From S2P Require Import Loops.
From S2P Require Import UserMem.
Local Open Scope string_scope.
Local Open Scope list_scope.
Local Open Scope Z_scope.

(** ** Constants (regs.h, pcie.h) *)

Definition HWICAP_BASE : Z := 0x00012000.
Definition XHWICAP_WF : Z := HWICAP_BASE + 0x100.
Definition XHWICAP_CR : Z := HWICAP_BASE + 0x10c.
Definition XHWICAP_SR : Z := HWICAP_BASE + 0x110.
Definition XHWICAP_WFV : Z := HWICAP_BASE + 0x114.
Definition AXI_GATE_OFFSET1 : Z := 0x00014000.
Definition AXI_GATE_OFFSET2 : Z := 0x00015000.
Definition XHI_EVEN_MAGIC_BYTE : Z := 0x0f.
Definition XHI_ODD_MAGIC_BYTE : Z := 0xf0.
Definition DMA_HWICAP_BITFILE_BUFFER_SIZE : Z := 1024.
Definition PF_HWICAP_BAR : Z := 0.
Definition PF_MAX_BAR : Z := 1.
Definition XCLMGMT_MINOR_COUNT : Z := 16.

(** [enum HWICAP_STATUS] *)
Definition ICAP_DOWNLOADING : Z := 0.
Definition ICAP_DOWNLOAD_FINISH : Z := 1.
Definition ICAP_DOWNLOAD_ERROR : Z := 2.

Definition FME_MGMT_IOC_ICAP_DOWNLOAD : Z := 1.
Definition fme_ioc_bitstream : reg := Reg [("len", 32); ("pad", 32); ("buff", 64)].
Definition XCLMGMT_IOC_MAGIC : Z := 88.
Definition _IOC_WRITE : Z := 1.
Definition _IOC_READ : Z := 2.
Definition _IOC_DIR (cmd : Z) : Z := Z.land (Z.shiftr cmd 30) 3.
Definition _IOC_TYPE (cmd : Z) : Z := Z.land (Z.shiftr cmd 8) 0xff.
Definition _IOC_SIZE (cmd : Z) : Z := Z.land (Z.shiftr cmd 16) 0x3fff.
Definition _IOW (type nr size : Z) : Z :=
  Z.lor (Z.shiftl _IOC_WRITE 30) (Z.lor (Z.shiftl size 16) (Z.lor (Z.shiftl type 8) nr)).
Definition FME_IOC_ICAP_DOWNLOAD : Z := _IOW XCLMGMT_IOC_MAGIC FME_MGMT_IOC_ICAP_DOWNLOAD 16.

Definition ENOTTY : Z := 25.

(** ** State *)

Record XHwIcap_Bit_Header := BitHeader {
  HeaderLength : Z; BitstreamLength : Z;
  DesignName : list Z; PartName : list Z; Date : list Z; Time : list Z;
  MagicLength : Z;
}.

(** [bar] is NULL when it is not mapped; [clear_bitstream] is the length of the
    stash, if there is one. *)
Record mgmt_dev := MgmtDev {
  m_instance : Z; bar : option Z; user_char_dev : bool; clear_bitstream : option Z;
  axi_gate_frozen : bool; busy : bool; hwicap_status : Z;
}.
Definition set_bar b m :=
  MgmtDev (m_instance m) b (user_char_dev m) (clear_bitstream m) (axi_gate_frozen m) (busy m) (hwicap_status m).
Definition set_instance i m :=
  MgmtDev i (bar m) (user_char_dev m) (clear_bitstream m) (axi_gate_frozen m) (busy m) (hwicap_status m).
Definition set_char_dev c m :=
  MgmtDev (m_instance m) (bar m) c (clear_bitstream m) (axi_gate_frozen m) (busy m) (hwicap_status m).
Definition set_clear s m :=
  MgmtDev (m_instance m) (bar m) (user_char_dev m) s (axi_gate_frozen m) (busy m) (hwicap_status m).
Definition set_frozen f m :=
  MgmtDev (m_instance m) (bar m) (user_char_dev m) (clear_bitstream m) f (busy m) (hwicap_status m).
Definition set_busy b m :=
  MgmtDev (m_instance m) (bar m) (user_char_dev m) (clear_bitstream m) (axi_gate_frozen m) b (hwicap_status m).
Definition set_status s m :=
  MgmtDev (m_instance m) (bar m) (user_char_dev m) (clear_bitstream m) (axi_gate_frozen m) (busy m) s.

(** The device, the memory of the calling process, and the driver data. *)
Record xcl (D : Type) := Xcl { xdev : D; umem : user_mem; lro : mgmt_dev }.
Arguments Xcl {D}. Arguments xdev {D}. Arguments umem {D}. Arguments lro {D}.
Definition set_xdev {D} (d : D) (x : xcl D) := Xcl d (umem x) (lro x).
Definition set_umem {D} u (x : xcl D) := Xcl (xdev x) u (lro x).
Definition set_lro {D} m (x : xcl D) := Xcl (xdev x) (umem x) m.

(** Delays, in nanoseconds. *)
Class NDelay (D : Type) := { dev_ndelay : Z -> D -> D }.

(** What the kernel answers: whether an allocation of so many bytes succeeds,
    and whether a range of user addresses may be accessed. *)
Record xcl_env := XclEnv {
  kmalloc_ok : Z -> bool;
  access_ok : Z -> Z -> bool;
}.

(** ** The header of a .bit file *)

(** The unread rest of a buffer. *)
Definition next_byte : K (list Z) Z :=
  fun rest => match rest with [] => None | b :: rest => Some (b, rest) end.

Definition next_short : K (list Z) Z :=
  hi <- next_byte ;; lo <- next_byte ;; kret (Z.lor (Z.shiftl hi 8) lo).

(** The magic bytes from the [I]-th on; false if one is wrong. *)
Fixpoint magic_bytes (rest : list Z) (I n : Z) : option (bool * list Z) :=
  if n <=? I then Some (true, rest)
  else
    match rest with
    | [] => None
    | Tmp :: rest =>
        if negb (Tmp =? if I mod 2 =? 0 then XHI_EVEN_MAGIC_BYTE else XHI_ODD_MAGIC_BYTE) then Some (false, rest)
        else magic_bytes rest (I + 1) n
    end.

Fixpoint next_bytes (n : nat) : K (list Z) (list Z) :=
  match n with O => kret [] | S n => b <- next_byte ;; l <- next_bytes n ;; kret (b :: l) end.

Section Parser.
Variable env : xcl_env.

(** A tag, a length and a string that ends with a null byte: the string, or
    nothing if the header is wrong.  A string of length 0 is read at its last
    byte, before its start. *)
Definition string_field (tag : Z) : K (list Z) (option (list Z)) :=
  Tmp <- next_byte ;;
  if negb (Tmp =? tag) then kret None
  else
    Len <- next_short ;;
    if negb (kmalloc_ok env Len) then oops
    else
      name <- next_bytes (Z.to_nat Len) ;;
      last <- deref (list.last name) ;;
      kret (if last =? 0 then Some name else None).

(** A character of the header's tags. *)
Definition tag_a : Z := 97.

Definition field_then {A} (tag : Z) (k : list Z -> K (list Z) (option A)) : K (list Z) (option A) :=
  f <- string_field tag ;; match f with Some name => k name | None => kret None end.

(** The header, unless it is wrong. *)
Definition bitstream_parse_header (Data : list Z) : K (list Z) (option XHwIcap_Bit_Header) :=
  MagicLength <- next_short ;;
  ok <- (fun rest => magic_bytes rest 0 (u32 (MagicLength - 1))) ;;
  if negb ok then kret None
  else
    next_byte ;;
    Tmp <- next_short ;;
    if negb (Tmp =? 0x01) then kret None
    else
      field_then tag_a (fun DesignName =>
      field_then (tag_a + 1) (fun PartName =>
      field_then (tag_a + 2) (fun Date =>
      field_then (tag_a + 3) (fun Time =>
      Tmp <- next_byte ;;
      if negb (Tmp =? tag_a + 4) then kret None
      else
        hi <- next_short ;;
        lo <- next_short ;;
        rest <- kget ;;
        kret (Some (BitHeader (Z.of_nat (length Data - length rest)) (Z.lor (Z.shiftl hi 16) lo)
                      DesignName PartName Date Time MagicLength)))))).

(** The parser on a buffer. *)
Definition parse_header (Data : list Z) : option (option XHwIcap_Bit_Header) :=
  fst <$> bitstream_parse_header Data Data.
End Parser.

(** ** The transfer *)

(** Bytes as words; what is left of a last word is dropped. *)
Fixpoint be_words (l : list Z) : list Z :=
  match l with
  | a :: b :: c :: d :: l =>
      Z.lor (Z.lor (Z.lor (Z.shiftl a 24) (Z.shiftl b 16)) (Z.shiftl c 8)) d :: be_words l
  | _ => []
  end.

Section Download.
Context {D : Type} {dev : Mmio32 D} {delay : NDelay D}.
Variable env : xcl_env.
Abbreviation pdev := (xcl D).

Definition on_xdev {A} (c : K D A) : K pdev A := zoom xdev set_xdev c.
Definition mod_lro (f : mgmt_dev -> mgmt_dev) : K pdev unit := kmod (fun x => set_lro (f (lro x)) x).
Definition ndelay (ns : Z) : K pdev unit := on_xdev (kmod (dev_ndelay ns)).
Definition udelay_us (us : Z) : K pdev unit := ndelay (1000 * us).

(** Accesses relative to the BAR. *)
Definition iowrite8 (v off : Z) : K pdev unit :=
  x <- kget ;; b <- deref (bar (lro x)) ;; on_xdev (writeb v (b + off)).
Definition iowrite32 (v off : Z) : K pdev unit :=
  x <- kget ;; b <- deref (bar (lro x)) ;; on_xdev (writel v (b + off)).
Definition ioread32 (off : Z) : K pdev Z :=
  x <- kget ;; b <- deref (bar (lro x)) ;; on_xdev (readl (b + off)).

Definition freezeAXIGate : K pdev unit :=
  x <- kget ;;
  if axi_gate_frozen (lro x) then oops
  else
    iowrite8 0x1 AXI_GATE_OFFSET1 ;;
    ndelay 500 ;;
    iowrite8 0x1 AXI_GATE_OFFSET2 ;;
    mod_lro (set_frozen true) ;;
    iowrite32 0xC XHWICAP_CR ;;
    ndelay 20.

Definition freeAXIGate : K pdev unit :=
  x <- kget ;;
  if negb (axi_gate_frozen (lro x)) then oops
  else
    iowrite8 0x0 AXI_GATE_OFFSET1 ;;
    ndelay 500 ;;
    iowrite8 0x0 AXI_GATE_OFFSET2 ;;
    mod_lro (set_frozen false).

Definition bitstream_clear_icap : K pdev Z :=
  x <- kget ;;
  match clear_bitstream (lro x) with
  | None => kret 0
  | Some _ => mod_lro (set_clear None) ;; kret 0
  end.

Fixpoint write_words (word_buf : list Z) : K pdev unit :=
  match word_buf with
  | [] => kret tt
  | value :: word_buf => iowrite32 value XHWICAP_WF ;; write_words word_buf
  end.

(** Until the ICAP has taken the words, at most [n] reads. *)
Fixpoint await_write (n : nat) : K pdev Z :=
  match n with
  | O => kret (- EIO)
  | S n =>
      value <- ioread32 XHWICAP_CR ;;
      if Z.land value 0x1 =? 0 then kret 0 else ndelay 50 ;; await_write n
  end.

Definition hwicapWrite (word_buf : list Z) : K pdev Z :=
  write_words word_buf ;;
  iowrite32 0x1 XHWICAP_CR ;;
  await_write 20.

(** Every round writes at least one word; [n] rounds. *)
Fixpoint icap_rounds (n : nat) (word_buffer : list Z) : K pdev Z :=
  match word_buffer with
  | [] => kret 0
  | _ =>
      match n with
      | O => oops
      | S n =>
          vacancy <- ioread32 XHWICAP_WFV ;;
          if s32 vacancy <=? 0 then mod_lro (set_status ICAP_DOWNLOAD_ERROR) ;; kret (- EIO)
          else
            let word_written := Z.to_nat (Z.min (s32 vacancy) (Z.of_nat (length word_buffer))) in
            ret <- hwicapWrite (take word_written word_buffer) ;;
            if istrue ret then mod_lro (set_status ICAP_DOWNLOAD_ERROR) ;; kret (- EIO)
            else icap_rounds n (drop word_written word_buffer)
      end
  end.
Definition bitstream_icap_helper (word_buffer : list Z) : K pdev Z :=
  icap_rounds (length word_buffer) word_buffer.

Fixpoint done_rounds (n : nat) : K pdev Z :=
  match n with
  | O => kret (- ETIMEDOUT)
  | S n =>
      udelay_us 5 ;;
      w <- ioread32 XHWICAP_SR ;;
      if istrue (Z.land w 0x5) then mod_lro (set_status ICAP_DOWNLOAD_FINISH) ;; kret 0 else done_rounds n
  end.
Definition wait_for_done : K pdev Z := done_rounds 1000.

(** copy_from_user into a kernel buffer: the bytes, or nothing on a fault. *)
Definition copy_bytes (a n : Z) : K pdev (option (list Z)) :=
  kgets (fun x => read_bytes (Z.to_nat n) a (ubytes (umem x))).

Definition download_error (err : Z) : K pdev Z := mod_lro (set_status ICAP_DOWNLOAD_ERROR) ;; kret err.

(** One round of the download; what is left is counted in bytes. *)
Definition download_round (length : Z) (p : Z * Z) : K pdev (Z * Z + Z) :=
  let '(byte_read, bit_buf) := p in
  if length <=? byte_read then kret (inr 0)
  else
    let numCharsRead := Z.min (u32 (length - byte_read)) DMA_HWICAP_BITFILE_BUFFER_SIZE in
    data <- copy_bytes bit_buf numCharsRead ;;
    match data with
    | None => err <- download_error (- EFAULT) ;; kret (inr err)
    | Some buffer =>
        err <- bitstream_icap_helper (be_words buffer) ;;
        if istrue err then err <- download_error err ;; kret (inr err)
        else kret (inl (u32 (byte_read + numCharsRead), bit_buf + numCharsRead))
    end.
Definition download_rounds (length : Z) : positive := Z.to_pos (length / DMA_HWICAP_BITFILE_BUFFER_SIZE + 2).

(** The download, up to the label free_buffers. *)
Definition icap_download (bit_buf length : Z) : K pdev Z :=
  err <- bitstream_clear_icap ;;
  if istrue err then kret err
  else if negb (kmalloc_ok env DMA_HWICAP_BITFILE_BUFFER_SIZE) then kret (- ENOMEM)
  else
    data <- copy_bytes bit_buf DMA_HWICAP_BITFILE_BUFFER_SIZE ;;
    match data with
    | None => download_error (- EFAULT)
    | Some buffer =>
        header <- (fun x => match parse_header env buffer with Some h => Some (h, x) | None => None end) ;;
        match header with
        | None => download_error (- EINVAL)
        | Some bit_header =>
            if length <? u32 (HeaderLength bit_header + BitstreamLength bit_header) then download_error (- EINVAL)
            else
              iowrite32 0x1c XHWICAP_CR ;;
              udelay_us 10 ;;
              err <- kwhile (download_round length) (download_rounds length) (0, bit_buf + HeaderLength bit_header) ;;
              if istrue err then kret err
              else
                ret <- wait_for_done ;;
                kret (if istrue ret then - ETIMEDOUT else 0)
        end
    end.

Definition bitstream_ioctl_icap (bit_buf length : Z) : K pdev Z :=
  freezeAXIGate ;;
  err <- icap_download bit_buf length ;;
  freeAXIGate ;;
  kret err.

(** ** File operations *)

Definition bitstream_ioctl (arg : Z) : K pdev Z :=
  data <- copy_bytes arg 16 ;;
  match data with
  | None => download_error (- EFAULT)
  | Some bytes =>
      let obj := le_combine bytes in
      let len := s32 (fget fme_ioc_bitstream "len" obj) in
      let buffer := fget fme_ioc_bitstream "buff" obj in
      if negb (access_ok env buffer (u64 len)) then download_error (- EFAULT)
      else
        bitstream_ioctl_icap buffer (u64 len) ;;
        kret 0
  end.

(** [own] says that the file belongs to the character device of [lro]. *)
Definition PCIe_Ioctl (own : bool) (cmd arg : Z) : K pdev Z :=
  if negb own then kret (- ENOTTY)
  else if negb (_IOC_TYPE cmd =? XCLMGMT_IOC_MAGIC) then kret (- ENOTTY)
  else
    let checked := istrue (Z.land (_IOC_DIR cmd) _IOC_READ) || istrue (Z.land (_IOC_DIR cmd) _IOC_WRITE) in
    if checked && negb (access_ok env arg (_IOC_SIZE cmd)) then kret (- EFAULT)
    else
      x <- kget ;;
      if busy (lro x) then kret (- EBUSY)
      else
        mod_lro (set_busy true) ;;
        result <- (if cmd =? FME_IOC_ICAP_DOWNLOAD then
                     mod_lro (set_status ICAP_DOWNLOADING) ;; bitstream_ioctl arg
                   else kret (- ENOTTY)) ;;
        mod_lro (set_busy false) ;;
        kret result.

Definition PCIe_Write : K pdev Z := kret 0.

Definition PCIe_Read (buf : Z) : K pdev Z :=
  x <- kget ;;
  fault <- zoom umem set_umem (copy_to_user buf (u32 (hwicap_status (lro x))) 4) ;;
  kret (if fault : bool then - EFAULT else 0).
End Download.
