(* ===== verification/HwicapSpec.v ===== *)
(** * Theorems about the ICAP downloader (drv_pcie_hwicap/pcie.c)

    The HWICAP block buffers words in a FIFO; a write of bit 0 of its control
    register hands them to the configuration port, some time later.  A word
    arrives with a note of whether both gates that isolate the reconfigured
    region were closed at that moment. *)

From S2P Require Import Prelude.
From S2P Require Import Bitfield.
From S2P Require Import Mmio32.
From S2P Require Import Loops.
From S2P Require Import UserMem.
From S2P Require Import Hwicap.
Local Open Scope list_scope.
Local Open Scope Z_scope.

(** ** The block *)

(** What does not change: the address, the words of the FIFO, and how many
    delays it takes to configure some words. *)
Record icap_conf := IcapConf { h_base : Z; h_depth : nat; h_latency : list Z -> nat }.

Record icap := Icap {
  hconf : icap_conf; fifo : list Z; config : list (bool * Z);
  pending : option nat; gate1 : Z; gate2 : Z;
}.
Definition set_fifo l d := Icap (hconf d) l (config d) (pending d) (gate1 d) (gate2 d).
Definition set_config c d := Icap (hconf d) (fifo d) c (pending d) (gate1 d) (gate2 d).
Definition set_pending p d := Icap (hconf d) (fifo d) (config d) p (gate1 d) (gate2 d).
Definition set_gate1 g d := Icap (hconf d) (fifo d) (config d) (pending d) g (gate2 d).
Definition set_gate2 g d := Icap (hconf d) (fifo d) (config d) (pending d) (gate1 d) g.

Definition isolated (d : icap) : bool := (gate1 d =? 1) && (gate2 d =? 1).
Definition configured (ws : list Z) (d : icap) : icap :=
  set_config (config d ++ map (pair (isolated d)) ws) d.
Definition clear_fifo (d : icap) : icap := set_pending None (set_fifo [] d).
Definition flush (d : icap) : icap := clear_fifo (configured (fifo d) d).

Definition start (d : icap) : icap :=
  match h_latency (hconf d) (fifo d) with O => flush d | S k => set_pending (Some k) d end.
Definition icap_tick (d : icap) : icap :=
  match pending d with
  | None => d
  | Some O => flush d
  | Some (S k) => set_pending (Some k) d
  end.
Definition vacancy (d : icap) : Z := Z.of_nat (h_depth (hconf d) - length (fifo d)).
Definition idle (d : icap) : bool := match pending d with None => true | Some _ => false end.

#[export] Instance icap_mmio : Mmio32 icap := {|
  dev_readl a d :=
    ((if a =? h_base (hconf d) + XHWICAP_WFV then vacancy d
      else if a =? h_base (hconf d) + XHWICAP_CR then (if idle d then 0 else 1)
      else if a =? h_base (hconf d) + XHWICAP_SR then (if idle d then 5 else 0)
      else 0), d);
  dev_writel a v d :=
    if a =? h_base (hconf d) + XHWICAP_WF then
      if 0 <? vacancy d then set_fifo (fifo d ++ [v]) d else d
    else if a =? h_base (hconf d) + XHWICAP_CR then
      if istrue (Z.land v 0xc) then clear_fifo d
      else if istrue (Z.land v 0x1) then start d
      else d
    else d;
  dev_readb a d := (0, d);
  dev_writeb a v d :=
    if a =? h_base (hconf d) + AXI_GATE_OFFSET1 then set_gate1 v d
    else if a =? h_base (hconf d) + AXI_GATE_OFFSET2 then set_gate2 v d
    else d;
|}.
#[export] Instance icap_delay : NDelay icap := {| dev_ndelay ns := icap_tick |}.

(** ** Register accesses *)

Abbreviation idev := (xcl icap).
Definition bar_ok (x : idev) : Prop := bar (lro x) = Some (h_base (hconf (xdev x))).

Lemma iowrite32_run v off (x : idev) :
  bar_ok x -> iowrite32 v off x = Some (tt, set_xdev (dev_writel (h_base (hconf (xdev x)) + off) v (xdev x)) x).
Proof. intros Hb. unfold iowrite32. simpl. by rewrite Hb. Qed.

Lemma iowrite8_run v off (x : idev) :
  bar_ok x -> iowrite8 v off x = Some (tt, set_xdev (dev_writeb (h_base (hconf (xdev x)) + off) (u8 v) (xdev x)) x).
Proof. intros Hb. unfold iowrite8. simpl. by rewrite Hb. Qed.

Lemma ioread32_run off (x : idev) :
  bar_ok x -> ioread32 off x = Some (fst (dev_readl (h_base (hconf (xdev x)) + off) (xdev x)), x).
Proof. intros Hb. unfold ioread32. simpl. rewrite Hb. by destruct x. Qed.

Lemma ndelay_run ns (x : idev) : ndelay ns x = Some (tt, set_xdev (icap_tick (xdev x)) x).
Proof. reflexivity. Qed.

(** A register is not another one. *)
Lemma other_reg (b o o' : Z) : o <> o' -> (b + o =? b + o') = false.
Proof. intros H. apply Z.eqb_neq. lia. Qed.

Ltac reg_at :=
  cbn [dev_readl dev_writel dev_readb dev_writeb icap_mmio fst];
  repeat first [rewrite Z.eqb_refl | rewrite other_reg by (vm_compute; discriminate)].

(** ** Writing words *)

Lemma write_words_run ws (x : idev) :
  bar_ok x -> (length (fifo (xdev x)) + length ws <= h_depth (hconf (xdev x)))%nat ->
  write_words ws x = Some (tt, set_xdev (set_fifo (fifo (xdev x) ++ ws) (xdev x)) x).
Proof.
  revert x. induction ws as [|w ws IH]; intros x Hb Hl; simpl in Hl.
  - cbn [write_words]. rewrite app_nil_r. by destruct x as [[] ? ?].
  - cbn [write_words]. rewrite (kbind_run _ _ _ _ _ (iowrite32_run w _ x Hb)). reg_at.
    unfold vacancy. rewrite (proj2 (Z.ltb_lt _ _)) by lia. rewrite IH; [|done|].
    + simpl. by rewrite <- app_assoc.
    + simpl. rewrite length_app. simpl. lia.
Qed.

Lemma await_write_run n k (x : idev) :
  bar_ok x -> pending (xdev x) = Some k -> (k + 1 < n)%nat ->
  await_write n x = Some (0, set_xdev (flush (xdev x)) x).
Proof.
  revert k x. induction n as [|n IH]; intros k x Hb Hp Hk; [lia|].
  cbn [await_write]. rewrite (kbind_run _ _ _ _ _ (ioread32_run _ x Hb)). reg_at.
  unfold idle. rewrite Hp. change (Z.land 1 1 =? 0) with false. cbn iota.
  rewrite (kbind_run _ _ _ _ _ (ndelay_run 50 x)).
  unfold icap_tick. rewrite Hp. destruct k as [|k].
  - destruct n as [|n]; [lia|]. cbn [await_write].
    rewrite (kbind_run _ _ _ _ _ (ioread32_run _ (set_xdev (flush (xdev x)) x) Hb)). reg_at. reflexivity.
  - rewrite (IH k); [|done|done|lia]. reflexivity.
Qed.

(** An idle block with an empty FIFO. *)
Definition ready (x : idev) : Prop := bar_ok x /\ pending (xdev x) = None /\ fifo (xdev x) = [].

Lemma configured_ready ws x : ready x -> ready (set_xdev (configured ws (xdev x)) x).
Proof. by intros (? & ? & ?). Qed.

Lemma configured_app ws ws' d : configured ws' (configured ws d) = configured (ws ++ ws') d.
Proof. unfold configured. simpl. by rewrite map_app, app_assoc. Qed.

Lemma configured_nil d : configured [] d = d.
Proof. destruct d. unfold configured, set_config. simpl. by rewrite app_nil_r. Qed.

(** The block can take at least one word, and takes words within 19 delays. *)
Definition icap_ok (c : icap_conf) : Prop :=
  (0 < h_depth c)%nat /\ Z.of_nat (h_depth c) < 2 ^ 31 /\
  forall ws, (length ws <= h_depth c)%nat -> (h_latency c ws < 20)%nat.

Lemma hwicapWrite_run ws (x : idev) :
  ready x -> icap_ok (hconf (xdev x)) -> (length ws <= h_depth (hconf (xdev x)))%nat ->
  hwicapWrite ws x = Some (0, set_xdev (configured ws (xdev x)) x).
Proof.
  intros (Hb & Hp & Hf) (_ & _ & Hlat) Hl. unfold hwicapWrite.
  rewrite (kbind_run _ _ _ _ _ (write_words_run ws x Hb ltac:(rewrite Hf; simpl; lia))).
  rewrite Hf. cbn [app]. set (x1 := set_xdev (set_fifo ws (xdev x)) x). assert (bar_ok x1) as Hb1 by done.
  rewrite (kbind_run _ _ _ _ _ (iowrite32_run 1 _ x1 Hb1)). reg_at.
  change (istrue (Z.land 1 12)) with false. change (istrue (Z.land 1 1)) with true.
  assert (flush (xdev x1) = configured ws (xdev x)) as Hflush.
  { unfold flush, clear_fifo, configured. simpl. unfold set_config, set_pending, set_fifo. simpl. by rewrite Hp, Hf. }
  unfold start. specialize (Hlat ws Hl). change (hconf (xdev x1)) with (hconf (xdev x)).
  change (fifo (xdev x1)) with ws. destruct (h_latency (hconf (xdev x)) ws) as [|k].
  - cbn [await_write]. rewrite Hflush. set (x2 := set_xdev (configured ws (xdev x)) x1). assert (bar_ok x2) as Hb2 by done.
    rewrite (kbind_run _ _ _ _ _ (ioread32_run _ x2 Hb2)). reg_at. unfold idle, x2. cbn [xdev set_xdev].
    change (pending (configured ws (xdev x))) with (pending (xdev x)). by rewrite Hp.
  - rewrite (await_write_run 20 k); [|done|done|lia]. rewrite <- Hflush. reflexivity.
Qed.

Lemma icap_rounds_run n ws (x : idev) :
  ready x -> icap_ok (hconf (xdev x)) -> (length ws <= n)%nat ->
  icap_rounds n ws x = Some (0, set_xdev (configured ws (xdev x)) x).
Proof.
  revert ws x. induction n as [|n IH]; intros ws x Hx Hc Hn.
  all: destruct ws as [|w ws]; [cbn [icap_rounds]; rewrite configured_nil; by destruct x|].
  { simpl in Hn. lia. }
  pose proof Hx as (Hb & Hp & Hf). pose proof Hc as (Hd & Hmax & _). set (l := w :: ws) in *.
  assert (0 < length l)%nat by (simpl; lia).
  cbn [icap_rounds]. unfold l at 1.
  rewrite (kbind_run _ _ _ _ _ (ioread32_run _ x Hb)). reg_at. unfold vacancy. rewrite Hf. cbn [length].
  rewrite Nat.sub_0_r, s32_small, (proj2 (Z.leb_gt _ _)) by lia.
  set (k := Z.to_nat (Z.min (Z.of_nat (h_depth (hconf (xdev x)))) (Z.of_nat (length l)))).
  assert (0 < k)%nat by (unfold k; lia).
  rewrite (kbind_run _ _ _ _ _ (hwicapWrite_run (take k l) x Hx Hc ltac:(rewrite length_take; lia))).
  change (istrue 0) with false. cbn iota. rewrite IH; [|by apply configured_ready|done|].
  - simpl. by rewrite configured_app, take_drop.
  - rewrite length_drop. lia.
Qed.

(** ** The bytes of the file *)

Lemma be_words_app n l k : length l = (4 * n)%nat -> be_words (l ++ k) = be_words l ++ be_words k.
Proof.
  revert l. induction n as [|n IH]; intros l Hl.
  - by apply nil_length_inv in Hl as ->.
  - destruct l as [|a [|b [|c [|d l]]]]; simpl in Hl; try lia.
    cbn [app be_words]. rewrite IH by lia. reflexivity.
Qed.

Lemma read_bytes_app n k a m l :
  read_bytes (n + k) a m = Some l ->
  read_bytes n a m = Some (take n l) /\ read_bytes k (a + Z.of_nat n) m = Some (drop n l).
Proof.
  revert a l. induction n as [|n IH]; intros a l H.
  - rewrite Z.add_0_r. auto.
  - cbn [read_bytes plus] in *. destruct (m !! a); [|done].
    destruct (read_bytes (n + k) (a + 1) m) as [r|] eqn:E; [|done]. injection H as <-.
    destruct (IH _ _ E) as [-> H2]. split; [done|]. cbn [drop]. rewrite <- H2. f_equal. lia.
Qed.

Lemma read_bytes_slice i k n a m l :
  read_bytes n a m = Some l -> (i + k <= n)%nat ->
  read_bytes k (a + Z.of_nat i) m = Some (take k (drop i l)).
Proof.
  intros H Hi. replace n with (i + (k + (n - i - k)))%nat in H by lia.
  apply read_bytes_app in H as [_ H]. by apply read_bytes_app in H as [H _].
Qed.

Lemma read_bytes_length n a m l : read_bytes n a m = Some l -> length l = n.
Proof.
  revert a l. induction n as [|n IH]; intros a l H; cbn [read_bytes] in H; [by injection H as <-|].
  destruct (m !! a); [|done]. destruct (read_bytes n (a + 1) m) eqn:E; [|done]. injection H as <-.
  simpl. by erewrite IH.
Qed.

(** ** The download loop *)

Section Download.
Variables (x0 : idev) (L src : Z) (data : list Z).
Hypothesis Hready : ready x0.
Hypothesis Hicap : icap_ok (hconf (xdev x0)).
Hypothesis HL : 0 <= L < 2 ^ 31.
Hypothesis Hdata : read_bytes (Z.to_nat L) src (ubytes (umem x0)) = Some data.

(** After [r] bytes. *)
Definition sent (r : Z) : idev := set_xdev (configured (be_words (take (Z.to_nat r) data)) (xdev x0)) x0.

Lemma download_round_run j :
  let r := 1024 * j in let k := Z.min (L - r) 1024 in
  0 <= j -> r < L ->
  download_round L (r, src + r) (sent r) = Some (inl (r + k, src + (r + k)), sent (r + k)).
Proof.
  intros r k Hj Hr. assert (0 < k <= L - r) by lia. unfold download_round, DMA_HWICAP_BITFILE_BUFFER_SIZE.
  rewrite (proj2 (Z.leb_gt _ _)) by done. rewrite (u32_small (L - r)) by (unfold in_range; lia). fold k.
  pose proof (read_bytes_slice (Z.to_nat r) (Z.to_nat k) _ _ _ _ Hdata ltac:(lia)) as Hchunk.
  rewrite Z2Nat.id in Hchunk by lia. set (chunk := take (Z.to_nat k) (drop (Z.to_nat r) data)) in *.
  rewrite (kbind_run (copy_bytes _ k) _ (sent r) (Some chunk) (sent r)).
  2: { unfold copy_bytes, kgets. by rewrite <- Hchunk. }
  rewrite (kbind_run _ _ _ _ _ (icap_rounds_run (length (be_words chunk)) (be_words chunk) (sent r)
    (configured_ready _ _ Hready) Hicap (le_n _))).
  change (istrue 0) with false. cbn iota. unfold kret. rewrite u32_small by (unfold in_range; lia).
  rewrite Z.add_assoc. do 2 f_equal. unfold sent, set_xdev. simpl. rewrite configured_app. do 2 f_equal.
  pose proof (read_bytes_length _ _ _ _ Hdata).
  rewrite <- (be_words_app (Z.to_nat (256 * j))) by (rewrite length_take; lia). f_equal.
  unfold chunk. rewrite Z2Nat.inj_add, <- take_take_drop by lia. done.
Qed.

Lemma download_loop_run :
  kwhile (download_round L) (download_rounds L) (0, src) x0 = Some (0, sent L).
Proof.
  pose proof (read_bytes_length _ _ _ _ Hdata) as Hlen.
  destruct (kwhile_run (download_round L)
    (fun k p x => exists r, p = (r, src + r) /\ x = sent r /\ 0 <= r <= L /\
       Z.of_nat k = (L - r + 1023) / 1024 /\ (r = L \/ exists j, 0 <= j /\ r = 1024 * j))
    (fun b x => b = 0 /\ x = sent L)
    (download_rounds L) (Z.to_nat ((L + 1023) / 1024)) (0, src) x0) as (b & x & Hrun & -> & ->).
  - intros k p x (r & -> & -> & Hr & Hk & Hcase). destruct (Z.lt_ge_cases r L) as [Hlt|Hge].
    + destruct Hcase as [->|(j & Hj & ->)]; [lia|].
      eexists _, _. split; [by apply download_round_run|].
      set (k' := Z.min (L - 1024 * j) 1024). exists (Z.to_nat ((L - (1024 * j + k') + 1023) / 1024)).
      assert (0 <= (L - (1024 * j + k') + 1023) / 1024 < (L - 1024 * j + 1023) / 1024)
        by (unfold k'; Z.div_mod_to_equations; lia).
      split; [lia|]. exists (1024 * j + k'). split_and!; [done|done|lia|lia|lia|].
      destruct (Z.min_spec (L - 1024 * j) 1024); [left; lia|]. right. exists (j + 1). lia.
    + assert (r = L) as -> by lia. eexists _, _. split; [unfold download_round; by rewrite (proj2 (Z.leb_le _ _))|done].
  - exists 0. rewrite Z.add_0_r. split_and!; [done| |lia|lia| |right; by exists 0].
    + unfold sent. simpl. rewrite configured_nil. by destruct x0.
    + rewrite Z2Nat.id by (apply Z.div_pos; lia). do 2 f_equal. lia.
  - unfold download_rounds, DMA_HWICAP_BITFILE_BUFFER_SIZE. Z.div_mod_to_equations. lia.
  - exact Hrun.
Qed.
End Download.

(** ** The whole ioctl *)

(** The block with both gates set to [g], an empty FIFO and nothing pending. *)
Definition quiet (g : Z) (d : icap) : icap := Icap (hconf d) [] (config d) None g g.

Lemma icap_tick_idle d : pending d = None -> icap_tick d = d.
Proof. unfold icap_tick. by intros ->. Qed.

Lemma freezeAXIGate_run (x : idev) :
  bar_ok x -> pending (xdev x) = None -> axi_gate_frozen (lro x) = false ->
  freezeAXIGate x = Some (tt, Xcl (quiet 1 (xdev x)) (umem x) (set_frozen true (lro x))).
Proof.
  intros Hb Hp Hf. unfold freezeAXIGate. rewrite (kbind_run kget _ x x x eq_refl), Hf.
  rewrite (kbind_run _ _ _ _ _ (iowrite8_run 1 _ x Hb)). reg_at. change (u8 1) with 1.
  set (x1 := set_xdev (set_gate1 1 (xdev x)) x).
  rewrite (kbind_run _ _ _ _ _ (ndelay_run 500 x1)). rewrite icap_tick_idle by done.
  rewrite (kbind_run _ _ _ _ _ (iowrite8_run 1 _ (set_xdev (xdev x1) x1) Hb)). reg_at. change (u8 1) with 1.
  set (x2 := set_lro (set_frozen true (lro x)) (set_xdev (set_gate2 1 (xdev x1)) x1)).
  rewrite (kbind_run _ _ _ tt x2 eq_refl).
  rewrite (kbind_run _ _ _ _ _ (iowrite32_run 0xC _ x2 Hb)). reg_at.
  change (istrue (Z.land 12 12)) with true. cbn iota. by rewrite ndelay_run, icap_tick_idle.
Qed.

Lemma freeAXIGate_run (x : idev) :
  ready x -> axi_gate_frozen (lro x) = true ->
  freeAXIGate x = Some (tt, Xcl (quiet 0 (xdev x)) (umem x) (set_frozen false (lro x))).
Proof.
  intros (Hb & Hp & Hfifo) Hf. unfold freeAXIGate. rewrite (kbind_run kget _ x x x eq_refl), Hf. cbn [negb].
  rewrite (kbind_run _ _ _ _ _ (iowrite8_run 0 _ x Hb)). reg_at. change (u8 0) with 0.
  set (x1 := set_xdev (set_gate1 0 (xdev x)) x).
  rewrite (kbind_run _ _ _ _ _ (ndelay_run 500 x1)). rewrite icap_tick_idle by done.
  rewrite (kbind_run _ _ _ _ _ (iowrite8_run 0 _ (set_xdev (xdev x1) x1) Hb)). reg_at. change (u8 0) with 0.
  unfold mod_lro, kmod, quiet. simpl. unfold set_xdev, set_lro, set_gate1, set_gate2. simpl. by rewrite Hp, Hfifo.
Qed.

Lemma wait_for_done_run (x : idev) :
  ready x -> wait_for_done x = Some (0, set_lro (set_status ICAP_DOWNLOAD_FINISH (lro x)) x).
Proof.
  intros (Hb & Hp & Hf). unfold wait_for_done. change 1000%nat with (S 999). cbn [done_rounds].
  rewrite (kbind_run _ _ _ _ _ (ndelay_run (1000 * 5) x)). unfold icap_tick. rewrite Hp.
  assert (bar_ok (set_xdev (xdev x) x)) as Hb' by done.
  rewrite (kbind_run _ _ _ _ _ (ioread32_run _ _ Hb')). reg_at. unfold idle. cbn [xdev set_xdev]. rewrite Hp. reflexivity.
Qed.

Section Ioctl.
Variables (env : xcl_env) (x : idev).
Hypothesis Hbar : bar_ok x.
Hypothesis Hicap : icap_ok (hconf (xdev x)).
Hypothesis Hidle : pending (xdev x) = None.
Hypothesis Hgate : axi_gate_frozen (lro x) = false.

(** The state once the gates are closed and the stash is gone. *)
Definition closed_lro : mgmt_dev := set_frozen true (lro x).

Lemma bitstream_clear_icap_run :
  let x1 := Xcl (quiet 1 (xdev x)) (umem x) closed_lro in
  exists m, bitstream_clear_icap x1 = Some (0, Xcl (quiet 1 (xdev x)) (umem x) m) /\
    bar m = bar (lro x) /\ axi_gate_frozen m = true /\ busy m = busy (lro x).
Proof.
  unfold bitstream_clear_icap. cbn [kbind kget lro].
  destruct (clear_bitstream closed_lro); eexists; (split; [reflexivity|done]).
Qed.

Lemma bitstream_ioctl_icap_run src L buffer h data :
  (forall n, kmalloc_ok env n = true) ->
  read_bytes 1024 src (ubytes (umem x)) = Some buffer ->
  parse_header env buffer = Some (Some h) ->
  u32 (HeaderLength h + BitstreamLength h) <= L -> 0 <= L < 2 ^ 31 ->
  read_bytes (Z.to_nat L) (src + HeaderLength h) (ubytes (umem x)) = Some data ->
  exists m, bitstream_ioctl_icap env src L x =
    Some (0, Xcl (quiet 0 (configured (be_words data) (quiet 1 (xdev x)))) (umem x) m) /\
    bar m = bar (lro x) /\ axi_gate_frozen m = false /\ busy m = busy (lro x) /\
    hwicap_status m = ICAP_DOWNLOAD_FINISH.
Proof.
  intros Halloc Hbuf Hparse Hfits HL Hdata. unfold bitstream_ioctl_icap.
  rewrite (kbind_run _ _ _ _ _ (freezeAXIGate_run x Hbar Hidle Hgate)).
  destruct bitstream_clear_icap_run as (m & Hclear & Hm & Hfr & Hbusy).
  set (x2 := Xcl (quiet 1 (xdev x)) (umem x) m) in *.
  assert (ready x2) as Hr2 by (split; [exact (eq_trans Hm Hbar) | done]).
  set (x3 := set_xdev (configured (be_words data) (quiet 1 (xdev x))) x2).
  assert (icap_download env src L (Xcl (quiet 1 (xdev x)) (umem x) closed_lro) =
    Some (0, set_lro (set_status ICAP_DOWNLOAD_FINISH m) x3)) as Hdl.
  { unfold icap_download. rewrite (kbind_run _ _ _ _ _ Hclear). change (istrue 0) with false. cbn iota.
    rewrite Halloc. cbn [negb]. rewrite (kbind_run (copy_bytes src _) _ x2 (Some buffer) x2).
    2: { unfold copy_bytes, kgets. by rewrite <- Hbuf. }
    rewrite (kbind_run _ _ x2 (Some h) x2) by (by rewrite Hparse).
    rewrite (proj2 (Z.ltb_ge _ _)) by done. destruct Hr2 as (Hb2 & _).
    rewrite (kbind_run _ _ _ _ _ (iowrite32_run 0x1c _ x2 Hb2)). reg_at.
    change (istrue (Z.land 28 12)) with true. cbn iota.
    change (set_xdev (clear_fifo (xdev x2)) x2) with x2.
    rewrite (kbind_run _ _ _ _ _ (ndelay_run (1000 * 10) x2)).
    change (set_xdev (icap_tick (xdev x2)) x2) with x2.
    rewrite (kbind_run _ _ _ _ _ (download_loop_run x2 L _ data (conj Hb2 (conj eq_refl eq_refl)) Hicap HL Hdata)).
    change (istrue 0) with false. cbn iota. unfold sent.
    rewrite (firstn_all2 (n:=Z.to_nat L)) by (erewrite <- read_bytes_length by exact Hdata; done).
    erewrite kbind_run; [|apply wait_for_done_run; split; [exact Hb2|done]]. reflexivity. }
  rewrite (kbind_run _ _ _ _ _ Hdl). destruct Hr2 as (Hb2 & _).
  erewrite kbind_run; [|apply freeAXIGate_run; [split; [exact Hb2|done] | exact Hfr]].
  eexists. split; [reflexivity|]. done.
Qed.
End Ioctl.

(** C14: A download delivers the bytes it is asked for.  On a mapped, idle
    block with a FIFO of at least one word that takes any batch of words
    within 19 delays, on a device that is not busy and whose gates are not
    frozen, with allocations and access checks that succeed, a readable
    argument structure with a length [L] below 2^31 and a readable 1024-byte
    head of the file with a header the parser accepts and that, with the data
    length it announces, takes at most [L] bytes: let the [L] bytes that
    follow the header be readable too (the code counts [L] from the end of the
    header, so the last HeaderLength of them lie past a file of [L] bytes).
    Then the ioctl of the character device returns 0, and the configuration
    port has received exactly these [L] bytes as big-endian words, in order
    (the bytes of a last partial word, [L] mod 4, are dropped), each word
    while both gates were closed; the status is FINISH, the gates are open
    again and the device is no longer busy. *)
Theorem download_delivers env (x : idev) arg obj buffer h data :
  let L := fget fme_ioc_bitstream "len" (le_combine obj) in
  let src := fget fme_ioc_bitstream "buff" (le_combine obj) in
  bar_ok x -> icap_ok (hconf (xdev x)) -> pending (xdev x) = None ->
  axi_gate_frozen (lro x) = false -> busy (lro x) = false ->
  (forall n, kmalloc_ok env n = true) -> (forall a n, access_ok env a n = true) ->
  read_bytes 16 arg (ubytes (umem x)) = Some obj -> 0 <= L < 2 ^ 31 ->
  read_bytes 1024 src (ubytes (umem x)) = Some buffer ->
  parse_header env buffer = Some (Some h) ->
  u32 (HeaderLength h + BitstreamLength h) <= L ->
  read_bytes (Z.to_nat L) (src + HeaderLength h) (ubytes (umem x)) = Some data ->
  exists x', PCIe_Ioctl env true FME_IOC_ICAP_DOWNLOAD arg x = Some (0, x') /\
    config (xdev x') = config (xdev x) ++ map (pair true) (be_words data) /\
    gate1 (xdev x') = 0 /\ gate2 (xdev x') = 0 /\
    hwicap_status (lro x') = ICAP_DOWNLOAD_FINISH /\
    axi_gate_frozen (lro x') = false /\ busy (lro x') = false /\ umem x' = umem x.
Proof.
  intros L src Hbar Hicap Hidle Hgate Hbusy Halloc Hacc Harg HL Hbuf Hparse Hfits Hdata.
  set (x1 := set_lro (set_status ICAP_DOWNLOADING (set_busy true (lro x))) x).
  destruct (bitstream_ioctl_icap_run env x1 Hbar Hicap Hidle Hgate src L buffer h data Halloc Hbuf Hparse Hfits HL Hdata)
    as (m & Hrun & Hm & Hfr & Hb & Hst).
  assert (bitstream_ioctl env arg x1 =
    Some (0, Xcl (quiet 0 (configured (be_words data) (quiet 1 (xdev x)))) (umem x) m)) as Hio.
  { unfold bitstream_ioctl. rewrite (kbind_run (copy_bytes arg 16) _ x1 (Some obj) x1).
    2: { unfold copy_bytes, kgets. by rewrite <- Harg. }
    fold L src. rewrite s32_small by done. rewrite u64_small by (unfold in_range; lia). rewrite Hacc. cbn [negb].
    by rewrite (kbind_run _ _ _ _ _ Hrun). }
  unfold PCIe_Ioctl. cbn [negb]. change (_IOC_TYPE FME_IOC_ICAP_DOWNLOAD =? XCLMGMT_IOC_MAGIC) with true. cbn [negb].
  rewrite Hacc, andb_false_r. rewrite (kbind_run kget _ x x x eq_refl). rewrite Hbusy.
  rewrite (kbind_run (mod_lro (set_busy true)) _ x tt (set_lro (set_busy true (lro x)) x) eq_refl).
  rewrite Z.eqb_refl. cbn iota.
  erewrite (kbind_run (mod_lro (set_status ICAP_DOWNLOADING) ;; bitstream_ioctl env arg)); [|exact Hio].
  eexists. split; [reflexivity|]. done.
Qed.

(** A file with a header of 57 bytes and 8 bytes of data, in 2048 bytes of
    memory, and a block with a FIFO of 4 words that takes as many delays as it
    configures words. *)
Definition w_header : list Z :=
  [0; 9; 0x0f; 0xf0; 0x0f; 0xf0; 0x0f; 0xf0; 0x0f; 0xf0; 0; 0; 1] ++
  [97; 0; 2; 100; 0] ++ [98; 0; 3; 112; 49; 0] ++ [99; 0; 2; 50; 0] ++ [100; 0; 2; 51; 0] ++ [101; 0; 0; 0; 8].
Definition w_payload : list Z := [0xaa; 0x99; 0x55; 0x66; 0x20; 0; 0; 0].
Definition w_length : Z := Z.of_nat (length (w_header ++ w_payload)).
Definition w_src : Z := 0x1000.
Definition w_obj : list Z := le_split 8 w_length ++ le_split 8 w_src.
Definition w_user : user_mem := UserMem
  (list_to_map (zip (seqZ 0x100 16) w_obj ++ zip (seqZ w_src 2048) (w_header ++ w_payload ++ repeat 7 2048)))
  (fun _ => true).
Definition w_env : xcl_env := XclEnv (fun _ => true) (fun _ _ => true).
Definition w_icap (latency : list Z -> nat) : icap := Icap (IcapConf 0x80000000 4 latency) [] [] None 0 0.
Definition w_lro : mgmt_dev := MgmtDev 0 (Some 0x80000000) true None false false 0.
Definition w_x : idev := Xcl (w_icap (@length Z)) w_user w_lro.
Definition w_buffer : list Z := default [] (read_bytes 1024 w_src (ubytes w_user)).
Definition w_data : list Z := default [] (read_bytes (Z.to_nat w_length) (w_src + Z.of_nat (length w_header)) (ubytes w_user)).
Definition w_bits : XHwIcap_Bit_Header := BitHeader (Z.of_nat (length w_header)) 8 [100; 0] [112; 49; 0] [50; 0] [51; 0] 9.

Lemma w_icap_ok : icap_ok (hconf (xdev w_x)).
Proof.
  split_and!; [apply Nat.lt_0_succ | reflexivity|].
  intros ws Hws. change (length ws <= 4)%nat in Hws. change (length ws < 20)%nat. lia.
Qed.

Lemma download_delivers_witness :
  exists x', PCIe_Ioctl w_env true FME_IOC_ICAP_DOWNLOAD 0x100 w_x = Some (0, x') /\
    config (xdev x') = map (pair true) (be_words w_data).
Proof.
  destruct (download_delivers w_env w_x 0x100 w_obj w_buffer w_bits w_data) as (x' & Hrun & Hc & _).
  - reflexivity.
  - exact w_icap_ok.
  - reflexivity.
  - reflexivity.
  - reflexivity.
  - reflexivity.
  - reflexivity.
  - vm_compute. reflexivity.
  - vm_compute. split; congruence.
  - vm_compute. reflexivity.
  - vm_compute. reflexivity.
  - vm_compute. congruence.
  - vm_compute. reflexivity.
  - exists x'. exact (conj Hrun Hc).
Defined.

(** ** Isolation *)

Section Isolation.
Variables (c : icap_conf) (c0 : list (bool * Z)) (u : user_mem) (b : bool).
Hypothesis Hicap : icap_ok c.

(** The state while a download runs: the gates closed, and every word since
    its start configured while they were. *)
Record downloading (x : idev) : Prop := {
  dl_ready : ready x; dl_conf : hconf (xdev x) = c; dl_isolated : isolated (xdev x) = true;
  dl_frozen : axi_gate_frozen (lro x) = true; dl_busy : busy (lro x) = b; dl_umem : umem x = u;
  dl_words : exists ws, config (xdev x) = c0 ++ map (pair true) ws;
}.

Lemma downloading_lro f x :
  (forall m, bar (f m) = bar m /\ axi_gate_frozen (f m) = axi_gate_frozen m /\ busy (f m) = busy m) ->
  downloading x -> downloading (set_lro (f (lro x)) x).
Proof.
  intros Hf [(Hb & Hp & Hq) H1 H2 H3 H4 H5 H6]. destruct (Hf (lro x)) as (E1 & E2 & E3).
  split; simpl; try congruence. split; [exact (eq_trans E1 Hb) | done].
Qed.

Lemma downloading_mod f :
  (forall m, bar (f m) = bar m /\ axi_gate_frozen (f m) = axi_gate_frozen m /\ busy (f m) = busy m) ->
  preserves downloading (mod_lro f).
Proof. intros Hf. apply preserves_mod. intros x. by apply downloading_lro. Qed.

Lemma downloading_configured ws x : downloading x -> downloading (set_xdev (configured ws (xdev x)) x).
Proof.
  intros [Hr H1 H2 H3 H4 H5 [ws0 H6]]. split; try done.
  exists (ws0 ++ ws). simpl. by rewrite H6, H2, map_app, app_assoc.
Qed.

Lemma downloading_helper ws : preserves downloading (bitstream_icap_helper ws).
Proof.
  intros x r x' Hx. unfold bitstream_icap_helper. pose proof Hx as [Hr Hc _ _ _ _ _].
  rewrite icap_rounds_run by (rewrite ?Hc; done). intros [= <- <-]. by apply downloading_configured.
Qed.

Lemma downloading_copy a n : preserves downloading (copy_bytes (D:=icap) a n).
Proof. apply preserves_gets. Qed.

Lemma downloading_error e : preserves downloading (download_error e).
Proof. apply preserves_bind; [by apply downloading_mod | intros; apply preserves_ret]. Qed.

Lemma downloading_tick ns : preserves downloading (ndelay ns).
Proof.
  intros x r x' Hx. rewrite ndelay_run, icap_tick_idle by (by destruct Hx as [(? & ? & ?)]).
  intros [= <- <-]. by destruct x.
Qed.

(** The abort of the ICAP finds nothing to drop. *)
Lemma downloading_abort : preserves downloading (iowrite32 0x1c XHWICAP_CR).
Proof.
  intros x r x' Hx. pose proof Hx as [(Hb & Hp & Hf) _ _ _ _ _ _]. rewrite iowrite32_run by done. reg_at.
  change (istrue (Z.land 28 12)) with true. cbn iota. intros [= <- <-].
  destruct Hx as [Hr H1 H2 H3 H4 H5 H6]. by split.
Qed.

Lemma downloading_done n : preserves downloading (done_rounds n).
Proof.
  induction n as [|n IH]; cbn [done_rounds]; [apply preserves_ret|].
  apply preserves_bind; [apply downloading_tick|]. intros _. apply preserves_bind.
  - intros x r x' Hx. rewrite ioread32_run by apply Hx. by intros [= <- <-].
  - intros w. apply preserves_if; [|done]. apply preserves_bind; [by apply downloading_mod | intros; apply preserves_ret].
Qed.

Create HintDb download discriminated.
#[local] Hint Constants Opaque : download.
#[local] Hint Resolve preserves_ret preserves_bind preserves_if downloading_copy downloading_helper
  downloading_error downloading_tick downloading_abort downloading_done : download.

Lemma downloading_round L p : preserves downloading (download_round L p).
Proof.
  destruct p as [r a]. unfold download_round. apply preserves_if; [apply preserves_ret|].
  apply preserves_bind; [apply downloading_copy|]. intros [buffer|]; auto 6 with download.
Qed.

Lemma downloading_download env src L : preserves downloading (icap_download env src L).
Proof.
  unfold icap_download. apply preserves_bind.
  { intros x r x' Hx. unfold bitstream_clear_icap. cbn [kbind kget]. destruct (clear_bitstream (lro x)).
    - intros [= <- <-]. by apply (downloading_lro (set_clear None)).
    - by intros [= <- <-]. }
  intros e. apply preserves_if; [apply preserves_ret|]. apply preserves_if; [apply preserves_ret|].
  apply preserves_bind; [apply downloading_copy|]. intros [buffer|]; [|apply downloading_error].
  apply preserves_bind. { intros x r x' Hx. destruct (parse_header env buffer); [|done]. by intros [= <- <-]. }
  intros [h|]; [|apply downloading_error]. apply preserves_if; [apply downloading_error|].
  apply preserves_bind; [apply downloading_abort|]. intros _. apply preserves_bind; [apply downloading_tick|]. intros _.
  apply preserves_bind; [apply kwhile_preserves, downloading_round|]. intros err. apply preserves_if; [apply preserves_ret|].
  apply preserves_bind; [apply downloading_done | intros; apply preserves_ret].
Qed.

(** *** A download that does not crash in the header parser ends *)

Definition any {A} (_ : A) : Prop := True.

Lemma returns_run {A} (op : K idev A) x (R : A -> Prop) :
  returns downloading op R -> downloading x -> exists a x', op x = Some (a, x') /\ R a /\ downloading x'.
Proof. intros H Hx. exact (H x Hx). Qed.

Lemma returns_mod f :
  (forall m, bar (f m) = bar m /\ axi_gate_frozen (f m) = axi_gate_frozen m /\ busy (f m) = busy m) ->
  returns downloading (mod_lro f) any.
Proof. intros Hf x Hx. eexists tt, _. split; [reflexivity|]. split; [done|]. by apply downloading_lro. Qed.

Lemma returns_error e : returns downloading (download_error e) any.
Proof. eapply returns_bind; [by apply returns_mod|]. intros _ _. by apply returns_ret. Qed.

Lemma returns_tick ns : returns downloading (ndelay ns) any.
Proof.
  intros x Hx. eexists tt, _. split; [reflexivity|]. split; [done|].
  by apply (downloading_tick ns x tt).
Qed.

Lemma returns_helper ws : returns downloading (bitstream_icap_helper ws) any.
Proof.
  intros x Hx. unfold bitstream_icap_helper. pose proof Hx as [Hr Hc _ _ _ _ _].
  rewrite icap_rounds_run by (rewrite ?Hc; done). eexists _, _. split; [reflexivity|]. split; [done|].
  by apply downloading_configured.
Qed.

Lemma returns_copy a n : returns downloading (copy_bytes (D:=icap) a n) (fun o => o = read_bytes (Z.to_nat n) a (ubytes u)).
Proof. intros x Hx. eexists _, x. split; [reflexivity|]. by rewrite (dl_umem _ Hx). Qed.

Lemma returns_done n : returns downloading (done_rounds n) any.
Proof.
  induction n as [|n IH]; cbn [done_rounds]; [by apply returns_ret|].
  eapply returns_bind; [apply returns_tick|]. intros _ _. eapply (returns_bind _ _ _ any).
  - intros x Hx. rewrite ioread32_run by apply Hx. by eexists _, _.
  - intros w _. destruct (istrue _); [|done]. eapply returns_bind; [by apply returns_mod|].
    intros _ _. by apply returns_ret.
Qed.

(** A round counts up, by 1024 bytes but in the last one. *)
Lemma returns_round L r a :
  0 <= L < 2 ^ 31 -> 0 <= r ->
  returns downloading (download_round L (r, a))
    (fun o => match o with inl (r', _) => r < L /\ 0 <= r' /\ (r' = L \/ r' = r + 1024) | inr _ => True end).
Proof.
  intros HL Hr. unfold download_round, DMA_HWICAP_BITFILE_BUFFER_SIZE.
  destruct (Z.leb_spec L r); [by apply returns_ret|]. rewrite (u32_small (L - r)) by (unfold in_range; lia).
  eapply returns_bind; [apply returns_copy|]. intros [buffer|] _.
  - eapply returns_bind; [apply returns_helper|]. intros err _. destruct (istrue err).
    + eapply returns_bind; [apply returns_error|]. intros e _. by apply returns_ret.
    + apply returns_ret. rewrite u32_small by (unfold in_range; lia). lia.
  - eapply returns_bind; [apply returns_error|]. intros e _. by apply returns_ret.
Qed.

Lemma returns_loop L a :
  0 <= L < 2 ^ 31 -> returns downloading (kwhile (download_round L) (download_rounds L) (0, a)) any.
Proof.
  intros HL x Hx.
  destruct (kwhile_run (download_round L)
    (fun k p x => 0 <= fst p /\ downloading x /\ k = Z.to_nat ((L - fst p + 1023) / 1024))
    (fun _ x => downloading x) (download_rounds L) (Z.to_nat ((L + 1023) / 1024)) (0, a) x)
    as (e & x' & Hrun & Hx'); [| | |by exists e, x'].
  - intros k [r p] x1 (Hr & Hx1 & ->). simpl in Hr |- *.
    destruct (returns_round L r p HL Hr x1 Hx1) as (o & x2 & Ho & HR & Hx2). exists o, x2. split; [done|].
    destruct o as [[r' p']|]; [|done]. destruct HR as (Hlt & Hr' & Hcase). eexists. split; [|done]. simpl.
    assert (0 <= (L - r' + 1023) / 1024 < (L - r + 1023) / 1024); [|lia].
    destruct Hcase as [->| ->]; Z.div_mod_to_equations; lia.
  - simpl. split; [lia|]. split; [done|]. do 2 f_equal. lia.
  - unfold download_rounds, DMA_HWICAP_BITFILE_BUFFER_SIZE. Z.div_mod_to_equations. lia.
Qed.

Lemma returns_download env src L :
  0 <= L < 2 ^ 31 ->
  (forall buffer, read_bytes 1024 src (ubytes u) = Some buffer -> parse_header env buffer <> None) ->
  returns downloading (icap_download env src L) any.
Proof.
  intros HL Hparse. unfold icap_download. apply (returns_bind _ _ _ any).
  { intros x Hx. unfold bitstream_clear_icap. cbn [kbind kget]. destruct (clear_bitstream (lro x)).
    - eexists _, _. split; [reflexivity|]. split; [done|]. by apply (downloading_lro (set_clear None)).
    - by eexists _, _. }
  intros e _. destruct (istrue e); [by apply returns_ret|]. destruct (negb _); [by apply returns_ret|].
  eapply returns_bind; [apply returns_copy|]. intros [buffer|] Hbuf; [|apply returns_error].
  apply (returns_bind _ _ _ any).
  { intros x Hx. destruct (parse_header env buffer) as [o|] eqn:E; [by eexists _, _|]. by destruct (Hparse buffer). }
  intros [h|] _; [|apply returns_error]. destruct (_ <? _); [apply returns_error|].
  apply (returns_bind _ _ _ any).
  { intros x Hx. pose proof Hx as [(Hb & _) _ _ _ _ _ _]. eexists tt, _. split; [by apply iowrite32_run|].
    split; [done|]. by eapply downloading_abort, iowrite32_run. }
  intros _ _. eapply returns_bind; [apply returns_tick|]. intros _ _.
  eapply returns_bind; [by apply returns_loop|]. intros err _. destruct (istrue err); [by apply returns_ret|].
  eapply returns_bind; [apply returns_done|]. intros. by apply returns_ret.
Qed.

(** Between two calls. *)
Record settled (x : idev) : Prop := {
  st_gates : gate1 (xdev x) = 0 /\ gate2 (xdev x) = 0;
  st_bar : bar_ok x; st_conf : hconf (xdev x) = c; st_idle : pending (xdev x) = None;
  st_open : axi_gate_frozen (lro x) = false; st_busy : busy (lro x) = b; st_umem : umem x = u;
  st_words : exists ws, config (xdev x) = c0 ++ map (pair true) ws;
}.

Lemma settled_download env src L : preserves settled (bitstream_ioctl_icap env src L).
Proof.
  intros x r x' [H0 H1 H2 H3 H4 H5 H6 H7] H. unfold bitstream_ioctl_icap in H.
  rewrite (kbind_run _ _ _ _ _ (freezeAXIGate_run x H1 H3 H4)) in H. unfold kbind at 1 in H.
  destruct (icap_download env src L _) as [[e x2]|] eqn:E; [|discriminate].
  apply downloading_download in E as [Hr D1 D2 D3 D4 D5 D6].
  - rewrite (kbind_run _ _ _ _ _ (freeAXIGate_run x2 Hr D3)) in H. injection H as <- <-.
    destruct Hr as (Hb & _). by split.
  - by split.
Qed.

Lemma settled_mod f :
  (forall m, bar (f m) = bar m /\ axi_gate_frozen (f m) = axi_gate_frozen m /\ busy (f m) = busy m) ->
  preserves settled (mod_lro f).
Proof.
  intros Hf. apply preserves_mod. intros x [H0 H1 H2 H3 H4 H5 H6 H7]. destruct (Hf (lro x)) as (E1 & E2 & E3).
  split; simpl; try done; try congruence. exact (eq_trans E1 H1).
Qed.

Lemma settled_error e : preserves settled (download_error e).
Proof. apply preserves_bind; [by apply settled_mod | intros; apply preserves_ret]. Qed.

Lemma settled_ioctl env arg : preserves settled (bitstream_ioctl env arg).
Proof.
  unfold bitstream_ioctl. apply preserves_bind; [apply preserves_gets|]. intros [l|]; [|apply settled_error].
  apply preserves_if; [apply settled_error|]. apply preserves_bind; [apply settled_download | intros; apply preserves_ret].
Qed.

Lemma settled_returns env arg x :
  settled x ->
  (forall obj, read_bytes 16 arg (ubytes u) = Some obj ->
     let get n := fget fme_ioc_bitstream n (le_combine obj) in
     0 <= get "len"%string < 2 ^ 31 /\
     forall buffer, read_bytes 1024 (get "buff"%string) (ubytes u) = Some buffer -> parse_header env buffer <> None) ->
  is_Some (bitstream_ioctl env arg x).
Proof.
  intros [H0 H1 H2 H3 H4 H5 H6 H7] Hobj. unfold bitstream_ioctl.
  rewrite (kbind_run (copy_bytes arg 16) _ x (read_bytes 16 arg (ubytes u)) x) by (by rewrite <- H6).
  destruct (read_bytes 16 arg (ubytes u)) as [obj|]; [|by eexists].
  destruct (Hobj obj eq_refl) as [HL Hparse]. clear Hobj.
  set (L := fget fme_ioc_bitstream "len" (le_combine obj)) in *.
  set (src := fget fme_ioc_bitstream "buff" (le_combine obj)) in *. clearbody L src.
  rewrite s32_small by exact HL.
  rewrite u64_small by (unfold in_range; lia). destruct (negb _); [by eexists|].
  unfold bitstream_ioctl_icap.
  set (x1 := Xcl (quiet 1 (xdev x)) (umem x) (set_frozen true (lro x))).
  assert (downloading x1) as Hx1 by (by split).
  destruct (returns_download env src L HL Hparse x1 Hx1) as (e & x2 & Hrun & _ & [Hr D1 D2 D3 D4 D5 D6]).
  eexists. unfold kbind at 1 2. rewrite (freezeAXIGate_run x H1 H3 H4). fold x1. unfold kbind at 1.
  rewrite Hrun. unfold kbind at 1. rewrite (freeAXIGate_run x2 Hr D3). reflexivity.
Qed.
End Isolation.

Lemma set_busy_settled c c0 u b b' x :
  settled c c0 u b x -> settled c c0 u b' (set_lro (set_busy b' (lro x)) x).
Proof. intros [H0 H1 H2 H3 H4 H5 H6 H7]. by split. Qed.

(** C15: The reconfigured region stays isolated while words are sent.  On a
    mapped, idle block with a FIFO of at least one word that takes any batch of
    words within 19 delays ([slow_icap_not_isolated] is a slower one), with
    both gates open in the hardware and in the driver's flag: whatever an
    ioctl is given (any file, command, argument, memory, length, header, and
    whichever copy or allocation fails), if it returns then every word that it
    sent to the configuration port arrived while both gates were closed; both
    gates are open again, in the hardware and in the flag, nothing is pending
    in the block, the memory of the process is untouched and the device is
    busy exactly if it was before.  It does return if the argument structure,
    when it can be read, has a length that is a non-negative int and names a
    buffer on which the header parser does not crash. *)
Theorem download_isolated env own cmd arg (x : idev) :
  bar_ok x -> icap_ok (hconf (xdev x)) -> pending (xdev x) = None -> axi_gate_frozen (lro x) = false ->
  gate1 (xdev x) = 0 -> gate2 (xdev x) = 0 ->
  (forall r x', PCIe_Ioctl env own cmd arg x = Some (r, x') ->
    (exists ws, config (xdev x') = config (xdev x) ++ map (pair true) ws) /\
    gate1 (xdev x') = 0 /\ gate2 (xdev x') = 0 /\ axi_gate_frozen (lro x') = false /\
    bar_ok x' /\ pending (xdev x') = None /\ busy (lro x') = busy (lro x) /\ umem x' = umem x) /\
  ((forall obj, read_bytes 16 arg (ubytes (umem x)) = Some obj ->
     let get n := fget fme_ioc_bitstream n (le_combine obj) in
     0 <= get "len"%string < 2 ^ 31 /\
     forall buffer, read_bytes 1024 (get "buff"%string) (ubytes (umem x)) = Some buffer ->
       parse_header env buffer <> None) ->
   is_Some (PCIe_Ioctl env own cmd arg x)).
Proof.
  intros Hb Hc Hp Hf Hg1 Hg2.
  assert (settled (hconf (xdev x)) (config (xdev x)) (umem x) (busy (lro x)) x) as Hx.
  { split; try done. exists []. by rewrite app_nil_r. }
  unfold PCIe_Ioctl. split.
  - intros r x' H.
    enough (settled (hconf (xdev x)) (config (xdev x)) (umem x) (busy (lro x)) x') as [[]] by done.
    destruct own; cbn [negb] in H; [|by injection H as <- <-].
    destruct (negb _) in H; [by injection H as <- <-|].
    destruct (_ && _) in H; [by injection H as <- <-|].
    rewrite (kbind_run kget _ x x x eq_refl) in H.
    destruct (busy (lro x)) eqn:Ebusy; [by injection H as <- <-|].
    rewrite (kbind_run (mod_lro (set_busy true)) _ x tt (set_lro (set_busy true (lro x)) x) eq_refl) in H.
    apply (set_busy_settled _ _ _ _ true) in Hx. revert H. unfold kbind at 1.
    destruct (if cmd =? _ then _ else _) as [[res x2]|] eqn:E; [|done].
    intros [= <- <-]. apply set_busy_settled with true. revert E. destruct (cmd =? _).
    + apply (preserves_bind _ _ _ (settled_mod _ _ _ _ (set_status ICAP_DOWNLOADING) ltac:(done))
        (fun _ => settled_ioctl _ _ _ _ Hc _ _) _ _ _ Hx).
    + by intros [= <- <-].
  - intros Hobj. destruct own; cbn [negb]; [|by eexists].
    destruct (negb _); [by eexists|]. destruct (_ && _); [by eexists|].
    rewrite (kbind_run kget _ x x x eq_refl). destruct (busy (lro x)); [by eexists|].
    set (x1 := set_lro (set_status ICAP_DOWNLOADING (set_busy true (lro x))) x).
    rewrite (kbind_run (mod_lro (set_busy true)) _ x tt (set_lro (set_busy true (lro x)) x) eq_refl).
    destruct (cmd =? _); [|by eexists]. unfold kbind at 1.
    destruct (settled_returns (hconf (xdev x)) (config (xdev x)) (umem x) true Hc env arg x1) as [[e x2] He];
      [|exact Hobj|].
    + apply (set_busy_settled _ _ _ _ true) in Hx. destruct Hx. by split.
    + assert ((mod_lro (set_status ICAP_DOWNLOADING) ;; bitstream_ioctl env arg)
        (set_lro (set_busy true (lro x)) x) = Some (e, x2)) as -> by exact He.
      by eexists.
Qed.

(** What a read gives is what it is known to give. *)
Lemma on_read {A} (o : option A) v (Q : A -> Prop) : o = Some v -> Q v -> forall v', o = Some v' -> Q v'.
Proof. congruence. Qed.

Lemma download_isolated_witness :
  match PCIe_Ioctl w_env true FME_IOC_ICAP_DOWNLOAD 0x100 w_x with
  | Some (r, x') => (exists ws, config (xdev x') = map (pair true) ws) /\ gate1 (xdev x') = 0 /\ gate2 (xdev x') = 0
  | None => False
  end.
Proof.
  destruct (download_isolated w_env true FME_IOC_ICAP_DOWNLOAD 0x100 w_x eq_refl w_icap_ok eq_refl eq_refl
    eq_refl eq_refl) as [H1 H2].
  destruct H2 as [[r x'] E].
  - apply (on_read _ w_obj); [vm_compute; reflexivity|]. split; [vm_compute; split; congruence|].
    apply (on_read _ w_buffer); [vm_compute; reflexivity | vm_compute; discriminate].
  - destruct (H1 r x' E) as (Hw & Hg1 & Hg2 & _). rewrite E. exact (conj Hw (conj Hg1 Hg2)).
Defined.

(** It needs the block to be fast enough: one that takes longer than the 20
    delays of hwicapWrite goes on while freeAXIGate opens the gates. *)
Lemma slow_icap_not_isolated :
  match PCIe_Ioctl w_env true FME_IOC_ICAP_DOWNLOAD 0x100 (Xcl (w_icap (fun _ => 21%nat)) w_user w_lro) with
  | Some (r, x') => r = 0 /\ config (xdev x') = map (pair false) (be_words w_payload) ++ [(false, 0x07070707); (false, 0x07070707)]
  | None => False
  end.
Proof. vm_compute. by split. Qed.
