(* ===== verification/HwicapParse.v ===== *)
(** * The header of .bit files

    bitstream_parse_header against the format it reads: an encoder of headers,
    which the parser inverts, and nothing else than an encoded header is
    accepted. *)

From S2P Require Import Prelude.
From S2P Require Import Hwicap.
Local Open Scope list_scope.
Local Open Scope Z_scope.

(** ** The format *)

Definition byte_ok (b : Z) : Prop := 0 <= b < 256.
Definition short_bytes (v : Z) : list Z := [v / 256; v mod 256].

(** The bytes 0x0f and 0xf0 in turn, from the [I]-th on. *)
Fixpoint magic (n : nat) (I : Z) : list Z :=
  match n with
  | O => []
  | S n => (if I mod 2 =? 0 then XHI_EVEN_MAGIC_BYTE else XHI_ODD_MAGIC_BYTE) :: magic n (I + 1)
  end.

Definition field_bytes (tag : Z) (name : list Z) : list Z :=
  tag :: short_bytes (Z.of_nat (length name)) ++ name.

(** The header; the byte that ends the magic is not looked at. *)
Definition header_bytes (null : Z) (h : XHwIcap_Bit_Header) : list Z :=
  short_bytes (MagicLength h) ++ magic (Z.to_nat (MagicLength h - 1)) 0 ++ [null] ++ short_bytes 1 ++
  field_bytes tag_a (DesignName h) ++ field_bytes (tag_a + 1) (PartName h) ++
  field_bytes (tag_a + 2) (Date h) ++ field_bytes (tag_a + 3) (Time h) ++
  [tag_a + 4] ++ short_bytes (BitstreamLength h / 65536) ++ short_bytes (BitstreamLength h mod 65536).

(** A string of the header, with its null byte. *)
Definition name_ok (name : list Z) : Prop := list.last name = Some 0 /\ Z.of_nat (length name) < 65536.

Record header_ok (h : XHwIcap_Bit_Header) : Prop := {
  hd_magic : 1 <= MagicLength h < 65536;
  hd_design : name_ok (DesignName h); hd_part : name_ok (PartName h);
  hd_date : name_ok (Date h); hd_time : name_ok (Time h);
  hd_bits : 0 <= BitstreamLength h < 2 ^ 32;
  hd_length : forall null, HeaderLength h = Z.of_nat (length (header_bytes null h));
}.

(** ** The steps of the parser *)

Lemma lor_shiftl n hi lo : 0 <= n -> 0 <= lo < 2 ^ n -> Z.lor (Z.shiftl hi n) lo = 2 ^ n * hi + lo.
Proof.
  intros Hn Hlo. assert (Z.land (Z.shiftl hi n) lo = 0) as Hz.
  { apply Z.bits_inj'. intros i Hi. rewrite Z.land_spec, Z.bits_0. destruct (Z.lt_ge_cases i n).
    - by rewrite Z.shiftl_spec_low.
    - apply andb_false_iff. right. rewrite <- (Z.mod_small lo (2 ^ n)) by done. by apply Z.mod_pow2_bits_high. }
  rewrite <- Z.lxor_lor, <- Z.add_nocarry_lxor by done. rewrite Z.shiftl_mul_pow2 by done. ring.
Qed.

Lemma next_short_run v rest :
  0 <= v < 65536 -> next_short (short_bytes v ++ rest) = Some (v, rest).
Proof.
  intros Hv. cbn. rewrite lor_shiftl by (try apply Z.mod_pos_bound; lia). do 2 f_equal.
  change (2 ^ 8) with 256. rewrite <- Z.div_mod; lia.
Qed.

Lemma next_bytes_run l rest : next_bytes (length l) (l ++ rest) = Some (l, rest).
Proof. induction l as [|b l IH]; [done|]. simpl. unfold kbind in IH. by rewrite IH. Qed.

Lemma magic_bytes_run n I N rest :
  Z.of_nat n = N - I -> magic_bytes (magic n I ++ rest) I N = Some (true, rest).
Proof.
  revert I. induction n as [|n IH]; intros I Hn.
  - cbn [magic app]. destruct rest; cbn [magic_bytes]; by rewrite (proj2 (Z.leb_le _ _)) by lia.
  - cbn [magic app magic_bytes]. rewrite (proj2 (Z.leb_gt _ _)) by lia. rewrite Z.eqb_refl. cbn [negb].
    apply IH. lia.
Qed.

(** And backwards: what a step read is what it found. *)

Lemma next_byte_inv l v rest : next_byte l = Some (v, rest) -> l = v :: rest.
Proof. destruct l; [done|]. by intros [= <- <-]. Qed.

Lemma next_short_inv l v rest :
  Forall byte_ok l -> next_short l = Some (v, rest) ->
  l = short_bytes v ++ rest /\ 0 <= v < 65536 /\ Forall byte_ok rest.
Proof.
  intros Hl H. destruct l as [|hi [|lo l]]; try done. cbn in H.
  inversion_clear Hl as [|? ? Hhi Hl1]. inversion_clear Hl1 as [|? ? Hlo Hl2]. unfold byte_ok in *.
  rewrite lor_shiftl in H by lia. change (2 ^ 8) with 256 in H. injection H as <- <-.
  split_and!; [|lia..|done]. unfold short_bytes. cbn [app]. f_equal; [|f_equal].
  - by apply Z.div_unique with lo; [left|].
  - by apply Z.mod_unique with hi; [left|].
Qed.

Lemma next_bytes_inv n l r rest : next_bytes n l = Some (r, rest) -> l = r ++ rest /\ length r = n.
Proof.
  revert l r. induction n as [|n IH]; intros l r H; [by injection H as <- <-|].
  destruct l as [|b l]; [done|]. cbn in H. unfold kbind in H.
  destruct (next_bytes n l) as [[r1 rest1]|] eqn:E; [|done]. injection H as <- <-.
  destruct (IH _ _ E) as [-> <-]. done.
Qed.

Lemma magic_bytes_inv l I N rest :
  I <= N -> magic_bytes l I N = Some (true, rest) -> l = magic (Z.to_nat (N - I)) I ++ rest.
Proof.
  revert I. induction l as [|b l IH]; intros I HI H; cbn [magic_bytes] in H; destruct (Z.leb_spec N I).
  1, 3: replace (N - I) with 0 by lia; by injection H as <-.
  - done.
  - destruct (b =? _) eqn:Eb; cbn [negb] in H; [|done]. apply Z.eqb_eq in Eb. apply IH in H; [|lia].
    replace (Z.to_nat (N - I)) with (S (Z.to_nat (N - (I + 1)))) by lia. cbn [magic app]. by rewrite Eb, H at 1.
Qed.

(** ** Fields *)

Section Fields.
Variable env : xcl_env.
Hypothesis kmalloc_succeeds : forall n, kmalloc_ok env n = true.

Lemma string_field_run tag name rest :
  name_ok name -> string_field env tag (field_bytes tag name ++ rest) = Some (Some name, rest).
Proof.
  intros [Hlast Hlen]. unfold string_field, field_bytes. cbn [app].
  rewrite (kbind_run next_byte _ _ tag (short_bytes (Z.of_nat (length name)) ++ name ++ rest)).
  2: { by cbn. }
  rewrite Z.eqb_refl. cbn [negb].
  rewrite (kbind_run _ _ _ _ _ (next_short_run (Z.of_nat (length name)) (name ++ rest) ltac:(lia))).
  rewrite kmalloc_succeeds. cbn [negb]. rewrite Nat2Z.id.
  rewrite (kbind_run _ _ _ _ _ (next_bytes_run name rest)). rewrite Hlast. reflexivity.
Qed.

Lemma field_then_run {A} tag name (k : list Z -> K (list Z) (option A)) rest :
  name_ok name -> field_then env tag k (field_bytes tag name ++ rest) = k name rest.
Proof. intros Hn. unfold field_then. by rewrite (kbind_run _ _ _ _ _ (string_field_run tag name rest Hn)). Qed.

Lemma field_then_inv {A} tag (k : list Z -> K (list Z) (option A)) l (a : A) rest :
  Forall byte_ok l -> field_then env tag k l = Some (Some a, rest) ->
  exists name rest1, l = field_bytes tag name ++ rest1 /\ name_ok name /\ Forall byte_ok rest1 /\
    k name rest1 = Some (Some a, rest).
Proof.
  intros Hl H. unfold field_then, string_field in H.
  destruct l as [|t l]; [done|]. inversion_clear Hl as [|? ? Ht Hl1]. cbn [kbind next_byte] in H.
  destruct (t =? tag) eqn:Et; cbn [negb] in H; [|done]. apply Z.eqb_eq in Et as ->.
  unfold kbind in H. destruct (next_short l) as [[n l1]|] eqn:En; [|done].
  apply next_short_inv in En as (-> & Hn & Hl2); [|done]. rewrite kmalloc_succeeds in H. cbn [negb] in H.
  destruct (next_bytes (Z.to_nat n) l1) as [[name l2]|] eqn:Eb; [|done].
  apply next_bytes_inv in Eb as [-> Hlen]. unfold deref in H.
  destruct (list.last name) as [z|] eqn:Elast; [|done]. unfold kret in H.
  destruct (z =? 0) eqn:Ez; [|done]. apply Z.eqb_eq in Ez as ->. apply Forall_app in Hl2 as [_ Hl3].
  exists name, l2. split_and!; [|by split; [|lia]|done|done].
  unfold field_bytes. cbn [app]. rewrite <- app_assoc. by replace (Z.of_nat (length name)) with n by lia.
Qed.
End Fields.

(** ** The parser *)

Lemma magic_bytes_long l I N rest :
  magic_bytes l I N = Some (true, rest) -> N - I <= Z.of_nat (length l).
Proof.
  revert I. induction l as [|b l IH]; intros I H; cbn [magic_bytes] in H; destruct (Z.leb_spec N I); simpl; [lia|done|lia|].
  destruct (negb _) in H; [done|]. apply IH in H. lia.
Qed.

Lemma header_length_null null null' h : length (header_bytes null h) = length (header_bytes null' h).
Proof. unfold header_bytes. by rewrite !length_app. Qed.

Lemma shorts_of_long v : 0 <= v < 2 ^ 32 -> 0 <= v / 65536 < 65536 /\ 0 <= v mod 65536 < 65536.
Proof. intros Hv. split; [|by apply Z.mod_pos_bound]. split; [by apply Z.div_pos; lia | by apply Z.div_lt_upper_bound; lia]. Qed.

(** What follows the strings. *)
Lemma short_join hi lo : 0 <= lo < 65536 -> Z.lor (Z.shiftl hi 16) lo = 65536 * hi + lo.
Proof. intros H. rewrite lor_shiftl by lia. done. Qed.

Section Parse.
Variable env : xcl_env.
Hypothesis kmalloc_succeeds : forall n, kmalloc_ok env n = true.

Lemma parse_encoded null h rest :
  header_ok h -> parse_header env (header_bytes null h ++ rest) = Some (Some h).
Proof.
  intros [Hm Hn1 Hn2 Hn3 Hn4 Hb Hlen]. specialize (Hlen null).
  destruct (shorts_of_long _ Hb) as [Hhi Hlo]. unfold parse_header, bitstream_parse_header.
  set (all := header_bytes null h ++ rest).
  assert (Z.of_nat (length all - length rest) = HeaderLength h) as Hlength.
  { unfold all. rewrite length_app, Hlen. f_equal. lia. }
  unfold all at 2, header_bytes. rewrite <- !app_assoc.
  erewrite (kbind_run next_short); [|by apply next_short_run; lia].
  assert (u32 (MagicLength h - 1) = MagicLength h - 1) as -> by (apply u32_small; unfold in_range; lia).
  erewrite kbind_run; [|apply magic_bytes_run; lia]. cbn [negb].
  erewrite (kbind_run next_byte); [|reflexivity].
  erewrite (kbind_run next_short); [|by apply next_short_run]. change (negb (1 =? 1)) with false. cbn iota.
  do 4 (rewrite field_then_run by done).
  erewrite (kbind_run next_byte); [|reflexivity]. rewrite Z.eqb_refl. cbn [negb].
  erewrite (kbind_run next_short); [|by apply next_short_run].
  erewrite (kbind_run next_short); [|by apply next_short_run].
  unfold kbind, kget, kret, fmap, option_fmap. cbn [option_map fst].
  rewrite Hlength, short_join, <- Z.div_mod by done. by destruct h.
Qed.

(** A step of the parser, backwards. *)
Ltac step_back H a rest E :=
  unfold kbind at 1 in H;
  match type of H with match ?c with _ => _ end = _ => destruct c as [[a rest]|] eqn:E; [|discriminate H] end.

Lemma parse_accepted Data h :
  Forall byte_ok Data -> Z.of_nat (length Data) < 2 ^ 32 - 1 -> parse_header env Data = Some (Some h) ->
  header_ok h /\ exists null rest, Data = header_bytes null h ++ rest.
Proof.
  intros Hd Hsize H. unfold parse_header in H.
  destruct (bitstream_parse_header env Data Data) as [[r l]|] eqn:E; [|done]. simpl in H. injection H as ->.
  unfold bitstream_parse_header in E. step_back E M l1 E1. apply next_short_inv in E1 as (E1 & HM & Hd1); [|done].
  step_back E ok l2 E2. destruct ok; cbn [negb] in E; [|done].
  assert (1 <= M) as HM1.
  { apply magic_bytes_long in E2. destruct (Z.eq_dec M 0) as [->|]; [|lia].
    change (u32 (0 - 1)) with (2 ^ 32 - 1) in E2. rewrite E1, length_app in Hsize. lia. }
  rewrite u32_small in E2 by (unfold in_range; lia). apply magic_bytes_inv in E2; [|lia]. rewrite Z.sub_0_r in E2.
  rewrite E2 in Hd1. apply Forall_app in Hd1 as [_ Hd2].
  step_back E null l3 E3. apply next_byte_inv in E3. rewrite E3 in Hd2. inversion_clear Hd2 as [|? ? _ Hd3].
  step_back E one l4 E4. apply next_short_inv in E4 as (E4 & _ & Hd4); [|done].
  destruct (one =? 1) eqn:Eone; cbn [negb] in E; [|done]. apply Z.eqb_eq in Eone as ->.
  apply (field_then_inv env kmalloc_succeeds) in E as (n1 & l5 & E5 & Hn1 & Hd5 & E); [|done].
  apply (field_then_inv env kmalloc_succeeds) in E as (n2 & l6 & E6 & Hn2 & Hd6 & E); [|done].
  apply (field_then_inv env kmalloc_succeeds) in E as (n3 & l7 & E7 & Hn3 & Hd7 & E); [|done].
  apply (field_then_inv env kmalloc_succeeds) in E as (n4 & l8 & E8 & Hn4 & Hd8 & E); [|done].
  step_back E e l9 E9. apply next_byte_inv in E9. rewrite E9 in Hd8. inversion_clear Hd8 as [|? ? _ Hd9].
  destruct (e =? tag_a + 4) eqn:Ee; cbn [negb] in E; [|done]. apply Z.eqb_eq in Ee as ->.
  step_back E hi l10 E10. apply next_short_inv in E10 as (E10 & Hhi & Hd10); [|done].
  step_back E lo l11 E11. apply next_short_inv in E11 as (E11 & Hlo & Hd11); [|done].
  unfold kbind, kget, kret in E. rewrite short_join in E by done. injection E as Hh <-.
  set (h' := BitHeader _ _ _ _ _ _ _) in Hh.
  assert (Data = header_bytes null h' ++ l11) as Hdata.
  { unfold header_bytes. cbn [MagicLength DesignName PartName Date Time BitstreamLength h'].
    rewrite <- (Z.div_unique (65536 * hi + lo) 65536 hi lo), <- (Z.mod_unique (65536 * hi + lo) 65536 hi lo) by lia.
    rewrite <- !app_assoc. by rewrite E1, E2, E3, E4, E5, E6, E7, E8, E9, E10, E11 at 1. }
  subst h. split; [|by exists null, l11]. split; cbn [MagicLength DesignName PartName Date Time BitstreamLength HeaderLength h']; try done; [lia|lia|].
  intros null'. rewrite (header_length_null null' null). rewrite Hdata, length_app. f_equal. lia.
Qed.
End Parse.

(** C16: The parser of .bit headers accepts exactly the headers of the format
    and gives their contents.  On the 1024 bytes that the driver copies from
    the file, and with allocations that succeed, it answers with [h] if and
    only if the bytes begin with the encoding of [h]: the magic, the four
    strings with their tags, lengths and null bytes, the length of the bits;
    [HeaderLength] is the length of that encoding in bytes (where the comment
    of the structure says 32-bit words). *)
Theorem parse_header_accepts env Data h :
  (forall n, kmalloc_ok env n = true) -> Forall byte_ok Data ->
  Z.of_nat (length Data) = DMA_HWICAP_BITFILE_BUFFER_SIZE ->
  parse_header env Data = Some (Some h) <->
  header_ok h /\ exists null rest, Data = header_bytes null h ++ rest.
Proof.
  intros Hk Hd Hl. split.
  - apply parse_accepted; [done..|]. rewrite Hl. reflexivity.
  - intros (Hh & null & rest & ->). by apply parse_encoded.
Qed.

Definition w_bit_header : XHwIcap_Bit_Header :=
  BitHeader 57 8 [100; 0] [112; 49; 0] [50; 48; 0] [51; 58; 0] 9.
Definition w_bit_file : list Z := let l := header_bytes 0 w_bit_header in l ++ repeat 7 (1024 - length l).

Lemma parse_header_accepts_witness :
  parse_header (XclEnv (fun _ => true) (fun _ _ => true)) w_bit_file =
  Some (Some (BitHeader (Z.of_nat (length (header_bytes 0 w_bit_header))) 8 [100; 0] [112; 49; 0] [50; 48; 0] [51; 58; 0] 9)).
Proof.
  apply (parse_header_accepts (XclEnv (fun _ => true) (fun _ _ => true)) w_bit_file).
  - done.
  - by apply (bool_decide_unpack _); vm_compute.
  - reflexivity.
  - split; [split; try (split; [reflexivity|]; done); try done|].
    by exists 0, (repeat 7 (1024 - length (header_bytes 0 w_bit_header))).
Defined.

(** A magic longer than the buffer is read past its end. *)
Lemma header_read_past_end : parse_header (XclEnv (fun _ => true) (fun _ _ => true)) (8 :: 0 :: magic 1022 0) = None.
Proof. reflexivity. Qed.

(** A string of length 0 is read before its start. *)
Lemma empty_name_read_before_start :
  parse_header (XclEnv (fun _ => true) (fun _ _ => true)) ([0; 1; 0; 0; 1; 97; 0; 0] ++ repeat 0 1016) = None.
Proof. reflexivity. Qed.
