(* ===== verification/HwicapPci.v ===== *)
(** * The ICAP downloader: probe, remove and the module (drv_pcie_hwicap/pcie.c)

    What the driver holds of the PCI device and of the kernel, the table of its
    devices, and the theorems about probe and remove. *)

From S2P Require Import Prelude.
From S2P Require Import Hwicap.
Local Open Scope list_scope.
Local Open Scope Z_scope.

(** A PCI function: what is enabled or registered for it, and its driver data. *)
Record pci_fn := PciFn {
  enabled : bool; regions : bool; mapped : bool; cdev_on : bool; device_on : bool;
  drvdata : option mgmt_dev;
}.
Definition no_fn : pci_fn := PciFn false false false false false None.

Definition set_enabled v f := PciFn v (regions f) (mapped f) (cdev_on f) (device_on f) (drvdata f).
Definition set_regions v f := PciFn (enabled f) v (mapped f) (cdev_on f) (device_on f) (drvdata f).
Definition set_mapped v f := PciFn (enabled f) (regions f) v (cdev_on f) (device_on f) (drvdata f).
Definition set_cdev v f := PciFn (enabled f) (regions f) (mapped f) v (device_on f) (drvdata f).
Definition set_device v f := PciFn (enabled f) (regions f) (mapped f) (cdev_on f) v (drvdata f).
Definition set_drvdata v f := PciFn (enabled f) (regions f) (mapped f) (cdev_on f) (device_on f) v.

(** The function that is probed, the counter [instance], the table, and the
    module's own registrations. *)
Record xcl_mod := XclMod {
  fn : pci_fn; instance : Z; dev_table : list bool;
  class_on : bool; chrdev_on : bool; driver_on : bool;
}.
Definition set_fn f m := XclMod f (instance m) (dev_table m) (class_on m) (chrdev_on m) (driver_on m).
Definition set_next i m := XclMod (fn m) i (dev_table m) (class_on m) (chrdev_on m) (driver_on m).
Definition set_table t m := XclMod (fn m) (instance m) t (class_on m) (chrdev_on m) (driver_on m).
Definition set_class v m := XclMod (fn m) (instance m) (dev_table m) v (chrdev_on m) (driver_on m).
Definition set_chrdev v m := XclMod (fn m) (instance m) (dev_table m) (class_on m) v (driver_on m).
Definition set_driver v m := XclMod (fn m) (instance m) (dev_table m) (class_on m) (chrdev_on m) v.

(** What the PCI core and the kernel answer. *)
Record pci_env := PciEnv {
  pci_enable_ret : Z; lro_alloc : bool; regions_ret : Z;
  bar_length : Z; iomap : option Z;
  char_alloc : bool; cdev_ret : Z; device_ret : Z;      (* 0, or an error pointer *)
  sriov_ret : Z;
  class_ret : Z; chrdev_ret : Z; driver_ret : Z;
}.

Section Pci.
Variable env : pci_env.
Abbreviation pmod := xcl_mod.

Definition mod_fn (f : pci_fn -> pci_fn) : K pmod unit := kmod (fun m => set_fn (f (fn m)) m).
Definition mod_dev (f : mgmt_dev -> mgmt_dev) : K pmod unit :=
  m <- kget ;; d <- deref (drvdata (fn m)) ;; mod_fn (set_drvdata (Some (f d))).

(** A store into the table; a slot past its end is another variable's. *)
Definition set_slot (i : Z) (v : bool) : K pmod unit :=
  m <- kget ;;
  if i <? Z.of_nat (length (dev_table m)) then kput (set_table (<[Z.to_nat i := v]> (dev_table m)) m) else oops.

(** Whether the device was created. *)
Definition create_char : K pmod bool :=
  if negb (char_alloc env) then kret false
  else if cdev_ret env <? 0 then kret false
  else
    mod_fn (set_cdev true) ;;
    if istrue (device_ret env) then mod_fn (set_cdev false) ;; kret false
    else mod_fn (set_device true) ;; kret true.

Definition destroy_sg_char : K pmod Z :=
  m <- kget ;;
  if negb (device_on (fn m)) then oops
  else mod_fn (set_device false) ;; mod_fn (set_cdev false) ;; kret 0.

(** There is one BAR (PF_MAX_BAR). *)
Definition unmap_bars : K pmod unit :=
  m <- kget ;; d <- deref (drvdata (fn m)) ;;
  match bar d with
  | None => kret tt
  | Some _ => mod_fn (set_mapped false) ;; mod_dev (set_bar None)
  end.

Definition map_bars : K pmod Z :=
  mod_dev (set_bar None) ;;
  if bar_length env =? 0 then kret 0
  else
    match iomap env with
    | None => unmap_bars ;; kret (- EIO)
    | Some a => mod_fn (set_mapped true) ;; mod_dev (set_bar (Some a)) ;; kret 0
    end.

(** The labels of the error exits, the later ones first. *)
Definition err_alloc (rc : Z) : K pmod Z := mod_fn (set_enabled false) ;; kret rc.
Definition err_regions (rc : Z) : K pmod Z := mod_fn (set_drvdata None) ;; err_alloc rc.
Definition err_map (rc : Z) : K pmod Z := mod_fn (set_regions false) ;; err_regions rc.
Definition err_cdev (rc : Z) : K pmod Z :=
  m <- kget ;; d <- deref (drvdata (fn m)) ;;
  set_slot (m_instance d) false ;; unmap_bars ;; err_map rc.

(** rc stays 0 when an allocation or create_char fails. *)
Definition PCIe_probe : K pmod Z :=
  if istrue (pci_enable_ret env) then kret (pci_enable_ret env)
  else
    mod_fn (set_enabled true) ;;
    if negb (lro_alloc env) then err_alloc 0
    else
      mod_fn (set_drvdata (Some (MgmtDev 0 None false None false false 0))) ;;
      if istrue (regions_ret env) then err_regions (regions_ret env)
      else
        mod_fn (set_regions true) ;;
        rc <- map_bars ;;
        if istrue rc then err_map rc
        else
          m <- kget ;;
          mod_dev (set_instance (instance m)) ;;
          kmod (set_next (instance m + 1)) ;;
          created <- create_char ;;
          if negb created then err_cdev 0
          else
            mod_dev (set_char_dev true) ;;
            mod_dev (set_busy false) ;;
            set_slot (instance m) true ;;
            kret 0.

Definition PCIe_remove : K pmod unit :=
  m <- kget ;;
  match drvdata (fn m) with
  | None => kret tt
  | Some d =>
      set_slot (m_instance d) false ;;
      (if user_char_dev d then destroy_sg_char ;; mod_dev (set_char_dev false) else kret tt) ;;
      unmap_bars ;;
      mod_fn (set_enabled false) ;;
      mod_fn (set_regions false) ;;
      mod_fn (set_drvdata None)
  end.

Definition sriov_config (num_vfs : Z) : K pmod Z :=
  let num_vfs := if 4 <? num_vfs then 4 else num_vfs in
  if istrue (sriov_ret env) then kret 0 else kret num_vfs.

Definition PCIe_init : K pmod Z :=
  kmod (set_table (repeat false (Z.to_nat XCLMGMT_MINOR_COUNT))) ;;
  if istrue (class_ret env) then kret (class_ret env)
  else
    kmod (set_class true) ;;
    if istrue (chrdev_ret env) then kmod (set_class false) ;; kret (chrdev_ret env)
    else
      kmod (set_chrdev true) ;;
      if istrue (driver_ret env) then
        kmod (set_chrdev false) ;; kmod (set_class false) ;; kret (driver_ret env)
      else kmod (set_driver true) ;; kret 0.

Definition PCIe_exit : K pmod unit :=
  kmod (set_driver false) ;; kmod (set_chrdev false) ;; kmod (set_class false).
End Pci.

(** A function whose driver is set up. *)
Definition up (f : pci_fn) : Prop :=
  exists d, f = PciFn true true (match bar d with Some _ => true | None => false end) true true (Some d) /\
    user_char_dev d = true /\ busy d = false /\ axi_gate_frozen d = false.

(** The table has room for the next instance. *)
Definition has_slot (m : xcl_mod) : Prop := 0 <= instance m < Z.of_nat (length (dev_table m)).

Lemma set_slot_run i v m :
  0 <= i < Z.of_nat (length (dev_table m)) ->
  set_slot i v m = Some (tt, set_table (<[Z.to_nat i := v]> (dev_table m)) m).
Proof. intros Hi. unfold set_slot. cbn [kbind kget]. by rewrite (proj2 (Z.ltb_lt _ _)) by lia. Qed.

Lemma PCIe_remove_run m d :
  drvdata (fn m) = Some d -> user_char_dev d = true -> device_on (fn m) = true ->
  (bar d = None -> mapped (fn m) = false) ->
  0 <= m_instance d < Z.of_nat (length (dev_table m)) ->
  PCIe_remove m = Some (tt, set_table (<[Z.to_nat (m_instance d) := false]> (dev_table m)) (set_fn no_fn m)).
Proof.
  destruct m as [[en rg mp cd dv dd] i t c k r]. simpl. intros -> Hc -> Hb Hi.
  unfold PCIe_remove. cbn [kbind kget fn drvdata]. rewrite (set_slot_run (m_instance d)) by done. rewrite Hc.
  destruct (bar d) eqn:Eb; cbn; rewrite Eb; [done|]. by rewrite Hb.
Qed.

(** How probe ends: with nothing of the function, or with all of it and
    remove as its inverse. *)
Definition settles (i : Z) (t : list bool) (rc : Z) (m' : xcl_mod) : Prop :=
  (fn m' = no_fn /\ dev_table m' = t) \/
  (rc = 0 /\ up (fn m') /\ dev_table m' = <[Z.to_nat i := true]> t /\
   exists m'', PCIe_remove m' = Some (tt, m'') /\ fn m'' = no_fn /\ dev_table m'' = t).

(** Probe after the BAR was mapped at [b]. *)
Definition probed (b : option Z) (i : Z) (cdev dev : bool) : pci_fn :=
  PciFn true true (match b with Some _ => true | None => false end) cdev dev
    (Some (MgmtDev i b false None false false 0)).

Section Probe.
Variables (env : pci_env) (i : Z) (t : list bool) (c k r : bool).
Hypothesis Hi : 0 <= i < Z.of_nat (length t).
Hypothesis Hfree : t !! Z.to_nat i = Some false.

Lemma slot_cleared b : <[Z.to_nat i := false]> (<[Z.to_nat i := b]> t) = t.
Proof. rewrite list_insert_insert_eq. by apply list_insert_id. Qed.

Lemma err_cdev_run b rc :
  err_cdev rc (XclMod (probed b i false false) (i + 1) t c k r) = Some (rc, XclMod no_fn (i + 1) t c k r).
Proof.
  unfold err_cdev. cbn [kbind kget fn drvdata probed deref]. rewrite (set_slot_run i) by done.
  rewrite list_insert_id by done. by destruct b.
Qed.

Lemma create_step b :
  exists rc m', (created <- create_char env ;;
     if negb created then err_cdev 0
     else mod_dev (set_char_dev true) ;; mod_dev (set_busy false) ;; set_slot i true ;; kret 0)
    (XclMod (probed b i false false) (i + 1) t c k r) = Some (rc, m') /\ settles i t rc m'.
Proof.
  unfold create_char. destruct (char_alloc env); cbn [negb].
  2: { eexists _, _. split; [apply err_cdev_run | by left]. }
  destruct (cdev_ret env <? 0). { eexists _, _. split; [apply err_cdev_run | by left]. }
  destruct (istrue (device_ret env)). { eexists _, _. split; [apply (err_cdev_run b 0) | by left]. }
  eexists _, _. split.
  { cbn. unfold set_slot. cbn. rewrite (proj2 (Z.ltb_lt _ _)) by lia. reflexivity. }
  right. split; [done|]. split; [by exists (MgmtDev i b true None false false 0)|]. split; [done|].
  eexists. split; [|split].
  - apply (PCIe_remove_run _ (MgmtDev i b true None false false 0)); try done; [by intros Hb; simpl in Hb; subst b|].
    simpl. by rewrite length_insert.
  - done.
  - simpl. apply slot_cleared.
Qed.
End Probe.

(** Probe takes everything or nothing, and remove gives everything back.
    Whatever the PCI core and the kernel answer, if the table has a slot for
    the instance, probe ends: either nothing of the function stays enabled,
    requested, mapped or registered and the table holds nothing for it, or the
    function is set up, its slot is taken, probe returned 0, and remove
    releases all of it and frees the slot.  Other slots are not touched. *)
Lemma probe_all_or_nothing env m :
  fn m = no_fn -> has_slot m -> dev_table m !! Z.to_nat (instance m) = Some false ->
  exists rc m', PCIe_probe env m = Some (rc, m') /\
    settles (instance m) (dev_table m) rc m'.
Proof.
  destruct m as [f i t c k r]. unfold has_slot. simpl. intros -> Hi Ht.
  unfold PCIe_probe, create_char, map_bars.
  destruct (istrue (pci_enable_ret env)); [by eexists _, _; split; [reflexivity|left]|].
  destruct (lro_alloc env); [|by eexists _, _; split; [reflexivity|left]].
  destruct (istrue (regions_ret env)); [by eexists _, _; split; [reflexivity|left]|].
  cbn [kbind mod_fn kmod negb].
  pose proof (create_step env i t c k r Hi Ht) as Hchar.
  destruct (bar_length env =? 0).
  - destruct (Hchar None) as (rc & m' & Hrun & H). exists rc, m'. split; [exact Hrun|exact H].
  - destruct (iomap env) as [a|]; [|by eexists _, _; split; [reflexivity|left]].
    destruct (Hchar (Some a)) as (rc & m' & Hrun & H). exists rc, m'. split; [exact Hrun|exact H].
Qed.

(** Probe answers 0 when an allocation or the character device failed: the PCI
    core takes the function for bound. *)
Lemma probe_hides_failure :
  let env := PciEnv 0 false 0 0x20000 (Some 0x80000000) true 0 0 0 0 0 0 in
  exists m', PCIe_probe env (XclMod no_fn 0 (repeat false 16) true true true) = Some (0, m') /\ fn m' = no_fn.
Proof. by eexists. Qed.

(** A counter that only grows runs past the table, even if every device was
    removed again. *)
Lemma instances_exhausted :
  PCIe_probe (PciEnv 0 true 0 0x20000 (Some 0x80000000) true 0 0 0 0 0 0)
    (XclMod no_fn 16 (repeat false 16) true true true) = None.
Proof. reflexivity. Qed.

(** Without BAR 0 probe succeeds, and the first download accesses address 0. *)
Lemma no_bar_oops {D} {dev : Mmio32.Mmio32 D} {delay : NDelay D} env src L (x : xcl D) :
  bar (lro x) = None -> bitstream_ioctl_icap env src L x = None.
Proof.
  intros Hb. unfold bitstream_ioctl_icap, freezeAXIGate, iowrite8. cbn. destruct (axi_gate_frozen (lro x)); [done|].
  cbn. by rewrite Hb.
Qed.
