(* ===== verification/Xspi.v ===== *)
(** * The flash programmer: transfers and commands (app_pcie_qspi/xbflash)

    A user program of the port writes the configuration flash through the AXI
    Quad SPI core in BAR 0.  This file holds the members of XSPI_Flasher that
    speak to the core and to the flash (xspi.cpp, with the accesses of
    flasher.cpp); reading the MCS file and programming it is in XspiMcs.v.  A
    failed assert, an exception and an access outside a buffer end the process:
    an oops.  The core tells when a transfer is over; [polls] is the number of
    status reads after which it is taken to hang. *)

From S2P Require Import Prelude.
From S2P Require Import Mmio32.
From S2P Require Import Loops.
From S2P Require Import Hwicap.
Local Open Scope list_scope.
Local Open Scope Z_scope.

(** ** Constants *)

Definition FLASH_BASE_ADDRESS : Z := 0x00013000.
Definition FOUR_BYTE_ADDRESSING : bool := false.
(* PAGE_SIZE, which is the page of the MMU elsewhere *)
Definition XSPI_PAGE_SIZE : Z := 256.
Definition WRITE_DATA_SIZE : Z := 128.
Definition READ_DATA_SIZE : Z := 128.
Definition COMMAND_PAGE_PROGRAM : Z := 0x02.
Definition COMMAND_QUAD_WRITE : Z := 0x32.
Definition COMMAND_4KB_SUBSECTOR_ERASE : Z := 0x20.
Definition COMMAND_BULK_ERASE : Z := 0xC7.
Definition COMMAND_DUAL_READ : Z := 0x3B.
Definition COMMAND_DUAL_IO_READ : Z := 0xBB.
Definition COMMAND_QUAD_READ : Z := 0x6B.
Definition COMMAND_QUAD_IO_READ : Z := 0xEB.
Definition COMMAND_IDCODE_READ : Z := 0x9F.
Definition COMMAND_STATUSREG_READ : Z := 0x05.
Definition COMMAND_EXTENDED_ADDRESS_REG_WRITE : Z := 0xC5.
Definition FOUR_BYTE_READ : Z := 0x13.
Definition FOUR_BYTE_QUAD_OUTPUT_FAST_READ : Z := 0x6C.
Definition FOUR_BYTE_QUAD_INPUT_FAST_PROGRAM : Z := 0x34.
Definition READ_WRITE_EXTRA_BYTES : Z := if FOUR_BYTE_ADDRESSING then 5 else 4.
Definition SECTOR_ERASE_BYTES : Z := if FOUR_BYTE_ADDRESSING then 5 else 4.
Definition IDCODE_READ_BYTES : Z := 5.
Definition DUAL_READ_DUMMY_BYTES : Z := 2.
Definition QUAD_READ_DUMMY_BYTES : Z := 4.
Definition QUAD_IO_READ_DUMMY_BYTES : Z := 5.
Definition WRITE_ENABLE_BYTES : Z := 1.
Definition BULK_ERASE_BYTES : Z := 1.
Definition STATUS_READ_BYTES : Z := 2.
Definition NUM_SLAVES : Z := 2.
Definition SLAVE_SELECT_MASK : Z := Z.shiftl 1 NUM_SLAVES - 1.
Definition FLASH_SR_IS_READY_MASK : Z := 0x01.
Definition COMMAND_WRITE_ENABLE : Z := 0x06.
Definition XSP_CR_LOOPBACK_MASK : Z := 0x00000001.
Definition XSP_CR_ENABLE_MASK : Z := 0x00000002.
Definition XSP_CR_MASTER_MODE_MASK : Z := 0x00000004.
Definition XSP_CR_TXFIFO_RESET_MASK : Z := 0x00000020.
Definition XSP_CR_RXFIFO_RESET_MASK : Z := 0x00000040.
Definition XSP_CR_MANUAL_SS_MASK : Z := 0x00000080.
Definition XSP_CR_TRANS_INHIBIT_MASK : Z := 0x00000100.
Definition XSP_SR_RX_EMPTY_MASK : Z := 0x00000001.
Definition XSP_SR_TX_EMPTY_MASK : Z := 0x00000004.
Definition XSP_SR_TX_FULL_MASK : Z := 0x00000008.
Definition XSP_SR_CMD_ERR_MASK : Z := 0x00000400.
Definition XSP_CR_OFFSET : Z := 0x60.
Definition XSP_SR_OFFSET : Z := 0x64.
Definition XSP_DTR_OFFSET : Z := 0x68.
Definition XSP_DRR_OFFSET : Z := 0x6C.
Definition XSP_SSR_OFFSET : Z := 0x70.
Definition XSP_TFO_OFFSET : Z := 0x74.
Definition MICRON_VENDOR_ID : Z := 0x20.
Definition MACRONIX_VENDOR_ID : Z := 0xC2.
Definition BITSTREAM_GUARD_SIZE : Z := 0x1000.

(** The words of the guard (DUMMY, BUSWIDTH1 and so on), as they lie in memory. *)
Definition BITSTREAM_GUARD : list Z :=
  [0xFFFFFFFF; 0xBB000000; 0x44002211; 0xFFFFFFFF; 0xFFFFFFFF; 0x665599AA;
   0x00000020; 0x00000020; 0x01200230; 0x02000040; 0x00000020; 0x00000020].

Definition CONTROL_REG_START_STATE : Z :=
  Z.lor XSP_CR_TRANS_INHIBIT_MASK (Z.lor XSP_CR_MANUAL_SS_MASK (Z.lor XSP_CR_RXFIFO_RESET_MASK
    (Z.lor XSP_CR_TXFIFO_RESET_MASK (Z.lor XSP_CR_ENABLE_MASK XSP_CR_MASTER_MODE_MASK)))).

(** ** State *)

Record ELARecord := ElaRecord { mStartAddress : Z; mEndAddress : Z; mDataCount : Z; mDataPos : Z }.

(** The core, the static variables of xspi.cpp and the list of records. *)
Record xspi (D : Type) := Xspi {
  core : D; WriteBuffer : list Z; ReadBuffer : list Z; slave_index : Z;
  MAX_NUM_SECTORS : Z; selected_sector : Z; flashVendor : Z; BITSTREAM_START_LOC : Z;
  recordList : list ELARecord;
}.
Arguments Xspi {D}. Arguments core {D}. Arguments WriteBuffer {D}. Arguments ReadBuffer {D}.
Arguments slave_index {D}. Arguments MAX_NUM_SECTORS {D}. Arguments selected_sector {D}.
Arguments flashVendor {D}. Arguments BITSTREAM_START_LOC {D}. Arguments recordList {D}.

Section Setters.
Context {D : Type}.
Definition set_core (d : D) (s : xspi D) := Xspi d (WriteBuffer s) (ReadBuffer s) (slave_index s) (MAX_NUM_SECTORS s)
  (selected_sector s) (flashVendor s) (BITSTREAM_START_LOC s) (recordList s).
Definition set_wbuf b (s : xspi D) := Xspi (core s) b (ReadBuffer s) (slave_index s) (MAX_NUM_SECTORS s)
  (selected_sector s) (flashVendor s) (BITSTREAM_START_LOC s) (recordList s).
Definition set_rbuf b (s : xspi D) := Xspi (core s) (WriteBuffer s) b (slave_index s) (MAX_NUM_SECTORS s)
  (selected_sector s) (flashVendor s) (BITSTREAM_START_LOC s) (recordList s).
Definition set_slave i (s : xspi D) := Xspi (core s) (WriteBuffer s) (ReadBuffer s) i (MAX_NUM_SECTORS s)
  (selected_sector s) (flashVendor s) (BITSTREAM_START_LOC s) (recordList s).
Definition set_max n (s : xspi D) := Xspi (core s) (WriteBuffer s) (ReadBuffer s) (slave_index s) n
  (selected_sector s) (flashVendor s) (BITSTREAM_START_LOC s) (recordList s).
Definition set_selected n (s : xspi D) := Xspi (core s) (WriteBuffer s) (ReadBuffer s) (slave_index s)
  (MAX_NUM_SECTORS s) n (flashVendor s) (BITSTREAM_START_LOC s) (recordList s).
Definition set_vendor v (s : xspi D) := Xspi (core s) (WriteBuffer s) (ReadBuffer s) (slave_index s)
  (MAX_NUM_SECTORS s) (selected_sector s) v (BITSTREAM_START_LOC s) (recordList s).
Definition set_start a (s : xspi D) := Xspi (core s) (WriteBuffer s) (ReadBuffer s) (slave_index s)
  (MAX_NUM_SECTORS s) (selected_sector s) (flashVendor s) a (recordList s).
Definition set_records l (s : xspi D) := Xspi (core s) (WriteBuffer s) (ReadBuffer s) (slave_index s)
  (MAX_NUM_SECTORS s) (selected_sector s) (flashVendor s) (BITSTREAM_START_LOC s) l.
End Setters.

Section Commands.
Context {D : Type} {dev : Mmio32 D} {delay : NDelay D}.
Variable mMgmtMap : Z.
Variable polls : nat.
Abbreviation flasher := (xspi D).

(** A store of bytes into a buffer. *)
Definition overwrite (off : Z) (l b : list Z) : option (list Z) :=
  let o := Z.to_nat off in
  if (o + length l <=? length b)%nat then Some (take o b ++ l ++ drop (o + length l) b) else None.
Definition put_write (off : Z) (l : list Z) : K flasher unit :=
  s <- kget ;; b <- deref (overwrite off l (WriteBuffer s)) ;; kmod (set_wbuf b).
Definition put_read (off : Z) (l : list Z) : K flasher unit :=
  s <- kget ;; b <- deref (overwrite off l (ReadBuffer s)) ;; kmod (set_rbuf b).
Definition read_at (i : Z) : K flasher Z := s <- kget ;; deref (ReadBuffer s !! Z.to_nat i).

Definition clearReadBuffer (size : Z) : K flasher unit := put_read 0 (repeat 0 (Z.to_nat size)).
Definition clearWriteBuffer (size : Z) : K flasher unit := put_write 0 (repeat 0 (Z.to_nat size)).
Definition clearBuffers : K flasher unit :=
  clearReadBuffer (XSPI_PAGE_SIZE + READ_WRITE_EXTRA_BYTES + 4) ;;
  clearWriteBuffer (XSPI_PAGE_SIZE + READ_WRITE_EXTRA_BYTES).

(** *** Registers *)

Definition on_core {A} (c : K D A) : K flasher A := zoom core set_core c.
Definition readReg (RegOffset : Z) : K flasher Z := on_core (readl (mMgmtMap + RegOffset + FLASH_BASE_ADDRESS)).
Definition writeReg (RegOffset value : Z) : K flasher unit :=
  on_core (writel value (mMgmtMap + RegOffset + FLASH_BASE_ADDRESS)).
Definition XSpi_GetControlReg : K flasher Z := readReg XSP_CR_OFFSET.
Definition XSpi_SetControlReg (v : Z) : K flasher unit := writeReg XSP_CR_OFFSET v.
Definition XSpi_GetStatusReg : K flasher Z := readReg XSP_SR_OFFSET.
Definition XSpi_SetSlaveSelectReg (v : Z) : K flasher unit := writeReg XSP_SSR_OFFSET v.
Definition nanosleep (ns : Z) : K flasher unit := on_core (kmod (dev_ndelay ns)).

(** A read, change and write of the control register. *)
Definition set_control (m : Z) : K flasher unit := v <- XSpi_GetControlReg ;; XSpi_SetControlReg (Z.lor v m).
Definition clear_control (m : Z) : K flasher unit := v <- XSpi_GetControlReg ;; XSpi_SetControlReg (Z.ldiff v m).

(** *** One transfer *)

Definition status_error (StatusReg : Z) : bool := istrue (Z.land StatusReg XSP_SR_CMD_ERR_MASK).

(** Stores bytes while there is room: what is left, or nothing on an error. *)
Fixpoint fill_fifo (StatusReg : Z) (send : list Z) : K flasher (option (list Z)) :=
  match send with
  | [] => kret (Some [])
  | Data :: rest =>
      if istrue (Z.land StatusReg XSP_SR_TX_FULL_MASK) then kret (Some send)
      else
        writeReg XSP_DTR_OFFSET Data ;;
        StatusReg <- XSpi_GetStatusReg ;;
        if status_error StatusReg then kret None else fill_fifo StatusReg rest
  end.

Fixpoint tx_done (n : nat) : K flasher unit :=
  match n with
  | O => oops
  | S n =>
      StatusReg <- XSpi_GetStatusReg ;;
      if Z.land StatusReg XSP_SR_TX_EMPTY_MASK =? 0 then tx_done n else kret tt
  end.

(** Takes all received bytes, into ReadBuffer from [pos] on if there is one:
    the new [pos] and count, or nothing on an error. *)
Fixpoint drain_fifo (n : nat) (StatusReg : Z) (pos : option Z) (ByteCount : Z) : K flasher (option (option Z * Z)) :=
  if negb (Z.land StatusReg XSP_SR_RX_EMPTY_MASK =? 0) then kret (Some (pos, ByteCount))
  else
    match n with
    | O => oops
    | S n =>
        Data <- readReg XSP_DRR_OFFSET ;;
        pos <- (match pos with
                | Some p => put_read p [u8 Data] ;; kret (Some (p + 1))
                | None => kret None
                end) ;;
        StatusReg <- XSpi_GetStatusReg ;;
        if status_error StatusReg then kret None else drain_fifo n StatusReg pos (ByteCount - 1)
    end.

(** The polled loop; [send] is still to be stored. *)
Fixpoint transfer_loop (n : nat) (send : list Z) (pos : option Z) (ByteCount : Z) : K flasher bool :=
  if ByteCount <=? 0 then kret true
  else
    match n with
    | O => oops
    | S n =>
        tx_done polls ;;
        set_control XSP_CR_TRANS_INHIBIT_MASK ;;
        XSpi_GetControlReg ;;
        StatusReg <- XSpi_GetStatusReg ;;
        r <- drain_fifo polls StatusReg pos ByteCount ;;
        match r with
        | None => kret false
        | Some (pos, ByteCount) =>
            match send with
            | [] => transfer_loop n [] pos ByteCount
            | _ =>
                StatusReg <- XSpi_GetStatusReg ;;
                left <- fill_fifo StatusReg send ;;
                match left with
                | None => kret false
                | Some send =>
                    clear_control XSP_CR_TRANS_INHIBIT_MASK ;;
                    transfer_loop n send pos ByteCount
                end
            end
        end
    end.

Definition SlaveSelectReg (index : Z) : Z :=
  if index =? 0 then u32 (Z.lnot 0x01) else if index =? 1 then u32 (Z.lnot 0x02) else 0.

(** Sends the first [ByteCount] bytes of WriteBuffer; [recv] says whether what
    comes back goes to ReadBuffer. *)
Definition finalTransfer (recv : bool) (ByteCount : Z) : K flasher bool :=
  s <- kget ;;
  let select := SlaveSelectReg (slave_index s) in
  ControlReg <- XSpi_GetControlReg ;;
  XSpi_GetStatusReg ;;
  if istrue (Z.land ControlReg XSP_CR_MASTER_MODE_MASK) && (Z.land ControlReg XSP_CR_LOOPBACK_MASK =? 0) &&
     (select =? SLAVE_SELECT_MASK) then kret false
  else
    StatusReg <- XSpi_GetStatusReg ;;
    if status_error StatusReg then kret false
    else
      send <- deref (if ByteCount <=? Z.of_nat (length (WriteBuffer s))
                     then Some (take (Z.to_nat ByteCount) (WriteBuffer s)) else None) ;;
      left <- fill_fifo StatusReg send ;;
      match left with
      | None => kret false
      | Some send =>
          XSpi_SetSlaveSelectReg select ;;
          XSpi_GetControlReg ;;
          StatusReg <- XSpi_GetStatusReg ;;
          if status_error StatusReg then kret false
          else
            clear_control XSP_CR_TRANS_INHIBIT_MASK ;;
            ok <- transfer_loop polls send (if recv then Some 0 else None) ByteCount ;;
            if negb ok then kret false
            else
              set_control XSP_CR_TRANS_INHIBIT_MASK ;;
              XSpi_SetSlaveSelectReg SLAVE_SELECT_MASK ;;
              kret true
      end.

(** *** Waiting *)

Definition WAIT_LIMIT : Z := 30000000000.
Definition WAIT_STEP : Z := 5000.
Definition wait_rounds : positive := Z.to_pos (WAIT_LIMIT / WAIT_STEP + 1).

Definition wait_tx_round (delay : Z) : K flasher (Z + bool) :=
  if WAIT_LIMIT <=? delay then kret (inr false)
  else
    StatusReg <- XSpi_GetStatusReg ;;
    if istrue (Z.land StatusReg XSP_SR_TX_EMPTY_MASK) then kret (inr true)
    else
      readReg XSP_TFO_OFFSET ;;
      nanosleep 5000 ;;
      kret (inl (delay + WAIT_STEP)).
Definition waitTxEmpty : K flasher bool := kwhile wait_tx_round wait_rounds 0.

Definition ready_round (delay : Z) : K flasher (Z + bool) :=
  if WAIT_LIMIT <=? delay then kret (inr false)
  else
    put_write 0 [COMMAND_STATUSREG_READ] ;;
    status <- finalTransfer true STATUS_READ_BYTES ;;
    if negb status then kret (inr false)
    else
      StatusReg <- read_at 1 ;;
      if Z.land StatusReg FLASH_SR_IS_READY_MASK =? 0 then kret (inr true)
      else nanosleep 5000 ;; kret (inl (delay + WAIT_STEP)).
Definition isFlashReady : K flasher bool := kwhile ready_round wait_rounds 0.

(** *** Commands *)

(** Steps that end the function with false when they fail. *)
Definition and_then (c : K flasher bool) (k : K flasher bool) : K flasher bool :=
  ok <- c ;; if ok : bool then k else kret false.

(** The address of a command. *)
Definition address_bytes (Addr : Z) : list Z :=
  (if FOUR_BYTE_ADDRESSING then [u8 (Z.shiftr Addr 24)] else []) ++
  [u8 (Z.shiftr Addr 16); u8 (Z.shiftr Addr 8); u8 Addr].

Definition writeEnable : K flasher bool :=
  StatusReg <- XSpi_GetStatusReg ;;
  if istrue (Z.land StatusReg XSP_SR_TX_FULL_MASK) then kret false
  else
    set_control CONTROL_REG_START_STATE ;;
    put_write 0 [COMMAND_WRITE_ENABLE] ;;
    and_then (finalTransfer false WRITE_ENABLE_BYTES) waitTxEmpty.

Definition reset_fifos : K flasher unit :=
  set_control (Z.lor XSP_CR_RXFIFO_RESET_MASK XSP_CR_TXFIFO_RESET_MASK).

Definition readRegister (commandCode bytes : Z) : K flasher bool :=
  and_then isFlashReady (
    put_write 0 [commandCode] ;;
    and_then (finalTransfer true bytes) (
      put_read 0 [0; 0; 0; 0; 0] ;;
      reset_fifos ;;
      kret true)).

(** More than two extra bytes fail an assert. *)
Definition register_bytes (value extra_bytes : Z) : option (list Z) :=
  if extra_bytes =? 0 then Some []
  else if extra_bytes =? 1 then Some [u8 value]
  else if extra_bytes =? 2 then Some [u8 (Z.shiftr value 8); u8 value]
  else None.
Definition writeRegister (commandCode value extra_bytes : Z) : K flasher bool :=
  and_then isFlashReady (
  and_then writeEnable (
    reset_fifos ;;
    put_write 0 [commandCode] ;;
    bytes <- deref (register_bytes value extra_bytes) ;;
    put_write 1 bytes ;;
    and_then (finalTransfer false (extra_bytes + 1)) waitTxEmpty)).

Definition getSector (address : Z) : Z := Z.land (Z.shiftr address 24) 0xF.

Definition setSector (address : Z) : K flasher bool :=
  let sector := getSector address in
  s <- kget ;;
  if MAX_NUM_SECTORS s <=? sector then kret false
  else if sector =? selected_sector s then kret true
  else and_then (writeRegister COMMAND_EXTENDED_ADDRESS_REG_WRITE sector 1) (kmod (set_selected sector) ;; kret true).

(** Selects the sector, when addresses have 24 bits. *)
Definition select_sector (Addr : Z) (k : K flasher bool) : K flasher bool :=
  if FOUR_BYTE_ADDRESSING then k else and_then (setSector Addr) k.

Definition sectorErase (Addr erase_cmd : Z) : K flasher bool :=
  and_then isFlashReady (
  select_sector Addr (
  and_then writeEnable (
    reset_fifos ;;
    put_write 0 (u8 erase_cmd :: address_bytes Addr) ;;
    and_then (finalTransfer false SECTOR_ERASE_BYTES) waitTxEmpty))).

Definition bulkErase : K flasher bool :=
  and_then isFlashReady (
  and_then writeEnable (
    XSpi_SetControlReg CONTROL_REG_START_STATE ;;
    XSpi_GetControlReg ;;
    XSpi_GetStatusReg ;;
    put_write 0 [COMMAND_BULK_ERASE] ;;
    and_then (finalTransfer false BULK_ERASE_BYTES) waitTxEmpty)).

(** [writeCmd] is 0xff for the default of the flash; with addresses of four
    bytes any other command is not stored. *)
Definition write_command (vendor writeCmd : Z) : list Z :=
  if FOUR_BYTE_ADDRESSING then if writeCmd =? 0xff then [FOUR_BYTE_QUAD_INPUT_FAST_PROGRAM] else []
  else if writeCmd =? 0xff then [if vendor =? MACRONIX_VENDOR_ID then COMMAND_PAGE_PROGRAM else COMMAND_QUAD_WRITE]
  else [writeCmd].
(** The data is in WriteBuffer already. *)
Definition writePage (Addr writeCmd : Z) : K flasher bool :=
  and_then isFlashReady (
  select_sector Addr (
  and_then writeEnable (
    XSpi_SetControlReg CONTROL_REG_START_STATE ;;
    s <- kget ;;
    put_write 0 (write_command (flashVendor s) writeCmd) ;;
    put_write 1 (address_bytes Addr) ;;
    and_then (finalTransfer true (WRITE_DATA_SIZE + READ_WRITE_EXTRA_BYTES)) waitTxEmpty))).

Definition read_command (readCmd : Z) : Z :=
  if readCmd =? 0xff then if FOUR_BYTE_ADDRESSING then FOUR_BYTE_READ else COMMAND_QUAD_READ else readCmd.
Definition dummy_bytes (ReadCmd : Z) : Z :=
  if ReadCmd =? COMMAND_DUAL_READ then DUAL_READ_DUMMY_BYTES
  else if ReadCmd =? COMMAND_DUAL_IO_READ then DUAL_READ_DUMMY_BYTES
  else if ReadCmd =? COMMAND_QUAD_IO_READ then QUAD_IO_READ_DUMMY_BYTES
  else if (ReadCmd =? COMMAND_QUAD_READ) || (ReadCmd =? FOUR_BYTE_QUAD_OUTPUT_FAST_READ) then QUAD_READ_DUMMY_BYTES
  else 0.
Definition readPage (Addr readCmd : Z) : K flasher bool :=
  and_then isFlashReady (
  select_sector Addr (
    XSpi_SetControlReg CONTROL_REG_START_STATE ;;
    let ReadCmd := read_command readCmd in
    put_write 0 (ReadCmd :: address_bytes Addr) ;;
    and_then (finalTransfer true (READ_DATA_SIZE + dummy_bytes ReadCmd + READ_WRITE_EXTRA_BYTES)) (
    and_then waitTxEmpty (
      set_control XSP_CR_RXFIFO_RESET_MASK ;;
      kret true)))).

(** *** The bitstream guard *)

Definition guard_bytes : list Z :=
  flat_map (fun w => [u8 w; u8 (Z.shiftr w 8); u8 (Z.shiftr w 16); u8 (Z.shiftr w 24)]) BITSTREAM_GUARD.

Definition writeBitstreamGuard (Addr : Z) : K flasher bool :=
  let page_addr := u32 (Addr + WRITE_DATA_SIZE) in
  and_then (sectorErase Addr COMMAND_4KB_SUBSECTOR_ERASE) (
    put_write READ_WRITE_EXTRA_BYTES guard_bytes ;;
    put_write (READ_WRITE_EXTRA_BYTES + Z.of_nat (length guard_bytes))
      (repeat 0xFF (Z.to_nat WRITE_DATA_SIZE - length guard_bytes)) ;;
    writePage page_addr 0xff).

Definition clearBitstreamGuard (Addr : Z) : K flasher bool := sectorErase Addr COMMAND_4KB_SUBSECTOR_ERASE.

(** *** Identification *)

(** How many sectors of 16 MB the capacity byte of the ID stands for. *)
Definition num_sectors (capacity : Z) : option Z :=
  if bool_decide (capacity ∈ [0x38; 0x17; 0x18]) then Some 1
  else if bool_decide (capacity ∈ [0x39; 0x19]) then Some 2
  else if bool_decide (capacity ∈ [0x3A; 0x20]) then Some 4
  else if bool_decide (capacity ∈ [0x3B; 0x21]) then Some 8
  else if bool_decide (capacity ∈ [0x3C; 0x22]) then Some 16
  else None.

(** The bytes of the ID are cleared before they are compared with 0xff. *)
Definition getFlashId : K flasher bool :=
  and_then isFlashReady (
    put_write 0 [COMMAND_IDCODE_READ] ;;
    and_then (finalTransfer true IDCODE_READ_BYTES) (
      vendor <- read_at 1 ;;
      (if bool_decide (vendor ∈ [MICRON_VENDOR_ID; MACRONIX_VENDOR_ID]) then kmod (set_vendor vendor) else kret tt) ;;
      capacity <- read_at 3 ;;
      if capacity =? 0xFF then kret false
      else
        match num_sectors capacity with
        | None => kret false
        | Some n =>
            kmod (set_max n) ;;
            put_read 0 (repeat 0 (Z.to_nat IDCODE_READ_BYTES)) ;;
            s <- kget ;;
            let ffCount := length (filter (fun b => b = 0xff) (take 4 (drop 1 (ReadBuffer s)))) in
            kret (negb (ffCount =? Z.to_nat IDCODE_READ_BYTES - 1)%nat)
        end)).

(** Without a known flash the process exits. *)
Definition prepareXSpi : K flasher bool :=
  kmod (set_selected (u32 (-1))) ;;
  XSpi_GetControlReg ;;
  XSpi_GetStatusReg ;;
  XSpi_SetControlReg CONTROL_REG_START_STATE ;;
  XSpi_GetControlReg ;;
  XSpi_GetStatusReg ;;
  getFlashId.
End Commands.
