(* ===== verification/XspiMcs.v ===== *)
(** * The flash programmer: MCS files (xspi.cpp)

    An MCS file is read twice: once for its extended address records, and once
    for the data, while the flash is programmed.  Text is a list of character
    codes; positions of the stream are line numbers.  Then the self test, which
    nothing calls, and in [Xbflash] the program around it. *)

From S2P Require Import Prelude.
From S2P Require Import Mmio32.
From S2P Require Import Loops.
From S2P Require Import Hwicap.
From S2P Require Import Xspi.
Local Open Scope list_scope.
Local Open Scope Z_scope.

Definition ENOENT : Z := 2.
Definition ENXIO : Z := 6.
Definition EACCES : Z := 13.
Definition EOPNOTSUPP : Z := 95.

(** ** std::string and std::stoi *)

(** Past the end of the text is an exception. *)
Definition substr (p n : Z) (l : list Z) : option (list Z) :=
  if Z.of_nat (length l) <? p then None else Some (take (Z.to_nat n) (drop (Z.to_nat p) l)).

Definition is_space (c : Z) : bool := (c =? 32) || ((9 <=? c) && (c <=? 13)).
Definition hex_digit (c : Z) : option Z :=
  if (48 <=? c) && (c <=? 57) then Some (c - 48)
  else if (65 <=? c) && (c <=? 70) then Some (c - 55)
  else if (97 <=? c) && (c <=? 102) then Some (c - 87)
  else None.
Fixpoint skip_spaces (l : list Z) : list Z :=
  match l with c :: r => if is_space c then skip_spaces r else l | [] => [] end.
(** The digits at the start of a text. *)
Fixpoint hex_value (acc : Z) (l : list Z) : Z :=
  match l with
  | c :: r => match hex_digit c with Some d => hex_value (16 * acc + d) r | None => acc end
  | [] => acc
  end.
(** A text that starts with digits; [0x] may come first. *)
Definition unsigned_hex (l : list Z) : option Z :=
  match l with
  | 48 :: x :: c :: r =>
      if ((x =? 120) || (x =? 88)) && bool_decide (is_Some (hex_digit c)) then Some (hex_value 0 (c :: r))
      else Some (hex_value 0 l)
  | c :: r => match hex_digit c with Some _ => Some (hex_value 0 l) | None => None end
  | [] => None
  end.
(** std::stoi(l, 0, 16) converted to unsigned; the texts are too short to
    overflow.  Without digits it throws. *)
Definition stoi (l : list Z) : option Z :=
  match skip_spaces l with
  | 45 :: r => (fun v => u32 (- v)) <$> unsigned_hex r
  | 43 :: r => unsigned_hex r
  | r => unsigned_hex r
  end.

(** ** The stream *)

Record mcs_file := McsFile { file_lines : list (list Z); trailing_newline : bool }.
Record stream := Stream { pos : Z; eof : bool; failed : bool }.

Definition getline (f : mcs_file) (s : stream) : list Z * stream :=
  if eof s || failed s then ([], Stream (pos s) (eof s) true)
  else
    match file_lines f !! Z.to_nat (pos s) with
    | None => ([], Stream (pos s) true true)
    | Some line =>
        (line, Stream (pos s + 1)
          ((pos s + 1 =? Z.of_nat (length (file_lines f))) && negb (trailing_newline f)) false)
    end.
(** A stream at its end fails. *)
Definition tellg (s : stream) : Z * stream :=
  if eof s || failed s then (-1, Stream (pos s) (eof s) true) else (pos s, s).
Definition seekg (p : Z) (s : stream) : stream := Stream (if failed s then pos s else p) false (failed s).

Section Program.
Context {D : Type} {dev : Mmio32 D} {delay : NDelay D}.
Variable mMgmtMap : Z.
Variable polls : nat.
Abbreviation flasher := (xspi D).

(** The process can also end by itself, with a code. *)
Inductive outcome := Returned (rc : Z) | Exited (code : Z).

(** ** The first pass *)

(** The record being read, and whether there is a [startAddress]. *)
Definition first_data (address : Z) (r : ELARecord) : option ELARecord :=
  (* the asserts of the first entry *)
  if (mStartAddress r =? 0) || (mEndAddress r =? 0) then None
  else Some (ElaRecord (u32 (mStartAddress r + address)) (u32 (mEndAddress r + address)) (mDataCount r) (mDataPos r)).
Definition count_data (dataLen : Z) (r : ELARecord) : ELARecord :=
  ElaRecord (mStartAddress r) (u32 (mEndAddress r + dataLen)) (u32 (mDataCount r + dataLen)) (mDataPos r).

Definition push_record (r : ELARecord) : K flasher unit := kmod (fun s => set_records (recordList s ++ [r]) s).

(** One line: an error code, or the record, whether there is a start address,
    whether the end record was found, and the stream. *)
Definition mcs_line (line : list Z) (r : ELARecord) (started : bool) (st : stream)
    : K flasher (Z + ELARecord * bool * bool * stream) :=
  if negb (default 0 (head line) =? 58) then kret (inl (- EINVAL))
  else
    dataLen <- deref (substr 1 2 line ≫= stoi) ;;
    address <- deref (substr 3 4 line ≫= stoi) ;;
    recordType <- deref (substr 7 2 line ≫= stoi) ;;
    if recordType =? 0x00 then
      if 16 <? dataLen then kret (inl (- EINVAL))
      else if negb (address =? u32 (mDataCount r + Z.land (mStartAddress r) 0xFFFF)) then
        if mDataCount r =? 0 then
          r <- deref (first_data address r) ;;
          kret (inr (count_data dataLen r, started, false, st))
        else kret (inl (- EINVAL))
      else kret (inr (count_data dataLen r, started, false, st))
    else if recordType =? 0x01 then
      if negb started then kret (inr (r, started, false, st))
      else push_record r ;; kret (inr (r, started, true, st))
    else if recordType =? 0x02 then oops
    else if recordType =? 0x04 then
      if negb (address =? 0x0) then kret (inl (- EINVAL))
      else if negb (dataLen =? 2) then kret (inl (- EINVAL))
      else
        newAddress <- deref (substr 9 (dataLen * 2) line) ;;
        (if started then push_record r else kret tt) ;;
        start <- deref (stoi newAddress) ;;
        let start := u32 (Z.shiftl start 16) in
        let '(data_pos, st) := tellg st in
        kret (inr (ElaRecord start start 0 data_pos, negb (bool_decide (newAddress = [])), false, st))
    else kret (inr (r, started, false, st)).

(** The loop over the lines; every round reads one or reaches the end. *)
Fixpoint mcs_lines (n : nat) (f : mcs_file) (r : ELARecord) (started : bool) (st : stream)
    : K flasher (Z + stream) :=
  if eof st then kret (inr st)
  else
    match n with
    | O => oops
    | S n =>
        let '(line, st) := getline f st in
        match line with
        | [] => mcs_lines n f r started st
        | _ =>
            v <- mcs_line line r started st ;;
            match v with
            | inl err => kret (inl err)
            | inr (r, started, found, st) => if (found : bool) then kret (inr st) else mcs_lines n f r started st
            end
        end
    end.

(** ** Programming one record *)

(** Stores the bytes of a line; those after a full page are dropped.  More than
    a page would fail an assert. *)
Fixpoint store_data (n : nat) (data : list Z) (bufferIndex : Z) : K flasher Z :=
  match data, n with
  | [], _ => kret bufferIndex
  | _, O => oops
  | _, S n =>
      value <- deref (stoi (take 2 data)) ;;
      put_write (READ_WRITE_EXTRA_BYTES + bufferIndex) [u8 value] ;;
      let bufferIndex := bufferIndex + 1 in
      if WRITE_DATA_SIZE <? bufferIndex then oops
      else if bufferIndex =? WRITE_DATA_SIZE then kret bufferIndex
      else store_data n (drop 2 data) bufferIndex
  end.

Definition page_address (r : ELARecord) (pageIndex : Z) : Z := u32 (mStartAddress r + u32 (pageIndex * WRITE_DATA_SIZE)).

(** The loop over the lines of a record: an error, or the end. *)
Fixpoint record_lines (n : nat) (f : mcs_file) (r : ELARecord) (index bufferIndex pageIndex : Z)
    (prevLine : list Z) (st : stream) : K flasher (Z + Z * Z * list Z * stream) :=
  if index =? 0 then kret (inr (bufferIndex, pageIndex, prevLine, st))
  else
    match n with
    | O => oops
    | S n =>
        let '(line, st) := getline f st in
        dataLen <- deref (substr 1 2 line ≫= stoi) ;;
        let index := u32 (index - dataLen) in
        recordType <- deref (substr 7 2 line ≫= stoi) ;;
        if negb (recordType =? 0x00) then record_lines n f r index bufferIndex pageIndex prevLine st
        else
          data <- deref (substr 9 (dataLen * 2) line) ;;
          bufferIndex <- store_data (length data) data bufferIndex ;;
          if bufferIndex =? WRITE_DATA_SIZE then
            deref (substr 3 4 line ≫= stoi) ;;
            ok <- writePage mMgmtMap polls (page_address r pageIndex) 0xff ;;
            if negb ok then kret (inl (- ENXIO))
            else
              clearBuffers ;;
              nanosleep 20000 ;;
              record_lines n f r index 0 (pageIndex + 1) line st
          else record_lines n f r index bufferIndex pageIndex line st
    end.

Definition program_record (f : mcs_file) (r : ELARecord) (st : stream) : K flasher (Z * stream) :=
  let '(at_pos, st) := tellg st in
  if negb (at_pos <? mDataPos r) then oops
  else
    v <- record_lines (S (length (file_lines f))) f r (mDataCount r) 0 0 [] (seekg (mDataPos r) st) ;;
    match v with
    | inl err => kret (err, st)
    | inr (bufferIndex, pageIndex, prevLine, st) =>
        if bufferIndex =? 0 then kret (0, st)
        else
          deref (substr 3 4 prevLine ≫= stoi) ;;
          deref (substr 1 2 prevLine ≫= stoi) ;;
          put_write (READ_WRITE_EXTRA_BYTES + bufferIndex) (repeat 0xff (Z.to_nat (WRITE_DATA_SIZE - bufferIndex))) ;;
          ok <- writePage mMgmtMap polls (page_address r pageIndex) 0xff ;;
          if negb ok then kret (- ENXIO, st)
          else nanosleep 20000 ;; clearBuffers ;; kret (0, st)
    end.

(** ** Programming the file *)

(** Erases the subsectors of a record, from [j] on. *)
Definition erase_round (last j : Z) : K flasher (Z + bool) :=
  if last <=? j then kret (inr true)
  else
    ok <- sectorErase mMgmtMap polls j COMMAND_4KB_SUBSECTOR_ERASE ;;
    if negb ok then kret (inr false)
    else nanosleep 20000 ;; kret (inl (u32 (j + 0x1000))).
Definition erase_rounds (first last : Z) : positive := Z.to_pos ((last - first) / 0x1000 + 2).

Definition shift_record (shift : Z) (r : ELARecord) : ELARecord :=
  ElaRecord (u32 (mStartAddress r + shift)) (u32 (mEndAddress r + shift)) (mDataCount r) (mDataPos r).

(** The first [n] records from the [i]-th on are shifted, and erased. *)
Fixpoint erase_records (n i : nat) (shift : Z) : K flasher bool :=
  match n with
  | O => kret true
  | S n =>
      s <- kget ;;
      r <- deref (shift_record shift <$> recordList s !! i) ;;
      kmod (set_records (<[i := r]> (recordList s))) ;;
      ok <- kwhile (erase_round (mEndAddress r)) (erase_rounds (mStartAddress r) (mEndAddress r)) (mStartAddress r) ;;
      if ok : bool then erase_records n (S i) shift else kret false
  end.

Fixpoint program_records (f : mcs_file) (l : list ELARecord) (st : stream) : K flasher Z :=
  match l with
  | [] => kret 0
  | r :: l =>
      ready <- isFlashReady mMgmtMap polls ;;
      if negb ready then kret (- EINVAL)
      else
        clearBuffers ;;
        v <- program_record f r st ;;
        if istrue (fst v) then kret (- EINVAL)
        else nanosleep 20000 ;; program_records f l (snd v)
  end.

Definition program_file (f : mcs_file) (st : stream) : K flasher Z :=
  s <- kget ;;
  let guarded := negb (BITSTREAM_START_LOC s =? 0) in
  nanosleep 20000 ;;
  ok <- (if guarded then writeBitstreamGuard mMgmtMap polls (BITSTREAM_START_LOC s) else kret true) ;;
  if negb ok then kret (- EINVAL)
  else
    ok <- erase_records (length (recordList s)) 0 (if guarded then BITSTREAM_GUARD_SIZE else 0) ;;
    if negb ok then kret (- EINVAL)
    else
      l <- kgets recordList ;;
      rc <- program_records f l st ;;
      if istrue rc then kret rc
      else
        ok <- (if guarded then clearBitstreamGuard mMgmtMap polls (BITSTREAM_START_LOC s) else kret true) ;;
        kret (if (ok : bool) then 0 else - EINVAL).

Definition programXSpi (f : mcs_file) (st : stream) : K flasher outcome :=
  ok <- prepareXSpi mMgmtMap polls ;;
  if negb ok then kret (Exited (- EOPNOTSUPP))
  else rc <- program_file f st ;; kret (Returned rc).

(** [file] is nothing when it cannot be opened. *)
Definition xclUpgradeFirmwareXSpi (file : option mcs_file) (index : Z) : K flasher outcome :=
  clearBuffers ;;
  kmod (set_records []) ;;
  if mMgmtMap =? 0 then kret (Returned (- EACCES))
  else
    kmod (set_slave index) ;;
    match file with
    | None => kret (Returned (- ENOENT))
    | Some f =>
        v <- mcs_lines (S (S (length (file_lines f)))) f (ElaRecord 0 0 0 0) false (Stream 0 false false) ;;
        match v with
        | inl err => kret (Returned err)
        | inr st =>
            s <- kget ;;
            first <- deref (head (recordList s)) ;;
            kmod (set_start (mStartAddress first)) ;;
            programXSpi f (seekg 0 st)
        end
    end.

Definition xclUpgradeFirmware2 (file1 file2 : option mcs_file) : K flasher outcome :=
  status <- xclUpgradeFirmwareXSpi file1 0 ;;
  match status with
  | Returned 0 =>
      clearBuffers ;;
      kmod (set_records []) ;;
      xclUpgradeFirmwareXSpi file2 1
  | _ => kret status
  end.

Definition upgradeFirmware (f1 : option mcs_file) (f2 : option (option mcs_file)) : K flasher outcome :=
  match f2 with
  | None => xclUpgradeFirmwareXSpi f1 0
  | Some f2 => xclUpgradeFirmware2 f1 f2
  end.

Definition revertToMFG : K flasher outcome :=
  ok <- prepareXSpi mMgmtMap polls ;;
  if negb ok then kret (Exited (- EOPNOTSUPP))
  else
    kmod (set_start 0x01002000) ;;
    s <- kget ;;
    ok <- writeBitstreamGuard mMgmtMap polls (BITSTREAM_START_LOC s) ;;
    kret (Returned (if ok : bool then 0 else - EINVAL)).

(** ** The self test *)

(** Nothing in the program calls xclTestXSpi.  It sets TEST_MODE, which matters
    to the commands it uses only in sectorErase.  A step is [None], or the value
    that the test returns. *)
Definition or_return (c : K flasher bool) (rc : Z) : K flasher (option Z) := ok <- c ;; kret (if ok : bool then None else Some rc).
Fixpoint in_order (l : list (K flasher (option Z))) : K flasher (option Z) :=
  match l with
  | [] => kret None
  | c :: l => r <- c ;; match r with Some rc => kret (Some rc) | None => in_order l end
  end.
Definition tell (c : K flasher bool) : K flasher (option Z) := c ;; kret None.

Definition COMMAND_FLAG_STATUSREG_READ : Z := 0x70.
Definition COMMAND_NON_VOLATILE_CFGREG_READ : Z := 0xB5.
Definition COMMAND_VOLATILE_CFGREG_READ : Z := 0x85.
Definition COMMAND_ENH_VOLATILE_CFGREG_READ : Z := 0x65.
Definition COMMAND_EXTENDED_ADDRESS_REG_READ : Z := 0xC8.
Definition ENTER_FOUR_BYTE_ADDR_MODE : Z := 0xB7.
Definition EXIT_FOUR_BYTE_ADDR_MODE : Z := 0xE9.

(** sectorErase with TEST_MODE set. *)
Definition test_sectorErase (Addr erase_cmd : Z) : K flasher bool :=
  and_then (isFlashReady mMgmtMap polls) (
  select_sector mMgmtMap polls Addr (
  and_then (writeEnable mMgmtMap polls) (
    readRegister mMgmtMap polls COMMAND_FLAG_STATUSREG_READ STATUS_READ_BYTES ;;
    reset_fifos mMgmtMap ;;
    put_write 0 (u8 erase_cmd :: address_bytes Addr) ;;
    and_then (finalTransfer mMgmtMap polls false SECTOR_ERASE_BYTES) (waitTxEmpty mMgmtMap)))).

Definition test_read (Cmd bytes : Z) : K flasher (option Z) := tell (readRegister mMgmtMap polls Cmd bytes).
(** [return false] is a return of 0. *)
Definition test_select (sector : Z) : list (K flasher (option Z)) :=
  [or_return (writeRegister mMgmtMap polls COMMAND_EXTENDED_ADDRESS_REG_WRITE sector 1) 0;
   test_read COMMAND_EXTENDED_ADDRESS_REG_READ STATUS_READ_BYTES].
Definition test_erase (sector : Z) : K flasher (option Z) :=
  in_order ([clearBuffers ;; kret None] ++ test_select sector ++
    [or_return (test_sectorErase 0 COMMAND_4KB_SUBSECTOR_ERASE) 0;
     or_return (isFlashReady mMgmtMap polls) 0;
     or_return (readPage mMgmtMap polls 0 0xff) 0]).
Definition test_bytes (sector j : Z) : list Z := map (fun i => u8 (j + sector + i)) (seqZ 0 WRITE_DATA_SIZE).
Definition test_write_page (sector j : Z) : K flasher (option Z) :=
  clearBuffers ;;
  put_write (3 + 1) (test_bytes sector j) ;;
  or_return (writePage mMgmtMap polls (WRITE_DATA_SIZE * j) 0xff) (- ENXIO).
Definition test_write (sector : Z) : K flasher (option Z) :=
  in_order (test_select sector ++ map (test_write_page sector) [0; 1; 2; 3]).
Definition test_read_page (j : Z) : K flasher (option Z) :=
  clearBuffers ;; or_return (readPage mMgmtMap polls (WRITE_DATA_SIZE * j) 0xff) (- ENXIO).
Definition test_read_back (sector : Z) : K flasher (option Z) :=
  in_order (test_select sector ++ map test_read_page [0; 1; 2; 3]).

Definition xclTestXSpi (index : Z) : K flasher outcome :=
  kmod (set_slave index) ;;
  XSpi_GetControlReg mMgmtMap ;; XSpi_GetStatusReg mMgmtMap ;;
  XSpi_GetControlReg mMgmtMap ;;
  XSpi_SetControlReg mMgmtMap CONTROL_REG_START_STATE ;;
  XSpi_GetControlReg mMgmtMap ;; XSpi_GetStatusReg mMgmtMap ;;
  ok <- getFlashId mMgmtMap polls ;;
  if negb ok then kret (Exited (- EOPNOTSUPP))
  else
    r <- in_order (
      [test_read COMMAND_STATUSREG_READ STATUS_READ_BYTES;
       test_read COMMAND_FLAG_STATUSREG_READ STATUS_READ_BYTES;
       test_read COMMAND_NON_VOLATILE_CFGREG_READ 4;
       test_read COMMAND_VOLATILE_CFGREG_READ STATUS_READ_BYTES;
       test_read COMMAND_ENH_VOLATILE_CFGREG_READ STATUS_READ_BYTES;
       test_read COMMAND_EXTENDED_ADDRESS_REG_READ STATUS_READ_BYTES;
       tell (writeRegister mMgmtMap polls (if FOUR_BYTE_ADDRESSING then ENTER_FOUR_BYTE_ADDR_MODE else EXIT_FOUR_BYTE_ADDR_MODE) 0 0);
       test_read COMMAND_FLAG_STATUSREG_READ STATUS_READ_BYTES] ++
      map test_erase [2; 3] ++ [clearBuffers ;; kret None] ++ map test_write [2; 3] ++
      [clearBuffers ;; kret None] ++ map test_read_back [2; 3]) ;;
    kret (Returned (default 0 r)).
End Program.

(** ** The program (xbflash.cpp, flasher.cpp) *)

Module Xbflash.

(** What a call of getopt with "d:m:n:" returns, with optarg. *)
Inductive xb_option := Opt_d (optarg : string) | Opt_m (optarg : string) | Opt_n (optarg : string) | Opt_other.
(** [devIdx] has no initial value. *)
Record T_Arguments := Arguments_ { file1 : option string; file2 : option string; devIdx : option string; isValid : bool }.

Definition take_option (args : T_Arguments) (o : xb_option) : T_Arguments :=
  match o with
  | Opt_d s => Arguments_ (file1 args) (file2 args) (Some s) (isValid args)
  | Opt_m s => Arguments_ (Some s) (file2 args) (devIdx args) (isValid args)
  | Opt_n s => Arguments_ (file1 args) (Some s) (devIdx args) (isValid args)
  | Opt_other => Arguments_ (file1 args) (file2 args) (devIdx args) false
  end.
Definition parseArguments (argc : Z) (opts : list xb_option) : T_Arguments :=
  let args := fold_left take_option opts (Arguments_ None None None (negb (argc <=? 1))) in
  match file1 args with
  | None => Arguments_ None (file2 args) (devIdx args) false
  | Some _ => args
  end.

(** What the system answers. *)
Record host := Host {
  uid : Z; euid : Z;
  open_ret : string -> Z;              (* a descriptor, or -1 *)
  fstat_ret : Z;
  mmap_ret : option Z;                 (* MAP_FAILED, or the address *)
  mcs_of : string -> option mcs_file;  (* a file that opens *)
}.

(** The fields of Flasher, with the XSPI_Flasher it makes and the static data of
    xspi.cpp in [mXspi]; [mMgmtMap] is not set by the constructor when the
    device cannot be mapped.  [open_fds] are the descriptors the process has. *)
Record process (D : Type) := Process {
  mXspi : xspi D; mFd : Z; mMgmtMap : option Z; mapped : bool; open_fds : list Z; bad_close : bool;
}.
Arguments Process {D}. Arguments mXspi {D}. Arguments mFd {D}. Arguments mMgmtMap {D}. Arguments mapped {D}.
Arguments open_fds {D}. Arguments bad_close {D}.
Definition set_mXspi {D} (x : xspi D) (p : process D) := Process x (mFd p) (mMgmtMap p) (mapped p) (open_fds p) (bad_close p).
Definition set_mFd {D} fd (p : process D) := Process (mXspi p) fd (mMgmtMap p) (mapped p) (open_fds p) (bad_close p).
Definition set_map {D} m b (p : process D) := Process (mXspi p) (mFd p) m b (open_fds p) (bad_close p).
Definition set_fds {D} l b (p : process D) := Process (mXspi p) (mFd p) (mMgmtMap p) (mapped p) l b.

Definition BAR_INDEX : string := "0".
Definition resource_path (f : string) : string := ("/sys/bus/pci/devices/" ++ f ++ "/resource" ++ BAR_INDEX)%string.

Section Main.
Context {D : Type} {dev : Mmio32 D} {delay : NDelay D}.
Variable env : host.
Variable polls : nat.
Abbreviation proc := (process D).

Definition close (fd : Z) : K proc unit :=
  kmod (fun p => if bool_decide (fd ∈ open_fds p) then set_fds (List.remove Z.eq_dec fd (open_fds p)) (bad_close p) p
                 else set_fds (open_fds p) true p).

Definition mapDevice (f : string) : K proc bool :=
  let fd := open_ret env (resource_path f) in
  kmod (set_mFd fd) ;;
  if 0 <? fd then
    kmod (fun p => set_fds (fd :: open_fds p) (bad_close p) p) ;;
    if negb (fstat_ret env =? -1) then
      match mmap_ret env with
      | None => close fd ;; kret false
      | Some p => kmod (set_map (Some p) true) ;; kret true
      end
    else kret false
  else kret false.

(** The constructor hands the pointer to XSPI_Flasher. *)
Definition get_map : K proc Z := p <- kget ;; deref (mMgmtMap p).
Definition Flasher_new (f : string) : K proc Z := kmod (set_mFd 0) ;; mapDevice f ;; get_map.
Definition Flasher_delete : K proc unit :=
  m <- get_map ;;
  (if istrue m then kmod (set_map (Some m) false) else kret tt) ;;
  p <- kget ;;
  if 0 <? mFd p then close (mFd p) else kret tt.

(** exit runs no destructor of main. *)
Definition main (argc : Z) (opts : list xb_option) : K proc outcome :=
  if istrue (uid env) && istrue (euid env) then kret (Returned (- EACCES))
  else
    let args := parseArguments argc opts in
    if negb (isValid args) then kret (Returned (-1))
    else
      f <- deref (devIdx args) ;;
      file <- deref (file1 args) ;;
      m <- Flasher_new f ;;
      ret <- zoom mXspi set_mXspi (upgradeFirmware m polls (mcs_of env file) (mcs_of env <$> file2 args)) ;;
      match ret with
      | Exited _ => kret ret
      | Returned rc => Flasher_delete ;; kret (Returned (if istrue rc then -1 else 0))
      end.
End Main.
End Xbflash.
