(* ===== verification/XspiCore.v ===== *)
(** * The Quad SPI core and the flash behind it

    The core has two FIFOs and shifts the bytes of one to the selected slave,
    and the answers into the other, some status reads after it was started.
    While a slave is selected it sees one command; when it is deselected it
    executes it.  [finalTransfer_run] shows that finalTransfer is the exchange
    of one command, whatever the depth of the FIFOs and the delays. *)

From S2P Require Import Prelude.
From S2P Require Import Mmio32.
From S2P Require Import Hwicap.
From S2P Require Import Xspi.
Local Open Scope list_scope.
Local Open Scope Z_scope.

(** ** The flash *)

(** The ID, and for how many delays an erase or a program of an address lasts. *)
Record flash_conf := FlashConf { f_id : list Z; f_time : Z -> nat }.

(** [f_busy] counts the delays until the flash is ready again. *)
Record flash := Flash { f_conf : flash_conf; f_mem : Z -> Z; f_wel : bool; f_ext : Z; f_busy : nat }.

Definition f_status (c : flash) : Z := Z.lor (if (0 <? f_busy c)%nat then 1 else 0) (if f_wel c then 2 else 0).

(** The answer to the byte that follows [prefix] in a command. *)
Definition answer (c : flash) (prefix : list Z) : Z :=
  match prefix with
  | [] => 0xff
  | cmd :: rest =>
      if cmd =? COMMAND_STATUSREG_READ then f_status c
      else if cmd =? COMMAND_IDCODE_READ then nth (length rest) (f_id (f_conf c)) 0xff
      else 0xff
  end.
Fixpoint answers (c : flash) (prefix l : list Z) : list Z :=
  match l with [] => [] | b :: l => answer c prefix :: answers c (prefix ++ [b]) l end.

Definition erase_4k (a : Z) (m : Z -> Z) : Z -> Z := fun x => if x / 4096 =? a / 4096 then 0xff else m x.
(** Bits go from 1 to 0, within the page of the first byte. *)
Fixpoint program_page (a : Z) (data : list Z) (m : Z -> Z) : Z -> Z :=
  match data with
  | [] => m
  | b :: data =>
      program_page (a / 256 * 256 + (a + 1) mod 256) data (fun x => if x =? a then Z.land (m a) b else m x)
  end.

Definition flash_address (c : flash) (a2 a1 a0 : Z) : Z := f_ext c * 2 ^ 24 + a2 * 2 ^ 16 + a1 * 2 ^ 8 + a0.
Definition set_wel w c := Flash (f_conf c) (f_mem c) w (f_ext c) (f_busy c).
Definition set_ext e c := Flash (f_conf c) (f_mem c) false e (f_busy c).
Definition set_mem m t c := Flash (f_conf c) m false (f_ext c) t.

(** A command, when its slave is deselected; a busy flash takes none. *)
Definition execute (command : list Z) (c : flash) : flash :=
  if (0 <? f_busy c)%nat then c
  else
    match command with
    | cmd :: args =>
        if cmd =? COMMAND_WRITE_ENABLE then set_wel true c
        else if negb (f_wel c) then c
        else
          match args with
          | [e] => if cmd =? COMMAND_EXTENDED_ADDRESS_REG_WRITE then set_ext e c else c
          | a2 :: a1 :: a0 :: data =>
              let a := flash_address c a2 a1 a0 in
              if cmd =? COMMAND_4KB_SUBSECTOR_ERASE then set_mem (erase_4k a (f_mem c)) (f_time (f_conf c) a) c
              else if (cmd =? COMMAND_PAGE_PROGRAM) || (cmd =? COMMAND_QUAD_WRITE) then
                set_mem (program_page a data (f_mem c)) (f_time (f_conf c) a) c
              else c
          | _ => c
          end
    | [] => c
    end.

Definition flash_tick (c : flash) : flash := Flash (f_conf c) (f_mem c) (f_wel c) (f_ext c) (pred (f_busy c)).

(** ** The core *)

Record qspi_conf := QspiConf { q_base : Z; q_depth : nat; q_latency : list Z -> nat }.

Record qspi := Qspi {
  q_conf : qspi_conf; cr : Z; txf : list Z; rxf : list Z;
  shifting : option nat;       (* status reads before the bytes are shifted *)
  sel : option bool;           (* the second slave? *)
  frame : list Z; chips : flash * flash;
}.

Definition get_chip (i : bool) (cs : flash * flash) : flash := if i then snd cs else fst cs.
Definition set_chip (i : bool) (c : flash) (cs : flash * flash) : flash * flash :=
  if i then (fst cs, c) else (c, snd cs).

Definition shift_out (d : qspi) : qspi :=
  match sel d with
  | Some i => Qspi (q_conf d) (cr d) [] (rxf d ++ answers (get_chip i (chips d)) (frame d) (txf d)) None (sel d)
                (frame d ++ txf d) (chips d)
  | None => Qspi (q_conf d) (cr d) [] (rxf d ++ repeat 0xff (length (txf d))) None None [] (chips d)
  end.
Definition core_tick (d : qspi) : qspi :=
  match shifting d with
  | None => d
  | Some O => shift_out d
  | Some (S k) => Qspi (q_conf d) (cr d) (txf d) (rxf d) (Some k) (sel d) (frame d) (chips d)
  end.

Definition status (d : qspi) : Z :=
  Z.lor (if (0 <? length (rxf d))%nat then 0 else XSP_SR_RX_EMPTY_MASK)
  (Z.lor (if (0 <? length (txf d))%nat then 0 else XSP_SR_TX_EMPTY_MASK)
         (if (length (txf d) <? q_depth (q_conf d))%nat then 0 else XSP_SR_TX_FULL_MASK)).

(** The reset bits clear themselves; a master that is enabled and not
    inhibited starts to shift. *)
Definition write_cr (v : Z) (d : qspi) : qspi :=
  let t := if istrue (Z.land v XSP_CR_TXFIFO_RESET_MASK) then [] else txf d in
  let r := if istrue (Z.land v XSP_CR_RXFIFO_RESET_MASK) then [] else rxf d in
  let go := (Z.land v (Z.lor XSP_CR_TRANS_INHIBIT_MASK XSP_CR_ENABLE_MASK) =? XSP_CR_ENABLE_MASK) &&
            (0 <? length t)%nat in
  Qspi (q_conf d) (Z.ldiff v 0x60) t r (if go then Some (q_latency (q_conf d) t) else None) (sel d) (frame d) (chips d).

Definition select (v : Z) : option bool :=
  if Z.land v 1 =? 0 then Some false else if Z.land v 2 =? 0 then Some true else None.
Definition write_ssr (v : Z) (d : qspi) : qspi :=
  let cs := match sel d with
            | Some i => set_chip i (execute (frame d) (get_chip i (chips d))) (chips d)
            | None => chips d
            end in
  Qspi (q_conf d) (cr d) (txf d) (rxf d) (shifting d) (select v) [] cs.

Definition set_txf l d := Qspi (q_conf d) (cr d) l (rxf d) (shifting d) (sel d) (frame d) (chips d).
Definition set_rxf l d := Qspi (q_conf d) (cr d) (txf d) l (shifting d) (sel d) (frame d) (chips d).

#[export] Instance qspi_mmio : Mmio32 qspi := {|
  dev_readl a d :=
    if a =? q_base (q_conf d) + XSP_CR_OFFSET then (cr d, d)
    else if a =? q_base (q_conf d) + XSP_SR_OFFSET then (status d, core_tick d)
    else if a =? q_base (q_conf d) + XSP_DRR_OFFSET then
      match rxf d with [] => (0, d) | b :: l => (b, set_rxf l d) end
    else if a =? q_base (q_conf d) + XSP_TFO_OFFSET then (Z.of_nat (length (txf d)), d)
    else (0, d);
  dev_writel a v d :=
    if a =? q_base (q_conf d) + XSP_CR_OFFSET then write_cr v d
    else if a =? q_base (q_conf d) + XSP_DTR_OFFSET then
      if (length (txf d) <? q_depth (q_conf d))%nat then set_txf (txf d ++ [v]) d else d
    else if a =? q_base (q_conf d) + XSP_SSR_OFFSET then write_ssr v d
    else d;
  dev_readb a d := (0, d);
  dev_writeb a v d := d;
|}.
#[export] Instance qspi_delay : NDelay qspi := {|
  dev_ndelay ns d :=
    Qspi (q_conf d) (cr d) (txf d) (rxf d) (shifting d) (sel d) (frame d)
      (flash_tick (fst (chips d)), flash_tick (snd (chips d)));
|}.

(** ** Answers and buffers *)

Lemma answers_app c prefix a b : answers c prefix (a ++ b) = answers c prefix a ++ answers c (prefix ++ a) b.
Proof.
  revert prefix. induction a as [|x a IH]; intros prefix; simpl; [by rewrite app_nil_r|].
  by rewrite IH, <- app_assoc.
Qed.

Lemma answers_length c prefix l : length (answers c prefix l) = length l.
Proof. revert prefix. induction l; intros; simpl; auto. Qed.

Lemma overwrite_run off l b :
  0 <= off -> off + Z.of_nat (length l) <= Z.of_nat (length b) ->
  overwrite off l b = Some (take (Z.to_nat off) b ++ l ++ drop (Z.to_nat off + length l) b).
Proof. intros H0 H. unfold overwrite. by rewrite (proj2 (Nat.leb_le _ _)) by lia. Qed.

Lemma overwrite_app off a b l l1 :
  0 <= off -> overwrite off a l = Some l1 -> overwrite (off + Z.of_nat (length a)) b l1 = overwrite off (a ++ b) l.
Proof.
  intros H0 H. unfold overwrite in H. destruct (Nat.leb_spec (Z.to_nat off + length a) (length l)); [|done].
  injection H as <-. unfold overwrite. rewrite !length_app, length_take, length_drop.
  replace (Z.to_nat (off + Z.of_nat (length a))) with (Z.to_nat off + length a)%nat by lia.
  replace (Z.to_nat off `min` length l + (length a + (length l - (Z.to_nat off + length a))))%nat with (length l) by lia.
  destruct (Nat.leb_spec (Z.to_nat off + length a + length b) (length l)).
  2: { by rewrite (proj2 (Nat.leb_gt _ _)) by lia. }
  rewrite (proj2 (Nat.leb_le _ _)) by lia. f_equal.
  set (pre := take (Z.to_nat off) l ++ a). assert (length pre = (Z.to_nat off + length a)%nat) as Hpre.
  { unfold pre. rewrite length_app, length_take. lia. }
  rewrite (app_assoc (take _ l)). fold pre. rewrite take_app_length' by done. rewrite drop_app, (drop_ge pre) by lia.
  rewrite drop_drop. unfold pre at 1. cbn [app]. rewrite <- !app_assoc. do 4 f_equal. lia.
Qed.

(** ** Registers *)

Section Transfer.
Variable mMgmtMap : Z.
Variable polls : nat.
Variable conf : qspi_conf.

Record core_ok : Prop := {
  ok_base : q_base conf = mMgmtMap + FLASH_BASE_ADDRESS;
  ok_depth : (0 < q_depth conf)%nat;
  ok_depth_polls : (q_depth conf < polls)%nat;
  ok_latency : forall t, (length t <= q_depth conf)%nat -> (q_latency conf t + 2 <= polls)%nat;
}.
Hypothesis Hok : core_ok.

Abbreviation xdev := (xspi qspi).
Abbreviation GetControlReg := (XSpi_GetControlReg mMgmtMap).
Abbreviation GetStatusReg := (XSpi_GetStatusReg mMgmtMap).
Definition conf_ok (x : xdev) : Prop := q_conf (core x) = conf.

Lemma reg_eqb (x : xdev) o o' :
  conf_ok x -> (mMgmtMap + o + FLASH_BASE_ADDRESS =? q_base (q_conf (core x)) + o') = (o =? o').
Proof. intros Hc. rewrite Hc, (ok_base Hok). destruct (Z.eqb_spec o o'); [apply Z.eqb_eq | apply Z.eqb_neq]; lia. Qed.

Ltac reg_access Hc :=
  unfold XSpi_GetControlReg, XSpi_GetStatusReg, XSpi_SetControlReg, XSpi_SetSlaveSelectReg, readReg, writeReg, on_core, zoom, readl, writel, kmod;
  cbn [dev_readl dev_writel qspi_mmio]; rewrite !(reg_eqb _ _ _ Hc).

Lemma set_core_same (x : xdev) : set_core (core x) x = x.
Proof. by destruct x. Qed.

Lemma get_cr (x : xdev) : conf_ok x -> GetControlReg x = Some (cr (core x), x).
Proof. intros Hc. reg_access Hc. cbn. by rewrite set_core_same. Qed.

Lemma get_sr (x : xdev) : conf_ok x -> GetStatusReg x = Some (status (core x), set_core (core_tick (core x)) x).
Proof. intros Hc. reg_access Hc. reflexivity. Qed.

Lemma get_drr (x : xdev) b l :
  conf_ok x -> rxf (core x) = b :: l -> readReg mMgmtMap XSP_DRR_OFFSET x = Some (b, set_core (set_rxf l (core x)) x).
Proof. intros Hc Hr. reg_access Hc. rewrite Hr. reflexivity. Qed.

Lemma get_tfo (x : xdev) :
  conf_ok x -> readReg mMgmtMap XSP_TFO_OFFSET x = Some (Z.of_nat (length (txf (core x))), x).
Proof. intros Hc. reg_access Hc. cbn. by rewrite set_core_same. Qed.

Lemma set_cr v (x : xdev) : conf_ok x -> XSpi_SetControlReg mMgmtMap v x = Some (tt, set_core (write_cr v (core x)) x).
Proof. intros Hc. reg_access Hc. reflexivity. Qed.

Lemma put_dtr v (x : xdev) :
  conf_ok x -> (length (txf (core x)) < q_depth conf)%nat ->
  writeReg mMgmtMap XSP_DTR_OFFSET v x = Some (tt, set_core (set_txf (txf (core x) ++ [v]) (core x)) x).
Proof. intros Hc Hl. reg_access Hc. rewrite Hc, (proj2 (Nat.ltb_lt _ _)) by done. reflexivity. Qed.

Lemma put_ssr v (x : xdev) :
  conf_ok x -> XSpi_SetSlaveSelectReg mMgmtMap v x = Some (tt, set_core (write_ssr v (core x)) x).
Proof. intros Hc. reg_access Hc. reflexivity. Qed.

(** The core does not move while nothing is shifted. *)
Lemma get_sr_still (x : xdev) :
  conf_ok x -> shifting (core x) = None -> GetStatusReg x = Some (status (core x), x).
Proof. intros Hc Hs. rewrite get_sr by done. unfold core_tick. by rewrite Hs, set_core_same. Qed.

(** ** The status bits *)

Lemma status_tx_full d :
  istrue (Z.land (status d) XSP_SR_TX_FULL_MASK) = (q_depth (q_conf d) <=? length (txf d))%nat.
Proof.
  unfold status. rewrite Nat.leb_antisym. destruct (0 <? length (rxf d))%nat, (0 <? length (txf d))%nat, (length (txf d) <? _)%nat; reflexivity.
Qed.
Lemma status_tx_empty d : (Z.land (status d) XSP_SR_TX_EMPTY_MASK =? 0) = (0 <? length (txf d))%nat.
Proof. unfold status. destruct (0 <? length (rxf d))%nat, (0 <? length (txf d))%nat, (length (txf d) <? _)%nat; reflexivity. Qed.
Lemma status_rx_empty d : (Z.land (status d) XSP_SR_RX_EMPTY_MASK =? 0) = (0 <? length (rxf d))%nat.
Proof. unfold status. destruct (0 <? length (rxf d))%nat, (0 <? length (txf d))%nat, (length (txf d) <? _)%nat; reflexivity. Qed.
Lemma status_no_error d : status_error (status d) = false.
Proof. unfold status, status_error. destruct (0 <? length (rxf d))%nat, (0 <? length (txf d))%nat, (length (txf d) <? _)%nat; reflexivity. Qed.

(** ** The loops of a transfer *)

Lemma fill_fifo_run send (x : xdev) :
  conf_ok x -> shifting (core x) = None ->
  let k := (q_depth conf - length (txf (core x)))%nat in
  fill_fifo mMgmtMap (status (core x)) send x =
    Some (Some (drop k send), set_core (set_txf (txf (core x) ++ take k send) (core x)) x).
Proof.
  revert x. induction send as [|b send IH]; intros x Hc Hs k.
  - unfold k. rewrite drop_nil, take_nil, app_nil_r. cbn [fill_fifo]. destruct x as [[] ? ? ? ? ? ? ? ?]. done.
  - cbn [fill_fifo]. rewrite status_tx_full, Hc. destruct (Nat.leb_spec (q_depth conf) (length (txf (core x)))) as [Hle|Hlt].
    + unfold k. replace (q_depth conf - _)%nat with 0%nat by lia. rewrite drop_0, take_0, app_nil_r.
      destruct x as [[] ? ? ? ? ? ? ? ?]. done.
    + rewrite (kbind_run _ _ _ _ _ (put_dtr b x Hc Hlt)).
      set (x1 := set_core (set_txf (txf (core x) ++ [b]) (core x)) x).
      rewrite (kbind_run _ _ _ _ _ (get_sr_still x1 Hc Hs)). rewrite status_no_error, (IH x1 Hc Hs).
      unfold x1, k. cbn [core set_core set_txf txf]. rewrite length_app. cbn [length].
      replace (q_depth conf - length (txf (core x)))%nat with (S (q_depth conf - (length (txf (core x)) + 1))) by lia.
      cbn [take drop]. by rewrite <- app_assoc.
Qed.

Lemma tx_done_run n k (x : xdev) :
  conf_ok x -> shifting (core x) = Some k -> txf (core x) <> [] -> (k + 2 <= n)%nat ->
  tx_done mMgmtMap n x = Some (tt, set_core (shift_out (core x)) x).
Proof.
  revert k x. induction n as [|n IH]; intros k x Hc Hs Ht Hn; [lia|].
  cbn [tx_done]. rewrite (kbind_run _ _ _ _ _ (get_sr x Hc)), status_tx_empty.
  destruct (txf (core x)) as [|b t] eqn:Et; [done|]. cbn [length Nat.ltb Nat.leb].
  unfold core_tick. rewrite Hs. destruct k as [|k].
  - destruct n as [|n]; [lia|]. cbn [tx_done]. set (x1 := set_core (shift_out (core x)) x).
    assert (conf_ok x1) as Hc1 by (unfold conf_ok, x1, shift_out; cbn; by destruct (sel (core x))).
    assert (shifting (core x1) = None /\ txf (core x1) = []) as [Hs1 Ht1]
      by (unfold x1, shift_out; cbn; by destruct (sel (core x))).
    rewrite (kbind_run _ _ _ _ _ (get_sr_still x1 Hc1 Hs1)), status_tx_empty, Ht1. done.
  - rewrite (IH k); [|done|done|by cbn; rewrite Et|lia]. cbn. unfold shift_out. cbn. by rewrite Et.
Qed.

(** Received bytes from [pos] on. *)
Definition fits (pos : option Z) (n : nat) (x : xdev) : Prop :=
  match pos with Some p => 0 <= p /\ p + Z.of_nat n <= Z.of_nat (length (ReadBuffer x)) | None => True end.
Definition advance (pos : option Z) (n : nat) : option Z := (fun p => p + Z.of_nat n) <$> pos.
Definition received (pos : option Z) (l : list Z) (x : xdev) : xdev :=
  match pos with Some p => set_rbuf (default (ReadBuffer x) (overwrite p l (ReadBuffer x))) x | None => x end.

Lemma received_length pos l x : length (ReadBuffer (received pos l x)) = length (ReadBuffer x).
Proof.
  destruct pos as [p|]; [|done]. unfold received, overwrite. simpl.
  destruct (Nat.leb_spec (Z.to_nat p + length l) (length (ReadBuffer x))); [|done]. simpl.
  rewrite !length_app, length_take, length_drop. lia.
Qed.

Lemma received_app pos a b x :
  fits pos (length a + length b) x -> received (advance pos (length a)) b (received pos a x) = received pos (a ++ b) x.
Proof.
  destruct pos as [p|]; [|done]. intros [H0 H]. unfold received, advance. cbn [fmap option_fmap option_map].
  rewrite (overwrite_run p a) by lia. cbn [default set_rbuf ReadBuffer].
  rewrite (overwrite_app p a b (ReadBuffer x)) by (try rewrite overwrite_run by lia; done).
  rewrite overwrite_run by (rewrite ?length_app; lia). done.
Qed.

Lemma received_nil pos x : fits pos 0 x -> received pos [] x = x.
Proof.
  destruct pos as [p|]; [|done]. intros [H0 H]. unfold received. rewrite overwrite_run by (simpl; lia). cbn [default].
  rewrite app_nil_l, Nat.add_0_r, take_drop. by destruct x.
Qed.

Lemma received_core pos l x : core (received pos l x) = core x.
Proof. by destruct pos. Qed.

Lemma set_core_received d pos l x : set_core d (received pos l x) = received pos l (set_core d x).
Proof. by destruct pos. Qed.

Definition bytes_ok (l : list Z) : Prop := Forall (fun b => 0 <= b < 256) l.

Lemma u8_byte b : 0 <= b < 256 -> u8 b = b.
Proof. intros H. by apply wrap_small. Qed.

Lemma drain_fifo_run n l pos count (x : xdev) :
  conf_ok x -> shifting (core x) = None -> rxf (core x) = l -> bytes_ok l -> (length l <= n)%nat ->
  fits pos (length l) x ->
  drain_fifo mMgmtMap n (status (core x)) pos count x =
    Some (Some (advance pos (length l), count - Z.of_nat (length l)),
          received pos l (set_core (set_rxf [] (core x)) x)).
Proof.
  revert n pos count x. induction l as [|b l IH]; intros n pos count x Hc Hs Hr Hb Hn Hfit.
  - destruct n as [|n]; cbn [drain_fifo]; rewrite status_rx_empty, Hr; cbn [length Nat.ltb Nat.leb negb]; unfold kret.
    all: rewrite received_nil by done; rewrite Z.sub_0_r.
    all: replace (advance pos 0) with pos by (destruct pos; [unfold advance; cbn; by rewrite Z.add_0_r | done]).
    all: do 3 f_equal; destruct x as [[] ? ? ? ? ? ? ? ?]; cbn in *; by subst.
  - simpl in Hn. destruct n as [|n]; [lia|]. inversion_clear Hb as [|? ? Hb1 Hb2]. cbn [drain_fifo].
    rewrite status_rx_empty, Hr. cbn [length Nat.ltb Nat.leb negb].
    rewrite (kbind_run _ _ _ _ _ (get_drr x b l Hc Hr)). set (x1 := set_core (set_rxf l (core x)) x).
    set (x2 := received pos [b] x1).
    assert ((match pos with Some p => put_read p [u8 b] ;; kret (Some (p + 1)) | None => kret None end) x1 =
            Some (advance pos 1, x2)) as Hput.
    { unfold x2, received. destruct pos as [p|]; [|done]. destruct Hfit as [H0 H1]. unfold put_read. cbn [kbind kget].
      rewrite u8_byte by done. cbn [ReadBuffer x1 set_core] in *. by rewrite overwrite_run by (cbn [length] in *; lia). }
    rewrite (kbind_run _ _ _ _ _ Hput).
    assert (conf_ok x2 /\ shifting (core x2) = None /\ rxf (core x2) = l) as (Hc2 & Hs2 & Hr2)
      by (unfold conf_ok, x2; by rewrite received_core).
    rewrite (kbind_run _ _ _ _ _ (get_sr_still x2 Hc2 Hs2)), status_no_error.
    rewrite (IH n (advance pos 1) (count - 1) x2 Hc2 Hs2 Hr2 Hb2 ltac:(lia)).
    + replace (advance (advance pos 1) (length l)) with (advance pos (S (length l)))
        by (destruct pos; [unfold advance; cbn; f_equal; lia | done]).
      replace (count - 1 - Z.of_nat (length l)) with (count - Z.of_nat (S (length l))) by lia. do 2 f_equal.
      assert (set_core (set_rxf [] (core x2)) x2 = received pos [b] (set_core (set_rxf [] (core x)) x)) as ->.
      { unfold x2. by rewrite received_core, set_core_received. }
      change (advance pos 1) with (advance pos (length [b])). by rewrite received_app by (by destruct pos).
    + unfold fits, x2, advance in *. rewrite received_length. destruct pos as [p|]; [|done]. cbn [fmap option_fmap option_map].
      cbn [length] in Hfit. unfold x1. cbn [ReadBuffer set_core]. lia.
Qed.

(** Register writes that compute. *)
Lemma inhibit_run (x : xdev) m v :
  conf_ok x -> cr (core x) = v -> set_control mMgmtMap m x = Some (tt, set_core (write_cr (Z.lor v m) (core x)) x).
Proof. intros Hc Hv. unfold set_control. by rewrite (kbind_run _ _ _ _ _ (get_cr x Hc)), set_cr, Hv. Qed.
Lemma uninhibit_run (x : xdev) m v :
  conf_ok x -> cr (core x) = v -> clear_control mMgmtMap m x = Some (tt, set_core (write_cr (Z.ldiff v m) (core x)) x).
Proof. intros Hc Hv. unfold clear_control. by rewrite (kbind_run _ _ _ _ _ (get_cr x Hc)), set_cr, Hv. Qed.

(** The control register between transfers, and during one. *)
Definition CR_IDLE : Z := 0x186.
Definition CR_GO : Z := 0x086.

(** Bytes [t] are being shifted. *)
Definition shifting_core (t : list Z) (k : nat) (i : bool) (fr : list Z) cs : qspi :=
  Qspi conf CR_GO t [] (Some k) (Some i) fr cs.
Definition shifted_core (i : bool) (fr : list Z) cs : qspi := Qspi conf CR_IDLE [] [] None (Some i) fr cs.

(** One round of the loop, up to the refill. *)
Lemma transfer_round_run t k i fr cs pos count (x : xdev) :
  core x = shifting_core t k i fr cs -> t <> [] -> (length t <= q_depth conf)%nat -> (k + 2 <= polls)%nat ->
  bytes_ok (answers (get_chip i cs) fr t) -> fits pos (length t) x ->
  forall A (f : option (option Z * Z) -> K xdev A),
  (tx_done mMgmtMap polls ;; set_control mMgmtMap XSP_CR_TRANS_INHIBIT_MASK ;; XSpi_GetControlReg mMgmtMap ;;
   StatusReg <- XSpi_GetStatusReg mMgmtMap ;; r <- drain_fifo mMgmtMap polls StatusReg pos count ;; f r) x =
  f (Some (advance pos (length t), count - Z.of_nat (length t)))
    (received pos (answers (get_chip i cs) fr t) (set_core (shifted_core i (fr ++ t) cs) x)).
Proof.
  intros Hx Ht Hl Hk Hb Hfit A f. assert (conf_ok x) as Hc by (unfold conf_ok; by rewrite Hx).
  rewrite (kbind_run _ _ _ _ _ (tx_done_run polls k x Hc ltac:(by rewrite Hx) ltac:(by rewrite Hx) Hk)).
  set (x1 := set_core (shift_out (core x)) x).
  assert (core x1 = Qspi conf CR_GO [] (answers (get_chip i cs) fr t) None (Some i) (fr ++ t) cs) as Hx1
    by (unfold x1; cbn; by rewrite Hx).
  assert (conf_ok x1) as Hc1 by (unfold conf_ok; by rewrite Hx1).
  rewrite (kbind_run _ _ _ _ _ (inhibit_run x1 _ CR_GO Hc1 ltac:(by rewrite Hx1))).
  set (x2 := set_core (write_cr _ (core x1)) x1).
  assert (core x2 = Qspi conf CR_IDLE [] (answers (get_chip i cs) fr t) None (Some i) (fr ++ t) cs) as Hx2
    by (unfold x2; cbn [core set_core]; by rewrite Hx1).
  assert (conf_ok x2) as Hc2 by (unfold conf_ok; by rewrite Hx2).
  rewrite (kbind_run _ _ _ _ _ (get_cr x2 Hc2)).
  rewrite (kbind_run _ _ _ _ _ (get_sr_still x2 Hc2 ltac:(by rewrite Hx2))).
  erewrite kbind_run.
  2: { apply (drain_fifo_run polls (answers (get_chip i cs) fr t)); try done; try (by rewrite Hx2);
       rewrite answers_length; [pose proof (ok_depth_polls Hok); lia | by destruct pos]. }
  rewrite answers_length. do 2 f_equal. rewrite Hx2. by unfold x2, x1.
Qed.

Lemma transfer_loop_run n send t k i fr cs pos (x : xdev) :
  core x = shifting_core t k i fr cs -> t <> [] -> (length t <= q_depth conf)%nat -> (k + 2 <= polls)%nat ->
  (forall prefix l, bytes_ok (answers (get_chip i cs) prefix l)) ->
  fits pos (length t + length send) x -> (length send < n)%nat ->
  transfer_loop mMgmtMap polls n send pos (Z.of_nat (length t + length send)) x =
    Some (true, received pos (answers (get_chip i cs) fr (t ++ send)) (set_core (shifted_core i (fr ++ t ++ send) cs) x)).
Proof.
  revert send t k fr pos x. induction n as [|n IH]; intros send t k fr pos x Hx Ht Hl Hk Hb Hfit Hn; [lia|].
  assert (0 < length t)%nat by (destruct t; [done | simpl; lia]).
  cbn [transfer_loop]. rewrite (proj2 (Z.leb_gt _ _)) by lia.
  erewrite (transfer_round_run t k i fr cs); [|done..|apply Hb|destruct pos; [unfold fits in *; lia|done]].
  set (x1 := received pos _ _). assert (core x1 = shifted_core i (fr ++ t) cs) as Hx1
    by (unfold x1; by rewrite received_core).
  assert (conf_ok x1) as Hc1 by (unfold conf_ok; by rewrite Hx1).
  destruct send as [|b send].
  - cbn [length]. rewrite Nat.add_0_r, Z.sub_diag, !app_nil_r.
    assert (forall n pos, transfer_loop mMgmtMap polls n [] pos 0 x1 = Some (true, x1)) as -> by by intros [].
    reflexivity.
  - set (l := b :: send) in *. assert (0 < length l)%nat by (unfold l; simpl; lia).
    cbn iota. unfold l at 1. rewrite (kbind_run _ _ _ _ _ (get_sr_still x1 Hc1 ltac:(by rewrite Hx1))).
    rewrite (kbind_run _ _ _ _ _ (fill_fifo_run (b :: send) x1 Hc1 ltac:(by rewrite Hx1))). fold l.
    rewrite Hx1. cbn [txf shifted_core length]. rewrite Nat.sub_0_r, app_nil_l.
    set (t' := take (q_depth conf) l). set (x2 := set_core (set_txf t' _) x1).
    pose proof (ok_depth Hok). assert (0 < length t' <= q_depth conf)%nat by (unfold t'; rewrite length_take; lia).
    assert (conf_ok x2) as Hc2 by done.
    rewrite (kbind_run _ _ _ _ _ (uninhibit_run x2 _ CR_IDLE Hc2 eq_refl)).
    set (x3 := set_core (write_cr _ (core x2)) x2).
    assert (core x3 = shifting_core t' (q_latency conf t') i (fr ++ t) cs) as Hx3.
    { unfold x3, x2. cbn. destruct t'; [simpl in *; lia|done]. }
    replace (Z.of_nat (length t + length l) - Z.of_nat (length t)) with
      (Z.of_nat (length t' + length (drop (q_depth conf) l))) by (unfold t'; rewrite length_take, length_drop; lia).
    rewrite (IH _ t' (q_latency conf t') (fr ++ t)); try done; try lia.
    + unfold t'. rewrite take_drop. do 2 f_equal. rewrite answers_app, <- received_app, answers_length.
      * unfold x3, x2, x1. rewrite !set_core_received, <- (app_assoc fr). reflexivity.
      * rewrite !answers_length. by destruct pos.
    + intros E. rewrite E in *. simpl in *. lia.
    + apply (ok_latency Hok). lia.
    + unfold fits, x3, x2, x1, advance. destruct pos as [p|]; [|done]. cbn [fmap option_fmap option_map ReadBuffer set_core].
      rewrite received_length. cbn [ReadBuffer set_core] in *. unfold t', fits in *. rewrite length_take, length_drop. lia.
    + unfold t'. rewrite length_drop. simpl in Hn. unfold l. simpl. lia.
Qed.

(** ** One command *)

Definition at_rest cs : qspi := Qspi conf CR_IDLE [] [] None None [] cs.

Lemma finalTransfer_run (recv i : bool) n cs (x : xdev) :
  core x = at_rest cs -> slave_index x = (if i then 1 else 0) ->
  (forall prefix l, bytes_ok (answers (get_chip i cs) prefix l)) ->
  (0 < n <= length (WriteBuffer x))%nat -> (recv = true -> (n <= length (ReadBuffer x))%nat) -> (n < polls)%nat ->
  let send := take n (WriteBuffer x) in
  finalTransfer mMgmtMap polls recv (Z.of_nat n) x =
    Some (true, received (if recv then Some 0 else None) (answers (get_chip i cs) [] send)
                  (set_core (at_rest (set_chip i (execute send (get_chip i cs)) cs)) x)).
Proof.
  intros Hx Hi Hb Hn Hr Hp send. assert (conf_ok x) as Hc by (unfold conf_ok; by rewrite Hx).
  assert (length send = n) as Hlen by (unfold send; rewrite length_take; lia).
  unfold finalTransfer. rewrite (kbind_run kget _ x x x eq_refl).
  rewrite (kbind_run _ _ _ _ _ (get_cr x Hc)). 
  pose proof (get_sr_still x Hc ltac:(by rewrite Hx)) as Hsr. rewrite (kbind_run _ _ _ _ _ Hsr).
  assert ((SlaveSelectReg (slave_index x) =? SLAVE_SELECT_MASK) = false) as -> by (rewrite Hi; by destruct i).
  rewrite andb_false_r. rewrite (kbind_run _ _ _ _ _ Hsr), status_no_error.
  rewrite (proj2 (Z.leb_le _ _)) by lia. rewrite Nat2Z.id. fold send.
  rewrite (kbind_run (deref (Some send)) _ x send x eq_refl).
  rewrite (kbind_run _ _ _ _ _ (fill_fifo_run send x Hc ltac:(by rewrite Hx))). cbn iota.
  rewrite Hx. cbn [txf at_rest length]. rewrite Nat.sub_0_r, app_nil_l.
  set (t := take (q_depth conf) send). set (rest := drop (q_depth conf) send).
  pose proof (ok_depth Hok). assert (0 < length t <= q_depth conf)%nat by (unfold t; rewrite length_take; lia).
  set (x1 := set_core (set_txf t (at_rest cs)) x). assert (conf_ok x1) as Hc1 by done.
  rewrite (kbind_run _ _ _ _ _ (put_ssr (SlaveSelectReg (slave_index x)) x1 Hc1)).
  set (x2 := set_core (write_ssr _ _) x1). assert (conf_ok x2) as Hc2 by done.
  assert (core x2 = Qspi conf CR_IDLE t [] None (Some i) [] cs) as Hx2
    by (unfold x2, x1; cbn [core set_core]; rewrite Hi; by destruct i).
  rewrite (kbind_run _ _ _ _ _ (get_cr x2 Hc2)).
  rewrite (kbind_run _ _ _ _ _ (get_sr_still x2 Hc2 ltac:(by rewrite Hx2))), status_no_error.
  rewrite (kbind_run _ _ _ _ _ (uninhibit_run x2 _ CR_IDLE Hc2 ltac:(by rewrite Hx2))).
  set (x3 := set_core (write_cr _ (core x2)) x2).
  assert (core x3 = shifting_core t (q_latency conf t) i [] cs) as Hx3.
  { unfold x3. rewrite Hx2. cbn. destruct t; [simpl in *; lia|done]. }
  replace (Z.of_nat n) with (Z.of_nat (length t + length rest))
    by (unfold t, rest; rewrite length_take, length_drop; lia).
  assert (length t + length rest = n)%nat as Hsum by (unfold t, rest; rewrite length_take, length_drop; lia).
  erewrite kbind_run.
  2: { eapply (transfer_loop_run polls rest t _ i []); [exact Hx3| | lia | apply (ok_latency Hok); lia | done | | lia].
       - intros E. rewrite E in *. simpl in *. lia.
       - destruct recv; [|done]. rewrite Hsum. unfold fits, x3, x2, x1. cbn [ReadBuffer set_core]. specialize (Hr eq_refl). lia. }
  unfold t, rest. rewrite take_drop, app_nil_l. cbn [negb].
  set (x4 := received _ _ _). assert (core x4 = shifted_core i send cs) as Hx4 by (unfold x4; by rewrite received_core).
  assert (conf_ok x4) as Hc4 by (unfold conf_ok; by rewrite Hx4).
  rewrite (kbind_run _ _ _ _ _ (inhibit_run x4 _ CR_IDLE Hc4 ltac:(by rewrite Hx4))).
  set (x5 := set_core (write_cr _ (core x4)) x4).
  assert (core x5 = shifted_core i send cs) as Hx5 by (unfold x5; cbn [core set_core]; by rewrite Hx4).
  rewrite (kbind_run _ _ _ _ _ (put_ssr _ x5 ltac:(unfold conf_ok; by rewrite Hx5))).
  rewrite Hx5. unfold kret. do 2 f_equal. unfold x5, x4, x3, x2, x1.
  rewrite !set_core_received. reflexivity.
Qed.
End Transfer.
