(* ===== verification/XspiFlash.v ===== *)
(** * The commands of the flash programmer

    What each command of XSPI_Flasher does to the selected flash and to the
    buffers, on a core at rest.  The data of a page sits in WriteBuffer behind
    the four bytes that the commands in between overwrite. *)

From Stdlib Require Import List.
From S2P Require Import Prelude.
From S2P Require Import Mmio32.
From S2P Require Import Loops.
From S2P Require Import Hwicap.
From S2P Require Import Xspi.
From S2P Require Import XspiCore.
Local Open Scope list_scope.
Local Open Scope Z_scope.

(** ** The flash *)

(** Operations end within the waits of the program. *)
Definition MAX_TICKS : Z := 5999999.
Record flash_ok (c : flash) : Prop := {
  fo_id : bytes_ok (f_id (f_conf c));
  fo_time : forall a, Z.of_nat (f_time (f_conf c) a) <= MAX_TICKS;
  fo_busy : Z.of_nat (f_busy c) <= MAX_TICKS;
}.
Definition ready (c : flash) : flash := Flash (f_conf c) (f_mem c) (f_wel c) (f_ext c) 0.

(** At most time passed. *)
Record same_chip (c c' : flash) : Prop := {
  sc_conf : f_conf c' = f_conf c; sc_mem : f_mem c' = f_mem c; sc_wel : f_wel c' = f_wel c;
  sc_ext : f_ext c' = f_ext c; sc_busy : (f_busy c' <= f_busy c)%nat;
}.

#[export] Instance same_chip_preorder : PreOrder same_chip.
Proof.
  split.
  - intros c. by split.
  - intros c c' c'' [] []. split; try congruence. lia.
Qed.

Lemma answer_byte c prefix : bytes_ok (f_id (f_conf c)) -> 0 <= answer c prefix < 256.
Proof.
  intros Hid. destruct prefix as [|cmd rest]; cbn [answer]; [lia|].
  destruct (cmd =? _); [unfold f_status; destruct (0 <? f_busy c)%nat, (f_wel c); split; reflexivity || discriminate|].
  destruct (cmd =? _); [|lia].
  destruct (nth_in_or_default (length rest) (f_id (f_conf c)) 0xff) as [H| ->]; [|lia].
  exact (proj1 (List.Forall_forall _ _) Hid _ H).
Qed.

Lemma answers_bytes c prefix l : bytes_ok (f_id (f_conf c)) -> bytes_ok (answers c prefix l).
Proof.
  intros Hid. revert prefix. induction l as [|b l IH]; intros prefix; simpl; [constructor|].
  constructor; [by apply answer_byte | apply IH].
Qed.

Lemma get_set_chip i c cs : get_chip i (set_chip i c cs) = c.
Proof. by destruct i. Qed.
Lemma get_other_chip i c cs : get_chip (negb i) (set_chip i c cs) = get_chip (negb i) cs.
Proof. by destruct i. Qed.

Section Commands.
Variable mMgmtMap : Z.
Variable polls : nat.
Variable conf : qspi_conf.
Hypothesis Hcore : core_ok mMgmtMap polls conf.
Hypothesis Hpolls : (264 < polls)%nat.
(** Which of the two flashes is programmed. *)
Variable i : bool.

Abbreviation xdev := (xspi qspi).
Definition WBUF : nat := 260.
Definition RBUF : nat := 264.

(** The core at rest, with [c] as the selected flash. *)
Record good (c : flash) (x : xdev) : Prop := {
  g_core : core x = at_rest conf (chips (core x));
  g_chip : get_chip i (chips (core x)) = c;
  g_ok : flash_ok c;
  g_slave : slave_index x = if i then 1 else 0;
  g_wlen : length (WriteBuffer x) = WBUF; g_rlen : length (ReadBuffer x) = RBUF;
}.

(** What a command leaves alone, apart from the selected flash and sector. *)
Record keeps (x x' : xdev) : Prop := {
  k_other : same_chip (get_chip (negb i) (chips (core x))) (get_chip (negb i) (chips (core x')));
  k_data : drop 4 (WriteBuffer x') = drop 4 (WriteBuffer x);
  k_max : MAX_NUM_SECTORS x' = MAX_NUM_SECTORS x; k_vendor : flashVendor x' = flashVendor x;
  k_start : BITSTREAM_START_LOC x' = BITSTREAM_START_LOC x; k_records : recordList x' = recordList x;
}.

#[export] Instance keeps_preorder : PreOrder keeps.
Proof.
  split.
  - intros x. split; done.
  - intros x x' x'' [] []. split; try congruence. by etransitivity.
Qed.

Lemma flash_ok_execute l c : flash_ok c -> flash_ok (execute l c).
Proof.
  intros H. pose proof H as [Hid Ht Hb]. unfold execute. destruct (0 <? f_busy c)%nat; [done|].
  destruct l as [|cmd args]; [done|]. destruct (cmd =? _); [by split|]. destruct (f_wel c); [|done]. cbn [negb].
  destruct args as [|a2 [|a1 [|a0 data]]]; try done; [destruct (cmd =? _); by try split|].
  destruct (cmd =? _); [split; [done..|apply Ht]|]. destruct (_ || _); [split; [done..|apply Ht]|done].
Qed.

(** ** Steps *)

Lemma and_then_run (c k : K xdev bool) x x' : c x = Some (true, x') -> and_then c k x = k x'.
Proof. intros H. unfold and_then. by rewrite (kbind_run _ _ _ _ _ H). Qed.

Lemma put_write_run off l c (x : xdev) :
  good c x -> 0 <= off -> off + Z.of_nat (length l) <= Z.of_nat WBUF ->
  let b := take (Z.to_nat off) (WriteBuffer x) ++ l ++ drop (Z.to_nat off + length l) (WriteBuffer x) in
  put_write off l x = Some (tt, set_wbuf b x) /\ good c (set_wbuf b x).
Proof.
  intros [H1 H2 H3 H4 H5 H6] H0 Hl b. split.
  - unfold put_write. cbn [kbind kget]. by rewrite overwrite_run by lia.
  - split; try done. cbn [WriteBuffer set_wbuf]. unfold b. rewrite !length_app, length_take, length_drop. unfold WBUF in *. lia.
Qed.

(** The bytes of a command, in front of the data. *)
Lemma put_command_run l c (x : xdev) :
  good c x -> (length l <= 4)%nat ->
  exists x', put_write 0 l x = Some (tt, x') /\ good c x' /\ keeps x x' /\
    take (length l) (WriteBuffer x') = l /\ selected_sector x' = selected_sector x /\
    core x' = core x /\ ReadBuffer x' = ReadBuffer x /\ drop (length l) (WriteBuffer x') = drop (length l) (WriteBuffer x).
Proof.
  intros Hg Hl. destruct (put_write_run 0 l c x Hg) as [Hrun Hg']; [lia|unfold WBUF; lia|].
  set (b := l ++ drop (length l) (WriteBuffer x)). change (_ ++ _) with b in Hrun, Hg'. exists (set_wbuf b x).
  assert (drop (length l) b = drop (length l) (WriteBuffer x)) as Hd by (unfold b; by rewrite drop_app_length).
  split_and!; try done.
  - split; try done. cbn [WriteBuffer set_wbuf]. replace 4%nat with (length l + (4 - length l))%nat by lia.
    rewrite <- !drop_drop. by rewrite Hd.
  - cbn [WriteBuffer set_wbuf]. unfold b. by rewrite take_app_length.
Qed.

Lemma transfer_run recv n c (x : xdev) :
  good c x -> (0 < n <= WBUF)%nat ->
  exists x', finalTransfer mMgmtMap polls recv (Z.of_nat n) x = Some (true, x') /\
    good (execute (take n (WriteBuffer x)) c) x' /\ keeps x x' /\ WriteBuffer x' = WriteBuffer x /\
    selected_sector x' = selected_sector x /\
    (recv = true -> take n (ReadBuffer x') = answers c [] (take n (WriteBuffer x))).
Proof.
  intros [H1 H2 H3 H4 H5 H6] Hn. unfold WBUF, RBUF in *.
  eexists. split.
  { apply (finalTransfer_run mMgmtMap polls conf Hcore recv i n (chips (core x))); try done; try lia.
    intros prefix l. rewrite H2. apply answers_bytes, H3. }
  set (send := take n (WriteBuffer x)). assert (length send = n) as Hlen by (unfold send; rewrite length_take; lia).
  rewrite H2. split_and!.
  - split; [by destruct recv| | by apply flash_ok_execute | by destruct recv | by destruct recv | by rewrite received_length].
    rewrite received_core. apply get_set_chip.
  - split; try (by destruct recv). rewrite received_core. cbn [core set_core at_rest chips]. by rewrite get_other_chip.
  - by destruct recv.
  - by destruct recv.
  - intros ->. unfold received. rewrite overwrite_run by (rewrite ?answers_length; cbn [ReadBuffer set_core]; lia).
    cbn [default ReadBuffer set_rbuf]. change (take (Z.to_nat 0) _) with (@nil Z). rewrite app_nil_l.
    unfold id. by rewrite take_app_length' by (rewrite answers_length; lia).
Qed.

Lemma status_good c (x : xdev) : good c x -> XSpi_GetStatusReg mMgmtMap x = Some (status (core x), x).
Proof. intros [H1 _ _ _ _ _]. apply (get_sr_still mMgmtMap polls conf Hcore); [unfold conf_ok; by rewrite H1 | by rewrite H1]. Qed.

Lemma get_cr_good c (x : xdev) : good c x -> XSpi_GetControlReg mMgmtMap x = Some (CR_IDLE, x).
Proof. intros [H1 _ _ _ _ _]. rewrite (get_cr mMgmtMap polls conf Hcore) by (unfold conf_ok; by rewrite H1). by rewrite H1. Qed.

(** A write of the control register that keeps the core at rest. *)
Lemma set_cr_good v c (x : xdev) :
  good c x -> Z.ldiff v 0x60 = CR_IDLE -> XSpi_SetControlReg mMgmtMap v x = Some (tt, x).
Proof.
  intros [H1 _ _ _ _ _] Hv. rewrite (set_cr mMgmtMap polls conf Hcore) by (unfold conf_ok; by rewrite H1).
  assert (write_cr v (core x) = core x) as ->; [|by rewrite set_core_same].
  rewrite H1. unfold write_cr. cbn [at_rest txf rxf q_conf sel frame chips].
  rewrite Hv. destruct (istrue _), (istrue _); cbn [length Nat.ltb Nat.leb]; by rewrite andb_false_r.
Qed.

Lemma set_control_good m c (x : xdev) :
  good c x -> Z.ldiff (Z.lor CR_IDLE m) 0x60 = CR_IDLE -> set_control mMgmtMap m x = Some (tt, x).
Proof.
  intros Hg Hm. unfold set_control. rewrite (kbind_run _ _ _ _ _ (get_cr_good c x Hg)). by apply (set_cr_good _ c).
Qed.

Lemma waitTxEmpty_run c (x : xdev) : good c x -> waitTxEmpty mMgmtMap x = Some (true, x).
Proof.
  intros Hg. unfold waitTxEmpty.
  destruct (kwhile_run (wait_tx_round mMgmtMap) (fun k d s => d = 0 /\ s = x) (fun b s => b = true /\ s = x)
    wait_rounds 0 0 x) as (b & s & Hrun & -> & ->); [|done|apply Pos2Nat.is_pos|done].
  intros k d s [-> ->]. exists (inr true), x. split; [|done]. unfold wait_tx_round.
  change (WAIT_LIMIT <=? 0) with false. cbn iota. rewrite (kbind_run _ _ _ _ _ (status_good c x Hg)).
  unfold istrue. rewrite status_tx_empty. destruct Hg as [H1 _ _ _ _ _]. by rewrite H1.
Qed.

(** ** Ready *)

Lemma execute_status l c : execute (COMMAND_STATUSREG_READ :: l) c = c.
Proof.
  unfold execute. destruct (0 <? f_busy c)%nat; [done|].
  change (COMMAND_STATUSREG_READ =? COMMAND_WRITE_ENABLE) with false. cbn iota. destruct (f_wel c); [|done].
  by destruct l as [|a [|b [|d l]]].
Qed.

Lemma execute_id l c : execute (COMMAND_IDCODE_READ :: l) c = c.
Proof.
  unfold execute. destruct (0 <? f_busy c)%nat; [done|].
  change (COMMAND_IDCODE_READ =? COMMAND_WRITE_ENABLE) with false. cbn iota. destruct (f_wel c); [|done].
  by destruct l as [|a [|b [|d l]]].
Qed.

Lemma wbuf_cons c (x : xdev) l b :
  good c x -> take 1 (WriteBuffer x) = [b] -> (0 < l <= WBUF)%nat ->
  exists r, take l (WriteBuffer x) = b :: r /\ length r = pred l.
Proof.
  intros Hg Ht Hl. pose proof (g_wlen _ _ Hg) as Hlen. unfold WBUF in *.
  destruct (WriteBuffer x) as [|b' w]; [done|]. injection Ht as ->. destruct l as [|l]; [lia|].
  cbn [take]. eexists. split; [done|]. rewrite length_take. simpl in Hlen. lia.
Qed.

Lemma nanosleep_run ns c (x : xdev) :
  good c x -> exists x', nanosleep ns x = Some (tt, x') /\ good (flash_tick c) x' /\ keeps x x' /\
    selected_sector x' = selected_sector x /\ WriteBuffer x' = WriteBuffer x.
Proof.
  intros [H1 H2 [Hid Ht Hb] H4 H5 H6]. eexists. split; [reflexivity|]. cbn [dev_ndelay qspi_delay]. split_and!; try done.
  - split; try done.
    + cbn [core set_core]. by rewrite H1.
    + cbn [core set_core chips]. rewrite <- H2. by destruct i.
    + split; [done..|]. cbn. lia.
  - split; try done. cbn [core set_core chips]. destruct i; (split; try done; cbn; lia).
Qed.

(** One round of isFlashReady. *)
Lemma ready_round_run d c (x : xdev) :
  good c x -> d < WAIT_LIMIT ->
  exists r x', ready_round mMgmtMap polls d x = Some (r, x') /\ keeps x x' /\ selected_sector x' = selected_sector x /\
    match f_busy c with
    | O => r = inr true /\ good c x'
    | S _ => r = inl (d + WAIT_STEP) /\ good (flash_tick c) x'
    end.
Proof.
  intros Hg Hd. unfold ready_round. rewrite (proj2 (Z.leb_gt _ _)) by done.
  destruct (put_command_run [COMMAND_STATUSREG_READ] c x Hg) as (x1 & Hrun1 & Hg1 & Hk1 & Ht1 & Hs1 & _); [simpl; lia|].
  rewrite (kbind_run _ _ _ _ _ Hrun1). cbn [length] in Ht1.
  destruct (transfer_run true 2 c x1 Hg1) as (x2 & Hrun2 & Hg2 & Hk2 & Hw2 & Hs2 & Hr2); [unfold WBUF; lia|].
  rewrite (kbind_run _ _ _ _ _ Hrun2). cbn [negb].
  destruct (wbuf_cons c x1 2 _ Hg1 Ht1) as (r & Htake & Hlen); [unfold WBUF; lia|].
  rewrite Htake in Hg2, Hr2. rewrite execute_status in Hg2. specialize (Hr2 eq_refl).
  destruct r as [|b [|]]; [done| |done]. cbn [answers app] in Hr2.
  assert (ReadBuffer x2 !! 1%nat = Some (f_status c)) as Hst.
  { rewrite <- (take_drop 2 (ReadBuffer x2)), Hr2. done. }
  rewrite (kbind_run (read_at 1) _ x2 (f_status c) x2) by (unfold read_at; cbn [kbind kget]; change (Z.to_nat 1) with 1%nat; by rewrite Hst).
  assert (keeps x x2) as Hk by (by etransitivity). assert (selected_sector x2 = selected_sector x) as Hs by congruence.
  unfold f_status. destruct (f_busy c) eqn:Eb.
  - exists (inr true), x2. split; [by destruct (f_wel c)|]. done.
  - assert ((Z.land (Z.lor (if (0 <? S n)%nat then 1 else 0) (if f_wel c then 2 else 0)) FLASH_SR_IS_READY_MASK =? 0) = false) as ->
      by (by destruct (f_wel c)).
    destruct (nanosleep_run 5000 c x2 Hg2) as (x3 & Hrun3 & Hg3 & Hk3 & Hs3 & _).
    rewrite (kbind_run _ _ _ _ _ Hrun3). exists (inl (d + WAIT_STEP)), x3. split_and!; try done.
    + by etransitivity.
    + congruence.
Qed.

Lemma flash_tick_ready c : ready (flash_tick c) = ready c.
Proof. done. Qed.

Lemma isFlashReady_run c (x : xdev) :
  good c x -> exists x', isFlashReady mMgmtMap polls x = Some (true, x') /\ good (ready c) x' /\ keeps x x' /\
    selected_sector x' = selected_sector x.
Proof.
  intros Hg. unfold isFlashReady.
  destruct (kwhile_run (ready_round mMgmtMap polls)
    (fun k d s => exists c1, good c1 s /\ ready c1 = ready c /\ keeps x s /\ selected_sector s = selected_sector x /\
       k = f_busy c1 /\ d + WAIT_STEP * Z.of_nat k <= WAIT_STEP * MAX_TICKS)
    (fun b s => b = true /\ good (ready c) s /\ keeps x s /\ selected_sector s = selected_sector x)
    wait_rounds (f_busy c) 0 x) as (b & s & Hrun & -> & H1 & H2 & H3); [| | |by exists s].
  - intros k d s (c1 & Hg1 & Hr1 & Hk1 & Hs1 & -> & Hd).
    assert (d < WAIT_LIMIT) as Hlim by (unfold WAIT_LIMIT, WAIT_STEP, MAX_TICKS in *; lia).
    destruct (ready_round_run d c1 s Hg1 Hlim) as (r & s' & Hrun & Hk & Hs & Hcase).
    exists r, s'. split; [done|]. destruct (f_busy c1) as [|k] eqn:Eb; destruct Hcase as [-> Hg2].
    + split_and!; try done; [|by etransitivity|congruence]. rewrite <- Hr1.
      replace (ready c1) with c1; [done|]. destruct c1; cbn in *; by subst.
    + exists k. split; [lia|]. exists (flash_tick c1). split_and!; try done; [by etransitivity|congruence| |].
      * cbn. by rewrite Eb.
      * unfold WAIT_STEP in *. lia.
  - exists c. split_and!; try done. pose proof (fo_busy _ (g_ok _ _ Hg)). unfold WAIT_STEP. lia.
  - pose proof (fo_busy _ (g_ok _ _ Hg)) as Hb. unfold MAX_TICKS in Hb.
    apply Nat2Z.inj_lt. rewrite positive_nat_Z. assert (Z.pos wait_rounds = 6000001) as -> by reflexivity. lia.
Qed.

(** ** Commands *)

(** [op] succeeds from [x], leaving the selected flash as [c] and the sector
    [sector] selected. *)
Definition does (op : K xdev bool) (c : flash) (sector : Z) (x : xdev) : Prop :=
  exists x', op x = Some (true, x') /\ good c x' /\ keeps x x' /\ selected_sector x' = sector.

Lemma does_then op k c c' s s' x :
  does op c s x -> (forall x1, good c x1 -> keeps x x1 -> selected_sector x1 = s -> does k c' s' x1) ->
  does (and_then op k) c' s' x.
Proof.
  intros (x1 & Hrun & Hg & Hk & Hs) H. destruct (H x1 Hg Hk Hs) as (x2 & Hrun2 & Hg2 & Hk2 & Hs2).
  exists x2. rewrite (and_then_run _ _ _ _ Hrun). split_and!; try done. by etransitivity.
Qed.

Lemma does_bind {A} (op : K xdev A) k a c s x x1 :
  op x = Some (a, x1) -> keeps x x1 -> does (k a) c s x1 -> does (kbind op k) c s x.
Proof.
  intros Hrun Hk (x2 & Hrun2 & Hg2 & Hk2 & Hs2). exists x2.
  rewrite (kbind_run _ _ _ _ _ Hrun). split_and!; try done. by etransitivity.
Qed.

Lemma does_ready c x : good c x -> does (isFlashReady mMgmtMap polls) (ready c) (selected_sector x) x.
Proof. intros Hg. exact (isFlashReady_run c x Hg). Qed.

(** A command of at most four bytes. *)
Lemma does_command l n c x :
  good c x -> (0 < length l <= 4)%nat -> n = Z.of_nat (length l) ->
  does (put_write 0 l ;; and_then (finalTransfer mMgmtMap polls false n) (waitTxEmpty mMgmtMap))
    (execute l c) (selected_sector x) x.
Proof.
  intros Hg Hl ->. destruct (put_command_run l c x Hg) as (x1 & Hrun1 & Hg1 & Hk1 & Ht1 & Hs1 & _); [lia|].
  eapply does_bind; [exact Hrun1|done|]. rewrite <- Hs1.
  destruct (transfer_run false (length l) c x1 Hg1) as (x2 & Hrun2 & Hg2 & Hk2 & _ & Hs2 & _); [unfold WBUF; lia|].
  rewrite Ht1 in Hg2. exists x2. rewrite (and_then_run _ _ _ _ Hrun2), (waitTxEmpty_run _ _ Hg2). done.
Qed.

Lemma execute_write_enable c : f_busy c = 0%nat -> execute [COMMAND_WRITE_ENABLE] c = set_wel true c.
Proof. intros Hb. unfold execute. by rewrite Hb. Qed.

Lemma does_write_enable c x :
  good c x -> f_busy c = 0%nat -> does (writeEnable mMgmtMap polls) (set_wel true c) (selected_sector x) x.
Proof.
  intros Hg Hb. unfold writeEnable. eapply does_bind; [exact (status_good c x Hg)|reflexivity|].
  rewrite status_tx_full. pose proof Hg as [H1 _ _ _ _ _]. rewrite H1. cbn [at_rest q_conf txf length].
  pose proof (ok_depth _ _ _ Hcore). rewrite (proj2 (Nat.leb_gt _ _)) by lia.
  eapply does_bind; [by apply (set_control_good _ c)|reflexivity|].
  rewrite <- execute_write_enable by done. by apply does_command; [|simpl; lia|].
Qed.

Lemma reset_fifos_run c (x : xdev) : good c x -> reset_fifos mMgmtMap x = Some (tt, x).
Proof. intros Hg. by apply (set_control_good _ c). Qed.

(** The flash that takes a command: ready, and writes enabled. *)
Definition enabled_flash (c : flash) : flash := set_wel true (ready c).

(** A command that needs writes enabled. *)
Lemma does_enabled k c c' s x :
  good c x -> (forall x1, good (enabled_flash c) x1 -> keeps x x1 -> selected_sector x1 = selected_sector x -> does k c' s x1) ->
  does (and_then (isFlashReady mMgmtMap polls) (and_then (writeEnable mMgmtMap polls) k)) c' s x.
Proof.
  intros Hg H. eapply does_then; [by apply does_ready|]. intros x1 Hg1 Hk1 Hs1.
  eapply does_then; [by apply does_write_enable|]. intros x2 Hg2 Hk2 Hs2.
  apply H; [done | by etransitivity | congruence].
Qed.

Lemma does_select_sector sector c x :
  good c x -> 0 <= sector < 16 ->
  does (writeRegister mMgmtMap polls COMMAND_EXTENDED_ADDRESS_REG_WRITE sector 1) (set_ext sector (ready c))
    (selected_sector x) x.
Proof.
  intros Hg Hsec. unfold writeRegister. eapply does_enabled; [done|]. intros x1 Hg1 Hk1 Hs1. rewrite <- Hs1.
  eapply does_bind; [exact (reset_fifos_run _ _ Hg1)|reflexivity|].
  destruct (put_command_run [COMMAND_EXTENDED_ADDRESS_REG_WRITE] _ x1 Hg1) as (x2 & Hrun2 & Hg2 & Hk2 & Ht2 & Hs2 & _); [simpl; lia|].
  eapply does_bind; [exact Hrun2|done|]. eapply does_bind; [reflexivity|reflexivity|].
  rewrite u8_byte by lia. 
  destruct (put_write_run 1 [sector] _ x2 Hg2) as [Hrun3 Hg3]; [lia|unfold WBUF; simpl; lia|].
  set (x3 := set_wbuf _ x2) in *.
  assert (keeps x2 x3 /\ take 2 (WriteBuffer x3) = [COMMAND_EXTENDED_ADDRESS_REG_WRITE; sector]) as [Hk3 Ht3].
  { pose proof (g_wlen _ _ Hg2) as Hlen. unfold WBUF in Hlen. unfold x3. cbn [WriteBuffer set_wbuf length Z.to_nat].
    destruct (WriteBuffer x2) as [|b0 [|b1 [|b2 [|b3 w]]]] eqn:Ew; try (simpl in Hlen; lia). injection Ht2 as ->.
    split; [|done]. split; try done. cbn [WriteBuffer set_wbuf]. by rewrite Ew. }
  eapply does_bind; [exact Hrun3|done|].
  destruct (transfer_run false 2 _ x3 Hg3) as (x4 & Hrun4 & Hg4 & Hk4 & _ & Hs4 & _); [unfold WBUF; lia|].
  rewrite Ht3 in Hg4. exists x4. change (1 + 1) with (Z.of_nat 2).
  rewrite (and_then_run _ _ _ _ Hrun4), (waitTxEmpty_run _ _ Hg4). split_and!; try done. rewrite Hs4. exact Hs2.
Qed.

(** The cached sector is the flash's, or none is cached. *)
Definition sector_ok (c : flash) (s : Z) : Prop := s = u32 (-1) \/ f_ext c = s.

Lemma getSector_range a : 0 <= getSector a < 16.
Proof. unfold getSector. change 0xF with (Z.ones 4). rewrite Z.land_ones by lia. by apply Z.mod_pos_bound. Qed.

(** The flash after its sector was selected. *)
Definition in_sector (sector s : Z) (c : flash) : flash := if sector =? s then c else set_ext sector (ready c).

Lemma does_set_sector a c x :
  good c x -> getSector a < MAX_NUM_SECTORS x ->
  does (setSector mMgmtMap polls a) (in_sector (getSector a) (selected_sector x) c) (getSector a) x.
Proof.
  intros Hg Hmax. unfold setSector. eapply does_bind; [reflexivity|reflexivity|]. rewrite (proj2 (Z.leb_gt _ _)) by done.
  unfold in_sector. destruct (Z.eqb_spec (getSector a) (selected_sector x)) as [E|E]; [by exists x|].
  eapply does_then; [apply does_select_sector, getSector_range; done|]. intros x1 Hg1 Hk1 Hs1.
  eapply does_bind; [reflexivity| |].
  - by split.
  - eexists. split; [reflexivity|]. split_and!; try done. by destruct Hg1.
Qed.

Definition FLASH_SIZE : Z := 2 ^ 28.

Lemma address_split a :
  0 <= a < FLASH_SIZE ->
  getSector a * 2 ^ 24 + u8 (Z.shiftr a 16) * 2 ^ 16 + u8 (Z.shiftr a 8) * 2 ^ 8 + u8 a = a.
Proof.
  unfold FLASH_SIZE, getSector, u8, wrap. intros Ha. change 0xF with (Z.ones 4). rewrite Z.land_ones by lia.
  rewrite !Z.shiftr_div_pow2 by lia. change (2 ^ 4) with 16. change (2 ^ 28) with 268435456 in Ha.
  change (2 ^ 24) with (256 * 256 * 256). change (2 ^ 16) with (256 * 256). change (2 ^ 8) with 256.
  rewrite <- !Z.div_div by lia. set (b := a / 256). set (d := b / 256). set (e := d / 256).
  pose proof (Z.div_mod a 256 ltac:(lia)). pose proof (Z.div_mod b 256 ltac:(lia)). pose proof (Z.div_mod d 256 ltac:(lia)).
  pose proof (Z.mod_pos_bound a 256). pose proof (Z.mod_pos_bound b 256). pose proof (Z.mod_pos_bound d 256).
  fold b in H. fold d in H0. fold e in H1. rewrite (Z.mod_small e 16) by lia. lia.
Qed.

(** The flash once it is ready and addresses sector [n]. *)
Definition addressed (n : Z) (c : flash) : flash := Flash (f_conf c) (f_mem c) (f_wel c) n 0.

Lemma in_sector_ready a s c :
  sector_ok c s -> set_wel true (in_sector (getSector a) s (ready c)) = set_wel true (addressed (getSector a) c).
Proof.
  intros Hs. unfold in_sector. destruct (Z.eqb_spec (getSector a) s) as [E|E]; [|done].
  destruct Hs as [Hs|Hs].
  - pose proof (getSector_range a). rewrite Hs in E. change (u32 (-1)) with (2 ^ 32 - 1) in E. lia.
  - unfold addressed, ready, set_wel. cbn. congruence.
Qed.

(** What sectorErase and writePage have in common. *)
Lemma does_addressed k a c c' x :
  good c x -> sector_ok c (selected_sector x) -> getSector a < MAX_NUM_SECTORS x ->
  (forall x1, good (set_wel true (addressed (getSector a) c)) x1 -> keeps x x1 ->
     selected_sector x1 = getSector a -> does k c' (getSector a) x1) ->
  does (and_then (isFlashReady mMgmtMap polls)
          (select_sector mMgmtMap polls a (and_then (writeEnable mMgmtMap polls) k))) c' (getSector a) x.
Proof.
  intros Hg Hs Hmax H. eapply does_then; [by apply does_ready|]. intros x1 Hg1 Hk1 Hs1.
  unfold select_sector. change FOUR_BYTE_ADDRESSING with false. cbn iota.
  eapply does_then; [apply does_set_sector; [done | by rewrite (k_max _ _ Hk1)]|]. intros x2 Hg2 Hk2 Hs2.
  eapply does_then.
  { apply does_write_enable; [done|]. unfold in_sector. by destruct (_ =? _). }
  intros x3 Hg3 Hk3 Hs3. rewrite Hs1, in_sector_ready in Hg3 by done. apply H; [done| |congruence].
  etransitivity; [done|]. by etransitivity.
Qed.

Definition erased (a : Z) (c : flash) : flash :=
  Flash (f_conf c) (erase_4k a (f_mem c)) false (getSector a) (f_time (f_conf c) a).

Lemma does_erase a c x :
  good c x -> sector_ok c (selected_sector x) -> getSector a < MAX_NUM_SECTORS x -> 0 <= a < FLASH_SIZE ->
  does (sectorErase mMgmtMap polls a COMMAND_4KB_SUBSECTOR_ERASE) (erased a c) (getSector a) x.
Proof.
  intros Hg Hs Hmax Ha. unfold sectorErase. eapply does_addressed; [done..|]. intros x1 Hg1 Hk1 Hs1.
  eapply does_bind; [exact (reset_fifos_run _ _ Hg1)|reflexivity|]. rewrite <- Hs1.
  assert (erased a c = execute (u8 COMMAND_4KB_SUBSECTOR_ERASE :: address_bytes a) (set_wel true (addressed (getSector a) c))) as ->;
    [|by apply does_command; [|simpl; lia|]].
  change (execute _ _) with (let a' := getSector a * 2 ^ 24 + u8 (Z.shiftr a 16) * 2 ^ 16 + u8 (Z.shiftr a 8) * 2 ^ 8 + u8 a in
    Flash (f_conf c) (erase_4k a' (f_mem c)) false (getSector a) (f_time (f_conf c) a')).
  by rewrite address_split.
Qed.

(** The data of a page in the buffer. *)
Definition page_data (x : xdev) : list Z := take 128 (drop 4 (WriteBuffer x)).

Definition programmed (a : Z) (data : list Z) (c : flash) : flash :=
  Flash (f_conf c) (program_page a data (f_mem c)) false (getSector a) (f_time (f_conf c) a).

Lemma does_write_page a c x :
  good c x -> sector_ok c (selected_sector x) -> getSector a < MAX_NUM_SECTORS x -> 0 <= a < FLASH_SIZE ->
  does (writePage mMgmtMap polls a 0xff) (programmed a (page_data x) c) (getSector a) x.
Proof.
  intros Hg Hs Hmax Ha. unfold writePage. eapply does_addressed; [done..|]. intros x1 Hg1 Hk1 Hs1. rewrite <- Hs1.
  eapply does_bind; [by apply (set_cr_good _ _ x1 Hg1)|reflexivity|]. eapply does_bind; [reflexivity|reflexivity|].
  set (cmd := if flashVendor x1 =? MACRONIX_VENDOR_ID then COMMAND_PAGE_PROGRAM else COMMAND_QUAD_WRITE).
  change (write_command _ _) with [cmd].
  destruct (put_command_run [cmd] _ x1 Hg1) as (x2 & Hrun2 & Hg2 & Hk2 & Ht2 & Hs2 & _); [simpl; lia|].
  eapply does_bind; [exact Hrun2|done|].
  destruct (put_write_run 1 (address_bytes a) _ x2 Hg2) as [Hrun3 Hg3]; [lia|unfold WBUF; simpl; lia|].
  set (x3 := set_wbuf _ x2) in *.
  assert (keeps x2 x3 /\ take 132 (WriteBuffer x3) = cmd :: address_bytes a ++ page_data x) as [Hk3 Ht3].
  { pose proof (g_wlen _ _ Hg2) as Hlen. unfold WBUF in Hlen. unfold page_data. rewrite <- (k_data _ _ Hk1), <- (k_data _ _ Hk2).
    unfold x3. cbn [WriteBuffer set_wbuf].
    destruct (WriteBuffer x2) as [|b0 [|b1 [|b2 [|b3 w]]]] eqn:Ew; try (simpl in Hlen; lia). injection Ht2 as ->.
    split; [|done]. split; try done. cbn [WriteBuffer set_wbuf]. by rewrite Ew. }
  eapply does_bind; [exact Hrun3|done|].
  destruct (transfer_run true 132 _ x3 Hg3) as (x4 & Hrun4 & Hg4 & Hk4 & _ & Hs4 & _); [unfold WBUF; lia|].
  rewrite Ht3 in Hg4. exists x4. change (WRITE_DATA_SIZE + READ_WRITE_EXTRA_BYTES) with (Z.of_nat 132).
  rewrite (and_then_run _ _ _ _ Hrun4), (waitTxEmpty_run _ _ Hg4). split_and!; [done| |done|rewrite Hs4; exact Hs2].
  replace (programmed _ _ _) with (execute (cmd :: address_bytes a ++ page_data x) (set_wel true (addressed (getSector a) c))); [done|].
  assert (execute (cmd :: address_bytes a ++ page_data x) (set_wel true (addressed (getSector a) c)) =
    let a' := getSector a * 2 ^ 24 + u8 (Z.shiftr a 16) * 2 ^ 16 + u8 (Z.shiftr a 8) * 2 ^ 8 + u8 a in
    Flash (f_conf c) (program_page a' (page_data x) (f_mem c)) false (getSector a) (f_time (f_conf c) a')) as ->
    by (unfold cmd; by destruct (flashVendor x1 =? _)).
  cbn zeta. by rewrite address_split.
Qed.
End Commands.
