(* ===== verification/XspiMem.v ===== *)
(** * Programming the flash, as changes of its memory

    The commands of XspiFlash.v with the details hidden that programming does
    not depend on: [prog m x] says that the selected flash holds [m] and that
    the next command will be taken.  On top of it the erasure of a record and
    the programming of its pages. *)

From S2P Require Import Prelude.
From S2P Require Import Mmio32.
From S2P Require Import Loops.
From S2P Require Import Hwicap.
From S2P Require Import Xspi.
From S2P Require Import XspiCore.
From S2P Require Import XspiFlash.
From S2P Require Import XspiMcs.
Local Open Scope list_scope.
Local Open Scope Z_scope.

(** ** Memory *)

(** The bytes of [data] from [a] on, and [m] elsewhere. *)
Definition store (a : Z) (data : list Z) (m : Z -> Z) : Z -> Z :=
  fun x => if (a <=? x) && (x <? a + Z.of_nat (length data)) then nth (Z.to_nat (x - a)) data 0 else m x.
Definition blank (a b : Z) (m : Z -> Z) : Prop := forall x, a <= x < b -> m x = 0xff.

Lemma store_app a l k m x : store (a + Z.of_nat (length l)) k (store a l m) x = store a (l ++ k) m x.
Proof.
  unfold store. rewrite length_app, Nat2Z.inj_add.
  destruct (Z.leb_spec (a + Z.of_nat (length l)) x), (Z.ltb_spec x (a + Z.of_nat (length l) + Z.of_nat (length k))),
    (Z.leb_spec a x), (Z.ltb_spec x (a + Z.of_nat (length l))), (Z.ltb_spec x (a + (Z.of_nat (length l) + Z.of_nat (length k))));
    cbn [andb]; try lia; try done.
  - rewrite app_nth2 by lia. f_equal. lia.
  - rewrite app_nth1 by lia. done.
Qed.

Lemma store_in a l m k b : l !! k = Some b -> store a l m (a + Z.of_nat k) = b.
Proof.
  intros Hk. pose proof (lookup_lt_Some _ _ _ Hk). unfold store.
  rewrite (proj2 (Z.leb_le _ _)), (proj2 (Z.ltb_lt _ _)) by lia. cbn [andb].
  replace (Z.to_nat (a + Z.of_nat k - a)) with k by lia. rewrite nth_lookup, Hk. done.
Qed.
Lemma store_out a l m x : x < a \/ a + Z.of_nat (length l) <= x -> store a l m x = m x.
Proof.
  intros Hx. unfold store. destruct (Z.leb_spec a x), (Z.ltb_spec x (a + Z.of_nat (length l))); cbn [andb]; try done. lia.
Qed.

Lemma store_nil a m x : store a [] m x = m x.
Proof. apply store_out. cbn [length]. change (Z.of_nat 0) with 0. lia. Qed.

(** A program that stays in its page and hits blank bytes stores its data. *)
Lemma program_page_store a data m :
  bytes_ok data -> a mod 256 + Z.of_nat (length data) <= 256 -> blank a (a + Z.of_nat (length data)) m ->
  forall x, program_page a data m x = store a data m x.
Proof.
  revert a m. induction data as [|b data IH]; intros a m Hb Hp Hm x; [by rewrite store_nil|].
  inversion_clear Hb as [|? ? Hb1 Hb2]. cbn beta in Hb1. cbn [program_page].
  rewrite length_cons, Nat2Z.inj_succ in Hp, Hm.
  set (m1 := fun y => if y =? a then Z.land (m a) b else m y).
  assert (forall y, m1 y = store a [b] m y) as Hm1.
  { intros y. unfold m1, store. cbn [length]. change (Z.of_nat 1) with 1.
    destruct (Z.eqb_spec y a) as [->|E].
    - rewrite (proj2 (Z.leb_le a a)), (proj2 (Z.ltb_lt a (a + 1))), Z.sub_diag by lia. cbn [andb nth Z.to_nat].
      rewrite Hm by lia. change 0xff with (Z.ones 8). rewrite Z.land_comm, Z.land_ones by lia. apply Z.mod_small. change (0 <= b < 256). lia.
    - destruct (Z.leb_spec a y), (Z.ltb_spec y (a + 1)); cbn [andb]; try done. lia. }
  destruct data as [|b' data'] eqn:Ed; [by rewrite Hm1|]. rewrite <- Ed in *.
  assert (0 < Z.of_nat (length data)) by (rewrite Ed; simpl; lia).
  assert (a / 256 * 256 + (a + 1) mod 256 = a + 1) as ->.
  { pose proof (Z.div_mod a 256 ltac:(lia)). pose proof (Z.mod_pos_bound a 256 ltac:(lia)).
    rewrite (Z.add_mod a 1 256), (Z.mod_small (a mod 256 + 1 mod 256)) by (change (1 mod 256) with 1; lia).
    change (1 mod 256) with 1. lia. }
  rewrite IH; [| done | |].
  - change (b :: data) with ([b] ++ data). rewrite <- (store_app a [b] data m x). change (Z.of_nat (length [b])) with 1.
    unfold store at 1 2. destruct (_ && _); [done|]. apply Hm1.
  - pose proof (Z.div_mod a 256 ltac:(lia)). pose proof (Z.mod_pos_bound a 256 ltac:(lia)).
    rewrite (Z.add_mod a 1 256), (Z.mod_small (a mod 256 + 1 mod 256)) by (change (1 mod 256) with 1; lia).
    change (1 mod 256) with 1. lia.
  - intros y Hy. rewrite Hm1. rewrite store_out by (simpl; lia). apply Hm. lia.
Qed.

(** [n] subsectors from [a] on. *)
Definition erase_range (a : Z) (n : nat) (m : Z -> Z) : Z -> Z :=
  fun x => if (a <=? x) && (x <? a + 4096 * Z.of_nat n) then 0xff else m x.

Lemma erase_range_snoc a n m x :
  a mod 4096 = 0 -> erase_4k (a + 4096 * Z.of_nat n) (erase_range a n m) x = erase_range a (S n) m x.
Proof.
  intros Ha. unfold erase_4k, erase_range.
  pose proof (Z.div_mod a 4096 ltac:(lia)). pose proof (Z.div_mod x 4096 ltac:(lia)). pose proof (Z.mod_pos_bound x 4096 ltac:(lia)).
  replace ((a + 4096 * Z.of_nat n) / 4096) with (a / 4096 + Z.of_nat n) by (rewrite Z.mul_comm, Z.div_add by lia; done).
  destruct (Z.eqb_spec (x / 4096) (a / 4096 + Z.of_nat n)), (Z.leb_spec a x),
    (Z.ltb_spec x (a + 4096 * Z.of_nat n)), (Z.ltb_spec x (a + 4096 * Z.of_nat (S n))); cbn [andb]; try done; lia.
Qed.

Lemma erase_range_0 a m x : erase_range a 0 m x = m x.
Proof. unfold erase_range. change (4096 * Z.of_nat 0) with 0. destruct (Z.leb_spec a x), (Z.ltb_spec x (a + 0)); cbn [andb]; try done. lia. Qed.

Lemma erase_4k_range a m x : a mod 4096 = 0 -> erase_4k a m x = erase_range a 1 m x.
Proof.
  intros Ha. rewrite <- erase_range_snoc by done. change (4096 * Z.of_nat 0) with 0. rewrite Z.add_0_r.
  unfold erase_4k. destruct (_ =? _); [done|]. by rewrite erase_range_0.
Qed.

(** The subsectors of [len] bytes. *)
Definition subsectors (len : Z) : nat := Z.to_nat ((len + 4095) / 4096).

(** ** Programming *)

Section Prog.
Variable mMgmtMap : Z.
Variable polls : nat.
Variable conf : qspi_conf.
Hypothesis Hcore : core_ok mMgmtMap polls conf.
Hypothesis Hpolls : (264 < polls)%nat.
Variable i : bool.
Abbreviation xdev := (xspi qspi).

(** What stays the same from the moment the flash is identified: its number
    of sectors, and the guard's location. *)
Variables (fconf : flash_conf) (sectors start : Z).
(** The other flash. *)
Variable other : flash.
Hypothesis Hsectors : 0 < sectors <= 16.

Record prog (m : Z -> Z) (x : xdev) : Prop := {
  p_flash : exists c, good conf i c x /\ f_conf c = fconf /\ (forall a, f_mem c a = m a) /\ sector_ok c (selected_sector x);
  p_max : MAX_NUM_SECTORS x = sectors;
  p_start : BITSTREAM_START_LOC x = start;
  p_other : same_chip other (get_chip (negb i) (chips (core x)));
}.

(** Steps that have to succeed, one after the other. *)
Lemma ends_then op k P Q (x : xdev) :
  ends op true P x -> (forall x1, P x1 -> ends k true Q x1) -> ends (and_then op k) true Q x.
Proof. intros H1 H2. exact (ends_bind op (fun ok => if ok then k else kret false) true true P Q x H1 H2). Qed.

Lemma prog_ext m m' x : (forall a, m a = m' a) -> prog m x -> prog m' x.
Proof.
  intros Hm [(c & Hg & Hc & Hmem & Hs) H1 H2 H3]. split; [|done..]. exists c. split_and!; try done.
  intros a. by rewrite Hmem.
Qed.

(** The rest of the state that programming reads. *)
Definition rest_of (x : xdev) : list Z * list ELARecord := (drop 4 (WriteBuffer x), recordList x).

Lemma addressable a : 0 <= a < sectors * 2 ^ 24 -> getSector a < sectors /\ 0 <= a < FLASH_SIZE.
Proof.
  intros Ha. unfold FLASH_SIZE. assert (a < 2 ^ 28) by nia. split; [|lia].
  unfold getSector. change 0xF with (Z.ones 4). rewrite Z.land_ones, Z.shiftr_div_pow2 by lia.
  assert (a / 2 ^ 24 < sectors) by (apply Z.div_lt_upper_bound; lia).
  assert (0 <= a / 2 ^ 24) by (apply Z.div_pos; lia). rewrite Z.mod_small; lia.
Qed.

(** A command of XspiFlash.v in these terms. *)
Lemma does_prog op m m' a x :
  prog m x ->
  (forall c, good conf i c x -> (forall y, f_mem c y = m y) -> sector_ok c (selected_sector x) ->
     exists c', does conf i op c' (getSector a) x /\ f_conf c' = f_conf c /\ (forall y, f_mem c' y = m' y) /\
       f_ext c' = getSector a) ->
  ends op true (fun x' => prog m' x' /\ rest_of x' = rest_of x) x.
Proof.
  intros [(c & Hg & Hc & Hm & Hs) H1 H2 H3] H. destruct (H c Hg Hm Hs) as (c' & (x' & Hrun & Hg' & Hk & Hs') & Hc' & Hm' & He).
  exists x'. split; [done|]. destruct Hk as [Ko Kd Km Kv Ks Kr]. split.
  - split; [|congruence..|by etransitivity]. exists c'. split_and!; try done; [congruence|]. right. congruence.
  - unfold rest_of. congruence.
Qed.

Lemma erase_ends a m x :
  prog m x -> 0 <= a < sectors * 2 ^ 24 ->
  ends (sectorErase mMgmtMap polls a COMMAND_4KB_SUBSECTOR_ERASE) true
    (fun x' => prog (erase_4k a m) x' /\ rest_of x' = rest_of x) x.
Proof.
  intros Hp Ha. destruct (addressable a Ha) as [Hsec Hsize]. apply (does_prog _ m _ a); [done|]. intros c Hg Hm Hs.
  exists (erased a c). split_and!; try done.
  - apply does_erase; try done. by rewrite (p_max _ _ Hp).
  - intros y. cbn. unfold erase_4k. by rewrite Hm.
Qed.

Lemma program_page_ext a l m m' : (forall y, m y = m' y) -> forall y, program_page a l m y = program_page a l m' y.
Proof.
  revert a m m'. induction l as [|b l IH]; intros a m m' H y; simpl; [done|]. apply IH. intros z. by rewrite !H.
Qed.

Lemma write_page_ends a m x :
  prog m x -> 0 <= a < sectors * 2 ^ 24 -> a mod 128 = 0 -> bytes_ok (page_data x) -> blank a (a + 128) m ->
  ends (writePage mMgmtMap polls a 0xff) true
    (fun x' => prog (store a (page_data x) m) x' /\ rest_of x' = rest_of x) x.
Proof.
  intros Hp Ha Ha128 Hb Hblank. destruct (addressable a Ha) as [Hsec Hsize]. apply (does_prog _ m _ a); [done|]. intros c Hg Hm Hs.
  exists (programmed a (page_data x) c). split_and!; try done.
  - apply does_write_page; try done. by rewrite (p_max _ _ Hp).
  - intros y. cbn. rewrite (program_page_ext a _ _ m) by done.
    assert (length (page_data x) = 128%nat) as Hlen.
    { unfold page_data. rewrite length_take, length_drop, (g_wlen _ _ _ _ Hg). reflexivity. }
    apply program_page_store; [done| |by rewrite Hlen]. rewrite Hlen.
    assert (a mod 256 = 0 \/ a mod 256 = 128) by (Z.div_mod_to_equations; lia). lia.
Qed.

Lemma nanosleep_ends ns m x :
  prog m x -> ends (nanosleep ns) tt (fun x' => prog m x' /\ rest_of x' = rest_of x) x.
Proof.
  intros [(c & Hg & Hc & Hm & Hs) H1 H2 H3]. destruct (nanosleep_run polls conf Hpolls i ns c x Hg) as (x' & Hrun & Hg' & Hk & Hs' & Hw).
  exists x'. split; [done|]. destruct Hk as [Ko Kd Km Kv Ks Kr]. split.
  - split; [|congruence..|by etransitivity]. exists (flash_tick c). split_and!; try done. unfold sector_ok in *. by rewrite Hs'.
  - unfold rest_of. congruence.
Qed.

Lemma ready_ends m x :
  prog m x -> ends (isFlashReady mMgmtMap polls) true (fun x' => prog m x' /\ rest_of x' = rest_of x) x.
Proof.
  intros [(c & Hg & Hc & Hm & Hs) H1 H2 H3].
  destruct (isFlashReady_run mMgmtMap polls conf Hcore Hpolls i c x Hg) as (x' & Hrun & Hg' & Hk & Hs').
  exists x'. split; [done|]. destruct Hk as [Ko Kd Km Kv Ks Kr]. split.
  - split; [|congruence..|by etransitivity]. exists (ready c). split_and!; try done. unfold sector_ok in *. by rewrite Hs'.
  - unfold rest_of. congruence.
Qed.

(** Stores behind the command bytes. *)
Lemma put_data_ends n l m x :
  prog m x -> (n + length l <= 256)%nat ->
  ends (put_write (4 + Z.of_nat n) l) tt
    (fun x' => prog m x' /\ rest_of x' =
       (take n (drop 4 (WriteBuffer x)) ++ l ++ drop (n + length l) (drop 4 (WriteBuffer x)), recordList x)) x.
Proof.
  intros [(c & Hg & Hc & Hm & Hs) H1 H2 H3] Hl.
  destruct (put_write_run polls conf Hpolls i (4 + Z.of_nat n) l c x Hg) as [Hrun Hg']; [lia|unfold WBUF; lia|].
  eexists. split; [exact Hrun|]. split; [split; try done; by exists c|]. unfold rest_of. cbn [WriteBuffer recordList set_wbuf]. f_equal.
  pose proof (g_wlen _ _ _ _ Hg) as Hlen. unfold WBUF in Hlen.
  replace (Z.to_nat (4 + Z.of_nat n)) with (4 + n)%nat by lia.
  destruct (WriteBuffer x) as [|b0 [|b1 [|b2 [|b3 w]]]]; try (simpl in Hlen; lia). reflexivity.
Qed.

Lemma clearBuffers_ends m x :
  prog m x -> ends clearBuffers tt (fun x' => prog m x' /\ rest_of x' = (repeat 0 256, recordList x)) x.
Proof.
  intros [(c & Hg & Hc & Hm & Hs) H1 H2 H3]. pose proof Hg as [G1 G2 G3 G4 G5 G6]. unfold WBUF, RBUF in *.
  unfold clearBuffers, clearReadBuffer, clearWriteBuffer, put_read, put_write.
  eexists. split.
  { cbn [kbind kget]. rewrite (overwrite_run 0 (repeat 0 (Z.to_nat (XSPI_PAGE_SIZE + READ_WRITE_EXTRA_BYTES + 4)))).
    2: lia. 2: { rewrite repeat_length, G6. reflexivity || (vm_compute; discriminate). }
    cbn [deref kmod]. rewrite (overwrite_run 0 (repeat 0 (Z.to_nat (XSPI_PAGE_SIZE + READ_WRITE_EXTRA_BYTES)))).
    2: lia. 2: { rewrite repeat_length. cbn [WriteBuffer set_rbuf]. rewrite G5. vm_compute. discriminate. }
    reflexivity. }
  split.
  - split; try done. exists c. split_and!; try done. split; try done; cbn [WriteBuffer ReadBuffer set_wbuf set_rbuf].
    + rewrite !length_app, length_take, length_drop, repeat_length, G5. reflexivity.
    + rewrite !length_app, length_take, length_drop, repeat_length, G6. reflexivity.
  - unfold rest_of. cbn [WriteBuffer recordList set_wbuf set_rbuf]. f_equal.
    rewrite (drop_ge (WriteBuffer x)) by (rewrite repeat_length, G5; vm_compute; lia). rewrite app_nil_r. reflexivity.
Qed.

(** *** Erasing *)

Lemma prog_rest_trans {x0 x1 x2 : xdev} {m} :
  rest_of x1 = rest_of x0 -> prog m x2 /\ rest_of x2 = rest_of x1 -> prog m x2 /\ rest_of x2 = rest_of x0.
Proof. intros H [H1 H2]. split; [done|congruence]. Qed.

Lemma erase_record_ends a len m x :
  prog m x -> 0 <= a -> a mod 4096 = 0 -> 0 <= len -> a + 4096 * Z.of_nat (subsectors len) <= sectors * 2 ^ 24 ->
  ends (kwhile (erase_round mMgmtMap polls (a + len)) (erase_rounds a (a + len)) a) true
    (fun x' => prog (erase_range a (subsectors len) m) x' /\ rest_of x' = rest_of x) x.
Proof.
  intros Hp Ha Hmod Hlen Hmax. set (N := subsectors len) in *.
  assert (Z.of_nat N = (len + 4095) / 4096) as HN by (unfold N, subsectors; apply Z2Nat.id, Z.div_pos; lia).
  destruct (kwhile_run (erase_round mMgmtMap polls (a + len))
    (fun k j s => exists n, j = a + 4096 * Z.of_nat n /\ (n + k = N)%nat /\
       prog (erase_range a n m) s /\ rest_of s = rest_of x)
    (fun b s => b = true /\ prog (erase_range a N m) s /\ rest_of s = rest_of x)
    (erase_rounds a (a + len)) N a x) as (b & s & Hrun & -> & H1 & H2); [| | |by exists s].
  - intros k j s (n & -> & Hnk & H1 & H2). unfold erase_round.
    destruct (Z.leb_spec (a + len) (a + 4096 * Z.of_nat n)) as [Hle|Hlt].
    + exists (inr true), s. split; [done|]. assert (n = N) as -> by (Z.div_mod_to_equations; lia). done.
    + assert (Z.of_nat n < Z.of_nat N) by (Z.div_mod_to_equations; lia).
      destruct (erase_ends (a + 4096 * Z.of_nat n) _ s H1) as (s1 & Hrun1 & H3 & H4); [lia|].
      rewrite (kbind_run _ _ _ _ _ Hrun1). cbn [negb].
      destruct (nanosleep_ends 20000 _ s1 H3) as (s2 & Hrun2 & H5 & H6).
      rewrite (kbind_run _ _ _ _ _ Hrun2). eexists _, s2. split; [reflexivity|].
      exists (pred k). split; [lia|]. exists (S n). split_and!; [|lia| |congruence].
      * rewrite u32_small; [lia|]. unfold in_range. nia.
      * eapply prog_ext; [|exact H5]. intros y. by apply erase_range_snoc.
  - exists 0%nat. split_and!; [lia|lia| |done]. eapply prog_ext; [|exact Hp]. intros y. by rewrite erase_range_0.
  - apply Nat2Z.inj_lt. rewrite positive_nat_Z. unfold erase_rounds. replace (a + len - a) with len by lia.
    rewrite Z2Pos.id; Z.div_mod_to_equations; lia.
Qed.

(** *** The guard *)

Lemma guard_length : length guard_bytes = 48%nat.
Proof. reflexivity. Qed.
Definition guard_page : list Z := guard_bytes ++ repeat 0xFF 80.
Lemma guard_page_bytes : bytes_ok guard_page.
Proof. by apply (bool_decide_unpack _); vm_compute. Qed.

Lemma rest_page_data (x : xdev) : page_data x = take 128 (fst (rest_of x)).
Proof. done. Qed.

Lemma write_guard_ends a m x :
  prog m x -> 0 <= a -> a mod 4096 = 0 -> a + 4096 <= sectors * 2 ^ 24 ->
  ends (writeBitstreamGuard mMgmtMap polls a) true
    (fun x' => prog (store (a + 128) guard_page (erase_range a 1 m)) x' /\ recordList x' = recordList x) x.
Proof.
  intros Hp Ha Hmod Hmax. unfold writeBitstreamGuard.
  assert (u32 (a + WRITE_DATA_SIZE) = a + 128) as -> by (apply u32_small; unfold in_range, WRITE_DATA_SIZE; nia).
  eapply ends_then; [apply erase_ends; [done|lia]|]. intros x1 [Hp1 Hr1].
  eapply ends_bind; [apply (put_data_ends 0 guard_bytes _ x1 Hp1); rewrite guard_length; lia|].
  intros x2 [Hp2 Hr2]. change (Z.to_nat WRITE_DATA_SIZE - length guard_bytes)%nat with 80%nat.
  change (READ_WRITE_EXTRA_BYTES + Z.of_nat (length guard_bytes)) with (4 + Z.of_nat 48).
  eapply ends_bind; [apply (put_data_ends 48 (repeat 0xFF 80) _ x2 Hp2); rewrite repeat_length; lia|].
  intros x3 [Hp3 Hr3].
  assert (page_data x3 = guard_page) as Hpage.
  { rewrite rest_page_data, Hr3. cbn [fst]. change (drop 4 (WriteBuffer x2)) with (fst (rest_of x2)).
    assert (fst (rest_of x2) = guard_bytes ++ drop 48 (drop 4 (WriteBuffer x1))) as -> by (rewrite Hr2; reflexivity).
    rewrite (take_app_length' guard_bytes _ 48) by reflexivity.
    rewrite (app_assoc guard_bytes (repeat 0xff 80)). fold guard_page. by rewrite (take_app_length' guard_page _ 128). }
  eapply ends_weaken.
  { apply (write_page_ends (a + 128) _ x3 Hp3); [lia| |rewrite Hpage; apply guard_page_bytes|].
    - Z.div_mod_to_equations. lia.
    - intros y Hy. rewrite erase_4k_range by done. unfold erase_range.
      rewrite (proj2 (Z.leb_le _ _)), (proj2 (Z.ltb_lt _ _)) by lia. done. }
  intros x4 [Hp4 Hr4]. rewrite Hpage in Hp4. split.
  - eapply prog_ext; [|exact Hp4]. intros y. unfold store. destruct (_ && _); [done|]. by apply erase_4k_range.
  - change (recordList x4) with (snd (rest_of x4)). rewrite Hr4, Hr3. cbn [snd].
    change (recordList x2) with (snd (rest_of x2)). rewrite Hr2. cbn [snd].
    change (recordList x1) with (snd (rest_of x1)). by rewrite Hr1.
Qed.

(** *** Identification *)

Lemma does_flash_id c x :
  good conf i c x -> num_sectors (nth 2 (f_id (f_conf c)) 0xff) = Some sectors ->
  exists x', getFlashId mMgmtMap polls x = Some (true, x') /\ good conf i (ready c) x' /\
    MAX_NUM_SECTORS x' = sectors /\ selected_sector x' = selected_sector x /\
    BITSTREAM_START_LOC x' = BITSTREAM_START_LOC x /\ rest_of x' = rest_of x /\
    same_chip (get_chip (negb i) (chips (core x))) (get_chip (negb i) (chips (core x'))).
Proof.
  intros Hg Hid. unfold getFlashId.
  destruct (isFlashReady_run mMgmtMap polls conf Hcore Hpolls i c x Hg) as (x1 & Hrun1 & Hg1 & Hk1 & Hs1).
  rewrite (and_then_run _ _ _ _ Hrun1).
  destruct (put_command_run polls conf Hpolls i [COMMAND_IDCODE_READ] _ x1 Hg1) as (x2 & Hrun2 & Hg2 & Hk2 & Ht2 & Hs2 & _); [simpl; lia|].
  rewrite (kbind_run _ _ _ _ _ Hrun2).
  destruct (transfer_run mMgmtMap polls conf Hcore Hpolls i true 5 _ x2 Hg2) as (x3 & Hrun3 & Hg3 & Hk3 & Hw3 & Hs3 & Hr3); [unfold WBUF; lia|].
  change IDCODE_READ_BYTES with (Z.of_nat 5). rewrite (and_then_run _ _ _ _ Hrun3).
  destruct (wbuf_cons polls conf Hpolls i _ x2 5 _ Hg2 Ht2) as (r & Htake & Hlen); [unfold WBUF; lia|].
  rewrite Htake in Hg3, Hr3. rewrite execute_id in Hg3. specialize (Hr3 eq_refl).
  destruct r as [|b1 [|b2 [|b3 [|b4 [|]]]]]; try done.
  set (v := nth 0 (f_id (f_conf c)) 0xff). set (cap := nth 2 (f_id (f_conf c)) 0xff) in *.
  assert (exists q w, take 5 (ReadBuffer x3) = [0xff; v; q; cap; w]) as (q & w & Htake3) by (rewrite Hr3; by eexists _, _).
  assert (ReadBuffer x3 !! 1%nat = Some v /\ ReadBuffer x3 !! 3%nat = Some cap) as [Hv Hcap]
    by (rewrite <- (take_drop 5 (ReadBuffer x3)), Htake3; done).
  rewrite (kbind_run (read_at 1) _ x3 v x3) by (unfold read_at; cbn [kbind kget]; change (Z.to_nat 1) with 1%nat; by rewrite Hv).
  set (x4 := if bool_decide (v ∈ [MICRON_VENDOR_ID; MACRONIX_VENDOR_ID]) then set_vendor v x3 else x3).
  rewrite (kbind_run _ _ x3 tt x4) by (unfold x4; by destruct (bool_decide _)).
  assert (ReadBuffer x4 = ReadBuffer x3 /\ core x4 = core x3 /\ selected_sector x4 = selected_sector x3 /\
    BITSTREAM_START_LOC x4 = BITSTREAM_START_LOC x3 /\ rest_of x4 = rest_of x3 /\ good conf i (ready c) x4) as (E1 & E2 & E3 & E4 & E5 & Hg4).
  { unfold x4. destruct (bool_decide _); [|done]. split_and!; try done. by destruct Hg3. }
  rewrite (kbind_run (read_at 3) _ x4 cap x4)
    by (unfold read_at; cbn [kbind kget]; change (Z.to_nat 3) with 3%nat; by rewrite E1, Hcap).
  assert ((cap =? 0xff) = false) as ->.
  { destruct (Z.eqb_spec cap 0xff) as [E|]; [|done]. rewrite E in Hid. discriminate. }
  rewrite Hid. rewrite (kbind_run (kmod (set_max sectors)) _ x4 tt (set_max sectors x4) eq_refl).
  assert (length (ReadBuffer x4) = 264%nat) as Hlen4 by apply Hg4.
  eexists. split.
  { unfold put_read. cbn [kbind kget]. rewrite overwrite_run by (cbn [ReadBuffer set_max]; rewrite ?Hlen4; vm_compute; congruence).
    cbn [deref kmod ReadBuffer set_max set_rbuf]. reflexivity. }
  destruct Hk1 as [K1 D1 M1 V1 S1 R1], Hk2 as [K2 D2 M2 V2 S2 R2], Hk3 as [K3 D3 M3 V3 S3 R3].
  split_and!.
  - destruct Hg4 as [G1 G2 G3 G4 G5 G6]. split; try done. cbn [ReadBuffer set_rbuf].
    rewrite !length_app, length_take, length_drop, Hlen4. reflexivity.
  - done.
  - cbn. congruence.
  - cbn. congruence.
  - unfold rest_of in *. cbn [WriteBuffer recordList set_rbuf set_max]. congruence.
  - cbn [core set_rbuf set_max]. rewrite E2. etransitivity; [exact K1|]. by etransitivity.
Qed.

(** The core before the program starts: no transfer in progress. *)
Record quiet_core (d : qspi) : Prop := {
  qc_conf : q_conf d = conf; qc_shift : shifting d = None; qc_sel : sel d = None; qc_frame : frame d = [];
}.

Lemma prepare_ends c m x :
  quiet_core (core x) -> get_chip i (chips (core x)) = c -> flash_ok c -> f_conf c = fconf -> (forall a, f_mem c a = m a) ->
  slave_index x = (if i then 1 else 0) -> length (WriteBuffer x) = WBUF -> length (ReadBuffer x) = RBUF ->
  BITSTREAM_START_LOC x = start -> same_chip other (get_chip (negb i) (chips (core x))) ->
  num_sectors (nth 2 (f_id fconf) 0xff) = Some sectors ->
  ends (prepareXSpi mMgmtMap polls) true (fun x' => prog m x' /\ rest_of x' = rest_of x) x.
Proof.
  intros [Q1 Q2 Q3 Q4] Hc Hok Hconf Hm Hs Hw Hr Hst Ho Hid. unfold prepareXSpi.
  set (x1 := set_selected (u32 (-1)) x). assert (conf_ok conf x1) as Hc1 by done.
  unfold ends. rewrite (kbind_run (kmod (set_selected (u32 (-1)))) _ x tt x1 eq_refl).
  rewrite (kbind_run _ _ _ _ _ (get_cr mMgmtMap polls conf Hcore x1 Hc1)).
  rewrite (kbind_run _ _ _ _ _ (get_sr_still mMgmtMap polls conf Hcore x1 Hc1 Q2)).
  rewrite (kbind_run _ _ _ _ _ (set_cr mMgmtMap polls conf Hcore CONTROL_REG_START_STATE x1 Hc1)).
  set (x2 := set_core (write_cr CONTROL_REG_START_STATE (core x1)) x1).
  assert (core x2 = at_rest conf (chips (core x))) as Hx2.
  { unfold x2, write_cr, at_rest. cbn [core set_core x1 set_selected]. by rewrite Q1, Q3, Q4. }
  assert (good conf i c x2) as Hg2.
  { split; try done; by rewrite Hx2. }
  rewrite (kbind_run _ _ _ _ _ (get_cr_good mMgmtMap polls conf Hcore i c x2 Hg2)).
  rewrite (kbind_run _ _ _ _ _ (status_good mMgmtMap polls conf Hcore i c x2 Hg2)).
  destruct (does_flash_id c x2 Hg2) as (x3 & Hrun & Hg3 & H1 & H2 & H3 & H4 & H5); [by rewrite Hconf|].
  exists x3. split; [exact Hrun|]. split; [|exact H4]. split; [|done|rewrite H3; exact Hst|].
  - exists (ready c). split_and!; try done. left. exact H2.
  - etransitivity; [|exact H5]. by rewrite Hx2.
Qed.
End Prog.
