(* ===== verification/McsFormat.v ===== *)
(** * MCS files

    The text of an MCS file for some segments of data, and what the two passes
    of the flash programmer read from it. *)

From S2P Require Import Prelude.
From S2P Require Import Mmio32.
From S2P Require Import Hwicap.
From S2P Require Import Xspi.
From S2P Require Import XspiCore.
From S2P Require Import XspiMcs.
Local Open Scope list_scope.
Local Open Scope Z_scope.

(** ** Hexadecimal text *)

Definition hex_char (d : Z) : Z := if d <? 10 then 48 + d else 55 + d.
Definition hex2 (v : Z) : list Z := map hex_char [v / 16; v mod 16].
Definition hex4 (v : Z) : list Z := map hex_char [v / 4096; v / 256 mod 16; v / 16 mod 16; v mod 16].
Definition digit_ok (d : Z) : Prop := 0 <= d < 16.
Definition digits_value (ds : list Z) : Z := fold_left (fun acc d => 16 * acc + d) ds 0.

(** Case analysis on a digit. *)
Lemma digit_cases (P : Z -> Prop) :
  P 0 -> P 1 -> P 2 -> P 3 -> P 4 -> P 5 -> P 6 -> P 7 -> P 8 -> P 9 -> P 10 -> P 11 -> P 12 -> P 13 -> P 14 -> P 15 ->
  forall d, digit_ok d -> P d.
Proof.
  intros. unfold digit_ok in *.
  assert (d = 0 \/ d = 1 \/ d = 2 \/ d = 3 \/ d = 4 \/ d = 5 \/ d = 6 \/ d = 7 \/ d = 8 \/ d = 9 \/ d = 10 \/ d = 11 \/
    d = 12 \/ d = 13 \/ d = 14 \/ d = 15) as Hd by lia.
  repeat (destruct Hd as [->|Hd]; [done|]). by rewrite Hd.
Qed.

Lemma hex_digit_char d : digit_ok d -> hex_digit (hex_char d) = Some d.
Proof. revert d. by apply digit_cases. Qed.
Lemma hex_char_not_x d : digit_ok d -> (hex_char d =? 120) || (hex_char d =? 88) = false.
Proof. revert d. by apply digit_cases. Qed.

Lemma hex_value_digits acc ds :
  Forall digit_ok ds -> hex_value acc (map hex_char ds) = fold_left (fun acc d => 16 * acc + d) ds acc.
Proof.
  intros H. revert acc. induction H as [|d ds Hd Hds IH]; intros acc; [done|].
  cbn [map hex_value fold_left]. by rewrite hex_digit_char.
Qed.

Lemma stoi_digits ds : Forall digit_ok ds -> ds <> [] -> stoi (map hex_char ds) = Some (digits_value ds).
Proof.
  intros Hds Hne. destruct ds as [|d ds]; [done|]. inversion_clear Hds as [|? ? Hd Hr].
  unfold digits_value. cbn [fold_left]. rewrite Z.mul_0_r, Z.add_0_l, <- hex_value_digits by done.
  assert (unsigned_hex (48 :: map hex_char ds) = Some (hex_value 0 (48 :: map hex_char ds))) as H0.
  { destruct ds as [|d1 [|d2 ds]]; [done|done|]. inversion_clear Hr as [|? ? Hd1 _]. cbn [map unsigned_hex].
    by rewrite hex_char_not_x. }
  clear Hne. revert d Hd. apply digit_cases; try reflexivity. exact H0.
Qed.

Lemma hex2_digits v : 0 <= v < 256 -> Forall digit_ok [v / 16; v mod 16].
Proof.
  intros Hv. repeat constructor; try (apply Z.mod_pos_bound; lia); [apply Z.div_pos; lia | apply Z.div_lt_upper_bound; lia].
Qed.

Lemma stoi_hex2 v : 0 <= v < 256 -> stoi (hex2 v) = Some v.
Proof.
  intros Hv. unfold hex2. rewrite stoi_digits by (try apply hex2_digits; done). f_equal. unfold digits_value. cbn [fold_left].
  rewrite (Z.div_mod v 16) at 3 by lia. lia.
Qed.

Lemma stoi_hex4 v : 0 <= v < 65536 -> stoi (hex4 v) = Some v.
Proof.
  intros Hv. unfold hex4. rewrite stoi_digits.
  - f_equal. unfold digits_value. cbn [fold_left].
    replace (v / 4096) with (v / 16 / 16 / 16) by (rewrite !Z.div_div by lia; done).
    replace (v / 256) with (v / 16 / 16) by (rewrite !Z.div_div by lia; done).
    pose proof (Z.div_mod v 16 ltac:(lia)). pose proof (Z.div_mod (v / 16) 16 ltac:(lia)).
    pose proof (Z.div_mod (v / 16 / 16) 16 ltac:(lia)). lia.
  - repeat constructor; try (apply Z.mod_pos_bound; lia); [apply Z.div_pos; lia | apply Z.div_lt_upper_bound; lia].
  - done.
Qed.

(** ** Records and files *)

(** A line; [tail] is its checksum and what else ends it, which is not read. *)
Definition mcs_record (len address type : Z) (data tail : list Z) : list Z :=
  58 :: hex2 len ++ hex4 address ++ hex2 type ++ flat_map hex2 data ++ tail.

(** [sg_data] at the address [sg_high * 65536 + sg_low]. *)
Record segment := Segment { sg_high : Z; sg_low : Z; sg_data : list Z }.
Definition sg_base (s : segment) : Z := sg_high s * 65536 + sg_low s.

(** 16 bytes per line. *)
Fixpoint chunks (n : nat) (data : list Z) : list (list Z) :=
  match data, n with [], _ => [] | _, O => [] | _, S n => take 16 data :: chunks n (drop 16 data) end.

Section Text.
Variable tail : list Z -> list Z.

Definition data_record (address : Z) (data : list Z) : list Z :=
  mcs_record (Z.of_nat (length data)) address 0 data (tail data).
Fixpoint data_records (address : Z) (l : list (list Z)) : list (list Z) :=
  match l with [] => [] | data :: l => data_record address data :: data_records (address + Z.of_nat (length data)) l end.

Definition segment_chunks (s : segment) : list (list Z) := chunks (length (sg_data s)) (sg_data s).
Definition high_record (s : segment) : list Z := mcs_record 2 0 4 [sg_high s / 256; sg_high s mod 256] (tail []).
Definition segment_lines (s : segment) : list (list Z) :=
  high_record s :: data_records (sg_low s) (segment_chunks s).
Definition end_record : list Z := mcs_record 0 0 1 [] (tail []).
Definition mcs_text (segs : list segment) : list (list Z) := flat_map segment_lines segs ++ [end_record].

(** ** Reading a line *)

Lemma substr_app p n a b c :
  p = Z.of_nat (length a) -> n = Z.of_nat (length b) -> substr p n (a ++ b ++ c) = Some b.
Proof.
  intros -> ->. unfold substr. rewrite length_app. rewrite (proj2 (Z.ltb_ge _ _)) by lia.
  by rewrite !Nat2Z.id, drop_app_length, take_app_length.
Qed.

Lemma flat_hex2_length data : length (flat_map hex2 data) = (2 * length data)%nat.
Proof. induction data as [|b l IH]; [done|]. cbn [flat_map]. rewrite length_app, IH. simpl. lia. Qed.

Lemma record_length len address type data t :
  0 <= len < 256 -> substr 1 2 (mcs_record len address type data t) ≫= stoi = Some len.
Proof.
  intros H. unfold mcs_record. change (58 :: hex2 len ++ ?r) with ([58] ++ hex2 len ++ r).
  rewrite substr_app by done. by apply stoi_hex2.
Qed.
Lemma record_address len address type data t :
  0 <= address < 65536 -> substr 3 4 (mcs_record len address type data t) ≫= stoi = Some address.
Proof.
  intros H. unfold mcs_record. change (58 :: hex2 len ++ ?r) with ((58 :: hex2 len) ++ r).
  rewrite substr_app by done. by apply stoi_hex4.
Qed.
Lemma record_type len address type data t :
  0 <= type < 256 -> substr 7 2 (mcs_record len address type data t) ≫= stoi = Some type.
Proof.
  intros H. unfold mcs_record.
  change (58 :: hex2 len ++ hex4 address ++ ?r) with ((58 :: hex2 len ++ hex4 address) ++ r).
  rewrite substr_app by done. by apply stoi_hex2.
Qed.
Lemma record_data address type data t :
  substr 9 (Z.of_nat (length data) * 2) (mcs_record (Z.of_nat (length data)) address type data t) = Some (flat_map hex2 data).
Proof.
  unfold mcs_record. change (58 :: hex2 ?len ++ hex4 address ++ hex2 type ++ ?r) with ((58 :: hex2 len ++ hex4 address ++ hex2 type) ++ r).
  apply substr_app; [done|]. rewrite flat_hex2_length. lia.
Qed.
End Text.

(** ** Streams *)

Lemma getline_run f pos line :
  0 <= pos -> file_lines f !! Z.to_nat pos = Some line ->
  exists e, getline f (Stream pos false false) = (line, Stream (pos + 1) e false) /\
    (pos + 1 < Z.of_nat (length (file_lines f)) -> e = false).
Proof.
  intros Hp Hl. unfold getline. cbn [eof failed orb XspiMcs.pos]. rewrite Hl. eexists. split; [reflexivity|].
  intros H. by rewrite (proj2 (Z.eqb_neq _ _)) by lia.
Qed.

Lemma chunks_concat n l : (length l <= n)%nat -> concat (chunks n l) = l.
Proof.
  revert l. induction n as [|n IH]; intros l Hl; [destruct l; [done|simpl in Hl; lia]|].
  destruct l as [|b l]; [done|]. cbn [chunks concat]. rewrite IH, take_drop; [done|]. rewrite length_drop. simpl in *. lia.
Qed.

(** ** Segments *)

Definition segment_size (s : segment) : Z := Z.of_nat (length (sg_data s)).

(** A segment with bytes, in the reach of the flash, behind one extended address. *)
Record segment_ok (s : segment) : Prop := {
  so_high : 0 <= sg_high s < 4096; so_low : 0 <= sg_low s;
  so_size : 0 < segment_size s; so_fits : sg_low s + segment_size s <= 65536;
  so_bytes : bytes_ok (sg_data s);
  (* the asserts about the first entry *)
  so_start : sg_low s = 0 \/ 0 < sg_high s;
}.

(** What the chunks of some bytes look like. *)
Lemma chunk_cases n (l : list Z) :
  l <> [] -> (length l <= S n)%nat ->
  chunks (S n) l = take 16 l :: chunks n (drop 16 l) /\ (0 < length (take 16 l) <= 16)%nat /\
  (drop 16 l = [] \/ length (take 16 l) = 16%nat) /\ (length (drop 16 l) <= n)%nat.
Proof.
  intros Hne Hl. destruct l as [|b l]; [done|]. split_and!; [done|..].
  - rewrite length_take, length_cons. lia.
  - rewrite length_take, length_cons. lia.
  - destruct (decide (length (b :: l) <= 16)%nat) as [H|H]; [left; by apply drop_ge | right; rewrite length_take; lia].
  - rewrite length_drop, length_cons in *. lia.
Qed.

Lemma chunks_nil n : chunks n [] = [].
Proof. by destruct n. Qed.
