(* ===== verification/McsPass.v ===== *)
(** * The first pass over an MCS file

    For the text of some segments the first pass finds a record per segment,
    with the segment's bounds and the line of its first byte. *)

From S2P Require Import Prelude.
From S2P Require Import Mmio32.
From S2P Require Import Hwicap.
From S2P Require Import Xspi.
From S2P Require Import XspiCore.
From S2P Require Import XspiMcs.
From S2P Require Import McsFormat.
Local Open Scope list_scope.
Local Open Scope Z_scope.

(** The record of a segment whose text starts at line [p], after [k] bytes. *)
Definition partial_record (s : segment) (p k : Z) : ELARecord :=
  let start := sg_high s * 65536 + (if k =? 0 then 0 else sg_low s) in ElaRecord start (start + k) k (p + 1).
Definition segment_record (s : segment) (p : Z) : ELARecord := partial_record s p (segment_size s).

Section Pass.
Variable tail : list Z -> list Z.
Definition segment_height (s : segment) : Z := Z.of_nat (length (segment_lines tail s)).
Fixpoint segment_records (p : Z) (segs : list segment) : list ELARecord :=
  match segs with [] => [] | s :: segs => segment_record s p :: segment_records (p + segment_height s) segs end.

Context {D : Type}.
Abbreviation flasher := (xspi D).

(** ** Lines *)

Lemma is_record len address type data t : default 0 (head (mcs_record len address type data t)) = 58.
Proof. done. Qed.

Lemma mcs_line_data s p k d started st (x : flasher) :
  segment_ok s -> 0 <= k -> k + Z.of_nat (length d) <= segment_size s -> (0 < length d <= 16)%nat ->
  mcs_line (data_record tail (sg_low s + k) d) (partial_record s p k) started st x =
    Some (inr (partial_record s p (k + Z.of_nat (length d)), started, false, st), x).
Proof.
  intros [Hh Hl Hs Hf _ Hst] Hk Hd Hlen. unfold mcs_line, data_record. rewrite is_record.
  change (negb (58 =? 58)) with false. cbn iota.
  rewrite record_length, record_address, record_type by lia. cbn [deref kbind].
  change (0 =? 0) with true. cbn iota. rewrite (proj2 (Z.ltb_ge 16 _)) by lia.
  cbn [mStartAddress mDataCount partial_record].
  assert (forall low, 0 <= low < 65536 -> Z.land (sg_high s * 65536 + low) 0xFFFF = low) as Hland.
  { intros low Hlow. change 0xFFFF with (Z.ones 16). rewrite Z.land_ones by lia. change (2 ^ 16) with 65536.
    rewrite Z.add_comm, Z.mod_add by lia. by apply Z.mod_small. }
  rewrite Hland by (destruct (k =? 0); lia).
  assert (forall v, 0 <= v < 2 ^ 32 -> u32 v = v) as Hu by (intros v Hv; by apply u32_small).
  rewrite Hu by (destruct (k =? 0); lia).
  assert (partial_record s p (k + Z.of_nat (length d)) = ElaRecord (sg_base s) (sg_base s + (k + Z.of_nat (length d)))
    (k + Z.of_nat (length d)) (p + 1)) as ->.
  { unfold partial_record, sg_base. by rewrite (proj2 (Z.eqb_neq _ 0)) by lia. }
  unfold partial_record, sg_base. destruct (Z.eqb_spec k 0) as [->|Hk0].
  - rewrite Z.add_0_r, !Z.add_0_l. destruct (Z.eqb_spec (sg_low s) 0) as [->|Hl0].
    + cbn [negb]. unfold count_data. cbn [mStartAddress mEndAddress mDataCount mDataPos kret].
      rewrite !Hu by lia. do 7 f_equal; lia.
    + cbn [negb]. change (0 =? 0) with true. cbn iota. unfold first_data. cbn [mStartAddress mEndAddress mDataCount mDataPos].
      rewrite !Z.add_0_r, (proj2 (Z.eqb_neq _ 0)) by lia. cbn [orb deref kbind].
      unfold count_data. cbn [mStartAddress mEndAddress mDataCount mDataPos kret].
      rewrite !Hu by (rewrite ?Hu; lia). do 7 f_equal; lia.
  - rewrite (proj2 (Z.eqb_eq _ _)) by lia. cbn [negb]. unfold count_data. cbn [mStartAddress mEndAddress mDataCount mDataPos kret].
    rewrite !Hu by lia. do 7 f_equal; lia.
Qed.
Lemma hex2_hex4 v : hex2 (v / 256) ++ hex2 (v mod 256) = hex4 v.
Proof.
  unfold hex2, hex4. cbn [map app]. rewrite Z.div_div by lia. change (256 * 16) with 4096.
  replace (v mod 256 / 16) with (v / 16 mod 16) by (Z.div_mod_to_equations; lia).
  replace (v mod 256 mod 16) with (v mod 16) by (Z.div_mod_to_equations; lia). done.
Qed.

(** The records after an extended address: the old one is complete. *)
Definition push_if (started : bool) (r : ELARecord) (x : flasher) : flasher :=
  if started then set_records (recordList x ++ [r]) x else x.

Lemma mcs_line_high s p r started (x : flasher) :
  segment_ok s ->
  mcs_line (high_record tail s) r started (Stream (p + 1) false false) x =
    Some (inr (partial_record s p 0, true, false, Stream (p + 1) false false), push_if started r x).
Proof.
  intros [Hh _ _ _ _ _]. unfold mcs_line, high_record. rewrite is_record. change (negb (58 =? 58)) with false. cbn iota.
  rewrite record_length, record_address, record_type by lia. cbn [deref kbind].
  change (4 =? 0) with false. change (4 =? 1) with false. change (4 =? 2) with false. change (4 =? 4) with true.
  change (negb (0 =? 0)) with false. change (negb (2 =? 2)) with false. cbn iota.
  pose proof (record_data 0 4 [sg_high s / 256; sg_high s mod 256] (tail [])) as Hdata.
  change (Z.of_nat (length [sg_high s / 256; sg_high s mod 256])) with 2 in Hdata. rewrite Hdata. cbn [deref kbind flat_map].
  rewrite app_nil_r, hex2_hex4, stoi_hex4 by lia. cbn [deref tellg eof failed orb pos].
  assert (u32 (Z.shiftl (sg_high s) 16) = sg_high s * 65536 + 0) as ->.
  { rewrite Z.shiftl_mul_pow2 by lia. change (2 ^ 16) with 65536. rewrite Z.add_0_r. apply u32_small. unfold is_u32, in_range. lia. }
  unfold partial_record. change (0 =? 0) with true. cbn iota. rewrite !Z.add_0_r. by destruct started.
Qed.

Lemma mcs_line_end r st (x : flasher) :
  mcs_line (end_record tail) r true st x = Some (inr (r, true, true, st), set_records (recordList x ++ [r]) x).
Proof.
  unfold mcs_line, end_record. rewrite is_record. change (negb (58 =? 58)) with false. cbn iota.
  rewrite record_length, record_address, record_type by lia. reflexivity.
Qed.

Lemma mcs_line_end_early r st (x : flasher) :
  mcs_line (end_record tail) r false st x = Some (inr (r, false, false, st), x).
Proof.
  unfold mcs_line, end_record. rewrite is_record. change (negb (58 =? 58)) with false. cbn iota.
  rewrite record_length, record_address, record_type by lia. reflexivity.
Qed.

(** ** The loop *)

Lemma more_lines f p line l :
  drop p (file_lines f) = line :: l -> file_lines f !! p = Some line /\ drop (S p) (file_lines f) = l /\
  (l <> [] -> Z.of_nat p + 1 < Z.of_nat (length (file_lines f))).
Proof.
  intros H. split_and!.
  - by rewrite <- (Nat.add_0_r p), <- lookup_drop, H.
  - rewrite <- Nat.add_1_r, <- drop_drop, H. done.
  - intros Hl. apply (f_equal length) in H. rewrite length_drop, length_cons in H. destruct l; [done|]. simpl in H. lia.
Qed.

(** A line that is not the last one. *)
Lemma mcs_lines_step n f p line l r started (x : flasher) :
  drop p (file_lines f) = line :: l -> l <> [] -> line <> [] ->
  mcs_lines (S n) f r started (Stream (Z.of_nat p) false false) x =
    (v <- mcs_line line r started (Stream (Z.of_nat p + 1) false false) ;;
     match v with
     | inl err => kret (inl err)
     | inr (r, started, found, st) => if (found : bool) then kret (inr st) else mcs_lines n f r started st
     end) x.
Proof.
  intros H Hl Hline. destruct (more_lines f p line l H) as (H1 & H2 & H3).
  destruct (getline_run f (Z.of_nat p) line) as (e & Hget & He); [lia|by rewrite Nat2Z.id|].
  rewrite (He (H3 Hl)) in Hget. cbn [mcs_lines eof]. rewrite Hget. by destruct line.
Qed.

Lemma data_not_nil a d : data_record tail a d <> [].
Proof. done. Qed.

(** The data of a segment, from byte [k] on. *)
Lemma mcs_lines_data s p0 f rest : segment_ok s -> rest <> [] ->
  forall n m p k data (x : flasher),
  (length data <= m)%nat -> 0 <= k -> k + Z.of_nat (length data) = segment_size s ->
  let l := data_records tail (sg_low s + k) (chunks m data) in
  drop p (file_lines f) = l ++ rest ->
  mcs_lines (length l + n) f (partial_record s p0 k) true (Stream (Z.of_nat p) false false) x =
    mcs_lines n f (segment_record s p0) true (Stream (Z.of_nat (p + length l)) false false) x.
Proof.
  intros Hok Hrest n m. induction m as [|m IH]; intros p k data x Hlen Hk Hsize.
  - destruct data; [|simpl in Hlen; lia]. cbn [chunks data_records length]. intros _. rewrite Nat.add_0_r, Nat.add_0_l.
    unfold segment_record. simpl in Hsize. by rewrite <- Hsize, Z.add_0_r.
  - destruct (decide (data = [])) as [->|Hne].
    + rewrite chunks_nil. cbn [data_records length]. intros _. rewrite Nat.add_0_r, Nat.add_0_l.
      unfold segment_record. simpl in Hsize. by rewrite <- Hsize, Z.add_0_r.
    + destruct (chunk_cases m data Hne Hlen) as (-> & H1 & _ & H3). cbn [data_records]. cbv zeta.
      intros Hdrop. rewrite <- app_comm_cons in Hdrop. rewrite length_cons. cbn [Nat.add].
      destruct (more_lines f p _ _ Hdrop) as (_ & Hnext & _).
      rewrite (mcs_lines_step _ f p _ _ _ true x Hdrop) by (apply data_not_nil || by intros [_ ?]%app_eq_nil).
      assert (Z.of_nat (length data) = Z.of_nat (length (take 16 data)) + Z.of_nat (length (drop 16 data))) as Hsum
        by (rewrite length_take, length_drop; lia).
      rewrite (kbind_run _ _ _ _ _ (mcs_line_data s p0 k (take 16 data) true (Stream (Z.of_nat p + 1) false false) x Hok Hk
        ltac:(lia) H1)).
      cbn iota. rewrite <- !(Z.add_assoc (sg_low s) k) in *. replace (Z.of_nat p + 1) with (Z.of_nat (S p)) by lia.
      rewrite (IH (S p) (k + Z.of_nat (length (take 16 data))) (drop 16 data) x); [|lia..|exact Hnext].
      do 3 f_equal. lia.
Qed.

Lemma mcs_text_cons s segs : mcs_text tail (s :: segs) = segment_lines tail s ++ mcs_text tail segs.
Proof. unfold mcs_text. cbn [flat_map]. by rewrite app_assoc. Qed.
Lemma mcs_text_not_nil segs : mcs_text tail segs <> [].
Proof. by intros [_ ?]%app_eq_nil. Qed.

Lemma mcs_lines_end n f p r (x : flasher) :
  drop p (file_lines f) = mcs_text tail [] ->
  exists st, mcs_lines (S n) f r true (Stream (Z.of_nat p) false false) x =
    Some (inr st, set_records (recordList x ++ [r]) x) /\ failed st = false.
Proof.
  intros H. destruct (more_lines f p _ _ H) as (H1 & _ & _).
  destruct (getline_run f (Z.of_nat p) (end_record tail)) as (e & Hget & _); [lia|by rewrite Nat2Z.id|].
  eexists. cbn [mcs_lines eof]. rewrite Hget. split.
  - change (end_record tail) with (58 :: List.tl (end_record tail)) at 1. cbn iota.
    by rewrite (kbind_run _ _ _ _ _ (mcs_line_end r _ x)).
  - done.
Qed.

Lemma mcs_lines_segments n f segs : Forall segment_ok segs -> forall p r started (x : flasher),
  segs <> [] \/ started = true -> drop p (file_lines f) = mcs_text tail segs ->
  exists st, mcs_lines (length (mcs_text tail segs) + n) f r started (Stream (Z.of_nat p) false false) x =
    Some (inr st, set_records (recordList (push_if started r x) ++ segment_records (Z.of_nat p) segs) (push_if started r x)) /\
    failed st = false.
Proof.
  induction 1 as [|s segs Hs Hsegs IH]; intros p r started x Hne Hdrop.
  - destruct Hne as [Hne| ->]; [done|]. destruct (mcs_lines_end n f p r x Hdrop) as (st & H & Hst).
    exists st. split; [|done]. cbn [mcs_text flat_map app length Nat.add segment_records push_if]. rewrite H, app_nil_r.
    by destruct x.
  - rewrite mcs_text_cons in *. unfold segment_lines in *. set (l := data_records _ _ _) in *.
    rewrite <- app_comm_cons in *. rewrite length_cons, length_app. cbn [Nat.add].
    assert (l ++ mcs_text tail segs <> []) as Hn by (by intros [_ E%mcs_text_not_nil]%app_eq_nil).
    rewrite (mcs_lines_step _ f p _ _ r started x Hdrop Hn) by done.
    destruct (more_lines f p _ _ Hdrop) as (_ & Hnext & _).
    rewrite (kbind_run _ _ _ _ _ (mcs_line_high s (Z.of_nat p) r started x Hs)). cbn iota.
    rewrite <- Nat.add_assoc. unfold l in Hnext |- *. rewrite <- (Z.add_0_r (sg_low s)) in Hnext |- *.
    replace (Z.of_nat p + 1) with (Z.of_nat (S p)) by lia.
    rewrite (mcs_lines_data s (Z.of_nat p) f (mcs_text tail segs) Hs (mcs_text_not_nil _) _ _ (S p) 0 (sg_data s) _
      (le_n _) ltac:(lia) (Z.add_0_l _) Hnext).
    destruct (IH (S p + length (data_records tail (sg_low s + 0) (segment_chunks s)))%nat (segment_record s (Z.of_nat p))
      true (push_if started r x)) as (st & Hrun & Hst); [by right| |].
    { rewrite <- drop_drop, Hnext. by rewrite drop_app_length. }
    unfold segment_chunks in Hrun. rewrite Hrun. exists st. split; [|done]. do 2 f_equal.
    cbn [push_if segment_records]. unfold set_records. cbn. rewrite <- app_assoc. do 3 f_equal.
    unfold segment_height, segment_lines, segment_chunks. rewrite length_cons, Z.add_0_r. f_equal. lia.
Qed.

(** The whole pass. *)
Lemma first_pass f segs (x : flasher) :
  file_lines f = mcs_text tail segs -> segs <> [] -> Forall segment_ok segs ->
  exists st, mcs_lines (S (S (length (file_lines f)))) f (ElaRecord 0 0 0 0) false (Stream 0 false false) x =
    Some (inr st, set_records (recordList x ++ segment_records 0 segs) x) /\ failed st = false.
Proof.
  intros Hf Hne Hok. destruct (mcs_lines_segments 2 f segs Hok 0%nat (ElaRecord 0 0 0 0) false x) as (st & H & Hst); [by left|done|].
  exists st. rewrite Hf. replace (S (S _)) with (length (mcs_text tail segs) + 2)%nat by lia. done.
Qed.
End Pass.
