(* ===== verification/McsWrite.v ===== *)
(** * The second pass over an MCS file

    The lines of a record, as they go into pages and to the flash: after the
    pass the bytes of the segment are where its record says. *)

From S2P Require Import Prelude.
From S2P Require Import Mmio32.
From S2P Require Import Loops.
From S2P Require Import Hwicap.
From S2P Require Import Xspi.
From S2P Require Import XspiCore.
From S2P Require Import XspiFlash.
From S2P Require Import XspiMcs.
From S2P Require Import XspiMem.
From S2P Require Import McsFormat.
From S2P Require Import McsPass.
Local Open Scope list_scope.
Local Open Scope Z_scope.

Section Write.
Variable mMgmtMap : Z.
Variable polls : nat.
Variable conf : qspi_conf.
Hypothesis Hcore : core_ok mMgmtMap polls conf.
Hypothesis Hpolls : (264 < polls)%nat.
Variable i : bool.
Abbreviation xdev := (xspi qspi).
Variables (fconf : flash_conf) (sectors start : Z) (other : flash).
Hypothesis Hsectors : 0 < sectors <= 16.
Abbreviation prog := (prog conf i fconf sectors start other).

(** The flash holds [m], and the page under construction starts with [page]. *)
Definition filled (m : Z -> Z) (page : list Z) (l : list ELARecord) (x : xdev) : Prop :=
  prog m x /\ take (length page) (fst (rest_of x)) = page /\ recordList x = l.

Lemma hex2_take v l : take 2 (hex2 v ++ l) = hex2 v.
Proof. done. Qed.

Lemma store_data_ends m l d n page x :
  bytes_ok d -> filled m page l x -> (length page + length d <= 128)%nat -> (length (flat_map hex2 d) <= n)%nat ->
  ends (store_data n (flat_map hex2 d) (Z.of_nat (length page))) (Z.of_nat (length page + length d))
    (filled m (page ++ d) l) x.
Proof.
  intros Hd. revert n page x. induction Hd as [|v d Hv Hd IH]; intros n page x Hf Hlen Hn.
  - exists x. rewrite app_nil_r, Nat.add_0_r. by destruct n.
  - cbn [flat_map] in *. rewrite length_app in Hn. destruct n as [|n]; [simpl in Hn; lia|].
    rewrite length_cons in *. destruct Hf as (Hp & Hpage & Hl). change (0 <= v < 256) in Hv.
    change (hex2 v ++ flat_map hex2 d) with (hex_char (v / 16) :: hex_char (v mod 16) :: flat_map hex2 d).
    cbn [store_data]. change (take 2 (_ :: _ :: flat_map hex2 d)) with (hex2 v).
    eapply ends_deref; [by apply stoi_hex2|]. unfold u8. rewrite wrap_small by done.
    change (drop 2 (_ :: _ :: flat_map hex2 d)) with (flat_map hex2 d).
    eapply ends_bind; [apply (put_data_ends polls conf Hpolls i fconf sectors start other (length page) [v] m x Hp); simpl; lia|].
    intros x1 [Hp1 Hr1]. replace (Z.of_nat (length page) + 1) with (Z.of_nat (length (page ++ [v])))
      by (rewrite length_app; simpl; lia).
    assert (filled m (page ++ [v]) l x1) as Hf1.
    { split; [done|]. change (fst (rest_of x)) with (drop 4 (WriteBuffer x)) in Hpage. rewrite Hr1. cbn [fst]. rewrite Hpage. split.
      - rewrite app_assoc. by rewrite take_app_length.
      - apply (f_equal snd) in Hr1. by transitivity (recordList x). }
    rewrite (proj2 (Z.ltb_ge _ _)) by (rewrite length_app; unfold WRITE_DATA_SIZE; simpl; lia).
    replace (length page + S (length d))%nat with (length (page ++ [v]) + length d)%nat by (rewrite length_app; simpl; lia).
    replace (page ++ v :: d) with ((page ++ [v]) ++ d) by (by rewrite <- app_assoc).
    destruct (Z.eqb_spec (Z.of_nat (length (page ++ [v]))) WRITE_DATA_SIZE) as [E|E].
    + destruct d as [|v' d]; [|rewrite length_app in E; unfold WRITE_DATA_SIZE in E; simpl in *; lia].
      rewrite Nat.add_0_r, app_nil_r. by apply ends_ret.
    + apply IH; [done|rewrite length_app; simpl; lia|simpl in Hn; lia].
Qed.

(** ** Pages *)

Variable tail : list Z -> list Z.
(** The room of a record: whole subsectors, erased. *)
Variables (A room : Z) (m : Z -> Z).
Hypothesis HA : 0 <= A /\ A mod 4096 = 0.
Hypothesis Hroom : room mod 4096 = 0 /\ A + room <= sectors * 2 ^ 24.
Hypothesis Hblank : blank A (A + room) m.

Lemma filled_prog m' page l x : filled m' page l x -> prog m' x /\ page_data x = take 128 (fst (rest_of x)).
Proof. by intros [H _]. Qed.

(** A whole page behind the pages in [full]. *)
Lemma full_page_ends full page l q x :
  filled (store A full m) page l x -> bytes_ok page -> length page = 128%nat -> Z.of_nat (length full) = 128 * q ->
  128 * q < room ->
  ends (writePage mMgmtMap polls (A + 128 * q) 0xff) true (fun x' => prog (store A (full ++ page) m) x' /\ recordList x' = l) x.
Proof.
  intros (Hp & Hpage & Hl) Hb H128 Hfull Hq.
  assert (128 * q + 128 <= room) by (Z.div_mod_to_equations; lia).
  assert (page_data x = page) as Hd by (change (take 128 (fst (rest_of x)) = page); by rewrite <- H128).
  eapply ends_weaken.
  - apply (write_page_ends mMgmtMap polls conf Hcore Hpolls i fconf sectors start other Hsectors (A + 128 * q) _ x Hp).
    + lia.
    + Z.div_mod_to_equations. lia.
    + by rewrite Hd.
    + intros y Hy. rewrite store_out by lia. apply Hblank. lia.
  - intros x' [Hp' Hr]. split.
    + eapply prog_ext; [|exact Hp']. intros y. rewrite Hd, <- Hfull. apply store_app.
    + rewrite <- Hl. by apply (f_equal snd) in Hr.
Qed.

Lemma page_address_small r q :
  mStartAddress r = A -> 0 <= q -> 128 * q < room -> page_address r q = A + 128 * q.
Proof.
  intros <- Hq Hlt. unfold page_address, WRITE_DATA_SIZE.
  assert (mStartAddress r + 128 * q < 2 ^ 28) by nia.
  rewrite !u32_small; unfold is_u32, in_range; rewrite ?u32_small by (unfold is_u32, in_range; lia); lia.
Qed.

(** Room for the bytes so far and those that follow. *)
Definition fits (bytes : nat) : Prop := Z.of_nat bytes <= room.

(** After a full page: the next one is empty. *)
Lemma finish_page_run {B} full page l q x (k err : K xdev B) :
  filled (store A full m) page l x -> bytes_ok page -> length page = 128%nat -> Z.of_nat (length full) = 128 * q ->
  128 * q < room ->
  exists x', filled (store A (full ++ page) m) [] l x' /\
    (ok <- writePage mMgmtMap polls (A + 128 * q) 0xff ;;
     if negb ok then err else (clearBuffers ;; nanosleep 20000 ;; k)) x = k x'.
Proof.
  intros Hf Hb H128 Hfull Hq.
  destruct (full_page_ends full page l q x Hf Hb H128 Hfull Hq) as (x1 & Hrun1 & Hp1 & Hl1).
  destruct (clearBuffers_ends polls conf Hpolls i fconf sectors start other _ x1 Hp1) as (x2 & Hrun2 & Hp2 & Hr2).
  destruct (nanosleep_ends polls conf Hpolls i fconf sectors start other 20000 _ x2 Hp2) as (x3 & Hrun3 & Hp3 & Hr3).
  exists x3. split.
  - split; [done|]. split; [done|]. rewrite Hr2 in Hr3. apply (f_equal snd) in Hr3. by transitivity (recordList x1).
  - rewrite (kbind_run _ _ _ _ _ Hrun1). cbn [negb]. rewrite (kbind_run _ _ _ _ _ Hrun2). by rewrite (kbind_run _ _ _ _ _ Hrun3).
Qed.

Lemma kbind_deref {B C} v (k : B -> K xdev C) : kbind (deref (Some v)) k = k v.
Proof. done. Qed.

(** ** Lines *)

(** A line whose length and address can be read. *)
Definition readable (line : list Z) : Prop :=
  is_Some (substr 3 4 line ≫= stoi) /\ is_Some (substr 1 2 line ≫= stoi).

Lemma data_readable a d : 0 <= a < 65536 -> (length d < 256)%nat -> readable (data_record tail a d).
Proof.
  intros Ha Hd. unfold readable, data_record. rewrite record_address, record_length by lia. eauto.
Qed.

(** What the lines of a record leave behind. *)
Definition lines_done (bytes : list Z) (l : list ELARecord) (st : stream)
    (run : K xdev (Z + Z * Z * list Z * stream)) (x : xdev) : Prop :=
  exists full page q prev,
    ends run (inr (Z.of_nat (length page), q, prev, st)) (filled (store A full m) page l) x /\
    full ++ page = bytes /\ Z.of_nat (length full) = 128 * q /\ (length page < 128)%nat /\ (page <> [] -> readable prev).

Lemma lines_done_eq bytes l st run x run' x' :
  run x = run' x' -> lines_done bytes l st run' x' -> lines_done bytes l st run x.
Proof. intros H (full & page & q & prev & Hends & Hrest). exists full, page, q, prev. split; [|done]. unfold ends. by rewrite H. Qed.

(** One line: its bytes go to the buffer, and what follows is the rest of the
    loop, behind a page that is programmed when it is full. *)
Lemma record_line_run f r d more k page l q prev p a n m' x :
  drop p (file_lines f) = data_record tail a d :: more -> more <> [] ->
  (0 < length d <= 16)%nat -> bytes_ok d -> 0 <= a < 65536 -> Z.of_nat (length d + k) <= 65536 ->
  (length page < 128)%nat -> (length page + length d <= 128)%nat -> filled m' page l x ->
  let st := Stream (Z.of_nat (S p)) false false in
  let line := data_record tail a d in
  exists x1, filled m' (page ++ d) l x1 /\
    record_lines mMgmtMap polls (S n) f r (Z.of_nat (length d + k)) (Z.of_nat (length page)) q prev
      (Stream (Z.of_nat p) false false) x =
    (if Z.of_nat (length (page ++ d)) =? WRITE_DATA_SIZE then
       ok <- writePage mMgmtMap polls (page_address r q) 0xff ;;
       if negb ok then kret (inl (- ENXIO))
       else clearBuffers ;; nanosleep 20000 ;; record_lines mMgmtMap polls n f r (Z.of_nat k) 0 (q + 1) line st
     else record_lines mMgmtMap polls n f r (Z.of_nat k) (Z.of_nat (length (page ++ d))) q line st) x1.
Proof.
  intros Hdrop Hmore Hd Hb Ha Hk Hpage Hsum Hf st line. destruct (more_lines f p _ _ Hdrop) as (Hline & _ & Hend).
  destruct (getline_run f (Z.of_nat p) line) as (e & Hget & He); [lia|by rewrite Nat2Z.id|].
  rewrite He in Hget by (by apply Hend). clear He. replace (Z.of_nat p + 1) with (Z.of_nat (S p)) in Hget by lia. fold st in Hget.
  destruct (store_data_ends m' l d (length (flat_map hex2 d)) page x Hb Hf) as (x1 & Hrun1 & Hf1); [lia..|].
  exists x1. split; [done|]. cbn [record_lines]. rewrite (proj2 (Z.eqb_neq _ 0)) by lia. rewrite Hget. unfold line, data_record at 1 2 3.
  rewrite record_length, kbind_deref by lia. rewrite record_type, kbind_deref by lia.
  change (negb (0 =? 0)) with false. cbn iota. rewrite record_data, kbind_deref.
  assert (u32 (Z.of_nat (length d + k) - Z.of_nat (length d)) = Z.of_nat k) as ->
    by (rewrite u32_small; unfold is_u32, in_range; lia).
  rewrite (kbind_run _ _ _ _ _ Hrun1), length_app. cbn beta.
  destruct (Z.of_nat _ =? WRITE_DATA_SIZE); [|done]. unfold data_record at 1. by rewrite record_address, kbind_deref by lia.
Qed.

Lemma record_lines_run f r l rest n : mStartAddress r = A -> rest <> [] ->
  forall mm data full page q prev p a x,
  (length data <= mm)%nat -> bytes_ok data -> bytes_ok page -> 0 <= a -> a + Z.of_nat (length data) <= 65536 ->
  Z.of_nat (length full) = 128 * q -> (length page < 128)%nat -> (data <> [] -> (16 | Z.of_nat (length page))) ->
  (page <> [] -> readable prev) -> fits (length full + length page + length data) ->
  filled (store A full m) page l x ->
  let recs := data_records tail a (chunks mm data) in
  drop p (file_lines f) = recs ++ rest ->
  lines_done (full ++ page ++ data) l (Stream (Z.of_nat (p + length recs)) false false)
    (record_lines mMgmtMap polls (length recs + n) f r (Z.of_nat (length data)) (Z.of_nat (length page)) q prev
       (Stream (Z.of_nat p) false false)) x.
Proof.
  intros Hr Hrest mm. induction mm as [|mm IH]; intros data full page q prev p a x Hlen Hd Hpb Ha Haddr Hfull Hpage Hal Hprev Hfits Hf recs.
  all: destruct (decide (data = [])) as [->|Hne]; [|try (destruct data; [done|simpl in Hlen; lia])].
  1,2: unfold recs; rewrite chunks_nil; cbn [data_records length app Nat.add Z.of_nat]; intros _; rewrite Nat.add_0_r, app_nil_r;
    exists full, page, q, prev; split_and!; try done; exists x; by destruct n.
  revert recs. destruct (chunk_cases mm data Hne Hlen) as (Hc & H1 & H2 & H3). rewrite Hc. cbn [data_records]. cbv zeta.
  pose proof (take_drop 16 data) as Hdata. clear Hc. revert H1 H2 H3 Hdata.
  generalize (take 16 data) as d, (drop 16 data) as data'. intros d data' H1 H2 H3 <-. rewrite length_app in *. apply Forall_app in Hd as [Hd Hd']. specialize (Hal Hne).
  set (recs := data_records tail (a + Z.of_nat (length d)) (chunks mm data')). rewrite <- app_comm_cons.
  intros Hdrop. destruct (more_lines f p _ _ Hdrop) as (_ & Hnext & _).
  assert (length page + length d <= 128)%nat as Hsum by (destruct Hal as [z Hz]; lia).
  assert (readable (data_record tail a d)) as Hread by (apply data_readable; lia).
  destruct (record_line_run f r d (recs ++ rest) (length data') page l q prev p a (length recs + n) (store A full m) x Hdrop)
    as (x1 & Hf1 & Hstep); try done; try lia.
  { by intros [_ E]%app_eq_nil. }
  cbn [length Nat.add]. replace (p + S (length recs))%nat with (S p + length recs)%nat by lia.
  eapply lines_done_eq; [exact Hstep|].
  assert (bytes_ok (page ++ d)) as Hpd by (by apply Forall_app).
  destruct (Z.eqb_spec (Z.of_nat (length (page ++ d))) WRITE_DATA_SIZE) as [E|E]; unfold WRITE_DATA_SIZE in E.
  - unfold fits in *. rewrite length_app in *.
    assert (128 * q < room) as Hq by lia. assert (0 <= q) as Hq0 by lia.
    destruct (finish_page_run full (page ++ d) l q x1
      (record_lines mMgmtMap polls (length recs + n) f r (Z.of_nat (length data')) 0 (q + 1) (data_record tail a d)
        (Stream (Z.of_nat (S p)) false false)) (kret (inl (- ENXIO))) Hf1 Hpd) as (x2 & Hf2 & Hrun2); [rewrite ?length_app; lia..|].
    eapply lines_done_eq; [rewrite page_address_small by done; exact Hrun2|].
    replace (full ++ page ++ d ++ data') with ((full ++ page ++ d) ++ [] ++ data') by (by rewrite <- !app_assoc).
    apply (IH data' (full ++ page ++ d) [] (q + 1) _ (S p) (a + Z.of_nat (length d)) x2); try done; rewrite ?length_app; simpl; try lia.
    { constructor. } intros _. by exists 0.
  - replace (full ++ page ++ d ++ data') with (full ++ (page ++ d) ++ data') by (by rewrite <- !app_assoc).
    apply (IH data' full (page ++ d) q _ (S p) (a + Z.of_nat (length d)) x1); try done; unfold fits in *; rewrite ?length_app in *; try lia.
    intros Hne'. destruct H2 as [?|H2]; [done|]. rewrite H2. destruct Hal as [z Hz]. exists (z + 1). lia.
Qed.

(** ** A record *)

(** Programming ones changes nothing on blank memory. *)
Lemma store_pad l k : A + Z.of_nat (length l + k) <= A + room -> forall y, store A (l ++ repeat 0xff k) m y = store A l m y.
Proof.
  intros Hk y. rewrite <- store_app. unfold store at 1. rewrite repeat_length.
  destruct (Z.leb_spec (A + Z.of_nat (length l)) y), (Z.ltb_spec y (A + Z.of_nat (length l) + Z.of_nat k)); cbn [andb]; try done.
  rewrite store_out by lia. rewrite Hblank by lia.
  rewrite nth_repeat_lt by lia. done.
Qed.

(** The last page is filled up with ones. *)
Lemma last_page_ends full page l q x :
  filled (store A full m) page l x -> bytes_ok page -> (length page < 128)%nat -> Z.of_nat (length full) = 128 * q ->
  128 * q < room ->
  ends (put_write (READ_WRITE_EXTRA_BYTES + Z.of_nat (length page)) (repeat 0xff (Z.to_nat (WRITE_DATA_SIZE - Z.of_nat (length page)))) ;;
        ok <- writePage mMgmtMap polls (A + 128 * q) 0xff ;;
        if negb ok then kret (- ENXIO) else (nanosleep 20000 ;; clearBuffers ;; kret 0)) 0
    (fun x' => prog (store A (full ++ page) m) x' /\ recordList x' = l) x.
Proof.
  intros (Hp & Hpage & Hl) Hb Hlen Hfull Hq. set (k := Z.to_nat _). assert (k = 128 - length page)%nat as Hk by (unfold k, WRITE_DATA_SIZE; lia).
  eapply ends_bind.
  { apply (put_data_ends polls conf Hpolls i fconf sectors start other (length page) (repeat 0xff k) _ x Hp). rewrite repeat_length. lia. }
  intros x1 [Hp1 Hr1]. change (fst (rest_of x)) with (drop 4 (WriteBuffer x)) in Hpage. rewrite Hpage in Hr1.
  eapply ends_bind.
  { apply (full_page_ends full (page ++ repeat 0xff k) l q x1); [|apply Forall_app; split; [done|]|rewrite length_app, repeat_length; lia|done|done].
    - split; [done|]. rewrite Hr1. cbn [fst]. split; [by rewrite app_assoc, take_app_length|].
      apply (f_equal snd) in Hr1. by transitivity (recordList x).
    - apply (proj2 (List.Forall_forall _ _)). intros b Hb'%repeat_spec. subst b. split; done. }
  intros x2 [Hp2 Hl2]. cbn [negb].
  eapply ends_bind; [apply (nanosleep_ends polls conf Hpolls i fconf sectors start other 20000 _ x2 Hp2)|]. intros x3 [Hp3 Hr3].
  eapply ends_bind; [apply (clearBuffers_ends polls conf Hpolls i fconf sectors start other _ x3 Hp3)|]. intros x4 [Hp4 Hr4].
  apply ends_ret. split.
  - eapply prog_ext; [|exact Hp4]. intros y. rewrite app_assoc. apply store_pad. rewrite length_app. Z.div_mod_to_equations. lia.
  - apply (f_equal snd) in Hr3, Hr4. rewrite <- Hl2. by transitivity (recordList x3).
Qed.

Lemma data_records_length a l : length (data_records tail a l) = length l.
Proof. revert a. induction l as [|d l IH]; intros a; [done|]. cbn [data_records length]. by rewrite IH. Qed.

Lemma program_record_ends f r s l rest p p0 x :
  segment_ok s -> mStartAddress r = A -> mDataCount r = segment_size s -> mDataPos r = Z.of_nat (S p0) -> (p <= p0)%nat ->
  drop (S p0) (file_lines f) = data_records tail (sg_low s) (segment_chunks s) ++ rest -> rest <> [] ->
  segment_size s <= room -> filled m [] l x ->
  ends (program_record mMgmtMap polls f r (Stream (Z.of_nat p) false false))
    (0, Stream (Z.of_nat (S p0 + length (segment_chunks s))) false false)
    (fun x' => prog (store A (sg_data s) m) x' /\ recordList x' = l) x.
Proof.
  intros [Hh Hlow Hsz Hfit Hb Hst] Hr Hcount Hpos Hp Hdrop Hrest Hsize Hf. unfold segment_size in *.
  destruct (record_lines_run f r l rest (S (length (file_lines f)) - length (data_records tail (sg_low s) (segment_chunks s)))
    Hr Hrest (length (sg_data s)) (sg_data s) [] [] 0 [] (S p0) (sg_low s) x) as (full & page & q & prev & Hrun & Hbytes & Hfull & Hlen & Hprev);
    try done; try lia.
  { constructor. }
  { simpl. lia. }
  { intros _. by exists 0. }
  { destruct Hf as (H1 & H2). split; [|done]. eapply prog_ext; [|exact H1]. intros y. by rewrite store_nil. }
  unfold program_record. cbn [tellg eof failed orb pos seekg]. rewrite Hpos, (proj2 (Z.ltb_lt _ _)) by lia. cbn [negb].
  assert (length (data_records tail (sg_low s) (segment_chunks s)) <= length (file_lines f))%nat as Hlines.
  { apply (f_equal length) in Hdrop. rewrite length_drop, length_app in Hdrop. lia. }
  rewrite data_records_length in Hrun, Hlines.
  change (chunks (length (sg_data s)) (sg_data s)) with (segment_chunks s) in Hrun.
  replace (length (segment_chunks s) + (S (length (file_lines f)) - length (data_records tail (sg_low s) (segment_chunks s))))%nat
    with (S (length (file_lines f))) in Hrun by (rewrite data_records_length; lia).
  rewrite <- Hcount in Hrun. eapply ends_bind; [exact Hrun|]. intros x1 Hf1. cbn iota.
  rewrite app_nil_l in Hbytes. cbn [app] in Hbytes.
  destruct (Z.eqb_spec (Z.of_nat (length page)) 0) as [E|E].
  - apply ends_ret. destruct page; [|simpl in E; lia]. rewrite app_nil_r in Hbytes. subst full. by destruct Hf1 as (H1 & _ & H2).
  - destruct Hprev as [[v1 Hv1] [v2 Hv2]]; [by intros ->|].
    eapply ends_deref; [exact Hv1|]. eapply ends_deref; [exact Hv2|].
    assert (length (sg_data s) = length full + length page)%nat as Hsum by (by rewrite <- Hbytes, length_app).
    rewrite page_address_small by (done || lia).
    assert (bytes_ok page) as Hpb by (rewrite <- Hbytes in Hb; by apply Forall_app in Hb as [_ ?]).
    destruct (last_page_ends full page l q x1 Hf1 Hpb Hlen Hfull ltac:(lia)) as (x2 & Hrun2 & H2).
    exists x2. rewrite Hbytes in H2. split; [|exact H2]. 
    revert Hrun2. unfold kbind. destruct (put_write _ _ x1) as [[[] x3]|]; [|done].
    destruct (writePage _ _ _ _ x3) as [[ok x4]|]; [|done]. destruct ok; cbn [negb]; [|by intros [=]].
    destruct (nanosleep _ x4) as [[[] x5]|]; [|done]. destruct (clearBuffers x5) as [[[] x6]|]; [|done].
    unfold kret. by intros [= ->].
Qed.
End Write.
