(* ===== verification/XspiSpec.v ===== *)
(** * The flash programmer writes the file

    For the MCS text of some segments, upgradeFirmware leaves their bytes in
    the flash, shifted by the guard, and everything outside their subsectors
    alone. *)

From Stdlib Require Import Sorted.
From S2P Require Import Prelude.
From S2P Require Import Mmio32.
From S2P Require Import Loops.
From S2P Require Import Hwicap.
From S2P Require Import Xspi.
From S2P Require Import XspiCore.
From S2P Require Import XspiFlash.
From S2P Require Import XspiMcs.
From S2P Require Import XspiMem.
From S2P Require Import McsFormat.
From S2P Require Import McsPass.
From S2P Require Import McsWrite.
Local Open Scope list_scope.
Local Open Scope Z_scope.

(** ** Layout *)

(** The erased room of a segment. *)
Definition seg_room (s : segment) : Z := 4096 * Z.of_nat (subsectors (segment_size s)).
Definition before (s s' : segment) : Prop := sg_base s + seg_room s <= sg_base s'.
Definition in_room (shift : Z) (s : segment) (a : Z) : Prop := sg_base s + shift <= a < sg_base s + shift + seg_room s.

(** Segments that start at subsectors, in ascending order, within [limit]. *)
Record layout_ok (shift limit : Z) (segs : list segment) : Prop := {
  lo_ok : Forall segment_ok segs;
  lo_aligned : Forall (fun s => sg_base s mod 4096 = 0) segs;
  lo_limit : Forall (fun s => sg_base s + shift + seg_room s <= limit) segs;
  lo_sorted : StronglySorted before segs;
}.

Lemma layout_cons shift limit s segs :
  layout_ok shift limit (s :: segs) ->
  segment_ok s /\ sg_base s mod 4096 = 0 /\ sg_base s + shift + seg_room s <= limit /\
  Forall (before s) segs /\ layout_ok shift limit segs.
Proof. intros [H1 H2 H3 H4]. inversion_clear H1. inversion_clear H2. inversion_clear H3. inversion_clear H4. done. Qed.

Lemma room_bounds s : segment_ok s -> segment_size s <= seg_room s /\ seg_room s mod 4096 = 0 /\ 0 <= sg_base s < 2 ^ 28.
Proof.
  intros [Hh Hl Hs Hf _ _]. unfold seg_room, subsectors, sg_base. rewrite Z2Nat.id by (apply Z.div_pos; lia).
  split_and!; try lia; Z.div_mod_to_equations; lia.
Qed.

(** ** Memory *)

Definition erase_all (shift : Z) (segs : list segment) (m : Z -> Z) : Z -> Z :=
  fold_left (fun m s => erase_range (sg_base s + shift) (subsectors (segment_size s)) m) segs m.
Definition store_all (shift : Z) (segs : list segment) (m : Z -> Z) : Z -> Z :=
  fold_left (fun m s => store (sg_base s + shift) (sg_data s) m) segs m.

Lemma erase_range_room shift s m a :
  (in_room shift s a -> erase_range (sg_base s + shift) (subsectors (segment_size s)) m a = 0xff) /\
  (~ in_room shift s a -> erase_range (sg_base s + shift) (subsectors (segment_size s)) m a = m a).
Proof.
  unfold in_room, erase_range, seg_room.
  destruct (Z.leb_spec (sg_base s + shift) a), (Z.ltb_spec a (sg_base s + shift + 4096 * Z.of_nat (subsectors (segment_size s))));
    cbn [andb]; split; try done; lia.
Qed.

Lemma erase_all_out shift segs m a :
  Forall (fun s => ~ in_room shift s a) segs -> erase_all shift segs m a = m a.
Proof.
  intros H. revert m. induction H as [|s segs Hs Hsegs IH]; intros m; [done|].
  unfold erase_all in *. cbn [fold_left]. rewrite IH. by apply erase_range_room.
Qed.

Lemma erase_all_blank shift segs m a :
  m a = 0xff -> erase_all shift segs m a = 0xff.
Proof.
  revert m. induction segs as [|s segs IH]; intros m Hm; [done|].
  unfold erase_all in *. cbn [fold_left]. apply IH. unfold erase_range. by destruct (_ && _).
Qed.

Lemma erase_all_in shift segs m a :
  Exists (fun s => in_room shift s a) segs -> erase_all shift segs m a = 0xff.
Proof.
  intros H. revert m. induction H as [s segs Hs|s segs Hs IH]; intros m; unfold erase_all in *; cbn [fold_left]; [|apply IH].
  apply erase_all_blank. by apply erase_range_room.
Qed.

Lemma store_all_out shift segs m a :
  Forall segment_ok segs -> Forall (fun s => ~ in_room shift s a) segs -> store_all shift segs m a = m a.
Proof.
  intros Hok H. revert m. induction H as [|s segs Hs Hsegs IH]; intros m; [done|]. inversion_clear Hok as [|? ? Hs1 Hok1].
  unfold store_all in *. cbn [fold_left]. rewrite IH by done. apply store_out.
  destruct (room_bounds s Hs1) as (Hsize & _). unfold in_room, segment_size in *. lia.
Qed.

Lemma segment_in_room shift s k b : segment_ok s -> sg_data s !! k = Some b -> in_room shift s (sg_base s + shift + Z.of_nat k).
Proof.
  intros Hok Hk%lookup_lt_Some. destruct (room_bounds s Hok) as (Hsize & _). unfold in_room, segment_size in *. lia.
Qed.

Lemma before_disjoint shift s s' a : before s s' -> in_room shift s a -> ~ in_room shift s' a.
Proof. unfold before, in_room. lia. Qed.

Lemma store_all_in shift segs m s k b :
  Forall segment_ok segs -> StronglySorted before segs -> s ∈ segs -> sg_data s !! k = Some b ->
  store_all shift segs m (sg_base s + shift + Z.of_nat k) = b.
Proof.
  intros Hok Hsort Hin Hk. revert m. induction Hsort as [|s0 segs Hsort IH Hb]; intros m; [by apply not_elem_of_nil in Hin|].
  inversion_clear Hok as [|? ? Hs Hok']. unfold store_all in *. cbn [fold_left].
  apply list.elem_of_cons in Hin as [->|Hin]; [|by apply IH].
  fold (store_all shift segs (store (sg_base s0 + shift) (sg_data s0) m)). rewrite store_all_out; [by apply store_in|done|].
  eapply Forall_impl; [|exact Hb]. intros s' Hs'. eapply before_disjoint; [exact Hs'|]. by eapply segment_in_room.
Qed.

(** ** Programming *)

Section Program.
Variable mMgmtMap : Z.
Variable polls : nat.
Variable conf : qspi_conf.
Hypothesis Hcore : core_ok mMgmtMap polls conf.
Hypothesis Hpolls : (264 < polls)%nat.
Variable i : bool.
Abbreviation xdev := (xspi qspi).
Variables (fconf : flash_conf) (sectors start : Z) (other : flash).
Hypothesis Hsectors : 0 < sectors <= 16.
Abbreviation prog := (prog conf i fconf sectors start other).
Variable tail : list Z -> list Z.
Variable shift : Z.
Hypothesis Hshift : 0 <= shift <= 4096 /\ shift mod 4096 = 0.
Abbreviation layout_ok := (layout_ok shift (sectors * 2 ^ 24)).

Lemma prog_set_records m l x : prog m x -> prog m (set_records l x).
Proof. intros [(c & [G1 G2 G3 G4 G5 G6] & Hc) H1 H2 H3]. split; try done. by exists c. Qed.

Lemma shifted_record s p :
  segment_ok s ->
  shift_record shift (segment_record s p) =
    ElaRecord (sg_base s + shift) (sg_base s + shift + segment_size s) (segment_size s) (p + 1).
Proof.
  intros Hok. pose proof (so_size s Hok). destruct (room_bounds s Hok) as (Hr & _ & Hb). pose proof (so_fits s Hok). pose proof (so_low s Hok).
  unfold shift_record, segment_record, partial_record. rewrite (proj2 (Z.eqb_neq _ 0)) by lia. cbn [mStartAddress mEndAddress mDataCount mDataPos].
  fold (sg_base s). rewrite !u32_small by (unfold is_u32, in_range; lia). f_equal. lia.
Qed.

Lemma erase_records_ends segs : layout_ok segs -> forall done p m x,
  prog m x -> recordList x = done ++ segment_records tail p segs ->
  ends (erase_records mMgmtMap polls (length segs) (length done) shift) true
    (fun x' => prog (erase_all shift segs m) x' /\
       recordList x' = done ++ map (shift_record shift) (segment_records tail p segs)) x.
Proof.
  induction segs as [|s segs IH]; intros Hlay done p m x Hp Hl; [by apply ends_ret|].
  destruct (layout_cons _ _ _ _ Hlay) as (Hok & Hal & Hlim & _ & Hlay').
  cbn [length erase_records segment_records] in *. apply ends_get.
  eapply ends_deref. { rewrite Hl, lookup_app_r, Nat.sub_diag by lia. reflexivity. }
  apply ends_mod. rewrite shifted_record by done. cbn [mStartAddress mEndAddress].
  rewrite Hl, insert_app_r_alt, Nat.sub_diag by lia. cbn [list_insert].
  destruct (room_bounds s Hok) as (Hr & Hr0 & Hb). pose proof (so_size s Hok).
  eapply ends_bind.
  { eapply (erase_record_ends mMgmtMap polls conf Hcore Hpolls i fconf sectors start other Hsectors (sg_base s + shift) (segment_size s) m).
    - apply prog_set_records, Hp.
    - lia.
    - Z.div_mod_to_equations. lia.
    - lia.
    - exact Hlim. }
  intros x1 [Hp1 Hr1]. cbn iota. cbn [map].
  replace (S (length done)) with (length (done ++ [shift_record shift (segment_record s p)])) by (rewrite length_app; simpl; lia).
  eapply ends_weaken; [apply (IH Hlay' _ (p + segment_height tail s) _ x1 Hp1)|].
  - apply (f_equal snd) in Hr1. etransitivity; [exact Hr1|]. cbn [snd rest_of recordList set_records].
    rewrite shifted_record by done. by rewrite <- app_assoc.
  - intros x2 [Hp2 Hl2]. split; [done|]. by rewrite Hl2, <- app_assoc.
Qed.

Definition rooms_blank (segs : list segment) (m : Z -> Z) : Prop :=
  Forall (fun s => blank (sg_base s + shift) (sg_base s + shift + seg_room s) m) segs.

Lemma rooms_blank_store s segs m :
  segment_ok s -> Forall (before s) segs -> rooms_blank segs m -> rooms_blank segs (store (sg_base s + shift) (sg_data s) m).
Proof.
  intros Hok Hb Hm. unfold rooms_blank in *. apply list.Forall_forall. intros s' Hin a Ha.
  pose proof (proj1 (list.Forall_forall _ _) Hb s' Hin) as Hbefore. pose proof (proj1 (list.Forall_forall _ _) Hm s' Hin a Ha) as Hblank.
  rewrite store_out; [done|]. right. destruct (room_bounds s Hok) as (Hr & _). unfold before, segment_size in *. lia.
Qed.

Lemma program_records_ends f segs : layout_ok segs -> forall q p m x,
  prog m x -> rooms_blank segs m -> (q <= p)%nat -> drop p (file_lines f) = mcs_text tail segs ->
  ends (program_records mMgmtMap polls f (map (shift_record shift) (segment_records tail (Z.of_nat p) segs))
          (Stream (Z.of_nat q) false false)) 0
    (prog (store_all shift segs m)) x.
Proof.
  induction segs as [|s segs IH]; intros Hlay q p m x Hp Hblank Hq Hdrop; [by apply ends_ret|].
  destruct (layout_cons _ _ _ _ Hlay) as (Hok & Hal & Hlim & Hbefore & Hlay'). inversion_clear Hblank as [|? ? Hb Hbs].
  destruct (room_bounds s Hok) as (Hr & Hr0 & Hbase).
  rewrite mcs_text_cons in Hdrop. unfold segment_lines in Hdrop. rewrite <- app_comm_cons in Hdrop.
  destruct (more_lines f p _ _ Hdrop) as (_ & Hnext & _).
  cbn [segment_records map program_records].
  eapply ends_bind; [apply (ready_ends mMgmtMap polls conf Hcore Hpolls i fconf sectors start other m x Hp)|]. intros x1 [Hp1 Hr1].
  cbn [negb]. eapply ends_bind; [apply (clearBuffers_ends polls conf Hpolls i fconf sectors start other m x1 Hp1)|]. intros x2 [Hp2 Hr2].
  eapply ends_bind.
  { apply (program_record_ends mMgmtMap polls conf Hcore Hpolls i fconf sectors start other Hsectors tail (sg_base s + shift)
      (seg_room s) m ltac:(split; [lia|Z.div_mod_to_equations; lia]) (conj Hr0 Hlim) Hb f (shift_record shift (segment_record s (Z.of_nat p)))
      s (recordList x2) (mcs_text tail segs) q p x2 Hok).
    1-3: rewrite shifted_record by done; cbn [mStartAddress mDataCount mDataPos]; lia || done.
    all: try done. apply mcs_text_not_nil. }
  intros x3 [Hp3 _]. cbn [fst snd]. change (istrue 0) with false. cbn iota.
  eapply ends_bind; [apply (nanosleep_ends polls conf Hpolls i fconf sectors start other 20000 _ x3 Hp3)|]. intros x4 [Hp4 _].
  assert (Z.of_nat p + segment_height tail s = Z.of_nat (S p + length (segment_chunks s))) as ->.
  { unfold segment_height, segment_lines. rewrite length_cons, data_records_length. lia. }
  apply (IH Hlay' _ _ _ x4 Hp4); [by apply rooms_blank_store|lia|].
  rewrite <- drop_drop, Hnext. apply drop_app_length'. by rewrite data_records_length.
Qed.

(** *** The file *)

Hypothesis Hstart : 0 <= start /\ start mod 4096 = 0 /\ start + shift <= sectors * 2 ^ 24.
Hypothesis Hguard : shift = if start =? 0 then 0 else 4096.

Definition guarded (m : Z -> Z) : Z -> Z :=
  if start =? 0 then m else store (start + 128) guard_page (erase_range start 1 m).
Definition unguarded (m : Z -> Z) : Z -> Z := if start =? 0 then m else erase_4k start m.
(** The memory after the program. *)
Definition written (segs : list segment) (m : Z -> Z) : Z -> Z :=
  unguarded (store_all shift segs (erase_all shift segs (guarded m))).

Lemma rooms_erased segs m : rooms_blank segs (erase_all shift segs m).
Proof.
  apply list.Forall_forall. intros s Hs a Ha. apply erase_all_in. apply List.Exists_exists. exists s. split; [by apply list_elem_of_In|done].
Qed.

Lemma write_guard_if m x :
  prog m x ->
  ends (if negb (start =? 0) then writeBitstreamGuard mMgmtMap polls start else kret true) true
    (fun x' => prog (guarded m) x' /\ recordList x' = recordList x) x.
Proof.
  intros Hp. unfold guarded. destruct (Z.eqb_spec start 0) as [E|E]; cbn [negb]; [by apply ends_ret|].
  apply (write_guard_ends mMgmtMap polls conf Hcore Hpolls i fconf sectors start other Hsectors start m x Hp); lia.
Qed.

Lemma clear_guard_if m x :
  prog m x ->
  ends (if negb (start =? 0) then clearBitstreamGuard mMgmtMap polls start else kret true) true (prog (unguarded m)) x.
Proof.
  intros Hp. unfold unguarded. destruct (Z.eqb_spec start 0) as [E|E]; cbn [negb]; [by apply ends_ret|].
  eapply ends_weaken; [apply (erase_ends mMgmtMap polls conf Hcore Hpolls i fconf sectors start other Hsectors start m x Hp); lia|].
  by intros x' [H _].
Qed.

Lemma program_file_ends f segs m x :
  layout_ok segs -> file_lines f = mcs_text tail segs -> prog m x -> recordList x = segment_records tail 0 segs ->
  ends (program_file mMgmtMap polls f (Stream 0 false false)) 0 (prog (written segs m)) x.
Proof.
  intros Hlay Hf Hp Hl. unfold program_file. apply ends_get. rewrite (p_start _ _ _ _ _ _ _ _ Hp).
  eapply ends_bind; [apply (nanosleep_ends polls conf Hpolls i fconf sectors start other 20000 _ x Hp)|]. intros x1 [Hp1 Hr1].
  eapply ends_bind; [apply (write_guard_if m x1 Hp1)|]. intros x2 [Hp2 Hl2]. cbn [negb].
  assert (recordList x2 = [] ++ segment_records tail 0 segs) as Hrec.
  { rewrite Hl2, app_nil_l, <- Hl. exact (f_equal snd Hr1). }
  assert ((if negb (start =? 0) then BITSTREAM_GUARD_SIZE else 0) = shift) as -> by (rewrite Hguard; by destruct (start =? 0)).
  assert (length (recordList x) = length segs) as ->.
  { rewrite Hl. generalize 0 as p. clear. induction segs as [|s segs IH]; intros p; [done|]. cbn [segment_records length]. by rewrite IH. }
  eapply ends_bind; [exact (erase_records_ends segs Hlay [] 0 (guarded m) x2 Hp2 Hrec)|].
  intros x3 [Hp3 Hl3]. cbn [negb app] in Hl3 |- *.
  apply ends_gets. rewrite Hl3.
  eapply ends_bind; [apply (program_records_ends f segs Hlay 0 0 _ x3 Hp3 (rooms_erased segs _)); [lia|by rewrite Hf]|].
  intros x5 Hp5. change (istrue 0) with false. cbn iota.
  eapply ends_bind; [apply (clear_guard_if _ x5 Hp5)|]. intros x6 Hp6. by apply ends_ret.
Qed.
End Program.

(** ** The memory after the program *)

Definition guard_shift (start : Z) : Z := if start =? 0 then 0 else 4096.

(** [m'] holds the segments and is otherwise erased where they are, and holds
    [m] elsewhere, the place of the guard apart, which is erased. *)
Record holds_segments (start : Z) (segs : list segment) (m m' : Z -> Z) : Prop := {
  hs_data : forall s k b, s ∈ segs -> sg_data s !! k = Some b -> m' (sg_base s + guard_shift start + Z.of_nat k) = b;
  hs_padding : forall s a, s ∈ segs ->
    sg_base s + guard_shift start + segment_size s <= a < sg_base s + guard_shift start + seg_room s -> m' a = 0xff;
  hs_guard : start <> 0 -> blank start (start + 4096) m';
  hs_frame : forall a, Forall (fun s => ~ in_room (guard_shift start) s a) segs ->
    start = 0 \/ ~ (start <= a < start + 4096) -> m' a = m a;
}.

Lemma unguarded_out start m a : start mod 4096 = 0 -> start = 0 \/ ~ (start <= a < start + 4096) -> unguarded start m a = m a.
Proof.
  intros Hmod H. unfold unguarded. destruct (Z.eqb_spec start 0) as [|E]; [done|]. destruct H as [|H]; [done|].
  rewrite erase_4k_range by done. unfold erase_range. change (4096 * Z.of_nat 1) with 4096.
  destruct (Z.leb_spec start a), (Z.ltb_spec a (start + 4096)); cbn [andb]; try done; lia.
Qed.
Lemma guarded_out start m a : start = 0 \/ ~ (start <= a < start + 4096) -> guarded start m a = m a.
Proof.
  intros H. unfold guarded. destruct (Z.eqb_spec start 0) as [|E]; [done|]. destruct H as [|H]; [done|].
  rewrite store_out by (change (length guard_page) with 128%nat; lia). unfold erase_range. change (4096 * Z.of_nat 1) with 4096.
  destruct (Z.leb_spec start a), (Z.ltb_spec a (start + 4096)); cbn [andb]; try done; lia.
Qed.

Lemma layout_outside start limit segs s a :
  layout_ok (guard_shift start) limit segs -> Forall (fun s => start <= sg_base s) segs -> s ∈ segs -> 
  in_room (guard_shift start) s a -> start = 0 \/ ~ (start <= a < start + 4096).
Proof.
  intros _ Hle Hs Ha. pose proof (proj1 (list.Forall_forall _ _) Hle s Hs) as H. cbn beta in H. unfold in_room, guard_shift in Ha.
  destruct (Z.eqb_spec start 0); [by left|right; lia].
Qed.

Lemma store_all_padding shift segs m s a :
  Forall segment_ok segs -> StronglySorted before segs -> s ∈ segs ->
  sg_base s + shift + segment_size s <= a < sg_base s + shift + seg_room s ->
  store_all shift segs m a = m a.
Proof.
  intros Hok Hsort Hin Ha. revert m. induction Hsort as [|s0 segs Hsort IH Hb]; intros m; [done|].
  inversion_clear Hok as [|? ? Hs Hok']. unfold store_all in *. cbn [fold_left].
  apply list.elem_of_cons in Hin as [->|Hin].
  - fold (store_all shift segs (store (sg_base s0 + shift) (sg_data s0) m)). rewrite store_all_out; [|done|].
    + apply store_out. unfold segment_size in Ha. lia.
    + eapply Forall_impl; [|exact Hb]. intros s' Hs'. eapply before_disjoint; [exact Hs'|]. unfold in_room.
      pose proof (so_size s0 Hs). lia.
  - rewrite IH by done. apply store_out. right. pose proof (proj1 (list.Forall_forall _ _) Hb s Hin) as Hbefore.
    destruct (room_bounds s0 Hs) as (Hr & _). unfold before in Hbefore. unfold segment_size in *.
    pose proof (so_size s (proj1 (list.Forall_forall _ _) Hok' s Hin)) as Hsz. unfold segment_size in Hsz. lia.
Qed.

Lemma written_holds start limit segs m :
  layout_ok (guard_shift start) limit segs -> start mod 4096 = 0 -> Forall (fun s => start <= sg_base s) segs ->
  holds_segments start segs m (written start (guard_shift start) segs m).
Proof.
  intros Hlay Hmod Hle. pose proof Hlay as [Hok Hal Hlim Hsort]. unfold written. split.
  - intros s k b Hs Hk. pose proof (proj1 (list.Forall_forall _ _) Hok s Hs) as Hsok.
    rewrite unguarded_out; [by apply store_all_in|done|]. eapply layout_outside; [done..|]. by eapply segment_in_room.
  - intros s a Hs Ha. pose proof (proj1 (list.Forall_forall _ _) Hok s Hs) as Hsok. pose proof (so_size s Hsok) as Hsz.
    assert (in_room (guard_shift start) s a) as Hin by (unfold in_room; lia).
    rewrite unguarded_out; [|done|by eapply layout_outside]. rewrite (store_all_padding _ _ _ s) by done.
    apply erase_all_in, List.Exists_exists. exists s. split; [|done]. by apply list_elem_of_In.
  - intros Hne a Ha. unfold unguarded. rewrite (proj2 (Z.eqb_neq start 0)) by done. rewrite erase_4k_range by done.
    unfold erase_range. change (4096 * Z.of_nat 1) with 4096. by rewrite (proj2 (Z.leb_le _ _)), (proj2 (Z.ltb_lt _ _)) by lia.
  - intros a Ha Hout. rewrite unguarded_out by done. rewrite store_all_out by done. rewrite erase_all_out by done.
    by apply guarded_out.
Qed.

(** ** The whole program *)

(** The core rests, and the buffers have their sizes. *)
Record flasher_ready (conf : qspi_conf) (x : xspi qspi) : Prop := {
  fr_core : quiet_core conf (core x);
  fr_wbuf : length (WriteBuffer x) = WBUF; fr_rbuf : length (ReadBuffer x) = RBUF;
}.
Definition flash_at (i : bool) (x : xspi qspi) : flash := get_chip i (chips (core x)).
(** The sectors that the ID of a flash stands for. *)
Definition flash_sectors (c : flash) : option Z := num_sectors (nth 2 (f_id (f_conf c)) 0xff).
Definition first_base (segs : list segment) : Z := default 0 (sg_base <$> head segs).

(** A file for a flash: ascending, aligned and small enough. *)
Definition file_fits (c : flash) (segs : list segment) : Prop :=
  segs <> [] /\ exists sectors, flash_sectors c = Some sectors /\
    layout_ok (guard_shift (first_base segs)) (sectors * 2 ^ 24) segs.

Lemma sectors_bounds v n : num_sectors v = Some n -> 0 < n <= 16.
Proof. unfold num_sectors. repeat case_bool_decide; intros [= <-]; lia. Qed.

Lemma layout_ascends shift limit s segs : layout_ok shift limit (s :: segs) -> Forall (fun s' => sg_base s <= sg_base s') (s :: segs).
Proof.
  intros (Hok & _ & _ & Hb & _)%layout_cons. constructor; [lia|].
  eapply Forall_impl; [|exact Hb]. intros s' Hs'. destruct (room_bounds s Hok) as (Hr & _).
  pose proof (so_size s Hok). unfold before in Hs'. lia.
Qed.

Lemma clear_ready (conf : qspi_conf) x : flasher_ready conf x ->
  exists x', clearBuffers x = Some (tt, x') /\ flasher_ready conf x' /\ core x' = core x.
Proof.
  intros [Hq Hw Hr]. unfold WBUF, RBUF in *. unfold clearBuffers, clearReadBuffer, clearWriteBuffer, put_read, put_write.
  eexists. split.
  { cbn [kbind kget]. rewrite (overwrite_run 0 (repeat 0 (Z.to_nat (XSPI_PAGE_SIZE + READ_WRITE_EXTRA_BYTES + 4)))).
    2: lia. 2: { rewrite repeat_length, Hr. vm_compute; discriminate. }
    cbn [deref kmod]. rewrite (overwrite_run 0 (repeat 0 (Z.to_nat (XSPI_PAGE_SIZE + READ_WRITE_EXTRA_BYTES)))).
    2: lia. 2: { rewrite repeat_length. cbn [WriteBuffer set_rbuf]. rewrite Hw. vm_compute. discriminate. }
    reflexivity. }
  split; [|done]. split; [done|..]; cbn [WriteBuffer ReadBuffer set_wbuf set_rbuf].
  - rewrite !length_app, length_take, length_drop, repeat_length, Hw. reflexivity.
  - rewrite !length_app, length_take, length_drop, repeat_length, Hr. reflexivity.
Qed.

(** What one file does to the two flashes. *)
Record flashed (conf : qspi_conf) (i : bool) (segs : list segment) (x x' : xspi qspi) : Prop := {
  fl_ready : flasher_ready conf x'; fl_ok : flash_ok (flash_at i x');
  fl_conf : f_conf (flash_at i x') = f_conf (flash_at i x);
  fl_holds : holds_segments (first_base segs) segs (f_mem (flash_at i x)) (f_mem (flash_at i x'));
  fl_other : same_chip (flash_at (negb i) x) (flash_at (negb i) x');
}.

Lemma holds_ext start segs m m1 m2 : (forall a, m1 a = m2 a) -> holds_segments start segs m m1 -> holds_segments start segs m m2.
Proof.
  intros H [H1 H2 H3 H4]. split; intros; rewrite <- ?H; eauto. intros a Ha. rewrite <- H. by apply H3.
Qed.

Lemma xclUpgradeFirmwareXSpi_run mMgmtMap polls conf tail segs nl i x :
  core_ok mMgmtMap polls conf -> (264 < polls)%nat -> mMgmtMap <> 0 -> flasher_ready conf x ->
  flash_ok (flash_at i x) -> file_fits (flash_at i x) segs ->
  exists x', xclUpgradeFirmwareXSpi mMgmtMap polls (Some (McsFile (mcs_text tail segs) nl)) (if i then 1 else 0) x =
      Some (Returned 0, x') /\ flashed conf i segs x x'.
Proof.
  intros Hcore Hpolls Hmap Hready Hok (Hne & sectors & Hsec & Hlay).
  unfold xclUpgradeFirmwareXSpi. set (f := McsFile _ nl).
  destruct (clear_ready conf x Hready) as (x1 & Hrun1 & [Hq1 Hw1 Hr1] & Hc1). rewrite (kbind_run _ _ _ _ _ Hrun1).
  rewrite (kbind_run (kmod (set_records [])) _ x1 tt (set_records [] x1) eq_refl).
  rewrite (proj2 (Z.eqb_neq _ _)) by done.
  set (x2 := set_slave (if i then 1 else 0) (set_records [] x1)).
  rewrite (kbind_run (kmod (set_slave (if i then 1 else 0))) _ (set_records [] x1) tt x2 eq_refl).
  destruct (first_pass tail f segs x2 eq_refl Hne (lo_ok _ _ _ Hlay)) as (st & Hrun2 & Hst).
  rewrite (kbind_run _ _ _ _ _ Hrun2). cbn iota. set (x3 := set_records _ x2).
  rewrite (kbind_run kget _ x3 x3 x3 eq_refl).
  destruct segs as [|s segs]; [done|]. destruct (layout_cons _ _ _ _ Hlay) as (Hsok & Hal & Hlim & _ & _).
  destruct (room_bounds s Hsok) as (Hrm & Hrm0 & Hbase). pose proof (so_size s Hsok) as Hsz.
  change (first_base (s :: segs)) with (sg_base s) in *. set (start := sg_base s) in *.
  assert (mStartAddress (segment_record s 0) = start) as Hrec.
  { unfold segment_record, partial_record. rewrite (proj2 (Z.eqb_neq _ 0)) by lia. done. }
  change (head (recordList x3)) with (Some (segment_record s 0)). 
  rewrite (kbind_run (deref (Some (segment_record s 0))) _ x3 (segment_record s 0) x3 eq_refl).
  rewrite Hrec. set (x4 := set_start start x3). rewrite (kbind_run (kmod (set_start start)) _ x3 tt x4 eq_refl).
  assert (seekg 0 st = Stream 0 false false) as -> by (unfold seekg; by rewrite Hst).
  unfold programXSpi. pose proof (sectors_bounds _ _ Hsec) as Hsb.
  destruct (prepare_ends mMgmtMap polls conf Hcore Hpolls i (f_conf (flash_at i x)) sectors start (flash_at (negb i) x)
    (flash_at i x) (f_mem (flash_at i x)) x4) as (x5 & Hrun5 & Hp5 & Hr5); try done.
  { unfold flash_at. change (core x4) with (core x1). by rewrite Hc1. }
  { unfold flash_at. change (core x4) with (core x1). by rewrite Hc1. }
  rewrite (kbind_run _ _ _ _ _ Hrun5). cbn [negb].
  assert (guard_shift start = if start =? 0 then 0 else 4096) as Hgs by done.
  destruct (program_file_ends mMgmtMap polls conf Hcore Hpolls i (f_conf (flash_at i x)) sectors start (flash_at (negb i) x) Hsb tail
    (guard_shift start) ltac:(rewrite Hgs; destruct (start =? 0); split; done || lia) ltac:(rewrite Hgs in *; lia) Hgs f (s :: segs)
    (f_mem (flash_at i x)) x5 Hlay eq_refl Hp5) as (x6 & Hrun6 & Hp6).
  { exact (f_equal snd Hr5). }
  rewrite (kbind_run _ _ _ _ _ Hrun6). exists x6. split; [done|].
  destruct Hp6 as [(c & [G1 G2 G3 G4 G5 G6] & Hconf & Hmem & _) _ _ Hother]. split; try done.
  - split; [|done..]. by rewrite G1.
  - unfold flash_at at 1. by rewrite G2.
  - unfold flash_at at 1. by rewrite G2.
  - unfold flash_at at 2. rewrite G2. eapply holds_ext; [intros a; symmetry; apply Hmem|].
    eapply written_holds; [exact Hlay|done|by eapply layout_ascends].
Qed.


Lemma same_chip_fits c c' segs : same_chip c c' -> file_fits c segs -> file_fits c' segs.
Proof. intros [Hc _ _ _ _] H. unfold file_fits, flash_sectors in *. by rewrite Hc. Qed.
Lemma same_chip_ok c c' : same_chip c c' -> flash_ok c -> flash_ok c'.
Proof. intros [Hc _ _ _ Hb] [H1 H2 H3]. split; rewrite ?Hc; try done. lia. Qed.

(** Flashing two files, one per flash: when both fit, upgradeFirmware
    returns 0 and each flash holds the segments of its own file, and is
    otherwise as before. *)
Lemma upgrade_programs_both mMgmtMap polls conf tail1 tail2 segs1 segs2 nl1 nl2 x :
  core_ok mMgmtMap polls conf -> (264 < polls)%nat -> mMgmtMap <> 0 -> flasher_ready conf x ->
  flash_ok (flash_at false x) -> flash_ok (flash_at true x) ->
  file_fits (flash_at false x) segs1 -> file_fits (flash_at true x) segs2 ->
  exists x', upgradeFirmware mMgmtMap polls (Some (McsFile (mcs_text tail1 segs1) nl1))
      (Some (Some (McsFile (mcs_text tail2 segs2) nl2))) x = Some (Returned 0, x') /\
    holds_segments (first_base segs1) segs1 (f_mem (flash_at false x)) (f_mem (flash_at false x')) /\
    holds_segments (first_base segs2) segs2 (f_mem (flash_at true x)) (f_mem (flash_at true x')).
Proof.
  intros Hcore Hpolls Hmap Hready Hok1 Hok2 Hfits1 Hfits2.
  destruct (xclUpgradeFirmwareXSpi_run mMgmtMap polls conf tail1 segs1 nl1 false x) as (x1 & Hrun1 & [Hready1 _ _ Hholds1 Ho1]); try done.
  destruct (clear_ready conf x1 Hready1) as (x2 & Hrun2 & [Q2 W2 R2] & Hc2).
  set (x3 := set_records [] x2).
  assert (forall i, flash_at i x3 = flash_at i x1) as Hat by (intros i; unfold flash_at; change (core x3) with (core x2); by rewrite Hc2).
  destruct (xclUpgradeFirmwareXSpi_run mMgmtMap polls conf tail2 segs2 nl2 true x3) as (x4 & Hrun4 & [_ _ _ Hholds2 Ho2]); try done.
  - rewrite Hat. by eapply same_chip_ok.
  - rewrite Hat. by eapply same_chip_fits.
  - exists x4. split_and!.
    + unfold upgradeFirmware, xclUpgradeFirmware2. rewrite (kbind_run _ _ _ _ _ Hrun1), (kbind_run _ _ _ _ _ Hrun2).
      by rewrite (kbind_run (kmod (set_records [])) _ x2 tt x3 eq_refl).
    + pose proof (sc_mem _ _ Ho2) as Hm. cbn [negb] in Hm. rewrite Hm, Hat. exact Hholds1.
    + pose proof (sc_mem _ _ Ho1) as Hm. cbn [negb] in Hm. rewrite Hat, Hm in Hholds2. exact Hholds2.
Qed.

(** ** The process *)


(** A device that cannot be opened leaves the pointer that the constructor hands
    on without a value. *)
Lemma failed_map_oops env f (x : xspi qspi) fds d0 :
  Xbflash.open_ret env (Xbflash.resource_path f) <= 0 ->
  Xbflash.Flasher_new env f (Xbflash.Process x d0 None false fds false) = None.
Proof.
  intros H. unfold Xbflash.Flasher_new, Xbflash.mapDevice. cbn [kbind kmod Xbflash.set_mFd].
  by rewrite (proj2 (Z.ltb_ge _ _)) by done.
Qed.


(** ** Limits *)

(** Addresses are taken modulo 256 MB. *)
Lemma sector_aliases a : getSector (a + 2 ^ 28) = getSector a.
Proof.
  unfold getSector. change 0xF with (Z.ones 4). rewrite !Z.land_ones, !Z.shiftr_div_pow2 by lia.
  replace (a + 2 ^ 28) with (a + 16 * 2 ^ 24) by lia. rewrite Z.div_add by lia.
  rewrite Z.add_mod by lia. change (16 mod 2 ^ 4) with 0. rewrite Z.add_0_r. apply Z.mod_mod. lia.
Qed.

(** A file without an extended address leaves no record: the program reads the
    front of an empty list. *)
Lemma no_record_oops mMgmtMap polls conf tail nl i x :
  mMgmtMap <> 0 -> flasher_ready conf x ->
  xclUpgradeFirmwareXSpi mMgmtMap polls (Some (McsFile [end_record tail] nl)) i x = None.
Proof.
  intros Hmap Hready. unfold xclUpgradeFirmwareXSpi.
  destruct (clear_ready conf x Hready) as (x1 & Hrun1 & _ & _). rewrite (kbind_run _ _ _ _ _ Hrun1).
  rewrite (kbind_run (kmod (set_records [])) _ x1 tt (set_records [] x1) eq_refl), (proj2 (Z.eqb_neq _ _)) by done.
  rewrite (kbind_run (kmod (set_slave i)) _ _ tt (set_slave i (set_records [] x1)) eq_refl).
  set (x2 := set_slave i _).
  assert (exists st, mcs_lines 3 (McsFile [end_record tail] nl) (ElaRecord 0 0 0 0) false (Stream 0 false false) x2 = Some (inr st, x2)) as (st & H).
  { cbn [mcs_lines eof getline failed orb file_lines trailing_newline pos]. change (Z.to_nat 0) with 0%nat. cbn [lookup list_lookup].
    change (end_record tail) with (58 :: List.tl (end_record tail)) at 1. cbn iota. change (58 :: List.tl (end_record tail)) with (end_record tail).
    rewrite (kbind_run _ _ _ _ _ (mcs_line_end_early tail _ _ x2)). cbn iota. destruct nl; eexists; reflexivity. }
  change (S (S (length _))) with 3%nat. by rewrite (kbind_run _ _ _ _ _ H).
Qed.

(** An unaligned record: its last subsector is not erased. *)
Lemma unaligned_misses mMgmtMap polls (x x' : xspi qspi) :
  (sectorErase mMgmtMap polls 0x800 COMMAND_4KB_SUBSECTOR_ERASE ;; nanosleep 20000) x = Some (tt, x') ->
  (exists x1, sectorErase mMgmtMap polls 0x800 COMMAND_4KB_SUBSECTOR_ERASE x = Some (true, x1)) ->
  kwhile (erase_round mMgmtMap polls 0x1800) (erase_rounds 0x800 0x1800) 0x800 x = Some (true, x').
Proof.
  intros Hrun (x1 & Hrun1). rewrite (kbind_run _ _ _ _ _ Hrun1) in Hrun.
  destruct (kwhile_run (erase_round mMgmtMap polls 0x1800)
    (fun k j s => (k = 1%nat /\ j = 0x800 /\ s = x) \/ (k = 0%nat /\ j = 0x1800 /\ s = x'))
    (fun b s => b = true /\ s = x') (erase_rounds 0x800 0x1800) 1 0x800 x) as (b & s & H & -> & ->); [|by left| |done].
  - intros k j s [(-> & -> & ->)|(-> & -> & ->)]; [|by exists (inr true), x'].
    exists (inl 0x1800), x'. split; [|exists 0%nat; split; [lia|by right]].
    unfold erase_round. change (6144 <=? 2048) with false. cbn iota. rewrite (kbind_run _ _ _ _ _ Hrun1). cbn [negb].
    by rewrite (kbind_run _ _ _ _ _ Hrun).
  - change (erase_rounds 0x800 0x1800) with 3%positive. lia.
Qed.

(** ** An example *)

Module Example.
Definition core_conf : qspi_conf := QspiConf FLASH_BASE_ADDRESS 16 (fun _ => 1%nat).
Definition blank_flash : flash := Flash (FlashConf [0x20; 0xBA; 0x19] (fun _ => 3%nat)) (fun _ => 0) false 0 2.
Definition machine : xspi qspi :=
  Xspi (Qspi (QspiConf (0x1000 + FLASH_BASE_ADDRESS) 16 (fun _ => 1%nat)) 0 [] [] None None [] (blank_flash, blank_flash))
    (repeat 0 WBUF) (repeat 0 RBUF) 0 0 0 0 0 [].
Definition checksum (data : list Z) : list Z := [48; 48].
(** Two segments of the first flash, the second one with an offset. *)
Definition image1 : list segment := [Segment 0x100 0 (repeat 0xA5 300); Segment 0x101 0x2000 [1; 2; 3]].
Definition image2 : list segment := [Segment 0 0 [7; 8; 9]].
End Example.
Import Example.

Lemma machine_ready : flasher_ready (q_conf (core machine)) machine.
Proof. by split. Defined.
Lemma machine_core : core_ok 0x1000 300 (q_conf (core machine)).
Proof. split; simpl; lia. Defined.
Lemma machine_flash i : flash_ok (flash_at i machine).
Proof. split; destruct i; try (intros a; unfold MAX_TICKS; simpl; lia); try (unfold MAX_TICKS; simpl; lia); by apply (bool_decide_unpack _); vm_compute. Defined.
Lemma image1_fits : file_fits (flash_at false machine) image1.
Proof.
  split; [done|]. exists 2. split; [reflexivity|].
  split; repeat constructor; unfold segment_size, before, seg_room, subsectors; simpl; try lia; try (by left); try (by right);
    try (apply (bool_decide_unpack _); vm_compute; done); vm_compute; try done; intros [=].
Defined.
Lemma image2_fits i : file_fits (flash_at i machine) image2.
Proof.
  split; [done|]. exists 2. split; [by destruct i|].
  split; repeat constructor; unfold segment_size, before, seg_room, subsectors; simpl; try lia; try (by left); try (by right);
    try (apply (bool_decide_unpack _); vm_compute; done); vm_compute; try done; intros [=].
Defined.


Lemma upgrade_programs_both_witness :
  exists x', upgradeFirmware 0x1000 300 (Some (McsFile (mcs_text checksum image1) true))
      (Some (Some (McsFile (mcs_text checksum image2) false))) machine = Some (Returned 0, x') /\
    f_mem (flash_at false x') 0x01013002 = 3 /\ f_mem (flash_at true x') 2 = 9.
Proof.
  destruct (upgrade_programs_both 0x1000 300 (q_conf (core machine)) checksum checksum image1 image2 true false machine)
    as (x' & Hrun & [H1 _ _ _] & [H2 _ _ _]).
  - exact machine_core.
  - lia.
  - lia.
  - exact machine_ready.
  - exact (machine_flash false).
  - exact (machine_flash true).
  - exact image1_fits.
  - exact (image2_fits true).
  - exists x'. split; [exact Hrun|]. split.
    + apply (H1 (Segment 0x101 0x2000 [1; 2; 3]) 2%nat); [by right; left|done].
    + apply (H2 (Segment 0 0 [7; 8; 9]) 2%nat); [by left|done].
Defined.



(** The self test, on a flash of four sectors that holds 0x55 everywhere: it
    means to work on sectors 2 and 3 only, but the erase of sector 2 selects
    sector 0 again, which loses its first subsector; sector 2 is then programmed
    without an erase, and the test reports success. *)
Lemma self_test_erases_sector_0 :
  let c := Flash (FlashConf [0x20; 0xBA; 0x20] (fun _ => 3%nat)) (fun _ => 0x55) false 0 2 in
  let x := Xspi (Qspi (q_conf (core machine)) 0 [] [] None None [] (c, c)) (repeat 0 WBUF) (repeat 0 RBUF) 0 0 (u32 (-1)) 0 0 [] in
  match xclTestXSpi 0x1000 300 0 x with
  | Some (o, x') =>
      o = Returned 0 /\
      map (f_mem (flash_at false x')) [0; 4095; 0x02000000; 0x02000001; 0x03000000; 0x03000001] =
        [0xff; 0xff; Z.land 0x55 2; Z.land 0x55 3; 3; 4]
  | None => False
  end.
Proof. vm_compute. by split. Qed.

(** The same by running the model. *)
Lemma image1_runs :
  match upgradeFirmware 0x1000 300 (Some (McsFile (mcs_text checksum image1) true)) None machine with
  | Some (Returned rc, x') =>
      (rc, map (f_mem (flash_at false x')) [0x01001000; 0x0100112B; 0x0100112C; 0x01013000; 0x01013002; 0x01013003; 0x01000080])
  | _ => (-1, [])
  end = (0, [0xA5; 0xA5; 0xff; 1; 3; 0xff; 0xff]).
Proof. vm_compute. reflexivity. Qed.
