(* ===== verification/HwicapApp.v ===== *)
(** * The ICAP download utility (FME_xilinx_driver/app_pcie_hwicap/hwicap)

    The program maps BAR 0 of the card, shuts the AXI traffic of the AFU down and
    holds it in reset, sends a partial bitstream to the HWICAP block and releases
    the AFU.  What the system answers is in [host]; getopt's results are an
    argument of main.  A pointer that the constructor leaves indeterminate is
    [None], and its use an oops, as are a failing assert and a read past the end
    of the file's buffer.

    The card takes words into the FIFO of its HWICAP block; once started the
    configuration port empties the FIFO, some words at each later access.  A word
    arrives with a note of whether the AFU was shut off and in reset. *)

From S2P Require Import Prelude.
From S2P Require Import Mmio32.
From S2P Require Import Loops.
Local Open Scope list_scope.
Local Open Scope Z_scope.

(** ** Registers *)

(* fifo_icap.cpp *)
Definition XHI_WF_OFFSET : Z := 0x100.
Definition XHI_CR_OFFSET : Z := 0x10C.
(* reg_icap.cpp *)
Definition SHUTDOWNMGR_BASE_0 : Z := 0x00008000.
Definition SHUTDOWNMGR_BASE_1 : Z := 0x00009000.
Definition SHUTDOWNMGR_BASE_2 : Z := 0x0000a000.
Definition SHUTDOWNMGR_BASE_3 : Z := 0x0000b000.
Definition SDM_CSR_OFFSET : Z := 0x00.
Definition FMECSRCTRL_BASE : Z := 0x00002000.
Definition FCC_RSTN_OFFSET : Z := 0x10.
(* icap.h *)
Definition ICAP_BASE_ADDRESS : Z := 0x00001000.
Definition BAR_INDEX : string := "0".

(** ** State *)

(** The fields of the class ICAP; its two helpers hold copies of [mMgmtMap].
    [open_fds] are the descriptors the process has, [bad_close] whether it closed
    one that it had not. *)
Record icap_app (D : Type) := App {
  hw : D; mFd : Z; mMgmtMap : option Z; mapped : bool; open_fds : list Z; bad_close : bool;
}.
Arguments App {D}. Arguments hw {D}. Arguments mFd {D}. Arguments mMgmtMap {D}. Arguments mapped {D}.
Arguments open_fds {D}. Arguments bad_close {D}.
Definition set_hw {D} (d : D) (a : icap_app D) := App d (mFd a) (mMgmtMap a) (mapped a) (open_fds a) (bad_close a).
Definition set_mFd {D} fd (a : icap_app D) := App (hw a) fd (mMgmtMap a) (mapped a) (open_fds a) (bad_close a).
Definition set_map {D} p m (a : icap_app D) := App (hw a) (mFd a) p m (open_fds a) (bad_close a).
Definition set_fds {D} l b (a : icap_app D) := App (hw a) (mFd a) (mMgmtMap a) (mapped a) l b.

Record host := Host {
  uid : Z; euid : Z;
  open_ret : string -> Z;              (* a descriptor, or -1 *)
  fstat_ret : Z;
  mmap_ret : option Z;                 (* MAP_FAILED, or the address *)
  pr_file : string -> option (list Z); (* the bytes of a file that opens *)
}.

Section App.
Context {D : Type} {dev : Mmio32 D}.
Variable env : host.
Abbreviation prog := (icap_app D).

(** *** icap.cpp: copies by words *)

(** Each word of [s] to the next address. *)
Fixpoint copy_words (d : Z) (s : list Z) : K prog unit :=
  match s with
  | [] => kret tt
  | w :: s => zoom hw set_hw (writel w d) ;; copy_words (u64 (d + 4)) s
  end.
Definition wordcopy (dst : Z) (src : list Z) : K prog unit := if istrue (dst mod 4) then oops else copy_words dst src.
Definition pcieBarWrite (offset : Z) (buffer : list Z) : K prog Z := wordcopy offset buffer ;; kret 0.
Definition icapWrite (offset : Z) (buffer : list Z) : K prog Z := pcieBarWrite (u64 (offset + ICAP_BASE_ADDRESS)) buffer.
Definition regWrite (offset : Z) (buffer : list Z) : K prog Z := pcieBarWrite (u64 (offset + 0)) buffer.

(** The pointer of FIFO_Icap and REG_Icap. *)
Definition get_map : K prog Z := a <- kget ;; deref (mMgmtMap a).

(** *** fifo_icap.cpp *)

Definition fifo_writeReg (RegOffset value : Z) : K prog Z :=
  m <- get_map ;;
  status <- icapWrite (u64 (m + RegOffset)) [value] ;;
  if istrue status then oops else kret 0.

Definition s8 (x : Z) : Z := (x + 128) mod 256 - 128.
(** Four chars, as the shifts and masks put them together. *)
Definition tmpdata (inbuffer : list Z) (i : Z) : option Z :=
  match drop (Z.to_nat i) inbuffer with
  | a :: b :: c :: d :: _ =>
      Some (u32 (u32 (Z.land (Z.shiftl (s8 a) 24) 0xff000000) + u32 (Z.land (Z.shiftl (s8 b) 16) 0x00ff0000) +
                 u32 (Z.land (Z.shiftl (s8 c) 8) 0x0000ff00) + u32 (Z.land (s8 d) 0x000000ff)))
  | _ => None
  end.

Definition word_round (inbuffer : list Z) (i : Z) : K prog (Z + unit) :=
  if i <? Z.of_nat (length inbuffer) then
    w <- deref (tmpdata inbuffer i) ;;
    fifo_writeReg XHI_WF_OFFSET w ;;
    (if (i mod 64 =? 0) && (0 <? i) then fifo_writeReg XHI_CR_OFFSET 1 else kret 0) ;;
    kret (inl (u32 (i + 4)))
  else kret (inr tt).

Definition EACCES : Z := 13.
Definition xclProgramPRbit (prFile : string) : K prog Z :=
  m <- get_map ;;
  if m =? 0 then kret (- EACCES)
  else
    match pr_file env prFile with
    | None => kret (-1)
    | Some inbuffer =>
        kwhile (word_round inbuffer) (Z.to_pos (Z.of_nat (length inbuffer) / 4 + 2)) 0 ;;
        fifo_writeReg XHI_CR_OFFSET 1 ;; kret 0
    end.

(** *** reg_icap.cpp *)

Definition reg_writeReg (RegOffset value : Z) : K prog Z :=
  m <- get_map ;;
  status <- regWrite (u64 (m + RegOffset)) [value] ;;
  if istrue status then oops else kret 0.

Definition freezeShutDownMgr : K prog Z :=
  reg_writeReg (SHUTDOWNMGR_BASE_0 + SDM_CSR_OFFSET) 1 ;;
  reg_writeReg (SHUTDOWNMGR_BASE_1 + SDM_CSR_OFFSET) 1 ;;
  reg_writeReg (SHUTDOWNMGR_BASE_2 + SDM_CSR_OFFSET) 1 ;;
  reg_writeReg (SHUTDOWNMGR_BASE_3 + SDM_CSR_OFFSET) 1 ;;
  reg_writeReg (FMECSRCTRL_BASE + FCC_RSTN_OFFSET) 0.
Definition releaseShutDownMgr : K prog Z :=
  reg_writeReg (FMECSRCTRL_BASE + FCC_RSTN_OFFSET) 3 ;;
  reg_writeReg (SHUTDOWNMGR_BASE_0 + SDM_CSR_OFFSET) 0 ;;
  reg_writeReg (SHUTDOWNMGR_BASE_1 + SDM_CSR_OFFSET) 0 ;;
  reg_writeReg (SHUTDOWNMGR_BASE_2 + SDM_CSR_OFFSET) 0 ;;
  reg_writeReg (SHUTDOWNMGR_BASE_3 + SDM_CSR_OFFSET) 0.

(** *** icap.cpp: the device *)

Definition close (fd : Z) : K prog unit :=
  kmod (fun a => if bool_decide (fd ∈ open_fds a) then set_fds (List.remove Z.eq_dec fd (open_fds a)) (bad_close a) a
                 else set_fds (open_fds a) true a).

Definition mapDevice (f : string) : K prog bool :=
  let fd := open_ret env ("/sys/bus/pci/devices/" ++ f ++ "/resource" ++ BAR_INDEX)%string in
  kmod (set_mFd fd) ;;
  if 0 <? fd then
    kmod (fun a => set_fds (fd :: open_fds a) (bad_close a) a) ;;
    if negb (fstat_ret env =? -1) then
      match mmap_ret env with
      | None => close fd ;; kret false
      | Some p => kmod (set_map (Some p) true) ;; kret true
      end
    else kret false
  else kret false.

(** The constructor; [mMgmtMap] is not among what it sets. *)
Definition ICAP_new (f : string) : K prog unit := kmod (set_mFd 0) ;; mapDevice f ;; kret tt.
Definition ICAP_delete : K prog unit :=
  m <- get_map ;;
  (if istrue m then kmod (set_map (Some m) false) else kret tt) ;;
  a <- kget ;;
  if 0 <? mFd a then close (mFd a) else kret tt.

Definition ProgramPRbit (fin : string) : K prog Z :=
  freezeShutDownMgr ;;
  retVal <- xclProgramPRbit fin ;;
  releaseShutDownMgr ;;
  kret retVal.

(** *** hwicap.cpp *)

(** What a call of getopt with "d:f:" returns, with optarg. *)
Inductive option_of := Opt_d (optarg : string) | Opt_f (optarg : string) | Opt_other.
(** [devIdx] has no initial value. *)
Record T_Arguments := Arguments_ { infile : option string; devIdx : option string; isValid : bool }.

Definition take_option (args : T_Arguments) (o : option_of) : T_Arguments :=
  match o with
  | Opt_d s => Arguments_ (infile args) (Some s) (isValid args)
  | Opt_f s => Arguments_ (Some s) (devIdx args) (isValid args)
  | Opt_other => Arguments_ (infile args) (devIdx args) false
  end.
Definition parseArguments (argc : Z) (opts : list option_of) : T_Arguments :=
  let args := fold_left take_option opts (Arguments_ None None (negb (argc <=? 1))) in
  match infile args with
  | None => Arguments_ None (devIdx args) false
  | Some _ => args
  end.

Definition main (argc : Z) (opts : list option_of) : K prog Z :=
  if istrue (uid env) && istrue (euid env) then kret (- EACCES)
  else
    let args := parseArguments argc opts in
    if negb (isValid args) then kret (-1)
    else
      f <- deref (devIdx args) ;;
      fin <- deref (infile args) ;;
      ICAP_new f ;;
      ret <- ProgramPRbit fin ;;
      ICAP_delete ;;
      kret (if istrue ret then -1 else 0).
End App.

(** ** The card *)

(** Where BAR 0 is mapped, the words the FIFO holds, the words the port takes
    between two accesses. *)
Record card_conf := CardConf { c_map : Z; c_depth : nat; c_rate : nat }.
Record card := Card {
  cconf : card_conf; sdm0 : Z; sdm1 : Z; sdm2 : Z; sdm3 : Z; rstn : Z;
  cfifo : list Z; port : list (bool * Z); started : bool;
}.
Definition isolated (c : card) : bool :=
  (sdm0 c =? 1) && (sdm1 c =? 1) && (sdm2 c =? 1) && (sdm3 c =? 1) && (rstn c =? 0).

(** The port takes its words while time passes. *)
Definition tick (c : card) : card :=
  if started c then
    Card (cconf c) (sdm0 c) (sdm1 c) (sdm2 c) (sdm3 c) (rstn c) (drop (c_rate (cconf c)) (cfifo c))
      (port c ++ map (pair (isolated c)) (take (c_rate (cconf c)) (cfifo c)))
      (c_rate (cconf c) <? length (cfifo c))%nat
  else c.

(** The registers, by their offset in the BAR. *)
Definition store (off v : Z) (c : card) : card :=
  let set s0 s1 s2 s3 r := Card (cconf c) s0 s1 s2 s3 r (cfifo c) (port c) (started c) in
  let q l st := Card (cconf c) (sdm0 c) (sdm1 c) (sdm2 c) (sdm3 c) (rstn c) l (port c) st in
  if off =? 0x8000 then set v (sdm1 c) (sdm2 c) (sdm3 c) (rstn c)
  else if off =? 0x9000 then set (sdm0 c) v (sdm2 c) (sdm3 c) (rstn c)
  else if off =? 0xa000 then set (sdm0 c) (sdm1 c) v (sdm3 c) (rstn c)
  else if off =? 0xb000 then set (sdm0 c) (sdm1 c) (sdm2 c) v (rstn c)
  else if off =? 0x2010 then set (sdm0 c) (sdm1 c) (sdm2 c) (sdm3 c) v
  else if off =? 0x1100 then if (length (cfifo c) <? c_depth (cconf c))%nat then q (cfifo c ++ [v]) (started c) else c
  else if off =? 0x110c then if istrue (Z.land v 1) then q (cfifo c) true else c
  else c.

#[export] Instance card_mmio : Mmio32 card := {|
  dev_readl a c := (0, tick c);
  dev_writel a v c := store (a - c_map (cconf c)) v (tick c);
  dev_readb a c := (0, c);
  dev_writeb a v c := c;
|}.

(** ** Bytes and words *)

(** Words, most significant byte first. *)
Fixpoint words (l : list Z) : list Z :=
  match l with a :: b :: c :: d :: l => (a * 2 ^ 24 + b * 2 ^ 16 + c * 2 ^ 8 + d) :: words l | _ => [] end.
Definition file_bytes (l : list Z) : Prop := Forall (fun b => 0 <= b < 256) l.

Lemma byte_at k b : 0 <= k <= 24 -> 0 <= b < 256 -> Z.land (Z.shiftl (s8 b) k) (255 * 2 ^ k) = b * 2 ^ k.
Proof.
  intros Hk Hb. assert (s8 b mod 2 ^ 8 = b) as Hs.
  { unfold s8. change (2 ^ 8) with 256. rewrite Zminus_mod, Z.mod_mod, <- Zminus_mod by lia.
    replace (b + 128 - 128) with b by lia. by apply Z.mod_small. }
  change 255 with (Z.ones 8). rewrite <- Z.shiftl_mul_pow2, <- Z.shiftl_land, Z.land_ones, Hs by lia.
  by rewrite Z.shiftl_mul_pow2 by lia.
Qed.

Lemma word_range a b c d :
  0 <= a < 256 -> 0 <= b < 256 -> 0 <= c < 256 -> 0 <= d < 256 -> 0 <= a * 2 ^ 24 + b * 2 ^ 16 + c * 2 ^ 8 + d < 2 ^ 32.
Proof. change (2 ^ 24) with 16777216. change (2 ^ 16) with 65536. change (2 ^ 8) with 256. change (2 ^ 32) with 4294967296. lia. Qed.

Lemma tmpdata_word pre a b c d post :
  file_bytes [a; b; c; d] -> tmpdata (pre ++ a :: b :: c :: d :: post) (Z.of_nat (length pre)) =
    Some (a * 2 ^ 24 + b * 2 ^ 16 + c * 2 ^ 8 + d).
Proof.
  unfold file_bytes. rewrite !list.Forall_cons. intros (Ha & Hb & Hc & Hd & _). unfold tmpdata.
  rewrite Nat2Z.id, drop_app_length. pose proof (word_range a b c d Ha Hb Hc Hd) as Hw.
  change 0xff000000 with (255 * 2 ^ 24). change 0x00ff0000 with (255 * 2 ^ 16). change 0x0000ff00 with (255 * 2 ^ 8).
  rewrite !byte_at by lia.
  pose proof (byte_at 0 d ltac:(lia) Hd) as H0. rewrite Z.shiftl_0_r, Z.pow_0_r, !Z.mul_1_r in H0.
  change 0x000000ff with 255. rewrite H0.
  change (2 ^ 24) with 16777216 in *. change (2 ^ 16) with 65536 in *. change (2 ^ 8) with 256 in *.
  change (2 ^ 32) with 4294967296 in *. rewrite (u32_small (a * _)), (u32_small (b * _)), (u32_small (c * _)), (u32_small d) by (unfold in_range; lia).
  by rewrite u32_small by (unfold in_range; lia).
Qed.

Lemma words_app l k : (length l mod 4 = 0)%nat -> words (l ++ k) = words l ++ words k.
Proof.
  intros H. assert (exists n, length l = 4 * n)%nat as [n Hn].
  { exists (length l / 4)%nat. pose proof (Nat.div_mod (length l) 4). lia. }
  clear H. revert l Hn. induction n as [|n IH]; intros l Hn; [by destruct l|].
  destruct l as [|a [|b [|c [|d l]]]]; simpl in Hn; try lia. cbn [app words]. rewrite IH by lia. done.
Qed.

(** ** Register writes *)

Section Run.
Context (env : host).
Variable p : Z.
Hypothesis Hp : p mod 4 = 0 /\ 0 < p /\ p + 0x10000 <= 2 ^ 64.
Abbreviation prog := (icap_app card).

Definition mapped_at (a : prog) : Prop := mMgmtMap a = Some p /\ c_map (cconf (hw a)) = p.
Definition on_card (f : card -> card) (a : prog) : prog := set_hw (f (hw a)) a.

Lemma tick_conf c : cconf (tick c) = cconf c.
Proof. unfold tick. by destruct (started c). Qed.
Lemma store_conf off v c : cconf (store off v c) = cconf c.
Proof. unfold store. by repeat case_match. Qed.
Lemma mapped_store off v a : mapped_at a -> mapped_at (on_card (fun c => store off v (tick c)) a).
Proof. intros [H1 H2]. split; [done|]. cbn [hw on_card set_hw]. by rewrite store_conf, tick_conf. Qed.

Lemma fifo_writeReg_run off v (a : prog) :
  mapped_at a -> 0 <= off < 0x1000 -> off mod 4 = 0 ->
  fifo_writeReg off v a = Some (0, on_card (fun c => store (off + 0x1000) v (tick c)) a).
Proof.
  intros [Hm Hc] Hoff Ho4. unfold fifo_writeReg, get_map, kget, kbind, deref. rewrite Hm. unfold kret.
  unfold icapWrite, pcieBarWrite, wordcopy. rewrite (u64_small (p + off)) by (unfold in_range; lia). change ICAP_BASE_ADDRESS with 0x1000.
  rewrite u64_small by (unfold in_range; lia).
  assert ((p + off + 4096) mod 4 = 0) as ->.
  { rewrite Z.add_mod, (Z.add_mod p), (proj1 Hp), Ho4 by lia. done. }
  change (istrue 0) with false. cbn iota. unfold copy_words, zoom, writel, kmod, kbind, kret.
  cbn [hw dev_writel card_mmio]. change (istrue 0) with false. unfold on_card. rewrite Hc.
  by replace (p + off + 4096 - p) with (off + 4096) by lia.
Qed.

Lemma reg_writeReg_run off v (a : prog) :
  mapped_at a -> 0 <= off < 0x10000 -> off mod 4 = 0 ->
  reg_writeReg off v a = Some (0, on_card (fun c => store off v (tick c)) a).
Proof.
  intros [Hm Hc] Hoff Ho4. unfold reg_writeReg, get_map, kget, kbind, deref. rewrite Hm. unfold kret.
  unfold regWrite, pcieBarWrite, wordcopy. rewrite Z.add_0_r, (u64_small (p + off)) by (unfold in_range; lia).
  rewrite u64_small by (unfold in_range; lia).
  assert ((p + off) mod 4 = 0) as -> by (rewrite Z.add_mod, (proj1 Hp), Ho4 by lia; done).
  change (istrue 0) with false. cbn iota. unfold copy_words, zoom, writel, kmod, kbind, kret.
  cbn [hw dev_writel card_mmio]. change (istrue 0) with false. unfold on_card. rewrite Hc.
  by replace (p + off - p) with off by lia.
Qed.

(** ** The words on their way *)

Variables (conf : card_conf) (before : list (bool * Z)).
Hypothesis Hdepth : (17 <= c_depth conf)%nat.
Hypothesis Hrate : (17 <= c_rate conf)%nat.

(** The words in the FIFO after [k] words, when the port is not running. *)
Definition level (k : nat) : nat := if (k <=? 16)%nat then k else ((k - 1) mod 16)%nat.

Record sending (sent : list Z) (k : nat) (c : card) : Prop := {
  s_conf : cconf c = conf; s_isolated : isolated c = true;
  s_words : port c ++ map (pair true) (cfifo c) = before ++ map (pair true) sent;
  s_level : if started c then (length (cfifo c) <= 17)%nat /\ ((k - 1) mod 16 = 0)%nat else (length (cfifo c) <= level k)%nat;
}.

Lemma tick_isolated c : isolated (tick c) = isolated c.
Proof. unfold tick. by destruct (started c). Qed.

Lemma sending_tick sent k c :
  sending sent k c -> sending sent k (tick c) /\ started (tick c) = false.
Proof.
  intros [Hc Hi Hw Hl]. unfold tick. destruct (started c) eqn:Hs; [|by split; [split; rewrite ?Hs|]].
  rewrite (proj2 (Nat.ltb_ge _ _)) by (rewrite Hc; lia). split; [|done].
  split; cbn [cconf cfifo port started]; [done|done| |].
  - rewrite <- Hw, Hi, Hc, drop_ge, take_ge by lia. by rewrite app_nil_r.
  - rewrite Hc, drop_ge by lia. cbn. lia.
Qed.

Lemma level_step k : (k mod 16 <> 0)%nat \/ k = 0%nat -> (S (level k) <= level (S k))%nat.
Proof.
  intros Hk. unfold level. destruct (Nat.leb_spec k 16), (Nat.leb_spec (S k) 16); try lia.
  - assert (k = 16)%nat as -> by lia. cbn in Hk. lia.
  - replace (S k - 1)%nat with k by lia. pose proof (Nat.div_mod k 16). pose proof (Nat.div_mod (k - 1) 16).
    pose proof (Nat.mod_upper_bound k 16). pose proof (Nat.mod_upper_bound (k - 1) 16). lia.
Qed.
Lemma level_bound k : (level k <= 16)%nat.
Proof. unfold level. destruct (Nat.leb_spec k 16); [done|]. pose proof (Nat.mod_upper_bound (k - 1) 16). lia. Qed.

(** A word, without and with the start after it. *)
Lemma sending_word sent k w c :
  sending sent k c -> (k mod 16 <> 0)%nat \/ k = 0%nat ->
  sending (sent ++ [w]) (S k) (store 0x1100 w (tick c)).
Proof.
  intros Hs Hk. destruct (sending_tick _ _ _ Hs) as [[Hc Hi Hw Hl] Hst]. rewrite Hst in Hl.
  pose proof (level_bound k). pose proof (level_step k Hk). unfold store. cbn [Z.eqb Pos.eqb]. rewrite (proj2 (Nat.ltb_lt _ _)) by (rewrite Hc; lia).
  split; cbn [cconf cfifo port started]; [done|done| |].
  - by rewrite !map_app, !app_assoc, Hw.
  - rewrite Hst, length_app. cbn. lia.
Qed.

Lemma sending_start sent k w c :
  sending sent k c -> (k mod 16 = 0)%nat ->
  sending (sent ++ [w]) (S k) (store 0x110c 1 (tick (store 0x1100 w (tick c)))).
Proof.
  intros Hs Hk. destruct (sending_tick _ _ _ Hs) as [[Hc Hi Hw Hl] Hst]. rewrite Hst in Hl.
  pose proof (level_bound k).
  assert (store 0x1100 w (tick c) = Card conf (sdm0 (tick c)) (sdm1 (tick c)) (sdm2 (tick c)) (sdm3 (tick c)) (rstn (tick c))
    (cfifo (tick c) ++ [w]) (port (tick c)) false) as ->.
  { unfold store. cbn [Z.eqb Pos.eqb]. rewrite (proj2 (Nat.ltb_lt _ _)) by (rewrite Hc; lia). by rewrite Hc, Hst. }
  unfold tick at 1. cbn [started]. unfold store. cbn [Z.eqb Pos.eqb cconf cfifo port]. change (istrue (Z.land 1 1)) with true. cbn iota.
  split; cbn [cconf cfifo port started]; [done|done| |].
  - by rewrite !map_app, !app_assoc, Hw.
  - rewrite length_app. cbn [length]. replace (S k - 1)%nat with k by lia. lia.
Qed.

Lemma word_round_run pre a b c d post k (x : prog) :
  file_bytes [a; b; c; d] -> length pre = (4 * k)%nat -> Z.of_nat (length pre) + 4 < 2 ^ 32 -> mapped_at x ->
  sending (words pre) k (hw x) ->
  exists c', word_round (pre ++ a :: b :: c :: d :: post) (Z.of_nat (length pre)) x =
      Some (inl (Z.of_nat (length (pre ++ [a; b; c; d]))), set_hw c' x) /\
    sending (words (pre ++ [a; b; c; d])) (S k) c'.
Proof.
  intros Hb Hpre Hlen Hm Hs. unfold word_round.
  rewrite (proj2 (Z.ltb_lt _ _)) by (rewrite length_app; cbn [length]; lia). rewrite (tmpdata_word pre a b c d post Hb).
  rewrite words_app by (rewrite Hpre, Nat.mul_comm; apply Nat.Div0.mod_mul). cbn [words].
  set (w := _ + d). rewrite length_app, Nat2Z.inj_add. change (Z.of_nat (length [a; b; c; d])) with 4.
  rewrite (kbind_run (deref (Some w)) _ x w x eq_refl).
  rewrite (kbind_run _ _ _ _ _ (fifo_writeReg_run XHI_WF_OFFSET w x Hm ltac:(done) eq_refl)).
  pose proof (mapped_store (XHI_WF_OFFSET + 0x1000) w x Hm) as Hm1. rewrite u32_small by (unfold in_range; lia).
  assert ((Z.of_nat (length pre) mod 64 =? 0) && (0 <? Z.of_nat (length pre)) = ((k mod 16 =? 0) && (0 <? k))%nat) as ->.
  { rewrite Hpre, Nat2Z.inj_mul. change 64 with (4 * 16). change (Z.of_nat 4) with 4. rewrite Zmult_mod_distr_l.
    change 16 with (Z.of_nat 16). rewrite <- Nat2Z.inj_mod. f_equal; apply eq_bool_prop_intro; rewrite !Is_true_true.
    - rewrite Z.eqb_eq, Nat.eqb_eq. lia.
    - rewrite Z.ltb_lt, Nat.ltb_lt. lia. }
  destruct (Nat.eqb_spec (k mod 16) 0) as [E|E], (Nat.ltb_spec 0 k) as [Hk|Hk]; cbn [andb].
  2-4: rewrite (kbind_run (kret 0) _ _ 0 _ eq_refl); eexists; split; [reflexivity|]; apply sending_word; [done|]; lia.
  rewrite (kbind_run _ _ _ _ _ (fifo_writeReg_run XHI_CR_OFFSET 1 _ Hm1 ltac:(done) eq_refl)).
  eexists. split; [reflexivity|]. by apply sending_start.
Qed.

Lemma word_loop bytes (x : prog) :
  file_bytes bytes -> (length bytes mod 4 = 0)%nat -> Z.of_nat (length bytes) < 2 ^ 32 -> mapped_at x ->
  sending [] 0 (hw x) ->
  exists c' k, kwhile (word_round bytes) (Z.to_pos (Z.of_nat (length bytes) / 4 + 2)) 0 x = Some (tt, set_hw c' x) /\
    sending (words bytes) k c'.
Proof.
  intros Hb Hmod Hlen Hm Hs. assert (exists n, length bytes = 4 * n)%nat as [n Hn].
  { exists (length bytes / 4)%nat. pose proof (Nat.div_mod (length bytes) 4). lia. }
  destruct (kwhile_run (word_round bytes)
    (fun m i y => exists pre post k, bytes = pre ++ post /\ i = Z.of_nat (length pre) /\ length pre = (4 * k)%nat /\
       m = (n - k)%nat /\ exists c, y = set_hw c x /\ sending (words pre) k c)
    (fun _ y => exists c k, y = set_hw c x /\ sending (words bytes) k c)
    (Z.to_pos (Z.of_nat (length bytes) / 4 + 2)) n 0 x) as ([] & y & Hrun & c & k & -> & Hc).
  - intros m i y (pre & post & k & Hbytes & -> & Hpre & -> & c & -> & Hc).
    destruct post as [|b0 [|b1 [|b2 [|b3 post]]]];
      try (exfalso; rewrite Hbytes, length_app in Hn; cbn [length] in Hn; lia).
    + rewrite app_nil_r in Hbytes. subst pre. eexists (inr tt), _. split; [|by exists c, k].
      unfold word_round. by rewrite Z.ltb_irrefl.
    + rewrite Hbytes in Hb, Hlen, Hn. rewrite length_app in Hlen, Hn. cbn [length] in Hlen, Hn.
      apply Forall_app in Hb as [_ Hb]. change (b0 :: b1 :: b2 :: b3 :: post) with ([b0; b1; b2; b3] ++ post) in Hb.
      apply Forall_app in Hb as [Hb _]. assert (mapped_at (set_hw c x)) as Hm'.
      { split; [apply Hm|]. cbn [hw set_hw]. rewrite (s_conf _ _ _ Hc). rewrite <- (s_conf _ _ _ Hs). apply Hm. }
      destruct (word_round_run pre b0 b1 b2 b3 post k _ Hb Hpre ltac:(lia) Hm' Hc) as (c' & Hrun & Hc').
      rewrite Hbytes. eexists _, _. split; [exact Hrun|]. exists (n - S k)%nat. split; [lia|].
      exists (pre ++ [b0; b1; b2; b3]), post, (S k). rewrite length_app. cbn [length].
      split_and!; [by rewrite <- app_assoc|done|lia|done|]. by exists c'.
  - exists [], bytes, 0%nat. split_and!; try done; [lia|]. exists (hw x). by destruct x.
  - rewrite Hn, Nat2Z.inj_mul, Z.mul_comm, Z.div_mul by lia. lia.
  - by exists c, k.
Qed.

(** The last start; the port has all the words at the next access. *)
Lemma sending_flush sent k c :
  sending sent k c ->
  let d := store 0x110c 1 (tick c) in
  cconf d = conf /\ started (tick d) = false /\ cfifo (tick d) = [] /\ port (tick d) = before ++ map (pair true) sent.
Proof.
  intros Hs. destruct (sending_tick _ _ _ Hs) as [[Hc Hi Hw Hl] Hst]. rewrite Hst in Hl. pose proof (level_bound k).
  destruct (tick c) as [cf a0 a1 a2 a3 r q pt st]. cbn [cconf cfifo port started] in Hc, Hw, Hst, Hl. subst cf st.
  change (isolated _) with ((a0 =? 1) && (a1 =? 1) && (a2 =? 1) && (a3 =? 1) && (r =? 0)) in Hi.
  unfold store, tick, isolated. cbn [Z.eqb Pos.eqb cconf cfifo port started sdm0 sdm1 sdm2 sdm3 rstn].
  change (istrue (Z.land 1 1)) with true. cbn iota. cbn [cconf cfifo port started sdm0 sdm1 sdm2 sdm3 rstn].
  rewrite drop_ge, take_ge, Hi, Hw by lia. split_and!; try done. apply Nat.ltb_ge. lia.
Qed.

(** ** The whole run *)

Ltac reg_step Hm :=
  lazymatch goal with
  | |- kbind (reg_writeReg ?o ?v) ?k ?y = _ =>
      rewrite (kbind_run _ k y _ _ (reg_writeReg_run o v y Hm ltac:(by vm_compute) eq_refl)); apply (mapped_store o v) in Hm
  | |- reg_writeReg ?o ?v ?y = _ => rewrite (reg_writeReg_run o v y Hm ltac:(by vm_compute) eq_refl)
  end.

Lemma freeze_run (x : prog) :
  mapped_at x -> started (hw x) = false ->
  freezeShutDownMgr x =
    Some (0, set_hw (Card (cconf (hw x)) 1 1 1 1 0 (cfifo (hw x)) (port (hw x)) false) x).
Proof.
  intros Hm Hst. unfold freezeShutDownMgr. do 5 reg_step Hm. destruct x as [[] ? ? ? ? ?]. cbn in Hst. by subst.
Qed.

Lemma thaw_run (x : prog) :
  mapped_at x -> started (tick (hw x)) = false ->
  releaseShutDownMgr x =
    Some (0, set_hw (Card (cconf (hw x)) 0 0 0 0 3 (cfifo (tick (hw x))) (port (tick (hw x))) false) x).
Proof.
  intros Hm Hst. unfold releaseShutDownMgr. do 5 reg_step Hm. unfold on_card. cbn [hw set_hw].
  rewrite <- (tick_conf (hw x)). destruct (tick (hw x)) as []. cbn in Hst. by subst.
Qed.

Lemma program_run f bytes (x : prog) :
  pr_file env f = Some bytes -> file_bytes bytes -> (length bytes mod 4 = 0)%nat -> Z.of_nat (length bytes) < 2 ^ 32 ->
  mapped_at x -> cconf (hw x) = conf -> started (hw x) = false -> cfifo (hw x) = [] -> port (hw x) = before ->
  ProgramPRbit env f x =
    Some (0, set_hw (Card conf 0 0 0 0 3 [] (before ++ map (pair true) (words bytes)) false) x).
Proof.
  intros Hf Hb Hmod Hlen Hm Hc Hst Hq Hport. unfold ProgramPRbit.
  rewrite (kbind_run _ _ _ _ _ (freeze_run x Hm Hst)). set (x1 := set_hw _ x).
  assert (mapped_at x1) as Hm1 by exact Hm.
  destruct (word_loop bytes x1 Hb Hmod Hlen Hm1) as (c' & k & Hrun & Hs).
  { split; cbn; [done|done|by rewrite Hq, Hport|by rewrite Hq]. }
  assert (mapped_at (set_hw c' x1)) as Hm2 by (split; [apply Hm|]; cbn; rewrite (s_conf _ _ _ Hs), <- Hc; apply Hm).
  assert (xclProgramPRbit env f x1 = Some (0, on_card (fun c => store 0x110c 1 (tick c)) (set_hw c' x1))) as Hprog.
  { unfold xclProgramPRbit, get_map, kget, kbind at 1 2, deref. rewrite (proj1 Hm1). unfold kret at 1.
    rewrite (proj2 (Z.eqb_neq p 0)) by lia. rewrite Hf, (kbind_run _ _ _ _ _ Hrun).
    by rewrite (kbind_run _ _ _ _ _ (fifo_writeReg_run XHI_CR_OFFSET 1 _ Hm2 ltac:(done) eq_refl)). }
  rewrite (kbind_run _ _ _ _ _ Hprog). cbn beta.
  destruct (sending_flush _ _ _ Hs) as (Hc3 & Hst3 & Hq3 & Hp3). set (c3 := store 0x110c 1 (tick c')) in *.
  assert (mapped_at (set_hw c3 x1)) as Hm3 by (split; [apply Hm|]; cbn [hw set_hw]; rewrite Hc3, <- Hc; apply Hm).
  change (on_card _ (set_hw c' x1)) with (set_hw c3 x1).
  rewrite (kbind_run _ _ _ _ _ (thaw_run (set_hw c3 x1) Hm3 Hst3)). cbn [hw set_hw]. by rewrite Hc3, Hq3, Hp3.
Qed.

Lemma remove_other (fd : Z) l : fd ∉ l -> List.remove Z.eq_dec fd l = l.
Proof. intros H. apply notin_remove. by rewrite <- list_elem_of_In. Qed.

Lemma delete_run (c : card) fd q m l bad :
  q = Some p -> 0 < fd -> fd ∉ l ->
  ICAP_delete (App c fd q m (fd :: l) bad) = Some (tt, App c fd (Some p) false l bad).
Proof.
  intros -> Hfd Hl. unfold ICAP_delete, get_map, kget, kbind, deref, kret. cbn [mMgmtMap].
  unfold istrue. rewrite (proj2 (Z.eqb_neq p 0)) by lia. unfold kmod, set_map, close. cbn [negb mFd].
  rewrite (proj2 (Z.ltb_lt 0 fd)) by done. unfold kmod. cbn beta. rewrite bool_decide_eq_true_2.
  - unfold set_fds. cbn [hw mFd mMgmtMap mapped open_fds bad_close List.remove].
    destruct (Z.eq_dec fd fd); [|done]. by rewrite remove_other.
  - cbn [open_fds]. rewrite list.elem_of_cons. by left.
Qed.

(** C22: a run of the utility as root, with a device and a file of whole words,
    behind a HWICAP block whose FIFO holds 17 words and whose port takes 17 words
    between two accesses.  It returns 0; the port has received the words of the
    file, most significant byte first, in order and once each, and every one of
    them while the four shut-down managers were set and the AFU in reset.  At the
    end they are released, the map is gone and every descriptor is closed. *)
Theorem main_programs argc opts devname f bytes (x : prog) :
  uid env = 0 \/ euid env = 0 -> parseArguments argc opts = Arguments_ (Some f) (Some devname) true ->
  let fd := open_ret env ("/sys/bus/pci/devices/" ++ devname ++ "/resource0") in
  0 < fd -> fd ∉ open_fds x -> fstat_ret env <> -1 -> mmap_ret env = Some p ->
  pr_file env f = Some bytes -> file_bytes bytes -> (length bytes mod 4 = 0)%nat -> Z.of_nat (length bytes) < 2 ^ 32 ->
  c_map conf = p -> cconf (hw x) = conf -> started (hw x) = false -> cfifo (hw x) = [] -> port (hw x) = before ->
  main env argc opts x =
    Some (0, App (Card conf 0 0 0 0 3 [] (before ++ map (pair true) (words bytes)) false) fd (Some p) false
               (open_fds x) (bad_close x)).
Proof.
  intros Huid Hargs fd Hfd Hnew Hstat Hmmap Hf Hb Hmod Hlen Hmap Hc Hst Hq Hport. unfold main.
  assert (istrue (uid env) && istrue (euid env) = false) as ->.
  { apply andb_false_iff. destruct Huid as [->| ->]; auto. }
  rewrite Hargs. cbn [isValid negb devIdx infile].
  set (x1 := App (hw x) fd (Some p) true (fd :: open_fds x) (bad_close x)).
  assert (ICAP_new env devname x = Some (tt, x1)) as Hnewrun.
  { unfold ICAP_new, mapDevice. cbn [kbind kmod]. change (_ ++ "/resource" ++ BAR_INDEX)%string with (devname ++ "/resource0")%string.
    fold fd. rewrite (proj2 (Z.ltb_lt 0 fd)) by done. cbn [kbind kmod]. rewrite (proj2 (Z.eqb_neq _ _) Hstat), Hmmap. done. }
  rewrite (kbind_run (deref (Some devname)) _ x devname x eq_refl), (kbind_run (deref (Some f)) _ x f x eq_refl).
  rewrite (kbind_run _ _ _ _ _ Hnewrun).
  assert (mapped_at x1) as Hm1 by (split; [done|]; cbn; by rewrite Hc).
  rewrite (kbind_run _ _ _ _ _ (program_run f bytes x1 Hf Hb Hmod Hlen Hm1 Hc Hst Hq Hport)).
  match goal with |- context [set_hw ?c x1] => change (set_hw c x1) with (App c fd (Some p) true (fd :: open_fds x) (bad_close x)) end.
  by rewrite (kbind_run _ _ _ _ _ (delete_run _ fd (Some p) true (open_fds x) (bad_close x) eq_refl Hfd Hnew)).
Qed.
End Run.

(** ** Witness and counterexamples *)

Definition demo_bits : list Z := [0xaa; 0x99; 0x55; 0x66; 0x20; 0; 0; 0].
Definition demo_host (bits : list Z) : host :=
  Host 0 0 (fun _ => 3) 0 (Some 0x7f0000000000) (fun _ => Some bits).
Definition demo_card (depth rate : nat) : card :=
  Card (CardConf 0x7f0000000000 depth rate) 0 0 0 0 3 [] [] false.
Definition demo_prog (depth rate : nat) : icap_app card := App (demo_card depth rate) 0 None false [0; 1; 2] false.
Definition demo_opts : list option_of := [Opt_d "0000:03:00.0"; Opt_f "partial.bin"].

Lemma main_programs_witness :
  main (demo_host demo_bits) 5 demo_opts (demo_prog 1024 64) =
    Some (0, App (Card (CardConf 0x7f0000000000 1024 64) 0 0 0 0 3 [] [(true, 0xaa995566); (true, 0x20000000)] false) 3
               (Some 0x7f0000000000) false [0; 1; 2] false).
Proof.
  apply (main_programs (demo_host demo_bits) 0x7f0000000000 ltac:(by vm_compute) (CardConf 0x7f0000000000 1024 64) []
    ltac:(cbn; lia) ltac:(cbn; lia) 5 demo_opts "0000:03:00.0" "partial.bin" demo_bits (demo_prog 1024 64)); try done.
  - by left.
  - apply (bool_decide_unpack _). by vm_compute.
  - repeat constructor; lia.
Defined.

(** What reached the port, and whether the AFU was shut off. *)
Definition port_after (depth rate words : nat) : option (list (bool * Z)) :=
  option_map (fun r => port (hw (snd r)))
    (main (demo_host (repeat 0 (4 * (words - 1)) ++ [0; 0; 0; 1])) 5 demo_opts (demo_prog depth rate)).

(** The first start follows the 17th word, so a FIFO of 16 loses it. *)
Lemma small_fifo_loses_word : option_map (map snd) (port_after 16 64 17) = Some (repeat 0 16).
Proof. by vm_compute. Qed.

(** The AFU is released without waiting for the block: a port that takes one word
    at a time configures the rest with the AFU running. *)
Lemma slow_port_not_isolated :
  option_map (map fst) (port_after 64 1 10) = Some [true; false; false; false; false].
Proof. by vm_compute. Qed.

(** A file that is not made of words is read past its end; and when the device
    cannot be opened the writes go through a pointer that was never set. *)
Lemma odd_file_overreads : main (demo_host [0; 0; 0; 0; 0]) 5 demo_opts (demo_prog 1024 64) = None.
Proof. by vm_compute. Qed.
Lemma failed_open_oops :
  main (Host 0 0 (fun _ => -1) 0 None (fun _ => Some demo_bits)) 5 demo_opts (demo_prog 1024 64) = None.
Proof. by vm_compute. Qed.
