(* ===== verification/DpiPcie.v ===== *)
(** * The bridge to QEMU (qemu_hdl_cosim, dpi-pcie.c and acc.h)

    In a co-simulation the card's design runs in a simulator and the driver in
    QEMU; the simulator calls these functions at each clock edge and for each AXI
    transaction.  The sockets are queues that take every frame, each an
    [ACCData].  A struct on the stack that is only partly set starts as [stack];
    an access outside an array or a shift that C leaves undefined is an oops.

    A write of QEMU that goes to the design and comes back as a write of the
    design arrives at QEMU with the address, the size and the bytes it had; what
    the bridge does outside aligned writes of one beat is shown on examples. *)

From S2P Require Import Prelude.
From S2P Require Import Loops.
Local Open Scope list_scope.
Local Open Scope Z_scope.

(** ** acc.h *)

Definition BUFSZ : Z := 4096.
Definition BUSW : Z := 32.
Definition ICOUNT_STEP : Z := 8.

Inductive ACCOperations := NOOP | READ | WRITE | INTR.
#[export] Instance ACCOperations_eq_dec : EqDecision ACCOperations.
Proof. solve_decision. Defined.
(** NOOP of the first enum is 0. *)
Inductive QEMUOperations := Q_NOOP | M_RD | M_WR | S_RD.

(** [acc_data] has BUFSZ bytes. *)
Record ACCData := Acc {
  acc_id : Z; data_size : Z; address : Z; acc_op : ACCOperations; acc_data : list Z; vector : Z;
}.

(** ** The sockets *)

Record bridge := Bridge {
  qemu_req : list ACCData; hdl_resp : list ACCData;   (* in, oldest first *)
  qemu_resp : list ACCData; hdl_req : list ACCData;   (* out *)
  ls_sock : list Z; ls_sock2 : list Z;
}.
Definition set_qemu_req l b := Bridge l (hdl_resp b) (qemu_resp b) (hdl_req b) (ls_sock b) (ls_sock2 b).
Definition set_hdl_resp l b := Bridge (qemu_req b) l (qemu_resp b) (hdl_req b) (ls_sock b) (ls_sock2 b).
Definition send_qemu_resp (f : ACCData) : K bridge unit :=
  kmod (fun b => Bridge (qemu_req b) (hdl_resp b) (qemu_resp b ++ [f]) (hdl_req b) (ls_sock b) (ls_sock2 b)).
Definition send_hdl_req (f : ACCData) : K bridge unit :=
  kmod (fun b => Bridge (qemu_req b) (hdl_resp b) (qemu_resp b) (hdl_req b ++ [f]) (ls_sock b) (ls_sock2 b)).

(** The arguments of C_poll, which the simulator keeps from one call to the next. *)
Record request := Request {
  req_type : QEMUOperations; v_addr : Z; v_len : Z; v_size : Z; v_strb : list Z; v_data : list Z;
}.

(** ** Helpers *)

(** [memcpy(dst + at, src + from, n)]. *)
Definition memcpy (dst : list Z) (at_ : Z) (src : list Z) (from n : Z) : option (list Z) :=
  if (0 <=? n) && (at_ + n <=? Z.of_nat (length dst)) && (from + n <=? Z.of_nat (length src)) then
    Some (take (Z.to_nat at_) dst ++ take (Z.to_nat n) (drop (Z.to_nat from) src) ++ drop (Z.to_nat (at_ + n)) dst)
  else None.

(** [while (x >>= 1) log++], for 64-bit [x]. *)
Fixpoint log2c_loop (fuel : nat) (x log : Z) : Z :=
  match fuel with
  | O => log
  | S fuel => let x := Z.shiftr x 1 in if istrue x then log2c_loop fuel x (u8 (log + 1)) else log
  end.
Definition log2c (x : Z) : Z := log2c_loop 64 x (if istrue (Z.land x (u64 (x - 1))) then 1 else 0).

(** ** The functions *)

(** The length of the burst and the size of its beats. *)
Definition axi_len_of (size : Z) : Z :=
  if BUSW <? size then (if istrue (size mod BUSW) then size / BUSW else u32 (size / BUSW - 1)) else 0.

(** [other] is what zpoller_wait prefers when both sockets have input. *)
Definition C_poll (other : bool) (r : request) : K bridge request :=
  b <- kget ;;
  match qemu_req b, hdl_resp b with
  | [], [] => kret (Request Q_NOOP (v_addr r) (v_len r) (v_size r) (v_strb r) (v_data r))
  | q, h =>
      let from_qemu := match q, h with [], _ => false | _, [] => true | _, _ => negb other end in
      if from_qemu then
        f <- deref (head q) ;;
        kput (set_qemu_req (tail q) b) ;;
        let addr := address f in
        let size := data_size f in
        let align_offset := addr mod BUSW in
        if bool_decide (acc_op f = READ) then kret (Request M_RD addr (axi_len_of size) (log2c size) (v_strb r) (v_data r))
        else if 31 <=? size then oops      (* 1 << size *)
        else
          let strb := u32 (Z.shiftl (Z.shiftl 1 size - 1) align_offset) in
          data <- deref (memcpy (v_data r) align_offset (acc_data f) 0 (BUFSZ - align_offset)) ;;
          strbs <- deref (match v_strb r with [] => None | _ :: l => Some (strb :: l) end) ;;
          kret (Request M_WR addr (axi_len_of size) (log2c size) strbs data)
      else
        f <- deref (head h) ;;
        kput (set_hdl_resp (tail h) b) ;;
        data <- deref (memcpy (v_data r) (address f mod BUSW) (acc_data f) 0 (data_size f)) ;;
        kret (Request S_RD (v_addr r) (v_len r) (v_size r) (v_strb r) data)
  end.

Definition C_qemu_step : K bridge unit :=
  kmod (fun b => Bridge (qemu_req b) (hdl_resp b) (qemu_resp b) (hdl_req b)
                   (ls_sock b ++ [ICOUNT_STEP]) (ls_sock2 b ++ [ICOUNT_STEP])).

(** [width] is AxSIZE, three bits of an AXI transaction, at most 7. *)
Definition burst_size (width len : Z) : Z := u32 ((len + 1) * Z.shiftl 1 width).

Definition C_req_read (stack : ACCData) (addr width len id : Z) : K bridge unit :=
  send_hdl_req (Acc (u32 id) (burst_size width len) (u64 addr) READ (acc_data stack) (vector stack)).

Definition C_resp_read (stack : ACCData) (addr : Z) (data : list Z) : K bridge unit :=
  let align_offset := addr mod BUSW in
  d <- deref (memcpy (acc_data stack) 0 data align_offset (BUFSZ - align_offset)) ;;
  send_qemu_resp (Acc (acc_id stack) (data_size stack) (address stack) (acc_op stack) d (vector stack)).

Definition C_resp_write (stack : ACCData) : K bridge unit := send_qemu_resp stack.

(** The bytes of a beat whose strobe is set, from lane [j] on; lanes past the end
    of [data] are not there. *)
Fixpoint pack_beat (n : nat) (strb : Z) (data : list Z) : option (list Z) :=
  match n with
  | O => Some []
  | S n =>
      if istrue (Z.land strb 1) then
        match data with b :: data => option_map (cons b) (pack_beat n (Z.shiftr strb 1) data) | [] => None end
      else pack_beat n (Z.shiftr strb 1) (tail data)
  end.
(** The beats of a burst. *)
Fixpoint pack_beats (strb : list Z) (data : list Z) (n : nat) {struct n} : option (list Z) :=
  match n with
  | O => Some []
  | S n =>
      match strb with
      | [] => None
      | s :: strb =>
          match pack_beat 32 s data, pack_beats strb (drop 32 data) n with
          | Some l, Some k => Some (l ++ k)
          | _, _ => None
          end
      end
  end.

(** More bytes than the packet holds go past its end.  The strobes are shifted in
    place in an array that the simulator passes as an input. *)
Definition C_req_write (stack : ACCData) (addr width len : Z) (data strb : list Z) : K bridge unit :=
  packed <- deref (pack_beats strb data (Z.to_nat (len + 1))) ;;
  d <- deref (memcpy (acc_data stack) 0 packed 0 (Z.of_nat (length packed))) ;;
  send_hdl_req (Acc (acc_id stack) (burst_size width len) (u64 addr) WRITE d (vector stack)).

Definition C_req_interrupt (stack : ACCData) (vector_ : Z) : K bridge unit :=
  send_hdl_req (Acc (acc_id stack) (data_size stack) (address stack) INTR (acc_data stack) (u32 vector_)).

(** ** Copies and lanes *)

Lemma copy_run dst a src n :
  0 <= a -> 0 <= n -> a + n <= Z.of_nat (length dst) -> n <= Z.of_nat (length src) ->
  memcpy dst a src 0 n = Some (take (Z.to_nat a) dst ++ take (Z.to_nat n) src ++ drop (Z.to_nat (a + n)) dst).
Proof.
  intros Ha Hn Hd Hs. unfold memcpy.
  rewrite (proj2 (Z.leb_le 0 n)), (proj2 (Z.leb_le (a + n) _)), (proj2 (Z.leb_le (0 + n) _)) by lia. done.
Qed.

(** [s] strobes from lane [a] on. *)
Definition strobe (a s : nat) : Z := Z.shiftl (Z.shiftl 1 (Z.of_nat s) - 1) (Z.of_nat a).

Lemma strobe_ones a s : strobe a s = Z.shiftl (Z.ones (Z.of_nat s)) (Z.of_nat a).
Proof. unfold strobe. by rewrite Z.ones_equiv, Z.shiftl_1_l, Z.sub_1_r. Qed.

Lemma strobe_bit0 a s : Z.land (strobe a s) 1 = if (a =? 0)%nat && (0 <? s)%nat then 1 else 0.
Proof.
  rewrite strobe_ones. change 1 with (Z.ones 1) at 1. rewrite Z.land_ones by lia. change (2 ^ 1) with 2.
  rewrite <- Z.bit0_mod, Z.shiftl_spec by lia. destruct a as [|a]; cbn [Nat.eqb andb].
  - rewrite Z.sub_0_r. destruct s as [|s]; [done|]. by rewrite Z.ones_spec_low by lia.
  - by rewrite Z.testbit_neg_r by lia.
Qed.

Lemma strobe_next a s :
  Z.shiftr (strobe a s) 1 = match a with O => strobe 0 (pred s) | S a => strobe a s end.
Proof.
  rewrite strobe_ones. destruct a as [|a].
  - rewrite Z.shiftl_0_r, strobe_ones, Z.shiftl_0_r. destruct s as [|s]; [done|]. cbn [pred].
    replace (Z.of_nat (S s)) with (Z.of_nat s + 1) by lia. rewrite Z.shiftr_div_pow2, !Z.ones_equiv by lia.
    rewrite Z.pow_add_r by lia. change (2 ^ 1) with 2. pose proof (Z.pow_pos_nonneg 2 (Z.of_nat s)).
    symmetry. apply Z.div_unique with 1; lia.
  - rewrite strobe_ones, Z.shiftr_shiftl_l by lia. f_equal. lia.
Qed.

Lemma pack_strobe n a s data :
  (a + s <= n)%nat -> (n <= length data)%nat -> pack_beat n (strobe a s) data = Some (take s (drop a data)).
Proof.
  revert a s data. induction n as [|n IH]; intros a s data Has Hn; cbn [pack_beat].
  - assert (a = 0 /\ s = 0)%nat as [-> ->] by lia. done.
  - rewrite strobe_bit0, strobe_next. destruct data as [|b data]; [simpl in Hn; lia|]. simpl in Hn.
    destruct a as [|a]; cbn [Nat.eqb andb tail].
    + destruct s as [|s]; cbn [Nat.ltb Nat.leb pred].
      * change (istrue 0) with false. rewrite IH by lia. done.
      * change (istrue 1) with true. rewrite IH by lia. done.
    + change (istrue 0) with false. rewrite IH by lia. done.
Qed.

(** ** A write of QEMU *)

(** The packet and the arrays have their sizes. *)
Definition whole (f : ACCData) : Prop := length (acc_data f) = Z.to_nat BUFSZ.

Lemma poll_write other f q b r :
  qemu_req b = f :: q -> hdl_resp b = [] \/ other = false -> acc_op f = WRITE -> whole f ->
  length (v_data r) = Z.to_nat BUFSZ -> v_strb r <> [] -> 0 <= data_size f < 31 ->
  let a := Z.to_nat (address f mod BUSW) in
  (a + Z.to_nat (data_size f) <= 32)%nat ->
  C_poll other r b = Some (Request M_WR (address f) 0 (log2c (data_size f))
    (strobe a (Z.to_nat (data_size f)) :: tail (v_strb r))
    (take a (v_data r) ++ take (Z.to_nat BUFSZ - a) (acc_data f)), set_qemu_req q b).
Proof.
  intros Hq Hother Hop Hf Hr Hstrb Hsize a Ha. pose proof (Z.mod_pos_bound (address f) BUSW ltac:(done)) as Hal.
  unfold whole in Hf. unfold C_poll, kget, kbind at 1. rewrite Hq.
  replace (match hdl_resp b with [] => true | _ :: _ => negb other end) with true
    by (destruct Hother as [->| ->]; [done|by destruct (hdl_resp b)]).
  cbn [head hd_error deref kbind tail kput]. rewrite bool_decide_eq_false_2 by congruence.
  rewrite (proj2 (Z.leb_gt _ _)) by lia. change BUFSZ with 4096 in *. change BUSW with 32 in *.
  rewrite copy_run by lia. cbn [deref kbind]. destruct (v_strb r) as [|s0 l]; [done|]. cbn [deref kbind kret tail].
  unfold axi_len_of. change BUSW with 32. rewrite (proj2 (Z.ltb_ge _ _)) by lia. do 3 f_equal.
  - f_equal. rewrite u32_small.
    + unfold strobe, a. by rewrite !Z2Nat.id by lia.
    + unfold in_range. rewrite Z.shiftl_1_l, Z.shiftl_mul_pow2 by lia.
      pose proof (Z.pow_pos_nonneg 2 (data_size f) ltac:(lia) ltac:(lia)).
      pose proof (Z.pow_pos_nonneg 2 (address f mod 32) ltac:(lia) ltac:(lia)).
      assert (2 ^ data_size f * 2 ^ (address f mod 32) <= 2 ^ 32)
        by (rewrite <- Z.pow_add_r by lia; apply Z.pow_le_mono_r; lia).
      nia.
  - fold a. f_equal. replace (Z.to_nat (4096 - address f mod 32)) with (Z.to_nat 4096 - a)%nat by lia.
    rewrite (drop_ge (v_data r)) by lia. by rewrite app_nil_r.
Qed.

Lemma aligned_room x k :
  0 <= k <= 4 -> x mod 2 ^ k = 0 -> x mod 32 + 2 ^ k <= 32 /\ 0 < 2 ^ k <= 16 /\ burst_size (log2c (2 ^ k)) 0 = 2 ^ k.
Proof.
  intros Hk. assert (k = 0 \/ k = 1 \/ k = 2 \/ k = 3 \/ k = 4) as [->|[->|[->|[->| ->]]]] by lia.
  all: match goal with |- context [2 ^ ?k] => let v := eval vm_compute in (2 ^ k) in change (2 ^ k) with v end.
  all: intros Hm; split; [Z.to_euclidean_division_equations; lia|]; split; [lia|by vm_compute].
Qed.

(** C20: a write of QEMU of 1, 2, 4, 8 or 16 bytes at a multiple of its size goes
    to the design and, when the design writes the lanes it was given back, arrives
    at QEMU as one frame: a write with the same address and size, whose first
    bytes are the bytes written.  Nothing else is sent or received. *)
Theorem bridge_loopback other stack f q b r k :
  qemu_req b = f :: q -> hdl_resp b = [] \/ other = false -> acc_op f = WRITE -> whole f -> whole stack ->
  length (v_data r) = Z.to_nat BUFSZ -> v_strb r <> [] -> 0 <= address f < 2 ^ 64 ->
  0 <= k <= 4 -> data_size f = 2 ^ k -> address f mod 2 ^ k = 0 ->
  exists f',
    (r' <- C_poll other r ;; C_req_write stack (v_addr r') (v_size r') (v_len r') (v_data r') (v_strb r')) b =
      Some (tt, Bridge q (hdl_resp b) (qemu_resp b) (hdl_req b ++ [f']) (ls_sock b) (ls_sock2 b)) /\
    acc_op f' = WRITE /\ address f' = address f /\ data_size f' = data_size f /\
    take (Z.to_nat (data_size f)) (acc_data f') = take (Z.to_nat (data_size f)) (acc_data f).
Proof.
  intros Hq Hother Hop Hf Hstack Hr Hstrb Haddr Hk Hsize Hmod.
  set (a := Z.to_nat (address f mod BUSW)). set (s := Z.to_nat (data_size f)).
  assert (0 < data_size f <= 16 /\ (a + s <= 32)%nat /\ burst_size (log2c (data_size f)) 0 = data_size f) as (Hs & Has & Hburst).
  { pose proof (aligned_room (address f) k Hk Hmod) as (Hroom & Hpow & Hb). unfold a, s. rewrite Hsize. change BUSW with 32.
    split; [lia|]. split; [|done]. pose proof (Z.mod_pos_bound (address f) 32). lia. }
  rewrite (kbind_run _ _ _ _ _ (poll_write other f q b r Hq Hother Hop Hf Hr Hstrb ltac:(lia) Has)).
  cbn [v_addr v_size v_len v_data v_strb]. fold a s. unfold C_req_write. change (Z.to_nat (0 + 1)) with 1%nat.
  cbn [pack_beats]. set (data := take a (v_data r) ++ _).
  unfold whole in Hf, Hstack. change BUFSZ with 4096 in *.
  assert (length (take a (v_data r)) = a) as Hta by (rewrite length_take; lia).
  rewrite pack_strobe by (unfold data; rewrite ?length_app, ?length_take; lia).
  assert (take s (drop a data) = take s (acc_data f)) as ->.
  { unfold data. rewrite drop_app_length' by done. rewrite take_take. f_equal. lia. }
  cbn iota. rewrite app_nil_r. cbn [deref kbind]. assert (length (take s (acc_data f)) = s) as Hts by (rewrite length_take; lia).
  rewrite copy_run by lia. cbn [deref kbind]. eexists. split; [reflexivity|]. cbn [acc_op address data_size acc_data].
  split; [done|]. split; [by apply u64_small|]. split; [done|]. rewrite Hts, Nat2Z.id. cbn [Z.to_nat take app].
  rewrite take_0. cbn [app]. rewrite take_app_length' by (rewrite length_take; lia). by rewrite take_take, Nat.min_id.
Qed.

(** log2c rounds up. *)
Lemma log2c_values : map log2c [1; 2; 3; 4; 5; 8; 9; 16; 4096] = [0; 1; 2; 2; 3; 3; 4; 4; 12].
Proof. by vm_compute. Qed.

(** ** Witness and counterexamples *)

Definition filled_with (v : Z) (l : list Z) : list Z := l ++ repeat v (Z.to_nat BUFSZ - length l).
Definition demo_frame : ACCData := Acc 7 4 0xfe00001c WRITE (filled_with 0 [1; 2; 3; 4]) 0.
Definition demo_stack : ACCData := Acc 0 0 0 NOOP (filled_with 0xee []) 0.
Definition demo_bridge (f : ACCData) : bridge := Bridge [f] [] [] [] [] [].
Definition demo_request : request := Request Q_NOOP 0 0 0 (repeat 0 128) (filled_with 0 []).

Lemma bridge_loopback_witness :
  exists f',
    (r' <- C_poll false demo_request ;; C_req_write demo_stack (v_addr r') (v_size r') (v_len r') (v_data r') (v_strb r'))
      (demo_bridge demo_frame) = Some (tt, Bridge [] [] [] [f'] [] []) /\
    acc_op f' = WRITE /\ address f' = 0xfe00001c /\ data_size f' = 4 /\ take 4 (acc_data f') = [1; 2; 3; 4].
Proof. apply (bridge_loopback false demo_stack demo_frame [] (demo_bridge demo_frame) demo_request 2); try (by vm_compute); by left. Defined.

(** A write of QEMU of eight bytes, four of them in the next beat: the strobes of
    the last four are shifted out and the burst has one beat. *)
Lemma crossing_write_loses :
  match C_poll false demo_request (demo_bridge (Acc 0 8 28 WRITE (filled_with 0 [1; 2; 3; 4; 5; 6; 7; 8]) 0)) with
  | Some (r, _) => v_len r = 0 /\ head (v_strb r) = Some 0xf0000000
  | None => False
  end.
Proof. by vm_compute. Qed.

(** A beat with eight of its 32 strobes: the packet holds eight bytes, and says
    that it has 32; the others are whatever was on the stack. *)
Lemma partial_strobes_send_stack :
  match C_req_write demo_stack 0x1000 5 0 (repeat 1 32) [0xff] (demo_bridge demo_frame) with
  | Some (_, b) => option_map (fun f => (data_size f, take 10 (acc_data f))) (head (hdl_req b)) =
      Some (32, [1; 1; 1; 1; 1; 1; 1; 1; 0xee; 0xee])
  | None => False
  end.
Proof. by vm_compute. Qed.

(** A burst of 129 full beats is stored past the packet. *)
Lemma long_burst_overflows :
  C_req_write demo_stack 0 5 128 (repeat 1 (32 * 129)) (repeat 0xffffffff 129) (demo_bridge demo_frame) = None.
Proof. by vm_compute. Qed.
